(* ===== verification/_CoqProject ===== *)
-Q . S2P
Prelude.v
Agps.v
AgpsSpec.v
AgpsRefine.v
AgpsProps.v
Bytes.v
Crc32.v
BlockDev.v
UfsBsg.v
GptUtils.v
GptSwap.v
GptSpec.v
GptExec.v
GptUpdate.v
GptDisk.v
GptExample.v
GptProps.v
GptNames.v
BootControl.v
BootAttr.v
BootSwitch.v
BootProps.v
BootLegacy.v
LinkedList.v
ListIface.v
LinkedListSpec.v
LinkedListProps.v
MsgQ.v
MsgQProps.v
MsgTask.v
LocHeap.v
LocHeapProps.v
LocTimer.v
LocTimerSpec.v
LocTimerInv.v
LocTimerProps.v
SkipList.v
SkipListSpec.v
LogBuffer.v
LocIpc.v
GnssTracking.v
GnssTrackingProps.v
GnssTrackingTheorems.v
GnssNi.v
PbConsts.v
PbMasks.v
PbTypes.v
PbConvTo.v
PbConvFrom.v
PbMaskProps.v
PbSpec.v
PbProps.v
PbTheorems.v
SetMap.v
SystemStatus.v
SystemStatusProps.v
OsObserver.v
OsObserverTheorems.v
LocSyncReq.v
LocSyncReqProps.v
LocSyncReqTheorems.v
BiDict.v
LocationApiClient.v
LocationApiClientSpec.v
LocationApiClientProps.v
LocationApiClientTheorems.v
GeofenceAdapter.v
GeofenceAdapterSpec.v
GeofenceAdapterOwned.v
GeofenceAdapterAnswers.v
GeofenceAdapterTheorems.v
LocApiBatching.v
BatchingAdapter.v
BatchingWorld.v
BatchingTheorems.v
LocationAPI.v
LocAdapterBase.v
LocationAPISpec.v
LocationAPITheorems.v
