(* ===== verification/Prelude.v ===== *)
(** * Verification of the cypfr device tree (root file)

    The repository is the Android device tree of a phone.  Its own logic, beside
    configuration data, is C and C++: the code that updates the partition tables and
    chooses the slot to boot, and the GNSS stack between applications and the modem.
    This library models the parts below, translated from the source line by line, and
    proves what makes them correct; where the code is not correct, it states what goes
    wrong as a theorem.

    ** How the program is modelled

    - A function that reads and writes shared memory is a computation in the state and
      undefinedness monad [CM] of this file, with [None] for undefined behaviour (use after
      free, NULL dereference, access out of bounds, indeterminate values), or a plain
      function on a record of the object's members when no pointers matter.  Error returns
      are values.
    - Objects that are shared or freed live in a store, and a pointer is a location of it.
      A [std::map] is a [gmap], visited in the order of its keys where order shows.
    - Threads are steps: what runs under one lock, or as one message of a task, is one
      step, and the theorems hold for every interleaving.  What the environment decides
      (allocation, I/O results, answers of the modem, time) is an argument, a label of the
      step, or an oracle.
    - Integers are [Z], with the wrap-around of their width written out wherever the code
      can reach it.
    - What clients, the modem and the devices must do for a theorem to hold is a definition
      of its own, named in the theorem's comment ([io_blocks], [allowed], [timely], [proper],
      [orderly], [never_reused] and the like); for most there is a theorem of what happens
      otherwise, named [.._gap], [.._gaps] or [.._races].
    - Libraries outside of the repository (zlib's [crc32], the bootloader-message library,
      the framework's data items, QMI) are parameters or classes, with the behaviour that
      the code relies on as named hypotheses.

    ** Boot: partition tables and slots

    - [Bytes], [BlockDev]: byte buffers, block devices, and the C calls, each of which an
      oracle can let fail or tear.  A write that is over is on the device: [fsync] does no
      more, and what a power loss does to the caches of a device is not modelled.
    - [Crc32] ([src/gpt-utils/sparse_crc32.cpp]): the table-driven CRC is the bit-serial
      one ([sparse_crc32_ref]).
    - [UfsBsg] ([src/gpt-utils/recovery-ufs-bsg.cpp]): the query that selects the boot LUN.
    - [GptUtils] ([src/gpt-utils/gpt-utils.cpp]): entries by name, the swap of boot chains,
      the staged update, the [gpt_disk] handle.  [GptSwap], [GptSpec], [GptExec],
      [GptUpdate], [GptDisk], [GptNames] hold the rules for its functions, [GptExample] a
      concrete disk, [GptProps] the theorems: after every single write of an update, with
      any faults, the device can boot and the update can go on
      ([prepare_partitions_crash_safe]); without faults the update is the three-stage
      machine of its documentation ([prepare_partitions_refines]); a commit leaves two
      complete tables ([gpt_disk_commit_valid]).
    - [BootControl], [BootLegacy] ([src/bootctrl]): slots and their attributes, over the
      calls of [GptUtils].  [BootAttr], [BootSwitch] hold the rules,
      [BootProps] the theorems: an unbootable slot ([setSlotAsUnbootable_spec]), the switch of the active slot across
      two devices ([set_active_two_devices]), and why it is lost on one.

    The loops of this part run over arrays of known length: the search for an entry takes
    one unit of fuel per entry and is given their number, and the theorems show that its
    result is that of the whole array.

    ** Tasks, queues and timers of the GNSS stack

    - [LinkedList] ([src/gps/utils/linked_list.c]) over a store; [LinkedListSpec] gives each
      operation a rule, [LinkedListProps] the life of a list ([list_life]) and the instance
      of [ListIface], the interface that the queue is verified against.  The loops take the
      number of elements as fuel, and the theorems say that they end.
    - [MsgQ] ([msg_q.c]): the queue with its waiting threads.  [MsgQProps] has the
      abstract queue, the refinement and the absence of lost wake-ups
      ([msg_q_no_lost_wakeup]).
    - [MsgTask] ([MsgTask.cpp], [LocThread.cpp]): a thread over the queue: messages in
      order ([task_in_order]) and the end of a destroyed task ([task_stops]).
    - [LocHeap] ([LocHeap.cpp]), [LocHeapProps]: the heap is a priority queue
      ([heap_is_priority_queue]).
    - [LocTimer] ([LocTimer.cpp]): clients, the message task and the poll thread.
      [LocTimerSpec] has the invariant, [LocTimerInv] its preservation, [LocTimerProps] the
      safety of memory ([timers_safe]), expirations on time ([timers_on_time]) and two races
      ([timer_races]).
    - [SkipList], [LogBuffer] ([SkipList.h], [LogBuffer.cpp]): the last log lines of each
      level.  [SkipListSpec] is the list without iterators; the theorems are in [LogBuffer]
      ([skip_list_refines], [log_buffer_keeps]).
    - [LocIpc] ([LocIpc.cpp]): messages over datagram sockets:
      they are delivered ([messages_delivered]), and when they are not ([ipc_gaps]).

    ** GNSS adapters and the modem

    - [Agps] ([src/gps/gnss/Agps.cpp]): the state machine of a data call and its manager.
      [AgpsSpec] is the manager without pointers, [AgpsRefine] the simulation, [AgpsProps]
      the theorems ([agps_refines_spec], [agps_connection_protocol],
      [agps_pending_outcome], [agps_defined_iff]).
    - [GnssTracking] ([src/gps/gnss/GnssAdapter.cpp], the tracking sessions): what clients
      ask for is multiplexed into one session of the engine.  [GnssTrackingProps] and
      [GnssTrackingTheorems]: the engine serves every session, as long as clients wait for their
      responses ([tracking_covered]),
      and the cases in which it does not ([tracking_gaps]).
    - [GnssNi] ([src/gps/gnss/GnssAdapter.cpp], network-initiated requests): clients are asked
      for consent, threads wait for it, and the modem is told.  What it is told of a request is
      what a client said of it ([answers_are_theirs]), a request in a session ends
      ([requests_end]) and its payload is freed at most once ([payloads_once]); [ni_gaps] has the interleavings that go wrong.
    - [GeofenceAdapter] ([src/gps/geofence/GeofenceAdapter.cpp]): the geofences of clients
      and the modem's.  [GeofenceAdapterSpec] is the environment,
      [GeofenceAdapterOwned] and [GeofenceAdapterAnswers] the invariants,
      [GeofenceAdapterTheorems] the theorems ([commands_answered], [identifiers_stand],
      [modem_mirrored], [adapter_gaps]).
    - [LocApiBatching] ([src/location/loc_api/loc_api_v02/LocApiV02.cpp], batching): how the
      batch of the modem is asked for, read in pieces and reported ([batch_reported];
      [extra_overruns] for what goes wrong).  The modem is the class [Qmi].
    - [BatchingAdapter] ([src/gps/batching/BatchingAdapter.cpp]): sessions and trips, over
      [LocApiBatching]; the trips of all clients share the batch of the modem.
      [BatchingWorld] is the environment, a modem that counts distances and a device that
      moves.  [BatchingTheorems]: trips end when they should and no sooner as long as
      their messages do not overlap ([trips_counted]), and what goes wrong otherwise
      ([batching_gaps]).
    - [SetMap] ([LocUnorderedSetMap.h]), [SystemStatus] ([src/gps/core/SystemStatus.cpp]) and
      [OsObserver] ([SystemStatusOsObserver.cpp]): what the framework reports, kept as
      histories ([reports_are_recent_history], [network_table]), and told to the clients
      that subscribed ([subscriptions_followed], [clients_told]; [update_subscription_gap]
      for what goes wrong).  [SystemStatusProps] and [OsObserverTheorems] have the
      proofs.
    - [LocSyncReq] ([src/location/loc_api/loc_api_v02/loc_api_sync_req.cpp]): synchronous
      requests over asynchronous indications, as a machine of critical sections;
      [LocSyncReqProps] and [LocSyncReqTheorems] have its invariants and theorems
      ([sync_answers], [requests_return], [sync_buffers_safe], [indication_delivered]).

    ** The location API and the daemon's protocol

    - [LocationAPI] ([src/gps/location/LocationAPI.cpp]): the registry of applications'
      objects and the adapters they are registered with.  [LocAdapterBase]
      ([src/gps/core/LocAdapterBase.cpp]) is the class of what the registry relies on, with
      the adapter base, [GeofenceAdapter] and [BatchingAdapter] as instances; [LocationAPISpec] is the system of
      applications and adapters and its invariant, [LocationAPITheorems] has the theorems ([objects_outlive_adapters], [framework_follows_clients]).
    - [BiDict] and [LocationApiClient] ([src/gps/location/LocationAPIClientBase.cpp]): a
      client's identifiers, sessions and requests.  [LocationApiClientSpec] has
      what it promises, [LocationApiClientProps] the refinements of sessions and of
      geofences, [LocationApiClientTheorems] the theorems ([sessions_refine],
      [session_calls], [geofences_refine]).
    - [PbConsts], [PbMasks], [PbTypes], [PbConvTo], [PbConvFrom]
      ([src/location/location_api_msg_proto/src/LocationApiPbMsgConv.cpp]): the structures of
      the API, the messages of the protocol and the conversions between them.
      [PbMaskProps], [PbSpec], [PbProps] and [PbTheorems] say what arrives of what is sent
      ([location_report_roundtrip], [masks_roundtrip]) and when a received message overruns
      a structure ([receive_bounds], [client_overrun]).

    ** How the parts fit together

    [BootControl] calls [GptUtils], which calls [BlockDev], [Crc32] and [UfsBsg]: their
    theorems are about the same devices.  [MsgQ] uses [LinkedList] through [ListIface],
    [MsgTask] uses [MsgQ], and the components whose operations are messages of a task
    ([LocTimer], [GnssTracking], [OsObserver], [GeofenceAdapter], [BatchingAdapter]) rely on
    the order that [MsgTask] guarantees.  [LocTimer] uses [LocHeap].  [BatchingAdapter] calls
    [LocApiBatching], and the theorems are about both.  The two clients of geofence and
    session identifiers, [LocationApiClient] and the adapters, meet in [LocationAPI], which
    is proved for any adapters of the class [AdapterModel]; the geofence and the batching
    adapter are instances.

    ** Fuel

    The loops that read a batch take one unit of fuel for each position that is asked for
    and one more: each turn but the last reads a position ([batch_reported] is stated for
    all such fuel).  The devices of examples use more than they need.

    ** What is not modelled

    Generated code ([location_service_v02]), data and build files; the HIDL, AIDL and audio
    services, whose interfaces are not in the repository; logging; floating-point
    computation (the formatting of NMEA sentences); and the glue of the GNSS stack:
    configuration files, sockets, the QMI client, the forwarding of reports and of
    requests by the daemon and its client libraries.  Of [GnssAdapter] only the tracking
    sessions and the network-initiated requests are modelled: the rest configures the modem, forwards reports and votes on
    power, over callbacks that are not in the repository.  Of the modem interface only
    batching and synchronous requests are: its other functions copy the fields of
    structures into QMI messages, whose encoding is generated.  The sockets of [LocIpc] are
    datagram sockets; its stream sockets and listening threads are left out. *)
From Stdlib Require Export ZArith Lia.
From stdpp Require Export base strings gmap option list.

#[export] Set Warnings "-clear-no-such-hyp".
#[global] Open Scope Z_scope.

(** ** C computations

    A C or C++ function that reads and writes shared state is a computation in
    [CM S A]: it takes the state, and either returns a value with the new state
    or has undefined behaviour ([None]): a dereference of NULL or of freed
    memory, an access outside of an object, a read of an indeterminate value, or
    a loop that does not terminate within its fuel.  Error returns are ordinary
    values, as in the source. *)

Definition CM (S A : Type) : Type := S -> option (A * S).

#[export] Instance cm_ret S : MRet (CM S) := fun A a s => Some (a, s).
#[export] Instance cm_bind S : MBind (CM S) :=
  fun A B f m s => match m s with Some (a, s') => f a s' | None => None end.

Section cm_operations.
Context {S : Type}.

Definition undef {A} : CM S A := fun _ => None.
Definition get : CM S S := fun s => Some (s, s).
Definition gets {A} (f : S -> A) : CM S A := fun s => Some (f s, s).
Definition modify (f : S -> S) : CM S unit := fun s => Some (tt, f s).
(** [deref o] reads through a pointer that must not be NULL or dangling. *)
Definition deref {A} (o : option A) : CM S A :=
  fun s => match o with Some a => Some (a, s) | None => None end.

(** Total-correctness weakest precondition: the computation is defined, and
    its result satisfies [Q]. *)
Definition wp {A} (m : CM S A) (Q : A -> S -> Prop) (s : S) : Prop :=
  match m s with Some (a, s') => Q a s' | None => False end.

Lemma wp_ret {A} (a : A) Q s : Q a s -> wp (mret a) Q s.
Proof. done. Qed.

Lemma wp_bind {A B} (m : CM S A) (f : A -> CM S B) Q s :
  wp m (fun a => wp (f a) Q) s -> wp (m ≫= f) Q s.
Proof. unfold wp, mbind, cm_bind. by destruct (m s) as [[a s']|]. Qed.

Lemma wp_conseq {A} (m : CM S A) (Q R : A -> S -> Prop) s :
  wp m Q s -> (forall a s', Q a s' -> R a s') -> wp m R s.
Proof. unfold wp. destruct (m s) as [[a s']|]; naive_solver. Qed.

Lemma wp_undef {A} (Q : A -> S -> Prop) s : False -> wp undef Q s.
Proof. done. Qed.

Lemma wp_gets {A} (f : S -> A) Q s : Q (f s) s -> wp (gets f) Q s.
Proof. done. Qed.

Lemma wp_get Q (s : S) : Q s s -> wp get Q s.
Proof. done. Qed.

Lemma wp_modify (f : S -> S) Q s : Q tt (f s) -> wp (modify f) Q s.
Proof. done. Qed.

Lemma wp_deref {A} (o : option A) a Q s :
  o = Some a -> Q a s -> wp (deref o) Q s.
Proof. by intros ->. Qed.

Lemma wp_if {A} (b : bool) (m1 m2 : CM S A) Q s :
  (b = true -> wp m1 Q s) -> (b = false -> wp m2 Q s) ->
  wp (if b then m1 else m2) Q s.
Proof. destruct b; auto. Qed.

Lemma wp_Some {A} (m : CM S A) Q s a s' :
  m s = Some (a, s') -> wp m Q s -> Q a s'.
Proof. unfold wp. by intros ->. Qed.

Lemma wp_elim {A} (m : CM S A) Q s :
  wp m Q s -> exists a s', m s = Some (a, s') /\ Q a s'.
Proof. unfold wp. destruct (m s) as [[a s']|]; naive_solver. Qed.

Lemma wp_intro {A} (m : CM S A) (Q : A -> S -> Prop) s a s' :
  m s = Some (a, s') -> Q a s' -> wp m Q s.
Proof. unfold wp. by intros ->. Qed.
Lemma wp_run_unit (m : CM S unit) (Q : unit -> S -> Prop) s :
  (exists s', m s = Some (tt, s') /\ Q tt s') -> wp m Q s.
Proof. intros (s' & Hm & HQ). by eapply wp_intro. Qed.
End cm_operations.

(** A sequence that is defined. *)
Lemma bind_run {S A B} (m : CM S A) (f : A -> CM S B) s r : (m ≫= f) s = Some r -> exists a s1, m s = Some (a, s1) /\ f a s1 = Some r.
Proof. unfold mbind, cm_bind. destruct (m s) as [[a s1]|]; [|done]. by exists a, s1. Qed.

(** One step of symbolic execution of a computation. *)
Ltac wp_step :=
  lazymatch goal with
  | |- wp (mbind _ _) _ _ => apply wp_bind
  | |- wp (mret _) _ _ => apply wp_ret
  | |- wp get _ _ => apply wp_get
  | |- wp (gets _) _ _ => apply wp_gets
  | |- wp (modify _) _ _ => apply wp_modify
  | |- wp (deref _) _ _ => eapply wp_deref; [eassumption || done |]
  | |- wp (if _ then _ else _) _ _ => apply wp_if; intros ?
  end; cbv beta.
Ltac wp_run := repeat wp_step.

(** ** Machine words *)

Definition wrap (w : Z) (z : Z) : Z := z mod 2 ^ w.
Abbreviation u8 := (wrap 8).
Abbreviation u32 := (wrap 32).
Abbreviation u64 := (wrap 64).

Lemma wrap_bounds w z : 0 <= w -> 0 <= wrap w z < 2 ^ w.
Proof. intros. apply Z.mod_pos_bound. by apply Z.pow_pos_nonneg. Qed.

Lemma wrap_id w z : 0 <= z < 2 ^ w -> wrap w z = z.
Proof. apply Z.mod_small. Qed.

Lemma wrap_idemp w z : wrap w (wrap w z) = wrap w z.
Proof. apply Zmod_mod. Qed.

(** ** Lists of pairs *)
Lemma elem_of_fst {A B} (p : A) (x : B) (ps : list (A * B)) : (p, x) ∈ ps -> p ∈ ps.*1.
Proof. intros H. by apply (list_elem_of_fmap_2 fst) in H. Qed.

Lemma elem_of_fst_inv {A B} (p : A) (ps : list (A * B)) :
  p ∈ ps.*1 -> exists x, (p, x) ∈ ps.
Proof. intros ([q x] & -> & H)%list_elem_of_fmap. eauto. Qed.

(** ** Hint databases of the development *)
Create HintDb cypfr discriminated.
Create Rewrite HintDb cypfr.
#[export] Hint Resolve wrap_bounds wrap_id : cypfr.

(** ** Finite runs of a deterministic, possibly undefined step *)
Section runs.
Context {S Op : Type} (step : Op -> CM S unit).

Fixpoint run_ops (ops : list Op) : CM S unit :=
  match ops with
  | [] => mret tt
  | o :: ops => _ ← step o; run_ops ops
  end.

(** Invariant rule: when every operation allowed by [ok] is defined and keeps
    [I], so does every sequence of allowed operations. *)
Lemma run_ops_wp (I : S -> Prop) (ok : Op -> Prop) ops s :
  (forall o s, ok o -> I s -> wp (step o) (fun _ => I) s) ->
  Forall ok ops -> I s -> wp (run_ops ops) (fun _ => I) s.
Proof.
  intros Hstep Hok. revert s. induction Hok as [|o ops Ho Hall IH]; intros s HI; simpl.
  - by apply wp_ret.
  - apply wp_bind. eapply wp_conseq; [by apply Hstep|]. intros a s' HI'. by apply IH.
Qed.

(** Simulation rule: a deterministic abstract step function that simulates
    every allowed operation simulates every sequence of them. *)
Lemma run_ops_sim {A} (R : S -> A -> Prop) (astep : Op -> A -> A)
    (ok : A -> Op -> Prop) ops s a :
  (forall o s a, R s a -> ok a o -> wp (step o) (fun _ s' => R s' (astep o a)) s) ->
  R s a ->
  (forall pre o post, ops = pre ++ o :: post ->
     ok (foldl (flip astep) a pre) o) ->
  wp (run_ops ops) (fun _ s' => R s' (foldl (flip astep) a ops)) s.
Proof.
  intros Hstep. revert s a. induction ops as [|o ops IH]; intros s a HR Hok; simpl.
  - by apply wp_ret.
  - apply wp_bind. eapply wp_conseq; [apply Hstep; [done|]; by apply (Hok [] o ops)|].
    intros b s' HR'. apply IH; [done|]. intros pre o' post ->.
    by apply (Hok (o :: pre) o' post).
Qed.
End runs.
