(* ===== verification/Agps.v ===== *)
(** * AGPS data-call state machine and its manager

    [src/gps/gnss/Agps.h] and [src/gps/gnss/Agps.cpp].  Subscribers are heap
    objects: the subscriber list holds pointers, and the current subscriber may
    alias an element of the list or a stack object of [requestATL].  The model
    keeps them in a store, so that a use after free is undefined behaviour. *)
From S2P Require Import Prelude.

(** ** Constants ([gps_extended_c.h], [loc_gps.h]) *)
Definition LOC_AGPS_TYPE_INVALID : Z := -1.
Definition LOC_AGPS_TYPE_SUPL : Z := 1.
Definition LOC_AGPS_TYPE_WWAN_ANY : Z := 3.
Definition LOC_AGPS_TYPE_SUPL_ES : Z := 5.
Definition AGPS_APN_BEARER_INVALID : Z := 0.
Definition LOC_APN_TYPE_MASK_SUPL : Z := 0x10.
Definition LOC_APN_TYPE_MASK_EMERGENCY : Z := 0x200.
Definition AGPS_ATL_TYPE_SUPL : Z := 1.
Definition AGPS_ATL_TYPE_SUPL_ES : Z := 2.
Definition AGPS_ATL_TYPE_WWAN : Z := 4.
Definition LOC_GPS_CAPABILITY_MSB : Z := 2.
Definition LOC_GPS_CAPABILITY_MSA : Z := 4.
Definition LOC_GPS_REQUEST_AGPS_DATA_CONN : Z := 1.
Definition LOC_GPS_RELEASE_AGPS_DATA_CONN : Z := 2.
Definition MAX_APN_LEN : Z := 100.

(** ** Data *)
Inductive AgpsState :=
  | AGPS_STATE_INVALID | AGPS_STATE_RELEASED | AGPS_STATE_PENDING
  | AGPS_STATE_ACQUIRED | AGPS_STATE_RELEASING.
#[export] Instance AgpsState_eq_dec : EqDecision AgpsState.
Proof. solve_decision. Defined.

Inductive AgpsEvent :=
  | AGPS_EVENT_INVALID | AGPS_EVENT_SUBSCRIBE | AGPS_EVENT_UNSUBSCRIBE
  | AGPS_EVENT_GRANTED | AGPS_EVENT_RELEASED | AGPS_EVENT_DENIED.

Inductive AgpsNotificationType :=
  | AGPS_NOTIFICATION_TYPE_INVALID
  | AGPS_NOTIFICATION_TYPE_FOR_ALL_SUBSCRIBERS
  | AGPS_NOTIFICATION_TYPE_FOR_INACTIVE_SUBSCRIBERS
  | AGPS_NOTIFICATION_TYPE_FOR_ACTIVE_SUBSCRIBERS.

Record AgpsSubscriber := MkSub {
  mConnHandle : Z;
  mWaitForCloseComplete : bool;
  mIsInactive : bool;
  sApnTypeMask : Z }.

Definition setInactive (s : AgpsSubscriber) : AgpsSubscriber :=
  MkSub (mConnHandle s) (mWaitForCloseComplete s) true (sApnTypeMask s).

(** A pointer to a subscriber. *)
Definition ptr := positive.

(** [mApnTypeMask] is not initialised by the constructor: [None] until
    [setApnTypeMask].  [mFrameworkStatusV4Cb] records whether the callback is
    non-NULL. *)
Record AgpsStateMachine := MkSM {
  mSubscriberList : list ptr;
  mCurrentSubscriber : option ptr;
  mState : AgpsState;
  mFrameworkStatusV4Cb : bool;
  mAgpsType : Z;
  mApnTypeMask : option Z;
  mAPN : option string;
  mAPNLen : Z;
  mBearer : Z }.

Definition newStateMachine (agpsType : Z) : AgpsStateMachine :=
  MkSM [] None AGPS_STATE_RELEASED false agpsType None None 0 AGPS_APN_BEARER_INVALID.

Definition set_mSubscriberList l sm := MkSM l (mCurrentSubscriber sm) (mState sm)
  (mFrameworkStatusV4Cb sm) (mAgpsType sm) (mApnTypeMask sm) (mAPN sm) (mAPNLen sm) (mBearer sm).
Definition set_mState st sm := MkSM (mSubscriberList sm) (mCurrentSubscriber sm) st
  (mFrameworkStatusV4Cb sm) (mAgpsType sm) (mApnTypeMask sm) (mAPN sm) (mAPNLen sm) (mBearer sm).
Definition setCurrentSubscriber p sm := MkSM (mSubscriberList sm) (Some p) (mState sm)
  (mFrameworkStatusV4Cb sm) (mAgpsType sm) (mApnTypeMask sm) (mAPN sm) (mAPNLen sm) (mBearer sm).
Definition registerFrameworkStatusCallback cb sm := MkSM (mSubscriberList sm)
  (mCurrentSubscriber sm) (mState sm) cb (mAgpsType sm) (mApnTypeMask sm) (mAPN sm)
  (mAPNLen sm) (mBearer sm).
Definition setType ty sm := MkSM (mSubscriberList sm) (mCurrentSubscriber sm) (mState sm)
  (mFrameworkStatusV4Cb sm) ty (mApnTypeMask sm) (mAPN sm) (mAPNLen sm) (mBearer sm).
Definition setApnTypeMask m sm := MkSM (mSubscriberList sm) (mCurrentSubscriber sm) (mState sm)
  (mFrameworkStatusV4Cb sm) (mAgpsType sm) (Some m) (mAPN sm) (mAPNLen sm) (mBearer sm).
Definition setBearer b sm := MkSM (mSubscriberList sm) (mCurrentSubscriber sm) (mState sm)
  (mFrameworkStatusV4Cb sm) (mAgpsType sm) (mApnTypeMask sm) (mAPN sm) (mAPNLen sm) b.

(** [setAPN]: [apn] is NULL or a NUL-terminated string, [len] its announced
    length as an unsigned int.  The old name, an array, is deleted by [delete] and not by
    [delete []]: the language leaves that undefined, the model takes it to free the array,
    as the allocators of the platform do. *)
Definition setAPN (apn : option string) (len : Z) (sm : AgpsStateMachine) : AgpsStateMachine :=
  let mk a l := MkSM (mSubscriberList sm) (mCurrentSubscriber sm) (mState sm)
    (mFrameworkStatusV4Cb sm) (mAgpsType sm) (mApnTypeMask sm) a l (mBearer sm) in
  match apn with
  | None => mk None 0
  | Some str =>
      if (MAX_APN_LEN <? len) || negb (Z.of_nat (String.length str) =? len)
      then mk None 0 else mk (Some str) len
  end.

(** What the state machine sends out: ATL open and close status to the modem
    ([mAtlOpenStatusCb], [mAtlCloseStatusCb]) and data-connection requests to the
    framework ([mFrameworkStatusV4Cb]). *)
Inductive AgpsOut :=
  | AtlOpenStatus (handle isSuccess : Z) (apn : option string) (apnLen bearerType agpsType mask : Z)
  | AtlCloseStatus (handle isSuccess : Z)
  | FrameworkStatus (type mask status : Z).

(** The state a state-machine method works on: the store of subscribers, the
    machine itself ([this]) and the trace of its outputs. *)
Record SmSt := MkSmSt {
  heap : gmap ptr AgpsSubscriber;
  sm : AgpsStateMachine;
  outs : list AgpsOut }.
Abbreviation SmM := (CM SmSt).

Definition with_sm (f : AgpsStateMachine -> AgpsStateMachine) : SmM unit :=
  modify (fun s => MkSmSt (heap s) (f (sm s)) (outs s)).
Definition emit (o : AgpsOut) : SmM unit :=
  modify (fun s => MkSmSt (heap s) (sm s) (outs s ++ [o])).
Definition load (p : ptr) : SmM AgpsSubscriber :=
  s ← get; deref (heap s !! p).
Definition store (p : ptr) (sub : AgpsSubscriber) : SmM unit :=
  modify (fun s => MkSmSt (<[p := sub]> (heap s)) (sm s) (outs s)).
Definition new_sub (sub : AgpsSubscriber) : SmM ptr :=
  s ← get;
  let p := fresh (dom (heap s)) in
  _ ← store p sub; mret p.
(** [delete p], or the end of the lifetime of a stack object: only a live
    object may be deleted. *)
Definition delete_sub (p : ptr) : SmM unit :=
  _ ← load p;
  modify (fun s => MkSmSt (delete p (heap s)) (sm s) (outs s)).

(** ** State machine methods *)

(** The iterators of the source walk the list from a position; [it] is the rest
    of the list at the iterator. *)
Fixpoint anyActiveFrom (it : list ptr) : SmM bool :=
  match it with
  | [] => mret false
  | p :: it => sub ← load p; if negb (mIsInactive sub) then mret true else anyActiveFrom it
  end.
Definition anyActiveSubscribers : SmM bool :=
  s ← get; anyActiveFrom (mSubscriberList (sm s)).

Fixpoint anyEquals (it : list ptr) (toAdd : ptr) : SmM bool :=
  match it with
  | [] => mret false
  | p :: it =>
      sub ← load p; other ← load toAdd;
      if mConnHandle sub =? mConnHandle other then mret true else anyEquals it toAdd
  end.
Definition addSubscriber (subscriberToAdd : ptr) : SmM unit :=
  s ← get;
  found ← anyEquals (mSubscriberList (sm s)) subscriberToAdd;
  if (found : bool) then mret tt
  else
    sub ← load subscriberToAdd;
    cloned ← new_sub sub;
    with_sm (fun m => set_mSubscriberList (mSubscriberList m ++ [cloned]) m).

(** [kept] is the part of the list before the iterator. *)
Fixpoint deleteFrom (kept it : list ptr) (toDelete : ptr) : SmM unit :=
  match it with
  | [] => mret tt
  | p :: it =>
      sub ← load p; other ← load toDelete;
      if mConnHandle sub =? mConnHandle other then
        _ ← with_sm (set_mSubscriberList (kept ++ it));
        _ ← delete_sub p;
        deleteFrom kept it toDelete
      else deleteFrom (kept ++ [p]) it toDelete
  end.
Definition deleteSubscriber (subscriberToDelete : ptr) : SmM unit :=
  s ← get; deleteFrom [] (mSubscriberList (sm s)) subscriberToDelete.

Definition atlOpen (sub : AgpsSubscriber) (isSuccess : Z) : SmM unit :=
  s ← get;
  mask ← deref (mApnTypeMask (sm s));
  emit (AtlOpenStatus (mConnHandle sub) isSuccess (mAPN (sm s)) (mAPNLen (sm s))
          (mBearer (sm s)) (mAgpsType (sm s)) mask).

Definition notifyEventToSubscriber (event : AgpsEvent) (subscriberToNotify : ptr)
    (deleteSubscriberPostNotify : bool) : SmM unit :=
  _ ← match event with
      | AGPS_EVENT_GRANTED => sub ← load subscriberToNotify; atlOpen sub 1
      | AGPS_EVENT_DENIED => sub ← load subscriberToNotify; atlOpen sub 0
      | AGPS_EVENT_UNSUBSCRIBE | AGPS_EVENT_RELEASED =>
          sub ← load subscriberToNotify; emit (AtlCloseStatus (mConnHandle sub) 1)
      | AGPS_EVENT_INVALID | AGPS_EVENT_SUBSCRIBE => mret tt
      end;
  if deleteSubscriberPostNotify then deleteSubscriber subscriberToNotify else mret tt.

Definition concerned (notificationType : AgpsNotificationType) (sub : AgpsSubscriber) : bool :=
  match notificationType with
  | AGPS_NOTIFICATION_TYPE_FOR_ALL_SUBSCRIBERS => true
  | AGPS_NOTIFICATION_TYPE_FOR_INACTIVE_SUBSCRIBERS => mIsInactive sub
  | AGPS_NOTIFICATION_TYPE_FOR_ACTIVE_SUBSCRIBERS => negb (mIsInactive sub)
  | AGPS_NOTIFICATION_TYPE_INVALID => false
  end.

Fixpoint notifyFrom (event : AgpsEvent) (deleteSubscriberPostNotify : bool)
    (notificationType : AgpsNotificationType) (kept it : list ptr) : SmM unit :=
  match it with
  | [] => mret tt
  | p :: it =>
      sub ← load p;
      if concerned notificationType sub then
        _ ← notifyEventToSubscriber event p false;
        if deleteSubscriberPostNotify then
          _ ← with_sm (set_mSubscriberList (kept ++ it));
          _ ← delete_sub p;
          notifyFrom event deleteSubscriberPostNotify notificationType kept it
        else notifyFrom event deleteSubscriberPostNotify notificationType (kept ++ [p]) it
      else notifyFrom event deleteSubscriberPostNotify notificationType (kept ++ [p]) it
  end.
Definition notifyAllSubscribers (event : AgpsEvent) (deleteSubscriberPostNotify : bool)
    (notificationType : AgpsNotificationType) : SmM unit :=
  s ← get;
  notifyFrom event deleteSubscriberPostNotify notificationType [] (mSubscriberList (sm s)).

Definition transitionState (newState : AgpsState) : SmM unit := with_sm (set_mState newState).

Definition requestOrReleaseDataConn (request : bool) : SmM unit :=
  s ← get;
  mask ← deref (mApnTypeMask (sm s));
  let status := if request then LOC_GPS_REQUEST_AGPS_DATA_CONN
                else LOC_GPS_RELEASE_AGPS_DATA_CONN in
  if mFrameworkStatusV4Cb (sm s)
  then emit (FrameworkStatus (mAgpsType (sm s)) mask status)
  else undef.

Definition currentSubscriber : SmM ptr :=
  s ← get; deref (mCurrentSubscriber (sm s)).
Definition listEmpty : SmM bool :=
  s ← get; mret (match mSubscriberList (sm s) with [] => true | _ => false end).

Definition processAgpsEventSubscribe : SmM unit :=
  s ← get;
  match mState (sm s) with
  | AGPS_STATE_RELEASED =>
      cur ← currentSubscriber;
      _ ← addSubscriber cur;
      _ ← requestOrReleaseDataConn true;
      transitionState AGPS_STATE_PENDING
  | AGPS_STATE_PENDING => cur ← currentSubscriber; addSubscriber cur
  | AGPS_STATE_ACQUIRED =>
      cur ← currentSubscriber;
      _ ← notifyEventToSubscriber AGPS_EVENT_GRANTED cur false;
      addSubscriber cur
  | AGPS_STATE_RELEASING => cur ← currentSubscriber; addSubscriber cur
  | AGPS_STATE_INVALID => mret tt
  end.

(** The common part of UNSUBSCRIBE in PENDING, ACQUIRED and RELEASING. *)
Definition dropOrDeactivate (cur : ptr) : SmM unit :=
  sub ← load cur;
  if mWaitForCloseComplete sub then store cur (setInactive sub)
  else notifyEventToSubscriber AGPS_EVENT_UNSUBSCRIBE cur true.

Definition processAgpsEventUnsubscribe : SmM unit :=
  s ← get;
  match mState (sm s) with
  | AGPS_STATE_RELEASED =>
      cur ← currentSubscriber;
      notifyEventToSubscriber AGPS_EVENT_UNSUBSCRIBE cur false
  | AGPS_STATE_PENDING | AGPS_STATE_ACQUIRED =>
      cur ← currentSubscriber;
      _ ← dropOrDeactivate cur;
      empty ← listEmpty;
      if (empty : bool) then
        _ ← transitionState AGPS_STATE_RELEASED; requestOrReleaseDataConn false
      else
        active ← anyActiveSubscribers;
        if negb active then
          _ ← transitionState AGPS_STATE_RELEASING; requestOrReleaseDataConn false
        else mret tt
  | AGPS_STATE_RELEASING =>
      cur ← currentSubscriber;
      _ ← dropOrDeactivate cur;
      empty ← listEmpty;
      if (empty : bool) then transitionState AGPS_STATE_RELEASED else mret tt
  | AGPS_STATE_INVALID => mret tt
  end.

Definition processAgpsEventGranted : SmM unit :=
  s ← get;
  match mState (sm s) with
  | AGPS_STATE_PENDING =>
      _ ← transitionState AGPS_STATE_ACQUIRED;
      notifyAllSubscribers AGPS_EVENT_GRANTED false
        AGPS_NOTIFICATION_TYPE_FOR_ACTIVE_SUBSCRIBERS
  | _ => mret tt
  end.

(** RELEASED and DENIED in state RELEASING: close the inactive subscribers, and
    connect again for the active ones. *)
Definition finishReleasing : SmM unit :=
  _ ← notifyAllSubscribers AGPS_EVENT_RELEASED true
        AGPS_NOTIFICATION_TYPE_FOR_INACTIVE_SUBSCRIBERS;
  active ← anyActiveSubscribers;
  if (active : bool) then
    _ ← transitionState AGPS_STATE_PENDING; requestOrReleaseDataConn true
  else transitionState AGPS_STATE_RELEASED.

Definition processAgpsEventReleased : SmM unit :=
  s ← get;
  match mState (sm s) with
  | AGPS_STATE_ACQUIRED =>
      _ ← transitionState AGPS_STATE_RELEASED;
      notifyAllSubscribers AGPS_EVENT_RELEASED true AGPS_NOTIFICATION_TYPE_FOR_ALL_SUBSCRIBERS
  | AGPS_STATE_RELEASING => finishReleasing
  | AGPS_STATE_RELEASED | AGPS_STATE_PENDING | AGPS_STATE_INVALID => mret tt
  end.

Definition processAgpsEventDenied : SmM unit :=
  s ← get;
  match mState (sm s) with
  | AGPS_STATE_RELEASING => finishReleasing
  | AGPS_STATE_PENDING =>
      _ ← transitionState AGPS_STATE_RELEASED;
      notifyAllSubscribers AGPS_EVENT_DENIED true AGPS_NOTIFICATION_TYPE_FOR_ALL_SUBSCRIBERS
  | AGPS_STATE_RELEASED | AGPS_STATE_ACQUIRED | AGPS_STATE_INVALID => mret tt
  end.

Definition processAgpsEvent (event : AgpsEvent) : SmM unit :=
  match event with
  | AGPS_EVENT_SUBSCRIBE => processAgpsEventSubscribe
  | AGPS_EVENT_UNSUBSCRIBE => processAgpsEventUnsubscribe
  | AGPS_EVENT_GRANTED => processAgpsEventGranted
  | AGPS_EVENT_RELEASED => processAgpsEventReleased
  | AGPS_EVENT_DENIED => processAgpsEventDenied
  | AGPS_EVENT_INVALID => mret tt
  end.

Fixpoint findHandle (it : list ptr) (connHandle : Z) : SmM (option ptr) :=
  match it with
  | [] => mret None
  | p :: it =>
      sub ← load p;
      if mConnHandle sub =? connHandle then mret (Some p) else findHandle it connHandle
  end.
(** NULL is [None]. *)
Definition getSubscriber (connHandle : Z) : SmM (option ptr) :=
  s ← get; findHandle (mSubscriberList (sm s)) connHandle.

Fixpoint firstWith (isInactive : bool) (it : list ptr) : SmM (option ptr) :=
  match it with
  | [] => mret None
  | p :: it =>
      sub ← load p;
      if Bool.eqb (mIsInactive sub) isInactive then mret (Some p) else firstWith isInactive it
  end.
Definition getFirstSubscriber (isInactive : bool) : SmM (option ptr) :=
  s ← get; firstWith isInactive (mSubscriberList (sm s)).

Fixpoint dropFrom (it : list ptr) : SmM unit :=
  match it with
  | [] => mret tt
  | p :: it =>
      _ ← with_sm (set_mSubscriberList it);
      _ ← delete_sub p; dropFrom it
  end.
Definition dropAllSubscribers : SmM unit :=
  s ← get; dropFrom (mSubscriberList (sm s)).

(** ** Manager *)

(** The part of [ContextBase::mGps_conf] the manager reads. *)
Record GpsConf := MkConf {
  CAPABILITIES : Z;
  USE_EMERGENCY_PDN_FOR_EMERGENCY_SUPL : Z }.

(** [AgpsCbInfo]: whether [statusV4Cb] is non-NULL, and the ATL types. *)
Record AgpsCbInfo := MkCbInfo { statusV4Cb : bool; atlType : Z }.

Record AgpsManager := MkMgr {
  mheap : gmap ptr AgpsSubscriber;
  mAgnssNif : option AgpsStateMachine;
  mInternetNif : option AgpsStateMachine;
  mouts : list AgpsOut }.
Abbreviation MgrM := (CM AgpsManager).

Definition newManager : AgpsManager := MkMgr ∅ None None [].

(** Which member points to a state machine. *)
Inductive Nif := AgnssNif | InternetNif.
#[export] Instance Nif_eq_dec : EqDecision Nif.
Proof. solve_decision. Defined.

Definition nif (n : Nif) (g : AgpsManager) : option AgpsStateMachine :=
  match n with AgnssNif => mAgnssNif g | InternetNif => mInternetNif g end.
Definition set_nif (n : Nif) (h : gmap ptr AgpsSubscriber) (m : AgpsStateMachine)
    (o : list AgpsOut) (g : AgpsManager) : AgpsManager :=
  match n with
  | AgnssNif => MkMgr h (Some m) (mInternetNif g) o
  | InternetNif => MkMgr h (mAgnssNif g) (Some m) o
  end.

(** A method call [sm->method()]: NULL is undefined behaviour. *)
Definition call_sm {A} (n : Nif) (method : SmM A) : MgrM A := fun g =>
  match nif n g with
  | None => None
  | Some m =>
      match method (MkSmSt (mheap g) m (mouts g)) with
      | Some (a, s) => Some (a, set_nif n (heap s) (sm s) (outs s) g)
      | None => None
      end
  end.

Definition isRegistered (g : AgpsManager) : bool :=
  match mAgnssNif g, mInternetNif g with None, None => false | _, _ => true end.

Definition createAgpsStateMachines (conf : GpsConf) (cbInfo : AgpsCbInfo) : MgrM unit :=
  modify (fun g =>
    let agpsCapable := negb (Z.land (CAPABILITIES conf) LOC_GPS_CAPABILITY_MSA =? 0)
                    || negb (Z.land (CAPABILITIES conf) LOC_GPS_CAPABILITY_MSB =? 0) in
    let has t := negb (Z.land (atlType cbInfo) t =? 0) in
    let mk t := registerFrameworkStatusCallback (statusV4Cb cbInfo) (newStateMachine t) in
    let internet := match mInternetNif g with
                    | None => if has AGPS_ATL_TYPE_WWAN then Some (mk LOC_AGPS_TYPE_WWAN_ANY) else None
                    | Some m => Some m end in
    let agnss := match mAgnssNif g with
                 | None => if agpsCapable && (has AGPS_ATL_TYPE_SUPL && has AGPS_ATL_TYPE_SUPL_ES)
                           then Some (mk LOC_AGPS_TYPE_SUPL) else None
                 | Some m => Some m end in
    MkMgr (mheap g) agnss internet (mouts g)).

(** The member the function returns; it may be NULL. *)
Definition getAgpsStateMachine (agpsType : Z) : Nif :=
  if (agpsType =? LOC_AGPS_TYPE_INVALID) || (agpsType =? LOC_AGPS_TYPE_SUPL)
     || (agpsType =? LOC_AGPS_TYPE_SUPL_ES)
  then AgnssNif else InternetNif.

(** The emergency downgrade at the start of [requestATL]. *)
Definition effectiveRequest (conf : GpsConf) (agpsType apnTypeMask : Z) : Z * Z :=
  if (USE_EMERGENCY_PDN_FOR_EMERGENCY_SUPL conf =? 0) && (LOC_AGPS_TYPE_SUPL_ES =? agpsType)
  then (LOC_AGPS_TYPE_SUPL,
        Z.lor (Z.land apnTypeMask (u32 (Z.lnot LOC_APN_TYPE_MASK_EMERGENCY)))
              LOC_APN_TYPE_MASK_SUPL)
  else (agpsType, apnTypeMask).

Definition requestATL (conf : GpsConf) (connHandle agpsType0 apnTypeMask0 : Z) : MgrM unit :=
  let '(agpsType, apnTypeMask) := effectiveRequest conf agpsType0 apnTypeMask0 in
  let n := getAgpsStateMachine agpsType in
  g ← get;
  match nif n g with
  | None =>
      modify (fun g => MkMgr (mheap g) (mAgnssNif g) (mInternetNif g)
        (mouts g ++ [AtlOpenStatus connHandle 0 None 0 AGPS_APN_BEARER_INVALID agpsType apnTypeMask]))
  | Some _ =>
      call_sm n (
        _ ← with_sm (setType agpsType);
        _ ← with_sm (setApnTypeMask apnTypeMask);
        subscriber ← new_sub (MkSub connHandle true false apnTypeMask);
        _ ← with_sm (setCurrentSubscriber subscriber);
        _ ← processAgpsEvent AGPS_EVENT_SUBSCRIBE;
        delete_sub subscriber)
  end.

Definition lookupIn (n : Nif) (connHandle : Z) : MgrM (option ptr) :=
  g ← get;
  match nif n g with None => mret None | Some _ => call_sm n (getSubscriber connHandle) end.

Definition releaseATL (connHandle : Z) : MgrM unit :=
  let unsubscribe n subscriber :=
    call_sm n (_ ← with_sm (setCurrentSubscriber subscriber);
               processAgpsEvent AGPS_EVENT_UNSUBSCRIBE) in
  subscriber ← lookupIn AgnssNif connHandle;
  match subscriber with
  | Some p => unsubscribe AgnssNif p
  | None =>
      subscriber ← lookupIn InternetNif connHandle;
      match subscriber with
      | Some p => unsubscribe InternetNif p
      | None => mret tt
      end
  end.

Definition reportAtlOpenSuccess (agpsType : Z) (apnName : option string)
    (apnLen bearerType : Z) : MgrM unit :=
  call_sm (getAgpsStateMachine agpsType) (
    _ ← with_sm (setBearer bearerType);
    _ ← with_sm (setAPN apnName (u32 apnLen));
    processAgpsEvent AGPS_EVENT_GRANTED).

Definition reportAtlOpenFailed (agpsType : Z) : MgrM unit :=
  call_sm (getAgpsStateMachine agpsType) (processAgpsEvent AGPS_EVENT_DENIED).

Definition reportAtlClosed (agpsType : Z) : MgrM unit :=
  call_sm (getAgpsStateMachine agpsType) (processAgpsEvent AGPS_EVENT_RELEASED).

Definition handleModemSSR : MgrM unit :=
  let drop n := (g ← get;
    match nif n g with None => mret tt | Some _ => call_sm n dropAllSubscribers end) in
  _ ← drop AgnssNif; drop InternetNif.

Inductive MgrOp :=
  | OpCreate (cb : AgpsCbInfo)
  | OpRequestATL (connHandle agpsType apnTypeMask : Z)
  | OpReleaseATL (connHandle : Z)
  | OpOpenSuccess (agpsType : Z) (apnName : option string) (apnLen bearerType : Z)
  | OpOpenFailed (agpsType : Z)
  | OpClosed (agpsType : Z)
  | OpModemSSR.

Definition mgr_step (conf : GpsConf) (o : MgrOp) : MgrM unit :=
  match o with
  | OpCreate cb => createAgpsStateMachines conf cb
  | OpRequestATL h t m => requestATL conf h t m
  | OpReleaseATL h => releaseATL h
  | OpOpenSuccess t a l b => reportAtlOpenSuccess t a l b
  | OpOpenFailed t => reportAtlOpenFailed t
  | OpClosed t => reportAtlClosed t
  | OpModemSSR => handleModemSSR
  end.

(** A run: SUPL request, grant, release, close. *)
Example demo_run :
  let conf := MkConf 6 1 in
  match run_ops (mgr_step conf)
          [OpCreate (MkCbInfo true 7); OpRequestATL 7 1 0x10; OpOpenSuccess 1 (Some "apn"%string) 3 1;
           OpReleaseATL 7; OpClosed 1] newManager with
  | Some (_, g) => mouts g
  | None => []
  end =
  [FrameworkStatus 1 0x10 1; AtlOpenStatus 7 1 (Some "apn"%string) 3 1 1 0x10;
   FrameworkStatus 1 0x10 2; AtlCloseStatus 7 1].
Proof. vm_compute. reflexivity. Qed.
