(* ===== verification/AgpsSpec.v ===== *)
(** * AGPS: abstract specification and refinement

    The contract of [Agps.v] without pointers: a state machine is a list of
    (handle, inactive) entries with a connection state; the manager is a pair of
    optional machines and the trace of its outputs.  The simulation theorem says
    that every run of the code that respects the NULL preconditions is defined
    (no use after free, no NULL dereference, no uninitialised read), leaks no
    subscriber, and produces the outputs of the specification. *)
From S2P Require Import Prelude Agps.

(** ** Specification *)
Record ASub := MkASub { a_handle : Z; a_inactive : bool }.
Definition a_active (x : ASub) : bool := negb (a_inactive x).

(** The connection side of a machine. *)
Record AConn := MkConn {
  c_type : Z; c_mask : option Z; c_apn : option string; c_apnLen : Z; c_bearer : Z }.
Record ASm := MkASm { a_subs : list ASub; a_state : AgpsState; a_conn : AConn }.

Definition spec_open (c : AConn) (ok : Z) (x : ASub) : AgpsOut :=
  AtlOpenStatus (a_handle x) ok (c_apn c) (c_apnLen c) (c_bearer c) (c_type c)
    (default 0 (c_mask c)).
Definition spec_close (x : ASub) : AgpsOut := AtlCloseStatus (a_handle x) 1.
Definition spec_conn (c : AConn) (request : bool) : AgpsOut :=
  FrameworkStatus (c_type c) (default 0 (c_mask c))
    (if request then LOC_GPS_REQUEST_AGPS_DATA_CONN else LOC_GPS_RELEASE_AGPS_DATA_CONN).

Definition spec_add (h : Z) (l : list ASub) : list ASub :=
  if existsb (fun x => a_handle x =? h) l then l else l ++ [MkASub h false].

Fixpoint spec_deactivate (h : Z) (l : list ASub) : list ASub :=
  match l with
  | [] => []
  | x :: l => if a_handle x =? h then MkASub (a_handle x) true :: l else x :: spec_deactivate h l
  end.

Definition spec_subscribe (h : Z) (a : ASm) : ASm * list AgpsOut :=
  let c := a_conn a in
  let subs := spec_add h (a_subs a) in
  match a_state a with
  | AGPS_STATE_RELEASED => (MkASm subs AGPS_STATE_PENDING c, [spec_conn c true])
  | AGPS_STATE_ACQUIRED => (MkASm subs AGPS_STATE_ACQUIRED c, [spec_open c 1 (MkASub h false)])
  | AGPS_STATE_PENDING | AGPS_STATE_RELEASING => (MkASm subs (a_state a) c, [])
  | AGPS_STATE_INVALID => (a, [])
  end.

Definition spec_unsubscribe (h : Z) (a : ASm) : ASm * list AgpsOut :=
  let c := a_conn a in
  let subs := spec_deactivate h (a_subs a) in
  match a_state a with
  | AGPS_STATE_RELEASED => (a, [AtlCloseStatus h 1])
  | AGPS_STATE_PENDING | AGPS_STATE_ACQUIRED =>
      if existsb a_active subs then (MkASm subs (a_state a) c, [])
      else (MkASm subs AGPS_STATE_RELEASING c, [spec_conn c false])
  | AGPS_STATE_RELEASING => (MkASm subs AGPS_STATE_RELEASING c, [])
  | AGPS_STATE_INVALID => (a, [])
  end.

Definition spec_granted (a : ASm) : ASm * list AgpsOut :=
  match a_state a with
  | AGPS_STATE_PENDING =>
      (MkASm (a_subs a) AGPS_STATE_ACQUIRED (a_conn a),
       spec_open (a_conn a) 1 <$> List.filter a_active (a_subs a))
  | _ => (a, [])
  end.

Definition spec_finish (a : ASm) : ASm * list AgpsOut :=
  let c := a_conn a in
  let closed := spec_close <$> List.filter a_inactive (a_subs a) in
  match List.filter a_active (a_subs a) with
  | [] => (MkASm [] AGPS_STATE_RELEASED c, closed)
  | subs => (MkASm subs AGPS_STATE_PENDING c, closed ++ [spec_conn c true])
  end.

Definition spec_released (a : ASm) : ASm * list AgpsOut :=
  match a_state a with
  | AGPS_STATE_ACQUIRED =>
      (MkASm [] AGPS_STATE_RELEASED (a_conn a), spec_close <$> a_subs a)
  | AGPS_STATE_RELEASING => spec_finish a
  | _ => (a, [])
  end.

Definition spec_denied (a : ASm) : ASm * list AgpsOut :=
  match a_state a with
  | AGPS_STATE_PENDING =>
      (MkASm [] AGPS_STATE_RELEASED (a_conn a), spec_open (a_conn a) 0 <$> a_subs a)
  | AGPS_STATE_RELEASING => spec_finish a
  | _ => (a, [])
  end.

(** ** Specification of the manager *)
Record AMgr := MkAMgr { a_agnss : option ASm; a_internet : option ASm; a_outs : list AgpsOut }.
Definition newAMgr : AMgr := MkAMgr None None [].
Definition a_nif (n : Nif) (a : AMgr) : option ASm :=
  match n with AgnssNif => a_agnss a | InternetNif => a_internet a end.
Definition a_set (n : Nif) (m : option ASm) (o : list AgpsOut) (a : AMgr) : AMgr :=
  match n with
  | AgnssNif => MkAMgr m (a_internet a) (a_outs a ++ o)
  | InternetNif => MkAMgr (a_agnss a) m (a_outs a ++ o)
  end.

(** Apply a machine transition to a member; NULL members are left alone. *)
Definition a_on (n : Nif) (f : ASm -> ASm * list AgpsOut) (a : AMgr) : AMgr :=
  match a_nif n a with
  | None => a
  | Some m => let '(m', o) := f m in a_set n (Some m') o a
  end.

Definition set_request (ty mask : Z) (m : ASm) : ASm :=
  let c := a_conn m in
  MkASm (a_subs m) (a_state m) (MkConn ty (Some mask) (c_apn c) (c_apnLen c) (c_bearer c)).
Definition valid_apn (apn : option string) (len : Z) : option string * Z :=
  match apn with
  | Some str => if (MAX_APN_LEN <? len) || negb (Z.of_nat (String.length str) =? len)
                then (None, 0) else (Some str, len)
  | None => (None, 0)
  end.
Definition set_grant (apn : option string) (len bearer : Z) (m : ASm) : ASm :=
  let c := a_conn m in
  let '(apn, len) := valid_apn apn len in
  MkASm (a_subs m) (a_state m) (MkConn (c_type c) (c_mask c) apn len bearer).

Definition new_asm (ty : Z) : ASm :=
  MkASm [] AGPS_STATE_RELEASED (MkConn ty None None 0 AGPS_APN_BEARER_INVALID).

Definition has_handle (h : Z) (m : option ASm) : bool :=
  match m with Some m => existsb (fun x => a_handle x =? h) (a_subs m) | None => false end.

Definition spec_create (conf : GpsConf) (cb : AgpsCbInfo) (a : AMgr) : AMgr :=
  let capable := negb (Z.land (CAPABILITIES conf) LOC_GPS_CAPABILITY_MSA =? 0)
              || negb (Z.land (CAPABILITIES conf) LOC_GPS_CAPABILITY_MSB =? 0) in
  let has t := negb (Z.land (atlType cb) t =? 0) in
  let create (want : bool) ty (m : option ASm) :=
    match m with None => if want then Some (new_asm ty) else None | Some m => Some m end in
  MkAMgr
    (create (capable && (has AGPS_ATL_TYPE_SUPL && has AGPS_ATL_TYPE_SUPL_ES))
       LOC_AGPS_TYPE_SUPL (a_agnss a))
    (create (has AGPS_ATL_TYPE_WWAN) LOC_AGPS_TYPE_WWAN_ANY (a_internet a)) (a_outs a).

Definition amgr_step (conf : GpsConf) (o : MgrOp) (a : AMgr) : AMgr :=
  match o with
  | OpCreate cb => spec_create conf cb a
  | OpRequestATL h ty0 mask0 =>
      let '(ty, mask) := effectiveRequest conf ty0 mask0 in
      let n := getAgpsStateMachine ty in
      match a_nif n a with
      | None => MkAMgr (a_agnss a) (a_internet a)
                  (a_outs a ++ [AtlOpenStatus h 0 None 0 AGPS_APN_BEARER_INVALID ty mask])
      | Some _ => a_on n (fun m => spec_subscribe h (set_request ty mask m)) a
      end
  | OpReleaseATL h =>
      if has_handle h (a_agnss a) then a_on AgnssNif (spec_unsubscribe h) a
      else if has_handle h (a_internet a) then a_on InternetNif (spec_unsubscribe h) a
      else a
  | OpOpenSuccess ty apn len b =>
      a_on (getAgpsStateMachine ty) (fun m => spec_granted (set_grant apn (u32 len) b m)) a
  | OpOpenFailed ty => a_on (getAgpsStateMachine ty) spec_denied a
  | OpClosed ty => a_on (getAgpsStateMachine ty) spec_released a
  | OpModemSSR =>
      let drop m := (MkASm [] (a_state m) (a_conn m), []) in
      a_on InternetNif drop (a_on AgnssNif drop a)
  end.

(** The preconditions of the code: the framework reports an event only for a
    machine that exists, and registers a non-NULL callback. *)
Definition amgr_ok (a : AMgr) (o : MgrOp) : Prop :=
  match o with
  | OpCreate cb => statusV4Cb cb = true
  | OpOpenSuccess ty _ _ _ | OpOpenFailed ty | OpClosed ty =>
      a_nif (getAgpsStateMachine ty) a <> None
  | OpRequestATL _ _ _ | OpReleaseATL _ | OpModemSSR => True
  end.

(** ** Refinement relation *)

(** [owned h hf ps]: [h] is the store [hf] of the other live objects plus the
    objects of [ps], each pointer of [ps] once. *)
Definition owned (h hf : gmap ptr AgpsSubscriber) (ps : list (ptr * AgpsSubscriber)) : Prop :=
  NoDup ps.*1 /\
  (forall p x, (p, x) ∈ ps -> h !! p = Some x /\ hf !! p = None) /\
  (forall p, p ∉ ps.*1 -> h !! p = hf !! p).

Definition view (x : AgpsSubscriber) : ASub := MkASub (mConnHandle x) (mIsInactive x).

Definition conn_of (m : AgpsStateMachine) : AConn :=
  MkConn (mAgpsType m) (mApnTypeMask m) (mAPN m) (mAPNLen m) (mBearer m).

(** The machine [m] with list [ps] represents [a]. *)
Definition sm_rep (m : AgpsStateMachine) (ps : list (ptr * AgpsSubscriber)) (a : ASm) : Prop :=
  mSubscriberList m = ps.*1 /\ a_subs a = view <$> ps.*2 /\
  Forall (fun x => mWaitForCloseComplete x = true) ps.*2 /\
  mState m = a_state a /\ conn_of m = a_conn a /\ mFrameworkStatusV4Cb m = true /\
  (mState m <> AGPS_STATE_RELEASED -> is_Some (mApnTypeMask m)).

Definition sm_rel (hf : gmap ptr AgpsSubscriber) (s : SmSt) (a : ASm) (o : list AgpsOut) : Prop :=
  exists ps, owned (heap s) hf ps /\ sm_rep (sm s) ps a /\ outs s = o.

Definition opt_rep (m : option AgpsStateMachine) (ps : list (ptr * AgpsSubscriber))
    (a : option ASm) : Prop :=
  match m, a with
  | Some m, Some a => sm_rep m ps a
  | None, None => ps = []
  | _, _ => False
  end.

(** The manager relation: the store holds exactly the objects of the two lists
    (nothing leaks), and the traces agree. *)
Definition mgr_rel (g : AgpsManager) (a : AMgr) : Prop :=
  exists ps1 ps2, owned (mheap g) ∅ (ps1 ++ ps2) /\
    opt_rep (mAgnssNif g) ps1 (a_agnss a) /\ opt_rep (mInternetNif g) ps2 (a_internet a) /\
    mouts g = a_outs a.

(** ** Reachable states of the code *)

(** [amgr_ok] on the code's state. *)
Definition mgr_ok (g : AgpsManager) (o : MgrOp) : Prop :=
  match o with
  | OpCreate cb => statusV4Cb cb = true
  | OpOpenSuccess ty _ _ _ | OpOpenFailed ty | OpClosed ty =>
      nif (getAgpsStateMachine ty) g <> None
  | OpRequestATL _ _ _ | OpReleaseATL _ | OpModemSSR => True
  end.

Inductive reachable (conf : GpsConf) : AgpsManager -> Prop :=
  | reach_init : reachable conf newManager
  | reach_step g o g' :
      reachable conf g -> mgr_ok g o -> mgr_step conf o g = Some (tt, g') -> reachable conf g'.

(** The framework requests of one member, in order. *)
Definition fw_status (n : Nif) (o : AgpsOut) : option Z :=
  match o with
  | FrameworkStatus ty _ st => if decide (getAgpsStateMachine ty = n) then Some st else None
  | _ => None
  end.
Definition fw_trace (n : Nif) (l : list AgpsOut) : list Z := omap (fw_status n) l.

#[global] Arguments fw_trace : simpl never.

(** A release is only sent for an outstanding request. *)
Definition conn_protocol (l : list Z) : Prop :=
  forall pre post, l = pre ++ LOC_GPS_RELEASE_AGPS_DATA_CONN :: post ->
    last pre = Some LOC_GPS_REQUEST_AGPS_DATA_CONN.

(** Invariant of a specification machine of member [n], with the trace of its
    framework requests. *)
Definition asm_inv (n : Nif) (m : ASm) (fw : list Z) : Prop :=
  NoDup (a_handle <$> a_subs m) /\
  getAgpsStateMachine (c_type (a_conn m)) = n /\
  conn_protocol fw /\
  match a_state m with
  | AGPS_STATE_INVALID => False
  | AGPS_STATE_RELEASED => a_subs m = []
  | AGPS_STATE_PENDING | AGPS_STATE_ACQUIRED =>
      (a_subs m = [] \/ existsb a_active (a_subs m) = true) /\
      last fw = Some LOC_GPS_REQUEST_AGPS_DATA_CONN
  | AGPS_STATE_RELEASING => last fw = Some LOC_GPS_RELEASE_AGPS_DATA_CONN
  end.

Definition amgr_inv (a : AMgr) : Prop :=
  forall n, match a_nif n a with
            | Some m => asm_inv n m (fw_trace n (a_outs a))
            | None => fw_trace n (a_outs a) = []
            end.

(** How many times a handle is told the outcome [ok] of its open request. *)
Definition open_count (h ok : Z) (l : list AgpsOut) : nat :=
  length (List.filter (fun o => match o with
    | AtlOpenStatus h' ok' _ _ _ _ _ => (h' =? h) && (ok' =? ok) | _ => false end) l).
