(* ===== verification/AgpsRefine.v ===== *)
(** * AGPS: the code refines its specification

    Effect of each state-machine method on the store, the simulation of the
    manager operations, and the properties of the reachable states. *)
From S2P Require Import Prelude Agps AgpsSpec.

(** ** Owned objects *)
Lemma owned_lookup h hf ps p x : owned h hf ps -> (p, x) ∈ ps -> h !! p = Some x.
Proof. intros (_ & H & _) Hin. by apply H. Qed.

Lemma owned_perm h hf ps ps' : ps ≡ₚ ps' -> owned h hf ps -> owned h hf ps'.
Proof.
  intros Hp (H1 & H2 & H3). split_and!.
  - by rewrite <- Hp.
  - intros p x Hin. apply H2. by rewrite Hp.
  - intros p Hp'. apply H3. by rewrite Hp.
Qed.

(** Changing an owned object. *)
Lemma owned_store h hf ps1 p x y ps2 :
  owned h hf (ps1 ++ (p, x) :: ps2) -> owned (<[p := y]> h) hf (ps1 ++ (p, y) :: ps2).
Proof.
  unfold owned. intros (H1 & H2 & H3). rewrite fmap_app, fmap_cons in *; simpl in *.
  split_and!; [done| |].
  - intros q z Hin. assert (Hdup := H1). apply NoDup_app in H1 as (_ & Hd & Hn).
    apply NoDup_cons in Hn as [Hp2 _].
    destruct (decide (q = p)) as [->|Hq].
    + rewrite lookup_insert_eq.
      assert (z = y) as ->.
      { apply elem_of_app in Hin as [Hin|[[= ->]|Hin]%elem_of_cons]; [|done|].
        - destruct (Hd p); [by apply elem_of_fst in Hin|set_solver].
        - by apply elem_of_fst in Hin. }
      split; [done|]. eapply (H2 p x). set_solver.
    + rewrite lookup_insert_ne by done. apply H2. set_solver.
  - intros q Hq. rewrite lookup_insert_ne by set_solver. apply H3. set_solver.
Qed.

(** Freeing an owned object. *)
Lemma owned_delete h hf ps1 p x ps2 :
  owned h hf (ps1 ++ (p, x) :: ps2) -> owned (delete p h) hf (ps1 ++ ps2).
Proof.
  intros Ho. assert (Hp : ps1 ++ (p, x) :: ps2 ≡ₚ (p, x) :: ps1 ++ ps2).
  { by rewrite Permutation_middle. }
  apply (owned_perm _ _ _ _ Hp) in Ho as (H1 & H2 & H3). simpl in *.
  apply NoDup_cons in H1 as [Hp1 H1]. split_and!; [done| |].
  - intros q y Hin. rewrite lookup_delete_ne; [apply H2; set_solver|].
    intros ->. by apply elem_of_fst in Hin.
  - intros q Hq. destruct (decide (q = p)) as [->|Hne].
    + rewrite lookup_delete_eq. symmetry. eapply (H2 p x). set_solver.
    + rewrite lookup_delete_ne by done. apply H3. set_solver.
Qed.

(** Allocating a new object at the end of the list. *)
Lemma owned_alloc h hf ps p x :
  h !! p = None -> owned h hf ps -> owned (<[p := x]> h) hf (ps ++ [(p, x)]).
Proof.
  intros Hp (H1 & H2 & H3).
  assert (Hnot : p ∉ ps.*1).
  { intros (y & Hin)%elem_of_fst_inv.
    apply H2 in Hin as [Hin _]. congruence. }
  split_and!.
  - rewrite fmap_app. apply NoDup_app. split_and!; [done|set_solver|].
    apply NoDup_singleton.
  - intros q y [Hin|Hin]%elem_of_app.
    + assert (q <> p) by (intros ->; by apply elem_of_fst in Hin).
      rewrite lookup_insert_ne by done. by apply H2.
    + apply list_elem_of_singleton in Hin as [= -> ->]. rewrite lookup_insert_eq.
      split; [done|]. rewrite <- H3 by done. done.
  - intros q Hq. rewrite fmap_app in Hq. rewrite lookup_insert_ne by set_solver.
    apply H3. set_solver.
Qed.

(** Another object, not owned by the list, comes and goes (the stack object of
    [requestATL]). *)
Lemma owned_frame_alloc h hf ps p x :
  h !! p = None -> owned h hf ps -> owned (<[p := x]> h) (<[p := x]> hf) ps.
Proof.
  intros Hp (H1 & H2 & H3). split_and!; [done| |].
  - intros q y Hin. destruct (H2 _ _ Hin).
    rewrite !lookup_insert_ne by congruence. done.
  - intros q Hq. destruct (decide (q = p)) as [->|];
      [by rewrite !lookup_insert_eq|rewrite !lookup_insert_ne by done; by apply H3].
Qed.
Lemma owned_frame_free h hf ps p x :
  hf !! p = None -> owned h (<[p := x]> hf) ps -> owned (delete p h) hf ps.
Proof.
  intros Hp (H1 & H2 & H3).
  assert (Hnot : p ∉ ps.*1).
  { intros (y & Hin)%elem_of_fst_inv.
    apply H2 in Hin as [_ Hin]. by rewrite lookup_insert_eq in Hin. }
  split_and!; [done| |].
  - intros q y Hin. assert (q <> p) by (intros ->; by apply elem_of_fst in Hin).
    rewrite lookup_delete_ne by done. destruct (H2 _ _ Hin) as [? Hq].
    by rewrite lookup_insert_ne in Hq by done.
  - intros q Hq. destruct (decide (q = p)) as [->|].
    + by rewrite lookup_delete_eq.
    + rewrite lookup_delete_ne by done. rewrite H3 by done. by rewrite lookup_insert_ne.
Qed.
Lemma owned_frame_lookup h hf ps p x :
  hf !! p = Some x -> owned h hf ps -> h !! p = Some x.
Proof.
  intros Hp (H1 & H2 & H3). rewrite H3; [done|].
  intros (y & Hin)%elem_of_fst_inv.
  apply H2 in Hin as [_ Hin]. congruence.
Qed.

(** Splitting the store of the manager between its two machines. *)
Lemma owned_split h ps1 ps2 :
  owned h ∅ (ps1 ++ ps2) <-> NoDup ps2.*1 /\ owned h (list_to_map ps2) ps1.
Proof.
  unfold owned. rewrite fmap_app, NoDup_app. split.
  - intros ((H1 & Hd & Hn) & H2 & H3). split_and!; [done..| |].
    + intros p x Hin. split; [apply H2; set_solver|].
      apply not_elem_of_list_to_map. apply Hd. by apply elem_of_fst in Hin.
    + intros p Hp. destruct (list_to_map ps2 !! p) as [y|] eqn:E.
      * apply elem_of_list_to_map in E; [|done]. apply H2. set_solver.
      * apply not_elem_of_list_to_map in E. rewrite H3 by set_solver. apply lookup_empty.
  - intros (Hn & H1 & H2 & H3). split_and!; [done| |done| |].
    + intros p (y & Hin)%elem_of_fst_inv.
      apply H2 in Hin as [_ Hin]. by apply not_elem_of_list_to_map in Hin.
    + intros p x [Hin|Hin]%elem_of_app; (split; [|apply lookup_empty]); [by apply H2|].
      apply elem_of_list_to_map in Hin as Hl; [|done]. rewrite H3; [done|].
      intros (y & Hin1)%elem_of_fst_inv.
      apply H2 in Hin1 as [_ Hin1]. congruence.
    + intros p Hp. rewrite H3 by set_solver. rewrite lookup_empty.
      apply not_elem_of_list_to_map. set_solver.
Qed.

(** ** Effect of the methods *)

(** Running a bind whose first computation is known. *)
Lemma run_bind {S A B} (m : CM S A) (f : A -> CM S B) s a s' :
  m s = Some (a, s') -> (m ≫= f) s = f a s'.
Proof. unfold mbind, cm_bind. by intros ->. Qed.

Definition live (s : SmSt) (ps : list (ptr * AgpsSubscriber)) : Prop :=
  forall p x, (p, x) ∈ ps -> heap s !! p = Some x.

Lemma live_cons s p x ps : live s ((p, x) :: ps) <-> heap s !! p = Some x /\ live s ps.
Proof. unfold live. set_solver. Qed.

Lemma load_run s p x : heap s !! p = Some x -> load p s = Some (x, s).
Proof. intros H. unfold load, mbind, cm_bind, get, deref. by rewrite H. Qed.

Lemma anyActive_run s ps :
  live s ps -> anyActiveFrom ps.*1 s = Some (existsb a_active (view <$> ps.*2), s).
Proof.
  induction ps as [|[p x] ps IH]; [done|]. intros [Hp Hl]%live_cons. simpl.
  rewrite (run_bind _ _ _ _ _ (load_run _ _ _ Hp)). unfold a_active at 1. simpl.
  destruct (mIsInactive x); simpl; [by apply IH|done].
Qed.

Lemma anyEquals_run s ps q y :
  live s ps -> heap s !! q = Some y ->
  anyEquals ps.*1 q s =
    Some (existsb (fun x => a_handle x =? mConnHandle y) (view <$> ps.*2), s).
Proof.
  intros Hl Hq. induction ps as [|[p x] ps IH]; [done|].
  apply live_cons in Hl as [Hp Hl]. simpl.
  rewrite (run_bind _ _ _ _ _ (load_run _ _ _ Hp)), (run_bind _ _ _ _ _ (load_run _ _ _ Hq)).
  destruct (mConnHandle x =? mConnHandle y); simpl; auto.
Qed.
(** [getSubscriber]: NULL when the handle is absent, otherwise the first
    subscriber with the handle. *)
Lemma findHandle_run s ps h :
  live s ps ->
  (existsb (fun x => a_handle x =? h) (view <$> ps.*2) = false /\
   findHandle ps.*1 h s = Some (None, s)) \/
  (exists ps1 p x ps2, ps = ps1 ++ (p, x) :: ps2 /\ mConnHandle x = h /\
     existsb (fun x => a_handle x =? h) (view <$> ps.*2) = true /\
     spec_deactivate h (view <$> ps.*2) = view <$> (ps1 ++ (p, setInactive x) :: ps2).*2 /\
     findHandle ps.*1 h s = Some (Some p, s)).
Proof.
  induction ps as [|[p x] ps IH]; [by left|]. intros [Hp Hl]%live_cons. simpl.
  rewrite (run_bind _ _ _ _ _ (load_run _ _ _ Hp)).
  destruct (Z.eqb_spec (mConnHandle x) h) as [Hh|Hh]; simpl.
  - right. by exists [], p, x, ps.
  - destruct (IH Hl) as [[??]|(ps1 & q & y & ps2 & -> & ? & ? & Hd & ?)]; [by left|].
    right. exists ((p, x) :: ps1), q, y, ps2.
    split_and!; [done..| |done]. simpl. f_equal. exact Hd.
Qed.

(** State after a list method: the store, the list and the outputs change. *)
Definition upd (s : SmSt) (h : gmap ptr AgpsSubscriber) (l : list ptr) (o : list AgpsOut) : SmSt :=
  MkSmSt h (set_mSubscriberList l (sm s)) (outs s ++ o).

Lemma upd_id s : upd s (heap s) (mSubscriberList (sm s)) [] = s.
Proof. unfold upd, set_mSubscriberList. rewrite app_nil_r. by destruct s as [? []]. Qed.

Lemma addSubscriber_run h hf ps q y :
  owned h hf ps -> hf !! q = Some y ->
  exists p, h !! p = None /\
    forall s, heap s = h -> mSubscriberList (sm s) = ps.*1 ->
    addSubscriber q s =
      if existsb (fun x => a_handle x =? mConnHandle y) (view <$> ps.*2)
      then Some (tt, s)
      else Some (tt, upd s (<[p := y]> h) (ps ++ [(p, y)]).*1 []).
Proof.
  intros Ho Hq. assert (Hy := owned_frame_lookup _ _ _ _ _ Hq Ho).
  exists (fresh (dom h)). split; [apply not_elem_of_dom, is_fresh|].
  intros s <- Hl. unfold addSubscriber. rewrite (run_bind get _ _ s s) by done. rewrite Hl.
  rewrite (run_bind _ _ _ _ _ (anyEquals_run s ps q y ltac:(intros ??; by apply (owned_lookup _ _ _ _ _ Ho)) Hy)).
  destruct (existsb _ _); [done|].
  rewrite (run_bind _ _ _ _ _ (load_run _ _ _ Hy)). unfold upd.
  rewrite fmap_app, app_nil_r, <- Hl. done.
Qed.

(** The message a subscriber is notified with. *)
Definition notice (m : AgpsStateMachine) (ev : AgpsEvent) (x : AgpsSubscriber) : list AgpsOut :=
  match ev with
  | AGPS_EVENT_GRANTED => [spec_open (conn_of m) 1 (view x)]
  | AGPS_EVENT_DENIED => [spec_open (conn_of m) 0 (view x)]
  | AGPS_EVENT_UNSUBSCRIBE | AGPS_EVENT_RELEASED => [spec_close (view x)]
  | AGPS_EVENT_INVALID | AGPS_EVENT_SUBSCRIBE => []
  end.

Lemma notifyEvent_run s ev p x :
  heap s !! p = Some x ->
  match ev with
  | AGPS_EVENT_GRANTED | AGPS_EVENT_DENIED => is_Some (mApnTypeMask (sm s))
  | _ => True
  end ->
  notifyEventToSubscriber ev p false s =
    Some (tt, MkSmSt (heap s) (sm s) (outs s ++ notice (sm s) ev x)).
Proof.
  intros Hp Hm. unfold notifyEventToSubscriber.
  assert (Hret : Some (tt, s) = Some (tt, MkSmSt (heap s) (sm s) (outs s ++ []))).
  { rewrite app_nil_r. by destruct s. }
  destruct ev; unfold mbind, cm_bind; rewrite ?(load_run _ _ _ Hp); simpl; try done;
    destruct Hm as [m Hm];
    unfold atlOpen, mbind, cm_bind, get, deref, spec_open; simpl; by rewrite Hm.
Qed.

Lemma notify_keep_run s ev ty kept ps :
  live s ps -> is_Some (mApnTypeMask (sm s)) ->
  notifyFrom ev false ty kept ps.*1 s =
    Some (tt, MkSmSt (heap s) (sm s)
                (outs s ++ concat (notice (sm s) ev <$> List.filter (concerned ty) ps.*2))).
Proof.
  intros Hl Hm. revert kept s Hl Hm. induction ps as [|[p x] ps IH]; intros kept s Hl Hm.
  - simpl. rewrite app_nil_r. by destruct s.
  - apply live_cons in Hl as [Hp Hl]. simpl.
    rewrite (run_bind _ _ _ _ _ (load_run _ _ _ Hp)).
    destruct (concerned ty x); simpl; [|by apply IH].
    rewrite (run_bind _ _ _ _ _ (notifyEvent_run _ ev _ _ Hp ltac:(by destruct ev))), IH by done.
    simpl. by rewrite <- app_assoc.
Qed.

Definition kept_by (ty : AgpsNotificationType) (ps : list (ptr * AgpsSubscriber)) :=
  List.filter (fun px => negb (concerned ty px.2)) ps.

Lemma notify_delete_run s hf ev ty kept ps :
  owned (heap s) hf (kept ++ ps) -> mSubscriberList (sm s) = (kept ++ ps).*1 ->
  is_Some (mApnTypeMask (sm s)) ->
  exists h', owned h' hf (kept ++ kept_by ty ps) /\
    notifyFrom ev true ty kept.*1 ps.*1 s =
      Some (tt, upd s h' (kept ++ kept_by ty ps).*1
                  (concat (notice (sm s) ev <$> List.filter (concerned ty) ps.*2))).
Proof.
  revert s kept. induction ps as [|[p x] ps IH]; intros s kept Ho Hl Hm.
  - exists (heap s). split; [done|]. simpl. by rewrite <- Hl, upd_id.
  - assert (Hp : heap s !! p = Some x) by (eapply owned_lookup; [done|set_solver]).
    rewrite (fmap_cons fst). unfold kept_by. cbn [fst snd notifyFrom List.filter].
    rewrite (run_bind _ _ _ _ _ (load_run _ _ _ Hp)), (fmap_cons snd).
    cbn [snd List.filter]. destruct (concerned ty x) eqn:Hc; cbn [negb].
    + rewrite (run_bind _ _ _ _ _ (notifyEvent_run _ ev _ _ Hp ltac:(by destruct ev))).
      set (s1 := upd s (delete p (heap s)) (kept.*1 ++ ps.*1) (notice (sm s) ev x)).
      assert (Hd : forall f : unit -> SmM unit,
        (with_sm (set_mSubscriberList (kept.*1 ++ ps.*1)) ≫= fun _ => delete_sub p ≫= f)
          (MkSmSt (heap s) (sm s) (outs s ++ notice (sm s) ev x)) = f tt s1).
      { intros f. unfold delete_sub, mbind, cm_bind, with_sm, modify, load, get, deref. simpl.
        unfold mbind, cm_bind. simpl. by rewrite Hp. }
      rewrite Hd. destruct (IH s1 kept) as (h' & Ho' & ->).
      * by eapply owned_delete.
      * simpl. by rewrite fmap_app.
      * done.
      * exists h'. split; [done|]. unfold upd. simpl. by rewrite <- app_assoc.
    + destruct (IH s (kept ++ [(p, x)])) as (h' & Ho' & Hr).
      * by rewrite <- app_assoc.
      * by rewrite <- app_assoc.
      * done.
      * exists h'. rewrite <- app_assoc in *. split; [done|].
        rewrite fmap_app in Hr. exact Hr.
Qed.

Lemma drop_run s hf ps :
  owned (heap s) hf ps -> mSubscriberList (sm s) = ps.*1 ->
  exists h', owned h' hf [] /\ dropFrom ps.*1 s = Some (tt, upd s h' [] []).
Proof.
  revert s. induction ps as [|[p x] ps IH]; intros s Ho Hl.
  - exists (heap s). split; [done|]. simpl in *. by rewrite <- Hl, upd_id.
  - assert (Hp : heap s !! p = Some x) by (eapply owned_lookup; [done|set_solver]).
    destruct (IH (upd s (delete p (heap s)) ps.*1 [])) as (h' & Ho' & Hr).
    + apply (owned_delete _ _ [] p x ps Ho).
    + done.
    + exists h'. split; [done|]. unfold upd in Hr. simpl in Hr.
      rewrite app_nil_r in Hr. rewrite (fmap_cons fst). cbn [fst dropFrom].
      unfold delete_sub, mbind, cm_bind, with_sm, modify, load, get, deref; simpl.
      unfold mbind, cm_bind; simpl. rewrite Hp. cbn [heap sm outs].
      rewrite Hr. unfold upd; simpl. by rewrite app_nil_r.
Qed.

(** ** Simulation of the machine methods *)
Definition sm_sim (hf : gmap ptr AgpsSubscriber) (m : SmM unit)
    (f : ASm -> ASm * list AgpsOut) : Prop :=
  forall s a o, sm_rel hf s a o -> a_state a <> AGPS_STATE_RELEASED ->
    wp m (fun _ s' => sm_rel hf s' (f a).1 (o ++ (f a).2)) s.

(** The outputs of a notification, in the terms of the specification. *)
Lemma notices_open m c ok ev l :
  conn_of m = c -> (forall x, notice m ev x = [spec_open (conn_of m) ok (view x)]) ->
  concat (notice m ev <$> l) = spec_open c ok <$> (view <$> l).
Proof. intros <- Hn. induction l as [|x l IH]; [done|]. csimpl. rewrite Hn, IH. done. Qed.

Lemma notices_close m l :
  concat (notice m AGPS_EVENT_RELEASED <$> l) = spec_close <$> (view <$> l).
Proof. induction l as [|x l IH]; [done|]. csimpl. by rewrite IH. Qed.

Lemma filter_view (f : ASub -> bool) (g : AgpsSubscriber -> bool) l :
  (forall x, f (view x) = g x) -> List.filter f (view <$> l) = view <$> List.filter g l.
Proof.
  intros H. induction l as [|x l IH]; [done|]. csimpl. rewrite H. destruct (g x); csimpl; by rewrite IH.
Qed.

Lemma filter_snd (g : AgpsSubscriber -> bool) (ps : list (ptr * AgpsSubscriber)) :
  (List.filter (fun px => g px.2) ps).*2 = List.filter g ps.*2.
Proof. induction ps as [|[p x] ps IH]; [done|]. csimpl. destruct (g x); csimpl; by rewrite IH. Qed.

Lemma Forall_filter {A} (P : A -> Prop) f (l : list A) : Forall P l -> Forall P (List.filter f l).
Proof. rewrite !Forall_forall. intros H x [? ?]%list_elem_of_In%filter_In. apply H. by apply list_elem_of_In. Qed.

Lemma filter_all {A} (l : list A) : List.filter (fun _ => true) l = l.
Proof. induction l; csimpl; congruence. Qed.
Lemma filter_none {A} (l : list A) : List.filter (fun _ => false) l = [].
Proof. induction l; csimpl; congruence. Qed.

Lemma owned_live s hf ps : owned (heap s) hf ps -> live s ps.
Proof. intros Ho p x. by eapply owned_lookup. Qed.

(** The relation after a method that replaced the list, the state and the
    outputs. *)
Lemma sm_rel_intro hf h l st o s ps a :
  owned h hf ps -> l = ps.*1 -> a_subs a = view <$> ps.*2 ->
  Forall (fun x => mWaitForCloseComplete x = true) ps.*2 -> st = a_state a ->
  conn_of (sm s) = a_conn a -> mFrameworkStatusV4Cb (sm s) = true ->
  (st <> AGPS_STATE_RELEASED -> is_Some (mApnTypeMask (sm s))) ->
  sm_rel hf (MkSmSt h (set_mState st (set_mSubscriberList l (sm s))) o) a o.
Proof. intros ? -> ??????. exists ps. unfold sm_rep. by split_and!. Qed.

Lemma conn_mask m a : conn_of m = a -> is_Some (mApnTypeMask m) ->
  mApnTypeMask m = Some (default 0 (c_mask a)).
Proof. intros <- [x Hx]. simpl. by rewrite Hx. Qed.

Lemma reqConn_run b s a :
  conn_of (sm s) = a -> mFrameworkStatusV4Cb (sm s) = true -> is_Some (mApnTypeMask (sm s)) ->
  requestOrReleaseDataConn b s =
    Some (tt, MkSmSt (heap s) (sm s) (outs s ++ [spec_conn a b])).
Proof.
  intros Ha Hcb Hm. unfold requestOrReleaseDataConn, mbind, cm_bind, get, deref.
  rewrite (conn_mask _ _ Ha Hm), Hcb. by rewrite <- Ha.
Qed.

Lemma transition_reqConn_run st b s a :
  conn_of (sm s) = a -> mFrameworkStatusV4Cb (sm s) = true -> is_Some (mApnTypeMask (sm s)) ->
  (transitionState st ≫= fun _ => requestOrReleaseDataConn b) s =
    Some (tt, MkSmSt (heap s) (set_mState st (sm s)) (outs s ++ [spec_conn a b])).
Proof.
  intros. erewrite run_bind by done.
  by apply (reqConn_run b (MkSmSt (heap s) (set_mState st (sm s)) (outs s))).
Qed.

Lemma cur_run s q : mCurrentSubscriber (sm s) = Some q -> currentSubscriber s = Some (q, s).
Proof. intros H. unfold currentSubscriber, mbind, cm_bind, get, deref. by rewrite H. Qed.

(** What [addSubscriber] does to the specification list. *)
Lemma addSubscriber_sim h hf ps q y :
  owned h hf ps -> hf !! q = Some y ->
  mIsInactive y = false -> mWaitForCloseComplete y = true ->
  Forall (fun x => mWaitForCloseComplete x = true) ps.*2 ->
  exists h' ps', owned h' hf ps' /\
    spec_add (mConnHandle y) (view <$> ps.*2) = view <$> ps'.*2 /\
    Forall (fun x => mWaitForCloseComplete x = true) ps'.*2 /\
    forall s, heap s = h -> mSubscriberList (sm s) = ps.*1 ->
      addSubscriber q s = Some (tt, upd s h' ps'.*1 []).
Proof.
  intros Ho Hq Hi Hw Hall. destruct (addSubscriber_run h hf ps q y Ho Hq) as (p & Hp & Hr).
  unfold spec_add. destruct (existsb _ _).
  - exists h, ps. split_and!; [done..|]. intros s <- Hl. by rewrite Hr, <- Hl, upd_id.
  - exists (<[p:=y]> h), (ps ++ [(p, y)]).
    split_and!; [by apply owned_alloc| | |done].
    + rewrite !fmap_app. unfold view at 3. csimpl. by rewrite Hi.
    + rewrite fmap_app. apply Forall_app. split; [done|]. by repeat constructor.
Qed.

Ltac rep_solve qs :=
  exists qs; unfold upd, sm_rep; simpl; rewrite ?app_nil_r;
  split_and!; try done; try congruence; eauto.
Ltac run_with H := rewrite (run_bind _ _ _ _ _ H); cbn [heap sm outs].

Lemma subscribe_sim hf s a o q y :
  sm_rel hf s a o -> mCurrentSubscriber (sm s) = Some q -> hf !! q = Some y ->
  mIsInactive y = false -> mWaitForCloseComplete y = true -> is_Some (mApnTypeMask (sm s)) ->
  wp processAgpsEventSubscribe (fun _ s' =>
    sm_rel hf s' (spec_subscribe (mConnHandle y) a).1 (o ++ (spec_subscribe (mConnHandle y) a).2)) s.
Proof.
  intros (ps & Ho & (Hl & Hs & Hw & Hst & Hc & Hcb & Hm0) & <-) Hq Hy Hi Hwy Hm.
  apply wp_run_unit.
  unfold processAgpsEventSubscribe, spec_subscribe. rewrite Hs. run_with (eq_refl : get s = Some (s, s)).
  destruct (addSubscriber_sim (heap s) hf ps q y Ho Hy Hi Hwy Hw) as (h' & ps' & Ho' & -> & Hw' & Ha).
  rewrite Hst. destruct (a_state a) eqn:Ea; cbn [fst snd]; rewrite ?app_nil_r;
    [|run_with (cur_run _ _ Hq)..].
  - exists s. split; [done|]. rep_solve ps.
  - run_with (Ha s eq_refl Hl).
    run_with (reqConn_run true (upd s h' ps'.*1 []) _ Hc Hcb Hm). eexists; split; [done|].
    simpl. rewrite app_nil_r. by apply (sm_rel_intro _ _ _ _ _ _ ps').
  - rewrite (Ha s eq_refl Hl). eexists; split; [done|]. rep_solve ps'.
  - assert (Hp := owned_frame_lookup _ _ _ _ _ Hy Ho).
    run_with (notifyEvent_run s AGPS_EVENT_GRANTED q y Hp Hm).
    rewrite Ha by done. eexists; split; [done|]. rep_solve ps'.
    rewrite Hc. unfold view. by rewrite Hi.
  - rewrite (Ha s eq_refl Hl). eexists; split; [done|]. rep_solve ps'.
Qed.

Lemma anyActive_spec s hf ps :
  owned (heap s) hf ps -> mSubscriberList (sm s) = ps.*1 ->
  anyActiveSubscribers s = Some (existsb a_active (view <$> ps.*2), s).
Proof.
  intros Ho Hl. unfold anyActiveSubscribers. rewrite (run_bind get _ _ s s) by done.
  rewrite Hl. apply anyActive_run. by eapply owned_live.
Qed.

Lemma listEmpty_run s : listEmpty s =
  Some (match mSubscriberList (sm s) with [] => true | _ => false end, s).
Proof. done. Qed.

Lemma dropOrDeactivate_run s p x :
  heap s !! p = Some x -> mWaitForCloseComplete x = true ->
  dropOrDeactivate p s = Some (tt, MkSmSt (<[p := setInactive x]> (heap s)) (sm s) (outs s)).
Proof.
  intros Hp Hw. unfold dropOrDeactivate. run_with (load_run _ _ _ Hp). by rewrite Hw.
Qed.

Lemma unsubscribe_sim hf s a o ps1 p x ps2 :
  owned (heap s) hf (ps1 ++ (p, x) :: ps2) -> sm_rep (sm s) (ps1 ++ (p, x) :: ps2) a ->
  outs s = o -> mCurrentSubscriber (sm s) = Some p ->
  spec_deactivate (mConnHandle x) (a_subs a) = view <$> (ps1 ++ (p, setInactive x) :: ps2).*2 ->
  wp processAgpsEventUnsubscribe (fun _ s' =>
    sm_rel hf s' (spec_unsubscribe (mConnHandle x) a).1
      (o ++ (spec_unsubscribe (mConnHandle x) a).2)) s.
Proof.
  intros Ho (Hl & Hs & Hw & Hst & Hc & Hcb & Hm) <- Hq Hd.
  assert (Hp : heap s !! p = Some x) by (eapply owned_lookup; [done|set_solver]).
  assert (Hwx : mWaitForCloseComplete x = true).
  { rewrite fmap_app in Hw. by apply Forall_app in Hw as [_ [? _]%Forall_cons]. }
  assert (Ho' := owned_store _ _ _ _ _ (setInactive x) _ Ho).
  set (ps' := ps1 ++ (p, setInactive x) :: ps2) in *.
  assert (Hl' : mSubscriberList (sm s) = ps'.*1) by (rewrite Hl; unfold ps'; by rewrite !fmap_app).
  assert (Hw' : Forall (fun x => mWaitForCloseComplete x = true) ps'.*2).
  { revert Hw. unfold ps'. rewrite !fmap_app. csimpl. rewrite !Forall_app, !Forall_cons. done. }
  set (s1 := MkSmSt (<[p := setInactive x]> (heap s)) (sm s) (outs s)).
  assert (Ha := anyActive_spec s1 hf ps' Ho' Hl').
  assert (He : listEmpty s1 = Some (false, s1)).
  { rewrite listEmpty_run. simpl. rewrite Hl. by destruct ps1. }
  apply wp_run_unit. unfold processAgpsEventUnsubscribe, spec_unsubscribe.
  run_with (eq_refl : get s = Some (s, s)). rewrite Hd, Hst.
  destruct (a_state a) eqn:Ea; cbn [fst snd]; [|run_with (cur_run _ _ Hq)..];
    [| |run_with (dropOrDeactivate_run s p x Hp Hwx); fold s1; run_with He..].
  - eexists; split; [done|]. rep_solve (ps1 ++ (p, x) :: ps2).
  - rewrite (notifyEvent_run s AGPS_EVENT_UNSUBSCRIBE p x) by done. eexists; split; [done|].
    rep_solve (ps1 ++ (p, x) :: ps2).
  - run_with Ha. destruct (existsb _ _); cbn [negb fst snd].
    + eexists; split; [done|]. rep_solve ps'.
    + rewrite (transition_reqConn_run _ _ s1 _ Hc Hcb) by (apply Hm; congruence).
      eexists; split; [done|]. rep_solve ps'. intros _. apply Hm. congruence.
  - run_with Ha. destruct (existsb _ _); cbn [negb fst snd].
    + eexists; split; [done|]. rep_solve ps'.
    + rewrite (transition_reqConn_run _ _ s1 _ Hc Hcb) by (apply Hm; congruence).
      eexists; split; [done|]. rep_solve ps'. intros _. apply Hm. congruence.
  - eexists; split; [done|]. rep_solve ps'.
Qed.

Lemma existsb_filter {A} (f : A -> bool) l :
  existsb f (List.filter f l) = match List.filter f l with [] => false | _ => true end.
Proof. induction l as [|x l IH]; [done|]. simpl. destruct (f x) eqn:E; simpl; [by rewrite E|done]. Qed.

Lemma granted_sim hf s a o :
  sm_rel hf s a o ->
  wp processAgpsEventGranted (fun _ s' =>
    sm_rel hf s' (spec_granted a).1 (o ++ (spec_granted a).2)) s.
Proof.
  intros (ps & Ho & (Hl & Hs & Hw & Hst & Hc & Hcb & Hm) & <-). apply wp_run_unit.
  unfold processAgpsEventGranted, spec_granted. run_with (eq_refl : get s = Some (s, s)).
  rewrite Hst. destruct (a_state a) eqn:Ea; cbn [fst snd];
    try (exists s; split; [done|]; rep_solve ps).
  assert (Hm' : is_Some (mApnTypeMask (sm s))) by (apply Hm; congruence).
  unfold notifyAllSubscribers, transitionState, with_sm. erewrite run_bind by done.
  erewrite run_bind by done. simpl. rewrite Hl.
  rewrite notify_keep_run by (done || by eapply owned_live).
  eexists; split; [done|]. rep_solve ps. cbn [sm set_mState].
  rewrite (notices_open _ (a_conn a) 1), Hs by done.
  by rewrite (filter_view a_active (concerned AGPS_NOTIFICATION_TYPE_FOR_ACTIVE_SUBSCRIBERS)).
Qed.

Lemma finish_sim hf s a o :
  sm_rel hf s a o -> is_Some (mApnTypeMask (sm s)) ->
  wp finishReleasing (fun _ s' =>
    sm_rel hf s' (spec_finish a).1 (o ++ (spec_finish a).2)) s.
Proof.
  intros (ps & Ho & (Hl & Hs & Hw & Hst & Hc & Hcb & _) & <-) Hm. apply wp_run_unit.
  unfold finishReleasing, spec_finish.
  destruct (notify_delete_run s hf AGPS_EVENT_RELEASED
    AGPS_NOTIFICATION_TYPE_FOR_INACTIVE_SUBSCRIBERS [] ps Ho Hl Hm) as (h' & Ho' & Hr).
  set (ps' := kept_by AGPS_NOTIFICATION_TYPE_FOR_INACTIVE_SUBSCRIBERS ps) in *.
  set (s1 := upd _ _ _ _) in Hr.
  assert (Hr' : notifyAllSubscribers AGPS_EVENT_RELEASED true
    AGPS_NOTIFICATION_TYPE_FOR_INACTIVE_SUBSCRIBERS s = Some (tt, s1)).
  { unfold notifyAllSubscribers. erewrite run_bind by done. rewrite Hl. exact Hr. }
  rewrite (run_bind _ _ _ _ _ Hr'). rewrite (run_bind _ _ _ _ _ (anyActive_spec s1 hf ps' Ho' eq_refl)).
  assert (Hact : List.filter a_active (a_subs a) = view <$> ps'.*2).
  { rewrite Hs. unfold ps', kept_by. rewrite (filter_snd (fun x => negb (mIsInactive x))).
    by rewrite (filter_view a_active (fun x => negb (mIsInactive x))). }
  assert (Hw' : Forall (fun x => mWaitForCloseComplete x = true) ps'.*2).
  { unfold ps', kept_by. rewrite (filter_snd (fun x => negb (mIsInactive x))). by apply Forall_filter. }
  assert (Hout : outs s1 = outs s ++ (spec_close <$> List.filter a_inactive (a_subs a))).
  { unfold s1, upd. cbn [outs]. rewrite notices_close, Hs.
    by rewrite (filter_view a_inactive (concerned AGPS_NOTIFICATION_TYPE_FOR_INACTIVE_SUBSCRIBERS)). }
  rewrite <- Hact, existsb_filter, Hact.
  destruct (view <$> ps'.*2) as [|y l] eqn:E; cbn [fst snd].
  - apply fmap_nil_inv in E. apply fmap_nil_inv in E. clearbody ps'. subst ps'.
    eexists; split; [done|]. rewrite Hout. by apply (sm_rel_intro _ _ _ _ _ s []).
  - rewrite (transition_reqConn_run _ _ s1 _ Hc Hcb Hm). eexists; split; [done|].
    rewrite Hout, <- app_assoc. by apply (sm_rel_intro _ _ _ _ _ s ps').
Qed.

Lemma notify_all_sim hf s a o ev st :
  sm_rel hf s a o -> is_Some (mApnTypeMask (sm s)) ->
  wp (transitionState st ≫= fun _ =>
      notifyAllSubscribers ev true AGPS_NOTIFICATION_TYPE_FOR_ALL_SUBSCRIBERS)
    (fun _ s' => sm_rel hf s' (MkASm [] st (a_conn a))
       (o ++ concat (notice (sm s) ev <$> ((fun x => MkSub (a_handle x) true (a_inactive x) 0) <$> a_subs a)))) s.
Proof.
  intros (ps & Ho & (Hl & Hs & Hw & Hst & Hc & Hcb & _) & <-) Hm. apply wp_run_unit.
  unfold notifyAllSubscribers, transitionState, with_sm. erewrite run_bind by done.
  erewrite run_bind by done. simpl. rewrite Hl.
  destruct (notify_delete_run (MkSmSt (heap s) (set_mState st (sm s)) (outs s)) hf ev
    AGPS_NOTIFICATION_TYPE_FOR_ALL_SUBSCRIBERS [] ps Ho Hl Hm) as (h' & Ho' & Hr).
  rewrite (filter_none ps : kept_by AGPS_NOTIFICATION_TYPE_FOR_ALL_SUBSCRIBERS ps = []) in *.
  cbn [app fmap list_fmap] in *. rewrite Hr. eexists; split; [done|].
  rewrite (filter_all ps.*2 : List.filter (concerned AGPS_NOTIFICATION_TYPE_FOR_ALL_SUBSCRIBERS) ps.*2 = ps.*2).
  assert (Heq : notice (sm s) ev <$> ((fun x => MkSub (a_handle x) true (a_inactive x) 0) <$> a_subs a)
    = notice (set_mState st (sm s)) ev <$> ps.*2).
  { rewrite Hs, <- !list_fmap_compose. apply list_fmap_ext. intros i x _. by destruct ev. }
  rewrite Heq. rep_solve (@nil (ptr * AgpsSubscriber)).
Qed.

Lemma concat_notice m ev ok l :
  (forall x, notice m ev (MkSub (a_handle x) true (a_inactive x) 0) = [ok x]) ->
  concat (notice m ev <$> ((fun x => MkSub (a_handle x) true (a_inactive x) 0) <$> l)) = ok <$> l.
Proof. intros H. induction l as [|x l IH]; [done|]. csimpl. by rewrite H, IH. Qed.

Lemma released_sim hf s a o :
  sm_rel hf s a o ->
  wp processAgpsEventReleased (fun _ s' =>
    sm_rel hf s' (spec_released a).1 (o ++ (spec_released a).2)) s.
Proof.
  intros Hrel. pose proof Hrel as (ps & Ho & (Hl & Hs & Hw & Hst & Hc & Hcb & Hm) & Hout).
  unfold processAgpsEventReleased, spec_released. apply wp_bind, wp_get. rewrite Hst in *.
  destruct (a_state a) eqn:Ea; cbn [fst snd]; try (apply wp_ret; by rewrite app_nil_r).
  - eapply wp_conseq; [by apply notify_all_sim, Hm|]. cbn beta. intros _ s'.
    by rewrite (concat_notice _ _ spec_close) by (by intros []).
  - apply finish_sim; [done|]. by apply Hm.
Qed.

Lemma denied_sim hf s a o :
  sm_rel hf s a o ->
  wp processAgpsEventDenied (fun _ s' =>
    sm_rel hf s' (spec_denied a).1 (o ++ (spec_denied a).2)) s.
Proof.
  intros Hrel. pose proof Hrel as (ps & Ho & (Hl & Hs & Hw & Hst & Hc & Hcb & Hm) & Hout).
  unfold processAgpsEventDenied, spec_denied. apply wp_bind, wp_get. rewrite Hst in *.
  destruct (a_state a) eqn:Ea; cbn [fst snd]; try (apply wp_ret; by rewrite app_nil_r).
  - eapply wp_conseq; [by apply notify_all_sim, Hm|]. cbn beta. intros _ s'.
    rewrite (concat_notice _ _ (spec_open (a_conn a) 0)); [done|].
    intros []. simpl. by rewrite Hc.
  - apply finish_sim; [done|]. by apply Hm.
Qed.

Lemma drop_sim hf s a o :
  sm_rel hf s a o ->
  wp dropAllSubscribers (fun _ s' =>
    sm_rel hf s' (MkASm [] (a_state a) (a_conn a)) (o ++ [])) s.
Proof.
  intros (ps & Ho & (Hl & Hs & Hw & Hst & Hc & Hcb & Hm) & <-). apply wp_run_unit.
  destruct (drop_run s hf ps Ho Hl) as (h' & Ho' & Hr).
  unfold dropAllSubscribers. erewrite run_bind by done. rewrite Hl, Hr.
  eexists; split; [done|]. rep_solve (@nil (ptr * AgpsSubscriber)).
Qed.

(** ** Simulation of the manager *)

(** Calling a method of a member that simulates a specification transition. *)
Lemma call_sim n (m : SmM unit) f g a am :
  mgr_rel g a -> a_nif n a = Some am ->
  (forall hf s, nif n g = Some (sm s) -> heap s = mheap g -> sm_rel hf s am (a_outs a) ->
     wp m (fun _ s' => sm_rel hf s' (f am).1 (a_outs a ++ (f am).2)) s) ->
  wp (call_sm n m) (fun _ g' => mgr_rel g' (a_on n f a)) g.
Proof.
  intros (ps1 & ps2 & Ho & H1 & H2 & Hout) Ha Hm. unfold a_on. rewrite Ha.
  destruct (f am) as [am' o'] eqn:Ef. unfold call_sm, wp.
  destruct n; simpl in *; rewrite Ha in *.
  - destruct (mAgnssNif g) as [sm1|]; [|done].
    apply owned_split in Ho as [Hn Ho].
    edestruct (wp_elim _ _ _ (Hm (list_to_map ps2) (MkSmSt (mheap g) sm1 (mouts g))
      eq_refl eq_refl ltac:(by exists ps1))) as ([] & s' & -> & ps1' & Ho' & Hr & Hos).
    exists ps1', ps2. simpl. split_and!; try done. by apply owned_split.
  - destruct (mInternetNif g) as [sm2|]; [|done].
    apply (owned_perm _ _ _ (ps2 ++ ps1) ltac:(apply Permutation_app_comm)), owned_split in Ho as [Hn Ho].
    edestruct (wp_elim _ _ _ (Hm (list_to_map ps1) (MkSmSt (mheap g) sm2 (mouts g))
      eq_refl eq_refl ltac:(by exists ps2))) as ([] & s' & -> & ps2' & Ho' & Hr & Hos).
    exists ps1, ps2'. simpl. split_and!; try done.
    apply (owned_perm _ _ (ps2' ++ ps1) _ ltac:(apply Permutation_app_comm)). by apply owned_split.
Qed.

Lemma mgr_rel_nif n g a : mgr_rel g a -> (nif n g = None <-> a_nif n a = None).
Proof.
  intros (ps1 & ps2 & _ & H1 & H2 & _).
  destruct n; simpl; [destruct (mAgnssNif g), (a_agnss a)|destruct (mInternetNif g), (a_internet a)]; naive_solver.
Qed.

Lemma request_sim conf h ty mask g a :
  mgr_rel g a ->
  wp (requestATL conf h ty mask) (fun _ g' => mgr_rel g' (amgr_step conf (OpRequestATL h ty mask) a)) g.
Proof.
  intros Hrel. unfold requestATL. simpl. destruct (effectiveRequest conf ty mask) as [ty' mask'].
  set (n := getAgpsStateMachine ty'). apply wp_bind, wp_get.
  pose proof (mgr_rel_nif n g a Hrel) as Hn.
  destruct (nif n g) as [m|], (a_nif n a) as [am|] eqn:Ea; try naive_solver.
  - apply (call_sim n _ _ _ _ _ Hrel Ea). intros hf s _ _ (ps & Ho & Hrep & Hout).
    do 2 (apply wp_bind; unfold with_sm; apply wp_modify). cbn [heap sm outs].
    set (y := MkSub h true false mask'). set (q := fresh (dom (heap s))).
    assert (Hq : heap s !! q = None) by apply not_elem_of_dom, is_fresh.
    assert (Hqf : hf !! q = None).
    { destruct Ho as (_ & H2 & H3). rewrite <- H3; [done|]. intros [x Hx]%elem_of_fst_inv.
      apply H2 in Hx as [Hx _]. congruence. }
    apply wp_bind. unfold new_sub. apply wp_bind, wp_get. fold q. apply wp_bind. unfold store.
    apply wp_modify, wp_ret. cbn [heap sm outs]. apply wp_bind, wp_modify. cbn [heap sm outs].
    apply wp_bind. eapply wp_conseq.
    { apply (subscribe_sim (<[q := y]> hf) _ (set_request ty' mask' am) (a_outs a) q y); try done.
      - exists ps. destruct Hrep as (? & ? & ? & ? & Hc & ? & ?).
        split_and!; [by apply owned_frame_alloc| |done].
        unfold sm_rep, set_request, conn_of in *; simpl. rewrite <- Hc. split_and!; eauto.
      - by rewrite lookup_insert_eq. }
    fold q. intros _ s' (ps' & Ho' & Hrep' & Hout').
    assert (Hlive : heap s' !! q = Some y).
    { eapply owned_frame_lookup; [|done]. by rewrite lookup_insert_eq. }
    unfold delete_sub. apply wp_bind. eapply wp_intro; [by apply load_run|]. apply wp_modify.
    exists ps'. split_and!; [|done|done]. by eapply owned_frame_free.
  - apply wp_modify. destruct Hrel as (ps1 & ps2 & ? & ? & ? & Hout).
    exists ps1, ps2. simpl. by rewrite Hout.
Qed.

(** The relation of one member, seen as a machine state. *)
Lemma mgr_rel_sm n g a m :
  mgr_rel g a -> nif n g = Some m ->
  exists hf am, a_nif n a = Some am /\ sm_rel hf (MkSmSt (mheap g) m (mouts g)) am (a_outs a).
Proof.
  intros (ps1 & ps2 & Ho & H1 & H2 & Hout) Hm. destruct n; simpl in *; rewrite Hm in *.
  - destruct (a_agnss a) as [am|]; [|done]. apply owned_split in Ho as [_ Ho].
    exists (list_to_map ps2), am. split; [done|]. by exists ps1.
  - destruct (a_internet a) as [am|]; [|done].
    apply (owned_perm _ _ _ (ps2 ++ ps1) ltac:(apply Permutation_app_comm)), owned_split in Ho as [_ Ho].
    exists (list_to_map ps1), am. split; [done|]. by exists ps2.
Qed.

Lemma set_nif_id n g m :
  nif n g = Some m -> set_nif n (mheap g) m (mouts g) g = g.
Proof. destruct n, g; simpl; by intros ->. Qed.

Lemma getSubscriber_run h hf s am o :
  sm_rel hf s am o ->
  (has_handle h (Some am) = false /\ getSubscriber h s = Some (None, s)) \/
  (exists ps1 p x ps2, owned (heap s) hf (ps1 ++ (p, x) :: ps2) /\
     sm_rep (sm s) (ps1 ++ (p, x) :: ps2) am /\ outs s = o /\ mConnHandle x = h /\
     has_handle h (Some am) = true /\
     spec_deactivate h (a_subs am) = view <$> (ps1 ++ (p, setInactive x) :: ps2).*2 /\
     getSubscriber h s = Some (Some p, s)).
Proof.
  intros (ps & Ho & Hrep & Hout). assert (Hsave := Hrep). destruct Hrep as (Hl & Hs & _).
  unfold getSubscriber, mbind, cm_bind, get, has_handle. rewrite Hl, Hs.
  destruct (findHandle_run s ps h (owned_live _ _ _ Ho)) as [[? ?]|(ps1 & p & x & ps2 & -> & ? & ? & ? & ?)];
    [by left|]. right. by exists ps1, p, x, ps2.
Qed.

Lemma lookupIn_run n h g a :
  mgr_rel g a ->
  exists r, lookupIn n h g = Some (r, g) /\
    match r with
    | None => has_handle h (a_nif n a) = false
    | Some p => has_handle h (a_nif n a) = true /\ exists m, nif n g = Some m /\
        fst <$> getSubscriber h (MkSmSt (mheap g) m (mouts g)) = Some (Some p)
    end.
Proof.
  intros Hrel. unfold lookupIn, mbind, cm_bind, get. pose proof (mgr_rel_nif n g a Hrel) as Hn.
  destruct (nif n g) as [m|] eqn:Em.
  - destruct (mgr_rel_sm n g a m Hrel Em) as (hf & am & Ea & Hsm). unfold call_sm. rewrite Em, Ea.
    destruct (getSubscriber_run h hf _ am _ Hsm) as [[Hh ->]|(ps1 & p & x & ps2 & _ & _ & _ & _ & Hh & _ & Hr)].
    + exists None. cbn [heap sm outs]. by rewrite set_nif_id.
    + exists (Some p). rewrite Hr. cbn [heap sm outs]. rewrite set_nif_id by done.
      split_and!; [done|done|]. exists m. by rewrite Hr.
  - exists None. destruct Hn as [Hn _]. by rewrite Hn.
Qed.

Lemma unsubscribe_call_sim n h p g a am m :
  mgr_rel g a -> a_nif n a = Some am -> nif n g = Some m -> has_handle h (Some am) = true ->
  fst <$> getSubscriber h (MkSmSt (mheap g) m (mouts g)) = Some (Some p) ->
  wp (call_sm n (with_sm (setCurrentSubscriber p) ≫= fun _ => processAgpsEvent AGPS_EVENT_UNSUBSCRIBE))
     (fun _ g' => mgr_rel g' (a_on n (spec_unsubscribe h) a)) g.
Proof.
  intros Hrel Ea Em Hh Hp. eapply call_sim; [done..|]. intros hf s Hs Hheap Hsm.
  rewrite Em in Hs. injection Hs as ->. apply wp_bind. unfold with_sm. apply wp_modify.
  assert (Hs' : outs s = mouts g).
  { destruct Hrel as (?&?&?&?&?&Ho). destruct Hsm as (?&?&?&Ho'). congruence. }
  rewrite <- Hheap, <- Hs' in Hp.
  destruct (getSubscriber_run h hf s am _ Hsm)
    as [[Hf _]|(ps1 & q & x & ps2 & Ho & Hrep & Hout & <- & _ & Hd & Hr)]; [congruence|].
  assert (q = p) as ->. { destruct s. simpl in *. rewrite Hr in Hp. by injection Hp. }
  by eapply unsubscribe_sim.
Qed.

Lemma release_sim conf h g a :
  mgr_rel g a ->
  wp (releaseATL h) (fun _ g' => mgr_rel g' (amgr_step conf (OpReleaseATL h) a)) g.
Proof.
  intros Hrel. unfold releaseATL. simpl.
  destruct (lookupIn_run AgnssNif h g a Hrel) as (r & Hr & Hspec).
  apply wp_bind. eapply wp_intro; [exact Hr|]. destruct r as [p|]; simpl in Hspec.
  - destruct Hspec as (Hh & m & Hm & Hg). rewrite Hh.
    destruct (a_agnss a) as [am|] eqn:Ea; [|done]. by eapply unsubscribe_call_sim.
  - rewrite Hspec. destruct (lookupIn_run InternetNif h g a Hrel) as (r & Hr2 & Hspec2).
    apply wp_bind. eapply wp_intro; [exact Hr2|]. destruct r as [p|]; simpl in Hspec2.
    + destruct Hspec2 as (Hh & m & Hm & Hg). rewrite Hh.
      destruct (a_internet a) as [am|] eqn:Ea; [|done]. by eapply unsubscribe_call_sim.
    + rewrite Hspec2. by apply wp_ret.
Qed.

Lemma new_rep cb ty : cb = true ->
  sm_rep (registerFrameworkStatusCallback cb (newStateMachine ty)) [] (new_asm ty).
Proof. intros ->. unfold sm_rep. by split_and!. Qed.

Lemma create_sim conf cb g a :
  mgr_rel g a -> statusV4Cb cb = true ->
  wp (createAgpsStateMachines conf cb) (fun _ g' => mgr_rel g' (spec_create conf cb a)) g.
Proof.
  intros (ps1 & ps2 & Ho & H1 & H2 & Hout) Hcb. apply wp_modify.
  exists ps1, ps2. simpl. split_and!; try done.
  - destruct (mAgnssNif g), (a_agnss a); try done. simpl in H1. subst ps1.
    destruct (_ && _); [by apply new_rep|done].
  - destruct (mInternetNif g), (a_internet a); try done. simpl in H2. subst ps2.
    destruct (negb _); [by apply new_rep|done].
Qed.

Lemma setAPN_conn apn len sm :
  conn_of (setAPN apn len sm) =
    let '(a, l) := valid_apn apn len in
    MkConn (mAgpsType sm) (mApnTypeMask sm) a l (mBearer sm).
Proof. unfold setAPN, valid_apn. destruct apn; [|done]. by destruct (_ || _). Qed.

Lemma grant_setup_sim hf s am o apn len b :
  sm_rel hf s am o ->
  sm_rel hf (MkSmSt (heap s) (setAPN apn len (setBearer b (sm s))) (outs s)) (set_grant apn len b am) o.
Proof.
  intros (ps & Ho & (Hl & Hs & Hw & Hst & Hc & Hcb & Hm) & Hout). exists ps. split_and!; [done| |done].
  unfold sm_rep. cbn [sm]. rewrite setAPN_conn. unfold set_grant. rewrite <- Hc.
  destruct (valid_apn apn len); simpl.
  unfold setAPN. destruct apn; [destruct (_ || _)|]; split_and!; done.
Qed.

Lemma mgr_step_sim conf o g a :
  mgr_rel g a -> amgr_ok a o ->
  wp (mgr_step conf o) (fun _ g' => mgr_rel g' (amgr_step conf o a)) g.
Proof.
  intros Hrel Hok. destruct o as [cb|h ty mask|h|ty apn len b|ty|ty|]; simpl in Hok.
  - by apply create_sim.
  - by apply request_sim.
  - by apply (release_sim conf).
  - destruct (a_nif _ a) as [am|] eqn:Ea; [|done]. eapply call_sim; [done..|].
    intros hf s _ _ Hs. do 2 (apply wp_bind; unfold with_sm; apply wp_modify).
    by apply (granted_sim hf), (grant_setup_sim hf s am).
  - destruct (a_nif _ a) as [am|] eqn:Ea; [|done]. eapply call_sim; [done..|].
    intros hf s _ _ Hs. by apply denied_sim.
  - destruct (a_nif _ a) as [am|] eqn:Ea; [|done]. eapply call_sim; [done..|].
    intros hf s _ _ Hs. by apply released_sim.
  - simpl. assert (Hdrop : forall n g a, mgr_rel g a ->
      wp (g0 ← get; match nif n g0 with None => mret tt | Some _ => call_sm n dropAllSubscribers end)
        (fun _ g' => mgr_rel g' (a_on n (fun m => (MkASm [] (a_state m) (a_conn m), [])) a)) g).
    { clear. intros n g a Hrel. apply wp_bind, wp_get. pose proof (mgr_rel_nif n g a Hrel) as Hn.
      destruct (nif n g) as [m|] eqn:Em, (a_nif n a) as [am|] eqn:Ea; try naive_solver.
      - eapply call_sim; [done..|]. intros hf s _ _ Hs. by apply (drop_sim hf s am).
      - unfold a_on. rewrite Ea. by apply wp_ret. }
    apply wp_bind. eapply wp_conseq; [by apply Hdrop|]. intros ? g' Hg'. by apply Hdrop.
Qed.

Lemma mgr_rel_init : mgr_rel newManager newAMgr.
Proof.
  exists [], []. split_and!; try done. split_and!; [constructor|set_solver|done].
Qed.

(** ** Invariant of the specification *)

Lemma conn_protocol_nil : conn_protocol [].
Proof. intros [|??] ?; discriminate. Qed.

Lemma conn_protocol_request l :
  conn_protocol l -> conn_protocol (l ++ [LOC_GPS_REQUEST_AGPS_DATA_CONN]).
Proof.
  intros H pre post Heq. destruct (decide (post = [])) as [->|Hp].
  - apply app_inj_tail in Heq as [_ ?]. discriminate.
  - destruct (exists_last Hp) as (post' & x & ->). rewrite app_comm_cons, app_assoc in Heq.
    apply app_inj_tail in Heq as [-> _]. by eapply H.
Qed.

Lemma conn_protocol_release l :
  conn_protocol l -> last l = Some LOC_GPS_REQUEST_AGPS_DATA_CONN ->
  conn_protocol (l ++ [LOC_GPS_RELEASE_AGPS_DATA_CONN]).
Proof.
  intros H Hl pre post Heq. destruct (decide (post = [])) as [->|Hp].
  - apply app_inj_tail in Heq as [-> _]. done.
  - destruct (exists_last Hp) as (post' & x & ->). rewrite app_comm_cons, app_assoc in Heq.
    apply app_inj_tail in Heq as [-> _]. by eapply H.
Qed.
#[export] Hint Resolve conn_protocol_nil conn_protocol_request conn_protocol_release : cypfr.

Lemma fw_trace_app n l k : fw_trace n (l ++ k) = fw_trace n l ++ fw_trace n k.
Proof. apply omap_app. Qed.

Lemma fw_trace_quiet n l : Forall (fun o => forall n, fw_status n o = None) l -> fw_trace n l = [].
Proof. induction 1 as [|o l Ho _ IH]; [done|]. unfold fw_trace in *. simpl. by rewrite Ho. Qed.

Lemma fw_conn n c b : getAgpsStateMachine (c_type c) = n ->
  fw_trace n [spec_conn c b] =
    [if b then LOC_GPS_REQUEST_AGPS_DATA_CONN else LOC_GPS_RELEASE_AGPS_DATA_CONN].
Proof. intros Hty. unfold fw_trace. simpl. by case_decide. Qed.

Lemma fw_opens n c ok l : fw_trace n (spec_open c ok <$> l) = [].
Proof. induction l; [done|]. done. Qed.
Lemma fw_closes n l : fw_trace n (spec_close <$> l) = [].
Proof. induction l; [done|]. done. Qed.
#[export] Hint Rewrite fw_trace_app fw_opens fw_closes app_nil_r : cypfr.

Lemma spec_add_nodup h l : NoDup (a_handle <$> l) -> NoDup (a_handle <$> spec_add h l).
Proof.
  unfold spec_add. destruct (existsb _ l) eqn:E; [done|]. intros Hn.
  rewrite fmap_app. apply NoDup_app. split_and!; [done| |apply NoDup_singleton].
  intros x (y & -> & Hy)%list_elem_of_fmap Hx. apply list_elem_of_singleton in Hx. simpl in Hx.
  assert (existsb (fun x => a_handle x =? h) l = true); [|congruence].
  apply existsb_exists. exists y. split; [by apply list_elem_of_In|]. by apply Z.eqb_eq.
Qed.

Lemma spec_add_active h l : l = [] \/ existsb a_active l = true -> existsb a_active (spec_add h l) = true.
Proof.
  unfold spec_add. intros [->|H]; [done|].
  destruct (existsb (fun x => a_handle x =? h) l); [done|]. by rewrite existsb_app, H.
Qed.

Lemma spec_deactivate_handles h l : a_handle <$> spec_deactivate h l = a_handle <$> l.
Proof. induction l as [|x l IH]; [done|]. simpl. destruct (_ =? _); csimpl; [done|by rewrite IH]. Qed.

Lemma filter_nodup {A B} (k : A -> B) f l : NoDup (k <$> l) -> NoDup (k <$> List.filter f l).
Proof.
  induction l as [|x l IH]; [done|]. csimpl. intros [Hx Hn]%NoDup_cons.
  destruct (f x); csimpl; [|by apply IH]. apply NoDup_cons. split; [|by apply IH].
  intros (y & Hy & Hin)%list_elem_of_fmap. apply Hx. rewrite Hy. apply list_elem_of_fmap_2.
  apply list_elem_of_In in Hin. apply filter_In in Hin as [Hin _]. by apply list_elem_of_In.
Qed.

(** A transition of a machine preserves its invariant, given its outputs, and
    sends nothing on behalf of the other machine. *)
Definition preserves (n : Nif) (f : ASm -> ASm * list AgpsOut) : Prop :=
  forall m fw, asm_inv n m fw ->
    asm_inv n (f m).1 (fw ++ fw_trace n (f m).2) /\
    forall n', n' <> n -> fw_trace n' (f m).2 = [].

Lemma fw_conn_other n n' c b : getAgpsStateMachine (c_type c) = n -> n' <> n ->
  fw_trace n' [spec_conn c b] = [].
Proof. intros <- Hn. unfold fw_trace. simpl. case_decide; [congruence|done]. Qed.
#[export] Hint Resolve fw_conn_other : cypfr.

Lemma fw_open1 n c ok x : fw_trace n [spec_open c ok x] = [].
Proof. done. Qed.
Lemma fw_close1 n h ok : fw_trace n [AtlCloseStatus h ok] = [].
Proof. done. Qed.
Lemma fw_nil n : fw_trace n [] = [].
Proof. done. Qed.
#[export] Hint Rewrite fw_open1 fw_close1 fw_nil (@last_snoc Z) : cypfr.

(** Unfold the invariant of a concrete machine, compute the outputs. *)
Ltac asm_inv_solve :=
  unfold asm_inv in *; simpl in *; autorewrite with cypfr; simpl;
  repeat match goal with
  | H : getAgpsStateMachine _ = ?n |- context [fw_trace ?n [spec_conn _ _]] =>
      rewrite (fw_conn _ _ _ H); autorewrite with cypfr
  end; split_and?; try done; eauto using NoDup_nil_2 with cypfr; try tauto;
  try (intros; autorewrite with cypfr; simpl; solve [eauto with cypfr]).

Lemma subscribe_preserves n h : preserves n (spec_subscribe h).
Proof.
  intros [l st c] fw (Hn & Hty & Hp & Hst). pose proof (spec_add_nodup h l Hn).
  pose proof (spec_add_active h l). unfold spec_subscribe. simpl in *.
  destruct st; simpl in *; [done|..]; asm_inv_solve.
Qed.

Lemma unsubscribe_preserves n h : preserves n (spec_unsubscribe h).
Proof.
  intros [l st c] fw (Hn & Hty & Hp & Hst). unfold spec_unsubscribe. simpl in *.
  assert (Hn' : NoDup (a_handle <$> spec_deactivate h l)) by by rewrite spec_deactivate_handles.
  destruct st; simpl in *; [done| |destruct (existsb _ (spec_deactivate h l)) eqn:E..|];
    asm_inv_solve; apply conn_protocol_release; tauto.
Qed.

Lemma granted_preserves n : preserves n spec_granted.
Proof.
  intros [l st c] fw (Hn & Hty & Hp & Hst). unfold spec_granted.
  destruct st; simpl in *; asm_inv_solve.
Qed.

Lemma finish_preserves n : preserves n spec_finish.
Proof.
  intros [l st c] fw (Hn & Hty & Hp & Hst). unfold spec_finish. simpl in *.
  assert (Hn' : NoDup (a_handle <$> List.filter a_active l)) by by apply filter_nodup.
  pose proof (existsb_filter a_active l) as Ha.
  destruct (List.filter a_active l) eqn:E; asm_inv_solve.
Qed.

Lemma released_preserves n : preserves n spec_released.
Proof.
  intros m fw Hinv. pose proof (finish_preserves n m fw Hinv) as Hf.
  destruct m as [l st c]. destruct Hinv as (Hn & Hty & Hp & Hst). unfold spec_released.
  destruct st; simpl in *; try exact Hf; asm_inv_solve.
Qed.

Lemma denied_preserves n : preserves n spec_denied.
Proof.
  intros m fw Hinv. pose proof (finish_preserves n m fw Hinv) as Hf.
  destruct m as [l st c]. destruct Hinv as (Hn & Hty & Hp & Hst). unfold spec_denied.
  destruct st; simpl in *; try exact Hf; asm_inv_solve.
Qed.
