(* ===== verification/AgpsProps.v ===== *)
(** * AGPS: properties of the reachable manager states *)
From S2P Require Import Prelude Agps AgpsSpec AgpsRefine.

(** ** Invariant of the manager specification *)
Lemma a_on_inv n f a :
  amgr_inv a -> preserves n f -> amgr_inv (a_on n f a).
Proof.
  intros Hinv Hf n'. unfold a_on. assert (Hn := Hinv n). assert (Hn' := Hinv n').
  destruct (a_nif n a) as [m|] eqn:E; [|done]. destruct (Hf m _ Hn) as [H1 H2].
  destruct (f m) as [m' o]. simpl in *.
  assert (Hout : a_outs (a_set n (Some m') o a) = a_outs a ++ o) by by destruct n.
  rewrite Hout, fw_trace_app. destruct (decide (n' = n)) as [->|Hne].
  - assert (a_nif n (a_set n (Some m') o a) = Some m') as -> by by destruct n. done.
  - assert (a_nif n' (a_set n (Some m') o a) = a_nif n' a) as -> by by destruct n, n'.
    rewrite H2, app_nil_r by done. done.
Qed.

Lemma preserves_pre n f g :
  preserves n f -> (forall m fw, asm_inv n m fw -> asm_inv n (g m) fw) -> preserves n (fun m => f (g m)).
Proof. intros Hf Hg m fw Hm. apply Hf. by apply Hg. Qed.

Lemma set_request_inv ty mask m fw :
  asm_inv (getAgpsStateMachine ty) m fw -> asm_inv (getAgpsStateMachine ty) (set_request ty mask m) fw.
Proof. intros (? & ? & ? & ?). by split_and!. Qed.

Lemma set_grant_inv n apn len b m fw : asm_inv n m fw -> asm_inv n (set_grant apn len b m) fw.
Proof.
  intros (? & ? & ? & ?). unfold set_grant. destruct (valid_apn apn len). by split_and!.
Qed.

Lemma drop_preserves n : preserves n (fun m => (MkASm [] (a_state m) (a_conn m), [])).
Proof.
  intros [l st c] fw (Hn & Hty & Hp & Hst). simpl in *.
  destruct st; asm_inv_solve; (split; [by left|tauto]).
Qed.

Lemma create_inv conf cb a : amgr_inv a -> amgr_inv (spec_create conf cb a).
Proof.
  intros Hinv n. specialize (Hinv n).
  assert (Hnew : forall ty, asm_inv (getAgpsStateMachine ty) (new_asm ty) []).
  { intros ty. unfold asm_inv. simpl. split_and!; [constructor|done|apply conn_protocol_nil|done]. }
  destruct n; simpl in *; [destruct (a_agnss a)|destruct (a_internet a)]; try done;
    destruct (_ && _) || destruct (negb _); try done; rewrite Hinv; apply Hnew.
Qed.

Lemma quiet_inv a o : amgr_inv a -> (forall n, fw_trace n [o] = []) ->
  amgr_inv (MkAMgr (a_agnss a) (a_internet a) (a_outs a ++ [o])).
Proof. intros Hinv Ho n. specialize (Hinv n). simpl. by rewrite fw_trace_app, Ho, app_nil_r. Qed.

Lemma amgr_step_inv conf o a : amgr_inv a -> amgr_inv (amgr_step conf o a).
Proof.
  intros Hinv. destruct o as [cb|h ty mask|h|ty apn len b|ty|ty|]; simpl.
  - by apply create_inv.
  - destruct (effectiveRequest conf ty mask) as [ty' mask'].
    destruct (a_nif _ a) eqn:E; [|by apply quiet_inv].
    apply a_on_inv; [done|]. apply preserves_pre; [apply subscribe_preserves|apply set_request_inv].
  - repeat case_match; try done; apply a_on_inv; auto using unsubscribe_preserves.
  - apply a_on_inv; [done|]. apply preserves_pre; [apply granted_preserves|apply set_grant_inv].
  - apply a_on_inv; [done|apply denied_preserves].
  - apply a_on_inv; [done|apply released_preserves].
  - do 2 (apply a_on_inv; [|apply drop_preserves]). done.
Qed.

Lemma amgr_inv_init : amgr_inv newAMgr.
Proof. by intros []. Qed.

Lemma mgr_rel_ok g a o : mgr_rel g a -> (mgr_ok g o <-> amgr_ok a o).
Proof.
  intros Hrel. destruct o; simpl; try done;
    pose proof (mgr_rel_nif (getAgpsStateMachine agpsType) g a Hrel); tauto.
Qed.

(** Every reachable state represents a specification state with the invariant. *)
Lemma reachable_spec conf g : reachable conf g -> exists a, mgr_rel g a /\ amgr_inv a.
Proof.
  induction 1 as [|g o g' _ (a & Hrel & Hinv) Hok Hstep].
  - exists newAMgr. split; [apply mgr_rel_init|apply amgr_inv_init].
  - exists (amgr_step conf o a). split; [|by apply amgr_step_inv].
    apply (wp_Some _ (fun _ g' => mgr_rel g' _) _ _ _ Hstep), mgr_step_sim; [done|].
    by apply (mgr_rel_ok g).
Qed.

Lemma reachable_sm conf g n m :
  reachable conf g -> nif n g = Some m ->
  exists ps am, (forall p x, (p, x) ∈ ps -> mheap g !! p = Some x) /\ sm_rep m ps am /\
    asm_inv n am (fw_trace n (mouts g)).
Proof.
  intros Hr Hm. destruct (reachable_spec conf g Hr) as (a & Hrel & Hinv).
  destruct (mgr_rel_sm n g a m Hrel Hm) as (hf & am & Ea & ps & Ho & Hrep & Hout).
  exists ps, am. split_and!; [|done|].
  - intros p x. by apply (owned_lookup _ _ _ _ _ Ho).
  - specialize (Hinv n). rewrite Ea in Hinv. simpl in Hout. by rewrite Hout.
Qed.

(** ** Notifications *)
(** Among subscribers with distinct handles, each one the filter keeps is
    notified once, the others not at all. *)
Lemma open_count_filter c ok (f : ASub -> bool) l y :
  NoDup (a_handle <$> l) -> y ∈ l ->
  open_count (a_handle y) ok (spec_open c ok <$> List.filter f l) = if f y then 1%nat else 0%nat.
Proof.
  assert (Hno : forall l, a_handle y ∉ a_handle <$> l ->
    open_count (a_handle y) ok (spec_open c ok <$> List.filter f l) = 0%nat).
  { clear. induction l as [|x l IH]; [done|]. csimpl. intros [Hx Hl]%not_elem_of_cons.
    destruct (f x); csimpl; [|by apply IH]. unfold open_count. simpl.
    destruct (Z.eqb_spec (a_handle x) (a_handle y)); [congruence|]. by apply IH. }
  induction l as [|x l IH]; [set_solver|]. csimpl. intros [Hx Hn]%NoDup_cons [->|Hy]%elem_of_cons.
  - destruct (f x); csimpl; [|by apply Hno]. unfold open_count. simpl.
    rewrite !Z.eqb_refl. simpl. f_equal. by apply Hno.
  - assert (a_handle y <> a_handle x).
    { intros Heq. apply Hx. rewrite <- Heq. by apply list_elem_of_fmap_2. }
    destruct (f x); csimpl; [|by apply IH]. unfold open_count. simpl.
    destruct (Z.eqb_spec (a_handle x) (a_handle y)); [congruence|]. by apply IH.
Qed.

(** A report on a pending machine, seen through the specification. *)
Lemma pending_report conf g o n m :
  reachable conf g -> nif n g = Some m -> mState m = AGPS_STATE_PENDING -> mgr_ok g o ->
  forall f, (forall a, amgr_step conf o a = a_on n f a) ->
  exists am, a_state am = AGPS_STATE_PENDING /\ NoDup (a_handle <$> a_subs am) /\
    (forall p x, p ∈ mSubscriberList m -> mheap g !! p = Some x -> view x ∈ a_subs am) /\
    wp (mgr_step conf o) (fun _ g' => exists m' ps', nif n g' = Some m' /\ sm_rep m' ps' (f am).1 /\
          mouts g' = mouts g ++ (f am).2) g.
Proof.
  intros Hr Hm Hst Hok f Hf. destruct (reachable_spec conf g Hr) as (a & Hrel & Hinv).
  destruct (mgr_rel_sm n g a m Hrel Hm) as (hf & am & Ea & ps & Ho & Hrep & Hout). simpl in *.
  exists am. pose proof Hrep as (Hl & Hs & _ & Hst' & _). specialize (Hinv n). rewrite Ea in Hinv.
  split_and!; [congruence|by destruct Hinv| |].
  - intros p x Hp Hx. rewrite Hl in Hp. apply elem_of_fst_inv in Hp as [y Hy].
    rewrite (owned_lookup _ _ _ _ _ Ho Hy) in Hx. injection Hx as ->. rewrite Hs.
    apply list_elem_of_fmap_2. by apply (list_elem_of_fmap_2 snd) in Hy.
  - eapply wp_conseq; [apply mgr_step_sim; [done|by apply (mgr_rel_ok g)]|].
    intros ? g' Hrel'. rewrite Hf in Hrel'. unfold a_on in Hrel'. rewrite Ea in Hrel'.
    destruct (f am) as [am' outs'] eqn:Ef. simpl in *.
    destruct (nif n g') as [m'|] eqn:Em'.
    + destruct (mgr_rel_sm n g' _ m' Hrel' Em') as (hf' & am2 & Ea2 & ps' & _ & Hrep' & Hout').
      assert (am2 = am') as -> by (destruct n; simpl in Ea2; congruence).
      exists m', ps'. split_and!; [done|done|]. simpl in Hout'. rewrite Hout', Hout. by destruct n.
    + apply (mgr_rel_nif n g' _ Hrel') in Em'. by destruct n.
Qed.

(** Runs of operations whose preconditions are tested. *)
Definition mgr_okb (g : AgpsManager) (o : MgrOp) : bool :=
  match o with
  | OpCreate cb => statusV4Cb cb
  | OpOpenSuccess ty _ _ _ | OpOpenFailed ty | OpClosed ty =>
      match nif (getAgpsStateMachine ty) g with Some _ => true | None => false end
  | OpRequestATL _ _ _ | OpReleaseATL _ | OpModemSSR => true
  end.
Fixpoint checked_run (conf : GpsConf) (ops : list MgrOp) (g : AgpsManager) : option AgpsManager :=
  match ops with
  | [] => Some g
  | o :: ops =>
      if mgr_okb g o then
        match mgr_step conf o g with Some (_, g') => checked_run conf ops g' | None => None end
      else None
  end.

Lemma checked_run_reachable conf ops g g' :
  reachable conf g -> checked_run conf ops g = Some g' -> reachable conf g'.
Proof.
  revert g. induction ops as [|o ops IH]; intros g Hr; simpl; [by intros [= <-]|].
  destruct (mgr_okb g o) eqn:Hok; [|done].
  destruct (mgr_step conf o g) as [[[] g1]|] eqn:E; [|done]. apply IH.
  apply (reach_step _ g o); [done| |done].
  destruct o; simpl in *; try done; by case_match.
Qed.

Definition demo_conf : GpsConf := MkConf 6 1.
Definition demo_ops : list MgrOp :=
  [OpCreate (MkCbInfo true 7); OpRequestATL 7 1 0x10; OpRequestATL 8 5 0x200; OpReleaseATL 8].
(** SUPL machine PENDING, handle 7 active and handle 8 inactive. *)
Definition demo_state : AgpsManager := default newManager (checked_run demo_conf demo_ops newManager).
Lemma demo_reachable : reachable demo_conf demo_state.
Proof.
  apply (checked_run_reachable demo_conf demo_ops newManager); [apply reach_init|].
  vm_compute. reflexivity.
Qed.
Definition demo_sm : AgpsStateMachine :=
  default (newStateMachine 0) (nif AgnssNif demo_state).

(** ** Properties *)

(** C2. Refinement and memory safety: every sequence of manager operations that
    respects the preconditions (the framework only reports for a machine that
    exists, and registers a callback) runs without undefined behaviour - no use
    after free of a subscriber, no NULL dereference, no read of the
    uninitialised APN mask - and ends in a state whose outputs are those of the
    specification and whose store holds exactly the listed subscribers, so that
    none leaks. *)
Theorem agps_refines_spec (conf : GpsConf) (ops : list MgrOp)
  (Hok : forall pre o post, ops = pre ++ o :: post ->
     amgr_ok (foldl (flip (amgr_step conf)) newAMgr pre) o) :
  wp (run_ops (mgr_step conf) ops)
     (fun _ g => mgr_rel g (foldl (flip (amgr_step conf)) newAMgr ops)) newManager.
Proof.
  eapply (run_ops_sim (mgr_step conf) mgr_rel (amgr_step conf) amgr_ok).
  - intros o s a. apply mgr_step_sim.
  - apply mgr_rel_init.
  - exact Hok.
Qed.

(** The manager's NULL behaviour, exactly: in a reachable state, an
    operation is defined if and only if it is not a framework report for a
    machine that was never created. *)
Theorem agps_defined_iff (conf : GpsConf) (g : AgpsManager) (o : MgrOp)
  (Hr : reachable conf g) (Hcb : forall cb, o = OpCreate cb -> statusV4Cb cb = true) :
  is_Some (mgr_step conf o g) <-> mgr_ok g o.
Proof.
  destruct (reachable_spec conf g Hr) as (a & Hrel & _). split.
  - intros [[] Hstep]. destruct o; simpl in *; try done; [by apply Hcb|..];
      intros Hn; unfold reportAtlOpenSuccess, reportAtlOpenFailed, reportAtlClosed, call_sm in Hstep;
      by rewrite Hn in Hstep.
  - intros Hok%(mgr_rel_ok g a); [|done].
    destruct (wp_elim _ _ _ (mgr_step_sim conf o g a Hrel Hok)) as (x & g' & -> & _). by eexists.
Qed.

(** Invariant of the reachable states: a machine is never INVALID; in
    RELEASED it has no subscriber; in PENDING and ACQUIRED a non-empty list has
    an active subscriber; every list pointer is live and no handle occurs
    twice. *)
Theorem agps_state_invariant (conf : GpsConf) (g : AgpsManager) (n : Nif) (m : AgpsStateMachine)
  (Hr : reachable conf g) (Hm : nif n g = Some m) :
  exists subs, Forall2 (fun p x => mheap g !! p = Some x) (mSubscriberList m) subs /\
    NoDup (mConnHandle <$> subs) /\
    match mState m with
    | AGPS_STATE_INVALID => False
    | AGPS_STATE_RELEASED => subs = []
    | AGPS_STATE_PENDING | AGPS_STATE_ACQUIRED =>
        subs = [] \/ exists x, x ∈ subs /\ mIsInactive x = false
    | AGPS_STATE_RELEASING => True
    end.
Proof.
  destruct (reachable_sm conf g n m Hr Hm) as (ps & am & Hlive & (Hl & Hs & _ & Hst & _) & Hn & _ & _ & Hinv).
  exists ps.*2. rewrite Hs in *. split_and!.
  - rewrite Hl. clear -Hlive. induction ps as [|[p x] ps IH]; csimpl; constructor.
    + apply Hlive. set_solver.
    + apply IH. set_solver.
  - by rewrite <- list_fmap_compose in Hn.
  - rewrite Hst. destruct (a_state am); try done.
    + by apply fmap_nil_inv in Hinv.
    + destruct Hinv as [[Hnil|Hact] _]; [left; by apply fmap_nil_inv in Hnil|right].
      apply existsb_exists in Hact as (y & Hy%list_elem_of_In & Hact).
      apply list_elem_of_fmap in Hy as (x & -> & Hx). exists x. split; [done|].
      unfold a_active in Hact. by apply negb_true_iff in Hact.
    + destruct Hinv as [[Hnil|Hact] _]; [left; by apply fmap_nil_inv in Hnil|right].
      apply existsb_exists in Hact as (y & Hy%list_elem_of_In & Hact).
      apply list_elem_of_fmap in Hy as (x & -> & Hx). exists x. split; [done|].
      unfold a_active in Hact. by apply negb_true_iff in Hact.
Qed.

(** C12. Data-connection protocol: in every reachable state, each RELEASE sent to
    the framework for a machine directly follows, among the messages of that
    machine, a REQUEST; while a machine is PENDING or ACQUIRED its last message
    is the REQUEST, and while it is RELEASING its last message is the RELEASE. *)
Theorem agps_connection_protocol (conf : GpsConf) (g : AgpsManager) (n : Nif) (m : AgpsStateMachine)
  (Hr : reachable conf g) (Hm : nif n g = Some m) :
  let fw := fw_trace n (mouts g) in
  conn_protocol fw /\
  (mState m = AGPS_STATE_PENDING \/ mState m = AGPS_STATE_ACQUIRED ->
     last fw = Some LOC_GPS_REQUEST_AGPS_DATA_CONN) /\
  (mState m = AGPS_STATE_RELEASING -> last fw = Some LOC_GPS_RELEASE_AGPS_DATA_CONN).
Proof.
  destruct (reachable_sm conf g n m Hr Hm) as (ps & am & _ & (_ & _ & _ & Hst & _) & _ & _ & Hp & Hinv).
  rewrite Hst. split_and!; [done|..]; destruct (a_state am); naive_solver.
Qed.

(** C20. Outcome of a pending connection: when the framework grants it, every
    active subscriber is told success exactly once and an inactive one is not
    told, and the machine is ACQUIRED; when it is refused, every subscriber is
    told failure exactly once, the list is emptied and the machine is
    RELEASED. *)
Theorem agps_pending_outcome (conf : GpsConf) (g : AgpsManager) (ty : Z) (m : AgpsStateMachine)
    (p : ptr) (x : AgpsSubscriber) (apn : option string) (len b : Z)
  (Hr : reachable conf g) (Hm : nif (getAgpsStateMachine ty) g = Some m)
  (Hst : mState m = AGPS_STATE_PENDING) (Hp : p ∈ mSubscriberList m) (Hx : mheap g !! p = Some x) :
  wp (reportAtlOpenSuccess ty apn len b) (fun _ g' => exists m' new,
        nif (getAgpsStateMachine ty) g' = Some m' /\ mState m' = AGPS_STATE_ACQUIRED /\
        mouts g' = mouts g ++ new /\
        open_count (mConnHandle x) 1 new = if mIsInactive x then 0%nat else 1%nat) g /\
  wp (reportAtlOpenFailed ty) (fun _ g' => exists m' new,
        nif (getAgpsStateMachine ty) g' = Some m' /\ mState m' = AGPS_STATE_RELEASED /\
        mSubscriberList m' = [] /\ mouts g' = mouts g ++ new /\
        open_count (mConnHandle x) 0 new = 1%nat) g.
Proof.
  assert (Hn : nif (getAgpsStateMachine ty) g <> None) by by rewrite Hm. split.
  - destruct (pending_report conf g (OpOpenSuccess ty apn len b) _ m Hr Hm Hst Hn _ (fun a => eq_refl))
      as (am & Ha & Hd & Hin & Hwp).
    eapply wp_conseq; [exact Hwp|]. cbn beta. intros ? g' (m' & ps' & Hm' & (_ & _ & _ & Hs' & _) & Hout).
    unfold spec_granted, set_grant in *. destruct (valid_apn apn (u32 len)). simpl in *.
    rewrite Ha in *. simpl in *. eexists m', _. split_and!; [done..|].
    change (mConnHandle x) with (a_handle (view x)). rewrite open_count_filter by eauto.
    unfold a_active, view. simpl. by destruct (mIsInactive x).
  - destruct (pending_report conf g (OpOpenFailed ty) _ m Hr Hm Hst Hn _ (fun a => eq_refl))
      as (am & Ha & Hd & Hin & Hwp).
    eapply wp_conseq; [exact Hwp|]. cbn beta.
    intros ? g' (m' & ps' & Hm' & (Hl' & Hsub & _ & Hs' & _) & Hout).
    unfold spec_denied in *. rewrite Ha in *. simpl in *. eexists m', _.
    split_and!; [done|done| |done|].
    + rewrite Hl'. symmetry in Hsub. apply fmap_nil_inv in Hsub. apply fmap_nil_inv in Hsub. by rewrite Hsub.
    + change (mConnHandle x) with (a_handle (view x)).
      rewrite <- (filter_all (a_subs am)). by rewrite open_count_filter by eauto.
Qed.

(** ** Witnesses *)
Lemma agps_refines_spec_witness :
  wp (run_ops (mgr_step demo_conf) demo_ops)
     (fun _ g => mgr_rel g (foldl (flip (amgr_step demo_conf)) newAMgr demo_ops)) newManager.
Proof.
  apply (agps_refines_spec demo_conf demo_ops).
  intros pre o post Heq.
  destruct pre as [|? [|? [|? [|? pre]]]]; injection Heq as; subst; try done.
  by destruct pre.
Defined.

Lemma agps_defined_iff_witness :
  is_Some (mgr_step demo_conf (OpClosed 1) demo_state) <-> mgr_ok demo_state (OpClosed 1).
Proof. apply (agps_defined_iff demo_conf demo_state); [apply demo_reachable|discriminate]. Defined.

Lemma agps_state_invariant_witness :
  exists subs, Forall2 (fun p x => mheap demo_state !! p = Some x) (mSubscriberList demo_sm) subs /\
    NoDup (mConnHandle <$> subs) /\
    match mState demo_sm with
    | AGPS_STATE_INVALID => False
    | AGPS_STATE_RELEASED => subs = []
    | AGPS_STATE_PENDING | AGPS_STATE_ACQUIRED =>
        subs = [] \/ exists x, x ∈ subs /\ mIsInactive x = false
    | AGPS_STATE_RELEASING => True
    end.
Proof.
  apply (agps_state_invariant demo_conf demo_state AgnssNif demo_sm);
    [apply demo_reachable|vm_compute; reflexivity].
Defined.

Lemma agps_connection_protocol_witness :
  let fw := fw_trace AgnssNif (mouts demo_state) in
  conn_protocol fw /\
  (mState demo_sm = AGPS_STATE_PENDING \/ mState demo_sm = AGPS_STATE_ACQUIRED ->
     last fw = Some LOC_GPS_REQUEST_AGPS_DATA_CONN) /\
  (mState demo_sm = AGPS_STATE_RELEASING -> last fw = Some LOC_GPS_RELEASE_AGPS_DATA_CONN).
Proof.
  apply (agps_connection_protocol demo_conf demo_state AgnssNif demo_sm);
    [apply demo_reachable|vm_compute; reflexivity].
Defined.

Lemma agps_pending_outcome_witness :
  exists p x, mIsInactive x = false /\
  wp (reportAtlOpenSuccess 1 (Some "apn"%string) 3 1) (fun _ g' => exists m' new,
        nif (getAgpsStateMachine 1) g' = Some m' /\ mState m' = AGPS_STATE_ACQUIRED /\
        mouts g' = mouts demo_state ++ new /\
        open_count (mConnHandle x) 1 new = if mIsInactive x then 0%nat else 1%nat) demo_state /\
  wp (reportAtlOpenFailed 1) (fun _ g' => exists m' new,
        nif (getAgpsStateMachine 1) g' = Some m' /\ mState m' = AGPS_STATE_RELEASED /\
        mSubscriberList m' = [] /\ mouts g' = mouts demo_state ++ new /\
        open_count (mConnHandle x) 0 new = 1%nat) demo_state /\
  p ∈ mSubscriberList demo_sm.
Proof.
  set (p := default 1%positive (mSubscriberList demo_sm !! 0%nat)).
  assert (Hp : p ∈ mSubscriberList demo_sm).
  { apply list_elem_of_In. vm_compute. left. reflexivity. }
  exists p, (MkSub 7 true false 0x10). split; [reflexivity|].
  destruct (agps_pending_outcome demo_conf demo_state 1 demo_sm p (MkSub 7 true false 0x10)
    (Some "apn"%string) 3 1 demo_reachable ltac:(vm_compute; reflexivity)
    ltac:(vm_compute; reflexivity) Hp ltac:(vm_compute; reflexivity)) as [H1 H2].
  split_and!; assumption.
Defined.
