(* ===== verification/Bytes.v ===== *)
(** * Byte buffers

    Memory objects and disk regions are lists of bytes in [Z].  Accesses outside
    of an object are undefined ([None]).  The little-endian accessors are the
    macros of [src/gpt-utils/gpt-utils.cpp]. *)
From S2P Require Import Prelude.

Abbreviation buf := (list Z).

(** ** Accesses *)
Definition rd (b : buf) (off : Z) : option Z :=
  if off <? 0 then None else b !! Z.to_nat off.

(** [memcpy] out of and into an object; the whole range must be inside. *)
Definition slice (b : buf) (off len : Z) : option buf :=
  if (off <? 0) || (len <? 0) || (Z.of_nat (length b) <? off + len) then None
  else Some (take (Z.to_nat len) (drop (Z.to_nat off) b)).

Definition splice (b : buf) (off : Z) (data : buf) : option buf :=
  if (off <? 0) || (Z.of_nat (length b) <? off + Z.of_nat (length data)) then None
  else Some (take (Z.to_nat off) b ++ data ++ drop (Z.to_nat off + length data) b).

Definition wr (b : buf) (off y : Z) : option buf := splice b off [u8 y].

(** [GET_4_BYTES], [GET_8_BYTES] and [PUT_4_BYTES]. *)
Definition GET_4_BYTES (b : buf) (p : Z) : option Z :=
  b0 ← rd b p; b1 ← rd b (p + 1); b2 ← rd b (p + 2); b3 ← rd b (p + 3);
  Some (Z.lor (Z.lor (Z.lor b0 (Z.shiftl b1 8)) (Z.shiftl b2 16)) (Z.shiftl b3 24)).

Definition GET_8_BYTES (b : buf) (p : Z) : option Z :=
  lo ← GET_4_BYTES b p;
  b4 ← rd b (p + 4); b5 ← rd b (p + 5); b6 ← rd b (p + 6); b7 ← rd b (p + 7);
  Some (Z.lor (Z.lor (Z.lor (Z.lor lo (Z.shiftl b4 32)) (Z.shiftl b5 40)) (Z.shiftl b6 48))
              (Z.shiftl b7 56)).

Definition PUT_4_BYTES (b : buf) (p y : Z) : option buf :=
  b ← wr b p (Z.land y 0xff);
  b ← wr b (p + 1) (Z.land (Z.shiftr y 8) 0xff);
  b ← wr b (p + 2) (Z.land (Z.shiftr y 16) 0xff);
  wr b (p + 3) (Z.land (Z.shiftr y 24) 0xff).

(** The buffer holds bytes. *)
Definition bytes (b : buf) : Prop := Forall (fun x => 0 <= x < 256) b.

(** A C string as its bytes, without the terminator. *)
Definition str_bytes (s : string) : buf :=
  (fun a => Z.of_nat (Ascii.nat_of_ascii a)) <$> String.list_ascii_of_string s.

(** [strncmp(a, b, n) == 0]; an end of list is the terminating NUL. *)
Fixpoint strncmp_eq (a b : buf) (n : nat) : bool :=
  match n with
  | O => true
  | S n =>
      let x := default 0 (head a) in
      let y := default 0 (head b) in
      if x =? y then (x =? 0) || strncmp_eq (tail a) (tail b) n else false
  end.

(** ** Ranges *)
Lemma slice_Some b off len r :
  slice b off len = Some r <->
  0 <= off /\ 0 <= len /\ off + len <= Z.of_nat (length b) /\
  r = take (Z.to_nat len) (drop (Z.to_nat off) b).
Proof.
  unfold slice. destruct (_ || _) eqn:E; split.
  - done.
  - intros (?&?&?). lia.
  - intros [= <-]. split_and!; lia || done.
  - intros (?&?&?). naive_solver.
Qed.

Lemma slice_length b off len r : slice b off len = Some r -> length r = Z.to_nat len.
Proof. intros (?&?&?&->)%slice_Some. rewrite length_take, length_drop. lia. Qed.

Lemma slice_lookup b off len r i :
  slice b off len = Some r -> (i < Z.to_nat len)%nat -> r !! i = b !! (Z.to_nat off + i)%nat.
Proof.
  intros (?&?&?&->)%slice_Some Hi. rewrite lookup_take_lt by done. by rewrite lookup_drop.
Qed.

Lemma splice_Some b off d r :
  splice b off d = Some r <->
  0 <= off /\ off + Z.of_nat (length d) <= Z.of_nat (length b) /\
  r = take (Z.to_nat off) b ++ d ++ drop (Z.to_nat off + length d) b.
Proof.
  unfold splice. destruct (_ || _) eqn:E; split.
  - done.
  - intros (?&?&?). lia.
  - intros [= <-]. split_and!; lia || done.
  - intros (?&?&?). naive_solver.
Qed.

Lemma splice_length b off d r : splice b off d = Some r -> length r = length b.
Proof. intros (?&?&->)%splice_Some. rewrite !length_app, length_take, length_drop. lia. Qed.

Lemma splice_lookup b off d r i :
  splice b off d = Some r ->
  r !! i = if decide (Z.to_nat off <= i < Z.to_nat off + length d)%nat
           then d !! (i - Z.to_nat off)%nat else b !! i.
Proof.
  intros (?&?&->)%splice_Some.
  assert (Hl : length (take (Z.to_nat off) b) = Z.to_nat off) by (rewrite length_take; lia).
  case_decide as Hd.
  - rewrite lookup_app_r, Hl by lia. rewrite lookup_app_l by lia. done.
  - destruct (decide (i < Z.to_nat off)%nat).
    + rewrite lookup_app_l by lia. by rewrite lookup_take_lt.
    + rewrite lookup_app_r, Hl by lia. rewrite lookup_app_r by lia. rewrite lookup_drop.
      f_equal. lia.
Qed.

Lemma splice_is_Some b off d :
  0 <= off -> off + Z.of_nat (length d) <= Z.of_nat (length b) -> is_Some (splice b off d).
Proof. intros. eexists. by apply splice_Some. Qed.

Lemma slice_is_Some b off len :
  0 <= off -> 0 <= len -> off + len <= Z.of_nat (length b) -> is_Some (slice b off len).
Proof. intros. eexists. by apply slice_Some. Qed.

(** Reading back what was written, and reading elsewhere. *)
Lemma slice_splice_same b off d r :
  splice b off d = Some r -> slice r off (Z.of_nat (length d)) = Some d.
Proof.
  intros Hs. pose proof (splice_length _ _ _ _ Hs) as Hl.
  apply splice_Some in Hs as (H1 & H2 & ->). apply slice_Some.
  rewrite Hl. split_and!; [lia..|].
  assert (Ht : length (take (Z.to_nat off) b) = Z.to_nat off) by (rewrite length_take; lia).
  rewrite drop_app_ge, Ht, Nat.sub_diag, drop_0 by lia.
  rewrite take_app_le by lia. rewrite firstn_all2; [done|lia].
Qed.

Lemma slice_eq_lookup b1 b2 off len :
  length b1 = length b2 -> 
  (forall i, off <= Z.of_nat i < off + len -> b1 !! i = b2 !! i) ->
  slice b1 off len = slice b2 off len.
Proof.
  intros Hl Hi. unfold slice. rewrite Hl. destruct (_ || _) eqn:E; [done|]. f_equal.
  apply list_eq. intros i. destruct (decide (i < Z.to_nat len)%nat) as [Hlt|Hge].
  - rewrite !lookup_take_lt, !lookup_drop by done. apply Hi. lia.
  - rewrite !lookup_take_ge by lia. done.
Qed.

Lemma slice_splice_disjoint b off d r off' len' :
  splice b off d = Some r -> off' + len' <= off \/ off + Z.of_nat (length d) <= off' ->
  slice r off' len' = slice b off' len'.
Proof.
  intros Hs Hd. assert (Hoff : 0 <= off) by by apply splice_Some in Hs as (?&_).
  apply slice_eq_lookup; [by eapply splice_length|].
  intros i Hi. rewrite (splice_lookup _ _ _ _ _ Hs). case_decide; [lia|done].
Qed.

(** Writing back what was read changes nothing. *)
Lemma splice_slice_id b off len d : slice b off len = Some d -> splice b off d = Some b.
Proof.
  intros H. pose proof (slice_length _ _ _ _ H) as Hl. apply slice_Some in H as (H1 & H2 & H3 & ->).
  apply splice_Some. rewrite Hl. split_and!; [done|lia|].
  rewrite <- (take_drop (Z.to_nat off) b) at 1. f_equal.
  rewrite <- (take_drop (Z.to_nat len) (drop (Z.to_nat off) b)) at 1. f_equal.
  rewrite drop_drop. f_equal.
Qed.

Lemma splice_bytes b off d r : bytes b -> bytes d -> splice b off d = Some r -> bytes r.
Proof.
  intros Hb Hd (_&_&->)%splice_Some. unfold bytes in *.
  rewrite !Forall_app. split_and!; auto using Forall_take, Forall_drop.
Qed.
Lemma slice_bytes b off len r : bytes b -> slice b off len = Some r -> bytes r.
Proof. intros Hb (_&_&_&->)%slice_Some. unfold bytes in *. auto using Forall_take, Forall_drop. Qed.

(** ** Little-endian words *)
Definition le4 (l : buf) : Z :=
  match l with
  | [b0; b1; b2; b3] =>
      Z.lor (Z.lor (Z.lor b0 (Z.shiftl b1 8)) (Z.shiftl b2 16)) (Z.shiftl b3 24)
  | _ => 0
  end.
Definition put4 (y : Z) : buf :=
  [Z.land y 0xff; Z.land (Z.shiftr y 8) 0xff; Z.land (Z.shiftr y 16) 0xff;
   Z.land (Z.shiftr y 24) 0xff].

Lemma slice_four b p l : slice b p 4 = Some l ->
  exists b0 b1 b2 b3, l = [b0; b1; b2; b3] /\ rd b p = Some b0 /\ rd b (p + 1) = Some b1 /\
    rd b (p + 2) = Some b2 /\ rd b (p + 3) = Some b3.
Proof.
  intros H. pose proof (slice_length _ _ _ _ H) as Hl.
  assert (Hrd : forall i : nat, (i < 4)%nat -> rd b (p + Z.of_nat i) = l !! i).
  { intros i Hi. rewrite (slice_lookup _ _ _ _ i H) by lia. apply slice_Some in H as (?&?&?&_).
    unfold rd. rewrite (proj2 (Z.ltb_ge _ _)) by lia. f_equal. lia. }
  destruct l as [|b0 [|b1 [|b2 [|b3 [|??]]]]]; try discriminate Hl.
  exists b0, b1, b2, b3. rewrite <- (Z.add_0_r p) at 1.
  split_and!; [done|apply (Hrd 0%nat)|apply (Hrd 1%nat)|apply (Hrd 2%nat)|apply (Hrd 3%nat)]; lia.
Qed.

Lemma GET_4_BYTES_slice b p l : slice b p 4 = Some l -> GET_4_BYTES b p = Some (le4 l).
Proof.
  intros (b0 & b1 & b2 & b3 & -> & H0 & H1 & H2 & H3)%slice_four.
  unfold GET_4_BYTES. rewrite H0. simpl. rewrite H1. simpl. rewrite H2. simpl. rewrite H3. done.
Qed.

Lemma lor_shiftl_add a b k : 0 <= k -> 0 <= a < 2 ^ k -> Z.lor a (Z.shiftl b k) = a + b * 2 ^ k.
Proof.
  intros Hk Ha. rewrite Z.shiftl_mul_pow2 by done.
  rewrite Z.add_nocarry_lxor, Z.lxor_lor; try done.
  all: apply Z.bits_inj'; intros n Hn; rewrite Z.land_spec, Z.bits_0, <- Z.shiftl_mul_pow2 by done;
    destruct (Z.lt_ge_cases n k);
    [rewrite (Z.shiftl_spec_low b k n) by done; by rewrite andb_false_r|].
  all: rewrite <- (Z.mod_small a (2 ^ k)) by done; by rewrite Z.mod_pow2_bits_high by lia.
Qed.

Lemma le4_sum b0 b1 b2 b3 : bytes [b0; b1; b2; b3] ->
  le4 [b0; b1; b2; b3] = b0 + b1 * 2 ^ 8 + b2 * 2 ^ 16 + b3 * 2 ^ 24.
Proof.
  intros H. unfold bytes in H. repeat (apply Forall_cons in H as [? H]). unfold le4.
  rewrite (lor_shiftl_add b0 b1 8), (lor_shiftl_add _ b2 16), (lor_shiftl_add _ b3 24); lia.
Qed.

Lemma le4_bounds l : bytes l -> 0 <= le4 l < 2 ^ 32.
Proof.
  intros H. destruct l as [|b0 [|b1 [|b2 [|b3 [|? ?]]]]]; try (simpl; lia).
  rewrite le4_sum by done. unfold bytes in H. repeat (apply Forall_cons in H as [? H]). lia.
Qed.

Lemma land_ff y : Z.land y 0xff = y mod 256.
Proof. by rewrite (Z.land_ones y 8 ltac:(done) : Z.land y 0xff = _). Qed.

Lemma put4_bytes y : bytes (put4 y).
Proof. unfold put4, bytes. rewrite !land_ff. repeat constructor; apply Z.mod_pos_bound; done. Qed.

Lemma le4_put4 y : le4 (put4 y) = u32 y.
Proof.
  pose proof (put4_bytes y) as Hb. unfold put4 in *. rewrite le4_sum by done.
  rewrite !land_ff, !Z.shiftr_div_pow2 by done. unfold wrap.
  change (2 ^ 8) with 256. change (2 ^ 16) with (256 * 256). change (2 ^ 24) with (256 * 256 * 256).
  change (2 ^ 32) with (256 * (256 * (256 * 256))).
  rewrite <- (Z.div_div y (256 * 256) 256), <- (Z.div_div y 256 256) by lia.
  rewrite !Z.rem_mul_r by lia. lia.
Qed.

Lemma splice_splice_adjacent b off off2 d1 d2 b1 :
  splice b off d1 = Some b1 -> off2 = off + Z.of_nat (length d1) ->
  splice b1 off2 d2 = splice b off (d1 ++ d2).
Proof.
  intros H1 ->. pose proof (splice_length _ _ _ _ H1) as Hl.
  assert (0 <= off) by by apply splice_Some in H1 as (?&_).
  destruct (splice b off (d1 ++ d2)) as [r|] eqn:E.
  - pose proof (splice_length _ _ _ _ E) as Hlr. apply splice_Some in E as Hb. destruct Hb as (_ & Hb & _).
    rewrite length_app in Hb.
    destruct (splice_is_Some b1 (off + Z.of_nat (length d1)) d2) as [r' Hr']; [lia..|].
    rewrite Hr'. f_equal. apply list_eq. intros i.
    rewrite (splice_lookup _ _ _ _ _ Hr'), (splice_lookup _ _ _ _ _ E), (splice_lookup _ _ _ _ _ H1).
    rewrite length_app. repeat case_decide; try lia; try done.
    + rewrite lookup_app_r by lia. f_equal. lia.
    + rewrite lookup_app_l by lia. done.
  - destruct (splice b1 _ d2) as [r|] eqn:E2; [|done].
    apply splice_Some in E2 as (_ & H2 & _). rewrite Hl in H2.
    destruct (splice_is_Some b off (d1 ++ d2)) as [? ?]; [done|rewrite length_app; lia|congruence].
Qed.

Lemma splice_None_mono b off d1 d2 :
  splice b off d1 = None -> (length d1 <= length d2)%nat -> splice b off d2 = None.
Proof.
  intros H1 Hl. destruct (splice b off d2) eqn:E; [|done].
  apply splice_Some in E as (H2 & H3 & _).
  destruct (splice_is_Some b off d1) as [? ?]; [lia..|congruence].
Qed.

Lemma PUT_4_BYTES_splice b p y : PUT_4_BYTES b p y = splice b p (put4 y).
Proof.
  assert (Hwr : forall b off x, wr b off (Z.land x 0xff) = splice b off [Z.land x 0xff]).
  { intros. unfold wr. rewrite wrap_id; [done|]. rewrite land_ff. by apply Z.mod_pos_bound. }
  unfold PUT_4_BYTES. rewrite Hwr. unfold put4.
  set (x0 := Z.land y 255). set (x1 := Z.land (Z.shiftr y 8) 255).
  destruct (splice b p [x0]) as [b1|] eqn:E1; simpl.
  2:{ symmetry. eapply splice_None_mono; [exact E1|simpl; lia]. }
  unfold x1. rewrite Hwr. fold x1. rewrite (splice_splice_adjacent b p (p + 1) [x0] [x1] _ E1 eq_refl). simpl.
  destruct (splice b p [x0; x1]) as [b2|] eqn:E2; simpl.
  2:{ symmetry. eapply splice_None_mono; [exact E2|simpl; lia]. }
  rewrite Hwr. set (x2 := Z.land (Z.shiftr y 16) 255).
  rewrite (splice_splice_adjacent b p (p + 2) [x0; x1] [x2] _ E2 eq_refl). simpl.
  destruct (splice b p [x0; x1; x2]) as [b3|] eqn:E3; simpl.
  2:{ symmetry. eapply splice_None_mono; [exact E3|simpl; lia]. }
  rewrite Hwr. by rewrite (splice_splice_adjacent b p (p + 3) [x0; x1; x2] _ _ E3 eq_refl).
Qed.

Lemma GET_PUT_4_BYTES b p y r : PUT_4_BYTES b p y = Some r -> GET_4_BYTES r p = Some (u32 y).
Proof.
  rewrite PUT_4_BYTES_splice. intros H%slice_splice_same.
  rewrite (GET_4_BYTES_slice _ _ _ H). by rewrite le4_put4.
Qed.

Lemma PUT_4_BYTES_is_Some b p y :
  0 <= p -> p + 4 <= Z.of_nat (length b) -> is_Some (PUT_4_BYTES b p y).
Proof. intros. rewrite PUT_4_BYTES_splice. apply splice_is_Some; simpl; lia. Qed.

Lemma GET_4_BYTES_range b p v : bytes b -> GET_4_BYTES b p = Some v -> 0 <= v < 2 ^ 32.
Proof.
  intros Hb H. destruct (slice b p 4) as [l|] eqn:E.
  - rewrite (GET_4_BYTES_slice _ _ _ E) in H. injection H as <-. apply le4_bounds. by eapply slice_bytes.
  - exfalso. unfold GET_4_BYTES in H. destruct (rd b p) eqn:H0; [|done]. simpl in H.
    destruct (rd b (p + 1)); [|done]. simpl in H. destruct (rd b (p + 2)); [|done]. simpl in H.
    destruct (rd b (p + 3)) eqn:H3; [|done]. unfold rd in *. unfold slice in E.
    destruct (Z.ltb_spec p 0); [done|]. destruct (Z.ltb_spec (p + 3) 0); [done|].
    apply lookup_lt_Some in H3. destruct (_ || _) eqn:Ho in E; [lia|done].
Qed.

(** ** Frames

    [frame ws b b']: the buffers have the same length and agree outside of the
    ranges [ws]. *)
Definition outside (i : Z) (ws : list (Z * Z)) : Prop :=
  Forall (fun '(o, l) => i < o \/ o + l <= i) ws.
Definition frame (ws : list (Z * Z)) (b b' : buf) : Prop :=
  length b' = length b /\ forall i : nat, outside (Z.of_nat i) ws -> b' !! i = b !! i.

Lemma frame_refl b : frame [] b b.
Proof. by split. Qed.

Lemma frame_trans ws1 ws2 b1 b2 b3 :
  frame ws1 b1 b2 -> frame ws2 b2 b3 -> frame (ws1 ++ ws2) b1 b3.
Proof.
  intros [Hl1 H1] [Hl2 H2]. split; [congruence|].
  intros i [Ho1 Ho2]%Forall_app. rewrite H2, H1; done.
Qed.

Lemma frame_weaken ws ws' b b' :
  frame ws b b' -> (forall i, outside i ws' -> outside i ws) -> frame ws' b b'.
Proof. intros [Hl H] Hw. split; auto. Qed.

Lemma splice_frame b off d b' :
  splice b off d = Some b' -> frame [(off, Z.of_nat (length d))] b b'.
Proof.
  intros Hs. split; [by eapply splice_length|]. intros i Ho. unfold outside in Ho. rewrite Forall_singleton in Ho.
  rewrite (splice_lookup _ _ _ _ _ Hs). apply splice_Some in Hs as (?&_).
  case_decide; [lia|done].
Qed.

Lemma PUT_4_BYTES_frame b p y b' : PUT_4_BYTES b p y = Some b' -> frame [(p, 4)] b b'.
Proof. rewrite PUT_4_BYTES_splice. intros H. by apply splice_frame in H. Qed.

(** A range that avoids the frame. *)
Definition avoids (off len : Z) (ws : list (Z * Z)) : Prop :=
  Forall (fun '(o, l) => off + len <= o \/ o + l <= off) ws.

Lemma avoids_outside off len ws i : avoids off len ws -> off <= i < off + len -> outside i ws.
Proof. intros H Hi. eapply Forall_impl; [exact H|]. intros [o l]; cbn; lia. Qed.

Lemma frame_slice ws b b' off len :
  frame ws b b' -> avoids off len ws -> slice b' off len = slice b off len.
Proof.
  intros [Hl H] Ha. apply slice_eq_lookup; [done|].
  intros i Hi. apply H. by eapply avoids_outside.
Qed.

Lemma frame_rd ws b b' off : frame ws b b' -> avoids off 1 ws -> rd b' off = rd b off.
Proof.
  intros [Hl H] Ha. unfold rd. destruct (Z.ltb_spec off 0); [done|].
  apply H. eapply avoids_outside; [done|]. lia.
Qed.

Lemma avoids_sub off len off' len' ws :
  avoids off len ws -> off <= off' -> off' + len' <= off + len -> 0 <= len' -> avoids off' len' ws.
Proof. intros H ???. eapply Forall_impl; [exact H|]. intros [o l]; cbn; lia. Qed.

Lemma frame_GET_4 ws b b' p : frame ws b b' -> avoids p 4 ws -> GET_4_BYTES b' p = GET_4_BYTES b p.
Proof.
  intros H Ha. unfold GET_4_BYTES.
  rewrite !(frame_rd _ _ _ _ H); [done|(eapply avoids_sub; [done|lia..])..].
Qed.

Lemma frame_GET_8 ws b b' p : frame ws b b' -> avoids p 8 ws -> GET_8_BYTES b' p = GET_8_BYTES b p.
Proof.
  intros H Ha. unfold GET_8_BYTES. rewrite (frame_GET_4 _ _ _ _ H) by (eapply avoids_sub; [done|lia..]).
  rewrite !(frame_rd _ _ _ _ H); [done|(eapply avoids_sub; [done|lia..])..].
Qed.

(** Decides [avoids] and [outside] goals on literal ranges. *)
Ltac ranges :=
  unfold avoids, outside in *; cbn [app] in *;
  repeat match goal with
  | H : Forall _ (_ :: _) |- _ => apply Forall_cons in H as [? H]
  | |- Forall _ [] => constructor
  | |- Forall _ (_ :: _) => constructor
  end; try (simpl in *; lia).
