(* ===== verification/Crc32.v ===== *)
(** * CRC-32 ([src/gpt-utils/sparse_crc32.cpp])

    The table-driven [sparse_crc32], its bit-serial definition with the
    reflected polynomial [0xEDB88320], and the equivalence of the two. *)
From S2P Require Import Prelude Bytes.

(** ** The code *)
Definition crc32_tab : list Z :=
  [0x00000000; 0x77073096; 0xee0e612c; 0x990951ba; 0x076dc419; 0x706af48f; 0xe963a535; 0x9e6495a3;
   0x0edb8832; 0x79dcb8a4; 0xe0d5e91e; 0x97d2d988; 0x09b64c2b; 0x7eb17cbd; 0xe7b82d07; 0x90bf1d91;
   0x1db71064; 0x6ab020f2; 0xf3b97148; 0x84be41de; 0x1adad47d; 0x6ddde4eb; 0xf4d4b551; 0x83d385c7;
   0x136c9856; 0x646ba8c0; 0xfd62f97a; 0x8a65c9ec; 0x14015c4f; 0x63066cd9; 0xfa0f3d63; 0x8d080df5;
   0x3b6e20c8; 0x4c69105e; 0xd56041e4; 0xa2677172; 0x3c03e4d1; 0x4b04d447; 0xd20d85fd; 0xa50ab56b;
   0x35b5a8fa; 0x42b2986c; 0xdbbbc9d6; 0xacbcf940; 0x32d86ce3; 0x45df5c75; 0xdcd60dcf; 0xabd13d59;
   0x26d930ac; 0x51de003a; 0xc8d75180; 0xbfd06116; 0x21b4f4b5; 0x56b3c423; 0xcfba9599; 0xb8bda50f;
   0x2802b89e; 0x5f058808; 0xc60cd9b2; 0xb10be924; 0x2f6f7c87; 0x58684c11; 0xc1611dab; 0xb6662d3d;
   0x76dc4190; 0x01db7106; 0x98d220bc; 0xefd5102a; 0x71b18589; 0x06b6b51f; 0x9fbfe4a5; 0xe8b8d433;
   0x7807c9a2; 0x0f00f934; 0x9609a88e; 0xe10e9818; 0x7f6a0dbb; 0x086d3d2d; 0x91646c97; 0xe6635c01;
   0x6b6b51f4; 0x1c6c6162; 0x856530d8; 0xf262004e; 0x6c0695ed; 0x1b01a57b; 0x8208f4c1; 0xf50fc457;
   0x65b0d9c6; 0x12b7e950; 0x8bbeb8ea; 0xfcb9887c; 0x62dd1ddf; 0x15da2d49; 0x8cd37cf3; 0xfbd44c65;
   0x4db26158; 0x3ab551ce; 0xa3bc0074; 0xd4bb30e2; 0x4adfa541; 0x3dd895d7; 0xa4d1c46d; 0xd3d6f4fb;
   0x4369e96a; 0x346ed9fc; 0xad678846; 0xda60b8d0; 0x44042d73; 0x33031de5; 0xaa0a4c5f; 0xdd0d7cc9;
   0x5005713c; 0x270241aa; 0xbe0b1010; 0xc90c2086; 0x5768b525; 0x206f85b3; 0xb966d409; 0xce61e49f;
   0x5edef90e; 0x29d9c998; 0xb0d09822; 0xc7d7a8b4; 0x59b33d17; 0x2eb40d81; 0xb7bd5c3b; 0xc0ba6cad;
   0xedb88320; 0x9abfb3b6; 0x03b6e20c; 0x74b1d29a; 0xead54739; 0x9dd277af; 0x04db2615; 0x73dc1683;
   0xe3630b12; 0x94643b84; 0x0d6d6a3e; 0x7a6a5aa8; 0xe40ecf0b; 0x9309ff9d; 0x0a00ae27; 0x7d079eb1;
   0xf00f9344; 0x8708a3d2; 0x1e01f268; 0x6906c2fe; 0xf762575d; 0x806567cb; 0x196c3671; 0x6e6b06e7;
   0xfed41b76; 0x89d32be0; 0x10da7a5a; 0x67dd4acc; 0xf9b9df6f; 0x8ebeeff9; 0x17b7be43; 0x60b08ed5;
   0xd6d6a3e8; 0xa1d1937e; 0x38d8c2c4; 0x4fdff252; 0xd1bb67f1; 0xa6bc5767; 0x3fb506dd; 0x48b2364b;
   0xd80d2bda; 0xaf0a1b4c; 0x36034af6; 0x41047a60; 0xdf60efc3; 0xa867df55; 0x316e8eef; 0x4669be79;
   0xcb61b38c; 0xbc66831a; 0x256fd2a0; 0x5268e236; 0xcc0c7795; 0xbb0b4703; 0x220216b9; 0x5505262f;
   0xc5ba3bbe; 0xb2bd0b28; 0x2bb45a92; 0x5cb36a04; 0xc2d7ffa7; 0xb5d0cf31; 0x2cd99e8b; 0x5bdeae1d;
   0x9b64c2b0; 0xec63f226; 0x756aa39c; 0x026d930a; 0x9c0906a9; 0xeb0e363f; 0x72076785; 0x05005713;
   0x95bf4a82; 0xe2b87a14; 0x7bb12bae; 0x0cb61b38; 0x92d28e9b; 0xe5d5be0d; 0x7cdcefb7; 0x0bdbdf21;
   0x86d3d2d4; 0xf1d4e242; 0x68ddb3f8; 0x1fda836e; 0x81be16cd; 0xf6b9265b; 0x6fb077e1; 0x18b74777;
   0x88085ae6; 0xff0f6a70; 0x66063bca; 0x11010b5c; 0x8f659eff; 0xf862ae69; 0x616bffd3; 0x166ccf45;
   0xa00ae278; 0xd70dd2ee; 0x4e048354; 0x3903b3c2; 0xa7672661; 0xd06016f7; 0x4969474d; 0x3e6e77db;
   0xaed16a4a; 0xd9d65adc; 0x40df0b66; 0x37d83bf0; 0xa9bcae53; 0xdebb9ec5; 0x47b2cf7f; 0x30b5ffe9;
   0xbdbdf21c; 0xcabac28a; 0x53b39330; 0x24b4a3a6; 0xbad03605; 0xcdd70693; 0x54de5729; 0x23d967bf;
   0xb3667a2e; 0xc4614ab8; 0x5d681b02; 0x2a6f2b94; 0xb40bbe37; 0xc30c8ea1; 0x5a05df1b; 0x2d02ef8d].

(** [crc = crc32_tab[(crc ^ *p) & 0xFF] ^ (crc >> 8)] *)
Definition crc_byte (crc p : Z) : Z :=
  Z.lxor (nth (Z.to_nat (Z.land (Z.lxor crc p) 0xFF)) crc32_tab 0) (Z.shiftr crc 8).

Definition sparse_crc32 (crc_in : Z) (p : buf) : Z :=
  let crc := Z.lxor crc_in 0xFFFFFFFF in
  Z.lxor (foldl crc_byte crc p) 0xFFFFFFFF.


(** ** The reference: one bit at a time, without a table *)
Definition crc_bit (c : Z) : Z :=
  if Z.testbit c 0 then Z.lxor (Z.shiftr c 1) 0xEDB88320 else Z.shiftr c 1.

Fixpoint crc_bits (n : nat) (c : Z) : Z :=
  match n with O => c | S n => crc_bits n (crc_bit c) end.

Definition crc_ref (crc_in : Z) (p : buf) : Z :=
  Z.lxor (foldl (fun c b => crc_bits 8 (Z.lxor c b)) (Z.lxor crc_in 0xFFFFFFFF) p) 0xFFFFFFFF.

(** ** Linearity *)
Lemma crc_bit_lxor a b : crc_bit (Z.lxor a b) = Z.lxor (crc_bit a) (crc_bit b).
Proof.
  unfold crc_bit. rewrite Z.lxor_spec, Z.shiftr_lxor.
  destruct (Z.testbit a 0), (Z.testbit b 0); simpl;
    apply Z.bits_inj'; intros k _; rewrite ?Z.lxor_spec;
    destruct (Z.testbit (Z.shiftr a 1) k), (Z.testbit (Z.shiftr b 1) k),
      (Z.testbit 0xEDB88320 k); done.
Qed.

Lemma crc_bits_lxor n a b : crc_bits n (Z.lxor a b) = Z.lxor (crc_bits n a) (crc_bits n b).
Proof. revert a b. induction n as [|n IH]; intros a b; simpl; [done|]. by rewrite crc_bit_lxor, IH. Qed.

(** A word with [n] low zero bits is only shifted. *)
Lemma crc_bits_shift n c : crc_bits n (Z.shiftl c (Z.of_nat n)) = c.
Proof.
  revert c. induction n as [|n IH]; intros c; cbn [crc_bits].
  - apply Z.shiftl_0_r.
  - rewrite <- (IH c) at 2. f_equal. unfold crc_bit.
    rewrite Z.shiftl_spec_low by lia. rewrite Z.shiftr_shiftl_l by lia. f_equal. lia.
Qed.

(** The table holds the eight-bit step of every byte. *)
Lemma crc32_tab_bits : crc32_tab = crc_bits 8 <$> (Z.of_nat <$> seq 0 256).
Proof. vm_compute. reflexivity. Qed.

Lemma crc32_tab_lookup b : 0 <= b < 256 -> nth (Z.to_nat b) crc32_tab 0 = crc_bits 8 b.
Proof.
  intros Hb. apply nth_lookup_Some. rewrite crc32_tab_bits, !list_lookup_fmap.
  rewrite lookup_seq_lt by lia. simpl. by rewrite Z2Nat.id by lia.
Qed.

Lemma lxor_low_high c : c = Z.lxor (Z.land c 0xFF) (Z.shiftl (Z.shiftr c 8) 8).
Proof.
  apply Z.bits_inj'. intros k Hk. rewrite Z.lxor_spec, Z.land_spec, Z.shiftl_spec by done.
  change 0xFF with (Z.ones 8).
  destruct (Z.lt_ge_cases k 8).
  - rewrite Z.ones_spec_low by lia. rewrite (Z.testbit_neg_r _ (k - 8)) by lia.
    by rewrite andb_true_r, xorb_false_r.
  - rewrite Z.ones_spec_high by lia. rewrite Z.shiftr_spec by lia. rewrite andb_false_r, xorb_false_l.
    f_equal. lia.
Qed.

Lemma shiftr8_byte b : 0 <= b < 256 -> Z.shiftr b 8 = 0.
Proof. intros. rewrite Z.shiftr_div_pow2 by done. by apply Z.div_small. Qed.

Lemma crc_byte_bits c b : 0 <= b < 256 -> crc_byte c b = crc_bits 8 (Z.lxor c b).
Proof.
  intros Hb. unfold crc_byte. rewrite crc32_tab_lookup.
  2:{ rewrite land_ff. by apply Z.mod_pos_bound. }
  rewrite (lxor_low_high (Z.lxor c b)) at 2. rewrite crc_bits_lxor. f_equal.
  rewrite Z.shiftr_lxor, (shiftr8_byte b) by done. rewrite Z.lxor_0_r. symmetry.
  apply (crc_bits_shift 8).
Qed.

(** ** Range *)
Lemma lxor_range w a b : 0 <= w -> 0 <= a < 2 ^ w -> 0 <= b < 2 ^ w -> 0 <= Z.lxor a b < 2 ^ w.
Proof.
  intros Hw Ha Hb.
  assert (H : Z.lxor a b = Z.lxor a b mod 2 ^ w); [|rewrite H; apply Z.mod_pos_bound; lia].
  rewrite <- Z.land_ones by done. apply Z.bits_inj'. intros k Hk.
  rewrite Z.land_spec, Z.lxor_spec.
  destruct (Z.lt_ge_cases k w); [rewrite Z.ones_spec_low by lia; by rewrite andb_true_r|].
  rewrite Z.ones_spec_high by lia. rewrite andb_false_r.
  rewrite <- (Z.mod_small a (2 ^ w)), <- (Z.mod_small b (2 ^ w)) by done.
  by rewrite !Z.mod_pow2_bits_high by lia.
Qed.

Lemma shiftr_range w k a : 0 <= k -> 0 <= a < 2 ^ w -> 0 <= Z.shiftr a k < 2 ^ w.
Proof.
  intros Hk Ha. rewrite Z.shiftr_div_pow2 by done. split; [apply Z.div_pos; [lia|by apply Z.pow_pos_nonneg]|].
  apply Z.le_lt_trans with a; [|lia]. apply Z.div_le_upper_bound; [by apply Z.pow_pos_nonneg|].
  assert (0 < 2 ^ k) by by apply Z.pow_pos_nonneg. nia.
Qed.

Lemma crc_bit_range c : 0 <= c < 2 ^ 32 -> 0 <= crc_bit c < 2 ^ 32.
Proof.
  intros Hc. unfold crc_bit. pose proof (shiftr_range 32 1 c ltac:(done) Hc).
  destruct (Z.testbit c 0); [|done]. by apply lxor_range.
Qed.

Lemma crc_bits_range n c : 0 <= c < 2 ^ 32 -> 0 <= crc_bits n c < 2 ^ 32.
Proof. revert c. induction n as [|n IH]; intros c Hc; [done|]. by apply IH, crc_bit_range. Qed.

Lemma crc_fold_range p c :
  bytes p -> 0 <= c < 2 ^ 32 -> 0 <= foldl crc_byte c p < 2 ^ 32.
Proof.
  intros Hp. revert c. induction Hp as [|b p Hb Hp IH]; intros c Hc; [done|]. simpl.
  apply IH. rewrite crc_byte_bits by done. apply crc_bits_range, lxor_range; lia.
Qed.

Lemma sparse_crc32_bounds c p :
  bytes p -> 0 <= c < 2 ^ 32 -> 0 <= sparse_crc32 c p < 2 ^ 32.
Proof. intros. unfold sparse_crc32. apply lxor_range; [done| |done]. apply crc_fold_range; [done|]. by apply lxor_range. Qed.

(** ** A step loses no information *)
Lemma lxor_cancel_r a b k : Z.lxor a k = Z.lxor b k -> a = b.
Proof.
  intros E. rewrite <- (Z.lxor_0_r a), <- (Z.lxor_nilpotent k), <- Z.lxor_assoc, E.
  by rewrite Z.lxor_assoc, Z.lxor_nilpotent, Z.lxor_0_r.
Qed.

Lemma crc_bit_zero c : 0 <= c < 2 ^ 32 -> crc_bit c = 0 -> c = 0.
Proof.
  unfold crc_bit. intros Hc. rewrite Z.shiftr_div_pow2 by done. rewrite Z.bit0_odd.
  destruct (Z.odd c) eqn:Ho; intros H.
  - apply Z.lxor_eq in H. change (2 ^ 1) with 2 in H.
    pose proof (Z.mul_div_le c 2 ltac:(done)). lia.
  - apply Bool.negb_true_iff in Ho. rewrite Z.negb_odd in Ho. apply Z.even_spec in Ho as [k ->].
    change (2 ^ 1) with 2 in H. rewrite Z.mul_comm, Z.div_mul in H by done. lia.
Qed.

Lemma crc_bits_zero n c : 0 <= c < 2 ^ 32 -> crc_bits n c = 0 -> c = 0.
Proof.
  revert c. induction n as [|n IH]; intros c Hc; [done|]. simpl. intros H.
  apply crc_bit_zero; [done|]. apply IH; [by apply crc_bit_range|done].
Qed.

Lemma crc_bits_inj n a b :
  0 <= a < 2 ^ 32 -> 0 <= b < 2 ^ 32 -> crc_bits n a = crc_bits n b -> a = b.
Proof.
  intros Ha Hb H. apply Z.lxor_eq, (crc_bits_zero n); [by apply lxor_range|].
  by rewrite crc_bits_lxor, H, Z.lxor_nilpotent.
Qed.

Lemma crc_byte_range c b : 0 <= c < 2 ^ 32 -> 0 <= b < 256 -> 0 <= crc_byte c b < 2 ^ 32.
Proof. intros. rewrite crc_byte_bits by done. apply crc_bits_range, lxor_range; lia. Qed.

Lemma crc_fold_inj p c d :
  bytes p -> 0 <= c < 2 ^ 32 -> 0 <= d < 2 ^ 32 ->
  foldl crc_byte c p = foldl crc_byte d p -> c = d.
Proof.
  intros Hp. revert c d. induction Hp as [|b p Hb Hp IH]; intros c d Hc Hd; [done|]. simpl.
  intros H. apply IH in H; [|by apply crc_byte_range..].
  rewrite !crc_byte_bits in H by done. apply crc_bits_inj in H; [|apply lxor_range; lia..].
  by apply lxor_cancel_r in H.
Qed.

(** ** The properties of the code *)

(** C17. The table-driven [sparse_crc32] computes the bit-serial CRC-32 with the
    reflected polynomial 0xEDB88320 on every byte string and every initial
    value, and returns a 32-bit word. *)
Theorem sparse_crc32_ref (c : Z) (p : buf) :
  bytes p -> 0 <= c < 2 ^ 32 ->
  sparse_crc32 c p = crc_ref c p /\ 0 <= sparse_crc32 c p < 2 ^ 32.
Proof.
  intros Hp Hc. split; [|by apply sparse_crc32_bounds].
  unfold sparse_crc32, crc_ref. f_equal. generalize (Z.lxor c 0xFFFFFFFF).
  induction Hp as [|b p Hb Hp IH]; intros x; simpl; [done|]. by rewrite IH, crc_byte_bits.
Qed.

(** The check value of CRC-32. *)
Lemma sparse_crc32_ref_witness :
  bytes (str_bytes "123456789") /\
  sparse_crc32 0 (str_bytes "123456789") = 0xCBF43926 /\
  sparse_crc32 0 (str_bytes "123456789") = crc_ref 0 (str_bytes "123456789").
Proof.
  assert (H : bytes (str_bytes "123456789")) by (vm_compute; repeat constructor; done).
  split_and!; [exact H|vm_compute; reflexivity|].
  exact (proj1 (sparse_crc32_ref 0 _ H (conj (Z.le_refl 0) eq_refl))).
Defined.

(** The checksum is incremental: feeding a buffer in two pieces, the second
    started from the result of the first, gives the checksum of the whole. *)
Theorem sparse_crc32_app (c : Z) (p q : buf) :
  sparse_crc32 c (p ++ q) = sparse_crc32 (sparse_crc32 c p) q.
Proof.
  unfold sparse_crc32. rewrite foldl_app. do 2 f_equal.
  rewrite Z.lxor_assoc, Z.lxor_nilpotent. by rewrite Z.lxor_0_r.
Qed.

(** The checksum detects every error confined to one byte: replacing byte
    [x] of a buffer by a different byte [y] always changes the result. *)
Theorem sparse_crc32_detects (c : Z) (p q : buf) (x y : Z) :
  bytes (p ++ x :: q) -> 0 <= y < 256 -> 0 <= c < 2 ^ 32 -> x <> y ->
  sparse_crc32 c (p ++ x :: q) <> sparse_crc32 c (p ++ y :: q).
Proof.
  intros [Hp [Hx Hq]%Forall_cons]%Forall_app Hy Hc Hne H. apply Hne. unfold sparse_crc32 in H.
  apply lxor_cancel_r in H. rewrite !foldl_app in H. cbn [foldl] in H.
  assert (Hf : 0 <= foldl crc_byte (Z.lxor c 4294967295) p < 2 ^ 32)
    by (apply crc_fold_range; [done|by apply lxor_range]).
  apply crc_fold_inj in H; [|done|by apply crc_byte_range..].
  rewrite !crc_byte_bits in H by done. apply crc_bits_inj in H; [|apply lxor_range; lia..].
  rewrite !(Z.lxor_comm (foldl _ _ _)) in H. by apply lxor_cancel_r in H.
Qed.

Lemma sparse_crc32_detects_witness :
  sparse_crc32 0 [1; 2; 3] <> sparse_crc32 0 [1; 7; 3].
Proof.
  apply (sparse_crc32_detects 0 [1] [3] 2 7); [repeat constructor; done|done|done|done].
Defined.
