(* ===== verification/BlockDev.v ===== *)
(** * Block devices and the C runtime

    The world the boot code runs in: block devices as byte strings, the calls it
    makes on them (open, ioctl, lseek, read, write, close), the allocator, the
    static names under [/dev] and the UFS device.  Every call takes a tick, and
    the environment decides from the tick whether the call succeeds and how many
    bytes a transfer moves: a fault-injection oracle.  A power loss is an
    environment in which every call after some tick fails: what was written before is on
    the medium, in the order it was written.  That the kernel may keep writes back until
    [fsync], and put them on the medium in another order, is not modelled. *)
From S2P Require Import Prelude Bytes.

(** ** The environment *)
Class Env := {
  (** does the call with this tick succeed? *)
  env_ok : nat -> bool;
  (** [errno] after a failed call *)
  env_errno : nat -> Z;
  (** [read]/[write]: success, and the number of bytes moved *)
  env_io : nat -> Z -> bool * Z;
  (** what an allocation with this tick contains *)
  env_junk : nat -> nat -> Z;
  (** [BLKSSZGET] *)
  env_blksz : string -> Z;
  (** [stat], [readlink], [readdir], [property_get] *)
  env_stat : string -> bool;
  env_readlink : string -> option string;
  env_listdir : string -> option (list string);
  env_property : string -> option string;
  (** [SG_IO]: return value, and whether the reply carries an error *)
  env_sgio : nat -> Z * bool;
  (** zlib's [crc32], and its initial value [crc32(0, Z_NULL, 0)] *)
  env_crc32 : Z -> buf -> Z;
  env_crc_init : Z;
}.

(** zlib documents [crc32] as a 32-bit checksum. *)
Class EnvLaws (E : Env) : Prop := {
  env_crc32_range c b : 0 <= env_crc32 c b < 2 ^ 32;
}.

(** ** The world *)
Record ufs_bsg_request := UfsBsgRequest {
  msgcode : Z; dword_0 : Z; dword_1 : Z; dword_2 : Z;
  qr_opcode : Z; qr_idn : Z; qr_index : Z; qr_selector : Z; qr_length : Z; qr_value : Z;
}.

Record World := MkWorld {
  devs : gmap string buf;          (** contents of the block devices *)
  ticks : nat;                     (** calls made so far *)
  hist : list (string * buf);      (** device contents after each write, oldest first *)
  blocks : Z;                      (** live heap blocks *)
  fds : Z;                         (** open descriptors *)
  ufs_bsg_dev : string;            (** globals of [recovery-ufs-bsg.h] *)
  fd_ufs_bsg : bool;
  bsg_log : list ufs_bsg_request;  (** requests the UFS device executed *)
}.

Definition set_devs f (w : World) := MkWorld (f (devs w)) (ticks w) (hist w) (blocks w) (fds w) (ufs_bsg_dev w) (fd_ufs_bsg w) (bsg_log w).
Definition set_ticks f (w : World) := MkWorld (devs w) (f (ticks w)) (hist w) (blocks w) (fds w) (ufs_bsg_dev w) (fd_ufs_bsg w) (bsg_log w).
Definition set_hist f (w : World) := MkWorld (devs w) (ticks w) (f (hist w)) (blocks w) (fds w) (ufs_bsg_dev w) (fd_ufs_bsg w) (bsg_log w).
Definition set_blocks f (w : World) := MkWorld (devs w) (ticks w) (hist w) (f (blocks w)) (fds w) (ufs_bsg_dev w) (fd_ufs_bsg w) (bsg_log w).
Definition set_fds f (w : World) := MkWorld (devs w) (ticks w) (hist w) (blocks w) (f (fds w)) (ufs_bsg_dev w) (fd_ufs_bsg w) (bsg_log w).
Definition set_bsg_dev f (w : World) := MkWorld (devs w) (ticks w) (hist w) (blocks w) (fds w) (f (ufs_bsg_dev w)) (fd_ufs_bsg w) (bsg_log w).
Definition set_fd_bsg f (w : World) := MkWorld (devs w) (ticks w) (hist w) (blocks w) (fds w) (ufs_bsg_dev w) (f (fd_ufs_bsg w)) (bsg_log w).
Definition set_bsg_log f (w : World) := MkWorld (devs w) (ticks w) (hist w) (blocks w) (fds w) (ufs_bsg_dev w) (fd_ufs_bsg w) (f (bsg_log w)).

Section calls.
Context `{E : Env}.

Abbreviation M := (CM World).

Definition tick : M nat := fun w => Some (ticks w, set_ticks S w).
Definition sys_ok : M bool := t ← tick; mret (env_ok t).

(** ** The allocator *)
Definition malloc (n : Z) : M (option buf) :=
  t ← tick;
  if env_ok t then
    _ ← modify (set_blocks (Z.add 1));
    mret (Some ((fun i => u8 (env_junk t i)) <$> seq 0 (Z.to_nat n)))
  else mret None.

Definition calloc (n : Z) : M (option buf) :=
  ok ← sys_ok;
  if ok : bool then
    _ ← modify (set_blocks (Z.add 1)); mret (Some (replicate (Z.to_nat n) 0))
  else mret None.

Definition free : M unit := modify (set_blocks (fun n => n - 1)).
(** [if (p) free(p);] *)
Definition free_opt {A} (p : option A) : M unit :=
  match p with Some _ => free | None => mret tt end.

(** ** Descriptors *)
(** [open(path, O_RDWR)]; [None] is -1. *)
Definition open_dev (path : string) : M (option string) :=
  ok ← sys_ok;
  w ← get;
  if ok && bool_decide (is_Some (devs w !! path)) then
    _ ← modify (set_fds (Z.add 1)); mret (Some path)
  else mret None.

Definition close : M unit := modify (set_fds (fun n => n - 1)).
(** [fsync(fd)], whose result the callers ignore: what was written is on the device already. *)
Definition fsync : M unit := mret tt.

(** [ioctl(fd, BLKSSZGET, &blk_size)] *)
Definition ioctl_BLKSSZGET (fd : string) : M (option Z) :=
  ok ← sys_ok; mret (if ok : bool then Some (u32 (env_blksz fd)) else None).

(** [lseek64(fd, 0, SEEK_END)] *)
Definition lseek_end (fd : string) : M Z :=
  ok ← sys_ok;
  if ok : bool then w ← get; dev ← deref (devs w !! fd); mret (Z.of_nat (length dev)) else mret (-1).

(** [lseek64(fd, offset, SEEK_SET) >= 0] *)
Definition lseek_set (offset : Z) : M bool :=
  ok ← sys_ok; mret (negb (offset <? 0) && ok).

(** How many bytes a transfer of [len] at [off] moves. *)
Definition moved (t : nat) (dev : buf) (off len : Z) : Z :=
  Z.max 0 (Z.min (snd (env_io t len)) (Z.min len (Z.of_nat (length dev) - off))).

(** [read(fd, buf, len)] at position [off]: result and buffer. *)
Definition read_dev (fd : string) (off : Z) (b : buf) (len : Z) : M (Z * buf) :=
  t ← tick; w ← get;
  dev ← deref (devs w !! fd);
  data ← deref (slice dev (Z.min off (Z.of_nat (length dev))) (moved t dev off len));
  _ ← deref (slice b 0 len);
  b ← deref (splice b 0 data);
  mret (if fst (env_io t len) then moved t dev off len else -1, b).

(** [write(fd, buf, len)] at position [off]. *)
Definition write_dev (fd : string) (off : Z) (b : buf) (len : Z) : M Z :=
  t ← tick; w ← get;
  dev ← deref (devs w !! fd);
  data ← deref (slice b 0 len);
  dev' ← deref (splice dev (Z.min off (Z.of_nat (length dev))) (take (Z.to_nat (moved t dev off len)) data));
  _ ← modify (set_devs <[fd := dev']>);
  _ ← modify (set_hist (fun h => h ++ [(fd, dev')]));
  mret (if fst (env_io t len) then moved t dev off len else -1).

End calls.

(** A transfer is complete or fails after a whole number of blocks: what Linux
    block devices do with block-aligned requests of less than 2 GiB. *)
Definition io_blocks `{Env} (fd : string) : Prop :=
  forall t len, 0 <= len <= 0x7ffff000 ->
    if fst (env_io t len) then len <= snd (env_io t len)
    else exists k, snd (env_io t len) = k * u32 (env_blksz fd).

(** No call fails. *)
Definition no_faults `{Env} : Prop :=
  (forall t, env_ok t = true) /\
  (forall t len, 0 <= len <= 0x7ffff000 -> env_io t len = (true, len)).
