(* ===== verification/UfsBsg.v ===== *)
(** * The UFS query request ([src/gpt-utils/recovery-ufs-bsg.cpp])

    Selecting the boot LUN through the UFS BSG node, as built with
    [_BSG_FRAMEWORK_KERNEL_HEADERS]. *)
From S2P Require Import Prelude Bytes BlockDev.

Definition UTP_UPIU_QUERY_REQ : Z := 0x16.
Definition QUERY_REQ_FUNC_STD_WRITE : Z := 0x81.
Definition QUERY_REQ_OP_WRITE_DESC : Z := 0x2.
Definition QUERY_REQ_OP_WRITE_ATTR : Z := 0x4.
Definition QUERY_ATTR_IDN_BOOT_LU_EN : Z := 0x00.
Definition FNAME_SZ : nat := 64.
Definition ENODEV : Z := 19.
Definition EINVAL : Z := 22.
Definition EAGAIN : Z := 11.

(** [htobe32] and [htobe16] on a little-endian machine. *)
Definition htobe32 (x : Z) : Z :=
  Z.lor (Z.lor (Z.lor (Z.shiftl (Z.land x 0xff) 24) (Z.shiftl (Z.land (Z.shiftr x 8) 0xff) 16))
               (Z.shiftl (Z.land (Z.shiftr x 16) 0xff) 8)) (Z.land (Z.shiftr x 24) 0xff).
Definition htobe16 (x : Z) : Z :=
  Z.lor (Z.shiftl (Z.land x 0xff) 8) (Z.land (Z.shiftr x 8) 0xff).
Definition DWORD (b3 b2 b1 b0 : Z) : Z :=
  htobe32 (u32 (Z.lor (Z.lor (Z.lor (Z.shiftl b3 24) (Z.shiftl b2 16)) (Z.shiftl b1 8)) b0)).

(** [snprintf(dst, n, ...)]: at most [n - 1] characters. *)
Definition snprintf (n : nat) (s : string) : string := String.substring 0 (n - 1) s.

Section ufs.
Context `{E : Env}.

Abbreviation M := (CM World).

Fixpoint find_bsg (names : list string) : option string :=
  match names with
  | [] => None
  | d :: names =>
      if bool_decide (d = "ufs-bsg"%string) || bool_decide (d = "ufs-bsg0"%string) then Some d
      else find_bsg names
  end.

Definition get_ufs_bsg_dev : M Z :=
  ok ← sys_ok;
  match (if ok : bool then env_listdir "/dev" else None) with
  | Some names =>
      match find_bsg names with
      | Some d => _ ← modify (set_bsg_dev (fun _ => snprintf FNAME_SZ ("/dev/" +:+ d))); mret 0
      | None => mret (- ENODEV)
      end
  | None => mret (- EINVAL)
  end.

Definition ufs_bsg_dev_open : M Z :=
  w ← get;
  if fd_ufs_bsg w then mret 0 else
  t ← tick;
  if env_ok t then
    _ ← modify (set_fds (Z.add 1)); _ ← modify (set_fd_bsg (fun _ => true)); mret 0
  else mret (env_errno t).

Definition ufs_bsg_dev_close : M unit :=
  w ← get;
  if fd_ufs_bsg w then _ ← close; modify (set_fd_bsg (fun _ => false)) else mret tt.

(** The device executes the request when the ioctl reports no error. *)
Definition ufs_bsg_ioctl (req : ufs_bsg_request) : M Z :=
  t ← tick;
  let '(ret, err) := env_sgio t in
  _ ← (if (ret =? 0) && negb err then modify (set_bsg_log (fun l => l ++ [req])) else mret tt);
  mret (if err : bool then - EAGAIN else ret).

Definition compose_ufs_bsg_query_req (value func opcode idn index sel length : Z) : ufs_bsg_request :=
  UfsBsgRequest UTP_UPIU_QUERY_REQ (DWORD UTP_UPIU_QUERY_REQ 0 0 0) (DWORD 0 func 0 0)
    (DWORD 0 0 (Z.shiftr length 8) (u8 length)) opcode idn index sel (htobe16 length) value.

Definition ufs_query_attr (value func opcode idn index sel : Z) : M Z :=
  ufs_bsg_ioctl (compose_ufs_bsg_query_req (htobe32 value) func opcode idn index sel 0).

Definition set_boot_lun (lun_id : Z) : M Z :=
  let boot_lun_id := lun_id in
  ret ← get_ufs_bsg_dev;
  if negb (ret =? 0) then mret ret else
  ret ← ufs_bsg_dev_open;
  if negb (ret =? 0) then mret ret else
  ret ← ufs_query_attr boot_lun_id QUERY_REQ_FUNC_STD_WRITE QUERY_REQ_OP_WRITE_ATTR
          QUERY_ATTR_IDN_BOOT_LU_EN 0 0;
  _ ← ufs_bsg_dev_close;
  mret ret.
End ufs.
