(* ===== verification/GptUtils.v ===== *)
(** * GPT partition tables ([src/gpt-utils/gpt-utils.cpp])

    The partition-entry search, the boot-chain switch, the header state, the
    fail-safe update stages and the [gpt_disk] handle.  The functions are over
    the world of [BlockDev.v]; a header or an entry array is a byte buffer, a
    pointer into it an offset. *)
From S2P Require Import Prelude Bytes BlockDev UfsBsg.

(** ** Constants ([gpt-utils.h]) *)
Abbreviation HEADER_SIZE_OFFSET := 12.
Abbreviation HEADER_CRC_OFFSET := 16.
Abbreviation PENTRIES_OFFSET := 72.
Abbreviation PARTITION_COUNT_OFFSET := 80.
Abbreviation PENTRY_SIZE_OFFSET := 84.
Abbreviation PARTITION_CRC_OFFSET := 88.
Abbreviation TYPE_GUID_SIZE := 16.
Abbreviation PTN_ENTRY_SIZE := 128.
Abbreviation PARTITION_NAME_OFFSET := 56.
Abbreviation MAX_GPT_NAME_SIZE := 72.
Abbreviation ATTRIBUTE_FLAG_OFFSET := 48.
Abbreviation AB_FLAG_OFFSET := 54.
Abbreviation GPT_DISK_INIT_MAGIC := 0xABCD.

(** ["EFI PART"] with its terminator: [sizeof(GPT_SIGNATURE)] is 9. *)
Definition GPT_SIGNATURE : buf := str_bytes "EFI PART" ++ [0].

Definition PTN_XBL : string := "xbl".
Definition PTN_SWAP_LIST : list string :=
  [PTN_XBL; "xbl_config"; "sbl1"; "rpm"; "tz"; "aboot"; "abl"; "hyp"; "lksecapp"; "keymaster";
   "cmnlib"; "cmnlib32"; "cmnlib64"; "pmic"; "apdp"; "devcfg"; "hosd"; "keystore"; "msadp"; "mdtp";
   "mdtpsecapp"; "dsp"; "aop"; "qupfw"; "vbmeta"; "dtbo"; "imagefv"; "ImageFv"; "multiimgoem";
   "multiimgqti"; "uefisecapp"; "shrm"; "cpucp"]%string.
Definition AB_PTN_LIST : list string :=
  PTN_SWAP_LIST ++
  ["boot"; "system"; "vendor"; "odm"; "modem"; "bluetooth"; "fsg"; "logo"; "mdm1m9kefs3"; "prov";
   "spss"; "storsec"; "vbmeta_system"; "vendor_boot"]%string.

Definition BLK_DEV_FILE : string := "/dev/block/mmcblk0".
Definition BAK_PTN_NAME_EXT : string := "bak".
Definition BOOT_DEV_DIR : string := "/dev/block/bootdevice/by-name".
Definition XBL_PRIMARY : string := "/dev/block/bootdevice/by-name/xbl".
Definition XBL_BACKUP : string := "/dev/block/bootdevice/by-name/xblbak".
Definition XBL_AB_PRIMARY : string := "/dev/block/bootdevice/by-name/xbl_a".
Definition XBL_AB_SECONDARY : string := "/dev/block/bootdevice/by-name/xbl_b".
Definition MAX_LUNS : Z := 26.
Definition PATH_TRUNCATE_LOC : nat := 14.
Definition LUN_NAME_START_LOC : nat := 11.
Definition PATH_MAX : nat := 4096.
Definition BOOT_LUN_A_ID : Z := 1.
Definition BOOT_LUN_B_ID : Z := 2.

Inductive gpt_state := GPT_OK | GPT_BAD_SIGNATURE | GPT_BAD_CRC.
Inductive gpt_instance := PRIMARY_GPT | SECONDARY_GPT.
Inductive boot_chain := NORMAL_BOOT | BACKUP_BOOT.
(** [enum boot_update_stage]; the code compares it with [internal_stage - 1]. *)
Abbreviation UPDATE_MAIN := 1.
Abbreviation UPDATE_BACKUP := 2.
Abbreviation UPDATE_FINALIZE := 3.

#[export] Instance gpt_state_eq_dec : EqDecision gpt_state.
Proof. solve_decision. Defined.
#[export] Instance boot_chain_eq_dec : EqDecision boot_chain.
Proof. solve_decision. Defined.

Record gpt_disk := GptDisk {
  hdr : option buf; hdr_crc : Z; hdr_bak : option buf; hdr_bak_crc : Z;
  pentry_arr : option buf; pentry_arr_bak : option buf;
  pentry_arr_size : Z; pentry_size : Z; pentry_arr_crc : Z; pentry_arr_bak_crc : Z;
  devpath : string; block_size : Z; is_initialized : Z;
}.

Section gpt.
Context `{E : Env}.

Abbreviation M := (CM World).

(** [crc32(crc_zero, buf, len)]: reads [len] bytes. *)
Definition crc32 (b : buf) (len : Z) : M Z :=
  d ← deref (slice b 0 len); mret (env_crc32 env_crc_init d).

(** A [uint64_t] offset passed as [int64_t]. *)
Definition s64 (z : Z) : Z := if u64 z <? 2 ^ 63 then u64 z else u64 z - 2 ^ 64.

(** ** [blk_rw] *)
Definition blk_rw (fd : string) (rw : bool) (offset : Z) (b : buf) (len : Z) : M (Z * buf) :=
  ok ← lseek_set offset;
  if negb ok then mret (-1, b) else
  if rw then r ← write_dev fd offset b len; mret (if r <? 0 then r else 0, b)
  else '(r, b) ← read_dev fd offset b len; mret (if r <? 0 then r else 0, b).

(** ** [gpt_pentry_seek] *)

(** [for (i = 0; i < 36; i++) name8[i] = pentry_name[i * 2];]
    the rest of [name8] stays zero. *)
Definition name8 (b : buf) (p : Z) : option buf :=
  l ← mapM (fun i => rd b (p + 2 * Z.of_nat i)) (seq 0 36); Some (l ++ replicate 36 0).

(** The bytes before the terminator. *)
Fixpoint c_str (b : buf) : buf :=
  match b with
  | [] => []
  | x :: b => if x =? 0 then [] else x :: c_str b
  end.

(** The test on one entry: the name, or the name followed by [bak]. *)
Definition name_matches (ptn_name n8 : buf) : bool :=
  let len := length ptn_name in
  strncmp_eq ptn_name n8 len &&
  ((default 0 (n8 !! len) =? 0) ||
   bool_decide (c_str (drop len n8) = str_bytes BAK_PTN_NAME_EXT)).

Fixpoint seek_loop (fuel : nat) (ptn_name b : buf) (p e size : Z) : option (option Z) :=
  match fuel with
  | O => None
  | S fuel =>
      if p <? e then
        n8 ← name8 b p;
        if name_matches ptn_name n8 then Some (Some (p - PARTITION_NAME_OFFSET))
        else seek_loop fuel ptn_name b (p + size) e size
      else Some None
  end.

(** The entries between [start] and [e] of the array object [b]; the loop
    advances by [size] bytes, so it ends within [e - start] steps unless [size]
    is zero. *)
Definition gpt_pentry_seek (ptn_name : string) (b : buf) (start e size : Z) : option (option Z) :=
  seek_loop (S (Z.to_nat (e - start))) (str_bytes ptn_name) b (start + PARTITION_NAME_OFFSET) e size.

Definition gpt_utils_is_ufs_device : bool :=
  let bootdevice := default "N/A"%string (env_property "ro.boot.bootdevice") in
  let l := String.length bootdevice in
  if (l <? String.length ".ufshc" + 1)%nat then false
  else bool_decide (String.substring (l - String.length ".ufshc") (String.length ".ufshc") bootdevice
                    = ".ufshc"%string).

(** ** [gpt_boot_chain_swap]: 0 on success, 1 if no backup partition was found *)

(** [memcpy] of two 128-byte entries; overlapping objects are undefined. *)
Definition swap_entries (b : buf) (e1 e2 : Z) : option buf :=
  if e2 <? e1 + PTN_ENTRY_SIZE then None else
  ptn_swap ← slice b e1 PTN_ENTRY_SIZE;
  bak ← slice b e2 PTN_ENTRY_SIZE;
  b ← splice b e1 bak;
  splice b e2 ptn_swap.

Definition swap_one (size : Z) (name : string) (acc : Z * buf) : option (Z * buf) :=
  let '(backup_not_found, b) := acc in
  let e := Z.of_nat (length b) in
  if gpt_utils_is_ufs_device && String.prefix PTN_XBL name then Some acc else
  ptn_entry ← gpt_pentry_seek name b 0 e size;
  match ptn_entry with
  | None => Some acc
  | Some ptn_entry =>
      ptn_bak_entry ← gpt_pentry_seek name b (ptn_entry + size) e size;
      match ptn_bak_entry with
      | None => Some acc
      | Some ptn_bak_entry => b ← swap_entries b ptn_entry ptn_bak_entry; Some (0, b)
      end
  end.

Fixpoint swap_all (names : list string) (size : Z) (acc : Z * buf) : option (Z * buf) :=
  match names with
  | [] => Some acc
  | n :: names => acc ← swap_one size n acc; swap_all names size acc
  end.

Definition gpt_boot_chain_swap (b : buf) (size : Z) : option (Z * buf) :=
  swap_all PTN_SWAP_LIST size (1, b).

(** ** Header access *)

(** Offset and length of the entry array a header describes. *)
Definition pentries_start_of (h : buf) (blk_size : Z) : option Z :=
  n ← GET_8_BYTES h PENTRIES_OFFSET; Some (u64 (n * blk_size)).
Definition pentries_size_of (h : buf) : option Z :=
  sz ← GET_4_BYTES h PENTRY_SIZE_OFFSET; n ← GET_4_BYTES h PARTITION_COUNT_OFFSET;
  Some (u32 (n * sz)).

(** ** [gpt2_set_boot_chain] *)
Definition gpt2_set_boot_chain (fd : string) (boot : boot_chain) : M Z :=
  blk ← ioctl_BLKSSZGET fd;
  match blk with None => mret (-1) | Some blk_size =>
  gpt_header ← malloc blk_size;
  match gpt_header with None => mret (-1) | Some gpt_header =>
  e ← lseek_end fd;
  let gpt2_header_offset := e - blk_size in
  if gpt2_header_offset <? 0 then _ ← free; mret (-1) else
  (* primary header *)
  '(r, gpt_header) ← blk_rw fd false blk_size gpt_header blk_size;
  if negb (r =? 0) then _ ← free; mret r else
  pentries_start_offset ← deref (pentries_start_of gpt_header blk_size);
  pentry_size ← deref (GET_4_BYTES gpt_header PENTRY_SIZE_OFFSET);
  pentries_array_size ← deref (pentries_size_of gpt_header);
  pentries ← calloc pentries_array_size;
  match pentries with None => _ ← free; mret (-1) | Some pentries =>
  '(r, pentries) ← blk_rw fd false (s64 pentries_start_offset) pentries pentries_array_size;
  if negb (r =? 0) then _ ← free; _ ← free; mret r else
  crc ← crc32 pentries pentries_array_size;
  stored ← deref (GET_4_BYTES gpt_header PARTITION_CRC_OFFSET);
  if negb (stored =? u32 crc) then _ ← free; _ ← free; mret (-1) else
  (* secondary header *)
  '(r, gpt_header) ← blk_rw fd false gpt2_header_offset gpt_header blk_size;
  if negb (r =? 0) then _ ← free; _ ← free; mret r else
  gpt_header_size ← deref (GET_4_BYTES gpt_header HEADER_SIZE_OFFSET);
  pentries_start_offset ← deref (pentries_start_of gpt_header blk_size);
  '(r, pentries) ← (if decide (boot = BACKUP_BOOT) then deref (gpt_boot_chain_swap pentries pentry_size)
                    else mret (0, pentries));
  if negb (r =? 0) then _ ← free; _ ← free; mret r else
  crc ← crc32 pentries pentries_array_size;
  gpt_header ← deref (PUT_4_BYTES gpt_header PARTITION_CRC_OFFSET (u32 crc));
  gpt_header ← deref (PUT_4_BYTES gpt_header HEADER_CRC_OFFSET 0);
  crc ← crc32 gpt_header gpt_header_size;
  gpt_header ← deref (PUT_4_BYTES gpt_header HEADER_CRC_OFFSET (u32 crc));
  '(r, gpt_header) ← blk_rw fd true gpt2_header_offset gpt_header blk_size;
  '(r, pentries) ← (if r =? 0 then blk_rw fd true (s64 pentries_start_offset) pentries pentries_array_size
                    else mret (r, pentries));
  _ ← free; _ ← free; mret r
  end end end.

(** ** Header state *)

(** [blk_size], or [lseek64(fd, 0, SEEK_END) - blk_size]. *)
Definition header_offset (fd : string) (gpt : gpt_instance) (blk_size : Z) : M Z :=
  match gpt with
  | PRIMARY_GPT => mret blk_size
  | SECONDARY_GPT => e ← lseek_end fd; mret (e - blk_size)
  end.

(** The result, and [*state] where the caller may read it. *)
Definition gpt_get_state (fd : string) (gpt : gpt_instance) : M (Z * gpt_state) :=
  blk ← ioctl_BLKSSZGET fd;
  match blk with None => mret (-1, GPT_OK) | Some blk_size =>
  gpt_header ← malloc blk_size;
  match gpt_header with None => mret (-1, GPT_OK) | Some gpt_header =>
  gpt_header_offset ← header_offset fd gpt blk_size;
  if gpt_header_offset <? 0 then _ ← free; mret (-1, GPT_OK) else
  '(r, gpt_header) ← blk_rw fd false gpt_header_offset gpt_header blk_size;
  if negb (r =? 0) then _ ← free; mret (-1, GPT_OK) else
  sig ← deref (slice gpt_header 0 9);
  let state := if bool_decide (sig = GPT_SIGNATURE) then GPT_OK else GPT_BAD_SIGNATURE in
  gpt_header_size ← deref (GET_4_BYTES gpt_header HEADER_SIZE_OFFSET);
  crc ← deref (GET_4_BYTES gpt_header HEADER_CRC_OFFSET);
  gpt_header ← deref (PUT_4_BYTES gpt_header HEADER_CRC_OFFSET 0);
  c ← crc32 gpt_header gpt_header_size;
  _ ← free;
  mret (0, if c =? crc then state else GPT_BAD_CRC)
  end end.

Definition gpt_set_state (fd : string) (gpt : gpt_instance) (state : gpt_state) : M Z :=
  blk ← ioctl_BLKSSZGET fd;
  match blk with None => mret (-1) | Some blk_size =>
  gpt_header ← malloc blk_size;
  match gpt_header with None => mret (-1) | Some gpt_header =>
  gpt_header_offset ← header_offset fd gpt blk_size;
  if gpt_header_offset <? 0 then _ ← free; mret (-1) else
  '(r, gpt_header) ← blk_rw fd false gpt_header_offset gpt_header blk_size;
  if negb (r =? 0) then _ ← free; mret (-1) else
  if decide (state = GPT_BAD_CRC) then _ ← free; mret (-1) else
  gpt_header ← deref (if decide (state = GPT_OK) then splice gpt_header 0 GPT_SIGNATURE
                      else wr gpt_header 0 0);
  gpt_header_size ← deref (GET_4_BYTES gpt_header HEADER_SIZE_OFFSET);
  gpt_header ← deref (PUT_4_BYTES gpt_header HEADER_CRC_OFFSET 0);
  crc ← crc32 gpt_header gpt_header_size;
  gpt_header ← deref (PUT_4_BYTES gpt_header HEADER_CRC_OFFSET (u32 crc));
  '(r, gpt_header) ← blk_rw fd true gpt_header_offset gpt_header blk_size;
  if negb (r =? 0) then _ ← free; mret (-1) else
  mret 0          (* gpt_header is not freed *)
  end end.
(** ** Boot LUN of a UFS device *)

(** The text of [real_path] from [LUN_NAME_START_LOC], truncated. *)
Fixpoint find_sg (names : list string) : option string :=
  match names with
  | [] => None
  | d :: names => if String.prefix "." d then find_sg names
                  else if String.prefix "sg" d then Some d else find_sg names
  end.

Definition get_scsi_node_from_bootdevice (bootdev_path : option string) (buf_size : nat) : M (Z * string) :=
  match bootdev_path with None => mret (-1, ""%string) | Some bootdev_path =>
  match env_readlink bootdev_path with None => mret (-1, ""%string) | Some link =>
  let real_path := String.substring 0 (PATH_MAX - 1) link in
  if (String.length real_path <? PATH_TRUNCATE_LOC + 1)%nat then mret (-1, ""%string) else
  let real_path := String.substring 0 PATH_TRUNCATE_LOC real_path in
  if (String.length real_path <? LUN_NAME_START_LOC + 1)%nat then mret (-1, ""%string) else
  let lun := String.substring LUN_NAME_START_LOC (String.length real_path) real_path in
  let sg_dir_path := snprintf (PATH_MAX - 1) ("/sys/block/" +:+ lun +:+ "/device/scsi_generic") in
  ok ← sys_ok;
  match (if ok : bool then env_listdir sg_dir_path else None) with
  | None => mret (-1, ""%string)
  | Some names =>
      match find_sg names with
      | None => mret (-1, ""%string)
      | Some d => mret (0, snprintf (buf_size - 1) ("/dev/" +:+ d))
      end
  end end end.

Definition gpt_utils_set_xbl_boot_partition (chain : boot_chain) : M Z :=
  let '(boot_lun_id, boot_dev) :=
    match chain with
    | BACKUP_BOOT =>
        (BOOT_LUN_B_ID, if env_stat XBL_BACKUP then Some XBL_BACKUP
                        else if env_stat XBL_AB_SECONDARY then Some XBL_AB_SECONDARY else None)
    | NORMAL_BOOT =>
        (BOOT_LUN_A_ID, if env_stat XBL_PRIMARY then Some XBL_PRIMARY
                        else if env_stat XBL_AB_PRIMARY then Some XBL_AB_PRIMARY else None)
    end in
  match boot_dev with None => mret (-1) | Some boot_dev =>
  if (negb (env_stat XBL_PRIMARY) || negb (env_stat XBL_BACKUP)) &&
     (negb (env_stat XBL_AB_PRIMARY) || negb (env_stat XBL_AB_SECONDARY)) then mret (-1) else
  '(r, sg_dev_node) ← get_scsi_node_from_bootdevice (Some boot_dev) PATH_MAX;
  if negb (r =? 0) then mret (-1) else
  r ← set_boot_lun boot_lun_id;      (* sg_dev_node is unused *)
  mret (if r =? 0 then 0 else -1)
  end.

(** ** [prepare_partitions] *)

(** The stage the header states stand for; [None]: unacceptable states. *)
Definition internal_stage_of (gpt_prim gpt_second : gpt_state) : option Z :=
  if bool_decide (gpt_prim = GPT_BAD_CRC) || bool_decide (gpt_second = GPT_BAD_CRC) then None
  else if bool_decide (gpt_prim = GPT_BAD_SIGNATURE) && bool_decide (gpt_second = GPT_BAD_SIGNATURE) then None
  else if bool_decide (gpt_prim = GPT_OK) && bool_decide (gpt_second = GPT_OK) then Some UPDATE_MAIN
  else if bool_decide (gpt_prim = GPT_BAD_SIGNATURE) then Some UPDATE_BACKUP
  else if bool_decide (gpt_second = GPT_BAD_SIGNATURE) then Some UPDATE_FINALIZE
  else None.

(** The boot LUN switch of stages MAIN and BACKUP. *)
Definition switch_xbl (is_ufs : bool) (chain : boot_chain) : M Z :=
  if is_ufs then
    if negb (env_stat XBL_PRIMARY) || negb (env_stat XBL_BACKUP) then mret 0
    else gpt_utils_set_xbl_boot_partition chain
  else mret 0.

Definition update_stage (fd : string) (is_ufs : bool) (stage : Z) : M Z :=
  if stage =? UPDATE_MAIN then
    r ← switch_xbl is_ufs BACKUP_BOOT;
    if negb (r =? 0) then mret r else
    r ← gpt2_set_boot_chain fd BACKUP_BOOT;
    if negb (r =? 0) then mret (if r <? 0 then r else 0) else
    gpt_set_state fd PRIMARY_GPT GPT_BAD_SIGNATURE
  else if stage =? UPDATE_BACKUP then
    r ← switch_xbl is_ufs NORMAL_BOOT;
    if negb (r =? 0) then mret r else
    r ← gpt_set_state fd PRIMARY_GPT GPT_OK;
    if negb (r =? 0) then mret r else
    gpt_set_state fd SECONDARY_GPT GPT_BAD_SIGNATURE
  else if stage =? UPDATE_FINALIZE then
    r ← gpt2_set_boot_chain fd NORMAL_BOOT;
    if r <? 0 then mret r else
    gpt_set_state fd SECONDARY_GPT GPT_OK
  else mret 0.

Definition prepare_on (fd : string) (is_ufs : bool) (stage : Z) : M Z :=
  '(r, gpt_prim) ← gpt_get_state fd PRIMARY_GPT;
  if negb (r =? 0) then mret 1 else
  '(r, gpt_second) ← gpt_get_state fd SECONDARY_GPT;
  if negb (r =? 0) then mret 1 else
  match internal_stage_of gpt_prim gpt_second with
  | None => mret (-1)
  | Some internal_stage =>
      if stage =? internal_stage - 1 then mret 0 else
      if negb (stage =? internal_stage) then mret (-1) else
      update_stage fd is_ufs stage
  end.

Definition prepare_partitions (stage : Z) (dev_path : option string) : M Z :=
  let is_ufs := gpt_utils_is_ufs_device in
  match dev_path with None => mret (-1) | Some dev_path =>
  fd ← open_dev dev_path;
  match fd with None => mret (-1) | Some fd =>
  r ← prepare_on fd is_ufs stage;
  _ ← fsync; _ ← close; mret r
  end end.

(** ** [prepare_boot_update] *)

(** [struct update_data]: the valid entries of [lun_list]. *)
Definition update_data : Type := list string.

Definition add_lun_to_update_list (lun_path : string) (dat : update_data) : option (Z * update_data) :=
  let n := Z.of_nat (length dat) in
  if negb (env_stat lun_path) then Some (-1, dat) else
  if n =? 0 then Some (0, [String.substring 0 (PATH_MAX - 1) lun_path]) else
  if (n <? MAX_LUNS - 1) && existsb (fun l => String.prefix l lun_path) dat then Some (0, dat) else
  if MAX_LUNS <=? n then None   (* lun_list[MAX_LUNS] *)
  else Some (0, dat ++ [String.substring 0 (PATH_MAX - 1) lun_path]).

(** One iteration of the search for the LUNs of the critical partitions. *)
Definition add_partition_lun (dat : update_data) (name : string) : option update_data :=
  if String.prefix PTN_XBL name then Some dat else
  let b := snprintf PATH_MAX (BOOT_DEV_DIR +:+ "/" +:+ name +:+ "bak") in
  if negb (env_stat b) then Some dat else
  match env_readlink b with
  | None => Some dat
  | Some link =>
      let real_path := String.substring 0 (PATH_MAX - 1) link in
      if (String.length real_path <? PATH_TRUNCATE_LOC + 1)%nat then Some dat else
      '(_, dat) ← add_lun_to_update_list (String.substring 0 PATH_TRUNCATE_LOC real_path) dat;
      Some dat
  end.

Fixpoint find_luns (names : list string) (dat : update_data) : option update_data :=
  match names with
  | [] => Some dat
  | n :: names => dat ← add_partition_lun dat n; find_luns names dat
  end.

(** The second loop; the result says whether a LUN failed. *)
Fixpoint prepare_luns (stage : Z) (dat : update_data) : M bool :=
  match dat with
  | [] => mret false
  | lun :: dat =>
      rcode ← prepare_partitions stage (Some lun);
      is_error ← prepare_luns stage dat;
      mret (negb (rcode =? 0) || is_error)
  end.

Definition prepare_boot_update (stage : Z) : M Z :=
  if negb gpt_utils_is_ufs_device then prepare_partitions stage (Some BLK_DEV_FILE) else
  data ← deref (find_luns PTN_SWAP_LIST []);
  is_error ← prepare_luns stage data;
  mret (if is_error : bool then -1 else 0).

(** ** Partition name to device *)

(** The callers pass a zeroed buffer of [buflen] bytes. *)
Definition get_dev_path_from_partition_name (partname : option string) (buflen : nat) : option string :=
  match partname with None => None | Some partname =>
  if (buflen <? PATH_TRUNCATE_LOC + 1)%nat then None else
  if gpt_utils_is_ufs_device then
    let path := snprintf PATH_MAX (BOOT_DEV_DIR +:+ "/" +:+ partname) in
    if negb (env_stat path) then None else
    link ← env_readlink path;
    Some (String.substring 0 PATH_TRUNCATE_LOC link)
  else Some (snprintf buflen BLK_DEV_FILE)
  end.

(** [std::map<string, vector<string>>]: an association list sorted by key. *)
Definition ptn_map : Type := list (string * list string).

Fixpoint map_push (m : ptn_map) (path name : string) : ptn_map :=
  match m with
  | [] => [(path, [name])]
  | (k, v) :: m' =>
      match String.compare path k with
      | Eq => (k, v ++ [name]) :: m'
      | Lt => (path, [name]) :: m
      | Gt => (k, v) :: map_push m' path name
      end
  end.

Fixpoint partition_map_loop (ptn_list : list string) (m : ptn_map) : ptn_map :=
  match ptn_list with
  | [] => m
  | n :: rest =>
      match get_dev_path_from_partition_name (Some n) PATH_MAX with
      | None => partition_map_loop rest m
      | Some path => partition_map_loop rest (map_push m path n)
      end
  end.

Definition gpt_utils_get_partition_map (ptn_list : list string) (m : ptn_map) : Z * ptn_map :=
  if (length ptn_list <? 1)%nat then (-1, m) else (0, partition_map_loop ptn_list m).

(** ** Headers and entry arrays *)
Definition gpt_get_block_size (fd : string) : M Z :=
  blk ← ioctl_BLKSSZGET fd; mret (default 0 blk).

(** [instance == PRIMARY_GPT ? block_size : lseek64(fd, 0, SEEK_END) - block_size] *)
Definition gpt_set_header (gpt_header : option buf) (fd : option string) (instance : gpt_instance) : M Z :=
  match gpt_header, fd with
  | Some gpt_header, Some fd =>
      block_size ← gpt_get_block_size fd;
      if block_size =? 0 then mret (-1) else
      gpt_header_offset ← header_offset fd instance block_size;
      if gpt_header_offset <=? 0 then mret (-1) else
      '(r, _) ← blk_rw fd true gpt_header_offset gpt_header block_size;
      mret (if r =? 0 then 0 else -1)
  | _, _ => mret (-1)
  end.

Definition gpt_get_header (partname : option string) (instance : gpt_instance) : M (option buf) :=
  match partname with None => mret None | Some partname =>
  match get_dev_path_from_partition_name (Some partname) PATH_MAX with None => mret None | Some devpath =>
  fd ← open_dev devpath;
  match fd with None => mret None | Some fd =>
  block_size ← gpt_get_block_size fd;
  if block_size =? 0 then _ ← close; mret None else
  h ← malloc block_size;      (* a failure is only logged *)
  hdr_offset ← header_offset fd instance block_size;
  if hdr_offset <? 0 then _ ← close; _ ← free_opt h; mret None else
  match h with
  | None => _ ← lseek_set hdr_offset; _ ← tick; _ ← close; mret None   (* read(fd, NULL, block_size) *)
  | Some h =>
      '(r, h) ← blk_rw fd false hdr_offset h block_size;
      if negb (r =? 0) then _ ← close; _ ← free; mret None else
      _ ← close; mret (Some h)
  end end end end.

Definition gpt_get_pentry_arr (h : option buf) (fd : option string) : M (option buf) :=
  match h, fd with
  | Some h, Some fd =>
      block_size ← gpt_get_block_size fd;
      if block_size =? 0 then mret None else
      pentries_start ← deref (pentries_start_of h block_size);
      pentries_arr_size ← deref (pentries_size_of h);
      arr ← calloc pentries_arr_size;
      match arr with None => mret None | Some arr =>
      '(rc, arr) ← blk_rw fd false (s64 pentries_start) arr pentries_arr_size;
      if negb (rc =? 0) then _ ← free; mret None else mret (Some arr)
      end
  | _, _ => mret None
  end.

Definition gpt_set_pentry_arr (h : option buf) (fd : option string) (arr : option buf) : M Z :=
  match h, fd, arr with
  | Some h, Some fd, Some arr =>
      block_size ← gpt_get_block_size fd;
      if block_size =? 0 then mret (-1) else
      pentries_start ← deref (pentries_start_of h block_size);
      pentries_arr_size ← deref (pentries_size_of h);
      '(rc, _) ← blk_rw fd true (s64 pentries_start) arr pentries_arr_size;
      mret (if rc =? 0 then 0 else -1)
  | _, _, _ => mret (-1)
  end.

(** ** The [gpt_disk] handle *)
Definition gpt_disk_zero : gpt_disk := GptDisk None 0 None 0 None None 0 0 0 0 ""%string 0 0.

Definition gpt_disk_alloc : M (option gpt_disk) :=
  ok ← sys_ok;
  if ok : bool then _ ← modify (set_blocks (Z.add 1)); mret (Some gpt_disk_zero) else mret None.

Definition gpt_disk_free (disk : option gpt_disk) : M unit :=
  match disk with None => mret tt | Some d =>
  _ ← free_opt (hdr d); _ ← free_opt (hdr_bak d);
  _ ← free_opt (pentry_arr d); _ ← free_opt (pentry_arr_bak d);
  free
  end.

Definition with_hdr h c (d : gpt_disk) := GptDisk h c (hdr_bak d) (hdr_bak_crc d) (pentry_arr d) (pentry_arr_bak d) (pentry_arr_size d) (pentry_size d) (pentry_arr_crc d) (pentry_arr_bak_crc d) (devpath d) (block_size d) (is_initialized d).
Definition with_hdr_bak h c (d : gpt_disk) := GptDisk (hdr d) (hdr_crc d) h c (pentry_arr d) (pentry_arr_bak d) (pentry_arr_size d) (pentry_size d) (pentry_arr_crc d) (pentry_arr_bak_crc d) (devpath d) (block_size d) (is_initialized d).
Definition with_arr a (d : gpt_disk) := GptDisk (hdr d) (hdr_crc d) (hdr_bak d) (hdr_bak_crc d) a (pentry_arr_bak d) (pentry_arr_size d) (pentry_size d) (pentry_arr_crc d) (pentry_arr_bak_crc d) (devpath d) (block_size d) (is_initialized d).
Definition with_arr_bak a (d : gpt_disk) := GptDisk (hdr d) (hdr_crc d) (hdr_bak d) (hdr_bak_crc d) (pentry_arr d) a (pentry_arr_size d) (pentry_size d) (pentry_arr_crc d) (pentry_arr_bak_crc d) (devpath d) (block_size d) (is_initialized d).
Definition with_arr_crcs c cb (d : gpt_disk) := GptDisk (hdr d) (hdr_crc d) (hdr_bak d) (hdr_bak_crc d) (pentry_arr d) (pentry_arr_bak d) (pentry_arr_size d) (pentry_size d) c cb (devpath d) (block_size d) (is_initialized d).
Definition with_sizes n sz (d : gpt_disk) := GptDisk (hdr d) (hdr_crc d) (hdr_bak d) (hdr_bak_crc d) (pentry_arr d) (pentry_arr_bak d) n sz (pentry_arr_crc d) (pentry_arr_bak_crc d) (devpath d) (block_size d) (is_initialized d).
Definition with_devpath p (d : gpt_disk) := GptDisk (hdr d) (hdr_crc d) (hdr_bak d) (hdr_bak_crc d) (pentry_arr d) (pentry_arr_bak d) (pentry_arr_size d) (pentry_size d) (pentry_arr_crc d) (pentry_arr_bak_crc d) p (block_size d) (is_initialized d).
Definition with_init bs m (d : gpt_disk) := GptDisk (hdr d) (hdr_crc d) (hdr_bak d) (hdr_bak_crc d) (pentry_arr d) (pentry_arr_bak d) (pentry_arr_size d) (pentry_size d) (pentry_arr_crc d) (pentry_arr_bak_crc d) (devpath d) bs m.

(** The result and the handle as filled so far. *)
Definition gpt_disk_get_disk_info (dev : option string) (dsk : option gpt_disk) : M (Z * option gpt_disk) :=
  match dsk, dev with
  | Some disk, Some dev =>
      h ← gpt_get_header (Some dev) PRIMARY_GPT;
      match h with None => mret (-1, Some (with_hdr None (hdr_crc disk) disk)) | Some h =>
      gpt_header_size ← deref (GET_4_BYTES h HEADER_SIZE_OFFSET);
      c ← crc32 h gpt_header_size;
      let disk := with_hdr (Some h) (u32 c) disk in
      hb ← gpt_get_header (Some dev) SECONDARY_GPT;
      match hb with None => mret (-1, Some (with_hdr_bak None (hdr_bak_crc disk) disk)) | Some hb =>
      c ← crc32 hb gpt_header_size;
      let disk := with_hdr_bak (Some hb) (u32 c) disk in
      match get_dev_path_from_partition_name (Some dev) PATH_MAX with None => mret (-1, Some disk) | Some path =>
      let disk := with_devpath path disk in
      fd ← open_dev path;
      match fd with None => mret (-1, Some disk) | Some fd =>
      a ← gpt_get_pentry_arr (hdr disk) (Some fd);
      let disk := with_arr a disk in
      match a with None => _ ← close; mret (-1, Some disk) | Some _ =>
      ab ← gpt_get_pentry_arr (hdr_bak disk) (Some fd);
      let disk := with_arr_bak ab disk in
      match ab with None => _ ← close; mret (-1, Some disk) | Some _ =>
      sz ← deref (GET_4_BYTES h PENTRY_SIZE_OFFSET);
      n ← deref (pentries_size_of h);
      ac ← deref (GET_4_BYTES h PARTITION_CRC_OFFSET);
      abc ← deref (GET_4_BYTES hb PARTITION_CRC_OFFSET);
      let disk := with_arr_crcs ac abc (with_sizes n sz disk) in
      bs ← gpt_get_block_size fd;
      _ ← close;
      mret (0, Some (with_init bs GPT_DISK_INIT_MAGIC disk))
      end end end end end end
  | _, _ => mret (-1, dsk)
  end.

(** An offset into [pentry_arr] or [pentry_arr_bak]. *)
Definition arr_of (disk : gpt_disk) (instance : gpt_instance) : option buf :=
  match instance with PRIMARY_GPT => pentry_arr disk | SECONDARY_GPT => pentry_arr_bak disk end.

Definition gpt_disk_get_pentry (disk : option gpt_disk) (partname : option string)
    (instance : gpt_instance) : M (option Z) :=
  match disk, partname with
  | Some disk, Some partname =>
      if negb (is_initialized disk =? GPT_DISK_INIT_MAGIC) then mret None else
      ptn_arr ← deref (arr_of disk instance);
      deref (gpt_pentry_seek partname ptn_arr 0 (pentry_arr_size disk) (pentry_size disk))
  | _, _ => mret None
  end.

Definition gpt_disk_update_crc (disk : option gpt_disk) : M (Z * option gpt_disk) :=
  match disk with None => mret (-1, None) | Some disk =>
  if negb (is_initialized disk =? GPT_DISK_INIT_MAGIC) then mret (-1, Some disk) else
  arr ← deref (pentry_arr disk); arr_bak ← deref (pentry_arr_bak disk);
  h ← deref (hdr disk); hb ← deref (hdr_bak disk);
  c ← crc32 arr (pentry_arr_size disk);
  cb ← crc32 arr_bak (pentry_arr_size disk);
  h ← deref (PUT_4_BYTES h PARTITION_CRC_OFFSET (u32 c));
  hb ← deref (PUT_4_BYTES hb PARTITION_CRC_OFFSET (u32 cb));
  gpt_header_size ← deref (GET_4_BYTES h HEADER_SIZE_OFFSET);
  h ← deref (PUT_4_BYTES h HEADER_CRC_OFFSET 0);
  hb ← deref (PUT_4_BYTES hb HEADER_CRC_OFFSET 0);
  hc ← crc32 h gpt_header_size;
  hbc ← crc32 hb gpt_header_size;
  h ← deref (PUT_4_BYTES h HEADER_CRC_OFFSET (u32 hc));
  hb ← deref (PUT_4_BYTES hb HEADER_CRC_OFFSET (u32 hbc));
  mret (0, Some (with_hdr_bak (Some hb) (u32 hbc) (with_hdr (Some h) (u32 hc)
                   (with_arr_crcs (u32 c) (u32 cb) disk))))
  end.

Definition gpt_disk_commit (disk : option gpt_disk) : M Z :=
  match disk with None => mret (-1) | Some disk =>
  if negb (is_initialized disk =? GPT_DISK_INIT_MAGIC) then mret (-1) else
  fd ← open_dev (devpath disk);
  match fd with None => mret (-1) | Some fd =>
  r ← gpt_set_header (hdr disk) (Some fd) PRIMARY_GPT;
  if negb (r =? 0) then _ ← close; mret (-1) else
  r ← gpt_set_pentry_arr (hdr disk) (Some fd) (pentry_arr disk);
  if negb (r =? 0) then _ ← close; mret (-1) else
  r ← gpt_set_header (hdr_bak disk) (Some fd) SECONDARY_GPT;
  if negb (r =? 0) then _ ← close; mret (-1) else
  r ← gpt_set_pentry_arr (hdr_bak disk) (Some fd) (pentry_arr_bak disk);
  if negb (r =? 0) then _ ← close; mret (-1) else
  _ ← fsync; _ ← close; mret 0
  end end.

End gpt.
