(* ===== verification/GptSwap.v ===== *)
(** * Partition entries by name, and the boot-chain switch

    [gpt_pentry_seek] against the entries as strings, and [gpt_boot_chain_swap]
    as a product of disjoint exchanges of entries. *)
From S2P Require Import Prelude Bytes BlockDev UfsBsg GptUtils.

(** ** Names *)

(** C strings hold no NUL. *)
Definition no_nul (s : buf) : Prop := Forall (fun x => x <> 0) s.

Lemma strncmp_eq_spec a c :
  no_nul a -> strncmp_eq a c (length a) = true <-> take (length a) c = a.
Proof.
  intros Ha. revert c. induction Ha as [|x a Hx Ha IH]; intros c; simpl; [done|].
  destruct c as [|y c]; simpl.
  - destruct (Z.eqb_spec x 0); [done|]. by split.
  - destruct (Z.eqb_spec x y) as [->|Hne].
    + rewrite (proj2 (Z.eqb_neq y 0) Hx). simpl. rewrite IH. split; [by intros ->|congruence].
    + split; [done|congruence].
Qed.

Lemma c_str_app a c : no_nul a -> c_str (a ++ c) = a ++ c_str c.
Proof.
  induction 1 as [|x a Hx Ha IH]; simpl; [done|]. by rewrite (proj2 (Z.eqb_neq x 0) Hx), IH.
Qed.

Lemma c_str_no_nul c : no_nul (c_str c).
Proof. induction c as [|x c IH]; simpl; [constructor|]. destruct (Z.eqb_spec x 0); by constructor. Qed.

Lemma c_str_nil c : c_str c = [] <-> default 0 (head c) = 0.
Proof. destruct c as [|x c]; simpl; [done|]. destruct (Z.eqb_spec x 0); naive_solver. Qed.

(** The test of the search: the entry is called [name] or [name ++ "bak"]. *)
Definition bak : buf := str_bytes BAK_PTN_NAME_EXT.

Lemma head_drop {A} n (l : list A) : head (drop n l) = l !! n.
Proof. revert l. induction n as [|n IH]; intros [|x l]; simpl; try done. Qed.

Lemma name_matches_spec name n8 :
  no_nul name ->
  name_matches name n8 = true <-> c_str n8 = name \/ c_str n8 = name ++ bak.
Proof.
  intros Hn. unfold name_matches. rewrite andb_true_iff, strncmp_eq_spec by done.
  rewrite orb_true_iff, Z.eqb_eq, bool_decide_eq_true. fold bak.
  rewrite <- head_drop, <- c_str_nil. split.
  - intros [Ht Hd]. rewrite <- (take_drop (length name) n8), Ht, c_str_app by done.
    destruct Hd as [-> | ->]; [left; by rewrite app_nil_r|by right].
  - intros Hc.
    assert (Hp : exists r, c_str n8 = name ++ r /\ (r = [] \/ r = bak)).
    { destruct Hc as [-> | ->]; [exists []; by rewrite app_nil_r; auto|exists bak; auto]. }
    destruct Hp as (r & Hr & Hr').
    assert (Ht : take (length name) n8 = name).
    { clear Hc Hr'. revert n8 Hr. induction Hn as [|x name Hx Hn IH]; intros n8 Hr; simpl; [done|].
      destruct n8 as [|y n8]; [done|]. simpl in Hr. destruct (y =? 0); [done|].
      injection Hr as -> Hr. simpl. f_equal. by apply IH. }
    split; [done|].
    rewrite <- (take_drop (length name) n8), Ht, c_str_app in Hr by done.
    apply app_inv_head in Hr. rewrite Hr. naive_solver.
Qed.

(** Names of different partitions of the swap list are never confused. *)
Definition confusable (a c : string) : bool :=
  bool_decide (str_bytes a = str_bytes c ++ bak).

Lemma swap_list_names :
  forallb (fun a => forallb (fun c => negb (confusable a c)) PTN_SWAP_LIST) PTN_SWAP_LIST = true /\
  forallb (fun a => forallb (fun c => bool_decide (a = c) || bool_decide (str_bytes a <> str_bytes c))
                      PTN_SWAP_LIST) PTN_SWAP_LIST = true /\
  forallb (fun a => bool_decide (no_nul (str_bytes a))) PTN_SWAP_LIST = true /\
  bool_decide (NoDup PTN_SWAP_LIST) = true.
Proof. split_and!; vm_compute; reflexivity. Qed.

Lemma swap_list_no_nul a : a ∈ PTN_SWAP_LIST -> no_nul (str_bytes a).
Proof.
  destruct swap_list_names as (_ & _ & H & _). rewrite forallb_forall in H.
  intros Ha. by eapply bool_decide_eq_true_1, H, list_elem_of_In.
Qed.

Lemma name_matches_unique a c n8 :
  a ∈ PTN_SWAP_LIST -> c ∈ PTN_SWAP_LIST ->
  name_matches (str_bytes a) n8 = true -> name_matches (str_bytes c) n8 = true -> a = c.
Proof.
  intros Ha Hc. rewrite !name_matches_spec by by apply swap_list_no_nul.
  destruct swap_list_names as (H1 & H2 & _).
  assert (Hconf : forall x y, x ∈ PTN_SWAP_LIST -> y ∈ PTN_SWAP_LIST -> str_bytes x <> str_bytes y ++ bak).
  { intros x y Hx Hy. rewrite forallb_forall in H1. specialize (H1 x ltac:(by apply list_elem_of_In)).
    rewrite forallb_forall in H1. specialize (H1 y ltac:(by apply list_elem_of_In)).
    unfold confusable in H1. by case_bool_decide. }
  rewrite forallb_forall in H2. specialize (H2 a ltac:(by apply list_elem_of_In)).
  rewrite forallb_forall in H2. specialize (H2 c ltac:(by apply list_elem_of_In)).
  apply orb_true_iff in H2. rewrite !bool_decide_eq_true in H2.
  destruct H2 as [?|Hne]; [done|]. intros [E1|E1] [E2|E2]; exfalso; rewrite E1 in E2.
  - done.
  - by apply (Hconf a c Ha Hc).
  - by apply (Hconf c a Hc Ha).
  - by apply app_inv_tail in E2.
Qed.

(** ** The search *)

(** First index from [k], among [m], that satisfies [f]. *)
Fixpoint first_ix (f : nat -> bool) (k m : nat) : option nat :=
  match m with
  | O => None
  | S m => if f k then Some k else first_ix f (S k) m
  end.

Lemma first_ix_Some f k m i :
  first_ix f k m = Some i <->
  (k <= i < k + m)%nat /\ f i = true /\ (forall j, (k <= j < i)%nat -> f j = false).
Proof.
  revert k. induction m as [|m IH]; intros k; simpl.
  - split; [done|]. lia.
  - destruct (f k) eqn:Ek.
    + split.
      * intros [= <-]. split_and!; [lia|lia|done|]. lia.
      * intros (Hi & Hf & Hj). f_equal. destruct (decide (k = i)); [done|].
        rewrite (Hj k) in Ek by lia. done.
    + rewrite IH. split; intros (Hi & Hf & Hj).
      * split_and!; [lia|lia|done|]. intros j Hjj. destruct (decide (j = k)); [congruence|].
        apply Hj. lia.
      * assert (k <> i) by congruence. split_and!; [lia|lia|done|]. intros j Hjj. apply Hj. lia.
Qed.

Lemma first_ix_ext f g k m :
  (forall i, (k <= i < k + m)%nat -> f i = g i) -> first_ix f k m = first_ix g k m.
Proof.
  revert k. induction m as [|m IH]; intros k H; simpl; [done|].
  rewrite H by lia. destruct (g k); [done|]. apply IH. intros i Hi. apply H. lia.
Qed.

(** The name of entry [i] of an array with entries of [sz] bytes. *)
Definition entry_off (sz : Z) (i : nat) : Z := Z.of_nat i * sz.
Definition entry_name (b : buf) (sz : Z) (i : nat) : option buf :=
  name8 b (entry_off sz i + PARTITION_NAME_OFFSET).
Definition entry_is (b : buf) (sz : Z) (name : string) (i : nat) : bool :=
  match entry_name b sz i with Some n8 => name_matches (str_bytes name) n8 | None => false end.

(** [b] is an array of [cnt] entries of [sz] bytes. *)
Definition entry_array (b : buf) (sz : Z) (cnt : nat) : Prop :=
  128 <= sz /\ Z.of_nat (length b) = Z.of_nat cnt * sz.

Lemma entry_name_Some b sz cnt i :
  entry_array b sz cnt -> (i < cnt)%nat -> is_Some (entry_name b sz i).
Proof.
  intros [Hsz Hl] Hi. unfold entry_name, entry_off, name8.
  assert (is_Some (mapM (fun j => rd b (Z.of_nat i * sz + 56 + 2 * Z.of_nat j)) (seq 0 36))) as [l ->].
  { apply mapM_is_Some_2, Forall_forall. intros j Hj%elem_of_seq. unfold rd, compose.
    rewrite (proj2 (Z.ltb_ge _ 0)) by nia. apply lookup_lt_is_Some_2. nia. }
  simpl. eauto.
Qed.

Lemma seek_loop_spec name b sz cnt k fuel :
  entry_array b sz cnt -> (k <= cnt)%nat -> (cnt - k < fuel)%nat ->
  seek_loop fuel (str_bytes name) b (entry_off sz k + PARTITION_NAME_OFFSET) (Z.of_nat (length b)) sz =
  Some (entry_off sz <$> first_ix (entry_is b sz name) k (cnt - k)).
Proof.
  intros Ha. pose proof Ha as [Hsz Hl]. revert k.
  induction fuel as [|fuel IH]; intros k Hk Hf; [lia|]. cbn [seek_loop].
  destruct (Nat.lt_ge_cases k cnt) as [Hlt|Hge].
  - rewrite (proj2 (Z.ltb_lt _ _)) by (unfold entry_off; nia).
    destruct (entry_name_Some _ _ _ _ Ha Hlt) as [n8 Hn8].
    unfold entry_name in Hn8. rewrite Hn8. simpl.
    replace (cnt - k)%nat with (S (cnt - S k)) by lia. cbn [first_ix].
    unfold entry_is at 1, entry_name. rewrite Hn8.
    destruct (name_matches (str_bytes name) n8).
    + cbn [fmap option_fmap option_map]. do 2 f_equal. lia.
    + rewrite <- IH by lia. f_equal. unfold entry_off. lia.
  - rewrite (proj2 (Z.ltb_ge _ _)) by (unfold entry_off; nia).
    replace (cnt - k)%nat with 0%nat by lia. done.
Qed.

Lemma gpt_pentry_seek_first name b sz cnt k :
  entry_array b sz cnt -> (k <= cnt)%nat ->
  gpt_pentry_seek name b (entry_off sz k) (Z.of_nat (length b)) sz =
  Some (entry_off sz <$> first_ix (entry_is b sz name) k (cnt - k)).
Proof.
  intros Ha Hk. unfold gpt_pentry_seek. apply seek_loop_spec; [done..|].
  destruct Ha. unfold entry_off. nia.
Qed.

(** ** Exchanging two entries *)

(** The 128 bytes of entry [i]. *)
Definition chunk (b : buf) (sz : Z) (i : nat) : option buf := slice b (entry_off sz i) PTN_ENTRY_SIZE.

Lemma chunk_Some b sz cnt i : entry_array b sz cnt -> (i < cnt)%nat -> is_Some (chunk b sz i).
Proof. intros [Hsz Hl] Hi. apply slice_is_Some; unfold entry_off; nia. Qed.

(** [swap_entries] is defined on two entries of an array; byte [k] of the result
    comes from the other entry when [k] is in one of the two. *)
Definition swap_ix (sz : Z) (i j : nat) (k : Z) : Z :=
  if decide (entry_off sz i <= k < entry_off sz i + 128) then k - entry_off sz i + entry_off sz j
  else if decide (entry_off sz j <= k < entry_off sz j + 128) then k - entry_off sz j + entry_off sz i
  else k.

Lemma entry_off_lt sz i j : 128 <= sz -> (i < j)%nat -> entry_off sz i + 128 <= entry_off sz j.
Proof. unfold entry_off. nia. Qed.

Lemma entry_off_in sz cnt b i :
  entry_array b sz cnt -> (i < cnt)%nat -> 0 <= entry_off sz i /\ entry_off sz i + 128 <= Z.of_nat (length b).
Proof. intros [Hsz Hl] Hi. unfold entry_off. nia. Qed.

Lemma swap_entries_spec b sz cnt i j :
  entry_array b sz cnt -> (i < j < cnt)%nat ->
  exists b', swap_entries b (entry_off sz i) (entry_off sz j) = Some b' /\ length b' = length b /\
    forall k : nat, b' !! k = b !! Z.to_nat (swap_ix sz i j (Z.of_nat k)).
Proof.
  intros Ha Hij. pose proof Ha as [Hsz _].
  pose proof (entry_off_lt sz i j Hsz ltac:(lia)) as Hlt.
  pose proof (entry_off_in _ _ _ i Ha ltac:(lia)) as [Hi0 Hi1].
  pose proof (entry_off_in _ _ _ j Ha ltac:(lia)) as [Hj0 Hj1].
  destruct (chunk_Some _ _ _ i Ha) as [ci Hci]; [lia|].
  destruct (chunk_Some _ _ _ j Ha) as [cj Hcj]; [lia|].
  unfold chunk in *. pose proof (slice_length _ _ _ _ Hci) as Lci.
  pose proof (slice_length _ _ _ _ Hcj) as Lcj.
  unfold swap_entries. rewrite (proj2 (Z.ltb_ge _ _)) by lia. rewrite Hci, Hcj. simpl.
  destruct (splice_is_Some b (entry_off sz i) cj) as [b1 Hb1]; [lia..|].
  rewrite Hb1. simpl. pose proof (splice_length _ _ _ _ Hb1) as L1.
  destruct (splice_is_Some b1 (entry_off sz j) ci) as [b2 Hb2]; [lia..|].
  exists b2. split; [done|]. split; [by rewrite (splice_length _ _ _ _ Hb2)|]. intros k.
  rewrite (splice_lookup _ _ _ _ _ Hb2), (splice_lookup _ _ _ _ _ Hb1), Lci, Lcj.
  unfold swap_ix. repeat case_decide; try lia.
  - rewrite (slice_lookup _ _ _ _ _ Hci) by lia. f_equal. lia.
  - rewrite (slice_lookup _ _ _ _ _ Hcj) by lia. f_equal. lia.
  - f_equal. lia.
Qed.

(** The exchange as a total function. *)
Definition exchange (sz : Z) (p : nat * nat) (b : buf) : buf :=
  default b (swap_entries b (entry_off sz p.1) (entry_off sz p.2)).

Definition pair_ok (cnt : nat) (p : nat * nat) : Prop := (p.1 < p.2 < cnt)%nat.

Lemma exchange_spec b sz cnt p :
  entry_array b sz cnt -> pair_ok cnt p ->
  swap_entries b (entry_off sz p.1) (entry_off sz p.2) = Some (exchange sz p b) /\
  entry_array (exchange sz p b) sz cnt /\ length (exchange sz p b) = length b /\
  forall k : nat, exchange sz p b !! k = b !! Z.to_nat (swap_ix sz p.1 p.2 (Z.of_nat k)).
Proof.
  intros Ha Hp. destruct (swap_entries_spec _ _ _ _ _ Ha Hp) as (b' & Hb' & Hl & Hk).
  unfold exchange. rewrite Hb'. simpl. split_and!; try done.
  destruct Ha as [Hsz Hlb]. split; [done|]. by rewrite Hl.
Qed.

Lemma swap_ix_invol sz i j k :
  128 <= sz -> (i < j)%nat -> 0 <= k -> swap_ix sz i j (swap_ix sz i j k) = k /\ 0 <= swap_ix sz i j k.
Proof.
  intros Hsz Hij Hk. pose proof (entry_off_lt sz i j Hsz Hij).
  assert (0 <= entry_off sz i) by (unfold entry_off; nia).
  unfold swap_ix. repeat case_decide; lia.
Qed.

Lemma entry_off_disjoint sz i j :
  128 <= sz -> i <> j -> entry_off sz i + 128 <= entry_off sz j \/ entry_off sz j + 128 <= entry_off sz i.
Proof. unfold entry_off. nia. Qed.

Lemma exchange_invol b sz cnt p :
  entry_array b sz cnt -> pair_ok cnt p -> exchange sz p (exchange sz p b) = b.
Proof.
  intros Ha Hp. destruct (exchange_spec _ _ _ _ Ha Hp) as (_ & Ha' & Hl & Hk).
  destruct (exchange_spec _ _ _ _ Ha' Hp) as (_ & _ & Hl' & Hk').
  apply list_eq. intros k. rewrite Hk', Hk. destruct Ha as [Hsz _].
  destruct (swap_ix_invol sz p.1 p.2 (Z.of_nat k) Hsz) as [H1 H2]; [apply Hp|lia|].
  rewrite Z2Nat.id, H1, Nat2Z.id by done. done.
Qed.

(** Exchanges of disjoint pairs commute. *)
Definition pair_disj (p q : nat * nat) : Prop :=
  p.1 <> q.1 /\ p.1 <> q.2 /\ p.2 <> q.1 /\ p.2 <> q.2.

Lemma swap_ix_cases sz i j k :
  128 <= sz -> (i < j)%nat ->
  (entry_off sz i <= k < entry_off sz i + 128 /\ swap_ix sz i j k = k - entry_off sz i + entry_off sz j) \/
  (entry_off sz j <= k < entry_off sz j + 128 /\ swap_ix sz i j k = k - entry_off sz j + entry_off sz i) \/
  ((k < entry_off sz i \/ entry_off sz i + 128 <= k) /\ (k < entry_off sz j \/ entry_off sz j + 128 <= k) /\
   swap_ix sz i j k = k).
Proof.
  intros Hsz Hij. pose proof (entry_off_lt sz i j Hsz Hij).
  unfold swap_ix. repeat case_decide; lia.
Qed.

Lemma swap_ix_comm sz p1 p2 q1 q2 k :
  128 <= sz -> (p1 < p2)%nat -> (q1 < q2)%nat -> pair_disj (p1, p2) (q1, q2) -> 0 <= k ->
  swap_ix sz p1 p2 (swap_ix sz q1 q2 k) = swap_ix sz q1 q2 (swap_ix sz p1 p2 k) /\
  0 <= swap_ix sz p1 p2 k.
Proof.
  intros Hsz Hp Hq (D1 & D2 & D3 & D4) Hk. simpl in *. split; [|by apply swap_ix_invol].
  pose proof (entry_off_lt sz p1 p2 Hsz Hp). pose proof (entry_off_lt sz q1 q2 Hsz Hq).
  pose proof (entry_off_disjoint sz p1 q1 Hsz D1). pose proof (entry_off_disjoint sz p1 q2 Hsz D2).
  pose proof (entry_off_disjoint sz p2 q1 Hsz D3). pose proof (entry_off_disjoint sz p2 q2 Hsz D4).
  destruct (swap_ix_cases sz p1 p2 k Hsz Hp) as [(?&E)|[(?&E)|(?&?&E)]];
    destruct (swap_ix_cases sz q1 q2 k Hsz Hq) as [(?&F)|[(?&F)|(?&?&F)]]; rewrite E, F; try lia.
  all: match goal with |- swap_ix _ _ _ ?x = swap_ix _ _ _ ?y =>
      destruct (swap_ix_cases sz p1 p2 x Hsz Hp) as [(?&G)|[(?&G)|(?&?&G)]]; try lia;
      destruct (swap_ix_cases sz q1 q2 y Hsz Hq) as [(?&G')|[(?&G')|(?&?&G')]]; lia
    | |- swap_ix _ _ _ ?x = _ =>
      destruct (swap_ix_cases sz p1 p2 x Hsz Hp) as [(?&G)|[(?&G)|(?&?&G)]]; lia
    | |- _ = swap_ix _ _ _ ?x =>
      destruct (swap_ix_cases sz q1 q2 x Hsz Hq) as [(?&G)|[(?&G)|(?&?&G)]]; lia end.
Qed.

Lemma exchange_comm b sz cnt p q :
  entry_array b sz cnt -> pair_ok cnt p -> pair_ok cnt q -> pair_disj p q ->
  exchange sz p (exchange sz q b) = exchange sz q (exchange sz p b).
Proof.
  intros Ha Hp Hq D.
  destruct (exchange_spec _ _ _ _ Ha Hp) as (_ & Hap & _ & Hkp).
  destruct (exchange_spec _ _ _ _ Ha Hq) as (_ & Haq & _ & Hkq).
  destruct (exchange_spec _ _ _ _ Hap Hq) as (_ & _ & _ & Hkqp).
  destruct (exchange_spec _ _ _ _ Haq Hp) as (_ & _ & _ & Hkpq).
  apply list_eq. intros k. rewrite Hkqp, Hkpq, Hkp, Hkq. destruct Ha as [Hsz _].
  destruct p as [p1 p2], q as [q1 q2], Hp, Hq; simpl in *.
  destruct (swap_ix_comm sz p1 p2 q1 q2 (Z.of_nat k)) as [C _]; [done..|lia|].
  destruct (swap_ix_invol sz q1 q2 (Z.of_nat k)) as [_ ?]; [done..|lia|].
  destruct (swap_ix_invol sz p1 p2 (Z.of_nat k)) as [_ ?]; [done..|lia|].
  rewrite !Z2Nat.id by done. by rewrite C.
Qed.

Definition exchanges (sz : Z) (ps : list (nat * nat)) (b : buf) : buf :=
  foldl (fun b p => exchange sz p b) b ps.

Lemma exchanges_array sz cnt ps b :
  Forall (pair_ok cnt) ps -> entry_array b sz cnt ->
  entry_array (exchanges sz ps b) sz cnt /\ length (exchanges sz ps b) = length b.
Proof.
  intros Hps. revert b. induction Hps as [|p ps Hp Hps IH]; intros b Ha; simpl; [done|].
  destruct (exchange_spec _ _ _ _ Ha Hp) as (_ & Ha' & Hl & _).
  destruct (IH _ Ha') as [? ->]. by rewrite Hl.
Qed.

Lemma exchanges_comm sz cnt ps p b :
  Forall (pair_ok cnt) ps -> pair_ok cnt p -> Forall (pair_disj p) ps -> entry_array b sz cnt ->
  exchange sz p (exchanges sz ps b) = exchanges sz ps (exchange sz p b).
Proof.
  intros Hps Hp Hd. revert b. induction Hps as [|q ps Hq Hps IH]; intros b Ha; simpl; [done|].
  apply Forall_cons in Hd as [Hd1 Hd].
  rewrite IH; [|done|by apply (exchange_spec _ _ _ _ Ha Hq)].
  f_equal. by eapply exchange_comm.
Qed.

(** A product of disjoint exchanges is its own inverse. *)
Fixpoint pairs_disj (ps : list (nat * nat)) : Prop :=
  match ps with [] => True | p :: ps => Forall (pair_disj p) ps /\ pairs_disj ps end.

Lemma exchanges_invol sz cnt ps b :
  Forall (pair_ok cnt) ps -> pairs_disj ps -> entry_array b sz cnt ->
  exchanges sz ps (exchanges sz ps b) = b.
Proof.
  intros Hps. revert b. induction Hps as [|p ps Hp Hps IH]; intros b Hd Ha; simpl; [done|].
  destruct Hd as [Hd1 Hd].
  assert (Ha' : entry_array (exchange sz p b) sz cnt) by by apply (exchange_spec _ _ _ _ Ha Hp).
  rewrite (exchanges_comm _ cnt) by done. rewrite (exchange_invol _ _ cnt) by done. by apply IH.
Qed.

(** ** The boot-chain switch as a product of exchanges *)

(** The first two entries called [name] or [name ++ "bak"]. *)
Definition pair_of (b : buf) (sz : Z) (cnt : nat) (name : string) : option (nat * nat) :=
  i ← first_ix (entry_is b sz name) 0 cnt;
  j ← first_ix (entry_is b sz name) (S i) (cnt - S i);
  Some (i, j).

Lemma pair_of_Some b sz cnt name p :
  pair_of b sz cnt name = Some p ->
  pair_ok cnt p /\ entry_is b sz name p.1 = true /\ entry_is b sz name p.2 = true.
Proof.
  unfold pair_of. destruct (first_ix _ 0 cnt) as [i|] eqn:Ei; [|done]. simpl.
  destruct (first_ix _ (S i) _) as [j|] eqn:Ej; [|done]. intros [= <-].
  apply first_ix_Some in Ei as (? & ? & _). apply first_ix_Some in Ej as (? & ? & _).
  split_and!; try done. unfold pair_ok. simpl. lia.
Qed.

Lemma entry_name_swap b sz cnt p k :
  entry_array b sz cnt -> pair_ok cnt p -> (k < cnt)%nat ->
  entry_name (exchange sz p b) sz k =
  entry_name b sz (if decide (k = p.1) then p.2 else if decide (k = p.2) then p.1 else k).
Proof.
  intros Ha Hp Hk. destruct (exchange_spec _ _ _ _ Ha Hp) as (_ & _ & Hl & Hlk).
  set (k' := if decide (k = p.1) then _ else _).
  unfold entry_name, name8.
  assert (Hrd : forall j, j ∈ seq 0 36 ->
    rd (exchange sz p b) (entry_off sz k + 56 + 2 * Z.of_nat j) = rd b (entry_off sz k' + 56 + 2 * Z.of_nat j)).
  { intros j Hj%elem_of_seq. unfold rd. destruct Ha as [Hsz _].
    assert (forall i, 0 <= entry_off sz i) as Hpos by (intros; unfold entry_off; nia).
    rewrite !(proj2 (Z.ltb_ge _ 0)) by (pose proof (Hpos k); pose proof (Hpos k'); lia).
    rewrite Hlk. f_equal. f_equal. rewrite Z2Nat.id by (pose proof (Hpos k); lia).
    destruct p as [p1 p2], Hp as [Hp1 Hp2]; simpl in *.
    pose proof (entry_off_lt sz p1 p2 Hsz ltac:(lia)). subst k'.
    destruct (decide (k = p1)) as [->|H1]; [|destruct (decide (k = p2)) as [->|H2]].
    - destruct (swap_ix_cases sz p1 p2 (entry_off sz p1 + 56 + 2 * Z.of_nat j)) as [(?&G)|[(?&G)|(?&?&G)]]; lia.
    - destruct (swap_ix_cases sz p1 p2 (entry_off sz p2 + 56 + 2 * Z.of_nat j)) as [(?&G)|[(?&G)|(?&?&G)]]; lia.
    - pose proof (entry_off_disjoint sz k p1 Hsz H1). pose proof (entry_off_disjoint sz k p2 Hsz H2).
      destruct (swap_ix_cases sz p1 p2 (entry_off sz k + 56 + 2 * Z.of_nat j)) as [(?&G)|[(?&G)|(?&?&G)]]; lia. }
  assert (Hm : forall l, (forall j, j ∈ l -> j ∈ seq 0 36) ->
    mapM (fun i => rd (exchange sz p b) (entry_off sz k + 56 + 2 * Z.of_nat i)) l =
    mapM (fun i => rd b (entry_off sz k' + 56 + 2 * Z.of_nat i)) l); [|by rewrite Hm].
  induction l as [|j l IH]; intros Hl'; simpl; [done|].
  rewrite Hrd by (apply Hl'; left). rewrite IH; [done|]. intros x Hx. apply Hl'. by right.
Qed.

#[local] Opaque exchange name8 name_matches.

(** Exchanging the pair of one name keeps where every name is. *)
Lemma entry_is_swap b sz cnt name name' p k :
  entry_array b sz cnt -> name ∈ PTN_SWAP_LIST -> name' ∈ PTN_SWAP_LIST ->
  pair_of b sz cnt name' = Some p -> (k < cnt)%nat ->
  entry_is (exchange sz p b) sz name k = entry_is b sz name k.
Proof.
  intros Ha Hn Hn' Hp Hk. apply pair_of_Some in Hp as (Hok & H1 & H2).
  assert (Hsame : entry_is b sz name p.1 = entry_is b sz name p.2).
  { unfold entry_is in *. destruct (entry_name b sz p.1) as [n1|]; [|done].
    destruct (entry_name b sz p.2) as [n2|]; [|done].
    apply Bool.eq_iff_eq_true. split; intros H.
    - by rewrite (name_matches_unique _ _ _ Hn Hn' H H1).
    - by rewrite (name_matches_unique _ _ _ Hn Hn' H H2). }
  unfold entry_is at 1. rewrite (entry_name_swap _ _ _ _ _ Ha Hok Hk).
  change (entry_is b sz name (if decide (k = p.1) then p.2 else if decide (k = p.2) then p.1 else k) = entry_is b sz name k).
  repeat case_decide; subst; congruence.
Qed.

Lemma pair_of_swap b sz cnt name name' p :
  entry_array b sz cnt -> name ∈ PTN_SWAP_LIST -> name' ∈ PTN_SWAP_LIST ->
  pair_of b sz cnt name' = Some p -> pair_of (exchange sz p b) sz cnt name = pair_of b sz cnt name.
Proof.
  intros Ha Hn Hn' Hp. unfold pair_of.
  rewrite (first_ix_ext _ (entry_is b sz name) 0 cnt)
    by (intros; apply (entry_is_swap b sz cnt name name'); [assumption..|lia]).
  destruct (first_ix (entry_is b sz name) 0 cnt) as [i|] eqn:Ei; cbn [mbind option_bind]; [|reflexivity].
  apply first_ix_Some in Ei as (? & _).
  rewrite (first_ix_ext _ (entry_is b sz name) (S i)); [done|].
  intros j Hj. apply (entry_is_swap b sz cnt name name'); [assumption..|lia].
Qed.

Section swap.
Context `{E : Env}.

Lemma omap_ext_in {A B} (f g : A -> option B) (l : list A) :
  (forall x, x ∈ l -> f x = g x) -> omap f l = omap g l.
Proof.
  induction l as [|x l IH]; intros H; [done|]. csimpl. rewrite (H x) by left.
  rewrite IH; [done|]. intros y Hy. apply H. by right.
Qed.

(** The names the loop does not skip. *)
Definition skipped (name : string) : bool := gpt_utils_is_ufs_device && String.prefix PTN_XBL name.
Definition swap_cand (b : buf) (sz : Z) (cnt : nat) (n : string) : option (nat * nat) :=
  if skipped n then None else pair_of b sz cnt n.
Definition swap_pairs (b : buf) (sz : Z) (cnt : nat) (names : list string) : list (nat * nat) :=
  omap (swap_cand b sz cnt) names.

Lemma swap_cand_Some b sz cnt n p : swap_cand b sz cnt n = Some p -> pair_of b sz cnt n = Some p.
Proof. unfold swap_cand. by destruct (skipped n). Qed.

Lemma swap_one_spec b sz cnt name f :
  entry_array b sz cnt ->
  swap_one sz name (f, b) =
  Some (match swap_cand b sz cnt name with
        | Some p => (0, exchange sz p b) | None => (f, b) end).
Proof.
  intros Ha. unfold swap_one, swap_cand. fold (skipped name). destruct (skipped name); [done|].
  change 0 with (entry_off sz 0). rewrite (gpt_pentry_seek_first _ _ _ cnt) by (done || lia).
  unfold pair_of. rewrite Nat.sub_0_r.
  destruct (first_ix _ 0 cnt) as [i|] eqn:Ei; [|done]. simpl.
  apply first_ix_Some in Ei as (Hi & _).
  replace (entry_off sz i + sz) with (entry_off sz (S i)) by (unfold entry_off; lia).
  rewrite (gpt_pentry_seek_first _ _ _ cnt) by (done || lia).
  destruct (first_ix _ (S i) _) as [j|] eqn:Ej; [|done]. simpl.
  apply first_ix_Some in Ej as (Hj & _).
  destruct (exchange_spec b sz cnt (i, j) Ha) as (Hx & _); [unfold pair_ok; simpl; lia|].
  simpl in Hx. by rewrite Hx.
Qed.

Lemma swap_cand_swap b sz cnt name name' p :
  entry_array b sz cnt -> name ∈ PTN_SWAP_LIST -> name' ∈ PTN_SWAP_LIST ->
  pair_of b sz cnt name' = Some p -> swap_cand (exchange sz p b) sz cnt name = swap_cand b sz cnt name.
Proof.
  intros Ha Hn Hn' Hp. unfold swap_cand. destruct (skipped name); [reflexivity|].
  by apply (pair_of_swap _ _ _ _ name').
Qed.

#[local] Opaque pair_of swap_cand.

Lemma swap_all_spec names b sz cnt f :
  entry_array b sz cnt -> (forall n, n ∈ names -> n ∈ PTN_SWAP_LIST) ->
  swap_all names sz (f, b) =
  Some (match swap_pairs b sz cnt names with [] => f | _ => 0 end,
        exchanges sz (swap_pairs b sz cnt names) b).
Proof.
  revert b f. induction names as [|n names IH]; intros b f Ha Hn; [done|].
  cbn [swap_all]. rewrite (swap_one_spec _ _ _ _ _ Ha). simpl.
  destruct (swap_cand b sz cnt n) as [p|] eqn:Ep.
  - pose proof (swap_cand_Some _ _ _ _ _ Ep) as Hp.
    pose proof (pair_of_Some _ _ _ _ _ Hp) as (Hok & _).
    assert (Ha' : entry_array (exchange sz p b) sz cnt) by by apply (exchange_spec _ _ _ _ Ha Hok).
    rewrite IH; [|done|intros x Hx; apply Hn; by right].
    assert (Hps : swap_pairs (exchange sz p b) sz cnt names = swap_pairs b sz cnt names).
    { apply omap_ext_in. intros m Hm. apply swap_cand_swap with n; [assumption|apply (Hn m); by right|apply (Hn n); left|assumption]. }
    rewrite Hps. simpl. by destruct (swap_pairs b sz cnt names).
  - rewrite IH; [done|done|intros x Hx; apply Hn; by right].
Qed.

Lemma swap_pairs_ok b sz cnt names : Forall (pair_ok cnt) (swap_pairs b sz cnt names).
Proof.
  apply Forall_forall. intros p (n & Hn & Hp)%list_elem_of_omap.
  by apply swap_cand_Some, pair_of_Some in Hp as (? & _).
Qed.

Lemma swap_pairs_disj b sz cnt names :
  NoDup names -> (forall n, n ∈ names -> n ∈ PTN_SWAP_LIST) -> pairs_disj (swap_pairs b sz cnt names).
Proof.
  induction 1 as [|n names Hnotin Hnd IH]; intros Hn; simpl; [done|].
  assert (IH' := IH ltac:(intros; apply Hn; by right)).
  destruct (swap_cand b sz cnt n) as [p|] eqn:Ep; [|done]. simpl. split; [|done].
  apply Forall_forall. intros q (m & Hm & Hq)%list_elem_of_omap.
  apply swap_cand_Some, pair_of_Some in Ep as (_ & P1 & P2).
  apply swap_cand_Some, pair_of_Some in Hq as (_ & Q1 & Q2).
  assert (Hne : forall i j, entry_is b sz n i = true -> entry_is b sz m j = true -> i <> j).
  { intros i j Hi Hj ->. unfold entry_is in *. destruct (entry_name b sz j); [|done].
    apply Hnotin. by rewrite (name_matches_unique n m _ ltac:(apply Hn; left) ltac:(apply Hn; by right) Hi Hj). }
  repeat split; apply Hne; assumption.
Qed.

Lemma swap_list_NoDup : NoDup PTN_SWAP_LIST.
Proof. destruct swap_list_names as (_ & _ & _ & H). by apply bool_decide_eq_true_1 in H. Qed.

#[local] Opaque swap_pairs exchanges.

Lemma gpt_boot_chain_swap_length b sz cnt r b' :
  entry_array b sz cnt -> gpt_boot_chain_swap b sz = Some (r, b') -> length b' = length b.
Proof.
  intros Ha. unfold gpt_boot_chain_swap. rewrite (swap_all_spec _ _ _ _ _ Ha (fun n H => H)).
  intros [= _ <-]. by eapply exchanges_array; [apply swap_pairs_ok|].
Qed.

Lemma gpt_boot_chain_swap_Some b sz cnt :
  entry_array b sz cnt -> exists r b', gpt_boot_chain_swap b sz = Some (r, b') /\ (r = 0 \/ r = 1).
Proof.
  intros Ha. unfold gpt_boot_chain_swap. rewrite (swap_all_spec _ _ _ _ _ Ha (fun n H => H)).
  eexists _, _. split; [done|]. destruct (swap_pairs _ _ _ _); auto.
Qed.

(** Without a backup partition nothing is exchanged. *)
Lemma gpt_boot_chain_swap_fail b sz cnt b' :
  entry_array b sz cnt -> gpt_boot_chain_swap b sz = Some (1, b') -> b' = b.
Proof.
  intros Ha. unfold gpt_boot_chain_swap. rewrite (swap_all_spec _ _ _ _ _ Ha (fun n H => H)).
  #[local] Transparent exchanges.
  destruct (swap_pairs _ _ _ _) as [|p ps]; intros H; apply (inj Some) in H;
    injection H; [by intros <-|by intros _ ?].
Qed.
End swap.
