(* ===== verification/GptSpec.v ===== *)
(** * What a GPT disk means

    Pure views of a device: the header and entry array of each GPT instance,
    when a boot loader accepts one ([valid_gpt]), the geometry of a disk
    ([layout]), and the invariant of the fail-safe update ([update_inv]) with
    the lemmas on how header and array writes affect it. *)
From S2P Require Import Prelude Bytes BlockDev UfsBsg GptUtils.

Section spec.
Context `{E : Env}.

(** ** Headers *)
Definition crc (b : buf) : Z := u32 (env_crc32 env_crc_init b).

(** The CRC of a header, computed with its own field cleared. *)
Definition hdr_crc_of (h : buf) : option Z :=
  n ← GET_4_BYTES h HEADER_SIZE_OFFSET;
  h0 ← PUT_4_BYTES h HEADER_CRC_OFFSET 0;
  d ← slice h0 0 n; Some (crc d).

(** The stored CRC is the right one. *)
Definition sealed (h : buf) : Prop :=
  exists c, hdr_crc_of h = Some c /\ GET_4_BYTES h HEADER_CRC_OFFSET = Some c.

Definition sig_ok (h : buf) : Prop := slice h 0 9 = Some GPT_SIGNATURE.

(** Recompute the CRC field. *)
Definition seal (h : buf) : option buf :=
  n ← GET_4_BYTES h HEADER_SIZE_OFFSET;
  h ← PUT_4_BYTES h HEADER_CRC_OFFSET 0;
  d ← slice h 0 n; PUT_4_BYTES h HEADER_CRC_OFFSET (crc d).

(** A header whose size field stays inside of the block. *)
Definition hdr_wf (bs : Z) (h : buf) : Prop :=
  Z.of_nat (length h) = bs /\ 92 <= bs /\
  exists n, GET_4_BYTES h HEADER_SIZE_OFFSET = Some n /\ 0 <= n <= bs.

(** ** Instances *)
Definition off_of (gpt : gpt_instance) (dev : buf) (bs : Z) : Z :=
  match gpt with PRIMARY_GPT => bs | SECONDARY_GPT => Z.of_nat (length dev) - bs end.

(** The entry array a header points to has the CRC the header stores. *)
Definition arr_ok (dev : buf) (bs : Z) (h : buf) : Prop :=
  exists start n arr, pentries_start_of h bs = Some start /\ pentries_size_of h = Some n /\
    slice dev start n = Some arr /\ GET_4_BYTES h PARTITION_CRC_OFFSET = Some (crc arr).

(** A GPT a boot loader accepts: signature, header CRC and array CRC. *)
Definition valid_gpt (dev : buf) (bs : Z) (gpt : gpt_instance) : Prop :=
  exists h, slice dev (off_of gpt dev bs) bs = Some h /\ sig_ok h /\ sealed h /\ arr_ok dev bs h.

Definition bootable (dev : buf) (bs : Z) : Prop :=
  valid_gpt dev bs PRIMARY_GPT \/ valid_gpt dev bs SECONDARY_GPT.

(** ** Geometry

    Block [bs], primary header [hp] and entries at [ps], backup entries at [ss]
    and backup header [hs] in the last block; arrays of [n] bytes with entries
    of [sz] bytes. *)
Record geometry := Geometry { g_bs : Z; g_n : Z; g_sz : Z; g_ps : Z; g_ss : Z; g_len : Z }.

Record hdr_layout (g : geometry) (start : Z) (h : buf) : Prop := {
  hl_wf : hdr_wf (g_bs g) h;
  hl_start : pentries_start_of h (g_bs g) = Some start;
  hl_size : pentries_size_of h = Some (g_n g);
  hl_sz : GET_4_BYTES h PENTRY_SIZE_OFFSET = Some (g_sz g);
}.

Record geometry_ok (g : geometry) : Prop := {
  go_bs : 92 <= g_bs g <= 0x7ffff000;
  go_n : 0 <= g_n g <= 0x7ffff000;
  go_sz : 128 <= g_sz g;
  go_div : (g_sz g | g_n g);
  go_ps : 2 * g_bs g <= g_ps g;
  go_ss : g_ps g + g_n g <= g_ss g;
  go_end : g_ss g + g_n g <= g_len g - g_bs g;
  go_len : g_len g < 2 ^ 63;
}.

Record layout (g : geometry) (dev hp hs : buf) : Prop := {
  lay_len : Z.of_nat (length dev) = g_len g;
  lay_hp : slice dev (g_bs g) (g_bs g) = Some hp;
  lay_hs : slice dev (g_len g - g_bs g) (g_bs g) = Some hs;
  lay_php : hdr_layout g (g_ps g) hp;
  lay_phs : hdr_layout g (g_ss g) hs;
}.

(** ** The invariant of the fail-safe update

    Both headers carry a correct CRC, the primary array matches the primary
    header, and one of the tables is complete with its signature. *)
Definition update_inv (g : geometry) (dev : buf) : Prop :=
  exists hp hs, layout g dev hp hs /\ sealed hp /\ sealed hs /\
    arr_ok dev (g_bs g) hp /\
    (sig_ok hp \/ (sig_ok hs /\ arr_ok dev (g_bs g) hs)).

Lemma update_inv_bootable g dev : update_inv g dev -> bootable dev (g_bs g).
Proof.
  intros (hp & hs & [Hl Hhp Hhs _ _] & Sp & Ss & Ap & [Hs|[Hs As]]); [left|right].
  - by exists hp.
  - exists hs. simpl. by rewrite Hl.
Qed.

(** ** Sealing *)
Lemma seal_spec bs h :
  hdr_wf bs h -> exists h', seal h = Some h' /\ frame [(HEADER_CRC_OFFSET, 4)] h h' /\ sealed h'.
Proof.
  intros (Hl & Hbs & n & Hn & Hn0).
  destruct (PUT_4_BYTES_is_Some h HEADER_CRC_OFFSET 0) as [h0 H0]; [lia..|].
  pose proof (PUT_4_BYTES_frame _ _ _ _ H0) as F0.
  destruct (slice_is_Some h0 0 n) as [d Hd]; [lia..|rewrite (proj1 F0); lia|].
  destruct (PUT_4_BYTES_is_Some h0 HEADER_CRC_OFFSET (crc d)) as [h' H']; [lia|rewrite (proj1 F0); lia|].
  pose proof (PUT_4_BYTES_frame _ _ _ _ H') as F'.
  assert (F : frame [(HEADER_CRC_OFFSET, 4)] h h').
  { eapply frame_weaken; [by eapply frame_trans|]. intros i Hi. ranges. }
  exists h'. unfold seal. rewrite Hn. simpl. rewrite H0. simpl. rewrite Hd. simpl.
  split; [done|]. split; [done|]. exists (crc d). split.
  - unfold hdr_crc_of. rewrite (frame_GET_4 _ _ _ _ F) by ranges. rewrite Hn. simpl.
    assert (HP : PUT_4_BYTES h' HEADER_CRC_OFFSET 0 = Some h0); [|by rewrite HP; simpl; rewrite Hd].
    rewrite PUT_4_BYTES_splice in H', H0 |- *.
    pose proof (slice_splice_same _ _ _ _ H0) as Hs0.
    apply splice_slice_id in Hs0. rewrite <- Hs0.
    destruct (splice h' 16 (put4 0)) as [h''|] eqn:E1.
    2:{ destruct (splice_is_Some h' 16 (put4 0)); [lia|simpl; rewrite (proj1 F); lia|congruence]. }
    rewrite Hs0. f_equal. apply list_eq. intros i.
    rewrite (splice_lookup _ _ _ _ _ E1), (splice_lookup _ _ _ _ _ H'), (splice_lookup _ _ _ _ _ Hs0).
    simpl length. by case_decide.
  - rewrite (GET_PUT_4_BYTES _ _ _ _ H'). f_equal. apply wrap_idemp.
Qed.

(** ** Frames of headers *)
Lemma hdr_wf_frame ws bs h h' :
  frame ws h h' -> avoids HEADER_SIZE_OFFSET 4 ws -> hdr_wf bs h -> hdr_wf bs h'.
Proof.
  intros F A (Hl & Hbs & n & Hn & ?). unfold hdr_wf.
  rewrite (frame_GET_4 _ _ _ _ F A), (proj1 F). eauto 10.
Qed.

Lemma pentries_start_frame ws h h' bs :
  frame ws h h' -> avoids PENTRIES_OFFSET 8 ws -> pentries_start_of h' bs = pentries_start_of h bs.
Proof. intros F A. unfold pentries_start_of. by rewrite (frame_GET_8 _ _ _ _ F A). Qed.

Lemma pentries_size_frame ws h h' :
  frame ws h h' -> avoids PARTITION_COUNT_OFFSET 8 ws -> pentries_size_of h' = pentries_size_of h.
Proof.
  intros F A. unfold pentries_size_of.
  rewrite !(frame_GET_4 _ _ _ _ F) by (eapply avoids_sub; [done|lia..]). done.
Qed.

Lemma hdr_layout_frame ws g start h h' :
  frame ws h h' -> avoids HEADER_SIZE_OFFSET 4 ws -> avoids PENTRIES_OFFSET 16 ws ->
  hdr_layout g start h -> hdr_layout g start h'.
Proof.
  intros F A1 A2 [Hw Hst Hsz Hs]. constructor.
  - by eapply hdr_wf_frame.
  - rewrite (pentries_start_frame _ _ _ _ F); [done|]. eapply avoids_sub; [done|lia..].
  - rewrite (pentries_size_frame _ _ _ F); [done|]. eapply avoids_sub; [done|lia..].
  - rewrite (frame_GET_4 _ _ _ _ F); [done|]. eapply avoids_sub; [done|lia..].
Qed.

Lemma sig_ok_frame ws h h' : frame ws h h' -> avoids 0 9 ws -> sig_ok h -> sig_ok h'.
Proof. intros F A. unfold sig_ok. by rewrite (frame_slice _ _ _ _ _ F A). Qed.

Lemma arr_ok_hdr ws dev bs h h' :
  frame ws h h' -> avoids PENTRIES_OFFSET 20 ws -> arr_ok dev bs h -> arr_ok dev bs h'.
Proof.
  intros F A (start & n & arr & H1 & H2 & H3 & H4). exists start, n, arr.
  rewrite (pentries_start_frame _ _ _ _ F) by (eapply avoids_sub; [done|lia..]).
  rewrite (pentries_size_frame _ _ _ F) by (eapply avoids_sub; [done|lia..]).
  rewrite (frame_GET_4 _ _ _ _ F) by (eapply avoids_sub; [done|lia..]). done.
Qed.

Lemma arr_ok_dev g ws dev dev' start h :
  hdr_layout g start h -> frame ws dev dev' -> avoids start (g_n g) ws ->
  arr_ok dev (g_bs g) h -> arr_ok dev' (g_bs g) h.
Proof.
  intros [_ Hst Hsz _] F A (start' & n & arr & H1 & H2 & H3 & H4). simplify_eq.
  exists start, (g_n g), arr. by rewrite (frame_slice _ _ _ _ _ F A).
Qed.

Lemma arr_ok_intro g dev start h arr :
  hdr_layout g start h -> slice dev start (g_n g) = Some arr ->
  GET_4_BYTES h PARTITION_CRC_OFFSET = Some (crc arr) -> arr_ok dev (g_bs g) h.
Proof. intros [_ Hst Hsz _] ??. by exists start, (g_n g), arr. Qed.

(** ** Writes to a disk *)
Lemma layout_off g dev hp hs gpt :
  geometry_ok g -> layout g dev hp hs ->
  slice dev (off_of gpt dev (g_bs g)) (g_bs g) = Some (match gpt with PRIMARY_GPT => hp | _ => hs end) /\
  0 <= off_of gpt dev (g_bs g) <= g_len g - g_bs g.
Proof.
  intros Hg [Hl Hp Hs _ _]. destruct Hg. destruct gpt; simpl; rewrite ?Hl; (split; [done|lia]).
Qed.

Lemma hdr_layout_length g start h : hdr_layout g start h -> Z.of_nat (length h) = g_bs g.
Proof. by intros [(?&_) _ _ _]. Qed.

(** A header is replaced. *)
Definition with_header (gpt : gpt_instance) (h hp hs : buf) : buf * buf :=
  match gpt with PRIMARY_GPT => (h, hs) | SECONDARY_GPT => (hp, h) end.

Definition start_of (g : geometry) (gpt : gpt_instance) : Z :=
  match gpt with PRIMARY_GPT => g_ps g | SECONDARY_GPT => g_ss g end.

Lemma write_header g dev hp hs gpt h :
  geometry_ok g -> layout g dev hp hs -> hdr_layout g (start_of g gpt) h ->
  exists dev', splice dev (off_of gpt dev (g_bs g)) h = Some dev' /\
    frame [(off_of gpt dev (g_bs g), g_bs g)] dev dev' /\
    layout g dev' (with_header gpt h hp hs).1 (with_header gpt h hp hs).2.
Proof.
  intros Hg Hlay Hh. pose proof (hdr_layout_length _ _ _ Hh) as Hlh.
  destruct (layout_off _ _ _ _ gpt Hg Hlay) as [_ Ho]. destruct Hlay as [Hl Hp Hs Lp Ls], Hg.
  destruct (splice_is_Some dev (off_of gpt dev (g_bs g)) h) as [dev' Hd]; [lia..|].
  pose proof (splice_frame _ _ _ _ Hd) as F. rewrite Hlh in F.
  exists dev'. split; [done|]. split; [done|].
  pose proof (slice_splice_same _ _ _ _ Hd) as Hsame. rewrite Hlh in Hsame.
  destruct gpt; simpl in *; constructor; try done; rewrite ?(proj1 F), <- ?Hl; try done.
  all: rewrite (frame_slice _ _ _ _ _ F); rewrite ?Hl; try done; ranges.
Qed.

(** The backup array is overwritten, perhaps only in part. *)
Lemma write_backup_array g dev hp hs data :
  geometry_ok g -> layout g dev hp hs -> Z.of_nat (length data) <= g_n g ->
  exists dev', splice dev (g_ss g) data = Some dev' /\ frame [(g_ss g, g_n g)] dev dev' /\
    layout g dev' hp hs.
Proof.
  intros Hg [Hl Hp Hs Lp Ls] Hd. destruct Hg.
  destruct (splice_is_Some dev (g_ss g) data) as [dev' Hd']; [lia..|].
  assert (F : frame [(g_ss g, g_n g)] dev dev').
  { eapply frame_weaken; [by apply splice_frame|]. intros i Hi. ranges. }
  exists dev'. split; [done|]. split; [done|].
  constructor; try done; rewrite ?(proj1 F); try done;
    rewrite (frame_slice _ _ _ _ _ F); try done; ranges.
Qed.

(** ** Header states *)
Definition restate (h : buf) (state : gpt_state) : option buf :=
  h ← (if decide (state = GPT_OK) then splice h 0 GPT_SIGNATURE else wr h 0 0); seal h.

Lemma restate_spec bs h state :
  hdr_wf bs h -> exists h', restate h state = Some h' /\
    frame [(0, 9); (HEADER_CRC_OFFSET, 4)] h h' /\ sealed h' /\ (sig_ok h' <-> state = GPT_OK).
Proof.
  intros Hw. pose proof Hw as (Hl & Hbs & _).
  assert (exists h1, (if decide (state = GPT_OK) then splice h 0 GPT_SIGNATURE else wr h 0 0) = Some h1 /\
    frame [(0, 9)] h h1 /\ (sig_ok h1 <-> state = GPT_OK)) as (h1 & H1 & F1 & S1).
  { case_decide as Hst.
    - destruct (splice_is_Some h 0 GPT_SIGNATURE) as [h1 H1]; [done|simpl; lia|].
      exists h1. split; [done|]. split; [exact (splice_frame _ _ _ _ H1)|].
      split; [done|]. intros _. exact (slice_splice_same _ _ _ _ H1).
    - unfold wr. destruct (splice_is_Some h 0 [u8 0]) as [h1 H1]; [done|simpl; lia|].
      exists h1. split; [done|]. split.
      { eapply frame_weaken; [by apply splice_frame|]. intros i Hi. ranges. }
      split; [|done]. intros Hsig. exfalso. unfold sig_ok in Hsig.
      assert (H0 : h1 !! 0%nat = GPT_SIGNATURE !! 0%nat)
        by (symmetry; apply (slice_lookup h1 0 9 _ 0 Hsig); lia).
      rewrite (splice_lookup _ _ _ _ _ H1) in H0. by vm_compute in H0. }
  destruct (seal_spec bs h1) as (h' & Hs & F2 & S2).
  { eapply hdr_wf_frame; [done| |done]. ranges. }
  exists h'. unfold restate. rewrite H1. simpl. split; [done|]. split; [exact (frame_trans _ _ _ _ _ F1 F2)|].
  split; [done|]. rewrite <- S1. unfold sig_ok. by rewrite (frame_slice _ _ _ _ _ F2) by ranges.
Qed.

Definition state_of (h : buf) : gpt_state :=
  if bool_decide (hdr_crc_of h = GET_4_BYTES h HEADER_CRC_OFFSET) then
    if bool_decide (slice h 0 9 = Some GPT_SIGNATURE) then GPT_OK else GPT_BAD_SIGNATURE
  else GPT_BAD_CRC.

Lemma hdr_crc_of_wf bs h : hdr_wf bs h -> is_Some (hdr_crc_of h).
Proof.
  intros (Hl & Hbs & n & Hn & Hn0). unfold hdr_crc_of. rewrite Hn. simpl.
  destruct (PUT_4_BYTES_is_Some h HEADER_CRC_OFFSET 0) as [h0 H0]; [lia..|]. rewrite H0. simpl.
  destruct (slice_is_Some h0 0 n) as [d Hd]; [lia..| |].
  { rewrite (proj1 (PUT_4_BYTES_frame _ _ _ _ H0)). lia. }
  rewrite Hd. simpl. eauto.
Qed.

Lemma state_of_sealed bs h : hdr_wf bs h -> sealed h <-> state_of h <> GPT_BAD_CRC.
Proof.
  intros Hw. destruct (hdr_crc_of_wf _ _ Hw) as [c Hc]. unfold sealed, state_of. rewrite Hc.
  case_bool_decide as Hd.
  - split; [by case_bool_decide|]. eauto.
  - split; [|done]. intros (c' & [= <-] & ?). congruence.
Qed.

Lemma state_of_OK bs h : hdr_wf bs h -> state_of h = GPT_OK <-> sealed h /\ sig_ok h.
Proof.
  intros Hw. rewrite (state_of_sealed _ _ Hw). unfold state_of, sig_ok.
  repeat case_bool_decide; naive_solver.
Qed.

Lemma state_of_BAD bs h : hdr_wf bs h -> state_of h = GPT_BAD_SIGNATURE <-> sealed h /\ ~ sig_ok h.
Proof.
  intros Hw. rewrite (state_of_sealed _ _ Hw). unfold state_of, sig_ok.
  repeat case_bool_decide; naive_solver.
Qed.

Lemma state_of_OK_sig bs h : hdr_wf bs h -> state_of h <> GPT_BAD_CRC -> state_of h = GPT_OK <-> sig_ok h.
Proof. intros Hw Hs. rewrite (state_of_OK _ _ Hw), (state_of_sealed _ _ Hw). tauto. Qed.

(** ** A header for a given array *)
Definition reheader (h a : buf) : option buf :=
  h ← PUT_4_BYTES h PARTITION_CRC_OFFSET (crc a); seal h.

Lemma reheader_spec bs h a :
  hdr_wf bs h -> exists h', reheader h a = Some h' /\
    frame [(PARTITION_CRC_OFFSET, 4); (HEADER_CRC_OFFSET, 4)] h h' /\ sealed h' /\
    GET_4_BYTES h' PARTITION_CRC_OFFSET = Some (crc a).
Proof.
  intros Hw. pose proof Hw as (Hl & Hbs & _).
  destruct (PUT_4_BYTES_is_Some h PARTITION_CRC_OFFSET (crc a)) as [h1 H1]; [lia..|].
  pose proof (PUT_4_BYTES_frame _ _ _ _ H1) as F1.
  destruct (seal_spec bs h1) as (h' & Hs & F2 & S2).
  { eapply hdr_wf_frame; [done| |done]. ranges. }
  exists h'. unfold reheader. rewrite H1. split; [done|].
  split; [exact (frame_trans _ _ _ _ _ F1 F2)|]. split; [done|].
  rewrite (frame_GET_4 _ _ _ _ F2) by ranges. rewrite (GET_PUT_4_BYTES _ _ _ _ H1).
  f_equal. unfold crc. apply wrap_idemp.
Qed.

Lemma s64_id z : 0 <= z < 2 ^ 63 -> s64 z = z.
Proof. intros H. unfold s64. rewrite (wrap_id 64) by lia. by rewrite (proj2 (Z.ltb_lt _ _)) by lia. Qed.

(** The boot-chain array written to the backup table. *)
Definition chain_array (boot : boot_chain) (sz : Z) (arr : buf) : option (Z * buf) :=
  match boot with BACKUP_BOOT => gpt_boot_chain_swap arr sz | NORMAL_BOOT => Some (0, arr) end.
End spec.
