(* ===== verification/GptExec.v ===== *)
(** * Executing the GPT code

    Rules for the calls of [BlockDev.v] that track one device, and with them the
    specification of each operation of [GptUtils.v] on a disk with a layout:
    which writes it makes, what it returns, and that it is defined. *)
From S2P Require Import Prelude Bytes BlockDev UfsBsg GptUtils GptSwap GptSpec.

(** [steps fd d d' snaps db w w']: between [w] and [w'] the device [fd] went from
    [d] to [d'] through the contents [snaps], no other device changed, and [db]
    heap blocks were allocated and not freed. *)
Definition steps (fd : string) (d' : buf) (snaps : list buf) (db : Z) (w w' : World) : Prop :=
  devs w' = <[fd := d']> (devs w) /\ hist w' = hist w ++ ((fun d => (fd, d)) <$> snaps) /\
  blocks w' = blocks w + db.

Lemma steps_refl fd d w : devs w !! fd = Some d -> steps fd d [] 0 w w.
Proof. intros H. split_and!; [by rewrite insert_id|by rewrite app_nil_r|lia]. Qed.

Lemma steps_dev fd d s b w w' : steps fd d s b w w' -> devs w' !! fd = Some d.
Proof. intros (-> & _). by rewrite lookup_insert_eq. Qed.

Lemma steps_trans fd d1 s1 b1 d2 s2 b2 w w1 w2 :
  steps fd d1 s1 b1 w w1 -> steps fd d2 s2 b2 w1 w2 -> steps fd d2 (s1 ++ s2) (b1 + b2) w w2.
Proof.
  intros (D1 & H1 & B1) (D2 & H2 & B2). split_and!.
  - rewrite D2, D1. by rewrite insert_insert_eq.
  - rewrite H2, H1. by rewrite fmap_app, app_assoc.
  - lia.
Qed.

(** What a failed write may leave: nothing, all, or a whole number of blocks. *)
Definition torn (bs : Z) (d : buf) (off : Z) (data : buf) (d' : buf) : Prop :=
  exists k, 0 <= k <= Z.of_nat (length data) /\
    (k = Z.of_nat (length data) \/ exists q, k = q * bs) /\
    splice d off (take (Z.to_nat k) data) = Some d'.

Section exec.
Context `{E : Env} (L : EnvLaws E).
Context (fd : string) (Hio : io_blocks fd).

Abbreviation bs := (u32 (env_blksz fd)).

Section track.
Context (w0 : World) (d : buf) (s : list buf) (b : Z) (w : World).
Hypothesis (Hst : steps fd d s b w0 w).

Lemma steps_tick : steps fd d s b w0 (set_ticks S w).
Proof. exact Hst. Qed.

Lemma wp_ioctl (Q : option Z -> World -> Prop) :
  (forall w', steps fd d s b w0 w' -> Q (Some bs) w') ->
  (forall w', ~ no_faults -> steps fd d s b w0 w' -> Q None w') ->
  wp (ioctl_BLKSSZGET fd) Q w.
Proof.
  intros H1 H2. unfold ioctl_BLKSSZGET, sys_ok, tick. wp_run. unfold wp. simpl.
  destruct (env_ok (ticks w)) eqn:Eok; [by apply H1|]. apply H2; [|done].
  intros [Hok _]. by rewrite Hok in Eok.
Qed.

Lemma wp_malloc n (Q : option buf -> World -> Prop) :
  (forall w' h, steps fd d s (b + 1) w0 w' -> length h = Z.to_nat n -> Q (Some h) w') ->
  (forall w', ~ no_faults -> steps fd d s b w0 w' -> Q None w') ->
  wp (malloc n) Q w.
Proof.
  intros H1 H2. unfold malloc, tick. wp_step. unfold wp at 1. simpl.
  destruct (env_ok (ticks w)) eqn:Eok.
  - wp_run. apply H1.
    + destruct Hst as (?&?&?). split_and!; simpl; try done. lia.
    + by rewrite length_fmap, length_seq.
  - wp_run. apply H2; [|done]. intros [Hok _]. by rewrite Hok in Eok.
Qed.

Lemma wp_calloc n (Q : option buf -> World -> Prop) :
  (forall w' h, steps fd d s (b + 1) w0 w' -> length h = Z.to_nat n -> Q (Some h) w') ->
  (forall w', ~ no_faults -> steps fd d s b w0 w' -> Q None w') ->
  wp (calloc n) Q w.
Proof.
  intros H1 H2. unfold calloc, sys_ok, tick. wp_run. unfold wp. simpl.
  destruct (env_ok (ticks w)) eqn:Eok.
  - apply H1.
    + destruct Hst as (?&?&?). split_and!; simpl; try done. lia.
    + by rewrite length_replicate.
  - apply H2; [|done]. intros [Hok _]. by rewrite Hok in Eok.
Qed.

Lemma wp_free (Q : unit -> World -> Prop) :
  (forall w', steps fd d s (b - 1) w0 w' -> Q tt w') -> wp free Q w.
Proof.
  intros H. unfold free. wp_run. apply H. destruct Hst as (?&?&?). split_and!; simpl; try done. lia.
Qed.

Lemma wp_lseek_end (Q : Z -> World -> Prop) :
  (forall w', steps fd d s b w0 w' -> Q (Z.of_nat (length d)) w') ->
  (forall w', ~ no_faults -> steps fd d s b w0 w' -> Q (-1) w') ->
  wp (lseek_end fd) Q w.
Proof.
  intros H1 H2. unfold lseek_end, sys_ok, tick. wp_run. unfold wp. simpl.
  destruct (env_ok (ticks w)) eqn:Eok.
  - pose proof (steps_dev _ _ _ _ _ _ Hst) as Hd. unfold get, deref, mbind, cm_bind. simpl.
    rewrite Hd. by apply H1.
  - apply H2; [|done]. intros [Hok _]. by rewrite Hok in Eok.
Qed.

Lemma wp_lseek_set off (Q : bool -> World -> Prop) :
  0 <= off ->
  (forall w', steps fd d s b w0 w' -> Q true w') ->
  (forall w', ~ no_faults -> steps fd d s b w0 w' -> Q false w') ->
  wp (lseek_set off) Q w.
Proof.
  intros Ho H1 H2. unfold lseek_set, sys_ok, tick. wp_run. unfold wp. simpl.
  rewrite (proj2 (Z.ltb_ge _ _) Ho). simpl.
  destruct (env_ok (ticks w)) eqn:Eok; [by apply H1|]. apply H2; [|done].
  intros [Hok _]. by rewrite Hok in Eok.
Qed.

Lemma wp_crc32 h len e (Q : Z -> World -> Prop) :
  slice h 0 len = Some e -> Q (env_crc32 env_crc_init e) w -> wp (crc32 h len) Q w.
Proof. intros He HQ. unfold crc32. by wp_run. Qed.
End track.

Lemma moved_ok t dev off len :
  0 <= off -> 0 <= len <= 0x7ffff000 -> off + len <= Z.of_nat (length dev) ->
  0 <= moved t dev off len <= len /\
  (if fst (env_io t len) then moved t dev off len = len
   else ~ no_faults /\ (moved t dev off len = len \/ exists q, moved t dev off len = q * bs)).
Proof.
  intros Ho Hl Hlen. unfold moved. split; [lia|].
  pose proof (Hio t len Hl) as H. destruct (fst (env_io t len)) eqn:Ef; [lia|].
  split. { intros [_ Hn]. by rewrite Hn in Ef. }
  destruct H as [k ->]. destruct (Z.le_gt_cases len (k * bs)); [left; lia|]. right.
  destruct (Z.le_gt_cases 0 (k * bs)); [exists k|exists 0]; lia.
Qed.

Section track2.
Context (w0 : World) (d : buf) (s : list buf) (b : Z) (w : World).
Hypothesis (Hst : steps fd d s b w0 w).

Lemma wp_blk_read off h len data (Q : Z * buf -> World -> Prop) :
  0 <= len <= 0x7ffff000 -> Z.of_nat (length h) = len -> slice d off len = Some data ->
  (forall w', steps fd d s b w0 w' -> Q (0, data) w') ->
  (forall w' h', ~ no_faults -> steps fd d s b w0 w' -> Q (-1, h') w') ->
  wp (blk_rw fd false off h len) Q w.
Proof.
  intros Hlen Hh Hs H1 H2. apply slice_Some in Hs as Hs'. destruct Hs' as (Ho & _ & Hin & ->).
  unfold blk_rw. apply wp_bind. eapply wp_lseek_set; [exact Hst|done| |].
  2:{ intros w' Hn Hst'. simpl. apply wp_ret. auto. }
  intros w' Hst'. simpl. apply wp_bind. unfold read_dev, tick. wp_step. unfold wp at 1. simpl.
  wp_step. unfold wp at 1, get.
  pose proof (steps_dev _ _ _ _ _ _ Hst') as Hd.
  destruct (moved_ok (ticks w') d off len Ho Hlen Hin) as [Hm Hf].
  wp_step. eapply wp_deref; [exact Hd|]. wp_step.
  rewrite (Z.min_l off) by lia.
  destruct (slice_is_Some d off (moved (ticks w') d off len)) as [data Hdata]; [lia..|].
  eapply wp_deref; [exact Hdata|]. wp_step.
  destruct (slice_is_Some h 0 len) as [h0 Hh0]; [lia..|]. eapply wp_deref; [exact Hh0|]. wp_step.
  destruct (splice_is_Some h 0 data) as [h' Hh']; [done|rewrite (slice_length _ _ _ _ Hdata); lia|].
  eapply wp_deref; [exact Hh'|]. wp_step.
  destruct (fst (env_io (ticks w') len)).
  - rewrite Hf. rewrite (proj2 (Z.ltb_ge len 0)) by lia. wp_step.
    assert (h' = take (Z.to_nat len) (drop (Z.to_nat off) d)) as ->; [|by apply H1].
    rewrite Hf in Hdata. rewrite Hs in Hdata. injection Hdata as Hdata.
    apply splice_Some in Hh' as (_ & _ & ->). rewrite <- Hdata. simpl.
    rewrite (drop_ge h), app_nil_r; [done|].
    rewrite length_take, length_drop. lia.
  - wp_step. apply H2; [by apply Hf|done].
Qed.

Lemma wp_blk_write off data d' (Q : Z * buf -> World -> Prop) :
  0 <= Z.of_nat (length data) <= 0x7ffff000 -> splice d off data = Some d' ->
  (forall w', steps fd d' (s ++ [d']) b w0 w' -> Q (0, data) w') ->
  (forall w' d1 s1, ~ no_faults -> steps fd d1 (s ++ s1) b w0 w' -> torn bs d off data d1 ->
     Forall (torn bs d off data) s1 -> Q (-1, data) w') ->
  wp (blk_rw fd true off data (Z.of_nat (length data))) Q w.
Proof.
  intros Hlen Hs H1 H2. apply splice_Some in Hs as Hs'. destruct Hs' as (Ho & Hin & _).
  unfold blk_rw. apply wp_bind. eapply wp_lseek_set; [exact Hst|done| |].
  2:{ intros w' Hn Hst'. simpl. apply wp_ret. eapply (H2 w' d []); [done|by rewrite app_nil_r| |done].
      exists 0. split; [lia|]. split; [right; by exists 0|]. simpl.
      unfold splice. simpl. rewrite (proj2 (Z.ltb_ge off 0)) by lia.
      rewrite (proj2 (Z.ltb_ge _ _)) by lia. simpl. by rewrite Nat.add_0_r, take_drop. }
  intros w' Hst'. simpl. apply wp_bind. unfold write_dev, tick. wp_step. unfold wp at 1. simpl.
  wp_step. unfold wp at 1, get.
  pose proof (steps_dev _ _ _ _ _ _ Hst') as Hd.
  destruct (moved_ok (ticks w') d off (Z.of_nat (length data)) Ho Hlen Hin) as [Hm Hf].
  wp_step. eapply wp_deref; [exact Hd|]. wp_step.
  rewrite (Z.min_l off) by lia.
  assert (Hfull : slice data 0 (Z.of_nat (length data)) = Some data).
  { apply slice_Some. split_and!; [lia..|]. rewrite Nat2Z.id. simpl. by rewrite take_ge. }
  eapply wp_deref; [exact Hfull|]. wp_step.
  set (k := moved _ _ _ _) in *. clearbody k.
  destruct (splice_is_Some d off (take (Z.to_nat k) data)) as [d1 Hd1]; [done|rewrite length_take; lia|].
  eapply wp_deref; [exact Hd1|]. wp_run.
  assert (Hst1 : steps fd d1 (s ++ [d1]) b w0
    (set_hist (λ h, h ++ [(fd, d1)]) (set_devs <[fd:=d1]> (set_ticks S w')))).
  { destruct Hst' as (D1 & HH & B). split_and!; simpl; [|by rewrite HH, fmap_app, app_assoc|done].
    by rewrite D1, insert_insert_eq. }
  destruct (fst (env_io (ticks w') (Z.of_nat (length data)))).
  - rewrite Hf in *. rewrite (proj2 (Z.ltb_ge _ 0)) by lia.
    rewrite Nat2Z.id, take_ge in Hd1 by lia. rewrite Hs in Hd1.
    injection Hd1 as <-. by apply H1.
  - simpl. destruct Hf as [Hn Hk].
    assert (torn bs d off data d1) by (by exists k). by eapply H2; [..|constructor].
Qed.
End track2.

(** A one-block write happens or does not. *)
Lemma torn_block d off h d' d1 :
  0 < bs -> Z.of_nat (length h) = bs -> splice d off h = Some d' -> torn bs d off h d1 ->
  d1 = d \/ d1 = d'.
Proof.
  intros Hbs Hh Hs (k & Hk & Hq & H1).
  assert (k = 0 \/ k = bs) as [-> | ->].
  { destruct Hq as [->|[q ->]]; [by right|]. destruct (Z.le_gt_cases q 0); [left; nia|]. right. nia. }
  - left. apply splice_Some in H1 as (_ & _ & ->). simpl. by rewrite Nat.add_0_r, take_drop.
  - right. rewrite take_ge in H1 by lia. congruence.
Qed.

Lemma slice_region d off len r : slice d off len = Some r -> 0 <= off.
Proof. by intros (?&_)%slice_Some. Qed.

Lemma hdr_wf_GET h p : hdr_wf bs h -> 0 <= p <= 88 -> is_Some (GET_4_BYTES h p).
Proof.
  intros (Hl & H92 & _) Hp. destruct (slice_is_Some h p 4) as [l Hl']; [lia..|].
  rewrite (GET_4_BYTES_slice _ _ _ Hl'). eauto.
Qed.

Section track3.
Context (w0 : World) (d : buf) (s : list buf) (b : Z) (w : World).

Lemma wp_free_ret {A} (r : A) (Q : A -> World -> Prop) :
  steps fd d s (b + 1) w0 w -> (forall w', steps fd d s b w0 w' -> Q r w') ->
  wp (_ ← free; mret r) Q w.
Proof.
  intros Hst H. apply wp_bind. eapply wp_free; [exact Hst|]. intros w' S. apply wp_ret, H.
  by rewrite Z.add_simpl_r in S.
Qed.

Lemma wp_free2_ret {A} (r : A) (Q : A -> World -> Prop) :
  steps fd d s (b + 1 + 1) w0 w -> (forall w', steps fd d s b w0 w' -> Q r w') ->
  wp (_ ← free; _ ← free; mret r) Q w.
Proof.
  intros Hst H. apply wp_bind. eapply wp_free; [exact Hst|]. intros w' S.
  apply wp_bind. eapply wp_free; [exact S|]. intros w'' S'. apply wp_ret, H.
  by rewrite !Z.add_simpl_r in S'.
Qed.

End track3.

Section track4.
Context (w0 : World) (d : buf) (s : list buf) (b : Z) (w : World).

(** Allocate a block and read a header into it: the start of the header
    operations, followed by [k]. *)
Lemma wp_read_header gpt h {A} (k : Z -> Z -> buf -> CM World A) (r : A) (Q : A -> World -> Prop) :
  steps fd d s b w0 w -> bs <= 0x7ffff000 -> hdr_wf bs h ->
  slice d (off_of gpt d bs) bs = Some h ->
  (forall w', ~ no_faults -> steps fd d s b w0 w' -> Q r w') ->
  (forall w', steps fd d s (b + 1) w0 w' -> wp (k bs (off_of gpt d bs) h) Q w') ->
  wp (blk ← ioctl_BLKSSZGET fd;
      match blk with None => mret r | Some blk_size =>
      gpt_header ← malloc blk_size;
      match gpt_header with None => mret r | Some gpt_header =>
      gpt_header_offset ← header_offset fd gpt blk_size;
      if gpt_header_offset <? 0 then _ ← free; mret r else
      '(r', gpt_header) ← blk_rw fd false gpt_header_offset gpt_header blk_size;
      if negb (r' =? 0) then _ ← free; mret r else
      k blk_size gpt_header_offset gpt_header
      end end) Q w.
Proof.
  intros Hst Hbs (Hl & H92 & _) Hh Hr Hk. assert (Ho := slice_region _ _ _ _ Hh).
  apply wp_bind. eapply wp_ioctl; [exact Hst| |by intros; apply wp_ret; auto].
  intros w1 S1. apply wp_bind. eapply wp_malloc; [exact S1| |by intros; apply wp_ret; auto].
  intros w2 g S2 Hg. apply wp_bind. eapply wp_conseq with (Q := fun o w' =>
      steps fd d s (b + 1) w0 w' /\ (o = off_of gpt d bs \/ o < 0 /\ ~ no_faults)).
  { destruct gpt; simpl; [by apply wp_ret; eauto|]. apply wp_bind.
    eapply wp_lseek_end; [exact S2|intros w' Hw'; apply wp_ret; by eauto|].
    intros w' Hnf Hw'. apply wp_ret. split; [done|]. right. split; [lia|done]. }
  intros o w3 [S3 [-> |[Hneg Hnf]]].
  2:{ rewrite (proj2 (Z.ltb_lt o 0)) by lia. eapply wp_free_ret; [exact S3|]. auto. }
  rewrite (proj2 (Z.ltb_ge _ 0)) by lia.
  apply wp_bind. eapply wp_blk_read; [exact S3|lia|lia|exact Hh| |].
  - intros w4 S4. by apply Hk.
  - intros w4 g' Hnf S4. simpl. eapply wp_free_ret; [exact S4|]. auto.
Qed.
End track4.

Section ops.
Context (w0 : World) (d : buf) (s : list buf) (b : Z) (w : World).
Hypothesis (Hst : steps fd d s b w0 w).
Hypothesis (Hbs : bs <= 0x7ffff000).

Lemma wp_gpt_get_state gpt h (Q : Z * gpt_state -> World -> Prop) :
  hdr_wf bs h -> slice d (off_of gpt d bs) bs = Some h ->
  (forall w', steps fd d s b w0 w' -> Q (0, state_of h) w') ->
  (forall w', ~ no_faults -> steps fd d s b w0 w' -> Q (-1, GPT_OK) w') ->
  wp (gpt_get_state fd gpt) Q w.
Proof.
  intros Hw Hh H1 H2. pose proof Hw as (Hl & H92 & n & Hn & Hnr).
  eapply (wp_read_header w0 d s b w gpt h (fun _ _ gpt_header => 
    sig ← deref (slice gpt_header 0 9);
    let state := if bool_decide (sig = GPT_SIGNATURE) then GPT_OK else GPT_BAD_SIGNATURE in
    gpt_header_size ← deref (GET_4_BYTES gpt_header HEADER_SIZE_OFFSET);
    crc ← deref (GET_4_BYTES gpt_header HEADER_CRC_OFFSET);
    gpt_header ← deref (PUT_4_BYTES gpt_header HEADER_CRC_OFFSET 0);
    c ← crc32 gpt_header gpt_header_size;
    _ ← free; mret (0, if c =? crc then state else GPT_BAD_CRC))); try done.
  intros w4 S4.
  destruct (slice_is_Some h 0 9) as [sig Hsig]; [lia..|].
  destruct (PUT_4_BYTES_is_Some h HEADER_CRC_OFFSET 0) as [h0 H0]; [lia..|].
  pose proof (PUT_4_BYTES_frame _ _ _ _ H0) as F0.
  destruct (slice_is_Some h0 0 n) as [e He]; [lia..|rewrite (proj1 F0); lia|].
  destruct (hdr_wf_GET h HEADER_CRC_OFFSET Hw ltac:(lia)) as [c Hc].
  wp_step. eapply wp_deref; [exact Hsig|]. cbv zeta. wp_step. eapply wp_deref; [exact Hn|].
  wp_step. eapply wp_deref; [exact Hc|]. wp_step. eapply wp_deref; [exact H0|].
  wp_step. eapply wp_crc32; [exact He|]. eapply wp_free_ret; [exact S4|]. intros w5 S5.
  assert (Hst' : (if env_crc32 env_crc_init e =? c
     then if bool_decide (sig = GPT_SIGNATURE) then GPT_OK else GPT_BAD_SIGNATURE
     else GPT_BAD_CRC) = state_of h); [|rewrite Hst'; by apply H1].
  unfold state_of, hdr_crc_of. rewrite Hn. simpl. rewrite H0. simpl. rewrite He. simpl.
  rewrite Hc, Hsig. unfold crc. rewrite (wrap_id 32) by apply env_crc32_range.
  destruct (Z.eqb_spec (env_crc32 env_crc_init e) c) as [Heq|Hne].
  - rewrite (bool_decide_true (Some _ = Some _)) by congruence.
    assert (Hi : sig = GPT_SIGNATURE <-> Some sig = Some GPT_SIGNATURE)
      by (split; [by intros ->|apply (inj Some)]).
    by rewrite (bool_decide_ext _ _ Hi).
  - by rewrite bool_decide_false by congruence.
Qed.

Lemma wp_gpt_set_state gpt h h' d' state (Q : Z -> World -> Prop) :
  hdr_wf bs h -> slice d (off_of gpt d bs) bs = Some h -> state <> GPT_BAD_CRC ->
  restate h state = Some h' -> splice d (off_of gpt d bs) h' = Some d' ->
  (forall w', steps fd d' (s ++ [d']) (b + 1) w0 w' -> Q 0 w') ->
  (forall w' d1 s1, ~ no_faults -> steps fd d1 (s ++ s1) b w0 w' ->
     Forall (fun x => x = d \/ x = d') (d1 :: s1) -> Q (-1) w') ->
  wp (gpt_set_state fd gpt state) Q w.
Proof.
  intros Hw Hh Hne Hre Hd' H1 H2. pose proof Hw as (Hl & H92 & n & Hn & Hnr).
  eapply (wp_read_header w0 d s b w gpt h (fun blk_size gpt_header_offset gpt_header => 
    if decide (state = GPT_BAD_CRC) then _ ← free; mret (-1) else
    gpt_header ← deref (if decide (state = GPT_OK) then splice gpt_header 0 GPT_SIGNATURE
                        else wr gpt_header 0 0);
    gpt_header_size ← deref (GET_4_BYTES gpt_header HEADER_SIZE_OFFSET);
    gpt_header ← deref (PUT_4_BYTES gpt_header HEADER_CRC_OFFSET 0);
    crc ← crc32 gpt_header gpt_header_size;
    gpt_header ← deref (PUT_4_BYTES gpt_header HEADER_CRC_OFFSET (u32 crc));
    '(r, gpt_header) ← blk_rw fd true gpt_header_offset gpt_header blk_size;
    if negb (r =? 0) then _ ← free; mret (-1) else mret 0)); try done.
  { intros w' Hnf S. eapply (H2 w' d []); [done|by rewrite app_nil_r|]. constructor; [by left|constructor]. }
  intros w4 S4. destruct (restate_spec _ _ state Hw) as (h1 & Hre1 & F1 & _).
  rewrite Hre in Hre1. injection Hre1 as <-.
  unfold restate, seal in Hre.
  destruct (if decide (state = GPT_OK) then _ else _) as [g1|] eqn:Eg1; [|done]. simpl in Hre.
  destruct (GET_4_BYTES g1 HEADER_SIZE_OFFSET) as [n1|] eqn:En1; [|done]. simpl in Hre.
  destruct (PUT_4_BYTES g1 HEADER_CRC_OFFSET 0) as [g2|] eqn:Eg2; [|done]. simpl in Hre.
  destruct (slice g2 0 n1) as [e|] eqn:Ee; [|done]. simpl in Hre.
  destruct (decide (state = GPT_BAD_CRC)); [done|].
  wp_step. eapply wp_deref; [reflexivity|]. wp_step. eapply wp_deref; [exact En1|].
  wp_step. eapply wp_deref; [exact Eg2|]. wp_step. eapply wp_crc32; [exact Ee|].
  wp_step. eapply wp_deref; [exact Hre|].
  assert (Hlh : Z.of_nat (length h') = bs) by (rewrite (proj1 F1); done).
  wp_step. rewrite <- Hlh at 2. eapply wp_blk_write; [exact S4|lia|exact Hd'| |].
  - intros w5 S5. simpl. by apply wp_ret, H1.
  - intros w5 d1 s1 Hnf S5 Ht Hts. simpl. eapply wp_free_ret; [exact S5|]. intros w6 S6.
    eapply (H2 w6 d1 s1); [done..|]. constructor.
    + eapply torn_block; [|exact Hlh|done..]. lia.
    + eapply Forall_impl; [exact Hts|]. intros x Hx. eapply torn_block; [|exact Hlh|done..]. lia.
Qed.
End ops.

Lemma slice_full h len : Z.of_nat (length h) = len -> slice h 0 len = Some h.
Proof. intros <-. apply slice_Some. rewrite Nat2Z.id. split_and!; [lia..|]. simpl. by rewrite take_ge. Qed.

Section chain.
Context (g : geometry) (Hg : geometry_ok g) (Hgbs : g_bs g = bs).
Context (w0 : World) (d : buf) (s : list buf) (b : Z) (w : World).
Hypothesis (Hst : steps fd d s b w0 w).
Context (hp hs arr : buf) (Hlay : layout g d hp hs) (Harr : slice d (g_ps g) (g_n g) = Some arr).

Lemma array_entries : entry_array arr (g_sz g) (Z.to_nat (g_n g / g_sz g)).
Proof.
  destruct Hg as [_ Hn Hsz [q Hq] _ _ _ _]. split; [done|].
  pose proof (slice_length _ _ _ _ Harr) as Hl. rewrite Hl, Hq, Z.div_mul by lia. nia.
Qed.

Lemma chain_array_spec boot :
  exists r arr', chain_array boot (g_sz g) arr = Some (r, arr') /\ length arr' = length arr /\
    (r = 0 \/ r = 1) /\ (boot = NORMAL_BOOT -> r = 0 /\ arr' = arr).
Proof.
  destruct boot; simpl; [by exists 0, arr; auto|].
  destruct (gpt_boot_chain_swap_Some _ _ _ array_entries) as (r & arr' & H & Hr).
  exists r, arr'. split; [done|].
  split; [by eapply gpt_boot_chain_swap_length; [apply array_entries|exact H]|]. by split.
Qed.

Lemma wp_gpt2_set_boot_chain boot r arr' hs' dh dn (Q : Z -> World -> Prop) :
  GET_4_BYTES hp PARTITION_CRC_OFFSET = Some (crc arr) ->
  chain_array boot (g_sz g) arr = Some (r, arr') ->
  reheader hs arr' = Some hs' ->
  splice d (off_of SECONDARY_GPT d bs) hs' = Some dh -> splice dh (g_ss g) arr' = Some dn ->
  (forall w', r <> 0 -> steps fd d s b w0 w' -> Q r w') ->
  (forall w', r = 0 -> steps fd dn (s ++ [dh; dn]) b w0 w' -> Q 0 w') ->
  (forall w' d1 s1, ~ no_faults -> steps fd d1 (s ++ s1) b w0 w' ->
     Forall (fun x => x = d \/ x = dh \/ torn bs dh (g_ss g) arr' x) (d1 :: s1) -> Q (-1) w') ->
  wp (gpt2_set_boot_chain fd boot) Q w.
Proof.
  intros Hcrc Hchain Hre Hdh Hdn H1 H2 H3.
  assert (H4 : forall w', ~ no_faults -> steps fd d s b w0 w' -> Q (-1) w').
  { intros w' Hnf S. eapply (H3 w' d []); [done|by rewrite app_nil_r|].
    constructor; [by left|constructor]. }
  assert (Hlen' : length arr' = length arr).
  { destruct (chain_array_spec boot) as (r' & a' & Hc' & Hl' & _). rewrite Hchain in Hc'. by injection Hc' as <- <-. }
  pose proof Hg as [Hg1 Hg2 Hg3 Hg4 Hg5 Hg6 Hg7 Hg8].
  pose proof Hlay as [Hll Hlp Hls [Wp Stp Szp Ep] [Ws Sts Szs Es]].
  rewrite Hgbs in *.
  pose proof (slice_length _ _ _ _ Harr) as Hla.
  pose proof Wp as (Lp & _). pose proof Ws as (Ls & _).
  unfold gpt2_set_boot_chain.
  apply wp_bind. eapply wp_ioctl; [exact Hst| |by intros; apply wp_ret; auto].
  intros w1 S1. apply wp_bind. eapply wp_malloc; [exact S1| |by intros; apply wp_ret; auto].
  intros w2 h0 S2 Hh0. apply wp_bind.
  eapply wp_lseek_end; [exact S2| |].
  2:{ intros w3 Hnf S3. cbv zeta. rewrite (proj2 (Z.ltb_lt (-1 - bs) 0)) by lia.
      eapply wp_free_ret; [exact S3|]. auto. }
  intros w3 S3. cbv zeta. rewrite (proj2 (Z.ltb_ge _ 0)) by lia.
  apply wp_bind. eapply wp_blk_read; [exact S3|lia|lia|exact Hlp| |].
  2:{ intros w4 h' Hnf S4. simpl. eapply wp_free_ret; [exact S4|]. auto. }
  intros w4 S4. simpl.
  wp_step. eapply wp_deref; [exact Stp|]. wp_step. eapply wp_deref; [exact Ep|].
  wp_step. eapply wp_deref; [exact Szp|]. apply wp_bind.
  eapply wp_calloc; [exact S4| |].
  2:{ intros w5 Hnf S5. eapply wp_free_ret; [exact S5|]. auto. }
  intros w5 a0 S5 Ha0. apply wp_bind. rewrite s64_id by lia.
  eapply wp_blk_read; [exact S5|lia|lia|exact Harr| |].
  2:{ intros w6 a' Hnf S6. simpl. eapply wp_free2_ret; [exact S6|]. auto. }
  intros w6 S6. simpl. apply wp_bind. eapply wp_crc32; [apply slice_full; lia|].
  wp_step. eapply wp_deref; [exact Hcrc|]. fold (crc arr). rewrite Z.eqb_refl. simpl.
  apply wp_bind. eapply wp_blk_read; [exact S6|lia|lia|by rewrite Hll; exact Hls| |].
  2:{ intros w7 h' Hnf S7. simpl. eapply wp_free2_ret; [exact S7|]. auto. }
  intros w7 S7. simpl. destruct Ws as (_ & _ & n & Hn & Hn0).
  wp_step. eapply wp_deref; [exact Hn|]. wp_step. eapply wp_deref; [exact Sts|].
  apply wp_bind.
  assert (Hstep : wp (if decide (boot = BACKUP_BOOT) then deref (gpt_boot_chain_swap arr (g_sz g))
                      else mret (0, arr)) (fun p w' => p = (r, arr') /\ w' = w7) w7).
  { destruct boot; simpl in *; [injection Hchain as <- <-; by apply wp_ret|].
    eapply wp_deref; [exact Hchain|done]. }
  eapply wp_conseq; [exact Hstep|]. intros p w' [-> ->]. clear Hstep. cbv beta iota.
  destruct (Z.eqb_spec r 0) as [->|Hr]; simpl.
  2:{ eapply wp_free2_ret; [exact S7|]. auto. }
  unfold reheader, seal in Hre.
  destruct (PUT_4_BYTES hs PARTITION_CRC_OFFSET (crc arr')) as [h1|] eqn:E1; [|done]. simpl in Hre.
  rewrite (frame_GET_4 _ _ _ _ (PUT_4_BYTES_frame _ _ _ _ E1)) in Hre by ranges.
  rewrite Hn in Hre. simpl in Hre.
  destruct (PUT_4_BYTES h1 HEADER_CRC_OFFSET 0) as [h2|] eqn:E2; [|done]. simpl in Hre.
  destruct (slice h2 0 n) as [e|] eqn:E3; [|done]. simpl in Hre.
  apply wp_bind. eapply wp_crc32; [apply slice_full; lia|]. fold (crc arr').
  wp_step. eapply wp_deref; [exact E1|]. wp_step. eapply wp_deref; [exact E2|].
  apply wp_bind. eapply wp_crc32; [exact E3|]. fold (crc e).
  wp_step. eapply wp_deref; [exact Hre|]. apply wp_bind.
  assert (Hlh : Z.of_nat (length hs') = bs).
  { pose proof (proj1 (PUT_4_BYTES_frame _ _ _ _ E1)). pose proof (proj1 (PUT_4_BYTES_frame _ _ _ _ E2)).
    pose proof (proj1 (PUT_4_BYTES_frame _ _ _ _ Hre)). lia. }
  rewrite <- Hlh at 2. eapply wp_blk_write; [exact S7|lia|exact Hdh| |].
  2:{ intros w8 d1 s1 Hnf S8 Ht Hts. cbv iota beta. simpl. wp_step. eapply wp_free2_ret; [exact S8|].
      intros w9 S9. eapply (H3 w9 d1 s1); [done..|].
      assert (Hb : forall x, torn bs d (Z.of_nat (length d) - bs) hs' x -> x = d \/ x = dh \/ torn bs dh (g_ss g) arr' x).
      { intros x Hx. eapply torn_block in Hx; [|lia|exact Hlh|exact Hdh]. tauto. }
      constructor; [by apply Hb|]. eapply Forall_impl; [exact Hts|done]. }
  intros w8 S8. simpl. apply wp_bind. rewrite s64_id by lia.
  replace (g_n g) with (Z.of_nat (length arr')) by lia.
  eapply wp_blk_write; [exact S8|lia|exact Hdn| |].
  - intros w9 S9. simpl. eapply wp_free2_ret; [exact S9|]. intros w10 S10.
    apply H2; [done|]. by rewrite <- app_assoc in S10.
  - intros w9 d1 s1 Hnf S9 Ht Hts. simpl. eapply wp_free2_ret; [exact S9|]. intros w10 S10.
    eapply (H3 w10 d1 (dh :: s1)); [done| |].
    + by rewrite <- app_assoc in S10.
    + constructor; [by right; right|]. constructor; [by right; left|].
      eapply Forall_impl; [exact Hts|]. intros x Hx. by right; right.
Qed.
End chain.
End exec.
