(* ===== verification/GptUpdate.v ===== *)
(** * The fail-safe update

    [prepare_partitions] keeps, after every single write, a partition table the
    device can boot from; and what a fault-free update cycle does. *)
From S2P Require Import Prelude Bytes BlockDev UfsBsg GptUtils GptSwap GptSpec GptExec.

Section update.
Context `{E : Env} (L : EnvLaws E).

(** ** Effect of the writes on the invariant *)
Section writes.
Context (g : geometry) (Hg : geometry_ok g).

(** The signature of one header is set or cleared. *)
Lemma restate_inv d hp hs gpt state h' :
  layout g d hp hs -> sealed hp -> sealed hs -> arr_ok d (g_bs g) hp ->
  restate (match gpt with PRIMARY_GPT => hp | SECONDARY_GPT => hs end) state = Some h' ->
  exists d', splice d (off_of gpt d (g_bs g)) h' = Some d' /\
    frame [(off_of gpt d (g_bs g), g_bs g)] d d' /\
    let hp' := (with_header gpt h' hp hs).1 in
    let hs' := (with_header gpt h' hp hs).2 in
    layout g d' hp' hs' /\ sealed hp' /\ sealed hs' /\ arr_ok d' (g_bs g) hp' /\
    (sig_ok h' <-> state = GPT_OK) /\
    (arr_ok d (g_bs g) hs -> arr_ok d' (g_bs g) hs').
Proof.
  intros Hlay Sp Ss Ap Hre.
  assert (Hhl : hdr_layout g (start_of g gpt) (match gpt with PRIMARY_GPT => hp | SECONDARY_GPT => hs end))
    by (destruct gpt; apply Hlay).
  destruct (restate_spec _ _ state (hl_wf _ _ _ Hhl)) as (h1 & Hre1 & F & Sh & Hsig).
  rewrite Hre in Hre1. injection Hre1 as <-.
  assert (Hh' : hdr_layout g (start_of g gpt) h') by (eapply hdr_layout_frame; [exact F|ranges..|done]).
  destruct (write_header _ _ _ _ gpt h' Hg Hlay Hh') as (d' & Hd' & Fd & Hlay').
  exists d'. split; [done|]. split; [done|]. cbv zeta. split; [done|].
  pose proof Hg as [Hg1 Hg2 Hg3 Hg4 Hg5 Hg6 Hg7 Hg8]. pose proof (lay_len _ _ _ _ Hlay) as Hlen.
  assert (Hdev : forall h, hdr_layout g (g_ps g) h \/ hdr_layout g (g_ss g) h ->
    arr_ok d (g_bs g) h -> arr_ok d' (g_bs g) h).
  { intros h Hh Ha. destruct Hh as [Hh|Hh]; (eapply arr_ok_dev; [exact Hh|exact Fd| |done]);
      destruct gpt; simpl; rewrite ?Hlen; ranges. }
  assert (Hhdr : forall h0, arr_ok d (g_bs g) h0 -> frame [(0, 9); (16, 4)] h0 h' -> arr_ok d (g_bs g) h').
  { intros h0 Ha F0. eapply arr_ok_hdr; [exact F0|ranges|done]. }
  destruct gpt; simpl in *; split_and!; try done.
  - apply Hdev; [by left|]. by eapply Hhdr.
  - intros As. apply Hdev; [right; apply Hlay|done].
  - apply Hdev; [left; apply Hlay|done].
  - intros As. apply Hdev; [by right|]. by eapply Hhdr.
Qed.

(** The backup header is rewritten for the array [a], and the array written,
    perhaps only in part. *)
Lemma reheader_inv d hp hs a hs' :
  layout g d hp hs -> sealed hp -> arr_ok d (g_bs g) hp -> Z.of_nat (length a) = g_n g ->
  reheader hs a = Some hs' ->
  exists dh dn, splice d (off_of SECONDARY_GPT d (g_bs g)) hs' = Some dh /\
    splice dh (g_ss g) a = Some dn /\
    sealed hs' /\ (sig_ok hs <-> sig_ok hs') /\ layout g dn hp hs' /\
    arr_ok dn (g_bs g) hs' /\ slice dn (g_ss g) (g_n g) = Some a /\
    slice dn (g_ps g) (g_n g) = slice d (g_ps g) (g_n g) /\
    (forall x, x = dh \/ torn (g_bs g) dh (g_ss g) a x -> layout g x hp hs' /\ arr_ok x (g_bs g) hp) /\
    arr_ok dn (g_bs g) hp.
Proof.
  intros Hlay Sp Ap Hla Hre.
  destruct (reheader_spec _ _ a (hl_wf _ _ _ (lay_phs _ _ _ _ Hlay))) as (h1 & Hre1 & F & Sh & Hc).
  rewrite Hre in Hre1. injection Hre1 as <-.
  assert (Hh' : hdr_layout g (g_ss g) hs') by (eapply hdr_layout_frame; [exact F|ranges..|apply Hlay]).
  destruct (write_header _ _ _ _ SECONDARY_GPT hs' Hg Hlay Hh') as (dh & Hdh & Fh & Hlayh). simpl in Hlayh.
  destruct (write_backup_array _ _ _ _ a Hg Hlayh ltac:(lia)) as (dn & Hdn & Fn & Hlayn).
  pose proof Hg as [Hg1 Hg2 Hg3 Hg4 Hg5 Hg6 Hg7 Hg8]. pose proof (lay_len _ _ _ _ Hlay) as Hlen.
  simpl in *. rewrite Hlen in Fh.
  assert (Aph : arr_ok dh (g_bs g) hp) by (eapply arr_ok_dev; [apply Hlay|exact Fh|ranges|done]).
  assert (Haa : slice dn (g_ss g) (g_n g) = Some a) by (rewrite <- Hla; by eapply slice_splice_same).
  exists dh, dn. split; [done|]. split; [done|]. split; [done|]. split.
  { split; apply sig_ok_frame with (ws := [(88, 4); (16, 4)]); try done; try ranges.
    destruct F as [Hl Hf]. split; [done|]. intros i Hi. symmetry. by apply Hf. }
  split; [done|]. split; [by eapply arr_ok_intro|]. split; [done|]. split.
  { rewrite (frame_slice _ _ _ _ _ Fn) by ranges. apply (frame_slice _ _ _ _ _ Fh). ranges. }
  assert (Hap : arr_ok dn (g_bs g) hp) by (eapply arr_ok_dev; [apply Hlay|exact Fn|ranges|done]).
  split; [|done].
  intros x [->|(k & Hk & _ & Hx)]; [done|].
  destruct (write_backup_array _ _ _ _ (take (Z.to_nat k) a) Hg Hlayh) as (x' & Hx' & Fx & Hlayx).
  { rewrite length_take. lia. }
  rewrite Hx in Hx'. injection Hx' as <-. split; [done|].
  eapply arr_ok_dev; [apply Hlay|exact Fx|ranges|done].
Qed.
End writes.

(** ** The boot LUN switch touches no block device *)

(** A defined computation that leaves the devices and the heap alone. *)
Definition quiet {A} (m : CM World A) : Prop :=
  forall w, exists a w', m w = Some (a, w') /\ devs w' = devs w /\ hist w' = hist w /\ blocks w' = blocks w.

Lemma quiet_ret {A} (a : A) : quiet (mret a).
Proof. intros w. by eexists _, _. Qed.
Lemma quiet_bind {A B} (m : CM World A) (f : A -> CM World B) :
  quiet m -> (forall a, quiet (f a)) -> quiet (m ≫= f).
Proof.
  intros Hm Hf w. destruct (Hm w) as (a & w1 & H1 & D1 & I1 & B1).
  destruct (Hf a w1) as (c & w2 & H2 & D2 & I2 & B2).
  exists c, w2. unfold mbind, cm_bind. rewrite H1. split_and!; [done|congruence..].
Qed.
Lemma quiet_tick : quiet tick.
Proof. intros w. by eexists _, _. Qed.
Lemma quiet_get : quiet get.
Proof. intros w. by eexists _, _. Qed.
Lemma quiet_modify f :
  (forall w, devs (f w) = devs w /\ hist (f w) = hist w /\ blocks (f w) = blocks w) -> quiet (modify f).
Proof. intros H w. eexists _, _. split; [done|]. apply H. Qed.

Ltac quiet := repeat (cbv beta zeta; first
  [ apply quiet_ret | apply quiet_tick | apply quiet_get | by apply quiet_modify
  | apply quiet_bind; [|intros ?] | case_match | assumption ]).

Lemma quiet_set_boot_lun lun : quiet (set_boot_lun lun).
Proof.
  unfold set_boot_lun, get_ufs_bsg_dev, ufs_bsg_dev_open, ufs_query_attr, ufs_bsg_ioctl,
    ufs_bsg_dev_close, sys_ok, close. quiet.
Qed.

Lemma quiet_switch_xbl is_ufs chain : quiet (switch_xbl is_ufs chain).
Proof.
  pose proof quiet_set_boot_lun.
  unfold switch_xbl, gpt_utils_set_xbl_boot_partition, get_scsi_node_from_bootdevice, sys_ok.
  quiet; auto.
Qed.

Lemma wp_quiet {A} (m : CM World A) fd w0 d s b w (Q : A -> World -> Prop) :
  quiet m -> steps fd d s b w0 w -> (forall w' r, steps fd d s b w0 w' -> Q r w') -> wp m Q w.
Proof.
  intros Hm Hst HQ. destruct (Hm w) as (a & w' & H & D & I & B). eapply wp_intro; [done|].
  apply HQ. destruct Hst as (?&?&?). split_and!; congruence.
Qed.

(** ** One stage *)
Section stage.
Context (fd : string) (Hio : io_blocks fd).
Abbreviation bs := (u32 (env_blksz fd)).
Context (g : geometry) (Hg : geometry_ok g) (Hgbs : g_bs g = bs).

(** Since [w0]: every content the device had satisfies the invariant. *)
Definition kept (w0 w : World) : Prop :=
  exists d snaps b, steps fd d snaps b w0 w /\ update_inv g d /\ Forall (update_inv g) snaps.

Lemma kept_intro w0 w d s b :
  steps fd d s b w0 w -> update_inv g d -> Forall (update_inv g) s -> kept w0 w.
Proof. intros. by exists d, s, b. Qed.

(** Reading off a state. *)
Lemma wp_state w0 d hp hs s b w gpt (Q : Z * gpt_state -> World -> Prop) :
  steps fd d s b w0 w -> layout g d hp hs ->
  (forall w', steps fd d s b w0 w' -> Q (0, state_of (match gpt with PRIMARY_GPT => hp | _ => hs end)) w') ->
  (forall w', ~ no_faults -> steps fd d s b w0 w' -> Q (-1, GPT_OK) w') ->
  wp (gpt_get_state fd gpt) Q w.
Proof.
  intros Hst Hlay H1 H2. destruct (layout_off _ _ _ _ gpt Hg Hlay) as [Hs _].
  rewrite Hgbs in Hs. pose proof (go_bs _ Hg).
  eapply wp_gpt_get_state; [done..|exact Hst|lia| |exact Hs|done|done].
  rewrite <- Hgbs. destruct gpt; [apply (lay_php _ _ _ _ Hlay)|apply (lay_phs _ _ _ _ Hlay)].
Qed.

(** Setting or clearing a signature. *)
Lemma wp_restate w0 d hp hs s b w gpt state (Q : Z -> World -> Prop) :
  steps fd d s b w0 w -> layout g d hp hs -> sealed hp -> sealed hs -> arr_ok d (g_bs g) hp ->
  state <> GPT_BAD_CRC ->
  (forall w' d' h', let hp' := (with_header gpt h' hp hs).1 in
    let hs' := (with_header gpt h' hp hs).2 in
    steps fd d' (s ++ [d']) (b + 1) w0 w' ->
    layout g d' hp' hs' -> sealed hp' -> sealed hs' -> arr_ok d' (g_bs g) hp' ->
    (sig_ok h' <-> state = GPT_OK) -> (arr_ok d (g_bs g) hs -> arr_ok d' (g_bs g) hs') ->
    frame [(off_of gpt d (g_bs g), g_bs g)] d d' ->
    Q 0 w' /\
    (forall w'' d1 s1, ~ no_faults -> steps fd d1 (s ++ s1) b w0 w'' ->
       Forall (fun x => x = d \/ x = d') (d1 :: s1) -> Q (-1) w'')) ->
  wp (gpt_set_state fd gpt state) Q w.
Proof.
  intros Hst Hlay Sp Ss Ap Hne HQ.
  destruct (layout_off _ _ _ _ gpt Hg Hlay) as [Hs _].
  assert (Hw : hdr_wf (g_bs g) (match gpt with PRIMARY_GPT => hp | _ => hs end))
    by (destruct gpt; [apply (lay_php _ _ _ _ Hlay)|apply (lay_phs _ _ _ _ Hlay)]).
  destruct (restate_spec _ _ state Hw) as (h' & Hre & _).
  destruct (restate_inv g Hg _ _ _ _ _ _ Hlay Sp Ss Ap Hre) as
    (d' & Hd' & Hf & Hlay' & Sp' & Ss' & Ap' & Hsig & Has).
  pose proof (go_bs _ Hg) as Hb. rewrite Hgbs in Hw, Hs, Hd', Hb.
  (* the oracle either completes the write or not; both follow from [HQ] *)
  assert (Hex : exists w1, steps fd d' (s ++ [d']) (b + 1) w0 w1).
  { exists (set_blocks (fun _ => blocks w0 + (b + 1)) (set_hist (fun _ => hist w0 ++ ((fun d => (fd, d)) <$> (s ++ [d'])))
      (set_devs (fun _ => <[fd := d']> (devs w0)) w0))). by split_and!. }
  eapply wp_gpt_set_state; [done..|exact Hst|lia|exact Hw|exact Hs|done|exact Hre|exact Hd'| |].
  - intros w' S. by eapply HQ.
  - intros w' d1 s1 Hnf S1 Hall. destruct Hex as [w1 S]. by eapply HQ.
Qed.

(** Rewriting the backup table. *)
Definition backup_rewritten (hp hs' x : buf) : Prop :=
  layout g x hp hs' /\ arr_ok x (g_bs g) hp.

Lemma wp_chain w0 d hp hs s b w boot arr (Q : Z -> World -> Prop) :
  steps fd d s b w0 w -> layout g d hp hs -> sealed hp -> arr_ok d (g_bs g) hp ->
  slice d (g_ps g) (g_n g) = Some arr ->
  (forall w' r, r <> 0 -> chain_array boot (g_sz g) arr = Some (r, arr) ->
     steps fd d s b w0 w' -> Q r w') ->
  (forall w' arr' hs' dh dn, chain_array boot (g_sz g) arr = Some (0, arr') ->
     steps fd dn (s ++ [dh; dn]) b w0 w' ->
     sealed hs' -> (sig_ok hs <-> sig_ok hs') -> backup_rewritten hp hs' dh -> backup_rewritten hp hs' dn ->
     arr_ok dn (g_bs g) hs' -> slice dn (g_ss g) (g_n g) = Some arr' ->
     slice dn (g_ps g) (g_n g) = Some arr -> Q 0 w') ->
  (forall w' d1 s1 hs', ~ no_faults -> steps fd d1 (s ++ s1) b w0 w' -> sealed hs' ->
     Forall (fun x => x = d \/ backup_rewritten hp hs' x) (d1 :: s1) -> Q (-1) w') ->
  wp (gpt2_set_boot_chain fd boot) Q w.
Proof.
  intros Hst Hlay Sp Ap Harr H1 H2 H3.
  destruct (chain_array_spec g Hg d arr Harr boot) as (r & arr' & Hch & Hla & Hr01 & Hnb).
  assert (Hcrc : GET_4_BYTES hp PARTITION_CRC_OFFSET = Some (crc arr)).
  { destruct Ap as (st & n & a & A1 & A2 & A3 & A4).
    rewrite (hl_start _ _ _ (lay_php _ _ _ _ Hlay)) in A1. injection A1 as <-.
    rewrite (hl_size _ _ _ (lay_php _ _ _ _ Hlay)) in A2. injection A2 as <-. congruence. }
  pose proof (slice_length _ _ _ _ Harr) as Hl. pose proof (go_n _ Hg).
  destruct (reheader_spec _ _ arr' (hl_wf _ _ _ (lay_phs _ _ _ _ Hlay))) as (hs' & Hre & _).
  destruct (reheader_inv g Hg _ _ _ arr' hs' Hlay Sp Ap ltac:(lia) Hre) as
    (dh & dn & Hdh & Hdn & Sh & Hsig & Hlayn & Aan & Han & Hpn & Hx & Apn).
  rewrite Hgbs in Hdh.
  eapply wp_gpt2_set_boot_chain; [done..|exact Hst|exact Hlay|exact Harr|exact Hcrc|exact Hch|exact Hre|exact Hdh|exact Hdn| | |].
  - intros w' Hr S. apply H1; [done| |done]. destruct boot; simpl in *; [naive_solver|].
    assert (r = 1) as -> by tauto. rewrite Hch. f_equal. f_equal.
    by eapply gpt_boot_chain_swap_fail; [apply (array_entries g Hg d arr Harr)|].
  - intros w' -> S. eapply H2; try done; [apply Hx; by left|by rewrite Hpn].
  - intros w' d1 s1 Hnf S Hall. apply (H3 w' d1 s1 hs'); [done..|].
    eapply Forall_impl; [exact Hall|]. intros x [->|[->|Ht]]; [by left|right..].
    + apply Hx. by left.
    + apply Hx. right. by rewrite Hgbs.
Qed.

(** ** Crash safety *)
Lemma inv_primary d hp hs :
  layout g d hp hs -> sealed hp -> sealed hs -> arr_ok d (g_bs g) hp -> sig_ok hp -> update_inv g d.
Proof. intros. exists hp, hs. by split_and!; try done; left. Qed.

Lemma kept_trans w0 d s b w1 w2 :
  steps fd d s b w0 w1 -> Forall (update_inv g) s -> kept w1 w2 -> kept w0 w2.
Proof.
  intros S1 F1 (d2 & s2 & b2 & S2 & I2 & F2).
  exists d2, (s ++ s2), (b + b2). split; [by eapply steps_trans|]. split; [done|].
  by apply Forall_app.
Qed.

(** Setting a signature never hurts; clearing one keeps the invariant when the
    other table is complete. *)
Lemma kept_restate w d hp hs gpt state :
  devs w !! fd = Some d -> layout g d hp hs -> sealed hp -> sealed hs -> arr_ok d (g_bs g) hp ->
  state <> GPT_BAD_CRC -> update_inv g d ->
  (match gpt with PRIMARY_GPT => sig_ok hs /\ arr_ok d (g_bs g) hs | SECONDARY_GPT => sig_ok hp end
   \/ (state = GPT_OK /\ gpt = PRIMARY_GPT)) ->
  wp (gpt_set_state fd gpt state) (fun _ => kept w) w.
Proof.
  intros Hd Hlay Sp Ss Ap Hne Hinv Hok.
  eapply wp_restate; [by apply steps_refl|done..|].
  intros w' d' h' hp' hs' S Hlay' Sp' Ss' Ap' Hsig Has _.
  assert (Hinv' : update_inv g d').
  { exists hp', hs'. split_and!; try done. destruct gpt; simpl in *.
    - destruct Hok as [[Hs Hsa]|[Hst _]]; [right; by auto|left; by apply Hsig].
    - destruct Hok as [?|[_ ?]]; [by left|done]. }
  split; [eapply kept_intro; [exact S|done|by constructor]|].
  intros w'' d1 s1 Hnf S' Hall.
  assert (Hall' : Forall (update_inv g) (d1 :: s1)) by (eapply Forall_impl; [exact Hall|]; naive_solver).
  apply Forall_cons in Hall' as [? ?]. by eapply kept_intro.
Qed.

Lemma update_stage_kept w d is_ufs hp hs stage :
  devs w !! fd = Some d ->
  layout g d hp hs -> sealed hp -> sealed hs -> arr_ok d (g_bs g) hp ->
  (sig_ok hp \/ sig_ok hs /\ arr_ok d (g_bs g) hs) ->
  internal_stage_of (state_of hp) (state_of hs) = Some stage ->
  wp (update_stage fd is_ufs stage) (fun _ => kept w) w.
Proof.
  intros Hd Hlay Sp Ss Ap Hor Hstage.
  assert (Hinv : update_inv g d) by by exists hp, hs.
  pose proof (hl_wf _ _ _ (lay_php _ _ _ _ Hlay)) as Wp.
  pose proof (hl_wf _ _ _ (lay_phs _ _ _ _ Hlay)) as Ws.
  assert (Hsp : state_of hp = GPT_OK <-> sig_ok hp) by (rewrite (state_of_OK _ _ Wp); tauto).
  assert (Hss : state_of hs = GPT_OK <-> sig_ok hs) by (rewrite (state_of_OK _ _ Ws); tauto).
  destruct Ap as (st & n & arr & A1 & A2 & A3 & A4).
  assert (Harr : slice d (g_ps g) (g_n g) = Some arr).
  { rewrite (hl_start _ _ _ (lay_php _ _ _ _ Hlay)) in A1. injection A1 as <-.
    rewrite (hl_size _ _ _ (lay_php _ _ _ _ Hlay)) in A2. by injection A2 as <-. }
  assert (Ap : arr_ok d (g_bs g) hp) by (by exists st, n, arr). clear A1 A2 A3 A4.
  assert (Hself : forall w' r, steps fd d [] 0 w w' -> (fun _ : Z => kept w) r w').
  { intros w' _ S. by eapply kept_intro. }
  (* a rewrite of the backup table while the primary table is complete *)
  assert (Hchain : forall boot w1 (Q : Z -> World -> Prop), sig_ok hp -> steps fd d [] 0 w w1 ->
    (forall w' r, r <> 0 -> (boot = NORMAL_BOOT -> r < 0) -> kept w w' -> Q r w') ->
    (forall w' dn s hs', steps fd dn s 0 w w' -> Forall (update_inv g) s -> update_inv g dn ->
       layout g dn hp hs' -> sealed hs' -> arr_ok dn (g_bs g) hp -> arr_ok dn (g_bs g) hs' ->
       (sig_ok hs <-> sig_ok hs') -> Q 0 w') ->
    wp (gpt2_set_boot_chain fd boot) Q w1).
  { intros boot w1 Q Hsig S1 HQ1 HQ2.
    assert (Hbr : forall x hs', sealed hs' -> backup_rewritten hp hs' x -> update_inv g x).
    { intros x hs' Hse [Hl Ha]. by eapply inv_primary. }
    eapply wp_chain; [exact S1|done..|exact Harr| | |].
    - intros w' r Hr Hc S. apply HQ1; [done|intros ->; simpl in Hc; by injection Hc as <-|].
      by eapply kept_intro.
    - intros w' arr' hs' dh dn _ S Hse Hsg Hbh Hbn Ha _ _.
      eapply HQ2; [exact S| |by eapply Hbr|apply Hbn|done|apply Hbn|done|done].
      simpl. repeat constructor; by eapply Hbr.
    - intros w' d1 s1 hs' Hnf S Hse Hall. apply HQ1; [done|done|].
      assert (Hall' : Forall (update_inv g) (d1 :: s1)).
      { eapply Forall_impl; [exact Hall|]. intros x [->|Hx]; [done|]. by eapply Hbr. }
      apply Forall_cons in Hall' as [? ?]. by eapply kept_intro. }
  destruct (state_of hp) eqn:Ehp, (state_of hs) eqn:Ehs; vm_compute in Hstage;
    try discriminate Hstage; injection Hstage as <-; unfold update_stage; simpl.
  - (* MAIN: both tables complete headers *)
    apply wp_bind. eapply wp_quiet; [apply quiet_switch_xbl|by apply steps_refl|].
    intros w1 r S1. destruct (negb _); [apply wp_ret; by apply Hself|].
    apply wp_bind. eapply Hchain; [by apply Hsp|exact S1| |].
    + intros w2 r2 Hr2 _ HK. rewrite (proj2 (Z.eqb_neq r2 0) Hr2). simpl. by apply wp_ret.
    + intros w2 dn s hs' S2 Fs In Hl Hse Apn Asn Hsg. simpl.
      eapply wp_conseq; [eapply kept_restate; [by eapply steps_dev|exact Hl|done..|]|].
      * left. split; [|done]. by apply Hsg, Hss.
      * intros ? w3 HK. by eapply kept_trans.
  - (* FINALIZE *)
    assert (Hsg : sig_ok hp) by by apply Hsp.
    apply wp_bind. eapply Hchain; [done|by apply steps_refl| |].
    + intros w2 r2 Hr2 Hneg HK. rewrite (proj2 (Z.ltb_lt r2 0)) by auto. by apply wp_ret.
    + intros w2 dn s hs' S2 Fs In Hl Hse Apn Asn Hsg'. simpl.
      eapply wp_conseq; [eapply kept_restate; [by eapply steps_dev|exact Hl|done..|by left]|].
      intros ? w3 HK. by eapply kept_trans.
  - (* BACKUP: the primary signature is cleared *)
    assert (Hnp : ~ sig_ok hp) by by rewrite <- Hsp.
    destruct Hor as [?|[Hsh Hsa]]; [done|].
    apply wp_bind. eapply wp_quiet; [apply quiet_switch_xbl|by apply steps_refl|].
    intros w1 r S1. destruct (negb _); [apply wp_ret; by apply Hself|].
    apply wp_bind. eapply wp_restate; [exact S1|done..|].
    intros w2 d2 h2 hp' hs' S2 Hl2 Sp2 Ss2 Ap2 Hsig2 Has2 _. simpl in *.
    assert (Hinv2 : update_inv g d2).
    { eapply inv_primary; [exact Hl2|done..|]. by apply Hsig2. }
    split.
    + eapply wp_conseq; [eapply (kept_restate w2 d2 hp' hs'); try done|].
      * by eapply steps_dev.
      * left. by apply Hsig2.
      * intros ? w3 HK. eapply kept_trans; [exact S2|by constructor|done].
    + intros w3 d1 s1 Hnf S3 Hall. apply wp_ret.
      assert (Hall' : Forall (update_inv g) (d1 :: s1)) by (eapply Forall_impl; [exact Hall|]; naive_solver).
      apply Forall_cons in Hall' as [? ?]. by eapply kept_intro.
Qed.

(** ** The update as a state machine

    What the two tables look like: their signatures, and the boot chain of the
    backup array. *)
Record table_state := TableState { t_prim : bool; t_sec : bool; t_chain : boot_chain }.

Definition stage_of (t : table_state) : option Z :=
  match t_prim t, t_sec t with
  | true, true => Some UPDATE_MAIN
  | false, true => Some UPDATE_BACKUP
  | true, false => Some UPDATE_FINALIZE
  | false, false => None
  end.

(** [hasbak]: the array has a partition with a backup. *)
Definition stage_step (hasbak : bool) (stage : Z) (t : table_state) : Z * table_state :=
  match stage_of t with
  | None => (-1, t)
  | Some i =>
      if stage =? i - 1 then (0, t) else
      if negb (stage =? i) then (-1, t) else
      (0, if stage =? UPDATE_MAIN then
            if hasbak then TableState false true BACKUP_BOOT else t
          else if stage =? UPDATE_BACKUP then TableState true false (t_chain t)
          else TableState true true NORMAL_BOOT)
  end.

(** [d] shows the state [t]; [arr] is the entry array, [arr'] the one with the
    partitions and their backups exchanged. *)
Inductive shows (arr arr' : buf) (d : buf) (t : table_state) : Prop :=
| Shows (hp hs : buf) :
    layout g d hp hs -> sealed hp /\ sealed hs -> arr_ok d (g_bs g) hp /\ arr_ok d (g_bs g) hs ->
    slice d (g_ps g) (g_n g) = Some arr ->
    slice d (g_ss g) (g_n g) = Some (match t_chain t with BACKUP_BOOT => arr' | NORMAL_BOOT => arr end) ->
    (sig_ok hp <-> t_prim t = true) /\ (sig_ok hs <-> t_sec t = true) ->
    shows arr arr' d t.

(** Without faults the primary array is exchanged as the model says. *)
Lemma wp_chain_exact w d t arr arr' r boot w0 b s (Q : Z -> World -> Prop) :
  no_faults -> steps fd d s b w0 w -> shows arr arr' d t ->
  chain_array BACKUP_BOOT (g_sz g) arr = Some (r, arr') ->
  (boot = BACKUP_BOOT -> r <> 0 -> forall w', steps fd d s b w0 w' -> Q r w') ->
  (forall w' d' s', (boot = BACKUP_BOOT -> r = 0) -> steps fd d' s' b w0 w' ->
     shows arr arr' d' (TableState (t_prim t) (t_sec t) boot) -> Q 0 w') ->
  wp (gpt2_set_boot_chain fd boot) Q w.
Proof.
  intros Hnf Hst [hp hs Hlay [Sp Ss] [Ap As] Hp Hs [Gp Gs]] Hch H1 H2.
  eapply wp_chain; [exact Hst|done..| | |].
  - intros w' r' Hr Hc S. destruct boot; simpl in Hc; [by injection Hc as <-|].
    simpl in Hch. rewrite Hch in Hc. injection Hc as ->. by apply H1.
  - intros w' a' hs' dh dn Hc S Sh Hsg _ [Hl Hap] Has Hna Hnp.
    assert (Ha' : a' = match boot with BACKUP_BOOT => arr' | NORMAL_BOOT => arr end /\ (boot = BACKUP_BOOT -> r = 0)).
    { destruct boot; simpl in Hc; [by injection Hc as <-|]. simpl in Hch. rewrite Hch in Hc.
      by injection Hc as -> ->. }
    destruct Ha' as [-> Hr]. eapply H2; [done|exact S|].
    exists hp hs'; try done. split; [done|]. simpl. by rewrite <- Hsg.
  - intros. done.
Qed.

Lemma wp_restate_exact w d t arr arr' gpt (v : bool) w0 b s (Q : Z -> World -> Prop) :
  no_faults -> steps fd d s b w0 w -> shows arr arr' d t ->
  (forall w' d' s', steps fd d' s' (b + 1) w0 w' ->
     shows arr arr' d' (match gpt with PRIMARY_GPT => TableState v (t_sec t) (t_chain t)
                        | SECONDARY_GPT => TableState (t_prim t) v (t_chain t) end) -> Q 0 w') ->
  wp (gpt_set_state fd gpt (if v then GPT_OK else GPT_BAD_SIGNATURE)) Q w.
Proof.
  intros Hnf Hst [hp hs Hlay [Sp Ss] [Ap As] Hp Hs [Gp Gs]] HQ.
  pose proof Hg as [Hg1 Hg2 Hg3 Hg4 Hg5 Hg6 Hg7 Hg8]. pose proof (lay_len _ _ _ _ Hlay) as Hlen.
  eapply wp_restate; [exact Hst|done..|by destruct v|].
  intros w' d' h' hp' hs' S Hl Sp' Ss' Ap' Hsig Has F. split; [|done].
  assert (Hv : sig_ok h' <-> v = true) by (rewrite Hsig; by destruct v).
  eapply HQ; [exact S|]. subst hp' hs'.
  destruct gpt; simpl in *;
    (econstructor; [exact Hl|done|by split; auto|..|by split]);
    by rewrite (frame_slice _ _ _ _ _ F) by (rewrite ?Hlen; ranges).
Qed.

(** Reading both states. *)
Lemma wp_prepare_on w0 d hp hs s b w is_ufs stage (Q : Z -> World -> Prop) :
  steps fd d s b w0 w -> layout g d hp hs ->
  (forall w' r, ~ no_faults -> steps fd d s b w0 w' -> Q r w') ->
  (forall w', steps fd d s b w0 w' ->
     wp (match internal_stage_of (state_of hp) (state_of hs) with
         | None => mret (-1)
         | Some i => if stage =? i - 1 then mret 0 else if negb (stage =? i) then mret (-1) else
                     update_stage fd is_ufs stage
         end) Q w') ->
  wp (prepare_on fd is_ufs stage) Q w.
Proof.
  intros Hst Hlay H1 H2. unfold prepare_on. apply wp_bind.
  eapply wp_state; [exact Hst|exact Hlay| |intros; simpl; by apply wp_ret, H1].
  intros w1 S1. simpl. apply wp_bind.
  eapply wp_state; [exact S1|exact Hlay| |intros; simpl; by apply wp_ret, H1].
  intros w2 S2. simpl. by apply H2.
Qed.

Lemma update_inv_parts d hp hs :
  update_inv g d -> layout g d hp hs ->
  sealed hp /\ sealed hs /\ arr_ok d (g_bs g) hp /\ (sig_ok hp \/ sig_ok hs /\ arr_ok d (g_bs g) hs).
Proof.
  intros (hp' & hs' & Hl & ?) Hl'.
  pose proof (lay_hp _ _ _ _ Hl). pose proof (lay_hp _ _ _ _ Hl').
  pose proof (lay_hs _ _ _ _ Hl). pose proof (lay_hs _ _ _ _ Hl'). by simplify_eq.
Qed.

Lemma prepare_on_kept w d is_ufs stage :
  devs w !! fd = Some d -> update_inv g d -> wp (prepare_on fd is_ufs stage) (fun _ => kept w) w.
Proof.
  intros Hd Hinv. pose proof Hinv as (hp & hs & Hlay & _).
  destruct (update_inv_parts _ _ _ Hinv Hlay) as (Sp & Ss & Ap & Hor).
  assert (Hsame : forall w', steps fd d [] 0 w w' -> kept w w') by (intros; by eapply kept_intro).
  eapply wp_prepare_on; [by apply steps_refl|exact Hlay|auto|].
  intros w' S. destruct (internal_stage_of _ _) as [i|] eqn:Hi; [|apply wp_ret; auto].
  destruct (stage =? i - 1); [apply wp_ret; auto|].
  destruct (Z.eqb_spec stage i) as [->|]; simpl; [|apply wp_ret; auto].
  eapply wp_conseq; [eapply update_stage_kept; [by eapply steps_dev|exact Hlay|done..]|].
  intros ? w'' HK. by eapply kept_trans.
Qed.

(** The switch of the boot LUN in [w] fails with [v]: there is one on UFS devices. *)
Definition switch_failed (is_ufs : bool) (v : Z) : Prop :=
  is_ufs = true /\ v <> 0 /\ exists chain w1 w2, switch_xbl is_ufs chain w1 = Some (v, w2).
Lemma wp_switch_xbl is_ufs chain d s b w0 w (Q : Z -> World -> Prop) :
  steps fd d s b w0 w -> (forall w', steps fd d s b w0 w' -> Q 0 w') ->
  (forall v w', switch_failed is_ufs v -> steps fd d s b w0 w' -> Q v w') -> wp (switch_xbl is_ufs chain) Q w.
Proof.
  intros Hst H0 Hf. destruct (quiet_switch_xbl is_ufs chain w) as (v & w' & Hw & D & I & B). eapply wp_intro; [done|].
  assert (steps fd d s b w0 w') as Hst' by (destruct Hst as (?&?&?); split_and!; congruence).
  destruct (decide (v = 0)) as [->|Hv]; [by apply H0|]. apply Hf; [|done]. split; [|split; [done|by eauto]].
  destruct is_ufs; [done|]. by injection Hw as <- _.
Qed.
Ltac switch_fails Hfail :=
  let v := fresh in let w' := fresh in let Hv := fresh in let S := fresh in
  intros v w' Hv S; rewrite (proj2 (Z.eqb_neq v 0)) by apply Hv; simpl; apply wp_ret; by apply Hfail.
Lemma prepare_on_exact w d t arr arr' r is_ufs stage :
  no_faults -> devs w !! fd = Some d -> shows arr arr' d t ->
  chain_array BACKUP_BOOT (g_sz g) arr = Some (r, arr') -> r = 0 \/ r = 1 ->
  wp (prepare_on fd is_ufs stage) (fun v w' =>
    exists d' s b, steps fd d' s b w w' /\
      (v = (stage_step (r =? 0) stage t).1 /\ shows arr arr' d' (stage_step (r =? 0) stage t).2 \/
       switch_failed is_ufs v /\ shows arr arr' d' t)) w.
Proof.
  intros Hnf Hd Hsh Hch Hr. pose proof Hsh as [hp hs Hlay [Sp Ss] _ _ _ [Gp Gs]].
  pose proof (hl_wf _ _ _ (lay_php _ _ _ _ Hlay)) as Wp.
  pose proof (hl_wf _ _ _ (lay_phs _ _ _ _ Hlay)) as Ws.
  eapply wp_prepare_on; [by apply steps_refl|exact Hlay|done|]. intros w1 S1.
  assert (Hsame : forall v w', v = (stage_step (r =? 0) stage t).1 -> t = (stage_step (r =? 0) stage t).2 ->
    steps fd d [] 0 w w' -> exists d' s b, steps fd d' s b w w' /\
      (v = (stage_step (r =? 0) stage t).1 /\ shows arr arr' d' (stage_step (r =? 0) stage t).2 \/
       switch_failed is_ufs v /\ shows arr arr' d' t)).
  { intros v w' Hv Ht S. exists d, [], 0. split; [done|]. left. split; [done|]. by rewrite <- Ht. }
  assert (Hfail : forall v w' t', switch_failed is_ufs v -> steps fd d [] 0 w w' -> exists d' s b, steps fd d' s b w w' /\
      (v = 0 /\ shows arr arr' d' t' \/ switch_failed is_ufs v /\ shows arr arr' d' t)).
  { intros v w' t' Hv S. exists d, [], 0. auto. }
  assert (Hi : internal_stage_of (state_of hp) (state_of hs) = stage_of t).
  { rewrite (state_of_sealed _ _ Wp) in Sp. rewrite (state_of_sealed _ _ Ws) in Ss.
    rewrite <- (state_of_OK_sig _ _ Wp Sp) in Gp. rewrite <- (state_of_OK_sig _ _ Ws Ss) in Gs.
    unfold stage_of. destruct (t_prim t), (t_sec t), (state_of hp), (state_of hs); naive_solver. }
  rewrite Hi. unfold stage_step in *.
  destruct (stage_of t) as [i|] eqn:Et; [|apply wp_ret; by apply Hsame].
  destruct (stage =? i - 1); [apply wp_ret; by apply Hsame|].
  destruct (Z.eqb_spec stage i) as [->|]; simpl in *; [|apply wp_ret; by apply Hsame].
  assert (Hdone : forall w' d' s b t', steps fd d' s b w w' -> shows arr arr' d' t' ->
    t' = (if i =? 1 then if r =? 0 then TableState false true BACKUP_BOOT else t
          else if i =? 2 then TableState true false (t_chain t) else TableState true true NORMAL_BOOT) ->
    exists d' s b, steps fd d' s b w w' /\ (0 = 0 /\ shows arr arr' d'
      (if i =? 1 then if r =? 0 then TableState false true BACKUP_BOOT else t
          else if i =? 2 then TableState true false (t_chain t) else TableState true true NORMAL_BOOT) \/
      switch_failed is_ufs 0 /\ shows arr arr' d' t)).
  { intros w' d' s b t' S Sh ->. exists d', s, b. auto. }
  unfold stage_of in Et. destruct t as [[] [] ch]; simpl in *; try discriminate Et; injection Et as <-; unfold update_stage; simpl.
  - apply wp_bind. eapply wp_switch_xbl; [exact S1| |switch_fails Hfail].
    clear w1 S1. intros w1 S1. simpl. apply wp_bind.
    eapply wp_chain_exact; [done|exact S1|exact Hsh|exact Hch| |].
    + intros _ Hr0 w2 S2. assert (r = 1) as -> by tauto. simpl. apply wp_ret.
      by eapply Hdone; [exact S2|exact Hsh|].
    + intros w2 d2 s2 Hr0 S2 Sh2. rewrite (Hr0 eq_refl) in *. simpl.
      eapply (wp_restate_exact _ _ _ _ _ PRIMARY_GPT false); [done|exact S2|exact Sh2|].
      intros w3 d3 s3 S3 Sh3. by eapply Hdone.
  - apply wp_bind. eapply wp_chain_exact; [done|exact S1|exact Hsh|exact Hch|done|].
    intros w2 d2 s2 _ S2 Sh2. simpl.
    eapply (wp_restate_exact _ _ _ _ _ SECONDARY_GPT true); [done|exact S2|exact Sh2|].
    intros w3 d3 s3 S3 Sh3. by eapply Hdone.
  - apply wp_bind. eapply wp_switch_xbl; [exact S1| |switch_fails Hfail].
    clear w1 S1. intros w1 S1. simpl. apply wp_bind.
    eapply (wp_restate_exact _ _ _ _ _ PRIMARY_GPT true); [done|exact S1|exact Hsh|].
    intros w2 d2 s2 S2 Sh2. simpl.
    eapply (wp_restate_exact _ _ _ _ _ SECONDARY_GPT false); [done|exact S2|exact Sh2|].
    intros w3 d3 s3 S3 Sh3. by eapply Hdone.
Qed.
End stage.
End update.
