(* ===== verification/GptDisk.v ===== *)
(** * The [gpt_disk] handle

    Loading a disk, recomputing its checksums and committing it: rules for the
    calls, used by the boot control. *)
From S2P Require Import Prelude Bytes BlockDev UfsBsg GptUtils GptSwap GptSpec GptExec.

(** Heap blocks a handle owns, without the handle itself. *)
Definition owned {A} (o : option A) : Z := if o then 1 else 0.
Definition held (dk : gpt_disk) : Z :=
  owned (hdr dk) + owned (hdr_bak dk) + owned (pentry_arr dk) + owned (pentry_arr_bak dk).

Section disk.
Context `{E : Env} (L : EnvLaws E).
Context (fd : string) (Hio : io_blocks fd).
Abbreviation bs := (u32 (env_blksz fd)).
Context (g : geometry) (Hg : geometry_ok g) (Hgbs : g_bs g = bs).

Lemma wp_open w0 d s b w (Q : option string -> World -> Prop) :
  steps fd d s b w0 w ->
  (forall w', steps fd d s b w0 w' -> Q (Some fd) w') ->
  (forall w', ~ no_faults -> steps fd d s b w0 w' -> Q None w') ->
  wp (open_dev fd) Q w.
Proof.
  intros Hst H1 H2. pose proof (steps_dev _ _ _ _ _ _ Hst) as Hd.
  unfold open_dev, sys_ok, tick. wp_run. unfold wp, mbind, cm_bind, get. simpl.
  rewrite Hd. rewrite bool_decide_true by eauto. rewrite andb_true_r.
  destruct (env_ok (ticks w)) eqn:Eok; [by apply H1|]. apply H2; [|done].
  intros [Hok _]. by rewrite Hok in Eok.
Qed.

Lemma wp_close w0 d s b w (Q : unit -> World -> Prop) :
  steps fd d s b w0 w -> (forall w', steps fd d s b w0 w' -> Q tt w') -> wp close Q w.
Proof. intros Hst H. unfold close. wp_run. by apply H. Qed.

Lemma wp_close_ret {A} (r : A) w0 d s b w (Q : A -> World -> Prop) :
  steps fd d s b w0 w -> (forall w', steps fd d s b w0 w' -> Q r w') -> wp (_ ← close; mret r) Q w.
Proof. intros Hst H. apply wp_bind. eapply wp_close; [done|]. intros w' S. by apply wp_ret, H. Qed.

Lemma wp_block_size w0 d s b w (Q : Z -> World -> Prop) :
  steps fd d s b w0 w ->
  (forall w', steps fd d s b w0 w' -> Q bs w') ->
  (forall w', ~ no_faults -> steps fd d s b w0 w' -> Q 0 w') ->
  wp (gpt_get_block_size fd) Q w.
Proof.
  intros Hst H1 H2. unfold gpt_get_block_size. apply wp_bind.
  eapply wp_ioctl; [exact Hst|intros; by apply wp_ret, H1|intros; by apply wp_ret, H2].
Qed.

Lemma wp_header_off w0 d s b w gpt (Q : Z -> World -> Prop) :
  steps fd d s b w0 w -> 0 < bs ->
  (forall w', steps fd d s b w0 w' -> Q (off_of gpt d bs) w') ->
  (forall w' z, ~ no_faults -> steps fd d s b w0 w' -> z < 0 -> Q z w') ->
  wp (header_offset fd gpt bs) Q w.
Proof.
  intros Hst Hp H1 H2. destruct gpt; simpl; [by apply wp_ret, H1|].
  apply wp_bind. eapply wp_lseek_end; [exact Hst|intros w' Hw'; by apply wp_ret, H1|].
  intros w' Hn Hw'. apply wp_ret, H2; try done. lia.
Qed.

Abbreviation hdr_of gpt hp hs := (match gpt with PRIMARY_GPT => hp | SECONDARY_GPT => hs end).

(** ** Loading *)
Lemma wp_gpt_get_header dev w0 d hp hs s b w gpt (Q : option buf -> World -> Prop) :
  get_dev_path_from_partition_name (Some dev) PATH_MAX = Some fd ->
  steps fd d s b w0 w -> layout g d hp hs ->
  (forall w', steps fd d s (b + 1) w0 w' -> Q (Some (hdr_of gpt hp hs)) w') ->
  (forall w', ~ no_faults -> steps fd d s b w0 w' -> Q None w') ->
  wp (gpt_get_header (Some dev) gpt) Q w.
Proof.
  intros Hpath Hst Hlay H1 H2. pose proof (go_bs _ Hg) as Hb. rewrite Hgbs in Hb.
  destruct (layout_off _ _ _ _ gpt Hg Hlay) as [Hs Ho]. rewrite Hgbs in Hs, Ho.
  unfold gpt_get_header. rewrite Hpath. apply wp_bind.
  eapply wp_open; [exact Hst| |by intros; apply wp_ret, H2].
  intros w1 S1. apply wp_bind. eapply wp_block_size; [exact S1| |].
  2:{ intros w2 Hnf S2. simpl. eapply wp_close_ret; [exact S2|]. auto. }
  intros w2 S2. rewrite (proj2 (Z.eqb_neq bs 0)) by lia. apply wp_bind.
  eapply wp_malloc; [exact S2| |].
  - intros w3 h S3 Hh. apply wp_bind. eapply wp_header_off; [exact S3|lia| |].
    + intros w4 S4. rewrite (proj2 (Z.ltb_ge _ 0)) by lia. apply wp_bind.
      eapply wp_blk_read; [done|exact S4|lia|lia|exact Hs| |].
      * intros w5 S5. simpl. eapply wp_close_ret; [exact S5|]. auto.
      * intros w5 h' Hnf S5. simpl. apply wp_bind. eapply wp_close; [exact S5|]. intros w6 S6.
        eapply wp_free_ret; [exact S6|]. auto.
    + intros w4 z Hnf S4 Hz. rewrite (proj2 (Z.ltb_lt z 0)) by lia. simpl. apply wp_bind.
      eapply wp_close; [exact S4|]. intros w5 S5. eapply wp_free_ret; [exact S5|]. auto.
  - intros w3 Hnf S3. apply wp_bind.
    assert (Hend : forall w', steps fd d s b w0 w' -> wp (_ ← close; mret None) Q w').
    { intros w' S. eapply wp_close_ret; [exact S|]. auto. }
    eapply wp_header_off; [exact S3|lia| |].
    + intros w4 S4. rewrite (proj2 (Z.ltb_ge _ 0)) by lia. apply wp_bind.
      eapply wp_lseek_set; [exact S4|lia| |]; intros; by apply wp_bind, Hend.
    + intros w4 z _ S4 Hz. rewrite (proj2 (Z.ltb_lt z 0)) by lia. simpl.
      apply wp_bind. eapply wp_close; [exact S4|]. intros w5 S5. apply wp_bind, wp_ret, wp_ret. auto.
Qed.

Lemma wp_gpt_get_pentry_arr h start w0 d s b w arr (Q : option buf -> World -> Prop) :
  steps fd d s b w0 w -> hdr_layout g start h -> 0 <= start < 2 ^ 63 -> slice d start (g_n g) = Some arr ->
  (forall w', steps fd d s (b + 1) w0 w' -> Q (Some arr) w') ->
  (forall w', ~ no_faults -> steps fd d s b w0 w' -> Q None w') ->
  wp (gpt_get_pentry_arr (Some h) (Some fd)) Q w.
Proof.
  intros Hst [Hw Hstart Hsize _] Hr Harr H1 H2. pose proof (go_bs _ Hg). pose proof (go_n _ Hg).
  rewrite Hgbs in *. unfold gpt_get_pentry_arr. apply wp_bind.
  eapply wp_block_size; [exact Hst| |by intros; apply wp_ret, H2].
  intros w1 S1. rewrite (proj2 (Z.eqb_neq bs 0)) by lia.
  wp_step. eapply wp_deref; [exact Hstart|]. wp_step. eapply wp_deref; [exact Hsize|].
  apply wp_bind. eapply wp_calloc; [exact S1| |by intros; apply wp_ret, H2].
  intros w2 a S2 Ha. apply wp_bind. rewrite s64_id by lia.
  eapply wp_blk_read; [done|exact S2|lia|lia|exact Harr| |].
  - intros w3 S3. simpl. by apply wp_ret, H1.
  - intros w3 a' Hnf S3. simpl. eapply wp_free_ret; [exact S3|]. auto.
Qed.

(** What a load of a disk with these parts leaves in the handle. *)
Record loaded (hp hs ap as_ : buf) (dk : gpt_disk) : Prop := {
  ld_hdr : hdr dk = Some hp;
  ld_bak : hdr_bak dk = Some hs;
  ld_arr : pentry_arr dk = Some ap;
  ld_arr_bak : pentry_arr_bak dk = Some as_;
  ld_size : pentry_arr_size dk = g_n g;
  ld_sz : pentry_size dk = g_sz g;
  ld_path : devpath dk = fd;
  ld_init : is_initialized dk = GPT_DISK_INIT_MAGIC;
}.

Definition arrays (d ap as_ : buf) : Prop :=
  slice d (g_ps g) (g_n g) = Some ap /\ slice d (g_ss g) (g_n g) = Some as_.

Lemma layout_starts d hp hs : layout g d hp hs -> 0 <= g_ps g < 2 ^ 63 /\ 0 <= g_ss g < 2 ^ 63.
Proof. intros Hlay. destruct Hg, Hlay. lia. Qed.

Lemma hdr_crc_slice h : hdr_layout g (g_ps g) h \/ hdr_layout g (g_ss g) h ->
  exists n, GET_4_BYTES h HEADER_SIZE_OFFSET = Some n /\ 0 <= n <= bs /\ Z.of_nat (length h) = bs.
Proof.
  rewrite <- Hgbs. intros [Hh|Hh]; destruct (hl_wf _ _ _ Hh) as (? & ? & n & ? & ?); by exists n.
Qed.

Lemma wp_gpt_disk_get_disk_info dev dk0 w0 d hp hs ap as_ s b w (Q : Z * option gpt_disk -> World -> Prop) :
  get_dev_path_from_partition_name (Some dev) PATH_MAX = Some fd ->
  steps fd d s b w0 w -> layout g d hp hs -> arrays d ap as_ -> held dk0 = 0 ->
  (forall w' dk, loaded hp hs ap as_ dk -> steps fd d s (b + 4) w0 w' -> Q (0, Some dk) w') ->
  (forall w' dk, ~ no_faults -> steps fd d s (b + held dk) w0 w' -> Q (-1, Some dk) w') ->
  wp (gpt_disk_get_disk_info (Some dev) (Some dk0)) Q w.
Proof.
  intros Hpath Hst Hlay [Hap Has] Hheld H1 H2. pose proof (go_bs _ Hg) as Hb. rewrite Hgbs in Hb.
  assert (H0 : owned (hdr dk0) = 0 /\ owned (hdr_bak dk0) = 0 /\ owned (pentry_arr dk0) = 0 /\ owned (pentry_arr_bak dk0) = 0).
  { unfold held, owned in *. repeat case_match; lia. }
  destruct H0 as (O1 & O2 & O3 & O4). destruct (layout_starts _ _ _ Hlay) as [Rp Rs].
  pose proof (lay_php _ _ _ _ Hlay) as Lp. pose proof (lay_phs _ _ _ _ Hlay) as Ls.
  destruct (hdr_crc_slice hp ltac:(by left)) as (n & Hn & Hnr & Hlp).
  destruct (hdr_crc_slice hs ltac:(by right)) as (ns & _ & _ & Hls).
  destruct (slice_is_Some hp 0 n) as [ep Hep]; [lia..|].
  destruct (slice_is_Some hs 0 n) as [es Hes]; [lia..|].
  unfold gpt_disk_get_disk_info. apply wp_bind.
  eapply (wp_gpt_get_header dev w0 d hp hs s b w PRIMARY_GPT); [done|exact Hst|exact Hlay| |].
  2:{ intros w1 Hnf S1. apply wp_ret, H2; [done|]. unfold held. simpl. by rewrite O2, O3, O4, Z.add_0_r. }
  intros w1 S1. cbv beta iota zeta. wp_step. eapply wp_deref; [exact Hn|]. apply wp_bind.
  eapply wp_crc32; [exact Hep|]. apply wp_bind.
  eapply (wp_gpt_get_header dev w0 d hp hs s _ _ SECONDARY_GPT); [done|exact S1|exact Hlay| |].
  2:{ intros w2 Hnf S2. apply wp_ret, H2; [done|]. unfold held. simpl. by rewrite O3, O4. }
  intros w2 S2. cbv beta iota zeta. apply wp_bind. eapply wp_crc32; [exact Hes|]. rewrite Hpath.
  apply wp_bind. eapply wp_open; [exact S2| |].
  2:{ intros w3 Hnf S3. apply wp_ret, H2; [done|]. unfold held. simpl. rewrite O3, O4.
      by replace (b + (1 + 1 + 0 + 0)) with (b + 1 + 1) by lia. }
  intros w3 S3. cbv beta iota zeta. apply wp_bind.
  eapply (wp_gpt_get_pentry_arr hp); [exact S3|exact Lp|done|exact Hap| |].
  2:{ intros w4 Hnf S4. eapply wp_close_ret; [exact S4|]. intros w5 S5. apply H2; [done|].
      unfold held. simpl. rewrite O4. by replace (b + (1 + 1 + 0 + 0)) with (b + 1 + 1) by lia. }
  intros w4 S4. cbv beta iota zeta. apply wp_bind.
  eapply (wp_gpt_get_pentry_arr hs); [exact S4|exact Ls|done|exact Has| |].
  2:{ intros w5 Hnf S5. eapply wp_close_ret; [exact S5|]. intros w6 S6. apply H2; [done|].
      unfold held. simpl. by replace (b + (1 + 1 + 1 + 0)) with (b + 1 + 1 + 1) by lia. }
  intros w5 S5. cbv beta iota zeta.
  destruct (hdr_wf_GET fd hp PARTITION_CRC_OFFSET) as [c1 Hc1]; [rewrite <- Hgbs; apply Lp|lia|].
  destruct (hdr_wf_GET fd hs PARTITION_CRC_OFFSET) as [c2 Hc2]; [rewrite <- Hgbs; apply Ls|lia|].
  wp_step. eapply wp_deref; [apply Lp|]. wp_step. eapply wp_deref; [apply Lp|].
  wp_step. eapply wp_deref; [exact Hc1|]. wp_step. eapply wp_deref; [exact Hc2|].
  apply wp_bind.
  assert (Hfin : forall k w6, steps fd d s (b + 1 + 1 + 1 + 1) w0 w6 ->
     wp (_ ← close; mret (0, Some (with_init k GPT_DISK_INIT_MAGIC (with_arr_crcs c1 c2 (with_sizes (g_n g) (g_sz g)
        (with_arr_bak (Some as_) (with_arr (Some ap) (with_devpath fd (with_hdr_bak (Some hs) (u32 (env_crc32 env_crc_init es))
           (with_hdr (Some hp) (u32 (env_crc32 env_crc_init ep)) dk0)))))))))) Q w6).
  { intros k w6 S6. eapply wp_close_ret; [exact S6|]. intros w7 S7. apply H1; [by split|].
    by replace (b + 4) with (b + 1 + 1 + 1 + 1) by lia. }
  eapply wp_block_size; [exact S5|intros w6 S6; by apply Hfin|intros w6 _ S6; by apply Hfin].
Qed.

(** ** Recomputing the checksums *)
Lemma wp_gpt_disk_update_crc dk hp hs ap as_ hp' hs' w (Q : Z * option gpt_disk -> World -> Prop) :
  loaded hp hs ap as_ dk -> hdr_layout g (g_ps g) hp -> hdr_layout g (g_ss g) hs ->
  GET_4_BYTES hs HEADER_SIZE_OFFSET = GET_4_BYTES hp HEADER_SIZE_OFFSET ->
  Z.of_nat (length ap) = g_n g -> Z.of_nat (length as_) = g_n g ->
  reheader hp ap = Some hp' -> reheader hs as_ = Some hs' ->
  (forall dk', loaded hp' hs' ap as_ dk' -> Q (0, Some dk') w) ->
  wp (gpt_disk_update_crc (Some dk)) Q w.
Proof.
  intros [L1 L2 L3 L4 L5 L6 L7 L8] Lp Ls Hsame Hla Hlas Hrp Hrs HQ.
  destruct (hdr_crc_slice hp ltac:(by left)) as (n & Hn & Hnr & Hlp).
  unfold reheader, seal in Hrp, Hrs.
  destruct (PUT_4_BYTES hp PARTITION_CRC_OFFSET (crc ap)) as [h1|] eqn:E1; [|done]. simpl in Hrp.
  rewrite (frame_GET_4 _ _ _ _ (PUT_4_BYTES_frame _ _ _ _ E1)) in Hrp by ranges. rewrite Hn in Hrp. simpl in Hrp.
  destruct (PUT_4_BYTES h1 HEADER_CRC_OFFSET 0) as [h2|] eqn:E2; [|done]. simpl in Hrp.
  destruct (slice h2 0 n) as [e|] eqn:E3; [|done]. simpl in Hrp.
  destruct (PUT_4_BYTES hs PARTITION_CRC_OFFSET (crc as_)) as [k1|] eqn:F1; [|done]. simpl in Hrs.
  rewrite (frame_GET_4 _ _ _ _ (PUT_4_BYTES_frame _ _ _ _ F1)) in Hrs by ranges. rewrite Hsame, Hn in Hrs. simpl in Hrs.
  destruct (PUT_4_BYTES k1 HEADER_CRC_OFFSET 0) as [k2|] eqn:F2; [|done]. simpl in Hrs.
  destruct (slice k2 0 n) as [f|] eqn:F3; [|done]. simpl in Hrs.
  unfold gpt_disk_update_crc. rewrite L8. cbn [negb Z.eqb Pos.eqb].
  wp_step. eapply wp_deref; [exact L3|]. wp_step. eapply wp_deref; [exact L4|].
  wp_step. eapply wp_deref; [exact L1|]. wp_step. eapply wp_deref; [exact L2|].
  rewrite L5. wp_step. eapply wp_crc32; [by apply slice_full|]. fold (crc ap).
  wp_step. eapply wp_crc32; [by apply slice_full|]. fold (crc as_).
  wp_step. eapply wp_deref; [exact E1|]. wp_step. eapply wp_deref; [exact F1|].
  wp_step. eapply wp_deref.
  { rewrite (frame_GET_4 _ _ _ _ (PUT_4_BYTES_frame _ _ _ _ E1)) by ranges. exact Hn. }
  wp_step. eapply wp_deref; [exact E2|]. wp_step. eapply wp_deref; [exact F2|].
  wp_step. eapply wp_crc32; [exact E3|]. fold (crc e). wp_step. eapply wp_crc32; [exact F3|]. fold (crc f).
  wp_step. eapply wp_deref; [exact Hrp|]. wp_step. eapply wp_deref; [exact Hrs|].
  apply wp_ret, HQ. by split.
Qed.

(** ** Committing *)
Lemma wp_gpt_set_header w0 d s b w gpt h d' (Q : Z -> World -> Prop) :
  steps fd d s b w0 w -> Z.of_nat (length d) = g_len g -> Z.of_nat (length h) = bs ->
  splice d (off_of gpt d bs) h = Some d' ->
  (forall w', steps fd d' (s ++ [d']) b w0 w' -> Q 0 w') ->
  (forall w' d1 s1, ~ no_faults -> steps fd d1 (s ++ s1) b w0 w' ->
     Forall (fun x => x = d \/ x = d') (d1 :: s1) -> Q (-1) w') ->
  wp (gpt_set_header (Some h) (Some fd) gpt) Q w.
Proof.
  intros Hst Hd Hh Hd' H1 H2. pose proof Hg as [Hg1 Hg2 Hg3 Hg4 Hg5 Hg6 Hg7 Hg8]. rewrite Hgbs in *.
  assert (Hsame : forall w', ~ no_faults -> steps fd d s b w0 w' -> Q (-1) w').
  { intros w' Hnf S. apply (H2 w' d []); [done|by rewrite app_nil_r|]. constructor; [by left|constructor]. }
  unfold gpt_set_header. apply wp_bind. eapply wp_block_size; [exact Hst| |intros; by apply wp_ret, Hsame].
  intros w1 S1. rewrite (proj2 (Z.eqb_neq bs 0)) by lia. apply wp_bind.
  eapply wp_header_off; [exact S1|lia| |].
  2:{ intros w2 z Hnf S2 Hz. rewrite (proj2 (Z.leb_le z 0)) by lia. by apply wp_ret, Hsame. }
  intros w2 S2. rewrite (proj2 (Z.leb_gt _ 0)) by (destruct gpt; simpl; lia).
  apply wp_bind. rewrite <- Hh at 2. eapply wp_blk_write; [done|exact S2|lia|exact Hd'| |].
  - intros w3 S3. simpl. by apply wp_ret, H1.
  - intros w3 d1 s1 Hnf S3 Ht Hts. simpl. apply wp_ret, (H2 w3 d1 s1); [done..|].
    constructor; [eapply torn_block; [|exact Hh|done..]; lia|].
    eapply Forall_impl; [exact Hts|]. intros x Hx. eapply torn_block; [|exact Hh|done..]. lia.
Qed.

Lemma wp_gpt_set_pentry_arr h start arr w0 d s b w d' (Q : Z -> World -> Prop) :
  steps fd d s b w0 w -> hdr_layout g start h -> 0 <= start < 2 ^ 63 -> Z.of_nat (length arr) = g_n g ->
  splice d start arr = Some d' ->
  (forall w', steps fd d' (s ++ [d']) b w0 w' -> Q 0 w') ->
  (forall w' d1 s1, ~ no_faults -> steps fd d1 (s ++ s1) b w0 w' ->
     Forall (fun x => x = d \/ torn bs d start arr x) (d1 :: s1) -> Q (-1) w') ->
  wp (gpt_set_pentry_arr (Some h) (Some fd) (Some arr)) Q w.
Proof.
  intros Hst [Hw Hstart Hsize _] Hr Hl Hd' H1 H2. pose proof (go_bs _ Hg). pose proof (go_n _ Hg).
  rewrite Hgbs in *.
  assert (Hsame : forall w', ~ no_faults -> steps fd d s b w0 w' -> Q (-1) w').
  { intros w' Hnf S. apply (H2 w' d []); [done|by rewrite app_nil_r|]. constructor; [by left|constructor]. }
  unfold gpt_set_pentry_arr. apply wp_bind.
  eapply wp_block_size; [exact Hst| |intros; by apply wp_ret, Hsame].
  intros w1 S1. rewrite (proj2 (Z.eqb_neq bs 0)) by lia.
  wp_step. eapply wp_deref; [exact Hstart|]. wp_step. eapply wp_deref; [exact Hsize|].
  apply wp_bind. rewrite s64_id by lia. rewrite <- Hl.
  eapply wp_blk_write; [done|exact S1|lia|exact Hd'| |].
  - intros w3 S3. simpl. by apply wp_ret, H1.
  - intros w3 d1 s1 Hnf S3 Ht Hts. simpl. apply wp_ret, (H2 w3 d1 s1); [done..|].
    constructor; [by right|]. eapply Forall_impl; [exact Hts|]. intros x Hx. by right.
Qed.

Lemma torn_frame q d off data x : torn q d off data x -> frame [(off, Z.of_nat (length data))] d x.
Proof.
  intros (k & Hk & _ & Hx). eapply frame_weaken; [by apply splice_frame|].
  intros i Hi. rewrite length_take in *. ranges.
Qed.

(** The contents a commit of [hp], [hs], [ap], [as_] to [d] goes through: while
    the primary table is being written the backup table is untouched
    ([before]); afterwards the primary table is complete ([after]). *)
Definition before (d x : buf) : Prop := frame [(g_bs g, g_bs g); (g_ps g, g_n g)] d x.
Definition after (d hp ap x : buf) : Prop :=
  frame [(g_bs g, g_bs g); (g_ps g, g_n g); (g_ss g, g_n g); (g_len g - g_bs g, g_bs g)] d x /\
  slice x (g_bs g) (g_bs g) = Some hp /\ slice x (g_ps g) (g_n g) = Some ap.

Definition committed (d hp hs ap as_ d' : buf) : Prop :=
  after d hp ap d' /\ layout g d' hp hs /\ arrays d' ap as_.

#[local] Arguments gpt_set_header : simpl never.
#[local] Arguments gpt_set_pentry_arr : simpl never.

Section commit.
Context (d hp hs ap as_ : buf) (Hd : Z.of_nat (length d) = g_len g).
Context (Lp : hdr_layout g (g_ps g) hp) (Ls : hdr_layout g (g_ss g) hs).
Context (Hlp : Z.of_nat (length ap) = g_n g) (Hls : Z.of_nat (length as_) = g_n g).

Lemma commit_primary :
  exists d1 d2, splice d (g_bs g) hp = Some d1 /\ splice d1 (g_ps g) ap = Some d2 /\
    before d d1 /\ before d d2 /\ (forall x, torn bs d1 (g_ps g) ap x -> before d x) /\ after d hp ap d2.
Proof.
  pose proof Hg as [Hg1 Hg2 Hg3 Hg4 Hg5 Hg6 Hg7 Hg8].
  pose proof (hdr_layout_length _ _ _ Lp) as Hp.
  destruct (splice_is_Some d (g_bs g) hp) as [d1 H1]; [lia..|].
  pose proof (splice_frame _ _ _ _ H1) as F1. rewrite Hp in F1.
  destruct (splice_is_Some d1 (g_ps g) ap) as [d2 H2]; [lia|rewrite (proj1 F1); lia|].
  pose proof (splice_frame _ _ _ _ H2) as F2. rewrite Hlp in F2.
  pose proof (frame_trans _ _ _ _ _ F1 F2) as F12.
  exists d1, d2. split; [done|]. split; [done|]. split.
  { eapply frame_weaken; [exact F1|]. intros i Hi. ranges. }
  split; [exact F12|]. split.
  { intros x Hx%torn_frame. rewrite Hlp in Hx. exact (frame_trans _ _ _ _ _ F1 Hx). }
  split; [|split].
  - eapply frame_weaken; [exact F12|]. intros i Hi. ranges.
  - rewrite (frame_slice _ _ _ _ _ F2) by ranges. rewrite <- Hp at 2. by eapply slice_splice_same.
  - rewrite <- Hlp. by eapply slice_splice_same.
Qed.

Lemma after_frame d2 x ws :
  after d hp ap d2 -> frame ws d2 x ->
  (forall i, outside i [(g_ss g, g_n g); (g_len g - g_bs g, g_bs g)] -> outside i ws) ->
  avoids (g_bs g) (g_bs g) ws -> avoids (g_ps g) (g_n g) ws -> after d hp ap x.
Proof.
  intros (F & S1 & S2) Fx Hw A1 A2. split; [|split].
  - eapply frame_weaken; [by eapply frame_trans|]. intros i Hi.
    assert (Hi' : outside i ws) by (apply Hw; ranges). unfold outside in *. apply Forall_app. split; [|done].
    ranges.
  - by rewrite (frame_slice _ _ _ _ _ Fx).
  - by rewrite (frame_slice _ _ _ _ _ Fx).
Qed.

Lemma commit_backup d2 :
  after d hp ap d2 ->
  exists d3 d4, splice d2 (off_of SECONDARY_GPT d2 (g_bs g)) hs = Some d3 /\ splice d3 (g_ss g) as_ = Some d4 /\
    after d hp ap d3 /\ (forall x, torn bs d3 (g_ss g) as_ x -> after d hp ap x) /\
    committed d hp hs ap as_ d4.
Proof.
  intros Ha. pose proof Ha as (F & S1 & S2). pose proof Hg as [Hg1 Hg2 Hg3 Hg4 Hg5 Hg6 Hg7 Hg8].
  pose proof (hdr_layout_length _ _ _ Ls) as Hh. simpl. rewrite (proj1 F), Hd.
  destruct (splice_is_Some d2 (g_len g - g_bs g) hs) as [d3 H3]; [lia|rewrite (proj1 F); lia|].
  pose proof (splice_frame _ _ _ _ H3) as F3. rewrite Hh in F3.
  destruct (splice_is_Some d3 (g_ss g) as_) as [d4 H4]; [lia|rewrite (proj1 F3), (proj1 F); lia|].
  pose proof (splice_frame _ _ _ _ H4) as F4. rewrite Hls in F4.
  pose proof (frame_trans _ _ _ _ _ F3 F4) as F34.
  assert (A4 : after d hp ap d4).
  { eapply after_frame; [exact Ha|exact F34|intros i Hi; ranges|ranges|ranges]. }
  exists d3, d4. split; [done|]. split; [done|]. split.
  { eapply after_frame; [exact Ha|exact F3|intros i Hi; ranges|ranges|ranges]. }
  split.
  { intros x Hx%torn_frame. rewrite Hls in Hx. pose proof (frame_trans _ _ _ _ _ F3 Hx) as Fx.
    eapply after_frame; [exact Ha|exact Fx|intros i Hi; ranges|ranges|ranges]. }
  split; [done|]. split.
  - constructor; try done; [by rewrite (proj1 F34), (proj1 F)|apply A4|].
    rewrite (frame_slice _ _ _ _ _ F4) by ranges. rewrite <- Hh at 2. by eapply slice_splice_same.
  - split; [apply A4|]. rewrite <- Hls. by eapply slice_splice_same.
Qed.

Lemma wp_gpt_disk_commit dk w0 s b w (Q : Z -> World -> Prop) :
  steps fd d s b w0 w -> loaded hp hs ap as_ dk ->
  (forall w' d' s1, steps fd d' (s ++ s1) b w0 w' -> committed d hp hs ap as_ d' ->
     Forall (fun x => before d x \/ after d hp ap x) s1 -> Q 0 w') ->
  (forall w' d' s1, ~ no_faults -> steps fd d' (s ++ s1) b w0 w' ->
     Forall (fun x => before d x \/ after d hp ap x) (d' :: s1) -> Q (-1) w') ->
  wp (gpt_disk_commit (Some dk)) Q w.
Proof.
  intros Hst [L1 L2 L3 L4 L5 L6 L7 L8] H1 H2.
  pose proof Hg as [Hg1 Hg2 Hg3 Hg4 Hg5 Hg6 Hg7 Hg8].
  pose proof (hdr_layout_length _ _ _ Lp) as Hp. pose proof (hdr_layout_length _ _ _ Ls) as Hh.
  destruct commit_primary as (d1 & d2 & W1 & W2 & B1 & B2 & BT & A2).
  destruct (commit_backup d2 A2) as (d3 & d4 & W3 & W4 & A3 & AT & C4).
  set (P := fun x => before d x \/ after d hp ap x) in *.
  assert (P0 : P d) by (left; eapply frame_weaken; [apply frame_refl|intros; constructor]).
  assert (P1 : P d1) by by left. assert (P2 : P d2) by by left. assert (P3 : P d3) by by right.
  assert (P4 : P d4) by (right; apply C4).
  assert (Hfail : forall s1 w' d' s2, ~ no_faults -> Forall P s1 -> steps fd d' ((s ++ s1) ++ s2) b w0 w' ->
    Forall P (d' :: s2) -> wp (_ ← close; mret (-1)) Q w').
  { intros s1 w' d' s2 Hnf F1 S F2. eapply wp_close_ret; [exact S|]. intros w'' S'.
    apply Forall_cons in F2 as [? F2]. apply (H2 w'' d' (s1 ++ s2)); [done|by rewrite app_assoc|].
    constructor; [done|]. by apply Forall_app. }
  rewrite Hgbs in W1, W3.
  unfold gpt_disk_commit. rewrite L8. cbn [negb Z.eqb Pos.eqb]. rewrite L7. apply wp_bind.
  eapply wp_open; [exact Hst| |].
  2:{ intros w1 Hnf S1. apply wp_ret, (H2 w1 d []); [done|by rewrite app_nil_r|by constructor]. }
  intros w1 S1. rewrite L1, L2, L3, L4. apply wp_bind.
  eapply wp_gpt_set_header; [exact S1|done|by rewrite Hp|exact W1| |].
  2:{ intros w2 d' s2 Hnf S2 Hall. simpl. apply (Hfail [] w2 d' s2); [done|by constructor|by rewrite app_nil_r|].
      eapply Forall_impl; [exact Hall|]. by intros x [->| ->]. }
  intros w2 S2. simpl. apply wp_bind.
  eapply wp_gpt_set_pentry_arr; [exact S2|exact Lp|lia|done|exact W2| |].
  2:{ intros w3 d' s2 Hnf S3 Hall. simpl. apply (Hfail [d1] w3 d' s2); [done|by constructor|exact S3|].
      eapply Forall_impl; [exact Hall|]. intros x [->|Hx]; [done|]. left. by apply BT. }
  intros w3 S3. simpl. apply wp_bind.
  eapply wp_gpt_set_header; [exact S3|by rewrite (proj1 B2)|by rewrite Hh|exact W3| |].
  2:{ intros w4 d' s2 Hnf S4 Hall. simpl.
      apply (Hfail [d1; d2] w4 d' s2); [done|by rewrite !Forall_cons, Forall_nil|repeat rewrite <- app_assoc in S4; rewrite <- app_assoc; exact S4|].
      eapply Forall_impl; [exact Hall|]. by intros x [->| ->]. }
  intros w4 S4. simpl. apply wp_bind.
  eapply wp_gpt_set_pentry_arr; [exact S4|exact Ls|lia|done|exact W4| |].
  2:{ intros w5 d' s2 Hnf S5 Hall. simpl.
      apply (Hfail [d1; d2; d3] w5 d' s2); [done|by rewrite !Forall_cons, Forall_nil|repeat rewrite <- app_assoc in S5; rewrite <- app_assoc; exact S5|].
      eapply Forall_impl; [exact Hall|]. intros x [->|Hx]; [done|]. right. by apply AT. }
  intros w5 S5. simpl. apply wp_bind, wp_ret. eapply wp_close_ret; [exact S5|]. intros w6 S6.
  apply (H1 w6 d4 [d1; d2; d3; d4]); [repeat rewrite <- app_assoc in S6; exact S6|done|by rewrite !Forall_cons, Forall_nil].
Qed.
End commit.

(** ** What a commit means for the boot loader *)
Lemma before_bootable d hp hs x :
  layout g d hp hs -> before d x -> sig_ok hs -> sealed hs -> arr_ok d (g_bs g) hs ->
  valid_gpt x (g_bs g) SECONDARY_GPT.
Proof.
  intros Hlay F Hs Hse Ha. pose proof Hg as [Hg1 Hg2 Hg3 Hg4 Hg5 Hg6 Hg7 Hg8].
  exists hs. simpl. rewrite (proj1 F), (lay_len _ _ _ _ Hlay).
  split; [|split; [done|split; [done|]]].
  - rewrite (frame_slice _ _ _ _ _ F) by ranges. apply Hlay.
  - eapply arr_ok_dev; [apply Hlay|exact F|ranges|done].
Qed.

Lemma after_bootable d hp ap x :
  hdr_layout g (g_ps g) hp -> after d hp ap x -> sig_ok hp -> sealed hp ->
  GET_4_BYTES hp PARTITION_CRC_OFFSET = Some (crc ap) -> valid_gpt x (g_bs g) PRIMARY_GPT.
Proof.
  intros Lp (F & S1 & S2) Hs Hse Hc. exists hp. split; [done|]. split; [done|]. split; [done|].
  by eapply arr_ok_intro.
Qed.

Lemma committed_valid d hp hs ap as_ d' :
  committed d hp hs ap as_ d' -> sig_ok hp -> sig_ok hs -> sealed hp -> sealed hs ->
  GET_4_BYTES hp PARTITION_CRC_OFFSET = Some (crc ap) ->
  GET_4_BYTES hs PARTITION_CRC_OFFSET = Some (crc as_) ->
  valid_gpt d' (g_bs g) PRIMARY_GPT /\ valid_gpt d' (g_bs g) SECONDARY_GPT.
Proof.
  intros (Ha & Hlay & _ & Has) Gp Gs Sp Ss Cp Cs.
  pose proof (lay_php _ _ _ _ Hlay) as Lp. pose proof (lay_phs _ _ _ _ Hlay) as Ls. split.
  - by eapply after_bootable.
  - exists hs. simpl. rewrite (lay_len _ _ _ _ Hlay). split; [apply Hlay|]. split; [done|]. split; [done|].
    by eapply arr_ok_intro.
Qed.

(** A disk with two complete tables, ready for the handle. *)
Record disk_ok (d hp hs ap as_ : buf) : Prop := {
  dk_layout : layout g d hp hs;
  dk_arrays : arrays d ap as_;
  dk_sizes : GET_4_BYTES hs HEADER_SIZE_OFFSET = GET_4_BYTES hp HEADER_SIZE_OFFSET;
  dk_sigs : sig_ok hp /\ sig_ok hs;
  dk_sealed : sealed hp /\ sealed hs;
  dk_crcs : GET_4_BYTES hp PARTITION_CRC_OFFSET = Some (crc ap) /\
            GET_4_BYTES hs PARTITION_CRC_OFFSET = Some (crc as_);
}.

Lemma disk_ok_valid d hp hs ap as_ :
  disk_ok d hp hs ap as_ -> valid_gpt d (g_bs g) PRIMARY_GPT /\ valid_gpt d (g_bs g) SECONDARY_GPT.
Proof.
  intros [Hlay [Hap Has] _ [Gp Gs] [Sp Ss] [Cp Cs]].
  pose proof (lay_php _ _ _ _ Hlay) as Lp. pose proof (lay_phs _ _ _ _ Hlay) as Ls. split.
  - exists hp. split; [apply Hlay|]. split; [done|]. split; [done|]. by eapply arr_ok_intro.
  - exists hs. simpl. rewrite (lay_len _ _ _ _ Hlay). split; [apply Hlay|]. split; [done|]. split; [done|].
    by eapply arr_ok_intro.
Qed.

(** Headers that describe the arrays of a handle, ready to be written. *)
Record ready (hp hs ap as_ : buf) : Prop := {
  rd_hp : hdr_layout g (g_ps g) hp;
  rd_hs : hdr_layout g (g_ss g) hs;
  rd_sizes : GET_4_BYTES hs HEADER_SIZE_OFFSET = GET_4_BYTES hp HEADER_SIZE_OFFSET;
  rd_sigs : sig_ok hp /\ sig_ok hs;
  rd_sealed : sealed hp /\ sealed hs;
  rd_crcs : GET_4_BYTES hp PARTITION_CRC_OFFSET = Some (crc ap) /\
            GET_4_BYTES hs PARTITION_CRC_OFFSET = Some (crc as_);
  rd_lens : Z.of_nat (length ap) = g_n g /\ Z.of_nat (length as_) = g_n g;
}.

(** Recompute the checksums for edited arrays. *)
Lemma wp_update_crc_ready hp hs ap' as' dk w (Q : Z * option gpt_disk -> World -> Prop) :
  hdr_layout g (g_ps g) hp -> hdr_layout g (g_ss g) hs ->
  GET_4_BYTES hs HEADER_SIZE_OFFSET = GET_4_BYTES hp HEADER_SIZE_OFFSET ->
  sig_ok hp -> sig_ok hs ->
  loaded hp hs ap' as' dk -> Z.of_nat (length ap') = g_n g -> Z.of_nat (length as') = g_n g ->
  (forall dk' hp' hs', loaded hp' hs' ap' as' dk' -> ready hp' hs' ap' as' -> Q (0, Some dk') w) ->
  wp (gpt_disk_update_crc (Some dk)) Q w.
Proof.
  intros Lp Ls Hsz Gp Gs Hload Hla Hls HQ.
  destruct (reheader_spec _ _ ap' (hl_wf _ _ _ Lp)) as (hp' & Rp & Fp & Sp' & Cp').
  destruct (reheader_spec _ _ as' (hl_wf _ _ _ Ls)) as (hs' & Rs & Fs & Ss' & Cs').
  eapply wp_gpt_disk_update_crc; [exact Hload|exact Lp|exact Ls|exact Hsz|lia|lia|exact Rp|exact Rs|].
  intros dk' Hload'. eapply HQ; [exact Hload'|]. constructor.
  - eapply hdr_layout_frame; [exact Fp|ranges..|done].
  - eapply hdr_layout_frame; [exact Fs|ranges..|done].
  - rewrite (frame_GET_4 _ _ _ _ Fp), (frame_GET_4 _ _ _ _ Fs) by ranges. done.
  - split; [eapply sig_ok_frame; [exact Fp|ranges|done]|eapply sig_ok_frame; [exact Fs|ranges|done]].
  - done.
  - done.
  - done.
Qed.

(** Commit a ready handle to a disk with two complete tables. *)
Lemma wp_commit_ready d hp0 hs0 ap0 as0 hp hs ap as_ dk w0 s b w (Q : Z -> World -> Prop) :
  disk_ok d hp0 hs0 ap0 as0 -> ready hp hs ap as_ -> loaded hp hs ap as_ dk -> steps fd d s b w0 w ->
  (forall w' d' s1, steps fd d' (s ++ s1) b w0 w' -> disk_ok d' hp hs ap as_ ->
     frame [(g_bs g, g_bs g); (g_ps g, g_n g); (g_ss g, g_n g); (g_len g - g_bs g, g_bs g)] d d' ->
     Forall (fun x => bootable x (g_bs g)) s1 -> Q 0 w') ->
  (forall w' d' s1, ~ no_faults -> steps fd d' (s ++ s1) b w0 w' ->
     Forall (fun x => bootable x (g_bs g)) (d' :: s1) -> Q (-1) w') ->
  wp (gpt_disk_commit (Some dk)) Q w.
Proof.
  intros [Hlay [Hap Has] Hsz [Gp Gs] [Sp Ss] [Cp Cs]] [Lp' Ls' Hsz' [Gp' Gs'] [Sp' Ss'] [Cp' Cs'] [Nap Nas]] Hload Hst H1 H2.
  pose proof (lay_php _ _ _ _ Hlay) as Lp. pose proof (lay_phs _ _ _ _ Hlay) as Ls.
  assert (Hboot : forall l, Forall (fun x => before d x \/ after d hp ap x) l ->
    Forall (fun x => bootable x (g_bs g)) l).
  { intros l Hl. eapply Forall_impl; [exact Hl|]. intros x [Hb|Ha].
    - right. eapply before_bootable; [exact Hlay|exact Hb|done|done|by eapply arr_ok_intro].
    - left. by eapply (after_bootable d hp ap). }
  eapply (wp_gpt_disk_commit d hp hs ap as_); [by apply Hlay|exact Lp'|exact Ls'|lia|lia|exact Hst|exact Hload| |].
  - intros w' d' s1 S Hc Hall. eapply H1; [exact S| |apply Hc|by apply Hboot].
    destruct Hc as (_ & Hl & Ha). constructor; auto.
  - intros w' d' s1 Hnf S Hall. by eapply H2; [done|exact S|apply Hboot].
Qed.
End disk.
