(* ===== verification/GptExample.v ===== *)
(** * A concrete disk

    A five-block disk with four partitions and an environment without faults: the
    inputs at which the theorems about the GPT code and the boot control are
    applied.  zlib's [crc32] is instantiated with the repository's own
    [sparse_crc32]. *)
From S2P Require Import Prelude Bytes Crc32 BlockDev UfsBsg GptUtils GptSwap GptSpec.

Definition ex_env : Env := {|
  env_ok := fun _ => true;
  env_errno := fun _ => 5;
  env_io := fun _ len => (true, len);
  env_junk := fun _ _ => 0xAA;
  env_blksz := fun _ => 512;
  env_stat := fun _ => false;
  env_readlink := fun _ => None;
  env_listdir := fun _ => None;
  env_property := fun _ => None;
  env_sgio := fun _ => (0, false);
  env_crc32 := fun c b => u32 (sparse_crc32 c b);
  env_crc_init := 0;
|}.
#[export] Existing Instance ex_env.

#[export] Instance ex_laws : EnvLaws ex_env.
Proof. constructor. intros. by apply wrap_bounds. Defined.

Lemma ex_no_faults : no_faults.
Proof. by split. Defined.

Lemma ex_io fd : io_blocks fd.
Proof. intros t len _. simpl. reflexivity. Defined.

(** ** Building a disk *)
Definition zeros (n : nat) : buf := replicate n 0.
Definition utf16 (s : string) : buf := s' ← str_bytes s; [s'; 0].
(** A partition entry: GUIDs and LBAs zero, attributes [attr], name. *)
Definition mk_entry (attr : Z) (name : string) : buf :=
  zeros 54 ++ [attr; 0] ++ take 72 (utf16 name ++ zeros 72).
Definition mk_hdr (lba count : Z) (arr : buf) : buf :=
  default [] (reheader (str_bytes "EFI PART" ++ [0; 0; 1; 0] ++ put4 92 ++ zeros 56 ++
     put4 lba ++ zeros 4 ++ put4 count ++ put4 128 ++ zeros 424) arr).

Definition ex_arr : buf :=
  mk_entry 0x3F "tz" ++ mk_entry 0 "tzbak" ++ mk_entry 0x3F "boot_a" ++ mk_entry 0x80 "boot_b".
Definition ex_hp : buf := Eval vm_compute in mk_hdr 2 4 ex_arr.
Definition ex_hs : buf := Eval vm_compute in mk_hdr 3 4 ex_arr.
Definition ex_disk : buf := zeros 512 ++ ex_hp ++ ex_arr ++ ex_arr ++ ex_hs.

Definition ex_geometry : geometry := Geometry 512 512 128 1024 1536 2560.

Lemma ex_geometry_ok : geometry_ok ex_geometry.
Proof. constructor; simpl; try lia. by exists 4. Qed.

Lemma ex_hdr_layout_hp : hdr_layout ex_geometry 1024 ex_hp.
Proof.
  constructor; [|vm_compute; reflexivity..]. split; [vm_compute; reflexivity|]. split; [simpl; lia|].
  exists 92. split; [vm_compute; reflexivity|simpl; lia].
Qed.

Lemma ex_hdr_layout_hs : hdr_layout ex_geometry 1536 ex_hs.
Proof.
  constructor; [|vm_compute; reflexivity..]. split; [vm_compute; reflexivity|]. split; [simpl; lia|].
  exists 92. split; [vm_compute; reflexivity|simpl; lia].
Qed.

Lemma ex_layout : layout ex_geometry ex_disk ex_hp ex_hs.
Proof.
  constructor; [vm_compute; reflexivity..| |].
  - exact ex_hdr_layout_hp.
  - exact ex_hdr_layout_hs.
Qed.

Lemma ex_sealed : sealed ex_hp /\ sealed ex_hs.
Proof. split; (eexists; split; [vm_compute; reflexivity|vm_compute; reflexivity]). Qed.

Lemma ex_sig : sig_ok ex_hp /\ sig_ok ex_hs.
Proof. by split; vm_compute. Qed.

Lemma ex_arr_ok : arr_ok ex_disk 512 ex_hp /\ arr_ok ex_disk 512 ex_hs.
Proof.
  split; [exists 1024, 512, ex_arr|exists 1536, 512, ex_arr];
    (split; [vm_compute; reflexivity|]; split; [vm_compute; reflexivity|];
     split; vm_compute; reflexivity).
Qed.

Lemma ex_update_inv : update_inv ex_geometry ex_disk.
Proof.
  exists ex_hp, ex_hs. split; [exact ex_layout|]. destruct ex_sealed as [? ?], ex_sig as [? ?], ex_arr_ok as [? ?].
  split; [done|]. split; [done|]. split; [done|]. by left.
Qed.

Lemma ex_entries : entry_array ex_arr 128 4.
Proof. split; [lia|vm_compute; reflexivity]. Qed.

(** The disk as the eMMC device. *)
Definition ex_world : World := MkWorld {[ BLK_DEV_FILE := ex_disk ]} 0 [] 0 0 "" false [].

Lemma ex_dev : devs ex_world !! BLK_DEV_FILE = Some ex_disk.
Proof. reflexivity. Qed.
