(* ===== verification/GptProps.v ===== *)
(** * The GPT code is correct

    The properties of [src/gpt-utils/gpt-utils.cpp] that a client relies on, with
    their instances at the disk of [GptExample.v]. *)
From S2P Require Import Prelude Bytes Crc32 BlockDev UfsBsg GptUtils GptSwap GptSpec GptExec GptUpdate GptDisk GptExample.

(** ** Searching and exchanging entries *)

(** [gpt_pentry_seek] terminates on every entry array and returns the first
    entry, from the given one on, whose name is the given name or that name
    followed by "bak"; it returns NULL exactly when there is none. *)
Theorem gpt_pentry_seek_spec (name : string) (b : buf) (sz : Z) (cnt k : nat) :
  entry_array b sz cnt -> (k <= cnt)%nat -> no_nul (str_bytes name) ->
  let named i := exists n8, entry_name b sz i = Some n8 /\
    (c_str n8 = str_bytes name \/ c_str n8 = str_bytes name ++ str_bytes "bak") in
  match gpt_pentry_seek name b (entry_off sz k) (Z.of_nat (length b)) sz with
  | Some (Some p) => exists i, p = entry_off sz i /\ (k <= i < cnt)%nat /\ named i /\
                               forall j, (k <= j < i)%nat -> ~ named j
  | Some None => forall i, (k <= i < cnt)%nat -> ~ named i
  | None => False
  end.
Proof.
  intros Ha Hk Hn named. rewrite (gpt_pentry_seek_first _ _ _ cnt) by done.
  assert (Hnamed : forall i, (i < cnt)%nat -> named i <-> entry_is b sz name i = true).
  { intros i Hi. destruct (entry_name_Some _ _ _ _ Ha Hi) as [n8 Hn8].
    unfold named, entry_is. rewrite Hn8, name_matches_spec by done. naive_solver. }
  destruct (first_ix (entry_is b sz name) k (cnt - k)) as [i|] eqn:E; cbn [fmap option_fmap option_map].
  - apply first_ix_Some in E as (Hi & Hf & Hb). exists i. split; [done|]. split; [lia|].
    rewrite Hnamed by lia. split; [done|]. intros j Hj. rewrite Hnamed, Hb by lia. done.
  - intros i Hi. rewrite Hnamed by lia. intros Ht.
    assert (Hex : forall m k, (k <= i < k + m)%nat -> first_ix (entry_is b sz name) k m = None -> False).
    { induction m as [|m IH]; intros k' Hk' H; [lia|]. simpl in H.
      destruct (entry_is b sz name k') eqn:Ek; [done|].
      apply (IH (S k')); [|done]. destruct (decide (i = k')); [congruence|lia]. }
    apply (Hex (cnt - k)%nat k); [lia|done].
Qed.

Lemma gpt_pentry_seek_spec_witness :
  gpt_pentry_seek "tz" ex_arr 128 512 128 = Some (Some 128) /\
  gpt_pentry_seek "rpm" ex_arr 0 512 128 = Some None /\
  (forall i, (0 <= i < 4)%nat -> ~ exists n8, entry_name ex_arr 128 i = Some n8 /\
    (c_str n8 = str_bytes "rpm" \/ c_str n8 = str_bytes "rpm" ++ str_bytes "bak")).
Proof.
  split; [vm_compute; reflexivity|]. split; [vm_compute; reflexivity|].
  assert (Hn : no_nul (str_bytes "rpm")) by (repeat constructor; done).
  exact (gpt_pentry_seek_spec "rpm" ex_arr 128 4 0 ex_entries (Nat.le_0_l 4) Hn).
Defined.

Lemma swap_pairs_cons `{Env} b sz cnt n names :
  swap_pairs b sz cnt (n :: names) =
  match swap_cand b sz cnt n with Some p => p :: swap_pairs b sz cnt names | None => swap_pairs b sz cnt names end.
Proof. reflexivity. Qed.

Lemma swap_pairs_stable `{Env} b sz cnt names :
  entry_array b sz cnt -> (forall n, n ∈ names -> n ∈ PTN_SWAP_LIST) ->
  forall ms, (forall n, n ∈ ms -> n ∈ PTN_SWAP_LIST) ->
  swap_pairs (exchanges sz (swap_pairs b sz cnt names) b) sz cnt ms = swap_pairs b sz cnt ms.
Proof.
  intros Ha. revert b Ha. induction names as [|n names IH]; intros b Ha Hn ms Hms; [done|].
  rewrite swap_pairs_cons.
  destruct (swap_cand b sz cnt n) as [p|] eqn:Ep; [|apply IH; [done|intros x Hx; apply Hn; by right|done]].
  pose proof (swap_cand_Some _ _ _ _ _ Ep) as Hp.
  pose proof (pair_of_Some _ _ _ _ _ Hp) as (Hok & _).
  assert (Ha' : entry_array (exchange sz p b) sz cnt) by by apply (exchange_spec _ _ _ _ Ha Hok).
  assert (Hsame : forall l, (forall x, x ∈ l -> x ∈ PTN_SWAP_LIST) ->
    swap_pairs (exchange sz p b) sz cnt l = swap_pairs b sz cnt l).
  { intros l Hl. apply omap_ext_in. intros m Hm.
    apply swap_cand_swap with n; [assumption|by apply Hl|apply (Hn n); left|assumption]. }
  assert (Hns : forall x, x ∈ names -> x ∈ PTN_SWAP_LIST) by (intros; apply Hn; by right).
  rewrite <- (Hsame names Hns). cbn [exchanges foldl].
  fold (exchanges sz (swap_pairs (exchange sz p b) sz cnt names) (exchange sz p b)).
  rewrite (IH _ Ha' Hns ms Hms). by apply Hsame.
Qed.

(** On every entry array [gpt_boot_chain_swap] exchanges, for each critical
    partition that has one, the entry with that of its backup: it is a product of
    exchanges of disjoint pairs of entries, each pair the first two entries of a
    name.  It reports 0 exactly when some pair was exchanged, and doing it twice
    restores the array. *)
Theorem gpt_boot_chain_swap_spec `{Env} (b : buf) (sz : Z) (cnt : nat) :
  entry_array b sz cnt ->
  let ps := swap_pairs b sz cnt PTN_SWAP_LIST in
  let r := match ps with [] => 1 | _ => 0 end in
  gpt_boot_chain_swap b sz = Some (r, exchanges sz ps b) /\
  pairs_disj ps /\ Forall (pair_ok cnt) ps /\
  gpt_boot_chain_swap (exchanges sz ps b) sz = Some (r, b).
Proof.
  intros Ha ps r.
  assert (Hok : Forall (pair_ok cnt) ps) by apply swap_pairs_ok.
  assert (Hd : pairs_disj ps) by (apply swap_pairs_disj; [apply swap_list_NoDup|done]).
  assert (Ha' : entry_array (exchanges sz ps b) sz cnt) by by apply exchanges_array.
  unfold gpt_boot_chain_swap. rewrite (swap_all_spec _ _ _ _ _ Ha (fun n H => H)).
  split; [done|]. split; [done|]. split; [done|].
  rewrite (swap_all_spec _ _ _ _ _ Ha' (fun n H => H)).
  assert (Hst : swap_pairs (exchanges sz ps b) sz cnt PTN_SWAP_LIST = ps)
    by exact (swap_pairs_stable b sz cnt PTN_SWAP_LIST Ha (fun n H => H) _ (fun n H => H)).
  rewrite Hst. by rewrite (exchanges_invol sz cnt ps b Hok Hd Ha).
Qed.

Lemma gpt_boot_chain_swap_spec_witness :
  swap_pairs ex_arr 128 4 PTN_SWAP_LIST = [(0, 1)]%nat /\
  gpt_boot_chain_swap (exchanges 128 [(0, 1)]%nat ex_arr) 128 = Some (0, ex_arr).
Proof.
  assert (Hp : swap_pairs ex_arr 128 4 PTN_SWAP_LIST = [(0, 1)]%nat) by (vm_compute; reflexivity).
  split; [exact Hp|].
  pose proof (gpt_boot_chain_swap_spec ex_arr 128 4 ex_entries) as (_ & _ & _ & H).
  rewrite Hp in H. exact H.
Defined.

(** ** The header state *)

(** On a disk whose headers have a size field within the block,
    [gpt_set_state] followed by [gpt_get_state] is defined whatever calls fail;
    when both succeed the state read is the one set, for OK and BAD_SIGNATURE, and
    without faults both succeed. *)
Theorem gpt_state_roundtrip `{E : Env} (L : EnvLaws E) (fd : string) (Hio : io_blocks fd)
    (g : geometry) (w : World) (d hp hs : buf) (gpt : gpt_instance) (state : gpt_state) :
  geometry_ok g -> g_bs g = u32 (env_blksz fd) -> devs w !! fd = Some d -> layout g d hp hs ->
  sealed hp -> sealed hs -> arr_ok d (g_bs g) hp -> state <> GPT_BAD_CRC ->
  wp (r ← gpt_set_state fd gpt state; '(r', st) ← gpt_get_state fd gpt; mret (r, r', st))
    (fun '(r, r', st) _ => (r = 0 -> r' = 0 -> st = state) /\ (no_faults -> r = 0 /\ r' = 0)) w.
Proof.
  intros Hg Hgbs Hd Hlay Sp Ss Ap Hne. apply wp_bind.
  eapply wp_restate; [exact Hio|exact Hg|exact Hgbs|by apply steps_refl|done..|].
  intros w1 d1 h1 hp' hs' S1 Hlay1 Sp1 Ss1 _ Hsig _ _.
  assert (Hst : state_of (match gpt with PRIMARY_GPT => hp' | SECONDARY_GPT => hs' end) = state).
  { pose proof (hl_wf _ _ _ (lay_php _ _ _ _ Hlay1)) as Wp.
    pose proof (hl_wf _ _ _ (lay_phs _ _ _ _ Hlay1)) as Ws.
    subst hp' hs'. destruct gpt; simpl in *.
    - apply (state_of_sealed _ _ Wp) in Sp1. pose proof (state_of_OK_sig _ _ Wp Sp1). destruct (state_of h1), state; naive_solver.
    - apply (state_of_sealed _ _ Ws) in Ss1. pose proof (state_of_OK_sig _ _ Ws Ss1). destruct (state_of h1), state; naive_solver. }
  split.
  - apply wp_bind. eapply wp_state; [exact L|exact Hio|exact Hg|exact Hgbs|exact S1|exact Hlay1| |].
    + intros w2 S2. rewrite Hst. by apply wp_ret.
    + intros w2 Hnf S2. apply wp_ret. split; [lia|done].
  - intros w2 d2 s2 Hnf S2 Hall. apply Forall_cons in Hall as [Hd2 _]. apply wp_bind.
    destruct Hd2 as [->| ->].
    + eapply wp_state; [exact L|exact Hio|exact Hg|exact Hgbs|exact S2|exact Hlay| |];
        intros; apply wp_ret; split; (lia || done).
    + eapply wp_state; [exact L|exact Hio|exact Hg|exact Hgbs|exact S2|exact Hlay1| |];
        intros; apply wp_ret; split; (lia || done).
Qed.

Lemma gpt_state_roundtrip_witness :
  wp (r ← gpt_set_state BLK_DEV_FILE SECONDARY_GPT GPT_BAD_SIGNATURE;
      '(r', st) ← gpt_get_state BLK_DEV_FILE SECONDARY_GPT; mret (r, r', st))
    (fun '(r, r', st) _ => (r = 0 -> r' = 0 -> st = GPT_BAD_SIGNATURE) /\ (no_faults -> r = 0 /\ r' = 0)) ex_world.
Proof.
  destruct ex_sealed as [S1 S2], ex_arr_ok as [A1 A2].
  apply (gpt_state_roundtrip ex_laws BLK_DEV_FILE (ex_io _) ex_geometry ex_world ex_disk ex_hp ex_hs
    SECONDARY_GPT GPT_BAD_SIGNATURE ex_geometry_ok eq_refl ex_dev ex_layout S1 S2 A1); discriminate.
Defined.

(** ** The fail-safe update *)

Lemma prepare_partitions_open `{E : Env} (L : EnvLaws E) fd w d is_ufs stage (Q : Z -> World -> Prop) :
  is_ufs = gpt_utils_is_ufs_device -> devs w !! fd = Some d ->
  (forall w1, steps fd d [] 0 w w1 -> wp (prepare_on fd is_ufs stage)
     (fun r w2 => forall w3, devs w3 = devs w2 -> hist w3 = hist w2 -> Q r w3) w1) ->
  (~ no_faults -> forall w1, steps fd d [] 0 w w1 -> Q (-1) w1) ->
  wp (prepare_partitions stage (Some fd)) Q w.
Proof.
  intros -> Hd H1 H2. unfold prepare_partitions. apply wp_bind.
  eapply (wp_open fd); [by apply steps_refl| |intros w1 Hnf S1; apply wp_ret; by apply H2].
  intros w1 S1. apply wp_bind. eapply wp_conseq; [by apply H1|].
  intros r w2 HQ. apply wp_bind, wp_ret, wp_bind. unfold close. apply wp_modify. apply wp_ret. by apply HQ.
Qed.

(** C1. Crash safety of the update: any sequence of [prepare_partitions] calls,
    with any stages and any failing or torn device calls, is defined, touches no
    other device, and leaves the device bootable after every single write, and in a
    state from which the update can be resumed.  A transfer is complete or fails after whole
    blocks ([io_blocks]), and writes reach the medium in their order. *)
Theorem prepare_partitions_crash_safe `{E : Env} (L : EnvLaws E) (fd : string) (Hio : io_blocks fd)
    (g : geometry) (stages : list Z) (w : World) (d : buf) :
  geometry_ok g -> g_bs g = u32 (env_blksz fd) -> devs w !! fd = Some d -> update_inv g d ->
  wp (run_ops (fun stage => _ ← prepare_partitions stage (Some fd); mret tt) stages)
    (fun _ w' => exists d' snaps,
       devs w' = <[fd := d']> (devs w) /\ hist w' = hist w ++ ((fun x => (fd, x)) <$> snaps) /\
       Forall (fun x => update_inv g x /\ bootable x (g_bs g)) (d' :: snaps)) w.
Proof.
  intros Hg Hgbs. revert w d. induction stages as [|stage stages IH]; intros w d Hd Hinv; cbn [run_ops].
  - apply wp_ret. exists d, []. split; [by rewrite insert_id|]. split; [by rewrite app_nil_r|].
    constructor; [split; [done|by apply update_inv_bootable]|constructor].
  - apply wp_bind, wp_bind.
    eapply wp_conseq with (Q := fun _ w' => exists d' snaps, devs w' = <[fd := d']> (devs w) /\
       hist w' = hist w ++ ((fun x => (fd, x)) <$> snaps) /\ Forall (update_inv g) (d' :: snaps)).
    + eapply prepare_partitions_open; [exact L|done|exact Hd| |].
      * intros w1 S1. eapply wp_conseq.
        { eapply prepare_on_kept; [exact L|exact Hio|exact Hg|exact Hgbs|by eapply steps_dev|exact Hinv]. }
        intros ? w2 HK w3 Hdv Hh.
        destruct (kept_trans _ _ _ _ _ _ _ _ S1 ltac:(constructor) HK) as (d2 & s2 & b2 & (D2 & H2 & _) & I2 & F2).
        exists d2, s2. split; [by rewrite Hdv|]. split; [by rewrite Hh|]. by constructor.
      * intros Hnf w1 (D1 & H1 & _). exists d, []. split; [done|]. split; [done|]. by constructor.
    + intros ? w1 (d1 & s1 & D1 & H1 & F1). apply wp_ret. apply Forall_cons in F1 as [I1 F1].
      eapply wp_conseq; [apply (IH w1 d1); [by rewrite D1, lookup_insert_eq|done]|].
      intros ? w2 (d2 & s2 & D2 & H2 & F2). apply Forall_cons in F2 as [I2 F2].
      exists d2, (s1 ++ s2). split; [by rewrite D2, D1, insert_insert_eq|].
      split; [by rewrite H2, H1, fmap_app, app_assoc|]. constructor; [done|]. apply Forall_app. split; [|done].
      eapply Forall_impl; [exact F1|]. intros x Hx. split; [done|by apply update_inv_bootable].
Qed.

Lemma prepare_partitions_crash_safe_witness :
  wp (run_ops (fun stage => _ ← prepare_partitions stage (Some BLK_DEV_FILE); mret tt) [1; 2; 3])
    (fun _ w' => exists d' snaps,
       devs w' = <[BLK_DEV_FILE := d']> (devs ex_world) /\
       hist w' = hist ex_world ++ ((fun x => (BLK_DEV_FILE, x)) <$> snaps) /\
       Forall (fun x => update_inv ex_geometry x /\ bootable x 512) (d' :: snaps)) ex_world.
Proof.
  exact (prepare_partitions_crash_safe ex_laws BLK_DEV_FILE (ex_io _) ex_geometry [1; 2; 3] ex_world ex_disk
    ex_geometry_ok eq_refl ex_dev ex_update_inv).
Defined.

(** C39. The update is the state machine of [stage_step]: without faults, and with transfers
    that are complete or fail ([io_blocks]), a call with any stage on a disk whose two
    tables are complete up to their signatures returns what the machine says and leaves the
    disk showing the machine's next state; in particular MAIN exchanges the backup
    array and clears the primary signature, BACKUP swaps the signatures, FINALIZE
    restores both, and a call out of order changes nothing and fails.  On a UFS device,
    where the stages MAIN and BACKUP first switch the boot LUN, this request may fail
    instead: then its error is returned and the tables are as they were. *)
Theorem prepare_partitions_refines `{E : Env} (L : EnvLaws E) (fd : string) (Hio : io_blocks fd)
    (g : geometry) (stage : Z) (w : World) (d arr arr' : buf) (t : table_state) (r : Z) :
  geometry_ok g -> g_bs g = u32 (env_blksz fd) -> no_faults ->
  devs w !! fd = Some d -> shows g arr arr' d t ->
  gpt_boot_chain_swap arr (g_sz g) = Some (r, arr') ->
  wp (prepare_partitions stage (Some fd)) (fun v w' =>
    exists d', devs w' = <[fd := d']> (devs w) /\
      (v = (stage_step (r =? 0) stage t).1 /\ shows g arr arr' d' (stage_step (r =? 0) stage t).2 \/
       switch_failed gpt_utils_is_ufs_device v /\ shows g arr arr' d' t)) w.
Proof.
  intros Hg Hgbs Hnf Hd Hsh Hswap.
  assert (Hr : r = 0 \/ r = 1).
  { destruct Hsh as [hp hs Hlay _ _ Hp _ _].
    destruct (gpt_boot_chain_swap_Some _ _ _ (array_entries g Hg d arr Hp)) as (r' & a' & H & Hr').
    rewrite Hswap in H. by injection H as -> ->. }
  eapply prepare_partitions_open; [exact L|reflexivity|exact Hd| |done].
  intros w1 S1. eapply wp_conseq.
  { eapply prepare_on_exact; [exact L|exact Hio|exact Hg|exact Hgbs|done|by eapply steps_dev|exact Hsh|exact Hswap|done]. }
  intros v w2 (d2 & s2 & b2 & S2 & H2) w3 Hdv Hh.
  exists d2. split; [|done]. rewrite Hdv. destruct S1 as (D1 & _), S2 as (D2 & _).
  by rewrite D2, D1, insert_insert_eq.
Qed.

Lemma ex_shows : exists arr', gpt_boot_chain_swap ex_arr 128 = Some (0, arr') /\
  shows ex_geometry ex_arr arr' ex_disk (TableState true true NORMAL_BOOT).
Proof.
  eexists. split; [vm_compute; reflexivity|].
  exists ex_hp ex_hs; [exact ex_layout|exact ex_sealed|exact ex_arr_ok|vm_compute; reflexivity..|].
  destruct ex_sig. by split.
Qed.

Lemma prepare_partitions_refines_witness : exists arr',
  wp (prepare_partitions 1 (Some BLK_DEV_FILE)) (fun v w' =>
    exists d', devs w' = <[BLK_DEV_FILE := d']> (devs ex_world) /\
      v = 0 /\ shows ex_geometry ex_arr arr' d' (TableState false true BACKUP_BOOT)) ex_world.
Proof.
  destruct ex_shows as (arr' & Hs & Hsh). exists arr'.
  eapply wp_conseq; [exact (prepare_partitions_refines ex_laws BLK_DEV_FILE (ex_io _) ex_geometry 1 ex_world ex_disk ex_arr arr' _ 0
    ex_geometry_ok eq_refl ex_no_faults ex_dev Hsh Hs)|].
  intros v w' (d' & Hd' & [[Hv Hs']|[[H _] _]]); [|discriminate H].
  exists d'. split; [exact Hd'|]. split; [exact Hv|exact Hs'].
Defined.

(** ** The disk handle *)

(** What a client does between loading and committing: edit the two arrays. *)
Definition edit_arrays (f fb : buf -> buf) (dk : gpt_disk) : gpt_disk :=
  with_arr (f <$> pentry_arr dk) (with_arr_bak (fb <$> pentry_arr_bak dk) dk).

Definition load_edit_commit `{E : Env} (dev : string) (f fb : buf -> buf) : CM World Z :=
  '(r, dk) ← gpt_disk_get_disk_info (Some dev) (Some gpt_disk_zero);
  if negb (r =? 0) then mret r else
  '(r, dk) ← gpt_disk_update_crc (edit_arrays f fb <$> dk);
  if negb (r =? 0) then mret (-1) else gpt_disk_commit dk.

(** C8. Loading a disk with two complete tables, editing its entry arrays,
    updating the checksums and committing: when it returns 0 both tables of the
    device are complete again and hold the edited arrays, and nothing else of the
    device changed; whatever device call fails or is torn, the device can be booted
    after every single write; and without faults it returns 0. *)
Theorem gpt_disk_commit_valid `{E : Env} (L : EnvLaws E) (fd dev : string) (Hio : io_blocks fd)
    (g : geometry) (w : World) (d hp hs ap as_ : buf) (f fb : buf -> buf) :
  geometry_ok g -> g_bs g = u32 (env_blksz fd) -> devs w !! fd = Some d ->
  get_dev_path_from_partition_name (Some dev) PATH_MAX = Some fd ->
  disk_ok g d hp hs ap as_ -> length (f ap) = length ap -> length (fb as_) = length as_ ->
  wp (load_edit_commit dev f fb) (fun r w' =>
    exists d' snaps, devs w' = <[fd := d']> (devs w) /\ hist w' = hist w ++ ((fun x => (fd, x)) <$> snaps) /\
      Forall (fun x => bootable x (g_bs g)) (d' :: snaps) /\
      (r = 0 -> (exists hp' hs', disk_ok g d' hp' hs' (f ap) (fb as_)) /\
                frame [(g_bs g, g_bs g); (g_ps g, g_n g); (g_ss g, g_n g); (g_len g - g_bs g, g_bs g)] d d') /\
      (no_faults -> r = 0)) w.
Proof.
  intros Hg Hgbs Hd Hpath Hdisk Hf Hfb. destruct (disk_ok_valid _ _ _ _ _ _ Hdisk) as [Vp _].
  pose proof Hdisk as [Hlay Harr _ _ _ _].
  unfold load_edit_commit. apply wp_bind.
  eapply wp_gpt_disk_get_disk_info; [exact Hio|exact Hg|exact Hgbs|exact Hpath|by apply steps_refl|exact Hlay|exact Harr|done| |].
  - intros w1 dk Hload S1. cbn [negb Z.eqb fmap option_fmap option_map].
    destruct Harr as [Hap Has]. pose proof (slice_length _ _ _ _ Hap) as Nap.
    pose proof (slice_length _ _ _ _ Has) as Nas. pose proof (go_n _ Hg).
    pose proof Hdisk as [_ _ Hsz [Gp Gs] _ _].
    apply wp_bind. eapply (wp_update_crc_ready fd g Hgbs hp hs (f ap) (fb as_));
      [apply Hlay|apply Hlay|exact Hsz|exact Gp|exact Gs| |lia|lia|].
    { destruct Hload as [L1 L2 L3 L4 L5 L6 L7 L8]. constructor; simpl; try done; by rewrite ?L3, ?L4. }
    intros dk' hp' hs' Hload' Hready. cbn [negb Z.eqb].
    eapply wp_commit_ready; [exact Hio|exact Hg|exact Hgbs|exact Hdisk|exact Hready|exact Hload'|exact S1| |].
    + intros w2 d2 s2 (D2 & H2 & _) Hok2 Hfr Hall. exists d2, s2. split; [done|]. split; [done|].
      split; [constructor; [left; by eapply disk_ok_valid|done]|]. split; [|done]. split; [by exists hp', hs'|done].
    + intros w2 d2 s2 Hnf (D2 & H2 & _) Hall. exists d2, s2. split; [done|]. split; [done|].
      split; [done|]. split; [lia|done].
  - intros w1 dk Hnf (D1 & H1 & _). apply wp_ret. exists d, []. split; [done|]. split; [done|].
    split; [constructor; [by left|constructor]|]. split; [lia|done].
Qed.

Lemma ex_disk_ok : disk_ok ex_geometry ex_disk ex_hp ex_hs ex_arr ex_arr.
Proof.
  constructor; [exact ex_layout|split; vm_compute; reflexivity|vm_compute; reflexivity|exact ex_sig|exact ex_sealed|].
  split; vm_compute; reflexivity.
Qed.

Lemma gpt_disk_commit_valid_witness :
  wp (load_edit_commit "boot_a" (exchange 128 (0, 1)%nat) (fun a => a)) (fun r w' =>
    exists d' snaps, devs w' = <[BLK_DEV_FILE := d']> (devs ex_world) /\
      hist w' = hist ex_world ++ ((fun x => (BLK_DEV_FILE, x)) <$> snaps) /\
      Forall (fun x => bootable x 512) (d' :: snaps) /\
      (r = 0 -> (exists hp' hs', disk_ok ex_geometry d' hp' hs' (exchange 128 (0, 1)%nat ex_arr) ex_arr) /\
                frame [(512, 512); (1024, 512); (1536, 512); (2560 - 512, 512)] ex_disk d') /\
      (no_faults -> r = 0)) ex_world.
Proof.
  apply (gpt_disk_commit_valid ex_laws BLK_DEV_FILE "boot_a" (ex_io _) ex_geometry ex_world ex_disk ex_hp ex_hs
    ex_arr ex_arr (exchange 128 (0, 1)%nat) (fun a => a) ex_geometry_ok eq_refl ex_dev eq_refl ex_disk_ok);
    vm_compute; reflexivity.
Defined.

(** ** The heap *)

(** Heap use of the header operations without faults: [gpt_get_state] and
    [gpt2_set_boot_chain] free every block they allocate, but each successful
    [gpt_set_state] leaks its header block (its success path returns without
    [free]). *)
Theorem gpt_header_ops_leak `{E : Env} (L : EnvLaws E) (fd : string) (Hio : io_blocks fd)
    (g : geometry) (w : World) (d hp hs : buf) (gpt : gpt_instance) (state : gpt_state) (boot : boot_chain) :
  geometry_ok g -> g_bs g = u32 (env_blksz fd) -> no_faults -> devs w !! fd = Some d -> layout g d hp hs ->
  sealed hp -> sealed hs -> arr_ok d (g_bs g) hp -> state <> GPT_BAD_CRC ->
  wp (gpt_get_state fd gpt) (fun _ w' => blocks w' = blocks w) w /\
  wp (gpt2_set_boot_chain fd boot) (fun _ w' => blocks w' = blocks w) w /\
  wp (gpt_set_state fd gpt state) (fun r w' => r = 0 /\ blocks w' = blocks w + 1) w.
Proof.
  intros Hg Hgbs Hnf Hd Hlay Sp Ss Ap Hne. pose proof (steps_refl fd d w Hd) as S0.
  assert (Hb : forall d' s w', steps fd d' s 0 w w' -> blocks w' = blocks w).
  { intros d' s w' (_ & _ & B). lia. }
  split; [|split].
  - eapply wp_state; [exact L|exact Hio|exact Hg|exact Hgbs|exact S0|exact Hlay| |done].
    intros w' S. by eapply Hb.
  - pose proof Ap as (st & n & arr & A1 & A2 & A3 & A4).
    rewrite (hl_start _ _ _ (lay_php _ _ _ _ Hlay)) in A1. injection A1 as <-.
    rewrite (hl_size _ _ _ (lay_php _ _ _ _ Hlay)) in A2. injection A2 as <-.
    eapply wp_chain; [exact Hio|exact Hg|exact Hgbs|exact S0|exact Hlay|exact Sp|exact Ap|exact A3| | |done].
    + intros w' r _ _ S. by eapply Hb.
    + intros w' arr' hs' dh dn _ S _ _ _ _ _ _ _. by eapply Hb.
  - eapply wp_restate; [exact Hio|exact Hg|exact Hgbs|exact S0|done..|].
    intros w' d' h' hp' hs' (_ & _ & B) _ _ _ _ _ _ _. split; [split; [done|lia]|done].
Qed.

Lemma gpt_header_ops_leak_witness :
  wp (gpt_set_state BLK_DEV_FILE PRIMARY_GPT GPT_OK) (fun r w' => r = 0 /\ blocks w' = 0 + 1) ex_world.
Proof.
  destruct ex_sealed as [S1 S2], ex_arr_ok as [A1 A2].
  assert (Hne : GPT_OK <> GPT_BAD_CRC) by discriminate.
  exact (proj2 (proj2 (gpt_header_ops_leak ex_laws BLK_DEV_FILE (ex_io _) ex_geometry ex_world ex_disk ex_hp ex_hs
    PRIMARY_GPT GPT_OK NORMAL_BOOT ex_geometry_ok eq_refl ex_no_faults ex_dev ex_layout S1 S2 A1 Hne))).
Defined.

(** A header whose size field exceeds the block. *)
Definition oversize_header : buf :=
  str_bytes "EFI PART" ++ [0; 0; 1; 0] ++ put4 513 ++ zeros 496.
Definition oversize_world : World :=
  MkWorld {[ BLK_DEV_FILE := zeros 512 ++ oversize_header ++ zeros 1536 ]} 0 [] 0 0 "" false [].

(** The header size field is not validated: on a disk whose primary header
    claims 513 bytes in a 512-byte block, [gpt_get_state], which is meant to detect
    corrupt headers, reads past its buffer, and so does [prepare_partitions]. *)
Theorem gpt_get_state_oversize :
  gpt_get_state BLK_DEV_FILE PRIMARY_GPT oversize_world = None /\
  prepare_partitions UPDATE_MAIN (Some BLK_DEV_FILE) oversize_world = None.
Proof. split; vm_compute; reflexivity. Qed.
