(* ===== verification/GptNames.v ===== *)
(** * Names, devices and the boot LUN

    [gpt_utils_get_partition_map] as a grouping of the partitions by device, and
    the UFS request behind [gpt_utils_set_xbl_boot_partition]. *)
From Stdlib Require Import Sorted.
From S2P Require Import Prelude Bytes BlockDev UfsBsg GptUtils GptExample.

(** ** String order *)
Lemma ascii_compare_lt_trans a b c :
  Ascii.compare a b = Lt -> Ascii.compare b c = Lt -> Ascii.compare a c = Lt.
Proof. unfold Ascii.compare. rewrite !N.compare_lt_iff. lia. Qed.

Lemma string_compare_refl s : String.compare s s = Eq.
Proof.
  induction s as [|x s IH]; simpl; [done|]. unfold Ascii.compare. by rewrite N.compare_refl.
Qed.

Lemma string_compare_lt_trans a b c :
  String.compare a b = Lt -> String.compare b c = Lt -> String.compare a c = Lt.
Proof.
  revert b c. induction a as [|x a IH]; intros [|y b] [|z c]; simpl; try done.
  destruct (Ascii.compare x y) eqn:E1; try done.
  - apply Ascii.compare_eq_iff in E1. subst x. destruct (Ascii.compare y z); try done. apply IH.
  - intros _. destruct (Ascii.compare y z) eqn:E2; try done.
    + apply Ascii.compare_eq_iff in E2. subst z. by rewrite E1.
    + by rewrite (ascii_compare_lt_trans _ _ _ E1 E2).
Qed.

Lemma string_compare_gt a b : String.compare a b = Gt -> String.compare b a = Lt.
Proof. intros H. rewrite String.compare_antisym, H. done. Qed.

Definition string_lt (a b : string) : Prop := String.compare a b = Lt.

(** ** The map *)
Fixpoint map_get (m : ptn_map) (path : string) : option (list string) :=
  match m with
  | [] => None
  | (k, v) :: m => if bool_decide (path = k) then Some v else map_get m path
  end.

Definition map_sorted (m : ptn_map) : Prop := StronglySorted string_lt m.*1.

Lemma map_get_None m path : Forall (string_lt path) m.*1 -> map_get m path = None.
Proof.
  induction m as [|[k v] m IH]; csimpl; [done|]. intros [Hk Hm]%Forall_cons.
  rewrite bool_decide_false; [by apply IH|]. intros ->. unfold string_lt in Hk.
  by rewrite string_compare_refl in Hk.
Qed.

Lemma map_push_keys m path name (P : string -> Prop) :
  P path -> Forall P m.*1 -> Forall P (map_push m path name).*1.
Proof.
  intros Hp. induction m as [|[k v] m IH]; csimpl; [by constructor|].
  intros [Hk Hm]%Forall_cons. destruct (String.compare path k); csimpl; constructor; auto.
Qed.

Lemma map_push_sorted m path name : map_sorted m -> map_sorted (map_push m path name).
Proof.
  unfold map_sorted. induction m as [|[k v] m IH]; csimpl; [by repeat constructor|].
  intros [Hs Hk]%StronglySorted_inv. destruct (String.compare path k) eqn:E; csimpl.
  - by constructor.
  - constructor; [by constructor|]. constructor; [done|].
    eapply Forall_impl; [exact Hk|]. intros x Hx. by eapply string_compare_lt_trans.
  - constructor; [by apply IH|]. apply map_push_keys; [|done]. by apply string_compare_gt.
Qed.

Lemma map_get_push m path name q :
  map_sorted m ->
  map_get (map_push m path name) q =
  if bool_decide (q = path) then Some (default [] (map_get m path) ++ [name]) else map_get m q.
Proof.
  unfold map_sorted. induction m as [|[k v] m IH]; csimpl.
  - intros _. by case_bool_decide.
  - intros [Hs Hk]%StronglySorted_inv. destruct (String.compare path k) eqn:E; csimpl.
    + apply String.compare_eq_iff in E. subst k. rewrite (bool_decide_true (path = path)) by done.
      by case_bool_decide.
    + assert (path <> k) by (intros ->; by rewrite string_compare_refl in E).
      rewrite (bool_decide_false (path = k)) by done.
      rewrite (map_get_None m path); [by case_bool_decide|].
      eapply Forall_impl; [exact Hk|]. intros x Hx. by eapply string_compare_lt_trans.
    + assert (path <> k) by (intros ->; by rewrite string_compare_refl in E).
      rewrite (bool_decide_false (path = k)) by done. rewrite IH by done.
      repeat case_bool_decide; congruence.
Qed.

(** The partitions of [ptn_list] on the device [path], in order. *)
Definition on_device `{Env} (path : string) (ptn_list : list string) : list string :=
  filter (fun n => get_dev_path_from_partition_name (Some n) PATH_MAX = Some path) ptn_list.

Lemma partition_map_loop_spec `{Env} ptn_list m path :
  map_sorted m ->
  map_sorted (partition_map_loop ptn_list m) /\
  map_get (partition_map_loop ptn_list m) path =
    match on_device path ptn_list with [] => map_get m path | l => Some (default [] (map_get m path) ++ l) end.
Proof.
  revert m. induction ptn_list as [|n l IH]; intros m Hm; [done|].
  cbn [partition_map_loop]. unfold on_device. rewrite filter_cons.
  destruct (get_dev_path_from_partition_name (Some n) PATH_MAX) as [p|] eqn:Ep.
  - destruct (IH (map_push m p n) (map_push_sorted _ _ _ Hm)) as [H1 H2]. split; [done|].
    rewrite H2, map_get_push by done. fold (on_device path l).
    case_decide as Hd.
    + injection Hd as ->. rewrite bool_decide_true by done. destruct (on_device path l); simpl; [done|].
      by rewrite <- app_assoc.
    + by rewrite bool_decide_false by congruence.
  - rewrite decide_False by done. by apply IH.
Qed.

(** [gpt_utils_get_partition_map] groups the given partitions by the device
    that holds them: starting from an empty map the keys come out in increasing
    order without duplicates, a device maps to exactly the listed partitions that
    resolve to it, in list order, and partitions that resolve to no device are
    dropped. *)
Theorem gpt_utils_get_partition_map_spec `{Env} (ptn_list : list string) (path : string) :
  ptn_list <> [] ->
  let '(r, m) := gpt_utils_get_partition_map ptn_list [] in
  r = 0 /\ map_sorted m /\
  map_get m path = match on_device path ptn_list with [] => None | l => Some l end.
Proof.
  intros Hne. unfold gpt_utils_get_partition_map. destruct ptn_list as [|n l]; [done|]. simpl length.
  cbn [Nat.ltb Nat.leb]. split; [done|].
  destruct (partition_map_loop_spec (n :: l) [] path) as [H1 H2]; [by constructor|]. split; [done|].
  rewrite H2. by destruct (on_device path (n :: l)).
Qed.

Lemma gpt_utils_get_partition_map_spec_witness :
  map_get (gpt_utils_get_partition_map ["boot_a"; "rpm"]%string []).2 BLK_DEV_FILE = Some ["boot_a"; "rpm"]%string.
Proof.
  assert (Hne : ["boot_a"; "rpm"]%string <> []) by discriminate.
  exact (proj2 (proj2 (gpt_utils_get_partition_map_spec ["boot_a"; "rpm"]%string BLK_DEV_FILE Hne))).
Defined.

(** ** The boot LUN *)
Section lun.
Context `{E : Env}.
(** POSIX: [errno] is not zero after a failed call. *)
Hypothesis Herrno : forall t, env_errno t <> 0.

Definition ufs_same (w w' : World) : Prop :=
  bsg_log w' = bsg_log w /\ fd_ufs_bsg w' = fd_ufs_bsg w /\ fds w' = fds w.

Lemma ufs_same_trans w1 w2 w3 : ufs_same w1 w2 -> ufs_same w2 w3 -> ufs_same w1 w3.
Proof. unfold ufs_same. intuition congruence. Qed.

Lemma wp_get_ufs_bsg_dev w : wp get_ufs_bsg_dev (fun _ w' => ufs_same w w') w.
Proof.
  unfold get_ufs_bsg_dev, sys_ok, tick. wp_run. unfold wp at 1. simpl. wp_run.
  destruct (if env_ok (ticks w) then env_listdir "/dev" else None) as [names|]; [destruct (find_bsg names)|];
    wp_run; by repeat split.
Qed.

Lemma wp_ufs_bsg_dev_open w :
  fd_ufs_bsg w = false ->
  wp ufs_bsg_dev_open (fun r w' => bsg_log w' = bsg_log w /\
    (r = 0 /\ fd_ufs_bsg w' = true /\ fds w' = 1 + fds w \/ r <> 0 /\ ufs_same w w')) w.
Proof.
  intros Hf. unfold ufs_bsg_dev_open, tick. wp_run; [congruence|]. unfold wp. simpl.
  destruct (env_ok (ticks w)); simpl; [by auto|]. split; [done|]. right. by split.
Qed.

(** The request that makes [lun] the boot LUN. *)
Definition boot_lun_request (lun : Z) : ufs_bsg_request :=
  compose_ufs_bsg_query_req (htobe32 lun) QUERY_REQ_FUNC_STD_WRITE QUERY_REQ_OP_WRITE_ATTR
    QUERY_ATTR_IDN_BOOT_LU_EN 0 0 0.

Lemma wp_ufs_query lun w :
  wp (ufs_query_attr lun QUERY_REQ_FUNC_STD_WRITE QUERY_REQ_OP_WRITE_ATTR QUERY_ATTR_IDN_BOOT_LU_EN 0 0)
    (fun r w' => fd_ufs_bsg w' = fd_ufs_bsg w /\ fds w' = fds w /\
       bsg_log w' = bsg_log w ++ (if r =? 0 then [boot_lun_request lun] else [])) w.
Proof.
  unfold ufs_query_attr, ufs_bsg_ioctl, tick. wp_run. unfold wp at 1. simpl.
  destruct (env_sgio (ticks w)) as [ret err]. apply wp_bind.
  destruct err; simpl; rewrite ?andb_false_r, ?andb_true_r; [apply wp_ret, wp_ret; simpl; by rewrite app_nil_r|].
  destruct (ret =? 0) eqn:Er; [apply wp_modify|apply wp_ret]; apply wp_ret; rewrite Er; simpl; [done|].
  by rewrite app_nil_r.
Qed.

Lemma wp_set_boot_lun_log lun w :
  fd_ufs_bsg w = false ->
  wp (set_boot_lun lun) (fun r w' => fd_ufs_bsg w' = false /\ fds w' = fds w /\
    bsg_log w' = bsg_log w ++ (if r =? 0 then [boot_lun_request lun] else [])) w.
Proof.
  intros Hf. unfold set_boot_lun. apply wp_bind.
  eapply wp_conseq; [apply wp_get_ufs_bsg_dev|]. intros r w1 (L1 & F1 & D1).
  assert (Hsame : forall r w', r <> 0 -> ufs_same w w' -> fd_ufs_bsg w' = false /\ fds w' = fds w /\
    bsg_log w' = bsg_log w ++ (if r =? 0 then [boot_lun_request lun] else [])).
  { intros r' w' Hr (L & F & D). rewrite (proj2 (Z.eqb_neq r' 0) Hr), app_nil_r. by rewrite F, Hf. }
  destruct (Z.eqb_spec r 0) as [->|Hr]; cbn [negb].
  2:{ apply wp_ret, Hsame; [done|by repeat split]. }
  apply wp_bind. eapply wp_conseq; [apply wp_ufs_bsg_dev_open; congruence|].
  intros r w2 (L2 & [(-> & F2 & D2)|(Hr & S2)]).
  2:{ rewrite (proj2 (Z.eqb_neq r 0) Hr). cbn [negb]. apply wp_ret, Hsame; [done|].
      apply (ufs_same_trans _ w1); [by repeat split|done]. }
  cbn [negb Z.eqb]. apply wp_bind. eapply wp_conseq; [apply wp_ufs_query|].
  intros r w3 (F3 & D3 & L3). apply wp_bind. unfold ufs_bsg_dev_close, close. wp_step. wp_step.
  rewrite F3, F2. wp_run. simpl. split; [done|]. split; [lia|]. by rewrite L3, L2, L1.
Qed.

Definition lun_of (chain : boot_chain) : Z :=
  match chain with BACKUP_BOOT => BOOT_LUN_B_ID | NORMAL_BOOT => BOOT_LUN_A_ID end.

(** [gpt_utils_set_xbl_boot_partition] either succeeds, having made the UFS
    device execute exactly one request, a write of the boot-LUN attribute with the
    LUN of the chain (1 for normal, 2 for backup) in big-endian order, or returns
    -1 without any request; it always closes the BSG node it opened, and succeeds
    only if both partitions of an XBL pair exist. *)
Theorem gpt_utils_set_xbl_boot_partition_spec (chain : boot_chain) (w : World) :
  fd_ufs_bsg w = false ->
  wp (gpt_utils_set_xbl_boot_partition chain) (fun r w' =>
    (r = 0 /\ bsg_log w' = bsg_log w ++ [boot_lun_request (lun_of chain)] /\
       (env_stat XBL_PRIMARY && env_stat XBL_BACKUP || env_stat XBL_AB_PRIMARY && env_stat XBL_AB_SECONDARY) = true
     \/ r = -1 /\ bsg_log w' = bsg_log w) /\
    fd_ufs_bsg w' = false /\ fds w' = fds w) w.
Proof.
  intros Hf.
  assert (Hfail : forall w', ufs_same w w' -> (-1 = 0 /\ bsg_log w' = bsg_log w ++ [boot_lun_request (lun_of chain)] /\
       (env_stat XBL_PRIMARY && env_stat XBL_BACKUP || env_stat XBL_AB_PRIMARY && env_stat XBL_AB_SECONDARY) = true
     \/ -1 = -1 /\ bsg_log w' = bsg_log w) /\ fd_ufs_bsg w' = false /\ fds w' = fds w).
  { intros w' (L & F & D). split; [by right|]. by rewrite F. }
  unfold gpt_utils_set_xbl_boot_partition.
  set (p := match chain with BACKUP_BOOT => _ | NORMAL_BOOT => _ end).
  assert (Hp : p.1 = lun_of chain) by (by destruct chain).
  destruct p as [lun [bd|]]; simpl in Hp; subst lun; [|by apply wp_ret, Hfail].
  destruct ((negb (env_stat XBL_PRIMARY) || negb (env_stat XBL_BACKUP)) &&
     (negb (env_stat XBL_AB_PRIMARY) || negb (env_stat XBL_AB_SECONDARY))) eqn:Hex; [by apply wp_ret, Hfail|].
  apply wp_bind. eapply wp_conseq with (Q := fun _ w' => ufs_same w w').
  { unfold get_scsi_node_from_bootdevice, sys_ok, tick.
    destruct (env_readlink bd); [|by apply wp_ret]. cbv zeta.
    do 2 (destruct (_ <? _)%nat; [by apply wp_ret|]). wp_run. unfold wp at 1. cbn [tick]. wp_run.
    repeat match goal with |- wp (match ?x with _ => _ end) _ _ => destruct x end; wp_run; by repeat split. }
  intros [r sg] w1 S1. destruct (negb (r =? 0)); [by apply wp_ret, Hfail|].
  apply wp_bind. destruct S1 as (L1 & F1 & D1).
  eapply wp_conseq; [apply wp_set_boot_lun_log; congruence|]. intros r' w2 (F2 & D2 & L2).
  destruct (r' =? 0); apply wp_ret.
  - split; [left|split; congruence]. split; [done|]. split; [by rewrite L2, L1|].
    apply Bool.andb_false_iff in Hex. rewrite !orb_false_iff, !negb_false_iff in Hex.
    destruct Hex as [[-> ->]|[-> ->]]; [done|by rewrite orb_true_r].
  - apply Hfail. rewrite app_nil_r in L2. repeat split; congruence.
Qed.
End lun.

(** A UFS device with an XBL pair. *)
Definition ufs_env : Env := {|
  env_ok := fun _ => true; env_errno := fun _ => 5; env_io := fun _ len => (true, len);
  env_junk := fun _ _ => 0; env_blksz := fun _ => 512;
  env_stat := fun p => bool_decide (p = XBL_PRIMARY) || bool_decide (p = XBL_BACKUP);
  env_readlink := fun _ => Some "/dev/block/sdb1"%string;
  env_listdir := fun p => if bool_decide (p = "/dev"%string) then Some ["null"; "ufs-bsg0"]%string else Some ["."; "sg2"]%string;
  env_property := fun _ => Some "1d84000.ufshc"%string;
  env_sgio := fun _ => (0, false); env_crc32 := fun _ _ => 0; env_crc_init := 0;
|}.

Lemma gpt_utils_set_xbl_boot_partition_spec_witness :
  (match @gpt_utils_set_xbl_boot_partition ufs_env BACKUP_BOOT ex_world with
   | Some (r, w') => r = 0 /\ qr_value <$> bsg_log w' = [0x02000000] | None => False end) /\
  wp (@gpt_utils_set_xbl_boot_partition ufs_env NORMAL_BOOT) (fun r w' =>
    (r = 0 /\ bsg_log w' = bsg_log ex_world ++ [boot_lun_request 1] /\
       (@env_stat ufs_env XBL_PRIMARY && @env_stat ufs_env XBL_BACKUP ||
        @env_stat ufs_env XBL_AB_PRIMARY && @env_stat ufs_env XBL_AB_SECONDARY) = true
     \/ r = -1 /\ bsg_log w' = bsg_log ex_world) /\
    fd_ufs_bsg w' = false /\ fds w' = fds ex_world) ex_world.
Proof.
  split; [vm_compute; by split|].
  assert (Herrno : forall t, @env_errno ufs_env t <> 0) by (intros t; discriminate).
  exact (@gpt_utils_set_xbl_boot_partition_spec ufs_env Herrno NORMAL_BOOT ex_world eq_refl).
Defined.
