(* ===== verification/BootControl.v ===== *)
(** * The boot control ([src/bootctrl/1.1])

    Slots, their attributes and the switch of the active slot, over the GPT code
    ([libboot_control_qti.cpp]), and the HIDL wrapper ([impl/BootControl.cpp]).
    The bootloader-message library is not part of the repository: it is the class
    [Misc]. *)
From S2P Require Import Prelude Bytes BlockDev UfsBsg GptUtils.

(** The bootloader message and virtual A/B library: the message is a byte object
    whose [reserved] field starts at [misc_reserved]. *)
Class Misc := {
  misc_blk_device : string;
  misc_reserved : Z;
  misc_size : Z;
  misc_read : buf -> option buf;            (** device contents to message *)
  misc_write : buf -> buf -> option buf;    (** message and device to device *)
  misc_init : bool;                         (** [InitMiscVirtualAbMessageIfNeeded] *)
  misc_set_merge : Z -> Z -> bool;          (** [SetMiscVirtualAbMergeStatus(slot, status)] *)
  misc_get_merge : Z -> option Z;           (** [GetMiscVirtualAbMergeStatus] *)
  misc_unknown : Z;                         (** [MergeStatus::UNKNOWN] *)
}.

Definition AB_SLOT_A_SUFFIX : string := "_a".
Definition AB_SLOT_B_SUFFIX : string := "_b".
Definition BOOT_IMG_PTN_NAME : string := "boot".
Definition BOOT_SLOT_PROP : string := "ro.boot.slot_suffix".
Definition BOARD_PLATFORM_PROP : string := "ro.build.product".
Definition GVMQ_PLATFORM : string := "msmnile_gvmq".
Abbreviation AB_PARTITION_ATTR_SLOT_ACTIVE := 4.
Abbreviation AB_PARTITION_ATTR_BOOT_SUCCESSFUL := 0x40.
Abbreviation AB_PARTITION_ATTR_UNBOOTABLE := 0x80.
Abbreviation AB_SLOT_ACTIVE_VAL := 0x3F.

Inductive part_attr_type := ATTR_SLOT_ACTIVE | ATTR_BOOT_SUCCESSFUL | ATTR_UNBOOTABLE.
Definition attr_mask (a : part_attr_type) : Z :=
  match a with
  | ATTR_SLOT_ACTIVE => AB_PARTITION_ATTR_SLOT_ACTIVE
  | ATTR_BOOT_SUCCESSFUL => AB_PARTITION_ATTR_BOOT_SUCCESSFUL
  | ATTR_UNBOOTABLE => AB_PARTITION_ATTR_UNBOOTABLE
  end.
Inductive BoolResult := BR_FALSE | BR_TRUE | INVALID_SLOT.

Section boot.
Context `{E : Env} `{X : Misc}.
(** The global [mGvmqPlatform], set once by [bootcontrol_init]. *)
Context (mGvmqPlatform : bool).

Abbreviation M := (CM World).

(** [slot_suffix_arr\[slot\]]: [Some None] is the terminating NULL; beyond it the
    access is undefined. *)
Definition slot_suffix_arr (slot : Z) : M (option string) :=
  if slot =? 0 then mret (Some AB_SLOT_A_SUFFIX)
  else if slot =? 1 then mret (Some AB_SLOT_B_SUFFIX)
  else if slot =? 2 then mret None
  else undef.

(** ** Attributes *)
Definition get_partition_attribute (partname : option string) (part_attr : part_attr_type) : M Z :=
  match partname with None => mret (-1) | Some partname =>
  disk ← gpt_disk_alloc;
  match disk with None => mret (-1) | Some disk =>
  '(r, disk) ← gpt_disk_get_disk_info (Some partname) (Some disk);
  if negb (r =? 0) then _ ← gpt_disk_free disk; mret (-1) else
  pentry ← gpt_disk_get_pentry disk (Some partname) PRIMARY_GPT;
  match pentry with None => _ ← gpt_disk_free disk; mret (-1) | Some pentry =>
  d ← deref disk; arr ← deref (pentry_arr d);
  attr ← deref (rd arr (pentry + AB_FLAG_OFFSET));
  _ ← gpt_disk_free disk;
  mret (if Z.land attr (attr_mask part_attr) =? 0 then 0 else 1)
  end end end.

(** Both versions of a partition exist. *)
Definition ab_exists (name : string) : bool :=
  env_stat (snprintf (PATH_MAX - 1) (BOOT_DEV_DIR +:+ "/" +:+ name +:+ AB_SLOT_A_SUFFIX)) &&
  env_stat (snprintf (PATH_MAX - 1) (BOOT_DEV_DIR +:+ "/" +:+ name +:+ AB_SLOT_B_SUFFIX)).

(** [char partName\[MAX_GPT_NAME_SIZE + 1\]; snprintf(partName, sizeof(partName) - 1, ...)] *)
Definition part_name (prefix suffix : string) : string := snprintf 72 (prefix +:+ suffix).

(** The attribute bytes of an entry in the two arrays; the backup byte of
    [ATTR_SLOT_ACTIVE] is computed from the primary one. *)
Definition mark_entry (ab_attr : part_attr_type) (arr arr_bak : buf) (pentry pentry_bak : Z) : option (buf * buf) :=
  attr ← rd arr (pentry + AB_FLAG_OFFSET);
  let attr' := Z.lor attr (attr_mask ab_attr) in
  arr ← wr arr (pentry + AB_FLAG_OFFSET) attr';
  attr_bak ← rd arr_bak (pentry_bak + AB_FLAG_OFFSET);
  let attr_bak' := match ab_attr with
    | ATTR_SLOT_ACTIVE => Z.lor attr' (attr_mask ab_attr)
    | _ => Z.lor attr_bak (attr_mask ab_attr) end in
  arr_bak ← wr arr_bak (pentry_bak + AB_FLAG_OFFSET) attr_bak';
  Some (arr, arr_bak).

(** One partition of [update_slot_attribute]. *)
Definition update_partition_attribute (partName : string) (ab_attr : part_attr_type) : M Z :=
  disk ← gpt_disk_alloc;
  match disk with None => mret (-1) | Some disk =>
  '(rc, disk) ← gpt_disk_get_disk_info (Some partName) (Some disk);
  if negb (rc =? 0) then _ ← gpt_disk_free disk; mret (-1) else
  pentry ← gpt_disk_get_pentry disk (Some partName) PRIMARY_GPT;
  pentry_bak ← gpt_disk_get_pentry disk (Some partName) SECONDARY_GPT;
  match pentry, pentry_bak with
  | Some pentry, Some pentry_bak =>
      d ← deref disk; arr ← deref (pentry_arr d); arr_bak ← deref (pentry_arr_bak d);
      '(arr, arr_bak) ← deref (mark_entry ab_attr arr arr_bak pentry pentry_bak);
      '(r, disk) ← gpt_disk_update_crc (Some (with_arr (Some arr) (with_arr_bak (Some arr_bak) d)));
      if negb (r =? 0) then _ ← gpt_disk_free disk; mret (-1) else
      r ← gpt_disk_commit disk;
      _ ← gpt_disk_free disk;
      mret (if r =? 0 then 0 else -1)
  | _, _ => _ ← gpt_disk_free disk; mret (-1)
  end end.

Fixpoint update_partitions (ptn_list : list string) (slot : string) (ab_attr : part_attr_type) : M Z :=
  match ptn_list with
  | [] => mret 0
  | n :: ptn_list =>
      if ab_exists n then
        r ← update_partition_attribute (part_name n slot) ab_attr;
        if r =? 0 then update_partitions ptn_list slot ab_attr else mret (-1)
      else update_partitions ptn_list slot ab_attr
  end.

Definition slot_name_valid (slot : string) : bool :=
  String.prefix AB_SLOT_A_SUFFIX slot || String.prefix AB_SLOT_B_SUFFIX slot.

Definition update_slot_attribute (slot : option string) (ab_attr : part_attr_type) : M Z :=
  match slot with
  | None => mret (-1)
  | Some slot => if slot_name_valid slot then update_partitions AB_PTN_LIST slot ab_attr else mret (-1)
  end.

(** ** Slots *)
Definition get_number_slots : M Z :=
  if mGvmqPlatform then mret 2 else
  ok ← sys_ok;
  match (if ok : bool then env_listdir BOOT_DEV_DIR else None) with
  | None => mret 0
  | Some names => mret (Z.of_nat (length (filter (fun d =>
      String.prefix "." d = false /\ String.prefix BOOT_IMG_PTN_NAME d = true) names)))
  end.

Definition boot_control_check_slot_sanity (slot : Z) : M Z :=
  num_slots ← get_number_slots;
  mret (if (num_slots <? 1) || (num_slots - 1 <? slot) then -1 else 0).

Definition get_current_slot : M Z :=
  num_slots ← get_number_slots;
  if num_slots <=? 1 then mret 0 else
  let bootSlotProp := default "N/A"%string (env_property BOOT_SLOT_PROP) in
  if String.prefix "N/A" bootSlotProp then mret 0
  else if String.prefix AB_SLOT_A_SUFFIX bootSlotProp then mret 0
  else if String.prefix AB_SLOT_B_SUFFIX bootSlotProp then mret 1
  else mret 0.

(** ** Switching the active slot *)

(** [boot_ctl_get_disk_info] *)
Definition boot_ctl_get_disk_info (partition : option string) : M (option gpt_disk) :=
  match partition with None => mret None | Some partition =>
  disk ← gpt_disk_alloc;
  match disk with None => mret None | Some disk =>
  '(r, disk) ← gpt_disk_get_disk_info (Some partition) (Some disk);
  if negb (r =? 0) then _ ← gpt_disk_free disk; mret None else mret disk
  end end.

(** [UPDATE_SLOT(pentry, guid, slot_state)] on the array that holds the entry. *)
Definition UPDATE_SLOT (arr : buf) (pentry : Z) (guid : buf) (active : bool) : option buf :=
  arr ← splice arr pentry guid;
  if active then wr arr (pentry + AB_FLAG_OFFSET) AB_SLOT_ACTIVE_VAL else
  v ← rd arr (pentry + AB_FLAG_OFFSET);
  wr arr (pentry + AB_FLAG_OFFSET) (Z.land v (Z.lnot AB_PARTITION_ATTR_SLOT_ACTIVE)).

(** [UPDATE_SLOT] on both tables of a handle. *)
Definition update_both (d : gpt_disk) (pentry pentry_bak : Z) (guid : buf) (active : bool) : option gpt_disk :=
  arr ← pentry_arr d; arr_bak ← pentry_arr_bak d;
  arr ← UPDATE_SLOT arr pentry guid active;
  arr_bak ← UPDATE_SLOT arr_bak pentry_bak guid active;
  Some (with_arr (Some arr) (with_arr_bak (Some arr_bak) d)).

(** [if (!disk) disk = boot_ctl_get_disk_info(name);] *)
Definition ensure_disk (disk : option gpt_disk) (name : string) : M (option gpt_disk) :=
  match disk with Some d => mret (Some d) | None => boot_ctl_get_disk_info (Some name) end.

(** The end of a failed call: [if (diskA) free; if (diskB) free; return -1]. *)
Definition fail_disks (diskA diskB : option gpt_disk) : M Z :=
  _ ← gpt_disk_free diskA; _ ← gpt_disk_free diskB; mret (-1).

(** One partition: the handles with the switched entries, or -1 with the handles
    to free. *)
Definition switch_entries (suffix : option string) (slotA slotB : string) (diskA diskB : gpt_disk)
    : M (option (gpt_disk * gpt_disk)) :=
  pentryA ← gpt_disk_get_pentry (Some diskA) (Some slotA) PRIMARY_GPT;
  pentryA_bak ← gpt_disk_get_pentry (Some diskA) (Some slotA) SECONDARY_GPT;
  pentryB ← gpt_disk_get_pentry (Some diskB) (Some slotB) PRIMARY_GPT;
  pentryB_bak ← gpt_disk_get_pentry (Some diskB) (Some slotB) SECONDARY_GPT;
  match pentryA, pentryA_bak, pentryB, pentryB_bak with
  | Some pA, Some pA', Some pB, Some pB' =>
      arrA ← deref (pentry_arr diskA); arrB ← deref (pentry_arr diskB);
      guidA ← deref (slice arrA pA TYPE_GUID_SIZE);
      guidB ← deref (slice arrB pB TYPE_GUID_SIZE);
      activeA ← get_partition_attribute (Some slotA) ATTR_SLOT_ACTIVE;
      activeB ← (if activeA =? 1 then mret 0 else get_partition_attribute (Some slotB) ATTR_SLOT_ACTIVE);
      if negb (activeA =? 1) && negb (activeB =? 1) then mret None else
      let active_guid := if activeA =? 1 then guidA else guidB in
      let inactive_guid := if activeA =? 1 then guidB else guidA in
      sfx ← deref suffix;         (* strncmp of NULL *)
      if String.prefix AB_SLOT_A_SUFFIX sfx then
        dA ← deref (update_both diskA pA pA' active_guid true);
        dB ← deref (update_both diskB pB pB' inactive_guid false);
        mret (Some (dA, dB))
      else if String.prefix AB_SLOT_B_SUFFIX sfx then
        dB ← deref (update_both diskB pB pB' active_guid true);
        dA ← deref (update_both diskA pA pA' inactive_guid false);
        mret (Some (dA, dB))
      else mret None
  | _, _, _, _ => mret None
  end.

(** Drop the two-character suffix of a partition name. *)
Definition chop_suffix (name : string) : string := String.substring 0 (String.length name - 2) name.

Definition set_active_one (name : string) (slot : Z) (diskA diskB : option gpt_disk)
    : M (bool * (option gpt_disk * option gpt_disk)) :=
  if (String.length name <? 3)%nat then mret (false, (diskA, diskB)) else
  let prefix := chop_suffix name in
  if negb (ab_exists prefix) then mret (true, (diskA, diskB)) else
  let slotA := part_name prefix AB_SLOT_A_SUFFIX in
  let slotB := part_name prefix AB_SLOT_B_SUFFIX in
  diskA ← ensure_disk diskA slotA;
  match diskA with None => mret (false, (None, diskB)) | Some dA =>
  diskB ← ensure_disk diskB slotB;
  match diskB with None => mret (false, (Some dA, None)) | Some dB =>
  suffix ← slot_suffix_arr slot;
  s ← switch_entries suffix slotA slotB dA dB;
  match s with None => mret (false, (Some dA, Some dB)) | Some (dA, dB) =>
  '(r, diskA) ← gpt_disk_update_crc (Some dA);
  if negb (r =? 0) then mret (false, (diskA, Some dB)) else
  '(r, diskB) ← gpt_disk_update_crc (Some dB);
  mret (r =? 0, (diskA, diskB))
  end end end.

Fixpoint set_active_loop (part_list : list string) (slot : Z) (diskA diskB : option gpt_disk)
    : M (bool * (option gpt_disk * option gpt_disk)) :=
  match part_list with
  | [] => mret (true, (diskA, diskB))
  | n :: part_list =>
      '(ok, (diskA, diskB)) ← set_active_one n slot diskA diskB;
      if ok : bool then set_active_loop part_list slot diskA diskB else mret (false, (diskA, diskB))
  end.

(** The final commits.  When the second fails, [error:] frees the handle of the
    first again, which has been freed: undefined. *)
Definition commit_disks (diskA diskB : option gpt_disk) : M Z :=
  rA ← (match diskA with Some _ => gpt_disk_commit diskA | None => mret 0 end);
  if negb (rA =? 0) then fail_disks diskA diskB else
  _ ← gpt_disk_free diskA;
  rB ← (match diskB with Some _ => gpt_disk_commit diskB | None => mret 0 end);
  if negb (rB =? 0) then (match diskA with Some _ => undef | None => fail_disks None diskB end) else
  _ ← gpt_disk_free diskB;
  mret 0.

Definition boot_ctl_set_active_slot_for_partitions (part_list : list string) (slot : Z) : M Z :=
  '(ok, (diskA, diskB)) ← set_active_loop part_list slot None None;
  if negb ok then fail_disks diskA diskB else commit_disks diskA diskB.

Fixpoint set_active_devices (m : ptn_map) (slot : Z) : M Z :=
  match m with
  | [] => mret 0
  | (_, l) :: m =>
      if (length l <? 1)%nat then set_active_devices m slot else
      r ← boot_ctl_set_active_slot_for_partitions l slot;
      if r =? 0 then set_active_devices m slot else mret (-1)
  end.

(** ** The bootloader message (gvmq) *)
Definition read_message : M (option buf) :=
  ok ← sys_ok; w ← get;
  mret (if ok : bool then d ← devs w !! misc_blk_device; misc_read d else None).
Definition write_message (m : buf) : M bool :=
  ok ← sys_ok; w ← get;
  match (if ok : bool then d ← devs w !! misc_blk_device; misc_write m d else None) with
  | None => mret false
  | Some d' => _ ← modify (set_devs <[misc_blk_device := d']>); mret true
  end.

Definition set_reserved (m : buf) (i c : Z) : option buf := wr m (misc_reserved + i) c.

(** Returns 0 to go on. *)
Definition gvmq_mark_successful : M Z :=
  if bool_decide (misc_blk_device = ""%string) then mret (-1) else
  m ← read_message;
  match m with None => mret (-1) | Some m =>
  m ← deref (set_reserved m 2 121);
  ok ← write_message m;
  if negb ok then mret (-1) else
  v ← read_message;
  match v with None => mret (-1) | Some _ => mret 0 end
  end.

(** The message starts with indeterminate contents. *)
Definition gvmq_set_active (slot : Z) : M Z :=
  if bool_decide (misc_blk_device = ""%string) then mret (-1) else
  current_slot ← get_current_slot;
  num_slots ← get_number_slots;
  if (num_slots <? 1) || (num_slots - 1 <? current_slot) then mret (-1) else
  t ← tick;
  let boot := (fun i => u8 (env_junk t i)) <$> seq 0 (Z.to_nat misc_size) in
  boot ← deref (set_reserved boot 0 (if current_slot =? 0 then 97 else 98));
  boot ← deref (set_reserved boot 1 (if slot =? 0 then 97 else 98));
  boot ← deref (set_reserved boot 2 0);
  ok ← write_message boot;
  if negb ok then mret (-1) else
  v ← read_message;
  match v with None => mret (-1) | Some _ => mret 0 end.

(** ** The interface *)
Definition mark_boot_successful : M Z :=
  g ← (if mGvmqPlatform then gvmq_mark_successful else mret 0);
  if negb (g =? 0) then mret (-1) else
  cur_slot ← get_current_slot;
  suffix ← slot_suffix_arr cur_slot;
  r ← update_slot_attribute suffix ATTR_BOOT_SUCCESSFUL;
  mret (if r =? 0 then 0 else -1).

(** The names of the partitions of the slot. *)
Definition slot_partitions (is_ufs : bool) (suffix : string) : list string :=
  (fun n => n +:+ suffix) <$> filter (fun n => is_ufs && String.prefix PTN_XBL n = false) AB_PTN_LIST.

Definition set_active_boot_slot (slot : Z) : M Z :=
  g ← (if mGvmqPlatform then gvmq_set_active slot else mret 0);
  if negb (g =? 0) then mret (-1) else
  let is_ufs := gpt_utils_is_ufs_device in
  s ← boot_control_check_slot_sanity slot;
  if negb (s =? 0) then mret (-1) else
  suffix ← slot_suffix_arr slot;
  suffix ← deref suffix;          (* string::append(NULL) *)
  let '(r, ptn_map) := gpt_utils_get_partition_map (slot_partitions is_ufs suffix) [] in
  if negb (r =? 0) then mret (-1) else
  r ← set_active_devices ptn_map slot;
  if negb (r =? 0) then mret (-1) else
  if is_ufs then
    rc ← (if String.prefix AB_SLOT_A_SUFFIX suffix then gpt_utils_set_xbl_boot_partition NORMAL_BOOT
          else if String.prefix AB_SLOT_B_SUFFIX suffix then gpt_utils_set_xbl_boot_partition BACKUP_BOOT
          else mret (-1));
    mret (if rc =? 0 then 0 else -1)
  else mret 0.

Definition set_slot_as_unbootable (slot : Z) : M Z :=
  s ← boot_control_check_slot_sanity slot;
  if negb (s =? 0) then mret (-1) else
  suffix ← slot_suffix_arr slot;
  r ← update_slot_attribute suffix ATTR_UNBOOTABLE;
  mret (if r =? 0 then 0 else -1).

Definition is_slot_bootable (slot : Z) : M Z :=
  s ← boot_control_check_slot_sanity slot;
  if negb (s =? 0) then mret (-1) else
  suffix ← slot_suffix_arr slot;
  suffix ← deref suffix;          (* printf("%s", NULL) *)
  attr ← get_partition_attribute (Some (part_name BOOT_IMG_PTN_NAME suffix)) ATTR_UNBOOTABLE;
  mret (if 0 <=? attr then (if attr =? 0 then 1 else 0) else -1).

Definition is_slot_marked_successful (slot : Z) : M Z :=
  s ← boot_control_check_slot_sanity slot;
  if negb (s =? 0) then mret (-1) else
  suffix ← slot_suffix_arr slot;
  suffix ← deref suffix;
  attr ← get_partition_attribute (Some (part_name BOOT_IMG_PTN_NAME suffix)) ATTR_BOOT_SUCCESSFUL;
  mret (if 0 <=? attr then attr else -1).

Definition get_suffix (slot : Z) : M (option string) :=
  s ← boot_control_check_slot_sanity slot;
  if negb (s =? 0) then mret None else slot_suffix_arr slot.

Definition set_snapshot_merge_status (status : Z) : M bool :=
  slot ← get_current_slot;
  let retval := misc_set_merge slot status in
  _ ← get_current_slot;           (* for the log *)
  mret retval.

Definition get_snapshot_merge_status : M Z :=
  slot ← get_current_slot; mret (default misc_unknown (misc_get_merge slot)).

(** ** The HIDL wrapper: [CommandResult.success] and [BoolResult] *)
Definition markBootSuccessful : M bool := ret ← mark_boot_successful; mret (ret =? 0).
Definition setActiveBootSlot (slot : Z) : M bool := ret ← set_active_boot_slot slot; mret (ret =? 0).
Definition setSlotAsUnbootable (slot : Z) : M bool := ret ← set_slot_as_unbootable slot; mret (ret =? 0).
Definition to_BoolResult (ret : Z) : BoolResult :=
  if ret <? 0 then INVALID_SLOT else if ret =? 0 then BR_FALSE else BR_TRUE.
Definition isSlotBootable (slot : Z) : M BoolResult := ret ← is_slot_bootable slot; mret (to_BoolResult ret).
Definition isSlotMarkedSuccessful (slot : Z) : M BoolResult :=
  ret ← is_slot_marked_successful slot; mret (to_BoolResult ret).
Definition getSuffix (slot : Z) : M string := s ← get_suffix slot; mret (default ""%string s).
End boot.

(** [bootcontrol_init]: the platform flag, and the result. *)
Definition bootcontrol_init `{Env} `{Misc} : bool * bool :=
  (String.prefix GVMQ_PLATFORM (default ""%string (env_property BOARD_PLATFORM_PROP)), misc_init).
