(* ===== verification/BootAttr.v ===== *)
(** * Slot attributes

    What [update_slot_attribute] does to the entries, on any number of devices:
    rules for the handle operations of the boot control, the attribute of a
    partition as a view of an entry array, and the effect of marking an entry. *)
From S2P Require Import Prelude Bytes BlockDev UfsBsg GptUtils GptSwap GptSpec GptExec GptDisk BootControl.

(** ** Attributes of an entry array *)
Definition entries_of (g : geometry) : nat := Z.to_nat (g_n g / g_sz g).
Definition entry_ix (g : geometry) (arr : buf) (name : string) : option nat :=
  first_ix (entry_is arr (g_sz g) name) 0 (entries_of g).
Definition attr_in (g : geometry) (arr : buf) (name : string) : option Z :=
  i ← entry_ix g arr name; rd arr (entry_off (g_sz g) i + AB_FLAG_OFFSET).

(** The attribute byte of entry [i] is replaced. *)
Definition put_attr (g : geometry) (arr : buf) (i : nat) (v : Z) : option buf :=
  wr arr (entry_off (g_sz g) i + AB_FLAG_OFFSET) v.

Section attr.
Context (g : geometry) (cnt : nat).

Lemma put_attr_spec arr i v :
  entry_array arr (g_sz g) cnt -> (i < cnt)%nat ->
  exists arr', put_attr g arr i v = Some arr' /\ length arr' = length arr /\
    entry_array arr' (g_sz g) cnt /\
    (forall name j, (j < cnt)%nat -> entry_is arr' (g_sz g) name j = entry_is arr (g_sz g) name j) /\
    (forall j, (j < cnt)%nat -> rd arr' (entry_off (g_sz g) j + AB_FLAG_OFFSET) =
       if decide (i = j) then Some (u8 v) else rd arr (entry_off (g_sz g) j + AB_FLAG_OFFSET)).
Proof.
  intros Ha Hi. pose proof Ha as [Hsz Hl].
  destruct (entry_off_in _ _ _ i Ha Hi) as [H0 H1].
  unfold put_attr, wr.
  destruct (splice_is_Some arr (entry_off (g_sz g) i + AB_FLAG_OFFSET) [u8 v]) as [arr' Harr']; [lia|simpl; lia|].
  pose proof (splice_frame _ _ _ _ Harr') as F. simpl in F.
  exists arr'. split; [done|]. split; [apply F|]. split; [split; [done|by rewrite (proj1 F)]|]. split.
  - intros name j Hj. unfold entry_is, entry_name, name8.
    destruct (entry_off_in _ _ _ j Ha Hj) as [J0 J1].
    assert (Hrd : forall l, (forall k, k ∈ l -> k ∈ seq 0 36) ->
      mapM (fun k => rd arr' (entry_off (g_sz g) j + 56 + 2 * Z.of_nat k)) l =
      mapM (fun k => rd arr (entry_off (g_sz g) j + 56 + 2 * Z.of_nat k)) l); [|by rewrite Hrd].
    induction l as [|k l IH]; intros Hl'; [done|]. cbn [mapM].
    rewrite (frame_rd _ _ _ _ F), IH; [done| |].
    + intros x Hx. apply Hl'. by right.
    + assert (Hk : k ∈ seq 0 36) by (apply Hl'; left). apply elem_of_seq in Hk.
      constructor; [|constructor]. destruct (decide (i = j)) as [->|Hne]; [lia|].
      pose proof (entry_off_disjoint _ i j Hsz Hne). lia.
  - intros j Hj. destruct (entry_off_in _ _ _ j Ha Hj) as [J0 J1]. case_decide as Hd.
    + subst j. unfold rd. rewrite (proj2 (Z.ltb_ge _ 0)) by lia.
      rewrite (splice_lookup _ _ _ _ _ Harr'). simpl length. rewrite decide_True by lia.
      by rewrite Nat.sub_diag.
    + rewrite (frame_rd _ _ _ _ F); [done|]. constructor; [|constructor].
      pose proof (entry_off_disjoint _ i j Hsz Hd). lia.
Qed.
End attr.

(** An or of the attribute of one partition only grows attributes. *)
Definition grows (g : geometry) (arr arr' : buf) : Prop :=
  forall name v, attr_in g arr name = Some v ->
    exists v', attr_in g arr' name = Some v' /\ Z.lor v v' = v'.

Lemma grows_refl g arr : grows g arr arr.
Proof. intros name v H. exists v. split; [done|]. apply Z.lor_diag. Qed.

Lemma grows_trans g a1 a2 a3 : grows g a1 a2 -> grows g a2 a3 -> grows g a1 a3.
Proof.
  intros H1 H2 name v H. destruct (H1 _ _ H) as (v1 & E1 & L1). destruct (H2 _ _ E1) as (v2 & E2 & L2).
  exists v2. split; [done|]. rewrite <- L2, Z.lor_assoc, L1. done.
Qed.

Lemma lor_u8_mask v a : Z.land (Z.lor v (attr_mask a)) 0xff = Z.lor (Z.land v 0xff) (attr_mask a).
Proof. rewrite Z.land_lor_distr_l. f_equal. by destruct a. Qed.

Lemma u8_lor_attr v a : 0 <= v < 256 -> u8 (Z.lor v (attr_mask a)) = Z.lor v (attr_mask a).
Proof.
  intros Hv. unfold wrap. change (2 ^ 8) with 256. rewrite <- land_ff, lor_u8_mask, land_ff.
  by rewrite Z.mod_small.
Qed.

Lemma or_attr_spec g arr name v a i :
  entry_array arr (g_sz g) (entries_of g) -> entry_ix g arr name = Some i ->
  rd arr (entry_off (g_sz g) i + AB_FLAG_OFFSET) = Some v -> 0 <= v < 256 ->
  exists arr', put_attr g arr i (Z.lor v (attr_mask a)) = Some arr' /\ length arr' = length arr /\
    entry_array arr' (g_sz g) (entries_of g) /\ grows g arr arr' /\
    attr_in g arr' name = Some (Z.lor v (attr_mask a)).
Proof.
  intros Ha Hi Hv Hr. pose proof Hi as Hi'. apply first_ix_Some in Hi' as (Hlt & _).
  destruct (put_attr_spec g (entries_of g) arr i (Z.lor v (attr_mask a)) Ha ltac:(lia))
    as (arr' & Hput & Hl & Ha' & Hname & Hrd).
  rewrite (u8_lor_attr v a Hr) in Hrd.
  exists arr'. split; [done|]. split; [done|]. split; [done|].
  assert (Hix : forall m, entry_ix g arr' m = entry_ix g arr m).
  { intros m. apply first_ix_ext. intros j Hj. apply Hname. lia. }
  split.
  - intros m x Hx. unfold attr_in in *. rewrite Hix.
    destruct (entry_ix g arr m) as [j|] eqn:Ej; [|done]. cbn [mbind option_bind] in *.
    apply first_ix_Some in Ej as (Hj & _). rewrite (Hrd j) by lia. case_decide as Hd.
    + subst j. rewrite Hv in Hx. injection Hx as <-. eexists. split; [done|].
      by rewrite Z.lor_assoc, Z.lor_diag.
    + exists x. split; [done|]. apply Z.lor_diag.
  - unfold attr_in. rewrite Hix, Hi. cbn [mbind option_bind]. rewrite (Hrd i) by lia. by rewrite decide_True.
Qed.

(** ** Handle operations on a tracked device *)
Section ops.
Context `{E : Env}.
Context (fd : string) (Hio : io_blocks fd).
Context (g : geometry) (Hg : geometry_ok g) (Hgbs : g_bs g = u32 (env_blksz fd)).

Lemma wp_gpt_disk_alloc w0 d s b w (Q : option gpt_disk -> World -> Prop) :
  steps fd d s b w0 w ->
  (forall w', steps fd d s (b + 1) w0 w' -> Q (Some gpt_disk_zero) w') ->
  (forall w', ~ no_faults -> steps fd d s b w0 w' -> Q None w') ->
  wp gpt_disk_alloc Q w.
Proof.
  intros Hst H1 H2. unfold gpt_disk_alloc, sys_ok, tick. wp_run. unfold wp. simpl.
  destruct (env_ok (ticks w)) eqn:Eok.
  - apply H1. destruct Hst as (?&?&?). split; [done|]. split; [done|]. simpl. lia.
  - apply H2; [|done]. intros [Hok _]. by rewrite Hok in Eok.
Qed.

Lemma wp_free_opt {A} (o : option A) w0 d s b w (Q : unit -> World -> Prop) :
  steps fd d s (b + owned o) w0 w -> (forall w', steps fd d s b w0 w' -> Q tt w') -> wp (free_opt o) Q w.
Proof.
  intros Hst H. destruct o; simpl in *.
  - eapply wp_free; [exact Hst|]. intros w' S. apply H. by rewrite Z.add_simpl_r in S.
  - apply wp_ret, H. by rewrite Z.add_0_r in Hst.
Qed.

Lemma wp_gpt_disk_free dk w0 d s b w (Q : unit -> World -> Prop) :
  steps fd d s (b + 1 + held dk) w0 w -> (forall w', steps fd d s b w0 w' -> Q tt w') ->
  wp (gpt_disk_free (Some dk)) Q w.
Proof.
  intros Hst H. unfold gpt_disk_free, held in *.
  apply wp_bind. eapply (wp_free_opt (hdr dk)); [|intros w1 S1].
  { replace (b + 1 + _) with ((b + 1 + owned (pentry_arr_bak dk) + owned (pentry_arr dk) + owned (hdr_bak dk)) + owned (hdr dk))
      in Hst by lia. exact Hst. }
  apply wp_bind. eapply (wp_free_opt (hdr_bak dk)); [exact S1|intros w2 S2].
  apply wp_bind. eapply (wp_free_opt (pentry_arr dk)); [exact S2|intros w3 S3].
  apply wp_bind. eapply (wp_free_opt (pentry_arr_bak dk)); [exact S3|intros w4 S4].
  eapply wp_free; [exact S4|]. intros w5 S5. apply H. by rewrite Z.add_simpl_r in S5.
Qed.

Lemma wp_free_disk_ret {A} (r : A) dk w0 d s b w (Q : A -> World -> Prop) :
  steps fd d s (b + 1 + held dk) w0 w -> (forall w', steps fd d s b w0 w' -> Q r w') ->
  wp (_ ← gpt_disk_free (Some dk); mret r) Q w.
Proof.
  intros Hst H. apply wp_bind. eapply wp_gpt_disk_free; [exact Hst|]. intros w' S. by apply wp_ret, H.
Qed.

Lemma loaded_held hp hs ap as_ dk : loaded fd g hp hs ap as_ dk -> held dk = 4.
Proof. intros [H1 H2 H3 H4 _ _ _ _]. unfold held. by rewrite H1, H2, H3, H4. Qed.

Lemma disk_entries d hp hs ap as_ :
  disk_ok g d hp hs ap as_ ->
  entry_array ap (g_sz g) (entries_of g) /\ entry_array as_ (g_sz g) (entries_of g).
Proof.
  intros [_ [Hap Has] _ _ _ _]. destruct Hg as [_ Hn Hsz [q Hq] _ _ _ _].
  pose proof (slice_length _ _ _ _ Hap). pose proof (slice_length _ _ _ _ Has).
  unfold entries_of. split; (split; [done|]); rewrite Hq, Z.div_mul by lia; nia.
Qed.

Lemma wp_get_pentry hp hs ap as_ dk name gpt w (Q : option Z -> World -> Prop) :
  loaded fd g hp hs ap as_ dk ->
  entry_array ap (g_sz g) (entries_of g) -> entry_array as_ (g_sz g) (entries_of g) ->
  Z.of_nat (length ap) = g_n g -> Z.of_nat (length as_) = g_n g ->
  Q (entry_off (g_sz g) <$> entry_ix g (match gpt with PRIMARY_GPT => ap | SECONDARY_GPT => as_ end) name) w ->
  wp (gpt_disk_get_pentry (Some dk) (Some name) gpt) Q w.
Proof.
  intros [H1 H2 H3 H4 H5 H6 H7 H8] Ha Hb La Lb HQ.
  unfold gpt_disk_get_pentry. rewrite H8. cbn [negb Z.eqb Pos.eqb].
  assert (Hseek : forall arr, entry_array arr (g_sz g) (entries_of g) -> Z.of_nat (length arr) = g_n g ->
    gpt_pentry_seek name arr 0 (pentry_arr_size dk) (pentry_size dk) = Some (entry_off (g_sz g) <$> entry_ix g arr name)).
  { intros arr Harr Hl. rewrite H5, H6, <- Hl. change 0 with (entry_off (g_sz g) 0).
    rewrite (gpt_pentry_seek_first _ _ _ (entries_of g)) by (done || lia). by rewrite Nat.sub_0_r. }
  destruct gpt; simpl arr_of.
  - apply wp_bind. eapply wp_deref; [exact H3|]. eapply wp_deref; [by apply Hseek|done].
  - apply wp_bind. eapply wp_deref; [exact H4|]. eapply wp_deref; [by apply Hseek|done].
Qed.

(** Reading an attribute. *)
Lemma wp_get_partition_attribute name a w0 d hp hs ap as_ s b w (Q : Z -> World -> Prop) :
  get_dev_path_from_partition_name (Some name) PATH_MAX = Some fd ->
  steps fd d s b w0 w -> disk_ok g d hp hs ap as_ ->
  (forall w', steps fd d s b w0 w' ->
     Q (match attr_in g ap name with
        | None => -1 | Some v => if Z.land v (attr_mask a) =? 0 then 0 else 1 end) w') ->
  (forall w', ~ no_faults -> steps fd d s b w0 w' -> Q (-1) w') ->
  wp (get_partition_attribute (Some name) a) Q w.
Proof.
  intros Hpath Hst Hok H1 H2. destruct (disk_entries _ _ _ _ _ Hok) as [Ea Eb].
  pose proof Hok as [Hlay [Hap Has] _ _ _ _]. pose proof (go_n _ Hg).
  pose proof (slice_length _ _ _ _ Hap) as La. pose proof (slice_length _ _ _ _ Has) as Lb.
  unfold get_partition_attribute. apply wp_bind.
  eapply wp_gpt_disk_alloc; [exact Hst| |intros; by apply wp_ret, H2].
  intros w1 S1. apply wp_bind.
  eapply wp_gpt_disk_get_disk_info; [exact Hio|exact Hg|exact Hgbs|exact Hpath|exact S1|exact Hlay|by split|done| |].
  2:{ intros w2 dk Hnf S2. simpl. eapply wp_free_disk_ret; [exact S2|]. auto. }
  intros w2 dk Hload S2. cbn [negb Z.eqb]. pose proof (loaded_held _ _ _ _ _ Hload) as Hh.
  apply wp_bind. eapply wp_get_pentry; [exact Hload|done|done|lia|lia|].
  unfold attr_in in H1. destruct (entry_ix g ap name) as [i|] eqn:Ei; cbn [fmap option_fmap option_map mbind option_bind] in *.
  2:{ eapply wp_free_disk_ret; [by rewrite Hh|]. auto. }
  apply first_ix_Some in Ei as (Hi & _). destruct (entry_off_in _ _ _ i Ea ltac:(lia)) as [O1 O2].
  destruct (lookup_lt_is_Some_2 ap (Z.to_nat (entry_off (g_sz g) i + AB_FLAG_OFFSET)) ltac:(lia)) as [v Hv].
  assert (Hrd : rd ap (entry_off (g_sz g) i + AB_FLAG_OFFSET) = Some v).
  { unfold rd. by rewrite (proj2 (Z.ltb_ge _ 0)) by lia. }
  wp_step. eapply wp_deref; [reflexivity|]. wp_step. eapply wp_deref; [apply Hload|].
  wp_step. eapply wp_deref; [exact Hrd|]. eapply wp_free_disk_ret; [by rewrite Hh|].
  intros w3 S3. rewrite Hrd in H1. by apply H1.
Qed.

(** Marking the entries of one partition in both tables. *)
Lemma mark_entry_or a ap as_ i j v vb :
  a <> ATTR_SLOT_ACTIVE ->
  rd ap (entry_off (g_sz g) i + AB_FLAG_OFFSET) = Some v ->
  rd as_ (entry_off (g_sz g) j + AB_FLAG_OFFSET) = Some vb ->
  mark_entry a ap as_ (entry_off (g_sz g) i) (entry_off (g_sz g) j) =
  (ap' ← put_attr g ap i (Z.lor v (attr_mask a)); as' ← put_attr g as_ j (Z.lor vb (attr_mask a)); Some (ap', as')).
Proof.
  intros Hne Hv Hvb. unfold mark_entry, put_attr. rewrite Hv. cbn [mbind option_bind].
  destruct (wr ap _ _); [|done]. cbn [mbind option_bind]. rewrite Hvb. by destruct a.
Qed.

Lemma wp_update_partition_attribute name a v vb w0 d hp hs ap as_ s b w (Q : Z -> World -> Prop) :
  a <> ATTR_SLOT_ACTIVE ->
  get_dev_path_from_partition_name (Some name) PATH_MAX = Some fd ->
  steps fd d s b w0 w -> disk_ok g d hp hs ap as_ -> bytes ap -> bytes as_ ->
  attr_in g ap name = Some v -> attr_in g as_ name = Some vb ->
  (forall w' d' s1 hp' hs' ap' as', steps fd d' (s ++ s1) b w0 w' -> disk_ok g d' hp' hs' ap' as' ->
     bytes ap' -> bytes as' -> grows g ap ap' -> grows g as_ as' ->
     attr_in g ap' name = Some (Z.lor v (attr_mask a)) -> attr_in g as' name = Some (Z.lor vb (attr_mask a)) ->
     Forall (fun x => bootable x (g_bs g)) s1 -> Q 0 w') ->
  (forall w' d' s1, ~ no_faults -> steps fd d' (s ++ s1) b w0 w' ->
     Forall (fun x => bootable x (g_bs g)) (d' :: s1) -> Q (-1) w') ->
  wp (update_partition_attribute name a) Q w.
Proof.
  intros Hne Hpath Hst Hok Ba Bb Hv Hvb H1 H2. destruct (disk_entries _ _ _ _ _ Hok) as [Ea Eb].
  pose proof Hok as [Hlay [Hap Has] _ _ _ _]. pose proof (go_n _ Hg).
  pose proof (slice_length _ _ _ _ Hap) as La. pose proof (slice_length _ _ _ _ Has) as Lb.
  assert (H3 : forall w', ~ no_faults -> steps fd d s b w0 w' -> Q (-1) w').
  { intros w' Hnf S. apply (H2 w' d []); [done|by rewrite app_nil_r|].
    constructor; [left; by eapply disk_ok_valid|constructor]. }
  unfold attr_in in Hv, Hvb.
  destruct (entry_ix g ap name) as [i|] eqn:Ei; [|done]. cbn [mbind option_bind] in Hv.
  destruct (entry_ix g as_ name) as [j|] eqn:Ej; [|done]. cbn [mbind option_bind] in Hvb.
  assert (Hbyte : forall arr p x, bytes arr -> rd arr p = Some x -> 0 <= x < 256).
  { intros arr p x Hb Hr. unfold rd in Hr. destruct (p <? 0); [done|].
    unfold bytes in Hb. rewrite Forall_lookup in Hb. by eapply Hb. }
  destruct (or_attr_spec g ap name v a i Ea Ei Hv (Hbyte _ _ _ Ba Hv)) as (ap' & Pa & Lap & _ & Ga & Na).
  destruct (or_attr_spec g as_ name vb a j Eb Ej Hvb (Hbyte _ _ _ Bb Hvb)) as (as' & Pb & Las & _ & Gb & Nb).
  assert (Ba' : bytes ap').
  { eapply splice_bytes; [exact Ba| |exact Pa]. constructor; [by apply wrap_bounds|constructor]. }
  assert (Bb' : bytes as').
  { eapply splice_bytes; [exact Bb| |exact Pb]. constructor; [by apply wrap_bounds|constructor]. }
  unfold update_partition_attribute. apply wp_bind.
  eapply wp_gpt_disk_alloc; [exact Hst| |intros; apply wp_ret; by apply H3].
  intros w1 S1. apply wp_bind.
  eapply wp_gpt_disk_get_disk_info; [exact Hio|exact Hg|exact Hgbs|exact Hpath|exact S1|exact Hlay|by split|done| |].
  2:{ intros w2 dk Hnf S2. simpl. eapply wp_free_disk_ret; [exact S2|]. auto. }
  intros w2 dk Hload S2. cbn [negb Z.eqb].
  apply wp_bind. eapply wp_get_pentry; [exact Hload|done|done|lia|lia|]. rewrite Ei.
  apply wp_bind. eapply wp_get_pentry; [exact Hload|done|done|lia|lia|]. rewrite Ej.
  cbn [fmap option_fmap option_map].
  wp_step. eapply wp_deref; [reflexivity|]. wp_step. eapply wp_deref; [apply Hload|].
  wp_step. eapply wp_deref; [apply Hload|]. apply wp_bind. eapply wp_deref.
  { rewrite (mark_entry_or a ap as_ i j v vb Hne Hv Hvb), Pa. cbn [mbind option_bind]. by rewrite Pb. }
  cbv beta iota.
  set (dk' := with_arr (Some ap') (with_arr_bak (Some as') dk)).
  assert (Hload' : loaded fd g hp hs ap' as' dk') by (destruct Hload; by constructor).
  pose proof Hok as [_ _ Hsz [Gp Gs] _ _]. apply wp_bind.
  eapply (wp_update_crc_ready fd g Hgbs hp hs ap' as'); [apply Hlay|apply Hlay|exact Hsz|exact Gp|exact Gs|exact Hload'|lia|lia|].
  intros dk2 hp' hs' Hload2 Hready. cbn [negb Z.eqb]. pose proof (loaded_held _ _ _ _ _ Hload2) as Hh.
  apply wp_bind.
  eapply wp_commit_ready; [exact Hio|exact Hg|exact Hgbs|exact Hok|exact Hready|exact Hload2|exact S2| |].
  - intros w3 d3 s3 S3 Hok3 _ Hall. eapply wp_free_disk_ret; [by rewrite Hh|]. intros w4 S4.
    by eapply (H1 w4 d3 s3 hp' hs' ap' as').
  - intros w3 d3 s3 Hnf S3 Hall. eapply wp_free_disk_ret; [by rewrite Hh|]. intros w4 S4. by eapply H2.
Qed.
End ops.

(** ** Slot attributes across devices

    [update_slot_attribute] over all the devices that hold A/B partitions: the
    invariant of the devices, and the effect on the attribute bits. *)

Section world.
Context `{E : Env}.
(** The devices with partition tables, and their geometry. *)
Context (geo : string -> option geometry).

Definition geometries_ok : Prop :=
  forall fd g, geo fd = Some g -> io_blocks fd /\ geometry_ok g /\ g_bs g = u32 (env_blksz fd).
Context (Hgeo : geometries_ok).

(** Device [fd] has two complete tables with these arrays. *)
Definition disk_at (w : World) (fd : string) (g : geometry) (ap as_ : buf) : Prop :=
  exists d hp hs, devs w !! fd = Some d /\ disk_ok g d hp hs ap as_ /\ bytes ap /\ bytes as_.
Definition managed (w : World) : Prop :=
  forall fd g, geo fd = Some g -> exists ap as_, disk_at w fd g ap as_.
(** Every device can be booted from. *)
Definition all_bootable (w : World) : Prop :=
  forall fd g, geo fd = Some g -> exists d, devs w !! fd = Some d /\ bootable d (g_bs g).
(** So could it after every write since [w]. *)
Definition always_bootable (w w' : World) : Prop :=
  exists new, hist w' = hist w ++ new /\
    Forall (fun '(f, x) => forall g, geo f = Some g -> bootable x (g_bs g)) new.

Definition path_of (name : string) : option string := get_dev_path_from_partition_name (Some name) PATH_MAX.

(** The two tables have an entry for [name] whose attributes satisfy [P]. *)
Definition entry_with (P : Z -> Prop) (w : World) (name : string) : Prop :=
  exists fd g ap as_ v vb, path_of name = Some fd /\ geo fd = Some g /\ disk_at w fd g ap as_ /\
    attr_in g ap name = Some v /\ attr_in g as_ name = Some vb /\ P v /\ P vb.
Definition has_entry : World -> string -> Prop := entry_with (fun _ => True).
Definition attr_set (a : part_attr_type) : World -> string -> Prop :=
  entry_with (fun v => Z.land v (attr_mask a) <> 0).

Lemma always_bootable_refl w : always_bootable w w.
Proof. exists []. by rewrite app_nil_r. Qed.

Lemma always_bootable_trans w1 w2 w3 :
  always_bootable w1 w2 -> always_bootable w2 w3 -> always_bootable w1 w3.
Proof.
  intros (n1 & H1 & F1) (n2 & H2 & F2). exists (n1 ++ n2).
  by rewrite H2, H1, app_assoc, Forall_app.
Qed.

Lemma disk_at_unique w fd g ap as_ ap' as' :
  disk_at w fd g ap as_ -> disk_at w fd g ap' as' -> ap = ap' /\ as_ = as'.
Proof.
  intros (d & hp & hs & Hd & [_ [A1 A2] _ _ _ _] & _) (d' & hp' & hs' & Hd' & [_ [B1 B2] _ _ _ _] & _).
  rewrite Hd in Hd'. injection Hd' as <-. split; congruence.
Qed.

Lemma managed_bootable w : managed w -> all_bootable w.
Proof.
  intros Hm fd g Hg. destruct (Hm fd g Hg) as (ap & as_ & d & hp & hs & Hd & Hok & _).
  exists d. split; [done|]. left. by eapply disk_ok_valid.
Qed.

Lemma steps_always fd g d s b w w' :
  geo fd = Some g -> steps fd d s b w w' -> Forall (fun x => bootable x (g_bs g)) s -> always_bootable w w'.
Proof.
  intros Hg (_ & Hh & _) Hall. exists ((fun x => (fd, x)) <$> s). split; [done|].
  apply Forall_fmap. eapply Forall_impl; [exact Hall|]. intros x Hx g' Hg'. simpl in Hg'. congruence.
Qed.

Lemma land_lor_mask v v' a : Z.lor v v' = v' -> Z.land v (attr_mask a) <> 0 -> Z.land v' (attr_mask a) <> 0.
Proof.
  intros Hl Hv Hz. apply Hv. rewrite <- Hl in Hz. rewrite Z.land_lor_distr_l in Hz.
  by apply Z.lor_eq_0_iff in Hz as [? _].
Qed.

Lemma land_lor_self v a : Z.land (Z.lor v (attr_mask a)) (attr_mask a) <> 0.
Proof.
  rewrite Z.land_lor_distr_l, Z.land_diag. intros Hz. apply Z.lor_eq_0_iff in Hz as [_ Hz]. by destruct a.
Qed.

(** What survives the update of one partition. *)
Definition keeps_attrs (w w' : World) : Prop :=
  (forall name, has_entry w name -> has_entry w' name) /\
  (forall a name, attr_set a w name -> attr_set a w' name).

Lemma keeps_attrs_intro w w' :
  (forall P name, (forall v v', Z.lor v v' = v' -> P v -> P v') -> entry_with P w name -> entry_with P w' name) ->
  keeps_attrs w w'.
Proof.
  intros H. split; [intros name; by apply H|]. intros a name. apply H. intros v v' Hl. by apply land_lor_mask.
Qed.

Lemma update_partition_world name a w :
  a <> ATTR_SLOT_ACTIVE -> managed w -> has_entry w name ->
  wp (update_partition_attribute name a) (fun r w' =>
    (r = 0 /\ managed w' /\ attr_set a w' name /\ keeps_attrs w w' \/ r = -1 /\ ~ no_faults /\ all_bootable w') /\
    always_bootable w w' /\ blocks w' = blocks w) w.
Proof.
  intros Hne Hm (fd & g & ap & as_ & v & vb & Hpath & Hg & Hat & Hv & Hvb & _).
  destruct (Hgeo fd g Hg) as (Hio & Hok & Hbs). pose proof Hat as (d & hp & hs & Hd & Hdisk & Ba & Bb).
  eapply (wp_update_partition_attribute fd Hio g Hok Hbs name a v vb w d hp hs ap as_ [] 0 w);
    [done|done|by apply steps_refl|done..| |].
  - intros w' d' s1 hp' hs' ap' as' S Hdisk' Ba' Bb' Ga Gb Na Nb Hall. simpl in S.
    pose proof (steps_always _ _ _ _ _ _ _ Hg S Hall) as Hal. destruct S as (D & _ & B).
    assert (Hat' : disk_at w' fd g ap' as').
    { exists d', hp', hs'. by rewrite D, lookup_insert_eq. }
    assert (Hother : forall fd', fd' <> fd -> devs w' !! fd' = devs w !! fd').
    { intros fd' Hf. by rewrite D, lookup_insert_ne. }
    split; [left|split; [done|lia]]. split; [done|]. split; [|split].
    + intros fd' g' Hg'. destruct (decide (fd' = fd)) as [->|Hf].
      * assert (g' = g) as -> by congruence. by exists ap', as'.
      * destruct (Hm fd' g' Hg') as (ap2 & as2 & d2 & hp2 & hs2 & H2 & H2').
        exists ap2, as2, d2, hp2, hs2. by rewrite Hother.
    + exists fd, g, ap', as', (Z.lor v (attr_mask a)), (Z.lor vb (attr_mask a)).
      split_and!; try done; apply land_lor_self.
    + apply keeps_attrs_intro. intros P m HP (fd2 & g2 & ap2 & as2 & v2 & vb2 & P2 & G2 & A2 & V2 & VB2 & Q1 & Q2).
      destruct (decide (fd2 = fd)) as [->|Hf].
      * assert (g2 = g) as -> by congruence. destruct (disk_at_unique _ _ _ _ _ _ _ A2 Hat) as [-> ->].
        destruct (Ga _ _ V2) as (v3 & V3 & L3). destruct (Gb _ _ VB2) as (vb3 & VB3 & LB3).
        exists fd, g, ap', as', v3, vb3. split_and!; try done; by eapply HP.
      * destruct A2 as (d2 & hp2 & hs2 & D2 & R2).
        exists fd2, g2, ap2, as2, v2, vb2. split_and!; try done. exists d2, hp2, hs2. by rewrite Hother.
  - intros w' d' s1 Hnf S Hall. simpl in S. apply Forall_cons in Hall as [Hd' Hall].
    pose proof (steps_always _ _ _ _ _ _ _ Hg S Hall) as Hal. destruct S as (D & _ & B).
    split; [right|split; [done|lia]]. split; [done|]. split; [done|].
    intros fd' g' Hg'. destruct (decide (fd' = fd)) as [->|Hf].
    + assert (g' = g) as -> by congruence. exists d'. by rewrite D, lookup_insert_eq.
    + destruct (managed_bootable _ Hm fd' g' Hg') as (d2 & D2 & R2). exists d2. by rewrite D, lookup_insert_ne.
Qed.

Lemma keeps_attrs_trans w1 w2 w3 : keeps_attrs w1 w2 -> keeps_attrs w2 w3 -> keeps_attrs w1 w3.
Proof. intros [A1 B1] [A2 B2]. split; eauto. Qed.

Lemma update_partitions_world ptn_list slot a w :
  a <> ATTR_SLOT_ACTIVE -> managed w ->
  (forall n, n ∈ ptn_list -> ab_exists n = true -> has_entry w (part_name n slot)) ->
  wp (update_partitions ptn_list slot a) (fun r w' =>
    (r = 0 /\ managed w' /\ keeps_attrs w w' /\
       (forall n, n ∈ ptn_list -> ab_exists n = true -> attr_set a w' (part_name n slot)) \/
     r = -1 /\ ~ no_faults /\ all_bootable w') /\
    always_bootable w w' /\ blocks w' = blocks w) w.
Proof.
  intros Hne. revert w. induction ptn_list as [|n l IH]; intros w Hm Hent; cbn [update_partitions].
  - apply wp_ret. split; [left|split; [apply always_bootable_refl|done]].
    split; [done|]. split; [done|]. split; [by split|]. intros n Hn. by apply elem_of_nil in Hn.
  - destruct (ab_exists n) eqn:Hab.
    2:{ eapply wp_conseq; [apply IH; [done|intros m Hin; apply Hent; by right]|].
        intros r w' [[(-> & M & K & A)|R] Hrest]; (split; [|done]); [left|by right].
        split; [done|]. split; [done|]. split; [done|]. intros m Hin Hm'.
        apply elem_of_cons in Hin as [->|Hin]; [congruence|by apply A]. }
    apply wp_bind. eapply wp_conseq; [apply update_partition_world; [done|done|apply Hent; [by left|done]]|].
    intros r w1 [[(-> & M1 & S1 & K1)|(-> & Hnf & B1)] (Al1 & Bl1)]; simpl.
    2:{ apply wp_ret. split; [by right|done]. }
    eapply wp_conseq; [apply (IH w1 M1)|].
    { intros m Hin Hab'. apply K1, Hent; [by right|done]. }
    intros r w2 [[(-> & M2 & K2 & A2)|(-> & Hnf & B2)] (Al2 & Bl2)];
      (split; [|split; [by eapply always_bootable_trans|congruence]]); [left|by right].
    split; [done|]. split; [done|]. split; [by eapply keeps_attrs_trans|].
    intros m Hin Hab'. apply elem_of_cons in Hin as [->|Hin]; [by apply K2|by apply A2].
Qed.

Lemma update_slot_world slot a w :
  a <> ATTR_SLOT_ACTIVE -> slot_name_valid slot = true -> managed w ->
  (forall n, n ∈ AB_PTN_LIST -> ab_exists n = true -> has_entry w (part_name n slot)) ->
  wp (update_slot_attribute (Some slot) a) (fun r w' =>
    (r = 0 /\ managed w' /\ keeps_attrs w w' /\
       (forall n, n ∈ AB_PTN_LIST -> ab_exists n = true -> attr_set a w' (part_name n slot)) \/
     r = -1 /\ ~ no_faults /\ all_bootable w') /\
    always_bootable w w' /\ blocks w' = blocks w) w.
Proof. intros Hne Hs Hm Hent. unfold update_slot_attribute. rewrite Hs. by apply update_partitions_world. Qed.

(** Reading an attribute of a marked partition. *)
Lemma get_attribute_world name a w :
  managed w -> attr_set a w name ->
  wp (get_partition_attribute (Some name) a) (fun r w' =>
    (r = 1 \/ r = -1 /\ ~ no_faults) /\ devs w' = devs w /\ hist w' = hist w /\ blocks w' = blocks w) w.
Proof.
  intros Hm (fd & g & ap & as_ & v & vb & Hpath & Hg & (d & hp & hs & Hd & Hdisk & _) & Hv & _ & Hset & _).
  destruct (Hgeo fd g Hg) as (Hio & Hok & Hbs).
  assert (Hst : forall w', steps fd d [] 0 w w' -> devs w' = devs w /\ hist w' = hist w /\ blocks w' = blocks w).
  { intros w' (D & H & B). split; [by rewrite D, insert_id|]. split; [|lia]. by rewrite H, app_nil_r. }
  eapply (wp_get_partition_attribute fd Hio g Hok Hbs name a w d hp hs ap as_ [] 0 w);
    [done|by apply steps_refl|done| |].
  - intros w' S. rewrite Hv. rewrite (proj2 (Z.eqb_neq _ 0) Hset). split; [by left|by apply Hst].
  - intros w' Hnf S. split; [by right|by apply Hst].
Qed.
End world.
