(* ===== verification/BootSwitch.v ===== *)
(** * The switch of the active slot

    What [boot_ctl_set_active_slot_for_partitions] does to the entry arrays: the
    partition entries as values, the effect of [UPDATE_SLOT], and the loop over
    the partitions with its two handles. *)
From S2P Require Import Prelude Bytes BlockDev UfsBsg GptUtils GptSwap GptSpec GptExec GptDisk BootControl BootAttr.

(** The type GUID and the attribute byte of entry [j]. *)
Definition entry_of (g : geometry) (arr : buf) (j : nat) : option (buf * Z) :=
  gd ← slice arr (entry_off (g_sz g) j) TYPE_GUID_SIZE;
  v ← rd arr (entry_off (g_sz g) j + AB_FLAG_OFFSET); Some (gd, v).

(** [UPDATE_SLOT] as a function on the entry. *)
Definition slot_entry (active : bool) (guid : buf) (v : Z) : buf * Z :=
  (guid, if active then AB_SLOT_ACTIVE_VAL else Z.land v (Z.lnot AB_PARTITION_ATTR_SLOT_ACTIVE)).

(** [arr] is [arr0] with these entries replaced; names are kept. *)
Record switched (g : geometry) (arr0 arr : buf) (news : list (nat * (buf * Z))) : Prop := {
  sw_len : length arr = length arr0;
  sw_bytes : bytes arr;
  sw_ix : forall name, entry_ix g arr name = entry_ix g arr0 name;
  sw_new : forall j x, (j, x) ∈ news -> entry_of g arr j = Some x;
  sw_old : forall j, (j < entries_of g)%nat -> j ∉ news.*1 -> entry_of g arr j = entry_of g arr0 j;
}.

Section arrays.
Context (g : geometry).

Lemma switched_refl arr : bytes arr -> switched g arr arr [].
Proof. intros Hb. constructor; try done. intros j x H. by apply elem_of_nil in H. Qed.

Lemma frame_entry_of arr arr' i j :
  128 <= g_sz g -> i <> j ->
  frame [(entry_off (g_sz g) i, 56)] arr arr' -> entry_of g arr' j = entry_of g arr j.
Proof.
  intros Hsz Hne F. pose proof (entry_off_disjoint _ i j Hsz Hne). unfold entry_of.
  rewrite (frame_slice _ _ _ _ _ F), (frame_rd _ _ _ _ F) by ranges. done.
Qed.

Lemma frame_entry_is arr arr' i j name :
  128 <= g_sz g -> frame [(entry_off (g_sz g) i, 56)] arr arr' ->
  entry_is arr' (g_sz g) name j = entry_is arr (g_sz g) name j.
Proof.
  intros Hsz F. unfold entry_is, entry_name, name8.
  assert (Hrd : forall l, (forall k, k ∈ l -> k ∈ seq 0 36) ->
    mapM (fun k => rd arr' (entry_off (g_sz g) j + 56 + 2 * Z.of_nat k)) l =
    mapM (fun k => rd arr (entry_off (g_sz g) j + 56 + 2 * Z.of_nat k)) l); [|by rewrite Hrd].
  induction l as [|k l IH]; intros Hl'; [done|]. cbn [mapM].
  rewrite (frame_rd _ _ _ _ F), IH; [done| |].
  - intros x Hx. apply Hl'. by right.
  - assert (Hk : k ∈ seq 0 36) by (apply Hl'; left). apply elem_of_seq in Hk.
    constructor; [|constructor]. destruct (decide (i = j)) as [->|Hne]; [lia|].
    pose proof (entry_off_disjoint _ i j Hsz Hne). lia.
Qed.

Lemma frame_entry_ix arr arr' i name :
  128 <= g_sz g -> frame [(entry_off (g_sz g) i, 56)] arr arr' -> entry_ix g arr' name = entry_ix g arr name.
Proof. intros Hsz F. apply first_ix_ext. intros j _. by eapply frame_entry_is. Qed.

Lemma land_clear_byte v : 0 <= v < 256 -> u8 (Z.land v (Z.lnot 4)) = Z.land v (Z.lnot 4).
Proof.
  intros Hv. unfold wrap. change (2 ^ 8) with 256. rewrite <- land_ff, <- Z.land_assoc, (Z.land_comm _ 255), Z.land_assoc.
  by rewrite land_ff, Z.mod_small.
Qed.

(** One entry is rewritten. *)
Lemma UPDATE_SLOT_spec arr i gd v guid active :
  entry_array arr (g_sz g) (entries_of g) -> (i < entries_of g)%nat -> bytes arr ->
  entry_of g arr i = Some (gd, v) -> length guid = 16%nat -> bytes guid ->
  exists arr', UPDATE_SLOT arr (entry_off (g_sz g) i) guid active = Some arr' /\
    frame [(entry_off (g_sz g) i, 56)] arr arr' /\ bytes arr' /\
    entry_of g arr' i = Some (slot_entry active guid v).
Proof.
  intros Ha Hi Hb He Hlen Hgb. pose proof Ha as [Hsz Hl]. destruct (entry_off_in _ _ _ i Ha Hi) as [H0 H1].
  set (o := entry_off (g_sz g) i) in *. unfold entry_of in He. fold o in He.
  destruct (slice arr o 16) as [gd'|] eqn:Eg; [|done]. cbn [mbind option_bind] in He.
  destruct (rd arr (o + AB_FLAG_OFFSET)) as [v'|] eqn:Ev; [|done]. cbn [mbind option_bind] in He. injection He as -> ->.
  destruct (splice_is_Some arr o guid) as [a1 E1]; [lia..|].
  pose proof (splice_frame _ _ _ _ E1) as F1. rewrite Hlen in F1.
  assert (Hv : 0 <= v < 256).
  { unfold rd in Ev. destruct (_ <? 0); [done|]. unfold bytes in Hb. rewrite Forall_lookup in Hb. by eapply Hb. }
  assert (E : UPDATE_SLOT arr o guid active = splice a1 (o + AB_FLAG_OFFSET) [(slot_entry active guid v).2]).
  { unfold UPDATE_SLOT, wr. rewrite E1. cbn [mbind option_bind]. destruct active; [done|].
    rewrite (frame_rd _ _ _ _ F1) by ranges. rewrite Ev. cbn [mbind option_bind slot_entry snd].
    by rewrite land_clear_byte. }
  destruct (splice_is_Some a1 (o + AB_FLAG_OFFSET) [(slot_entry active guid v).2]) as [a2 E2];
    [lia|rewrite (proj1 F1); simpl; lia|].
  pose proof (splice_frame _ _ _ _ E2) as F2. simpl length in F2.
  exists a2. rewrite E. split; [done|]. split; [|split].
  - eapply frame_weaken; [by eapply frame_trans|]. intros k Hk. ranges.
  - eapply splice_bytes; [eapply (splice_bytes arr); [exact Hb|exact Hgb|exact E1]| |exact E2]. constructor; [|constructor].
    destruct active; simpl; [lia|]. rewrite <- land_clear_byte by done. by apply wrap_bounds.
  - unfold entry_of. fold o. rewrite (frame_slice _ _ _ _ _ F2) by ranges.
    assert (Hs : slice a1 o TYPE_GUID_SIZE = Some guid).
    { pose proof (slice_splice_same _ _ _ _ E1) as Hs. by rewrite Hlen in Hs. }
    rewrite Hs. cbn [mbind option_bind].
    unfold rd. rewrite (proj2 (Z.ltb_ge _ 0)) by lia.
    rewrite (splice_lookup _ _ _ _ _ E2). simpl length. rewrite decide_True by lia.
    by rewrite Nat.sub_diag.
Qed.

Lemma switched_step arr0 arr news i gd v guid active :
  entry_array arr0 (g_sz g) (entries_of g) -> (i < entries_of g)%nat ->
  switched g arr0 arr news -> i ∉ news.*1 ->
  entry_of g arr0 i = Some (gd, v) -> length guid = 16%nat -> bytes guid ->
  exists arr', UPDATE_SLOT arr (entry_off (g_sz g) i) guid active = Some arr' /\
    switched g arr0 arr' ((i, slot_entry active guid v) :: news).
Proof.
  intros [Hsz Hl0] Hi [Hlen Hb Hix Hnew Hold] Hni He Hlg Hbg.
  assert (Ha : entry_array arr (g_sz g) (entries_of g)) by (split; [done|by rewrite Hlen]).
  rewrite <- (Hold i Hi Hni) in He.
  destruct (UPDATE_SLOT_spec arr i gd v guid active Ha Hi Hb He Hlg Hbg) as (arr' & HU & F & Hb' & He').
  exists arr'. split; [done|]. constructor.
  - by rewrite (proj1 F).
  - done.
  - intros name. rewrite (frame_entry_ix arr arr' i name Hsz F). apply Hix.
  - intros j x Hj. apply elem_of_cons in Hj as [[= -> ->]|Hj]; [done|].
    rewrite (frame_entry_of arr arr' i j Hsz); [by apply Hnew| |done].
    intros <-. apply Hni. by eapply elem_of_fst.
  - intros j Hj Hnj. rewrite fmap_cons in Hnj. apply not_elem_of_cons in Hnj as [Hne Hnj].
    rewrite (frame_entry_of arr arr' i j Hsz); [by apply Hold|done|done].
Qed.
End arrays.

(** ** The partitions to switch *)

(** One version of a partition: its entries in the two arrays. *)
Record part := Part { p_ix : nat; p_ix' : nat; p_guid : buf; p_attr : Z; p_attr' : Z }.
Definition part_at (g : geometry) (ap as_ : buf) (name : string) (p : part) : Prop :=
  entry_ix g ap name = Some (p_ix p) /\ entry_ix g as_ name = Some (p_ix' p) /\
  entry_of g ap (p_ix p) = Some (p_guid p, p_attr p) /\
  exists gd, entry_of g as_ (p_ix' p) = Some (gd, p_attr' p).
Definition is_active (p : part) : bool := negb (Z.land (p_attr p) AB_PARTITION_ATTR_SLOT_ACTIVE =? 0).

(** Both versions; the type GUIDs of the active and the inactive one. *)
Record pair := Pair { q_name : string; q_A : part; q_B : part }.
Definition act_guid (q : pair) : buf := if is_active (q_A q) then p_guid (q_A q) else p_guid (q_B q).
Definition inact_guid (q : pair) : buf := if is_active (q_A q) then p_guid (q_B q) else p_guid (q_A q).
Definition new_guid (active : bool) (q : pair) : buf := if active then act_guid q else inact_guid q.

(** The entries the switch writes: [side] picks a version, [active] its new state. *)
Definition news (side : pair -> part) (active : bool) (qs : list pair) : list (nat * (buf * Z)) :=
  (fun q => (p_ix (side q), slot_entry active (new_guid active q) (p_attr (side q)))) <$> qs.
Definition news' (side : pair -> part) (active : bool) (qs : list pair) : list (nat * (buf * Z)) :=
  (fun q => (p_ix' (side q), slot_entry active (new_guid active q) (p_attr' (side q)))) <$> qs.

(** Nothing changed on the devices since [w0]; [n] more heap blocks. *)
Definition calm (n : Z) (w0 w : World) : Prop :=
  devs w = devs w0 /\ hist w = hist w0 /\ blocks w = blocks w0 + n.

Lemma calm_steps fd d n w0 w : devs w0 !! fd = Some d -> calm n w0 w -> steps fd d [] n w0 w.
Proof. intros Hd (D & H & B). split; [by rewrite D, insert_id|]. split; [by rewrite H, app_nil_r|done]. Qed.
Lemma steps_calm fd d n w0 w : devs w0 !! fd = Some d -> steps fd d [] n w0 w -> calm n w0 w.
Proof. intros Hd (D & H & B). split; [by rewrite D, insert_id|]. split; [by rewrite H, app_nil_r|done]. Qed.

Section switch.
Context `{E : Env} (L : EnvLaws E) (Hnf : no_faults).
Context (w0 : World).

(** The initial contents of one device. *)
Record device := Device { v_fd : string; v_g : geometry; v_ap : buf; v_as : buf }.
Record device_ok (v : device) : Prop := {
  v_io : io_blocks (v_fd v);
  v_gok : geometry_ok (v_g v);
  v_bs : g_bs (v_g v) = u32 (env_blksz (v_fd v));
  v_at : disk_at w0 (v_fd v) (v_g v) (v_ap v) (v_as v);
}.
Context (A B : device) (HA : device_ok A) (HB : device_ok B).

(** The names in the list, and the partitions they stand for: a name whose two
    versions do not both exist is skipped. *)
Record pair_ok (q : pair) : Prop := {
  pq_exists : ab_exists (q_name q) = true;
  pq_pathA : path_of (part_name (q_name q) AB_SLOT_A_SUFFIX) = Some (v_fd A);
  pq_pathB : path_of (part_name (q_name q) AB_SLOT_B_SUFFIX) = Some (v_fd B);
  pq_A : part_at (v_g A) (v_ap A) (v_as A) (part_name (q_name q) AB_SLOT_A_SUFFIX) (q_A q);
  pq_B : part_at (v_g B) (v_ap B) (v_as B) (part_name (q_name q) AB_SLOT_B_SUFFIX) (q_B q);
  pq_active : is_active (q_A q) || is_active (q_B q) = true;
}.
Inductive listed : list string -> list pair -> Prop :=
  | listed_nil : listed [] []
  | listed_skip n ns qs : (3 <= String.length n)%nat -> ab_exists (chop_suffix n) = false ->
      listed ns qs -> listed (n :: ns) qs
  | listed_pair n ns q qs : (3 <= String.length n)%nat -> chop_suffix n = q_name q -> pair_ok q ->
      listed ns qs -> listed (n :: ns) (q :: qs).

(** A handle with entries switched since it was loaded. *)
Definition holding (v : device) (n n' : list (nat * (buf * Z))) (dk : gpt_disk) : Prop :=
  exists hp hs ap as_, loaded (v_fd v) (v_g v) hp hs ap as_ dk /\ ready (v_g v) hp hs ap as_ /\
    switched (v_g v) (v_ap v) ap n /\ switched (v_g v) (v_as v) as_ n'.

Lemma disk_ok_ready g d hp hs ap as_ : geometry_ok g -> disk_ok g d hp hs ap as_ -> ready g hp hs ap as_.
Proof.
  intros [_ Hn _ _ _ _ _ _] [Hlay [Hap Has] Hsz Hsig Hse Hcrc].
  pose proof (slice_length _ _ _ _ Hap). pose proof (slice_length _ _ _ _ Has).
  constructor; [apply Hlay|apply Hlay|done..|]. lia.
Qed.

Lemma v_entries v : device_ok v ->
  entry_array (v_ap v) (g_sz (v_g v)) (entries_of (v_g v)) /\
  entry_array (v_as v) (g_sz (v_g v)) (entries_of (v_g v)) /\
  Z.of_nat (length (v_ap v)) = g_n (v_g v) /\ Z.of_nat (length (v_as v)) = g_n (v_g v).
Proof.
  intros [_ Hg _ (d & hp & hs & _ & Hok & _)]. destruct (disk_entries (v_g v) Hg _ _ _ _ _ Hok) as [Ha Hb].
  pose proof (disk_ok_ready _ _ _ _ _ _ Hg Hok) as [_ _ _ _ _ _ [? ?]]. done.
Qed.

(** [boot_ctl_get_disk_info] loads a handle. *)
Lemma wp_boot_ctl_get_disk_info v name n w (Q : option gpt_disk -> World -> Prop) :
  device_ok v -> path_of name = Some (v_fd v) -> calm n w0 w ->
  (forall w' dk, calm (n + 5) w0 w' -> holding v [] [] dk -> Q (Some dk) w') ->
  wp (boot_ctl_get_disk_info (Some name)) Q w.
Proof.
  intros [Hio Hg Hbs (d & hp & hs & Hd & Hok & Ba & Bb)] Hp Hc HQ.
  pose proof (calm_steps _ _ _ _ _ Hd Hc) as Hst. pose proof Hok as [Hlay Harr _ _ _ _].
  unfold boot_ctl_get_disk_info. apply wp_bind.
  eapply wp_gpt_disk_alloc; [exact Hst| |by intros ? Hf].
  intros w1 S1. apply wp_bind.
  eapply wp_gpt_disk_get_disk_info; [exact Hio|exact Hg|exact Hbs|exact Hp|exact S1|exact Hlay|exact Harr|done| |by intros ? ? Hf].
  intros w2 dk Hload S2. cbn [negb Z.eqb]. apply wp_ret, HQ.
  - eapply steps_calm; [exact Hd|]. by replace (n + 5) with (n + 1 + 4) by lia.
  - exists hp, hs, (v_ap v), (v_as v). split; [done|]. split; [by eapply disk_ok_ready|].
    split; by apply switched_refl.
Qed.

(** Finding an entry in a handle. *)
Lemma wp_holding_pentry v n n' dk name gpt w (Q : option Z -> World -> Prop) :
  device_ok v -> holding v n n' dk ->
  Q (entry_off (g_sz (v_g v)) <$>
     entry_ix (v_g v) (match gpt with PRIMARY_GPT => v_ap v | SECONDARY_GPT => v_as v end) name) w ->
  wp (gpt_disk_get_pentry (Some dk) (Some name) gpt) Q w.
Proof.
  intros Hv (hp & hs & ap & as_ & Hload & _ & Sa & Sb) HQ. destruct (v_entries v Hv) as ([Hz La] & [_ Lb] & Na & Nb).
  pose proof (sw_len _ _ _ _ Sa) as Ea. pose proof (sw_len _ _ _ _ Sb) as Eb.
  eapply wp_get_pentry; [exact Hload|split; [done|congruence]|split; [done|congruence]|congruence|congruence|].
  destruct gpt; [rewrite (sw_ix _ _ _ _ Sa)|rewrite (sw_ix _ _ _ _ Sb)]; exact HQ.
Qed.

(** Whether a version is active is read from the device. *)
Lemma wp_slot_active v name p n w (Q : Z -> World -> Prop) :
  device_ok v -> path_of name = Some (v_fd v) -> part_at (v_g v) (v_ap v) (v_as v) name p -> calm n w0 w ->
  (forall w', calm n w0 w' -> Q (if is_active p then 1 else 0) w') ->
  wp (get_partition_attribute (Some name) ATTR_SLOT_ACTIVE) Q w.
Proof.
  intros [Hio Hg Hbs (d & hp & hs & Hd & Hok & Ba & Bb)] Hp (Hi & _ & He & _) Hc HQ.
  pose proof (calm_steps _ _ _ _ _ Hd Hc) as Hst.
  eapply wp_get_partition_attribute; [exact Hio|exact Hg|exact Hbs|exact Hp|exact Hst|exact Hok| |by intros ? Hf].
  intros w' S. unfold attr_in. rewrite Hi. cbn [mbind option_bind].
  unfold entry_of in He. destruct (slice _ _ _); [|done]. cbn [mbind option_bind] in He.
  destruct (rd _ _) as [x|]; [|done]. cbn [mbind option_bind] in He. injection He as _ ->.
  unfold is_active in HQ. cbn [attr_mask]. apply (steps_calm _ _ _ _ _ Hd) in S. specialize (HQ _ S).
  by destruct (_ =? 0).
Qed.

(** A handle whose arrays no longer match their checksums. *)
Definition editing (v : device) (n n' : list (nat * (buf * Z))) (dk : gpt_disk) : Prop :=
  exists hp hs ap as_, loaded (v_fd v) (v_g v) hp hs ap as_ dk /\
    hdr_layout (v_g v) (g_ps (v_g v)) hp /\ hdr_layout (v_g v) (g_ss (v_g v)) hs /\
    GET_4_BYTES hs HEADER_SIZE_OFFSET = GET_4_BYTES hp HEADER_SIZE_OFFSET /\ sig_ok hp /\ sig_ok hs /\
    switched (v_g v) (v_ap v) ap n /\ switched (v_g v) (v_as v) as_ n'.

Lemma update_both_editing v n n' dk name p guid active :
  device_ok v -> holding v n n' dk -> part_at (v_g v) (v_ap v) (v_as v) name p ->
  p_ix p ∉ n.*1 -> p_ix' p ∉ n'.*1 -> length guid = 16%nat -> bytes guid ->
  exists dk', update_both dk (entry_off (g_sz (v_g v)) (p_ix p)) (entry_off (g_sz (v_g v)) (p_ix' p)) guid active = Some dk' /\
    editing v ((p_ix p, slot_entry active guid (p_attr p)) :: n) ((p_ix' p, slot_entry active guid (p_attr' p)) :: n') dk'.
Proof.
  intros Hv (hp & hs & ap & as_ & Hload & [? ? ? [? ?] _ _ _] & Sa & Sb) (Hi & Hi' & He & gd & He') Hn Hn' Hl Hb.
  destruct (v_entries v Hv) as (Ea & Eb & _ & _).
  pose proof Hi as (Hlt & _)%first_ix_Some. pose proof Hi' as (Hlt' & _)%first_ix_Some.
  destruct (switched_step (v_g v) _ _ _ _ _ _ guid active Ea (proj2 Hlt) Sa Hn He Hl Hb) as (ap' & Ua & Sa').
  destruct (switched_step (v_g v) _ _ _ _ _ _ guid active Eb (proj2 Hlt') Sb Hn' He' Hl Hb) as (as' & Ub & Sb').
  eexists. split.
  - unfold update_both. rewrite (ld_arr _ _ _ _ _ _ _ Hload), (ld_arr_bak _ _ _ _ _ _ _ Hload).
    cbn [mbind option_bind]. rewrite Ua. cbn [mbind option_bind]. rewrite Ub. reflexivity.
  - exists hp, hs, ap', as'. destruct Hload. by split; [constructor|].
Qed.

Lemma wp_reseal v n n' dk w (Q : Z * option gpt_disk -> World -> Prop) :
  device_ok v -> editing v n n' dk ->
  (forall dk', holding v n n' dk' -> Q (0, Some dk') w) ->
  wp (gpt_disk_update_crc (Some dk)) Q w.
Proof.
  intros Hv (hp & hs & ap & as_ & Hload & Lp & Ls & Hsz & Gp & Gs & Sa & Sb) HQ.
  destruct (v_entries v Hv) as (_ & _ & Na & Nb).
  eapply (wp_update_crc_ready (v_fd v) (v_g v)); [..|intros dk' hp' hs' Hload' Hr; apply HQ; by exists hp', hs', ap, as_];
    try done; [apply Hv| |]; [by rewrite (sw_len _ _ _ _ Sa)|by rewrite (sw_len _ _ _ _ Sb)].
Qed.

Lemma part_guid v name p : device_ok v -> part_at (v_g v) (v_ap v) (v_as v) name p ->
  length (p_guid p) = 16%nat /\ bytes (p_guid p).
Proof.
  intros [_ _ _ (d & hp & hs & _ & _ & Hb & _)] (_ & _ & He & _). unfold entry_of in He.
  destruct (slice _ _ _) as [gd|] eqn:Es; [|done]. cbn [mbind option_bind] in He.
  destruct (rd _ _); [|done]. cbn [mbind option_bind] in He. injection He as <- _.
  split; [by rewrite (slice_length _ _ _ _ Es)|]. by eapply slice_bytes.
Qed.

(** The GUID of a version in a handle that has not switched it. *)
Lemma holding_guid v n n' dk name p :
  device_ok v -> holding v n n' dk -> part_at (v_g v) (v_ap v) (v_as v) name p -> p_ix p ∉ n.*1 ->
  exists arr, pentry_arr dk = Some arr /\ slice arr (entry_off (g_sz (v_g v)) (p_ix p)) TYPE_GUID_SIZE = Some (p_guid p).
Proof.
  intros Hv (hp & hs & ap & as_ & Hload & _ & Sa & _) (Hi & _ & He & _) Hn.
  exists ap. split; [apply Hload|]. pose proof Hi as (Hlt & _)%first_ix_Some.
  rewrite <- (sw_old _ _ _ _ Sa (p_ix p) (proj2 Hlt) Hn) in He. unfold entry_of in He.
  destruct (slice _ _ _); [|done]. cbn [mbind option_bind] in He.
  destruct (rd _ _); [|done]. cbn [mbind option_bind] in He. by injection He as -> _.
Qed.

(** *** The loop *)
Context (slot : Z) (Hslot : slot = 0 \/ slot = 1).
Abbreviation toA := (slot =? 0).
Abbreviation toB := (negb (slot =? 0)).

Definition holdA (dn : list pair) : gpt_disk -> Prop := holding A (news q_A toA dn) (news' q_A toA dn).
Definition holdB (dn : list pair) : gpt_disk -> Prop := holding B (news q_B toB dn) (news' q_B toB dn).
Definition editA (dn : list pair) : gpt_disk -> Prop := editing A (news q_A toA dn) (news' q_A toA dn).
Definition editB (dn : list pair) : gpt_disk -> Prop := editing B (news q_B toB dn) (news' q_B toB dn).

(** The entries of [q] have not been switched. *)
Definition fresh (q : pair) (dn : list pair) : Prop :=
  p_ix (q_A q) ∉ (fun q => p_ix (q_A q)) <$> dn /\ p_ix' (q_A q) ∉ (fun q => p_ix' (q_A q)) <$> dn /\
  p_ix (q_B q) ∉ (fun q => p_ix (q_B q)) <$> dn /\ p_ix' (q_B q) ∉ (fun q => p_ix' (q_B q)) <$> dn.

Lemma news_ix side active qs : (news side active qs).*1 = (fun q => p_ix (side q)) <$> qs.
Proof. unfold news. by rewrite <- list_fmap_compose. Qed.
Lemma news'_ix side active qs : (news' side active qs).*1 = (fun q => p_ix' (side q)) <$> qs.
Proof. unfold news'. by rewrite <- list_fmap_compose. Qed.

Lemma new_guid_ok q active : pair_ok q -> length (new_guid active q) = 16%nat /\ bytes (new_guid active q).
Proof.
  intros [_ _ _ Pa Pb _]. pose proof (part_guid A _ _ HA Pa). pose proof (part_guid B _ _ HB Pb).
  unfold new_guid, act_guid, inact_guid. destruct active, (is_active _); done.
Qed.

Lemma wp_switch_entries q dn dA dB n w (Q : option (gpt_disk * gpt_disk) -> World -> Prop) :
  holdA dn dA -> holdB dn dB -> pair_ok q -> fresh q dn -> calm n w0 w ->
  (forall w' dA' dB', calm n w0 w' -> editA (q :: dn) dA' -> editB (q :: dn) dB' -> Q (Some (dA', dB')) w') ->
  wp (switch_entries (Some (if toA then AB_SLOT_A_SUFFIX else AB_SLOT_B_SUFFIX))
        (part_name (q_name q) AB_SLOT_A_SUFFIX) (part_name (q_name q) AB_SLOT_B_SUFFIX) dA dB) Q w.
Proof.
  intros Hda Hdb Hq (F1 & F2 & F3 & F4) Hc HQ. pose proof Hq as [_ PathA PathB Pa Pb Hact].
  rewrite <- (news_ix q_A toA) in F1. rewrite <- (news'_ix q_A toA) in F2.
  rewrite <- (news_ix q_B toB) in F3. rewrite <- (news'_ix q_B toB) in F4.
  pose proof Pa as (Ia & Ia' & _). pose proof Pb as (Ib & Ib' & _).
  unfold switch_entries.
  apply wp_bind. eapply wp_holding_pentry; [exact HA|exact Hda|]. rewrite Ia.
  apply wp_bind. eapply wp_holding_pentry; [exact HA|exact Hda|]. rewrite Ia'.
  apply wp_bind. eapply wp_holding_pentry; [exact HB|exact Hdb|]. rewrite Ib.
  apply wp_bind. eapply wp_holding_pentry; [exact HB|exact Hdb|]. rewrite Ib'.
  cbn [fmap option_fmap option_map].
  destruct (holding_guid _ _ _ _ _ _ HA Hda Pa F1) as (arrA & EA & GA).
  destruct (holding_guid _ _ _ _ _ _ HB Hdb Pb F3) as (arrB & EB & GB).
  wp_step. eapply wp_deref; [exact EA|]. wp_step. eapply wp_deref; [exact EB|].
  wp_step. eapply wp_deref; [exact GA|]. wp_step. eapply wp_deref; [exact GB|].
  apply wp_bind. eapply wp_slot_active; [exact HA|exact PathA|exact Pa|exact Hc|]. intros w1 C1.
  apply wp_bind.
  assert (Hb : forall Q', (forall w', calm n w0 w' ->
      Q' (if is_active (q_A q) then 0 else if is_active (q_B q) then 1 else 0) w') ->
    wp (if (if is_active (q_A q) then 1 else 0) =? 1 then mret 0
        else get_partition_attribute (Some (part_name (q_name q) AB_SLOT_B_SUFFIX)) ATTR_SLOT_ACTIVE) Q' w1).
  { intros Q' HQ'. destruct (is_active (q_A q)); simpl; [by apply wp_ret, HQ'|].
    eapply wp_slot_active; [exact HB|exact PathB|exact Pb|exact C1|done]. }
  apply Hb. intros w2 C2. clear Hb.
  assert (Hsome : negb ((if is_active (q_A q) then 1 else 0) =? 1) &&
    negb ((if is_active (q_A q) then 0 else if is_active (q_B q) then 1 else 0) =? 1) = false).
  { destruct (is_active (q_A q)); [done|]. simpl in Hact. by rewrite Hact. }
  rewrite Hsome.
  assert (Gact : (if (if is_active (q_A q) then 1 else 0) =? 1 then p_guid (q_A q) else p_guid (q_B q)) = act_guid q).
  { unfold act_guid. by destruct (is_active (q_A q)). }
  assert (Gin : (if (if is_active (q_A q) then 1 else 0) =? 1 then p_guid (q_B q) else p_guid (q_A q)) = inact_guid q).
  { unfold inact_guid. by destruct (is_active (q_A q)). }
  cbv zeta. rewrite Gact, Gin. apply wp_bind. eapply wp_deref; [reflexivity|].
  destruct (new_guid_ok q toA Hq) as [LA BA]. destruct (new_guid_ok q toB Hq) as [LB BB].
  destruct (update_both_editing _ _ _ _ _ _ _ toA HA Hda Pa F1 F2 LA BA) as (dA' & UA & HA').
  destruct (update_both_editing _ _ _ _ _ _ _ toB HB Hdb Pb F3 F4 LB BB) as (dB' & UB & HB').
  change (editA (q :: dn) dA') in HA'. change (editB (q :: dn) dB') in HB'.
  assert (E0 : forall b : bool, String.prefix AB_SLOT_A_SUFFIX (if b then AB_SLOT_A_SUFFIX else AB_SLOT_B_SUFFIX) = b) by by intros [].
  assert (E1 : forall b : bool, String.prefix AB_SLOT_B_SUFFIX (if b then AB_SLOT_A_SUFFIX else AB_SLOT_B_SUFFIX) = negb b) by by intros [].
  rewrite E0, E1. destruct (slot =? 0); cbn [negb] in *.
  - wp_step. eapply wp_deref; [exact UA|]. wp_step. eapply wp_deref; [exact UB|]. apply wp_ret. by apply HQ.
  - wp_step. eapply wp_deref; [exact UB|]. wp_step. eapply wp_deref; [exact UA|]. apply wp_ret. by apply HQ.
Qed.

(** The handles during the loop: loaded together for the first pair, ten heap
    blocks. *)
Definition handles (dn : list pair) (n : Z) (oA oB : option gpt_disk) : Prop :=
  (oA = None /\ oB = None /\ dn = [] /\ n = 0) \/
  (exists dA dB, oA = Some dA /\ oB = Some dB /\ holdA dn dA /\ holdB dn dB /\ n = 10).

(** No two pairs share an entry. *)
Definition apart (f : pair -> nat) (qs dn : list pair) : Prop := NoDup ((f <$> qs) ++ (f <$> dn)).
Definition distinct (qs dn : list pair) : Prop :=
  apart (fun q => p_ix (q_A q)) qs dn /\ apart (fun q => p_ix' (q_A q)) qs dn /\
  apart (fun q => p_ix (q_B q)) qs dn /\ apart (fun q => p_ix' (q_B q)) qs dn.

Lemma apart_step f q qs dn : apart f (q :: qs) dn -> f q ∉ f <$> dn /\ apart f qs (q :: dn).
Proof.
  unfold apart. rewrite !fmap_cons. cbn [app]. intros H. split.
  - apply NoDup_cons in H as [H _]. intros Hin. apply H, elem_of_app. by right.
  - by rewrite <- Permutation_middle.
Qed.

Lemma distinct_step q qs dn : distinct (q :: qs) dn -> fresh q dn /\ distinct qs (q :: dn).
Proof.
  intros (H1 & H2 & H3 & H4).
  apply apart_step in H1 as [? ?], H2 as [? ?], H3 as [? ?], H4 as [? ?]. done.
Qed.

Lemma wp_slot_suffix_arr w (Q : option string -> World -> Prop) :
  Q (Some (if toA then AB_SLOT_A_SUFFIX else AB_SLOT_B_SUFFIX)) w -> wp (slot_suffix_arr slot) Q w.
Proof. intros HQ. unfold slot_suffix_arr. destruct Hslot as [Es|Es]; rewrite Es in HQ |- *; by apply wp_ret. Qed.

Lemma wp_set_active_one name q dn n oA oB w (Q : bool * (option gpt_disk * option gpt_disk) -> World -> Prop) :
  (3 <= String.length name)%nat -> chop_suffix name = q_name q -> pair_ok q -> fresh q dn ->
  handles dn n oA oB -> calm n w0 w ->
  (forall w' dA dB, calm 10 w0 w' -> holdA (q :: dn) dA -> holdB (q :: dn) dB -> Q (true, (Some dA, Some dB)) w') ->
  wp (set_active_one name slot oA oB) Q w.
Proof.
  intros Hlen Hchop Hq Hf Hh Hc HQ. pose proof Hq as [Hex PathA PathB _ _ _].
  assert (Hload : forall Q1 : option gpt_disk -> World -> Prop,
    (forall w' dA, (calm 5 w0 w' /\ oB = None /\ dn = [] \/ calm 10 w0 w' /\ exists dB, oB = Some dB /\ holdB dn dB) ->
       holdA dn dA -> Q1 (Some dA) w') ->
    wp (ensure_disk oA (part_name (q_name q) AB_SLOT_A_SUFFIX)) Q1 w).
  { intros Q1 HQ1. destruct Hh as [(-> & -> & -> & ->)|(dA & dB & -> & -> & Ha & Hb & ->)]; cbn [ensure_disk].
    - eapply wp_boot_ctl_get_disk_info; [exact HA|exact PathA|exact Hc|]. intros w' dk C' Hk. apply HQ1; auto.
    - apply wp_ret, HQ1; [|done]. right. split; [done|]. by exists dB. }
  unfold set_active_one. rewrite (proj2 (Nat.ltb_ge _ _) Hlen). cbv zeta. rewrite Hchop, Hex. cbn [negb].
  apply wp_bind. apply Hload. intros w1 dA Hw1 Ha. apply wp_bind.
  assert (Hload' : forall Q1 : option gpt_disk -> World -> Prop,
    (forall w' dB, calm 10 w0 w' -> holdB dn dB -> Q1 (Some dB) w') ->
    wp (ensure_disk oB (part_name (q_name q) AB_SLOT_B_SUFFIX)) Q1 w1).
  { intros Q1 HQ1. destruct Hw1 as [(C1 & -> & ->)|(C1 & dB & -> & Hb)]; cbn [ensure_disk].
    - eapply wp_boot_ctl_get_disk_info; [exact HB|exact PathB|exact C1|]. intros w' dk C' Hk. by apply HQ1.
    - by apply wp_ret, HQ1. }
  apply Hload'. intros w2 dB C2 Hb. apply wp_bind, wp_slot_suffix_arr. apply wp_bind.
  eapply wp_switch_entries; [exact Ha|exact Hb|exact Hq|exact Hf|exact C2|]. intros w3 dA' dB' C3 Ea Eb.
  apply wp_bind. eapply wp_reseal; [exact HA|exact Ea|]. intros dA2 Ha2. cbn [negb Z.eqb].
  apply wp_bind. eapply wp_reseal; [exact HB|exact Eb|]. intros dB2 Hb2. apply wp_ret. by apply HQ.
Qed.

Lemma wp_set_active_loop names qs dn n oA oB w (Q : bool * (option gpt_disk * option gpt_disk) -> World -> Prop) :
  listed names qs -> distinct qs dn -> handles dn n oA oB -> calm n w0 w ->
  (forall w' dn' n' oA' oB', dn' = rev qs ++ dn -> handles dn' n' oA' oB' -> calm n' w0 w' -> Q (true, (oA', oB')) w') ->
  wp (set_active_loop names slot oA oB) Q w.
Proof.
  intros Hl. revert dn n oA oB w. induction Hl as [|name ns qs Hlen Hex Hl IH|name ns q qs Hlen Hchop Hq Hl IH];
    intros dn n oA oB w Hd Hh Hc HQ; cbn [set_active_loop].
  - apply wp_ret. by eapply HQ.
  - unfold set_active_one at 1. rewrite (proj2 (Nat.ltb_ge _ _) Hlen). cbv zeta. rewrite Hex. cbn [negb].
    apply wp_bind, wp_ret. by eapply IH.
  - apply distinct_step in Hd as [Hf Hd]. apply wp_bind.
    eapply wp_set_active_one; [exact Hlen|exact Hchop|exact Hq|exact Hf|exact Hh|exact Hc|].
    intros w1 dA dB C1 Ha Hb. eapply (IH (q :: dn)); [exact Hd| |exact C1|].
    + right. by exists dA, dB.
    + intros w' dn' n' oA' oB' -> Hh' C'. eapply HQ; [|exact Hh'|exact C']. simpl. by rewrite <- app_assoc.
Qed.

(** *** The commits *)

(** The device holds two complete tables with these entries replaced. *)
Definition device_after (v : device) (n n' : list (nat * (buf * Z))) (w : World) : Prop :=
  exists ap as_, disk_at w (v_fd v) (v_g v) ap as_ /\
    switched (v_g v) (v_ap v) ap n /\ switched (v_g v) (v_as v) as_ n'.
(** Every write since [w] left the device it wrote bootable. *)
Definition safely (w w' : World) : Prop :=
  exists new, hist w' = hist w ++ new /\
    Forall (fun '(fd, x) => exists v, (v = A \/ v = B) /\ fd = v_fd v /\ bootable x (g_bs (v_g v))) new.

Lemma safely_trans w1 w2 w3 : safely w1 w2 -> safely w2 w3 -> safely w1 w3.
Proof.
  intros (n1 & H1 & F1) (n2 & H2 & F2). exists (n1 ++ n2). by rewrite H2, H1, app_assoc, Forall_app.
Qed.

Lemma wp_commit_holding v n n' dk w (Q : unit -> World -> Prop) :
  device_ok v -> v = A \/ v = B -> holding v n n' dk -> (exists ap as_, disk_at w (v_fd v) (v_g v) ap as_) ->
  (forall w' d, devs w' = <[v_fd v := d]> (devs w) -> blocks w' = blocks w - 5 -> safely w w' ->
     device_after v n n' w' -> Q tt w') ->
  wp (r ← gpt_disk_commit (Some dk); if negb (r =? 0) then undef else gpt_disk_free (Some dk)) Q w.
Proof.
  intros [Hio Hg Hbs _] Hv (hp & hs & ap & as_ & Hload & Hr & Sa & Sb) (ap0 & as0 & d & hp0 & hs0 & Hd & Hok & _) HQ.
  apply wp_bind.
  eapply (wp_commit_ready (v_fd v) Hio (v_g v) Hg Hbs d); [exact Hok|exact Hr|exact Hload|by apply steps_refl| |by intros ? ? ? Hf].
  intros w1 d' s1 S1 Hok' _ Hboot. cbn [negb Z.eqb].
  eapply (wp_gpt_disk_free (v_fd v) dk w d' _ (-5)).
  { rewrite (loaded_held _ _ _ _ _ _ _ Hload). exact S1. }
  intros w2 (D & H & Bl). simpl in H.
  assert (Hat : disk_at w2 (v_fd v) (v_g v) ap as_).
  { exists d', hp, hs. split; [by rewrite D, lookup_insert_eq|]. split; [done|].
    split; [apply Sa|apply Sb]. }
  apply (HQ w2 d'); [done|lia| |by exists ap, as_].
  exists ((fun x => (v_fd v, x)) <$> s1). split; [done|]. apply Forall_fmap.
  eapply Forall_impl; [exact Hboot|]. intros x Hx. by exists v.
Qed.

(** The program checks the result of a commit before it frees the handle. *)
Lemma wp_commit_free v n n' dk w (m f : CM World Z) (Q : Z -> World -> Prop) :
  device_ok v -> v = A \/ v = B -> holding v n n' dk -> (exists ap as_, disk_at w (v_fd v) (v_g v) ap as_) ->
  (forall w' d, devs w' = <[v_fd v := d]> (devs w) -> blocks w' = blocks w - 5 -> safely w w' ->
     device_after v n n' w' -> wp m Q w') ->
  wp (r ← gpt_disk_commit (Some dk); if negb (r =? 0) then f else _ ← gpt_disk_free (Some dk); m) Q w.
Proof.
  intros Hv Hv' Hh Hd HQ.
  assert (Hq : wp (r ← gpt_disk_commit (Some dk); if negb (r =? 0) then undef else gpt_disk_free (Some dk))
    (fun _ => wp m Q) w) by (by eapply wp_commit_holding).
  unfold wp, mbind, cm_bind in Hq |- *.
  destruct (gpt_disk_commit (Some dk) w) as [[r w2]|]; [|done].
  destruct (negb (r =? 0)); [done|]. destruct (gpt_disk_free (Some dk) w2) as [[[] w3]|]; done.
Qed.

Lemma wp_commit_disks nA nA' nB nB' dA dB w (Q : Z -> World -> Prop) :
  A = B \/ v_fd A <> v_fd B -> holding A nA nA' dA -> holding B nB nB' dB -> calm 10 w0 w ->
  (forall w', blocks w' = blocks w0 -> safely w0 w' ->
     (forall fd, fd <> v_fd A -> fd <> v_fd B -> devs w' !! fd = devs w0 !! fd) ->
     device_after B nB nB' w' -> (v_fd A <> v_fd B -> device_after A nA nA' w') -> Q 0 w') ->
  wp (commit_disks (Some dA) (Some dB)) Q w.
Proof.
  intros HAB Ha Hb (D & H & Bl) HQ.
  assert (Hat : forall v, device_ok v -> disk_at w (v_fd v) (v_g v) (v_ap v) (v_as v)).
  { intros v [_ _ _ Hv]. unfold disk_at. by rewrite D. }
  unfold commit_disks.
  eapply wp_commit_free; [exact HA|by left|exact Ha|by exists (v_ap A), (v_as A); apply Hat|].
  intros w1 d1 D1 B1 S1 (apA & asA & AtA & SwA & SwA').
  eapply wp_commit_free; [exact HB|by right|exact Hb| |].
  { destruct HAB as [->|Hne]; [by exists apA, asA|]. exists (v_ap B), (v_as B).
    destruct (Hat B HB) as (d & hp & hs & Hd & R). exists d, hp, hs. by rewrite D1, lookup_insert_ne. }
  intros w2 d2 D2 B2 S2 Hafter. apply wp_ret, HQ.
  - lia.
  - destruct (safely_trans _ _ _ S1 S2) as (new & Hn & Fn). exists new. by rewrite Hn, H.
  - intros fd N1 N2. by rewrite D2, lookup_insert_ne, D1, lookup_insert_ne, D.
  - done.
  - intros Hne. exists apA, asA. split; [|done]. destruct AtA as (d & hp & hs & Hd & R).
    exists d, hp, hs. by rewrite D2, lookup_insert_ne.
Qed.

Lemma switched_perm g arr0 arr n m : n ≡ₚ m -> switched g arr0 arr n -> switched g arr0 arr m.
Proof.
  intros Hp [Hl Hb Hix Hn Ho]. constructor; [done..| |].
  - intros j x Hj. apply Hn. by rewrite Hp.
  - intros j Hj Hnj. apply Ho; [done|]. by rewrite Hp.
Qed.

Lemma device_after_rev v side act qs w :
  device_after v (news side act (rev qs ++ [])) (news' side act (rev qs ++ [])) w ->
  device_after v (news side act qs) (news' side act qs) w.
Proof.
  rewrite app_nil_r. intros (ap & as_ & Hat & S1 & S2). exists ap, as_. split; [done|].
  split; (eapply switched_perm; [|eassumption]); unfold news, news'; by rewrite <- (Permutation_rev qs).
Qed.

Lemma device_unchanged v w : device_ok v -> devs w = devs w0 -> device_after v [] [] w.
Proof.
  intros [_ _ _ (d & hp & hs & Hd & Hok & Ba & Bb)] D. exists (v_ap v), (v_as v).
  split; [exists d, hp, hs; by rewrite D|]. split; by apply switched_refl.
Qed.

(** The whole call, without faults. *)
Lemma wp_set_active names qs (Q : Z -> World -> Prop) :
  A = B \/ v_fd A <> v_fd B -> listed names qs -> distinct qs [] ->
  (forall w', blocks w' = blocks w0 -> safely w0 w' ->
     (forall fd, fd <> v_fd A -> fd <> v_fd B -> devs w' !! fd = devs w0 !! fd) ->
     device_after B (news q_B toB qs) (news' q_B toB qs) w' ->
     (v_fd A <> v_fd B -> device_after A (news q_A toA qs) (news' q_A toA qs) w') -> Q 0 w') ->
  wp (boot_ctl_set_active_slot_for_partitions names slot) Q w0.
Proof.
  intros HAB Hl Hd HQ. unfold boot_ctl_set_active_slot_for_partitions. apply wp_bind.
  assert (C0 : calm 0 w0 w0) by (split; [done|split; [done|lia]]).
  eapply wp_set_active_loop; [exact Hl|exact Hd|by left|exact C0|].
  intros w' dn n oA oB Hdn Hh C. cbn [negb].
  destruct Hh as [(-> & -> & -> & ->)|(dA & dB & -> & -> & Ha & Hb & ->)].
  - destruct qs as [|q qs]; [|apply (f_equal length) in Hdn; rewrite length_app, length_rev in Hdn; done]. destruct C as (D & H & Bl).
    cut (Q 0 w'); [exact id|]. apply HQ.
    + lia.
    + exists []. split; [by rewrite app_nil_r|constructor].
    + by rewrite D.
    + by apply device_unchanged.
    + intros _. by apply device_unchanged.
  - subst dn. eapply wp_commit_disks; [exact HAB|exact Ha|exact Hb|exact C|].
    intros w2 B2 S2 O2 AfB AfA. apply HQ; [done|done|done|by apply device_after_rev|].
    intros Hne. by apply device_after_rev, AfA.
Qed.
End switch.
