(* ===== verification/BootProps.v ===== *)
(** * The boot control is correct

    The number of slots, what marking a slot guarantees, the specification of
    [boot_ctl_set_active_slot_for_partitions], the switch it loses when both slots are on one
    device, and its use after free; before them, devices to apply them to. *)
From S2P Require Import Prelude Bytes Crc32 BlockDev UfsBsg GptUtils GptSwap GptSpec GptExec GptDisk GptExample BootControl BootAttr BootSwitch.

(** ** Concrete devices with slots

    The environment of [GptExample] with A/B versions of "boot": on the eMMC, or
    on two UFS units. *)

Definition boot_a_path : string := "/dev/block/bootdevice/by-name/boot_a".
Definition boot_b_path : string := "/dev/block/bootdevice/by-name/boot_b".

(** [ufs]: the storage; the calls in [bad] fail. *)
Definition boot_env (ufs : bool) (bad : list nat) : Env := {|
  env_ok := fun t => negb (existsb (Nat.eqb t) bad);
  env_errno := fun _ => 5;
  env_io := fun _ len => (true, len);
  env_junk := fun _ _ => 0xAA;
  env_blksz := fun _ => 512;
  env_stat := fun p => String.eqb p boot_a_path || String.eqb p boot_b_path;
  env_readlink := fun p =>
    if String.eqb p boot_a_path then Some "/dev/block/sda1"%string
    else if String.eqb p boot_b_path then Some "/dev/block/sdb1"%string else None;
  env_listdir := fun _ => Some ["boot_a"; "boot_b"]%string;
  env_property := fun p =>
    if String.eqb p "ro.boot.bootdevice" then Some (if ufs then "1d84000.ufshc" else "7824900.sdhci")%string
    else if String.eqb p BOOT_SLOT_PROP then Some "_b"%string else None;
  env_sgio := fun _ => (0, false);
  env_crc32 := fun c b => u32 (sparse_crc32 c b);
  env_crc_init := 0;
|}.

Lemma boot_laws ufs bad : EnvLaws (boot_env ufs bad).
Proof. constructor. intros. by apply wrap_bounds. Defined.
Lemma boot_no_faults ufs : no_faults (H := boot_env ufs []).
Proof. by split. Defined.
Lemma boot_io ufs bad fd : io_blocks (H := boot_env ufs bad) fd.
Proof. intros t len _. simpl. reflexivity. Defined.

(** Slot [b] is active when [b_active], else slot A; type GUIDs 1... and 2.... *)
Definition slot_mk (guid attr : Z) (name : string) : buf :=
  replicate 16 guid ++ drop 16 (mk_entry attr name).
Definition boot_arr (b_active : bool) : buf :=
  mk_entry 0x3F "tz" ++ mk_entry 0 "tzbak" ++
  slot_mk (if b_active then 2 else 1) (if b_active then 0x3A else 0x3F) "boot_a" ++
  slot_mk (if b_active then 1 else 2) (if b_active then 0x3F else 0x3A) "boot_b".
Definition boot_hp (b : bool) : buf := mk_hdr 2 4 (boot_arr b).
Definition boot_hs (b : bool) : buf := mk_hdr 3 4 (boot_arr b).
Definition boot_disk (b : bool) : buf :=
  zeros 512 ++ boot_hp b ++ boot_arr b ++ boot_arr b ++ boot_hs b.
Definition boot_world (b : bool) : World :=
  MkWorld {[ BLK_DEV_FILE := boot_disk b; "/dev/block/sda"%string := boot_disk b;
             "/dev/block/sdb"%string := boot_disk b ]} 0 [] 0 0 "" false [].

Lemma boot_hdr_layout b :
  hdr_layout ex_geometry 1024 (boot_hp b) /\ hdr_layout ex_geometry 1536 (boot_hs b).
Proof.
  split; (constructor; [|destruct b; vm_compute; reflexivity..]);
    (split; [destruct b; vm_compute; reflexivity|]; split; [simpl; lia|];
     exists 92; split; [destruct b; vm_compute; reflexivity|simpl; lia]).
Qed.

Lemma boot_disk_ok ufs bad b :
  disk_ok (E := boot_env ufs bad) ex_geometry (boot_disk b) (boot_hp b) (boot_hs b) (boot_arr b) (boot_arr b).
Proof.
  destruct (boot_hdr_layout b) as [Lp Ls].
  constructor; [constructor; [destruct b; vm_compute; reflexivity..|exact Lp|exact Ls]|
    split; destruct b; vm_compute; reflexivity|destruct b; vm_compute; reflexivity|
    split; destruct b; vm_compute; reflexivity| |split; destruct b; vm_compute; reflexivity].
  destruct b; split; (eexists; split; vm_compute; reflexivity).
Qed.

Lemma boot_arr_bytes b : bytes (boot_arr b).
Proof.
  assert (H : forallb (fun x => (0 <=? x) && (x <? 256)) (boot_arr b) = true) by (destruct b; vm_compute; reflexivity).
  apply Forall_forall. intros x Hx. rewrite forallb_forall in H. specialize (H x). rewrite <- list_elem_of_In in H.
  specialize (H Hx). lia.
Qed.

Definition boot_device (fd : string) (b : bool) : device := Device fd ex_geometry (boot_arr b) (boot_arr b).
Definition emmc : string := BLK_DEV_FILE.
Definition lun_a : string := "/dev/block/sda".
Definition lun_b : string := "/dev/block/sdb".

Lemma boot_disk_at ufs bad fd b : fd = emmc \/ fd = lun_a \/ fd = lun_b ->
  disk_at (E := boot_env ufs bad) (boot_world b) fd ex_geometry (boot_arr b) (boot_arr b).
Proof.
  intros Hfd. exists (boot_disk b), (boot_hp b), (boot_hs b).
  split; [destruct Hfd as [-> |[-> | ->]]; reflexivity|].
  split; [apply boot_disk_ok|]. split; apply boot_arr_bytes.
Qed.

Lemma boot_device_ok ufs bad fd b : fd = emmc \/ fd = lun_a \/ fd = lun_b ->
  device_ok (E := boot_env ufs bad) (boot_world b) (boot_device fd b).
Proof.
  intros Hfd. constructor; [apply boot_io|exact ex_geometry_ok|reflexivity|by apply boot_disk_at].
Qed.

(** The two versions of "boot". *)
Definition boot_pair (b : bool) : pair :=
  Pair "boot" (Part 2 2 (replicate 16 (if b then 2 else 1)) (if b then 0x3A else 0x3F) (if b then 0x3A else 0x3F))
              (Part 3 3 (replicate 16 (if b then 1 else 2)) (if b then 0x3F else 0x3A) (if b then 0x3F else 0x3A)).

Lemma boot_parts b :
  part_at ex_geometry (boot_arr b) (boot_arr b) "boot_a" (q_A (boot_pair b)) /\
  part_at ex_geometry (boot_arr b) (boot_arr b) "boot_b" (q_B (boot_pair b)).
Proof.
  split; (split; [destruct b; vm_compute; reflexivity|]; split; [destruct b; vm_compute; reflexivity|];
    split; [destruct b; vm_compute; reflexivity|]; destruct b; eexists; vm_compute; reflexivity).
Qed.

Lemma boot_pair_ok (ufs : bool) bad b :
  pair_ok (E := boot_env ufs bad) (boot_device (if ufs then lun_a else emmc) b)
    (boot_device (if ufs then lun_b else emmc) b) (boot_pair b).
Proof.
  destruct (boot_parts b) as [Pa Pb].
  constructor; [destruct ufs; vm_compute; reflexivity..|exact Pa|exact Pb|destruct b; vm_compute; reflexivity].
Qed.

Lemma boot_listed (ufs : bool) bad b n : n = "boot_a"%string \/ n = "boot_b"%string ->
  listed (E := boot_env ufs bad) (boot_device (if ufs then lun_a else emmc) b)
    (boot_device (if ufs then lun_b else emmc) b) [n] [boot_pair b].
Proof.
  intros Hn. constructor; [destruct Hn as [-> | ->]; simpl; lia|destruct Hn as [-> | ->]; reflexivity| |constructor].
  apply boot_pair_ok.
Qed.

Lemma boot_distinct b : distinct [boot_pair b] [].
Proof. split; [|split; [|split]]; unfold apart; simpl; apply NoDup_singleton. Qed.

(** A message library that stores nothing. *)
Definition ex_misc : Misc := {|
  misc_blk_device := ""; misc_reserved := 0; misc_size := 32;
  misc_read := fun d => Some d; misc_write := fun m d => Some d;
  misc_init := true; misc_set_merge := fun _ _ => true; misc_get_merge := fun _ => Some 0; misc_unknown := 1;
|}.

(** The eMMC as the only device with tables. *)
Definition boot_geo (fd : string) : option geometry := if String.eqb fd emmc then Some ex_geometry else None.

Lemma boot_geo_Some fd g : boot_geo fd = Some g -> fd = emmc /\ g = ex_geometry.
Proof. unfold boot_geo. destruct (String.eqb_spec fd emmc); [by intros [= <-]|done]. Qed.

Lemma boot_geometries_ok : geometries_ok (E := boot_env false []) boot_geo.
Proof.
  intros fd g [-> ->]%boot_geo_Some. split; [apply boot_io|]. split; [exact ex_geometry_ok|reflexivity].
Qed.

Lemma boot_managed b : managed (E := boot_env false []) boot_geo (boot_world b).
Proof.
  intros fd g [-> ->]%boot_geo_Some. exists (boot_arr b), (boot_arr b). apply boot_disk_at. by left.
Qed.

Lemma boot_only n : n ∈ AB_PTN_LIST -> ab_exists (E := boot_env false []) n = true -> n = "boot"%string.
Proof.
  assert (H : forallb (fun n => negb (ab_exists (E := boot_env false []) n) || String.eqb n "boot") AB_PTN_LIST = true)
    by (vm_compute; reflexivity).
  intros Hn Hab. rewrite forallb_forall in H. apply list_elem_of_In in Hn. specialize (H n Hn).
  rewrite Hab in H. simpl in H. by apply String.eqb_eq.
Qed.

(** A directory with a third name that starts with "boot". *)
Definition crowded_env : Env := {|
  env_ok := fun _ => true;
  env_errno := fun _ => 5;
  env_io := fun _ len => (true, len);
  env_junk := fun _ _ => 0xAA;
  env_blksz := fun _ => 512;
  env_stat := fun _ => true;
  env_readlink := fun _ => None;
  env_listdir := fun _ => Some ["boot_a"; "boot_b"; "bootloader_a"; "bootloader_b"]%string;
  env_property := fun _ => None;
  env_sgio := fun _ => (0, false);
  env_crc32 := fun c b => u32 (sparse_crc32 c b);
  env_crc_init := 0;
|}.

Section boot.
Context `{E : Env} `{X : Misc}.

(** ** The number of slots *)
Definition slot_entries : list string :=
  filter (fun d => String.prefix "." d = false /\ String.prefix BOOT_IMG_PTN_NAME d = true)
    (default [] (env_listdir BOOT_DEV_DIR)).
Definition n_slots (gvmq : bool) : Z := if gvmq then 2 else Z.of_nat (length slot_entries).

Definition same_disks (w w' : World) : Prop :=
  devs w' = devs w /\ hist w' = hist w /\ blocks w' = blocks w.

Lemma wp_get_number_slots gvmq w (Q : Z -> World -> Prop) :
  (forall w', same_disks w w' -> Q (n_slots gvmq) w') ->
  (forall w', ~ no_faults -> same_disks w w' -> Q 0 w') ->
  wp (get_number_slots gvmq) Q w.
Proof.
  intros H1 H2. unfold get_number_slots, n_slots in *. destruct gvmq; [by apply wp_ret, H1|].
  unfold sys_ok, tick. wp_run. unfold wp at 1. cbn [ticks]. wp_run.
  destruct (env_ok (ticks w)) eqn:Eok.
  - unfold slot_entries in H1. destruct (env_listdir BOOT_DEV_DIR) as [names|]; apply wp_ret; by apply H1.
  - apply wp_ret. apply H2; [|done]. intros [Hok _]. by rewrite Hok in Eok.
Qed.

Lemma wp_check_slot_sanity gvmq slot w (Q : Z -> World -> Prop) :
  0 <= slot ->
  (forall w', slot < n_slots gvmq -> same_disks w w' -> Q 0 w') ->
  (forall w', n_slots gvmq <= slot \/ ~ no_faults -> same_disks w w' -> Q (-1) w') ->
  wp (boot_control_check_slot_sanity gvmq slot) Q w.
Proof.
  intros Hs H1 H2. unfold boot_control_check_slot_sanity. apply wp_bind.
  apply wp_get_number_slots.
  - intros w' S. apply wp_ret. destruct (Z.lt_ge_cases slot (n_slots gvmq)).
    + rewrite (proj2 (Z.ltb_ge (n_slots gvmq) 1)), (proj2 (Z.ltb_ge _ slot)) by lia. by apply H1.
    + destruct (_ || _) eqn:Ho; [by apply H2; [left|]|]. lia.
  - intros w' Hnf S. apply wp_ret, H2; [by right|done].
Qed.

(** The HAL contract of [get_current_slot]: it is defined, changes nothing, and
    returns 0 or a slot number below the number of slots. *)
Theorem get_current_slot_valid (gvmq : bool) (w : World) :
  wp (get_current_slot gvmq) (fun s w' =>
    (s = 0 \/ 0 < s < n_slots gvmq) /\ same_disks w w') w.
Proof.
  unfold get_current_slot. apply wp_bind. apply wp_get_number_slots.
  - intros w' S. destruct (Z.leb_spec (n_slots gvmq) 1); [by apply wp_ret; auto|].
    repeat match goal with |- wp (if ?c then _ else _) _ _ => destruct c end; apply wp_ret; (split; [|done]); lia.
  - intros w' _ S. apply wp_ret. auto.
Qed.

(** The switch of a slot whose number passes the sanity check but has no suffix. *)

(** The number of slots counts every directory entry that starts with "boot",
    but only two suffixes exist: when there are more entries (a "bootloader"
    partition suffices), [set_active_boot_slot] and [is_slot_bootable] of a slot
    from 2 on pass the sanity check and are undefined (they use a NULL suffix or
    read beyond the array of suffixes). *)
Theorem slot_sanity_insufficient (slot : Z) (w : World) :
  no_faults -> 2 <= slot < n_slots false ->
  set_active_boot_slot false slot w = None /\ is_slot_bootable false slot w = None.
Proof.
  intros [Hok _] Hs.
  assert (Hsane : boot_control_check_slot_sanity false slot w = Some (0, set_ticks S w)).
  { unfold boot_control_check_slot_sanity, get_number_slots, sys_ok, tick, mbind, cm_bind, mret, cm_ret.
    rewrite Hok. unfold n_slots, slot_entries in Hs.
    destruct (env_listdir BOOT_DEV_DIR) as [names|]; simpl in Hs; [|lia].
    set (n := Z.of_nat _) in *. rewrite (proj2 (Z.ltb_ge n 1)), (proj2 (Z.ltb_ge _ slot)) by lia. done. }
  assert (Hbind : forall A B (m : CM World A) (f : A -> CM World B) w0 a w1,
    m w0 = Some (a, w1) -> (m ≫= f) w0 = f a w1).
  { intros A B m f w0 a w1 Hm. unfold mbind, cm_bind. by rewrite Hm. }
  unfold set_active_boot_slot, is_slot_bootable.
  split; [rewrite (Hbind _ _ _ _ _ 0 w) by done; cbn [negb Z.eqb]|];
    rewrite (Hbind _ _ _ _ _ _ _ Hsane); cbn [negb Z.eqb];
    unfold slot_suffix_arr; rewrite (proj2 (Z.eqb_neq slot 0)), (proj2 (Z.eqb_neq slot 1)) by lia;
    by destruct (slot =? 2).
Qed.

(** ** Marking a slot *)
Section marking.
Context (geo : string -> option geometry) (Hgeo : geometries_ok geo).

Definition suffix_of (slot : Z) : string := if slot =? 0 then AB_SLOT_A_SUFFIX else AB_SLOT_B_SUFFIX.

Lemma wp_slot_suffix slot (Q : option string -> World -> Prop) w :
  0 <= slot <= 1 -> Q (Some (suffix_of slot)) w -> wp (slot_suffix_arr slot) Q w.
Proof.
  intros Hs HQ. unfold slot_suffix_arr, suffix_of in *. assert (slot = 0 \/ slot = 1) as [-> | ->] by lia; by apply wp_ret.
Qed.

Lemma suffix_valid slot : slot_name_valid (suffix_of slot) = true.
Proof. unfold suffix_of. by destruct (slot =? 0). Qed.

Lemma same_managed w w' : same_disks w w' -> managed geo w -> managed geo w'.
Proof. unfold managed, disk_at. intros (-> & _ & _). done. Qed.
Lemma same_entry P w w' name : same_disks w w' -> entry_with geo P w name -> entry_with geo P w' name.
Proof. unfold entry_with, disk_at. intros (-> & _ & _). done. Qed.
Lemma same_always w w1 w2 : same_disks w w1 -> always_bootable geo w1 w2 -> always_bootable geo w w2.
Proof. unfold always_bootable. intros (_ & -> & _). done. Qed.
Lemma always_same w w1 w2 : always_bootable geo w w1 -> same_disks w1 w2 -> always_bootable geo w w2.
Proof. unfold always_bootable. intros H (_ & -> & _). done. Qed.

(** All the partitions of the slot have entries in their tables. *)
Definition slot_complete (w : World) (slot : Z) : Prop :=
  forall n, n ∈ AB_PTN_LIST -> ab_exists n = true -> has_entry geo w (part_name n (suffix_of slot)).

Lemma boot_in_list : BOOT_IMG_PTN_NAME ∈ AB_PTN_LIST.
Proof. apply list_elem_of_In. unfold AB_PTN_LIST. apply in_or_app. right. by left. Qed.

(** Mark a slot, then read an attribute of its boot partition back. *)
Lemma mark_then_read slot a w (Q : Z -> World -> Prop) :
  a <> ATTR_SLOT_ACTIVE -> 0 <= slot <= 1 -> managed geo w -> slot_complete w slot ->
  (forall r w', (r = 0 /\ managed geo w' /\ (ab_exists BOOT_IMG_PTN_NAME = true ->
        attr_set geo a w' (part_name BOOT_IMG_PTN_NAME (suffix_of slot))) \/
      r = -1 /\ ~ no_faults /\ all_bootable geo w') ->
    always_bootable geo w w' -> blocks w' = blocks w -> Q (if r =? 0 then 0 else -1) w') ->
  wp (suffix ← slot_suffix_arr slot; r ← update_slot_attribute suffix a; mret (if r =? 0 then 0 else -1)) Q w.
Proof.
  intros Hne Hs Hm Hc HQ. apply wp_bind, wp_slot_suffix; [done|]. apply wp_bind.
  eapply wp_conseq; [apply (update_slot_world geo Hgeo); [done|apply suffix_valid|done|done]|].
  intros r w' [Hr [Hal Hb]]. apply wp_ret, HQ; [|done|done].
  destruct Hr as [(-> & M & _ & A)|R]; [left|by right].
  split; [done|]. split; [done|]. intros Hab. by apply A; [apply boot_in_list|].
Qed.

(** Reading a marked attribute of the boot partition back. *)
Lemma read_back gvmq slot a (f : Z -> Z) w0 w :
  0 <= slot < n_slots gvmq -> slot <= 1 -> f (-1) = -1 -> managed geo w ->
  attr_set geo a w (part_name BOOT_IMG_PTN_NAME (suffix_of slot)) ->
  always_bootable geo w0 w -> blocks w = blocks w0 ->
  wp (s ← boot_control_check_slot_sanity gvmq slot;
      if negb (s =? 0) then mret (-1) else
      suffix ← slot_suffix_arr slot; suffix ← deref suffix;
      attr ← get_partition_attribute (Some (part_name BOOT_IMG_PTN_NAME suffix)) a; mret (f attr))
    (fun r w' => (r = f 1 \/ r = -1 /\ ~ no_faults) /\
       all_bootable geo w' /\ always_bootable geo w0 w' /\ blocks w' = blocks w0) w.
Proof.
  intros Hs Hle Hf Hm Ha Hal Hb. apply wp_bind. apply wp_check_slot_sanity; [lia| |].
  - intros w1 _ S1. cbn [negb Z.eqb]. apply wp_bind, wp_slot_suffix; [lia|].
    apply wp_bind. eapply wp_deref; [reflexivity|]. apply wp_bind.
    eapply wp_conseq; [apply (get_attribute_world geo Hgeo); [by eapply same_managed|by eapply same_entry]|].
    intros r w2 (Hr & S2).
    apply wp_ret. split; [|split; [|split]].
    + destruct Hr as [->|[-> Hnf]]; [by left|right; auto].
    + apply (managed_bootable geo). eapply same_managed; [exact S2|]. by eapply same_managed.
    + eapply always_same; [|exact S2]. by eapply always_same.
    + destruct S1 as (_ & _ & S1), S2 as (_ & _ & S2). congruence.
  - intros w1 [?|Hnf] S1; [lia|]. apply wp_ret. split; [by right|]. split; [|split].
    + apply (managed_bootable geo). by eapply same_managed.
    + by eapply always_same.
    + destruct S1 as (_ & _ & S1). congruence.
Qed.

(** C18. [setSlotAsUnbootable] takes effect: on devices with complete tables, under
    any faults, the call is defined, every device stays bootable after every
    write and no heap block is leaked; it reports success whenever the slot
    exists and no call fails; and after a success [isSlotBootable] of the slot
    answers FALSE (or an error, if a device call fails then). *)
Theorem setSlotAsUnbootable_spec (gvmq : bool) (slot : Z) (w : World) :
  0 <= slot <= 1 -> managed geo w -> slot_complete w slot -> ab_exists BOOT_IMG_PTN_NAME = true ->
  wp (ok ← setSlotAsUnbootable gvmq slot;
      if ok : bool then isSlotBootable gvmq slot else mret INVALID_SLOT)
    (fun b w' =>
       (b = BR_FALSE \/ b = INVALID_SLOT /\ (~ no_faults \/ n_slots gvmq <= slot)) /\
       all_bootable geo w' /\ always_bootable geo w w' /\ blocks w' = blocks w) w.
Proof.
  intros Hs Hm Hc Hab. unfold setSlotAsUnbootable, set_slot_as_unbootable. do 3 apply wp_bind.
  apply wp_check_slot_sanity; [lia| |].
  - intros w1 Hlt S1. cbn [negb Z.eqb]. eapply mark_then_read;
      [done|done|by eapply same_managed|intros n Hn Ha; eapply same_entry; [done|by apply Hc]|].
    intros r w2 Hr Hal Hb. assert (B2 : blocks w2 = blocks w) by (destruct S1 as (_ & _ & S1); congruence).
    apply wp_ret. destruct Hr as [(-> & M & A)|(-> & Hnf & B)]; cbn [Z.eqb].
    + unfold isSlotBootable. apply wp_bind.
      eapply wp_conseq; [apply (read_back gvmq slot ATTR_UNBOOTABLE
        (fun attr => if 0 <=? attr then if attr =? 0 then 1 else 0 else -1) w w2);
        [lia|lia|done|done|by apply A|by eapply same_always|done]|].
      intros r w3 [[->|[-> Hnf]] Hrest]; apply wp_ret; (split; [|done]); [by left|right; auto].
    + apply wp_ret. split; [right; auto|]. split; [done|]. split; [by eapply same_always|done].
  - intros w1 Hbad S1. cbn [negb Z.eqb]. apply wp_ret. simpl. apply wp_ret. cbn [Z.eqb]. apply wp_ret.
    split; [right; tauto|]. split; [by apply (managed_bootable geo); eapply same_managed|].
    split; [eapply always_same; [apply always_bootable_refl|done]|]. by destruct S1 as (_ & _ & S1).
Qed.

(** The slot that [get_current_slot] returns when no call fails. *)
Definition running_slot : Z :=
  if n_slots false <=? 1 then 0 else
  let prop := default "N/A"%string (env_property BOOT_SLOT_PROP) in
  if String.prefix AB_SLOT_A_SUFFIX prop then 0 else if String.prefix AB_SLOT_B_SUFFIX prop then 1 else 0.

Lemma prefix_head (c d : Ascii.ascii) (s t p : string) :
  c <> d -> String.prefix (String c s) p = true -> String.prefix (String d t) p = false.
Proof.
  intros Hne. destruct p as [|x p]; [done|]. cbn [String.prefix].
  destruct (Ascii.ascii_dec c x); [|done]. destruct (Ascii.ascii_dec d x); [congruence|done].
Qed.

Lemma wp_get_current_slot w (Q : Z -> World -> Prop) :
  (forall w' s, s = running_slot \/ s = 0 /\ ~ no_faults -> 0 <= s <= 1 -> same_disks w w' -> Q s w') ->
  wp (get_current_slot false) Q w.
Proof.
  intros H. unfold get_current_slot. apply wp_bind. apply wp_get_number_slots.
  - intros w' S. unfold running_slot in H.
    destruct (n_slots false <=? 1); [apply wp_ret, H; [by left|lia|done]|].
    cbv zeta. destruct (String.prefix "N/A" _) eqn:En.
    { apply wp_ret, H; [left|lia|done].
      assert (Hp : forall t, String.prefix (String (Ascii.ascii_of_nat 95) t) (default "N/A"%string (env_property BOOT_SLOT_PROP)) = false)
        by (intros t; by eapply prefix_head; [|exact En]).
      change AB_SLOT_A_SUFFIX with (String (Ascii.ascii_of_nat 95) "a").
      change AB_SLOT_B_SUFFIX with (String (Ascii.ascii_of_nat 95) "b"). by rewrite !Hp. }
    destruct (String.prefix AB_SLOT_A_SUFFIX _); [apply wp_ret, H; [by left|lia|done]|].
    destruct (String.prefix AB_SLOT_B_SUFFIX _); apply wp_ret, H; (by left) || lia || done.
  - intros w' Hnf S. apply wp_ret, H; [by right|lia|done].
Qed.

(** [markBootSuccessful] on a device with complete tables, under any faults:
    it is defined, every device stays bootable after every write, no heap block
    is leaked, no attribute is lost, and a success means that every A/B partition
    of the running slot is marked successful in both tables (of slot A, when the
    slots could not be listed).  It succeeds when no call fails. *)
Theorem markBootSuccessful_spec (w : World) :
  managed geo w -> slot_complete w 0 -> slot_complete w 1 ->
  wp (markBootSuccessful false) (fun ok w' =>
    (ok = true -> managed geo w' /\ keeps_attrs geo w w' /\ exists slot,
       (slot = running_slot \/ slot = 0 /\ ~ no_faults) /\
       forall n, n ∈ AB_PTN_LIST -> ab_exists n = true ->
         attr_set geo ATTR_BOOT_SUCCESSFUL w' (part_name n (suffix_of slot))) /\
    (no_faults -> ok = true) /\
    all_bootable geo w' /\ always_bootable geo w w' /\ blocks w' = blocks w) w.
Proof.
  intros Hm Ha Hb. unfold markBootSuccessful, mark_boot_successful. do 2 apply wp_bind. apply wp_ret.
  cbn [negb Z.eqb]. apply wp_bind. apply wp_get_current_slot. intros w1 slot Hslot Hr S1.
  apply wp_bind, wp_slot_suffix; [done|]. apply wp_bind.
  eapply wp_conseq; [apply (update_slot_world geo Hgeo);
    [done|apply (suffix_valid slot)|by eapply same_managed|]|].
  { intros n Hn Hex. eapply same_entry; [done|].
    assert (slot = 0 \/ slot = 1) as [-> | ->] by lia; [by apply Ha|by apply Hb]. }
  intros r w2 [Hres [Hal Hbl]]. apply wp_ret, wp_ret.
  assert (B2 : blocks w2 = blocks w) by (destruct S1 as (_ & _ & S1); congruence).
  assert (Al : always_bootable geo w w2) by (by eapply same_always).
  destruct Hres as [(-> & M & [K1 K2] & A)|(-> & Hnf & B)]; cbn [Z.eqb].
  - split; [intros _; split; [done|]; split|].
    + split; intros; [apply K1|apply K2]; by eapply same_entry.
    + by exists slot.
    + split; [done|]. split; [by apply managed_bootable|done].
  - split; [done|]. split; [by intros|done].
Qed.
End marking.
End boot.

(** ** Concrete devices *)
Lemma slot_sanity_insufficient_witness :
  set_active_boot_slot (E := crowded_env) (X := ex_misc) false 3 (boot_world true) = None /\
  is_slot_bootable (E := crowded_env) false 3 (boot_world true) = None.
Proof. apply (slot_sanity_insufficient (E := crowded_env) (X := ex_misc) 3); [by split|vm_compute; by split]. Defined.

Lemma boot_complete slot b : 0 <= slot <= 1 -> slot_complete (E := boot_env false []) boot_geo (boot_world b) slot.
Proof.
  intros Hs n Hn Hab. rewrite (boot_only n Hn Hab).
  assert (Hat := boot_disk_at false [] emmc b (or_introl eq_refl)).
  assert (slot = 0 \/ slot = 1) as [-> | ->] by lia.
  - exists emmc, ex_geometry, (boot_arr b), (boot_arr b), (if b then 0x3A else 0x3F), (if b then 0x3A else 0x3F).
    split; [vm_compute; reflexivity|]. split; [reflexivity|]. split; [exact Hat|].
    split; [destruct b; vm_compute; reflexivity|]. by split; [destruct b; vm_compute; reflexivity|].
  - exists emmc, ex_geometry, (boot_arr b), (boot_arr b), (if b then 0x3F else 0x3A), (if b then 0x3F else 0x3A).
    split; [vm_compute; reflexivity|]. split; [reflexivity|]. split; [exact Hat|].
    split; [destruct b; vm_compute; reflexivity|]. by split; [destruct b; vm_compute; reflexivity|].
Qed.

Lemma setSlotAsUnbootable_spec_witness :
  let E := boot_env false [] in
  wp (ok ← setSlotAsUnbootable (E := E) false 1;
      if ok : bool then isSlotBootable (E := E) false 1 else mret INVALID_SLOT)
    (fun b _ => b = BR_FALSE) (boot_world true).
Proof.
  intros E. eapply wp_conseq; [apply (setSlotAsUnbootable_spec (E := E) boot_geo boot_geometries_ok false 1)|].
  - by split.
  - apply boot_managed.
  - by apply boot_complete.
  - vm_compute; reflexivity.
  - intros b w' [[->|[_ [Hnf|Hn]]] _]; [done|by destruct (Hnf (boot_no_faults false))|].
    vm_compute in Hn. by destruct Hn.
Defined.

Lemma markBootSuccessful_spec_witness :
  let E := boot_env false [] in
  wp (markBootSuccessful (E := E) (X := ex_misc) false)
    (fun ok w' => ok = true /\ attr_set (E := E) boot_geo ATTR_BOOT_SUCCESSFUL w' "boot_b") (boot_world true).
Proof.
  intros E. eapply wp_conseq;
    [apply (markBootSuccessful_spec (E := E) (X := ex_misc) boot_geo boot_geometries_ok (boot_world true))|].
  - apply boot_managed.
  - by apply boot_complete.
  - by apply boot_complete.
  - intros ok w' (Hok & Htrue & _). specialize (Htrue (boot_no_faults false)). split; [done|].
    destruct (Hok Htrue) as (_ & _ & slot & [->|[_ Hf]] & Hset); [|by destruct (Hf (boot_no_faults false))].
    apply (Hset "boot"%string boot_in_list). vm_compute; reflexivity.
Defined.

Section switch.
Context `{E : Env} (Hnf : no_faults).

(** The entry of a version in both arrays of its device. *)
Definition now_is (v : device) (w : World) (p : part) (x x' : buf * Z) : Prop :=
  exists ap as_, disk_at w (v_fd v) (v_g v) ap as_ /\
    entry_of (v_g v) ap (p_ix p) = Some x /\ entry_of (v_g v) as_ (p_ix' p) = Some x'.

Lemma after_new v side act qs q w :
  device_after v (news side act qs) (news' side act qs) w -> q ∈ qs ->
  now_is v w (side q) (slot_entry act (new_guid act q) (p_attr (side q)))
    (slot_entry act (new_guid act q) (p_attr' (side q))).
Proof.
  intros (ap & as_ & Hat & S1 & S2) Hq. exists ap, as_. split; [done|]. split.
  - apply (sw_new _ _ _ _ S1). apply list_elem_of_fmap. by exists q.
  - apply (sw_new _ _ _ _ S2). apply list_elem_of_fmap. by exists q.
Qed.

(** C5. Across two devices the switch is right.  When no call fails (the [no_faults] of this
    section; [set_active_double_free] has what a fault does), both devices have two valid
    tables, the partitions of slot A are on one device and those of slot B on another, each
    with its own entries in the two tables, and one version of each is active (a name whose
    two versions do not both exist is skipped), the call returns 0; every
    partition of the new slot gets the active type GUID and attributes 0x3F, every
    partition of the other one the inactive GUID and loses its active bit, in both
    tables of its device; the headers describe the new arrays; every write leaves
    its device bootable; no other device is written and no heap block is leaked. *)
Theorem set_active_two_devices (A B : device) (slot : Z) (names : list string) (qs : list pair) (w : World) :
  device_ok w A -> device_ok w B -> v_fd A <> v_fd B -> slot = 0 \/ slot = 1 ->
  listed A B names qs -> distinct qs [] ->
  wp (boot_ctl_set_active_slot_for_partitions names slot) (fun r w' =>
    r = 0 /\ blocks w' = blocks w /\ safely A B w w' /\
    (forall fd, fd <> v_fd A -> fd <> v_fd B -> devs w' !! fd = devs w !! fd) /\
    forall q, q ∈ qs ->
      let a := slot =? 0 in let b := negb a in
      now_is A w' (q_A q) (slot_entry a (new_guid a q) (p_attr (q_A q))) (slot_entry a (new_guid a q) (p_attr' (q_A q))) /\
      now_is B w' (q_B q) (slot_entry b (new_guid b q) (p_attr (q_B q))) (slot_entry b (new_guid b q) (p_attr' (q_B q)))) w.
Proof.
  intros HA HB Hne Hs Hl Hd.
  eapply (wp_set_active Hnf w A B HA HB slot Hs); [by right|exact Hl|exact Hd|].
  intros w' Bl Sf Fr AfB AfA. split; [done|]. split; [done|]. split; [done|]. split; [done|].
  intros q Hq. split; [by apply (after_new A q_A _ qs q), Hq; apply AfA|by apply (after_new B q_B _ qs q)].
Qed.

Lemma listed_pair_ok A B names qs q : listed A B names qs -> q ∈ qs -> pair_ok A B q.
Proof.
  induction 1 as [|n ns qs _ _ _ IH|n ns q' qs _ _ Hq _ IH]; [by intros []%elem_of_nil|done|].
  intros [->|Hin]%elem_of_cons; [done|by apply IH].
Qed.

Lemma entry_attr g arr name i gd v :
  entry_of g arr i = Some (gd, v) -> entry_ix g arr name = Some i -> attr_in g arr name = Some v.
Proof.
  intros He Hi. unfold attr_in. rewrite Hi. cbn [mbind option_bind]. unfold entry_of in He.
  destruct (slice _ _ _); [|done]. cbn [mbind option_bind] in He.
  destruct (rd _ _) as [x|]; [|done]. cbn [mbind option_bind] in He. congruence.
Qed.

(** An entry that is not in the list stays. *)
Lemma after_old v side act qs name p w :
  part_at (v_g v) (v_ap v) (v_as v) name p ->
  device_after v (news side act qs) (news' side act qs) w ->
  (forall q, q ∈ qs -> p_ix p <> p_ix (side q) /\ p_ix' p <> p_ix' (side q)) ->
  exists gd, entry_of (v_g v) (v_as v) (p_ix' p) = Some (gd, p_attr' p) /\
    now_is v w p (p_guid p, p_attr p) (gd, p_attr' p).
Proof.
  intros (Hi & Hi' & He & gd & He') (ap & as_ & Hat & S1 & S2) Hne. exists gd. split; [done|].
  apply first_ix_Some in Hi as (Hlt & _), Hi' as (Hlt' & _). exists ap, as_. split; [done|].
  split; [rewrite (sw_old _ _ _ _ S1)|rewrite (sw_old _ _ _ _ S2)]; [done|lia| |done|lia|].
  - rewrite news_ix. intros (q & Hq & Hin)%list_elem_of_fmap. by destruct (Hne q Hin).
  - rewrite news'_ix. intros (q & Hq & Hin)%list_elem_of_fmap. by destruct (Hne q Hin).
Qed.

(** On one device the switch is lost: when both slots are on the same device
    (always so without UFS), the call still returns 0, but the handle of slot B is
    committed over that of slot A, so that slot A's entries are what they were
    before.  Switching to slot B leaves slot A active, and switching back to slot A
    after B was active leaves no version active at all. *)
Theorem set_active_one_device (V : device) (slot : Z) (names : list string) (qs : list pair) (w : World) :
  device_ok w V -> slot = 0 \/ slot = 1 -> listed V V names qs -> distinct qs [] ->
  (forall q q', q ∈ qs -> q' ∈ qs -> p_ix (q_A q) <> p_ix (q_B q') /\ p_ix' (q_A q) <> p_ix' (q_B q')) ->
  wp (boot_ctl_set_active_slot_for_partitions names slot) (fun r w' =>
    r = 0 /\
    forall q, q ∈ qs ->
      let b := negb (slot =? 0) in
      now_is V w' (q_B q) (slot_entry b (new_guid b q) (p_attr (q_B q))) (slot_entry b (new_guid b q) (p_attr' (q_B q))) /\
      (exists gd, entry_of (v_g V) (v_as V) (p_ix' (q_A q)) = Some (gd, p_attr' (q_A q)) /\
         now_is V w' (q_A q) (p_guid (q_A q), p_attr (q_A q)) (gd, p_attr' (q_A q))) /\
      (slot = 0 -> is_active (q_A q) = false ->
         exists ap as_ vA vB, disk_at w' (v_fd V) (v_g V) ap as_ /\
           attr_in (v_g V) ap (part_name (q_name q) AB_SLOT_A_SUFFIX) = Some vA /\
           attr_in (v_g V) ap (part_name (q_name q) AB_SLOT_B_SUFFIX) = Some vB /\
           Z.land vA AB_PARTITION_ATTR_SLOT_ACTIVE = 0 /\ Z.land vB AB_PARTITION_ATTR_SLOT_ACTIVE = 0)) w.
Proof.
  intros HV Hs Hl Hd Hne.
  eapply (wp_set_active Hnf w V V HV HV slot Hs); [by left|exact Hl|exact Hd|].
  intros w' Bl Sf Fr AfB _. split; [done|]. intros q Hq.
  pose proof (listed_pair_ok _ _ _ _ _ Hl Hq) as Hok.
  split; [by apply (after_new V q_B _ qs q)|]. split.
  - eapply after_old; [apply Hok|exact AfB|]. intros q' Hq'. by apply Hne.
  - intros -> Hina. destruct AfB as (ap & as_ & Hat & S1 & S2).
    pose proof Hok as [_ _ _ PA PB _].
    destruct (after_old V q_B _ qs _ _ w' PA (ex_intro _ ap (ex_intro _ as_ (conj Hat (conj S1 S2)))))
      as (gd & _ & ap2 & as2 & Hat2 & EA & _); [intros q' Hq'; by apply Hne|].
    destruct (disk_at_unique _ _ _ _ _ _ _ Hat2 Hat) as [-> ->].
    assert (EB := sw_new _ _ _ _ S1 _ _ (list_elem_of_fmap_2 _ _ _ Hq)). cbn beta in EB.
    exists ap, as_, (p_attr (q_A q)), (Z.land (p_attr (q_B q)) (Z.lnot 4)).
    split; [done|]. split; [|split; [|split]].
    + eapply entry_attr; [exact EA|]. rewrite (sw_ix _ _ _ _ S1). apply PA.
    + eapply entry_attr; [exact EB|]. rewrite (sw_ix _ _ _ _ S1). apply PB.
    + unfold is_active in Hina. by apply negb_false_iff, Z.eqb_eq in Hina.
    + rewrite <- Z.land_assoc. change (Z.land (Z.lnot 4) 4) with 0. apply Z.land_0_r.
Qed.
End switch.

(** ** Concrete devices *)

(** The boot partitions after a switch: type GUID and attributes in the primary
    table. *)
Definition boot_now (E : Env) (w : World) (fd : string) (j : nat) (x : buf * Z) : Prop :=
  exists ap as_, disk_at (E := E) w fd ex_geometry ap as_ /\ entry_of ex_geometry ap j = Some x.

Lemma set_active_two_devices_witness :
  let E := boot_env true [] in
  wp (boot_ctl_set_active_slot_for_partitions (E := E) ["boot_a"%string] 0) (fun r w' => r = 0 /\
    boot_now E w' lun_a 2 (replicate 16 1, 0x3F) /\ boot_now E w' lun_b 3 (replicate 16 2, 0x3B)) (boot_world true).
Proof.
  intros E.
  eapply wp_conseq; [apply (set_active_two_devices (E := E) (boot_no_faults true) (boot_device lun_a true)
    (boot_device lun_b true) 0 ["boot_a"%string] [boot_pair true] (boot_world true))|].
  - apply (boot_device_ok true [] lun_a). by right; left.
  - apply (boot_device_ok true [] lun_b). by right; right.
  - discriminate.
  - by left.
  - apply (boot_listed true []). by left.
  - apply boot_distinct.
  - intros r w' (-> & _ & _ & _ & Hq). split; [done|].
    destruct (Hq (boot_pair true) ltac:(by left)) as [(a & b & Hab & HA & _) (c & d & Hcd & HB & _)].
    split; [by exists a, b|by exists c, d].
Defined.

Lemma set_active_one_device_witness :
  let E := boot_env false [] in
  wp (boot_ctl_set_active_slot_for_partitions (E := E) ["boot_a"%string] 0) (fun r w' => r = 0 /\
    boot_now E w' emmc 2 (replicate 16 2, 0x3A) /\ boot_now E w' emmc 3 (replicate 16 2, 0x3B)) (boot_world true).
Proof.
  intros E.
  eapply wp_conseq; [apply (set_active_one_device (E := E) (boot_no_faults false) (boot_device emmc true)
    0 ["boot_a"%string] [boot_pair true] (boot_world true))|].
  - apply (boot_device_ok false [] emmc). by left.
  - by left.
  - apply (boot_listed false []). by left.
  - apply boot_distinct.
  - intros q q' Hq Hq'. apply list_elem_of_singleton in Hq as ->, Hq' as ->. split; discriminate.
  - intros r w' (-> & Hq). split; [done|].
    destruct (Hq (boot_pair true) ltac:(by left)) as [(a & b & Hab & HA & _) [(gd & _ & c & d & Hcd & HB & _) _]].
    split; [by exists c, d|by exists a, b].
Defined.

(** The calls of the second commit in a switch on two devices. *)
Definition second_commit_calls : list nat := [102; 103; 106; 107; 109; 110; 111; 113; 114]%nat.

(** A failure of the second commit frees a handle twice: the first handle has
    been freed after its commit but its pointer is not cleared, and the error path
    frees it again.  On two devices, any one failing call of the second commit
    makes the switch undefined. *)
Theorem set_active_double_free :
  forall k, k ∈ second_commit_calls ->
    boot_ctl_set_active_slot_for_partitions (E := boot_env true [k]) ["boot_a"%string] 0 (boot_world true) = None.
Proof.
  assert (H : forallb (fun k => match boot_ctl_set_active_slot_for_partitions (E := boot_env true [k])
      ["boot_a"%string] 0 (boot_world true) with None => true | Some _ => false end) second_commit_calls = true)
    by (vm_compute; reflexivity).
  intros k Hk. rewrite forallb_forall in H. apply list_elem_of_In in Hk. specialize (H k Hk).
  by destruct (boot_ctl_set_active_slot_for_partitions _ _ _).
Qed.

Lemma set_active_double_free_witness :
  boot_ctl_set_active_slot_for_partitions (E := boot_env true [106%nat]) ["boot_a"%string] 0 (boot_world true) = None.
Proof. apply (set_active_double_free 106). vm_compute. by repeat (first [left|right]). Defined.
