(* ===== verification/BootLegacy.v ===== *)
(** * The boot control module of the legacy HAL ([src/bootctrl/boot_control.cpp])

    The operations of [HAL_MODULE_INFO_SYM].  Its static functions are those of
    [libboot_control_qti.cpp], line by line, and are not repeated; the exported
    ones take a module pointer ([module = false] is NULL), know neither the gvmq
    platform nor the merge status, and agree with the library otherwise. *)
From S2P Require Import Prelude Bytes BlockDev UfsBsg GptUtils BootControl GptExample BootProps.

Section legacy.
Context `{E : Env}.

Abbreviation M := (CM World).

Definition hw_get_number_slots (module : bool) : M Z :=
  if negb module then mret 0 else
  ok ← sys_ok;
  match (if ok : bool then env_listdir BOOT_DEV_DIR else None) with
  | None => mret 0
  | Some names => mret (Z.of_nat (length (filter (fun d =>
      String.prefix "." d = false /\ String.prefix BOOT_IMG_PTN_NAME d = true) names)))
  end.

Definition hw_get_current_slot (module : bool) : M Z :=
  if negb module then mret 0 else
  num_slots ← hw_get_number_slots module;
  if num_slots <=? 1 then mret 0 else
  let bootSlotProp := default "N/A"%string (env_property BOOT_SLOT_PROP) in
  if String.prefix "N/A" bootSlotProp then mret 0
  else if String.prefix AB_SLOT_A_SUFFIX bootSlotProp then mret 0
  else if String.prefix AB_SLOT_B_SUFFIX bootSlotProp then mret 1
  else mret 0.

Definition hw_check_slot_sanity (module : bool) (slot : Z) : M Z :=
  if negb module then mret (-1) else
  num_slots ← hw_get_number_slots module;
  mret (if (num_slots <? 1) || (num_slots - 1 <? slot) then -1 else 0).

Definition hw_mark_boot_successful (module : bool) : M Z :=
  if negb module then mret (-1) else
  cur_slot ← hw_get_current_slot module;
  suffix ← slot_suffix_arr cur_slot;
  r ← update_slot_attribute suffix ATTR_BOOT_SUCCESSFUL;
  mret (if r =? 0 then 0 else -1).

Definition hw_get_suffix (module : bool) (slot : Z) : M (option string) :=
  s ← hw_check_slot_sanity module slot;
  if negb (s =? 0) then mret None else slot_suffix_arr slot.

Definition hw_set_active_boot_slot (module : bool) (slot : Z) : M Z :=
  let is_ufs := gpt_utils_is_ufs_device in
  s ← hw_check_slot_sanity module slot;
  if negb (s =? 0) then mret (-1) else
  suffix ← slot_suffix_arr slot;
  suffix ← deref suffix;
  let '(r, ptn_map) := gpt_utils_get_partition_map (slot_partitions is_ufs suffix) [] in
  if negb (r =? 0) then mret (-1) else
  r ← set_active_devices ptn_map slot;
  if negb (r =? 0) then mret (-1) else
  if is_ufs then
    rc ← (if String.prefix AB_SLOT_A_SUFFIX suffix then gpt_utils_set_xbl_boot_partition NORMAL_BOOT
          else if String.prefix AB_SLOT_B_SUFFIX suffix then gpt_utils_set_xbl_boot_partition BACKUP_BOOT
          else mret (-1));
    mret (if rc =? 0 then 0 else -1)
  else mret 0.

Definition hw_set_slot_as_unbootable (module : bool) (slot : Z) : M Z :=
  s ← hw_check_slot_sanity module slot;
  if negb (s =? 0) then mret (-1) else
  suffix ← slot_suffix_arr slot;
  r ← update_slot_attribute suffix ATTR_UNBOOTABLE;
  mret (if r =? 0 then 0 else -1).

Definition hw_is_slot_bootable (module : bool) (slot : Z) : M Z :=
  s ← hw_check_slot_sanity module slot;
  if negb (s =? 0) then mret (-1) else
  suffix ← slot_suffix_arr slot;
  suffix ← deref suffix;
  attr ← get_partition_attribute (Some (part_name BOOT_IMG_PTN_NAME suffix)) ATTR_UNBOOTABLE;
  mret (if 0 <=? attr then (if attr =? 0 then 1 else 0) else -1).

Definition hw_is_slot_marked_successful (module : bool) (slot : Z) : M Z :=
  s ← hw_check_slot_sanity module slot;
  if negb (s =? 0) then mret (-1) else
  suffix ← slot_suffix_arr slot;
  suffix ← deref suffix;
  attr ← get_partition_attribute (Some (part_name BOOT_IMG_PTN_NAME suffix)) ATTR_BOOT_SUCCESSFUL;
  mret (if 0 <=? attr then attr else -1).

(** A binary relation on computations: the same results, also undefined ones. *)
Definition same {A} (m1 m2 : M A) : Prop := forall w, m1 w = m2 w.

Lemma same_bind {A B} (m1 m2 : M A) (f1 f2 : A -> M B) :
  same m1 m2 -> (forall a, same (f1 a) (f2 a)) -> same (m1 ≫= f1) (m2 ≫= f2).
Proof.
  intros Hm Hf w. unfold mbind, cm_bind. rewrite Hm. destruct (m2 w) as [[a w']|]; [apply Hf|done].
Qed.

Lemma same_ret {A B} (a : A) (m : M B) (f : A -> M B) : same m (f a) -> same m (mret a ≫= f).
Proof. intros H w. apply H. Qed.

Lemma number_slots_agree : same (hw_get_number_slots true) (get_number_slots false).
Proof. done. Qed.
Lemma current_slot_agree : same (hw_get_current_slot true) (get_current_slot false).
Proof. by apply same_bind. Qed.
Lemma sanity_agree slot : same (hw_check_slot_sanity true slot) (boot_control_check_slot_sanity false slot).
Proof. by apply same_bind. Qed.

Context `{X : Misc}.

(** The legacy module and the 1.1 library are the same boot control: with a
    module, every operation of [HAL_MODULE_INFO_SYM] has exactly the results and
    effects of the library's operation off the gvmq platform, and is undefined
    exactly when that one is; without one, every operation fails and touches
    nothing. *)
Theorem legacy_agrees (slot : Z) :
  same (hw_get_number_slots true) (get_number_slots false) /\
  same (hw_get_current_slot true) (get_current_slot false) /\
  same (hw_mark_boot_successful true) (mark_boot_successful false) /\
  same (hw_get_suffix true slot) (get_suffix false slot) /\
  same (hw_set_active_boot_slot true slot) (set_active_boot_slot false slot) /\
  same (hw_set_slot_as_unbootable true slot) (set_slot_as_unbootable false slot) /\
  same (hw_is_slot_bootable true slot) (is_slot_bootable false slot) /\
  same (hw_is_slot_marked_successful true slot) (is_slot_marked_successful false slot) /\
  Forall (fun m => same m (mret (-1))) [hw_mark_boot_successful false; hw_set_active_boot_slot false slot;
    hw_set_slot_as_unbootable false slot; hw_is_slot_bootable false slot; hw_is_slot_marked_successful false slot] /\
  same (hw_get_number_slots false) (mret 0) /\ same (hw_get_current_slot false) (mret 0) /\
  same (hw_get_suffix false slot) (mret None).
Proof.
  split; [apply number_slots_agree|]. split; [apply current_slot_agree|].
  split; [apply same_ret; cbn [negb Z.eqb]; apply same_bind; [apply current_slot_agree|done]|].
  split; [apply same_bind; [apply sanity_agree|done]|].
  split; [apply same_ret; cbn [negb Z.eqb]; apply same_bind; [apply sanity_agree|done]|].
  do 3 (split; [apply same_bind; [apply sanity_agree|done]|]).
  split; [by rewrite !Forall_cons, Forall_nil|done].
Qed.
End legacy.
