(* ===== verification/LinkedList.v ===== *)
(** * The doubly linked list ([src/gps/utils/linked_list.c])

    The list state and its elements live in a store; pointers are locations.  The
    store also keeps the deallocation calls.  [mem] decides which allocations
    succeed. *)
From S2P Require Import Prelude.

Inductive linked_list_err_type :=
  | eLINKED_LIST_SUCCESS | eLINKED_LIST_FAILURE_GENERAL | eLINKED_LIST_INVALID_PARAMETER
  | eLINKED_LIST_INVALID_HANDLE | eLINKED_LIST_UNAVAILABLE_RESOURCE
  | eLINKED_LIST_INSUFFICIENT_BUFFER | eLINKED_LIST_EMPTY.
#[export] Instance linked_list_err_eq : EqDecision linked_list_err_type.
Proof. solve_decision. Defined.

Definition err_code (e : linked_list_err_type) : Z :=
  match e with
  | eLINKED_LIST_SUCCESS => 0 | eLINKED_LIST_FAILURE_GENERAL => -1
  | eLINKED_LIST_INVALID_PARAMETER => -2 | eLINKED_LIST_INVALID_HANDLE => -3
  | eLINKED_LIST_UNAVAILABLE_RESOURCE => -4 | eLINKED_LIST_INSUFFICIENT_BUFFER => -5
  | eLINKED_LIST_EMPTY => -6
  end.

(** Pointers; data pointers and deallocation functions are numbers, 0 is NULL. *)
Abbreviation loc := nat.
Record list_element := ListElement {
  next : option loc; prev : option loc; data_ptr : Z; dealloc_func : Z }.
Record list_state := ListState { p_head : option loc; p_tail : option loc }.

Record Store := MkStore {
  elems : gmap loc list_element;
  lists : gmap loc list_state;
  fresh : loc;                     (** next location, and count of allocations *)
  freed : list (Z * Z);            (** calls of deallocation functions, oldest first *)
}.
Definition set_elems f (s : Store) := MkStore (f (elems s)) (lists s) (fresh s) (freed s).
Definition set_lists f (s : Store) := MkStore (elems s) (f (lists s)) (fresh s) (freed s).
Definition set_freed f (s : Store) := MkStore (elems s) (lists s) (fresh s) (f (freed s)).
Definition with_next n (e : list_element) := ListElement n (prev e) (data_ptr e) (dealloc_func e).
Definition with_prev p (e : list_element) := ListElement (next e) p (data_ptr e) (dealloc_func e).

Section linked_list.
Context (mem : nat -> bool).

Abbreviation M := (CM Store).

(** ** Memory *)
Definition alloc : M (option loc) := fun s =>
  Some (if mem (fresh s) then Some (fresh s) else None, MkStore (elems s) (lists s) (S (fresh s)) (freed s)).
Definition load_list (h : loc) : M list_state := s ← get; deref (lists s !! h).
Definition load (p : loc) : M list_element := s ← get; deref (elems s !! p).
Definition store_list (h : loc) (l : list_state) : M unit := modify (set_lists <[h := l]>).
Definition store (p : loc) (e : list_element) : M unit := modify (set_elems <[p := e]>).
(** An assignment to a field of an allocated element. *)
Definition update (p : loc) (f : list_element -> list_element) : M unit := e ← load p; store p (f e).
(** [free(p)] of an allocated block. *)
Definition free_elem (p : loc) : M unit := _ ← load p; modify (set_elems (delete p)).
Definition free_list (h : loc) : M unit := _ ← load_list h; modify (set_lists (delete h)).
(** [dealloc_func(data)] *)
Definition call_dealloc (f data : Z) : M unit := modify (set_freed (fun l => l ++ [(f, data)])).

(** ** Operations.  [None] for a handle is NULL; an output pointer is [false] when
    it is NULL. *)
Definition linked_list_init (list_data : bool) : M (linked_list_err_type * option loc) :=
  if negb list_data then mret (eLINKED_LIST_INVALID_PARAMETER, None) else
  tmp_list ← alloc;
  match tmp_list with
  | None => mret (eLINKED_LIST_FAILURE_GENERAL, None)
  | Some tmp_list => _ ← store_list tmp_list (ListState None None); mret (eLINKED_LIST_SUCCESS, Some tmp_list)
  end.

(** The body of the loop of [linked_list_flush], until the head is NULL. *)
Fixpoint flush_loop (fuel : nat) (p_list : loc) : M unit :=
  l ← load_list p_list;
  match p_head l with
  | None => mret tt
  | Some hd =>
      match fuel with
      | O => undef
      | S fuel =>
          e ← load hd;
          let tmp := next e in
          _ ← (if dealloc_func e =? 0 then mret tt else call_dealloc (dealloc_func e) (data_ptr e));
          _ ← free_elem hd;
          _ ← store_list p_list (ListState tmp (p_tail l));
          flush_loop fuel p_list
      end
  end.

(** The loop frees an element each time round: the number of elements is fuel
    enough. *)
Definition linked_list_flush (list_data : option loc) : M linked_list_err_type :=
  match list_data with None => mret eLINKED_LIST_INVALID_HANDLE | Some p_list =>
  s ← get;
  _ ← flush_loop (size (elems s)) p_list;
  l ← load_list p_list;
  _ ← store_list p_list (ListState (p_head l) None);
  mret eLINKED_LIST_SUCCESS
  end.

(** [list_data]: [None] for a NULL argument, else the handle it points to. *)
Definition linked_list_destroy (list_data : option (option loc)) : M linked_list_err_type :=
  match list_data with None => mret eLINKED_LIST_INVALID_HANDLE | Some p_list =>
  _ ← linked_list_flush p_list;
  _ ← (match p_list with None => mret tt | Some h => free_list h end);
  mret eLINKED_LIST_SUCCESS
  end.

Definition linked_list_add (list_data : option loc) (data_obj dealloc : Z) : M linked_list_err_type :=
  match list_data with None => mret eLINKED_LIST_INVALID_HANDLE | Some p_list =>
  if data_obj =? 0 then mret eLINKED_LIST_INVALID_PARAMETER else
  elem ← alloc;
  match elem with None => mret eLINKED_LIST_FAILURE_GENERAL | Some elem =>
  _ ← store elem (ListElement None None data_obj dealloc);
  l ← load_list p_list;
  let tmp := p_head l in
  _ ← store_list p_list (ListState (Some elem) (p_tail l));
  _ ← update elem (with_next tmp);
  _ ← (match tmp with
       | Some t => update t (with_prev (Some elem))
       | None => store_list p_list (ListState (Some elem) (Some elem))
       end);
  mret eLINKED_LIST_SUCCESS
  end end.

(** Returns [*data_obj] on success. *)
Definition linked_list_remove (list_data : option loc) (data_obj : bool) : M (linked_list_err_type * option Z) :=
  match list_data with None => mret (eLINKED_LIST_INVALID_HANDLE, None) | Some p_list =>
  if negb data_obj then mret (eLINKED_LIST_INVALID_PARAMETER, None) else
  l ← load_list p_list;
  match p_tail l with None => mret (eLINKED_LIST_UNAVAILABLE_RESOURCE, None) | Some tmp =>
  e ← load tmp;
  _ ← store_list p_list (ListState (p_head l) (prev e));
  _ ← (match prev e with
       | Some t => update t (with_next None)
       | None => store_list p_list (ListState None None)
       end);
  _ ← free_elem tmp;
  mret (eLINKED_LIST_SUCCESS, Some (data_ptr e))
  end end.

Definition linked_list_empty (list_data : option loc) : M Z :=
  match list_data with None => mret (err_code eLINKED_LIST_INVALID_HANDLE) | Some p_list =>
  l ← load_list p_list; mret (match p_head l with None => 1 | Some _ => 0 end)
  end.

(** Unlink and free the element [tmp], whose fields are [e]. *)
Definition unlink (p_list tmp : loc) (e : list_element) (dealloc_data : bool) : M unit :=
  l ← load_list p_list;
  _ ← (match prev e with
       | None => store_list p_list (ListState (next e) (p_tail l))
       | Some p => update p (with_next (next e))
       end);
  l ← load_list p_list;
  _ ← (match next e with
       | None => store_list p_list (ListState (p_head l) (prev e))
       | Some n => update n (with_prev (prev e))
       end);
  _ ← update tmp (fun e => with_next None (with_prev None e));
  _ ← (if dealloc_data && negb (dealloc_func e =? 0) then call_dealloc (dealloc_func e) (data_ptr e) else mret tt);
  free_elem tmp.

(** The loop of [linked_list_search]; [data_p]: [*data_p], or [None] when the
    pointer is NULL. *)
Fixpoint search_loop (fuel : nat) (p_list : loc) (tmp : option loc) (data_p : option Z)
    (equal : Z -> Z -> bool) (data_0 : Z) (rm_if_found : bool) : M (option Z) :=
  match tmp with
  | None => mret data_p
  | Some p =>
      match fuel with
      | O => undef
      | S fuel =>
          e ← load p;
          if equal data_0 (data_ptr e) then
            _ ← (if rm_if_found then unlink p_list p e (bool_decide (data_p = None)) else mret tt);
            mret (match data_p with None => None | Some _ => Some (data_ptr e) end)
          else search_loop fuel p_list (next e) data_p equal data_0 rm_if_found
      end
  end.

(** Returns [*data_p] at the end; [equal] is [None] when NULL. *)
Definition linked_list_search (list_data : option loc) (data_p : option Z) (equal : option (Z -> Z -> bool))
    (data_0 : Z) (rm_if_found : bool) : M (linked_list_err_type * option Z) :=
  match list_data, equal with
  | Some p_list, Some equal =>
      l ← load_list p_list;
      match p_tail l with
      | None => mret (eLINKED_LIST_UNAVAILABLE_RESOURCE, data_p)
      | Some _ =>
          s ← get;
          d ← search_loop (size (elems s)) p_list (p_head l) (match data_p with None => None | Some _ => Some 0 end)
                equal data_0 rm_if_found;
          mret (eLINKED_LIST_SUCCESS, d)
      end
  | _, _ => mret (eLINKED_LIST_INVALID_HANDLE, data_p)
  end.
End linked_list.
