(* ===== verification/ListIface.v ===== *)
(** * What the message queue uses of the list

    The operations [msg_q.c] calls on its list, as an interface, and the laws it
    relies on: a sequence with the newest element first. *)
From S2P Require Import Prelude LinkedList.

Class ListOps (S : Type) := {
  ll_init : CM S linked_list_err_type;
  ll_destroy : CM S linked_list_err_type;
  ll_add : Z -> Z -> CM S linked_list_err_type;       (** data, deallocation function *)
  ll_remove : CM S (linked_list_err_type * option Z);
  ll_empty : CM S Z;
  ll_flush : CM S linked_list_err_type;
  ll_freed : S -> list (Z * Z);                       (** deallocation calls so far *)
}.

(** The deallocation calls of a sequence of elements. *)
Definition deallocs (ds : list (Z * Z)) : list (Z * Z) :=
  (fun '(d, f) => (f, d)) <$> filter (fun '(_, f) => f <> 0) ds.

Class ListLaws (S : Type) `{ListOps S} := {
  ll_rep : list (Z * Z) -> S -> Prop;
  ll_absent : S -> Prop;
  (** additions can run out of memory *)
  ll_memory : Prop;
  ll_init_ok s (Q : linked_list_err_type -> S -> Prop) : ll_absent s ->
    (forall s', ll_rep [] s' -> ll_freed s' = ll_freed s -> Q eLINKED_LIST_SUCCESS s') ->
    (forall s', ll_absent s' -> ll_freed s' = ll_freed s -> ~ ll_memory -> Q eLINKED_LIST_FAILURE_GENERAL s') ->
    wp ll_init Q s;
  ll_destroy_ok ds s (Q : linked_list_err_type -> S -> Prop) : ll_rep ds s ->
    (forall s', ll_absent s' -> ll_freed s' = ll_freed s ++ deallocs ds -> Q eLINKED_LIST_SUCCESS s') ->
    wp ll_destroy Q s;
  ll_add_ok ds d f s (Q : linked_list_err_type -> S -> Prop) : ll_rep ds s -> d <> 0 ->
    (forall s', ll_rep ((d, f) :: ds) s' -> ll_freed s' = ll_freed s -> Q eLINKED_LIST_SUCCESS s') ->
    (forall s', ll_rep ds s' -> ll_freed s' = ll_freed s -> ~ ll_memory -> Q eLINKED_LIST_FAILURE_GENERAL s') ->
    wp (ll_add d f) Q s;
  ll_remove_nil s (Q : linked_list_err_type * option Z -> S -> Prop) : ll_rep [] s ->
    Q (eLINKED_LIST_UNAVAILABLE_RESOURCE, None) s -> wp ll_remove Q s;
  ll_remove_ok ds d f s (Q : linked_list_err_type * option Z -> S -> Prop) : ll_rep (ds ++ [(d, f)]) s ->
    (forall s', ll_rep ds s' -> ll_freed s' = ll_freed s -> Q (eLINKED_LIST_SUCCESS, Some d) s') ->
    wp ll_remove Q s;
  ll_empty_ok ds s (Q : Z -> S -> Prop) : ll_rep ds s ->
    Q (match ds with [] => 1 | _ => 0 end) s -> wp ll_empty Q s;
  ll_flush_ok ds s (Q : linked_list_err_type -> S -> Prop) : ll_rep ds s ->
    (forall s', ll_rep [] s' -> ll_freed s' = ll_freed s ++ deallocs ds -> Q eLINKED_LIST_SUCCESS s') ->
    wp ll_flush Q s;
}.
