(* ===== verification/LinkedListSpec.v ===== *)
(** * The linked list as a sequence

    The elements of a list as cells of the store, and a rule for each operation:
    additions at the head, removals at the tail, nothing else in the store
    touched. *)
From S2P Require Import Prelude LinkedList ListIface.

(** An element: its location, its data and its deallocation function. *)
Abbreviation node := (loc * (Z * Z))%type.

Definition first (xs : list node) (nx : option loc) : option loc :=
  match xs with [] => nx | (l, _) :: _ => Some l end.
Fixpoint lastl (pv : option loc) (xs : list node) : option loc :=
  match xs with [] => pv | (l, _) :: xs => lastl (Some l) xs end.

(** The cells of a segment whose neighbours are [pv] and [nx]. *)
Fixpoint cells (pv : option loc) (xs : list node) (nx : option loc) : list (loc * list_element) :=
  match xs with
  | [] => []
  | (l, (d, f)) :: xs => (l, ListElement (first xs nx) pv d f) :: cells (Some l) xs nx
  end.
Definition held (m : gmap loc list_element) (cs : list (loc * list_element)) : Prop :=
  Forall (fun '(l, e) => m !! l = Some e) cs.

Lemma cells_app pv xs ys nx :
  cells pv (xs ++ ys) nx = cells pv xs (first ys nx) ++ cells (lastl pv xs) ys nx.
Proof.
  revert pv. induction xs as [|[l [d f]] xs IH]; intros pv; simpl; [done|].
  rewrite IH. f_equal. f_equal. f_equal. by destruct xs as [|[] ?].
Qed.

Lemma cells_keys pv xs nx : (cells pv xs nx).*1 = xs.*1.
Proof. revert pv. induction xs as [|[l [d f]] xs IH]; intros pv; simpl; [done|]. by rewrite IH. Qed.

Lemma lastl_app pv xs l d : lastl pv (xs ++ [(l, d)]) = Some l.
Proof. revert pv. induction xs as [|[k e] xs IH]; intros pv; simpl; [done|apply IH]. Qed.

Lemma lastl_app2 pv xs ys : lastl pv (xs ++ ys) = lastl (lastl pv xs) ys.
Proof. revert pv. induction xs as [|[k e] xs IH]; intros pv; simpl; [done|apply IH]. Qed.

Lemma first_app xs ys nx : first (xs ++ ys) nx = first xs (first ys nx).
Proof. by destruct xs as [|[] ?]. Qed.

Lemma held_app m cs cs' : held m (cs ++ cs') <-> held m cs /\ held m cs'.
Proof. unfold held. by rewrite Forall_app. Qed.

Lemma held_cons m l e cs : held m ((l, e) :: cs) <-> m !! l = Some e /\ held m cs.
Proof. unfold held. by rewrite Forall_cons. Qed.

Lemma held_ext m m' cs : (forall l, l ∈ cs.*1 -> m' !! l = m !! l) -> held m cs -> held m' cs.
Proof.
  intros H Hc. unfold held in *. rewrite Forall_forall in Hc |- *. intros [l e] Hin. specialize (Hc _ Hin).
  simpl in *. rewrite H; [done|]. by apply (elem_of_fst l e).
Qed.

Lemma held_insert m cs l e : l ∉ cs.*1 -> held m cs -> held (<[l := e]> m) cs.
Proof. intros Hl. apply held_ext. intros k Hk. apply lookup_insert_ne. by intros ->. Qed.

Lemma held_delete m cs l : l ∉ cs.*1 -> held m cs -> held (delete l m) cs.
Proof. intros Hl. apply held_ext. intros k Hk. apply lookup_delete_ne. by intros ->. Qed.

(** [h] is a list of the elements [xs], head first, in a store that also has the
    elements [base] and the lists [lbase]. *)
Record rep (base : gmap loc list_element) (lbase : gmap loc list_state) (h : loc) (xs : list node) (s : Store) : Prop := {
  rep_state : lists s = <[h := ListState (first xs None) (lastl None xs)]> lbase;
  rep_nodup : NoDup xs.*1;
  rep_cells : held (elems s) (cells None xs None);
  rep_base : forall l, l ∉ xs.*1 -> elems s !! l = base !! l;
  rep_own : forall l, l ∈ xs.*1 -> (l < fresh s)%nat /\ base !! l = None;
  rep_fresh : forall l, (fresh s <= l)%nat -> base !! l = None;
  rep_lfresh : forall l, (fresh s <= l)%nat -> lbase !! l = None;
  rep_new : lbase !! h = None;
}.

Section rules.
Context (mem : nat -> bool).
Context (base : gmap loc list_element) (lbase : gmap loc list_state) (h : loc).

Lemma wp_load_list l s (Q : list_state -> Store -> Prop) :
  lists s !! h = Some l -> Q l s -> wp (load_list h) Q s.
Proof. intros Hl HQ. unfold load_list. wp_step. wp_step. eapply wp_deref; [exact Hl|done]. Qed.

Lemma wp_load p e s (Q : list_element -> Store -> Prop) :
  elems s !! p = Some e -> Q e s -> wp (load p) Q s.
Proof. intros Hl HQ. unfold load. wp_step. wp_step. eapply wp_deref; [exact Hl|done]. Qed.

Lemma wp_update p f e s (Q : unit -> Store -> Prop) :
  elems s !! p = Some e -> Q tt (set_elems <[p := f e]> s) -> wp (update p f) Q s.
Proof. intros He HQ. unfold update, store. wp_step. eapply wp_load; [exact He|]. by wp_step. Qed.

Lemma wp_free_elem p e s (Q : unit -> Store -> Prop) :
  elems s !! p = Some e -> Q tt (set_elems (delete p) s) -> wp (free_elem p) Q s.
Proof. intros He HQ. unfold free_elem. wp_step. eapply wp_load; [exact He|]. by wp_step. Qed.

Lemma rep_lookup xs s : rep base lbase h xs s ->
  lists s !! h = Some (ListState (first xs None) (lastl None xs)).
Proof. intros [-> _ _ _ _ _ _ _]. apply lookup_insert_eq. Qed.

(** An allocation that is not used. *)
Lemma rep_bump xs s : rep base lbase h xs s ->
  rep base lbase h xs (MkStore (elems s) (lists s) (S (fresh s)) (freed s)).
Proof.
  intros [H1 H2 H3 H4 H5 H6 H7 H8]. constructor; simpl; [done..| | | |done].
  - intros l Hl. destruct (H5 l Hl). split; [lia|done].
  - intros l Hl. apply H6. lia.
  - intros l Hl. apply H7. lia.
Qed.

Lemma wp_linked_list_add xs d f s (Q : linked_list_err_type -> Store -> Prop) :
  rep base lbase h xs s -> d <> 0 ->
  (forall s' l, mem (fresh s) = true -> rep base lbase h ((l, (d, f)) :: xs) s' -> freed s' = freed s ->
     Q eLINKED_LIST_SUCCESS s') ->
  (forall s', mem (fresh s) = false -> rep base lbase h xs s' -> freed s' = freed s ->
     Q eLINKED_LIST_FAILURE_GENERAL s') ->
  wp (linked_list_add mem (Some h) d f) Q s.
Proof.
  intros Hrep Hd H1 H2. pose proof (rep_bump _ _ Hrep) as Hb. pose proof Hrep as [R1 R2 R3 R4 R5 R6 R7 R8].
  unfold linked_list_add. rewrite (proj2 (Z.eqb_neq d 0) Hd). wp_step. unfold wp at 1, alloc.
  destruct (mem (fresh s)) eqn:Em; [|by apply wp_ret, H2].
  set (n := fresh s) in *. clear H2.
  assert (Hn : n ∉ xs.*1) by (intros Hin; destruct (R5 _ Hin); lia).
  unfold store, store_list. wp_step. wp_step. wp_step. eapply wp_load_list; [apply (rep_lookup _ _ Hb)|].
  cbv zeta. simpl p_head. wp_step. wp_step. wp_step.
  eapply wp_update; [apply lookup_insert_eq|].
  destruct xs as [|[l1 [d1 f1]] xs].
  - cbn [first lastl]. wp_step. wp_step. wp_step. apply (H1 _ n); [done| |done]. constructor; simpl.
    + by rewrite !insert_insert_eq, R1, !insert_insert_eq.
    + apply NoDup_singleton.
    + apply held_cons. rewrite insert_insert_eq, lookup_insert_eq. split; [done|constructor].
    + intros l Hl. apply not_elem_of_cons in Hl as [Hl _].
      rewrite insert_insert_eq, lookup_insert_ne by done. apply R4. apply not_elem_of_nil.
    + intros l Hl. apply list_elem_of_singleton in Hl as ->. split; [lia|]. apply R6. unfold n. lia.
    + intros l Hl. apply R6. unfold n in *. lia.
    + intros l Hl. apply R7. unfold n in *. lia.
    + done.
  - simpl in R3, Hn, R2. apply not_elem_of_cons in Hn as [Hn1 Hn2]. apply NoDup_cons in R2 as [R2 R2'].
    apply held_cons in R3 as [R3 R3'].
    cbn [first lastl]. wp_step. eapply wp_update; [simpl; rewrite !lookup_insert_ne by done; exact R3|]. wp_step.
    apply (H1 _ n); [done| |done]. constructor; simpl.
    + by rewrite R1, !insert_insert_eq.
    + apply NoDup_cons. split; [by apply not_elem_of_cons|]. by apply NoDup_cons.
    + apply held_cons. split; [by rewrite lookup_insert_ne, lookup_insert_eq|].
      apply held_cons. split; [by rewrite lookup_insert_eq|].
      rewrite insert_insert_eq. apply held_insert; [by rewrite cells_keys|]. by apply held_insert; [by rewrite cells_keys|].
    + intros l Hl. apply not_elem_of_cons in Hl as [Hl Hl']. pose proof Hl' as Hl2.
      apply not_elem_of_cons in Hl2 as [Hl2 _]. rewrite insert_insert_eq, !lookup_insert_ne by done. by apply R4.
    + intros l Hl. apply elem_of_cons in Hl as [->|Hl]; [split; [lia|apply R6; unfold n; lia]|].
      destruct (R5 l Hl). unfold n in *. split; [lia|done].
    + intros l Hl. apply R6. unfold n in *. lia.
    + intros l Hl. apply R7. unfold n in *. lia.
    + done.
Qed.

Lemma wp_linked_list_empty xs s (Q : Z -> Store -> Prop) :
  rep base lbase h xs s -> Q (match xs with [] => 1 | _ => 0 end) s -> wp (linked_list_empty (Some h)) Q s.
Proof.
  intros Hrep HQ. unfold linked_list_empty. wp_step. eapply wp_load_list; [by apply rep_lookup|].
  wp_step. by destruct xs as [|[] ?].
Qed.

Lemma wp_linked_list_remove_nil s (Q : linked_list_err_type * option Z -> Store -> Prop) :
  rep base lbase h [] s -> Q (eLINKED_LIST_UNAVAILABLE_RESOURCE, None) s -> wp (linked_list_remove (Some h) true) Q s.
Proof.
  intros Hrep HQ. unfold linked_list_remove. cbn [negb]. wp_step. eapply wp_load_list; [by apply rep_lookup|].
  cbn [p_tail lastl]. by wp_step.
Qed.

Lemma wp_linked_list_remove ys l d f s (Q : linked_list_err_type * option Z -> Store -> Prop) :
  rep base lbase h (ys ++ [(l, (d, f))]) s ->
  (forall s', rep base lbase h ys s' -> freed s' = freed s -> Q (eLINKED_LIST_SUCCESS, Some d) s') ->
  wp (linked_list_remove (Some h) true) Q s.
Proof.
  intros Hrep HQ. pose proof Hrep as [R1 R2 R3 R4 R5 R6 R7 R8].
  unfold linked_list_remove. cbn [negb]. wp_step. eapply wp_load_list; [by apply rep_lookup|].
  rewrite lastl_app. cbn [p_tail p_head].
  rewrite cells_app in R3. apply held_app in R3 as [R3 [R3' _]%held_cons]. cbn [first] in *.
  wp_step. eapply wp_load; [exact R3'|]. cbn [prev data_ptr].
  rewrite fmap_app in R2. apply NoDup_app in R2 as (R2 & Hdis & _). simpl in Hdis.
  assert (Hl : l ∉ ys.*1) by (intros Hin; apply (Hdis l Hin); left).
  unfold store_list. wp_step. wp_step.
  assert (Hend : forall s', lists s' = <[h := ListState (first ys None) (lastl None ys)]> lbase ->
      elems s' !! l <> None -> held (elems s') (cells None ys None) ->
      (forall k, k ∉ ys.*1 -> k <> l -> elems s' !! k = elems s !! k) ->
      fresh s' = fresh s -> freed s' = freed s ->
    wp (_ ← free_elem l; mret (eLINKED_LIST_SUCCESS, Some d)) Q s').
  { intros s' E1 E2 E3 E4 E5 E6. destruct (elems s' !! l) as [e|] eqn:Ee; [|done].
    wp_step. eapply wp_free_elem; [exact Ee|]. wp_step. apply HQ; [|done]. constructor; simpl.
    - done.
    - done.
    - apply held_delete; [by rewrite cells_keys|done].
    - intros k Hk. destruct (decide (k = l)) as [->|Hne].
      + rewrite lookup_delete_eq. symmetry. apply R5. rewrite fmap_app. apply elem_of_app. right. left.
      + rewrite lookup_delete_ne by done. rewrite (E4 k Hk Hne). apply R4. rewrite fmap_app.
        intros [Hin|Hin]%elem_of_app; [done|]. by apply list_elem_of_singleton in Hin.
    - intros k Hk. rewrite E5. apply R5. rewrite fmap_app. apply elem_of_app. by left.
    - intros k Hk. rewrite E5 in Hk. by apply R6.
    - intros k Hk. rewrite E5 in Hk. by apply R7.
    - done. }
  destruct ys as [|[k [dk fk]] zs _] using rev_ind.
  - cbn [lastl]. wp_step. wp_step. apply Hend; simpl; try done.
    + by rewrite R1, !insert_insert_eq.
    + by simpl in R3'; rewrite R3'.
  - rewrite lastl_app. rewrite cells_app in R3. apply held_app in R3 as [R3 [Rk _]%held_cons].
    cbn [first lastl] in *. rewrite fmap_app in R2, Hl. apply NoDup_app in R2 as (R2 & Hdk & _). simpl in Hdk, Hl.
    assert (Hkl : k <> l) by (intros ->; apply Hl, elem_of_app; right; left).
    assert (Hkz : k ∉ zs.*1) by (intros Hin; apply (Hdk k Hin); left).
    wp_step. eapply wp_update; [exact Rk|]. apply Hend; simpl.
    + rewrite R1, insert_insert_eq. by rewrite !lastl_app, !first_app.
    + by rewrite lookup_insert_ne, R3'.
    + rewrite cells_app. apply held_app. cbn [first]. split; [by apply held_insert; [rewrite cells_keys|]|].
      apply held_cons. rewrite lookup_insert_eq. split; [done|constructor].
    + intros j Hj Hjl. rewrite lookup_insert_ne; [done|]. intros <-. apply Hj. rewrite fmap_app. apply elem_of_app. right. left.
    + done.
    + done.
Qed.

(** The loop of [linked_list_flush] frees the segment from the head on. *)
Lemma wp_flush_loop fuel pv xs t s (Q : unit -> Store -> Prop) :
  lists s = <[h := ListState (first xs None) t]> lbase ->
  held (elems s) (cells pv xs None) -> NoDup xs.*1 -> (length xs <= fuel)%nat ->
  (forall s', lists s' = <[h := ListState None t]> lbase ->
     (forall l, elems s' !! l = if decide (l ∈ xs.*1) then None else elems s !! l) ->
     fresh s' = fresh s -> freed s' = freed s ++ deallocs xs.*2 -> Q tt s') ->
  wp (flush_loop fuel h) Q s.
Proof.
  revert fuel pv s. induction xs as [|[l [d f]] xs IH]; intros fuel pv s HL HC HN Hlen HQ.
  - destruct fuel; cbn [flush_loop]; wp_step;
      (eapply wp_load_list; [by rewrite HL; apply lookup_insert_eq|]); cbn [p_head first]; wp_step;
      (apply HQ; [done| |done|by rewrite app_nil_r]); intros l; (rewrite decide_False; [done|apply not_elem_of_nil]).
  - destruct fuel as [|fuel]; [simpl in Hlen; lia|]. cbn [flush_loop]. wp_step.
    eapply wp_load_list; [by rewrite HL; apply lookup_insert_eq|]. cbn [p_head first p_tail].
    cbn [cells] in HC. apply held_cons in HC as [Hl HC]. rewrite fmap_cons in HN.
    apply NoDup_cons in HN as [Hni HN]. cbn [fst] in Hni.
    wp_step. eapply wp_load; [exact Hl|]. cbn [next dealloc_func data_ptr]. wp_step.
    assert (Hd : forall Q1 : unit -> Store -> Prop,
      Q1 tt (set_freed (fun fr => fr ++ deallocs [(d, f)]) s) ->
      wp (if f =? 0 then mret tt else call_dealloc f d) Q1 s).
    { intros Q1 H1. unfold call_dealloc. unfold deallocs in H1. destruct (Z.eqb_spec f 0) as [->|Hf].
      - wp_step. rewrite filter_cons_False in H1 by (intros Hc; apply Hc; done). simpl in H1.
        unfold set_freed in H1. simpl in H1. rewrite app_nil_r in H1. by destruct s.
      - wp_step. by rewrite filter_cons_True in H1. }
    apply Hd. wp_step. eapply wp_free_elem; [exact Hl|]. unfold store_list. wp_step. wp_step.
    apply (IH fuel (Some l)).
    + simpl. by rewrite HL, insert_insert_eq.
    + simpl. apply held_delete; [by rewrite cells_keys|done].
    + done.
    + simpl in Hlen. lia.
    + intros s' E1 E2 E3 E4. apply HQ; [done| |done|].
      * intros k. rewrite E2. simpl. destruct (decide (k ∈ xs.*1)) as [Hk|Hk].
        { rewrite decide_True; [done|]. by right. }
        destruct (decide (k = l)) as [->|Hne].
        { rewrite decide_True; [apply lookup_delete_eq|]. by left. }
        rewrite decide_False; [by apply lookup_delete_ne|]. by intros [|]%elem_of_cons.
      * rewrite E4. simpl. rewrite <- app_assoc. f_equal. unfold deallocs. rewrite !filter_cons.
        by destruct (decide (f <> 0)).
Qed.

Lemma held_size m pv xs nx : held m (cells pv xs nx) -> NoDup xs.*1 -> (length xs <= size m)%nat.
Proof.
  intros HC HN. rewrite <- (length_fmap fst), <- (size_list_to_set (C := gset loc) xs.*1) by done.
  rewrite <- size_dom. apply subseteq_size. intros l Hl%elem_of_list_to_set.
  rewrite <- (cells_keys pv xs nx) in Hl. apply elem_of_fst_inv in Hl as [e He].
  unfold held in HC. rewrite Forall_forall in HC. apply elem_of_dom. exists e. by apply (HC (l, e)).
Qed.

Lemma wp_linked_list_flush xs s (Q : linked_list_err_type -> Store -> Prop) :
  rep base lbase h xs s ->
  (forall s', rep base lbase h [] s' -> fresh s' = fresh s -> freed s' = freed s ++ deallocs xs.*2 ->
     Q eLINKED_LIST_SUCCESS s') ->
  wp (linked_list_flush (Some h)) Q s.
Proof.
  intros [R1 R2 R3 R4 R5 R6 R7 R8] HQ. unfold linked_list_flush. wp_step. wp_step. wp_step.
  eapply (wp_flush_loop _ None xs); [exact R1|exact R3|exact R2|by eapply held_size|].
  intros s' E1 E2 E3 E4. wp_step. eapply wp_load_list; [by rewrite E1; apply lookup_insert_eq|].
  cbn [p_head]. unfold store_list. wp_step. wp_step. wp_step. apply HQ; [|done|done].
  constructor; simpl.
  - by rewrite E1, insert_insert_eq.
  - constructor.
  - constructor.
  - intros l _. rewrite E2. case_decide as Hl; [by destruct (R5 l Hl)|by apply R4].
  - intros l Hl. by apply elem_of_nil in Hl.
  - intros l Hl. rewrite E3 in Hl. by apply R6.
  - intros l Hl. rewrite E3 in Hl. by apply R7.
  - done.
Qed.

(** Destroying a list frees every element, deallocates their data and leaves the
    rest of the store as it was. *)
Lemma wp_linked_list_destroy xs s (Q : linked_list_err_type -> Store -> Prop) :
  rep base lbase h xs s ->
  (forall s', elems s' = base -> lists s' = lbase -> fresh s' = fresh s -> freed s' = freed s ++ deallocs xs.*2 ->
     Q eLINKED_LIST_SUCCESS s') ->
  wp (linked_list_destroy (Some (Some h))) Q s.
Proof.
  intros Hrep HQ. unfold linked_list_destroy. wp_step. eapply wp_linked_list_flush; [exact Hrep|].
  intros s' Hrep' Ef E. unfold free_list. wp_step. wp_step. eapply wp_load_list; [by apply rep_lookup|].
  wp_step. wp_step. apply HQ; simpl.
  - apply map_eq. intros l. apply (rep_base _ _ _ _ _ Hrep'). apply not_elem_of_nil.
  - rewrite (rep_state _ _ _ _ _ Hrep'), delete_insert_eq. apply delete_id. apply (rep_new _ _ _ _ _ Hrep).
  - done.
  - done.
Qed.

(** ** Searching *)

(** The two halves of unlinking: the predecessors get a new successor, the
    successors a new predecessor. *)
Lemma wp_link_prev pre nx nx0 t lb h0 s (Q : unit -> Store -> Prop) :
  NoDup pre.*1 -> held (elems s) (cells None pre nx0) ->
  lists s = <[h0 := ListState (first pre nx0) t]> lb ->
  (forall s', lists s' = <[h0 := ListState (first pre nx) t]> lb -> held (elems s') (cells None pre nx) ->
     (forall k, k ∉ pre.*1 -> elems s' !! k = elems s !! k) -> fresh s' = fresh s -> freed s' = freed s -> Q tt s') ->
  wp (match lastl None pre with
      | None => store_list h0 (ListState nx t)
      | Some p => update p (with_next nx)
      end) Q s.
Proof.
  intros HN HC HL HQ. destruct pre as [|[k [dk fk]] zs _] using rev_ind.
  - cbn [lastl]. unfold store_list. wp_step. apply HQ; try done. simpl. by rewrite HL, insert_insert_eq.
  - rewrite lastl_app. rewrite cells_app in HC. apply held_app in HC as [HC [Hk _]%held_cons]. cbn [first] in *.
    rewrite fmap_app in HN. apply NoDup_app in HN as (HN & Hdis & _).
    assert (Hkz : k ∉ zs.*1) by (intros Hin; apply (Hdis k Hin); left).
    eapply wp_update; [exact Hk|]. apply HQ; simpl; [|..|done|done].
    + rewrite HL. by rewrite !first_app.
    + rewrite cells_app. apply held_app. split; [by apply held_insert; [rewrite cells_keys|]|].
      apply held_cons. rewrite lookup_insert_eq. split; [done|constructor].
    + intros j Hj. rewrite fmap_app in Hj. apply lookup_insert_ne. intros <-. apply Hj, elem_of_app. right. left.
Qed.

Lemma wp_link_next post pv pv0 hd lb h0 s (Q : unit -> Store -> Prop) :
  NoDup post.*1 -> held (elems s) (cells pv0 post None) ->
  lists s = <[h0 := ListState hd (lastl pv0 post)]> lb ->
  (forall s', lists s' = <[h0 := ListState hd (lastl pv post)]> lb -> held (elems s') (cells pv post None) ->
     (forall k, k ∉ post.*1 -> elems s' !! k = elems s !! k) -> fresh s' = fresh s -> freed s' = freed s -> Q tt s') ->
  wp (match first post None with
      | None => store_list h0 (ListState hd pv)
      | Some n => update n (with_prev pv)
      end) Q s.
Proof.
  intros HN HC HL HQ. destruct post as [|[k [dk fk]] zs].
  - cbn [first]. unfold store_list. wp_step. apply HQ; try done. simpl. by rewrite HL, insert_insert_eq.
  - cbn [cells] in HC. apply held_cons in HC as [Hk HC]. cbn [first] in *.
    rewrite fmap_cons in HN. apply NoDup_cons in HN as [Hkz HN]. cbn [fst] in Hkz.
    eapply wp_update; [exact Hk|]. apply HQ; simpl; [|..|done|done].
    + done.
    + apply held_cons. rewrite lookup_insert_eq. split; [done|]. by apply held_insert; [rewrite cells_keys|].
    + intros j Hj. apply lookup_insert_ne. intros <-. apply Hj. left.
Qed.

Lemma wp_unlink pre l d f post (b : bool) s (Q : unit -> Store -> Prop) :
  rep base lbase h (pre ++ (l, (d, f)) :: post) s ->
  (forall s', rep base lbase h (pre ++ post) s' ->
     freed s' = freed s ++ (if b then deallocs [(d, f)] else []) -> Q tt s') ->
  wp (unlink h l (ListElement (first post None) (lastl None pre) d f) b) Q s.
Proof.
  intros Hrep HQ. pose proof Hrep as [R1 R2 R3 R4 R5 R6 R7 R8].
  rewrite fmap_app, fmap_cons in R2. apply NoDup_app in R2 as (Np & Hdis & Npo).
  apply NoDup_cons in Npo as [Nl Npo]. cbn [fst] in Nl.
  assert (Nlp : l ∉ pre.*1) by (intros Hin; apply (Hdis l Hin); left).
  assert (Hpp : forall k, k ∈ pre.*1 -> k ∉ post.*1) by (intros k Hk Hk'; apply (Hdis k Hk); by right).
  rewrite cells_app in R3. apply held_app in R3 as [Hpre Hrest]. cbn [first cells] in *.
  apply held_cons in Hrest as [Hl Hpost].
  (* the store after the two neighbours are linked *)
  assert (Hend : forall s', lists s' = <[h := ListState (first (pre ++ post) None) (lastl None (pre ++ post))]> lbase ->
      elems s' !! l = elems s !! l -> held (elems s') (cells None (pre ++ post) None) ->
      (forall k, k ∉ pre.*1 -> k ∉ post.*1 -> elems s' !! k = elems s !! k) ->
      fresh s' = fresh s -> freed s' = freed s ->
    wp (_ ← update l (fun e => with_next None (with_prev None e));
        _ ← (if b && negb (f =? 0) then call_dealloc f d else mret tt); free_elem l) Q s').
  { intros s' E1 E2 E3 E4 E5 E6. wp_step. eapply wp_update; [by rewrite E2|].
    assert (Hd : forall Q1 : unit -> Store -> Prop, forall s2,
      Q1 tt (set_freed (fun fr => fr ++ if b then deallocs [(d, f)] else []) s2) ->
      wp (if b && negb (f =? 0) then call_dealloc f d else mret tt) Q1 s2).
    { intros Q1 s2 H1. unfold call_dealloc, deallocs in *. destruct b; simpl.
      - destruct (Z.eqb_spec f 0) as [->|Hf]; simpl.
        + wp_step. rewrite filter_cons_False in H1 by (intros Hc; apply Hc; done). simpl in H1.
          unfold set_freed in H1. simpl in H1. rewrite app_nil_r in H1. by destruct s2.
        + wp_step. by rewrite filter_cons_True in H1.
      - wp_step. unfold set_freed in H1. simpl in H1. rewrite app_nil_r in H1. by destruct s2. }
    wp_step. apply Hd. eapply wp_free_elem; [simpl; apply lookup_insert_eq|]. apply HQ; [|simpl; by rewrite E6].
    constructor; simpl.
    - done.
    - rewrite fmap_app. apply NoDup_app. done.
    - apply held_delete; [rewrite cells_keys, fmap_app; by intros [|]%elem_of_app|].
      apply held_insert; [rewrite cells_keys, fmap_app; by intros [|]%elem_of_app|done].
    - intros k Hk. rewrite fmap_app in Hk. destruct (decide (k = l)) as [->|Hne].
      + rewrite lookup_delete_eq. symmetry. apply R5. rewrite fmap_app. apply elem_of_app. right. left.
      + rewrite lookup_delete_ne, lookup_insert_ne by done.
        rewrite E4; [|intros Hin; apply Hk, elem_of_app; by left|intros Hin; apply Hk, elem_of_app; by right].
        apply R4. rewrite fmap_app, fmap_cons. cbn [fst].
        intros [Hin|Hin]%elem_of_app; [by apply Hk, elem_of_app; left|].
        apply elem_of_cons in Hin as [|Hin]; [done|]. by apply Hk, elem_of_app; right.
    - intros k Hk. rewrite E5. apply R5. rewrite fmap_app, fmap_cons in *. apply elem_of_app in Hk as [Hk|Hk];
        apply elem_of_app; [by left|right; by right].
    - intros k Hk. rewrite E5 in Hk. by apply R6.
    - intros k Hk. rewrite E5 in Hk. by apply R7.
    - done. }
  unfold unlink. cbn [prev next dealloc_func data_ptr].
  wp_step. eapply wp_load_list; [by rewrite R1; apply lookup_insert_eq|]. cbn [p_tail].
  wp_step. apply (wp_link_prev pre (first post None) (Some l) _ lbase h s _ Np Hpre).
  { rewrite R1. by rewrite first_app. }
  intros s1 L1 C1 O1 F1 G1.
  wp_step. eapply wp_load_list; [by rewrite L1; apply lookup_insert_eq|]. cbn [p_head].
  wp_step. apply (wp_link_next post (lastl None pre) (Some l) _ lbase h s1 _ Npo).
  { eapply held_ext; [|exact Hpost]. intros k Hk. rewrite cells_keys in Hk. apply O1. intros Hin. by apply (Hpp k). }
  { rewrite L1. by rewrite lastl_app2. }
  intros s2 L2 C2 O2 F2 G2. apply Hend.
  - rewrite L2. by rewrite first_app, lastl_app2.
  - by rewrite O2, O1.
  - rewrite cells_app. apply held_app. split; [|done]. eapply held_ext; [|exact C1].
    intros k Hk. rewrite cells_keys in Hk. apply O2. by apply Hpp.
  - intros k Hk Hk'. by rewrite O2, O1.
  - congruence.
  - congruence.
Qed.

(** The first element whose data satisfies [p], and the others. *)
Fixpoint take_out {A} (p : A -> bool) (xs : list A) : option (A * list A) :=
  match xs with
  | [] => None
  | x :: xs => if p x then Some (x, xs) else '(y, r) ← take_out p xs; Some (y, x :: r)
  end.

Lemma wp_search_loop fuel seen rest (data_p : option Z) (equal : Z -> Z -> bool) d0 (rm : bool) s (Q : option Z -> Store -> Prop) :
  rep base lbase h (seen ++ rest) s -> (length rest <= fuel)%nat ->
  (take_out (fun n : node => equal d0 n.2.1) rest = None -> Q data_p s) ->
  (forall n r, take_out (fun n : node => equal d0 n.2.1) rest = Some (n, r) ->
     forall s', rep base lbase h (if rm then seen ++ r else seen ++ rest) s' ->
     freed s' = freed s ++ (if rm && bool_decide (data_p = None) then deallocs [n.2] else []) ->
     Q (match data_p with None => None | Some _ => Some n.2.1 end) s') ->
  wp (search_loop fuel h (first rest None) data_p equal d0 rm) Q s.
Proof.
  revert fuel seen. induction rest as [|[l [d f]] rest IH]; intros fuel seen Hrep Hlen H1 H2.
  - destruct fuel; cbn [search_loop first]; wp_step; by apply H1.
  - destruct fuel as [|fuel]; [simpl in Hlen; lia|]. cbn [search_loop first].
    pose proof Hrep as [_ _ R3 _ _ _ _ _]. rewrite cells_app in R3. apply held_app in R3 as [_ [Hl _]%held_cons].
    wp_step. eapply wp_load; [exact Hl|]. cbn [data_ptr next]. cbn [take_out fst snd] in H1, H2.
    destruct (equal d0 d).
    + wp_step. specialize (H2 (l, (d, f)) rest eq_refl). destruct rm.
      * eapply wp_unlink; [exact Hrep|]. intros s' Hrep' Hf. wp_step. by apply (H2 s').
      * wp_step. wp_step. apply (H2 s); [done|]. simpl. by rewrite app_nil_r.
    + apply (IH fuel (seen ++ [(l, (d, f))])).
      * by rewrite <- app_assoc.
      * simpl in Hlen. lia.
      * intros Hn. apply H1. by rewrite Hn.
      * intros n r Hn. rewrite <- !app_assoc. apply H2. by rewrite Hn.
Qed.

Lemma wp_linked_list_search xs (data_p : option Z) equal d0 (rm : bool) s (Q : linked_list_err_type * option Z -> Store -> Prop) :
  rep base lbase h xs s -> xs <> [] ->
  (take_out (fun n : node => equal d0 n.2.1) xs = None ->
     Q (eLINKED_LIST_SUCCESS, match data_p with None => None | Some _ => Some 0 end) s) ->
  (forall n r, take_out (fun n : node => equal d0 n.2.1) xs = Some (n, r) ->
     forall s', rep base lbase h (if rm then r else xs) s' ->
     freed s' = freed s ++ (if rm && bool_decide (data_p = None) then deallocs [n.2] else []) ->
     Q (eLINKED_LIST_SUCCESS, match data_p with None => None | Some _ => Some n.2.1 end) s') ->
  wp (linked_list_search (Some h) data_p (Some equal) d0 rm) Q s.
Proof.
  intros Hrep Hne H1 H2. unfold linked_list_search. wp_step. eapply wp_load_list; [by apply rep_lookup|].
  cbn [p_tail p_head]. destruct (lastl None xs) as [tl|] eqn:El.
  2:{ destruct xs as [|[l e] xs _] using rev_ind; [done|]. by rewrite lastl_app in El. }
  wp_step. wp_step. wp_step.
  eapply (wp_search_loop _ [] xs); [exact Hrep| | |].
  - pose proof Hrep as [_ R2 R3 _ _ _ _ _]. by eapply held_size.
  - intros Hn. wp_step. by apply H1.
  - intros n r Hn s' Hrep' Hf. wp_step.
    assert (Ed : bool_decide ((match data_p with None => None | Some _ => Some 0 end) = None) = bool_decide (data_p = None))
      by (by destruct data_p).
    rewrite Ed in Hf. specialize (H2 n r Hn s' Hrep' Hf). by destruct data_p.
Qed.
End rules.

(** Creating a list. *)
Lemma wp_linked_list_init mem s (Q : linked_list_err_type * option loc -> Store -> Prop) :
  (forall l, (fresh s <= l)%nat -> elems s !! l = None /\ lists s !! l = None) ->
  (forall s', mem (fresh s) = true -> rep (elems s) (lists s) (fresh s) [] s' -> freed s' = freed s ->
     Q (eLINKED_LIST_SUCCESS, Some (fresh s)) s') ->
  (forall s', elems s' = elems s -> lists s' = lists s -> (fresh s <= fresh s')%nat -> freed s' = freed s -> mem (fresh s) = false ->
     Q (eLINKED_LIST_FAILURE_GENERAL, None) s') ->
  wp (linked_list_init mem true) Q s.
Proof.
  intros Hf H1 H2. unfold linked_list_init. cbn [negb]. wp_step. unfold wp at 1, alloc.
  destruct (mem (fresh s)) eqn:Em; [|apply wp_ret, H2; (done || simpl; lia)].
  unfold store_list. wp_step. wp_step. wp_step. apply H1; [done| |done]. constructor; simpl.
  - done.
  - constructor.
  - constructor.
  - done.
  - intros l Hin. by apply elem_of_nil in Hin.
  - intros l Hle. apply Hf. lia.
  - intros l Hle. apply Hf. lia.
  - by apply Hf.
Qed.
