(* ===== verification/LinkedListProps.v ===== *)
(** * The linked list implements the list interface

    The instance of [ListIface] for [linked_list.c], and the life of a list from
    its creation to its destruction as a run of an abstract sequence. *)
From S2P Require Import Prelude LinkedList ListIface LinkedListSpec.

(** ** The instance: a store and the handle that [msg_q] keeps *)
Section instance.
Context (mem : nat -> bool).

Definition with_handle {A} (m : option loc -> CM Store A) : CM (Store * option loc) A :=
  fun '(s, h) => match m h s with Some (a, s') => Some (a, (s', h)) | None => None end.

#[export] Instance linked_list_ops : ListOps (Store * option loc) := {
  ll_init := fun '(s, h) =>
    match linked_list_init mem true s with
    | Some ((r, Some h'), s') => Some (r, (s', Some h'))
    | Some ((r, None), s') => Some (r, (s', h))
    | None => None
    end;
  ll_destroy := fun '(s, h) =>
    match linked_list_destroy (Some h) s with Some (r, s') => Some (r, (s', None)) | None => None end;
  ll_add d f := with_handle (fun h => linked_list_add mem h d f);
  ll_remove := with_handle (fun h => linked_list_remove h true);
  ll_empty := with_handle linked_list_empty;
  ll_flush := with_handle linked_list_flush;
  ll_freed := fun '(s, _) => freed s;
}.

Context (base : gmap loc list_element) (lbase : gmap loc list_state).

Definition list_rep (ds : list (Z * Z)) (x : Store * option loc) : Prop :=
  exists h xs, x.2 = Some h /\ xs.*2 = ds /\ rep base lbase h xs x.1.
Definition list_absent (x : Store * option loc) : Prop :=
  elems x.1 = base /\ lists x.1 = lbase /\ forall l, (fresh x.1 <= l)%nat -> base !! l = None /\ lbase !! l = None.

Lemma wp_with_handle {A} (m : option loc -> CM Store A) s h (Q : A -> Store * option loc -> Prop) :
  wp (m h) (fun a s' => Q a (s', h)) s -> wp (with_handle m) Q (s, h).
Proof. unfold wp, with_handle. by destruct (m h s) as [[a s']|]. Qed.

#[export] Program Instance linked_list_laws : ListLaws (Store * option loc) := {
  ll_rep := list_rep;
  ll_absent := list_absent;
  ll_memory := forall n, mem n = true;
}.
Next Obligation.
  intros [s h] Q (E1 & E2 & Hf) H1 H2. simpl in *.
  assert (Hw : wp (linked_list_init mem true) (fun '(r, h') s' =>
    Q r (s', match h' with Some h' => Some h' | None => h end)) s).
  { apply wp_linked_list_init; [by rewrite E1, E2| |].
    - intros s' _ R F. apply H1; [|done]. exists (fresh s), []. rewrite E1, E2 in R. done.
    - intros s' E1' E2' Hle F Hm. apply H2; [|done|by intros Ha; rewrite Ha in Hm].
      split; [simpl; congruence|]. split; [simpl; congruence|]. simpl. intros l Hl. apply Hf. lia. }
  unfold wp in Hw |- *. simpl. destruct (linked_list_init mem true s) as [[[r h'] s']|]; [|done].
  by destruct h'.
Qed.
Next Obligation.
  intros ds [s ho] Q (h & xs & E & <- & R) H1. simpl in E, R. subst ho.
  assert (Hw : wp (linked_list_destroy (Some (Some h))) (fun r s' => Q r (s', None)) s).
  { eapply wp_linked_list_destroy; [exact R|]. intros s' E1 E2 E3 E4. apply H1; [|done].
    split; [done|]. split; [done|]. simpl. rewrite E3. intros l Hl.
    split; [by apply (rep_fresh _ _ _ _ _ R)|by apply (rep_lfresh _ _ _ _ _ R)]. }
  unfold wp in Hw |- *. cbn [ll_destroy linked_list_ops].
  by destruct (linked_list_destroy (Some (Some h)) s) as [[r s']|].
Qed.
Next Obligation.
  intros ds d f [s ho] Q (h & xs & E & <- & R) Hd H1 H2. simpl in E. subst ho.
  apply wp_with_handle. eapply wp_linked_list_add; [exact R|exact Hd| |].
  - intros s' l _ R' F. apply H1; [|done]. by exists h, ((l, (d, f)) :: xs).
  - intros s' Hm R' F. apply H2; [by exists h, xs|done|]. intros Ha. by rewrite Ha in Hm.
Qed.
Next Obligation.
  intros [s ho] Q (h & xs & E & Ed & R) HQ. simpl in E. subst ho. destruct xs; [|done].
  apply wp_with_handle. by eapply wp_linked_list_remove_nil.
Qed.
Next Obligation.
  intros ds d f [s ho] Q (h & xs & E & Ed & R) HQ. simpl in E. subst ho.
  destruct xs as [|[l [d' f']] ys _] using rev_ind; [by destruct ds|].
  rewrite fmap_app in Ed. simpl in Ed. apply app_inj_tail in Ed as [Ed [= -> ->]].
  apply wp_with_handle. eapply wp_linked_list_remove; [exact R|]. intros s' R' F.
  apply HQ; [|done]. by exists h, ys.
Qed.
Next Obligation.
  intros ds [s ho] Q (h & xs & E & <- & R) HQ. simpl in E. subst ho.
  apply wp_with_handle. eapply wp_linked_list_empty; [exact R|]. by destruct xs.
Qed.
Next Obligation.
  intros ds [s ho] Q (h & xs & E & <- & R) HQ. simpl in E. subst ho.
  apply wp_with_handle. eapply wp_linked_list_flush; [exact R|]. intros s' R' _ F.
  apply HQ; [by exists h, []|done].
Qed.
End instance.

(** ** The life of a list *)

(** The calls of a client; [LSearch] gives the address of an output or NULL. *)
Inductive call := LAdd (d f : Z) | LRemove | LEmpty | LFlush
  | LSearch (data_p : option Z) (equal : Z -> Z -> bool) (d0 : Z) (rm : bool).
Inductive answer := AErr (e : linked_list_err_type) | AData (e : linked_list_err_type) (d : option Z) | AInt (z : Z).

Definition do_call (mem : nat -> bool) (h : loc) (c : call) : CM Store answer :=
  match c with
  | LAdd d f => e ← linked_list_add mem (Some h) d f; mret (AErr e)
  | LRemove => '(e, d) ← linked_list_remove (Some h) true; mret (AData e d)
  | LEmpty => z ← linked_list_empty (Some h); mret (AInt z)
  | LFlush => e ← linked_list_flush (Some h); mret (AErr e)
  | LSearch data_p equal d0 rm => '(e, d) ← linked_list_search (Some h) data_p (Some equal) d0 rm; mret (AData e d)
  end.
Fixpoint do_calls (mem : nat -> bool) (h : loc) (cs : list call) : CM Store (list answer) :=
  match cs with
  | [] => mret []
  | c :: cs => r ← do_call mem h c; rs ← do_calls mem h cs; mret (r :: rs)
  end.

(** The abstract list: newest element first; the answer, the new list and the data
    the call deallocates. *)
Inductive lstep (memory : Prop) (ds : list (Z * Z)) : call -> answer -> list (Z * Z) -> list (Z * Z) -> Prop :=
  | ls_add d f : d <> 0 -> lstep memory ds (LAdd d f) (AErr eLINKED_LIST_SUCCESS) ((d, f) :: ds) []
  | ls_add_oom d f : d <> 0 -> ~ memory -> lstep memory ds (LAdd d f) (AErr eLINKED_LIST_FAILURE_GENERAL) ds []
  | ls_add_null f : lstep memory ds (LAdd 0 f) (AErr eLINKED_LIST_INVALID_PARAMETER) ds []
  | ls_remove l d f : ds = l ++ [(d, f)] -> lstep memory ds LRemove (AData eLINKED_LIST_SUCCESS (Some d)) l []
  | ls_remove_none : ds = [] -> lstep memory ds LRemove (AData eLINKED_LIST_UNAVAILABLE_RESOURCE None) [] []
  | ls_empty : lstep memory ds LEmpty (AInt (match ds with [] => 1 | _ => 0 end)) ds []
  | ls_flush : lstep memory ds LFlush (AErr eLINKED_LIST_SUCCESS) [] ds
  | ls_search_none data_p eq d0 rm : ds = [] ->
      lstep memory ds (LSearch data_p eq d0 rm) (AData eLINKED_LIST_UNAVAILABLE_RESOURCE data_p) ds []
  | ls_search_miss data_p eq d0 rm : ds <> [] -> take_out (fun x => eq d0 x.1) ds = None ->
      lstep memory ds (LSearch data_p eq d0 rm)
        (AData eLINKED_LIST_SUCCESS (match data_p with None => None | Some _ => Some 0 end)) ds []
  | ls_search data_p eq d0 (rm : bool) x r : take_out (fun x => eq d0 x.1) ds = Some (x, r) ->
      lstep memory ds (LSearch data_p eq d0 rm)
        (AData eLINKED_LIST_SUCCESS (match data_p with None => None | Some _ => Some x.1 end))
        (if rm then r else ds) (if rm && bool_decide (data_p = None) then [x] else []).
Inductive lrun (memory : Prop) : list (Z * Z) -> list call -> list answer -> list (Z * Z) -> list (Z * Z) -> Prop :=
  | lrun_nil ds : lrun memory ds [] [] ds []
  | lrun_cons ds c r ds1 fr1 cs rs ds2 fr2 : lstep memory ds c r ds1 fr1 -> lrun memory ds1 cs rs ds2 fr2 ->
      lrun memory ds (c :: cs) (r :: rs) ds2 (fr1 ++ fr2).

Lemma take_out_fmap {A B} (f : A -> B) (p : B -> bool) (l : list A) :
  take_out p (map f l) =
  match take_out (fun a => p (f a)) l with Some (x, r) => Some (f x, map f r) | None => None end.
Proof.
  induction l as [|x l IH]; simpl; [done|]. destruct (p (f x)); [done|]. rewrite IH.
  by destruct (take_out _ l) as [[y r]|].
Qed.

Lemma deallocs_app ds ds' : deallocs (ds ++ ds') = deallocs ds ++ deallocs ds'.
Proof. unfold deallocs. by rewrite filter_app, fmap_app. Qed.

Section life.
Context (mem : nat -> bool) (base : gmap loc list_element) (lbase : gmap loc list_state) (h : loc).
Abbreviation memory := (forall n, mem n = true).

Lemma do_call_step c xs s :
  rep base lbase h xs s ->
  wp (do_call mem h c) (fun r s' => exists xs' fr, lstep memory xs.*2 c r xs'.*2 fr /\
    rep base lbase h xs' s' /\ freed s' = freed s ++ deallocs fr) s.
Proof.
  intros R. destruct c as [d f| | | |data_p equal d0 rm]; cbn [do_call]; wp_step.
  - destruct (Z.eqb_spec d 0) as [->|Hd].
    + unfold linked_list_add. cbn [Z.eqb]. wp_step. wp_step. exists xs, []. rewrite app_nil_r. split; [constructor|done].
    + eapply wp_linked_list_add; [exact R|exact Hd| |].
      * intros s' l _ R' F. wp_step. exists ((l, (d, f)) :: xs), []. rewrite F, app_nil_r. split; [by constructor|done].
      * intros s' Hm R' F. wp_step. exists xs, []. rewrite F, app_nil_r. split; [|done].
        constructor; [done|]. intros Ha. by rewrite Ha in Hm.
  - destruct xs as [|[l [d f]] ys _] using rev_ind.
    + eapply wp_linked_list_remove_nil; [exact R|]. wp_step. exists [], []. rewrite app_nil_r. split; [by constructor|done].
    + eapply wp_linked_list_remove; [exact R|]. intros s' R' F. wp_step. exists ys, []. rewrite F, app_nil_r.
      split; [|done]. rewrite fmap_app. by eapply ls_remove.
  - eapply wp_linked_list_empty; [exact R|]. wp_step. exists xs, []. rewrite app_nil_r. split; [|done].
    pose proof (ls_empty memory xs.*2) as H. by destruct xs.
  - eapply wp_linked_list_flush; [exact R|]. intros s' R' _ F. wp_step. exists [], xs.*2. split; [constructor|done].
  - destruct xs as [|x xs].
    + unfold linked_list_search. wp_step. eapply wp_load_list; [by apply (rep_lookup base lbase)|].
      cbn [p_tail lastl]. wp_step. wp_step. exists [], []. rewrite app_nil_r. split; [by constructor|done].
    + eapply wp_linked_list_search; [exact R|done| |].
      * intros Hn. wp_step. exists (x :: xs), []. rewrite app_nil_r. split; [|done]. apply ls_search_miss; [done|].
        rewrite (take_out_fmap snd). by rewrite Hn.
      * intros n r Hn s' R' F. wp_step.
        assert (Ht : take_out (fun y : Z * Z => equal d0 y.1) (x :: xs).*2 = Some (n.2, r.*2))
          by (rewrite (take_out_fmap snd); by rewrite Hn).
        exists (if rm then r else x :: xs), (if rm && bool_decide (data_p = None) then [n.2] else []).
        pose proof (ls_search memory (x :: xs).*2 data_p equal d0 rm _ _ Ht) as H.
        split; [by destruct rm|]. split; [done|]. rewrite F. by destruct (rm && _).
Qed.

Lemma do_calls_run cs xs s :
  rep base lbase h xs s ->
  wp (do_calls mem h cs) (fun rs s' => exists xs' fr, lrun memory xs.*2 cs rs xs'.*2 fr /\
    rep base lbase h xs' s' /\ freed s' = freed s ++ deallocs fr) s.
Proof.
  revert xs s. induction cs as [|c cs IH]; intros xs s R; cbn [do_calls].
  - wp_step. exists xs, []. rewrite app_nil_r. split; [constructor|done].
  - wp_step. eapply wp_conseq; [by apply do_call_step|]. intros r s1 (xs1 & fr1 & S1 & R1 & F1). cbv beta.
    wp_step. eapply wp_conseq; [by apply IH|]. intros rs s2 (xs2 & fr2 & S2 & R2 & F2). wp_step.
    exists xs2, (fr1 ++ fr2). split; [by econstructor|]. split; [done|].
    by rewrite F2, F1, deallocs_app, app_assoc.
Qed.
End life.

(** C7. A list behaves as a sequence for its whole life: from its creation, through
    any calls, to its destruction, every answer is that of a sequence where
    elements are added in front, removed at the end and searched from the front;
    the loops end and every pointer that is followed is live; afterwards the store
    is what it was before (no element is leaked, nothing else was touched), and the
    data deallocated is exactly what flushes, unclaimed searches and the
    destruction removed, in order, where a deallocation function was given. *)
Theorem list_life (mem : nat -> bool) (cs : list call) (s : Store) :
  (forall l, (fresh s <= l)%nat -> elems s !! l = None /\ lists s !! l = None) ->
  wp ('(r, h) ← linked_list_init mem true;
      match h with
      | None => mret (r, [])
      | Some h => rs ← do_calls mem h cs; r ← linked_list_destroy (Some (Some h)); mret (r, rs)
      end)
    (fun '(r, rs) s' => elems s' = elems s /\ lists s' = lists s /\
       (r = eLINKED_LIST_FAILURE_GENERAL /\ ~ (forall n, mem n = true) /\ rs = [] /\ freed s' = freed s \/
        r = eLINKED_LIST_SUCCESS /\ exists ds fr, lrun (forall n, mem n = true) [] cs rs ds fr /\
          freed s' = freed s ++ deallocs (fr ++ ds))) s.
Proof.
  intros Hf. wp_step. apply wp_linked_list_init; [exact Hf| |].
  - intros s1 _ R F1. wp_step. eapply wp_conseq; [by eapply do_calls_run|].
    intros rs s2 (xs & fr & Hrun & R2 & F2). cbv beta. wp_step. eapply wp_linked_list_destroy; [exact R2|].
    intros s3 E1 E2 _ F3. wp_step. split; [done|]. split; [done|]. right. split; [done|].
    exists xs.*2, fr. split; [done|]. by rewrite F3, F2, F1, deallocs_app, app_assoc.
  - intros s1 E1 E2 _ F1 Hm. wp_step. split; [done|]. split; [done|]. left. split; [done|].
    split; [|done]. intros Ha. by rewrite Ha in Hm.
Qed.

(** Three elements; the second is found and taken out, the oldest removed, and the
    newest, which has a deallocation function, is left to the destruction. *)
Lemma list_life_witness :
  let cs := [LAdd 10 0; LAdd 20 0; LAdd 30 7; LSearch (Some 0) Z.eqb 20 true; LRemove; LEmpty] in
  wp ('(r, h) ← linked_list_init (fun _ => true) true;
      match h with
      | None => mret (r, [])
      | Some h => rs ← do_calls (fun _ => true) h cs; r ← linked_list_destroy (Some (Some h)); mret (r, rs)
      end)
    (fun '(r, rs) s' => elems s' = ∅ /\ lists s' = ∅) (MkStore ∅ ∅ 0 []).
Proof.
  intros cs. eapply wp_conseq; [apply (list_life (fun _ => true) cs (MkStore ∅ ∅ 0 []))|].
  - intros l _. split; apply lookup_empty.
  - intros [r rs] s' (E1 & E2 & _). done.
Defined.
