(* ===== verification/MsgQ.v ===== *)
(** * The message queue ([src/gps/utils/msg_q.c])

    The functions run under the queue's mutex from the lock to the unlock, so each
    one is a single computation on the queue; only [pthread_cond_wait] gives the
    mutex up, and the rest of [msg_q_rcv] is a second computation.  The condition
    variable is the list of threads that wait on it and the list of threads it
    has woken, which still have to lock the mutex again. *)
From S2P Require Import Prelude LinkedList ListIface.

(** [msq_q_err_type]: the codes of [msg_q.h]; [msg_q_rmv] also returns a code of
    [linked_list.h], so results are numbers. *)
Definition eMSG_Q_SUCCESS : Z := 0.
Definition eMSG_Q_FAILURE_GENERAL : Z := -1.
Definition eMSG_Q_INVALID_PARAMETER : Z := -2.
Definition eMSG_Q_INVALID_HANDLE : Z := -3.
Definition eMSG_Q_UNAVAILABLE_RESOURCE : Z := -4.
Definition eMSG_Q_INSUFFICIENT_BUFFER : Z := -5.

Definition convert_linked_list_err_type (linked_list_val : linked_list_err_type) : Z :=
  match linked_list_val with
  | eLINKED_LIST_SUCCESS => eMSG_Q_SUCCESS
  | eLINKED_LIST_INVALID_PARAMETER => eMSG_Q_INVALID_PARAMETER
  | eLINKED_LIST_INVALID_HANDLE => eMSG_Q_INVALID_HANDLE
  | eLINKED_LIST_UNAVAILABLE_RESOURCE => eMSG_Q_UNAVAILABLE_RESOURCE
  | eLINKED_LIST_INSUFFICIENT_BUFFER => eMSG_Q_INSUFFICIENT_BUFFER
  | _ => eMSG_Q_FAILURE_GENERAL
  end.

Abbreviation tid := nat.
Record msg_q (S : Type) := MsgQ {
  msg_list : S;
  waiting : list tid;        (** threads in [pthread_cond_wait] *)
  woken : list tid;          (** woken, about to lock the mutex again *)
  unblocked : Z;
}.
Arguments MsgQ {S}. Arguments msg_list {S}. Arguments waiting {S}. Arguments woken {S}. Arguments unblocked {S}.

(** The result of a receive: the thread waits, or the code and [*msg_obj]. *)
Inductive rcv_result := Waits | Returns (rv : Z) (msg : option Z).

Section msg_q.
Context {S : Type} `{ListOps S}.

Abbreviation M := (CM (msg_q S)).

Definition on_list {A} (m : CM S A) : M A := fun q =>
  match m (msg_list q) with
  | Some (a, l) => Some (a, MsgQ l (waiting q) (woken q) (unblocked q))
  | None => None
  end.

(** [pthread_cond_signal] wakes one waiting thread, if any; the scheduler picks
    it ([k]).  [pthread_cond_broadcast] wakes all. *)
Definition pthread_cond_signal (k : nat) : M unit := modify (fun q =>
  match waiting q !! (k mod length (waiting q))%nat with
  | None => q
  | Some t => MsgQ (msg_list q) (delete (k mod length (waiting q))%nat (waiting q)) (woken q ++ [t]) (unblocked q)
  end).
Definition pthread_cond_broadcast : M unit := modify (fun q =>
  MsgQ (msg_list q) [] (woken q ++ waiting q) (unblocked q)).
Definition pthread_cond_wait (t : tid) : M unit := modify (fun q =>
  MsgQ (msg_list q) (waiting q ++ [t]) (woken q) (unblocked q)).

(** ** Creation and destruction.  The three booleans: do the allocation of the
    queue, [pthread_mutex_init] and [pthread_cond_init] succeed? *)
Definition msg_q_init (msg_q_data calloc_ok mutex_ok cond_ok : bool) : CM S (Z * option (S -> msg_q S)) :=
  if negb msg_q_data then mret (eMSG_Q_INVALID_PARAMETER, None) else
  if negb calloc_ok then mret (eMSG_Q_FAILURE_GENERAL, None) else
  r ← ll_init;
  if negb (err_code r =? 0) then mret (eMSG_Q_FAILURE_GENERAL, None) else
  if negb mutex_ok then _ ← ll_destroy; mret (eMSG_Q_FAILURE_GENERAL, None) else
  if negb cond_ok then _ ← ll_destroy; mret (eMSG_Q_FAILURE_GENERAL, None) else
  mret (eMSG_Q_SUCCESS, Some (fun l => MsgQ l [] [] 0)).

Definition msg_q_init2 (calloc_ok mutex_ok cond_ok : bool) : CM S (option (S -> msg_q S)) :=
  '(r, q) ← msg_q_init true calloc_ok mutex_ok cond_ok;
  mret (if r =? eMSG_Q_SUCCESS then q else None).

Definition msg_q_destroy (msg_q_data : bool) : M Z :=
  if negb msg_q_data then mret eMSG_Q_INVALID_HANDLE else
  _ ← on_list ll_destroy;
  _ ← modify (fun q => MsgQ (msg_list q) (waiting q) (woken q) 0);
  mret eMSG_Q_SUCCESS.

(** ** Operations *)
Definition msg_q_snd (msg_q_data : bool) (msg_obj dealloc : Z) (k : nat) : M Z :=
  if negb msg_q_data then mret eMSG_Q_INVALID_HANDLE else
  if msg_obj =? 0 then mret eMSG_Q_INVALID_PARAMETER else
  q ← get;
  if negb (unblocked q =? 0) then mret eMSG_Q_UNAVAILABLE_RESOURCE else
  r ← on_list (ll_add msg_obj dealloc);
  let rv := convert_linked_list_err_type r in
  _ ← pthread_cond_signal k;
  mret rv.

(** The loop of [msg_q_rcv] up to the wait, or the receive after it; a woken
    thread starts it again. *)
Definition rcv_loop (t : tid) : M rcv_result :=
  e ← on_list ll_empty;
  q ← get;
  if negb (e =? 0) && (unblocked q =? 0) then _ ← pthread_cond_wait t; mret Waits else
  '(r, msg) ← on_list ll_remove;
  mret (Returns (convert_linked_list_err_type r) msg).

Definition msg_q_rcv (msg_q_data msg_obj : bool) (t : tid) : M rcv_result :=
  if negb msg_q_data then mret (Returns eMSG_Q_INVALID_HANDLE None) else
  if negb msg_obj then mret (Returns eMSG_Q_INVALID_PARAMETER None) else
  q ← get;
  if negb (unblocked q =? 0) then mret (Returns eMSG_Q_UNAVAILABLE_RESOURCE None) else
  rcv_loop t.

Definition msg_q_rmv (msg_q_data msg_obj : bool) : M (Z * option Z) :=
  if negb msg_q_data then mret (eMSG_Q_INVALID_HANDLE, None) else
  if negb msg_obj then mret (eMSG_Q_INVALID_PARAMETER, None) else
  q ← get;
  if negb (unblocked q =? 0) then mret (eMSG_Q_UNAVAILABLE_RESOURCE, None) else
  e ← on_list ll_empty;
  if negb (e =? 0) then mret (err_code eLINKED_LIST_EMPTY, None) else
  '(r, msg) ← on_list ll_remove;
  mret (convert_linked_list_err_type r, msg).

Definition msg_q_flush (msg_q_data : bool) : M Z :=
  if negb msg_q_data then mret eMSG_Q_INVALID_HANDLE else
  r ← on_list ll_flush; mret (convert_linked_list_err_type r).

Definition msg_q_unblock (msg_q_data : bool) : M Z :=
  if negb msg_q_data then mret eMSG_Q_INVALID_HANDLE else
  q ← get;
  if negb (unblocked q =? 0) then mret eMSG_Q_UNAVAILABLE_RESOURCE else
  _ ← modify (fun q => MsgQ (msg_list q) (waiting q) (woken q) 1);
  _ ← pthread_cond_broadcast;
  mret eMSG_Q_SUCCESS.

(** ** Threads

    What can happen next: a call by a running thread, or a thread that is waiting
    or woken going on. *)
Inductive event :=
  | Snd (msg dealloc : Z) (k : nat)
  | Rcv (t : tid)
  | Rmv
  | Flush
  | Unblock
  | Wakeup (t : tid)        (** a spurious wakeup *)
  | Resume (t : tid).       (** a woken thread gets the mutex *)

(** What the event did, for the history: a message put in, a message taken out, a
    thread's receive that ended without one, or nothing. *)
Inductive outcome := Sent (msg : Z) | Took (msg : Z) | Failed (rv : Z) | Flushed | Nothing.

Definition of_rcv (r : rcv_result) : outcome :=
  match r with
  | Waits => Nothing
  | Returns rv (Some m) => if rv =? eMSG_Q_SUCCESS then Took m else Failed rv
  | Returns rv None => Failed rv
  end.

(** Take thread [t] off a list of threads; undefined if it is not there. *)
Fixpoint take_thread (t : tid) (l : list tid) : option (list tid) :=
  match l with
  | [] => None
  | x :: l => if Nat.eqb x t then Some l else r ← take_thread t l; Some (x :: r)
  end.

Definition do_event (e : event) : M outcome :=
  match e with
  | Snd m d k => rv ← msg_q_snd true m d k; mret (if rv =? eMSG_Q_SUCCESS then Sent m else Failed rv)
  | Rcv t => r ← msg_q_rcv true true t; mret (of_rcv r)
  | Rmv => '(rv, m) ← msg_q_rmv true true; mret (of_rcv (Returns rv m))
  | Flush => _ ← msg_q_flush true; mret Flushed
  | Unblock => _ ← msg_q_unblock true; mret Nothing
  | Wakeup t =>
      q ← get; w ← deref (take_thread t (waiting q));
      _ ← modify (fun q => MsgQ (msg_list q) w (woken q ++ [t]) (unblocked q)); mret Nothing
  | Resume t =>
      q ← get; w ← deref (take_thread t (woken q));
      _ ← modify (fun q => MsgQ (msg_list q) (waiting q) w (unblocked q));
      r ← rcv_loop t; mret (of_rcv r)
  end.

Fixpoint do_events (es : list event) : M (list outcome) :=
  match es with
  | [] => mret []
  | e :: es => o ← do_event e; os ← do_events es; mret (o :: os)
  end.
End msg_q.
