(* ===== verification/MsgQProps.v ===== *)
(** * The message queue is correct

    Histories of the queue over any list that satisfies the interface: order of
    delivery, no lost wake-ups, the end of every wait; creation and destruction; and
    the queue over the linked list. *)
From S2P Require Import Prelude LinkedList ListIface LinkedListSpec LinkedListProps MsgQ.


(** ** The message queue as an abstract queue with waiting threads

    A specification of [msg_q.c] without a list implementation, that the queue
    refines over any implementation of the list interface, and the invariants of
    the specification: no wake-up is lost, messages are taken in the order they
    were sent. *)

(** The messages with their deallocation functions, oldest first. *)
Record aqueue := AQueue {
  a_msgs : list (Z * Z); a_waiting : list tid; a_woken : list tid; a_unblocked : bool;
  a_freed : list (Z * Z);            (** deallocation calls so far *)
}.
Definition a_init (fr : list (Z * Z)) : aqueue := AQueue [] [] [] false fr.

(** One waiting thread is woken, if any. *)
Definition wake (k : nat) (a : aqueue) : aqueue :=
  match a_waiting a !! (k mod length (a_waiting a))%nat with
  | None => a
  | Some t => AQueue (a_msgs a) (delete (k mod length (a_waiting a))%nat (a_waiting a)) (a_woken a ++ [t]) (a_unblocked a) (a_freed a)
  end.
Definition with_msgs (a : aqueue) (l : list (Z * Z)) : aqueue := AQueue l (a_waiting a) (a_woken a) (a_unblocked a) (a_freed a).

(** What thread [t] does once it has the mutex inside of a receive. *)
Inductive areceive (t : tid) (a : aqueue) : outcome -> aqueue -> Prop :=
  | ar_take m d l : a_msgs a = (m, d) :: l -> areceive t a (Took m) (with_msgs a l)
  | ar_wait : a_msgs a = [] -> a_unblocked a = false ->
      areceive t a Nothing (AQueue [] (a_waiting a ++ [t]) (a_woken a) false (a_freed a))
  | ar_end : a_msgs a = [] -> a_unblocked a = true -> areceive t a (Failed eMSG_Q_UNAVAILABLE_RESOURCE) a.

(** [memory]: additions do not run out of memory. *)
Inductive astep (memory : Prop) (a : aqueue) : event -> outcome -> aqueue -> Prop :=
  | as_snd m d k : a_unblocked a = false -> m <> 0 ->
      astep memory a (Snd m d k) (Sent m) (wake k (with_msgs a (a_msgs a ++ [(m, d)])))
  | as_snd_oom m d k : a_unblocked a = false -> m <> 0 -> ~ memory ->
      astep memory a (Snd m d k) (Failed eMSG_Q_FAILURE_GENERAL) (wake k a)
  | as_snd_null d k : astep memory a (Snd 0 d k) (Failed eMSG_Q_INVALID_PARAMETER) a
  | as_snd_unblocked m d k : a_unblocked a = true -> m <> 0 ->
      astep memory a (Snd m d k) (Failed eMSG_Q_UNAVAILABLE_RESOURCE) a
  | as_rcv_unblocked t : a_unblocked a = true ->
      astep memory a (Rcv t) (Failed eMSG_Q_UNAVAILABLE_RESOURCE) a
  | as_rcv t o a' : a_unblocked a = false -> areceive t a o a' -> astep memory a (Rcv t) o a'
  | as_rmv_unblocked : a_unblocked a = true -> astep memory a Rmv (Failed eMSG_Q_UNAVAILABLE_RESOURCE) a
  | as_rmv_empty : a_unblocked a = false -> a_msgs a = [] ->
      astep memory a Rmv (Failed (err_code eLINKED_LIST_EMPTY)) a
  | as_rmv m d l : a_unblocked a = false -> a_msgs a = (m, d) :: l -> astep memory a Rmv (Took m) (with_msgs a l)
  | as_flush : astep memory a Flush Flushed
      (AQueue [] (a_waiting a) (a_woken a) (a_unblocked a) (a_freed a ++ deallocs (reverse (a_msgs a))))
  | as_unblock : astep memory a Unblock Nothing
      (if a_unblocked a then a else AQueue (a_msgs a) [] (a_woken a ++ a_waiting a) true (a_freed a))
  | as_wakeup t l : take_thread t (a_waiting a) = Some l ->
      astep memory a (Wakeup t) Nothing (AQueue (a_msgs a) l (a_woken a ++ [t]) (a_unblocked a) (a_freed a))
  | as_resume t l o a' : take_thread t (a_woken a) = Some l ->
      areceive t (AQueue (a_msgs a) (a_waiting a) l (a_unblocked a) (a_freed a)) o a' ->
      astep memory a (Resume t) o a'.

(** A thread can only go on when it waits or is woken. *)
Definition enabled (a : aqueue) (e : event) : Prop :=
  match e with
  | Wakeup t => is_Some (take_thread t (a_waiting a))
  | Resume t => is_Some (take_thread t (a_woken a))
  | _ => True
  end.

Section refinement.
Context {S : Type} `{LL : ListLaws S}.

Definition qrel (q : msg_q S) (a : aqueue) : Prop :=
  ll_rep (reverse (a_msgs a)) (msg_list q) /\ waiting q = a_waiting a /\ woken q = a_woken a /\
  unblocked q = (if a_unblocked a then 1 else 0) /\ ll_freed (msg_list q) = a_freed a.

Lemma wp_on_list {A} (m : CM S A) q (Q : A -> msg_q S -> Prop) :
  wp m (fun a l => Q a (MsgQ l (waiting q) (woken q) (unblocked q))) (msg_list q) -> wp (on_list m) Q q.
Proof. unfold wp, on_list. by destruct (m (msg_list q)) as [[a l]|]. Qed.

Lemma qrel_unblocked q a : qrel q a -> negb (unblocked q =? 0) = a_unblocked a.
Proof. intros (_ & _ & _ & -> & _). by destruct (a_unblocked a). Qed.

Lemma qrel_wake k q a (Q : unit -> msg_q S -> Prop) :
  qrel q a -> (forall q', qrel q' (wake k a) -> Q tt q') -> wp (pthread_cond_signal k) Q q.
Proof.
  intros (R & W & V & U & Fr) HQ. unfold pthread_cond_signal. wp_step. apply HQ. unfold wake. rewrite W.
  destruct (a_waiting a !! _) as [t|]; [|done]. split; [done|]. simpl. by rewrite V.
Qed.

(** The receive of the oldest message. *)
Lemma wp_remove q a m d l (Q : linked_list_err_type * option Z -> msg_q S -> Prop) :
  qrel q a -> a_msgs a = (m, d) :: l ->
  (forall q', qrel q' (with_msgs a l) -> Q (eLINKED_LIST_SUCCESS, Some m) q') -> wp (on_list ll_remove) Q q.
Proof.
  intros (R & W & V & U & Fr) Hm HQ. apply wp_on_list. rewrite Hm, reverse_cons in R.
  eapply ll_remove_ok; [exact R|]. intros s' R' F'. apply HQ. split; [done|]. split; [done|]. split; [done|]. split; [done|]. simpl. congruence.
Qed.

Lemma wp_empty q a (Q : Z -> msg_q S -> Prop) :
  qrel q a -> Q (match a_msgs a with [] => 1 | _ => 0 end) q -> wp (on_list ll_empty) Q q.
Proof.
  intros (R & W & V & U & Fr) HQ. apply wp_on_list. eapply ll_empty_ok; [exact R|].
  destruct (a_msgs a) as [|x l] eqn:Em; [by destruct q|].
  rewrite reverse_cons. destruct (reverse l ++ [x]) eqn:E; [by destruct (reverse l)|]. by destruct q.
Qed.

Lemma wp_rcv_loop t q a (Q : rcv_result -> msg_q S -> Prop) :
  qrel q a -> (forall r q' a', areceive t a (of_rcv r) a' -> qrel q' a' -> Q r q') -> wp (rcv_loop t) Q q.
Proof.
  intros Hq HQ. unfold rcv_loop. wp_step. eapply wp_empty; [exact Hq|]. wp_step. wp_step.
  pose proof (qrel_unblocked _ _ Hq) as Hu. destruct (a_msgs a) as [|[m d] l] eqn:Em.
  - cbn [negb Z.eqb andb]. destruct (unblocked q =? 0) eqn:Eu; simpl in Hu.
    + unfold pthread_cond_wait. wp_step. wp_step. wp_step. eapply HQ; [by apply ar_wait|].
      destruct Hq as (R & W & V & U & Fr). rewrite Em in R. split; [done|]. simpl. rewrite W. split; [done|].
      split; [done|]. split; [rewrite U; by rewrite <- Hu|done].
    + wp_step. apply wp_on_list. destruct Hq as (R & W & V & U & Fr). pose proof R as R'. rewrite Em in R'.
      eapply ll_remove_nil; [exact R'|]. wp_step. eapply HQ; [by apply ar_end|]. by destruct q.
  - cbn [negb Z.eqb andb]. wp_step. eapply wp_remove; [exact Hq|exact Em|]. intros q' Hq'. wp_step.
    eapply HQ; [by eapply ar_take|exact Hq'].
Qed.

Lemma wp_msg_q_snd q a m d k (Q : Z -> msg_q S -> Prop) :
  qrel q a ->
  (forall rv q' a', astep ll_memory a (Snd m d k) (if rv =? eMSG_Q_SUCCESS then Sent m else Failed rv) a' ->
     qrel q' a' -> Q rv q') ->
  wp (msg_q_snd true m d k) Q q.
Proof.
  intros Hq HQ. pose proof (qrel_unblocked _ _ Hq) as Hu. unfold msg_q_snd. cbn [negb].
  destruct (Z.eqb_spec m 0) as [->|Hm].
  { wp_step. eapply HQ; [apply as_snd_null|exact Hq]. }
  wp_step. wp_step. rewrite Hu. destruct (a_unblocked a) eqn:Ea.
  { wp_step. eapply HQ; [by apply as_snd_unblocked|exact Hq]. }
  wp_step. apply wp_on_list. destruct Hq as (R & W & V & U & Fr). eapply ll_add_ok; [exact R|exact Hm| |].
  - intros s' R' F'. wp_step. eapply (qrel_wake k _ (with_msgs a (a_msgs a ++ [(m, d)]))).
    { split; [by simpl; rewrite reverse_snoc|]. split; [done|]. split; [done|]. split; [exact U|simpl; congruence]. }
    intros q' Hq'. wp_step. eapply HQ; [by apply as_snd|exact Hq'].
  - intros s' R' F' Hmem. wp_step. eapply (qrel_wake k _ a); [split; [done|split; [done|split; [done|split; [exact U|simpl; congruence]]]]|].
    intros q' Hq'. wp_step. eapply HQ; [by apply as_snd_oom|exact Hq'].
Qed.

Lemma wp_msg_q_rmv q a (Q : Z * option Z -> msg_q S -> Prop) :
  qrel q a ->
  (forall rv m q' a', astep ll_memory a Rmv (of_rcv (Returns rv m)) a' -> qrel q' a' -> Q (rv, m) q') ->
  wp (msg_q_rmv true true) Q q.
Proof.
  intros Hq HQ. pose proof (qrel_unblocked _ _ Hq) as Hu. unfold msg_q_rmv. cbn [negb].
  wp_step. wp_step. rewrite Hu. destruct (a_unblocked a) eqn:Ea.
  { wp_step. eapply HQ; [by apply as_rmv_unblocked|exact Hq]. }
  wp_step. eapply wp_empty; [exact Hq|]. destruct (a_msgs a) as [|[m d] l] eqn:Em; cbn [negb Z.eqb].
  { wp_step. eapply HQ; [by apply as_rmv_empty|exact Hq]. }
  wp_step. eapply wp_remove; [exact Hq|exact Em|]. intros q' Hq'. wp_step.
  eapply HQ; [by eapply as_rmv|exact Hq'].
Qed.

(** Every event of the queue is a step of the specification. *)
Lemma wp_do_event q a e :
  qrel q a -> enabled a e ->
  wp (do_event e) (fun o q' => exists a', astep ll_memory a e o a' /\ qrel q' a') q.
Proof.
  intros Hq He. pose proof (qrel_unblocked _ _ Hq) as Hu. destruct e as [m d k|t| | | |t|t]; cbn [do_event].
  - wp_step. eapply wp_msg_q_snd; [exact Hq|]. intros rv q' a' Ha Hq'. wp_step. by exists a'.
  - wp_step. unfold msg_q_rcv. cbn [negb]. wp_step. wp_step. rewrite Hu. destruct (a_unblocked a) eqn:Ea.
    + wp_step. wp_step. exists a. split; [by apply as_rcv_unblocked|done].
    + eapply wp_rcv_loop; [exact Hq|]. intros r q' a' Ha Hq'. wp_step. exists a'. split; [by apply as_rcv|done].
  - wp_step. eapply wp_msg_q_rmv; [exact Hq|]. intros rv m q' a' Ha Hq'. wp_step. by exists a'.
  - unfold msg_q_flush. cbn [negb]. wp_step. wp_step. apply wp_on_list. destruct Hq as (R & W & V & U & Fr).
    eapply ll_flush_ok; [exact R|]. intros s' R' F'. wp_step. wp_step. eexists.
    split; [apply as_flush|]. split; [done|]. split; [done|]. split; [done|]. split; [done|]. simpl. congruence.
  - unfold msg_q_unblock. cbn [negb]. wp_step. wp_step. wp_step. rewrite Hu. destruct Hq as (R & W & V & U & Fr).
    destruct (a_unblocked a) eqn:Ea.
    + wp_step. wp_step. exists a. split; [|split; [done|split; [done|split; [done|split; [by rewrite Ea|done]]]]].
      pose proof (as_unblock ll_memory a) as Hs. by rewrite Ea in Hs.
    + wp_step. wp_step. unfold pthread_cond_broadcast. wp_step. wp_step. wp_step. wp_step.
      exists (AQueue (a_msgs a) [] (a_woken a ++ a_waiting a) true (a_freed a)). split.
      * pose proof (as_unblock ll_memory a) as Hs. by rewrite Ea in Hs.
      * split; [done|]. simpl. split; [done|]. by rewrite W, V.
  - destruct He as [l Hl]. destruct Hq as (R & W & V & U & Fr). wp_step. wp_step. wp_step.
    eapply wp_deref; [by rewrite W|]. wp_step. wp_step. wp_step.
    eexists. split; [by apply as_wakeup|]. split; [done|]. simpl. split; [done|]. by rewrite V.
  - destruct He as [l Hl]. destruct Hq as (R & W & V & U & Fr). wp_step. wp_step. wp_step.
    eapply wp_deref; [by rewrite V|]. wp_step. wp_step. wp_step.
    eapply (wp_rcv_loop t _ (AQueue (a_msgs a) (a_waiting a) l (a_unblocked a) (a_freed a))); [by split|].
    intros r q' a' Ha Hq'. wp_step. exists a'. split; [by eapply as_resume|done].
Qed.
End refinement.

(** ** Histories *)

(** A run of the specification: the events are enabled one after the other. *)
Inductive arun (memory : Prop) : aqueue -> list event -> list outcome -> aqueue -> Prop :=
  | arun_nil a : arun memory a [] [] a
  | arun_cons a e o a1 es os a2 : enabled a e -> astep memory a e o a1 -> arun memory a1 es os a2 ->
      arun memory a (e :: es) (o :: os) a2.

(** The messages in the queue after a history: a message is taken only when it is
    the oldest one. *)
Fixpoint replay (os : list outcome) (l : list Z) : option (list Z) :=
  match os with
  | [] => Some l
  | Sent m :: os => replay os (l ++ [m])
  | Took m :: os => match l with x :: l => if x =? m then replay os l else None | [] => None end
  | Flushed :: os => replay os []
  | _ :: os => replay os l
  end.

(** No wake-up is lost: while a thread waits, there are at least as many woken
    threads as messages, and nobody waits at an unblocked queue. *)
Definition awake_enough (a : aqueue) : Prop :=
  a_waiting a = [] \/ a_unblocked a = false /\ (length (a_msgs a) <= length (a_woken a))%nat.

Lemma wake_msgs k a : a_msgs (wake k a) = a_msgs a.
Proof. unfold wake. by destruct (_ !! _). Qed.

Lemma take_thread_length t l l' : take_thread t l = Some l' -> length l = Datatypes.S (length l').
Proof.
  revert l'. induction l as [|x l IH]; intros l'; simpl; [done|]. destruct (Nat.eqb x t); [by intros [= <-]|].
  destruct (take_thread t l) as [r|] eqn:E; [|done]. intros [= <-]. simpl. by rewrite (IH r eq_refl).
Qed.

Lemma wake_enough k a :
  a_waiting a = [] \/ a_unblocked a = false /\ (length (a_msgs a) <= Datatypes.S (length (a_woken a)))%nat ->
  awake_enough (wake k a).
Proof.
  intros H. unfold wake, awake_enough. destruct (a_waiting a) as [|t l] eqn:Ew; [by left; rewrite lookup_nil|].
  destruct H as [?|[Hu Hl]]; [done|]. right.
  destruct (lookup_lt_is_Some_2 (t :: l) (k mod length (t :: l))%nat) as [x Hx].
  { apply Nat.mod_upper_bound. done. }
  rewrite Hx. simpl. split; [done|]. rewrite length_app. simpl. lia.
Qed.

Lemma areceive_enough t a o a' :
  a_waiting a = [] \/ a_unblocked a = false /\ (length (a_msgs a) <= Datatypes.S (length (a_woken a)))%nat ->
  areceive t a o a' -> awake_enough a'.
Proof.
  intros H [m d l Hm|Hm Hu|Hm Hu]; unfold awake_enough; simpl.
  - destruct H as [?|[Hu Hl]]; [by left|right]. split; [done|]. rewrite Hm in Hl. simpl in Hl. lia.
  - right. split; [done|]. lia.
  - destruct H as [?|[? ?]]; [by left|congruence].
Qed.

Lemma astep_enough memory a e o a' : awake_enough a -> astep memory a e o a' -> awake_enough a'.
Proof.
  intros H Hs.
  assert (H' : a_waiting a = [] \/ a_unblocked a = false /\ (length (a_msgs a) <= Datatypes.S (length (a_woken a)))%nat).
  { destruct H as [?|[? ?]]; [by left|right; split; [done|lia]]. }
  destruct Hs as [m d k Hu Hm|m d k Hu Hm Hmem|d k|m d k Hu Hm|t Hu|t o a' Hu Hr|Hu|Hu He|m d l Hu Hm| | |t l Ht|t l o a' Ht Hr];
    try done.
  - apply wake_enough. destruct H as [?|[? ?]]; [by left|right]. split; [done|]. simpl. rewrite length_app. simpl. lia.
  - by apply wake_enough.
  - eapply areceive_enough; [|exact Hr]. done.
  - destruct H as [?|[? Hl]]; [by left|right]. split; [done|]. simpl. rewrite Hm in Hl. simpl in Hl. lia.
  - destruct H as [?|[? Hl]]; [by left|right]. split; [done|]. simpl. lia.
  - destruct (a_unblocked a); [done|by left].
  - destruct H as [Hw|[? Hl]]; [by rewrite Hw in Ht|right]. split; [done|]. simpl. rewrite length_app. simpl. lia.
  - eapply areceive_enough; [|exact Hr]. apply take_thread_length in Ht.
    destruct H as [?|[? Hl]]; [by left|right]. split; [done|]. simpl. lia.
Qed.

Lemma areceive_replay t a o a' os :
  areceive t a o a' -> replay (o :: os) (a_msgs a).*1 = replay os (a_msgs a').*1.
Proof.
  intros [m d l Hm|Hm Hu|Hm Hu]; simpl; [|by rewrite Hm..]. rewrite Hm. csimpl. by rewrite Z.eqb_refl.
Qed.

Lemma astep_replay memory a e o a' os :
  astep memory a e o a' -> replay (o :: os) (a_msgs a).*1 = replay os (a_msgs a').*1.
Proof.
  intros [m d k Hu Hm|m d k Hu Hm Hmem|d k|m d k Hu Hm|t Hu|t o1 a1 Hu Hr|Hu|Hu He|m d l Hu Hm| | |t l Ht|t l o1 a1 Ht Hr];
    simpl; try done.
  - rewrite wake_msgs. simpl. by rewrite fmap_app.
  - by rewrite wake_msgs.
  - by eapply areceive_replay in Hr.
  - rewrite Hm. csimpl. by rewrite Z.eqb_refl.
  - by destruct (a_unblocked a).
  - by eapply areceive_replay in Hr.
Qed.

Lemma arun_replay memory a es os a' :
  arun memory a es os a' -> replay os (a_msgs a).*1 = Some (a_msgs a').*1.
Proof.
  induction 1 as [a|a e o a1 es os a2 _ Hs _ IH]; [done|]. by rewrite (astep_replay _ _ _ _ _ _ Hs).
Qed.

Lemma arun_enough memory a es os a' : awake_enough a -> arun memory a es os a' -> awake_enough a'.
Proof.
  intros H. induction 1 as [a|a e o a1 es os a2 _ Hs _ IH]; [done|]. apply IH. by eapply astep_enough.
Qed.

Section queue.
Context {S : Type} `{LL : ListLaws S}.

(** An event that is defined is enabled. *)
Lemma do_event_enabled e q o q' a :
  qrel q a -> do_event e q = Some (o, q') -> enabled a e.
Proof.
  intros (_ & W & V & _ & _) He. destruct e as [m d k|t| | | |t|t]; try done;
    unfold do_event, mbind, cm_bind, get, deref in He; simpl; rewrite <- ?W, <- ?V.
  - destruct (take_thread t (waiting q)); [by eexists|done].
  - destruct (take_thread t (woken q)); [by eexists|done].
Qed.

Lemma do_event_step e q o q' a :
  qrel q a -> do_event e q = Some (o, q') -> exists a', astep ll_memory a e o a' /\ qrel q' a'.
Proof.
  intros Hq He. pose proof (wp_do_event q a e Hq (do_event_enabled _ _ _ _ _ Hq He)) as Hw.
  unfold wp in Hw. by rewrite He in Hw.
Qed.

(** A history of the queue is a run of the specification. *)
Lemma do_events_run es q os q' a :
  qrel q a -> do_events es q = Some (os, q') -> exists a', arun ll_memory a es os a' /\ qrel q' a'.
Proof.
  revert q os a. induction es as [|e es IH]; intros q os a Hq Hes.
  - injection Hes as <- <-. exists a. split; [constructor|done].
  - cbn [do_events] in Hes. unfold mbind, cm_bind in Hes.
    destruct (do_event e q) as [[o q1]|] eqn:He; [|done].
    destruct (do_event_step e q o q1 a Hq He) as (a1 & Hs & Hq1).
    destruct (do_events es q1) as [[os1 q2]|] eqn:Hes1; [|done]. injection Hes as <- <-.
    destruct (IH q1 os1 a1 Hq1 Hes1) as (a2 & Hr & Hq2). exists a2. split; [|done].
    econstructor; [by eapply do_event_enabled|exact Hs|exact Hr].
Qed.

(** The queue delivers in order and exactly once: in any history of calls by any
    threads, with any wake-ups, a message is taken (by a receive or [msg_q_rmv])
    only if it is the oldest one that was accepted and not yet taken or flushed;
    every accepted message that was neither is still in the queue, in order. *)
Theorem msg_q_fifo (q : msg_q S) (es : list event) (os : list outcome) (q' : msg_q S) :
  qrel q (a_init (ll_freed (msg_list q))) -> do_events es q = Some (os, q') ->
  exists ms, replay os [] = Some ms.*1 /\ ll_rep (reverse ms) (msg_list q').
Proof.
  intros Hq Hes. destruct (do_events_run es q os q' _ Hq Hes) as (a & Hr & Ha).
  exists (a_msgs a). split; [exact (arun_replay _ _ _ _ _ Hr)|apply Ha].
Qed.

Lemma take_thread_head t l : take_thread t (t :: l) = Some l.
Proof. simpl. by rewrite Nat.eqb_refl. Qed.

(** Resuming all the woken threads. *)
Lemma resume_all ts a q :
  qrel q a -> a_woken a = ts ->
  wp (do_events (Resume <$> ts)) (fun os q' => exists a', arun ll_memory a (Resume <$> ts) os a' /\ qrel q' a' /\
    a_woken a' = [] /\ a_unblocked a' = a_unblocked a) q.
Proof.
  revert a q. induction ts as [|t ts IH]; intros a q Hq Hw; csimpl.
  - wp_step. exists a. split; [constructor|done].
  - wp_step. eapply wp_conseq; [apply (wp_do_event q a (Resume t) Hq)|].
    { simpl. rewrite Hw, take_thread_head. by eexists. }
    intros o q1 (a1 & Hs & Hq1). cbv beta.
    assert (Hw1 : a_woken a1 = ts /\ a_unblocked a1 = a_unblocked a).
    { inversion Hs as [| | | | | | | | | | | |t' l o' a' Ht Hr]; subst. rewrite Hw, take_thread_head in Ht. injection Ht as <-.
      by destruct Hr. }
    destruct Hw1 as [Hw1 Hu1]. wp_step. eapply wp_conseq; [by apply (IH a1 q1)|].
    intros os q2 (a2 & Hr2 & Hq2 & Hw2 & Hu2). wp_step. exists a2. split; [|split; [done|split; [done|congruence]]].
    econstructor; [simpl; rewrite Hw, take_thread_head; by eexists|exact Hs|exact Hr2].
Qed.

(** C9. No wake-up is lost and every wait ends: after any history, letting each
    woken thread go on once, without any further call, ends with no woken thread,
    and then no message is left while a thread waits; if the queue has been
    unblocked, no thread waits at all.  Each step returns (the loop of a receive is
    gone through once per wake-up). *)
Theorem msg_q_no_lost_wakeup (q : msg_q S) (es : list event) (os : list outcome) (q' : msg_q S) :
  qrel q (a_init (ll_freed (msg_list q))) -> do_events es q = Some (os, q') ->
  wp (do_events (Resume <$> woken q')) (fun os' q2 =>
    length os' = length (woken q') /\ woken q2 = [] /\
    (waiting q2 = [] \/ ll_rep [] (msg_list q2) /\ unblocked q2 = 0) /\
    (unblocked q' <> 0 -> waiting q2 = [] /\ unblocked q2 <> 0)) q'.
Proof.
  intros Hq Hes. destruct (do_events_run es q os q' _ Hq Hes) as (a & Hr & Ha).
  assert (He : awake_enough a) by (eapply arun_enough; [|exact Hr]; by left).
  eapply wp_conseq; [apply (resume_all (woken q') a q' Ha); by destruct Ha as (_ & _ & Ew & _)|].
  intros os' q2 (a2 & Hr2 & Ha2 & Hw2 & Hu2). cbv beta.
  pose proof (arun_enough _ _ _ _ _ He Hr2) as He2.
  assert (Hlen : forall b xs ys b', arun ll_memory b xs ys b' -> length ys = length xs)
    by (induction 1; simpl; congruence).
  destruct Ha as (_ & _ & _ & U & _), Ha2 as (R2 & W2 & V2 & U2 & _). unfold awake_enough in He2.
  split; [rewrite (Hlen _ _ _ _ Hr2); apply length_fmap|]. split; [congruence|]. split.
  - destruct He2 as [Hw|[Hub Hl]]; [left; congruence|right]. rewrite Hw2 in Hl. simpl in Hl.
    destruct (a_msgs a2); [|simpl in Hl; lia]. split; [done|]. by rewrite U2, Hub.
  - intros Hun. rewrite U, <- Hu2 in Hun. destruct (a_unblocked a2); [|done].
    destruct He2 as [Hw|[? _]]; [|done]. split; [congruence|]. by rewrite U2.
Qed.

Definition msg_q_codes : list Z :=
  [eMSG_Q_SUCCESS; eMSG_Q_FAILURE_GENERAL; eMSG_Q_INVALID_PARAMETER; eMSG_Q_INVALID_HANDLE;
   eMSG_Q_UNAVAILABLE_RESOURCE; eMSG_Q_INSUFFICIENT_BUFFER].

(** [msg_q_rmv] leaves its own error codes: on an empty queue it returns
    [eLINKED_LIST_EMPTY] (-6), which is no [msq_q_err_type]; every other result of
    the queue's functions is one of the six codes of [msg_q.h]. *)
Theorem msg_q_error_codes (q : msg_q S) (ms : list (Z * Z)) (h o : bool) (m d : Z) (k : nat) (t : tid) :
  ll_rep ms (msg_list q) ->
  wp (msg_q_snd h m d k) (fun rv _ => rv ∈ msg_q_codes) q /\
  wp (msg_q_rcv h o t) (fun r _ => match r with Waits => True | Returns rv _ => rv ∈ msg_q_codes end) q /\
  wp (msg_q_flush h) (fun rv _ => rv ∈ msg_q_codes) q /\
  wp (msg_q_unblock h) (fun rv _ => rv ∈ msg_q_codes) q /\
  wp (msg_q_rmv h o) (fun r _ =>
    if h && o && (unblocked q =? 0) && bool_decide (ms = []) then r = (-6, None) /\ (-6) ∉ msg_q_codes
    else r.1 ∈ msg_q_codes) q.
Proof.
  intros R.
  assert (Hc : forall e, convert_linked_list_err_type e ∈ msg_q_codes) by (intros []; by apply list_elem_of_In; vm_compute; tauto).
  assert (Hin : forall z, existsb (Z.eqb z) msg_q_codes = true -> z ∈ msg_q_codes).
  { intros z (x & Hx & ->%Z.eqb_eq)%existsb_exists. by apply list_elem_of_In. }
  assert (Hrm : forall ds (Q : linked_list_err_type * option Z -> msg_q S -> Prop) q1, ll_rep ds (msg_list q1) ->
    (forall e x q2, Q (e, x) q2) -> wp (on_list ll_remove) Q q1).
  { intros ds Q q1 R1 HQ. apply wp_on_list. destruct ds as [|[d1 f1] ds _] using rev_ind.
    - eapply ll_remove_nil; [exact R1|]. apply HQ.
    - eapply ll_remove_ok; [exact R1|]. intros. apply HQ. }
  split; [|split; [|split; [|split]]].
  - unfold msg_q_snd, pthread_cond_signal. destruct h; cbn [negb]; [|wp_step; by apply Hin].
    destruct (Z.eqb_spec m 0); [wp_step; by apply Hin|]. wp_step. wp_step.
    destruct (negb _); [wp_step; by apply Hin|]. wp_step. apply wp_on_list.
    eapply ll_add_ok; [exact R|done|..]; intros; wp_step; wp_step; wp_step; apply Hc.
  - unfold msg_q_rcv, rcv_loop. destruct h; cbn [negb]; [|wp_step; by apply Hin].
    destruct o; cbn [negb]; [|wp_step; by apply Hin]. wp_step. wp_step.
    destruct (negb _); [wp_step; by apply Hin|]. wp_step. apply wp_on_list. eapply ll_empty_ok; [exact R|].
    wp_step. wp_step. cbn [unblocked]. destruct (_ && _); [unfold pthread_cond_wait; wp_step; wp_step; by wp_step|].
    wp_step. eapply Hrm; [exact R|]. intros. wp_step. apply Hc.
  - unfold msg_q_flush. destruct h; cbn [negb]; [|wp_step; by apply Hin]. wp_step. apply wp_on_list.
    eapply ll_flush_ok; [exact R|]. intros. wp_step. apply Hc.
  - unfold msg_q_unblock, pthread_cond_broadcast. destruct h; cbn [negb]; [|wp_step; by apply Hin].
    wp_step. wp_step. destruct (negb _); [wp_step; by apply Hin|]. do 5 wp_step. by apply Hin.
  - unfold msg_q_rmv. destruct h; cbn [negb andb]; [|wp_step; by apply Hin].
    destruct o; cbn [negb andb]; [|wp_step; by apply Hin]. wp_step. wp_step.
    destruct (unblocked q =? 0); cbn [negb andb]; [|wp_step; by apply Hin]. wp_step. apply wp_on_list.
    eapply ll_empty_ok; [exact R|]. destruct ms as [|x ms].
    + cbn [negb Z.eqb]. wp_step. split; [done|]. intros Hn%list_elem_of_In. vm_compute in Hn. by intuition.
    + rewrite bool_decide_false by done. cbn [negb Z.eqb]. wp_step. eapply Hrm; [exact R|].
      intros. wp_step. apply Hc.
Qed.

(** Creating a queue cleans up after itself: whichever of its four steps fails,
    the call fails and nothing of the list remains; if all succeed the queue is
    empty, open and without waiting threads.  Destroying a queue deallocates
    exactly the messages still in it and leaves nothing of the list. *)
Theorem msg_q_life (s : S) (calloc_ok mutex_ok cond_ok : bool) :
  ll_absent s ->
  wp (msg_q_init true calloc_ok mutex_ok cond_ok) (fun '(rv, mk) s' => ll_freed s' = ll_freed s /\
    match mk with
    | None => rv = eMSG_Q_FAILURE_GENERAL /\ ll_absent s' /\
        (~ ll_memory \/ calloc_ok && mutex_ok && cond_ok = false)
    | Some mk => rv = eMSG_Q_SUCCESS /\ calloc_ok && mutex_ok && cond_ok = true /\ qrel (mk s') (a_init (ll_freed s')) /\
        forall q ms, ll_rep ms (msg_list q) ->
          wp (msg_q_destroy true) (fun rv q' => rv = eMSG_Q_SUCCESS /\ ll_absent (msg_list q') /\
            ll_freed (msg_list q') = ll_freed (msg_list q) ++ deallocs ms) q
    end) s.
Proof.
  intros Ha. unfold msg_q_init. cbn [negb].
  destruct calloc_ok; cbn [negb]; [|wp_step; split; [done|by split; [|split; [|right]]]].
  wp_step. eapply ll_init_ok; [exact Ha| |].
  2:{ intros s1 A1 F1 Hm. cbn [err_code negb Z.eqb]. wp_step. split; [done|]. split; [done|]. split; [done|by left]. }
  intros s1 R1 F1. cbn [err_code negb Z.eqb].
  assert (Hfail : forall b, b = false -> wp (_ ← ll_destroy; mret (eMSG_Q_FAILURE_GENERAL, None))
    (fun '(rv, mk) s' => ll_freed s' = ll_freed s /\ match mk : option (S -> msg_q S) with
      | None => rv = eMSG_Q_FAILURE_GENERAL /\ ll_absent s' /\ (~ ll_memory \/ b = false)
      | Some _ => False end) s1).
  { intros b Hb. wp_step. eapply ll_destroy_ok; [exact R1|]. intros s2 A2 F2. wp_step.
    split; [by rewrite F2, F1; apply app_nil_r|]. split; [done|]. split; [done|by right]. }
  destruct mutex_ok; cbn [negb andb].
  2:{ eapply wp_conseq; [by apply (Hfail false)|]. intros [rv [mk|]] s2; [by intros [_ []]|done]. }
  destruct cond_ok; cbn [negb].
  2:{ eapply wp_conseq; [by apply (Hfail false)|]. intros [rv [mk|]] s2; [by intros [_ []]|done]. }
  wp_step. split; [done|]. split; [done|]. split; [done|]. split; [split; [exact R1|done]|].
  intros q ms R. unfold msg_q_destroy. cbn [negb]. wp_step. apply wp_on_list.
  eapply ll_destroy_ok; [exact R|]. intros s2 A2 F2. wp_step. wp_step. by wp_step.
Qed.
End queue.

(** ** The queue over the linked list *)
Abbreviation all_memory := (fun _ : nat => true).
#[local] Existing Instance linked_list_ops.
Definition demo_list : Store := MkStore ∅ {[ 0%nat := ListState None None ]} 1 [].
Definition demo_q : msg_q (Store * option loc) := MsgQ (demo_list, Some 0%nat) [] [] 0.
Definition demo_laws : ListLaws (H := linked_list_ops all_memory) (Store * option loc) :=
  linked_list_laws all_memory ∅ ∅.

Lemma demo_rel : qrel (LL := demo_laws) demo_q (a_init []).
Proof.
  split; [|done]. exists 0%nat, []. split; [done|]. split; [done|]. constructor; simpl; try done.
  - constructor.
  - constructor.
  - intros l Hl. by apply elem_of_nil in Hl.
Defined.

(** Threads 1 and 2 wait; two messages arrive; 1 is woken twice over by signals. *)
Definition demo_events : list event :=
  [Rcv 1; Rcv 2; Snd 10 0 0; Snd 20 7 0; Rmv; Snd 30 7 0].
Definition demo_after : list outcome * msg_q (Store * option loc) :=
  match do_events (H := linked_list_ops all_memory) demo_events demo_q with
  | Some x => x | None => ([], demo_q) end.

Lemma msg_q_fifo_witness :
  exists ms, replay [Nothing; Nothing; Sent 10; Sent 20; Took 10; Sent 30] [] = Some ms.*1 /\
    list_rep ∅ ∅ (reverse ms) (msg_list demo_after.2).
Proof.
  apply (msg_q_fifo (LL := demo_laws) demo_q demo_events _ _ demo_rel). vm_compute. reflexivity.
Defined.

Lemma msg_q_no_lost_wakeup_witness :
  wp (do_events (H := linked_list_ops all_memory) (Resume <$> [1; 2]%nat)) (fun os' q2 => length os' = 2%nat /\ woken q2 = [])
    demo_after.2.
Proof.
  pose proof (msg_q_no_lost_wakeup (LL := demo_laws) demo_q demo_events demo_after.1 demo_after.2 demo_rel
    ltac:(vm_compute; reflexivity)) as H.
  eapply wp_conseq; [exact H|]. by intros os q2 (Hl & Hw & _).
Defined.

Lemma msg_q_error_codes_witness :
  wp (msg_q_rmv (H := linked_list_ops all_memory) true true) (fun r _ => r = (-6, None)) demo_q.
Proof.
  pose proof (msg_q_error_codes (LL := demo_laws) demo_q [] true true 0 0 0 0 (proj1 demo_rel)) as (_ & _ & _ & _ & H).
  eapply wp_conseq; [exact H|]. by intros r q' [Hr _].
Defined.

(** [pthread_cond_init] fails: the list is destroyed again. *)
Lemma msg_q_life_witness :
  wp (msg_q_init (H := linked_list_ops all_memory) true true true false)
    (fun '(rv, mk) s' => lists s'.1 = ∅ /\ match mk with None => rv = -1 | Some _ => False end) (MkStore ∅ ∅ 0 [], None).
Proof.
  eapply wp_conseq; [apply (msg_q_life (LL := demo_laws) (MkStore ∅ ∅ 0 [], None) true true false)|].
  - split; [done|]. split; [done|]. intros l _. split; apply lookup_empty.
  - intros [rv [mk|]] s' [_ H]; [by destruct H as (_ & Hf & _)|]. by destruct H as (-> & (_ & ? & _) & _).
Defined.
