(* ===== verification/MsgTask.v ===== *)
(** * The message task ([src/gps/utils/MsgTask.cpp], [LocThread.cpp])

    A thread that receives messages and processes them one by one, until its task
    is destroyed; over the message queue.  Processing a message is opaque; a
    message that has been processed is deleted. *)
From S2P Require Import Prelude LinkedList ListIface LinkedListSpec LinkedListProps MsgQ MsgQProps.

(** The deallocation function [LocMsgDestroy]. *)
Definition LocMsgDestroy : Z := 1.

(** The thread: between two calls of [MTRunnable::run], inside of [msg_q_rcv]
    waiting, or finished with its runnable destroyed. *)
Inductive thread_state := Looping | InReceive | Finished.

Record task (S : Type) := Task {
  t_queue : msg_q S;
  t_thread : thread_state;
  t_processed : list Z;         (** messages processed and deleted by [run], oldest first *)
}.
Arguments Task {S}. Arguments t_queue {S}. Arguments t_thread {S}. Arguments t_processed {S}.

Section task.
Context {S : Type} `{ListOps S}.

Abbreviation M := (CM (task S)).

Definition on_queue {A} (m : CM (msg_q S) A) : M A := fun t =>
  match m (t_queue t) with
  | Some (a, q) => Some (a, Task q (t_thread t) (t_processed t))
  | None => None
  end.
Definition set_thread (s : thread_state) : M unit := modify (fun t => Task (t_queue t) s (t_processed t)).

(** The one thread of the task. *)
Definition the_thread : tid := 0%nat.

(** [MsgTask::MsgTask]: [msg_q_init2] and the start of the thread. *)
Definition MsgTask_new (calloc_ok mutex_ok cond_ok : bool) : CM S (option (S -> task S)) :=
  q ← msg_q_init2 calloc_ok mutex_ok cond_ok;
  mret (match q with None => None | Some mk => Some (fun s => Task (mk s) Looping []) end).

(** [sendMsg]: the result of [msg_q_snd] is ignored. *)
Definition sendMsg (msg : Z) (k : nat) : M unit :=
  t ← get;
  match t_thread t with
  | Finished => undef             (* the queue has been destroyed *)
  | _ => if msg =? 0 then mret tt else
         _ ← on_queue (msg_q_snd true msg LocMsgDestroy k); mret tt
  end.

(** [~MTRunnable], when the thread has left its loop. *)
Definition MTRunnable_destroy : M unit :=
  _ ← on_queue (msg_q_flush true);
  _ ← on_queue (msg_q_destroy true);
  set_thread Finished.

(** The rest of [MTRunnable::run] after [msg_q_rcv], and what the loop
    [while (runnable->run());] does with its result. *)
Definition run_message (r : rcv_result) : M unit :=
  match r with
  | Waits => set_thread InReceive
  | Returns rv msg =>
      if negb (rv =? eMSG_Q_SUCCESS) then MTRunnable_destroy else
      msg ← deref msg;
      modify (fun t => Task (t_queue t) Looping (t_processed t ++ [msg]))
  end.

(** The next step of the thread: a call of [run], or the end of the wait if the
    thread has been woken. *)
Definition thread_step : M unit :=
  t ← get;
  match t_thread t with
  | Looping => r ← on_queue (msg_q_rcv true true the_thread); run_message r
  | InReceive =>
      match take_thread the_thread (woken (t_queue t)) with
      | None => mret tt
      | Some w =>
          _ ← on_queue (modify (fun q => MsgQ (msg_list q) (waiting q) w (unblocked q)));
          r ← on_queue (rcv_loop the_thread); run_message r
      end
  | Finished => mret tt
  end.

(** [~MsgTask], through [~LocThreadDelegate]: [MTRunnable::interrupt] if the
    runnable still exists. *)
Definition stop : M unit :=
  t ← get;
  match t_thread t with
  | Finished => mret tt
  | _ => _ ← on_queue (msg_q_unblock true); mret tt
  end.

(** A spurious wakeup of the thread. *)
Definition spurious : M unit :=
  t ← get;
  match take_thread the_thread (waiting (t_queue t)) with
  | None => mret tt
  | Some w => on_queue (modify (fun q => MsgQ (msg_list q) w (woken q ++ [the_thread]) (unblocked q)))
  end.

Inductive tevent := Send (msg : Z) (k : nat) | ThreadStep | Spurious.
Definition do_tevent (e : tevent) : M unit :=
  match e with Send m k => sendMsg m k | ThreadStep => thread_step | Spurious => spurious end.
End task.

Fixpoint do_tevents {S} `{ListOps S} (es : list tevent) : CM (task S) unit :=
  match es with [] => mret tt | e :: es => _ ← do_tevent e; do_tevents es end.

(** The messages given to the task. *)
Definition sends (es : list tevent) : list Z :=
  e ← es; match e with Send m _ => if m =? 0 then [] else [m] | _ => [] end.

Section proofs.
Context {S : Type} `{LL : ListLaws S}.

Lemma wp_on_queue {A} (m : CM (msg_q S) A) t (Q : A -> task S -> Prop) :
  wp m (fun a q => Q a (Task q (t_thread t) (t_processed t))) (t_queue t) -> wp (on_queue m) Q t.
Proof. unfold wp, on_queue. by destruct (m (t_queue t)) as [[a q]|]. Qed.

(** The invariant of a task whose thread has not finished: [out] are the messages
    accepted so far. *)
Definition alive (fr : list (Z * Z)) (out : list Z) (unb : bool) (t : task S) : Prop :=
  exists ms w v, qrel (t_queue t) (AQueue ms w v unb fr) /\ out = t_processed t ++ ms.*1 /\
    Forall (fun x => x.2 = LocMsgDestroy) ms /\
    match t_thread t with
    | Looping => w = [] /\ v = []
    | InReceive => w = [the_thread] /\ v = [] /\ ms = [] /\ unb = false \/ w = [] /\ v = [the_thread]
    | Finished => False
    end.

(** After the end: the queue is gone, and the messages that were not processed have
    been deleted, the newest first. *)
Definition finished (fr : list (Z * Z)) (out : list Z) (t : task S) : Prop :=
  t_thread t = Finished /\ ll_absent (msg_list (t_queue t)) /\
  exists rest, out = t_processed t ++ rest /\
    ll_freed (msg_list (t_queue t)) = fr ++ ((fun m => (LocMsgDestroy, m)) <$> reverse rest).

Lemma deallocs_all ms : Forall (fun x => x.2 = LocMsgDestroy) ms ->
  deallocs (reverse ms) = (fun m => (LocMsgDestroy, m)) <$> reverse ms.*1.
Proof.
  intros Hms. rewrite <- fmap_reverse. apply Forall_reverse in Hms. revert Hms. unfold deallocs.
  induction 1 as [|[m d] l Hd _ IH]; [done|]. simpl in Hd. subst d.
  rewrite filter_cons_True by done. csimpl. by rewrite IH.
Qed.

Lemma wp_sendMsg fr out m k t :
  ll_memory -> alive fr out false t ->
  wp (sendMsg m k) (fun _ => alive fr (out ++ (if m =? 0 then [] else [m])) false) t.
Proof.
  intros Hmem (ms & w & v & Hq & -> & Hms & Ht). unfold sendMsg. wp_step. wp_step.
  assert (Hsend : wp (if m =? 0 then mret tt else _ ← on_queue (msg_q_snd true m LocMsgDestroy k); mret tt)
    (fun _ => alive fr ((t_processed t ++ ms.*1) ++ (if m =? 0 then [] else [m])) false) t).
  { destruct (Z.eqb_spec m 0) as [->|Hm].
    { wp_step. rewrite app_nil_r. by exists ms, w, v. }
    wp_step. apply wp_on_queue. eapply wp_msg_q_snd; [exact Hq|]. intros rv q' a' Hs Hq'. wp_step.
    assert (Ha : a' = wake k (AQueue (ms ++ [(m, LocMsgDestroy)]) w v false fr)).
    { inversion Hs; subst; try done. }
    subst a'. clear Hs. unfold wake in Hq'. simpl in Hq'.
    assert (Hms' : Forall (fun x : Z * Z => x.2 = LocMsgDestroy) (ms ++ [(m, LocMsgDestroy)])).
    { apply Forall_app. split; [done|]. by constructor. }
    assert (Hout : (t_processed t ++ ms.*1) ++ [m] = t_processed t ++ (ms ++ [(m, LocMsgDestroy)]).*1)
      by by rewrite fmap_app, app_assoc.
    destruct (t_thread t) eqn:Et; [| |done].
    - destruct Ht as [-> ->]. rewrite lookup_nil in Hq'. exists (ms ++ [(m, LocMsgDestroy)]), [], [].
      done.
    - destruct Ht as [(-> & -> & -> & _)|[-> ->]].
      + rewrite Nat.mod_1_r in Hq'. simpl in Hq'. exists [(m, LocMsgDestroy)], [], [the_thread].
        split; [done|]. split; [done|]. split; [done|]. by right.
      + rewrite lookup_nil in Hq'. exists (ms ++ [(m, LocMsgDestroy)]), [], [the_thread].
        split; [done|]. split; [done|]. split; [done|]. by right. }
  destruct (t_thread t); done.
Qed.

Lemma wp_spurious fr out unb t : alive fr out unb t -> wp spurious (fun _ => alive fr out unb) t.
Proof.
  intros (ms & w & v & Hq & -> & Hms & Ht). unfold spurious. wp_step. wp_step.
  pose proof Hq as (R & W & V & U & F). simpl in W, V. rewrite W.
  destruct (take_thread the_thread w) as [w'|] eqn:Et; [|wp_step; by exists ms, w, v].
  apply wp_on_queue. wp_step. destruct (t_thread t) eqn:Eth; [| |done].
  - by destruct Ht as [-> _].
  - destruct Ht as [(-> & -> & -> & _)|[-> _]]; [|done]. injection Et as <-.
    exists [], [], [the_thread]. split; [|split; [done|split; [done|by right]]].
    split; [done|]. simpl. by rewrite V.
Qed.

(** The end of the thread. *)
Lemma wp_MTRunnable_destroy fr out unb t ms w v :
  qrel (t_queue t) (AQueue ms w v unb fr) -> out = t_processed t ++ ms.*1 ->
  Forall (fun x => x.2 = LocMsgDestroy) ms ->
  wp MTRunnable_destroy (fun _ => finished fr out) t.
Proof.
  intros (R & W & V & U & F) -> Hms. unfold MTRunnable_destroy. wp_step. apply wp_on_queue.
  unfold msg_q_flush. cbn [negb]. wp_step. apply wp_on_list. eapply ll_flush_ok; [exact R|].
  intros s1 R1 F1. wp_step. wp_step. apply wp_on_queue. unfold msg_q_destroy. cbn [negb]. wp_step. apply wp_on_list.
  eapply ll_destroy_ok; [exact R1|]. intros s2 A2 F2. wp_step. wp_step. wp_step. unfold set_thread. wp_step.
  split; [done|]. split; [done|]. exists ms.*1. split; [done|]. simpl in *.
  rewrite F2, F1, F, app_nil_r. by rewrite deallocs_all.
Qed.

(** The result of a receive. *)
Lemma wp_run_message fr out unb t r ms a' :
  out = t_processed t ++ ms.*1 -> Forall (fun x => x.2 = LocMsgDestroy) ms ->
  areceive the_thread (AQueue ms [] [] unb fr) (of_rcv r) a' -> qrel (t_queue t) a' ->
  wp (run_message r) (fun _ t' =>
    if unb && bool_decide (ms = []) then finished fr out t'
    else alive fr out unb t' /\ (ms <> [] -> t_processed t' = t_processed t ++ take 1 ms.*1 /\ t_thread t' = Looping)) t.
Proof.
  intros -> Hms Hr Hq. inversion Hr as [m d l Hm Ho Ha|Hm Hu Ho Ha|Hm Hu Ho Ha]; subst a'; simpl in Hm.
  - subst ms. destruct r as [|rv [m'|]]; try done. simpl in Ho. destruct (rv =? eMSG_Q_SUCCESS) eqn:Erv; [|done].
    injection Ho as ->. unfold run_message. rewrite Erv. cbn [negb]. wp_step. eapply wp_deref; [done|]. wp_step.
    rewrite bool_decide_false, andb_false_r by done. split; [|done]. apply Forall_cons in Hms as [_ Hms].
    exists l, [], []. simpl. split; [done|]. split; [by rewrite <- app_assoc|]. done.
  - simpl in Hu. subst ms unb. destruct r as [|rv [m'|]]; simpl in Ho; [| |done].
    2:{ by destruct (rv =? _). }
    unfold run_message, set_thread. wp_step. simpl. split; [|done]. exists [], [the_thread], []. simpl.
    split; [done|]. split; [done|]. split; [done|]. by left.
  - simpl in Hu. subst ms unb. simpl. destruct r as [|rv o]; [done|].
    assert (Erv : (rv =? eMSG_Q_SUCCESS) = false).
    { destruct o as [m|]; simpl in Ho; [by destruct (rv =? eMSG_Q_SUCCESS)|]. by injection Ho as <-. }
    unfold run_message. rewrite Erv. cbn [negb]. by eapply wp_MTRunnable_destroy.
Qed.

(** A step of the thread. *)
Lemma wp_thread_step fr out unb t :
  alive fr out unb t ->
  wp thread_step (fun _ t' =>
    (finished fr out t' /\ unb = true \/
     alive fr out unb t' /\ (t_thread t = InReceive -> unb = true -> t_thread t' = Looping)) /\
    (t_thread t = Looping -> unb = true -> finished fr out t') /\
    (unb = false -> t_processed t <> out ->
       exists m, out !! length (t_processed t) = Some m /\ t_processed t' = t_processed t ++ [m])) t.
Proof.
  intros (ms & w & v & Hq & Hout & Hms & Ht). unfold thread_step. wp_step. wp_step.
  assert (Hnext : forall t1 r a', t_processed t1 = t_processed t -> areceive the_thread (AQueue ms [] [] unb fr) (of_rcv r) a' ->
    qrel (t_queue t1) a' -> (unb = true -> t_thread t = InReceive) ->
    wp (run_message r) (fun _ t' =>
      (finished fr out t' /\ unb = true \/
       alive fr out unb t' /\ (t_thread t = InReceive -> unb = true -> t_thread t' = Looping)) /\
      (t_thread t = Looping -> unb = true -> finished fr out t') /\
      (unb = false -> t_processed t <> out ->
         exists m, out !! length (t_processed t) = Some m /\ t_processed t' = t_processed t ++ [m])) t1).
  { intros t1 r a' Hp Hr Hq1 Hin. eapply wp_conseq; [eapply wp_run_message; [|exact Hms|exact Hr|exact Hq1]; by rewrite Hp|].
    intros ? t2 Hpost. cbv beta. destruct ms as [|[m d] ms].
    - destruct unb; simpl in Hpost.
      + split; [by left|]. split; [done|]. done.
      + destruct Hpost as [Ha _]. split; [right; by split|]. split; [done|].
        intros _ Hne. destruct Hne. by rewrite Hout, app_nil_r.
    - rewrite bool_decide_false, andb_false_r in Hpost by done. destruct Hpost as [Ha Hm].
      destruct (Hm ltac:(done)) as [Hpr Hth]. split; [right; by split|].
      split; [intros Hl Hu; rewrite (Hin Hu) in Hl; done|]. intros _ _. exists m.
      split; [rewrite Hout; csimpl; by rewrite lookup_app_r, Nat.sub_diag by done|]. rewrite Hpr, Hp. done. }
  destruct (t_thread t) eqn:Et; [| |done].
  - destruct Ht as [-> ->]. wp_step. apply wp_on_queue. unfold msg_q_rcv. cbn [negb]. wp_step. wp_step.
    rewrite (qrel_unblocked _ _ Hq). simpl a_unblocked. destruct unb.
    + wp_step. unfold run_message.
      change (negb (eMSG_Q_UNAVAILABLE_RESOURCE =? eMSG_Q_SUCCESS)) with true. cbv iota.
      eapply wp_conseq; [eapply wp_MTRunnable_destroy; [exact Hq|exact Hout|exact Hms]|].
      intros ? t2 Hf. cbv beta. split; [by left|]. split; [done|]. done.
    + eapply wp_rcv_loop; [exact Hq|]. intros r q' a' Hr Hq'. by eapply Hnext; [|exact Hr|exact Hq'|].
  - pose proof Hq as (R & W & V & U & F). simpl in V. rewrite V.
    destruct Ht as [(-> & -> & -> & ->)|[-> ->]].
    + simpl. wp_step. split; [right; split; [|done]|].
      * exists [], [the_thread], []. rewrite Et. split; [done|]. split; [done|]. split; [done|]. by left.
      * split; [done|]. intros _ Hne. destruct Hne. by rewrite Hout, app_nil_r.
    + change (take_thread the_thread [the_thread]) with (Some (@nil tid)). cbv iota. wp_step. apply wp_on_queue. wp_step.
      wp_step. apply wp_on_queue. eapply (wp_rcv_loop the_thread _ (AQueue ms [] [] unb fr)); [by split|].
      intros r q' a' Hr Hq'. by eapply Hnext; [|exact Hr|exact Hq'|].
Qed.

Lemma wp_MsgTask_new s :
  ll_memory -> ll_absent s ->
  wp (MsgTask_new true true true) (fun new s' => exists mk, new = Some mk /\ alive (ll_freed s) [] false (mk s')) s.
Proof.
  intros Hmem Ha. unfold MsgTask_new, msg_q_init2, msg_q_init. cbn [negb]. do 3 wp_step.
  eapply ll_init_ok; [exact Ha| |by intros ? _ _ []]. intros s' R F. cbn [err_code negb Z.eqb]. wp_step.
  change (eMSG_Q_SUCCESS =? eMSG_Q_SUCCESS) with true. cbv iota. do 2 wp_step. eexists. split; [done|]. exists [], [], []. split; [|done]. split; [exact R|done].
Qed.

Lemma wp_do_tevents fr out es t :
  ll_memory -> alive fr out false t -> wp (do_tevents es) (fun _ => alive fr (out ++ sends es) false) t.
Proof.
  intros Hmem. revert out t. induction es as [|e es IH]; intros out t Ha; cbn [do_tevents].
  - wp_step. by rewrite app_nil_r.
  - wp_step. destruct e as [m k| |]; cbn [do_tevent].
    + eapply wp_conseq; [by apply wp_sendMsg|]. intros ? t1 Ha1. cbv beta.
      eapply wp_conseq; [exact (IH _ _ Ha1)|]. intros ? t2. unfold sends. by rewrite bind_cons, app_assoc.
    + eapply wp_conseq; [by eapply wp_thread_step|]. intros ? t1 [[[_ Hf]|[Ha1 _]] _]; [done|]. by apply IH.
    + eapply wp_conseq; [by eapply wp_spurious|]. intros ? t1 Ha1. by apply IH.
Qed.

(** Without further messages, each step of the thread processes the oldest one. *)
Lemma wp_drain n fr out t :
  alive fr out false t -> length out = (length (t_processed t) + n)%nat ->
  wp (do_tevents (replicate n ThreadStep)) (fun _ t' => t_processed t' = out) t.
Proof.
  revert t. induction n as [|n IH]; intros t Ha Hl; cbn [replicate do_tevents].
  - wp_step. destruct Ha as (ms & w & v & _ & -> & _). rewrite length_app in Hl.
    destruct ms; [by rewrite app_nil_r|csimpl in Hl; lia].
  - wp_step. cbn [do_tevent]. eapply wp_conseq; [by eapply wp_thread_step|].
    intros ? t1 ([[_ Hf]|[Ha1 _]] & _ & Hstep); [done|]. cbv beta.
    destruct (Hstep eq_refl) as (m & _ & Hm); [intros He; rewrite He in Hl; lia|].
    apply IH; [done|]. rewrite Hm, length_app. simpl. lia.
Qed.

Lemma wp_stop fr out t : alive fr out false t -> wp stop (fun _ t' => alive fr out true t' /\ t_thread t' = t_thread t) t.
Proof.
  intros (ms & w & v & Hq & Hout & Hms & Ht). unfold stop. wp_step. wp_step.
  assert (Hw : wp (_ ← on_queue (msg_q_unblock true); mret tt) (fun _ t' => alive fr out true t' /\ t_thread t' = t_thread t) t).
  { wp_step. apply wp_on_queue. unfold msg_q_unblock, pthread_cond_broadcast. cbn [negb]. wp_step. wp_step.
    rewrite (qrel_unblocked _ _ Hq). simpl a_unblocked. cbv iota. do 6 wp_step.
    destruct Hq as (R & W & V & U & F). simpl in R, W, V, F. split; [|done].
    exists ms, [], (v ++ w). simpl. split.
    - split; [done|]. simpl. split; [done|]. split; [by rewrite V, W|]. done.
    - split; [done|]. split; [done|]. destruct (t_thread t); [by destruct Ht as [-> ->]| |done].
      destruct Ht as [(-> & -> & _)|[-> ->]]; by right. }
  destruct (t_thread t); done.
Qed.

(** A message task processes the messages in the order they were sent, each one
    once, and never stops while it is alive: after any interleaving of sends, thread
    steps and spurious wake-ups, the messages processed so far are a prefix of
    those sent, and as many thread steps as there are messages left process them
    all. *)
Theorem task_in_order (s : S) (es : list tevent) :
  ll_memory -> ll_absent s ->
  wp (MsgTask_new true true true) (fun new s' => exists mk, new = Some mk /\
    wp (do_tevents es) (fun _ t => t_thread t <> Finished /\ exists left, sends es = t_processed t ++ left /\
      wp (do_tevents (replicate (length left) ThreadStep)) (fun _ t' => t_processed t' = sends es) t) (mk s')) s.
Proof.
  intros Hmem Ha. eapply wp_conseq; [by apply wp_MsgTask_new|]. intros new s' (mk & -> & Hal). exists mk. split; [done|].
  eapply wp_conseq; [by eapply wp_do_tevents|]. intros ? t Ht. cbv beta in *. simpl in Ht.
  split; [intros Hf; destruct Ht as (ms & w & v & _ & _ & _ & Ht); by rewrite Hf in Ht|].
  pose proof Ht as (ms & w & v & _ & Hout & _). exists ms.*1. split; [done|].
  eapply wp_drain; [exact Ht|]. by rewrite Hout, length_app.
Qed.

(** C19. Destroying a task ends it: after the interrupt, two steps of the thread
    finish it, whatever it was doing; the list of its queue is gone, and every
    message that was sent has either been processed, in order, and deleted, or is
    deleted unprocessed, exactly once (the newest first). *)
Theorem task_stops (s : S) (es : list tevent) :
  ll_memory -> ll_absent s ->
  wp (MsgTask_new true true true) (fun new s' => exists mk, new = Some mk /\
    wp (_ ← do_tevents es; _ ← stop; _ ← thread_step; thread_step) (fun _ t =>
      t_thread t = Finished /\ ll_absent (msg_list (t_queue t)) /\
      exists rest, sends es = t_processed t ++ rest /\
        ll_freed (msg_list (t_queue t)) = ll_freed s ++ ((fun m => (LocMsgDestroy, m)) <$> reverse rest)) (mk s')) s.
Proof.
  intros Hmem Ha. eapply wp_conseq; [by apply wp_MsgTask_new|]. intros new s' (mk & -> & Hal). exists mk. split; [done|].
  wp_step. eapply wp_conseq; [by eapply wp_do_tevents|]. intros ? t Ht. cbv beta. simpl in Ht.
  wp_step. eapply wp_conseq; [by eapply wp_stop|]. intros ? t1 [Ht1 _]. cbv beta.
  wp_step. eapply wp_conseq; [by eapply wp_thread_step|]. intros ? t2 (Ht2 & Hl2 & _). cbv beta.
  destruct Ht2 as [[Hf _]|[Ha2 Hr]].
  - unfold thread_step. wp_step. wp_step. pose proof Hf as (E & _). rewrite E. by wp_step.
  - assert (Hlp : t_thread t2 = Looping).
    { destruct (t_thread t1) eqn:E1; [|by apply Hr|].
      - specialize (Hl2 eq_refl eq_refl). destruct Hl2 as (Hfin & _). destruct Ha2 as (? & ? & ? & _ & _ & _ & Hx).
        by rewrite Hfin in Hx.
      - destruct Ht1 as (? & ? & ? & _ & _ & _ & Hx). by rewrite E1 in Hx. }
    eapply wp_conseq; [by eapply wp_thread_step|]. intros ? t3 (_ & Hl3 & _). by apply Hl3.
Qed.
End proofs.

(** ** Concrete tasks over the linked list *)
Definition list_start : Store * option loc := (MkStore ∅ ∅ 0 [], None).
Definition full_ops : ListOps (Store * option loc) := linked_list_ops (fun _ => true).
Definition full_laws : ListLaws (H := full_ops) (Store * option loc) := linked_list_laws (fun _ => true) ∅ ∅.

Lemma start_absent : ll_absent (ListLaws := full_laws) list_start.
Proof. split; [done|]. split; [done|]. intros l _. split; apply lookup_empty. Defined.

Lemma task_in_order_witness :
  wp (MsgTask_new (H := full_ops) true true true) (fun new s' => exists mk, new = Some mk /\
    wp (do_tevents (H := full_ops) [ThreadStep; Send 5 0; Send 6 0; ThreadStep]) (fun _ t =>
      exists left, [5; 6] = t_processed t ++ left) (mk s')) list_start.
Proof.
  eapply wp_conseq; [apply (task_in_order (LL := full_laws) list_start [ThreadStep; Send 5 0; Send 6 0; ThreadStep]);
    [done|exact start_absent]|].
  intros new s' (mk & E & H). exists mk. split; [exact E|]. eapply wp_conseq; [exact H|].
  intros ? t (_ & left & Hs & _). by exists left.
Defined.

Lemma task_stops_witness :
  wp (MsgTask_new (H := full_ops) true true true) (fun new s' => exists mk, new = Some mk /\
    wp (_ ← do_tevents (H := full_ops) [ThreadStep; Send 5 0; Send 6 0]; _ ← stop; _ ← thread_step (H := full_ops); thread_step (H := full_ops))
      (fun _ t => t_thread t = Finished /\ lists (msg_list (t_queue t)).1 = ∅) (mk s')) list_start.
Proof.
  eapply wp_conseq; [apply (task_stops (LL := full_laws) list_start [ThreadStep; Send 5 0; Send 6 0]);
    [done|exact start_absent]|].
  intros new s' (mk & E & H). exists mk. split; [exact E|]. eapply wp_conseq; [exact H|].
  intros ? t (Hf & (_ & Hl & _) & _). done.
Defined.

(** [sendMsg] leaks a message that the queue refuses: when the list element
    cannot be allocated, or after the interrupt, the result of [msg_q_snd] is
    ignored and the message is neither processed nor deleted, not even when the
    task ends. *)
Theorem sendMsg_leaks :
  (let ops := linked_list_ops (fun n => Nat.eqb n 0) in
   exists mk s', MsgTask_new (H := ops) true true true list_start = Some (Some mk, s') /\
   exists t, (_ ← sendMsg (H := ops) 42 0; _ ← stop; thread_step (H := ops)) (mk s') = Some (tt, t) /\
     t_thread t = Finished /\ t_processed t = [] /\ ll_freed (ListOps := ops) (msg_list (t_queue t)) = []) /\
  (exists mk s', MsgTask_new (H := full_ops) true true true list_start = Some (Some mk, s') /\
   exists t, (_ ← stop; _ ← sendMsg (H := full_ops) 42 0; thread_step (H := full_ops)) (mk s') = Some (tt, t) /\
     t_thread t = Finished /\ t_processed t = [] /\ ll_freed (ListOps := full_ops) (msg_list (t_queue t)) = []).
Proof.
  split; (eexists; eexists; split; [vm_compute; reflexivity|]; eexists; split; [vm_compute; reflexivity|]; by vm_compute).
Qed.
