(* ===== verification/LocHeap.v ===== *)
(** * The heap ([src/gps/utils/LocHeap.cpp])

    A binary tree of nodes, each with a pointer to the client's data, sorted from
    parent to child by the client's [ranks].  The nodes keep their places; pushing
    and popping moves the data.  Nodes have addresses, so that what is allocated
    and deleted is part of the model; the data is any type with equality (the
    addresses of the client's objects). *)
From S2P Require Import Prelude.

(** An [int] the program computes: overflow is undefined. *)
Definition int (z : Z) : option Z := if (-2 ^ 31 <=? z) && (z <? 2 ^ 31) then Some z else None.
Definition INT_MAX : Z := 2 ^ 31 - 1.

Lemma int_ok z : - 2 ^ 31 <= z < 2 ^ 31 -> int z = Some z.
Proof. intros Hz. unfold int. destruct (_ && _) eqn:E; [done|]. lia. Qed.

Section LocHeap.
Context {D : Type} `{EqDecision D} (ranks : D -> D -> Z).

Inductive LocHeapNode :=
  | NULL
  | Node (addr : nat) (mSize : Z) (mLeft mRight : LocHeapNode) (mData : D).

Definition outRanks (x y : D) : bool := 0 <? ranks x y.

Definition is_null (t : LocHeapNode) : bool := match t with NULL => true | _ => false end.
(** Reading through a pointer to a node; undefined for NULL. *)
Definition mSize (t : LocHeapNode) : option Z := match t with NULL => None | Node _ n _ _ _ => Some n end.
Definition mData (t : LocHeapNode) : option D := match t with NULL => None | Node _ _ _ _ d => Some d end.

(** ** Nodes *)

(** [new LocHeapNode(data)] at address [a]. *)
Definition new_node (a : nat) (data : D) : LocHeapNode := Node a 1 NULL NULL data.

(** [~LocHeapNode]: the nodes deleted with a node, in order. *)
Fixpoint delete_nodes (t : LocHeapNode) : list nat :=
  match t with NULL => [] | Node a _ l r _ => delete_nodes l ++ delete_nodes r ++ [a] end.

(** [LocHeapNode::push]; [node] is the node at [a] with data [d]. *)
Fixpoint push_node (this : LocHeapNode) (a : nat) (d : D) : option LocHeapNode :=
  match this with
  | NULL => None
  | Node b n mLeft mRight d0 =>
      let (d0, d) := if outRanks d d0 then (d, d0) else (d0, d) in
      let node := new_node a d in
      if is_null mLeft then n ← int (n + 1); Some (Node b n node mRight d0) else
      if is_null mRight then n ← int (n + 1); Some (Node b n mLeft node d0) else
      nl ← mSize mLeft; nr ← mSize mRight;
      if nl <=? nr
      then mLeft ← push_node mLeft a d; n ← int (n + 1); Some (Node b n mLeft mRight d0)
      else mRight ← push_node mRight a d; n ← int (n + 1); Some (Node b n mLeft mRight d0)
  end.

(** [LocHeapNode::pop] of [top] after a swap has given it the data [d]: the new
    [top] and the node popped. *)
Fixpoint pop_swapped (top : LocHeapNode) (d : D) : option (LocHeapNode * LocHeapNode) :=
  match top with
  | NULL => None
  | Node b n mLeft mRight _ =>
      n ← int (n - 1);
      match mLeft, mRight with
      | NULL, NULL => Some (NULL, Node b n NULL NULL d)
      | NULL, Node _ _ _ _ dr => '(r, popped) ← pop_swapped mRight d; Some (Node b n mLeft r dr, popped)
      | Node _ _ _ _ dl, NULL => '(l, popped) ← pop_swapped mLeft d; Some (Node b n l mRight dl, popped)
      | Node _ _ _ _ dl, Node _ _ _ _ dr =>
          if outRanks dl dr
          then '(l, popped) ← pop_swapped mLeft d; Some (Node b n l mRight dl, popped)
          else '(r, popped) ← pop_swapped mRight d; Some (Node b n mLeft r dr, popped)
      end
  end.
Definition pop_node (top : LocHeapNode) : option (LocHeapNode * LocHeapNode) :=
  d ← mData top; pop_swapped top d.

(** [LocHeapNode::remove]: the new [top], and the node removed if any. *)
Fixpoint remove_node (top : LocHeapNode) (data : D) : option (LocHeapNode * option LocHeapNode) :=
  match top with
  | NULL => None
  | Node b n mLeft mRight d =>
      if decide (data = d) then '(t, popped) ← pop_node top; Some (t, Some popped) else
      if outRanks data d then Some (top, None) else
      '(l, removed) ← (if is_null mLeft then Some (mLeft, None) else remove_node mLeft data);
      '(r, removed) ← (match removed with
                       | None => if is_null mRight then Some (mRight, None) else remove_node mRight data
                       | Some _ => Some (mRight, removed)
                       end);
      n ← match removed with Some _ => int (n - 1) | None => Some n end;
      Some (Node b n l r d, removed)
  end.

(** [LocHeapNode::checkNodes] *)
Fixpoint checkNodes (t : LocHeapNode) : bool :=
  match t with
  | NULL => false
  | Node _ n l r d =>
      let check (c : LocHeapNode) (ok : bool) :=
        match c with NULL => true | Node _ _ _ _ dc => negb (outRanks dc d) && ok end in
      check l (checkNodes l) && check r (checkNodes r) &&
      (n - default 0 (mSize l) - default 0 (mSize r) =? 1)
  end.

(** ** The heap; with the count of nodes allocated and the nodes deleted so far. *)
Record Heap := MkHeap { mTree : LocHeapNode; made : nat; deleted : list nat }.
Definition LocHeap_new : Heap := MkHeap NULL 0 [].

Definition push (node : D) : CM Heap unit :=
  h ← get;
  let a := made h in
  mTree ← (if is_null (mTree h) then mret (new_node a node) else deref (push_node (mTree h) a node));
  modify (fun h => MkHeap mTree (S a) (deleted h)).

Definition peek : CM Heap (option D) := h ← get; mret (mData (mTree h)).

(** [detachData] of the node popped and its deletion. *)
Definition detach_delete (mTree node : LocHeapNode) : CM Heap (option D) :=
  _ ← modify (fun h => MkHeap mTree (made h) (deleted h ++ delete_nodes node));
  mret (mData node).

Definition pop : CM Heap (option D) :=
  h ← get;
  if is_null (mTree h) then mret None else
  '(t, heapNode) ← deref (pop_node (mTree h));
  detach_delete t heapNode.

Definition remove (rankable : D) : CM Heap (option D) :=
  h ← get;
  if is_null (mTree h) then mret None else
  '(t, heapNode) ← deref (remove_node (mTree h) rankable);
  match heapNode with
  | Some heapNode => detach_delete t heapNode
  | None => _ ← modify (fun h => MkHeap t (made h) (deleted h)); mret None
  end.

(** [~LocHeap] *)
Definition LocHeap_delete : CM Heap unit :=
  modify (fun h => MkHeap NULL (made h) (deleted h ++ delete_nodes (mTree h))).

Definition checkTree (h : Heap) : bool := is_null (mTree h) || checkNodes (mTree h).
Definition getTreeSize (h : Heap) : Z := default 0 (mSize (mTree h)).
End LocHeap.
Arguments LocHeapNode : clear implicits. Arguments Heap : clear implicits.
