(* ===== verification/LocHeapProps.v ===== *)
(** * The heap as a priority queue

    The operations of [LocHeap] on the bag of data they keep, the nodes they
    allocate and delete, and the depth of a heap that is only pushed to. *)
From S2P Require Import Prelude LocHeap.


(** ** The heap's invariant and the laws of its operations

    Over any ranking that is a strict weak order on the data in the heap.  The
    invariant [heap_ok] is what the code's own [checkNodes] tests. *)

Section tree.
Context {D : Type} `{EqDecision D} (ranks : D -> D -> Z).

Abbreviation tree := (LocHeapNode D).
Abbreviation outRanks := (outRanks ranks).

(** The data, and the addresses of the nodes. *)
Fixpoint elements (t : tree) : list D :=
  match t with NULL => [] | Node _ _ l r d => d :: elements l ++ elements r end.
Fixpoint addrs (t : tree) : list nat :=
  match t with NULL => [] | Node a _ l r _ => a :: addrs l ++ addrs r end.
Definition size (t : tree) : Z := Z.of_nat (length (elements t)).

(** No data of [t] outranks [d]. *)
Definition below (d : D) (t : tree) : Prop := Forall (fun x => outRanks x d = false) (elements t).

Fixpoint heap_ok (t : tree) : Prop :=
  match t with
  | NULL => True
  | Node _ n l r d => n = 1 + size l + size r /\ below d l /\ below d r /\ heap_ok l /\ heap_ok r
  end.

Lemma size_nonneg t : 0 <= size t.
Proof. unfold size. lia. Qed.
Lemma size_node a n l r d : size (Node a n l r d) = 1 + size l + size r.
Proof. unfold size. simpl. rewrite length_app. lia. Qed.
Lemma mSize_size t n : heap_ok t -> mSize t = Some n -> n = size t.
Proof. destruct t; [done|]. simpl. intros (-> & _) [= <-]. by rewrite size_node. Qed.
Lemma size_elements t t' : elements t ≡ₚ elements t' -> size t = size t'.
Proof. unfold size. by intros ->. Qed.
Lemma size_elements_cons t t' d : elements t' ≡ₚ d :: elements t -> size t' = 1 + size t.
Proof. unfold size. intros ->. simpl. lia. Qed.

Lemma addrs_delete t : delete_nodes t ≡ₚ addrs t.
Proof. induction t as [|a n l IHl r IHr d]; simpl; [done|]. rewrite IHl, IHr. solve_Permutation. Qed.
Lemma addrs_length t : length (addrs t) = length (elements t).
Proof. induction t as [|a n l IHl r IHr d]; simpl; [done|]. rewrite !length_app. lia. Qed.

Lemma new_node_ok a d : heap_ok (new_node a d).
Proof. repeat split; constructor. Qed.

(** ** The order: a strict weak order on the data satisfying [P]. *)
Class StrictWeak (P : D -> Prop) : Prop := {
  outRanks_asym x y : P x -> P y -> outRanks x y = true -> outRanks y x = false;
  outRanks_ntrans x y z : P x -> P y -> P z -> outRanks x y = false -> outRanks y z = false -> outRanks x z = false;
}.
Context (P : D -> Prop) `{!StrictWeak P}.
Abbreviation all t := (Forall P (elements t)).

Lemma below_weaken d d' t : P d -> P d' -> all t -> below d t -> outRanks d d' = false -> below d' t.
Proof.
  intros Hd Hd' Ht Hb Hdd. unfold below in *. rewrite Forall_forall in *. intros x Hx.
  eapply (outRanks_ntrans x d d'); auto.
Qed.

Lemma below_perm d t t' : elements t ≡ₚ elements t' -> below d t -> below d t'.
Proof. unfold below. by intros ->. Qed.

Lemma below_node d a n l r x : below d (Node a n l r x) <-> outRanks x d = false /\ below d l /\ below d r.
Proof. unfold below. simpl. by rewrite Forall_cons, Forall_app. Qed.

(** [checkNodes] decides the invariant. *)
Lemma checkNodes_spec t : t <> NULL -> all t -> (checkNodes ranks t = true <-> heap_ok t).
Proof.
  induction t as [|a n l IHl r IHr d]; [done|]. intros _ Ht. cbn [elements] in Ht.
  apply Forall_cons in Ht as [Hd [Hl Hr]%Forall_app].
  assert (side : forall c, all c -> (c <> NULL -> all c -> checkNodes ranks c = true <-> heap_ok c) ->
    match c with NULL => true | Node _ _ _ _ dc => negb (outRanks dc d) && checkNodes ranks c end = true <->
    below d c /\ heap_ok c).
  { intros c Hc IH. destruct c as [|a' n' l' r' d']; [by split; [split; constructor|]|].
    rewrite andb_true_iff, IH, negb_true_iff by done. split; [|intros [Hb%below_node ?]; tauto].
    intros [Hr' Ho]. split; [|done]. apply below_node. split; [done|]. cbn [elements] in Hc.
    apply Forall_cons in Hc as [Hd' [? ?]%Forall_app]. destruct Ho as (_ & ? & ? & _). eauto using below_weaken. }
  cbn [checkNodes heap_ok]. rewrite !andb_true_iff, side, side by done.
  assert (Hs : forall c, heap_ok c -> default 0 (mSize c) = size c).
  { intros c Hc. destruct (mSize c) eqn:E; [by apply mSize_size|]. by destruct c. }
  split; [intros [[[] []] E]|intros (E & ?)]; repeat split; try tauto.
  - rewrite !Hs in E by done. lia.
  - rewrite !Hs by tauto. lia.
Qed.

(** ** Push *)
Lemma push_node_ok t a d : t <> NULL -> heap_ok t -> all t -> P d -> size t < INT_MAX ->
  exists t', push_node ranks t a d = Some t' /\ heap_ok t' /\ elements t' ≡ₚ d :: elements t /\ addrs t' ≡ₚ a :: addrs t.
Proof.
  revert d. induction t as [|b n l IHl r IHr d0]; [done|]. intros d _ (Hn & Hl & Hr & Ol & Or) Ht Hd Hs.
  cbn [elements] in Ht. apply Forall_cons in Ht as [Hd0 [Al Ar]%Forall_app].
  rewrite size_node in Hs. pose proof (size_nonneg l). pose proof (size_nonneg r). unfold INT_MAX in Hs.
  assert (Hi : int (n + 1) = Some (n + 1)) by (apply int_ok; lia).
  assert (Hsw : exists hi lo, (if outRanks d d0 then (d, d0) else (d0, d)) = (hi, lo) /\ P hi /\ P lo /\
    outRanks lo hi = false /\ below hi l /\ below hi r /\ [hi; lo] ≡ₚ [d; d0]).
  { destruct (outRanks d d0) eqn:E; eexists _, _; (split; [done|]); repeat split; try done.
    - by apply outRanks_asym.
    - apply (below_weaken d0 d l Hd0 Hd Al Hl). by apply outRanks_asym.
    - apply (below_weaken d0 d r Hd0 Hd Ar Hr). by apply outRanks_asym.
    - solve_Permutation. }
  destruct Hsw as (hi & lo & Esw & Hhi & Hlo & Hhl & Bl & Br & Hperm). cbn [push_node]. rewrite Esw.
  assert (Bnew : below hi (new_node a lo)) by (apply below_node; repeat split; try done; constructor).
  assert (Hel : forall xs, hi :: lo :: xs ≡ₚ d :: d0 :: xs).
  { intros xs. change (hi :: lo :: xs) with ([hi; lo] ++ xs). by rewrite Hperm. }
  destruct (is_null l) eqn:El; [|destruct (is_null r) eqn:Er].
  - destruct l; [|done]. rewrite Hi. eexists. split; [done|]. split; [|split].
    + split; [rewrite Hn; unfold size; simpl; lia|]. repeat split; try done; constructor.
    + apply (Hel (elements r)).
    + simpl. solve_Permutation.
  - destruct r; [|done]. rewrite Hi. eexists. split; [done|]. split; [|split].
    + split; [rewrite Hn; unfold size; simpl; lia|]. repeat split; try done; constructor.
    + simpl. rewrite app_nil_r, <- Permutation_cons_append, <- (Hel (elements l)). done.
    + simpl. rewrite app_nil_r. solve_Permutation.
  - assert (mSize l = Some (size l)) as -> by (destruct l; [done|]; by rewrite (mSize_size _ _ Ol eq_refl)).
    assert (mSize r = Some (size r)) as -> by (destruct r; [done|]; by rewrite (mSize_size _ _ Or eq_refl)).
    cbn [mbind option_bind]. destruct (size l <=? size r).
    + destruct (IHl lo) as (l' & Hp & Ol' & El' & Al'); [by destruct l|done|done|done|unfold INT_MAX; lia|].
      rewrite Hp. cbn [mbind option_bind]. rewrite Hi. eexists. split; [done|]. split; [|split].
      * split; [rewrite (size_elements_cons _ _ _ El'); lia|]. repeat split; try done.
        unfold below. rewrite El'. by constructor.
      * simpl. rewrite El'. simpl. apply Hel.
      * simpl. rewrite Al'. solve_Permutation.
    + destruct (IHr lo) as (r' & Hp & Or' & Er' & Ar'); [by destruct r|done|done|done|unfold INT_MAX; lia|].
      rewrite Hp. cbn [mbind option_bind]. rewrite Hi. eexists. split; [done|]. split; [|split].
      * split; [rewrite (size_elements_cons _ _ _ Er'); lia|]. repeat split; try done.
        unfold below. rewrite Er'. by constructor.
      * simpl. rewrite Er', <- Permutation_middle. apply Hel.
      * simpl. rewrite Ar'. solve_Permutation.
Qed.

(** ** Pop *)
(** What [pop_swapped] and [remove_node] take out: a leaf with the data [d]. *)
Definition popped (t t' node : tree) (d : D) : Prop :=
  exists a n, node = Node a n NULL NULL d /\ addrs t ≡ₚ a :: addrs t' /\ elements t ≡ₚ d :: elements t'.

Lemma size_int t : size t < INT_MAX -> int (size t - 1) = Some (size t - 1).
Proof. pose proof (size_nonneg t). unfold INT_MAX. intros. apply int_ok. lia. Qed.

Definition with_data (t : tree) (d : D) : tree := match t with NULL => NULL | Node a n l r _ => Node a n l r d end.

Lemma pop_swapped_ok t d : t <> NULL -> heap_ok t -> all t -> size t < INT_MAX ->
  exists t' node, pop_swapped ranks t d = Some (t', node) /\ heap_ok t' /\ popped (with_data t d) t' node d.
Proof.
  revert d. induction t as [|b n l IHl r IHr d0]; [done|]. intros d _ (Hn & Hl & Hr & Ol & Or) Ht Hs.
  cbn [elements] in Ht. apply Forall_cons in Ht as [Hd0 [Al Ar]%Forall_app].
  pose proof (size_int _ Hs) as Hi. rewrite size_node in Hs, Hi. rewrite <- Hn in Hi.
  pose proof (size_nonneg l). pose proof (size_nonneg r).
  cbn [pop_swapped]. rewrite Hi. cbn [mbind option_bind].
  (* the data goes down to the left or to the right child, whose old data takes the top *)
  assert (left : forall a1 n1 l1 r1 dl, l = Node a1 n1 l1 r1 dl -> below dl r ->
    exists t' node, ('(l', p) ← pop_swapped ranks l d; Some (Node b (n - 1) l' r dl, p)) = Some (t', node) /\
      heap_ok t' /\ popped (with_data (Node b n l r d0) d) t' node d).
  { intros a1 n1 l1 r1 dl -> Br. destruct (IHl d ltac:(done) Ol Al ltac:(lia)) as (l' & node & -> & Ol' & a & m & -> & Ha & He).
    cbn [mbind option_bind]. eexists _, _. split; [done|]. cbn [with_data addrs elements] in Ha, He.
    apply Permutation_cons_inv in He. destruct Ol as (_ & ? & ? & _).
    assert (Hsz : size l' = size (Node a1 n1 l1 r1 dl) - 1) by (rewrite size_node; unfold size; rewrite <- He, length_app; lia).
    split; [|exists a, m; split; [done|]; split; simpl].
    - split; [lia|]. repeat split; try done. unfold below. rewrite <- He. by apply Forall_app.
    - change (a1 :: (addrs l1 ++ addrs r1) ++ addrs r) with ((a1 :: addrs l1 ++ addrs r1) ++ addrs r).
      rewrite Ha. solve_Permutation.
    - rewrite <- He. solve_Permutation. }
  assert (right : forall a1 n1 l1 r1 dr, r = Node a1 n1 l1 r1 dr -> below dr l ->
    exists t' node, ('(r', p) ← pop_swapped ranks r d; Some (Node b (n - 1) l r' dr, p)) = Some (t', node) /\
      heap_ok t' /\ popped (with_data (Node b n l r d0) d) t' node d).
  { intros a1 n1 l1 r1 dr -> Bl. destruct (IHr d ltac:(done) Or Ar ltac:(lia)) as (r' & node & -> & Or' & a & m & -> & Ha & He).
    cbn [mbind option_bind]. eexists _, _. split; [done|]. cbn [with_data addrs elements] in Ha, He.
    apply Permutation_cons_inv in He. destruct Or as (_ & ? & ? & _).
    assert (Hsz : size r' = size (Node a1 n1 l1 r1 dr) - 1) by (rewrite size_node; unfold size; rewrite <- He, length_app; lia).
    split; [|exists a, m; split; [done|]; split; simpl].
    - split; [lia|]. repeat split; try done. unfold below. rewrite <- He. by apply Forall_app.
    - rewrite Ha. solve_Permutation.
    - rewrite <- He. solve_Permutation. }
  destruct l as [|a1 n1 l1 r1 dl], r as [|a2 n2 l2 r2 dr].
  - eexists _, _. split; [done|]. split; [done|]. exists b, (n - 1). repeat split; simpl; done.
  - apply (right _ _ _ _ _ eq_refl). constructor.
  - apply (left _ _ _ _ _ eq_refl). constructor.
  - cbn [elements] in Al, Ar. pose proof (Forall_inv Al) as Pl. pose proof (Forall_inv Ar) as Pr.
    destruct (outRanks dl dr) eqn:E.
    + apply (left _ _ _ _ _ eq_refl). apply below_node. pose proof (outRanks_asym _ _ Pl Pr E) as E'. split; [done|].
      destruct Or as (_ & B1 & B2 & _). apply Forall_cons in Ar as [_ [? ?]%Forall_app].
      split; [apply (below_weaken dr dl l2)|apply (below_weaken dr dl r2)]; done.
    + apply (right _ _ _ _ _ eq_refl). apply below_node. split; [done|].
      destruct Ol as (_ & B1 & B2 & _). apply Forall_cons in Al as [_ [? ?]%Forall_app].
      split; [apply (below_weaken dl dr l1)|apply (below_weaken dl dr r1)]; done.
Qed.

Lemma pop_node_ok t : t <> NULL -> heap_ok t -> all t -> size t < INT_MAX ->
  exists d t' node, mData t = Some d /\ pop_node ranks t = Some (t', node) /\ heap_ok t' /\ popped t t' node d.
Proof.
  intros Hn Ho Ha Hs. destruct t as [|a n l r d] eqn:E; [done|]. rewrite <- E in *.
  destruct (pop_swapped_ok t d Hn Ho Ha Hs) as (t' & node & Hp & Ho' & Hpop). exists d, t', node.
  unfold pop_node. rewrite E in *. done.
Qed.

Lemma mData_top t d x : heap_ok t -> all t -> mData t = Some d -> x ∈ elements t -> outRanks x d = false.
Proof.
  destruct t as [|a n l r d']; [done|]. intros (_ & Bl & Br & _) Ha [= <-] Hx. cbn [elements] in *.
  apply Forall_cons in Ha as [Hd _]. unfold below in *. rewrite Forall_forall in Bl, Br.
  apply elem_of_cons in Hx as [->|[?|?]%elem_of_app]; [|by apply Bl|by apply Br].
  destruct (outRanks d' d') eqn:E; [|done]. pose proof (outRanks_asym _ _ Hd Hd E). congruence.
Qed.

(** ** Remove *)
Lemma remove_node_ok t x : t <> NULL -> heap_ok t -> all t -> size t < INT_MAX ->
  exists t' rm, remove_node ranks t x = Some (t', rm) /\ heap_ok t' /\
    match rm with None => t' = t /\ x ∉ elements t | Some node => popped t t' node x end.
Proof.
  induction t as [|b n l IHl r IHr d]; [done|]. intros Hnn Ho Ht Hs. pose proof Ho as (Hn & Hl & Hr & Ol & Or).
  cbn [remove_node]. destruct (decide (x = d)) as [->|Hxd].
  { destruct (pop_node_ok _ Hnn Ho Ht Hs) as (d' & t' & node & [= <-] & -> & Ho' & Hpop). by eexists _, _. }
  destruct (outRanks x d) eqn:Exd.
  { eexists _, _. split; [done|]. split; [done|]. split; [done|]. intros Hx.
    apply (mData_top _ d) in Hx; [congruence|done..]. }
  cbn [elements] in Ht. apply Forall_cons in Ht as [Hd [Al Ar]%Forall_app].
  pose proof (size_int _ Hs) as Hi. rewrite size_node in Hs, Hi. rewrite <- Hn in Hi.
  pose proof (size_nonneg l). pose proof (size_nonneg r).
  assert (side : forall c, heap_ok c -> (c <> NULL -> exists c' rm, remove_node ranks c x = Some (c', rm) /\ heap_ok c' /\
      match rm with None => c' = c /\ x ∉ elements c | Some node => popped c c' node x end) ->
    exists c' rm, (if is_null c then Some (c, None) else remove_node ranks c x) = Some (c', rm) /\ heap_ok c' /\
      match rm with None => c' = c /\ x ∉ elements c | Some node => popped c c' node x end).
  { intros c Hc IH. destruct (is_null c) eqn:Ec; [|apply IH; by destruct c].
    destruct c; [|done]. eexists _, _. split; [done|]. split; [done|]. split; [done|]. by intros ?%elem_of_nil. }
  destruct (side l Ol) as (l' & rm & -> & Ol' & Hrm); [intros ?; apply IHl; try done; lia|]. cbn [mbind option_bind].
  destruct rm as [node|].
  - rewrite Hi. cbn [mbind option_bind]. eexists _, _. split; [done|]. destruct Hrm as (a & m & -> & Ha & He).
    split; [|exists a, m; split; [done|]; split; simpl].
    + split; [rewrite (size_elements_cons _ _ _ He) in Hn; lia|]. repeat split; try done.
      unfold below in *. rewrite He in Hl. by apply Forall_cons in Hl as [_ ?].
    + rewrite Ha. solve_Permutation.
    + rewrite He. solve_Permutation.
  - destruct Hrm as [-> Hxl].
    destruct (side r Or) as (r' & rm & -> & Or' & Hrm); [intros ?; apply IHr; try done; lia|]. cbn [mbind option_bind].
    destruct rm as [node|].
    + rewrite Hi. cbn [mbind option_bind]. eexists _, _. split; [done|]. destruct Hrm as (a & m & -> & Ha & He).
      split; [|exists a, m; split; [done|]; split; simpl].
      * split; [rewrite (size_elements_cons _ _ _ He) in Hn; lia|]. repeat split; try done.
        unfold below in *. rewrite He in Hr. by apply Forall_cons in Hr as [_ ?].
      * rewrite Ha. solve_Permutation.
      * rewrite He. solve_Permutation.
    + destruct Hrm as [-> Hxr]. eexists _, _. split; [done|]. split; [done|]. split; [done|]. cbn [elements].
      rewrite elem_of_cons, elem_of_app. tauto.
Qed.
End tree.

Section heap.
Context {D : Type} `{EqDecision D} (ranks : D -> D -> Z) (P : D -> Prop) `{!StrictWeak ranks P}.
Abbreviation outRanks := (outRanks ranks).

(** [h] keeps the bag [ds]; each node it has allocated is in the tree or deleted,
    once. *)
Record hrep (h : Heap D) (ds : list D) : Prop := {
  hr_ok : heap_ok ranks (mTree h);
  hr_elements : elements (mTree h) ≡ₚ ds;
  hr_all : Forall P ds;
  hr_nodes : addrs (mTree h) ++ deleted h ≡ₚ seq 0 (made h);
}.

(** [r] is the data that ranks highest in [ds]: none outranks it. *)
Definition highest (ds : list D) (r : option D) : Prop :=
  match r with None => ds = [] | Some d => d ∈ ds /\ forall x, x ∈ ds -> outRanks x d = false end.

Lemma hrep_size h ds : hrep h ds -> size (mTree h) = Z.of_nat (length ds).
Proof. intros []. unfold size. by rewrite hr_elements0. Qed.
Lemma hrep_all h ds : hrep h ds -> Forall P (elements (mTree h)).
Proof. intros []. by rewrite hr_elements0. Qed.
Lemma hrep_new : hrep LocHeap_new [].
Proof. by split. Qed.
Lemma hrep_nil h ds : hrep h ds -> is_null (mTree h) = true -> ds = [].
Proof. intros [_ He _ _] Hn. destruct (mTree h); [|done]. simpl in He. by apply Permutation_nil in He. Qed.

Lemma hrep_highest h ds : hrep h ds -> highest ds (mData (mTree h)).
Proof.
  intros Hh. destruct (mData (mTree h)) as [d|] eqn:E; simpl.
  - split.
    + rewrite <- (hr_elements _ _ Hh). destruct (mTree h); [done|]. injection E as ->. left.
    + intros x Hx. rewrite <- (hr_elements _ _ Hh) in Hx. eapply mData_top; [apply _|apply Hh|by eapply hrep_all|done|done].
  - eapply hrep_nil; [done|]. by destruct (mTree h).
Qed.

Lemma nodes_next n : seq 0 (S n) ≡ₚ n :: seq 0 n.
Proof. rewrite seq_S. simpl. solve_Permutation. Qed.

Lemma wp_push d h ds (Q : unit -> Heap D -> Prop) :
  hrep h ds -> P d -> Z.of_nat (length ds) < INT_MAX ->
  (forall h', hrep h' (d :: ds) -> Q tt h') -> wp (push ranks d) Q h.
Proof.
  intros Hh Hd Hs HQ. unfold push. wp_step. wp_step. pose proof (hr_nodes _ _ Hh) as Hm. wp_step.
  destruct (is_null (mTree h)) eqn:En.
  - wp_step. wp_step. apply HQ. pose proof (hrep_nil _ _ Hh En) as ->. split; cbn [mTree deleted made].
    + apply (new_node_ok ranks (made h) d).
    + done.
    + by constructor.
    + destruct (mTree h); [|done]. rewrite nodes_next, <- Hm. done.
  - destruct (push_node_ok ranks P (mTree h) (made h) d) as (t' & Hp & Ho & He & Ha);
      [by destruct (mTree h)|apply Hh|by eapply hrep_all|done|by erewrite hrep_size|].
    rewrite Hp. wp_step. wp_step. apply HQ. split; cbn [mTree deleted made]; [done|..].
    + rewrite He. by rewrite (hr_elements _ _ Hh).
    + constructor; [done|apply Hh].
    + rewrite nodes_next, <- Hm. by rewrite Ha.
Qed.

Lemma wp_peek h ds (Q : option D -> Heap D -> Prop) :
  hrep h ds -> (forall r, highest ds r -> Q r h) -> wp peek Q h.
Proof. intros Hh HQ. unfold peek. wp_step. wp_step. wp_step. apply HQ. by apply hrep_highest. Qed.

(** A node taken out and deleted. *)
Lemma wp_detach h ds t' node d (Q : option D -> Heap D -> Prop) :
  hrep h ds -> heap_ok ranks t' -> popped (mTree h) t' node d ->
  (forall h' ds', hrep h' ds' -> ds ≡ₚ d :: ds' -> Q (Some d) h') -> wp (detach_delete t' node) Q h.
Proof.
  intros Hh Ho (a & n & -> & Ha & He) HQ. unfold detach_delete. wp_step. wp_step. wp_step.
  rewrite (hr_elements _ _ Hh) in He. apply (HQ _ (elements t')); [|done]. pose proof (hr_all _ _ Hh) as Hall.
  rewrite He in Hall. apply Forall_cons in Hall as [_ Hall]. split; simpl; [done|done|done|].
  rewrite <- (hr_nodes _ _ Hh), Ha. solve_Permutation.
Qed.

Lemma wp_pop h ds (Q : option D -> Heap D -> Prop) :
  hrep h ds -> Z.of_nat (length ds) < INT_MAX -> (ds = [] -> Q None h) ->
  (forall d h' ds', highest ds (Some d) -> hrep h' ds' -> ds ≡ₚ d :: ds' -> Q (Some d) h') -> wp (pop ranks) Q h.
Proof.
  intros Hh Hs Hn Hd. unfold pop. wp_step. wp_step. destruct (is_null (mTree h)) eqn:En.
  - wp_step. apply Hn. by eapply hrep_nil.
  - destruct (pop_node_ok ranks P (mTree h)) as (d & t' & node & Ed & Hp & Ho & Hpop);
      [by destruct (mTree h)|apply Hh|by eapply hrep_all|by erewrite hrep_size|].
    wp_step. wp_step. cbv iota. eapply wp_detach; [done..|]. intros h' ds' Hh' Hds. apply (Hd _ _ ds'); [|done|done].
    rewrite <- Ed. by apply hrep_highest.
Qed.

Lemma wp_heap_remove x h ds (Q : option D -> Heap D -> Prop) :
  hrep h ds -> Z.of_nat (length ds) < INT_MAX -> (x ∉ ds -> Q None h) ->
  (forall h' ds', hrep h' ds' -> ds ≡ₚ x :: ds' -> Q (Some x) h') -> wp (remove ranks x) Q h.
Proof.
  intros Hh Hs Hn Hd. unfold remove. wp_step. wp_step. destruct (is_null (mTree h)) eqn:En.
  - wp_step. apply Hn. pose proof (hrep_nil _ _ Hh En) as ->. by intros ?%elem_of_nil.
  - destruct (remove_node_ok ranks P (mTree h) x) as (t' & rm & Hr & Ho & Hrm);
      [by destruct (mTree h)|apply Hh|by eapply hrep_all|by erewrite hrep_size|].
    wp_step. wp_step. cbv iota. destruct rm as [node|].
    + by eapply wp_detach.
    + destruct Hrm as [-> Hx]. wp_step. wp_step. wp_step. destruct h. apply Hn. intros Hx'. apply Hx.
      by rewrite (hr_elements _ _ Hh).
Qed.

Lemma checkTree_ok h ds : hrep h ds -> checkTree ranks h = true /\ getTreeSize h = Z.of_nat (length ds).
Proof.
  intros Hh. unfold checkTree, getTreeSize. destruct (is_null (mTree h)) eqn:En.
  - pose proof (hrep_nil _ _ Hh En) as ->. by destruct (mTree h).
  - split.
    + apply (checkNodes_spec ranks P); [by destruct (mTree h)|by eapply hrep_all|apply Hh].
    + rewrite <- (hrep_size _ _ Hh). destruct (mSize (mTree h)) eqn:E; [|by destruct (mTree h)].
      eapply mSize_size; [apply Hh|done].
Qed.

(** ** Sequences of operations *)
Inductive hop := Push (d : D) | Peek | Pop | Remove (d : D).
Definition do_hop (o : hop) : CM (Heap D) (option D) :=
  match o with
  | Push d => _ ← push ranks d; mret None
  | Peek => peek
  | Pop => pop ranks
  | Remove d => remove ranks d
  end.
Fixpoint do_hops (os : list hop) : CM (Heap D) (list (option D)) :=
  match os with [] => mret [] | o :: os => r ← do_hop o; rs ← do_hops os; mret (r :: rs) end.

(** The abstract queue: a bag. *)
Inductive bstep (ds : list D) : hop -> option D -> list D -> Prop :=
  | b_push d : bstep ds (Push d) None (d :: ds)
  | b_peek r : highest ds r -> bstep ds Peek r ds
  | b_pop_empty : ds = [] -> bstep ds Pop None []
  | b_pop d ds' : highest ds (Some d) -> ds ≡ₚ d :: ds' -> bstep ds Pop (Some d) ds'
  | b_remove_absent d : d ∉ ds -> bstep ds (Remove d) None ds
  | b_remove d ds' : ds ≡ₚ d :: ds' -> bstep ds (Remove d) (Some d) ds'.
Inductive brun : list D -> list hop -> list (option D) -> list D -> Prop :=
  | brun_nil ds : brun ds [] [] ds
  | brun_cons ds o r ds1 os rs ds2 : bstep ds o r ds1 -> brun ds1 os rs ds2 -> brun ds (o :: os) (r :: rs) ds2.

Definition pushed (os : list hop) : list D := o ← os; match o with Push d => [d] | _ => [] end.

Lemma do_hop_ok o h ds : hrep h ds -> Forall P (pushed [o]) -> Z.of_nat (length ds) < INT_MAX ->
  wp (do_hop o) (fun r h' => exists ds', bstep ds o r ds' /\ hrep h' ds') h.
Proof.
  intros Hh Hp Hs. destruct o as [d| | |d]; simpl.
  - wp_step. eapply wp_push; [done|by apply Forall_cons in Hp as [? _]|done|]. intros h' Hh'. wp_step.
    eexists. split; [constructor|done].
  - eapply wp_peek; [done|]. intros r Hr. eexists. by split; [constructor|].
  - eapply wp_pop; [done|done| |].
    + intros ->. exists []. by split; [constructor|].
    + intros d h' ds' Hd Hh' Hds. exists ds'. by split; [constructor|].
  - eapply wp_heap_remove; [done|done| |].
    + intros Hd. exists ds. by split; [constructor|].
    + intros h' ds' Hh' Hds. exists ds'. by split; [constructor|].
Qed.

Lemma bstep_length ds o r ds' : bstep ds o r ds' -> (length ds' <= length ds + length (pushed [o]))%nat.
Proof. intros Hb. destruct Hb as [d|r|Hd|d ds' _ Hd|d|d ds' Hd]; try rewrite Hd; simpl; lia. Qed.

Lemma pushed_cons o os : pushed (o :: os) = pushed [o] ++ pushed os.
Proof. by destruct o. Qed.

Lemma do_hops_ok os h ds : hrep h ds -> Forall P (pushed os) -> Z.of_nat (length ds + length (pushed os)) < INT_MAX ->
  wp (do_hops os) (fun rs h' => exists ds', brun ds os rs ds' /\ hrep h' ds') h.
Proof.
  revert h ds. induction os as [|o os IH]; intros h ds Hh Hp Hs.
  - simpl. wp_step. eexists. by split; [constructor|].
  - rewrite pushed_cons in Hp, Hs. rewrite length_app in Hs. apply Forall_app in Hp as [Hp1 Hp2].
    cbn [do_hops]. wp_step. eapply wp_conseq; [apply do_hop_ok; [done|done|lia]|].
    intros r h1 (ds1 & Hb & Hh1). cbv beta. pose proof (bstep_length _ _ _ _ Hb). wp_step.
    eapply wp_conseq; [apply (IH h1 ds1); [done|done|lia]|]. intros rs h2 (ds2 & Hr & Hh2). wp_step.
    exists ds2. split; [by econstructor|done].
Qed.

(** C11. The heap is a priority queue: any sequence of its operations on a new heap
    (of less than [INT_MAX] data, ranked by a strict weak order) is defined and
    answers as the bag of the data pushed and not yet taken out: [peek] and [pop]
    give data that nothing in the bag outranks, NULL only when it is empty;
    [remove] finds its argument exactly when it is there.  At the end the code's
    own consistency check holds, the size of the tree is that of the bag, and
    deleting the heap has deleted each node allocated exactly once. *)
Theorem heap_is_priority_queue (os : list hop) :
  Forall P (pushed os) -> Z.of_nat (length (pushed os)) < INT_MAX ->
  wp (do_hops os) (fun rs h => exists ds, brun [] os rs ds /\
    checkTree ranks h = true /\ getTreeSize h = Z.of_nat (length ds) /\
    wp LocHeap_delete (fun _ h' => mTree h' = NULL /\ deleted h' ≡ₚ seq 0 (made h)) h) LocHeap_new.
Proof.
  intros Hp Hs. eapply wp_conseq; [apply (do_hops_ok os _ [] hrep_new Hp Hs)|].
  intros rs h (ds & Hr & Hh). exists ds. split; [done|]. destruct (checkTree_ok _ _ Hh) as [Hc Hz].
  split; [done|]. split; [done|]. unfold LocHeap_delete. apply wp_modify. split; [done|]. simpl.
  rewrite addrs_delete, <- (hr_nodes _ _ Hh). apply Permutation_app_comm.
Qed.

(** ** Balance *)
Fixpoint depth (t : LocHeapNode D) : Z := match t with NULL => 0 | Node _ _ l r _ => 1 + Z.max (depth l) (depth r) end.
Fixpoint balanced (t : LocHeapNode D) : Prop :=
  match t with NULL => True | Node _ _ l r _ => Z.abs (size l - size r) <= 1 /\ balanced l /\ balanced r end.

Lemma depth_nonneg t : 0 <= depth t.
Proof. induction t; simpl; lia. Qed.

Lemma balanced_depth t : balanced t -> t <> NULL -> 2 ^ (depth t - 1) <= size t.
Proof.
  induction t as [|a n l IHl r IHr d]; [done|]. intros (Hb & Bl & Br) _. rewrite size_node. cbn [depth].
  assert (side : forall c, (balanced c -> c <> NULL -> 2 ^ (depth c - 1) <= size c) -> balanced c ->
    2 ^ depth c <= 2 * size c \/ c = NULL).
  { intros c IH Hc. destruct c as [|a' n' l' r' d'] eqn:E; [by right|left]. rewrite <- E in *.
    specialize (IH Hc ltac:(by subst)). assert (1 <= depth c) by (subst; simpl; pose proof (depth_nonneg l'); lia).
    replace (depth c) with (1 + (depth c - 1)) by lia. rewrite Z.pow_add_r by lia. lia. }
  replace (1 + Z.max (depth l) (depth r) - 1) with (Z.max (depth l) (depth r)) by lia.
  pose proof (size_nonneg l). pose proof (size_nonneg r).
  destruct (Z.max_spec (depth l) (depth r)) as [[_ ->]|[_ ->]].
  - destruct (side r IHr Br) as [Hr| ->]; [lia|]. unfold size in *. simpl in *. lia.
  - destruct (side l IHl Bl) as [Hl| ->]; [lia|]. unfold size in *. simpl in *. lia.
Qed.

Lemma new_balanced a d : balanced (new_node a d).
Proof. by split. Qed.

Lemma push_node_balanced t a d t' : t <> NULL -> heap_ok ranks t -> Forall P (elements t) -> P d -> size t < INT_MAX ->
  balanced t -> push_node ranks t a d = Some t' -> balanced t'.
Proof.
  revert d t'. induction t as [|b n l IHl r IHr d0]; [done|]. intros d t' _ (Hn & Hl & Hr & Ol & Or) Ht Hd Hs (Hb & Bl & Br) Hp.
  cbn [elements] in Ht. apply Forall_cons in Ht as [Hd0 [Al Ar]%Forall_app].
  rewrite size_node in Hs. pose proof (size_nonneg l). pose proof (size_nonneg r). unfold INT_MAX in Hs.
  assert (Hsw : exists hi lo, (if outRanks d d0 then (d, d0) else (d0, d)) = (hi, lo) /\ P lo)
    by (destruct (outRanks d d0); eauto).
  destruct Hsw as (hi & lo & Esw & Hlo). cbn [push_node] in Hp. rewrite Esw, int_ok in Hp by lia.
  destruct (is_null l) eqn:El; [|destruct (is_null r) eqn:Er].
  - destruct l; [|done]. injection Hp as <-. split; [unfold size in *; simpl in *; lia|]. by split; [apply new_balanced|].
  - destruct r; [|done]. injection Hp as <-. split; [unfold size in *; simpl in *; lia|]. by split; [|apply new_balanced].
  - assert (mSize l = Some (size l)) as Sl by (destruct l; [done|]; by rewrite (mSize_size _ _ _ Ol eq_refl)).
    assert (mSize r = Some (size r)) as Sr by (destruct r; [done|]; by rewrite (mSize_size _ _ _ Or eq_refl)).
    rewrite Sl, Sr in Hp. cbn [mbind option_bind] in Hp. destruct (size l <=? size r) eqn:E.
    + destruct (push_node_ok ranks P l a lo) as (l' & Hpl & _ & El' & _); [by destruct l|done|done|done|unfold INT_MAX; lia|].
      rewrite Hpl in Hp. injection Hp as <-. pose proof (size_elements_cons _ _ _ El').
      split; [lia|]. split; [|done]. eapply (IHl lo); [by destruct l|done|done|done|unfold INT_MAX; lia|done|done].
    + destruct (push_node_ok ranks P r a lo) as (r' & Hpr & _ & Er' & _); [by destruct r|done|done|done|unfold INT_MAX; lia|].
      rewrite Hpr in Hp. injection Hp as <-. pose proof (size_elements_cons _ _ _ Er').
      split; [lia|]. split; [done|]. eapply (IHr lo); [by destruct r|done|done|done|unfold INT_MAX; lia|done|done].
Qed.

Lemma pushes_balanced ps h ds : hrep h ds -> balanced (mTree h) -> Forall P ps ->
  Z.of_nat (length ds + length ps) < INT_MAX ->
  wp (do_hops (Push <$> ps)) (fun _ h' => exists ds', hrep h' ds' /\ balanced (mTree h') /\ length ds' = (length ds + length ps)%nat) h.
Proof.
  revert h ds. induction ps as [|d ps IH]; intros h ds Hh Hb Hp Hs.
  - cbn [fmap list_fmap do_hops]. wp_step. exists ds. split; [done|]. split; [done|]. simpl. lia.
  - apply Forall_cons in Hp as [Hd Hp]. cbn [length] in Hs. cbn [fmap list_fmap do_hops do_hop]. wp_step. wp_step.
    assert (Hpush : wp (push ranks d) (fun _ h1 => hrep h1 (d :: ds) /\ balanced (mTree h1)) h).
    { pose proof (wp_push d h ds (fun _ h1 => hrep h1 (d :: ds)) Hh Hd ltac:(lia) ltac:(done)) as Hw.
      unfold push in *. apply wp_elim in Hw as ([] & h1 & E & Hh1). eapply wp_intro; [exact E|]. split; [done|].
      cbn [mbind cm_bind get modify] in E. unfold get, modify, deref, mbind, cm_bind in E.
      destruct (is_null (mTree h)) eqn:En; [injection E as <-; apply new_balanced|].
      destruct (push_node ranks (mTree h) (made h) d) as [t'|] eqn:Et; [|done]. injection E as <-. simpl.
      eapply push_node_balanced; [..|exact Et]; [by destruct (mTree h)|apply Hh|by eapply hrep_all|done| |done].
      erewrite hrep_size by done. lia. }
    eapply wp_conseq; [exact Hpush|]. intros _ h1 [Hh1 Hb1]. cbv beta. wp_step. wp_step.
    eapply wp_conseq; [apply (IH h1 (d :: ds) Hh1 Hb1 Hp); cbn [length]; lia|]. intros rs h2 (ds2 & ? & ? & Hl2). wp_step.
    exists ds2. split; [done|]. split; [done|]. cbn [length] in *. lia.
Qed.

(** Adding to the smaller subtree keeps the tree balanced: after any number of
    pushes [push] recurses to a depth that is logarithmic in the size. *)
Theorem push_depth (ps : list D) :
  Forall P ps -> Z.of_nat (length ps) < INT_MAX ->
  wp (do_hops (Push <$> ps)) (fun _ h =>
    size (mTree h) = Z.of_nat (length ps) /\ (ps <> [] -> 2 ^ (depth (mTree h) - 1) <= Z.of_nat (length ps))) LocHeap_new.
Proof.
  intros Hp Hs. eapply wp_conseq; [apply (pushes_balanced ps _ [] hrep_new I Hp Hs)|].
  intros _ h (ds & Hh & Hb & Hl). rewrite (hrep_size _ _ Hh), Hl. split; [done|]. intros Hne. simpl in Hl.
  rewrite <- Hl, <- (hrep_size _ _ Hh). apply balanced_depth; [done|]. intros En.
  destruct ps; [done|]. pose proof (hrep_size _ _ Hh) as Hsz. rewrite En, Hl in Hsz. simpl in Hsz. unfold size in Hsz. simpl in Hsz. lia.
Qed.
End heap.

(** ** Concrete heaps: numbers, the smaller ranks higher *)
Definition earlier (x y : Z) : Z := y - x.
Lemma earlier_strict : StrictWeak earlier (fun _ => True).
Proof. split; unfold LocHeap.outRanks, earlier; intros; lia. Defined.

Lemma heap_is_priority_queue_witness :
  wp (do_hops earlier [Push 5; Push 3; Push 9; Push 3; Remove 9; Remove 7; Pop; Peek; Pop]) (fun rs h =>
    rs = [None; None; None; None; Some 9; None; Some 3; Some 3; Some 3] /\
    exists ds, brun earlier [] [Push 5; Push 3; Push 9; Push 3; Remove 9; Remove 7; Pop; Peek; Pop] rs ds /\
      getTreeSize h = Z.of_nat (length ds)) LocHeap_new.
Proof.
  assert (Hv : exists s, do_hops earlier [Push 5; Push 3; Push 9; Push 3; Remove 9; Remove 7; Pop; Peek; Pop] LocHeap_new =
    Some ([None; None; None; None; Some 9; None; Some 3; Some 3; Some 3], s)) by (eexists; vm_compute; reflexivity).
  pose proof (@heap_is_priority_queue Z _ earlier (fun _ => True) earlier_strict
    [Push 5; Push 3; Push 9; Push 3; Remove 9; Remove 7; Pop; Peek; Pop]
    ltac:(repeat constructor) ltac:(vm_compute; reflexivity)) as H.
  destruct Hv as (s & Hv). apply (wp_intro _ _ _ _ _ Hv). split; [reflexivity|].
  destruct (wp_Some _ _ _ _ _ Hv H) as (ds & Hb & _ & Hs & _). exists ds. split; [exact Hb|exact Hs].
Defined.

Lemma push_depth_witness :
  wp (do_hops earlier (Push <$> [4; 8; 1; 9; 2; 2; 7])) (fun _ h => depth (mTree h) <= 3) LocHeap_new.
Proof.
  eapply wp_conseq; [apply (@push_depth Z _ earlier (fun _ => True) earlier_strict [4; 8; 1; 9; 2; 2; 7]);
    [repeat constructor|vm_compute; reflexivity]|].
  intros _ h [_ H]. specialize (H ltac:(discriminate)). cbn in H.
  destruct (Z.le_gt_cases (depth (mTree h)) 3) as [?|Hgt]; [done|].
  pose proof (Z.pow_le_mono_r 2 3 (depth (mTree h) - 1) ltac:(lia) ltac:(lia)). lia.
Defined.
