(* ===== verification/LocTimer.v ===== *)
(** * The timers ([src/gps/utils/LocTimer.cpp])

    Clients start and stop timers from any thread; a running timer is a
    [LocTimerDelegate], kept in the heap of one of two containers (timers and
    alarms).  One message task changes the heaps, calls the clients back and
    deletes the delegates; one poll thread waits for the kernel timers of the
    containers and posts an expiration message.

    The steps of the three kinds of threads interleave.  A client operation is one
    step (it holds the timer's lock); the message task does one message per step,
    except an expiration, whose loop is split where other threads can run; the poll
    thread does one system call or message per step.  The message task delivers in
    order (see [MsgTask]).  Memory is not exhausted: [new] throws. *)
From S2P Require Import Prelude LocHeap LocHeapProps.

(** [tv_sec], [tv_nsec] *)
Abbreviation timespec := (Z * Z)%type.
(** The address of a delegate, with its [mFutureTime], which never changes. *)
Abbreviation dptr := (nat * timespec)%type.
Definition mFutureTime (d : dptr) : timespec := d.2.

(** Conversion to [int]. *)
Definition to_int (z : Z) : Z := (z + 2 ^ 31) mod 2 ^ 32 - 2 ^ 31.

(** [LocTimerDelegate::ranks] *)
Definition rank_times (this timer : timespec) : Z :=
  let rank := to_int (timer.1 - this.1) in
  if rank =? 0 then to_int (timer.2 - this.2) else rank.
Definition ranks (this rankable : dptr) : Z := rank_times (mFutureTime this) (mFutureTime rankable).

(** A [LocTimer]; [mCb]: it is a [LocTimerWrapper].  Its lock has its address. *)
Record LocTimer := MkTimer { mTimer : option dptr; mCb : bool }.
(** A [LocTimerDelegate]; its lock is that of the [LocTimer] [mLock]. *)
Record LocTimerDelegate := MkDelegate { mClient : option nat; mContainer : option bool; mLock : nat }.
(** A [LocTimerContainer]: the heap, the time its kernel timer is set to, and
    whether the poll task polls it. *)
Record LocTimerContainer := MkContainer { heap : Heap dptr; timerfd : option timespec; polled : bool }.

Inductive LocMsg :=
  | MsgTimerPush (w : bool) (timer : dptr)
  | MsgTimerRemove (w : bool) (timer : dptr)
  | MsgTimerExpire (w : bool).

(** Where the message task is in the loop of [MsgTimerExpire]: with a timer popped
    (or none left), about to call [stop] for the client it read, destroying a
    wrapper after its callback, or about to pop the next timer. *)
Inductive stage := Popped (timer : option dptr) | Calling (client : option nat) | Destroying (client : nat) | Next.

Record World := MkWorld {
  timers : gmap nat LocTimer;
  delegates : gmap dptr LocTimerDelegate;
  locks : gmap nat Z;                              (** [mRef] of each [LocSharedLock] *)
  containers : gmap bool LocTimerContainer;        (** by [wakeOnExpire] *)
  messages : list LocMsg;
  expiring : option (bool * timespec * stage);
  events : list bool;                              (** containers from [epoll_wait] still to expire *)
  phase : nat;                                     (** system calls done for the first of them *)
  next : nat;                                      (** the next address *)
  clock : Z;                                       (** [CLOCK_BOOTTIME], in nanoseconds *)
  called : list (nat * Z);                         (** the callbacks, with the time of each *)
}.
Definition init (clock : Z) : World := MkWorld ∅ ∅ ∅ ∅ [] None [] 0 0 clock [].

Abbreviation M := (CM World).

Definition set_timers f (w : World) := MkWorld (f (timers w)) (delegates w) (locks w) (containers w) (messages w) (expiring w) (events w) (phase w) (next w) (clock w) (called w).
Definition set_delegates f (w : World) := MkWorld (timers w) (f (delegates w)) (locks w) (containers w) (messages w) (expiring w) (events w) (phase w) (next w) (clock w) (called w).
Definition set_locks f (w : World) := MkWorld (timers w) (delegates w) (f (locks w)) (containers w) (messages w) (expiring w) (events w) (phase w) (next w) (clock w) (called w).
Definition set_containers f (w : World) := MkWorld (timers w) (delegates w) (locks w) (f (containers w)) (messages w) (expiring w) (events w) (phase w) (next w) (clock w) (called w).
Definition set_messages f (w : World) := MkWorld (timers w) (delegates w) (locks w) (containers w) (f (messages w)) (expiring w) (events w) (phase w) (next w) (clock w) (called w).
Definition set_expiring e (w : World) := MkWorld (timers w) (delegates w) (locks w) (containers w) (messages w) e (events w) (phase w) (next w) (clock w) (called w).
Definition set_events e p (w : World) := MkWorld (timers w) (delegates w) (locks w) (containers w) (messages w) (expiring w) e p (next w) (clock w) (called w).
Definition set_next n (w : World) := MkWorld (timers w) (delegates w) (locks w) (containers w) (messages w) (expiring w) (events w) (phase w) n (clock w) (called w).
Definition set_clock c (w : World) := MkWorld (timers w) (delegates w) (locks w) (containers w) (messages w) (expiring w) (events w) (phase w) (next w) c (called w).
Definition set_called f (w : World) := MkWorld (timers w) (delegates w) (locks w) (containers w) (messages w) (expiring w) (events w) (phase w) (next w) (clock w) (f (called w)).

Definition sendMsg (m : LocMsg) : M unit := modify (set_messages (fun q => q ++ [m])).

(** ** [LocSharedLock] *)
Definition share (l : nat) : M unit :=
  w ← get; n ← deref (locks w !! l); modify (set_locks <[l := n + 1]>).
Definition drop (l : nat) : M unit :=
  w ← get; n ← deref (locks w !! l);
  if n =? 1 then modify (set_locks (delete l)) else modify (set_locks <[l := n - 1]>).
(** [lock()]: the lock must exist. *)
Definition lock (l : nat) : M unit := w ← get; _ ← deref (locks w !! l); mret tt.

(** ** [LocTimerContainer] *)

(** An operation on the heap of container [k]; undefined when a delegate in the
    heap has been deleted. *)
Definition on_heap {A} (k : bool) (m : CM (Heap dptr) A) : M A := fun w =>
  match containers w !! k with
  | None => None
  | Some c =>
      if forallb (fun d => bool_decide (is_Some (delegates w !! d))) (elements (mTree (heap c))) then
        match m (heap c) with
        | Some (a, h) => Some (a, set_containers <[k := MkContainer h (timerfd c) (polled c)]> w)
        | None => None
        end
      else None
  end.

(** [timerfd_settime] with an absolute time; zero disarms. *)
Definition settime (k : bool) (t : timespec) : M unit :=
  w ← get; c ← deref (containers w !! k);
  modify (set_containers <[k := MkContainer (heap c) (if decide (t = (0, 0)) then None else Some t) (polled c)]>).
Definition set_poll (k : bool) (p : bool) : M unit :=
  w ← get; c ← deref (containers w !! k);
  modify (set_containers <[k := MkContainer (heap c) (timerfd c) p]>).
Definition addPoll (k : bool) : M unit := set_poll k true.
Definition removePoll (k : bool) : M unit := set_poll k false.

(** The outcome of [timerfd_create]: a descriptor, a failure with [EINVAL] and whether the
    second call, with [CLOCK_MONOTONIC], succeeds, or another failure. *)
Inductive TimerFd := created | einval (fallback : bool) | failed.
(** The constructor of a container: has it a descriptor?  That the clock of the fallback stands
    still while the system is suspended is not modelled: there is one clock. *)
Definition has_fd (fd : TimerFd) : bool := match fd with created => true | einval fallback => fallback | failed => false end.

(** [LocTimerContainer::get]; [fd]: what [timerfd_create] answers, if it is called. *)
Definition get_container (wakeOnExpire : bool) (fd : TimerFd) : M (option bool) :=
  w ← get;
  match containers w !! wakeOnExpire with
  | Some _ => mret (Some wakeOnExpire)
  | None =>
      if has_fd fd
      then _ ← modify (set_containers <[wakeOnExpire := MkContainer LocHeap_new None false]>); mret (Some wakeOnExpire)
      else mret None
  end.

Definition updateSoonestTime (k : bool) (priorTop : option dptr) : M unit :=
  curTop ← on_heap k peek;
  if decide (curTop = priorTop) then mret tt else
  match curTop with
  | None => _ ← removePoll k; settime k (0, 0)
  | Some top =>
      higher ← match priorTop with
               | None => mret true
               | Some p => w ← get; _ ← deref (delegates w !! p); mret (outRanks ranks top p)
               end;
      if (higher : bool) then _ ← addPoll k; settime k (mFutureTime top) else mret tt
  end.

Definition popIfOutRanks (k : bool) (timer : timespec) : M (option dptr) :=
  top ← on_heap k peek;
  match top with
  | None => mret None
  | Some top => if negb (0 <? rank_times timer (mFutureTime top)) then on_heap k (pop ranks) else mret None
  end.

(** ** [LocTimer] and [LocTimerDelegate] *)
Definition new_timer (cb : bool) : M nat :=
  w ← get;
  let a := next w in
  _ ← modify (set_next (S a));
  _ ← modify (set_timers <[a := MkTimer None cb]>);
  _ ← modify (set_locks <[a := 1]>);
  mret a.

(** [LocTimerDelegate::destroyLocked] *)
Definition destroyLocked (d : dptr) : M unit :=
  w ← get; this ← deref (delegates w !! d);
  _ ← modify (set_delegates <[d := MkDelegate None None (mLock this)]>);
  match mContainer this with
  | Some k => sendMsg (MsgTimerRemove k d)
  | None => mret tt
  end.

Definition future_time (now : Z) (timeOutInMs : Z) : timespec :=
  let tv_sec := now / 10 ^ 9 + timeOutInMs / 1000 in
  let tv_nsec := now mod 10 ^ 9 + u32 (timeOutInMs mod 1000 * 1000000) in
  if 10 ^ 9 <=? tv_nsec then (tv_sec + tv_nsec / 10 ^ 9, tv_nsec mod 10 ^ 9) else (tv_sec, tv_nsec).

(** [new LocTimerDelegate(client, futureTime, container)] *)
Definition new_delegate (c : nat) (t : timespec) (k : bool) : M dptr :=
  w ← get;
  let d := (next w, t) in
  _ ← modify (set_next (S (next w)));
  _ ← share c;
  _ ← modify (set_delegates <[d := MkDelegate (Some c) (Some k) c]>);
  _ ← sendMsg (MsgTimerPush k d);
  mret d.

Definition start (c : nat) (timeOutInMs : Z) (wakeOnExpire : bool) (fd : TimerFd) : M bool :=
  w ← get; this ← deref (timers w !! c);
  _ ← lock c;
  match mTimer this with
  | Some _ => mret false
  | None =>
      k ← get_container wakeOnExpire fd;
      match k with
      | None => mret false
      | Some k =>
          d ← new_delegate c (future_time (clock w) timeOutInMs) k;
          _ ← modify (set_timers <[c := MkTimer (Some d) (mCb this)]>);
          mret true
      end
  end.

Definition stop (c : nat) : M bool :=
  w ← get; this ← deref (timers w !! c);
  _ ← lock c;
  match mTimer this with
  | None => mret false
  | Some timer =>
      _ ← modify (set_timers <[c := MkTimer None (mCb this)]>);
      _ ← destroyLocked timer;
      mret true
  end.

(** [~LocTimer] *)
Definition delete_timer (c : nat) : M unit :=
  _ ← stop c;
  _ ← drop c;
  modify (set_timers (delete c)).

(** [~LocTimerDelegate] *)
Definition delete_delegate (d : dptr) : M unit :=
  w ← get; this ← deref (delegates w !! d);
  _ ← drop (mLock this);
  modify (set_delegates (delete d)).

(** ** The C interface: [loc_timer_start] and [loc_timer_stop] *)

(** [LocTimerWrapper::destroy]: reads the wrapper, then deletes it. *)
Definition destroy (c : nat) : M unit :=
  w ← get; this ← deref (timers w !! c);
  if mCb this then delete_timer c else mret tt.
Definition loc_timer_start (msec : Z) (cb_func wake_on_expire : bool) (fd : TimerFd) : M (option nat) :=
  if cb_func then c ← new_timer true; _ ← start c (u32 msec) wake_on_expire fd; mret (Some c) else mret None.
Definition loc_timer_stop (handle : option nat) : M (option nat) :=
  match handle with Some c => _ ← destroy c; mret None | None => mret None end.

(** ** The message task *)
Definition proc (m : LocMsg) : M unit :=
  match m with
  | MsgTimerPush k timer =>
      priorTop ← on_heap k peek;
      w ← get; _ ← deref (delegates w !! timer);
      _ ← on_heap k (push ranks timer);
      updateSoonestTime k priorTop
  | MsgTimerRemove k timer =>
      priorTop ← on_heap k peek;
      removed ← on_heap k (remove ranks timer);
      _ ← (if decide (priorTop = removed) then updateSoonestTime k None else mret tt);
      delete_delegate timer
  | MsgTimerExpire k =>
      w ← get;
      timer ← on_heap k (pop ranks);
      modify (set_expiring (Some (k, (clock w / 10 ^ 9, clock w mod 10 ^ 9), Popped timer)))
  end.

(** One step of the loop of [MsgTimerExpire], at [s]. *)
Definition expire_step (k : bool) (now : timespec) (s : stage) : M unit :=
  let go s := modify (set_expiring (Some (k, now, s))) in
  match s with
  | Popped None => _ ← updateSoonestTime k None; modify (set_expiring None)
  | Popped (Some timer) => w ← get; this ← deref (delegates w !! timer); go (Calling (mClient this))
  | Calling None => go Next
  | Calling (Some c) =>
      stopped ← stop c;
      if (stopped : bool) then
        w ← get; this ← deref (timers w !! c);
        _ ← modify (set_called (fun l => l ++ [(c, clock w)]));
        go (if mCb this then Destroying c else Next)
      else go Next
  | Destroying c => _ ← destroy c; go Next
  | Next => timer ← popIfOutRanks k now; go (Popped timer)
  end.

Definition msg_step : M unit :=
  w ← get;
  match expiring w with
  | Some (k, now, s) => expire_step k now s
  | None =>
      match messages w with
      | [] => mret tt
      | m :: q => _ ← modify (set_messages (fun _ => q)); proc m
      end
  end.

(** ** The poll thread *)

(** The kernel timer of [k] has expired and is polled. *)
Definition not_later (t1 t2 : timespec) : bool := (t1.1 <? t2.1) || ((t1.1 =? t2.1) && (t1.2 <=? t2.2)).
Definition ready (w : World) (k : bool) : bool :=
  match containers w !! k with
  | Some (MkContainer _ (Some t) true) => not_later t (clock w / 10 ^ 9, clock w mod 10 ^ 9)
  | _ => false
  end.
(** [epoll_wait] returns the containers [ks]. *)
Definition poll_wait (ks : list bool) : M unit :=
  w ← get;
  match events w with
  | [] => if forallb (ready w) ks then modify (set_events ks 0) else mret tt
  | _ => mret tt
  end.
(** The next call of [LocTimerContainer::expire] for the first event. *)
Definition poll_step : M unit :=
  w ← get;
  match events w with
  | [] => mret tt
  | k :: ks =>
      match phase w with
      | O => _ ← settime k (0, 0); modify (set_events (k :: ks) 1)
      | S O => _ ← removePoll k; modify (set_events (k :: ks) 2)
      | _ => _ ← sendMsg (MsgTimerExpire k); modify (set_events ks 0)
      end
  end.

(** ** The steps of the system *)
Inductive action :=
  | NewTimer | Start (c : nat) (timeOutInMs : Z) (wakeOnExpire : bool) (fd : TimerFd) | Stop (c : nat) | Delete (c : nat)
  | CStart (msec : Z) (cb_func wake_on_expire : bool) (fd : TimerFd) | CStop (handle : option nat)
  | Tick (n : Z) | PollWait (ks : list bool) | PollStep | MsgStep.
Definition act (a : action) : M unit :=
  match a with
  | NewTimer => _ ← new_timer false; mret tt
  | Start c ms k ok => _ ← start c ms k ok; mret tt
  | Stop c => _ ← stop c; mret tt
  | Delete c => delete_timer c
  | CStart ms cb k ok => _ ← loc_timer_start ms cb k ok; mret tt
  | CStop h => _ ← loc_timer_stop h; mret tt
  | Tick n => modify (fun w => set_clock (clock w + n) w)
  | PollWait ks => poll_wait ks
  | PollStep => poll_step
  | MsgStep => msg_step
  end.
