(* ===== verification/LocTimerSpec.v ===== *)
(** * The invariant of the timers

    What holds between the steps of the threads: where each delegate is in its
    life, who holds each lock, and that the kernel timer of a container is set for
    the earliest of its timers, or an expiration is under way. *)
From S2P Require Import Prelude LocHeap LocHeapProps LocTimer.

(** ** Times *)

(** Uptimes below 2^30 seconds (34 years): with delays below 2^32 ms all times stay
    within 2^31 seconds, where the conversion of [ranks] to [int] is exact. *)
Definition MAX_CLOCK : Z := 2 ^ 30 * 10 ^ 9.
Definition ok_time (d : dptr) : Prop := 0 <= d.2.1 < 2 ^ 31 /\ 0 <= d.2.2 < 10 ^ 9 /\ 0 < d.2.1 + d.2.2.

Lemma to_int_id z : - 2 ^ 31 <= z < 2 ^ 31 -> to_int z = z.
Proof. intros Hz. unfold to_int. rewrite Z.mod_small; lia. Qed.

(** [ranks] orders by time, the earlier first. *)
Lemma outRanks_earlier x y : ok_time x -> ok_time y ->
  outRanks ranks x y = true <-> x.2.1 < y.2.1 \/ x.2.1 = y.2.1 /\ x.2.2 < y.2.2.
Proof.
  intros (Hx1 & Hx2 & _) (Hy1 & Hy2 & _). unfold outRanks, ranks, rank_times, mFutureTime.
  rewrite (to_int_id (y.2.1 - x.2.1)) by lia. rewrite (to_int_id (y.2.2 - x.2.2)) by lia.
  destruct (_ =? 0) eqn:E; lia.
Qed.

#[export] Instance ranks_strict : StrictWeak ranks ok_time.
Proof.
  split.
  - intros x y Hx Hy Hxy. apply not_true_iff_false. rewrite outRanks_earlier in * by done. lia.
  - intros x y z Hx Hy Hz Hxy Hyz. rewrite <- not_true_iff_false in *. rewrite outRanks_earlier in * by done. lia.
Qed.

Lemma future_time_ok now ms n : 0 < now < MAX_CLOCK -> 0 <= ms < 2 ^ 32 -> ok_time (n, future_time now ms).
Proof.
  intros Hn Hms. unfold future_time, ok_time, MAX_CLOCK in *. cbn [fst snd].
  assert (0 <= now / 10 ^ 9 < 2 ^ 30) by (split; [apply Z.div_pos; lia|apply Z.div_lt_upper_bound; lia]).
  pose proof (Z.mod_pos_bound now (10 ^ 9) ltac:(lia)). pose proof (Z.mod_pos_bound ms 1000 ltac:(lia)).
  assert (0 <= ms / 1000 < 2 ^ 29) by (split; [apply Z.div_pos; lia|apply Z.div_lt_upper_bound; lia]).
  pose proof (Z.div_mod now (10 ^ 9) ltac:(lia)).
  rewrite wrap_id by lia. set (nsec := now mod 10 ^ 9 + ms mod 1000 * 1000000) in *.
  destruct (10 ^ 9 <=? nsec) eqn:E; cbn [fst snd].
  - assert (nsec / 10 ^ 9 < 2) by (apply Z.div_lt_upper_bound; lia). assert (0 <= nsec / 10 ^ 9) by (apply Z.div_pos; lia).
    pose proof (Z.mod_pos_bound nsec (10 ^ 9) ltac:(lia)). pose proof (Z.div_mod nsec (10 ^ 9) ltac:(lia)). lia.
  - lia.
Qed.

(** ** The life of the delegates *)
Definition pushes (q : list LocMsg) : list dptr := m ← q; match m with MsgTimerPush _ d => [d] | _ => [] end.
Definition removes (q : list LocMsg) : list dptr := m ← q; match m with MsgTimerRemove _ d => [d] | _ => [] end.

Lemma elem_of_pushes k d q : MsgTimerPush k d ∈ q -> d ∈ pushes q.
Proof. intros Hq. apply list_elem_of_bind. exists (MsgTimerPush k d). split; [left|done]. Qed.
Lemma pushes_elem d q : d ∈ pushes q -> exists k, MsgTimerPush k d ∈ q.
Proof. intros ([k d'|k d'|k] & Hd & Hq)%list_elem_of_bind; [|by apply elem_of_nil in Hd..]. apply list_elem_of_singleton in Hd as <-. eauto. Qed.
Lemma elem_of_removes k d q : MsgTimerRemove k d ∈ q -> d ∈ removes q.
Proof. intros Hq. apply list_elem_of_bind. exists (MsgTimerRemove k d). split; [left|done]. Qed.
Lemma removes_elem d q : d ∈ removes q -> exists k, MsgTimerRemove k d ∈ q.
Proof. intros ([k d'|k d'|k] & Hd & Hq)%list_elem_of_bind; [by apply elem_of_nil in Hd| |by apply elem_of_nil in Hd]. apply list_elem_of_singleton in Hd as <-. eauto. Qed.
Lemma pushes_app q q' : pushes (q ++ q') = pushes q ++ pushes q'.
Proof. apply bind_app. Qed.
Lemma removes_app q q' : removes (q ++ q') = removes q ++ removes q'.
Proof. apply bind_app. Qed.

(** [q] the messages, [H] the data of the heaps, [C] the containers that exist, [D]
    the delegates, [T] the timers, [n] the next address.  A delegate runs for its
    timer until it is stopped, from when on a removal message is queued; it is
    deleted with that message. *)
Record life (q : list LocMsg) (H : bool -> list dptr) (C : bool -> Prop) (D : gmap dptr LocTimerDelegate)
    (T : gmap nat LocTimer) (n : nat) : Prop := {
  l_nodup : NoDup (pushes q ++ H false ++ H true);
  l_waiting k d : MsgTimerPush k d ∈ q \/ d ∈ H k ->
    C k /\ ok_time d /\ exists x, D !! d = Some x /\ (mContainer x = Some k \/ MsgTimerRemove k d ∈ q);
  l_removes : NoDup (removes q);
  l_order q1 k d q2 : q = q1 ++ MsgTimerRemove k d :: q2 -> d ∉ pushes q2;
  l_removed k d : MsgTimerRemove k d ∈ q -> C k /\ exists l, D !! d = Some (MkDelegate None None l);
  l_expire k : MsgTimerExpire k ∈ q -> C k;
  l_delegate d x : D !! d = Some x -> (d.1 < n)%nat /\
    ((mClient x = None /\ mContainer x = None /\ d ∈ removes q) \/
     exists c k t, x = MkDelegate (Some c) (Some k) c /\ C k /\ T !! c = Some t /\ mTimer t = Some d);
  l_timer c t : T !! c = Some t -> (c < n)%nat /\
    forall d, mTimer t = Some d -> exists k, D !! d = Some (MkDelegate (Some c) (Some k) c);
}.

Section life.
Context {q : list LocMsg} {H : bool -> list dptr} {C : bool -> Prop} {D : gmap dptr LocTimerDelegate}
  {T : gmap nat LocTimer} {n : nat}.

Lemma life_fresh t : life q H C D T n -> D !! (n, t) = None.
Proof. intros L. destruct (D !! (n, t)) eqn:E; [|done]. apply (l_delegate _ _ _ _ _ _ L) in E as [? _]. simpl in *. lia. Qed.

(** A delegate that runs for its timer is in no removal message. *)
Lemma life_running d c k l : life q H C D T n -> D !! d = Some (MkDelegate (Some c) (Some k) l) ->
  d ∉ removes q /\ C k.
Proof.
  intros L Hd. split.
  - intros [j Hr]%removes_elem. apply (l_removed _ _ _ _ _ _ L) in Hr as (_ & m & Hm). congruence.
  - apply (l_delegate _ _ _ _ _ _ L) in Hd as [_ [(? & _)|(c' & k' & t & [= -> -> ->] & ? & _)]]; done.
Qed.

Lemma life_equiv H' (C' : bool -> Prop) : life q H C D T n -> (forall k, H' k ≡ₚ H k) -> (forall k, C k -> C' k) ->
  life q H' C' D T n.
Proof.
  intros [] HH HC. split; try done.
  - by rewrite !HH.
  - intros k d. rewrite HH. intros (? & ? & ?)%l_waiting0. auto.
  - intros k d (? & ?)%l_removed0. auto.
  - auto.
  - intros d x [? Hx]%l_delegate0. split; [done|]. destruct Hx as [?|(c & k & t & ? & ? & ?)]; [by left|right].
    exists c, k, t. auto.
Qed.

Lemma life_new_timer cb : life q H C D T n -> life q H C D (<[n := MkTimer None cb]> T) (S n).
Proof.
  intros []. split; try done.
  - intros d x [? Hx]%l_delegate0. split; [lia|]. destruct Hx as [?|(c & k & t & ? & ? & Ht & ?)]; [by left|right].
    exists c, k, t. split; [done|]. split; [done|]. split; [|done]. rewrite lookup_insert_ne; [done|].
    intros ->. apply l_timer0 in Ht as [? _]. lia.
  - intros c t [[<- <-]|[? Ht]]%lookup_insert_Some; [by split; [lia|]|]. apply l_timer0 in Ht as [? ?]. split; [lia|done].
Qed.

Lemma life_start c k t cb : life q H C D T n -> T !! c = Some (MkTimer None cb) -> ok_time (n, t) -> C k ->
  life (q ++ [MsgTimerPush k (n, t)]) H C (<[(n, t) := MkDelegate (Some c) (Some k) c]> D)
    (<[c := MkTimer (Some (n, t)) cb]> T) (S n).
Proof.
  intros L Hc Ht Hk. pose proof (life_fresh t L) as Hf. destruct L as [Ln Lw Lr Lo Lrm Le Ld Lt].
  assert (Hw : forall j, MsgTimerPush j (n, t) ∈ q \/ (n, t) ∈ H j -> False).
  { intros j (_ & _ & x & Hx & _)%Lw. congruence. }
  split.
  - rewrite pushes_app. change (pushes [_]) with [(n, t)]. rewrite <- app_assoc. simpl.
    rewrite <- Permutation_middle. constructor; [|done]. rewrite !elem_of_app.
    intros [[j Hp]%pushes_elem|[Hp|Hp]]; eapply Hw; eauto.
  - intros j d [Hp|Hp].
    + apply elem_of_app in Hp as [Hp|[= -> ->]%list_elem_of_singleton].
      * destruct (Lw j d (or_introl Hp)) as (? & ? & x & Hx & Hh). split; [done|]. split; [done|]. exists x.
        rewrite lookup_insert_ne by congruence. rewrite elem_of_app. tauto.
      * split; [done|]. split; [done|]. eexists. rewrite lookup_insert_eq. split; [done|by left].
    + destruct (Lw j d (or_intror Hp)) as (? & ? & x & Hx & Hh). split; [done|]. split; [done|]. exists x.
      rewrite lookup_insert_ne by congruence. rewrite elem_of_app. tauto.
  - by rewrite removes_app, app_nil_r.
  - intros q1 j d q2 Hq. destruct q2 as [|m q2 _] using rev_ind; [by intros ?%elem_of_nil|].
    rewrite app_comm_cons, app_assoc in Hq. apply app_inj_tail in Hq as [Hq <-]. rewrite pushes_app, elem_of_app.
    intros [Hp|Hp%list_elem_of_singleton].
    + by eapply Lo.
    + subst d. destruct (Lrm j (n, t)) as (_ & l & Hl); [rewrite Hq; apply elem_of_app; right; left|congruence].
  - intros j d [Hr|[=]%list_elem_of_singleton]%elem_of_app. apply Lrm in Hr as (? & l & Hl). split; [done|].
    exists l. rewrite lookup_insert_ne by congruence. done.
  - intros j [Hr|[=]%list_elem_of_singleton]%elem_of_app. auto.
  - intros d x [[<- <-]|[? Hx]]%lookup_insert_Some.
    + split; [simpl; lia|right]. exists c, k, (MkTimer (Some (n, t)) cb). by rewrite lookup_insert_eq.
    + apply Ld in Hx as [? [(? & ? & ?)|(c' & k' & t' & ? & ? & Hc' & ?)]]; (split; [lia|]).
      * left. rewrite removes_app, elem_of_app. tauto.
      * right. exists c', k', t'. rewrite lookup_insert_ne by (intros ->; by simplify_eq/=). done.
  - intros c' t' [[<- <-]|[? Ht']]%lookup_insert_Some.
    + split; [apply Lt in Hc as [? _]; lia|]. intros d [= <-]. exists k. apply lookup_insert_eq.
    + apply Lt in Ht' as [? Hd]. split; [lia|]. intros d [k' Hk']%Hd. exists k'.
      rewrite lookup_insert_ne by congruence. done.
Qed.

Lemma life_stop c k d cb : life q H C D T n -> T !! c = Some (MkTimer (Some d) cb) ->
  D !! d = Some (MkDelegate (Some c) (Some k) c) ->
  life (q ++ [MsgTimerRemove k d]) H C (<[d := MkDelegate None None c]> D) (<[c := MkTimer None cb]> T) n.
Proof.
  intros L Hc Hd. pose proof (life_running _ _ _ _ L Hd) as [Hnr Hk]. destruct L as [Ln Lw Lr Lo Lrm Le Ld Lt]. split.
  - by rewrite pushes_app, app_nil_r.
  - intros j d' Hp. assert (Hp' : MsgTimerPush j d' ∈ q \/ d' ∈ H j)
      by (destruct Hp as [[?|[=]%list_elem_of_singleton]%elem_of_app|?]; auto).
    destruct (Lw j d' Hp') as (? & ? & x & Hx & Hh). split; [done|]. split; [done|].
    destruct (decide (d' = d)) as [->|Hne].
    + eexists. rewrite lookup_insert_eq. split; [done|right]. rewrite Hd in Hx. injection Hx as <-.
      destruct Hh as [[= ->]|Hr]; [apply elem_of_app; right; left|]. by destruct Hnr; eapply elem_of_removes.
    + exists x. rewrite lookup_insert_ne by done. rewrite elem_of_app. tauto.
  - rewrite removes_app. change (removes [_]) with [d]. rewrite <- Permutation_cons_append. by constructor.
  - intros q1 j d' q2 Hq. destruct q2 as [|m q2 _] using rev_ind; [by intros ?%elem_of_nil|].
    rewrite app_comm_cons, app_assoc in Hq. apply app_inj_tail in Hq as [Hq <-]. rewrite pushes_app, app_nil_r. by eapply Lo.
  - intros j d' [Hr|[= -> ->]%list_elem_of_singleton]%elem_of_app.
    + assert (d' <> d) by (intros ->; by eapply Hnr, elem_of_removes). apply Lrm in Hr as (? & l & Hl).
      split; [done|]. exists l. by rewrite lookup_insert_ne.
    + split; [done|]. eexists. apply lookup_insert_eq.
  - intros j [Hr|[=]%list_elem_of_singleton]%elem_of_app. auto.
  - intros d' x [[<- <-]|[? Hx]]%lookup_insert_Some.
    + apply Ld in Hd as [? _]. split; [done|left]. rewrite removes_app, elem_of_app. repeat split; auto. right. left.
    + apply Ld in Hx as [? [(? & ? & ?)|(c' & k' & t' & ? & ? & Hc' & Ht')]]; (split; [done|]).
      * left. rewrite removes_app, elem_of_app. tauto.
      * right. exists c', k', t'. rewrite lookup_insert_ne by (intros ->; by simplify_eq/=). done.
  - intros c' t' [[<- <-]|[? Ht']]%lookup_insert_Some.
    + split; [by apply Lt in Hc as [? _]|done].
    + apply Lt in Ht' as [? Hd']. split; [done|]. intros d' [k' Hk']%Hd'. exists k'.
      rewrite lookup_insert_ne by (intros ->; congruence). done.
Qed.

Lemma life_delete_timer c cb : life q H C D T n -> T !! c = Some (MkTimer None cb) -> life q H C D (delete c T) n.
Proof.
  intros [] Hc. split; try done.
  - intros d x [? Hx]%l_delegate0. split; [done|]. destruct Hx as [?|(c' & k & t & ? & ? & Ht & ?)]; [by left|right].
    exists c', k, t. rewrite lookup_delete_ne by (intros ->; by simplify_eq/=). done.
  - intros c' t [? Ht]%lookup_delete_Some. auto.
Qed.

Lemma life_send_expire k : life q H C D T n -> C k -> life (q ++ [MsgTimerExpire k]) H C D T n.
Proof.
  intros [] Hk. assert (Hq : forall m, m ∈ q ++ [MsgTimerExpire k] <-> m ∈ q \/ m = MsgTimerExpire k)
    by (intros m; by rewrite elem_of_app, list_elem_of_singleton).
  split; rewrite ?pushes_app, ?removes_app, ?app_nil_r; try done.
  - intros j d Hp. destruct (l_waiting0 j d) as (? & ? & x & ? & ?).
    { destruct Hp as [[?|[=]]%Hq|?]; auto. }
    split; [done|]. split; [done|]. exists x. rewrite Hq. tauto.
  - intros q1 j d q2 E. destruct q2 as [|m q2 _] using rev_ind; [by intros ?%elem_of_nil|].
    rewrite app_comm_cons, app_assoc in E. apply app_inj_tail in E as [E <-]. rewrite pushes_app, app_nil_r. by eapply l_order0.
  - intros j d [?|[=]]%Hq. auto.
  - intros j [?|[= ->]]%Hq; auto.
Qed.
End life.

Section messages.
Context {q : list LocMsg} {H H' : bool -> list dptr} {C : bool -> Prop} {D : gmap dptr LocTimerDelegate}
  {T : gmap nat LocTimer} {n : nat}.

(** [H'] differs from [H] for container [k] only. *)
Definition else_same (k : bool) : Prop := forall j, j <> k -> H' j ≡ₚ H j.

Lemma heaps_add k d : else_same k -> H' k ≡ₚ d :: H k -> H' false ++ H' true ≡ₚ d :: H false ++ H true.
Proof.
  intros Ho Hk. destruct k.
  - rewrite (Ho false), Hk by done. solve_Permutation.
  - rewrite (Ho true), Hk by done. done.
Qed.
Lemma heaps_take k d : else_same k -> H k ≡ₚ d :: H' k -> H false ++ H true ≡ₚ d :: H' false ++ H' true.
Proof.
  intros Ho Hk. destruct k.
  - rewrite <- (Ho false), Hk by done. solve_Permutation.
  - rewrite <- (Ho true), Hk by done. done.
Qed.
Lemma elem_heaps k d : d ∈ H k -> d ∈ H false ++ H true.
Proof. rewrite elem_of_app. destruct k; tauto. Qed.

Lemma life_push k d : life (MsgTimerPush k d :: q) H C D T n -> else_same k -> H' k ≡ₚ d :: H k -> life q H' C D T n.
Proof.
  intros [] Ho Hk.
  assert (Hq : forall m, m ∈ MsgTimerPush k d :: q <-> m = MsgTimerPush k d \/ m ∈ q) by (intros; by rewrite elem_of_cons).
  split; try done.
  - rewrite (heaps_add k d) by done. rewrite <- Permutation_middle. done.
  - intros j d' Hw. destruct (l_waiting0 j d') as (? & ? & x & ? & Hx).
    { destruct Hw as [?|Hw]; [left; by right|]. destruct (decide (j = k)) as [->|Hne].
      - rewrite Hk in Hw. apply elem_of_cons in Hw as [->|?]; [left; left|by right].
      - right. by rewrite <- (Ho j Hne). }
    split; [done|]. split; [done|]. exists x. split; [done|]. destruct Hx as [?|[[=]|?]%elem_of_cons]; auto.
  - intros q1 j d' q2 E. apply (l_order0 (MsgTimerPush k d :: q1) j d' q2). by rewrite E.
  - intros j d' Hr. apply l_removed0. by right.
  - intros j Hr. apply l_expire0. by right.
Qed.

Lemma life_take k d : life q H C D T n -> else_same k -> H k ≡ₚ d :: H' k -> life q H' C D T n.
Proof.
  intros [] Ho Hk. split; try done.
  - rewrite (heaps_take k d) in l_nodup0 by done. rewrite <- Permutation_middle in l_nodup0.
    by apply NoDup_cons in l_nodup0 as [_ ?].
  - intros j d' Hw. apply (l_waiting0 j d'). destruct Hw as [?|Hw]; [by left|right].
    destruct (decide (j = k)) as [->|Hne]; [rewrite Hk; by right|by rewrite <- (Ho j Hne)].
Qed.

Lemma life_drop_expire k : life (MsgTimerExpire k :: q) H C D T n -> life q H C D T n /\ C k.
Proof.
  intros L. split; [|apply (l_expire _ _ _ _ _ _ L); left]. destruct L. split; try done.
  - intros j d Hw. destruct (l_waiting0 j d) as (? & ? & x & ? & Hx); [destruct Hw; [left; by right|by right]|].
    split; [done|]. split; [done|]. exists x. split; [done|]. destruct Hx as [?|[[=]|?]%elem_of_cons]; auto.
  - intros q1 j d q2 E. apply (l_order0 (MsgTimerExpire k :: q1) j d q2). by rewrite E.
  - intros j d Hr. apply l_removed0. by right.
  - intros j Hr. apply l_expire0. by right.
Qed.

(** The removal of [d]: it is in the heap of [k] or in none. *)
Lemma life_remove k d : life (MsgTimerRemove k d :: q) H C D T n -> else_same k ->
  (d ∉ H k /\ H' k ≡ₚ H k \/ H k ≡ₚ d :: H' k) ->
  life q H' C (delete d D) T n /\ (forall j, d ∉ H' j) /\ d ∉ pushes q /\ exists l, D !! d = Some (MkDelegate None None l).
Proof.
  intros L Ho Hk. destruct (l_removed _ _ _ _ _ _ L k d) as (HC & l & Hl); [left|]. destruct L.
  pose proof (l_order0 [] k d q eq_refl) as Hnp.
  assert (Hnr : d ∉ removes q) by (by apply NoDup_cons in l_removes0 as [? _]).
  assert (Hq : forall m, m ∈ q -> m ∈ MsgTimerRemove k d :: q) by (intros; by right).
  assert (Hne : forall j, d ∈ H j -> j = k).
  { intros j Hj. destruct (l_waiting0 j d (or_intror Hj)) as (_ & _ & x & Hx & [Hm|Hm]).
    - rewrite Hl in Hx. by injection Hx as <-.
    - apply elem_of_cons in Hm as [[= ->]|Hm]; [done|]. by destruct Hnr; eapply elem_of_removes. }
  assert (Hsub : forall j d', d' ∈ H' j -> d' ∈ H j).
  { intros j d' Hd'. destruct (decide (j = k)) as [->|Hj]; [|by rewrite <- (Ho j Hj)].
    destruct Hk as [[_ Hk]|Hk]; [by rewrite <- Hk|]. rewrite Hk. by right. }
  assert (Hnd : NoDup (pushes q ++ H false ++ H true)) by exact l_nodup0.
  assert (Hno : forall j, d ∉ H' j).
  { intros j Hj. pose proof (Hne j (Hsub j d Hj)) as ->. destruct Hk as [[Hd Hk]|Hk]; [by rewrite Hk in Hj|].
    rewrite (heaps_take k d Ho Hk), <- Permutation_middle in Hnd. apply NoDup_cons in Hnd as [Hnd _]. apply Hnd.
    apply elem_of_app. right. apply elem_of_app. destruct k; tauto. }
  split; [|by eauto]. split.
  - destruct Hk as [[_ Hk]|Hk].
    + assert (Hall : forall j, H' j ≡ₚ H j) by (intros j; destruct (decide (j = k)) as [->|]; auto). by rewrite !Hall.
    + rewrite (heaps_take k d Ho Hk), <- Permutation_middle in Hnd. by apply NoDup_cons in Hnd as [_ ?].
  - intros j d' Hw. destruct (l_waiting0 j d') as (? & ? & x & Hx & Hm).
    { destruct Hw as [Hw|Hw]; [left; by right|right; by apply Hsub]. }
    assert (d' <> d).
    { intros ->. destruct Hw as [Hw|Hw]; [by apply Hnp, (elem_of_pushes j)|by apply (Hno j)]. }
    split; [done|]. split; [done|]. exists x. rewrite lookup_delete_ne by done. split; [done|].
    destruct Hm as [?|[[= -> ->]|?]%elem_of_cons]; auto. done.
  - by apply NoDup_cons in l_removes0 as [_ ?].
  - intros q1 j d' q2 E. apply (l_order0 (MsgTimerRemove k d :: q1) j d' q2). by rewrite E.
  - intros j d' Hr. destruct (l_removed0 j d' (Hq _ Hr)) as (? & m & Hm). split; [done|]. exists m.
    rewrite lookup_delete_ne; [done|]. intros ->. by eapply Hnr, elem_of_removes.
  - auto.
  - intros d' x [? Hx]%lookup_delete_Some. apply l_delegate0 in Hx as [? [(? & ? & Hr)|?]]; (split; [done|]); [left|by right].
    split; [done|]. split; [done|]. by apply elem_of_cons in Hr as [->|?].
  - intros c t [? Ht]%l_timer0. split; [done|]. intros d' [j Hj]%Ht. exists j. rewrite lookup_delete_ne by congruence. done.
Qed.
End messages.

(** ** Locks *)
(** How many delegates hold the lock of [c]; how many references it has. *)
Definition held (D : gmap dptr LocTimerDelegate) (c : nat) : Z := Z.of_nat (base.size (filter (fun p => mLock p.2 = c) D)).
Definition refs (T : gmap nat LocTimer) (D : gmap dptr LocTimerDelegate) (c : nat) : Z :=
  (if decide (is_Some (T !! c)) then 1 else 0) + held D c.
(** Each lock counts its references and exists while it has any. *)
Definition locks_ok (L : gmap nat Z) (T : gmap nat LocTimer) (D : gmap dptr LocTimerDelegate) : Prop :=
  forall c, L !! c = if refs T D c =? 0 then None else Some (refs T D c).

Definition one (l c : nat) : Z := if decide (l = c) then 1 else 0.

Lemma held_nonneg D c : 0 <= held D c.
Proof. unfold held. lia. Qed.
Lemma holders_insert D d x c : D !! d = None -> held (<[d := x]> D) c = held D c + one (mLock x) c.
Proof.
  intros Hd. unfold held, one. rewrite map_filter_insert. simpl. destruct (decide (mLock x = c)).
  - rewrite map_size_insert_None; [lia|]. apply map_lookup_filter_None. by left.
  - rewrite delete_id by done. lia.
Qed.
Lemma holders_delete D d x c : D !! d = Some x -> held D c = held (delete d D) c + one (mLock x) c.
Proof. intros Hd. rewrite <- (holders_insert (delete d D) d) by apply lookup_delete_eq. by rewrite insert_delete_eq, insert_id. Qed.
Lemma holders_update D d x y c : D !! d = Some x -> mLock y = mLock x -> held (<[d := y]> D) c = held D c.
Proof.
  intros Hd Hl. rewrite <- insert_delete_eq, holders_insert, (holders_delete D d x c), Hl by (done || apply lookup_delete_eq). done.
Qed.

Lemma locks_timer L T D c t t' : locks_ok L T D -> T !! c = Some t -> locks_ok L (<[c := t']> T) D.
Proof.
  intros HL Hc l. rewrite HL. unfold refs. destruct (decide (c = l)) as [->|].
  - by rewrite lookup_insert_eq, Hc, !decide_True.
  - by rewrite lookup_insert_ne.
Qed.
Lemma locks_share L T D c d x n : locks_ok L T D -> D !! d = None -> mLock x = c -> L !! c = Some n ->
  locks_ok (<[c := n + 1]> L) T (<[d := x]> D).
Proof.
  intros HL Hd Hx Hn l. pose proof (HL l) as Hl. unfold refs in *. rewrite holders_insert, Hx by done. unfold one.
  pose proof (held_nonneg D l). destruct (decide (c = l)) as [->|].
  - rewrite lookup_insert_eq. rewrite Hn in Hl. destruct (decide (is_Some (T !! l)));
      destruct (_ =? 0) in Hl; try done; injection Hl as ->; rewrite Z.add_assoc, (proj2 (Z.eqb_neq (_ + 1) 0)) by lia; done.
  - rewrite lookup_insert_ne by done. by rewrite Z.add_0_r.
Qed.
Lemma locks_drop L T D c n T' D' : locks_ok L T D -> L !! c = Some n ->
  (forall l, refs T' D' l = refs T D l - one c l) ->
  locks_ok (if n =? 1 then delete c L else <[c := n - 1]> L) T' D'.
Proof.
  intros HL Hn Hr l. rewrite Hr. pose proof (HL l) as Hl. unfold one. destruct (decide (c = l)) as [->|].
  - rewrite Hn in Hl. destruct (refs T D l =? 0) eqn:E; [done|]. injection Hl as ->. destruct (refs T D l =? 1) eqn:E1.
    + apply Z.eqb_eq in E1 as ->. by rewrite lookup_delete_eq.
    + apply Z.eqb_neq in E1. rewrite lookup_insert_eq, (proj2 (Z.eqb_neq _ _)) by lia. done.
  - rewrite Z.sub_0_r. destruct (n =? 1); [by rewrite lookup_delete_ne|by rewrite lookup_insert_ne].
Qed.
Lemma locks_new L T D c cb : locks_ok L T D -> T !! c = None -> held D c = 0 -> locks_ok (<[c := 1]> L) (<[c := MkTimer None cb]> T) D.
Proof.
  intros HL Hc Hh l. pose proof (HL l) as Hl. unfold refs in *. destruct (decide (c = l)) as [->|].
  - rewrite !lookup_insert_eq, Hh, decide_True by done. done.
  - by rewrite !lookup_insert_ne.
Qed.
Lemma locks_timer_lock L T D c t : locks_ok L T D -> T !! c = Some t -> exists n, L !! c = Some n.
Proof.
  intros HL Hc. rewrite HL. unfold refs. rewrite Hc, decide_True by done. pose proof (held_nonneg D c).
  destruct (_ =? 0) eqn:E; [lia|eauto].
Qed.
Lemma locks_delegate_lock L T D d x : locks_ok L T D -> D !! d = Some x -> exists n, L !! mLock x = Some n.
Proof.
  intros HL Hd. rewrite HL. unfold refs. rewrite (holders_delete D d x) by done. unfold one. rewrite (decide_True (P := mLock x = mLock x)) by done.
  pose proof (held_nonneg (delete d D) (mLock x)). destruct (decide _), (_ =? 0) eqn:E; lia || eauto.
Qed.
