(* ===== verification/LocTimerInv.v ===== *)
(** * The operations of the timers keep the invariant *)
From S2P Require Import Prelude LocHeap LocHeapProps LocTimer LocTimerSpec.

Definition heap_data (w : World) (k : bool) : list dptr :=
  match containers w !! k with Some c => elements (mTree (heap c)) | None => [] end.

(** The kernel timer of a container is set for the earliest timer of its heap. *)
Definition armed (c : LocTimerContainer) : Prop :=
  polled c = true /\ exists top, highest ranks (elements (mTree (heap c))) (Some top) /\ timerfd c = Some (mFutureTime top).
(** The container will be expired, or is being. *)
Definition under_way (w : World) (k : bool) : Prop :=
  MsgTimerExpire k ∈ messages w \/ k ∈ events w \/ exists now s, expiring w = Some (k, now, s).

(** A time read from the clock. *)
Definition ok_now (now : timespec) : Prop := 0 <= now.1 < 2 ^ 30 /\ 0 <= now.2 < 10 ^ 9.

Record Inv (w : World) : Prop := {
  v_life : life (messages w) (heap_data w) (fun k => is_Some (containers w !! k)) (delegates w) (timers w) (next w);
  v_locks : locks_ok (locks w) (timers w) (delegates w);
  v_fresh d x : delegates w !! d = Some x -> (mLock x < next w)%nat;
  v_heap k c : containers w !! k = Some c -> hrep ranks ok_time (heap c) (elements (mTree (heap c)));
  v_events k : k ∈ events w -> is_Some (containers w !! k);
  v_stage k now s : expiring w = Some (k, now, s) -> (is_Some (containers w !! k) /\ ok_now now) /\
    match s with
    | Popped (Some d) => is_Some (delegates w !! d)
    | Calling (Some c) | Destroying c => is_Some (timers w !! c)
    | _ => True
    end;
  v_clock : 0 < clock w < MAX_CLOCK;
  v_room : Z.of_nat (base.size (delegates w)) < INT_MAX;
  v_armed k c : containers w !! k = Some c -> elements (mTree (heap c)) <> [] -> armed c \/ under_way w k;
}.

Lemma hrep_self h ds : hrep ranks ok_time h ds -> hrep ranks ok_time h (elements (mTree h)).
Proof. intros []. split; try done. by rewrite hr_elements. Qed.

Lemma heap_data_insert w k c j :
  heap_data (set_containers <[k := c]> w) j = if decide (j = k) then elements (mTree (heap c)) else heap_data w j.
Proof.
  unfold heap_data. simpl. destruct (decide (j = k)) as [->|]; [by rewrite lookup_insert_eq|by rewrite lookup_insert_ne].
Qed.
Lemma heap_data_at w k c : containers w !! k = Some c -> heap_data w k = elements (mTree (heap c)).
Proof. unfold heap_data. by intros ->. Qed.

(** The delegates of a heap are not deleted, and there is room for them. *)
Lemma heap_live w k d : Inv w -> d ∈ heap_data w k -> is_Some (delegates w !! d).
Proof. intros V Hd. destruct (l_waiting _ _ _ _ _ _ (v_life w V) k d (or_intror Hd)) as (_ & _ & x & Hx & _). eauto. Qed.
Lemma heap_nodup w k : Inv w -> NoDup (heap_data w k).
Proof.
  intros V. pose proof (l_nodup _ _ _ _ _ _ (v_life w V)) as Hn. apply NoDup_app in Hn as (_ & _ & Hn).
  apply NoDup_app in Hn as (? & _ & ?). by destruct k.
Qed.
Lemma live_length (D : gmap dptr LocTimerDelegate) ds : NoDup ds -> (forall d, d ∈ ds -> is_Some (D !! d)) ->
  (length ds <= base.size D)%nat.
Proof.
  intros Hn Hl. rewrite <- (size_list_to_set (C := gset dptr)), <- (size_dom (D := gset dptr)) by done.
  apply subseteq_size. intros d Hd%elem_of_list_to_set. by apply elem_of_dom, Hl.
Qed.
Lemma heap_room w k c : Inv w -> containers w !! k = Some c -> Z.of_nat (length (elements (mTree (heap c)))) < INT_MAX.
Proof.
  intros V Hc. pose proof (v_room w V). rewrite <- (heap_data_at w k c Hc).
  pose proof (live_length (delegates w) (heap_data w k) (heap_nodup w k V) (fun d => heap_live w k d V)). lia.
Qed.

(** ** Operations on a container *)
Lemma wp_on_heap {A} k (m : CM (Heap dptr) A) w c (Q : A -> World -> Prop) :
  containers w !! k = Some c -> (forall d, d ∈ elements (mTree (heap c)) -> is_Some (delegates w !! d)) ->
  wp m (fun a h => Q a (set_containers <[k := MkContainer h (timerfd c) (polled c)]> w)) (heap c) -> wp (on_heap k m) Q w.
Proof.
  intros Hc Hl Hm. unfold wp, on_heap. rewrite Hc.
  assert (forallb (fun d => bool_decide (is_Some (delegates w !! d))) (elements (mTree (heap c))) = true) as ->.
  { apply forallb_forall. intros d Hd. apply bool_decide_eq_true, Hl. by apply list_elem_of_In. }
  unfold wp in Hm. by destruct (m (heap c)) as [[a h]|].
Qed.

Lemma set_containers_id w k c : containers w !! k = Some c -> set_containers <[k := MkContainer (heap c) (timerfd c) (polled c)]> w = w.
Proof. intros Hc. destruct w, c. unfold set_containers. simpl in *. by rewrite insert_id. Qed.

Lemma wp_peek_on k w c (Q : option dptr -> World -> Prop) :
  containers w !! k = Some c -> (forall d, d ∈ elements (mTree (heap c)) -> is_Some (delegates w !! d)) ->
  hrep ranks ok_time (heap c) (elements (mTree (heap c))) ->
  (forall r, highest ranks (elements (mTree (heap c))) r -> Q r w) -> wp (on_heap k peek) Q w.
Proof.
  intros Hc Hl Hh HQ. apply (wp_on_heap k peek w c Q Hc Hl). eapply wp_peek; [apply _|exact Hh|].
  intros r Hr. rewrite set_containers_id by done. by apply HQ.
Qed.

(** [updateSoonestTime k priorTop] on a heap that has changed: the kernel timer is
    set for the earliest timer if it is not yet for one as early as [priorTop]. *)
Lemma wp_updateSoonestTime k priorTop w c (Q : unit -> World -> Prop) :
  containers w !! k = Some c -> (forall d, d ∈ elements (mTree (heap c)) -> is_Some (delegates w !! d)) ->
  hrep ranks ok_time (heap c) (elements (mTree (heap c))) ->
  (forall p, priorTop = Some p -> is_Some (delegates w !! p)) ->
  (forall r t p, highest ranks (elements (mTree (heap c))) r ->
    (t = timerfd c /\ p = polled c /\
      (r = priorTop \/ exists top prior, r = Some top /\ priorTop = Some prior /\ outRanks ranks top prior = false)) \/
    (exists top, r = Some top /\ t = Some (mFutureTime top) /\ p = true) \/
    r = None ->
    Q tt (set_containers <[k := MkContainer (heap c) t p]> w)) ->
  wp (updateSoonestTime k priorTop) Q w.
Proof.
  intros Hc Hl Hh Hp HQ. unfold updateSoonestTime. wp_step. eapply wp_peek_on; [done..|]. intros r Hr. cbv beta.
  destruct (decide (r = priorTop)) as [->|Hne].
  { wp_step. rewrite <- (set_containers_id w k c Hc). apply (HQ priorTop); [done|]. left. auto. }
  destruct r as [top|].
  - assert (Hset : wp (_ ← addPoll k; settime k (mFutureTime top)) Q w).
    { unfold addPoll, set_poll, settime. wp_step. wp_step. wp_step. wp_step. wp_step. wp_step. wp_step. wp_step. wp_step.
      eapply wp_deref; [apply lookup_insert_eq|]. wp_step. cbn [timerfd heap polled].
      rewrite decide_False.
      - match goal with |- Q tt ?w' => replace w' with (set_containers <[k := MkContainer (heap c) (Some (mFutureTime top)) true]> w) end.
        + apply (HQ (Some top)); [done|]. right. left. eauto.
        + destruct w. unfold set_containers. simpl. by rewrite insert_insert_eq.
      - intros E. destruct Hr as [Ht _]. pose proof (hr_all _ _ _ _ Hh) as Ha. rewrite Forall_forall in Ha.
        destruct (Ha top Ht) as (_ & _ & Hpos). unfold mFutureTime in E. rewrite E in Hpos. simpl in Hpos. lia. }
    destruct priorTop as [p|].
    + destruct (Hp p eq_refl) as [x Hx]. wp_step. wp_step. wp_step. wp_step. wp_step. wp_step.
      destruct (outRanks ranks top p) eqn:E; [done|]. wp_step.
      rewrite <- (set_containers_id w k c Hc). apply (HQ (Some top)); [done|]. left. split; [done|]. split; [done|]. right. eauto.
    + wp_step. wp_step. done.
  - unfold removePoll, set_poll, settime. wp_step. wp_step. wp_step. wp_step. wp_step. wp_step. wp_step. wp_step. wp_step.
    eapply wp_deref; [apply lookup_insert_eq|]. wp_step. cbn [timerfd heap polled]. rewrite decide_True by done.
    match goal with |- Q tt ?w' => replace w' with (set_containers <[k := MkContainer (heap c) None false]> w) end.
    + apply (HQ None); [done|]. auto.
    + destruct w. unfold set_containers. simpl. by rewrite insert_insert_eq.
Qed.

(** The invariant of a world whose container [k] has become [c']. *)
Lemma Inv_container w w' k c c' :
  Inv w -> containers w !! k = Some c -> containers w' = <[k := c']> (containers w) ->
  delegates w' ⊆ delegates w -> timers w' = timers w -> locks_ok (locks w') (timers w) (delegates w') ->
  next w' = next w -> clock w' = clock w -> events w' = events w ->
  life (messages w') (fun j => if decide (j = k) then elements (mTree (heap c')) else heap_data w j)
    (fun j => is_Some (containers w !! j)) (delegates w') (timers w) (next w) ->
  hrep ranks ok_time (heap c') (elements (mTree (heap c'))) ->
  (forall j now s, expiring w' = Some (j, now, s) -> (is_Some (containers w !! j) /\ ok_now now) /\
    match s with
    | Popped (Some d) => is_Some (delegates w' !! d)
    | Calling (Some c) | Destroying c => is_Some (timers w !! c)
    | _ => True
    end) ->
  (forall j, j <> k -> under_way w j -> under_way w' j) ->
  (elements (mTree (heap c')) <> [] -> armed c' \/ under_way w' k) -> Inv w'.
Proof.
  intros V Hc EC ED ET EL EN EK EE HL Hh Hst Hun Har.
  assert (Hdom : forall j, is_Some (containers w !! j) -> is_Some (containers w' !! j)).
  { intros j Hj. rewrite EC. destruct (decide (j = k)) as [->|]; [by rewrite lookup_insert_eq|by rewrite lookup_insert_ne]. }
  split; rewrite ?ET, ?EN, ?EK, ?EE.
  - eapply life_equiv; [exact HL| |exact Hdom]. intros j. unfold heap_data. rewrite EC.
    destruct (decide (j = k)) as [->|]; [by rewrite lookup_insert_eq|by rewrite lookup_insert_ne].
  - done.
  - intros d x Hd. eapply (v_fresh w V d). by eapply lookup_weaken.
  - intros j cj Hj. rewrite EC in Hj. apply lookup_insert_Some in Hj as [[<- <-]|[_ Hj]]; [done|by eapply v_heap].
  - intros j Hj. apply Hdom. by apply (v_events w V).
  - intros j now s Hs. destruct (Hst j now s Hs) as [[? ?] ?]. auto.
  - apply V.
  - pose proof (v_room w V). apply map_subseteq_size in ED. lia.
  - intros j cj Hj Hne. rewrite EC in Hj. apply lookup_insert_Some in Hj as [[<- <-]|[Hjk Hj]]; [auto|].
    destruct (v_armed w V j cj Hj Hne); auto.
Qed.

(** ** Client operations *)
Lemma wp_lock l w (Q : unit -> World -> Prop) : is_Some (locks w !! l) -> Q tt w -> wp (lock l) Q w.
Proof. intros [n Hn] HQ. unfold lock. wp_step. wp_step. wp_step. wp_step. wp_step. done. Qed.

Definition stopped (c : nat) (cb : bool) (d : dptr) (k : bool) (w : World) : World :=
  set_messages (fun q => q ++ [MsgTimerRemove k d])
    (set_delegates <[d := MkDelegate None None c]> (set_timers <[c := MkTimer None cb]> w)).

Lemma under_way_stopped c cb d k w j : under_way w j -> under_way (stopped c cb d k w) j.
Proof. intros [?|[?|?]]; [left; simpl; apply elem_of_app; by left|by right; left|by right; right]. Qed.

Lemma Inv_stopped c t d k w : Inv w -> timers w !! c = Some t -> mTimer t = Some d ->
  delegates w !! d = Some (MkDelegate (Some c) (Some k) c) -> Inv (stopped c (mCb t) d k w).
Proof.
  intros V Hc Ht Hd. split; simpl.
  - eapply life_equiv; [eapply (life_stop c k d (mCb t) (v_life w V)); [|done]|done|done].
    rewrite <- Ht. by destruct t.
  - intros l. rewrite (locks_timer _ _ _ c t (MkTimer None (mCb t)) (v_locks w V) Hc l). unfold refs.
    erewrite holders_update by done. done.
  - intros d' x [[<- <-]|[_ Hx]]%lookup_insert_Some; [by apply (v_fresh w V _ _ Hd)|by eapply (v_fresh w V)].
  - apply V.
  - apply V.
  - intros j now s Hs. destruct (v_stage w V j now s Hs) as [? Hst]. split; [done|].
    destruct s as [[d'|]|[c'|]|c'|]; try done.
    + destruct (decide (d' = d)) as [->|]; [by rewrite lookup_insert_eq|by rewrite lookup_insert_ne].
    + destruct (decide (c' = c)) as [->|]; [by rewrite lookup_insert_eq|by rewrite lookup_insert_ne].
    + destruct (decide (c' = c)) as [->|]; [by rewrite lookup_insert_eq|by rewrite lookup_insert_ne].
  - apply V.
  - rewrite map_size_insert_Some by (by eexists). apply V.
  - intros j cj Hj Hne. destruct (v_armed w V j cj Hj Hne); [by left|right]. by apply (under_way_stopped c (mCb t) d k w).
Qed.

Lemma wp_timer_stop c w t (Q : bool -> World -> Prop) : Inv w -> timers w !! c = Some t ->
  (mTimer t = None -> Q false w) ->
  (forall d k, mTimer t = Some d -> Inv (stopped c (mCb t) d k w) -> Q true (stopped c (mCb t) d k w)) ->
  wp (stop c) Q w.
Proof.
  intros V Hc Hn Hs. unfold stop. wp_step. wp_step. wp_step. wp_step. wp_step.
  apply wp_lock; [destruct (locks_timer_lock _ _ _ _ _ (v_locks w V) Hc) as [n ->]; by eexists|].
  destruct (mTimer t) as [d|] eqn:Ht; [|wp_step; by apply Hn].
  destruct (l_timer _ _ _ _ _ _ (v_life w V) c t Hc) as [_ [k Hk]%(fun H => H d Ht)].
  wp_step. wp_step. wp_step. unfold destroyLocked. wp_step. wp_step. wp_step. wp_step. wp_step. wp_step. cbn [mContainer mLock].
  unfold sendMsg. wp_step. wp_step. apply Hs; [done|]. by apply Inv_stopped.
Qed.

Lemma wp_new_timer cb w (Q : nat -> World -> Prop) : Inv w ->
  (forall w', Inv w' -> timers w' !! next w = Some (MkTimer None cb) -> delegates w' = delegates w -> Q (next w) w') ->
  wp (new_timer cb) Q w.
Proof.
  intros V HQ. unfold new_timer. do 8 wp_step. wp_step.
  apply HQ; [|simpl; apply lookup_insert_eq|done].
  assert (Hf : timers w !! next w = None).
  { destruct (timers w !! next w) eqn:E; [|done]. apply (l_timer _ _ _ _ _ _ (v_life w V)) in E as [? _]. lia. }
  split; simpl; try by apply V.
  - apply (life_new_timer cb (v_life w V)).
  - apply locks_new; [apply V|done|]. unfold held. rewrite map_empty_filter_2; [done|].
    intros d x Hx Hl. simpl in Hl. apply (v_fresh w V) in Hx. lia.
  - intros d x Hx. apply (v_fresh w V) in Hx. lia.
  - intros k now s Hs. destruct (v_stage w V k now s Hs) as [? Hst]. split; [done|].
    destruct s as [[d|]|[c|]|c|]; try done; (rewrite lookup_insert_ne; [done|]); intros Hx; rewrite <- Hx, Hf in Hst; by destruct Hst.
Qed.

Lemma wp_get_container k ok w (Q : option bool -> World -> Prop) : Inv w ->
  (Q None w) ->
  (forall w', Inv w' -> is_Some (containers w' !! k) -> timers w' = timers w -> delegates w' = delegates w ->
    locks w' = locks w -> next w' = next w -> Q (Some k) w') -> wp (get_container k ok) Q w.
Proof.
  intros V Hn HQ. unfold get_container. wp_step. wp_step. destruct (containers w !! k) as [c|] eqn:Hc.
  - wp_step. apply HQ; try done. all: rewrite Hc; by eexists.
  - destruct (has_fd ok); [|by wp_step]. wp_step. wp_step. wp_step.
    apply HQ; try done; [|simpl; rewrite lookup_insert_eq; by eexists].
    assert (Hdom : forall j, is_Some (containers w !! j) -> is_Some (<[k := MkContainer LocHeap_new None false]> (containers w) !! j)).
    { intros j Hj. destruct (decide (j = k)) as [->|]; [by rewrite lookup_insert_eq|by rewrite lookup_insert_ne]. }
    split; simpl; try by apply V.
    + eapply life_equiv; [apply (v_life w V)| |exact Hdom]. intros j. rewrite heap_data_insert.
      destruct (decide (j = k)) as [->|]; [|done]. unfold heap_data. by rewrite Hc.
    + intros j c [[<- <-]|[_ Hj]]%lookup_insert_Some; [apply hrep_new|by eapply (v_heap w V)].
    + intros j Hj. by apply Hdom, (v_events w V).
    + intros j now s Hs. destruct (v_stage w V j now s Hs) as [[? ?] ?]. auto.
    + intros j c [[<- <-]|[_ Hj]]%lookup_insert_Some Hne; [done|]. apply (v_armed w V j c Hj Hne).
Qed.

(** Room for one more timer. *)
Definition room (w : World) : Prop := Z.of_nat (base.size (delegates w)) + 1 < INT_MAX.

Lemma wp_start c ms k ok w t (Q : bool -> World -> Prop) : Inv w -> timers w !! c = Some t -> 0 <= ms < 2 ^ 32 -> room w ->
  (forall b w', Inv w' -> is_Some (timers w' !! c) -> Q b w') -> wp (start c ms k ok) Q w.
Proof.
  intros V Hc Hms Hroom HQ. unfold start. wp_step. wp_step. wp_step. wp_step. wp_step.
  apply wp_lock; [destruct (locks_timer_lock _ _ _ _ _ (v_locks w V) Hc) as [n ->]; by eexists|].
  destruct t as [[d|] cb]; cbn [mTimer mCb]; [wp_step; apply HQ; [done|by rewrite Hc]|].
  wp_step. apply wp_get_container; [done|wp_step; apply HQ; [done|by rewrite Hc]|].
  intros w1 V1 Hk ET ED EL EN. wp_step. unfold new_delegate, share, sendMsg.
  destruct (locks_timer_lock _ _ _ _ _ (v_locks w V) Hc) as [n Hn].
  do 8 wp_step. cbn [locks set_next]. eapply wp_deref; [by rewrite EL|]. do 9 wp_step.
  set (t := future_time (clock w) ms). apply HQ; [|simpl; rewrite lookup_insert_eq; by eexists].
  rewrite <- ET in Hc. rewrite <- EL in Hn. pose proof (life_fresh t (v_life w1 V1)) as Hf.
  split; simpl; try by apply V1.
  - apply (life_start c k t cb (v_life w1 V1) Hc); [|done]. apply future_time_ok; [apply V|done].
  - apply (locks_timer _ _ _ c (MkTimer None cb)); [|done]. apply locks_share; try done. apply V1.
  - intros d x [[<- <-]|[_ Hx]]%lookup_insert_Some; [|apply (v_fresh w1 V1) in Hx; lia]. simpl.
    apply (l_timer _ _ _ _ _ _ (v_life w1 V1)) in Hc as [? _]. lia.
  - intros j now s Hs. destruct (v_stage w1 V1 j now s Hs) as [? Hst]. split; [done|].
    destruct s as [[d'|]|[c'|]|c'|]; try done.
    + rewrite lookup_insert_ne; [done|]. intros <-. rewrite Hf in Hst. by destruct Hst.
    + destruct (decide (c' = c)) as [->|]; [by rewrite lookup_insert_eq|by rewrite lookup_insert_ne].
    + destruct (decide (c' = c)) as [->|]; [by rewrite lookup_insert_eq|by rewrite lookup_insert_ne].
  - rewrite map_size_insert_None by done. rewrite ED. unfold room in Hroom. lia.
  - intros j cj Hj Hne. destruct (v_armed w1 V1 j cj Hj Hne) as [|[?|[?|?]]]; [by left|right..].
    + left. simpl. apply elem_of_app. by left.
    + by right; left.
    + by right; right.
Qed.

(** The message task is about to call [stop] for [c], or to destroy it. *)
Definition busy (w : World) (c : nat) : Prop :=
  exists k now, expiring w = Some (k, now, Calling (Some c)) \/ expiring w = Some (k, now, Destroying c).

Lemma wp_drop l w n (Q : unit -> World -> Prop) : locks w !! l = Some n ->
  Q tt (set_locks (fun L => if n =? 1 then delete l L else <[l := n - 1]> L) w) -> wp (drop l) Q w.
Proof.
  intros Hn HQ. unfold drop. wp_step. wp_step. wp_step. wp_step. by destruct (n =? 1); wp_step.
Qed.

Lemma stopped_timer c cb d k w : timers (stopped c cb d k w) !! c = Some (MkTimer None cb).
Proof. simpl. apply lookup_insert_eq. Qed.

(** The stage of the message task can stay as it is when it is not about [c], or go
    on to the next timer. *)
Definition stage_after (w : World) (c : nat) (e : option (bool * timespec * stage)) : Prop :=
  ~ busy w c /\ e = expiring w \/ exists k now s, expiring w = Some (k, now, s) /\ e = Some (k, now, Next).

Lemma set_expiring_id w : set_expiring (expiring w) w = w.
Proof. by destruct w. Qed.

Lemma under_way_after w w' c e k : stage_after w c e -> messages w' = messages w -> events w' = events w ->
  under_way w k -> under_way (set_expiring e w') k.
Proof.
  intros He Em Ee [?|[?|(now & s & Hs)]]; [left; simpl; by rewrite Em|right; left; simpl; by rewrite Ee|].
  right. right. simpl. destruct He as [[_ ->]|(k' & now' & s' & Hs' & ->)]; [eauto|]. rewrite Hs in Hs'. injection Hs' as <- <- <-. eauto.
Qed.

Lemma wp_delete_timer c w t (Q : unit -> World -> Prop) : Inv w -> timers w !! c = Some t ->
  (forall w', expiring w' = expiring w -> (forall e, stage_after w c e -> Inv (set_expiring e w')) -> Q tt w') ->
  wp (delete_timer c) Q w.
Proof.
  intros V Hc HQ. unfold delete_timer. wp_step.
  assert (Hrest : forall w1, Inv w1 -> timers w1 !! c = Some (MkTimer None (mCb t)) -> expiring w1 = expiring w ->
    wp (_ ← drop c; modify (set_timers (delete c))) Q w1).
  { intros w1 V1 Hc1 Ew. destruct (locks_timer_lock _ _ _ _ _ (v_locks w1 V1) Hc1) as [n Hn].
    wp_step. apply (wp_drop c w1 n); [done|]. wp_step. apply HQ; [done|]. intros e He.
    assert (EL : locks_ok (if n =? 1 then delete c (locks w1) else <[c := n - 1]> (locks w1)) (delete c (timers w1)) (delegates w1)).
    { apply (locks_drop (locks w1) (timers w1) (delegates w1)); [apply V1|done|]. intros l. unfold refs, one.
      destruct (decide (c = l)) as [->|Hne].
      - rewrite lookup_delete_eq, Hc1, decide_False, decide_True by (done || by intros []). lia.
      - rewrite lookup_delete_ne by done. lia. }
    assert (He1 : stage_after w1 c e) by (unfold stage_after, busy in *; by rewrite Ew).
    split; simpl; try by apply V1.
    - eapply (life_delete_timer c); [apply V1|exact Hc1].
    - exact EL.
    - intros k now s Hs. rewrite Hs in He1. destruct He1 as [[Hb Hs']|(k' & now' & s' & Hs' & [= -> -> ->])].
      + symmetry in Hs'. destruct (v_stage w1 V1 k now s Hs') as [? Hst]. split; [done|].
        destruct s as [[d'|]|[c'|]|c'|]; try done; (rewrite lookup_delete_ne; [done|]); intros ->; apply Hb; exists k, now; auto.
      + by destruct (v_stage w1 V1 k' now' s' Hs').
    - intros k ck Hk Hne. destruct (v_armed w1 V1 k ck Hk Hne); [by left|right]. by eapply under_way_after. }
  apply (wp_timer_stop c w t _ V Hc).
  - intros Ht. apply Hrest; [done| |done]. rewrite Hc. destruct t. simpl in *. by rewrite Ht.
  - intros d k Ht V1. apply Hrest; [done|apply stopped_timer|done].
Qed.

(** ** The message task *)
Lemma wp_pop_on k w c (Q : option dptr -> World -> Prop) : Inv w -> containers w !! k = Some c ->
  (elements (mTree (heap c)) = [] -> Q None w) ->
  (forall d h', highest ranks (elements (mTree (heap c))) (Some d) -> hrep ranks ok_time h' (elements (mTree h')) ->
    elements (mTree (heap c)) ≡ₚ d :: elements (mTree h') ->
    Q (Some d) (set_containers <[k := MkContainer h' (timerfd c) (polled c)]> w)) ->
  wp (on_heap k (pop ranks)) Q w.
Proof.
  intros V Hc Hn Hd. apply (wp_on_heap k _ w c Q Hc).
  { intros d Hd'. apply (heap_live w k); [done|]. by erewrite heap_data_at. }
  eapply wp_pop; [apply _|by eapply v_heap|by eapply heap_room| |].
  - intros E. rewrite set_containers_id by done. auto.
  - intros d h' ds' Hh Hr Hp. apply Hd; [done|by eapply hrep_self|]. by rewrite (hr_elements _ _ _ _ Hr).
Qed.

Lemma heap_live_at w k c : Inv w -> containers w !! k = Some c -> forall d, d ∈ elements (mTree (heap c)) -> is_Some (delegates w !! d).
Proof. intros V Hc d Hd. apply (heap_live w k); [done|]. by erewrite heap_data_at. Qed.

(** A timer is taken out of the heap by the expiration of its container. *)
Lemma Inv_taken w w' k c d h' : Inv w -> containers w !! k = Some c ->
  containers w' = <[k := MkContainer h' (timerfd c) (polled c)]> (containers w) ->
  delegates w' = delegates w -> timers w' = timers w -> locks w' = locks w -> next w' = next w -> clock w' = clock w ->
  events w' = events w ->
  (messages w' = messages w \/ messages w = MsgTimerExpire k :: messages w' /\ expiring w = None) ->
  (forall j now s, expiring w = Some (j, now, s) -> j = k) ->
  (exists now, ok_now now /\ expiring w' = Some (k, now, Popped (Some d))) ->
  hrep ranks ok_time h' (elements (mTree h')) -> elements (mTree (heap c)) ≡ₚ d :: elements (mTree h') -> Inv w'.
Proof.
  intros V Hc EC ED ET EL EN EK EE EM Ek (now & Hnow & Ex) Hh Hp.
  assert (Hlife : life (messages w') (heap_data w) (fun j => is_Some (containers w !! j)) (delegates w) (timers w) (next w)).
  { destruct EM as [->|[EM _]]; [apply V|]. eapply life_drop_expire. rewrite <- EM. apply V. }
  assert (Hd : is_Some (delegates w !! d)) by (eapply heap_live_at; [done..|]; rewrite Hp; left).
  apply (Inv_container w w' k c (MkContainer h' (timerfd c) (polled c))); try done; rewrite ?ED, ?EL, ?ET; try done; try by apply V.
  - apply (life_take (H := heap_data w) k d); [done| |].
    + intros j Hj. by rewrite decide_False.
    + rewrite decide_True by done. by erewrite heap_data_at.
  - intros j now' s Hs. rewrite Ex in Hs. injection Hs as <- <- <-. split; [by split; [eexists|]|done].
  - intros j Hj [Hm|[?|(now' & s' & Hs)]].
    + left. destruct EM as [->|[EM _]]; [done|]. rewrite EM in Hm. by apply elem_of_cons in Hm as [[= ->]|?].
    + right. left. by rewrite EE.
    + by apply Ek in Hs.
  - intros _. right. right. right. eauto.
Qed.

(** Timers none of which outranks the other have the same time. *)
Lemma same_time x y : ok_time x -> ok_time y -> outRanks ranks x y = false -> outRanks ranks y x = false ->
  mFutureTime x = mFutureTime y.
Proof.
  intros Hx Hy Hxy Hyx. rewrite <- not_true_iff_false, outRanks_earlier in Hxy, Hyx by done. unfold mFutureTime.
  destruct (x.2), (y.2). simpl in *. f_equal; lia.
Qed.

(** [t] is the time of the earliest of [ds]. *)
Definition earliest (ds : list dptr) (t : option timespec) : Prop :=
  exists top, highest ranks ds (Some top) /\ t = Some (mFutureTime top).

Lemma earliest_push ds ds' d t r prior : Forall ok_time ds' -> ds' ≡ₚ d :: ds -> earliest ds t ->
  highest ranks ds (Some prior) -> highest ranks ds' (Some r) -> outRanks ranks r prior = false -> earliest ds' t.
Proof.
  intros Ha Hp (top & [Ht Hh] & ->) [Hpr _] [Hr Hr'] Hrp. rewrite Forall_forall in Ha.
  assert (Hin : forall x, x ∈ ds -> x ∈ ds') by (intros x Hx; rewrite Hp; by right).
  exists top. split; [|done]. split; [auto|]. intros x Hx. pose proof ranks_strict as Hs.
  apply (outRanks_ntrans ranks (P := ok_time) x prior top); auto. apply (outRanks_ntrans ranks (P := ok_time) x r prior); auto.
Qed.
Lemma earliest_take ds ds' d t prior : Forall ok_time ds -> ds ≡ₚ d :: ds' -> earliest ds t ->
  highest ranks ds (Some prior) -> prior <> d -> earliest ds' t.
Proof.
  intros Ha Hp (top & [Ht Hh] & ->) [Hpr Hpr'] Hne. rewrite Forall_forall in Ha.
  assert (Hin : forall x, x ∈ ds' -> x ∈ ds) by (intros x Hx; rewrite Hp; by right).
  exists prior. split; [split; [|auto]|].
  - rewrite Hp in Hpr. by apply elem_of_cons in Hpr as [?|?].
  - f_equal. apply same_time; auto.
Qed.

Lemma hrep_ok h : hrep ranks ok_time h (elements (mTree h)) -> Forall ok_time (elements (mTree h)).
Proof. by intros []. Qed.

Lemma wp_proc_push k d q w : Inv w -> expiring w = None -> messages w = MsgTimerPush k d :: q ->
  wp (proc (MsgTimerPush k d)) (fun _ => Inv) (set_messages (fun _ => q) w).
Proof.
  intros V Ex Em. pose proof (v_life w V) as L. rewrite Em in L.
  destruct (l_waiting _ _ _ _ _ _ L k d ltac:(left; left)) as ([c Hc] & Hd & x & Hx & _).
  pose proof (v_heap w V k c Hc) as Hh. cbn [proc]. wp_step. eapply wp_peek_on; [exact Hc|exact (heap_live_at w k c V Hc)|done|].
  intros r0 Hr0. cbv beta. wp_step. wp_step. wp_step. wp_step. wp_step.
  apply (wp_on_heap k _ _ c); [exact Hc|exact (heap_live_at w k c V Hc)|].
  eapply wp_push; [apply _|exact Hh|done|by apply (heap_room w k c V)|]. intros h' Hh'.
  pose proof (hr_elements _ _ _ _ Hh') as Hel. pose proof (hrep_self _ _ Hh') as Hs.
  eapply wp_updateSoonestTime; [simpl; apply lookup_insert_eq| |exact Hs| |].
  { cbn [heap set_containers set_messages delegates]. intros d' Hd'. rewrite Hel in Hd'. apply elem_of_cons in Hd' as [->|Hd'];
      [by eexists|by apply (heap_live_at w k c V Hc)]. }
  { intros p ->. destruct Hr0. by apply (heap_live_at w k c V Hc). }
  cbn [heap timerfd polled]. intros r t p Hr Hcases.
  apply (Inv_container w _ k c (MkContainer h' t p)); try done; try by apply V.
  - simpl. by rewrite insert_insert_eq.
  - eapply life_push; [exact L| |].
    + intros j Hj. by rewrite decide_False.
    + rewrite decide_True by done. by erewrite heap_data_at.
  - intros j Hj [Hm|[?|(now & s & ?)]]; [left|by right; left|congruence]. rewrite Em in Hm.
    by apply elem_of_cons in Hm as [[=]|?].
  - cbn [heap timerfd polled]. intros Hne. destruct r as [r|]; [|done].
    destruct Hcases as [(-> & -> & Hpr)|[(top & [= ->] & -> & ->)|[=]]]; [|left; split; [done|eauto]].
    assert (exists prior, r0 = Some prior /\ outRanks ranks r prior = false) as (prior & -> & Hrp).
    { destruct Hpr as [<-|(top & prior & [= ->] & -> & Hrp)]; [exists r|by exists prior].
      split; [done|]. apply Hr0, Hr0. }
    destruct (v_armed w V k c Hc) as [[Hpol Har]|Hun]; [by intros E; rewrite E in Hr0; destruct Hr0 as [?%elem_of_nil _]| |].
    + left. split; [done|]. eapply (earliest_push (elements (mTree (heap c)))); [by apply hrep_ok|exact Hel|exact Har|exact Hr0|exact Hr|done].
    + right. destruct Hun as [Hm|[?|(now & s & ?)]]; [left|by right; left|congruence]. rewrite Em in Hm.
      by apply elem_of_cons in Hm as [[=]|?].
Qed.

(** The end of a removal: the delegate, out of the heap, is deleted. *)
Lemma wp_delete_delegate k d q w c c' : Inv w -> expiring w = None -> messages w = MsgTimerRemove k d :: q ->
  containers w !! k = Some c -> hrep ranks ok_time (heap c') (elements (mTree (heap c'))) ->
  (d ∉ elements (mTree (heap c)) /\ elements (mTree (heap c')) ≡ₚ elements (mTree (heap c)) \/
   elements (mTree (heap c)) ≡ₚ d :: elements (mTree (heap c'))) ->
  (elements (mTree (heap c')) <> [] -> armed c' \/ under_way w k) ->
  wp (delete_delegate d) (fun _ => Inv) (set_containers <[k := c']> (set_messages (fun _ => q) w)).
Proof.
  intros V Ex Em Hc Hh Hel Har. pose proof (v_life w V) as L. rewrite Em in L.
  destruct (life_remove (H := heap_data w) (H' := fun j => if decide (j = k) then elements (mTree (heap c')) else heap_data w j) k d L)
    as (L' & _ & _ & l & Hd).
  { intros j Hj. by rewrite decide_False. }
  { rewrite decide_True by done. rewrite (heap_data_at w k c Hc). done. }
  destruct (locks_delegate_lock _ _ _ _ _ (v_locks w V) Hd) as [n Hn]. cbn [mLock] in Hn.
  unfold delete_delegate. wp_step. wp_step. wp_step. cbn [delegates set_containers set_messages]. eapply wp_deref; [exact Hd|].
  wp_step. eapply wp_drop; [exact Hn|]. wp_step. cbn [mLock].
  apply (Inv_container w _ k c c'); try done; simpl.
  - apply delete_subseteq.
  - apply (locks_drop (locks w) (timers w) (delegates w)); [apply V|done|]. intros l'. unfold refs, one.
    rewrite (holders_delete (delegates w) d _ l') by done. unfold one. simpl. lia.
  - intros j now s Hs. congruence.
  - intros j Hj [Hm|[?|(now & s & ?)]]; [left|by right; left|congruence]. rewrite Em in Hm.
    by apply elem_of_cons in Hm as [[=]|?].
  - intros Hne. destruct (Har Hne) as [|Hun]; [by left|right].
    destruct Hun as [Hm|[?|(now & s & ?)]]; [left|by right; left|congruence]. rewrite Em in Hm.
    by apply elem_of_cons in Hm as [[=]|?].
Qed.

Lemma wp_proc_remove k d q w : Inv w -> expiring w = None -> messages w = MsgTimerRemove k d :: q ->
  wp (proc (MsgTimerRemove k d)) (fun _ => Inv) (set_messages (fun _ => q) w).
Proof.
  intros V Ex Em. pose proof (v_life w V) as L. rewrite Em in L.
  destruct (l_removed _ _ _ _ _ _ L k d ltac:(left)) as ([c Hc] & l & Hd).
  pose proof (v_heap w V k c Hc) as Hh. pose proof (heap_live_at w k c V Hc) as Hlive.
  cbn [proc]. wp_step. eapply wp_peek_on; [exact Hc|exact Hlive|done|].
  intros r0 Hr0. cbv beta. wp_step. apply (wp_on_heap k _ _ c); [exact Hc|exact Hlive|].
  eapply wp_heap_remove; [apply _|exact Hh|by apply (heap_room w k c)| |].
  - (* it is not in the heap *)
    intros Hnd. rewrite set_containers_id by exact Hc. wp_step. destruct (decide (r0 = None)) as [->|Hne].
    + assert (Hnil : elements (mTree (heap c)) = []) by exact Hr0.
      eapply wp_updateSoonestTime; [exact Hc|exact Hlive|done|done|]. intros r t p _ _.
      eapply (wp_delete_delegate k d q w c); [done..| |]; simpl; [by left|done].
    + wp_step. rewrite <- (set_containers_id (set_messages (fun _ => q) w) k c Hc).
      eapply (wp_delete_delegate k d q w c); [done..|by left|]. intros Hn. destruct (v_armed w V k c Hc Hn); auto.
  - intros h' ds' Hh' Hp. pose proof (hrep_self _ _ Hh') as Hs. rewrite <- (hr_elements _ _ _ _ Hh') in Hp.
    assert (Hlive' : forall d', d' ∈ elements (mTree h') -> is_Some (delegates w !! d'))
      by (intros d' Hd'; apply Hlive; rewrite Hp; by right).
    wp_step. destruct (decide (r0 = Some d)) as [->|Hne].
    + eapply wp_updateSoonestTime; [simpl; apply lookup_insert_eq|exact Hlive'|exact Hs|done|].
      cbn [heap timerfd polled]. intros r t p Hr Hcases.
      match goal with |- wp _ _ ?w' => replace w' with (set_containers <[k := MkContainer h' t p]> (set_messages (fun _ => q) w)) end.
      2:{ destruct w. unfold set_containers. simpl. by rewrite insert_insert_eq. }
      eapply (wp_delete_delegate k d q w c); [done..|by right|]. cbn [heap]. intros Hn. left.
      destruct Hcases as [(_ & _ & [->|(? & ? & _ & [=] & _)])|[(top & -> & -> & ->)| ->]]; [by destruct Hn| |by destruct Hn].
      split; [done|eauto].
    + wp_step. eapply (wp_delete_delegate k d q w c); [done..|by right|]. cbn [heap]. intros Hn.
      destruct r0 as [prior|]; [|by simpl in Hr0; rewrite Hr0 in Hp; apply Permutation_nil_cons in Hp].
      destruct (v_armed w V k c Hc) as [[Hpol Har]|Hun]; [by intros E; rewrite E in Hr0; destruct Hr0 as [?%elem_of_nil _]| |by right].
      left. split; [done|]. eapply (earliest_take (elements (mTree (heap c)))); [by apply hrep_ok|exact Hp|exact Har|exact Hr0|congruence].
Qed.

(** Only the stage of the expiration changes. *)
Lemma Inv_stage w k now s s' : Inv w -> expiring w = Some (k, now, s) ->
  match s' with
  | Popped (Some d) => is_Some (delegates w !! d)
  | Calling (Some c) | Destroying c => is_Some (timers w !! c)
  | _ => True
  end -> Inv (set_expiring (Some (k, now, s')) w).
Proof.
  intros V Ex Hs. split; simpl; try by apply V.
  - intros j now' s'' [= <- <- <-]. split; [by destruct (v_stage w V _ _ _ Ex)|done].
  - intros j c Hc Hne. destruct (v_armed w V j c Hc Hne) as [|[?|[?|(? & ? & Hj)]]]; [by left|right..].
    + by left.
    + by right; left.
    + right; right. simpl. rewrite Ex in Hj. injection Hj as <- _ _. eauto.
Qed.

Lemma ok_clock w : Inv w -> ok_now (clock w / 10 ^ 9, clock w mod 10 ^ 9).
Proof.
  intros V. pose proof (v_clock w V) as Hc. unfold MAX_CLOCK in Hc. split; simpl.
  - split; [apply Z.div_pos; lia|apply Z.div_lt_upper_bound; lia].
  - by apply Z.mod_pos_bound.
Qed.

Lemma wp_proc_expire k q w : Inv w -> expiring w = None -> messages w = MsgTimerExpire k :: q ->
  wp (proc (MsgTimerExpire k)) (fun _ => Inv) (set_messages (fun _ => q) w).
Proof.
  intros V Ex Em. pose proof (v_life w V) as L. rewrite Em in L. apply life_drop_expire in L as [L [c Hc]].
  pose proof (v_heap w V k c Hc) as Hh. pose proof (heap_live_at w k c V Hc) as Hlive.
  cbn [proc]. wp_step. wp_step. wp_step. apply (wp_on_heap k _ _ c); [exact Hc|exact Hlive|].
  eapply wp_pop; [apply _|exact Hh|by apply (heap_room w k c)| |].
  - intros Hn. rewrite set_containers_id by exact Hc. wp_step.
    apply (Inv_container w _ k c c); try done; try by apply V; simpl.
    + by rewrite insert_id.
    + eapply life_equiv; [exact L| |done]. intros j. destruct (decide (j = k)) as [->|]; [|done]. by rewrite (heap_data_at w k c Hc).
    + intros j now s [= <- <- <-]. split; [split; [by eexists|by apply ok_clock]|done].
    + intros j Hj [Hm|[?|(now & s & ?)]]; [left|by right; left|congruence]. rewrite Em in Hm.
      by apply elem_of_cons in Hm as [[= ->]|?].
  - intros d h' ds' _ Hh' Hp. wp_step. pose proof (hrep_self _ _ Hh') as Hs. rewrite <- (hr_elements _ _ _ _ Hh') in Hp.
    eapply (Inv_taken w _ k c d h'); try done; [by right|intros; congruence|].
    eexists. split; [by apply ok_clock|done].
Qed.

Lemma Inv_called f w : Inv w -> Inv (set_called f w).
Proof. intros []. by split. Qed.

Lemma wp_popIfOutRanks k now w c (Q : option dptr -> World -> Prop) : Inv w -> containers w !! k = Some c ->
  (forall top, highest ranks (elements (mTree (heap c))) top ->
    match top with None => True | Some top => 0 < rank_times now (mFutureTime top) end -> Q None w) ->
  (forall d h', highest ranks (elements (mTree (heap c))) (Some d) -> rank_times now (mFutureTime d) <= 0 ->
    hrep ranks ok_time h' (elements (mTree h')) -> elements (mTree (heap c)) ≡ₚ d :: elements (mTree h') ->
    Q (Some d) (set_containers <[k := MkContainer h' (timerfd c) (polled c)]> w)) ->
  wp (popIfOutRanks k now) Q w.
Proof.
  intros V Hc Hn Hd. pose proof (v_heap w V k c Hc) as Hh. unfold popIfOutRanks. wp_step.
  eapply wp_peek_on; [exact Hc|exact (heap_live_at w k c V Hc)|done|]. intros [top|] Htop; cbv beta; [|wp_step; by eapply Hn].
  destruct (0 <? rank_times now (mFutureTime top)) eqn:E; cbn [negb]; [wp_step; eapply Hn; [exact Htop|cbn; lia]|].
  eapply wp_pop_on; [done|exact Hc|by intros E'; rewrite E' in Htop; destruct Htop as [?%elem_of_nil _]|].
  intros d h' Hh' Hr Hp. apply Hd; [done| |done|done].
  assert (mFutureTime d = mFutureTime top) as ->; [|lia].
  pose proof (hrep_ok _ Hh) as Ha. rewrite Forall_forall in Ha. destruct Htop as [? ?], Hh' as [? ?]. apply same_time; auto.
Qed.

Lemma wp_destroy c w t (Q : unit -> World -> Prop) : Inv w -> timers w !! c = Some t ->
  (mCb t = false -> Q tt w) ->
  (forall w', expiring w' = expiring w -> (forall e, stage_after w c e -> Inv (set_expiring e w')) -> Q tt w') ->
  wp (destroy c) Q w.
Proof.
  intros V Hc Hn HQ. unfold destroy. wp_step. wp_step. wp_step. wp_step.
  destruct (mCb t); [by eapply wp_delete_timer|by wp_step; apply Hn].
Qed.

Lemma wp_expire_step k now s w : Inv w -> expiring w = Some (k, now, s) -> wp (expire_step k now s) (fun _ => Inv) w.
Proof.
  intros V Ex. destruct (v_stage w V k now s Ex) as [[[ck Hck] Hnow] Hst]. pose proof (v_heap w V k ck Hck) as Hh.
  destruct s as [[d|]|[c|]|c|]; cbn [expire_step].
  - destruct Hst as [x Hx]. wp_step. wp_step. wp_step. wp_step. wp_step. eapply Inv_stage; [done..|].
    destruct (mClient x) as [c|] eqn:Em; [|done].
    destruct (l_delegate _ _ _ _ _ _ (v_life w V) d x Hx) as [_ [(? & _)|(c' & k' & t & -> & _ & Ht & _)]]; [congruence|].
    injection Em as ->. by eexists.
  - wp_step. eapply wp_updateSoonestTime; [exact Hck|exact (heap_live_at w k ck V Hck)|done|done|].
    intros r t p Hr Hcases. wp_step. apply (Inv_container w _ k ck (MkContainer (heap ck) t p)); try done; try by apply V.
    + eapply life_equiv; [apply (v_life w V)| |done]. intros j. destruct (decide (j = k)) as [->|]; [|done].
      by rewrite (heap_data_at w k ck Hck).
    + intros j Hj [?|[?|(? & ? & ?)]]; [by left|by right; left|congruence].
    + cbn [heap timerfd polled]. intros Hne. left. destruct Hcases as [(_ & _ & [->|(? & ? & _ & [=] & _)])|[(top & -> & -> & ->)| ->]]; [done| |done].
      split; [done|eauto].
  - destruct Hst as [t Ht]. wp_step. apply (wp_timer_stop c w t _ V Ht).
    + intros _. wp_step. by eapply Inv_stage.
    + intros d k' Htd V1. wp_step. wp_step. wp_step. eapply wp_deref; [apply stopped_timer|]. wp_step. wp_step. wp_step. cbn [mCb].
      eapply (Inv_stage _ k now (Calling (Some c))); [by apply Inv_called|done|].
      destruct (mCb t); [|done]. simpl. rewrite lookup_insert_eq. by eexists.
  - wp_step. by eapply Inv_stage.
  - destruct Hst as [t Ht]. wp_step. apply (wp_destroy c w t _ V Ht).
    + intros _. wp_step. by eapply Inv_stage.
    + intros w' Ew HV. wp_step. apply HV. right. by exists k, now, (Destroying c).
  - wp_step. eapply wp_popIfOutRanks; [done|exact Hck| |].
    + intros top _ _. wp_step. by eapply Inv_stage.
    + intros d h' _ _ Hr Hp. wp_step. eapply (Inv_taken w _ k ck d h'); try done; [by left| |by exists now].
      intros j now' s' Hs. rewrite Ex in Hs. by injection Hs as <- _ _.
Qed.

Lemma wp_msg_step w : Inv w -> wp msg_step (fun _ => Inv) w.
Proof.
  intros V. unfold msg_step. wp_step. wp_step. destruct (expiring w) as [[[k now] s]|] eqn:Ex; [by apply wp_expire_step|].
  destruct (messages w) as [|m q] eqn:Em; [by wp_step|]. wp_step. wp_step.
  destruct m; [by apply wp_proc_push|by apply wp_proc_remove|by apply wp_proc_expire].
Qed.

Lemma wp_poll_wait ks w : Inv w -> wp (poll_wait ks) (fun _ => Inv) w.
Proof.
  intros V. unfold poll_wait. wp_step. wp_step. destruct (events w) eqn:Ee; [|by wp_step].
  destruct (forallb (ready w) ks) eqn:Er; [|by wp_step]. wp_step. split; simpl; try by apply V.
  - intros k Hk%list_elem_of_In. rewrite forallb_forall in Er. apply Er in Hk. unfold ready in Hk.
    destruct (containers w !! k); [by eexists|done].
  - intros k c Hc Hne. destruct (v_armed w V k c Hc Hne) as [|[?|[Hk|?]]]; [by left|right; by left| |right; by right; right].
    rewrite Ee in Hk. by apply elem_of_nil in Hk.
Qed.

Lemma wp_poll_step w : Inv w -> wp poll_step (fun _ => Inv) w.
Proof.
  intros V. unfold poll_step. wp_step. wp_step. destruct (events w) as [|k ks] eqn:Ee; [by wp_step|].
  assert (Hk : k ∈ events w) by (rewrite Ee; left). destruct (v_events w V k Hk) as [c Hc].
  assert (Hfd : forall t p n, Inv (set_events (k :: ks) n (set_containers <[k := MkContainer (heap c) t p]> w))).
  { intros t p n. apply (Inv_container w _ k c (MkContainer (heap c) t p)); try done; try by apply V.
    - eapply life_equiv; [apply (v_life w V)| |done]. intros j. destruct (decide (j = k)) as [->|]; [|done].
      by rewrite (heap_data_at w k c Hc).
    - exact (v_heap w V k c Hc).
    - intros j Hj [?|[?|?]]; [by left|right; left; simpl; by rewrite <- Ee|by right; right].
    - intros _. right. right. left. left. }
  destruct (phase w) as [|[|n]].
  - wp_step. unfold settime. wp_step. wp_step. wp_step. wp_step. wp_step. wp_step. apply Hfd.
  - wp_step. unfold removePoll, set_poll. wp_step. wp_step. wp_step. wp_step. wp_step. wp_step. apply Hfd.
  - wp_step. unfold sendMsg. wp_step. wp_step. split; simpl; try by apply V.
    + apply life_send_expire; [apply (v_life w V)|by eexists].
    + intros j Hj. apply (v_events w V). rewrite Ee. by right.
    + intros j cj Hj Hne. destruct (v_armed w V j cj Hj Hne) as [|[?|[Hev|?]]]; [by left|right..].
      * left. simpl. apply elem_of_app. by left.
      * rewrite Ee in Hev. apply elem_of_cons in Hev as [->|?]; [left; simpl; apply elem_of_app; right; left|by right; left].
      * by right; right.
Qed.
