(* ===== verification/LocTimerProps.v ===== *)
(** * Theorems about the timers *)
From S2P Require Import Prelude LocHeap LocHeapProps LocTimer LocTimerSpec LocTimerInv.

(** What clients may do: use only timers they have not deleted, and not delete one
    that the message task is about to call; and the bounds of the clock and of the
    number of timers. *)
Definition allowed (w : World) (a : action) : Prop :=
  match a with
  | NewTimer => True
  | Start c ms _ _ => is_Some (timers w !! c) /\ 0 <= ms < 2 ^ 32 /\ room w
  | Stop c => is_Some (timers w !! c)
  | Delete c => is_Some (timers w !! c) /\ ~ busy w c
  | CStart _ _ _ _ => room w
  | CStop None => True
  | CStop (Some c) => is_Some (timers w !! c) /\ ~ busy w c
  | Tick n => 0 <= n /\ clock w + n < MAX_CLOCK
  | PollWait _ | PollStep | MsgStep => True
  end.

Inductive reachable (t0 : Z) : World -> Prop :=
  | reach_init : reachable t0 (init t0)
  | reach_step w a w' : reachable t0 w -> allowed w a -> act a w = Some (tt, w') -> reachable t0 w'.

Lemma Inv_init t0 : 0 < t0 < MAX_CLOCK -> Inv (init t0).
Proof.
  intros Ht. split; try done.
  - split; try done; try (intros; by (exfalso; eapply not_elem_of_nil)).
    + constructor.
    + intros k d [Hp|Hp]; by apply elem_of_nil in Hp.
    + constructor.
    + intros q1 k d q2 E. by destruct q1.
    + intros k d Hr. by apply elem_of_nil in Hr.
    + intros k Hr. by apply elem_of_nil in Hr.
  - intros k Hk. by apply elem_of_nil in Hk.
Qed.

Lemma wp_act a w : Inv w -> allowed w a -> wp (act a) (fun _ => Inv) w.
Proof.
  intros V Ha. destruct a as [|c ms k ok|c|c|ms cb k ok|[c|]|n|ks| |]; cbn [act allowed] in *.
  - wp_step. apply wp_new_timer; [done|]. intros. by wp_step.
  - destruct Ha as ([t Ht] & Hms & Hr). wp_step. apply (wp_start c ms k ok w t); try done; intros; by wp_step.
  - destruct Ha as [t Ht]. wp_step. apply (wp_timer_stop c w t); try done; intros; by wp_step.
  - destruct Ha as [[t Ht] Hb]. apply (wp_delete_timer c w t); try done. intros w' Ew HV.
    rewrite <- (set_expiring_id w'), Ew. apply HV. by left.
  - unfold loc_timer_start. wp_step. destruct cb; [|by repeat wp_step]. wp_step. apply wp_new_timer; [done|].
    intros w1 V1 Ht ED. wp_step. eapply wp_start; [done|exact Ht|by apply wrap_bounds| |].
    + unfold room in *. by rewrite ED.
    + intros b w2 V2 _. by repeat wp_step.
  - destruct Ha as [[t Ht] Hb]. unfold loc_timer_stop. wp_step. wp_step. apply (wp_destroy c w t); [done|done| |].
    + intros _. by repeat wp_step.
    + intros w' Ew HV. repeat wp_step. rewrite <- (set_expiring_id w'), Ew. apply HV. by left.
  - by repeat wp_step.
  - wp_step. pose proof (v_clock w V). destruct V. split; simpl; try done. lia.
  - by apply wp_poll_wait.
  - by apply wp_poll_step.
  - by apply wp_msg_step.
Qed.

Lemma reachable_Inv t0 w : 0 < t0 < MAX_CLOCK -> reachable t0 w -> Inv w.
Proof.
  intros Ht. induction 1 as [|w a w' _ IH Ha Hact]; [by apply Inv_init|].
  pose proof (wp_act a w IH Ha) as Hw. unfold wp in Hw. by rewrite Hact in Hw.
Qed.

(** C4. Timers are memory safe and leak nothing, whatever the interleaving of the
    clients, the message task and the poll thread, as long as a client does not delete its
    timer, nor stop one of the C interface, which deletes it, while the message task is
    delivering its expiration ([timer_races] has what happens then), there is room in the
    heaps, and clock and durations are in their ranges: every allowed action is
    defined; each delegate in a heap, or that a client or the message task holds,
    is not deleted; a client's timer runs for that client; a delegate that does
    not run has exactly one removal queued; and when the queue is empty and no
    timer runs, all delegates have been deleted and only the locks of the clients
    are left, each with one reference. *)
Theorem timers_safe (t0 : Z) (w : World) :
  0 < t0 < MAX_CLOCK -> reachable t0 w ->
  (forall a, allowed w a -> exists w', act a w = Some (tt, w') /\ reachable t0 w') /\
  (forall k d, d ∈ heap_data w k -> is_Some (delegates w !! d)) /\
  (forall k now d, expiring w = Some (k, now, Popped (Some d)) -> is_Some (delegates w !! d)) /\
  (forall c t d, timers w !! c = Some t -> mTimer t = Some d ->
     exists k, delegates w !! d = Some (MkDelegate (Some c) (Some k) c) /\ d ∉ removes (messages w)) /\
  (forall d x, delegates w !! d = Some x -> mClient x = None ->
     exists q1 q2, removes (messages w) = q1 ++ d :: q2 /\ d ∉ q1 ++ q2) /\
  (messages w = [] -> (forall c t, timers w !! c = Some t -> mTimer t = None) ->
     delegates w = ∅ /\ forall c, locks w !! c = if decide (is_Some (timers w !! c)) then Some 1 else None).
Proof.
  intros Ht Hr. pose proof (reachable_Inv t0 w Ht Hr) as V. pose proof (v_life w V) as L. split; [|split; [|split; [|split; [|split]]]].
  - intros a Ha. destruct (wp_elim _ _ _ (wp_act a w V Ha)) as ([] & w' & Hact & _). exists w'. split; [done|by econstructor].
  - intros k d. by apply heap_live.
  - intros k now d Hs. by destruct (v_stage w V _ _ _ Hs).
  - intros c t d Hc Htd. destruct (l_timer _ _ _ _ _ _ L c t Hc) as [_ [k Hk]%(fun H => H d Htd)]. exists k.
    split; [done|]. by eapply life_running.
  - intros d x Hd Hm. destruct (l_delegate _ _ _ _ _ _ L d x Hd) as [_ [(_ & _ & Hq)|(c & k & t & -> & _)]]; [|done].
    pose proof (l_removes _ _ _ _ _ _ L) as Hn. apply list_elem_of_split in Hq as (q1 & q2 & Hq). exists q1, q2.
    split; [done|]. rewrite Hq, <- Permutation_middle in Hn. by apply NoDup_cons in Hn as [? _].
  - intros Hq Hidle.
    assert (HD : delegates w = ∅).
    { apply map_empty. intros d. destruct (delegates w !! d) as [x|] eqn:Hd; [|done].
      destruct (l_delegate _ _ _ _ _ _ L d x Hd) as [_ [(_ & _ & Hrm)|(c & k & t & -> & _ & Hc & Htd)]].
      - rewrite Hq in Hrm. by apply elem_of_nil in Hrm.
      - by rewrite (Hidle c t Hc) in Htd. }
    split; [done|]. intros c. rewrite (v_locks w V c), HD. unfold refs, held. rewrite map_filter_empty, map_size_empty.
    by destruct (decide _).
Qed.

(** ** Expirations *)
Definition now_of (w : World) : timespec := (clock w / 10 ^ 9, clock w mod 10 ^ 9).

Lemma rank_now now d : ok_now now -> ok_time d -> 0 < rank_times now (mFutureTime d) <-> not_later (mFutureTime d) now = false.
Proof.
  intros [Hn1 Hn2] (Hd1 & Hd2 & _). unfold rank_times, not_later, mFutureTime.
  rewrite (to_int_id (d.2.1 - now.1)), (to_int_id (d.2.2 - now.2)) by lia. destruct (_ - _ =? 0) eqn:E; lia.
Qed.

Lemma not_later_highest ds top d now : Forall ok_time ds -> highest ranks ds (Some top) -> d ∈ ds ->
  not_later (mFutureTime d) now = true -> not_later (mFutureTime top) now = true.
Proof.
  intros Ha [Ht Hh] Hd. rewrite Forall_forall in Ha. pose proof (Hh d Hd) as Hr.
  rewrite <- not_true_iff_false, outRanks_earlier in Hr by auto. unfold not_later, mFutureTime. lia.
Qed.

(** C13. No timer is missed.  Whenever a timer in a container is due, an expiration
    of the container is queued or under way, or else [epoll_wait] returns the
    container.  The loop of an expiration then takes out exactly what is due: it
    goes on with a timer only if that is due, and ends only when nothing left in
    the container is. *)
Theorem timers_on_time (t0 : Z) (w : World) :
  0 < t0 < MAX_CLOCK -> reachable t0 w ->
  (forall k d, d ∈ heap_data w k -> not_later (mFutureTime d) (now_of w) = true ->
     ready w k = true \/ under_way w k) /\
  (forall k now, expiring w = Some (k, now, Next) ->
     wp msg_step (fun _ w' => exists timer, expiring w' = Some (k, now, Popped timer) /\
       match timer with
       | Some d => d ∈ heap_data w k /\ not_later (mFutureTime d) now = true
       | None => forall d, d ∈ heap_data w' k -> not_later (mFutureTime d) now = false
       end) w).
Proof.
  intros Ht Hr. pose proof (reachable_Inv t0 w Ht Hr) as V. split.
  - intros k d Hd Hdue. destruct (containers w !! k) as [c|] eqn:Hc; [|unfold heap_data in Hd; rewrite Hc in Hd; by apply elem_of_nil in Hd].
    rewrite (heap_data_at w k c Hc) in Hd.
    destruct (v_armed w V k c Hc) as [[Hpol (top & Htop & Hfd)]|?]; [by intros E; rewrite E in Hd; apply elem_of_nil in Hd|left|by right].
    unfold ready. rewrite Hc. destruct c as [h fd p]. simpl in *. subst fd p.
    eapply not_later_highest; [by apply hrep_ok, (v_heap w V k _ Hc)|exact Htop|exact Hd|exact Hdue].
  - intros k now Ex. destruct (v_stage w V k now Next Ex) as [[[c Hc] Hnow] _].
    pose proof (hrep_ok _ (v_heap w V k c Hc)) as Hok.
    unfold msg_step. wp_step. wp_step. rewrite Ex. cbn [expire_step]. wp_step.
    eapply wp_popIfOutRanks; [done|exact Hc| |].
    + intros top Htop Hlate. wp_step. exists None. split; [done|]. change (heap_data _ k) with (heap_data w k).
      rewrite (heap_data_at w k c Hc). intros d Hd. destruct top as [top|]; [|by simpl in Htop; rewrite Htop in Hd; apply elem_of_nil in Hd].
      assert (Htopok : ok_time top) by (rewrite Forall_forall in Hok; apply Hok, Htop).
      apply (rank_now now top Hnow Htopok) in Hlate.
      destruct (not_later (mFutureTime d) now) eqn:Ed; [|done]. by rewrite (not_later_highest _ top d now Hok Htop Hd Ed) in Hlate.
    + intros d h' Hh Hdue _ _. wp_step. exists (Some d). split; [done|]. rewrite (heap_data_at w k c Hc). split; [apply Hh|].
      assert (Hdok : ok_time d) by (rewrite Forall_forall in Hok; apply Hok, Hh).
      destruct (not_later (mFutureTime d) now) eqn:Ed; [done|]. apply (rank_now now d Hnow Hdok) in Ed. lia.
Qed.

(** ** Runs *)
Fixpoint acts (l : list action) : M unit := match l with [] => mret tt | a :: l => _ ← act a; acts l end.

(** The decidable part of [allowed], to replay runs. *)
Definition may (w : World) (a : action) : bool :=
  let idle c := bool_decide (is_Some (timers w !! c)) &&
    match expiring w with Some (_, _, Calling (Some c')) | Some (_, _, Destroying c') => negb (Nat.eqb c c') | _ => true end in
  let space := Z.of_nat (base.size (delegates w)) + 1 <? INT_MAX in
  match a with
  | Start c ms _ _ => bool_decide (is_Some (timers w !! c)) && (0 <=? ms) && (ms <? 2 ^ 32) && space
  | Stop c => bool_decide (is_Some (timers w !! c))
  | Delete c | CStop (Some c) => idle c
  | CStart _ _ _ _ => space
  | Tick n => (0 <=? n) && (clock w + n <? MAX_CLOCK)
  | _ => true
  end.
Fixpoint replay (w : World) (l : list action) : option World :=
  match l with
  | [] => Some w
  | a :: l => if may w a then match act a w with Some (_, w') => replay w' l | None => None end else None
  end.

Lemma may_allowed w a : may w a = true -> allowed w a.
Proof.
  assert (Hidle : forall c, match expiring w with Some (_, _, Calling (Some c')) | Some (_, _, Destroying c') => negb (Nat.eqb c c') | _ => true end = true ->
    ~ busy w c).
  { intros c Hm (k & now & [Ex|Ex]); rewrite Ex in Hm; by rewrite Nat.eqb_refl in Hm. }
  unfold may, allowed, room. destruct a as [|c ms k ok|c|c|ms cb k ok|[c|]|n|ks| |]; rewrite ?andb_true_iff, ?bool_decide_eq_true; intros; try done.
  - destruct H as [[[? ?] ?] ?]. repeat split; try done; lia.
  - destruct H. auto.
  - lia.
  - destruct H. auto.
  - destruct H. lia.
Qed.

Lemma replay_reachable t0 w l w' : reachable t0 w -> replay w l = Some w' -> reachable t0 w'.
Proof.
  revert w. induction l as [|a l IH]; intros w Hw Hl; simpl in Hl; [by injection Hl as <-|].
  destruct (may w a) eqn:Em; [|done]. destruct (act a w) as [[[] w1]|] eqn:Ea; [|done].
  apply (IH w1); [|done]. econstructor; [done|by apply may_allowed|done].
Qed.

Definition ms : Z := 1000000.
(** One timer is started for 5 ms; when the kernel timer has expired it is stopped
    and another is started for 100 s. *)
Definition early_run : list action :=
  [NewTimer; NewTimer; Start 0 5 false created; MsgStep; Tick (5 * ms); PollWait [false]; Stop 0; Start 1 100000 false created;
   PollStep; PollStep; PollStep; MsgStep; MsgStep; MsgStep; MsgStep; MsgStep].
(** The message task has read the client of an expired timer; before it calls
    [stop] the client deletes the timer. *)
Definition race_run : list action :=
  [NewTimer; Start 0 5 false created; MsgStep; Tick (5 * ms); PollWait [false]; PollStep; PollStep; PollStep; MsgStep; MsgStep].

(** Two races.  An expiration pops the first timer of the heap without looking
    at its time: a timer of 100 s started while the expiration of another is under
    way, which is stopped, calls back 0 ms later.  And the message task reads the
    client of an expired timer without its lock: a client that deletes its timer
    right then is used after it was deleted. *)
Theorem timer_races :
  (exists w, reachable 1 w /\ replay (init 1) early_run = Some w /\ called w = [(1%nat, 1 + 5 * ms)]) /\
  (exists w, reachable 1 w /\ replay (init 1) race_run = Some w /\ is_Some (timers w !! 0%nat) /\
     acts [Delete 0; MsgStep] w = None).
Proof.
  split.
  - eexists. match goal with |- _ /\ ?b => assert (Hb : b) end.
    { split; [vm_compute; reflexivity|vm_compute; reflexivity]. }
    split; [|exact Hb]. eapply replay_reachable; [constructor|exact (proj1 Hb)].
  - eexists. match goal with |- _ /\ ?b => assert (Hb : b) end.
    { split; [vm_compute; reflexivity|]. split; [vm_compute; by eexists|vm_compute; reflexivity]. }
    split; [|exact Hb]. eapply replay_reachable; [constructor|exact (proj1 Hb)].
Qed.

(** The timer of [race_run], about to be expired. *)
Definition demo_world : World := default (init 1) (replay (init 1) (take 9 race_run)).
Lemma demo_world_reachable : reachable 1 demo_world.
Proof. apply (replay_reachable 1 (init 1) (take 9 race_run)); [constructor|vm_compute; reflexivity]. Defined.

Lemma timers_safe_witness :
  exists d, expiring demo_world = Some (false, (0, 5000001), Popped (Some d)) /\ is_Some (delegates demo_world !! d) /\
    exists w', act MsgStep demo_world = Some (tt, w') /\ reachable 1 w'.
Proof.
  pose proof (timers_safe 1 demo_world ltac:(vm_compute; split; reflexivity) demo_world_reachable) as (Ha & _ & Hp & _).
  eexists. split; [vm_compute; reflexivity|]. split; [eapply Hp; vm_compute; reflexivity|]. by apply (Ha MsgStep).
Defined.

(** A timer of 5 ms, when it is due. *)
Lemma timers_on_time_witness :
  let w := default (init 1) (replay (init 1) [NewTimer; Start 0 5 false created; MsgStep; Tick (5 * ms)]) in
  ready w false = true \/ under_way w false.
Proof.
  intros w. assert (Hw : reachable 1 w).
  { apply (replay_reachable 1 (init 1) [NewTimer; Start 0 5 false created; MsgStep; Tick (5 * ms)]); [constructor|vm_compute; reflexivity]. }
  destruct (timers_on_time 1 w ltac:(vm_compute; split; reflexivity) Hw) as [H _].
  apply (H false (1%nat, (0, 5000001))); [|vm_compute; reflexivity].
  assert (heap_data w false = [(1%nat, (0, 5000001))]) as -> by (vm_compute; reflexivity). left.
Defined.
