(* ===== verification/SkipList.v ===== *)
(** * The skip list ([src/gps/utils/SkipList.h])

    A list of nodes, each with a level and an iterator to the next node of its level, and
    for each level the iterators to its first and last node.  An iterator is the place of a
    node, [None] is [end()]; places are not used twice, so that an iterator to an erased
    node is one that finds nothing, and using it is undefined ([None]), as is an index out
    of a vector.  [vector] and [list] do not run out of memory. *)
From S2P Require Import Prelude.
#[local] Open Scope Z_scope.

(** ** Vectors indexed by a level *)
Definition vec_get {A} (v : list A) (level : Z) : option A := if level <? 0 then None else v !! Z.to_nat level.
Definition vec_set {A} (v : list A) (level : Z) (x : A) : option (list A) :=
  _ ← vec_get v level; Some (<[Z.to_nat level := x]> v).

Section SkipList.
Context {T : Type}.

Abbreviation NodeIterator := (option Z).
Record SkipNode := MkNode { mLevel : Z; mData : T; mNextInLevel : NodeIterator }.
Record SkipList := MkSkipList {
  mMainList : list (Z * SkipNode);      (* with their places *)
  mHeadVec : list NodeIterator;
  mTailVec : list NodeIterator;
  next_place : Z;
}.
Definition new_SkipList (totalLevels : Z) : SkipList :=
  MkSkipList [] (replicate (Z.to_nat totalLevels) None) (replicate (Z.to_nat totalLevels) None) 0.

(** What an iterator points to. *)
Fixpoint find_node (k : Z) (l : list (Z * SkipNode)) : option SkipNode :=
  match l with
  | [] => None
  | (k', x) :: l => if k =? k' then Some x else find_node k l
  end.
Definition node_at (it : NodeIterator) (S : SkipList) : option SkipNode := k ← it; find_node k (mMainList S).
Definition set_next (k : Z) (next : NodeIterator) (l : list (Z * SkipNode)) : list (Z * SkipNode) :=
  (fun e => if e.1 =? k then (e.1, MkNode (mLevel e.2) (mData e.2) next) else e) <$> l.
Definition erase (k : Z) (l : list (Z * SkipNode)) : list (Z * SkipNode) := filter (fun e => e.1 <> k) l.

Definition append (data : T) (level : Z) (S : SkipList) : option SkipList :=
  if (level <? 0) || (Z.of_nat (length (mHeadVec S)) <=? level) then Some S
  else
    let iter := next_place S in
    let main := mMainList S ++ [(iter, MkNode level data None)] in
    head ← vec_get (mHeadVec S) level;
    '(main, heads) ← match head with
      | None => heads ← vec_set (mHeadVec S) level (Some iter); Some (main, heads)
      | Some _ =>
          tail ← vec_get (mTailVec S) level; k ← tail; _ ← find_node k main;
          Some (set_next k (Some iter) main, mHeadVec S)
      end;
    tails ← vec_set (mTailVec S) level (Some iter);
    Some (MkSkipList main heads tails (iter + 1)).

Definition pop_level (level : Z) (S : SkipList) : option SkipList :=
  head ← vec_get (mHeadVec S) level;
  match head with
  | None => Some S
  | Some k =>
      node ← node_at head S;
      tails ← match mNextInLevel node with None => vec_set (mTailVec S) level None | Some _ => Some (mTailVec S) end;
      heads ← vec_set (mHeadVec S) level (mNextInLevel node);
      Some (MkSkipList (erase k (mMainList S)) heads tails (next_place S))
  end.
(** [front()] of an empty list is undefined. *)
Definition pop (S : SkipList) : option SkipList :=
  e ← head (mMainList S); pop_level (mLevel e.2) S.
Definition front (level : Z) (S : SkipList) : option T :=
  it ← vec_get (mHeadVec S) level; mData <$> node_at it S.
(** [int] of a [size_t]. *)
Definition int_of (n : nat) : Z := (Z.of_nat n + 2 ^ 31) mod 2 ^ 32 - 2 ^ 31.
Definition size (S : SkipList) : Z := int_of (length (mMainList S)).
Definition flush (S : SkipList) : SkipList :=
  MkSkipList [] (replicate (length (mHeadVec S)) None) (replicate (length (mTailVec S)) None) (next_place S).
Definition dump (S : SkipList) : list (T * Z) := (fun e => (mData e.2, mLevel e.2)) <$> mMainList S.
(** Each turn of the loop goes to a later node, so there are at most as many as nodes. *)
Fixpoint dump_loop (turns : nat) (head : NodeIterator) (S : SkipList) : option (list (T * Z)) :=
  match head with
  | None => Some []
  | Some _ =>
      match turns with
      | O => None
      | Datatypes.S turns => node ← node_at head S; li ← dump_loop turns (mNextInLevel node) S; Some ((mData node, mLevel node) :: li)
      end
  end.
Definition dump_level (level : Z) (S : SkipList) : option (list (T * Z)) :=
  head ← vec_get (mHeadVec S) level; dump_loop (length (mMainList S)) head S.

(** ** Calls *)
Inductive Op :=
  | op_append (data : T) (level : Z) | op_pop_level (level : Z) | op_pop | op_front (level : Z)
  | op_size | op_flush | op_dump | op_dump_level (level : Z).
Inductive Out := out_unit | out_data (data : T) | out_size (n : Z) | out_list (li : list (T * Z)).
Definition call (o : Op) (S : SkipList) : option (Out * SkipList) :=
  match o with
  | op_append d l => S' ← append d l S; Some (out_unit, S')
  | op_pop_level l => S' ← pop_level l S; Some (out_unit, S')
  | op_pop => S' ← pop S; Some (out_unit, S')
  | op_front l => d ← front l S; Some (out_data d, S)
  | op_size => Some (out_size (size S), S)
  | op_flush => Some (out_unit, flush S)
  | op_dump => Some (out_list (dump S), S)
  | op_dump_level l => li ← dump_level l S; Some (out_list li, S)
  end.
Fixpoint calls (ops : list Op) (S : SkipList) : option (list Out) :=
  match ops with
  | [] => Some []
  | o :: ops => '(out, S) ← call o S; outs ← calls ops S; Some (out :: outs)
  end.
End SkipList.
Arguments SkipNode : clear implicits.
Arguments SkipList : clear implicits.
Arguments Op : clear implicits.
Arguments Out : clear implicits.
