(* ===== verification/SkipListSpec.v ===== *)
(** * The skip list as a list of data with levels

    What [SkipList] promises: a list of data, each with its level, in the order they were
    appended; popping and looking at a level concern its first data.  The nodes of the code
    and its vectors are a function of that list and the places of the nodes ([rep]), and
    each operation keeps it so. *)
From S2P Require Import Prelude SkipList.
#[local] Open Scope Z_scope.

Lemma Forall_of_sublist {A} (P : A -> Prop) l k : l `sublist_of` k -> Forall P k -> Forall P l.
Proof. rewrite !Forall_forall. intros Hs Hk x Hx. by eapply Hk, elem_of_sublist. Qed.

Section Spec.
Context {T : Type} (n : Z).

(** ** The specification *)
Abbreviation Contents := (list (T * Z)).
Definition in_range (level : Z) : Prop := 0 <= level < n.
#[export] Instance in_range_dec level : Decision (in_range level).
Proof. unfold in_range. apply _. Defined.
Fixpoint remove_first (level : Z) (xs : Contents) : Contents :=
  match xs with
  | [] => []
  | (d, l) :: xs => if l =? level then xs else (d, l) :: remove_first level xs
  end.
Definition of_level (level : Z) (xs : Contents) : Contents := filter (fun e => e.2 = level) xs.
Definition spec_call (o : Op T) (xs : Contents) : option (Out T * Contents) :=
  match o with
  | op_append d l => Some (out_unit, if decide (in_range l) then xs ++ [(d, l)] else xs)
  | op_pop_level l => if decide (in_range l) then Some (out_unit, remove_first l xs) else None
  | op_pop => match xs with [] => None | _ :: xs => Some (out_unit, xs) end
  | op_front l => e ← head (of_level l xs); Some (out_data e.1, xs)
  | op_size => Some (out_size (int_of (length xs)), xs)
  | op_flush => Some (out_unit, [])
  | op_dump => Some (out_list xs, xs)
  | op_dump_level l => if decide (in_range l) then Some (out_list (of_level l xs), xs) else None
  end.
Fixpoint spec_calls (ops : list (Op T)) (xs : Contents) : option (list (Out T)) :=
  match ops with
  | [] => Some []
  | o :: ops => '(out, xs) ← spec_call o xs; outs ← spec_calls ops xs; Some (out :: outs)
  end.

(** ** The representation *)
Abbreviation Placed := (list (Z * (T * Z))).
Fixpoint first_of (level : Z) (ps : Placed) : option Z :=
  match ps with
  | [] => None
  | (k, (_, l)) :: ps => if l =? level then Some k else first_of level ps
  end.
Fixpoint last_of (level : Z) (ps : Placed) : option Z :=
  match ps with
  | [] => None
  | (k, (_, l)) :: ps => match last_of level ps with Some k => Some k | None => if l =? level then Some k else None end
  end.
Fixpoint nodes (ps : Placed) : list (Z * SkipNode T) :=
  match ps with
  | [] => []
  | (k, (d, l)) :: ps => (k, MkNode l d (first_of l ps)) :: nodes ps
  end.
Fixpoint drop_first (level : Z) (ps : Placed) : Placed :=
  match ps with
  | [] => []
  | (k, (d, l)) :: ps => if l =? level then ps else (k, (d, l)) :: drop_first level ps
  end.
Record rep (S : SkipList T) (ps : Placed) : Prop := MkRep {
  rep_main : mMainList S = nodes ps;
  rep_head : mHeadVec S = (fun l => first_of l ps) <$> seqZ 0 n;
  rep_tail : mTailVec S = (fun l => last_of l ps) <$> seqZ 0 n;
  rep_nodup : NoDup ps.*1;
  rep_fresh : Forall (fun k => k < next_place S) ps.*1;
  rep_levels : Forall (fun e => in_range e.2) ps.*2;
}.

(** ** Vectors *)
Lemma vec_get_seq {A} (f : Z -> A) level : vec_get (f <$> seqZ 0 n) level = if decide (in_range level) then Some (f level) else None.
Proof.
  unfold vec_get, in_range. destruct (Z.ltb_spec level 0); [by rewrite decide_False by lia|].
  rewrite list_lookup_fmap. destruct (decide _) as [Hd|Hd].
  - rewrite lookup_seqZ_lt by lia. cbn. by rewrite Z2Nat.id by lia.
  - by rewrite lookup_seqZ_ge by lia.
Qed.
Lemma vec_set_seq {A} (f : Z -> A) level x : in_range level ->
  vec_set (f <$> seqZ 0 n) level x = Some ((fun i => if i =? level then x else f i) <$> seqZ 0 n).
Proof.
  intros Hl. unfold vec_set. rewrite vec_get_seq, decide_True by done. cbn. f_equal. unfold in_range in Hl.
  apply list_eq. intros i. destruct (decide (i = Z.to_nat level)) as [->|Hne].
  - rewrite list_lookup_insert_eq by (rewrite length_fmap, length_seqZ; lia). rewrite list_lookup_fmap, lookup_seqZ_lt by lia. cbn.
    by rewrite Z2Nat.id, Z.eqb_refl by lia.
  - rewrite list_lookup_insert_ne by done. rewrite !list_lookup_fmap. destruct (seqZ 0 n !! i) as [j|] eqn:E; [|done]. apply lookup_seqZ in E as [-> _]. cbn [fmap option_fmap option_map]. rewrite Z.add_0_l.
    by rewrite (proj2 (Z.eqb_neq (Z.of_nat i) level)) by lia.
Qed.
Lemma seq_ext {A} (f g : Z -> A) : (forall l, in_range l -> f l = g l) -> f <$> seqZ 0 n = g <$> seqZ 0 n.
Proof.
  intros H. apply list_fmap_ext. intros i l Hl. apply lookup_seqZ in Hl as [-> Hi]. apply H. unfold in_range. lia.
Qed.
Lemma seq_const (m : nat) : 0 <= n -> m = Z.to_nat n -> replicate m None = (fun _ : Z => @None Z) <$> seqZ 0 n.
Proof.
  intros Hn ->. apply list_eq. intros i. rewrite list_lookup_fmap. destruct (decide (Z.of_nat i < n)).
  - rewrite lookup_seqZ_lt, lookup_replicate_2 by lia. done.
  - rewrite lookup_seqZ_ge by lia. cbn. apply lookup_ge_None. rewrite length_replicate. lia.
Qed.

(** ** Levels of a list *)
Lemma first_elem l ps k : first_of l ps = Some k -> k ∈ ps.*1.
Proof. induction ps as [|[k' [d l']] ps IH]; cbn; [done|]. case_match; [intros [= ->]; left|intros H'; right; auto]. Qed.
Lemma last_elem l ps k : last_of l ps = Some k -> k ∈ ps.*1.
Proof. induction ps as [|[k' [d l']] ps IH]; cbn; [done|]. destruct (last_of l ps) as [k''|]; [intros [= ->]; right; auto|]. case_match; [intros [= ->]; left|done]. Qed.
Lemma last_none l ps : last_of l ps = None <-> first_of l ps = None.
Proof. induction ps as [|[k' [d l']] ps IH]; cbn; [done|]. destruct (last_of l ps), (l' =? l); rewrite <- ?IH; split; done. Qed.
Lemma first_of_app l ps qs : first_of l (ps ++ qs) = match first_of l ps with Some k => Some k | None => first_of l qs end.
Proof. induction ps as [|[k' [d l']] ps IH]; cbn; [done|]. by destruct (l' =? l). Qed.
Lemma last_of_app l ps qs : last_of l (ps ++ qs) = match last_of l qs with Some k => Some k | None => last_of l ps end.
Proof. induction ps as [|[k' [d l']] ps IH]; cbn; [by destruct (last_of l qs)|]. rewrite IH. by destruct (last_of l qs). Qed.
Lemma nodes_fst ps : (nodes ps).*1 = ps.*1.
Proof. induction ps as [|[k [d l]] ps IH]; cbn; congruence. Qed.
Lemma nodes_dump ps : (fun e => (mData e.2, mLevel e.2)) <$> nodes ps = ps.*2.
Proof. induction ps as [|[k [d l]] ps IH]; cbn; congruence. Qed.
Lemma length_nodes ps : length (nodes ps) = length ps.*2.
Proof. induction ps as [|[k [d l]] ps IH]; cbn; congruence. Qed.
Lemma find_first l ps k : NoDup ps.*1 -> first_of l ps = Some k ->
  exists qs d rs, ps = qs ++ (k, (d, l)) :: rs /\ first_of l qs = None /\ find_node k (nodes ps) = Some (MkNode l d (first_of l rs)).
Proof.
  induction ps as [|[k' [d' l']] ps IH]; cbn; [done|]. intros [Hk Hnd]%NoDup_cons. destruct (Z.eqb_spec l' l) as [->|Hne].
  - intros [= ->]. exists [], d', ps. rewrite Z.eqb_refl. done.
  - intros Hf. destruct (IH Hnd Hf) as (qs & d & rs & -> & Hq & Hn). exists ((k', (d', l')) :: qs), d, rs. cbn.
    rewrite (proj2 (Z.eqb_neq l' l)) by done. rewrite (proj2 (Z.eqb_neq k k')); [done|]. intros ->. by apply Hk, (first_elem l).
Qed.
Lemma drop_app l qs k d rs : first_of l qs = None -> drop_first l (qs ++ (k, (d, l)) :: rs) = qs ++ rs.
Proof. induction qs as [|[k' [d' l']] qs IH]; cbn; [by rewrite Z.eqb_refl|]. case_match; [done|]. intros. by rewrite IH. Qed.
Lemma drop_data l ps : (drop_first l ps).*2 = remove_first l ps.*2.
Proof. induction ps as [|[k [d l']] ps IH]; cbn; [done|]. case_match; cbn; congruence. Qed.

(** ** The operations *)
Lemma set_next_absent k next ps : k ∉ ps.*1 -> set_next k next (nodes ps) = nodes ps.
Proof.
  induction ps as [|[k' [d l]] ps IH]; [done|]. cbn [fmap list_fmap fst]. rewrite not_elem_of_cons. intros [Hne Hk]. cbn. unfold set_next in IH. rewrite IH by done.
  by rewrite (proj2 (Z.eqb_neq k' k)) by done.
Qed.
Lemma nodes_append ps k d l : NoDup ps.*1 -> k ∉ ps.*1 ->
  nodes (ps ++ [(k, (d, l))]) = match last_of l ps with Some t => set_next t (Some k) (nodes ps) | None => nodes ps end ++ [(k, MkNode l d None)].
Proof.
  induction ps as [|[k' [d' l']] ps IH]; [done|]. cbn [fmap list_fmap fst app nodes last_of]. rewrite NoDup_cons, not_elem_of_cons.
  intros [Hk' Hnd] [Hne Hk]. rewrite first_of_app. cbn [first_of]. rewrite IH by done. destruct (last_of l ps) as [t|] eqn:Ht.
  - cbn [set_next fmap list_fmap fst snd app]. rewrite (proj2 (Z.eqb_neq k' t)) by (intros ->; by apply Hk', (last_elem l)).
    cbn [app]. f_equal. f_equal. f_equal. destruct (first_of l' ps) as [f|] eqn:Hf; [done|].
    destruct (Z.eqb_spec l l') as [->|]; [|done]. apply last_none in Hf. congruence.
  - apply last_none in Ht. destruct (Z.eqb_spec l' l) as [->|Hl].
    + cbn [set_next fmap list_fmap fst snd app mLevel mData]. rewrite Z.eqb_refl, Ht, Z.eqb_refl. fold (set_next (T:=T) k' (Some k) (nodes ps)). by rewrite set_next_absent.
    + cbn [app]. destruct (first_of l' ps); [done|]. by rewrite (proj2 (Z.eqb_neq l l')) by congruence.
Qed.
Lemma erase_absent k ps : k ∉ ps.*1 -> erase k (nodes ps) = nodes ps.
Proof.
  induction ps as [|[k' [d l]] ps IH]; [done|]. cbn [fmap list_fmap fst]. rewrite not_elem_of_cons. intros [Hne Hk]. cbn [nodes]. unfold erase in *.
  rewrite filter_cons_True by (cbn; congruence). by rewrite IH.
Qed.
Lemma first_drop l l' ps : l' <> l -> first_of l' (drop_first l ps) = first_of l' ps.
Proof.
  intros Hne. induction ps as [|[k [d j]] ps IH]; cbn; [done|]. destruct (Z.eqb_spec j l) as [->|].
  - by rewrite (proj2 (Z.eqb_neq l l')) by congruence.
  - cbn. by rewrite IH.
Qed.
Lemma last_drop l l' ps : l' <> l -> last_of l' (drop_first l ps) = last_of l' ps.
Proof.
  intros Hne. induction ps as [|[k [d j]] ps IH]; cbn; [done|]. destruct (Z.eqb_spec j l) as [->|].
  - rewrite (proj2 (Z.eqb_neq l l')) by congruence. by destruct (last_of l' ps).
  - cbn. by rewrite IH.
Qed.
Lemma erase_first l ps k : NoDup ps.*1 -> first_of l ps = Some k -> erase k (nodes ps) = nodes (drop_first l ps).
Proof.
  induction ps as [|[k' [d l']] ps IH]; [done|]. cbn [fmap list_fmap fst nodes first_of drop_first]. intros [Hk Hnd]%NoDup_cons.
  destruct (Z.eqb_spec l' l) as [->|Hne].
  - intros [= ->]. unfold erase. rewrite filter_cons_False by (cbn; tauto). by apply erase_absent.
  - intros Hf. cbn [nodes]. rewrite first_drop, <- IH by done. unfold erase. by rewrite filter_cons_True by (cbn; intros ->; by apply Hk, (first_elem l)).
Qed.
Lemma drop_sub l ps : drop_first l ps `sublist_of` ps.
Proof. induction ps as [|[k [d j]] ps IH]; cbn; [done|]. case_match; [by constructor|by constructor]. Qed.

Lemma find_node_elem k (l : list (Z * SkipNode T)) : k ∈ l.*1 -> is_Some (find_node k l).
Proof.
  induction l as [|[k' x] l IH]; cbn; [by intros ?%elem_of_nil|]. rewrite elem_of_cons. destruct (Z.eqb_spec k k'); [eauto|]. intros [?|?]; [done|auto].
Qed.
Lemma append_rep d l S ps : rep S ps -> exists S', append d l S = Some S' /\
  rep S' (if decide (in_range l) then ps ++ [(next_place S, (d, l))] else ps).
Proof.
  intros HR. destruct HR as [Hm Hh Ht Hnd Hf Hl]. unfold append. rewrite Hh, length_fmap, length_seqZ. destruct (decide (in_range l)) as [Hr|Hr].
  2:{ exists S. split; [|by split]. unfold in_range in Hr. destruct (Z.ltb_spec l 0); [done|]. by rewrite (proj2 (Z.leb_le _ l)) by lia. }
  assert (Hr' := Hr). unfold in_range in Hr'. rewrite (proj2 (Z.ltb_ge l 0)), (proj2 (Z.leb_gt _ l)) by lia. cbn [orb].
  rewrite vec_get_seq, decide_True by done. cbn [mbind option_bind].
  assert (Hk : next_place S ∉ ps.*1) by (intros Hin; rewrite Forall_forall in Hf; specialize (Hf _ Hin); lia).
  pose proof (nodes_append ps (next_place S) d l Hnd Hk) as Hna. rewrite Ht, vec_get_seq, decide_True, !vec_set_seq by done. cbn [mbind option_bind].
  set (ps' := ps ++ [(next_place S, (d, l))]) in *.
  assert (Hrep : forall main heads, main = nodes ps' -> heads = (fun i => first_of i ps') <$> seqZ 0 n ->
    rep (MkSkipList main heads ((fun i => if i =? l then Some (next_place S) else last_of i ps) <$> seqZ 0 n) (next_place S + 1)) ps').
  { intros main heads -> ->. split; cbn; [done|done| | | |].
    - apply seq_ext. intros i _. unfold ps'. rewrite last_of_app. cbn. rewrite (Z.eqb_sym l i). by destruct (i =? l).
    - unfold ps'. rewrite fmap_app. cbn. apply NoDup_app. split; [done|]. split; [|apply NoDup_singleton]. intros k Hin ->%list_elem_of_singleton. done.
    - unfold ps'. rewrite fmap_app. apply Forall_app. split; [eapply Forall_impl; [exact Hf|]; cbn; lia|repeat constructor; cbn; lia].
    - unfold ps'. rewrite fmap_app. apply Forall_app. split; [done|]. by apply Forall_singleton. }
  destruct (first_of l ps) as [h|] eqn:Hfst; cbn [mbind option_bind].
  - destruct (last_of l ps) as [t|] eqn:Hlst; [|apply last_none in Hlst; congruence]. cbn [mbind option_bind]. rewrite Hm.
    destruct (find_node_elem t (nodes ps ++ [(next_place S, MkNode l d None)])) as [x Hx].
    { rewrite fmap_app, nodes_fst. apply elem_of_app. left. by apply (last_elem l). }
    rewrite Hx. cbn [mbind option_bind]. eexists. split; [reflexivity|]. apply Hrep.
    + rewrite Hna. unfold set_next. rewrite fmap_app. cbn. f_equal. rewrite (proj2 (Z.eqb_neq (next_place S) t)); [done|]. intros <-. by apply Hk, (last_elem l).
    + apply seq_ext. intros i _. unfold ps'. rewrite first_of_app. cbn. destruct (Z.eqb_spec l i) as [<-|]; [by rewrite Hfst|by destruct (first_of i ps)].
  - eexists. split; [reflexivity|]. apply Hrep.
    + rewrite Hna, Hm. apply last_none in Hfst. by rewrite Hfst.
    + apply seq_ext. intros i _. unfold ps'. rewrite first_of_app. cbn. rewrite (Z.eqb_sym l i). destruct (Z.eqb_spec i l) as [->|]; [by rewrite Hfst|by destruct (first_of i ps)].
Qed.
Lemma pop_level_rep l S ps : rep S ps -> in_range l -> exists S', pop_level l S = Some S' /\ rep S' (drop_first l ps).
Proof.
  intros HR Hr. destruct HR as [Hm Hh Ht Hnd Hf Hl]. unfold pop_level. rewrite Hh, vec_get_seq, decide_True by done. cbn [mbind option_bind].
  destruct (first_of l ps) as [k|] eqn:Hk.
  2:{ exists S. split; [done|]. assert (drop_first l ps = ps) as ->; [|by split]. clear -Hk. induction ps as [|[k [d j]] ps IH]; cbn in *; [done|]. case_match; [done|]. by rewrite IH. }
  destruct (find_first l ps k Hnd Hk) as (qs & d & rs & Heq & Hq & Hn).
  unfold node_at. cbn [mbind option_bind]. rewrite Hm, Hn. cbn [mbind option_bind mNextInLevel].
  assert (Hdrop : drop_first l ps = qs ++ rs) by (rewrite Heq; by apply drop_app).
  assert (Htails : match first_of l rs with None => vec_set (mTailVec S) l None | Some _ => Some (mTailVec S) end =
      Some ((fun i => last_of i (drop_first l ps)) <$> seqZ 0 n)).
  { rewrite Ht. destruct (first_of l rs) as [k'|] eqn:Hrs.
    - f_equal. apply seq_ext. intros i _. destruct (decide (i = l)) as [->|Hne]; [|by rewrite last_drop].
      rewrite Hdrop, Heq, !last_of_app. cbn. destruct (last_of l rs) eqn:E; [done|]. apply last_none in E. congruence.
    - rewrite vec_set_seq by done. f_equal. apply seq_ext. intros i _. destruct (Z.eqb_spec i l) as [->|Hne]; [|by rewrite last_drop].
      rewrite Hdrop, last_of_app. apply last_none in Hrs, Hq. by rewrite Hrs, Hq. }
  rewrite Htails. cbn [mbind option_bind]. rewrite vec_set_seq by done. cbn [mbind option_bind]. eexists. split; [reflexivity|].
  pose proof (drop_sub l ps) as Hsub. split; cbn.
  - by apply (erase_first l).
  - apply seq_ext. intros i _. destruct (Z.eqb_spec i l) as [->|Hne]; [|by rewrite first_drop]. by rewrite Hdrop, first_of_app, Hq.
  - done.
  - eapply sublist_NoDup; [exact Hnd|by apply fmap_sublist].
  - eapply Forall_of_sublist; [by apply fmap_sublist|exact Hf].
  - eapply Forall_of_sublist; [by apply fmap_sublist|exact Hl].
Qed.
Lemma front_rep l S ps : rep S ps -> front l S = fst <$> head (of_level l ps.*2).
Proof.
  intros [Hm Hh _ Hnd _ Hl]. unfold front, of_level. rewrite Hh, vec_get_seq. destruct (decide (in_range l)) as [Hr|Hr]; cbn [mbind option_bind].
  - unfold node_at. rewrite Hm. clear -Hnd. induction ps as [|[k [d j]] ps IH]; [done|]. cbn [fmap list_fmap fst snd nodes first_of]. apply NoDup_cons in Hnd as [Hk Hnd].
    destruct (Z.eqb_spec j l) as [->|Hne].
    + rewrite filter_cons_True by done. cbn. by rewrite Z.eqb_refl.
    + rewrite filter_cons_False by done. etransitivity; [|by apply IH]. destruct (first_of l ps) as [k'|] eqn:E; [|done]. cbn.
      rewrite (proj2 (Z.eqb_neq k' k)); [done|]. intros ->. by apply Hk, (first_elem l).
  - assert (filter (fun e : T * Z => e.2 = l) ps.*2 = []) as ->; [|done].
    clear -Hl Hr. induction Hl as [|e xs He _ IH]; [done|]. rewrite filter_cons_False; [done|]. by intros <-.
Qed.
Lemma dump_loop_rep l ps qs S turns : mMainList S = nodes (qs ++ ps) -> NoDup (qs ++ ps).*1 -> (length ps <= turns)%nat ->
  dump_loop turns (first_of l ps) S = Some (of_level l ps.*2).
Proof.
  intros Hm Hnd. revert qs turns Hm Hnd. induction ps as [|[k [d j]] ps IH]; intros qs turns Hm Hnd Ht; [by destruct turns|].
  cbn [fmap list_fmap fst snd first_of]. unfold of_level. assert (Heq : qs ++ (k, (d, j)) :: ps = (qs ++ [(k, (d, j))]) ++ ps) by by rewrite <- app_assoc.
  destruct (Z.eqb_spec j l) as [->|Hne].
  - rewrite filter_cons_True by done. destruct turns as [|turns]; [cbn in Ht; lia|]. cbn [dump_loop].
    assert (Hn : node_at (Some k) S = Some (MkNode l d (first_of l ps))).
    { unfold node_at. cbn. rewrite Hm. clear -Hnd. induction qs as [|[k' [d' j']] qs IH]; cbn; [by rewrite Z.eqb_refl|]. cbn in Hnd. apply NoDup_cons in Hnd as [Hk Hnd].
      rewrite (proj2 (Z.eqb_neq k k')); [by apply IH|]. intros ->. apply Hk. rewrite fmap_app. apply elem_of_app. right. left. }
    rewrite Hn. cbn [mbind option_bind mNextInLevel]. rewrite (IH (qs ++ [(k, (d, l))]) turns); [done| | |cbn in Ht; lia]; by rewrite <- Heq.
  - rewrite filter_cons_False by done. rewrite (IH (qs ++ [(k, (d, j))]) turns); [done| | |cbn in Ht; lia]; by rewrite <- Heq.
Qed.
Lemma dump_level_rep l S ps : rep S ps -> dump_level l S = if decide (in_range l) then Some (of_level l ps.*2) else None.
Proof.
  intros [Hm Hh _ Hnd _ _]. unfold dump_level. rewrite Hh, vec_get_seq. destruct (decide _); [|done]. cbn [mbind option_bind].
  apply (dump_loop_rep l ps []); [done|done|]. by rewrite Hm, length_nodes, length_fmap.
Qed.
Lemma new_list_rep : 0 <= n -> rep (new_SkipList n) [].
Proof. intros Hn. split; cbn; [done|by apply seq_const|by apply seq_const|constructor|constructor|constructor]. Qed.
Lemma flush_rep S ps : 0 <= n -> rep S ps -> rep (flush S) [].
Proof.
  intros Hn [Hm Hh Ht _ _ _]. split; cbn; [done| | |constructor|constructor|constructor]; apply seq_const; try done.
  - by rewrite Hh, length_fmap, length_seqZ.
  - by rewrite Ht, length_fmap, length_seqZ.
Qed.
(** Each call does what the specification says, and is undefined when it is. *)
Lemma call_rep o S ps : 0 <= n -> rep S ps ->
  match spec_call o ps.*2 with
  | Some (out, xs) => exists S' ps', call o S = Some (out, S') /\ rep S' ps' /\ ps'.*2 = xs
  | None => call o S = None
  end.
Proof.
  intros Hn HR. destruct o as [d l|l| |l| | | |l]; cbn [spec_call call].
  - destruct (append_rep d l S ps HR) as (S' & -> & HR'). eexists _, _. split; [done|]. split; [exact HR'|]. case_decide; [by rewrite fmap_app|done].
  - destruct (decide (in_range l)) as [Hr|Hr].
    + destruct (pop_level_rep l S ps HR Hr) as (S' & -> & HR'). eexists _, _. split; [done|]. split; [exact HR'|]. apply drop_data.
    + unfold pop_level. by rewrite (rep_head _ _ HR), vec_get_seq, decide_False.
  - unfold pop. rewrite (rep_main _ _ HR). destruct ps as [|[k [d l]] ps]; [done|]. cbn [nodes head mbind option_bind snd mLevel fmap list_fmap].
    assert (Hr : in_range l) by (pose proof (rep_levels _ _ HR) as H; by apply Forall_cons in H as [? _]).
    destruct (pop_level_rep l S _ HR Hr) as (S' & -> & HR'). eexists _, _. split; [done|]. split; [exact HR'|]. cbn. by rewrite Z.eqb_refl.
  - rewrite (front_rep l S ps HR). destruct (head (of_level l ps.*2)) as [e|]; [|done]. cbn. eauto.
  - exists S, ps. split; [|done]. unfold size. by rewrite (rep_main _ _ HR), length_nodes.
  - exists (flush S), []. split; [done|]. split; [by apply (flush_rep S ps)|done].
  - exists S, ps. split; [|done]. unfold dump. by rewrite (rep_main _ _ HR), nodes_dump.
  - rewrite (dump_level_rep l S ps HR). case_decide; [|done]. exists S, ps. done.
Qed.
Lemma calls_rep ops S ps : 0 <= n -> rep S ps -> calls ops S = spec_calls ops ps.*2.
Proof.
  intros Hn. revert S ps. induction ops as [|o ops IH]; intros S ps HR; [done|]. cbn. pose proof (call_rep o S ps Hn HR) as Hc.
  destruct (spec_call o ps.*2) as [[out xs]|]; [|by rewrite Hc]. destruct Hc as (S' & ps' & -> & HR' & <-). cbn. by rewrite (IH S' ps').
Qed.
End Spec.
