(* ===== verification/LogBuffer.v ===== *)
(** * The log buffer ([src/gps/utils/LogBuffer.h], [src/gps/utils/LogBuffer.cpp])

    The last log lines of each level, kept in a skip list and bounded in number and in age.
    [append] and [dump] run under the lock of the buffer.  Of the configuration file, what
    [loc_read_conf] leaves in its table is an argument.  Writing the lines of a dump to
    a log or a file, and the signals that ask for it, are not modelled. *)
From stdpp Require Import pretty sorting.
From Stdlib Require Import Sorted.
From S2P Require Import Prelude SkipList SkipListSpec.
#[local] Open Scope Z_scope.

Definition TOTAL_LOG_LEVELS : Z := 5.
Definition TIME_DEPTH_THRESHOLD_MINIMAL_IN_SEC : Z := 60.
Definition MAXIMUM_NUM_IN_LIST : Z := 50.
Definition INT_MAX : Z := 2 ^ 31 - 1.

(** A log line with its time, in seconds. *)
Abbreviation Item := (Z * string)%type.
Record ConfigsInLevel := MkConfigs { mTimeDepthThres : Z; mMaxNumThres : Z; mCurrentSize : Z }.
Record LogBuffer := MkLogBuffer { mLogList : SkipList Item; mConfigVec : list ConfigsInLevel }.
Definition mLevelMap : list string := ["E"; "W"; "I"; "D"; "V"]%string.

(** [configured level] is what the configuration file says of the time depth and the capacity
    of a level. *)
Definition new_LogBuffer (configured : Z -> option Z * option Z) : LogBuffer :=
  MkLogBuffer (new_SkipList TOTAL_LOG_LEVELS)
    ((fun level => MkConfigs (default TIME_DEPTH_THRESHOLD_MINIMAL_IN_SEC (configured level).1)
                             (default MAXIMUM_NUM_IN_LIST (configured level).2) 0) <$> seqZ 0 TOTAL_LOG_LEVELS).

(** The loop of [append]: it pops an item each turn, and is undefined when there is none, so
    that one turn more than there are items is enough. *)
Fixpoint trim_loop (turns : nat) (level timestamp : Z) (B : LogBuffer) : option LogBuffer :=
  match turns with
  | O => None
  | S turns =>
      first ← front level (mLogList B); c ← vec_get (mConfigVec B) level;
      if (mTimeDepthThres c <? u64 (timestamp - first.1)) || (mMaxNumThres c <? u32 (mCurrentSize c)) then
        log ← pop_level level (mLogList B);
        configs ← vec_set (mConfigVec B) level (MkConfigs (mTimeDepthThres c) (mMaxNumThres c) (mCurrentSize c - 1));
        trim_loop turns level timestamp (MkLogBuffer log configs)
      else Some B
  end.
Definition append_log (data : string) (level timestamp : Z) (B : LogBuffer) : option LogBuffer :=
  log ← append (timestamp, data) level (mLogList B);
  c ← vec_get (mConfigVec B) level;
  if INT_MAX <=? mCurrentSize c then None else
    configs ← vec_set (mConfigVec B) level (MkConfigs (mTimeDepthThres c) (mMaxNumThres c) (mCurrentSize c + 1));
    trim_loop (S (length (mMainList log))) level timestamp (MkLogBuffer log configs).

(** The items of a dump; level -1 is all. *)
Definition dump_items (level : Z) (B : LogBuffer) : option (list (Item * Z)) :=
  if level =? -1 then Some (dump (mLogList B)) else dump_level level (mLogList B).
Definition endl : string := String (Ascii.ascii_of_nat 10) EmptyString.
Definition dump_line (item : Item * Z) : option string :=
  name ← vec_get mLevelMap item.2;
  Some ("[" +:+ pretty item.1.1 +:+ "] " +:+ "Level " +:+ name +:+ ": " +:+ item.1.2 +:+ endl)%string.
Definition dump_log (level : Z) (B : LogBuffer) : option (list string) :=
  li ← dump_items level B;
  lines ← mapM dump_line li;
  Some (("dump log buffer, level[" +:+ pretty level +:+ "]" +:+ ", buffer size: " +:+ pretty (Z.of_nat (length li)) +:+ endl)%string :: lines).
Definition flush_log (B : LogBuffer) : LogBuffer := MkLogBuffer (flush (mLogList B)) (mConfigVec B).

(** Lines appended one after the other. *)
Fixpoint appends (lines : list (Item * Z)) (B : LogBuffer) : option LogBuffer :=
  match lines with
  | [] => Some B
  | (timestamp, data, level) :: lines => B ← append_log data level timestamp B; appends lines B
  end.

(** ** The log buffer keeps what it should

    The abstract state of a log buffer is the list of its items and the count of each level;
    the loop of [append] is a function of the items of the level ([trim]). *)

Section Levels.
Context (time max : Z -> Z).

(** The items [xs] in order, and the counts. *)
Record holds (B : LogBuffer) (xs : list (Item * Z)) (cur : Z -> Z) : Prop := MkHolds {
  holds_log : exists ps, rep TOTAL_LOG_LEVELS (mLogList B) ps /\ ps.*2 = xs;
  holds_configs : mConfigVec B = (fun l => MkConfigs (time l) (max l) (cur l)) <$> seqZ 0 TOTAL_LOG_LEVELS;
}.

(** The loop of [append] on the items of the level. *)
Fixpoint trim (l ts c : Z) (L : list (Item * Z)) : option (list (Item * Z) * Z) :=
  match L with
  | [] => None
  | x :: L' => if (time l <? u64 (ts - x.1.1)) || (max l <? u32 c) then trim l ts (c - 1) L' else Some (L, c)
  end.
Definition upd (cur : Z -> Z) (l c : Z) : Z -> Z := fun i => if i =? l then c else cur i.

Lemma of_level_remove (l : Z) (xs : list (Item * Z)) : of_level l (remove_first l xs) = tail (of_level l xs).
Proof.
  unfold of_level. induction xs as [|[d j] xs IH]; [done|]. cbn [remove_first]. destruct (Z.eqb_spec j l) as [->|Hne].
  - by rewrite filter_cons_True.
  - rewrite !filter_cons_False by done. done.
Qed.
Lemma of_level_remove_ne (l i : Z) (xs : list (Item * Z)) : i <> l -> of_level i (remove_first l xs) = of_level i xs.
Proof.
  intros Hi. unfold of_level. induction xs as [|[d j] xs IH]; [done|]. cbn [remove_first]. destruct (Z.eqb_spec j l) as [->|Hne].
  - by rewrite filter_cons_False by (cbn; congruence).
  - rewrite !filter_cons. case_decide; congruence.
Qed.
Lemma remove_sub (l : Z) (xs : list (Item * Z)) : remove_first l xs `sublist_of` xs.
Proof. induction xs as [|[d j] xs IH]; cbn; [done|]. case_match; by constructor. Qed.
Lemma length_remove (l : Z) (xs : list (Item * Z)) : of_level l xs <> [] -> length xs = S (length (remove_first l xs)).
Proof.
  unfold of_level. induction xs as [|[d j] xs IH]; cbn [remove_first]; [done|]. destruct (Z.eqb_spec j l) as [->|Hne]; [done|].
  rewrite filter_cons_False by done. intros H. cbn. by rewrite (IH H).
Qed.

(** What is left of a list by popping items of a level. *)
Definition popped (l : Z) (xs xs' : list (Item * Z)) : Prop :=
  xs' `sublist_of` xs /\ forall i, i <> l -> of_level i xs' = of_level i xs.
Lemma trim_loop_rep l ts turns B xs cur : holds B xs cur -> in_range TOTAL_LOG_LEVELS l -> (length xs < turns)%nat ->
  match trim l ts (cur l) (of_level l xs) with
  | Some (L, c) => exists B' xs', trim_loop turns l ts B = Some B' /\ holds B' xs' (upd cur l c) /\ of_level l xs' = L /\ popped l xs xs'
  | None => trim_loop turns l ts B = None
  end.
Proof.
  intros HB Hl. revert B xs cur HB. induction turns as [|turns IH]; intros B xs cur HB Ht; [lia|]. cbn [trim_loop].
  destruct HB as [(ps & HR & <-) Hc]. rewrite (front_rep TOTAL_LOG_LEVELS l _ ps HR), Hc, vec_get_seq, decide_True by done.
  destruct (of_level l ps.*2) as [|x L] eqn:HL; [done|]. cbn [head fmap option_fmap option_map mbind option_bind mTimeDepthThres mMaxNumThres mCurrentSize trim].
  destruct ((time l <? _) || (max l <? _)) eqn:Hcond.
  - destruct (pop_level_rep TOTAL_LOG_LEVELS l _ ps HR Hl) as (log & -> & HR'). cbn [mbind option_bind]. rewrite vec_set_seq by done. cbn [mbind option_bind].
    set (cur' := upd cur l (cur l - 1)).
    assert (HB' : holds (MkLogBuffer log ((fun i => if i =? l then MkConfigs (time l) (max l) (cur l - 1) else MkConfigs (time i) (max i) (cur i)) <$> seqZ 0 TOTAL_LOG_LEVELS))
      (remove_first l ps.*2) cur').
    { split; cbn; [exists (drop_first l ps); split; [done|apply drop_data]|]. apply seq_ext. intros i _. unfold cur', upd. by destruct (Z.eqb_spec i l) as [->|]. }
    specialize (IH _ _ _ HB'). rewrite of_level_remove, HL in IH. cbn [tail] in IH.
    assert (cur' l = cur l - 1) as Hcur by (unfold cur', upd; by rewrite Z.eqb_refl). rewrite Hcur in IH.
    destruct (trim l ts (cur l - 1) L) as [[L' c]|]; [|apply IH; rewrite (length_remove l) in Ht by (by rewrite HL); lia].
    destruct IH as (B' & xs' & -> & HB'' & HL' & Hsub & Hne); [rewrite (length_remove l) in Ht by (by rewrite HL); lia|].
    exists B', xs'. split; [done|]. split; [|split; [done|split]].
    + destruct HB'' as [Hlog Hcs]. split; [done|]. rewrite Hcs. apply seq_ext. intros i _. unfold cur', upd. by destruct (i =? l).
    + etransitivity; [exact Hsub|]. apply remove_sub.
    + intros i Hi. rewrite Hne by done. by apply of_level_remove_ne.
  - exists B, ps.*2. split; [done|]. split; [|done]. split; [by exists ps|]. rewrite Hc. apply seq_ext. intros i _. unfold upd. by destruct (Z.eqb_spec i l) as [->|].
Qed.
(** [append] as a function of the abstract state. *)
Lemma append_holds data l ts B xs cur : holds B xs cur -> in_range TOTAL_LOG_LEVELS l ->
  match (if INT_MAX <=? cur l then None else trim l ts (cur l + 1) (of_level l xs ++ [((ts, data), l)])) with
  | Some (L, c) => exists B' xs', append_log data l ts B = Some B' /\ holds B' xs' (upd cur l c) /\ of_level l xs' = L /\ popped l (xs ++ [((ts, data), l)]) xs'
  | None => append_log data l ts B = None
  end.
Proof.
  intros HB Hl. unfold append_log. destruct HB as [(ps & HR & Hxs) Hc].
  destruct (append_rep TOTAL_LOG_LEVELS (ts, data) l _ ps HR) as (log & -> & HR'). rewrite decide_True in HR' by done. cbn [mbind option_bind]. rewrite Hc, vec_get_seq, decide_True by done.
  cbn [mbind option_bind mCurrentSize mTimeDepthThres mMaxNumThres]. destruct (INT_MAX <=? cur l); [done|]. rewrite vec_set_seq by done. cbn [mbind option_bind].
  set (configs := _ <$> seqZ 0 TOTAL_LOG_LEVELS). assert (HB' : holds (MkLogBuffer log configs) (xs ++ [((ts, data), l)]) (upd cur l (cur l + 1))).
  { split; cbn; [eexists; split; [exact HR'|by rewrite fmap_app, Hxs]|]. apply seq_ext. intros i _. unfold upd. by destruct (Z.eqb_spec i l) as [->|]. }
  pose proof (trim_loop_rep l ts (S (length (mMainList log))) _ _ _ HB' Hl) as H.
  assert (upd cur l (cur l + 1) l = cur l + 1) as Hu by (unfold upd; by rewrite Z.eqb_refl). rewrite Hu in H.
  assert (of_level l (xs ++ [(ts, data, l)]) = of_level l xs ++ [(ts, data, l)]) as HL by (unfold of_level; rewrite filter_app; by rewrite filter_singleton_True).
  rewrite HL in H.
  assert (length (xs ++ [(ts, data, l)]) < S (length (mMainList log)))%nat as Hlen.
  { rewrite (rep_main _ _ _ HR'), length_nodes, fmap_app, length_app, <- Hxs, length_app. cbn. lia. }
  specialize (H Hlen). destruct (trim _ _ _ _) as [[L c]|]; [|done]. destruct H as (B' & xs' & -> & HB'' & HL' & Hp).
  exists B', xs'. split; [done|]. split; [|done]. destruct HB'' as [Hlog Hcs]. split; [done|]. rewrite Hcs. apply seq_ext. intros i _. unfold upd. by destruct (i =? l).
Qed.
End Levels.

(** ** The skip list *)
(** C33. Whatever is called on a skip list, it answers as the list of its data and levels in the
    order they were appended, from which the first data of a level is popped and looked at; and
    it is undefined exactly when that is: a level that is not one of its own (except in
    [append], which ignores it), the front of a level without data, or [pop] when it is empty. *)
Theorem skip_list_refines {T} (totalLevels : Z) (ops : list (Op T)) (Hn : 0 <= totalLevels) :
  calls ops (new_SkipList totalLevels) = spec_calls totalLevels ops [].
Proof. apply (calls_rep totalLevels ops (new_SkipList totalLevels) []); [done|by apply new_list_rep]. Qed.
Lemma skip_list_refines_witness : 0 <= 2 /\
  calls [op_append 7 0; op_append 8 1; op_append 9 0; op_pop_level 0; op_front 0; op_append 5 2; op_pop; op_dump; op_front 1] (new_SkipList 2) = None.
Proof. split; [lia|]. rewrite skip_list_refines by lia. reflexivity. Defined.

(** ** Lines in the order of their times *)
Abbreviation before := (fun x y : Item * Z => x.1.1 <= y.1.1).
Section Kept.
Context (time max : Z -> Z).
(** Of the lines of a level: the last [max], and of these, those not older than [time]
    before the last. *)
Definition kept (l : Z) (H : list (Item * Z)) : list (Item * Z) :=
  let X := of_level l H in
  match last X with
  | None => []
  | Some e => filter (fun x => e.1.1 - x.1.1 <= time l) (drop (length X - Z.to_nat (max l)) X)
  end.

Fixpoint ideal (l ts : Z) (X : list (Item * Z)) : list (Item * Z) :=
  match X with
  | [] => []
  | x :: X' => if decide (time l < ts - x.1.1 \/ max l < Z.of_nat (length X)) then ideal l ts X' else X
  end.

Lemma trim_ideal l ts L e : 0 <= time l -> 1 <= max l -> e.1.1 = ts -> Forall (fun x => 0 <= ts - x.1.1 < 2 ^ 64) L -> Z.of_nat (length L) + 1 < 2 ^ 32 ->
  trim time max l ts (Z.of_nat (length (L ++ [e]))) (L ++ [e]) = Some (ideal l ts (L ++ [e]), Z.of_nat (length (ideal l ts (L ++ [e])))).
Proof.
  intros Ht Hm He HL Hlen. induction L as [|x L IH]; cbn [app trim ideal].
  - replace (ts - e.1.1) with 0 by lia. unfold wrap. rewrite Z.mod_0_l by lia. cbn [length]. rewrite Z.mod_small by lia.
    rewrite (proj2 (Z.ltb_ge (time l) 0)), (proj2 (Z.ltb_ge (max l) _)) by lia. cbn [orb]. by rewrite decide_False by lia.
  - apply Forall_cons in HL as [Hx HL]. rewrite !wrap_id; [| |done].
    2:{ split; [lia|]. cbn in *. rewrite length_app. cbn in *. lia. }
    destruct (decide (_ \/ _)) as [Hd|Hd].
    + assert ((time l <? ts - x.1.1) || (max l <? Z.of_nat (length (x :: L ++ [e]))) = true) as ->.
      { apply orb_true_iff. rewrite !Z.ltb_lt. tauto. }
      replace (Z.of_nat (length (x :: L ++ [e])) - 1) with (Z.of_nat (length (L ++ [e]))) by (cbn; lia). apply IH; [done|cbn in *; lia].
    + assert ((time l <? ts - x.1.1) || (max l <? Z.of_nat (length (x :: L ++ [e]))) = false) as ->; [|done].
      apply orb_false_iff. rewrite !Z.ltb_ge. lia.
Qed.
Lemma ideal_again l ts ts' X e : ts <= ts' -> ideal l ts' (ideal l ts X ++ [e]) = ideal l ts' (X ++ [e]).
Proof.
  intros Hts. induction X as [|x X IH]; [done|]. cbn [ideal]. destruct (decide (_ \/ _)) as [Hd|Hd]; [|done].
  rewrite IH. cbn [app ideal]. rewrite decide_True; [done|]. cbn [length] in *. rewrite length_app. cbn. lia.
Qed.
Lemma ideal_filter l ts X : StronglySorted before X ->
  ideal l ts X = filter (fun x => ts - x.1.1 <= time l) (drop (length X - Z.to_nat (max l)) X).
Proof.
  intros HX. induction HX as [|x X HX IH Hx]; [done|]. cbn [ideal]. destruct (decide (max l < Z.of_nat (length (x :: X)))) as [Hl|Hl].
  - rewrite decide_True by tauto. rewrite IH. cbn [length] in *. replace (S (length X) - Z.to_nat (max l))%nat with (S (length X - Z.to_nat (max l))) by lia. done.
  - replace (length (x :: X) - Z.to_nat (max l))%nat with 0%nat by lia. rewrite drop_0. destruct (decide (time l < ts - x.1.1)) as [Ht|Ht].
    + rewrite decide_True by tauto. rewrite filter_cons_False by lia. rewrite IH. cbn [length] in Hl. by replace (length X - Z.to_nat (max l))%nat with 0%nat by lia.
    + rewrite decide_False by tauto. symmetry. rewrite filter_cons_True by lia. f_equal. clear -Hx Ht. induction Hx as [|y X Hy _ IH]; [done|].
      rewrite filter_cons_True by lia. by rewrite IH.
Qed.
Lemma ideal_length l ts X : 0 <= max l -> Z.of_nat (length (ideal l ts X)) <= max l.
Proof. intros Hm. induction X as [|x X IH]; cbn [ideal]; [cbn; lia|]. case_decide; [done|lia]. Qed.
Lemma ideal_sub l ts X : ideal l ts X `sublist_of` X.
Proof. induction X as [|x X IH]; cbn [ideal]; [done|]. case_decide; [by constructor|done]. Qed.
Definition ideal_of (l : Z) (H : list (Item * Z)) : list (Item * Z) :=
  match last (of_level l H) with None => [] | Some e => ideal l e.1.1 (of_level l H) end.
Lemma kept_ideal l H : StronglySorted before H -> kept l H = ideal_of l H.
Proof.
  intros HH. unfold kept, ideal_of. destruct (last _) as [e|]; [|done]. rewrite ideal_filter; [done|].
  unfold of_level. induction HH as [|x X HX IH Hx]; [constructor|]. rewrite filter_cons. case_decide; [|done]. constructor; [done|]. apply Forall_of_sublist with X; [apply sublist_filter|done].
Qed.
End Kept.

(** Times do not go back; seconds since the system started fit in 63 bits. *)
Definition well_timed (H : list (Item * Z)) : Prop :=
  StronglySorted before H /\ Forall (fun x => in_range TOTAL_LOG_LEVELS x.2 /\ 0 <= x.1.1 < 2 ^ 63) H.
Section Configured.
Context (configured : Z -> option Z * option Z).
Definition time_of (l : Z) : Z := default TIME_DEPTH_THRESHOLD_MINIMAL_IN_SEC (configured l).1.
Definition max_of (l : Z) : Z := default MAXIMUM_NUM_IN_LIST (configured l).2.
(** The configuration keeps at least one line of each level, and no more than a count can count. *)
Definition config_ok : Prop := forall l, in_range TOTAL_LOG_LEVELS l -> 0 <= time_of l < 2 ^ 32 /\ 1 <= max_of l < INT_MAX.

Lemma appends_app H e B : appends (H ++ [e]) B = (B' ← appends H B; append_log e.1.2 e.2 e.1.1 B').
Proof.
  destruct e as [[ts d] l]. revert B. induction H as [|[[ts' d'] l'] H IH]; intros B; cbn; [by destruct (append_log d l ts B)|].
  destruct (append_log d' l' ts' B) as [B'|]; [|done]. apply IH.
Qed.
Lemma last_elem_in {A} (l : list A) x : last l = Some x -> x ∈ l.
Proof. intros H. apply last_Some in H as [k ->]. apply elem_of_app. right. left. Qed.
Lemma of_level_sub l (H : list (Item * Z)) : of_level l H `sublist_of` H.
Proof. apply sublist_filter. Qed.
Lemma appends_kept H : config_ok -> well_timed H ->
  exists B xs cur, appends H (new_LogBuffer configured) = Some B /\ holds time_of max_of B xs cur /\ xs `sublist_of` H /\
    forall l, in_range TOTAL_LOG_LEVELS l -> of_level l xs = ideal_of time_of max_of l H /\ cur l = Z.of_nat (length (of_level l xs)).
Proof.
  intros Hok. induction H as [|[[ts d] l] H IH] using rev_ind; intros Hwt.
  - exists (new_LogBuffer configured), [], (fun _ => 0). split; [done|]. split; [|done]. split; [|done]. exists []. split; [|done]. by apply new_list_rep.
  - destruct Hwt as [Hs Hr]. apply StronglySorted_app in Hs as (Hle & Hs & _). apply Forall_app in Hr as [Hr [[Hl Hts] _]%Forall_cons]. cbn [fst snd] in Hl, Hts.
    destruct (IH (conj Hs Hr)) as (B & xs & cur & HB & Hh & Hsub & Hxs). destruct (Hxs l Hl) as [HX Hcur]. destruct (Hok l Hl) as [Ht Hm].
    assert (Hin : forall x, x ∈ H -> x.1.1 <= ts) by (intros x Hx; apply (Hle x (ts, d, l)); [done|left]).
    rewrite appends_app, HB. cbn [mbind option_bind fst snd]. pose proof (append_holds _ _ d l ts B xs cur Hh Hl) as Ha.
    assert (Hlen : Z.of_nat (length (of_level l xs)) <= max_of l).
    { rewrite HX. unfold ideal_of. destruct (last _); [apply ideal_length|cbn]; lia. }
    rewrite (proj2 (Z.leb_gt INT_MAX (cur l))) in Ha by lia.
    replace (cur l + 1) with (Z.of_nat (length (of_level l xs ++ [(ts, d, l)]))) in Ha by (rewrite length_app; cbn; lia).
    rewrite trim_ideal in Ha; [|lia|lia|done| |unfold INT_MAX in *; lia].
    2:{ apply Forall_forall. intros x Hx. assert (x ∈ H) as HxH by (eapply elem_of_sublist; [eapply elem_of_sublist; [exact Hx|apply of_level_sub]|done]).
        specialize (Hin x HxH). rewrite Forall_forall in Hr. specialize (Hr x HxH) as [_ ?]. lia. }
    destruct Ha as (B' & xs' & HB' & Hh' & HL' & Hsub' & Hne). exists B', xs', (upd cur l (Z.of_nat (length (of_level l xs')))).
    assert (Hid : of_level l xs' = ideal_of time_of max_of l (H ++ [(ts, d, l)])).
    { rewrite HL', HX. unfold ideal_of, of_level. rewrite filter_app, filter_singleton_True by done. rewrite last_snoc.
      destruct (last (filter _ H)) as [e|] eqn:He; [|apply last_None in He; by rewrite He].
      apply ideal_again. apply Hin. eapply elem_of_sublist; [by apply last_elem_in|apply sublist_filter]. }
    split; [done|]. split; [by rewrite HL'|]. split; [etransitivity; [exact Hsub'|by apply sublist_app]|].
    intros i Hi. unfold upd. destruct (Z.eqb_spec i l) as [->|Hne']; [done|]. rewrite Hne by done. destruct (Hxs i Hi) as [HXi Hci].
    assert (forall Y : list (Item * Z), of_level i (Y ++ [(ts, d, l)]) = of_level i Y) as Hi'.
    { intros Y. unfold of_level. rewrite filter_app, filter_singleton_False by (cbn; congruence). apply app_nil_r. }
    unfold ideal_of in *. by rewrite !Hi'.
Qed.
End Configured.

Lemma dump_lines_defined xs : Forall (fun e => in_range TOTAL_LOG_LEVELS e.2) xs -> exists lines, mapM dump_line xs = Some lines /\ length lines = length xs.
Proof.
  induction 1 as [|e xs He _ (lines & IH & Hlen)]; [by exists []|]. cbn. rewrite IH. unfold dump_line.
  assert (exists name, vec_get mLevelMap e.2 = Some name) as [name ->].
  { unfold vec_get, in_range, TOTAL_LOG_LEVELS in *. rewrite (proj2 (Z.ltb_ge _ 0)) by lia. apply lookup_lt_is_Some. cbn. lia. }
  cbn. eexists. split; [done|]. cbn. by rewrite Hlen.
Qed.
(** C38. While each level has a capacity of at least one line (and below 2^31 - 1) and a time depth
    of 32 bits, lines have one of the five levels and a time below 2^63, and times do not go back: the
    buffer has of each level the last lines, as many
    as its capacity, that are not older than its time depth before the newest of them; a
    dump of all levels has these lines in the order they were appended, each as text.
    [log_buffer_gaps] and [no_capacity] have what happens otherwise. *)
Theorem log_buffer_keeps configured H (Hok : config_ok configured) (Hwt : well_timed H) :
  exists B xs, appends H (new_LogBuffer configured) = Some B /\ dump_items (-1) B = Some xs /\ xs `sublist_of` H /\
    (exists lines, dump_log (-1) B = Some lines /\ length lines = S (length xs)) /\
    forall l, in_range TOTAL_LOG_LEVELS l -> let items := kept (time_of configured) (max_of configured) l H in
      of_level l xs = items /\ dump_items l B = Some items.
Proof.
  destruct (appends_kept configured H Hok Hwt) as (B & xs & cur & HB & Hh & Hsub & Hxs). destruct Hwt as [Hs _].
  destruct (holds_log _ _ _ _ _ Hh) as (ps & HR & Hps).
  assert (Hd : dump_items (-1) B = Some xs) by (cbn; f_equal; unfold dump; by rewrite (rep_main _ _ _ HR), nodes_dump).
  exists B, xs. split; [done|]. split; [done|]. split; [done|]. split.
  - unfold dump_log. rewrite Hd. cbn [mbind option_bind]. destruct (dump_lines_defined xs) as (lines & -> & Hlen).
    { rewrite <- Hps. exact (rep_levels _ _ _ HR). }
    eexists. split; [done|]. cbn. by rewrite Hlen.
  - intros l Hl. destruct (Hxs l Hl) as [HX _]. rewrite kept_ideal by done. split; [done|]. unfold dump_items.
    rewrite (proj2 (Z.eqb_neq l (-1))) by (unfold in_range in Hl; lia). by rewrite (dump_level_rep TOTAL_LOG_LEVELS l _ ps HR), decide_True, Hps, HX.
Qed.
(** Lines of level 0, of which two are kept for ten seconds, and of level 3. *)
Definition sample_config (l : Z) : option Z * option Z := if l =? 0 then (Some 10, Some 2) else (None, None).
Definition sample_lines : list (Item * Z) := [(1, "a", 0); (2, "b", 3); (5, "c", 0); (5, "d", 0); (14, "e", 0); (16, "f", 0)]%string.
Lemma sample_config_ok : config_ok sample_config.
Proof. intros l _. unfold time_of, max_of, sample_config, INT_MAX, TIME_DEPTH_THRESHOLD_MINIMAL_IN_SEC, MAXIMUM_NUM_IN_LIST. case_match; cbn; lia. Qed.
Lemma sample_lines_ok : well_timed sample_lines.
Proof. split; repeat constructor; cbn; lia. Qed.
Lemma log_buffer_keeps_witness : config_ok sample_config /\ well_timed sample_lines /\
  exists B, appends sample_lines (new_LogBuffer sample_config) = Some B /\ dump_items 0 B = Some [(14, "e", 0); (16, "f", 0)]%string /\
    dump_items (-1) B = Some [(2, "b", 3); (14, "e", 0); (16, "f", 0)]%string.
Proof.
  split; [apply sample_config_ok|]. split; [apply sample_lines_ok|].
  destruct (log_buffer_keeps _ _ sample_config_ok sample_lines_ok) as (B & xs & HB & Hall & _ & _ & Hl). exists B. split; [exact HB|].
  destruct (Hl 0 ltac:(unfold in_range, TOTAL_LOG_LEVELS; lia)) as [_ ->]. split; [reflexivity|]. revert HB. vm_compute. intros [= <-]. reflexivity.
Defined.

(** What goes wrong.  Flushing the buffer does not reset its counts: the next line of a level
    that was full is popped and the front of an empty level is read.  And a line with an
    earlier time than all those of its level, which threads can make, as they read the clock
    before they lock the buffer, drops all of them: the age of the others is computed as a
    huge number. *)
Lemma log_buffer_gaps configured H B l data ts : config_ok configured -> well_timed H -> appends H (new_LogBuffer configured) = Some B -> in_range TOTAL_LOG_LEVELS l ->
  let items := kept (time_of configured) (max_of configured) l H in
  (Z.of_nat (length items) = max_of configured l -> append_log data l ts (flush_log B) = None) /\
  (0 <= ts -> Forall (fun x => ts < x.1.1) items -> exists B', append_log data l ts B = Some B' /\ dump_items l B' = Some [((ts, data), l)]).
Proof.
  intros Hok Hwt HB Hl items. destruct (appends_kept configured H Hok Hwt) as (B0 & xs & cur & HB0 & Hh & Hsub & Hxs).
  rewrite HB in HB0. injection HB0 as <-. destruct (Hxs l Hl) as [HX Hcur], (Hok l Hl) as [Ht Hm]. destruct Hwt as [Hs Hr].
  assert (Hitems : of_level l xs = items) by (unfold items; by rewrite kept_ideal).
  assert (Hlen : Z.of_nat (length items) <= max_of configured l).
  { rewrite <- Hitems, HX. unfold ideal_of. destruct (last _); [apply ideal_length|cbn]; lia. }
  rewrite Hitems in Hcur. split.
  - intros Hfull. assert (Hf : holds (time_of configured) (max_of configured) (flush_log B) [] cur).
    { destruct Hh as [(ps & HR & _) Hc]. split; [exists []; split; [by apply (flush_rep TOTAL_LOG_LEVELS _ ps)|done]|done]. }
    pose proof (append_holds _ _ data l ts _ _ _ Hf Hl) as Ha. rewrite (proj2 (Z.leb_gt INT_MAX (cur l))) in Ha by lia. revert Ha. cbn [of_level filter list_filter app trim].
    rewrite Hcur, Hfull, !wrap_id by (unfold INT_MAX in *; cbn [fst]; lia). rewrite (proj2 (Z.ltb_lt _ (max_of configured l + 1))) by lia.
    by rewrite orb_true_r.
  - intros Hts Hall. pose proof (append_holds _ _ data l ts _ _ _ Hh Hl) as Ha. rewrite (proj2 (Z.leb_gt INT_MAX (cur l))) in Ha by lia. rewrite Hcur, Hitems in Ha.
    assert (Htrim : trim (time_of configured) (max_of configured) l ts (Z.of_nat (length items) + 1) (items ++ [(ts, data, l)]) = Some ([(ts, data, l)], 1)).
    { assert (Hb : Forall (fun x => ts < x.1.1 < 2 ^ 63) items).
      { rewrite Forall_forall in *. intros x Hx. split; [by apply Hall|]. apply Hr. eapply elem_of_sublist; [|exact Hsub]. eapply elem_of_sublist; [|apply (of_level_sub l)].
        by rewrite Hitems. }
      clear -Hb Hts Ht Hm. induction Hb as [|x L Hx _ IH]; cbn [app trim length].
      - cbn [fst]. rewrite Z.sub_diag, !wrap_id by lia. rewrite (proj2 (Z.ltb_ge _ _)), (proj2 (Z.ltb_ge _ _)) by lia. done.
      - assert (u64 (ts - x.1.1) = ts - x.1.1 + 2 ^ 64) as ->.
        { unfold wrap. rewrite <- (Z.mod_small (ts - x.1.1 + 2 ^ 64) (2 ^ 64)) by lia. rewrite <- (Z_mod_plus_full (ts - x.1.1) 1). by rewrite Z.mul_1_l. }
        rewrite (proj2 (Z.ltb_lt _ (_ + _))) by lia. cbn [orb]. replace (Z.of_nat (S (length L)) + 1 - 1) with (Z.of_nat (length L) + 1) by lia. apply IH. }
    rewrite Htrim in Ha. destruct Ha as (B' & xs' & -> & Hh' & HL' & _). exists B'. split; [done|]. destruct (holds_log _ _ _ _ _ Hh') as (ps & HR & Hps).
    unfold dump_items. rewrite (proj2 (Z.eqb_neq l (-1))) by (unfold in_range in Hl; lia). by rewrite (dump_level_rep TOTAL_LOG_LEVELS l _ ps HR), decide_True, Hps, HL'.
Qed.
(** A level that is configured with a capacity of 0: its first line is popped, and the front of
    the empty level is read. *)
Lemma no_capacity configured l data ts : in_range TOTAL_LOG_LEVELS l -> max_of configured l = 0 ->
  append_log data l ts (new_LogBuffer configured) = None.
Proof.
  intros Hl Hm. assert (Hh : holds (time_of configured) (max_of configured) (new_LogBuffer configured) [] (fun _ => 0)).
  { split; [|done]. exists []. split; [|done]. by apply new_list_rep. }
  pose proof (append_holds _ _ data l ts _ _ _ Hh Hl) as Ha. cbn [of_level filter list_filter app trim] in Ha. rewrite Hm in Ha.
  change (0 <? u32 (0 + 1)) with true in Ha. by rewrite orb_true_r in Ha.
Qed.
