(* ===== verification/LocIpc.v ===== *)
(** * Messages over datagram sockets ([src/gps/utils/LocIpc.cpp], [src/gps/utils/LocIpc.h])

    A message that fits is one datagram; a longer one is a datagram with its length, and
    then datagrams with its parts.  The socket of a receiver is the queue of the datagrams
    that were sent to it; the kernel keeps or refuses each ([ok], by the number of system
    calls so far).  [mMaxTxSize] is an argument of the constructor, 8192 by default.  Stream
    sockets, the addresses of sockets and the threads of listeners are not modelled. *)
From stdpp Require Import pretty.
From Stdlib Require Import Ascii.
From S2P Require Import Prelude.
#[local] Open Scope Z_scope.


Abbreviation bytes := (list ascii).
Abbreviation Net := (list bytes).
Definition chars (s : string) : bytes := String.list_ascii_of_string s.
Definition NUL : ascii := ascii_of_N 0.
(** With the NUL that [sizeof] counts. *)
Definition MSG_ABORT : bytes := chars "LocIpc::Sock::ABORT" ++ [NUL].
Definition LOC_IPC_HEAD : bytes := chars "$MSGLEN$".
Definition to_string (n : nat) : bytes := chars (pretty (N.of_nat n)).

Section Sock.
Context (mMaxTxSize : nat).

(** ** Sending *)
Definition sys_sendto (ok : bool) (data : bytes) (net : Net) : Z * Net :=
  if ok then (Z.of_nat (length data), net ++ [data]) else (-1, net).
(** The loop over the parts; [turns] bounds them by the length of the message. *)
Fixpoint send_parts (turns : nat) (ok : nat -> bool) (data : bytes) (net : Net) : Z * Net :=
  match turns, data with
  | S turns, _ :: _ =>
      let '(rtv, net) := sys_sendto (ok O) (take mMaxTxSize data) net in
      if 0 <? rtv then send_parts turns (fun k => ok (S k)) (drop (Z.to_nat rtv) data) net else (rtv, net)
  | _, _ => (1, net)
  end.
Definition sendto (ok : nat -> bool) (data : bytes) (net : Net) : Z * Net :=
  if (length data <=? mMaxTxSize)%nat then sys_sendto (ok O) data net
  else
    let head := LOC_IPC_HEAD ++ to_string (length data) in
    let '(rtv, net) := sys_sendto (ok O) head net in
    if 0 <? rtv then
      let '(rtv, net) := send_parts (length data) (fun k => ok (S k)) data net in
      (if 0 <? rtv then Z.of_nat (length head + length data) else -1, net)
    else (rtv, net).
(** [send] of a valid socket: [data] is what the caller has, [len] its length as the
    [uint32_t] that the function takes. *)
Definition send (ok : nat -> bool) (data : bytes) (net : Net) : Z * Net :=
  let len := u32 (Z.of_nat (length data)) in
  if len =? 0 then (-1, net) else sendto ok (take (Z.to_nat len) data) net.
Definition sendAbort (ok : nat -> bool) (net : Net) : Z * Net := send ok MSG_ABORT net.

(** ** Receiving *)
Inductive Received :=
  | blocked                                                  (* there is no datagram yet *)
  | thrown                                                   (* [resize] throws, or the number does not fit *)
  | received (nBytes : Z) (message : option bytes) (net : Net).   (* [message] is given to [onReceive] *)
Definition sys_recvfrom (size : nat) (net : Net) : option (bytes * Net) :=
  match net with [] => None | d :: net => Some (take size d, net) end.
(** [sscanf] of an unsigned number, after white space and a sign; [None] if there is none. *)
Definition digit (c : ascii) : option Z :=
  let n := Z.of_N (N_of_ascii c) in if (48 <=? n) && (n <=? 57) then Some (n - 48) else None.
Fixpoint digits (acc : Z) (s : bytes) : Z :=
  match s with
  | c :: s => match digit c with Some d => digits (acc * 10 + d) s | None => acc end
  | [] => acc
  end.
Definition number (s : bytes) : option Z :=
  match s with c :: _ => _ ← digit c; Some (digits 0 s) | [] => None end.
Definition is_space (c : ascii) : bool := let n := N_of_ascii c in ((n =? 32) || ((9 <=? n) && (n <=? 13)))%N.
Fixpoint skip_space (s : bytes) : bytes :=
  match s with c :: s' => if is_space c then skip_space s' else s | [] => [] end.
Definition scan_zu (s : bytes) : option Z :=
  match skip_space s with
  | "+"%char :: s => number s
  | "-"%char :: s => n ← number s; Some ((- n) mod 2 ^ 64)
  | s => number s
  end.
(** The longest [std::string]. *)
Definition max_string : Z := 2 ^ 63 - 1.
Fixpoint recv_parts (net : Net) (msgLen : nat) (msg : bytes) (nBytes : Z) : Received :=
  if (length msg <? msgLen)%nat && (0 <? nBytes) then
    match net with
    | [] => blocked
    | d :: net => let part := take (msgLen - length msg) d in recv_parts net msgLen (msg ++ part) (Z.of_nat (length part))
    end
  else if 0 <? nBytes then received (Z.of_nat msgLen) (Some msg) net
  else received nBytes None net.
(** The buffer a datagram is received in. *)
Definition padded (d : bytes) : bytes := d ++ replicate (mMaxTxSize - length d) NUL.
Definition recvfrom (net : Net) : Received :=
  match sys_recvfrom mMaxTxSize net with
  | None => blocked
  | Some (d, net) =>
      let msg := padded d in
      let nBytes := Z.of_nat (length d) in
      if 0 <? nBytes then
        if decide (take (length MSG_ABORT) msg = MSG_ABORT) then received 0 None net
        else if decide (take (length LOC_IPC_HEAD) msg = LOC_IPC_HEAD) then
          let msgLen := default 0 (scan_zu (drop (length LOC_IPC_HEAD) msg)) in
          if msgLen <=? max_string then recv_parts net (Z.to_nat msgLen) [] nBytes else thrown
        else received nBytes (Some d) net
      else received nBytes None net
  end.
(** [startBlockingListening]: receive as long as something is received.  Each turn takes a
    datagram. *)
Inductive Status := waiting | stopped | failed.
Fixpoint listen (turns : nat) (net : Net) : list bytes * Status :=
  match turns with
  | O => ([], waiting)
  | S turns =>
      match recvfrom net with
      | blocked => ([], waiting)
      | thrown => ([], failed)
      | received n m net =>
          let '(ms, s) := if 0 <? n then listen turns net else ([], stopped) in
          (match m with Some m => m :: ms | None => ms end, s)
      end
  end.
Definition startBlockingListening (net : Net) : list bytes * Status := listen (S (length net)) net.
End Sock.

(** ** Numbers *)
Lemma digit_char x : (x < 10)%N -> digit (pretty_N_char x) = Some (Z.of_N x).
Proof.
  intros Hx. assert (forall m, (m < 10)%nat -> digit (pretty_N_char (N.of_nat m)) = Some (Z.of_nat m)) as H.
  { intros m Hm. do 10 (destruct m as [|m]; [reflexivity|]). lia. }
  specialize (H (N.to_nat x) ltac:(lia)). rewrite N2Nat.id in H. rewrite H. f_equal. lia.
Qed.
(** What a decimal number is read as: the digits printed before [s] and a text [t]. *)
Lemma digits_pretty_go x s t : (0 < x)%N -> digits 0 (chars (pretty_N_go x s) ++ t) = digits (Z.of_N x) (chars s ++ t).
Proof.
  revert s. induction x as [x IH] using (well_founded_induction N.lt_wf_0). intros s Hx. rewrite pretty_N_go_step by done.
  assert (Hm : (x `mod` 10 < 10)%N) by (by apply N.mod_lt). pose proof (N.div_mod x 10 ltac:(done)) as Hd.
  destruct (decide (x `div` 10 = 0)%N) as [H0|H0].
  - rewrite H0, pretty_N_go_0. cbn [chars String.list_ascii_of_string app digits]. rewrite digit_char by done. f_equal. lia.
  - rewrite IH; [|apply N.div_lt; lia|lia]. cbn [chars String.list_ascii_of_string app digits]. rewrite digit_char by done. f_equal. lia.
Qed.
Lemma head_pretty_go x s : (0 < x)%N -> exists c d r, chars (pretty_N_go x s) = c :: r /\ digit c = Some d.
Proof.
  revert s. induction x as [x IH] using (well_founded_induction N.lt_wf_0). intros s Hx. rewrite pretty_N_go_step by done.
  destruct (decide (x `div` 10 = 0)%N) as [H0|H0]; [|apply IH; [by apply N.div_lt|by apply N.neq_0_lt_0]].
  rewrite H0, pretty_N_go_0. eexists _, _, _. split; [reflexivity|]. apply digit_char. by apply N.mod_lt.
Qed.
Lemma length_pretty_go (k : nat) x s : (x < 10 ^ N.of_nat k)%N -> (length (chars (pretty_N_go x s)) <= k + length (chars s))%nat.
Proof.
  revert x s. induction k as [|k IH]; intros x s Hx.
  - assert (x = 0)%N as -> by (cbn in Hx; lia). by rewrite pretty_N_go_0.
  - destruct (decide (x = 0)%N) as [->|H0]; [rewrite pretty_N_go_0; lia|]. rewrite pretty_N_go_step by lia.
    etransitivity; [apply IH|unfold chars; cbn; lia]. apply N.div_lt_upper_bound; [done|]. rewrite Nat2N.inj_succ, N.pow_succ_r' in Hx. exact Hx.
Qed.
Lemma scan_digit c s d : digit c = Some d -> scan_zu (c :: s) = Some (digits 0 (c :: s)).
Proof. intros H. unfold scan_zu, number. destruct c as [[] [] [] [] [] [] [] []]; try discriminate H; reflexivity. Qed.
Lemma scan_to_string n t : (0 < n)%nat -> match t with [] => True | c :: _ => digit c = None end -> scan_zu (to_string n ++ t) = Some (Z.of_nat n).
Proof.
  intros Hn Ht. unfold to_string. assert (pretty (N.of_nat n) = pretty_N_go (N.of_nat n) "") as -> by (unfold pretty, pretty_N; by rewrite decide_False by lia).
  destruct (head_pretty_go (N.of_nat n) "" ltac:(lia)) as (c & d & r & Hc & Hd).
  assert (scan_zu (chars (pretty_N_go (N.of_nat n) "") ++ t) = Some (digits 0 (chars (pretty_N_go (N.of_nat n) "") ++ t))) as -> by (rewrite Hc; by apply (scan_digit c (r ++ t) d)).
  rewrite digits_pretty_go by lia. cbn [chars String.list_ascii_of_string app]. f_equal. destruct t as [|c' t]; cbn; [|rewrite Ht]; lia.
Qed.
Lemma to_string_short n : Z.of_nat n <= max_string -> (length (to_string n) <= 19)%nat.
Proof.
  intros Hn. unfold to_string, pretty, pretty_N. case_decide; [cbn; lia|]. etransitivity; [apply (length_pretty_go 19)|cbn; lia].
  unfold max_string in Hn. apply N2Z.inj_lt. rewrite nat_N_Z. change (Z.of_N (10 ^ N.of_nat 19)) with (10 ^ 19). lia.
Qed.

(** ** One message *)
Section Sock.
Context (max : nat) (Hmax : (28 <= max)%nat).

Fixpoint parts (turns : nat) (data : bytes) : Net :=
  match turns, data with S turns, _ :: _ => take max data :: parts turns (drop max data) | _, _ => [] end.
(** The datagrams of a message. *)
Definition frames (m : bytes) : Net :=
  if (length m <=? max)%nat then [m] else (LOC_IPC_HEAD ++ to_string (length m)) :: parts (length m) m.
(** A message that is not taken for another thing: it is not empty, its length is a
    [uint32_t], and one that fits starts neither like the header of a long one nor with the
    text that stops a listener. *)
Definition plain (m : bytes) : Prop :=
  m <> [] /\ Z.of_nat (length m) < 2 ^ 32 /\
  ((length m <= max)%nat -> take (length MSG_ABORT) (padded max m) <> MSG_ABORT /\ take (length LOC_IPC_HEAD) (padded max m) <> LOC_IPC_HEAD).

Lemma send_parts_ok turns data net : send_parts max turns (fun _ => true) data net = (1, net ++ parts turns data).
Proof.
  revert data net. induction turns as [|turns IH]; intros data net; [by rewrite app_nil_r|]. destruct data as [|c data]; [by rewrite app_nil_r|].
  cbn [send_parts parts sys_sendto]. rewrite (proj2 (Z.ltb_lt 0 _)) by (rewrite length_take; cbn; lia).
  rewrite IH, <- app_assoc. f_equal. f_equal. cbn [app]. f_equal. f_equal. rewrite Nat2Z.id, length_take.
  destruct (decide (max <= length (c :: data)))%nat; [by rewrite Nat.min_l by lia|]. rewrite Nat.min_r by lia. by rewrite !drop_ge by lia.
Qed.
Lemma send_ok m net : m <> [] -> Z.of_nat (length m) < 2 ^ 32 -> 0 < (send max (fun _ => true) m net).1 /\ (send max (fun _ => true) m net).2 = net ++ frames m.
Proof.
  intros Hm Hl. unfold send. rewrite wrap_id, Nat2Z.id, (take_ge m) by lia. destruct m as [|c m]; [done|].
  rewrite (proj2 (Z.eqb_neq _ _)) by (cbn; lia). unfold sendto, frames. destruct (length (c :: m) <=? max)%nat; [cbn; split; [lia|done]|].
  cbn [sys_sendto]. rewrite (proj2 (Z.ltb_lt 0 _)) by (rewrite length_app; cbn; lia). rewrite send_parts_ok. cbn [fst snd]. split; [rewrite length_app; cbn; lia|].
  by rewrite <- app_assoc.
Qed.
Lemma recv_parts_ok turns rem msg nb net : (length rem <= turns)%nat -> 0 < nb ->
  recv_parts (parts turns rem ++ net) (length msg + length rem) msg nb = received (Z.of_nat (length msg + length rem)) (Some (msg ++ rem)) net.
Proof.
  revert rem msg nb. induction turns as [|turns IH]; intros rem msg nb Hl Hnb.
  - destruct rem; [|cbn in Hl; lia]. cbn [parts app length]. rewrite Nat.add_0_r, app_nil_r. destruct net; cbn [recv_parts]; by rewrite (proj2 (Nat.ltb_ge _ _)), (proj2 (Z.ltb_lt _ _)) by lia.
  - destruct rem as [|c rem].
    + cbn [parts app length]. rewrite Nat.add_0_r, app_nil_r. destruct net; cbn [recv_parts]; by rewrite (proj2 (Nat.ltb_ge _ _)), (proj2 (Z.ltb_lt _ _)) by lia.
    + cbn [parts app]. cbn [recv_parts]. rewrite (proj2 (Nat.ltb_lt _ _)), (proj2 (Z.ltb_lt _ _)) by (cbn; lia). cbn [andb].
      set (r := c :: rem) in *. assert (Hr : (0 < length r)%nat) by (cbn; lia). replace (length msg + length r - length msg)%nat with (length r) by lia.
      rewrite take_take. assert (take (Nat.min (length r) max) r = take max r) as ->.
      { destruct (decide (max <= length r)%nat); [by rewrite Nat.min_r by lia|]. rewrite Nat.min_l by lia. by rewrite !take_ge by lia. }
      assert (H : (length (drop max r) <= turns)%nat) by (rewrite length_drop; cbn in *; lia).
      specialize (IH (drop max r) (msg ++ take max r) (Z.of_nat (length (take max r))) H). rewrite <- app_assoc, take_drop in IH.
      replace (length (msg ++ take max r) + length (drop max r))%nat with (length msg + length r)%nat in IH by (rewrite length_app, length_take, length_drop; lia).
      apply IH. rewrite length_take. lia.
Qed.
Lemma recv_message m net : plain m -> recvfrom max (frames m ++ net) = received (Z.of_nat (length m)) (Some m) net.
Proof.
  intros (Hne & Hlen' & Hplain). assert (Hlen : Z.of_nat (length m) <= max_string) by (unfold max_string; lia). unfold frames. destruct (Nat.leb_spec (length m) max) as [Hs|Hs].
  - destruct (Hplain Hs) as [H1 H2]. unfold recvfrom. cbn [app sys_recvfrom]. rewrite take_ge by lia. rewrite (proj2 (Z.ltb_lt 0 _)) by (destruct m; [done|cbn; lia]).
    by rewrite !decide_False.
  - set (head := LOC_IPC_HEAD ++ to_string (length m)). assert (Hh : (length head <= 27)%nat).
    { unfold head. rewrite length_app. pose proof (to_string_short (length m) Hlen). cbn. lia. }
    unfold recvfrom. cbn [app sys_recvfrom]. rewrite (take_ge head) by lia. rewrite (proj2 (Z.ltb_lt 0 _)) by (unfold head; rewrite length_app; cbn; lia).
    rewrite decide_False by (unfold padded, head; cbn; discriminate). rewrite decide_True by reflexivity.
    assert (drop (length LOC_IPC_HEAD) (padded max head) = to_string (length m) ++ replicate (max - length head) NUL) as -> by reflexivity.
    rewrite scan_to_string; [|destruct m; [done|cbn; lia]|destruct (max - length head)%nat; done]. cbn [default from_option]. unfold id.
    rewrite (proj2 (Z.leb_le _ _)), Nat2Z.id by done. apply (recv_parts_ok (length m) m []); [lia|]. unfold head. rewrite length_app. cbn. lia.
Qed.

(** ** Listening *)
Lemma listen_messages ms t net : Forall plain ms ->
  listen max (length ms + t) (concat (frames <$> ms) ++ net) = (ms ++ (listen max t net).1, (listen max t net).2).
Proof.
  intros Hms. induction Hms as [|m ms Hm Hms IH]; [cbn; by destruct (listen max t net)|].
  cbn [fmap list_fmap concat length Nat.add listen]. rewrite <- app_assoc, recv_message by done. rewrite (proj2 (Z.ltb_lt 0 _)) by (destruct Hm as [Hne _]; destruct m; [done|cbn; lia]).
  rewrite IH. by destruct (listen max t net).
Qed.
Lemma frames_nonempty m : (1 <= length (frames m))%nat.
Proof. unfold frames. case_match; cbn; lia. Qed.
Lemma length_frames ms : (length ms <= length (concat (frames <$> ms)))%nat.
Proof. induction ms as [|m ms IH]; [done|]. cbn. rewrite length_app. pose proof (frames_nonempty m). lia. Qed.
End Sock.

(** Messages sent one after the other. *)
Definition send_all (max : nat) (ms : list bytes) (net : Net) : Net := foldl (fun net m => (send max (fun _ => true) m net).2) net ms.
Lemma send_all_frames max ms net : (28 <= max)%nat -> Forall (plain max) ms -> send_all max ms net = net ++ concat (frames max <$> ms).
Proof.
  intros Hmax Hms. unfold send_all. revert net. induction Hms as [|m ms (Hne & Hlen & _) _ IH]; intros net; [by rewrite app_nil_r|].
  cbn [foldl fmap list_fmap concat]. rewrite (proj2 (send_ok max Hmax m net Hne Hlen)). rewrite IH. by rewrite <- app_assoc.
Qed.
(** C37. Messages that one sender sends to a socket, whether they fit in a datagram or not, are
    received one by one, in order and as they were, and the listener waits for more; when it
    is told to stop, it stops after the messages that were sent before.  A datagram holds at
    least 28 bytes, the kernel refuses none, and no message is empty or longer than 2^32 - 1
    bytes, nor does one that fits start with the text of a header or of the end of
    listening.  [ipc_gaps] has what happens otherwise. *)
Theorem messages_delivered max ms (Hmax : (28 <= max)%nat) (Hms : Forall (plain max) ms) :
  Forall (fun m => forall net, 0 < (send max (fun _ => true) m net).1) ms /\
  startBlockingListening max (send_all max ms []) = (ms, waiting) /\
  startBlockingListening max (sendAbort max (fun _ => true) (send_all max ms [])).2 = (ms, stopped).
Proof.
  split; [|].
  - eapply Forall_impl; [exact Hms|]. intros m (Hne & Hlen & _) net. by apply send_ok.
  - rewrite send_all_frames by done. cbn [app]. pose proof (length_frames max Hmax ms) as Hl. unfold startBlockingListening. split.
    + rewrite <- (app_nil_r (concat _)) at 2. replace (S (length (concat (frames max <$> ms)))) with (length ms + S (length (concat (frames max <$> ms)) - length ms))%nat by lia.
      rewrite listen_messages by done. cbn. by rewrite app_nil_r.
    + assert ((sendAbort max (fun _ => true) (concat (frames max <$> ms))).2 = concat (frames max <$> ms) ++ [MSG_ABORT]) as ->.
      { unfold sendAbort. rewrite (proj2 (send_ok max Hmax MSG_ABORT _ ltac:(discriminate) ltac:(cbn; lia))). f_equal. unfold frames. by rewrite (proj2 (Nat.leb_le _ _)) by (cbn; lia). }
      rewrite length_app. replace (S (length (concat (frames max <$> ms)) + length [MSG_ABORT])) with (length ms + S (S (length (concat (frames max <$> ms)) - length ms)))%nat by (cbn; lia).
      rewrite listen_messages by done. assert (forall t, listen max (S t) [MSG_ABORT] = ([], stopped)) as ->; [|by rewrite app_nil_r].
      intros t. cbn [listen]. unfold recvfrom. cbn [sys_recvfrom]. rewrite take_ge by (cbn; lia). rewrite (proj2 (Z.ltb_lt 0 _)) by (cbn; lia).
      rewrite decide_True; [done|]. unfold padded. by rewrite take_app_length.
Qed.
Definition long_message : bytes := replicate 70 "x"%char.
Lemma messages_delivered_witness : (28 <= 32)%nat /\ Forall (plain 32) [chars "hello"; long_message; chars "bye"] /\
  startBlockingListening 32 (send_all 32 [chars "hello"; long_message; chars "bye"] []) = ([chars "hello"; long_message; chars "bye"], waiting).
Proof.
  assert (H1 : (28 <= 32)%nat) by lia.
  assert (H2 : Forall (plain 32) [chars "hello"; long_message; chars "bye"]).
  { repeat constructor; try (cbn; lia); try discriminate; intros Hl; try (exfalso; revert Hl; vm_compute; lia); split; vm_compute; discriminate. }
  split; [exact H1|]. split; [exact H2|]. apply (messages_delivered 32 _ H1 H2).
Defined.

(** What goes wrong otherwise.  The parts of a long message are not told from what another sender sends
    to the same socket in between, and neither message arrives; when a part is refused, the
    next message, whose sender is told of no failure, is taken for it; and a message that
    starts like a header of a long one, without a number, stops the listener. *)
Lemma ipc_gaps :
  (exists a b net, frames 32 a `sublist_of` net /\ frames 32 b `sublist_of` net /\ (length net = length (frames 32 a) + length (frames 32 b))%nat /\
     plain 32 a /\ plain 32 b /\ a ∉ (startBlockingListening 32 net).1 /\ b ∉ (startBlockingListening 32 net).1) /\
  (exists a b ok net, plain 32 b /\ (send 32 ok a []).2 = net /\ 0 < (send 32 (fun _ => true) b net).1 /\
     b ∉ (startBlockingListening 32 (send 32 (fun _ => true) b net).2).1) /\
  (exists a b, startBlockingListening 32 (send_all 32 [a; b] []) = ([[]], stopped)).
Proof.
  split; [|split].
  - exists long_message, (chars "bye"), [LOC_IPC_HEAD ++ chars "70"; replicate 32 "x"%char; chars "bye"; replicate 32 "x"%char; replicate 6 "x"%char].
    split; [vm_compute; repeat (constructor; try done)|]. split; [vm_compute; repeat (constructor; try done)|]. split; [reflexivity|].
    split; [|split].
    1,2: repeat split; try (cbn; lia); try discriminate; intros Hl; try (exfalso; revert Hl; vm_compute; lia); vm_compute; discriminate.
    split; apply (bool_decide_eq_false _); vm_compute; reflexivity.
  - exists long_message, (chars "hello, hello, hello"), (fun k => (k <? 2)%nat). eexists. split; [|split; [reflexivity|split; [vm_compute; reflexivity|]]].
    + repeat split; try (cbn; lia); try discriminate; vm_compute; discriminate.
    + apply (bool_decide_eq_false _); vm_compute; reflexivity.
  - exists (chars "$MSGLEN$?"), (chars "bye"). vm_compute. reflexivity.
Qed.
