(* ===== verification/GnssTracking.v ===== *)
(** * Tracking sessions ([src/gps/gnss/GnssAdapter.cpp])

    Clients start, update and stop tracking sessions; the engine runs one time-based
    session for all of them, with options multiplexed from theirs, and one
    distance-based session for each.  The commands are messages of the adapter's
    task, one step each.  Requests to the engine are answered later, in order; the
    lambda that the code passes with a request is a value of [handler], run with
    the answer.

    The position mode given to the engine hub, the NMEA time stamps and the NTRIP
    stream, which the same functions also update, do not affect the sessions and
    are left out; the callbacks of a client are the two facts the code tests. *)
From stdpp Require Import sorting.
From S2P Require Import Prelude.
#[local] Open Scope Z_scope.

(** ** Options *)
Record LocationOptions := MkLocation { l_size : Z; l_minInterval : Z; l_minDistance : Z; l_mode : Z; l_engines : Z }.
(** [TrackingOptions]: a [LocationOptions] with two more fields. *)
Record TrackingOptions := MkOptions {
  size : Z; minInterval : Z; minDistance : Z; mode : Z; locReqEngTypeMask : Z; powerMode : Z; tbm : Z;
}.
Definition zero_options : TrackingOptions := MkOptions 0 0 0 0 0 0 0.
Definition location_part (o : TrackingOptions) : LocationOptions :=
  MkLocation (size o) (minInterval o) (minDistance o) (mode o) (locReqEngTypeMask o).
Definition with_interval (i : Z) (o : TrackingOptions) : TrackingOptions :=
  MkOptions (size o) i (minDistance o) (mode o) (locReqEngTypeMask o) (powerMode o) (tbm o).
Definition with_power (p : Z) (o : TrackingOptions) : TrackingOptions :=
  MkOptions (size o) (minInterval o) (minDistance o) (mode o) (locReqEngTypeMask o) p (tbm o).
(** [sizeof(TrackingOptions)] *)
Definition sizeof_options : Z := 28.
(** [TrackingOptions::setLocationOptions] *)
Definition setLocationOptions (this options : TrackingOptions) : TrackingOptions :=
  MkOptions sizeof_options (minInterval options) (minDistance options) (mode options) (locReqEngTypeMask options)
    (powerMode this) (tbm this).

Definition MIN_TRACKING_INTERVAL : Z := 100.
Definition TRACKING_TBM_THRESHOLD_MILLIS : Z := 480000.
Definition GNSS_POWER_MODE_INVALID : Z := 0.
Definition GNSS_POWER_MODE_M1 : Z := 1.
Definition GNSS_POWER_MODE_M2 : Z := 2.
Definition GNSS_POWER_MODE_M4 : Z := 4.

Definition LOCATION_ERROR_SUCCESS : Z := 0.
Definition LOCATION_ERROR_CALLBACK_MISSING : Z := 2.
Definition LOCATION_ERROR_INVALID_PARAMETER : Z := 3.
Definition LOCATION_ERROR_ID_UNKNOWN : Z := 5.

(** [LocationSessionKey], ordered by session id, then client. *)
Definition key : Type := nat * nat.
Definition key_of (client id : nat) : key := (id, client).
Definition key_le (a b : key) : Prop := (a.1 < b.1)%nat \/ a.1 = b.1 /\ (a.2 <= b.2)%nat.
#[export] Instance key_le_dec : RelDecision key_le.
Proof. intros a b. unfold key_le. apply _. Defined.
(** The sessions in the order the maps are iterated in. *)
Definition in_order {A} (m : gmap key A) : list (key * A) :=
  merge_sort (fun x y => key_le x.1 y.1) (map_to_list m).

(** ** State *)
Inductive request :=
  | StartTime (o : TrackingOptions) | StopFix
  | StartDistance (id : nat) (o : LocationOptions) | StopDistance (id : nat).

Inductive handler :=
  | NoHandler
  | OnStart (client id : nat)                          (** [startTimeBasedTracking] *)
  | OnUpdate (client id : nat) (old : TrackingOptions) (** [updateTracking] *)
  | OnStop (client id : nat)                           (** [stopTracking] *)
  | OnStartDistance (client id : nat)                  (** [MsgStartTracking] *)
  | OnStopDistance (client id : nat)                   (** [MsgStopTracking] *)
  | OnClientStop (client id : nat)                     (** [stopClientSessions] *)
  | OnToTime (client id : nat) (o : TrackingOptions)   (** [MsgUpdateTracking], to time-based *)
  | OnRestartStop (client id : nat) (o : TrackingOptions)  (** [MsgUpdateTracking], restart: stopped *)
  | OnRestartStart (client id : nat) (o : TrackingOptions). (** and started again *)

Inductive command := StartCmd (client id : nat) (o : TrackingOptions) | UpdateCmd (client id : nat) (o : TrackingOptions).

Record Adapter := MkAdapter {
  mTimeBasedTrackingSessions : gmap key TrackingOptions;
  mDistanceBasedTrackingSessions : gmap key LocationOptions;
  mClientData : gmap nat (bool * bool);     (** has it a tracking callback, a response callback? *)
  mNHzNeeded : bool;
  mSPEAlreadyRunningAtHighestInterval : bool;
  mIsEngineCapabilitiesKnown : bool;
  mPendingMsgs : list command;
  mPowerOn : bool;
  requests : list (request * handler);      (** sent to the engine and not answered *)
  responses : list (nat * Z * nat);         (** client, error, session: reported so far *)
}.

Abbreviation M := (CM Adapter).

Definition set_time f s := MkAdapter (f (mTimeBasedTrackingSessions s)) (mDistanceBasedTrackingSessions s) (mClientData s) (mNHzNeeded s) (mSPEAlreadyRunningAtHighestInterval s) (mIsEngineCapabilitiesKnown s) (mPendingMsgs s) (mPowerOn s) (requests s) (responses s).
Definition set_distance f s := MkAdapter (mTimeBasedTrackingSessions s) (f (mDistanceBasedTrackingSessions s)) (mClientData s) (mNHzNeeded s) (mSPEAlreadyRunningAtHighestInterval s) (mIsEngineCapabilitiesKnown s) (mPendingMsgs s) (mPowerOn s) (requests s) (responses s).
Definition set_clients f s := MkAdapter (mTimeBasedTrackingSessions s) (mDistanceBasedTrackingSessions s) (f (mClientData s)) (mNHzNeeded s) (mSPEAlreadyRunningAtHighestInterval s) (mIsEngineCapabilitiesKnown s) (mPendingMsgs s) (mPowerOn s) (requests s) (responses s).
Definition set_nhz b s := MkAdapter (mTimeBasedTrackingSessions s) (mDistanceBasedTrackingSessions s) (mClientData s) b (mSPEAlreadyRunningAtHighestInterval s) (mIsEngineCapabilitiesKnown s) (mPendingMsgs s) (mPowerOn s) (requests s) (responses s).
Definition set_spe b s := MkAdapter (mTimeBasedTrackingSessions s) (mDistanceBasedTrackingSessions s) (mClientData s) (mNHzNeeded s) b (mIsEngineCapabilitiesKnown s) (mPendingMsgs s) (mPowerOn s) (requests s) (responses s).
Definition set_known b s := MkAdapter (mTimeBasedTrackingSessions s) (mDistanceBasedTrackingSessions s) (mClientData s) (mNHzNeeded s) (mSPEAlreadyRunningAtHighestInterval s) b (mPendingMsgs s) (mPowerOn s) (requests s) (responses s).
Definition set_pending f s := MkAdapter (mTimeBasedTrackingSessions s) (mDistanceBasedTrackingSessions s) (mClientData s) (mNHzNeeded s) (mSPEAlreadyRunningAtHighestInterval s) (mIsEngineCapabilitiesKnown s) (f (mPendingMsgs s)) (mPowerOn s) (requests s) (responses s).
Definition set_power b s := MkAdapter (mTimeBasedTrackingSessions s) (mDistanceBasedTrackingSessions s) (mClientData s) (mNHzNeeded s) (mSPEAlreadyRunningAtHighestInterval s) (mIsEngineCapabilitiesKnown s) (mPendingMsgs s) b (requests s) (responses s).
Definition set_requests f s := MkAdapter (mTimeBasedTrackingSessions s) (mDistanceBasedTrackingSessions s) (mClientData s) (mNHzNeeded s) (mSPEAlreadyRunningAtHighestInterval s) (mIsEngineCapabilitiesKnown s) (mPendingMsgs s) (mPowerOn s) (f (requests s)) (responses s).
Definition set_responses f s := MkAdapter (mTimeBasedTrackingSessions s) (mDistanceBasedTrackingSessions s) (mClientData s) (mNHzNeeded s) (mSPEAlreadyRunningAtHighestInterval s) (mIsEngineCapabilitiesKnown s) (mPendingMsgs s) (mPowerOn s) (requests s) (f (responses s)).

Definition ask (r : request) (h : handler) : M unit := modify (set_requests (fun q => q ++ [(r, h)])).

(** ** Sessions *)
Definition isTimeBasedTrackingSession (client id : nat) : M bool :=
  gets (fun s => bool_decide (is_Some (mTimeBasedTrackingSessions s !! key_of client id))).
Definition isDistanceBasedTrackingSession (client id : nat) : M bool :=
  gets (fun s => bool_decide (is_Some (mDistanceBasedTrackingSessions s !! key_of client id))).
Definition hasCallbacksToStartTracking (client : nat) : M bool :=
  gets (fun s => match mClientData s !! client with Some (can_track, _) => can_track | None => false end).

Definition reportPowerStateIfChanged : M unit :=
  s ← get;
  let newPowerOn := negb (bool_decide (mTimeBasedTrackingSessions s = ∅)) || negb (bool_decide (mDistanceBasedTrackingSessions s = ∅)) in
  modify (set_power newPowerOn).

(** [ContextBase::isMessageSupported(LOC_API_ADAPTER_MESSAGE_DISTANCE_BASE_TRACKING)] *)
Section tracking.
Context (distance_supported : bool).

Definition saveTrackingSession (client id : nat) (options : TrackingOptions) : M unit :=
  _ ← (if (0 <? minDistance options) && distance_supported
       then modify (set_distance <[key_of client id := location_part options]>)
       else modify (set_time <[key_of client id := options]>));
  reportPowerStateIfChanged.

Definition eraseTrackingSession (client id : nat) : M unit :=
  s ← get;
  _ ← (match mTimeBasedTrackingSessions s !! key_of client id with
       | Some _ => modify (set_time (delete (key_of client id)))
       | None => modify (set_distance (delete (key_of client id)))
       end);
  reportPowerStateIfChanged.

Definition reportResponse (client : nat) (err : Z) (id : nat) : M unit :=
  s ← get;
  match mClientData s !! client with
  | Some (_, true) => modify (set_responses (fun l => l ++ [(client, err, id)]))
  | _ => mret tt
  end.

(** ** Multiplexing *)

(** [checkAndSetSPEToRunforNHz]: its result and the options to run with. *)
Definition checkAndSetSPEToRunforNHz (out : TrackingOptions) : M (bool * TrackingOptions) :=
  s ← get;
  if negb (mNHzNeeded s) then mret (false, out) else
  if mSPEAlreadyRunningAtHighestInterval s then mret (true, out) else
  if MIN_TRACKING_INTERVAL <? minInterval out
  then _ ← modify (set_spe true); mret (false, with_interval MIN_TRACKING_INTERVAL out)
  else mret (false, out).

Definition startTimeBasedTracking (client id : nat) (options : TrackingOptions) : M unit :=
  '(running, tempOptions) ← checkAndSetSPEToRunforNHz options;
  if (running : bool) then reportResponse client LOCATION_ERROR_SUCCESS id
  else ask (StartTime tempOptions) (OnStart client id).

Definition updateTracking (client id : nat) (updatedOptions oldOptions : TrackingOptions) : M unit :=
  '(running, tempOptions) ← checkAndSetSPEToRunforNHz updatedOptions;
  if (running : bool) then reportResponse client LOCATION_ERROR_SUCCESS id
  else ask (StartTime tempOptions) (OnUpdate client id oldOptions).

Definition stopTracking (client id : nat) : M unit :=
  _ ← ask StopFix (OnStop client id);
  modify (set_spe false).

(** The loop that the three functions below share: the options of the smallest
    interval and the smallest power mode, over the sessions other than [skip]. *)
Definition multiplex_step (skip : option key) (acc : TrackingOptions * Z) (it : key * TrackingOptions) : TrackingOptions * Z :=
  let '(multiplexedOptions, multiplexedPowerMode) := acc in
  if bool_decide (skip = Some it.1) then acc else
  ((if (size multiplexedOptions =? 0) || (minInterval it.2 <? minInterval multiplexedOptions) then it.2 else multiplexedOptions),
   (if (multiplexedPowerMode =? GNSS_POWER_MODE_INVALID) || (powerMode it.2 <? multiplexedPowerMode)
    then powerMode it.2 else multiplexedPowerMode)).
Definition multiplexed (skip : option key) (m : gmap key TrackingOptions) : TrackingOptions * Z :=
  foldl (multiplex_step skip) (zero_options, GNSS_POWER_MODE_INVALID) (in_order m).

Definition startTimeBasedTrackingMultiplex (client id : nat) (options : TrackingOptions) : M bool :=
  s ← get;
  if bool_decide (mTimeBasedTrackingSessions s = ∅) then _ ← startTimeBasedTracking client id options; mret false else
  let '(mo, mp) := multiplexed None (mTimeBasedTrackingSessions s) in
  let smaller := minInterval options <? minInterval mo in
  let mo := if smaller then with_interval (minInterval options) mo else mo in
  let stronger := powerMode options <? mp in
  let mo := if stronger then with_power (powerMode options) mo else mo in
  if smaller || stronger then _ ← startTimeBasedTracking client id mo; mret false else mret true.

Definition updateTrackingMultiplex (client id : nat) (options : TrackingOptions) : M bool :=
  s ← get;
  let k := key_of client id in
  oldOptions ← deref (mTimeBasedTrackingSessions s !! k);
  if negb (minInterval oldOptions =? minInterval options) || negb (powerMode oldOptions =? powerMode options) then
    let '(mo, mp) := multiplexed (Some k) (mTimeBasedTrackingSessions s) in
    let smaller := minInterval options <? minInterval mo in
    let mo := if smaller then with_interval (minInterval options) mo else mo in
    let stronger := powerMode options <? mp in
    let mo := if stronger then with_power (powerMode options) mo else mo in
    let only := Nat.eqb (base.size (mTimeBasedTrackingSessions s)) 1 in
    let mo := if only then options else mo in
    if smaller || stronger || only then _ ← updateTracking client id mo oldOptions; mret false else mret true
  else mret true.

Definition stopTimeBasedTrackingMultiplex (client id : nat) : M bool :=
  s ← get;
  if Nat.eqb (base.size (mTimeBasedTrackingSessions s)) 1 then _ ← stopTracking client id; mret false else
  let k := key_of client id in
  match mTimeBasedTrackingSessions s !! k with
  | None => mret true
  | Some it =>
      let '(mo, mp) := multiplexed (Some k) (mTimeBasedTrackingSessions s) in
      if (minInterval it <? minInterval mo) || (powerMode it <? mp)
      then _ ← startTimeBasedTracking client id (with_power mp mo); mret false else mret true
  end.

(** ** Commands *)
Definition clamp (o : TrackingOptions) : TrackingOptions :=
  if minInterval o <? MIN_TRACKING_INTERVAL then with_interval MIN_TRACKING_INTERVAL o else o.
Definition fall_back (o : TrackingOptions) : TrackingOptions :=
  if (powerMode o =? GNSS_POWER_MODE_M4) && (TRACKING_TBM_THRESHOLD_MILLIS <? tbm o) then with_power GNSS_POWER_MODE_M2 o else o.

(** The end of a time-based start: the multiplexer, the session, the response. *)
Definition start_time_based (client id : nat) (o : TrackingOptions) : M unit :=
  reportToClientWithNoWait ← startTimeBasedTrackingMultiplex client id o;
  _ ← saveTrackingSession client id o;
  if (reportToClientWithNoWait : bool) then reportResponse client LOCATION_ERROR_SUCCESS id else mret tt.

(** [MsgStartTracking::proc] *)
Definition start_tracking (client id : nat) (o : TrackingOptions) : M unit :=
  s ← get;
  if negb (mIsEngineCapabilitiesKnown s) && (0 <? minDistance o)
  then modify (set_pending (fun l => l ++ [StartCmd client id o])) else
  allowed ← hasCallbacksToStartTracking client;
  if negb allowed then mret tt else
  if size o =? 0 then mret tt else
  let o := clamp o in
  if (0 <? minDistance o) && distance_supported then
    _ ← saveTrackingSession client id o;
    ask (StartDistance id (location_part o)) (OnStartDistance client id)
  else start_time_based client id (fall_back o).

(** A time-based session stops: also the first half of a switch to distance-based. *)
Definition stop_time_based (client id : nat) : M unit :=
  reportToClientWithNoWait ← stopTimeBasedTrackingMultiplex client id;
  _ ← eraseTrackingSession client id;
  if (reportToClientWithNoWait : bool) then reportResponse client LOCATION_ERROR_SUCCESS id else mret tt.

(** [MsgUpdateTracking::proc] *)
Definition update_tracking (client id : nat) (o : TrackingOptions) : M unit :=
  s ← get;
  if negb (mIsEngineCapabilitiesKnown s) && (0 <? minDistance o)
  then modify (set_pending (fun l => l ++ [UpdateCmd client id o])) else
  isTimeBased ← isTimeBasedTrackingSession client id;
  isDistanceBased ← isDistanceBasedTrackingSession client id;
  if negb isTimeBased && negb isDistanceBased then reportResponse client LOCATION_ERROR_ID_UNKNOWN id else
  if size o =? 0 then reportResponse client LOCATION_ERROR_INVALID_PARAMETER id else
  let o := clamp (fall_back o) in
  if isTimeBased && (0 <? minDistance o) then
    _ ← stop_time_based client id;
    _ ← saveTrackingSession client id o;
    ask (StartDistance id (location_part o)) NoHandler
  else if isDistanceBased && (minDistance o =? 0) then
    _ ← eraseTrackingSession client id;
    ask (StopDistance id) (OnToTime client id o)
  else if (isTimeBased : bool) then
    reportToClientWithNoWait ← updateTrackingMultiplex client id o;
    _ ← saveTrackingSession client id o;
    if (reportToClientWithNoWait : bool) then reportResponse client LOCATION_ERROR_SUCCESS id else mret tt
  else ask (StopDistance id) (OnRestartStop client id o).

(** [MsgStopTracking::proc] *)
Definition stop_tracking (client id : nat) : M unit :=
  isTimeBased ← isTimeBasedTrackingSession client id;
  isDistanceBased ← isDistanceBasedTrackingSession client id;
  if (isTimeBased : bool) then stop_time_based client id else
  if (isDistanceBased : bool) then ask (StopDistance id) (OnStopDistance client id)
  else reportResponse client LOCATION_ERROR_ID_UNKNOWN id.

Fixpoint for_each {A} (f : A -> M unit) (l : list A) : M unit :=
  match l with [] => mret tt | x :: l => _ ← f x; for_each f l end.

Definition stopClientSessions (client : nat) : M unit :=
  s ← get;
  _ ← for_each (fun id => _ ← stopTimeBasedTrackingMultiplex client id; eraseTrackingSession client id)
        (it ← in_order (mTimeBasedTrackingSessions s); if Nat.eqb it.1.2 client then [it.1.1] else []);
  s ← get;
  for_each (fun id => ask (StopDistance id) (OnClientStop client id))
    (it ← in_order (mDistanceBasedTrackingSessions s); if Nat.eqb it.1.2 client then [it.1.1] else []).

(** [MsgAddClient] and [MsgRemoveClient] *)
Definition add_client (client : nat) (can_track can_answer : bool) : M unit :=
  modify (set_clients <[client := (can_track, can_answer)]>).
Definition remove_client (client : nat) : M unit :=
  _ ← stopClientSessions client;
  modify (set_clients (delete client)).

(** ** Restarts *)
Definition restart_step (acc : TrackingOptions * TrackingOptions) (it : key * TrackingOptions) : TrackingOptions * TrackingOptions :=
  let '(smallest, highest) := acc in
  ((if (size smallest =? 0) || (minInterval it.2 <? minInterval smallest) then it.2 else smallest),
   (if (size highest =? 0) || (negb (powerMode it.2 =? GNSS_POWER_MODE_INVALID) && (powerMode it.2 <? powerMode highest))
    then it.2 else highest)).

Definition checkAndRestartTimeBasedSession : M unit :=
  s ← get;
  if bool_decide (mTimeBasedTrackingSessions s = ∅) then mret tt else
  let '(smallest, highest) := foldl restart_step (zero_options, zero_options) (in_order (mTimeBasedTrackingSessions s)) in
  '(running, o) ← checkAndSetSPEToRunforNHz (setLocationOptions highest smallest);
  if (running : bool) then mret tt else ask (StartTime o) NoHandler.

Definition checkAndRestartSPESession : M unit :=
  _ ← modify (set_spe false);
  _ ← checkAndRestartTimeBasedSession;
  s ← get;
  for_each (fun it => ask (StartDistance it.1.1 it.2) NoHandler) (in_order (mDistanceBasedTrackingSessions s)).

Definition restartSessions : M unit := _ ← modify (set_spe false); checkAndRestartSPESession.

Definition suspendSessions : M unit :=
  s ← get;
  if bool_decide (mTimeBasedTrackingSessions s = ∅) then mret tt else
  _ ← ask StopFix NoHandler; modify (set_spe false).

(** A configuration that the engine takes while it is stopped, as in
    [gnssUpdateSvConfig] and [configMinGpsWeek]. *)
Definition reconfigure : M unit := _ ← suspendSessions; restartSessions.

Definition run_command (c : command) : M unit :=
  match c with StartCmd client id o => start_tracking client id o | UpdateCmd client id o => update_tracking client id o end.

(** [MsgHandleEngineUpEvent::proc], and the pending messages that it sends. *)
Definition engine_up : M unit :=
  _ ← modify (set_known true);
  _ ← restartSessions;
  s ← get;
  _ ← modify (set_pending (fun _ => []));
  for_each run_command (mPendingMsgs s).

(** The engine hub's requirement changes. *)
Definition update_nhz (nHzNeeded : bool) : M unit :=
  s ← get;
  if Bool.eqb (mNHzNeeded s) nHzNeeded then mret tt else
  _ ← modify (set_nhz nHzNeeded); checkAndRestartSPESession.

(** ** Answers of the engine *)
Definition run_handler (h : handler) (err : Z) : M unit :=
  let ok := err =? LOCATION_ERROR_SUCCESS in
  match h with
  | NoHandler => mret tt
  | OnStart client id =>
      _ ← (if ok then mret tt else eraseTrackingSession client id); reportResponse client err id
  | OnUpdate client id old =>
      _ ← (if ok then mret tt else saveTrackingSession client id old); reportResponse client err id
  | OnStop client id => reportResponse client err id
  | OnStartDistance client id =>
      _ ← (if ok then mret tt else eraseTrackingSession client id); reportResponse client err id
  | OnStopDistance client id =>
      _ ← (if ok then eraseTrackingSession client id else mret tt); reportResponse client err id
  | OnClientStop client id => if ok then eraseTrackingSession client id else mret tt
  | OnToTime client id o => start_time_based client id o
  | OnRestartStop client id o =>
      if ok then ask (StartDistance id (location_part o)) (OnRestartStart client id o) else mret tt
  | OnRestartStart client id o =>
      _ ← (if ok then saveTrackingSession client id o else mret tt); reportResponse client err id
  end.
Definition answer (err : Z) : M unit :=
  s ← get;
  match requests s with
  | [] => mret tt
  | (_, h) :: q => _ ← modify (set_requests (fun _ => q)); run_handler h err
  end.
End tracking.

Definition Adapter_new : Adapter := MkAdapter ∅ ∅ ∅ false false false [] false [] [].
