(* ===== verification/GnssTrackingProps.v ===== *)
(** * The engine serves all tracking sessions

    The adapter together with the engine's time-based session: what the engine has
    been asked for covers the sessions of all clients, as long as the engine
    refuses no time-based request and no client uses a session with a request
    outstanding; and what goes wrong otherwise. *)
From stdpp Require Import sorting.
From S2P Require Import Prelude GnssTracking.
#[local] Open Scope Z_scope.

(** What the engine will run once it has answered all requests. *)
Definition request_step (e : option TrackingOptions) (r : request) : option TrackingOptions :=
  match r with StartTime o => Some o | StopFix => None | _ => e end.
Definition target (e : option TrackingOptions) (q : list (request * handler)) : option TrackingOptions :=
  foldl request_step e q.*1.

Lemma target_app e q r h : target e (q ++ [(r, h)]) = request_step (target e q) r.
Proof. unfold target. by rewrite fmap_app, foldl_app. Qed.

(** A session's options: they have been through [clamp]. *)
Definition good (o : TrackingOptions) : Prop := size o <> 0 /\ MIN_TRACKING_INTERVAL <= minInterval o.

Record covered (e : option TrackingOptions) (nhz spe : bool) (time : gmap key TrackingOptions) (q : list (request * handler)) : Prop := {
  c_none : time = ∅ -> target e q = None /\ spe = false;
  c_some : time <> ∅ -> exists t, target e q = Some t /\ forall k o, time !! k = Some o -> minInterval t <= minInterval o;
  c_good k o : time !! k = Some o -> good o;
  c_spe : spe = true -> nhz = true /\ exists t, target e q = Some t /\ minInterval t <= MIN_TRACKING_INTERVAL;
}.

(** ** The multiplexing loop *)
Section multiplexed.
Context (skip : option key).

Definition others (l : list (key * TrackingOptions)) : list TrackingOptions :=
  it ← l; if bool_decide (skip = Some it.1) then [] else [it.2].

Lemma multiplex_fold l mo mp :
  Forall (fun o => size o <> 0) (others l) ->
  (size mo = 0 -> mo = zero_options) ->
  let r := foldl (multiplex_step skip) (mo, mp) l in
  (forall o, o ∈ others l \/ size mo <> 0 /\ o = mo -> size r.1 <> 0 /\ minInterval r.1 <= minInterval o) /\
  (r.1 = mo \/ r.1 ∈ others l) /\
  (others l = [] -> r = (mo, mp)).
Proof.
  revert mo mp. induction l as [|[k o] l IH]; intros mo mp Hl Hz; cbn zeta.
  - simpl. split; [|by split; [left|]]. intros o [Ho|[? ->]]; [by apply elem_of_nil in Ho|done].
  - change (foldl (multiplex_step skip) (mo, mp) ((k, o) :: l)) with (foldl (multiplex_step skip) (multiplex_step skip (mo, mp) (k, o)) l).
    destruct (bool_decide (skip = Some k)) eqn:Ek.
    + assert (multiplex_step skip (mo, mp) (k, o) = (mo, mp)) as -> by (unfold multiplex_step; cbn [fst]; by rewrite Ek).
      change (others ((k, o) :: l)) with ((if bool_decide (skip = Some k) then [] else [o]) ++ others l) in *.
      rewrite Ek in *. by apply IH.
    + change (others ((k, o) :: l)) with ((if bool_decide (skip = Some k) then [] else [o]) ++ others l) in *.
      rewrite Ek in *. cbn [app] in *. apply Forall_cons in Hl as [Ho Hl].
      set (mo' := if (size mo =? 0) || (minInterval o <? minInterval mo) then o else mo).
      set (mp' := if (mp =? GNSS_POWER_MODE_INVALID) || (powerMode o <? mp) then powerMode o else mp).
      assert (multiplex_step skip (mo, mp) (k, o) = (mo', mp')) as -> by (unfold multiplex_step; cbn [fst snd]; by rewrite Ek).
      assert (Hmo' : size mo' <> 0) by (unfold mo'; destruct (size mo =? 0) eqn:E; simpl; [done|destruct (_ <? _); [done|lia]]).
      destruct (IH mo' mp' Hl ltac:(done)) as (Hmin & Hin & _). split; [|split; [|done]].
      * assert (Hmo : size (foldl (multiplex_step skip) (mo', mp') l).1 <> 0 /\
          minInterval (foldl (multiplex_step skip) (mo', mp') l).1 <= minInterval mo') by (apply Hmin; by right).
        intros o' [Ho'|[Hs ->]].
        -- apply elem_of_cons in Ho' as [->|Ho']; [|apply Hmin; by left]. split; [apply Hmo|].
           destruct Hmo as [_ Hmo]. unfold mo' in Hmo at 2. destruct (size mo =? 0); simpl in Hmo; [done|].
           destruct (minInterval o <? minInterval mo) eqn:E; lia.
        -- split; [apply Hmo|]. destruct Hmo as [_ Hmo]. unfold mo' in Hmo at 2.
           destruct (size mo =? 0) eqn:Es; simpl in Hmo; [lia|]. destruct (minInterval o <? minInterval mo) eqn:E; lia.
      * destruct Hin as [->|Hin]; [|right; by right]. unfold mo'. destruct (_ || _); [right; left|by left].
Qed.
End multiplexed.

Lemma others_elem skip m o : o ∈ others skip (in_order m) <-> exists k, m !! k = Some o /\ skip <> Some k.
Proof.
  unfold others, in_order. rewrite list_elem_of_bind. split.
  - intros ([k o'] & Ho & Hin). rewrite merge_sort_Permutation in Hin. apply elem_of_map_to_list in Hin. simpl in Ho.
    destruct (bool_decide (skip = Some k)) eqn:E; [by apply elem_of_nil in Ho|]. apply list_elem_of_singleton in Ho as ->.
    apply bool_decide_eq_false in E. eauto.
  - intros (k & Hk & Hs). exists (k, o). rewrite merge_sort_Permutation. split; [|by apply elem_of_map_to_list].
    simpl. rewrite bool_decide_false by done. left.
Qed.

(** The options the loop finds have the smallest interval of the other sessions. *)
Lemma multiplexed_spec skip m mo mp : multiplexed skip m = (mo, mp) -> (forall k o, m !! k = Some o -> good o) ->
  (forall k o, m !! k = Some o -> skip <> Some k -> size mo <> 0 /\ minInterval mo <= minInterval o) /\
  ((mo = zero_options /\ mp = 0 /\ forall k o, m !! k = Some o -> skip = Some k) \/
   good mo /\ exists k, m !! k = Some mo /\ skip <> Some k).
Proof.
  intros Hm Hg. unfold multiplexed in Hm.
  destruct (multiplex_fold skip (in_order m) zero_options GNSS_POWER_MODE_INVALID) as (Hmin & Hin & Hnil).
  { apply Forall_forall. intros o (k & Hk & _)%others_elem. by apply (Hg k). }
  { done. }
  rewrite Hm in Hmin, Hin, Hnil. cbn [fst] in *. split.
  - intros k o Hk Hs. apply Hmin. left. apply others_elem. eauto.
  - destruct (others skip (in_order m)) as [|o l] eqn:Eo.
    + left. specialize (Hnil eq_refl) as [= -> ->]. split; [done|]. split; [done|]. intros k o Hk.
      destruct (decide (skip = Some k)); [done|]. assert (o ∈ others skip (in_order m)) as Hin' by (apply others_elem; eauto).
      rewrite Eo in Hin'. by apply elem_of_nil in Hin'.
    + right. assert (exists k, m !! k = Some mo /\ skip <> Some k) as (k & Hk & Hs).
      { destruct Hin as [->|Hin]; [|rewrite <- Eo in Hin; by apply others_elem]. exfalso.
        destruct (Hmin o) as [? _]; [by left; left|done]. }
      split; [by apply (Hg k)|eauto].
Qed.

(** ** The requests cover the sessions *)
Section covered.
Context {e : option TrackingOptions} {nhz spe : bool} {time : gmap key TrackingOptions} {q : list (request * handler)}.

Lemma covered_request spe' time' o' h : time' <> ∅ ->
  (forall k o, time' !! k = Some o -> good o /\ minInterval o' <= minInterval o) ->
  (spe' = true -> nhz = true /\ minInterval o' <= MIN_TRACKING_INTERVAL) ->
  covered e nhz spe' time' (q ++ [(StartTime o', h)]).
Proof.
  intros Hne Hall Hspe. split; rewrite ?target_app; simpl.
  - done.
  - intros _. exists o'. split; [done|]. intros k o Hk. by apply Hall in Hk as [_ ?].
  - intros k o Hk. by apply Hall in Hk as [? _].
  - intros [? ?]%Hspe. eauto.
Qed.

Lemma covered_insert k o : covered e nhz spe time q -> good o ->
  ((exists k' o', time !! k' = Some o' /\ minInterval o' <= minInterval o) \/ spe = true) ->
  covered e nhz spe (<[k := o]> time) q.
Proof.
  intros [] Ho Hcov.
  assert (Hall : forall t, target e q = Some t -> (forall k' o', time !! k' = Some o' -> minInterval t <= minInterval o') ->
    minInterval t <= minInterval o -> forall k' o', <[k := o]> time !! k' = Some o' -> minInterval t <= minInterval o').
  { intros t _ Ht Hto k' o' [[<- <-]|[_ ?]]%lookup_insert_Some; eauto. }
  split.
  - intros E. by apply insert_non_empty in E.
  - intros _. destruct (decide (time = ∅)) as [->|Hne].
    { destruct Hcov as [(k' & o' & Hk' & _)|Hs]; [by rewrite lookup_empty in Hk'|]. destruct (c_none0 eq_refl). congruence. }
    destruct (c_some0 Hne) as (t & Ht & Hmin). exists t. split; [done|]. apply Hall; try done.
    destruct Hcov as [(k' & o' & Hk' & ?)|Hs]; [pose proof (Hmin k' o' Hk'); lia|].
    destruct (c_spe0 Hs) as (_ & t' & Ht' & ?). destruct Ho as [_ ?]. rewrite Ht in Ht'. injection Ht' as <-. lia.
  - intros k' o' [[<- <-]|[_ ?]]%lookup_insert_Some; eauto.
  - done.
Qed.

Lemma covered_delete k : covered e nhz spe time q -> delete k time <> ∅ -> covered e nhz spe (delete k time) q.
Proof.
  intros [] Hne. split; try done.
  - intros _. destruct c_some0 as (t & Ht & Hmin); [intros ->; by rewrite delete_empty in Hne|]. exists t. split; [done|].
    intros k' o [_ Hk']%lookup_delete_Some. eauto.
  - intros k' o [_ Hk']%lookup_delete_Some. eauto.
Qed.

Lemma covered_off h : covered e nhz false ∅ (q ++ [(StopFix, h)]).
Proof. split; rewrite ?target_app; try done. Qed.

Lemma covered_other r h : covered e nhz spe time q -> request_step (target e q) r = target e q ->
  covered e nhz spe time (q ++ [(r, h)]).
Proof. intros [] Hr. split; rewrite ?target_app, ?Hr; done. Qed.
End covered.

Lemma covered_answered e nhz spe time r h q : covered e nhz spe time ((r, h) :: q) -> covered (request_step e r) nhz spe time q.
Proof. intros []. by split. Qed.

(** ** Each session has at most one request outstanding *)
Definition hkey (h : handler) : option key :=
  match h with
  | NoHandler => None
  | OnStart c id | OnUpdate c id _ | OnStop c id | OnStartDistance c id | OnStopDistance c id | OnClientStop c id
  | OnToTime c id _ | OnRestartStop c id _ | OnRestartStart c id _ => Some (key_of c id)
  end.
Definition ckey (c : command) : key := match c with StartCmd c id _ | UpdateCmd c id _ => key_of c id end.
(** The sessions with a request or a pending command. *)
Definition outstanding (q : list (request * handler)) (p : list command) : list key := omap hkey q.*2 ++ (ckey <$> p).

Definition handler_ok (time : gmap key TrackingOptions) (dist : gmap key LocationOptions) (h : handler) : Prop :=
  match h with
  | OnStartDistance c id | OnStopDistance c id | OnClientStop c id => time !! key_of c id = None
  | OnToTime c id o => time !! key_of c id = None /\ dist !! key_of c id = None /\ good o /\ minDistance o = 0
  | OnRestartStop c id o | OnRestartStart c id o => time !! key_of c id = None /\ 0 < minDistance o
  | _ => True
  end.
Definition command_ok (time : gmap key TrackingOptions) (dist : gmap key LocationOptions) (c : command) : Prop :=
  match c with
  | StartCmd c id o => 0 <= minDistance o /\ time !! key_of c id = None /\ dist !! key_of c id = None
  | UpdateCmd c id o => 0 <= minDistance o
  end.

Record owned (time : gmap key TrackingOptions) (dist : gmap key LocationOptions) (q : list (request * handler)) (p : list command) : Prop := {
  o_disjoint k : is_Some (time !! k) -> dist !! k = None;
  o_keys : NoDup (outstanding q p);
  o_handlers h : h ∈ q.*2 -> handler_ok time dist h;
  o_pending c : c ∈ p -> command_ok time dist c;
}.

Lemma outstanding_ask q p r h : outstanding (q ++ [(r, h)]) p ≡ₚ option_list (hkey h) ++ outstanding q p.
Proof.
  unfold outstanding. rewrite fmap_app, omap_app. simpl. destruct (hkey h); simpl; [|by rewrite app_nil_r].
  rewrite <- app_assoc. simpl. by rewrite <- Permutation_middle.
Qed.
Lemma hkey_outstanding q p h k : h ∈ q.*2 -> hkey h = Some k -> k ∈ outstanding q p.
Proof. intros Hh Hk. apply elem_of_app. left. apply list_elem_of_omap. eauto. Qed.
Lemma ckey_outstanding q p c : c ∈ p -> ckey c ∈ outstanding q p.
Proof. intros Hc. apply elem_of_app. right. by apply list_elem_of_fmap_2. Qed.

Lemma handler_ok_frame t d t' d' k h : (forall j, j <> k -> t' !! j = t !! j /\ d' !! j = d !! j) -> hkey h <> Some k ->
  handler_ok t d h -> handler_ok t' d' h.
Proof.
  intros Hf Hk Hh. destruct h; simpl in *; try done;
    (assert (Hj : key_of client id <> k) by congruence); destruct (Hf _ Hj) as [Et Ed]; by rewrite ?Et, ?Ed.
Qed.
Lemma command_ok_frame t d t' d' k c : (forall j, j <> k -> t' !! j = t !! j /\ d' !! j = d !! j) -> ckey c <> k ->
  command_ok t d c -> command_ok t' d' c.
Proof. intros Hf Hk Hc. destruct c; simpl in *; [|done]. destruct (Hf _ Hk) as [-> ->]. done. Qed.

Section owned.
Context {time : gmap key TrackingOptions} {dist : gmap key LocationOptions} {q : list (request * handler)} {p : list command}.

(** The session [k], which has nothing outstanding, changes. *)
Lemma owned_session time' dist' k : owned time dist q p -> k ∉ outstanding q p ->
  (forall j, j <> k -> time' !! j = time !! j /\ dist' !! j = dist !! j) -> (is_Some (time' !! k) -> dist' !! k = None) ->
  owned time' dist' q p.
Proof.
  intros [] Hk Hf Hd. split.
  - intros j Hj. destruct (decide (j = k)) as [->|Hne]; [auto|]. destruct (Hf j Hne) as [Et Ed]. rewrite Et in Hj. rewrite Ed. auto.
  - done.
  - intros h Hh. eapply handler_ok_frame; [exact Hf| |auto]. intros Hhk. by eapply Hk, hkey_outstanding.
  - intros c Hc. eapply command_ok_frame; [exact Hf| |auto]. intros <-. by eapply Hk, ckey_outstanding.
Qed.

Lemma owned_ask r h : owned time dist q p -> handler_ok time dist h -> (forall k, hkey h = Some k -> k ∉ outstanding q p) ->
  owned time dist (q ++ [(r, h)]) p.
Proof.
  intros [] Hok Hk. split; try done.
  - rewrite outstanding_ask. destruct (hkey h) as [k|]; simpl; [|done]. constructor; auto.
  - intros h'. rewrite fmap_app, elem_of_app. intros [?|Hh%list_elem_of_singleton]; [auto|]. by rewrite Hh.
Qed.

Lemma owned_answered r h q' : owned time dist q p -> q = (r, h) :: q' ->
  owned time dist q' p /\ handler_ok time dist h /\ forall k, hkey h = Some k -> k ∉ outstanding q' p.
Proof.
  intros [] E. rewrite E in *. unfold outstanding in *. simpl in o_keys0. split; [|split].
  - split; try done.
    + destruct (hkey h); [by apply NoDup_cons in o_keys0 as [_ ?]|done].
    + intros h' Hh'. apply o_handlers0. simpl. by right.
  - apply o_handlers0. left.
  - intros k Hk. rewrite Hk in o_keys0. by apply NoDup_cons in o_keys0 as [? _].
Qed.
End owned.

(** ** The commands keep the invariant *)
Abbreviation timed := mTimeBasedTrackingSessions.
Abbreviation distanced := mDistanceBasedTrackingSessions.
Abbreviation spe := mSPEAlreadyRunningAtHighestInterval.

Record Inv (e : option TrackingOptions) (s : Adapter) : Prop := {
  i_covered : covered e (mNHzNeeded s) (spe s) (timed s) (requests s);
  i_owned : owned (timed s) (distanced s) (requests s) (mPendingMsgs s);
}.
Definition free (k : key) (s : Adapter) : Prop := k ∉ outstanding (requests s) (mPendingMsgs s).

(** What a command on session [k] leaves alone. *)
Record frames (k : key) (s s' : Adapter) : Prop := {
  f_sessions j : j <> k -> timed s' !! j = timed s !! j /\ distanced s' !! j = distanced s !! j;
  f_free j : j <> k -> free j s -> free j s';
  f_pending : mPendingMsgs s' = mPendingMsgs s;
  f_known : mIsEngineCapabilitiesKnown s' = mIsEngineCapabilitiesKnown s;
  f_clients : mClientData s' = mClientData s;
}.
Lemma frames_refl k s : frames k s s.
Proof. by split. Qed.

(** At most one more request for [k] is outstanding, and nothing else has changed
    but responses and the flag of the highest interval. *)
Record asks (k : key) (s s' : Adapter) : Prop := {
  a_timed : timed s' = timed s;
  a_distanced : distanced s' = distanced s;
  a_nhz : mNHzNeeded s' = mNHzNeeded s;
  a_pending : mPendingMsgs s' = mPendingMsgs s;
  a_known : mIsEngineCapabilitiesKnown s' = mIsEngineCapabilitiesKnown s;
  a_clients : mClientData s' = mClientData s;
  a_requests : requests s' = requests s \/
    exists r h, requests s' = requests s ++ [(r, h)] /\ hkey h = Some k /\ forall t d, handler_ok t d h;
}.
Lemma asks_refl k s : asks k s s.
Proof. split; try done. by left. Qed.

Lemma outstanding_asks k s s' j : asks k s s' -> j <> k -> free j s -> free j s'.
Proof.
  intros [] Hj. unfold free. rewrite a_pending0. destruct a_requests0 as [->|(r & h & -> & Hk & _)]; [done|].
  rewrite outstanding_ask, Hk. simpl. intros Hf [?|?]%elem_of_cons; done.
Qed.

Lemma Inv_asks e k s s1 s2 time' dist' : Inv e s -> free k s -> asks k s s1 ->
  timed s2 = time' -> distanced s2 = dist' -> mNHzNeeded s2 = mNHzNeeded s1 -> spe s2 = spe s1 -> requests s2 = requests s1 ->
  mPendingMsgs s2 = mPendingMsgs s1 -> mIsEngineCapabilitiesKnown s2 = mIsEngineCapabilitiesKnown s1 -> mClientData s2 = mClientData s1 ->
  covered e (mNHzNeeded s) (spe s1) time' (requests s1) ->
  (forall j, j <> k -> time' !! j = timed s !! j /\ dist' !! j = distanced s !! j) -> (is_Some (time' !! k) -> dist' !! k = None) ->
  Inv e s2 /\ frames k s s2.
Proof.
  intros [C O] Hk Ha E1 E2 E3 E4 E5 E6 E7 E8 HC Hf Hd. pose proof Ha as []. split; split.
  - rewrite E3, E4, E1, E5, a_nhz0. done.
  - rewrite E1, E2, E5, E6, a_pending0. pose proof (owned_session time' dist' k O Hk Hf Hd) as O'.
    destruct a_requests0 as [->|(r & h & -> & Hhk & Hok)]; [done|]. apply owned_ask; [done|apply Hok|].
    intros j Hj. rewrite Hhk in Hj. by injection Hj as <-.
  - intros j Hj. rewrite E1, E2. auto.
  - intros j Hj Hfj. pose proof (outstanding_asks k s s1 j Ha Hj Hfj) as Hf1. unfold free in *. by rewrite E5, E6.
  - by rewrite E6.
  - by rewrite E7.
  - by rewrite E8.
Qed.

Lemma wp_reportResponse c err id s (Q : unit -> Adapter -> Prop) :
  (forall f, Q tt (set_responses f s)) -> wp (reportResponse c err id) Q s.
Proof.
  intros HQ. unfold reportResponse. wp_step. wp_step.
  assert (Hid : Q tt s) by (specialize (HQ (fun l => l)); by destruct s).
  destruct (mClientData s !! c) as [[b []]|]; wp_step; auto.
Qed.

(** [checkAndSetSPEToRunforNHz], then a response or a request. *)
Lemma wp_run_engine (o : TrackingOptions) (h : handler) c id s (Q : unit -> Adapter -> Prop) e k :
  Inv e s -> hkey h = Some k -> (forall t d, handler_ok t d h) ->
  (forall s', spe s = true -> spe s' = true -> requests s' = requests s -> asks k s s' -> Q tt s') ->
  (forall o' s', minInterval o' <= minInterval o -> (spe s' = true -> mNHzNeeded s = true /\ minInterval o' <= MIN_TRACKING_INTERVAL) ->
    requests s' = requests s ++ [(StartTime o', h)] -> asks k s s' -> Q tt s') ->
  wp ('(running, tempOptions) ← checkAndSetSPEToRunforNHz o;
      if (running : bool) then reportResponse c LOCATION_ERROR_SUCCESS id else ask (StartTime tempOptions) h) Q s.
Proof.
  intros [C O] Hk Hok Hrun Hask. unfold checkAndSetSPEToRunforNHz, ask. wp_step. wp_step. wp_step.
  destruct (mNHzNeeded s) eqn:En; cbn [negb].
  - destruct (spe s) eqn:Es.
    + wp_step. apply wp_reportResponse. intros f. apply Hrun; try done. split; try done. by left.
    + destruct (MIN_TRACKING_INTERVAL <? minInterval o) eqn:Ei.
      * wp_step. wp_step. wp_step. cbv iota. wp_step. apply (Hask (with_interval MIN_TRACKING_INTERVAL o)); simpl; try done; [lia|].
        split; try done. right. by eexists _, _.
      * wp_step. cbv iota. wp_step. apply (Hask o); simpl; try done; [intros; congruence|].
        split; try done. right. by eexists _, _.
  - wp_step. cbv iota. wp_step. apply (Hask o); simpl; try done.
    + intros Hs. destruct (c_spe _ _ _ _ _ C Hs). congruence.
    + split; try done. right. by eexists _, _.
Qed.

Lemma wp_multi_start e c id o s (Q : bool -> Adapter -> Prop) : Inv e s -> good o ->
  (forall b s1, asks (key_of c id) s s1 -> covered e (mNHzNeeded s) (spe s1) (<[key_of c id := o]> (timed s)) (requests s1) -> Q b s1) ->
  wp (startTimeBasedTrackingMultiplex c id o) Q s.
Proof.
  intros HI Ho HQ. pose proof HI as [C O]. unfold startTimeBasedTrackingMultiplex. wp_step. wp_step.
  assert (Hgood : forall j x, <[key_of c id := o]> (timed s) !! j = Some x -> good x)
    by (intros j x [[<- <-]|[_ Hj]]%lookup_insert_Some; [done|by eapply c_good]).
  destruct (bool_decide (timed s = ∅)) eqn:Ee.
  - apply bool_decide_eq_true in Ee. wp_step. unfold startTimeBasedTracking. eapply wp_run_engine; [exact HI|done|done| |].
    + intros s' Hs. destruct (c_none _ _ _ _ _ C Ee). congruence.
    + intros o' s' Hle Hspe Hq Ha. wp_step. apply HQ; [done|]. rewrite Hq. apply covered_request; [apply insert_non_empty| |done].
      rewrite Ee. intros j x [[<- <-]|[_ Hj]]%lookup_insert_Some; [by split|by rewrite lookup_empty in Hj].
  - apply bool_decide_eq_false in Ee. destruct (multiplexed None (timed s)) as [mo mp] eqn:Em.
    destruct (multiplexed_spec None _ _ _ Em (c_good _ _ _ _ _ C)) as [Hmin Hmo].
    destruct Hmo as [(_ & _ & Hno)|[Hg (k0 & Hk0 & _)]].
    { exfalso. apply Ee, map_empty. intros j. destruct (timed s !! j) eqn:Ej; [|done]. by apply Hno in Ej. }
    set (smaller := minInterval o <? minInterval mo). set (stronger := powerMode o <? mp).
    set (mo1 := if smaller then with_interval (minInterval o) mo else mo).
    set (mo2 := if stronger then with_power (powerMode o) mo1 else mo1).
    assert (Hint : minInterval mo2 = if smaller then minInterval o else minInterval mo) by (unfold mo2, mo1; destruct stronger, smaller; done).
    destruct (smaller || stronger) eqn:Eu.
    + wp_step. unfold startTimeBasedTracking. eapply wp_run_engine; [exact HI|done|done| |].
      * intros s' Hs Hs' Hq Ha. wp_step. apply HQ; [done|]. rewrite Hq, Hs'. rewrite <- Hs. apply covered_insert; [done|done|by right].
      * intros o' s' Hle Hspe Hq Ha. wp_step. apply HQ; [done|]. rewrite Hq. apply covered_request; [apply insert_non_empty| |done].
        intros j x Hx. split; [by eapply Hgood|]. unfold smaller in Hint. apply lookup_insert_Some in Hx as [[<- <-]|[_ Hj]].
        -- destruct (minInterval o <? minInterval mo) eqn:E; lia.
        -- destruct (Hmin j x Hj ltac:(done)) as [_ ?]. destruct (minInterval o <? minInterval mo) eqn:E; lia.
    + wp_step. apply HQ; [apply asks_refl|]. apply covered_insert; [done|done|]. left. exists k0, mo. split; [done|].
      apply orb_false_iff in Eu as [Eu _]. unfold smaller in Eu. lia.
Qed.

Lemma size_one_delete {A} (m : gmap key A) k x : m !! k = Some x -> base.size m = 1%nat -> delete k m = ∅.
Proof. intros Hk Hs. apply map_size_empty_inv. rewrite map_size_delete, Hk. lia. Qed.
Lemma size_one_insert {A} (m : gmap key A) k x y : m !! k = Some x -> base.size m = 1%nat -> <[k := y]> m = {[k := y]}.
Proof. intros Hk Hs. by rewrite <- insert_delete_eq, (size_one_delete m k x), insert_empty. Qed.

Lemma only_session {A} (k : key) (x : A) (m : gmap key A) : m !! k = Some x -> (forall j y, m !! j = Some y -> j = k) -> m = {[k := x]}.
Proof.
  intros Hk Hall. apply map_eq. intros j. destruct (decide (j = k)) as [->|Hne]; [by rewrite lookup_singleton_eq|].
  rewrite lookup_singleton_ne by done. destruct (m !! j) eqn:Ej; [|done]. by apply Hall in Ej.
Qed.

Lemma wp_multi_update e c id o old s (Q : bool -> Adapter -> Prop) : Inv e s -> good o -> timed s !! key_of c id = Some old ->
  (forall b s1, asks (key_of c id) s s1 -> covered e (mNHzNeeded s) (spe s1) (<[key_of c id := o]> (timed s)) (requests s1) -> Q b s1) ->
  wp (updateTrackingMultiplex c id o) Q s.
Proof.
  intros HI Ho Hold HQ. pose proof HI as [C O]. unfold updateTrackingMultiplex. wp_step. wp_step. wp_step. wp_step.
  set (k := key_of c id) in *.
  destruct (_ || _) eqn:Echg.
  - destruct (multiplexed (Some k) (timed s)) as [mo mp] eqn:Em.
    destruct (multiplexed_spec (Some k) _ _ _ Em (c_good _ _ _ _ _ C)) as [Hmin Hmo].
    set (smaller := minInterval o <? minInterval mo). set (stronger := powerMode o <? mp).
    set (mo1 := if smaller then with_interval (minInterval o) mo else mo).
    set (mo2 := if stronger then with_power (powerMode o) mo1 else mo1).
    assert (Hint : minInterval mo2 = if smaller then minInterval o else minInterval mo) by (unfold mo2, mo1; destruct stronger, smaller; done).
    set (only := Nat.eqb (base.size (timed s)) 1). set (mo3 := if only then o else mo2).
    assert (Hle3 : smaller || stronger || only = true -> forall j x, <[k := o]> (timed s) !! j = Some x -> good x /\ minInterval mo3 <= minInterval x).
    { intros Hu j x Hx. unfold mo3, only in *. destruct (Nat.eqb (base.size (timed s)) 1) eqn:E1.
      - apply Nat.eqb_eq in E1. rewrite (size_one_insert _ _ old) in Hx by done. by apply lookup_singleton_Some in Hx as [_ <-].
      - apply Nat.eqb_neq in E1. destruct Hmo as [(_ & _ & Hno)|[Hg (k0 & Hk0 & Hne)]].
        + exfalso. apply E1. rewrite (only_session k old (timed s)) by (congruence || naive_solver). by rewrite map_size_singleton.
        + unfold smaller in *. apply lookup_insert_Some in Hx as [[<- <-]|[Hj Hx]].
          * split; [done|]. rewrite Hint. destruct (minInterval o <? minInterval mo) eqn:E; lia.
          * split; [by eapply c_good|]. destruct (Hmin j x Hx ltac:(congruence)) as [_ ?]. rewrite Hint.
            destruct (minInterval o <? minInterval mo) eqn:E; lia. }
    destruct (smaller || stronger || only) eqn:Eu.
    + wp_step. unfold updateTracking. eapply wp_run_engine; [exact HI|done|done| |].
      * intros s' Hs Hs' Hq Ha. wp_step. apply HQ; [done|]. rewrite Hq, Hs', <- Hs. apply covered_insert; [done|done|by right].
      * intros o' s' Hle Hspe Hq Ha. wp_step. apply HQ; [done|]. rewrite Hq. apply covered_request; [apply insert_non_empty| |done].
        intros j x Hx. destruct (Hle3 eq_refl j x Hx) as [? ?]. split; [done|lia].
    + wp_step. apply HQ; [apply asks_refl|]. apply covered_insert; [done|done|]. left.
      apply orb_false_iff in Eu as [[Es _]%orb_false_iff Eo]. unfold only in Eo. apply Nat.eqb_neq in Eo.
      destruct Hmo as [(-> & _ & Hno)|[Hg (k0 & Hk0 & Hne)]]; [|exists k0, mo; split; [done|unfold smaller in Es; lia]].
      exfalso. apply Eo. rewrite (only_session k old (timed s)) by (congruence || naive_solver). by rewrite map_size_singleton.
  - wp_step. apply HQ; [apply asks_refl|]. apply covered_insert; [done|done|]. left. exists k, old. split; [done|].
    apply orb_false_iff in Echg as [Ei _]. lia.
Qed.

Lemma wp_multi_stop e c id it s (Q : bool -> Adapter -> Prop) : Inv e s -> timed s !! key_of c id = Some it ->
  (forall b s1, asks (key_of c id) s s1 -> covered e (mNHzNeeded s) (spe s1) (delete (key_of c id) (timed s)) (requests s1) -> Q b s1) ->
  wp (stopTimeBasedTrackingMultiplex c id) Q s.
Proof.
  intros HI Hit HQ. pose proof HI as [C O]. unfold stopTimeBasedTrackingMultiplex. wp_step. wp_step.
  set (k := key_of c id) in *. destruct (Nat.eqb (base.size (timed s)) 1) eqn:E1.
  - apply Nat.eqb_eq in E1. unfold stopTracking, ask. repeat wp_step. apply HQ.
    + split; try done. right. by eexists _, _.
    + simpl. rewrite (size_one_delete _ _ it) by done. apply covered_off.
  - apply Nat.eqb_neq in E1. rewrite Hit. destruct (multiplexed (Some k) (timed s)) as [mo mp] eqn:Em.
    destruct (multiplexed_spec (Some k) _ _ _ Em (c_good _ _ _ _ _ C)) as [Hmin Hmo].
    destruct Hmo as [(_ & _ & Hno)|[Hg (k0 & Hk0 & Hne)]].
    { exfalso. apply E1. rewrite (only_session k it (timed s)) by (congruence || naive_solver). by rewrite map_size_singleton. }
    assert (delete k (timed s) <> ∅) as Hd.
    { intros Hd. assert (delete k (timed s) !! k0 = Some mo) as Hk1 by (rewrite lookup_delete_ne; congruence). rewrite Hd in Hk1.
      by rewrite lookup_empty in Hk1. }
    destruct (_ || _) eqn:Eu.
    + wp_step. unfold startTimeBasedTracking. eapply wp_run_engine; [exact HI|done|done| |].
      * intros s' Hs Hs' Hq Ha. wp_step. apply HQ; [done|]. rewrite Hq, Hs', <- Hs. by apply covered_delete.
      * intros o' s' Hle Hspe Hq Ha. wp_step. apply HQ; [done|]. rewrite Hq. apply covered_request; [done| |done].
        intros j x [Hj Hx]%lookup_delete_Some. split; [by eapply c_good|]. destruct (Hmin j x Hx ltac:(congruence)) as [_ ?].
        simpl in Hle. lia.
    + wp_step. apply HQ; [apply asks_refl|]. by apply covered_delete.
Qed.

(** *** Saving and erasing *)
Definition saved (k : key) (o : TrackingOptions) (s : Adapter) : Adapter :=
  if 0 <? minDistance o then set_distance <[k := location_part o]> s else set_time <[k := o]> s.
Definition erased (k : key) (s : Adapter) : Adapter :=
  match timed s !! k with Some _ => set_time (delete k) s | None => set_distance (delete k) s end.

Lemma wp_save c id o s (Q : unit -> Adapter -> Prop) :
  (forall b, Q tt (set_power b (saved (key_of c id) o s))) -> wp (saveTrackingSession true c id o) Q s.
Proof.
  intros HQ. unfold saveTrackingSession, reportPowerStateIfChanged, saved in *. rewrite andb_true_r. wp_step.
  destruct (0 <? minDistance o); wp_step; wp_step; wp_step; wp_step; apply HQ.
Qed.
Lemma wp_erase c id s (Q : unit -> Adapter -> Prop) :
  (forall b, Q tt (set_power b (erased (key_of c id) s))) -> wp (eraseTrackingSession c id) Q s.
Proof.
  intros HQ. unfold eraseTrackingSession, reportPowerStateIfChanged, erased in *. wp_step. wp_step. wp_step.
  destruct (timed s !! key_of c id); wp_step; wp_step; wp_step; wp_step; apply HQ.
Qed.

(** A response may follow. *)
Lemma wp_respond (b : bool) c err id s (Q : unit -> Adapter -> Prop) :
  (forall f, Q tt (set_responses f s)) -> wp (if b then reportResponse c err id else mret tt) Q s.
Proof. intros HQ. destruct b; [by apply wp_reportResponse|]. wp_step. specialize (HQ (fun l => l)). by destruct s. Qed.

(** What a command on [k] achieves. *)
Definition done_with (e : option TrackingOptions) (k : key) (s s' : Adapter) : Prop := Inv e s' /\ frames k s s'.

Lemma wp_start_time_based e c id o s : Inv e s -> free (key_of c id) s -> good o -> minDistance o <= 0 ->
  distanced s !! key_of c id = None ->
  wp (start_time_based true c id o) (fun _ => done_with e (key_of c id) s) s.
Proof.
  intros HI Hf Ho Hd Hdk. unfold start_time_based. wp_step. apply (wp_multi_start e); [done|done|]. intros b s1 Ha HC.
  wp_step. apply wp_save. intros b'. apply wp_respond. intros f. unfold saved.
  assert (0 <? minDistance o = false) as -> by lia.
  eapply (Inv_asks e _ s s1); try done; simpl.
  - by rewrite (a_timed _ _ _ Ha).
  - intros j Hj. by rewrite lookup_insert_ne, (a_timed _ _ _ Ha), (a_distanced _ _ _ Ha).
  - intros _. by rewrite (a_distanced _ _ _ Ha).
Qed.

Lemma wp_stop_any e c id it s (Q : unit -> Adapter -> Prop) : Inv e s -> timed s !! key_of c id = Some it ->
  (forall s1 b f, asks (key_of c id) s s1 -> covered e (mNHzNeeded s) (spe s1) (delete (key_of c id) (timed s)) (requests s1) ->
    Q tt (set_responses f (set_power b (set_time (delete (key_of c id)) s1)))) ->
  wp (stop_time_based c id) Q s.
Proof.
  intros HI Hit HQ. unfold stop_time_based. wp_step. apply (wp_multi_stop e _ _ it); [done|done|]. intros b s1 Ha HC.
  wp_step. apply wp_erase. intros b'. apply wp_respond. intros f. unfold erased. rewrite (a_timed _ _ _ Ha), Hit. by apply HQ.
Qed.

Lemma stopped e k s s1 b f : Inv e s -> free k s -> asks k s s1 ->
  covered e (mNHzNeeded s) (spe s1) (delete k (timed s)) (requests s1) ->
  done_with e k s (set_responses f (set_power b (set_time (delete k) s1))).
Proof.
  intros HI Hf Ha HC. eapply (Inv_asks e _ s s1); try done; simpl.
  - by rewrite (a_timed _ _ _ Ha).
  - intros j Hj. by rewrite lookup_delete_ne, (a_timed _ _ _ Ha), (a_distanced _ _ _ Ha).
  - intros []. by rewrite lookup_delete_eq in *.
Qed.

Lemma wp_stop_time_based e c id it s : Inv e s -> free (key_of c id) s -> timed s !! key_of c id = Some it ->
  wp (stop_time_based c id) (fun _ => done_with e (key_of c id) s) s.
Proof. intros HI Hf Hit. apply (wp_stop_any e c id it); [done..|]. intros s1 b f Ha HC. by apply stopped. Qed.

(** *** Composing steps on one session *)
Lemma done_refl e k s : Inv e s -> done_with e k s s.
Proof. intros HI. split; [done|apply frames_refl]. Qed.
Lemma done_responses e k s s' f : done_with e k s s' -> done_with e k s (set_responses f s').
Proof. intros [[] []]. by split; split. Qed.

Lemma done_ask e k s s' r h : done_with e k s s' -> request_step (target e (requests s')) r = target e (requests s') ->
  handler_ok (timed s') (distanced s') h -> (hkey h = None \/ hkey h = Some k /\ free k s') ->
  done_with e k s (set_requests (fun q => q ++ [(r, h)]) s').
Proof.
  intros [[C O] []] Hr Hok Hh. split; split; simpl; try done.
  - by apply covered_other.
  - apply owned_ask; [done|done|]. intros j Hj. destruct Hh as [E|[E Hf]]; rewrite Hj in E; [done|]. by injection E as ->.
  - intros j Hj Hf. specialize (f_free0 j Hj Hf). unfold free in *. simpl. rewrite outstanding_ask.
    destruct Hh as [->|[-> _]]; simpl; [done|]. intros [?|?]%elem_of_cons; done.
Qed.

(** The distance-based session [k] changes. *)
Lemma done_distance (e : option TrackingOptions) (k : key) (s : Adapter) (b : bool) (g : gmap key LocationOptions -> gmap key LocationOptions) : Inv e s -> free k s ->
  (forall j, j <> k -> g (distanced s) !! j = distanced s !! j) -> (is_Some (timed s !! k) -> g (distanced s) !! k = None) ->
  done_with e k s (set_power b (set_distance g s)).
Proof.
  intros HI Hf Hg Hk. eapply (Inv_asks e _ s s); try done; [apply asks_refl|apply HI|]. intros j Hj. split; [done|auto].
Qed.

Lemma clamp_good o : size o <> 0 -> good (clamp o).
Proof. intros Hs. unfold clamp, good, MIN_TRACKING_INTERVAL. destruct (_ <? _) eqn:E; simpl; [done|lia]. Qed.
Lemma fall_back_good o : good o -> good (fall_back o).
Proof. unfold fall_back, good. by destruct (_ && _). Qed.
Lemma clamp_distance o : minDistance (clamp o) = minDistance o.
Proof. unfold clamp. by destruct (_ <? _). Qed.
Lemma fall_back_distance o : minDistance (fall_back o) = minDistance o.
Proof. unfold fall_back. by destruct (_ && _). Qed.
Lemma fall_back_size o : size (fall_back o) = size o.
Proof. unfold fall_back. by destruct (_ && _). Qed.

(** ** Commands *)

(** A command waits for the engine to come up. *)
Lemma Inv_pending e s c : Inv e s -> free (ckey c) s -> command_ok (timed s) (distanced s) c ->
  Inv e (set_pending (fun l => l ++ [c]) s).
Proof.
  intros [C []] Hf Hc. split; [done|]. split; simpl; try done.
  - unfold free, outstanding in *. simpl. rewrite fmap_app. simpl. rewrite app_assoc. apply NoDup_app. split; [done|].
    split; [|apply NoDup_singleton]. intros j Hj ->%list_elem_of_singleton. by apply Hf.
  - intros cm [?| ->%list_elem_of_singleton]%elem_of_app; [auto|done].
Qed.

(** What a command leaves behind: when the capabilities are known, the other
    sessions are as they were. *)
Definition commanded (e : option TrackingOptions) (k : key) (s s' : Adapter) : Prop :=
  Inv e s' /\ (mIsEngineCapabilitiesKnown s = true -> frames k s s').
Lemma done_commanded e k s s' : done_with e k s s' -> commanded e k s s'.
Proof. by intros []. Qed.

Lemma wp_start_tracking e c id o s : Inv e s -> free (key_of c id) s -> 0 <= minDistance o ->
  timed s !! key_of c id = None -> distanced s !! key_of c id = None ->
  wp (start_tracking true c id o) (fun _ => commanded e (key_of c id) s) s.
Proof.
  intros HI Hf Hd Ht Hdk. unfold start_tracking, hasCallbacksToStartTracking, ask. wp_step. wp_step. wp_step.
  { split; [by apply Inv_pending|]. intros E; rewrite E in *; done. }
  eapply (wp_conseq _ (fun _ => done_with e (key_of c id) s)); [|by intros [] s'; apply done_commanded].
  pose proof (done_refl e (key_of c id) s HI) as Hr.
  wp_step. wp_step. wp_step; [by wp_step|]. wp_step; [by wp_step|].
  assert (Hg : good (clamp o)) by (apply clamp_good; lia). rewrite clamp_distance, andb_true_r. wp_step.
  - wp_step. apply wp_save. intros b. unfold saved. rewrite clamp_distance.
    assert (0 <? minDistance o = true) as -> by done. wp_step. apply done_ask; try done.
    + apply done_distance; try done; [intros j Hj; by rewrite lookup_insert_ne|]. rewrite Ht. by intros [].
    + simpl. by right.
  - apply wp_start_time_based; [done|done|by apply fall_back_good| |done]. rewrite fall_back_distance, clamp_distance. lia.
Qed.

Lemma wp_to_distance e c id it o s : Inv e s -> free (key_of c id) s -> timed s !! key_of c id = Some it -> 0 < minDistance o ->
  wp (_ ← stop_time_based c id; _ ← saveTrackingSession true c id o; ask (StartDistance id (location_part o)) NoHandler)
    (fun _ => done_with e (key_of c id) s) s.
Proof.
  intros HI Hf Hit Hd. unfold ask. wp_step. apply (wp_stop_any e c id it); [done|done|]. intros s1 b f Ha HC. wp_step.
  apply wp_save. intros b'. unfold saved. assert (0 <? minDistance o = true) as -> by lia. wp_step.
  apply done_ask; try done; [|by left]. eapply (Inv_asks e _ s s1); try done; simpl.
  - by rewrite (a_timed _ _ _ Ha).
  - intros j Hj. by rewrite lookup_delete_ne, lookup_insert_ne, (a_timed _ _ _ Ha), (a_distanced _ _ _ Ha).
  - intros []. by rewrite lookup_delete_eq in *.
Qed.

Lemma wp_to_time e c id it o s : Inv e s -> free (key_of c id) s -> distanced s !! key_of c id = Some it ->
  good o -> minDistance o = 0 ->
  wp (_ ← eraseTrackingSession c id; ask (StopDistance id) (OnToTime c id o)) (fun _ => done_with e (key_of c id) s) s.
Proof.
  intros HI Hf Hit Hg Hd. unfold ask. wp_step. apply wp_erase. intros b. unfold erased.
  destruct (timed s !! key_of c id) eqn:Ht.
  { pose proof (o_disjoint _ _ _ _ (i_owned _ _ HI) (key_of c id)). naive_solver. }
  wp_step. apply done_ask; [|done| |by right].
  - apply done_distance; try done; [intros j Hj; by rewrite lookup_delete_ne|]. intros _. apply lookup_delete_eq.
  - simpl. repeat split; try done; [by rewrite lookup_delete_eq|apply Hg..].
Qed.

Lemma wp_update_time e c id it o s : Inv e s -> free (key_of c id) s -> timed s !! key_of c id = Some it ->
  good o -> minDistance o = 0 ->
  wp (reportToClientWithNoWait ← updateTrackingMultiplex c id o;
      _ ← saveTrackingSession true c id o;
      if (reportToClientWithNoWait : bool) then reportResponse c LOCATION_ERROR_SUCCESS id else mret tt)
    (fun _ => done_with e (key_of c id) s) s.
Proof.
  intros HI Hf Hit Hg Hd. wp_step. apply (wp_multi_update e _ _ _ it); [done|done|done|]. intros b s1 Ha HC. wp_step.
  apply wp_save. intros b'. apply wp_respond. intros f. unfold saved. rewrite Hd. simpl.
  eapply (Inv_asks e _ s s1); try done; simpl.
  - by rewrite (a_timed _ _ _ Ha).
  - intros j Hj. by rewrite lookup_insert_ne, (a_timed _ _ _ Ha), (a_distanced _ _ _ Ha).
  - intros _. rewrite (a_distanced _ _ _ Ha). apply (o_disjoint _ _ _ _ (i_owned _ _ HI)). eauto.
Qed.

(** The tests of the commands. *)
Lemma decide_Some {A} (o : option A) : bool_decide (is_Some o) = match o with Some _ => true | None => false end.
Proof. destruct o; [by apply bool_decide_true; eauto|apply bool_decide_false; by intros []]. Qed.

Lemma wp_update_tracking e c id o s : Inv e s -> free (key_of c id) s -> 0 <= minDistance o ->
  wp (update_tracking true c id o) (fun _ => commanded e (key_of c id) s) s.
Proof.
  intros HI Hf Hd. unfold update_tracking, isTimeBasedTrackingSession, isDistanceBasedTrackingSession. wp_step. wp_step. wp_step.
  { wp_step. split; [by apply Inv_pending|]. intros E; rewrite E in *; done. }
  wp_step. wp_step. wp_step. wp_step. rewrite !decide_Some.
  eapply (wp_conseq _ (fun _ => done_with e (key_of c id) s)); [|by intros [] s'; apply done_commanded].
  pose proof (done_refl e (key_of c id) s HI) as Hr.
  destruct (timed s !! key_of c id) as [it|] eqn:Ht; destruct (distanced s !! key_of c id) as [dt|] eqn:Hdt; cbn [negb andb];
    try (apply wp_reportResponse; intros f; by apply done_responses);
    (wp_step; [apply wp_reportResponse; intros f; by apply done_responses|]);
    set (o' := clamp (fall_back o));
    assert (Hg : good o') by (apply clamp_good; rewrite fall_back_size; lia);
    assert (Ho' : minDistance o' = minDistance o) by (unfold o'; by rewrite clamp_distance, fall_back_distance).
  - pose proof (o_disjoint _ _ _ _ (i_owned _ _ HI) (key_of c id)). naive_solver.
  - destruct (0 <? minDistance o') eqn:E; [apply (wp_to_distance e c id it); try done; lia|].
    apply (wp_update_time e c id it); try done; lia.
  - destruct (minDistance o' =? 0) eqn:E; [apply (wp_to_time e c id dt); try done; lia|]. unfold ask. wp_step.
    apply done_ask; [done|done| |by right]. simpl. split; [done|lia].
Qed.

Lemma wp_stop_tracking e c id s : Inv e s -> free (key_of c id) s ->
  wp (stop_tracking c id) (fun _ => done_with e (key_of c id) s) s.
Proof.
  intros HI Hf. unfold stop_tracking, isTimeBasedTrackingSession, isDistanceBasedTrackingSession. wp_step. wp_step. wp_step. wp_step.
  rewrite !decide_Some. destruct (timed s !! key_of c id) as [it|] eqn:Ht; [by apply (wp_stop_time_based e c id it)|].
  pose proof (done_refl e (key_of c id) s HI) as Hr.
  destruct (distanced s !! key_of c id); [|apply wp_reportResponse; intros f; by apply done_responses].
  unfold ask. wp_step. apply done_ask; [done|done|done|by right].
Qed.

(** ** Restarts *)

(** What a restart needs of the state, whatever the engine runs. *)
Record ready (e : option TrackingOptions) (s : Adapter) : Prop := {
  r_none : timed s = ∅ -> target e (requests s) = None;
  r_good k o : timed s !! k = Some o -> good o;
  r_owned : owned (timed s) (distanced s) (requests s) (mPendingMsgs s);
}.
(** Only requests without a handler have been added. *)
Record quiet (s s' : Adapter) : Prop := {
  q_timed : timed s' = timed s;
  q_distanced : distanced s' = distanced s;
  q_pending : mPendingMsgs s' = mPendingMsgs s;
  q_known : mIsEngineCapabilitiesKnown s' = mIsEngineCapabilitiesKnown s;
  q_free k : free k s -> free k s';
}.
Lemma quiet_refl s : quiet s s.
Proof. by split. Qed.
Lemma quiet_trans s1 s2 s3 : quiet s1 s2 -> quiet s2 s3 -> quiet s1 s3.
Proof. intros [] []. split; try congruence. auto. Qed.

Lemma free_no_handler k s r : free k s -> free k (set_requests (fun q => q ++ [(r, NoHandler)]) s).
Proof. unfold free. simpl. by rewrite outstanding_ask. Qed.
Lemma owned_no_handler t d q p r : owned t d q p -> owned t d (q ++ [(r, NoHandler)]) p.
Proof. intros H. by apply owned_ask. Qed.

(** The restart finds the smallest interval as the multiplexer does. *)
Lemma restart_fold l mo hi mp : (foldl restart_step (mo, hi) l).1 = (foldl (multiplex_step None) (mo, mp) l).1.
Proof.
  revert mo hi mp. induction l as [|[k o] l IH]; intros mo hi mp; [done|]. cbn [foldl restart_step multiplex_step].
  rewrite bool_decide_false by done. apply IH.
Qed.

Lemma wp_restart_time e s : ready e s -> spe s = false ->
  wp checkAndRestartTimeBasedSession (fun _ s' => Inv e s' /\ quiet s s') s.
Proof.
  intros [Hn Hg Ho] Hs. unfold checkAndRestartTimeBasedSession. wp_step. wp_step. wp_step.
  { wp_step. apply bool_decide_eq_true in H. split; [|apply quiet_refl]. split; [|done]. split; try done; [auto|]. congruence. }
  apply bool_decide_eq_false in H. destruct (foldl restart_step _ _) as [smallest highest] eqn:Ef.
  pose proof (restart_fold (in_order (timed s)) zero_options zero_options GNSS_POWER_MODE_INVALID) as Er. rewrite Ef in Er. cbn [fst] in Er.
  destruct (multiplexed None (timed s)) as [mo mp] eqn:Em. destruct (multiplexed_spec None _ _ _ Em Hg) as [Hmin _].
  unfold multiplexed in Em. rewrite Em in Er. cbn [fst] in Er. subst mo.
  assert (Hall : forall o' b, minInterval o' <= minInterval smallest ->
    (b = true -> mNHzNeeded s = true /\ minInterval o' <= MIN_TRACKING_INTERVAL) ->
    Inv e (set_requests (fun q => q ++ [(StartTime o', NoHandler)]) (set_spe b s))).
  { intros o' b Hle Hb. split; simpl; [|by apply owned_no_handler]. apply covered_request; [done| |done].
    intros k o Hk. split; [by eapply Hg|]. destruct (Hmin k o Hk ltac:(done)) as [_ ?]. lia. }
  unfold checkAndSetSPEToRunforNHz, ask. wp_step. wp_step. wp_step. rewrite Hs.
  assert (Eta : set_spe false s = s) by (destruct s; simpl in *; by subst).
  wp_step; [|wp_step]; [wp_step; wp_step| |]; (repeat wp_step); cbv iota; (repeat wp_step).
  - split; [rewrite <- Eta; apply Hall; simpl; [lia|done]|]. split; try done. intros k. apply free_no_handler.
  - simpl in *. split; [apply Hall; simpl; [lia|intros _; split; [by destruct (mNHzNeeded s)|done]]|]. split; try done. intros k. apply (free_no_handler k (set_spe true s)).
  - split; [rewrite <- Eta; apply Hall; simpl; [lia|done]|]. split; try done. intros k. apply free_no_handler.
Qed.

Lemma wp_for_each {A} (f : A -> M unit) (R : list A -> Adapter -> Prop) l s (Q : unit -> Adapter -> Prop) :
  R l s -> (forall x l s, R (x :: l) s -> wp (f x) (fun _ => R l) s) -> (forall s, R [] s -> Q tt s) ->
  wp (for_each f l) Q s.
Proof.
  intros HR Hf HQ. revert s HR. induction l as [|x l IH]; intros s HR; cbn [for_each]; [wp_step; by apply HQ|].
  wp_step. eapply wp_conseq; [by apply Hf|]. intros [] s' HR'. by apply IH.
Qed.

Lemma wp_restart_spe e s : ready e s -> wp checkAndRestartSPESession (fun _ s' => Inv e s' /\ quiet s s') s.
Proof.
  intros [Hn Hg Ho]. unfold checkAndRestartSPESession. wp_step. wp_step. wp_step.
  eapply wp_conseq; [apply (wp_restart_time e); [by split|done]|]. intros [] s1 [HI1 Hq1]. wp_step. wp_step.
  apply (wp_for_each _ (fun _ s' => Inv e s' /\ quiet s s')); [|clear|done].
  - split; [done|]. eapply quiet_trans; [|exact Hq1]. by split.
  - intros x l s' [[C O] Hq]. unfold ask. wp_step. split.
    + split; simpl; [by apply covered_other|by apply owned_no_handler].
    + eapply quiet_trans; [exact Hq|]. split; try done. intros k. apply free_no_handler.
Qed.

Lemma Inv_ready e s : Inv e s -> ready e s.
Proof. intros [C O]. split; [|apply C|done]. intros Ht. by destruct (c_none _ _ _ _ _ C Ht). Qed.

Lemma wp_restartSessions e s : ready e s -> wp restartSessions (fun _ s' => Inv e s' /\ quiet s s') s.
Proof.
  intros [Hn Hg Ho]. unfold restartSessions. wp_step. wp_step. eapply wp_conseq; [apply (wp_restart_spe e); by split|].
  intros [] s' [HI Hq]. split; [done|]. eapply quiet_trans; [|exact Hq]. by split.
Qed.

Lemma wp_reconfigure e s : Inv e s -> wp reconfigure (fun _ => Inv e) s.
Proof.
  intros [C O]. unfold reconfigure, suspendSessions, ask. wp_step. wp_step. wp_step. wp_step.
  - wp_step. eapply wp_conseq; [apply (wp_restartSessions e); by apply Inv_ready|]. by intros [] s' [].
  - apply bool_decide_eq_false in H. wp_step. wp_step. wp_step. eapply wp_conseq; [apply (wp_restartSessions e)|by intros [] s' []].
    split; simpl; [done|apply C|by apply owned_no_handler].
Qed.

Lemma wp_update_nhz e b s : Inv e s -> wp (update_nhz b) (fun _ => Inv e) s.
Proof.
  intros HI. pose proof (Inv_ready e s HI) as [Hn Hg Ho]. unfold update_nhz. wp_step. wp_step. wp_step; [by wp_step|]. wp_step. wp_step.
  eapply wp_conseq; [apply (wp_restart_spe e); by split|]. by intros [] s' [].
Qed.

(** The engine comes up: it runs nothing, and forgets no request. *)
Lemma target_None e q : target e q = None -> target None q = None.
Proof.
  unfold target. revert e. induction q as [|[r h] q IH]; intros e; [done|]. cbn. destruct r; simpl; eauto.
Qed.

Lemma wp_run_commands e l s : Inv e s -> mIsEngineCapabilitiesKnown s = true -> NoDup (ckey <$> l) ->
  (forall c, c ∈ l -> free (ckey c) s) -> (forall c, c ∈ l -> command_ok (timed s) (distanced s) c) ->
  wp (for_each (run_command true) l) (fun _ => Inv e) s.
Proof.
  intros HI Hk Hnd Hf Hok.
  apply (wp_for_each _ (fun l s => Inv e s /\ mIsEngineCapabilitiesKnown s = true /\ NoDup (ckey <$> l) /\
    (forall c, c ∈ l -> free (ckey c) s) /\ (forall c, c ∈ l -> command_ok (timed s) (distanced s) c))); [done| |by intros s' []].
  clear. intros c l s (HI & Hk & [Hc Hnd]%NoDup_cons & Hf & Hok).
  assert (Hrun : wp (run_command true c) (fun _ => commanded e (ckey c) s) s).
  { assert (c ∈ c :: l) as Hin by left. specialize (Hf c Hin). specialize (Hok c Hin).
    destruct c as [c id o|c id o]; simpl in *; [destruct Hok as (? & ? & ?); by apply wp_start_tracking|by apply wp_update_tracking]. }
  eapply wp_conseq; [exact Hrun|]. intros [] s' [HI' Hfr]. destruct (Hfr Hk).
  assert (Hne : forall c', c' ∈ l -> ckey c' <> ckey c) by (intros c' Hc' E; apply Hc; rewrite <- E; by apply list_elem_of_fmap_2).
  split; [done|]. split; [congruence|]. split; [done|]. split.
  - intros c' Hc'. apply f_free0; [by apply Hne|]. apply Hf. by right.
  - intros c' Hc'. eapply command_ok_frame; [exact f_sessions0|by apply Hne|]. apply Hok. by right.
Qed.

Lemma wp_engine_up e s : Inv e s -> wp (engine_up true) (fun _ => Inv None) s.
Proof.
  intros HI. pose proof (Inv_ready e s HI) as [Hn Hg Ho]. unfold engine_up. wp_step. wp_step. wp_step.
  eapply wp_conseq; [apply (wp_restartSessions None)|].
  { split; simpl; [|done|done]. intros Ht. eapply target_None, Hn, Ht. }
  intros [] s1 [[C O] []]. wp_step. wp_step. wp_step. wp_step. apply wp_run_commands; simpl; [|done| | |apply O].
  - split; [done|]. destruct O. split; try done; [|by intros c Hc%elem_of_nil]. unfold outstanding in *. rewrite app_nil_r. by apply NoDup_app in o_keys0 as (? & _ & _).
  - by apply (o_keys _ _ _ _) in O as (_ & _ & ?)%NoDup_app.
  - intros c Hc. unfold free, outstanding. simpl. rewrite app_nil_r. intros Hin.
    apply (o_keys _ _ _ _) in O as (_ & Hd & _)%NoDup_app. apply (Hd _ Hin). by apply list_elem_of_fmap_2.
Qed.

(** ** Answers and clients *)

(** The commands that answer a refused request by dropping their session. *)
Definition time_handler (h : handler) : bool := match h with OnStart _ _ | OnUpdate _ _ _ | OnStop _ _ => true | _ => false end.
Definition time_request (r : request) : bool := match r with StartTime _ | StopFix => true | _ => false end.

Lemma wp_run_handler e h err s : Inv e s -> handler_ok (timed s) (distanced s) h -> (forall k, hkey h = Some k -> free k s) ->
  (time_handler h = true -> err = LOCATION_ERROR_SUCCESS) -> wp (run_handler true h err) (fun _ => Inv e) s.
Proof.
  intros HI Hok Hf Herr.
  assert (Hresp : forall c id s' k, done_with e k s s' -> wp (reportResponse c err id) (fun _ => Inv e) s').
  { intros c id s' k Hd. apply wp_reportResponse. intros f. by apply (done_responses e k s s' f). }
  assert (Hsame : forall k, done_with e k s s) by (intros k; by apply done_refl).
  assert (Herase : forall c id, free (key_of c id) s -> timed s !! key_of c id = None ->
    wp (eraseTrackingSession c id) (fun _ => done_with e (key_of c id) s) s).
  { intros c id Hk Ht. apply wp_erase. intros b. unfold erased. rewrite Ht. apply done_distance; try done.
    - intros j Hj. by rewrite lookup_delete_ne.
    - rewrite Ht. by intros []. }
  destruct h as [|c id|c id old|c id|c id|c id|c id|c id o|c id o|c id o]; cbn [run_handler time_handler handler_ok hkey] in *.
  - by wp_step.
  - wp_step. wp_step; [wp_step; by eapply (Hresp c id s (key_of c id))|]. by rewrite (Herr eq_refl) in *.
  - wp_step. wp_step; [wp_step; by eapply (Hresp c id s (key_of c id))|]. by rewrite (Herr eq_refl) in *.
  - by eapply (Hresp c id s (key_of c id)).
  - wp_step. wp_step; [wp_step; by eapply (Hresp c id s (key_of c id))|].
    eapply wp_conseq; [apply Herase; auto|]. intros [] s' Hd. by eapply Hresp.
  - wp_step. wp_step; [|wp_step; by eapply (Hresp c id s (key_of c id))].
    eapply wp_conseq; [apply Herase; auto|]. intros [] s' Hd. by eapply Hresp.
  - wp_step; [|by wp_step]. eapply wp_conseq; [apply Herase; auto|]. by intros [] s' [].
  - destruct Hok as (Ht & Hd & Hg & Hm). eapply wp_conseq; [apply (wp_start_time_based e); auto; lia|]. by intros [] s' [].
  - wp_step; [|by wp_step]. unfold ask. wp_step. apply (done_ask e (key_of c id) s s); auto.
  - destruct Hok as [Ht Hm]. wp_step. wp_step; [|wp_step; by eapply (Hresp c id s (key_of c id))].
    apply wp_save. intros b. unfold saved. assert (0 <? minDistance o = true) as -> by lia.
    eapply (Hresp c id _ (key_of c id)). apply done_distance; auto; [intros j Hj; by rewrite lookup_insert_ne|].
    rewrite Ht. by intros [].
Qed.

Lemma wp_answer e err s r h q : Inv e s -> requests s = (r, h) :: q -> (time_handler h = true -> err = LOCATION_ERROR_SUCCESS) ->
  wp (answer true err) (fun _ => Inv (request_step e r)) s.
Proof.
  intros [C O] Hq Herr. unfold answer. wp_step. wp_step. rewrite Hq in *. wp_step. wp_step.
  destruct (owned_answered r h q O eq_refl) as (O' & Hok & Hk). apply wp_run_handler; try done.
  split; [by eapply covered_answered|done].
Qed.

(** The sessions of a client, in order. *)
Definition ids_of {A} (client : nat) (m : gmap key A) : list nat :=
  it ← in_order m; if Nat.eqb it.1.2 client then [it.1.1] else [].
Lemma ids_elem {A} (client : nat) (m : gmap key A) (id : nat) : id ∈ ids_of client m <-> is_Some (m !! key_of client id).
Proof.
  unfold ids_of, in_order. rewrite list_elem_of_bind. split.
  - intros ([[i c] x] & Hi & Hin). rewrite merge_sort_Permutation in Hin. apply elem_of_map_to_list in Hin. simpl in Hi.
    destruct (Nat.eqb_spec c client) as [->|]; [|by apply elem_of_nil in Hi]. apply list_elem_of_singleton in Hi as ->. by eexists.
  - intros [x Hx]. exists (key_of client id, x). rewrite merge_sort_Permutation. simpl. rewrite Nat.eqb_refl.
    split; [left|by apply elem_of_map_to_list].
Qed.
Lemma ids_NoDup {A} (client : nat) (m : gmap key A) : NoDup (ids_of client m).
Proof.
  unfold ids_of, in_order. assert (Hnd : NoDup (merge_sort (fun x y : key * A => key_le x.1 y.1) (map_to_list m)).*1).
  { rewrite merge_sort_Permutation. apply NoDup_fst_map_to_list. }
  induction (merge_sort _ _) as [|[[i c] x] l IH]; [constructor|]. cbn [fmap list_fmap] in Hnd. apply NoDup_cons in Hnd as [Hn Hnd].
  change (mbind ?f (?a :: ?b)) with (f a ++ mbind f b). cbn [fst snd]. destruct (Nat.eqb_spec c client) as [->|]; [|auto].
  constructor; [|auto]. intros Hin. apply Hn. clear -Hin. apply list_elem_of_bind in Hin as ([[j d] y] & Hj & Hin).
  cbn [fst snd] in Hj. destruct (Nat.eqb_spec d client) as [->|]; [|by apply elem_of_nil in Hj]. apply list_elem_of_singleton in Hj as ->.
  apply list_elem_of_fmap. by exists (j, client, y).
Qed.

Lemma wp_stop_session e c id s : Inv e s -> free (key_of c id) s -> is_Some (timed s !! key_of c id) ->
  wp (_ ← stopTimeBasedTrackingMultiplex c id; eraseTrackingSession c id)
    (fun _ s' => done_with e (key_of c id) s s' /\ distanced s' = distanced s) s.
Proof.
  intros HI Hf [it Hit]. wp_step. apply (wp_multi_stop e _ _ it); [done|done|]. intros b s1 Ha HC.
  apply wp_erase. intros b'. unfold erased. rewrite (a_timed _ _ _ Ha), Hit. split; [|apply Ha].
  pose proof (stopped e _ s s1 b' (fun l => l) HI Hf Ha HC) as Hd. by destruct s1.
Qed.

Lemma key_of_inj c i j : key_of c i = key_of c j -> i = j.
Proof. by intros [= ->]. Qed.

Lemma wp_stop_distances e c s : Inv e s -> (forall id, is_Some (distanced s !! key_of c id) -> free (key_of c id) s) ->
  wp (for_each (fun id => ask (StopDistance id) (OnClientStop c id)) (ids_of c (distanced s))) (fun _ => Inv e) s.
Proof.
  intros HI Hf. apply (wp_for_each _ (fun l s' => Inv e s' /\ NoDup l /\
    forall id, id ∈ l -> is_Some (distanced s' !! key_of c id) /\ free (key_of c id) s')); [| |by intros s' []].
  - split; [done|]. split; [apply ids_NoDup|]. intros id Hid%ids_elem. auto.
  - clear. intros id l s (HI & [Hid Hnd]%NoDup_cons & Hf). unfold ask. wp_step.
    destruct (Hf id ltac:(left)) as [Hs Hfid].
    assert (timed s !! key_of c id = None) as Ht.
    { destruct (timed s !! key_of c id) eqn:E; [|done]. pose proof (o_disjoint _ _ _ _ (i_owned _ _ HI) (key_of c id)) as Hdj.
      rewrite E in Hdj. rewrite Hdj in Hs by done. by destruct Hs. }
    destruct (done_ask e (key_of c id) s s (StopDistance id) (OnClientStop c id)) as [HI' []]; [by apply done_refl|done|done|by right|].
    split; [done|]. split; [done|]. intros i Hi. assert (Hne : key_of c i <> key_of c id) by (intros ->%key_of_inj; done).
    split; [apply (Hf i); by right|]. apply f_free0; [done|]. apply (Hf i). by right.
Qed.

Lemma wp_remove_client e c s : Inv e s -> (forall id, free (key_of c id) s) -> wp (remove_client c) (fun _ => Inv e) s.
Proof.
  intros HI Hf. unfold remove_client, stopClientSessions. wp_step. wp_step. wp_step.
  change (mbind _ (in_order (timed s))) with (ids_of c (timed s)).
  wp_step. apply (wp_for_each _ (fun l s' => Inv e s' /\ NoDup l /\ distanced s' = distanced s /\
    (forall id, id ∈ l -> is_Some (timed s' !! key_of c id)) /\
    (forall id, id ∈ l \/ is_Some (distanced s' !! key_of c id) -> free (key_of c id) s'))).
  - split; [done|]. split; [apply ids_NoDup|]. split; [done|]. split; [|auto]. intros id. by rewrite ids_elem.
  - clear HI Hf. intros id l s1 (HI & [Hid Hnd]%NoDup_cons & Hds & Ht & Hf).
    eapply wp_conseq; [apply (wp_stop_session e); [done|apply Hf; left; left|apply Ht; left]|].
    intros [] s2 [[HI2 []] Hds2]. split; [done|]. split; [done|]. split; [congruence|]. split.
    + intros i Hi. assert (Hne : key_of c i <> key_of c id) by (intros ->%key_of_inj; done).
      destruct (f_sessions0 _ Hne) as [-> _]. apply Ht. by right.
    + intros i Hi. rewrite Hds2 in Hi. assert (Hne : key_of c i <> key_of c id).
      { intros ->%key_of_inj. destruct Hi as [?|[x Hx]]; [done|]. assert (is_Some (timed s1 !! key_of c id)) as Hs by (apply Ht; left).
        apply (o_disjoint _ _ _ _ (i_owned _ _ HI)) in Hs. congruence. }
      apply f_free0; [done|]. apply Hf. destruct Hi; [left; by right|by right].
  - clear HI Hf. intros s1 (HI & _ & _ & _ & Hf). wp_step. wp_step.
    change (mbind _ (in_order (distanced s1))) with (ids_of c (distanced s1)).
    eapply wp_conseq; [apply (wp_stop_distances e); auto|]. intros [] s' [C O]. wp_step. by split.
Qed.
