(* ===== verification/GnssTrackingTheorems.v ===== *)
(** * Tracking sessions: the theorems

    The adapter and the engine as one system: every behaviour in which the engine
    refuses no time-based request and clients use a session only when nothing is
    outstanding for it keeps all sessions served; the traces that end otherwise. *)
From stdpp Require Import sorting.
From S2P Require Import Prelude GnssTracking GnssTrackingProps.
#[local] Open Scope Z_scope.

(** ** The system *)
Inductive action :=
  | AddClient (client : nat) (can_track can_answer : bool)
  | RemoveClient (client : nat)
  | Start (client id : nat) (o : TrackingOptions)
  | Update (client id : nat) (o : TrackingOptions)
  | Stop (client id : nat)
  | NHz (needed : bool)
  | EngineUp            (** the engine starts, or restarts, with no session *)
  | Reconfigure
  | Answer (err : Z).   (** the engine answers the oldest request, obeying it when [err] is success *)

Definition command_of (a : action) : CM Adapter unit :=
  match a with
  | AddClient c t r => add_client c t r
  | RemoveClient c => remove_client c
  | Start c id o => start_tracking true c id o
  | Update c id o => update_tracking true c id o
  | Stop c id => stop_tracking c id
  | NHz b => update_nhz b
  | EngineUp => engine_up true
  | Reconfigure => reconfigure
  | Answer err => answer true err
  end.

(** What the engine runs after the action. *)
Definition engine_after (a : action) (s : Adapter) (e : option TrackingOptions) : option TrackingOptions :=
  match a, requests s with
  | EngineUp, _ => None
  | Answer err, (r, _) :: _ => if err =? LOCATION_ERROR_SUCCESS then request_step e r else e
  | _, _ => e
  end.
Definition step (a : action) (se : Adapter * option TrackingOptions) : option (Adapter * option TrackingOptions) :=
  match command_of a se.1 with Some (_, s') => Some (s', engine_after a se.1 se.2) | None => None end.

(** The actions the theorem is about: a session id is new when it is started,
    nothing is outstanding for a session that is used, and time-based requests succeed. *)
Definition allowed (a : action) (s : Adapter) : Prop :=
  match a with
  | Start c id o => free (key_of c id) s /\ 0 <= minDistance o /\
      mTimeBasedTrackingSessions s !! key_of c id = None /\ mDistanceBasedTrackingSessions s !! key_of c id = None
  | Update c id o => free (key_of c id) s /\ 0 <= minDistance o
  | Stop c id => free (key_of c id) s
  | RemoveClient c => forall id, free (key_of c id) s
  | Answer err => match requests s with
                  | (r, h) :: _ => time_request r || time_handler h = true -> err = LOCATION_ERROR_SUCCESS
                  | [] => True
                  end
  | _ => True
  end.

Inductive reachable : Adapter * option TrackingOptions -> Prop :=
  | reach_init : reachable (Adapter_new, None)
  | reach_step se a se' : reachable se -> allowed a se.1 -> step a se = Some se' -> reachable se'.

Lemma Inv_new : Inv None Adapter_new.
Proof.
  split; split; simpl; try done.
  - constructor.
  - intros h Hh%elem_of_nil. done.
  - intros c Hc%elem_of_nil. done.
Qed.

Lemma step_Inv a s e : Inv e s -> allowed a s -> wp (command_of a) (fun _ => Inv (engine_after a s e)) s.
Proof.
  intros HI Ha.
  assert (Hc : forall m k, wp m (fun _ => commanded e k s) s -> wp m (fun _ : unit => Inv e) s).
  { intros m k Hm. eapply wp_conseq; [exact Hm|]. by intros [] s' []. }
  destruct a as [c t r|c|c id o|c id o|c id|b| | |err]; cbn [command_of engine_after allowed] in *.
  - unfold add_client. wp_step. by destruct HI.
  - by apply wp_remove_client.
  - destruct Ha as (? & ? & ? & ?). eapply Hc. by apply wp_start_tracking.
  - destruct Ha as (? & ?). eapply Hc. by apply wp_update_tracking.
  - eapply wp_conseq; [by apply wp_stop_tracking|]. by intros [] s' [].
  - by apply wp_update_nhz.
  - by apply (wp_engine_up e).
  - by apply wp_reconfigure.
  - destruct (requests s) as [|[r h] q] eqn:Eq.
    + unfold answer. wp_step. wp_step. rewrite Eq. by wp_step.
    + assert (engine_after (Answer err) s e = request_step e r) as Ee.
      { unfold engine_after. rewrite Eq. destruct (err =? _) eqn:Ee; [done|]. destruct r; simpl in *; try done; rewrite Ha in Ee by done; done. }
      cbn [engine_after] in Ee. rewrite Eq in Ee. rewrite Ee. apply (wp_answer e err s r h q); [done|done|].
      intros Hh. apply Ha. by rewrite Hh, orb_true_r.
Qed.

Lemma tracking_reachable_Inv se : reachable se -> Inv se.2 se.1.
Proof.
  induction 1 as [|[s e] a se' _ IH Ha Hs]; [apply Inv_new|]. pose proof (step_Inv a s e IH Ha) as Hw.
  unfold step in Hs. cbn [fst snd] in *. unfold wp in Hw. destruct (command_of a s) as [[[] s']|]; [|done]. by injection Hs as <-.
Qed.

(** ** The engine serves every session *)

(** C3. In every behaviour of clients and engine - sessions started, updated and
    stopped, clients that leave, restarts of the engine, changes of its rate -
    in which the modem supports distance-based tracking, the engine refuses no time-based
    request, a session is new when it is started, and one is updated or stopped, or its
    client removed, only while nothing is outstanding for it: every command runs to its
    end; no key is both a time-based and a distance-based session; and whenever the engine
    has answered all requests, it runs exactly if there is a time-based session, at an
    interval no larger than the one any session has asked for.  [tracking_gaps] has runs
    that end otherwise when the engine refuses a request or a session is used too soon. *)
Theorem tracking_covered s e : reachable (s, e) ->
  (forall a, allowed a s -> exists se', step a (s, e) = Some se') /\
  (forall k, is_Some (mTimeBasedTrackingSessions s !! k) -> mDistanceBasedTrackingSessions s !! k = None) /\
  (requests s = [] ->
    (mTimeBasedTrackingSessions s = ∅ <-> e = None) /\
    forall k o, mTimeBasedTrackingSessions s !! k = Some o -> exists t, e = Some t /\ minInterval t <= minInterval o).
Proof.
  intros HI%tracking_reachable_Inv. cbn [fst snd] in HI. split; [|split].
  - intros a Ha. pose proof (step_Inv a s e HI Ha) as Hw. unfold step. cbn [fst snd]. unfold wp in Hw.
    destruct (command_of a s) as [[? s']|]; [|done]. eauto.
  - apply (o_disjoint _ _ _ _ (i_owned _ _ HI)).
  - destruct HI as [[Hn Hs _ _] _]. intros Hq. rewrite Hq in *. split.
    + split; [intros Ht; by destruct (Hn Ht)|]. intros ->. destruct (decide (mTimeBasedTrackingSessions s = ∅)) as [|Hne]; [done|].
      by destruct (Hs Hne) as (t & Ht & _).
    + intros k o Hk. destruct Hs as (t & Ht & Hmin); [intros E; rewrite E, lookup_empty in Hk; done|]. exists t. split; [done|]. eauto.
Qed.

(** Runs of concrete traces. *)
Definition opts (interval distance power : Z) : TrackingOptions := MkOptions 28 interval distance 0 0 power 0.
Definition run_trace (l : list action) : option (Adapter * option TrackingOptions) :=
  foldl (fun se a => se ≫= step a) (Some (Adapter_new, None)) l.
Definition outcome (l : list action) (P : Adapter -> option TrackingOptions -> bool) : bool :=
  match run_trace l with Some (s, e) => P s e | None => false end.

(** [allowed], decided. *)
Definition freeb (k : key) (s : Adapter) : bool := bool_decide (k ∉ outstanding (requests s) (mPendingMsgs s)).
Definition allowedb (a : action) (s : Adapter) : bool :=
  match a with
  | Start c id o => freeb (key_of c id) s && (0 <=? minDistance o) &&
      negb (bool_decide (is_Some (mTimeBasedTrackingSessions s !! key_of c id))) &&
      negb (bool_decide (is_Some (mDistanceBasedTrackingSessions s !! key_of c id)))
  | Update c id o => freeb (key_of c id) s && (0 <=? minDistance o)
  | Stop c id => freeb (key_of c id) s
  | RemoveClient c => forallb (fun k => negb (Nat.eqb k.2 c)) (outstanding (requests s) (mPendingMsgs s))
  | Answer err => err =? LOCATION_ERROR_SUCCESS
  | _ => true
  end.
Lemma allowedb_true a s : allowedb a s = true -> allowed a s.
Proof.
  assert (Hf : forall k, freeb k s = true -> free k s) by (by intros k Hk%bool_decide_eq_true).
  assert (Hn : forall A (o : option A), negb (bool_decide (is_Some o)) = true -> o = None).
  { intros A o. rewrite decide_Some. by destruct o. }
  destruct a as [c t r|c|c id o|c id o|c id|b| | |err]; cbn [allowed allowedb]; try done; rewrite ?andb_true_iff; intros Ha.
  - intros id Hin. apply list_elem_of_In in Hin. rewrite forallb_forall in Ha. specialize (Ha _ Hin). simpl in Ha. by rewrite Nat.eqb_refl in Ha.
  - destruct Ha as [[[? ?] ?] ?]. split; [auto|]. split; [lia|auto].
  - destruct Ha as [? ?]. split; [auto|lia].
  - auto.
  - destruct (requests s) as [|[] ?]; [done|]. intros _. by apply Z.eqb_eq.
Qed.

(** Every action of the trace is allowed. *)
Fixpoint allowed_trace (l : list action) (se : Adapter * option TrackingOptions) : bool :=
  match l with
  | [] => true
  | a :: l => allowedb a se.1 && match step a se with Some se' => allowed_trace l se' | None => false end
  end.
Lemma allowed_reachable l se se' : reachable se -> allowed_trace l se = true ->
  foldl (fun se a => se ≫= step a) (Some se) l = Some se' -> reachable se'.
Proof.
  revert se. induction l as [|a l IH]; intros se Hr Ha Hl; [by injection Hl as <-|]. cbn [allowed_trace] in Ha.
  apply andb_true_iff in Ha as [Ha Hs]. cbn [foldl] in Hl. change (Some se ≫= step a) with (step a se) in Hl.
  destruct (step a se) as [se1|] eqn:E; [|done]. apply (IH se1); [|done|done]. eapply reach_step; [done|by apply allowedb_true|done].
Qed.

(** Two clients and two kinds of session; the client with the smaller interval leaves
    while the engine has to run at its highest rate. *)
Definition two_clients : list action :=
  [EngineUp; AddClient 1 true true; AddClient 2 true true; Start 1 7 (opts 1000 0 1); Answer 0; Start 2 7 (opts 500 0 1);
   Answer 0; Start 2 8 (opts 2000 10 1); Answer 0; NHz true; Answer 0; Answer 0; RemoveClient 2; Answer 0].

Lemma tracking_covered_witness : exists s t, run_trace two_clients = Some (s, Some t) /\ requests s = [] /\
  forall k o, mTimeBasedTrackingSessions s !! k = Some o -> exists t', Some t = Some t' /\ minInterval t' <= minInterval o.
Proof.
  destruct (run_trace two_clients) as [[s [t|]]|] eqn:E; [|vm_compute in E; discriminate..]. exists s, t. split; [reflexivity|].
  assert (Hq : requests s = []) by (vm_compute in E; injection E as <- <-; reflexivity). split; [exact Hq|].
  assert (Hr : reachable (s, Some t)).
  { apply (allowed_reachable two_clients (Adapter_new, None)); [apply reach_init|vm_compute; reflexivity|exact E]. }
  destruct (tracking_covered s (Some t) Hr) as (_ & _ & Hc). destruct (Hc Hq) as [_ Hk]. exact Hk.
Defined.

(** ** Where it ends otherwise *)
Definition two : list action := [EngineUp; AddClient 1 true true; AddClient 2 true true].
(** No request is outstanding, and the engine runs so for session [k]. *)
Definition settled (P : option TrackingOptions -> TrackingOptions -> bool) (k : key) (s : Adapter) (e : option TrackingOptions) : bool :=
  bool_decide (requests s = []) && match mTimeBasedTrackingSessions s !! k with Some o => P e o | None => false end.
#[export] Instance TrackingOptions_eq_dec : EqDecision TrackingOptions.
Proof. solve_decision. Defined.
#[export] Instance LocationOptions_eq_dec : EqDecision LocationOptions.
Proof. solve_decision. Defined.
#[export] Instance request_eq_dec : EqDecision request.
Proof. solve_decision. Defined.
#[export] Instance handler_eq_dec : EqDecision handler.
Proof. solve_decision. Defined.

(** The outcomes the code leaves open.  A start with the smallest interval but a
    weaker power mode takes the power mode of another session away, although every
    action was allowed.  When an update to a time-based session has not been answered,
    a stop is refused and the session runs all the same, and a client that leaves
    leaves a session behind.  When the engine refuses a start, a session that relied on
    the request keeps its success but is not served, also when the flag of the highest
    rate was set for the refused request.  The restart of a distance-based session
    that cannot be stopped is never answered, nor is a start without callbacks or
    without options.  And a session that is updated while a request of it is outstanding,
    and stopped, leaves the engine running with no time-based session, although
    every request is granted. *)
Theorem tracking_gaps :
  (allowed_trace (two ++ [Start 1 7 (opts 1000 0 2); Answer 0; Start 1 8 (opts 2000 0 1); Answer 0; Start 2 9 (opts 500 0 3); Answer 0]) (Adapter_new, None) = true /\
   outcome (two ++ [Start 1 7 (opts 1000 0 2); Answer 0; Start 1 8 (opts 2000 0 1); Answer 0; Start 2 9 (opts 500 0 3); Answer 0])
     (settled (fun e o => match e with Some t => powerMode o <? powerMode t | None => false end) (key_of 1 8)) = true) /\
  outcome (two ++ [Start 2 9 (opts 1000 10 1); Answer 0; Update 2 9 (opts 1000 0 1); Stop 2 9; Answer 0; Answer 0])
    (fun s e => settled (fun _ _ => true) (key_of 2 9) s e && bool_decide ((2%nat, LOCATION_ERROR_ID_UNKNOWN, 9%nat) ∈ responses s)) = true /\
  outcome (two ++ [Start 2 9 (opts 1000 10 1); Answer 0; Update 2 9 (opts 1000 0 1); RemoveClient 2; Answer 0; Answer 0])
    (fun s e => settled (fun _ _ => true) (key_of 2 9) s e && negb (bool_decide (is_Some (mClientData s !! 2%nat)))) = true /\
  outcome (two ++ [Start 1 7 (opts 500 0 1); Start 2 9 (opts 1000 0 1); Answer 1])
    (fun s e => settled (fun e _ => bool_decide (e = None)) (key_of 2 9) s e && bool_decide ((2%nat, LOCATION_ERROR_SUCCESS, 9%nat) ∈ responses s)) = true /\
  outcome (two ++ [NHz true; Start 1 7 (opts 1000 0 1); Answer 1; Start 2 9 (opts 1000 0 1)])
    (fun s e => settled (fun e _ => bool_decide (e = None)) (key_of 2 9) s e && bool_decide ((2%nat, LOCATION_ERROR_SUCCESS, 9%nat) ∈ responses s)) = true /\
  outcome (two ++ [Start 2 9 (opts 1000 10 1); Answer 0; Update 2 9 (opts 2000 10 1); Answer 1])
    (fun s _ => bool_decide (requests s = []) && bool_decide (responses s = [(2%nat, LOCATION_ERROR_SUCCESS, 9%nat)])) = true /\
  outcome (two ++ [Start 2 9 (opts 1000 10 1); Answer 0; Update 2 9 (opts 1000 10 1); Answer 0; Update 2 9 (opts 500 0 1);
                   Answer 0; Stop 2 9; Answer 0; Answer 0; Answer 0])
    (fun s e => bool_decide (requests s = []) && bool_decide (mTimeBasedTrackingSessions s = ∅) && bool_decide (e <> None)) = true /\
  forall c id o s, mIsEngineCapabilitiesKnown s = true ->
    size o = 0 \/ from_option fst false (mClientData s !! c) = false -> start_tracking true c id o s = Some (tt, s).
Proof.
  split; [split; vm_compute; reflexivity|]. do 6 (split; [vm_compute; reflexivity|]).
  intros c id o s Hk Ho. unfold start_tracking, hasCallbacksToStartTracking, get, gets, mbind, cm_bind. rewrite Hk. cbn [negb andb].
  destruct (mClientData s !! c) as [[[] r]|]; cbn [negb from_option fst] in *; try done.
  destruct Ho as [->|]; done.
Qed.
