(* ===== verification/GnssNi.v ===== *)
(** * Network-initiated requests ([src/gps/gnss/GnssAdapter.cpp], [NiSession] in [GnssAdapter.h])

    The network asks where the device is; a client with a callback is asked for consent, and
    what it says, or that it said nothing in time, is told to the modem.  There is a session for
    emergency requests and one for all others, each with a thread that waits for the response.

    The context's thread takes messages; the threads of sessions hold the lock of their session but
    for the wait and for what they do at the end.  What runs under a lock, or writes
    to a session without it, is one step: a response of a client is looked up without the lock and
    stored with it, in two steps.  The payload of a request is memory that the modem interface
    allocated: a number, and freeing it is an event.  Times are seconds. *)
From S2P Require Import Prelude GnssTracking.
#[local] Open Scope Z_scope.

(** ** Data *)
Definition GNSS_NI_TYPE_SUPL : Z := 1.
Definition GNSS_NI_TYPE_CONTROL_PLANE : Z := 2.
Definition GNSS_NI_TYPE_EMERGENCY_SUPL : Z := 3.
Definition GNSS_NI_OPTIONS_PRIVACY_OVERRIDE_BIT : Z := Z.shiftl 1 2.
Definition GNSS_NI_RESPONSE_ACCEPT : Z := 1.
Definition GNSS_NI_RESPONSE_DENY : Z := 2.
Definition GNSS_NI_RESPONSE_NO_RESPONSE : Z := 3.
Definition GNSS_NI_RESPONSE_IGNORE : Z := 4.
Definition LOC_IN_EMERGENCY_UNKNOWN : Z := 0.
Definition LOC_IN_EMERGENCY_SET : Z := 1.
Definition GNSS_CONFIG_GPS_LOCK_NI : Z := 2.
Definition GNSS_CONFIG_SUPL_EMERGENCY_SERVICES_NO : Z := 0.
Definition LOC_NI_NO_RESPONSE_TIME : Z := 20.

Record GnssNiNotification := MkNotification { n_type : Z; n_options : Z; n_timeout : Z }.
(** What the configuration files and the settings say, when a message is taken. *)
Record Settings := MkSettings {
  mSupportNfwControl : bool; mAfwControlId : Z; GPS_LOCK : Z; NI_SUPL_DENY_ON_NFW_LOCKED : Z; SUPL_ES : Z; CP_MTLR_ES : Z; e911State : bool;
}.
Record NiSession := MkSession { respTimeLeft : Z; respRecvd : bool; rawRequest : option Z; reqID : Z; resp : Z }.
Definition no_session : NiSession := MkSession 0 false None 0 0.
(** The thread of a session, [niThreadProc]: what it has to do next; at the end it has the
    response and the payload that it sends. *)
Inductive Phase :=
  | starts | waits (expire_time : Z)
  | clears_time (answer : option (Z * Z)) | clears_id (answer : option (Z * Z)) | sends (answer : option (Z * Z)).
Inductive Msg :=
  | m_notify (notify : GnssNiNotification) (data emergencyState : Z)
  | m_response (client id response : Z)
  | m_inform (response payload : Z).
(** What the message that was taken has yet to do: store a response, for the request that was found,
    and report to the client. *)
Inductive Todo := store_response (es : bool) (response : Z) (found : Z) | report_response (client err id : Z).
Inductive Event :=
  | e_asked (client id payload : Z)            (* [gnssNiCb] *)
  | e_response (client err id : Z)             (* [responseCb] *)
  | e_modem (response payload : Z)             (* [QMI_LOC_NI_USER_RESPONSE_REQ_V02] *)
  | e_free (payload : Z).
(** The callbacks that a client has. *)
Record Callbacks := MkCallbacks { responseCb : bool; gnssNiCb : bool }.
Record Ni := MkNi {
  mClientData : gmap Z Callbacks;
  sessions : bool -> NiSession;                (* [sessionEs] of [true], [session] of [false] *)
  reqIDCounter : Z;
  msgs : list Msg; todo : list Todo;           (* of the context's thread *)
  threads : list (bool * Phase);
  informs : list (Z * Z);                      (* of the modem interface's thread *)
  events : list Event;
  now : Z;
}.
Definition new_ni : Ni := MkNi ∅ (fun _ => no_session) 0 [] [] [] [] [] 0.
Definition set_session (es : bool) (s : NiSession) (N : Ni) : Ni :=
  MkNi (mClientData N) (fun b => if Bool.eqb b es then s else sessions N b) (reqIDCounter N) (msgs N) (todo N) (threads N) (informs N) (events N) (now N).
Definition set_counter (n : Z) (N : Ni) : Ni := MkNi (mClientData N) (sessions N) n (msgs N) (todo N) (threads N) (informs N) (events N) (now N).
Definition set_msgs (f : list Msg -> list Msg) (N : Ni) : Ni := MkNi (mClientData N) (sessions N) (reqIDCounter N) (f (msgs N)) (todo N) (threads N) (informs N) (events N) (now N).
Definition set_todo (l : list Todo) (N : Ni) : Ni := MkNi (mClientData N) (sessions N) (reqIDCounter N) (msgs N) l (threads N) (informs N) (events N) (now N).
Definition set_threads (f : list (bool * Phase) -> list (bool * Phase)) (N : Ni) : Ni :=
  MkNi (mClientData N) (sessions N) (reqIDCounter N) (msgs N) (todo N) (f (threads N)) (informs N) (events N) (now N).
Definition set_informs (f : list (Z * Z) -> list (Z * Z)) (N : Ni) : Ni := MkNi (mClientData N) (sessions N) (reqIDCounter N) (msgs N) (todo N) (threads N) (f (informs N)) (events N) (now N).
Definition emit (l : list Event) (N : Ni) : Ni := MkNi (mClientData N) (sessions N) (reqIDCounter N) (msgs N) (todo N) (threads N) (informs N) (events N ++ l) (now N).
Definition set_clients (m : gmap Z Callbacks) (N : Ni) : Ni := MkNi m (sessions N) (reqIDCounter N) (msgs N) (todo N) (threads N) (informs N) (events N) (now N).
Definition set_now (t : Z) (N : Ni) : Ni := MkNi (mClientData N) (sessions N) (reqIDCounter N) (msgs N) (todo N) (threads N) (informs N) (events N) t.

(** ** Requests *)
Definition informNiResponse (response payload : Z) : Ni -> Ni := set_informs (fun l => l ++ [(response, payload)]).
(** The clients are visited in the order of their addresses. *)
Definition first_ni_client (N : Ni) : option Z :=
  foldr (fun (e : Z * Callbacks) (best : option Z) => if gnssNiCb e.2 then match best with Some c => Some (Z.min e.1 c) | None => Some e.1 end else best) None (map_to_list (mClientData N)).
(** A request that is accepted in the emergency session ends the other; a thread
    that cannot be created ([created]) leaves the session as it is. *)
Definition ignore_session (N : Ni) : list Todo :=
  match rawRequest (sessions N false) with Some payload => [store_response false GNSS_NI_RESPONSE_IGNORE payload] | None => [] end.
Definition start_session (created : bool) (es : bool) (client : Z) (notify : GnssNiNotification) (data : Z) (N : Ni) : Ni :=
  let s := sessions N es in let id := u32 (reqIDCounter N + 1) in
  let timeout := u32 (5 + (if negb (n_timeout notify =? 0) then n_timeout notify else LOC_NI_NO_RESPONSE_TIME)) in
  emit [e_asked client id data] (set_threads (fun l => if created then l ++ [(es, starts)] else l)
    (set_session es (MkSession timeout (respRecvd s) (Some data) id (resp s)) (set_counter id N))).
Definition requestNiNotify (created : bool) (notify : GnssNiNotification) (data : Z) (bInformNiAccept : bool) (N : Ni) : Ni :=
  let es := n_type notify =? GNSS_NI_TYPE_EMERGENCY_SUPL in
  match first_ni_client N with
  | None => if es && bInformNiAccept then set_todo (ignore_session N) (informNiResponse GNSS_NI_RESPONSE_ACCEPT data N) else N
  | Some client =>
      let busy := if es then bool_decide (is_Some (rawRequest (sessions N true)))
                  else bool_decide (is_Some (rawRequest (sessions N false))) || bool_decide (is_Some (rawRequest (sessions N true))) in
      if busy then emit [e_free data] N else start_session created es client notify data N
  end.
Definition proc_notify (conf : Settings) (created : bool) (notify : GnssNiNotification) (data emergencyState : Z) (N : Ni) : Ni :=
  let type := n_type notify in
  let bIsInEmergency := (emergencyState =? LOC_IN_EMERGENCY_UNKNOWN) && e911State conf || (emergencyState =? LOC_IN_EMERGENCY_SET) in
  if (mSupportNfwControl conf || (mAfwControlId conf =? 0)) && ((type =? GNSS_NI_TYPE_SUPL) || (type =? GNSS_NI_TYPE_EMERGENCY_SUPL)) && negb bIsInEmergency &&
     (Z.land GNSS_NI_OPTIONS_PRIVACY_OVERRIDE_BIT (n_options notify) =? 0) && negb (Z.land GNSS_CONFIG_GPS_LOCK_NI (GPS_LOCK conf) =? 0) &&
     (NI_SUPL_DENY_ON_NFW_LOCKED conf =? 1)
  then informNiResponse GNSS_NI_RESPONSE_DENY data N
  else if type =? GNSS_NI_TYPE_EMERGENCY_SUPL then
    if bIsInEmergency || (SUPL_ES conf =? GNSS_CONFIG_SUPL_EMERGENCY_SERVICES_NO) then requestNiNotify created notify data true N
    else informNiResponse GNSS_NI_RESPONSE_DENY data N
  else if type =? GNSS_NI_TYPE_CONTROL_PLANE then
    if bIsInEmergency && (CP_MTLR_ES conf =? 1) then informNiResponse GNSS_NI_RESPONSE_ACCEPT data N else requestNiNotify created notify data false N
  else requestNiNotify created notify data false N.

(** ** Responses *)
Definition hasNiNotifyCallback (client : Z) (N : Ni) : bool := match mClientData N !! client with Some c => gnssNiCb c | None => false end.
Definition reportResponse (client err id : Z) (N : Ni) : Ni :=
  match mClientData N !! client with Some c => if responseCb c then emit [e_response client err id] N else N | None => N end.
(** What is found without the locks. *)
Definition proc_response (client id response : Z) (N : Ni) : list Todo :=
  let active es := match rawRequest (sessions N es) with Some p => if reqID (sessions N es) =? id then Some p else None | None => None end in
  if negb (hasNiNotifyCallback client N) then [report_response client LOCATION_ERROR_ID_UNKNOWN id]
  else match active true, active false with
       | Some p, _ => (if response =? GNSS_NI_RESPONSE_ACCEPT then ignore_session N else []) ++
                      [store_response true response p; report_response client LOCATION_ERROR_SUCCESS id]
       | None, Some p => [store_response false response p; report_response client LOCATION_ERROR_SUCCESS id]
       | None, None => [report_response client LOCATION_ERROR_ID_UNKNOWN id]
       end.
Definition do_todo (t : Todo) (N : Ni) : Ni :=
  match t with
  | store_response es response _ =>
      let s := sessions N es in set_session es (MkSession (respTimeLeft s) true (rawRequest s) (reqID s) response) N
  | report_response client err id => reportResponse client err id N
  end.
Definition proc (conf : Settings) (created : bool) (m : Msg) (N : Ni) : Ni :=
  match m with
  | m_notify notify data emergencyState => proc_notify conf created notify data emergencyState N
  | m_response client id response => set_todo (proc_response client id response N) N
  | m_inform response payload => informNiResponse response payload N
  end.

(** ** The thread of a session *)
(** The end of the critical section: the payload is taken, or freed. *)
Definition finish (es : bool) (response : Z) (N : Ni) : Phase * Ni :=
  let s := sessions N es in let N' := set_session es (MkSession (respTimeLeft s) false None (reqID s) response) N in
  match rawRequest s with
  | Some p => if negb (response =? GNSS_NI_RESPONSE_IGNORE) then (clears_time (Some (response, p)), N') else (clears_time None, emit [e_free p] N')
  | None => (clears_time None, N')
  end.
(** One step; [timed] when the wait ends with [ETIMEDOUT], which it does not before its time. *)
Definition niThreadProc (timed : bool) (es : bool) (phase : Phase) (N : Ni) : option (option Phase * Ni) :=
  let s := sessions N es in
  match phase with
  | starts => Some (if respRecvd s then let '(phase, N) := finish es (resp s) N in (Some phase, N) else (Some (waits (now N + respTimeLeft s)), N))
  | waits expire_time =>
      if timed then if expire_time <=? now N then Some (let '(phase, N) := finish es GNSS_NI_RESPONSE_NO_RESPONSE N in (Some phase, N)) else None
      else Some (if respRecvd s then let '(phase, N) := finish es (resp s) N in (Some phase, N) else (Some phase, N))
  | clears_time answer => Some (Some (clears_id answer), set_session es (MkSession 0 (respRecvd s) (rawRequest s) (reqID s) (resp s)) N)
  | clears_id answer => Some (Some (sends answer), set_session es (MkSession (respTimeLeft s) (respRecvd s) (rawRequest s) 0 (resp s)) N)
  | sends answer => Some (None, match answer with Some (response, p) => set_msgs (fun l => l ++ [m_inform response p]) N | None => N end)
  end.
(** [LocApiV02::informNiResponse]: the payload is freed when the modem was told. *)
Definition api_inform (response payload : Z) (N : Ni) : Ni :=
  emit ((if (response =? GNSS_NI_RESPONSE_ACCEPT) || (response =? GNSS_NI_RESPONSE_DENY) || (response =? GNSS_NI_RESPONSE_NO_RESPONSE)
         then [e_modem response payload] else []) ++ [e_free payload]) N.

(** ** The world *)
(** [w_given] has the responses of clients so far, and [w_seen] the payloads of requests. *)
Record World := MkWorld { w_ni : Ni; w_seen : list Z; w_given : list (Z * Z * Z) }.
Inductive Action :=
  | do_request (notify : GnssNiNotification) (payload emergencyState : Z)   (* an indication of the modem *)
  | do_response (client id response : Z)
  | do_clients (clients : gmap Z Callbacks)                                 (* on the context's thread *)
  | do_take (conf : Settings) (created : bool)                              (* the context's thread takes a message *)
  | do_todo_next
  | do_thread (i : nat) (timed : bool)
  | do_inform
  | do_time (seconds : N).
Definition act (a : Action) (w : World) : option World :=
  let N := w_ni w in let with_ni N := MkWorld N (w_seen w) (w_given w) in
  match a with
  | do_request notify payload emergencyState =>
      if bool_decide (payload ∈ w_seen w) then None
      else Some (MkWorld (set_msgs (fun l => l ++ [m_notify notify payload emergencyState]) N) (w_seen w ++ [payload]) (w_given w))
  | do_response client id response =>
      Some (MkWorld (set_msgs (fun l => l ++ [m_response client id response]) N) (w_seen w) (w_given w ++ [(client, id, response)]))
  | do_clients clients => match todo N with [] => Some (with_ni (set_clients clients N)) | _ => None end
  | do_take conf created => match todo N, msgs N with [], m :: ms => Some (with_ni (proc conf created m (set_msgs (fun _ => ms) N))) | _, _ => None end
  | do_todo_next => match todo N with t :: ts => Some (with_ni (do_todo t (set_todo ts N))) | [] => None end
  | do_thread i timed =>
      '(es, phase) ← threads N !! i;
      '(phase', N') ← niThreadProc timed es phase N;
      Some (with_ni (set_threads (fun l => match phase' with Some phase => <[i := (es, phase)]> l | None => delete i l end) N'))
  | do_inform => match informs N with (response, p) :: l => Some (with_ni (api_inform response p (set_informs (fun _ => l) N))) | [] => None end
  | do_time seconds => Some (with_ni (set_now (now N + Z.of_N seconds) N))
  end.
(** Runs whose actions are all allowed where they happen. *)
Definition new_world : World := MkWorld new_ni [] [].
Fixpoint run (ok : Action -> World -> bool) (l : list Action) (w : World) : option World :=
  match l with
  | [] => Some w
  | a :: l => if ok a w then w' ← act a w; run ok l w' else None
  end.
Definition reachable (ok : Action -> World -> bool) (w : World) : Prop := exists l, run ok l new_world = Some w.
Lemma run_ni_app ok l l' w w' : run ok l w = Some w' -> run ok (l ++ l') w = run ok l' w'.
Proof.
  revert w. induction l as [|a l IH]; intros w; cbn; [by intros [= ->]|]. destruct (ok a w); [|done]. destruct (act a w) as [w1|]; [|done]. apply IH.
Qed.
Lemma reachable_ind (ok : Action -> World -> bool) (P : World -> Prop) : P new_world ->
  (forall a w w', P w -> ok a w = true -> act a w = Some w' -> P w') -> forall w, reachable ok w -> P w.
Proof.
  intros H0 Hs w (l & Hl). revert Hl. assert (forall w0, P w0 -> run ok l w0 = Some w -> P w) as H; [|by apply H].
  induction l as [|a l IH]; intros w0 Hw; cbn; [by intros [= <-]|]. destruct (ok a w0) eqn:E; [|done]. intros (w1 & H1 & H2)%bind_Some. by apply (IH w1); [eapply Hs|].
Qed.

Lemma reportResponse_emits client err id N : exists l, reportResponse client err id N = emit l N /\ (l = [] \/ l = [e_response client err id]).
Proof.
  assert (emit [] N = N) as E by (destruct N; unfold emit; cbn; by rewrite app_nil_r).
  unfold reportResponse. destruct (mClientData N !! client) as [c|]; [destruct (responseCb c)|]; [by eexists; split; [done|right]|exists []; by rewrite E; auto..].
Qed.

(** ** Payloads *)
Definition msg_payload (m : Msg) : option Z := match m with m_notify _ p _ | m_inform _ p => Some p | m_response _ _ _ => None end.
Definition phase_payload (t : bool * Phase) : option Z :=
  match t.2 with clears_time answer | clears_id answer | sends answer => snd <$> answer | _ => None end.
Definition freed (N : Ni) : list Z := omap (fun e => match e with e_free p => Some p | _ => None end) (events N).
Definition told_modem (N : Ni) : list Z := omap (fun e => match e with e_modem _ p => Some p | _ => None end) (events N).
(** Where a payload can be, before it is freed. *)
Definition held (N : Ni) : list Z :=
  omap msg_payload (msgs N) ++ option_list (rawRequest (sessions N false)) ++ option_list (rawRequest (sessions N true)) ++
  omap phase_payload (threads N) ++ (informs N).*2.
Definition places (N : Ni) : list Z := held N ++ freed N.
Lemma omap_app_1 {A B} (f : A -> option B) l x : omap f (l ++ [x]) = omap f l ++ option_list (f x).
Proof. rewrite omap_app. cbn. by destruct (f x). Qed.
Lemma option_list_cons {A} (o : option A) (l : list A) : match o with Some x => x :: l | None => l end = option_list o ++ l.
Proof. by destruct o. Qed.
Lemma freed_emit l N : freed (emit l N) = freed N ++ omap (fun e => match e with e_free p => Some p | _ => None end) l.
Proof. unfold freed. cbn. by rewrite omap_app. Qed.
Lemma start_places created es client notify data N : rawRequest (sessions N es) = None -> places (start_session created es client notify data N) ⊆+ data :: places N.
Proof.
  intros Hn. unfold start_session, places. rewrite freed_emit. unfold held. cbn. rewrite app_nil_r. change (freed (set_threads _ _)) with (freed N).
  assert (omap phase_payload (if created then threads N ++ [(es, starts)] else threads N) = omap phase_payload (threads N)) as ->.
  { destruct created; [|done]. rewrite omap_app_1. apply app_nil_r. }
  destruct es; cbn; rewrite ?Hn; cbn; solve_submseteq.
Qed.
Lemma inform_places r p N : places (informNiResponse r p N) ⊆+ p :: places N.
Proof. unfold places, held. cbn. rewrite fmap_app. cbn. change (freed (informNiResponse r p N)) with (freed N). solve_submseteq. Qed.
Lemma request_places created notify data accept N : places (requestNiNotify created notify data accept N) ⊆+ data :: places N.
Proof.
  unfold requestNiNotify. destruct (first_ni_client N) as [client|].
  - destruct (n_type notify =? GNSS_NI_TYPE_EMERGENCY_SUPL).
    + case_bool_decide as Hb; [|apply start_places; by apply eq_None_not_Some]. unfold places. rewrite freed_emit. change (held (emit _ N)) with (held N). cbn. solve_submseteq.
    + destruct (bool_decide _ || bool_decide _) eqn:Hb; [unfold places; rewrite freed_emit; change (held (emit _ N)) with (held N); cbn; solve_submseteq|].
      apply orb_false_iff in Hb as [Hb%bool_decide_eq_false _]. apply start_places. by apply eq_None_not_Some.
  - destruct (_ && accept); [apply inform_places|]. by apply submseteq_cons.
Qed.
Lemma notify_places conf created notify data e N : places (proc_notify conf created notify data e N) ⊆+ data :: places N.
Proof. unfold proc_notify. repeat case_match; first [apply inform_places|apply request_places]. Qed.
Lemma session_places es s N : rawRequest s = rawRequest (sessions N es) -> places (set_session es s N) = places N.
Proof. intros Hs. unfold places, held. change (freed (set_session es s N)) with (freed N). by destruct es; cbn; rewrite Hs. Qed.
Lemma finish_places es response N phase N' : finish es response N = (phase, N') -> threads N' = threads N /\
  option_list (phase_payload (es, phase)) ++ places N' ≡ₚ places N.
Proof.
  unfold finish. destruct (rawRequest (sessions N es)) as [p|] eqn:E; [destruct (negb _)|]; intros [= <- <-]; (split; [done|]); unfold places; rewrite ?freed_emit; unfold held;
    change (freed (set_session _ _ _)) with (freed N); destruct es; cbn; rewrite E; cbn; solve_Permutation.
Qed.
Lemma threads_places i es phase N : threads N !! i = Some (es, phase) ->
  (forall phase', phase_payload (es, phase) = None -> option_list (phase_payload (es, phase')) ++ places N ≡ₚ places (set_threads (<[i := (es, phase')]>) N)) /\
  (forall phase', phase_payload (es, phase) = phase_payload (es, phase') -> places N ≡ₚ places (set_threads (<[i := (es, phase')]>) N)) /\
  places N ≡ₚ option_list (phase_payload (es, phase)) ++ places (set_threads (delete i) N).
Proof.
  intros Hi. assert (Hsplit : threads N = take i (threads N) ++ (es, phase) :: drop (S i) (threads N)) by (symmetry; by apply take_drop_middle).
  assert (Hlen : length (take i (threads N)) = i) by (apply length_take_le; apply lookup_lt_Some in Hi; lia).
  assert (Hins : forall t, <[i := t]> (threads N) = take i (threads N) ++ t :: drop (S i) (threads N)).
  { intros t. rewrite Hsplit at 1. rewrite insert_app_r_alt by lia. by rewrite Hlen, Nat.sub_diag. }
  assert (Hdel : delete i (threads N) = take i (threads N) ++ drop (S i) (threads N)) by apply delete_take_drop.
  assert (Hp : omap phase_payload (threads N) = omap phase_payload (take i (threads N)) ++ option_list (phase_payload (es, phase)) ++ omap phase_payload (drop (S i) (threads N))).
  { rewrite Hsplit at 1. rewrite omap_app. f_equal. cbn. by destruct (phase_payload _). }
  unfold places, held. cbn. repeat split.
  - intros phase' Hn. change (freed (set_threads _ N)) with (freed N). rewrite Hins, Hp, Hn, omap_app. cbn. destruct (phase_payload (es, phase')); cbn; solve_Permutation.
  - intros phase' Hn. change (freed (set_threads _ N)) with (freed N). rewrite Hins, Hp, Hn, omap_app. cbn. destruct (phase_payload (es, phase')); cbn; solve_Permutation.
  - change (freed (set_threads _ N)) with (freed N). rewrite Hdel, Hp, omap_app. solve_Permutation.
Qed.
Lemma thread_places i timed es phase N phase' N' : threads N !! i = Some (es, phase) -> niThreadProc timed es phase N = Some (phase', N') ->
  places (set_threads (fun l => match phase' with Some phase => <[i := (es, phase)]> l | None => delete i l end) N') ≡ₚ places N.
Proof.
  intros Hi H. assert (Hfinish : forall r, phase_payload (es, phase) = None -> (let '(phase, N1) := finish es r N in (Some phase, N1)) = (phase', N') ->
    places (set_threads (fun l => match phase' with Some phase => <[i := (es, phase)]> l | None => delete i l end) N') ≡ₚ places N).
  { intros r Hp Hf. destruct (finish es r N) as [ph N1] eqn:E. injection Hf as <- <-. apply finish_places in E as [Ht <-]. rewrite <- Ht in Hi. symmetry. by apply (threads_places i es phase N1 Hi). }
  destruct phase as [|t|a|a|a]; cbn [niThreadProc] in H.
  - injection H as H. destruct (respRecvd _); [by eapply Hfinish|]. injection H as <- <-. symmetry. by apply (threads_places i es starts N Hi).
  - destruct timed; [destruct (t <=? now N); [|done]; injection H as H; by eapply Hfinish|]. injection H as H.
    destruct (respRecvd _); [by eapply Hfinish|]. injection H as <- <-. symmetry. by apply (threads_places i es (waits t) N Hi).
  - injection H as <- <-. match goal with |- places (set_threads _ ?N1) ≡ₚ _ => assert (places N1 = places N) as <- by by apply session_places end.
    symmetry. match goal with |- places ?N1 ≡ₚ _ => exact (proj1 (proj2 (threads_places i es (clears_time a) N1 Hi)) (clears_id a) eq_refl) end.
  - injection H as <- <-. match goal with |- places (set_threads _ ?N1) ≡ₚ _ => assert (places N1 = places N) as <- by by apply session_places end.
    symmetry. match goal with |- places ?N1 ≡ₚ _ => exact (proj1 (proj2 (threads_places i es (clears_id a) N1 Hi)) (sends a) eq_refl) end.
  - injection H as <- <-. destruct (threads_places i es (sends a) N Hi) as (_ & _ & ->). destruct a as [[r p]|]; [|done]. unfold places, held. cbn. rewrite omap_app_1. cbn.
    change (freed (set_threads _ _)) with (freed N). solve_Permutation.
Qed.
Definition payloads_ok (w : World) : Prop := NoDup (places (w_ni w)) /\ places (w_ni w) ⊆ w_seen w.
Lemma act_payloads a w w' : payloads_ok w -> act a w = Some w' -> payloads_ok w'.
Proof.
  destruct w as [N seen given]. intros [Hnd Hseen] H. unfold payloads_ok in *. cbn [w_ni w_seen] in *.
  assert (Hsub : forall l, l ⊆+ places N -> NoDup l /\ l ⊆ seen) by (intros l Hl; split; [apply submseteq_Permutation in Hl as [k Hk]; rewrite Hk in Hnd; by apply NoDup_app in Hnd as [? _]|intros p Hp; apply Hseen; exact (elem_of_submseteq _ _ _ Hp Hl)]).
  assert (Hsame : forall l, l ≡ₚ places N -> NoDup l /\ l ⊆ seen) by (intros l ->; done).
  destruct a as [notify p e|c id r|cs|conf created| |i timed| |s]; cbn [act w_ni w_seen w_given] in H.
  - case_bool_decide as Hp; [done|]. injection H as <-. cbn. assert (places (set_msgs (fun l => l ++ [m_notify notify p e]) N) ≡ₚ p :: places N) as Hpl.
    { unfold places, held. cbn. rewrite omap_app_1. change (freed (set_msgs _ N)) with (freed N). cbn. solve_Permutation. }
    rewrite Hpl. split; [apply NoDup_cons; split; [intros Hin; by apply Hp, Hseen|done]|]. intros q [->|Hq]%elem_of_cons; apply elem_of_app; [right; by left|left; by apply Hseen].
  - injection H as <-. cbn. apply Hsame. unfold places, held. cbn. by rewrite omap_app_1, app_nil_r.
  - destruct (todo N); [|done]. injection H as <-. by apply Hsame.
  - destruct (todo N), (msgs N) as [|m ms] eqn:Em; try done. injection H as <-. cbn. apply Hsub.
    assert (places N ≡ₚ option_list (msg_payload m) ++ places (set_msgs (fun _ => ms) N)) as ->.
    { unfold places, held. cbn. rewrite Em. cbn. change (freed (set_msgs _ N)) with (freed N). destruct (msg_payload m); cbn; solve_Permutation. }
    destruct m as [notify p e|c id r|r p]; cbn [proc msg_payload option_list]; [apply notify_places|done|apply inform_places].
  - destruct (todo N) as [|t ts]; [done|]. injection H as <-. cbn. apply Hsame. destruct t as [es r p|c err id]; cbn [do_todo]; [by rewrite session_places|].
    destruct (reportResponse_emits c err id (set_todo ts N)) as (l & -> & Hl). unfold places. rewrite freed_emit. destruct Hl as [-> | ->]; by rewrite app_nil_r.
  - apply bind_Some in H as ([es phase] & Hi & H). apply bind_Some in H as ([phase' N'] & Hth & H). injection H as <-. cbn. apply Hsame. by eapply thread_places.
  - destruct (informs N) as [|[r p] l] eqn:Ei; [done|]. injection H as <-. cbn. apply Hsame. unfold places, held, freed. rewrite Ei. cbn. rewrite !omap_app.
    assert (omap (fun e => match e with e_free p => Some p | _ => None end) (if (r =? GNSS_NI_RESPONSE_ACCEPT) || (r =? GNSS_NI_RESPONSE_DENY) || (r =? GNSS_NI_RESPONSE_NO_RESPONSE) then [e_modem r p] else []) = []) as -> by by destruct (_ || _ || _).
    cbn. solve_Permutation.
  - injection H as <-. by apply Hsame.
Qed.

(** What happens to the events. *)
Definition grows (N N' : Ni) : Prop := exists l, events N' = events N ++ l /\ Forall (fun e => match e with e_modem _ _ => False | _ => True end) l.
Lemma grows_same N N' : events N' = events N -> grows N N'.
Proof. intros H. exists []. by rewrite app_nil_r. Qed.
Lemma grows_one e N N' : events N' = events N ++ [e] -> match e with e_modem _ _ => False | _ => True end -> grows N N'.
Proof. intros H He. exists [e]. by repeat constructor. Qed.
Lemma grows_notify conf created notify p e N : grows N (proc_notify conf created notify p e N).
Proof.
  assert (forall accept, grows N (requestNiNotify created notify p accept N)) as Hr.
  { intros accept. unfold requestNiNotify. destruct (first_ni_client N); repeat case_match; first [by eapply grows_same|by eapply grows_one]. }
  unfold proc_notify. repeat case_match; first [by eapply grows_same|apply Hr].
Qed.
Lemma grows_finish es r N phase N' : finish es r N = (phase, N') -> grows N N'.
Proof. unfold finish. repeat case_match; intros [= _ <-]; first [by eapply grows_same|by eapply grows_one]. Qed.
Lemma grows_thread timed es phase N phase' N' : niThreadProc timed es phase N = Some (phase', N') -> grows N N'.
Proof.
  assert (forall r (ph : option Phase) N', (let '(phase, N1) := finish es r N in (Some phase, N1)) = (ph, N') -> grows N N') as Hf.
  { intros r ph N1. destruct (finish es r N) as [ph1 N2] eqn:E. intros [= _ <-]. by eapply grows_finish. }
  destruct phase; cbn [niThreadProc]; intros H; repeat case_match; simplify_eq; first [by eapply grows_same|by eapply Hf; eauto|eapply grows_finish; eauto].
Qed.
Lemma act_grows a w w' : act a w = Some w' -> a <> do_inform -> grows (w_ni w) (w_ni w').
Proof.
  destruct w as [N seen given]. destruct a as [notify p e|c id r|cs|conf created| |i timed| |s]; cbn [act w_ni w_seen w_given]; intros H Hne.
  - case_bool_decide; [done|]. injection H as <-. by apply grows_same.
  - injection H as <-. by apply grows_same.
  - destruct (todo N); [|done]. injection H as <-. by apply grows_same.
  - destruct (todo N), (msgs N) as [|m ms]; try done. injection H as <-. destruct m; [apply (grows_notify _ _ _ _ _ (set_msgs (fun _ => ms) N))|by apply grows_same|by apply grows_same].
  - destruct (todo N) as [|t ts]; [done|]. injection H as <-. destruct t as [|c err id]; [by apply grows_same|].
    cbn [do_todo w_ni]. destruct (reportResponse_emits c err id (set_todo ts N)) as (l & -> & [-> | ->]); [by apply grows_same; cbn; rewrite app_nil_r|by eapply grows_one].
  - apply bind_Some in H as ([es phase] & Hi & H). apply bind_Some in H as ([phase' N'] & Hth & H). injection H as <-. apply grows_thread in Hth. exact Hth.
  - done.
  - injection H as <-. by apply grows_same.
Qed.
Lemma act_told a w w' : told_modem (w_ni w) `sublist_of` freed (w_ni w) -> act a w = Some w' -> told_modem (w_ni w') `sublist_of` freed (w_ni w').
Proof.
  intros Hs H. assert (a = do_inform \/ a <> do_inform) as [->|Hne] by (destruct a; by auto).
  - destruct w as [N seen given]. cbn [act w_ni] in *. destruct (informs N) as [|[r p] l]; [done|]. injection H as <-. unfold told_modem, freed in *. cbn. rewrite !omap_app.
    apply sublist_app; [done|]. destruct (_ || _ || _); cbn; [done|apply sublist_nil_l].
  - apply act_grows in H as (l & He & Hl); [|done]. unfold told_modem, freed in *. rewrite He, !omap_app.
    assert (omap (fun e => match e with e_modem _ p => Some p | _ => None end) l = []) as -> by (clear -Hl; induction Hl as [|e l He Hl IH]; [done|destruct e; first [by destruct He|exact IH]]).
    rewrite app_nil_r. by apply sublist_inserts_r.
Qed.

(** ** The threads of sessions *)
Definition live (es : bool) (t : bool * Phase) : bool := Bool.eqb t.1 es && match t.2 with starts | waits _ => true | _ => false end.
Definition count (es : bool) (l : list (bool * Phase)) : nat := sum_list_with (fun t => if live es t then 1 else 0)%nat l.
#[local] Arguments count : simpl never.
(** A session with a request has one thread that waits, one without has none. *)
Definition served (N : Ni) : Prop := forall es, count es (threads N) = match rawRequest (sessions N es) with Some _ => 1%nat | None => 0%nat end.
Definition created_only (a : Action) (w : World) : bool := match a with do_take _ created => created | _ => true end.
Lemma count_cons es t l : count es (t :: l) = ((if live es t then 1 else 0) + count es l)%nat.
Proof. done. Qed.
Lemma count_insert es i t t' l : l !! i = Some t -> (count es (<[i := t']> l) + (if live es t then 1 else 0) = count es l + (if live es t' then 1 else 0))%nat.
Proof.
  revert i. induction l as [|x l IH]; intros [|i] Hi; [done|done| |].
  - injection Hi as ->. change (<[0%nat := t']> (t :: l)) with (t' :: l). rewrite !count_cons. lia.
  - change (<[S i := t']> (x :: l)) with (x :: <[i := t']> l). specialize (IH i Hi). rewrite !count_cons. lia.
Qed.
Lemma count_delete es i t l : l !! i = Some t -> (count es (delete i l) + (if live es t then 1 else 0) = count es l)%nat.
Proof.
  revert i. induction l as [|x l IH]; intros [|i] Hi; [done|done| |].
  - injection Hi as ->. change (delete 0%nat (t :: l)) with l. rewrite count_cons. lia.
  - change (delete (S i) (x :: l)) with (x :: delete i l). specialize (IH i Hi). rewrite !count_cons. lia.
Qed.
Lemma served_start es client notify data N : served N -> rawRequest (sessions N es) = None -> served (start_session true es client notify data N).
Proof.
  intros Hs Hn b. specialize (Hs b). unfold start_session. cbn. unfold count in *. rewrite sum_list_with_app. cbn. unfold live at 2. cbn.
  destruct (Bool.eqb_spec b es) as [->|Hne]; [rewrite Hn in Hs; rewrite Hs, Bool.eqb_reflx; done|]. rewrite Hs.
  assert (Bool.eqb es b = false) as -> by (by destruct es, b). cbn. lia.
Qed.
Lemma served_notify conf notify p e N : served N -> served (proc_notify conf true notify p e N).
Proof.
  intros Hs. assert (forall accept, served (requestNiNotify true notify p accept N)) as Hr.
  { intros accept. unfold requestNiNotify. destruct (first_ni_client N); [|by case_match].
    destruct (n_type notify =? GNSS_NI_TYPE_EMERGENCY_SUPL).
    - case_bool_decide as Hb; [done|]. apply served_start; [done|]. by apply eq_None_not_Some.
    - destruct (bool_decide _ || bool_decide _) eqn:Hb; [done|]. apply orb_false_iff in Hb as [Hb%bool_decide_eq_false _]. apply served_start; [done|]. by apply eq_None_not_Some. }
  unfold proc_notify. repeat case_match; first [done|apply Hr].
Qed.
Lemma served_same N N' : (forall es, rawRequest (sessions N' es) = rawRequest (sessions N es)) -> threads N' = threads N -> served N -> served N'.
Proof. intros Hr Ht Hs es. by rewrite Ht, Hr. Qed.
Lemma raw_set es s N : rawRequest s = rawRequest (sessions N es) -> forall b, rawRequest (sessions (set_session es s N) b) = rawRequest (sessions N b).
Proof. intros Hs b. cbn. by destruct (Bool.eqb_spec b es) as [->|]. Qed.
Lemma live_found es t N i : served N -> threads N !! i = Some t -> live es t = true -> is_Some (rawRequest (sessions N es)).
Proof.
  intros Hs Hi Hl. specialize (Hs es). pose proof (count_delete es i t _ Hi) as Hc. rewrite Hl in Hc. destruct (rawRequest _); [by eexists|]. lia.
Qed.
Lemma served_finish es r i phase N ph N' : served N -> threads N !! i = Some (es, phase) -> live es (es, phase) = true -> finish es r N = (ph, N') ->
  served (set_threads (<[i := (es, ph)]>) N').
Proof.
  intros Hs Hi Hl Hf. pose proof (live_found _ _ _ _ Hs Hi Hl) as [p Hp]. unfold finish in Hf. rewrite Hp in Hf.
  assert (exists a, ph = clears_time a /\ threads N' = threads N /\ forall b, rawRequest (sessions N' b) = if Bool.eqb b es then None else rawRequest (sessions N b)) as (a & -> & Ht & Hr).
  { destruct (negb _); injection Hf as <- <-; eexists; (split; [done|]); (split; [done|]); intros b; cbn; by destruct (Bool.eqb b es). }
  intros b. cbn. rewrite Ht, Hr. pose proof (count_insert b i _ (es, clears_time a) _ Hi) as Hc. assert (live b (es, clears_time a) = false) as Hla by apply andb_false_r. rewrite Hla in Hc.
  specialize (Hs b). destruct (Bool.eqb_spec b es) as [->|Hne].
  - rewrite Hl, Hs, Hp in Hc. lia.
  - assert (live b (es, phase) = false) as Hlb by (unfold live; cbn; by destruct es, b). rewrite Hlb in Hc. lia.
Qed.
Lemma served_phase es i phase phase' N : served N -> threads N !! i = Some (es, phase) -> (forall b, live b (es, phase') = live b (es, phase)) -> served (set_threads (<[i := (es, phase')]>) N).
Proof. intros Hs Hi Hl b. cbn. pose proof (count_insert b i _ (es, phase') _ Hi) as Hc. rewrite Hl in Hc. specialize (Hs b). lia. Qed.
Lemma served_thread i timed es phase N phase' N' : served N -> threads N !! i = Some (es, phase) -> niThreadProc timed es phase N = Some (phase', N') ->
  served (set_threads (fun l => match phase' with Some phase => <[i := (es, phase)]> l | None => delete i l end) N').
Proof.
  intros Hs Hi H. assert (Hfinish : forall r, live es (es, phase) = true -> (let '(phase, N1) := finish es r N in (Some phase, N1)) = (phase', N') ->
    served (set_threads (fun l => match phase' with Some phase => <[i := (es, phase)]> l | None => delete i l end) N')).
  { intros r Hl Hf. destruct (finish es r N) as [ph N1] eqn:E. injection Hf as <- <-. by eapply served_finish. }
  assert (Hlive : forall t, live es (es, starts) = true /\ live es (es, waits t) = true) by (intros t; unfold live; cbn; by rewrite Bool.eqb_reflx).
  destruct phase as [|t|a|a|a]; cbn [niThreadProc] in H.
  - injection H as H. destruct (respRecvd _); [eapply Hfinish; [apply (Hlive 0)|done]|]. injection H as <- <-. by eapply served_phase.
  - destruct timed; [destruct (t <=? now N); [|done]; injection H as H; eapply Hfinish; [apply Hlive|done]|]. injection H as H.
    destruct (respRecvd _); [eapply Hfinish; [apply Hlive|done]|]. injection H as <- <-. by eapply served_phase.
  - injection H as <- <-. eapply served_phase; [|exact Hi|done]. eapply served_same; [apply raw_set; done|done|done].
  - injection H as <- <-. eapply served_phase; [|exact Hi|done]. eapply served_same; [apply raw_set; done|done|done].
  - injection H as <- <-. intros b. pose proof (count_delete b i _ _ Hi) as Hc. assert (live b (es, sends a) = false) as Hl by apply andb_false_r. rewrite Hl in Hc.
    specialize (Hs b). destruct a as [[r p]|]; cbn; lia.
Qed.
Lemma act_served a w w' : served (w_ni w) -> created_only a w = true -> act a w = Some w' -> served (w_ni w').
Proof.
  destruct w as [N seen given]. intros Hs Hok H. destruct a as [notify p e|c id r|cs|conf created| |i timed| |s]; cbn [act w_ni w_seen w_given created_only] in *.
  - case_bool_decide; [done|]. by injection H as <-.
  - by injection H as <-.
  - destruct (todo N); [|done]. by injection H as <-.
  - destruct (todo N), (msgs N) as [|m ms]; try done. injection H as <-. subst created. destruct m; [by apply served_notify|done|done].
  - destruct (todo N) as [|t ts]; [done|]. injection H as <-. destruct t as [|c err id]; [by eapply served_same; [by apply raw_set|..]|].
    cbn [do_todo w_ni]. by destruct (reportResponse_emits c err id (set_todo ts N)) as (l & -> & _).
  - apply bind_Some in H as ([es phase] & Hi & H). apply bind_Some in H as ([phase' N'] & Hth & H). injection H as <-. by eapply served_thread.
  - destruct (informs N) as [|[r p] l]; [done|]. by injection H as <-.
  - by injection H as <-.
Qed.

(** What the program can do by itself, as time passes. *)
Definition of_program (a : Action) : bool :=
  match a with do_take _ _ | do_todo_next | do_thread _ _ | do_inform | do_time _ => true | _ => false end.
Definition can (w w' : World) : Prop := exists l, forallb of_program l = true /\ run created_only l w = Some w'.
Lemma can_refl w : can w w.
Proof. by exists []. Qed.
Lemma can_trans w1 w2 w3 : can w1 w2 -> can w2 w3 -> can w1 w3.
Proof. intros (l1 & H1 & R1) (l2 & H2 & R2). exists (l1 ++ l2). rewrite forallb_app, H1, H2. split; [done|]. by rewrite (run_ni_app _ _ _ _ _ R1). Qed.
Lemma can_act a w w' : of_program a = true -> created_only a w = true -> act a w = Some w' -> can w w'.
Proof. intros Ha Hc H. exists [a]. cbn. by rewrite Ha, Hc, H. Qed.
Lemma can_todo N seen given : exists N', can (MkWorld N seen given) (MkWorld N' seen given) /\ todo N' = [] /\ msgs N' = msgs N /\ informs N' = informs N.
Proof.
  assert (forall l N, todo N = l -> exists N', can (MkWorld N seen given) (MkWorld N' seen given) /\ todo N' = [] /\ msgs N' = msgs N /\ informs N' = informs N) as H; [|by eapply H].
  clear N. induction l as [|t l IH]; intros N Hl; [exists N; split; [apply can_refl|done]|].
  assert (todo (do_todo t (set_todo l N)) = l /\ msgs (do_todo t (set_todo l N)) = msgs N /\ informs (do_todo t (set_todo l N)) = informs N) as (E1 & E2 & E3).
  { destruct t as [|c err id]; [done|]. cbn [do_todo]. by destruct (reportResponse_emits c err id (set_todo l N)) as (? & -> & _). }
  destruct (IH (do_todo t (set_todo l N)) E1) as (N' & Hc & H1 & H2 & H3). exists N'. rewrite H2, H3. split; [|done].
  eapply can_trans; [|exact Hc]. apply (can_act do_todo_next); [done|done|]. cbn. by rewrite Hl.
Qed.
Lemma proc_msgs conf created m N : msgs (proc conf created m N) = msgs N.
Proof.
  destruct m; cbn [proc]; [|done|done]. assert (forall notify p accept, msgs (requestNiNotify created notify p accept N) = msgs N) as Hr by (intros; unfold requestNiNotify; repeat case_match; done).
  unfold proc_notify. repeat case_match; first [done|apply Hr].
Qed.
Lemma can_informs r p N seen given : (r, p) ∈ informs N -> exists w', can (MkWorld N seen given) w' /\ p ∈ freed (w_ni w').
Proof.
  intros (pre & post & Hi)%list_elem_of_split. revert N Hi. induction pre as [|[r' p'] pre IH]; intros N Hi.
  - eexists. split; [apply (can_act do_inform); [done|done|]; cbn; by rewrite Hi|]. cbn. unfold freed, api_inform. cbn. rewrite !omap_app, !elem_of_app. right. right. by left.
  - destruct (IH (api_inform r' p' (set_informs (fun _ => pre ++ (r, p) :: post) N))) as (w' & Hc & Hp); [done|]. exists w'. split; [|done].
    eapply can_trans; [|exact Hc]. apply (can_act do_inform); [done|done|]. cbn. by rewrite Hi.
Qed.
Lemma can_msgs r p N seen given : m_inform r p ∈ msgs N -> exists w', can (MkWorld N seen given) w' /\ p ∈ freed (w_ni w').
Proof.
  intros (pre & post & Hi)%list_elem_of_split. revert N Hi. induction pre as [|m pre IH]; intros N Hi; destruct (can_todo N seen given) as (N1 & Hc1 & Ht & Hm & _); rewrite Hi in Hm.
  - set (N2 := informNiResponse r p (set_msgs (fun _ => post) N1)). destruct (can_informs r p N2 seen given) as (w' & Hc & Hp); [cbn; apply elem_of_app; right; by left|].
    exists w'. split; [|done]. eapply can_trans; [exact Hc1|]. eapply can_trans; [|exact Hc]. apply (can_act (do_take (MkSettings false 0 0 0 0 0 false) true)); [done|done|]. cbn. by rewrite Ht, Hm.
  - set (conf := MkSettings false 0 0 0 0 0 false). destruct (IH (proc conf true m (set_msgs (fun _ => pre ++ m_inform r p :: post) N1))) as (w' & Hc & Hp); [by rewrite proc_msgs|].
    exists w'. split; [|done]. eapply can_trans; [exact Hc1|]. eapply can_trans; [|exact Hc]. apply (can_act (do_take conf true)); [done|done|]. cbn. by rewrite Ht, Hm.
Qed.
Lemma can_thread i timed es phase phase' N N' seen given : threads N !! i = Some (es, phase) -> niThreadProc timed es phase N = Some (Some phase', N') -> threads N' = threads N ->
  let N'' := set_threads (<[i := (es, phase')]>) N' in can (MkWorld N seen given) (MkWorld N'' seen given) /\ threads N'' !! i = Some (es, phase').
Proof.
  intros Hi H Ht. split.
  - apply (can_act (do_thread i timed)); [done|done|]. cbn. rewrite Hi. cbn. by rewrite H.
  - cbn. rewrite Ht. apply list_lookup_insert_eq. by eapply lookup_lt_Some.
Qed.
Lemma can_end i es r p N seen given : threads N !! i = Some (es, clears_time (Some (r, p))) -> exists w', can (MkWorld N seen given) w' /\ p ∈ freed (w_ni w').
Proof.
  intros Hi. destruct (can_thread i false es _ (clears_id (Some (r, p))) N _ seen given Hi eq_refl eq_refl) as [H1 Hi1]. set (N1 := set_threads _ _) in H1.
  destruct (can_thread i false es _ (sends (Some (r, p))) N1 _ seen given Hi1 eq_refl eq_refl) as [H2 Hi2]. set (N2 := set_threads _ _) in H2.
  set (N3 := set_threads (delete i) (set_msgs (fun l => l ++ [m_inform r p]) N2)). destruct (can_msgs r p N3 seen given) as (w' & Hc & Hp); [cbn; apply elem_of_app; right; by left|].
  exists w'. split; [|done]. eapply can_trans; [exact H1|]. eapply can_trans; [exact H2|]. eapply can_trans; [|exact Hc].
  apply (can_act (do_thread i false)); [done|done|]. cbn [act w_ni]. change (threads N2 !! i = Some (es, sends (Some (r, p)))) in Hi2. rewrite Hi2. done.
Qed.
(** The thread ends the session, however it got there. *)
Lemma can_finish i timed es r phase p N seen given : threads N !! i = Some (es, phase) -> rawRequest (sessions N es) = Some p ->
  niThreadProc timed es phase N = Some (let '(phase, N') := finish es r N in (Some phase, N')) -> exists w', can (MkWorld N seen given) w' /\ p ∈ freed (w_ni w').
Proof.
  intros Hi Hp H. unfold finish in H. rewrite Hp in H. destruct (negb (r =? GNSS_NI_RESPONSE_IGNORE)).
  - destruct (can_thread i timed es phase _ N _ seen given Hi H eq_refl) as [H1 Hi1]. destruct (can_end i es r p _ seen given Hi1) as (w' & Hc & Hf).
    exists w'. split; [|done]. by eapply can_trans.
  - destruct (can_thread i timed es phase _ N _ seen given Hi H eq_refl) as [H1 Hi1]. eexists. split; [exact H1|]. cbn. unfold freed. cbn. rewrite omap_app. apply elem_of_app. right. by left.
Qed.
Lemma count_found es l : (0 < count es l)%nat -> exists i t, l !! i = Some t /\ live es t = true.
Proof.
  induction l as [|t l IH]; [unfold count; cbn; lia|]. rewrite count_cons. destruct (live es t) eqn:E; [by exists 0%nat, t|]. intros Hl. destruct IH as (i & t' & Hi & Ht); [lia|]. by exists (S i), t'.
Qed.
Lemma request_ends N seen given es p : served N -> rawRequest (sessions N es) = Some p -> exists w', can (MkWorld N seen given) w' /\ p ∈ freed (w_ni w').
Proof.
  intros Hs Hp. pose proof (Hs es) as Hc. rewrite Hp in Hc. destruct (count_found es (threads N)) as (i & [b phase] & Hi & Hl); [lia|].
  unfold live in Hl. cbn in Hl. apply andb_true_iff in Hl as [->%Bool.eqb_prop Hl].
  (* a thread that waits ends when its time has come *)
  assert (Hwait : forall t N, threads N !! i = Some (es, waits t) -> rawRequest (sessions N es) = Some p -> exists w', can (MkWorld N seen given) w' /\ p ∈ freed (w_ni w')).
  { clear -i. intros t N Hi Hp. set (N1 := set_now (now N + Z.of_N (Z.to_N (t - now N))) N). destruct (can_finish i true es GNSS_NI_RESPONSE_NO_RESPONSE (waits t) p N1 seen given) as (w' & Hc & Hf); [done|done| |].
    - cbn [niThreadProc]. assert (t <=? now N1 = true) as -> by (cbn; apply Z.leb_le; lia). done.
    - exists w'. split; [|done]. eapply can_trans; [|exact Hc]. by apply (can_act (do_time (Z.to_N (t - now N)))). }
  destruct phase as [|t|a|a|a]; try done; [|by eapply Hwait]. destruct (respRecvd (sessions N es)) eqn:Er.
  - eapply (can_finish i false es (resp (sessions N es)) starts p N); [done|done|]. cbn [niThreadProc]. by rewrite Er.
  - destruct (can_thread i false es starts (waits (now N + respTimeLeft (sessions N es))) N N seen given Hi) as [H1 Hi1]; [cbn [niThreadProc]; by rewrite Er|done|].
    destruct (Hwait _ _ Hi1 Hp) as (w' & Hc' & Hf). exists w'. split; [|done]. by eapply can_trans.
Qed.

(** ** Whose response it is *)
Definition asked (ev : list Event) (p id : Z) : Prop := exists client, e_asked client id p ∈ ev.
Definition never (ev : list Event) (p : Z) : Prop := forall id, ~ asked ev p id.
(** Nobody answered, or it is for an emergency request, or a client said so of this request. *)
Definition good (given : list (Z * Z * Z)) (ev : list Event) (p r : Z) : Prop :=
  r = GNSS_NI_RESPONSE_NO_RESPONSE \/ r = GNSS_NI_RESPONSE_IGNORE \/ exists client id, (client, id, r) ∈ given /\ asked ev p id.
(** A response is stored for the request that it was found for, and identifiers of responses are not zero. *)
Definition timely (a : Action) (w : World) : bool :=
  match a with
  | do_todo_next => match todo (w_ni w) with store_response es _ found :: _ => bool_decide (rawRequest (sessions (w_ni w) es) = Some found) | _ => true end
  | do_response _ id _ => negb (id =? 0)
  | _ => true
  end.
Section answers.
Context (seen : list Z) (given : list (Z * Z * Z)) (ev : list Event).
Definition session_ok (s : NiSession) : Prop :=
  match rawRequest s with
  | None => respRecvd s = false
  | Some p => (reqID s = 0 \/ asked ev p (reqID s)) /\ (respRecvd s = true -> good given ev p (resp s))
  end.
Definition answer_ok (a : Z * Z) : Prop := good given ev a.2 a.1.
Definition thread_ok (t : bool * Phase) : Prop :=
  match t.2 with clears_time (Some a) | clears_id (Some a) | sends (Some a) => answer_ok a | _ => True end.
Definition todo_ok (t : Todo) : Prop := match t with store_response _ r p => good given ev p r | _ => True end.
Definition inform_ok (a : Z * Z) : Prop := answer_ok a \/ never ev a.2.
Definition msg_ok (m : Msg) : Prop :=
  match m with m_notify _ p _ => never ev p | m_response client id r => (client, id, r) ∈ given /\ id <> 0 | m_inform r p => inform_ok (r, p) end.
Definition event_ok (e : Event) : Prop := match e with e_modem r p => inform_ok (r, p) /\ r <> GNSS_NI_RESPONSE_IGNORE | e_asked _ _ p => p ∈ seen | _ => True end.
End answers.
Record answers (w : World) : Prop := {
  an_sessions es : session_ok (w_given w) (events (w_ni w)) (sessions (w_ni w) es);
  an_threads : Forall (thread_ok (w_given w) (events (w_ni w))) (threads (w_ni w));
  an_todo : Forall (todo_ok (w_given w) (events (w_ni w))) (todo (w_ni w));
  an_informs : Forall (inform_ok (w_given w) (events (w_ni w))) (informs (w_ni w));
  an_msgs : Forall (msg_ok (w_given w) (events (w_ni w))) (msgs (w_ni w));
  an_events : Forall (event_ok (w_seen w) (w_given w) (events (w_ni w))) (events (w_ni w));
  an_payloads : payloads_ok w;
  an_told : told_modem (w_ni w) `sublist_of` freed (w_ni w);
}.

(** More responses, and more requests that clients are asked about: those of [new]. *)
Section more.
Context (seen seen' : list Z) (given given' : list (Z * Z * Z)) (ev ev' : list Event) (new : Z -> Prop).
Context (Hseen : seen ⊆ seen') (Hgiven : given ⊆ given') (Hev : forall p id, asked ev p id -> asked ev' p id) (Hnew : forall p id, asked ev' p id -> asked ev p id \/ new p).
Lemma good_more p r : good given ev p r -> good given' ev' p r.
Proof. intros [->|[->|(c & id & H1 & H2)]]; [by left|by right; left|]. right. right. exists c, id. auto. Qed.
Lemma session_more s : session_ok given ev s -> session_ok given' ev' s.
Proof. unfold session_ok. destruct (rawRequest s); [|done]. intros [[H|H] Hr]; (split; [auto|]); intros Hs; by apply good_more, Hr. Qed.
Lemma thread_more t : thread_ok given ev t -> thread_ok given' ev' t.
Proof. unfold thread_ok. repeat case_match; try done; apply good_more. Qed.
Lemma todo_more t : todo_ok given ev t -> todo_ok given' ev' t.
Proof. destruct t; [apply good_more|done]. Qed.
Lemma inform_more a : ~ new a.2 -> inform_ok given ev a -> inform_ok given' ev' a.
Proof. intros Hn [H|H]; [left; by apply good_more|right]. intros id [Ha|Ha]%Hnew; [by apply (H id)|done]. Qed.
Lemma msg_more m : (forall p, msg_payload m = Some p -> ~ new p) -> msg_ok given ev m -> msg_ok given' ev' m.
Proof.
  destruct m as [n p e|c id r|r p]; cbn; intros Hp H.
  - intros id [Ha|Ha]%Hnew; [by apply (H id)|by apply (Hp p)].
  - destruct H as [H1 H2]. split; [by apply Hgiven|done].
  - by apply inform_more; [apply Hp|].
Qed.
Lemma event_more e : (forall r p, e = e_modem r p -> ~ new p) -> event_ok seen given ev e -> event_ok seen' given' ev' e.
Proof. destruct e as [c id p| |r p|]; cbn; intros Hp H; [by apply Hseen|done| |done]. destruct H as [H Hne]. split; [|done]. apply inform_more; [by eapply Hp|done]. Qed.
End more.

(** Nothing but what the state says of the payloads is known of a request that is new. *)
Lemma held_msg m N : m ∈ msgs N -> forall p, msg_payload m = Some p -> p ∈ held N.
Proof. intros Hm p Hp. unfold held. apply elem_of_app. left. apply list_elem_of_omap. by exists m. Qed.
Lemma held_inform a N : a ∈ informs N -> a.2 ∈ held N.
Proof. intros Ha. unfold held. rewrite !elem_of_app. do 4 right. by apply list_elem_of_fmap_2. Qed.
Lemma told_place r p N : told_modem N `sublist_of` freed N -> e_modem r p ∈ events N -> p ∈ places N.
Proof. intros Hs He. unfold places. apply elem_of_app. right. eapply elem_of_sublist; [|exact Hs]. unfold told_modem. apply list_elem_of_omap. by exists (e_modem r p). Qed.

(** The pieces of [answers] that an action changes, when clients are not asked. *)
Definition calm (N N' : Ni) : Prop := forall p id, asked (events N') p id <-> asked (events N) p id.
Lemma asked_app ev l p id : Forall (fun e => match e with e_asked _ _ _ => False | _ => True end) l -> asked (ev ++ l) p id <-> asked ev p id.
Proof.
  intros Hl. split; intros (c & H).
  - apply elem_of_app in H as [H|H]; [by exists c|]. rewrite Forall_forall in Hl. by destruct (Hl _ H).
  - exists c. apply elem_of_app. by left.
Qed.
Lemma answers_calm N N' seen seen' given given' : answers (MkWorld N seen given) -> payloads_ok (MkWorld N' seen' given') -> told_modem N' `sublist_of` freed N' ->
  seen ⊆ seen' -> given ⊆ given' -> calm N N' ->
  (forall es, session_ok given' (events N') (sessions N es) -> session_ok given' (events N') (sessions N' es)) ->
  (Forall (thread_ok given' (events N')) (threads N) -> Forall (thread_ok given' (events N')) (threads N')) ->
  (Forall (todo_ok given' (events N')) (todo N) -> Forall (todo_ok given' (events N')) (todo N')) ->
  (Forall (inform_ok given' (events N')) (informs N) -> Forall (inform_ok given' (events N')) (informs N')) ->
  (Forall (msg_ok given' (events N')) (msgs N) -> Forall (msg_ok given' (events N')) (msgs N')) ->
  (Forall (event_ok seen' given' (events N')) (events N) -> Forall (event_ok seen' given' (events N')) (events N')) ->
  answers (MkWorld N' seen' given').
Proof.
  intros [H1 H2 H3 H4 H5 H6 H7 H8] Hp Ht Hseen Hgiven Hc G1 G2 G3 G4 G5 G6. cbn in *.
  assert (Hev : forall p id, asked (events N) p id -> asked (events N') p id) by (intros p id; apply Hc).
  assert (Hnew : forall p id, asked (events N') p id -> asked (events N) p id \/ False) by (intros p id Ha; left; by apply Hc).
  split; cbn; [intros es; apply G1|apply G2|apply G3|apply G4|apply G5|apply G6|done|done].
  - by eapply session_more.
  - eapply Forall_impl; [exact H2|]. intros t. by eapply thread_more.
  - eapply Forall_impl; [exact H3|]. intros t. by eapply todo_more.
  - eapply Forall_impl; [exact H4|]. intros a. apply (inform_more _ _ _ _ (fun _ => False) Hgiven Hev Hnew). by intros [].
  - eapply Forall_impl; [exact H5|]. intros m. apply (msg_more _ _ _ _ (fun _ => False) Hgiven Hev Hnew). by intros p _ [].
  - eapply Forall_impl; [exact H6|]. intros e. apply (event_more _ _ _ _ _ _ (fun _ => False) Hseen Hgiven Hev Hnew). by intros r p _ [].
Qed.
Lemma answers_start created es client notify p e ms N seen given : answers (MkWorld N seen given) -> msgs N = m_notify notify p e :: ms -> rawRequest (sessions N es) = None ->
  let N' := start_session created es client notify p (set_msgs (fun _ => ms) N) in payloads_ok (MkWorld N' seen given) -> told_modem N' `sublist_of` freed N' -> answers (MkWorld N' seen given).
Proof.
  intros [H1 H2 H3 H4 H5 H6 [Hnd Hin] H8] Hm Hr N' Hp Ht. cbn in *.
  assert (Hplaces : places N ≡ₚ p :: places (set_msgs (fun _ => ms) N)) by (unfold places, held; cbn; by rewrite Hm).
  rewrite Hplaces in Hnd. apply NoDup_cons in Hnd as [Hfresh _].
  assert (Hheld : p ∉ held (set_msgs (fun _ => ms) N)) by (intros Hh; apply Hfresh; unfold places; apply elem_of_app; by left).
  set (id := u32 (reqIDCounter N + 1)). assert (Hevents : events N' = events N ++ [e_asked client id p]) by done.
  assert (Hev : forall q i, asked (events N) q i -> asked (events N') q i) by (intros q i (c & Hc); exists c; rewrite Hevents; apply elem_of_app; by left).
  assert (Hnew : forall q i, asked (events N') q i -> asked (events N) q i \/ q = p).
  { intros q i (c & Hc). rewrite Hevents in Hc. apply elem_of_app in Hc as [Hc|[= -> -> ->]%list_elem_of_singleton]; [left; by exists c|by right]. }
  rewrite Hm in H5. apply Forall_cons in H5 as [_ H5]. split; cbn [w_ni w_seen w_given]; [| | | | | |done|done].
  - intros b. cbn. destruct (Bool.eqb_spec b es) as [->|Hne]; [|by eapply session_more]. specialize (H1 es). unfold session_ok in *. rewrite Hr in H1. cbn. rewrite H1.
    split; [right|done]. exists client. apply elem_of_app. right. by left.
  - assert (Forall (thread_ok given (events N')) (threads N)) as Hth by (eapply Forall_impl; [exact H2|]; intros t; by eapply thread_more).
    cbn. destruct created; [apply Forall_app; split; [done|by apply Forall_singleton]|done].
  - eapply Forall_impl; [exact H3|]. intros t. by eapply todo_more.
  - apply Forall_forall. intros a Ha. apply (inform_more _ _ _ _ _ (reflexivity given) Hev Hnew); [|by rewrite Forall_forall in H4; apply H4].
    intros Heq. apply Hheld. rewrite <- Heq. by apply (held_inform a (set_msgs (fun _ => ms) N)).
  - apply Forall_forall. intros m Hi. apply (msg_more _ _ _ _ _ (reflexivity given) Hev Hnew); [|by rewrite Forall_forall in H5; apply H5].
    intros q Hq ->. apply Hheld. by apply (held_msg m (set_msgs (fun _ => ms) N)).
  - rewrite Hevents at 2. apply Forall_app. split.
    + apply Forall_forall. intros x Hx. apply (event_more _ _ _ _ _ _ _ (reflexivity seen) (reflexivity given) Hev Hnew); [|by rewrite Forall_forall in H6; apply H6].
      intros r q -> ->. apply Hfresh. apply (told_place r p (set_msgs (fun _ => ms) N)); [exact H8|exact Hx].
    + apply Forall_singleton. cbn. apply Hin. rewrite Hplaces. by left.
Qed.
Lemma calm_emit l N N' : events N' = events N ++ l -> Forall (fun e => match e with e_asked _ _ _ => False | _ => True end) l -> calm N N'.
Proof. intros He Hl p id. rewrite He. by apply asked_app. Qed.
Lemma calm_same N N' : events N' = events N -> calm N N'.
Proof. intros He p id. by rewrite He. Qed.
Lemma ignore_ok given ev N : Forall (todo_ok given ev) (ignore_session N).
Proof. unfold ignore_session. destruct (rawRequest _); [|constructor]. apply Forall_singleton. right. by left. Qed.
Lemma response_todo_ok given ev client id r N : (forall es, session_ok given ev (sessions N es)) -> (client, id, r) ∈ given -> id <> 0 -> Forall (todo_ok given ev) (proc_response client id r N).
Proof.
  intros Hs Hg Hid. assert (Hfound : forall es p, match rawRequest (sessions N es) with Some p => if reqID (sessions N es) =? id then Some p else None | None => None end = Some p -> good given ev p r).
  { intros es p. specialize (Hs es). unfold session_ok in Hs. destruct (rawRequest (sessions N es)) as [q|]; [|done]. destruct (Z.eqb_spec (reqID (sessions N es)) id) as [He|]; [|done].
    intros [= ->]. destruct Hs as [[Hz|Ha] _]; [congruence|]. right. right. exists client, id. split; [done|by rewrite <- He]. }
  unfold proc_response. destruct (negb _); [by apply Forall_singleton|]. pose proof (Hfound true) as Ht. pose proof (Hfound false) as Hf.
  destruct (match rawRequest (sessions N true) with Some _ => _ | None => _ end) as [p|].
  - apply Forall_app. split; [destruct (r =? GNSS_NI_RESPONSE_ACCEPT); [apply ignore_ok|constructor]|]. apply Forall_cons. split; [by apply Ht|by apply Forall_singleton].
  - destruct (match rawRequest (sessions N false) with Some _ => _ | None => _ end) as [p|]; [|by apply Forall_singleton]. apply Forall_cons. split; [by apply Hf|by apply Forall_singleton].
Qed.
Lemma answers_notify conf created notify p e ms N seen given : answers (MkWorld N seen given) -> msgs N = m_notify notify p e :: ms -> todo N = [] ->
  let N' := proc_notify conf created notify p e (set_msgs (fun _ => ms) N) in payloads_ok (MkWorld N' seen given) -> told_modem N' `sublist_of` freed N' -> answers (MkWorld N' seen given).
Proof.
  intros Ha Hm Htodo. set (N1 := set_msgs (fun _ => ms) N).
  assert (Hnever : never (events N) p) by (pose proof (an_msgs _ Ha) as H; cbn in H; rewrite Hm in H; by apply Forall_cons in H as [H _]).
  assert (Hpop : Forall (msg_ok given (events N)) (msgs N) -> Forall (msg_ok given (events N)) ms) by (rewrite Hm; intros H; by apply Forall_cons in H as [_ H]).
  assert (Hinform : forall r l, Forall (todo_ok given (events N)) l -> let N' := set_todo l (informNiResponse r p N1) in
    payloads_ok (MkWorld N' seen given) -> told_modem N' `sublist_of` freed N' -> answers (MkWorld N' seen given)).
  { intros r l Hl N' Hp Ht. apply (answers_calm N N' seen seen given given Ha Hp Ht); try done.
    intros H. apply Forall_app. split; [exact H|]. apply Forall_singleton. by right. }
  assert (Hrequest : forall accept, let N' := requestNiNotify created notify p accept N1 in
    payloads_ok (MkWorld N' seen given) -> told_modem N' `sublist_of` freed N' -> answers (MkWorld N' seen given)).
  { intros accept. cbn zeta. unfold requestNiNotify. destruct (first_ni_client N1) as [client|].
    - assert (forall es, payloads_ok (MkWorld (start_session created es client notify p N1) seen given) -> told_modem (start_session created es client notify p N1) `sublist_of` freed (start_session created es client notify p N1) ->
        rawRequest (sessions N es) = None -> answers (MkWorld (start_session created es client notify p N1) seen given)) as Hstart by (intros es H1 H2 H3; by apply (answers_start created es client notify p e ms N seen given)).
      assert (Hfree : payloads_ok (MkWorld (emit [e_free p] N1) seen given) -> told_modem (emit [e_free p] N1) `sublist_of` freed (emit [e_free p] N1) -> answers (MkWorld (emit [e_free p] N1) seen given)).
      { intros Hp Ht. assert (Hc : calm N (emit [e_free p] N1)) by (eapply calm_emit; [reflexivity|]; by apply Forall_singleton).
        eapply (answers_calm N _ seen seen given given Ha Hp Ht); try done.
        - cbn. rewrite Hm. intros H. by apply Forall_cons in H as [_ H].
        - intros H. cbn [events emit]. apply Forall_app. split; [exact H|]. by apply Forall_singleton. }
      destruct (n_type notify =? GNSS_NI_TYPE_EMERGENCY_SUPL).
      + case_bool_decide as Hb; [done|]. intros; apply Hstart; [done..|]. by apply eq_None_not_Some.
      + destruct (bool_decide _ || bool_decide _) eqn:Hb; [done|]. apply orb_false_iff in Hb as [Hb%bool_decide_eq_false _]. intros; apply Hstart; [done..|]. by apply eq_None_not_Some.
    - destruct (_ && accept); [apply Hinform, ignore_ok|]. intros Hp Ht. by apply (answers_calm N N1 seen seen given given Ha Hp Ht). }
  cbn zeta. unfold proc_notify. assert (Hin : forall r, payloads_ok (MkWorld (informNiResponse r p N1) seen given) -> told_modem (informNiResponse r p N1) `sublist_of` freed (informNiResponse r p N1) ->
    answers (MkWorld (informNiResponse r p N1) seen given)).
  { intros r. specialize (Hinform r [] (Forall_nil_2 _)). assert (set_todo [] (informNiResponse r p N1) = informNiResponse r p N1) as E by (unfold set_todo, informNiResponse, set_informs; cbn; by rewrite Htodo). by rewrite E in Hinform. }
  repeat case_match; first [apply Hin|apply Hrequest].
Qed.

(** What a step of a thread leaves of a session. *)
Lemma answers_finish i es r phase N phase' N' seen given : answers (MkWorld N seen given) -> threads N !! i = Some (es, phase) -> finish es r N = (phase', N') ->
  (forall p, rawRequest (sessions N es) = Some p -> good given (events N) p r) ->
  let N'' := set_threads (<[i := (es, phase')]>) N' in payloads_ok (MkWorld N'' seen given) -> told_modem N'' `sublist_of` freed N'' -> answers (MkWorld N'' seen given).
Proof.
  intros Ha Hi Hf Hgood N'' Hp Ht.
  assert (Hsame : (exists l, events N' = events N ++ l /\ Forall (fun e => match e with e_free _ => True | _ => False end) l) /\ threads N' = threads N /\ todo N' = todo N /\ informs N' = informs N /\ msgs N' = msgs N /\
    (forall b, sessions N' b = sessions N b \/ rawRequest (sessions N' b) = None /\ respRecvd (sessions N' b) = false) /\ (forall ev, (forall p, rawRequest (sessions N es) = Some p -> good given ev p r) -> thread_ok given ev (es, phase'))).
  { assert (Hset : forall s N b, rawRequest s = None -> respRecvd s = false -> sessions (set_session es s N) b = sessions N b \/ rawRequest (sessions (set_session es s N) b) = None /\ respRecvd (sessions (set_session es s N) b) = false)
      by (intros s M b H1 H2; cbn; destruct (Bool.eqb b es); [by right|by left]).
    unfold finish in Hf. destruct (rawRequest (sessions N es)) as [p|] eqn:E; [destruct (negb _)|]; injection Hf as <- <-.
    - split; [exists []; by rewrite app_nil_r|]. do 4 (split; [done|]). split; [by intros b; apply Hset|]. intros ev H. by apply (H p).
    - split; [exists [e_free p]; by repeat constructor|]. do 4 (split; [done|]). split; [by intros b; apply (Hset _ N)|done].
    - split; [exists []; by rewrite app_nil_r|]. do 4 (split; [done|]). split; [by intros b; apply Hset|done]. }
  destruct Hsame as ((l & He & Hl) & Hth & Htodo & Hinf & Hmsg & Hsess & Hok).
  assert (Hl' : Forall (fun e => match e with e_asked _ _ _ => False | _ => True end) l) by (eapply Forall_impl; [exact Hl|]; by intros []).
  assert (Hcalm : calm N N') by by eapply calm_emit.
  apply (answers_calm N N'' seen seen given given Ha Hp Ht); try done; cbn.
  - intros b H. destruct (Hsess b) as [->|[H1 H2]]; [done|]. unfold session_ok. by rewrite H1.
  - rewrite Hth. intros H. apply Forall_insert; [done|]. apply Hok. intros p Hr. destruct (Hgood p Hr) as [->|[->|(c & id & H1 & H2)]]; [by left|by right; left|].
    right. right. exists c, id. split; [done|]. by apply Hcalm.
  - by rewrite Htodo.
  - by rewrite Hinf.
  - by rewrite Hmsg.
  - rewrite He. intros H. apply Forall_app. split; [done|]. eapply Forall_impl; [exact Hl|]. by intros [].
Qed.
Lemma answers_thread i timed es phase N phase' N' seen given : answers (MkWorld N seen given) -> threads N !! i = Some (es, phase) -> niThreadProc timed es phase N = Some (phase', N') ->
  let N'' := set_threads (fun l => match phase' with Some phase => <[i := (es, phase)]> l | None => delete i l end) N' in
  payloads_ok (MkWorld N'' seen given) -> told_modem N'' `sublist_of` freed N'' -> answers (MkWorld N'' seen given).
Proof.
  intros Ha Hi H N'' Hp Ht. assert (Hs := an_sessions _ Ha es). assert (Hth := an_threads _ Ha). cbn in Hs, Hth. rewrite Forall_forall in Hth. specialize (Hth _ (list_elem_of_lookup_2 _ _ _ Hi)).
  assert (Hfinish : forall r, (forall p, rawRequest (sessions N es) = Some p -> good given (events N) p r) ->
    (let '(phase, N1) := finish es r N in (Some phase, N1)) = (phase', N') -> answers (MkWorld N'' seen given)).
  { intros r Hg Hf. destruct (finish es r N) as [ph N1] eqn:E. injection Hf as <- <-. by eapply (answers_finish i es r phase N). }
  assert (Hgood : respRecvd (sessions N es) = true -> forall p, rawRequest (sessions N es) = Some p -> good given (events N) p (resp (sessions N es))).
  { intros Hr p Hq. unfold session_ok in Hs. rewrite Hq in Hs. by apply Hs. }
  assert (Hmove : forall phase1 N1, threads N1 = threads N -> thread_ok given (events N) (es, phase1) -> todo N1 = todo N -> informs N1 = informs N -> msgs N1 = msgs N -> events N1 = events N ->
    (forall b, session_ok given (events N) (sessions N b) -> session_ok given (events N) (sessions N1 b)) -> Some phase1 = phase' -> N1 = N' -> answers (MkWorld N'' seen given)).
  { intros phase1 N1 E1 Hok E2 E3 E4 E5 Hses <- <-. apply (answers_calm N N'' seen seen given given Ha Hp Ht); try done; try (by apply calm_same); subst N''; cbn; rewrite ?E1, ?E2, ?E3, ?E4, ?E5; try done.
    intros H1. by apply Forall_insert. }
  destruct phase as [|t|a|a|a]; cbn [niThreadProc] in H.
  - injection H as H. destruct (respRecvd _) eqn:E; [eapply Hfinish; [|done]; exact (Hgood eq_refl)|]. injection H as <- <-. eapply Hmove; [..|reflexivity|reflexivity]; done.
  - destruct timed; [destruct (t <=? now N); [|done]; injection H as H; eapply Hfinish; [|done]; intros p _; by left|]. injection H as H.
    destruct (respRecvd _) eqn:E; [eapply Hfinish; [|done]; exact (Hgood eq_refl)|]. injection H as <- <-. eapply Hmove; [..|reflexivity|reflexivity]; done.
  - injection H as <- <-. eapply Hmove; [..|reflexivity|reflexivity]; try done. intros b Hb. cbn. destruct (Bool.eqb_spec b es) as [->|]; [|done]. exact Hb.
  - injection H as <- <-. eapply Hmove; [..|reflexivity|reflexivity]; try done. intros b Hb. cbn. destruct (Bool.eqb_spec b es) as [->|]; [|done]. unfold session_ok in *. cbn. destruct (rawRequest _); [|done]. destruct Hb as [_ Hb]. split; [by left|done].
  - injection H as <- <-. destruct a as [[r p]|]; apply (answers_calm N N'' seen seen given given Ha Hp Ht); try done; try (by apply calm_same); subst N''; cbn; try (intros H; by apply Forall_delete).
    intros H. apply Forall_app. split; [done|]. apply Forall_singleton. cbn. by left.
Qed.
Lemma answers_respond client id r N seen given : id <> 0 -> answers (MkWorld N seen given) -> answers (MkWorld (set_msgs (fun l => l ++ [m_response client id r]) N) seen (given ++ [(client, id, r)])).
Proof.
  intros Hid Ha. set (N' := set_msgs _ N). assert (Hp : payloads_ok (MkWorld N' seen (given ++ [(client, id, r)]))).
  { eapply (act_payloads (do_response client id r)); [apply (an_payloads _ Ha)|done]. }
  apply (answers_calm N N' seen seen given _ Ha Hp (an_told _ Ha)); try done; [set_solver|].
  intros H. apply Forall_app. split; [done|]. apply Forall_singleton. split; [set_solver|done].
Qed.
Lemma answers_request notify p e N seen given : p ∉ seen -> answers (MkWorld N seen given) -> answers (MkWorld (set_msgs (fun l => l ++ [m_notify notify p e]) N) (seen ++ [p]) given).
Proof.
  intros Hn Ha. set (N' := set_msgs _ N). assert (Hp : payloads_ok (MkWorld N' (seen ++ [p]) given)).
  { eapply (act_payloads (do_request notify p e)); [apply (an_payloads _ Ha)|]. cbn. by rewrite bool_decide_eq_false_2. }
  assert (Hnever : never (events N) p). { intros id (c & Hc). pose proof (an_events _ Ha) as He. cbn in He. rewrite Forall_forall in He. by apply Hn, (He _ Hc). }
  apply (answers_calm N N' seen (seen ++ [p]) given given Ha Hp (an_told _ Ha)); try done; [set_solver|].
  intros H. apply Forall_app. split; [done|]. by apply Forall_singleton.
Qed.
Lemma answers_store es r p ts N seen given : answers (MkWorld N seen given) -> todo N = store_response es r p :: ts -> rawRequest (sessions N es) = Some p ->
  answers (MkWorld (do_todo (store_response es r p) (set_todo ts N)) seen given).
Proof.
  intros Ha Ht Hr. assert (Htodo := an_todo _ Ha). cbn in Htodo. rewrite Ht in Htodo. apply Forall_cons in Htodo as [Hg Htodo].
  apply (answers_calm N _ seen seen given given Ha); try done.
  - eapply (act_payloads do_todo_next); [apply (an_payloads _ Ha)|]. cbn. by rewrite Ht.
  - apply (an_told _ Ha).
  - intros b H. cbn. destruct (Bool.eqb_spec b es) as [->|]; [|done]. unfold session_ok in *. cbn. rewrite Hr in *. by destruct H.
Qed.
Lemma act_answers a w w' : answers w -> timely a w = true -> act a w = Some w' -> answers w'.
Proof.
  intros Ha Hok H. assert (Hp := act_payloads a w w' (an_payloads _ Ha) H). assert (Ht := act_told a w w' (an_told _ Ha) H).
  destruct w as [N seen given]. destruct a as [notify p e|c id r|cs|conf created| |i timed| |s]; cbn [act timely w_ni w_seen w_given] in *.
  - case_bool_decide; [done|]. injection H as <-. by apply answers_request.
  - injection H as <-. apply answers_respond; [|done]. by apply negb_true_iff, Z.eqb_neq in Hok.
  - destruct (todo N) eqn:Etodo; [|done]. injection H as <-. by apply (answers_calm N _ seen seen given given Ha Hp Ht).
  - destruct (todo N) eqn:Etodo, (msgs N) as [|m ms] eqn:Em; try done. injection H as <-. destruct m as [n p e|c id r|r p]; [by eapply answers_notify| |]; cbn [proc] in *.
    + assert (Hm := an_msgs _ Ha). cbn in Hm. rewrite Em in Hm. apply Forall_cons in Hm as [[Hg Hid] Hm].
      apply (answers_calm N _ seen seen given given Ha Hp Ht); try done. intros _. apply response_todo_ok; [|done..]. apply (an_sessions _ Ha).
    + assert (Hm := an_msgs _ Ha). cbn in Hm. rewrite Em in Hm. apply Forall_cons in Hm as [Hi Hm].
      apply (answers_calm N _ seen seen given given Ha Hp Ht); try done. intros H. apply Forall_app. split; [done|]. by apply Forall_singleton.
  - destruct (todo N) as [|[es r p|c err id] ts] eqn:Etodo; [done| |]; injection H as <-.
    + apply bool_decide_eq_true in Hok. by apply (answers_store es r p).
    + assert (Htodo := an_todo _ Ha). cbn in Htodo. rewrite Etodo in Htodo. apply Forall_cons in Htodo as [_ Htodo].
      cbn [do_todo] in *. destruct (reportResponse_emits c err id (set_todo ts N)) as (l & E & Hl). rewrite E in *.
      assert (Hl' : forall P : Event -> Prop, P (e_response c err id) -> Forall P l) by (intros P HP; destruct Hl as [-> | ->]; [constructor|by apply Forall_singleton]).
      assert (Hc : calm N (emit l (set_todo ts N))) by (eapply calm_emit; [reflexivity|]; by apply Hl').
      apply (answers_calm N _ seen seen given given Ha Hp Ht); try done.
      * intros _. eapply Forall_impl; [exact Htodo|]. intros t. eapply todo_more; [done|]. intros q i. apply Hc.
      * intros H. cbn. apply Forall_app. split; [done|]. by apply Hl'.
  - apply bind_Some in H as ([es phase] & Hi & H). apply bind_Some in H as ([phase' N'] & Hth & H). injection H as <-. by eapply answers_thread.
  - destruct (informs N) as [|[r p] l] eqn:Ei; [done|]. injection H as <-. assert (Hi := an_informs _ Ha). cbn in Hi. rewrite Ei in Hi. apply Forall_cons in Hi as [Hr Hi].
    set (N' := api_inform _ _ _) in *. set (new := (if (r =? GNSS_NI_RESPONSE_ACCEPT) || (r =? GNSS_NI_RESPONSE_DENY) || (r =? GNSS_NI_RESPONSE_NO_RESPONSE) then [e_modem r p] else []) ++ [e_free p]). assert (He : events N' = events N ++ new) by done.
    assert (Hc : calm N N') by (eapply calm_emit; [exact He|]; unfold new; destruct (_ || _ || _); repeat constructor).
    assert (Hin : forall x, inform_ok given (events N) x -> inform_ok given (events N') x).
    { intros x. apply (inform_more _ _ _ _ (fun _ => False) (reflexivity given)); [intros q i; apply Hc|intros q i Hq; left; by apply Hc|by intros []]. }
    apply (answers_calm N N' seen seen given given Ha Hp Ht); try done.
    + intros _. eapply Forall_impl; [exact Hi|done].
    + intros H. rewrite He at 2. apply Forall_app. split; [done|]. unfold new. destruct (_ || _ || _) eqn:Er; [|by apply Forall_singleton].
      constructor; [|by apply Forall_singleton]. split; [by apply Hin|]. intros ->. done.
  - injection H as <-. by apply (answers_calm N _ seen seen given given Ha Hp Ht).
Qed.

(** ** What the requests can rely on *)
Lemma reachable_payloads ok w : reachable ok w -> payloads_ok w /\ told_modem (w_ni w) `sublist_of` freed (w_ni w).
Proof.
  apply (reachable_ind _ (fun w => payloads_ok w /\ told_modem (w_ni w) `sublist_of` freed (w_ni w))); [split; [split; [constructor|by intros p []%not_elem_of_nil]|done]|].
  intros a w1 w2 [H1 H2] _ H. split; [by eapply act_payloads|by eapply act_told].
Qed.
Lemma reachable_served w : reachable created_only w -> served (w_ni w).
Proof. apply (reachable_ind _ (fun w => served (w_ni w))); [by intros []|]. intros a w1 w2 H1 H2 H. by eapply act_served. Qed.
Lemma reachable_answers w : reachable timely w -> answers w.
Proof.
  apply reachable_ind; [|intros a w1 w2 H1 H2 H; by eapply act_answers].
  split; [done|constructor..| |done]. split; [constructor|by intros p []%not_elem_of_nil].
Qed.

(** A request, the response of its client, and what is done with it. *)
Ltac found_at n := apply (list_elem_of_lookup_2 _ n); vm_compute; reflexivity.
Definition plain_settings : Settings := MkSettings false 1 0 0 0 0 false.
Definition plain_request : GnssNiNotification := MkNotification 0 0 30.
Definition asks (client payload : Z) : list Action :=
  [do_clients {[client := MkCallbacks true true]}; do_request plain_request payload LOC_IN_EMERGENCY_UNKNOWN; do_take plain_settings true; do_thread 0 false].
Definition ends_session : list Action := [do_thread 0 false; do_thread 0 false; do_thread 0 false; do_take plain_settings true; do_inform].
Definition responds (client id response : Z) : list Action := [do_response client id response; do_take plain_settings true; do_todo_next; do_todo_next].
Definition one_request : list Action := asks 5 77 ++ responds 5 1 GNSS_NI_RESPONSE_ACCEPT ++ do_thread 0 false :: ends_session.
Lemma one_request_events : (w ← run timely one_request new_world; Some (events (w_ni w))) = Some [e_asked 5 1 77; e_response 5 LOCATION_ERROR_SUCCESS 1; e_modem GNSS_NI_RESPONSE_ACCEPT 77; e_free 77].
Proof. by vm_compute. Qed.

(** C16. The payload of a request is in one place at most, a message, a session, a thread that ends or
    a response for the modem, and is freed at most once; from then on it is nowhere. The modem is told of it at
    most once, and then it is freed. A request of another kind that no client can be asked about is in no place
    and is not freed either, see [ni_gaps]. *)
Theorem payloads_once w : reachable (fun _ _ => true) w ->
  NoDup (held (w_ni w) ++ freed (w_ni w)) /\ NoDup (told_modem (w_ni w)) /\ told_modem (w_ni w) `sublist_of` freed (w_ni w).
Proof.
  intros [[Hnd _] Ht]%reachable_payloads. split; [exact Hnd|]. split; [|exact Ht].
  apply NoDup_app in Hnd as (_ & _ & Hf). by eapply sublist_NoDup.
Qed.
(** Two requests at once: the second is freed while the first is asked about. *)
Lemma payloads_once_witness : exists w,
  run (fun _ _ => true) (asks 5 77 ++ [do_request plain_request 88 LOC_IN_EMERGENCY_UNKNOWN; do_take plain_settings true]) new_world = Some w /\
  (held (w_ni w) = [77] /\ freed (w_ni w) = [88]) /\
  NoDup (held (w_ni w) ++ freed (w_ni w)) /\ NoDup (told_modem (w_ni w)) /\ told_modem (w_ni w) `sublist_of` freed (w_ni w).
Proof. eexists. split; [vm_compute; reflexivity|]. split; [by vm_compute|]. apply payloads_once.
  exists (asks 5 77 ++ [do_request plain_request 88 LOC_IN_EMERGENCY_UNKNOWN; do_take plain_settings true]). vm_compute. reflexivity.
Defined.

(** C15. As long as threads can be created, a session with a request has one thread that waits for the
    response, and, whatever clients did, the program can by itself end the request: its payload is freed, for the client
    answers or the time of the request runs out. *)
Theorem requests_end w es p : reachable created_only w -> rawRequest (sessions (w_ni w) es) = Some p ->
  count es (threads (w_ni w)) = 1%nat /\ exists w', can w w' /\ p ∈ freed (w_ni w').
Proof.
  intros Hs%reachable_served Hp. split; [by rewrite (Hs es), Hp|]. destruct w as [N seen given]. by eapply request_ends.
Qed.
Lemma requests_end_witness : exists w, run created_only (asks 5 77) new_world = Some w /\ rawRequest (sessions (w_ni w) false) = Some 77 /\
  count false (threads (w_ni w)) = 1%nat /\ exists w', can w w' /\ 77 ∈ freed (w_ni w').
Proof. eexists. split; [vm_compute; reflexivity|]. split; [reflexivity|]. apply requests_end; [|reflexivity]. exists (asks 5 77). vm_compute. reflexivity. Defined.

(** C14. When responses are stored in time, that is for the request that they were found for, and no client
    responds with the identifier zero, which no request has, what the modem is told of a request that a client
    was asked about is that nobody responded, or what a client said about that very request. [timely] is both
    conditions; [ni_gaps] has a run without either. *)
Theorem answers_are_theirs w r p asked_id : reachable timely w -> e_modem r p ∈ events (w_ni w) -> asked (events (w_ni w)) p asked_id ->
  r = GNSS_NI_RESPONSE_NO_RESPONSE \/ exists client id, (client, id, r) ∈ w_given w /\ asked (events (w_ni w)) p id.
Proof.
  intros H%reachable_answers He Ha. pose proof (an_events _ H) as Hev. rewrite Forall_forall in Hev. destruct (Hev _ He) as [[[Hr|[Hr|Hr]]|Hn] Hne]; [by left|done|by right|by destruct (Hn asked_id)].
Qed.
Lemma answers_are_theirs_witness : exists w, run timely one_request new_world = Some w /\ e_modem GNSS_NI_RESPONSE_ACCEPT 77 ∈ events (w_ni w) /\ asked (events (w_ni w)) 77 1 /\
  (GNSS_NI_RESPONSE_ACCEPT = GNSS_NI_RESPONSE_NO_RESPONSE \/ exists client id, (client, id, GNSS_NI_RESPONSE_ACCEPT) ∈ w_given w /\ asked (events (w_ni w)) 77 id).
Proof.
  eexists. split; [vm_compute; reflexivity|]. split; [found_at 2%nat|]. split; [exists 5; found_at 0%nat|].
  apply (answers_are_theirs _ _ _ 1); [exists one_request; vm_compute; reflexivity|found_at 2%nat|exists 5; found_at 0%nat].
Defined.

(** The modem is told that a request is accepted, when it comes, in an emergency only, or for an
    emergency request that nobody can be asked about. *)
Lemma notify_accepts conf created notify p e N : (GNSS_NI_RESPONSE_ACCEPT, p) ∉ informs N -> (GNSS_NI_RESPONSE_ACCEPT, p) ∈ informs (proc_notify conf created notify p e N) ->
  (e =? LOC_IN_EMERGENCY_UNKNOWN) && e911State conf || (e =? LOC_IN_EMERGENCY_SET) = true \/
  n_type notify = GNSS_NI_TYPE_EMERGENCY_SUPL /\ SUPL_ES conf = GNSS_CONFIG_SUPL_EMERGENCY_SERVICES_NO /\ first_ni_client N = None.
Proof.
  intros Hn. unfold proc_notify. set (em := _ && e911State conf || _).
  assert (Hr : forall accept, (GNSS_NI_RESPONSE_ACCEPT, p) ∈ informs (requestNiNotify created notify p accept N) -> n_type notify = GNSS_NI_TYPE_EMERGENCY_SUPL /\ accept = true /\ first_ni_client N = None).
  { intros accept. unfold requestNiNotify. destruct (first_ni_client N); [repeat case_match; done|]. destruct (Z.eqb_spec (n_type notify) GNSS_NI_TYPE_EMERGENCY_SUPL); destruct accept; done. }
  assert (Hd : (GNSS_NI_RESPONSE_ACCEPT, p) ∉ informs (informNiResponse GNSS_NI_RESPONSE_DENY p N)) by (cbn; intros [?|H%list_elem_of_singleton]%elem_of_app; done).
  destruct (_ && (NI_SUPL_DENY_ON_NFW_LOCKED conf =? 1)); [done|]. destruct em eqn:Em; [by left|].
  destruct (n_type notify =? GNSS_NI_TYPE_EMERGENCY_SUPL); [|rewrite andb_false_l; destruct (n_type notify =? GNSS_NI_TYPE_CONTROL_PLANE); intros (_ & ? & _)%Hr; done].
  destruct (Z.eqb_spec (SUPL_ES conf) GNSS_CONFIG_SUPL_EMERGENCY_SERVICES_NO); [|done]. intros (Ht & _ & Hc)%Hr. by right.
Qed.

(** ** What they cannot rely on *)
(** A response that was found for a request is stored after the time of the request ran out: it
    is the response to the next request, 88, that a client was asked about and did not respond to. *)
Definition stale_consent : list Action :=
  asks 5 77 ++ [do_response 5 1 GNSS_NI_RESPONSE_ACCEPT; do_take plain_settings true; do_time 35; do_thread 0 true; do_todo_next; do_todo_next] ++
  [do_thread 0 false; do_thread 0 false; do_thread 0 false; do_take plain_settings true; do_inform] ++
  [do_request plain_request 88 LOC_IN_EMERGENCY_UNKNOWN; do_take plain_settings true; do_thread 0 false] ++
  [do_thread 0 false; do_thread 0 false; do_thread 0 false; do_take plain_settings true; do_inform].
(** A thread sets the number of the session to zero when the next request is there: the response
    to it is not accepted. *)
Definition late_clear : list Action :=
  asks 5 77 ++ [do_time 35; do_thread 0 true; do_thread 0 false; do_request plain_request 88 LOC_IN_EMERGENCY_UNKNOWN; do_take plain_settings true; do_thread 0 false] ++
  [do_response 5 2 GNSS_NI_RESPONSE_ACCEPT; do_take plain_settings true; do_todo_next].
(** Then a response to no request at all, with the identifier zero, is the response to that one. *)
Definition zero_consent : list Action :=
  asks 5 77 ++ [do_time 35; do_thread 0 true; do_thread 0 false; do_request plain_request 88 LOC_IN_EMERGENCY_UNKNOWN; do_take plain_settings true; do_thread 0 false; do_thread 0 false] ++
  [do_take plain_settings true; do_inform] ++ responds 5 0 GNSS_NI_RESPONSE_ACCEPT ++ do_thread 0 false :: ends_session.
(** No thread was created: a session that does not end. *)
Definition no_thread : list Action := [do_clients {[5 := MkCallbacks true true]}; do_request plain_request 77 LOC_IN_EMERGENCY_UNKNOWN; do_take plain_settings false].
Theorem ni_gaps :
  (exists w, run (fun _ _ => true) stale_consent new_world = Some w /\ e_modem GNSS_NI_RESPONSE_ACCEPT 88 ∈ events (w_ni w) /\ asked (events (w_ni w)) 88 2 /\ w_given w = [(5, 1, GNSS_NI_RESPONSE_ACCEPT)]) /\
  (exists w, run timely late_clear new_world = Some w /\ rawRequest (sessions (w_ni w) false) = Some 88 /\ asked (events (w_ni w)) 88 2 /\ e_response 5 LOCATION_ERROR_ID_UNKNOWN 2 ∈ events (w_ni w)) /\
  (exists w, run (fun _ _ => true) zero_consent new_world = Some w /\ e_modem GNSS_NI_RESPONSE_ACCEPT 88 ∈ events (w_ni w) /\ asked (events (w_ni w)) 88 2 /\ w_given w = [(5, 0, GNSS_NI_RESPONSE_ACCEPT)]) /\
  (exists w, run timely no_thread new_world = Some w /\ rawRequest (sessions (w_ni w) false) = Some 77 /\ threads (w_ni w) = [] /\ msgs (w_ni w) = [] /\ todo (w_ni w) = []) /\
  (forall conf created notify p e N, first_ni_client N = None -> n_type notify <> GNSS_NI_TYPE_SUPL -> n_type notify <> GNSS_NI_TYPE_CONTROL_PLANE -> n_type notify <> GNSS_NI_TYPE_EMERGENCY_SUPL ->
     proc_notify conf created notify p e N = N).
Proof.
  split; [|split; [|split; [|split]]].
  - eexists. split; [vm_compute; reflexivity|]. split; [found_at 5%nat|]. split; [exists 5; found_at 4%nat|done].
  - eexists. split; [vm_compute; reflexivity|]. split; [done|]. split; [exists 5; found_at 1%nat|found_at 2%nat].
  - eexists. split; [vm_compute; reflexivity|]. split; [found_at 5%nat|]. split; [exists 5; found_at 1%nat|done].
  - eexists. split; [vm_compute; reflexivity|]. done.
  - intros conf created notify p e N Hc H1%Z.eqb_neq H2%Z.eqb_neq H3%Z.eqb_neq. unfold proc_notify, requestNiNotify. by rewrite Hc, H1, H2, H3, andb_false_r.
Qed.
