(* ===== verification/PbConsts.v ===== *)
(** * Constants of the location API and of its protocol

    The enumerators that the conversions of [LocationApiPbMsgConv.cpp] name: those
    of the headers, and those of the message definitions ([.proto], names that
    start with [PB_]). *)
From S2P Require Import Prelude.
#[local] Open Scope Z_scope.


(** [macros] ([LocationDataTypes.h]) *)
Definition GNSS_SV_MAX : Z := 128.
Definition GNSS_MEASUREMENTS_MAX : Z := 128.
Definition VEHICLE_SENSOR_SPEED_INPUT_DETECTED : Z := Z.shiftl 1 0.
Definition VEHICLE_SENSOR_SPEED_INPUT_USED : Z := Z.shiftl 1 1.

(** [LocationError] ([LocationDataTypes.h]) *)
Definition LOCATION_ERROR_SUCCESS : Z := 0.
Definition LOCATION_ERROR_GENERAL_FAILURE : Z := 1.
Definition LOCATION_ERROR_INVALID_PARAMETER : Z := 3.
Definition LOCATION_ERROR_NOT_SUPPORTED : Z := 8.
Definition LOCATION_ERROR_TIMEOUT : Z := 9.

(** [LocationFlagsBits] ([LocationDataTypes.h]) *)
Definition LOCATION_HAS_LAT_LONG_BIT : Z := Z.shiftl 1 0.
Definition LOCATION_HAS_ALTITUDE_BIT : Z := Z.shiftl 1 1.
Definition LOCATION_HAS_SPEED_BIT : Z := Z.shiftl 1 2.
Definition LOCATION_HAS_BEARING_BIT : Z := Z.shiftl 1 3.
Definition LOCATION_HAS_ACCURACY_BIT : Z := Z.shiftl 1 4.
Definition LOCATION_HAS_VERTICAL_ACCURACY_BIT : Z := Z.shiftl 1 5.
Definition LOCATION_HAS_SPEED_ACCURACY_BIT : Z := Z.shiftl 1 6.
Definition LOCATION_HAS_BEARING_ACCURACY_BIT : Z := Z.shiftl 1 7.

(** [LocationTechnologyBits] ([LocationDataTypes.h]) *)
Definition LOCATION_TECHNOLOGY_GNSS_BIT : Z := Z.shiftl 1 0.
Definition LOCATION_TECHNOLOGY_CELL_BIT : Z := Z.shiftl 1 1.
Definition LOCATION_TECHNOLOGY_WIFI_BIT : Z := Z.shiftl 1 2.
Definition LOCATION_TECHNOLOGY_SENSORS_BIT : Z := Z.shiftl 1 3.
Definition LOCATION_TECHNOLOGY_REFERENCE_LOCATION_BIT : Z := Z.shiftl 1 4.
Definition LOCATION_TECHNOLOGY_INJECTED_COARSE_POSITION_BIT : Z := Z.shiftl 1 5.
Definition LOCATION_TECHNOLOGY_AFLT_BIT : Z := Z.shiftl 1 6.
Definition LOCATION_TECHNOLOGY_HYBRID_BIT : Z := Z.shiftl 1 7.
Definition LOCATION_TECHNOLOGY_PPE_BIT : Z := Z.shiftl 1 8.
Definition LOCATION_TECHNOLOGY_VEH_BIT : Z := Z.shiftl 1 9.
Definition LOCATION_TECHNOLOGY_VIS_BIT : Z := Z.shiftl 1 10.

(** [LocationReliability] ([LocationDataTypes.h]) *)
Definition LOCATION_RELIABILITY_NOT_SET : Z := 0.
Definition LOCATION_RELIABILITY_VERY_LOW : Z := 1.
Definition LOCATION_RELIABILITY_LOW : Z := 2.
Definition LOCATION_RELIABILITY_MEDIUM : Z := 3.
Definition LOCATION_RELIABILITY_HIGH : Z := 4.

(** [GnssLocationNavSolutionBits] ([LocationDataTypes.h]) *)
Definition LOCATION_SBAS_CORRECTION_IONO_BIT : Z := Z.shiftl 1 0.
Definition LOCATION_SBAS_CORRECTION_FAST_BIT : Z := Z.shiftl 1 1.
Definition LOCATION_SBAS_CORRECTION_LONG_BIT : Z := Z.shiftl 1 2.
Definition LOCATION_SBAS_INTEGRITY_BIT : Z := Z.shiftl 1 3.
Definition LOCATION_NAV_CORRECTION_DGNSS_BIT : Z := Z.shiftl 1 4.
Definition LOCATION_NAV_CORRECTION_RTK_BIT : Z := Z.shiftl 1 5.
Definition LOCATION_NAV_CORRECTION_PPP_BIT : Z := Z.shiftl 1 6.
Definition LOCATION_NAV_CORRECTION_RTK_FIXED_BIT : Z := Z.shiftl 1 7.
Definition LOCATION_NAV_CORRECTION_ONLY_SBAS_CORRECTED_SV_USED_BIT : Z := Z.shiftl 1 8.

(** [GnssLocationPosDataBits] ([LocationDataTypes.h]) *)
Definition LOCATION_NAV_DATA_HAS_LONG_ACCEL_BIT : Z := Z.shiftl 1 0.
Definition LOCATION_NAV_DATA_HAS_LAT_ACCEL_BIT : Z := Z.shiftl 1 1.
Definition LOCATION_NAV_DATA_HAS_VERT_ACCEL_BIT : Z := Z.shiftl 1 2.
Definition LOCATION_NAV_DATA_HAS_YAW_RATE_BIT : Z := Z.shiftl 1 3.
Definition LOCATION_NAV_DATA_HAS_PITCH_BIT : Z := Z.shiftl 1 4.
Definition LOCATION_NAV_DATA_HAS_LONG_ACCEL_UNC_BIT : Z := Z.shiftl 1 5.
Definition LOCATION_NAV_DATA_HAS_LAT_ACCEL_UNC_BIT : Z := Z.shiftl 1 6.
Definition LOCATION_NAV_DATA_HAS_VERT_ACCEL_UNC_BIT : Z := Z.shiftl 1 7.
Definition LOCATION_NAV_DATA_HAS_YAW_RATE_UNC_BIT : Z := Z.shiftl 1 8.
Definition LOCATION_NAV_DATA_HAS_PITCH_UNC_BIT : Z := Z.shiftl 1 9.

(** [GnssLocationPosDataBitsExt] ([LocationDataTypes.h]) *)
Definition LOCATION_NAV_DATA_HAS_PITCH_RATE_BIT : Z := Z.shiftl 1 0.
Definition LOCATION_NAV_DATA_HAS_PITCH_RATE_UNC_BIT : Z := Z.shiftl 1 1.
Definition LOCATION_NAV_DATA_HAS_ROLL_BIT : Z := Z.shiftl 1 2.
Definition LOCATION_NAV_DATA_HAS_ROLL_UNC_BIT : Z := Z.shiftl 1 3.
Definition LOCATION_NAV_DATA_HAS_ROLL_RATE_BIT : Z := Z.shiftl 1 4.
Definition LOCATION_NAV_DATA_HAS_ROLL_RATE_UNC_BIT : Z := Z.shiftl 1 5.
Definition LOCATION_NAV_DATA_HAS_YAW_BIT : Z := Z.shiftl 1 6.
Definition LOCATION_NAV_DATA_HAS_YAW_UNC_BIT : Z := Z.shiftl 1 7.

(** [GnssLocationInfoFlagBits] ([LocationDataTypes.h]) *)
Definition GNSS_LOCATION_INFO_ALTITUDE_MEAN_SEA_LEVEL_BIT : Z := Z.shiftl 1 0.
Definition GNSS_LOCATION_INFO_DOP_BIT : Z := Z.shiftl 1 1.
Definition GNSS_LOCATION_INFO_MAGNETIC_DEVIATION_BIT : Z := Z.shiftl 1 2.
Definition GNSS_LOCATION_INFO_HOR_RELIABILITY_BIT : Z := Z.shiftl 1 3.
Definition GNSS_LOCATION_INFO_VER_RELIABILITY_BIT : Z := Z.shiftl 1 4.
Definition GNSS_LOCATION_INFO_HOR_ACCURACY_ELIP_SEMI_MAJOR_BIT : Z := Z.shiftl 1 5.
Definition GNSS_LOCATION_INFO_HOR_ACCURACY_ELIP_SEMI_MINOR_BIT : Z := Z.shiftl 1 6.
Definition GNSS_LOCATION_INFO_HOR_ACCURACY_ELIP_AZIMUTH_BIT : Z := Z.shiftl 1 7.
Definition GNSS_LOCATION_INFO_GNSS_SV_USED_DATA_BIT : Z := Z.shiftl 1 8.
Definition GNSS_LOCATION_INFO_NAV_SOLUTION_MASK_BIT : Z := Z.shiftl 1 9.
Definition GNSS_LOCATION_INFO_POS_DYNAMICS_DATA_BIT : Z := Z.shiftl 1 11.
Definition GNSS_LOCATION_INFO_EXT_DOP_BIT : Z := Z.shiftl 1 12.
Definition GNSS_LOCATION_INFO_NORTH_STD_DEV_BIT : Z := Z.shiftl 1 13.
Definition GNSS_LOCATION_INFO_EAST_STD_DEV_BIT : Z := Z.shiftl 1 14.
Definition GNSS_LOCATION_INFO_NORTH_VEL_BIT : Z := Z.shiftl 1 15.
Definition GNSS_LOCATION_INFO_EAST_VEL_BIT : Z := Z.shiftl 1 16.
Definition GNSS_LOCATION_INFO_UP_VEL_BIT : Z := Z.shiftl 1 17.
Definition GNSS_LOCATION_INFO_NORTH_VEL_UNC_BIT : Z := Z.shiftl 1 18.
Definition GNSS_LOCATION_INFO_EAST_VEL_UNC_BIT : Z := Z.shiftl 1 19.
Definition GNSS_LOCATION_INFO_UP_VEL_UNC_BIT : Z := Z.shiftl 1 20.
Definition GNSS_LOCATION_INFO_LEAP_SECONDS_BIT : Z := Z.shiftl 1 21.
Definition GNSS_LOCATION_INFO_TIME_UNC_BIT : Z := Z.shiftl 1 22.
Definition GNSS_LOCATION_INFO_NUM_SV_USED_IN_POSITION_BIT : Z := Z.shiftl 1 23.
Definition GNSS_LOCATION_INFO_CALIBRATION_CONFIDENCE_BIT : Z := Z.shiftl 1 24.
Definition GNSS_LOCATION_INFO_CALIBRATION_STATUS_BIT : Z := Z.shiftl 1 25.
Definition GNSS_LOCATION_INFO_OUTPUT_ENG_TYPE_BIT : Z := Z.shiftl 1 26.
Definition GNSS_LOCATION_INFO_OUTPUT_ENG_MASK_BIT : Z := Z.shiftl 1 27.
Definition GNSS_LOCATION_INFO_CONFORMITY_INDEX_BIT : Z := Z.shiftl 1 28.
Definition GNSS_LOCATION_INFO_LLA_VRP_BASED_BIT : Z := Z.shiftl 1 29.
Definition GNSS_LOCATION_INFO_ENU_VELOCITY_VRP_BASED_BIT : Z := Z.shiftl 1 30.
Definition GNSS_LOCATION_INFO_DR_SOLUTION_STATUS_MASK_BIT : Z := Z.shiftl 1 31.
Definition GNSS_LOCATION_INFO_ALTITUDE_ASSUMED_BIT : Z := Z.shiftl 1 32.
Definition GNSS_LOCATION_INFO_SESSION_STATUS_BIT : Z := Z.shiftl 1 33.

(** [GeofenceBreachTypeBits] ([LocationDataTypes.h]) *)
Definition GEOFENCE_BREACH_ENTER_BIT : Z := Z.shiftl 1 0.
Definition GEOFENCE_BREACH_EXIT_BIT : Z := Z.shiftl 1 1.
Definition GEOFENCE_BREACH_DWELL_IN_BIT : Z := Z.shiftl 1 2.
Definition GEOFENCE_BREACH_DWELL_OUT_BIT : Z := Z.shiftl 1 3.

(** [LocationCapabilitiesBits] ([LocationDataTypes.h]) *)
Definition LOCATION_CAPABILITIES_TIME_BASED_TRACKING_BIT : Z := Z.shiftl 1 0.
Definition LOCATION_CAPABILITIES_TIME_BASED_BATCHING_BIT : Z := Z.shiftl 1 1.
Definition LOCATION_CAPABILITIES_DISTANCE_BASED_TRACKING_BIT : Z := Z.shiftl 1 2.
Definition LOCATION_CAPABILITIES_DISTANCE_BASED_BATCHING_BIT : Z := Z.shiftl 1 3.
Definition LOCATION_CAPABILITIES_GEOFENCE_BIT : Z := Z.shiftl 1 4.
Definition LOCATION_CAPABILITIES_GNSS_MEASUREMENTS_BIT : Z := Z.shiftl 1 5.
Definition LOCATION_CAPABILITIES_OUTDOOR_TRIP_BATCHING_BIT : Z := Z.shiftl 1 9.
Definition LOCATION_CAPABILITIES_CONSTELLATION_ENABLEMENT_BIT : Z := Z.shiftl 1 10.
Definition LOCATION_CAPABILITIES_QWES_CARRIER_PHASE_BIT : Z := Z.shiftl 1 16.
Definition LOCATION_CAPABILITIES_QWES_SV_POLYNOMIAL_BIT : Z := Z.shiftl 1 17.
Definition LOCATION_CAPABILITIES_QWES_GNSS_SINGLE_FREQUENCY : Z := Z.shiftl 1 19.
Definition LOCATION_CAPABILITIES_QWES_GNSS_MULTI_FREQUENCY : Z := Z.shiftl 1 20.
Definition LOCATION_CAPABILITIES_QWES_VPE : Z := Z.shiftl 1 21.
Definition LOCATION_CAPABILITIES_QWES_CV2X_LOCATION_BASIC : Z := Z.shiftl 1 22.
Definition LOCATION_CAPABILITIES_QWES_CV2X_LOCATION_PREMIUM : Z := Z.shiftl 1 23.
Definition LOCATION_CAPABILITIES_QWES_PPE : Z := Z.shiftl 1 24.
Definition LOCATION_CAPABILITIES_QWES_QDR2 : Z := Z.shiftl 1 25.
Definition LOCATION_CAPABILITIES_QWES_QDR3 : Z := Z.shiftl 1 26.

(** [GnssSvType] ([LocationDataTypes.h]) *)
Definition GNSS_SV_TYPE_UNKNOWN : Z := 0.
Definition GNSS_SV_TYPE_GPS : Z := 1.
Definition GNSS_SV_TYPE_SBAS : Z := 2.
Definition GNSS_SV_TYPE_GLONASS : Z := 3.
Definition GNSS_SV_TYPE_QZSS : Z := 4.
Definition GNSS_SV_TYPE_BEIDOU : Z := 5.
Definition GNSS_SV_TYPE_GALILEO : Z := 6.
Definition GNSS_SV_TYPE_NAVIC : Z := 7.

(** [GnssSvOptionsBits] ([LocationDataTypes.h]) *)
Definition GNSS_SV_OPTIONS_HAS_EPHEMER_BIT : Z := Z.shiftl 1 0.
Definition GNSS_SV_OPTIONS_HAS_ALMANAC_BIT : Z := Z.shiftl 1 1.
Definition GNSS_SV_OPTIONS_USED_IN_FIX_BIT : Z := Z.shiftl 1 2.
Definition GNSS_SV_OPTIONS_HAS_CARRIER_FREQUENCY_BIT : Z := Z.shiftl 1 3.
Definition GNSS_SV_OPTIONS_HAS_GNSS_SIGNAL_TYPE_BIT : Z := Z.shiftl 1 4.

(** [GnssSuplMode] ([LocationDataTypes.h]) *)
Definition GNSS_SUPL_MODE_STANDALONE : Z := 0.
Definition GNSS_SUPL_MODE_MSB : Z := 1.
Definition GNSS_SUPL_MODE_MSA : Z := 2.

(** [BatchingMode] ([LocationDataTypes.h]) *)
Definition BATCHING_MODE_ROUTINE : Z := 0.
Definition BATCHING_MODE_TRIP : Z := 1.
Definition BATCHING_MODE_NO_AUTO_REPORT : Z := 2.

(** [BatchingStatus] ([LocationDataTypes.h]) *)
Definition BATCHING_STATUS_TRIP_COMPLETED : Z := 0.
Definition BATCHING_STATUS_POSITION_AVAILABE : Z := 1.
Definition BATCHING_STATUS_POSITION_UNAVAILABLE : Z := 2.

(** [GnssMeasurementsAdrStateBits] ([LocationDataTypes.h]) *)
Definition GNSS_MEASUREMENTS_ACCUMULATED_DELTA_RANGE_STATE_UNKNOWN : Z := 0.
Definition GNSS_MEASUREMENTS_ACCUMULATED_DELTA_RANGE_STATE_VALID_BIT : Z := Z.shiftl 1 0.
Definition GNSS_MEASUREMENTS_ACCUMULATED_DELTA_RANGE_STATE_RESET_BIT : Z := Z.shiftl 1 1.
Definition GNSS_MEASUREMENTS_ACCUMULATED_DELTA_RANGE_STATE_CYCLE_SLIP_BIT : Z := Z.shiftl 1 2.

(** [GnssMeasurementsDataFlagsBits] ([LocationDataTypes.h]) *)
Definition GNSS_MEASUREMENTS_DATA_SV_ID_BIT : Z := Z.shiftl 1 0.
Definition GNSS_MEASUREMENTS_DATA_SV_TYPE_BIT : Z := Z.shiftl 1 1.
Definition GNSS_MEASUREMENTS_DATA_STATE_BIT : Z := Z.shiftl 1 2.
Definition GNSS_MEASUREMENTS_DATA_RECEIVED_SV_TIME_BIT : Z := Z.shiftl 1 3.
Definition GNSS_MEASUREMENTS_DATA_RECEIVED_SV_TIME_UNCERTAINTY_BIT : Z := Z.shiftl 1 4.
Definition GNSS_MEASUREMENTS_DATA_CARRIER_TO_NOISE_BIT : Z := Z.shiftl 1 5.
Definition GNSS_MEASUREMENTS_DATA_PSEUDORANGE_RATE_BIT : Z := Z.shiftl 1 6.
Definition GNSS_MEASUREMENTS_DATA_PSEUDORANGE_RATE_UNCERTAINTY_BIT : Z := Z.shiftl 1 7.
Definition GNSS_MEASUREMENTS_DATA_ADR_STATE_BIT : Z := Z.shiftl 1 8.
Definition GNSS_MEASUREMENTS_DATA_ADR_BIT : Z := Z.shiftl 1 9.
Definition GNSS_MEASUREMENTS_DATA_ADR_UNCERTAINTY_BIT : Z := Z.shiftl 1 10.
Definition GNSS_MEASUREMENTS_DATA_CARRIER_FREQUENCY_BIT : Z := Z.shiftl 1 11.
Definition GNSS_MEASUREMENTS_DATA_CARRIER_CYCLES_BIT : Z := Z.shiftl 1 12.
Definition GNSS_MEASUREMENTS_DATA_CARRIER_PHASE_BIT : Z := Z.shiftl 1 13.
Definition GNSS_MEASUREMENTS_DATA_CARRIER_PHASE_UNCERTAINTY_BIT : Z := Z.shiftl 1 14.
Definition GNSS_MEASUREMENTS_DATA_MULTIPATH_INDICATOR_BIT : Z := Z.shiftl 1 15.
Definition GNSS_MEASUREMENTS_DATA_SIGNAL_TO_NOISE_RATIO_BIT : Z := Z.shiftl 1 16.
Definition GNSS_MEASUREMENTS_DATA_AUTOMATIC_GAIN_CONTROL_BIT : Z := Z.shiftl 1 17.
Definition GNSS_MEASUREMENTS_DATA_FULL_ISB_BIT : Z := Z.shiftl 1 18.
Definition GNSS_MEASUREMENTS_DATA_FULL_ISB_UNCERTAINTY_BIT : Z := Z.shiftl 1 19.
Definition GNSS_MEASUREMENTS_DATA_CYCLE_SLIP_COUNT_BIT : Z := Z.shiftl 1 22.

(** [GnssMeasurementsStateBits] ([LocationDataTypes.h]) *)
Definition GNSS_MEASUREMENTS_STATE_UNKNOWN_BIT : Z := 0.
Definition GNSS_MEASUREMENTS_STATE_CODE_LOCK_BIT : Z := Z.shiftl 1 0.
Definition GNSS_MEASUREMENTS_STATE_BIT_SYNC_BIT : Z := Z.shiftl 1 1.
Definition GNSS_MEASUREMENTS_STATE_SUBFRAME_SYNC_BIT : Z := Z.shiftl 1 2.
Definition GNSS_MEASUREMENTS_STATE_TOW_DECODED_BIT : Z := Z.shiftl 1 3.
Definition GNSS_MEASUREMENTS_STATE_MSEC_AMBIGUOUS_BIT : Z := Z.shiftl 1 4.
Definition GNSS_MEASUREMENTS_STATE_SYMBOL_SYNC_BIT : Z := Z.shiftl 1 5.
Definition GNSS_MEASUREMENTS_STATE_GLO_STRING_SYNC_BIT : Z := Z.shiftl 1 6.
Definition GNSS_MEASUREMENTS_STATE_GLO_TOD_DECODED_BIT : Z := Z.shiftl 1 7.
Definition GNSS_MEASUREMENTS_STATE_BDS_D2_BIT_SYNC_BIT : Z := Z.shiftl 1 8.
Definition GNSS_MEASUREMENTS_STATE_BDS_D2_SUBFRAME_SYNC_BIT : Z := Z.shiftl 1 9.
Definition GNSS_MEASUREMENTS_STATE_GAL_E1BC_CODE_LOCK_BIT : Z := Z.shiftl 1 10.
Definition GNSS_MEASUREMENTS_STATE_GAL_E1C_2ND_CODE_LOCK_BIT : Z := Z.shiftl 1 11.
Definition GNSS_MEASUREMENTS_STATE_GAL_E1B_PAGE_SYNC_BIT : Z := Z.shiftl 1 12.
Definition GNSS_MEASUREMENTS_STATE_SBAS_SYNC_BIT : Z := Z.shiftl 1 13.

(** [GnssMeasurementsMultipathIndicator] ([LocationDataTypes.h]) *)
Definition GNSS_MEASUREMENTS_MULTIPATH_INDICATOR_UNKNOWN : Z := 0.
Definition GNSS_MEASUREMENTS_MULTIPATH_INDICATOR_PRESENT : Z := 1.
Definition GNSS_MEASUREMENTS_MULTIPATH_INDICATOR_NOT_PRESENT : Z := 2.

(** [GnssMeasurementsClockFlagsBits] ([LocationDataTypes.h]) *)
Definition GNSS_MEASUREMENTS_CLOCK_FLAGS_LEAP_SECOND_BIT : Z := Z.shiftl 1 0.
Definition GNSS_MEASUREMENTS_CLOCK_FLAGS_TIME_BIT : Z := Z.shiftl 1 1.
Definition GNSS_MEASUREMENTS_CLOCK_FLAGS_TIME_UNCERTAINTY_BIT : Z := Z.shiftl 1 2.
Definition GNSS_MEASUREMENTS_CLOCK_FLAGS_FULL_BIAS_BIT : Z := Z.shiftl 1 3.
Definition GNSS_MEASUREMENTS_CLOCK_FLAGS_BIAS_BIT : Z := Z.shiftl 1 4.
Definition GNSS_MEASUREMENTS_CLOCK_FLAGS_BIAS_UNCERTAINTY_BIT : Z := Z.shiftl 1 5.
Definition GNSS_MEASUREMENTS_CLOCK_FLAGS_DRIFT_BIT : Z := Z.shiftl 1 6.
Definition GNSS_MEASUREMENTS_CLOCK_FLAGS_DRIFT_UNCERTAINTY_BIT : Z := Z.shiftl 1 7.
Definition GNSS_MEASUREMENTS_CLOCK_FLAGS_HW_CLOCK_DISCONTINUITY_COUNT_BIT : Z := Z.shiftl 1 8.

(** [GnssAidingDataSvBits] ([LocationDataTypes.h]) *)
Definition GNSS_AIDING_DATA_SV_EPHEMERIS_BIT : Z := Z.shiftl 1 0.

(** [GnssSignalTypeBits] ([LocationDataTypes.h]) *)
Definition GNSS_SIGNAL_GPS_L1CA : Z := Z.shiftl 1 0.
Definition GNSS_SIGNAL_GPS_L1C : Z := Z.shiftl 1 1.
Definition GNSS_SIGNAL_GPS_L2 : Z := Z.shiftl 1 2.
Definition GNSS_SIGNAL_GPS_L5 : Z := Z.shiftl 1 3.
Definition GNSS_SIGNAL_GLONASS_G1 : Z := Z.shiftl 1 4.
Definition GNSS_SIGNAL_GLONASS_G2 : Z := Z.shiftl 1 5.
Definition GNSS_SIGNAL_GALILEO_E1 : Z := Z.shiftl 1 6.
Definition GNSS_SIGNAL_GALILEO_E5A : Z := Z.shiftl 1 7.
Definition GNSS_SIGNAL_GALILEO_E5B : Z := Z.shiftl 1 8.
Definition GNSS_SIGNAL_BEIDOU_B1 : Z := Z.shiftl 1 9.
Definition GNSS_SIGNAL_BEIDOU_B2 : Z := Z.shiftl 1 10.
Definition GNSS_SIGNAL_QZSS_L1CA : Z := Z.shiftl 1 11.
Definition GNSS_SIGNAL_QZSS_L1S : Z := Z.shiftl 1 12.
Definition GNSS_SIGNAL_QZSS_L2 : Z := Z.shiftl 1 13.
Definition GNSS_SIGNAL_QZSS_L5 : Z := Z.shiftl 1 14.
Definition GNSS_SIGNAL_SBAS_L1 : Z := Z.shiftl 1 15.
Definition GNSS_SIGNAL_BEIDOU_B1I : Z := Z.shiftl 1 16.
Definition GNSS_SIGNAL_BEIDOU_B1C : Z := Z.shiftl 1 17.
Definition GNSS_SIGNAL_BEIDOU_B2I : Z := Z.shiftl 1 18.
Definition GNSS_SIGNAL_BEIDOU_B2AI : Z := Z.shiftl 1 19.
Definition GNSS_SIGNAL_NAVIC_L5 : Z := Z.shiftl 1 20.
Definition GNSS_SIGNAL_BEIDOU_B2AQ : Z := Z.shiftl 1 21.

(** [Gnss_LocSvSystemEnumType] ([LocationDataTypes.h]) *)
Definition GNSS_LOC_SV_SYSTEM_UNKNOWN : Z := 0.
Definition GNSS_LOC_SV_SYSTEM_GPS : Z := 1.
Definition GNSS_LOC_SV_SYSTEM_GALILEO : Z := 2.
Definition GNSS_LOC_SV_SYSTEM_SBAS : Z := 3.
Definition GNSS_LOC_SV_SYSTEM_GLONASS : Z := 4.
Definition GNSS_LOC_SV_SYSTEM_BDS : Z := 5.
Definition GNSS_LOC_SV_SYSTEM_QZSS : Z := 6.
Definition GNSS_LOC_SV_SYSTEM_NAVIC : Z := 7.

(** [Gnss_LocSignalEnumType] ([LocationDataTypes.h]) *)
Definition GNSS_LOC_MAX_NUMBER_OF_SIGNAL_TYPES : Z := 20.

(** [PositioningEngineBits] ([LocationDataTypes.h]) *)
Definition STANDARD_POSITIONING_ENGINE : Z := Z.shiftl 1 0.
Definition DEAD_RECKONING_ENGINE : Z := Z.shiftl 1 1.
Definition PRECISE_POSITIONING_ENGINE : Z := Z.shiftl 1 2.

(** [LocEngineRunState] ([LocationDataTypes.h]) *)
Definition LOC_ENGINE_RUN_STATE_PAUSE : Z := 1.
Definition LOC_ENGINE_RUN_STATE_RESUME : Z := 2.

(** [GnssDataBits] ([LocationDataTypes.h]) *)
Definition GNSS_LOC_DATA_JAMMER_IND_BIT : Z := Z.shiftl 1 0.
Definition GNSS_LOC_DATA_AGC_BIT : Z := Z.shiftl 1 1.

(** [GnssSystemTimeTypeBits] ([LocationDataTypes.h]) *)
Definition GNSS_SYSTEM_TIME_WEEK_VALID : Z := Z.shiftl 1 0.
Definition GNSS_SYSTEM_TIME_WEEK_MS_VALID : Z := Z.shiftl 1 1.
Definition GNSS_SYSTEM_CLK_TIME_BIAS_VALID : Z := Z.shiftl 1 2.
Definition GNSS_SYSTEM_CLK_TIME_BIAS_UNC_VALID : Z := Z.shiftl 1 3.
Definition GNSS_SYSTEM_REF_FCOUNT_VALID : Z := Z.shiftl 1 4.
Definition GNSS_SYSTEM_NUM_CLOCK_RESETS_VALID : Z := Z.shiftl 1 5.

(** [GnssGloTimeTypeBits] ([LocationDataTypes.h]) *)
Definition GNSS_CLO_DAYS_VALID : Z := Z.shiftl 1 0.
Definition GNSS_GLO_MSEC_VALID : Z := Z.shiftl 1 1.
Definition GNSS_GLO_CLK_TIME_BIAS_VALID : Z := Z.shiftl 1 2.
Definition GNSS_GLO_CLK_TIME_BIAS_UNC_VALID : Z := Z.shiftl 1 3.
Definition GNSS_GLO_REF_FCOUNT_VALID : Z := Z.shiftl 1 4.
Definition GNSS_GLO_NUM_CLOCK_RESETS_VALID : Z := Z.shiftl 1 5.
Definition GNSS_GLO_FOUR_YEAR_VALID : Z := Z.shiftl 1 6.

(** [DrEngineAidingDataBits] ([LocationDataTypes.h]) *)
Definition DR_ENGINE_AIDING_DATA_CALIBRATION_BIT : Z := Z.shiftl 1 0.

(** [DrCalibrationStatusBits] ([LocationDataTypes.h]) *)
Definition DR_ROLL_CALIBRATION_NEEDED : Z := Z.shiftl 1 0.
Definition DR_PITCH_CALIBRATION_NEEDED : Z := Z.shiftl 1 1.
Definition DR_YAW_CALIBRATION_NEEDED : Z := Z.shiftl 1 2.
Definition DR_ODO_CALIBRATION_NEEDED : Z := Z.shiftl 1 3.
Definition DR_GYRO_CALIBRATION_NEEDED : Z := Z.shiftl 1 4.

(** [LocReqEngineTypeMask] ([LocationDataTypes.h]) *)
Definition LOC_REQ_ENGINE_FUSED_BIT : Z := Z.shiftl 1 0.
Definition LOC_REQ_ENGINE_SPE_BIT : Z := Z.shiftl 1 1.
Definition LOC_REQ_ENGINE_PPE_BIT : Z := Z.shiftl 1 2.

(** [LocOutputEngineType] ([LocationDataTypes.h]) *)
Definition LOC_OUTPUT_ENGINE_FUSED : Z := 0.
Definition LOC_OUTPUT_ENGINE_SPE : Z := 1.
Definition LOC_OUTPUT_ENGINE_PPE : Z := 2.
Definition LOC_OUTPUT_ENGINE_COUNT : Z := 4.

(** [loc_sess_status] ([LocationDataTypes.h]) *)
Definition LOC_SESS_SUCCESS : Z := 0.
Definition LOC_SESS_INTERMEDIATE : Z := 1.
Definition LOC_SESS_FAILURE : Z := 2.

(** [GnssConfigRobustLocationValidMask] ([LocationDataTypes.h]) *)
Definition GNSS_CONFIG_ROBUST_LOCATION_ENABLED_VALID_BIT : Z := Z.shiftl 1 0.
Definition GNSS_CONFIG_ROBUST_LOCATION_ENABLED_FOR_E911_VALID_BIT : Z := Z.shiftl 1 1.
Definition GNSS_CONFIG_ROBUST_LOCATION_VERSION_VALID_BIT : Z := Z.shiftl 1 2.

(** [GnssSvTypesMaskBits] ([LocationDataTypes.h]) *)
Definition GNSS_SV_TYPES_MASK_GLO_BIT : Z := Z.shiftl 1 0.
Definition GNSS_SV_TYPES_MASK_BDS_BIT : Z := Z.shiftl 1 1.
Definition GNSS_SV_TYPES_MASK_QZSS_BIT : Z := Z.shiftl 1 2.
Definition GNSS_SV_TYPES_MASK_GAL_BIT : Z := Z.shiftl 1 3.
Definition GNSS_SV_TYPES_MASK_NAVIC_BIT : Z := Z.shiftl 1 4.
Definition GNSS_SV_TYPES_MASK_GPS_BIT : Z := Z.shiftl 1 5.

(** [LeapSecondSysInfoDataBits] ([LocationDataTypes.h]) *)
Definition LEAP_SECOND_SYS_INFO_CURRENT_LEAP_SECONDS_BIT : Z := Z.shiftl 1 0.
Definition LEAP_SECOND_SYS_INFO_LEAP_SECOND_CHANGE_BIT : Z := Z.shiftl 1 1.

(** [LocationSystemInfoDataBits] ([LocationDataTypes.h]) *)
Definition LOCATION_SYS_INFO_LEAP_SECOND : Z := Z.shiftl 1 0.

(** [TerrestrialTechMask] ([LocationDataTypes.h]) *)
Definition TERRESTRIAL_TECH_GTP_WWAN : Z := Z.shiftl 1 0.

(** [LeverArmTypeBits] ([LocationDataTypes.h]) *)
Definition LEVER_ARM_TYPE_GNSS_TO_VRP_BIT : Z := Z.shiftl 1 0.
Definition LEVER_ARM_TYPE_DR_IMU_TO_GNSS_BIT : Z := Z.shiftl 1 1.
Definition LEVER_ARM_TYPE_VEPP_IMU_TO_GNSS_BIT : Z := Z.shiftl 1 2.

(** [DeadReckoningEngineConfigValidBit] ([LocationDataTypes.h]) *)
Definition BODY_TO_SENSOR_MOUNT_PARAMS_BIT : Z := Z.shiftl 1 0.
Definition VEHICLE_SPEED_SCALE_FACTOR_BIT : Z := Z.shiftl 1 1.
Definition VEHICLE_SPEED_SCALE_FACTOR_UNC_BIT : Z := Z.shiftl 1 2.
Definition GYRO_SCALE_FACTOR_BIT : Z := Z.shiftl 1 3.
Definition GYRO_SCALE_FACTOR_UNC_BIT : Z := Z.shiftl 1 4.

(** [PBGnssSuplMode] ([LocationApiDataTypes.proto]) *)
Definition PB_GNSS_SUPL_MODE_STANDALONE : Z := 0.
Definition PB_GNSS_SUPL_MODE_MSB : Z := 1.
Definition PB_GNSS_SUPL_MODE_MSA : Z := 2.

(** [PBGnssSignalTypeMask] ([LocationApiDataTypes.proto]) *)
Definition PB_GNSS_SIGNAL_GPS_L1CA_BIT : Z := 1.
Definition PB_GNSS_SIGNAL_GPS_L1C_BIT : Z := 2.
Definition PB_GNSS_SIGNAL_GPS_L2_BIT : Z := 4.
Definition PB_GNSS_SIGNAL_GPS_L5_BIT : Z := 8.
Definition PB_GNSS_SIGNAL_GLONASS_G1_BIT : Z := 16.
Definition PB_GNSS_SIGNAL_GLONASS_G2_BIT : Z := 32.
Definition PB_GNSS_SIGNAL_GALILEO_E1_BIT : Z := 64.
Definition PB_GNSS_SIGNAL_GALILEO_E5A_BIT : Z := 128.
Definition PB_GNSS_SIGNAL_GALILEO_E5B_BIT : Z := 256.
Definition PB_GNSS_SIGNAL_BEIDOU_B1_BIT : Z := 512.
Definition PB_GNSS_SIGNAL_BEIDOU_B2_BIT : Z := 1024.
Definition PB_GNSS_SIGNAL_QZSS_L1CA_BIT : Z := 2048.
Definition PB_GNSS_SIGNAL_QZSS_L1S_BIT : Z := 4096.
Definition PB_GNSS_SIGNAL_QZSS_L2_BIT : Z := 8192.
Definition PB_GNSS_SIGNAL_QZSS_L5_BIT : Z := 16384.
Definition PB_GNSS_SIGNAL_SBAS_L1_BIT : Z := 32768.
Definition PB_GNSS_SIGNAL_BEIDOU_B1I_BIT : Z := 65536.
Definition PB_GNSS_SIGNAL_BEIDOU_B1C_BIT : Z := 131072.
Definition PB_GNSS_SIGNAL_BEIDOU_B2I_BIT : Z := 262144.
Definition PB_GNSS_SIGNAL_BEIDOU_B2AI_BIT : Z := 524288.
Definition PB_GNSS_SIGNAL_NAVIC_L5_BIT : Z := 1048576.
Definition PB_GNSS_SIGNAL_BEIDOU_B2AQ_BIT : Z := 2097152.

(** [PBLocApiGnss_LocSvSystemEnumType] ([LocationApiDataTypes.proto]) *)
Definition PB_GNSS_LOC_SV_SYSTEM_INVALID : Z := 0.
Definition PB_GNSS_LOC_SV_SYSTEM_GPS : Z := 1.
Definition PB_GNSS_LOC_SV_SYSTEM_GALILEO : Z := 2.
Definition PB_GNSS_LOC_SV_SYSTEM_SBAS : Z := 3.
Definition PB_GNSS_LOC_SV_SYSTEM_GLONASS : Z := 4.
Definition PB_GNSS_LOC_SV_SYSTEM_BDS : Z := 5.
Definition PB_GNSS_LOC_SV_SYSTEM_QZSS : Z := 6.
Definition PB_GNSS_LOC_SV_SYSTEM_NAVIC : Z := 7.

(** [PBLocApiOutputEngineType] ([LocationApiDataTypes.proto]) *)
Definition PB_LOC_OUTPUT_ENGINE_FUSED : Z := 0.
Definition PB_LOC_OUTPUT_ENGINE_SPE : Z := 1.
Definition PB_LOC_OUTPUT_ENGINE_PPE : Z := 2.

(** [PBLocationReliability] ([LocationApiDataTypes.proto]) *)
Definition PB_LOCATION_RELIABILITY_NOT_SET : Z := 0.
Definition PB_LOCATION_RELIABILITY_VERY_LOW : Z := 1.
Definition PB_LOCATION_RELIABILITY_LOW : Z := 2.
Definition PB_LOCATION_RELIABILITY_MEDIUM : Z := 3.
Definition PB_LOCATION_RELIABILITY_HIGH : Z := 4.

(** [PBGnssLocationInfoFlagMask] ([LocationApiDataTypes.proto]) *)
Definition PB_GNSS_LOCATION_INFO_ALTITUDE_MEAN_SEA_LEVEL_BIT : Z := 1.
Definition PB_GNSS_LOCATION_INFO_DOP_BIT : Z := 2.
Definition PB_GNSS_LOCATION_INFO_EXT_DOP_BIT : Z := 4.
Definition PB_GNSS_LOCATION_INFO_MAGNETIC_DEVIATION_BIT : Z := 8.
Definition PB_GNSS_LOCATION_INFO_HOR_RELIABILITY_BIT : Z := 16.
Definition PB_GNSS_LOCATION_INFO_VER_RELIABILITY_BIT : Z := 32.
Definition PB_GNSS_LOCATION_INFO_HOR_ACCURACY_ELIP_SEMI_MAJOR_BIT : Z := 64.
Definition PB_GNSS_LOCATION_INFO_HOR_ACCURACY_ELIP_SEMI_MINOR_BIT : Z := 128.
Definition PB_GNSS_LOCATION_INFO_HOR_ACCURACY_ELIP_AZIMUTH_BIT : Z := 256.
Definition PB_GNSS_LOCATION_INFO_GNSS_SV_USED_DATA_BIT : Z := 512.
Definition PB_GNSS_LOCATION_INFO_NAV_SOLUTION_MASK_BIT : Z := 1024.
Definition PB_GNSS_LOCATION_INFO_POS_DYNAMICS_DATA_BIT : Z := 2048.
Definition PB_GNSS_LOCATION_INFO_NORTH_STD_DEV_BIT : Z := 4096.
Definition PB_GNSS_LOCATION_INFO_EAST_STD_DEV_BIT : Z := 8192.
Definition PB_GNSS_LOCATION_INFO_NORTH_VEL_BIT : Z := 16384.
Definition PB_GNSS_LOCATION_INFO_EAST_VEL_BIT : Z := 32768.
Definition PB_GNSS_LOCATION_INFO_UP_VEL_BIT : Z := 65536.
Definition PB_GNSS_LOCATION_INFO_NORTH_VEL_UNC_BIT : Z := 131072.
Definition PB_GNSS_LOCATION_INFO_EAST_VEL_UNC_BIT : Z := 262144.
Definition PB_GNSS_LOCATION_INFO_UP_VEL_UNC_BIT : Z := 524288.
Definition PB_GNSS_LOCATION_INFO_LEAP_SECONDS_BIT : Z := 1048576.
Definition PB_GNSS_LOCATION_INFO_TIME_UNC_BIT : Z := 2097152.
Definition PB_GNSS_LOCATION_INFO_NUM_SV_USED_IN_POSITION_BIT : Z := 4194304.
Definition PB_GNSS_LOCATION_INFO_CALIBRATION_CONFIDENCE_PERCENT_BIT : Z := 8388608.
Definition PB_GNSS_LOCATION_INFO_CALIBRATION_STATUS_BIT : Z := 16777216.
Definition PB_GNSS_LOCATION_INFO_OUTPUT_ENG_TYPE_BIT : Z := 33554432.
Definition PB_GNSS_LOCATION_INFO_OUTPUT_ENG_MASK_BIT : Z := 67108864.
Definition PB_GNSS_LOCATION_INFO_CONFORMITY_INDEX_BIT : Z := 134217728.
Definition PB_GNSS_LOCATION_INFO_LLA_VRP_BASED_BIT : Z := 268435456.
Definition PB_GNSS_LOCATION_INFO_ENU_VELOCITY_VRP_BASED_BIT : Z := 536870912.
Definition PB_GNSS_LOCATION_INFO_DR_SOLUTION_STATUS_MASK_BIT : Z := 1073741824.

(** [PBGnssLocationInfoExtFlagMask] ([LocationApiDataTypes.proto]) *)
Definition PB_GNSS_LOCATION_INFO_ALTITUDE_ASSUMED_BIT : Z := 0x1.
Definition PB_GNSS_LOCATION_INFO_SESSION_STATUS_BIT : Z := 0x2.

(** [PBGnssLocationNavSolutionMask] ([LocationApiDataTypes.proto]) *)
Definition PB_LOCATION_SBAS_CORRECTION_IONO_BIT : Z := 1.
Definition PB_LOCATION_SBAS_CORRECTION_FAST_BIT : Z := 2.
Definition PB_LOCATION_SBAS_CORRECTION_LONG_BIT : Z := 4.
Definition PB_LOCATION_SBAS_INTEGRITY_BIT : Z := 8.
Definition PB_LOCATION_NAV_CORRECTION_DGNSS_BIT : Z := 16.
Definition PB_LOCATION_NAV_CORRECTION_RTK_BIT : Z := 32.
Definition PB_LOCATION_NAV_CORRECTION_PPP_BIT : Z := 64.
Definition PB_LOCATION_NAV_CORRECTION_RTK_FIXED_BIT : Z := 128.
Definition PB_LOCATION_NAV_CORRECTION_ONLY_SBAS_CORRECTED_SV_USED_BIT : Z := 256.

(** [PBGnssSvTypesMask] ([LocationApiDataTypes.proto]) *)
Definition PB_GNSS_SV_TYPES_MASK_GLO_BIT : Z := 1.
Definition PB_GNSS_SV_TYPES_MASK_BDS_BIT : Z := 2.
Definition PB_GNSS_SV_TYPES_MASK_QZSS_BIT : Z := 4.
Definition PB_GNSS_SV_TYPES_MASK_GAL_BIT : Z := 8.
Definition PB_GNSS_SV_TYPES_MASK_NAVIC_BIT : Z := 16.
Definition PB_GNSS_SV_TYPES_MASK_GPS_BIT : Z := 32.

(** [PBLocApiGnssSvOptionsMask] ([LocationApiDataTypes.proto]) *)
Definition PB_GNSS_SV_OPTIONS_HAS_EPHEMER_BIT : Z := 1.
Definition PB_GNSS_SV_OPTIONS_HAS_ALMANAC_BIT : Z := 2.
Definition PB_GNSS_SV_OPTIONS_USED_IN_FIX_BIT : Z := 4.
Definition PB_GNSS_SV_OPTIONS_HAS_CARRIER_FREQUENCY_BIT : Z := 8.
Definition PB_GNSS_SV_OPTIONS_HAS_GNSS_SIGNAL_TYPE_BIT : Z := 16.

(** [PBGnssGloTimeStructTypeFlags] ([LocationApiDataTypes.proto]) *)
Definition PB_GNSS_GLO_FOUR_YEAR_VALID : Z := 1.
Definition PB_GNSS_CLO_DAYS_VALID : Z := 2.
Definition PB_GNSS_GLO_MSEC_VALID : Z := 4.
Definition PB_GNSS_GLO_CLK_TIME_BIAS_VALID : Z := 8.
Definition PB_GNSS_GLO_CLK_TIME_BIAS_UNC_VALID : Z := 16.
Definition PB_GNSS_GLO_REF_FCOUNT_VALID : Z := 32.
Definition PB_GNSS_GLO_NUM_CLOCK_RESETS_VALID : Z := 64.

(** [PBGnssMeasurementsClockFlagsMask] ([LocationApiDataTypes.proto]) *)
Definition PB_GNSS_MEASUREMENTS_CLOCK_FLAGS_LEAP_SECOND_BIT : Z := 1.
Definition PB_GNSS_MEASUREMENTS_CLOCK_FLAGS_TIME_BIT : Z := 2.
Definition PB_GNSS_MEASUREMENTS_CLOCK_FLAGS_TIME_UNCERTAINTY_BIT : Z := 4.
Definition PB_GNSS_MEASUREMENTS_CLOCK_FLAGS_FULL_BIAS_BIT : Z := 8.
Definition PB_GNSS_MEASUREMENTS_CLOCK_FLAGS_BIAS_BIT : Z := 16.
Definition PB_GNSS_MEASUREMENTS_CLOCK_FLAGS_BIAS_UNCERTAINTY_BIT : Z := 32.
Definition PB_GNSS_MEASUREMENTS_CLOCK_FLAGS_DRIFT_BIT : Z := 64.
Definition PB_GNSS_MEASUREMENTS_CLOCK_FLAGS_DRIFT_UNCERTAINTY_BIT : Z := 128.
Definition PB_GNSS_MEASUREMENTS_CLOCK_FLAGS_HW_CLOCK_DISCONTINUITY_COUNT_BIT : Z := 256.

(** [PBLocApiGnssSystemTimeStructTypeFlags] ([LocationApiDataTypes.proto]) *)
Definition PB_GNSS_SYSTEM_TIME_WEEK_VALID : Z := 1.
Definition PB_GNSS_SYSTEM_TIME_WEEK_MS_VALID : Z := 2.
Definition PB_GNSS_SYSTEM_CLK_TIME_BIAS_VALID : Z := 4.
Definition PB_GNSS_SYSTEM_CLK_TIME_BIAS_UNC_VALID : Z := 8.
Definition PB_GNSS_SYSTEM_REF_FCOUNT_VALID : Z := 16.
Definition PB_GNSS_SYSTEM_NUM_CLOCK_RESETS_VALID : Z := 32.

(** [PBGnssConfigRobustLocationValidMask] ([LocationApiDataTypes.proto]) *)
Definition PB_GNSS_CONFIG_ROBUST_LOCATION_ENABLED_VALID_BIT : Z := 1.
Definition PB_GNSS_CONFIG_ROBUST_LOCATION_ENABLED_FOR_E911_VALID_BIT : Z := 2.
Definition PB_GNSS_CONFIG_ROBUST_LOCATION_VERSION_VALID_BIT : Z := 4.

(** [PBLocationSystemInfoMask] ([LocationApiDataTypes.proto]) *)
Definition PB_LOCATION_SYS_INFO_INVALID : Z := 0.
Definition PB_LOCATION_SYS_INFO_LEAP_SECOND : Z := 1.

(** [PBLocApiDrCalibrationStatusMask] ([LocationApiDataTypes.proto]) *)
Definition PB_DR_ROLL_CALIBRATION_NEEDED : Z := 1.
Definition PB_DR_PITCH_CALIBRATION_NEEDED : Z := 2.
Definition PB_DR_YAW_CALIBRATION_NEEDED : Z := 4.
Definition PB_DR_ODO_CALIBRATION_NEEDED : Z := 8.
Definition PB_DR_GYRO_CALIBRATION_NEEDED : Z := 16.

(** [PBLeapSecondSysInfoMask] ([LocationApiDataTypes.proto]) *)
Definition PB_LEAP_SECOND_SYS_INFO_CURRENT_LEAP_SECONDS_BIT : Z := 1.
Definition PB_LEAP_SECOND_SYS_INFO_LEAP_SECOND_CHANGE_BIT : Z := 2.

(** [PBTerrestrialTechMask] ([LocationApiDataTypes.proto]) *)
Definition PB_TERRESTRIAL_TECH_INVALID : Z := 0.
Definition PB_TERRESTRIAL_TECH_GTP_WWAN : Z := 1.

(** [PBLocApiGnssLocationPosDataMask] ([LocationApiDataTypes.proto]) *)
Definition PB_LOCATION_NAV_DATA_HAS_LONG_ACCEL_BIT : Z := 1.
Definition PB_LOCATION_NAV_DATA_HAS_LAT_ACCEL_BIT : Z := 2.
Definition PB_LOCATION_NAV_DATA_HAS_VERT_ACCEL_BIT : Z := 4.
Definition PB_LOCATION_NAV_DATA_HAS_YAW_RATE_BIT : Z := 8.
Definition PB_LOCATION_NAV_DATA_HAS_YAW_RATE_UNC_BIT : Z := 16.
Definition PB_LOCATION_NAV_DATA_HAS_YAW_BIT : Z := 32.
Definition PB_LOCATION_NAV_DATA_HAS_YAW_UNC_BIT : Z := 64.
Definition PB_LOCATION_NAV_DATA_HAS_PITCH_BIT : Z := 128.
Definition PB_LOCATION_NAV_DATA_HAS_PITCH_UNC_BIT : Z := 256.
Definition PB_LOCATION_NAV_DATA_HAS_PITCH_RATE_BIT : Z := 512.
Definition PB_LOCATION_NAV_DATA_HAS_PITCH_RATE_UNC_BIT : Z := 1024.
Definition PB_LOCATION_NAV_DATA_HAS_LONG_ACCEL_UNC_BIT : Z := 2048.
Definition PB_LOCATION_NAV_DATA_HAS_LAT_ACCEL_UNC_BIT : Z := 4096.
Definition PB_LOCATION_NAV_DATA_HAS_VERT_ACCEL_UNC_BIT : Z := 8192.
Definition PB_LOCATION_NAV_DATA_HAS_ROLL_BIT : Z := 16384.
Definition PB_LOCATION_NAV_DATA_HAS_ROLL_UNC_BIT : Z := 32768.
Definition PB_LOCATION_NAV_DATA_HAS_ROLL_RATE_BIT : Z := 65536.
Definition PB_LOCATION_NAV_DATA_HAS_ROLL_RATE_UNC_BIT : Z := 131072.

(** [PBBatchingMode] ([LocationApiDataTypes.proto]) *)
Definition PB_BATCHING_MODE_ROUTINE : Z := 0.
Definition PB_BATCHING_MODE_TRIP : Z := 1.
Definition PB_BATCHING_MODE_NO_AUTO_REPORT : Z := 2.

(** [PBBatchingStatus] ([LocationApiDataTypes.proto]) *)
Definition PB_BATCHING_STATUS_TRIP_COMPLETED : Z := 0.
Definition PB_BATCHING_STATUS_POSITION_AVAILABE : Z := 1.
Definition PB_BATCHING_STATUS_POSITION_UNAVAILABLE : Z := 2.

(** [PBLocationError] ([LocationApiDataTypes.proto]) *)
Definition PB_LOCATION_ERROR_SUCCESS : Z := 0.
Definition PB_LOCATION_ERROR_INVALID_PARAMETER : Z := 1.
Definition PB_LOCATION_ERROR_NOT_SUPPORTED : Z := 2.
Definition PB_LOCATION_ERROR_GENERAL_FAILURE : Z := 3.
Definition PB_LOCATION_ERROR_TIMEOUT : Z := 4.

(** [PBLocReqEngineTypeMask] ([LocationApiDataTypes.proto]) *)
Definition PB_LOC_REQ_ENGINE_FUSED_BIT : Z := 1.
Definition PB_LOC_REQ_ENGINE_SPE_BIT : Z := 2.
Definition PB_LOC_REQ_ENGINE_PPE_BIT : Z := 4.

(** [PBLocApiPositioningEngineMask] ([LocationApiDataTypes.proto]) *)
Definition PB_STANDARD_POSITIONING_ENGINE : Z := 1.
Definition PB_DEAD_RECKONING_ENGINE : Z := 2.
Definition PB_PRECISE_POSITIONING_ENGINE : Z := 4.

(** [PBLocEngineRunState] ([LocationApiDataTypes.proto]) *)
Definition PB_LOC_ENGINE_RUN_STATE_INVALID : Z := 0.
Definition PB_LOC_ENGINE_RUN_STATE_PAUSE : Z := 1.
Definition PB_LOC_ENGINE_RUN_STATE_RESUME : Z := 2.

(** [PBDrEngineAidingDataMask] ([LocationApiDataTypes.proto]) *)
Definition PB_DR_ENGINE_AIDING_DATA_CALIBRATION_BIT : Z := 1.

(** [PBGnssMeasurementsAdrStateMask] ([LocationApiDataTypes.proto]) *)
Definition PB_GNSS_MEASUREMENTS_ACCUMULATED_DELTA_RANGE_STATE_UNKNOWN : Z := 0.
Definition PB_GNSS_MEASUREMENTS_ACCUMULATED_DELTA_RANGE_STATE_VALID_BIT : Z := 1.
Definition PB_GNSS_MEASUREMENTS_ACCUMULATED_DELTA_RANGE_STATE_RESET_BIT : Z := 2.
Definition PB_GNSS_MEASUREMENTS_ACCUMULATED_DELTA_RANGE_STATE_CYCLE_SLIP_BIT : Z := 4.

(** [PBGnssMeasurementsDataFlagsMask] ([LocationApiDataTypes.proto]) *)
Definition PB_GNSS_MEASUREMENTS_DATA_SV_ID_BIT : Z := 0x1.
Definition PB_GNSS_MEASUREMENTS_DATA_SV_TYPE_BIT : Z := 0x2.
Definition PB_GNSS_MEASUREMENTS_DATA_STATE_BIT : Z := 0x4.
Definition PB_GNSS_MEASUREMENTS_DATA_RECEIVED_SV_TIME_BIT : Z := 0x8.
Definition PB_GNSS_MEASUREMENTS_DATA_RECEIVED_SV_TIME_UNCERTAINTY_BIT : Z := 0x10.
Definition PB_GNSS_MEASUREMENTS_DATA_CARRIER_TO_NOISE_BIT : Z := 0x20.
Definition PB_GNSS_MEASUREMENTS_DATA_PSEUDORANGE_RATE_BIT : Z := 0x40.
Definition PB_GNSS_MEASUREMENTS_DATA_PSEUDORANGE_RATE_UNCERTAINTY_BIT : Z := 0x80.
Definition PB_GNSS_MEASUREMENTS_DATA_ADR_STATE_BIT : Z := 0x100.
Definition PB_GNSS_MEASUREMENTS_DATA_ADR_BIT : Z := 0x200.
Definition PB_GNSS_MEASUREMENTS_DATA_ADR_UNCERTAINTY_BIT : Z := 0x400.
Definition PB_GNSS_MEASUREMENTS_DATA_CARRIER_FREQUENCY_BIT : Z := 0x800.
Definition PB_GNSS_MEASUREMENTS_DATA_CARRIER_CYCLES_BIT : Z := 0x1000.
Definition PB_GNSS_MEASUREMENTS_DATA_CARRIER_PHASE_BIT : Z := 0x2000.
Definition PB_GNSS_MEASUREMENTS_DATA_CARRIER_PHASE_UNCERTAINTY_BIT : Z := 0x4000.
Definition PB_GNSS_MEASUREMENTS_DATA_MULTIPATH_INDICATOR_BIT : Z := 0x8000.
Definition PB_GNSS_MEASUREMENTS_DATA_SIGNAL_TO_NOISE_RATIO_BIT : Z := 0x10000.
Definition PB_GNSS_MEASUREMENTS_DATA_AUTOMATIC_GAIN_CONTROL_BIT : Z := 0x20000.
Definition PB_GNSS_MEASUREMENTS_DATA_FULL_ISB_BIT : Z := 0x40000.
Definition PB_GNSS_MEASUREMENTS_DATA_FULL_ISB_UNCERTAINTY_BIT : Z := 0x80000.
Definition PB_GNSS_MEASUREMENTS_DATA_CYCLE_SLIP_COUNT_BIT : Z := 0x100000.

(** [PBGnssMeasurementsStateMask] ([LocationApiDataTypes.proto]) *)
Definition PB_GNSS_MEASUREMENTS_STATE_UNKNOWN_BIT : Z := 0.
Definition PB_GNSS_MEASUREMENTS_STATE_CODE_LOCK_BIT : Z := 1.
Definition PB_GNSS_MEASUREMENTS_STATE_BIT_SYNC_BIT : Z := 2.
Definition PB_GNSS_MEASUREMENTS_STATE_SUBFRAME_SYNC_BIT : Z := 4.
Definition PB_GNSS_MEASUREMENTS_STATE_TOW_DECODED_BIT : Z := 8.
Definition PB_GNSS_MEASUREMENTS_STATE_MSEC_AMBIGUOUS_BIT : Z := 16.
Definition PB_GNSS_MEASUREMENTS_STATE_SYMBOL_SYNC_BIT : Z := 32.
Definition PB_GNSS_MEASUREMENTS_STATE_GLO_STRING_SYNC_BIT : Z := 64.
Definition PB_GNSS_MEASUREMENTS_STATE_GLO_TOD_DECODED_BIT : Z := 128.
Definition PB_GNSS_MEASUREMENTS_STATE_BDS_D2_BIT_SYNC_BIT : Z := 256.
Definition PB_GNSS_MEASUREMENTS_STATE_BDS_D2_SUBFRAME_SYNC_BIT : Z := 512.
Definition PB_GNSS_MEASUREMENTS_STATE_GAL_E1BC_CODE_LOCK_BIT : Z := 1024.
Definition PB_GNSS_MEASUREMENTS_STATE_GAL_E1C_2ND_CODE_LOCK_BIT : Z := 2048.
Definition PB_GNSS_MEASUREMENTS_STATE_GAL_E1B_PAGE_SYNC_BIT : Z := 4096.
Definition PB_GNSS_MEASUREMENTS_STATE_SBAS_SYNC_BIT : Z := 8192.

(** [PBGnssMeasurementsMultipathIndicator] ([LocationApiDataTypes.proto]) *)
Definition PB_GNSS_MEASUREMENTS_MULTIPATH_INDICATOR_UNKNOWN : Z := 0.
Definition PB_GNSS_MEASUREMENTS_MULTIPATH_INDICATOR_PRESENT : Z := 1.
Definition PB_GNSS_MEASUREMENTS_MULTIPATH_INDICATOR_NOT_PRESENT : Z := 2.

(** [PBLocApiGnssAidingDataSvMask] ([LocationApiDataTypes.proto]) *)
Definition PB_AIDING_DATA_SV_EPHEMERIS_BIT : Z := 1.

(** [PBLocationFlagsMask] ([LocationApiDataTypes.proto]) *)
Definition PB_LOCATION_HAS_LAT_LONG_BIT : Z := 1.
Definition PB_LOCATION_HAS_ALTITUDE_BIT : Z := 2.
Definition PB_LOCATION_HAS_SPEED_BIT : Z := 4.
Definition PB_LOCATION_HAS_BEARING_BIT : Z := 8.
Definition PB_LOCATION_HAS_ACCURACY_BIT : Z := 16.
Definition PB_LOCATION_HAS_VERTICAL_ACCURACY_BIT : Z := 32.
Definition PB_LOCATION_HAS_SPEED_ACCURACY_BIT : Z := 64.
Definition PB_LOCATION_HAS_BEARING_ACCURACY_BIT : Z := 128.

(** [PBLocationTechnologyMask] ([LocationApiDataTypes.proto]) *)
Definition PB_LOCATION_TECHNOLOGY_GNSS_BIT : Z := 0x1.
Definition PB_LOCATION_TECHNOLOGY_CELL_BIT : Z := 0x2.
Definition PB_LOCATION_TECHNOLOGY_WIFI_BIT : Z := 0x4.
Definition PB_LOCATION_TECHNOLOGY_SENSORS_BIT : Z := 0x8.
Definition PB_LOCATION_TECHNOLOGY_REFERENCE_LOCATION_BIT : Z := 0x10.
Definition PB_LOCATION_TECHNOLOGY_INJECTED_COARSE_POSITION_BIT : Z := 0x20.
Definition PB_LOCATION_TECHNOLOGY_AFLT_BIT : Z := 0x40.
Definition PB_LOCATION_TECHNOLOGY_HYBRID_BIT : Z := 0x80.
Definition PB_LOCATION_TECHNOLOGY_PPE_BIT : Z := 0x100.
Definition PB_LOCATION_TECHNOLOGY_VEH_BIT : Z := 0x200.
Definition PB_LOCATION_TECHNOLOGY_VIS_BIT : Z := 0x400.

(** [PBLocationCapabilitiesMask] ([LocationApiDataTypes.proto]) *)
Definition PB_LOCATION_CAPS_TIME_BASED_TRACKING_BIT : Z := 1.
Definition PB_LOCATION_CAPS_TIME_BASED_BATCHING_BIT : Z := 2.
Definition PB_LOCATION_CAPS_DISTANCE_BASED_TRACKING_BIT : Z := 4.
Definition PB_LOCATION_CAPS_DISTANCE_BASED_BATCHING_BIT : Z := 8.
Definition PB_LOCATION_CAPS_GEOFENCE_BIT : Z := 16.
Definition PB_LOCATION_CAPS_OUTDOOR_TRIP_BATCHING_BIT : Z := 32.
Definition PB_LOCATION_CAPS_GNSS_MEASUREMENTS_BIT : Z := 64.
Definition PB_LOCATION_CAPS_CONSTELLATION_ENABLEMENT_BIT : Z := 128.
Definition PB_LOCATION_CAPS_QWES_CARRIER_PHASE_BIT : Z := 256.
Definition PB_LOCATION_CAPS_QWES_SV_POLYNOMIAL_BIT : Z := 512.
Definition PB_LOCATION_CAPS_QWES_GNSS_SINGLE_FREQUENCY : Z := 1024.
Definition PB_LOCATION_CAPS_QWES_GNSS_MULTI_FREQUENCY : Z := 2048.
Definition PB_LOCATION_CAPS_QWES_VPE : Z := 4096.
Definition PB_LOCATION_CAPS_QWES_CV2X_LOCATION_BASIC : Z := 8192.
Definition PB_LOCATION_CAPS_QWES_CV2X_LOCATION_PREMIUM : Z := 16384.
Definition PB_LOCATION_CAPS_QWES_PPE : Z := 32768.
Definition PB_LOCATION_CAPS_QWES_QDR2 : Z := 65536.
Definition PB_LOCATION_CAPS_QWES_QDR3 : Z := 131072.

(** [PBGnssDataMask] ([LocationApiDataTypes.proto]) *)
Definition PB_GNSS_LOC_DATA_JAMMER_IND_BIT : Z := 1.
Definition PB_GNSS_LOC_DATA_AGC_BIT : Z := 2.

(** [PBLIALeverArmTypeMask] ([LocationApiDataTypes.proto]) *)
Definition PB_LEVER_ARM_TYPE_GNSS_TO_VRP_BIT : Z := 1.
Definition PB_LEVER_ARM_TYPE_DR_IMU_TO_GNSS_BIT : Z := 2.
Definition PB_LEVER_ARM_TYPE_VEPP_IMU_TO_GNSS_BIT : Z := 4.

(** [PBDrSolutionStatusMask] ([LocationApiDataTypes.proto]) *)
Definition PB_VEHICLE_SENSOR_SPEED_INPUT_DETECTED : Z := 1.
Definition PB_VEHICLE_SENSOR_SPEED_INPUT_USED : Z := 2.

(** [PBLocationSessionStatus] ([LocationApiDataTypes.proto]) *)
Definition PB_LOCATION_SESS_SUCCESS : Z := 0.
Definition PB_LOCATION_SESS_INTERMEDIATE : Z := 1.
Definition PB_LOCATION_SESS_FAILURE : Z := 2.

(** [PBDeadReckoningEngineConfigValidMask] ([LocationApiDataTypes.proto]) *)
Definition PB_BODY_TO_SENSOR_MOUNT_PARAMS_BIT : Z := 1.
Definition PB_VEHICLE_SPEED_SCALE_FACTOR_BIT : Z := 2.
Definition PB_VEHICLE_SPEED_SCALE_FACTOR_UNC_BIT : Z := 4.
Definition PB_GYRO_SCALE_FACTOR_BIT : Z := 8.
Definition PB_GYRO_SCALE_FACTOR_UNC_BIT : Z := 16.

(** [PBELocMsgID] ([LocationApiMsg.proto]) *)
Definition PB_E_LOCAPI_UNDEFINED_MSG_ID : Z := 0.
Definition PB_E_LOCAPI_CLIENT_REGISTER_MSG_ID : Z := 1.
Definition PB_E_LOCAPI_CLIENT_DEREGISTER_MSG_ID : Z := 2.
Definition PB_E_LOCAPI_CAPABILILTIES_MSG_ID : Z := 3.
Definition PB_E_LOCAPI_HAL_READY_MSG_ID : Z := 4.
Definition PB_E_LOCAPI_START_TRACKING_MSG_ID : Z := 5.
Definition PB_E_LOCAPI_STOP_TRACKING_MSG_ID : Z := 6.
Definition PB_E_LOCAPI_UPDATE_CALLBACKS_MSG_ID : Z := 7.
Definition PB_E_LOCAPI_UPDATE_TRACKING_OPTIONS_MSG_ID : Z := 8.
Definition PB_E_LOCAPI_CONTROL_UPDATE_CONFIG_MSG_ID : Z := 9.
Definition PB_E_LOCAPI_CONTROL_DELETE_AIDING_DATA_MSG_ID : Z := 10.
Definition PB_E_LOCAPI_CONTROL_UPDATE_NETWORK_AVAILABILITY_MSG_ID : Z := 11.
Definition PB_E_LOCAPI_LOCATION_MSG_ID : Z := 12.
Definition PB_E_LOCAPI_LOCATION_INFO_MSG_ID : Z := 13.
Definition PB_E_LOCAPI_SATELLITE_VEHICLE_MSG_ID : Z := 14.
Definition PB_E_LOCAPI_NMEA_MSG_ID : Z := 15.
Definition PB_E_LOCAPI_DATA_MSG_ID : Z := 16.
Definition PB_E_LOCAPI_GET_GNSS_ENGERY_CONSUMED_MSG_ID : Z := 17.
Definition PB_E_LOCAPI_LOCATION_SYSTEM_INFO_MSG_ID : Z := 18.
Definition PB_E_LOCAPI_ENGINE_LOCATIONS_INFO_MSG_ID : Z := 19.
Definition PB_E_LOCAPI_START_BATCHING_MSG_ID : Z := 20.
Definition PB_E_LOCAPI_STOP_BATCHING_MSG_ID : Z := 21.
Definition PB_E_LOCAPI_UPDATE_BATCHING_OPTIONS_MSG_ID : Z := 22.
Definition PB_E_LOCAPI_BATCHING_MSG_ID : Z := 23.
Definition PB_E_LOCAPI_ADD_GEOFENCES_MSG_ID : Z := 24.
Definition PB_E_LOCAPI_REMOVE_GEOFENCES_MSG_ID : Z := 25.
Definition PB_E_LOCAPI_MODIFY_GEOFENCES_MSG_ID : Z := 26.
Definition PB_E_LOCAPI_PAUSE_GEOFENCES_MSG_ID : Z := 27.
Definition PB_E_LOCAPI_RESUME_GEOFENCES_MSG_ID : Z := 28.
Definition PB_E_LOCAPI_GEOFENCE_BREACH_MSG_ID : Z := 29.
Definition PB_E_LOCAPI_MEAS_MSG_ID : Z := 30.
Definition PB_E_LOCAPI_GET_SINGLE_TERRESTRIAL_POS_REQ_MSG_ID : Z := 31.
Definition PB_E_LOCAPI_GET_SINGLE_TERRESTRIAL_POS_RESP_MSG_ID : Z := 32.
Definition PB_E_LOCAPI_PINGTEST_MSG_ID : Z := 99.
Definition PB_E_INTAPI_CONFIG_CONSTRAINTED_TUNC_MSG_ID : Z := 200.
Definition PB_E_INTAPI_CONFIG_POSITION_ASSISTED_CLOCK_ESTIMATOR_MSG_ID : Z := 201.
Definition PB_E_INTAPI_CONFIG_SV_CONSTELLATION_MSG_ID : Z := 202.
Definition PB_E_INTAPI_CONFIG_AIDING_DATA_DELETION_MSG_ID : Z := 203.
Definition PB_E_INTAPI_CONFIG_LEVER_ARM_MSG_ID : Z := 204.
Definition PB_E_INTAPI_CONFIG_ROBUST_LOCATION_MSG_ID : Z := 205.
Definition PB_E_INTAPI_CONFIG_MIN_GPS_WEEK_MSG_ID : Z := 206.
Definition PB_E_INTAPI_CONFIG_DEAD_RECKONING_ENGINE_MSG_ID : Z := 207.
Definition PB_E_INTAPI_CONFIG_MIN_SV_ELEVATION_MSG_ID : Z := 208.
Definition PB_E_INTAPI_CONFIG_CONSTELLATION_SECONDARY_BAND_MSG_ID : Z := 209.
Definition PB_E_INTAPI_CONFIG_ENGINE_RUN_STATE_MSG_ID : Z := 210.
Definition PB_E_INTAPI_CONFIG_USER_CONSENT_TERRESTRIAL_POSITIONING_MSG_ID : Z := 211.
Definition PB_E_INTAPI_GET_ROBUST_LOCATION_CONFIG_REQ_MSG_ID : Z := 300.
Definition PB_E_INTAPI_GET_ROBUST_LOCATION_CONFIG_RESP_MSG_ID : Z := 301.
Definition PB_E_INTAPI_GET_MIN_GPS_WEEK_REQ_MSG_ID : Z := 302.
Definition PB_E_INTAPI_GET_MIN_GPS_WEEK_RESP_MSG_ID : Z := 303.
Definition PB_E_INTAPI_GET_MIN_SV_ELEVATION_REQ_MSG_ID : Z := 304.
Definition PB_E_INTAPI_GET_MIN_SV_ELEVATION_RESP_MSG_ID : Z := 305.
Definition PB_E_INTAPI_GET_CONSTELLATION_SECONDARY_BAND_CONFIG_REQ_MSG_ID : Z := 306.
Definition PB_E_INTAPI_GET_CONSTELLATION_SECONDARY_BAND_CONFIG_RESP_MSG_ID : Z := 307.

(** [PBClientType] ([LocationApiMsg.proto]) *)
Definition PB_LOCATION_CLIENT_API : Z := 1.
Definition PB_LOCATION_INTEGRATION_API : Z := 2.

(** [PBLocationCallbacksMask] ([LocationApiMsg.proto]) *)
Definition PB_E_LOC_CB_DISTANCE_BASED_TRACKING_BIT : Z := 1.
Definition PB_E_LOC_CB_GNSS_LOCATION_INFO_BIT : Z := 2.
Definition PB_E_LOC_CB_GNSS_SV_BIT : Z := 4.
Definition PB_E_LOC_CB_GNSS_NMEA_BIT : Z := 8.
Definition PB_E_LOC_CB_GNSS_DATA_BIT : Z := 16.
Definition PB_E_LOC_CB_SYSTEM_INFO_BIT : Z := 32.
Definition PB_E_LOC_CB_BATCHING_BIT : Z := 64.
Definition PB_E_LOC_CB_BATCHING_STATUS_BIT : Z := 128.
Definition PB_E_LOC_CB_GEOFENCE_BREACH_BIT : Z := 256.
Definition PB_E_LOC_CB_ENGINE_LOCATIONS_INFO_BIT : Z := 512.
Definition PB_E_LOC_CB_SIMPLE_LOCATION_INFO_BIT : Z := 1024.
Definition PB_E_LOC_CB_GNSS_MEAS_BIT : Z := 2048.

(** [PBGeofenceBreachTypeMask] ([LocationApiMsg.proto]) *)
Definition PB_GEOFENCE_BREACH_ENTER_BIT : Z := 1.
Definition PB_GEOFENCE_BREACH_EXIT_BIT : Z := 2.
Definition PB_GEOFENCE_BREACH_DWELL_IN_BIT : Z := 4.
Definition PB_GEOFENCE_BREACH_DWELL_OUT_BIT : Z := 8.

(** [macros] ([LocationApiMsg.h]) *)
Definition MAX_GEOFENCE_ENTRY : Z := 20.

(** [ClientType] ([LocationApiMsg.h]) *)
Definition LOCATION_CLIENT_API : Z := 1.
Definition LOCATION_INTEGRATION_API : Z := 2.

(** [ELocMsgID] ([LocationApiMsg.h]) *)
Definition E_LOCAPI_UNDEFINED_MSG_ID : Z := 0.
Definition E_LOCAPI_CLIENT_REGISTER_MSG_ID : Z := 1.
Definition E_LOCAPI_CLIENT_DEREGISTER_MSG_ID : Z := 2.
Definition E_LOCAPI_CAPABILILTIES_MSG_ID : Z := 3.
Definition E_LOCAPI_HAL_READY_MSG_ID : Z := 4.
Definition E_LOCAPI_START_TRACKING_MSG_ID : Z := 5.
Definition E_LOCAPI_STOP_TRACKING_MSG_ID : Z := 6.
Definition E_LOCAPI_UPDATE_CALLBACKS_MSG_ID : Z := 7.
Definition E_LOCAPI_UPDATE_TRACKING_OPTIONS_MSG_ID : Z := 8.
Definition E_LOCAPI_CONTROL_UPDATE_CONFIG_MSG_ID : Z := 9.
Definition E_LOCAPI_CONTROL_DELETE_AIDING_DATA_MSG_ID : Z := 10.
Definition E_LOCAPI_CONTROL_UPDATE_NETWORK_AVAILABILITY_MSG_ID : Z := 11.
Definition E_LOCAPI_LOCATION_MSG_ID : Z := 12.
Definition E_LOCAPI_LOCATION_INFO_MSG_ID : Z := 13.
Definition E_LOCAPI_SATELLITE_VEHICLE_MSG_ID : Z := 14.
Definition E_LOCAPI_NMEA_MSG_ID : Z := 15.
Definition E_LOCAPI_DATA_MSG_ID : Z := 16.
Definition E_LOCAPI_GET_GNSS_ENGERY_CONSUMED_MSG_ID : Z := 17.
Definition E_LOCAPI_LOCATION_SYSTEM_INFO_MSG_ID : Z := 18.
Definition E_LOCAPI_ENGINE_LOCATIONS_INFO_MSG_ID : Z := 19.
Definition E_LOCAPI_START_BATCHING_MSG_ID : Z := 20.
Definition E_LOCAPI_STOP_BATCHING_MSG_ID : Z := 21.
Definition E_LOCAPI_UPDATE_BATCHING_OPTIONS_MSG_ID : Z := 22.
Definition E_LOCAPI_BATCHING_MSG_ID : Z := 23.
Definition E_LOCAPI_ADD_GEOFENCES_MSG_ID : Z := 24.
Definition E_LOCAPI_REMOVE_GEOFENCES_MSG_ID : Z := 25.
Definition E_LOCAPI_MODIFY_GEOFENCES_MSG_ID : Z := 26.
Definition E_LOCAPI_PAUSE_GEOFENCES_MSG_ID : Z := 27.
Definition E_LOCAPI_RESUME_GEOFENCES_MSG_ID : Z := 28.
Definition E_LOCAPI_GEOFENCE_BREACH_MSG_ID : Z := 29.
Definition E_LOCAPI_MEAS_MSG_ID : Z := 30.
Definition E_LOCAPI_GET_SINGLE_TERRESTRIAL_POS_REQ_MSG_ID : Z := 31.
Definition E_LOCAPI_GET_SINGLE_TERRESTRIAL_POS_RESP_MSG_ID : Z := 32.
Definition E_LOCAPI_PINGTEST_MSG_ID : Z := 99.
Definition E_INTAPI_CONFIG_CONSTRAINTED_TUNC_MSG_ID : Z := 200.
Definition E_INTAPI_CONFIG_POSITION_ASSISTED_CLOCK_ESTIMATOR_MSG_ID : Z := 201.
Definition E_INTAPI_CONFIG_SV_CONSTELLATION_MSG_ID : Z := 202.
Definition E_INTAPI_CONFIG_AIDING_DATA_DELETION_MSG_ID : Z := 203.
Definition E_INTAPI_CONFIG_LEVER_ARM_MSG_ID : Z := 204.
Definition E_INTAPI_CONFIG_ROBUST_LOCATION_MSG_ID : Z := 205.
Definition E_INTAPI_CONFIG_MIN_GPS_WEEK_MSG_ID : Z := 206.
Definition E_INTAPI_CONFIG_DEAD_RECKONING_ENGINE_MSG_ID : Z := 207.
Definition E_INTAPI_CONFIG_MIN_SV_ELEVATION_MSG_ID : Z := 208.
Definition E_INTAPI_CONFIG_CONSTELLATION_SECONDARY_BAND_MSG_ID : Z := 209.
Definition E_INTAPI_CONFIG_ENGINE_RUN_STATE_MSG_ID : Z := 210.
Definition E_INTAPI_CONFIG_USER_CONSENT_TERRESTRIAL_POSITIONING_MSG_ID : Z := 211.
Definition E_INTAPI_GET_ROBUST_LOCATION_CONFIG_REQ_MSG_ID : Z := 300.
Definition E_INTAPI_GET_ROBUST_LOCATION_CONFIG_RESP_MSG_ID : Z := 301.
Definition E_INTAPI_GET_MIN_GPS_WEEK_REQ_MSG_ID : Z := 302.
Definition E_INTAPI_GET_MIN_GPS_WEEK_RESP_MSG_ID : Z := 303.
Definition E_INTAPI_GET_MIN_SV_ELEVATION_REQ_MSG_ID : Z := 304.
Definition E_INTAPI_GET_MIN_SV_ELEVATION_RESP_MSG_ID : Z := 305.
Definition E_INTAPI_GET_CONSTELLATION_SECONDARY_BAND_CONFIG_REQ_MSG_ID : Z := 306.
Definition E_INTAPI_GET_CONSTELLATION_SECONDARY_BAND_CONFIG_RESP_MSG_ID : Z := 307.

(** [ELocationCallbacksOption] ([LocationApiMsg.h]) *)
Definition E_LOC_CB_DISTANCE_BASED_TRACKING_BIT : Z := Z.shiftl 1 0.
Definition E_LOC_CB_GNSS_LOCATION_INFO_BIT : Z := Z.shiftl 1 1.
Definition E_LOC_CB_GNSS_SV_BIT : Z := Z.shiftl 1 2.
Definition E_LOC_CB_GNSS_NMEA_BIT : Z := Z.shiftl 1 3.
Definition E_LOC_CB_GNSS_DATA_BIT : Z := Z.shiftl 1 4.
Definition E_LOC_CB_SYSTEM_INFO_BIT : Z := Z.shiftl 1 5.
Definition E_LOC_CB_BATCHING_BIT : Z := Z.shiftl 1 6.
Definition E_LOC_CB_BATCHING_STATUS_BIT : Z := Z.shiftl 1 7.
Definition E_LOC_CB_GEOFENCE_BREACH_BIT : Z := Z.shiftl 1 8.
Definition E_LOC_CB_ENGINE_LOCATIONS_INFO_BIT : Z := Z.shiftl 1 9.
Definition E_LOC_CB_SIMPLE_LOCATION_INFO_BIT : Z := Z.shiftl 1 10.
Definition E_LOC_CB_GNSS_MEAS_BIT : Z := Z.shiftl 1 11.
