(* ===== verification/PbMasks.v ===== *)
(** * Masks and enumerations of the protocol
    ([src/location/location_api_msg_proto/src/LocationApiPbMsgConv.cpp])

    Each function tests the bits of a mask one by one, or switches over an
    enumeration; the tables below list its branches in the order of the code. *)
From S2P Require Import Prelude PbConsts.
#[local] Open Scope Z_scope.

(** [if (mask & a) { out |= b; }] for each [(a, b)] of the list. *)
Definition or_bits (mask : Z) (bits : list (Z * Z)) (out : Z) : Z :=
  foldl (fun out ab => if Z.land mask ab.1 =? 0 then out else Z.lor out ab.2) out bits.
(** [switch (x) { case a: y = b; ... }] with [y] as it was when no case matches. *)
Fixpoint switch (x : Z) (cases : list (Z * Z)) (y : Z) : Z :=
  match cases with [] => y | (a, b) :: cases => if x =? a then b else switch x cases y end.

Definition getEnumForPBELocMsgID (pbLocMsgId : Z) : Z :=
  switch pbLocMsgId
    [(PB_E_LOCAPI_UNDEFINED_MSG_ID, E_LOCAPI_UNDEFINED_MSG_ID);
     (PB_E_LOCAPI_CLIENT_REGISTER_MSG_ID, E_LOCAPI_CLIENT_REGISTER_MSG_ID);
     (PB_E_LOCAPI_CLIENT_DEREGISTER_MSG_ID, E_LOCAPI_CLIENT_DEREGISTER_MSG_ID);
     (PB_E_LOCAPI_CAPABILILTIES_MSG_ID, E_LOCAPI_CAPABILILTIES_MSG_ID);
     (PB_E_LOCAPI_HAL_READY_MSG_ID, E_LOCAPI_HAL_READY_MSG_ID);
     (PB_E_LOCAPI_START_TRACKING_MSG_ID, E_LOCAPI_START_TRACKING_MSG_ID);
     (PB_E_LOCAPI_STOP_TRACKING_MSG_ID, E_LOCAPI_STOP_TRACKING_MSG_ID);
     (PB_E_LOCAPI_UPDATE_CALLBACKS_MSG_ID, E_LOCAPI_UPDATE_CALLBACKS_MSG_ID);
     (PB_E_LOCAPI_UPDATE_TRACKING_OPTIONS_MSG_ID, E_LOCAPI_UPDATE_TRACKING_OPTIONS_MSG_ID);
     (PB_E_LOCAPI_CONTROL_UPDATE_CONFIG_MSG_ID, E_LOCAPI_CONTROL_UPDATE_CONFIG_MSG_ID);
     (PB_E_LOCAPI_CONTROL_DELETE_AIDING_DATA_MSG_ID, E_LOCAPI_CONTROL_DELETE_AIDING_DATA_MSG_ID);
     (PB_E_LOCAPI_CONTROL_UPDATE_NETWORK_AVAILABILITY_MSG_ID, E_LOCAPI_CONTROL_UPDATE_NETWORK_AVAILABILITY_MSG_ID);
     (PB_E_LOCAPI_LOCATION_MSG_ID, E_LOCAPI_LOCATION_MSG_ID);
     (PB_E_LOCAPI_LOCATION_INFO_MSG_ID, E_LOCAPI_LOCATION_INFO_MSG_ID);
     (PB_E_LOCAPI_SATELLITE_VEHICLE_MSG_ID, E_LOCAPI_SATELLITE_VEHICLE_MSG_ID);
     (PB_E_LOCAPI_NMEA_MSG_ID, E_LOCAPI_NMEA_MSG_ID); (PB_E_LOCAPI_DATA_MSG_ID, E_LOCAPI_DATA_MSG_ID);
     (PB_E_LOCAPI_GET_GNSS_ENGERY_CONSUMED_MSG_ID, E_LOCAPI_GET_GNSS_ENGERY_CONSUMED_MSG_ID);
     (PB_E_LOCAPI_LOCATION_SYSTEM_INFO_MSG_ID, E_LOCAPI_LOCATION_SYSTEM_INFO_MSG_ID);
     (PB_E_LOCAPI_ENGINE_LOCATIONS_INFO_MSG_ID, E_LOCAPI_ENGINE_LOCATIONS_INFO_MSG_ID);
     (PB_E_LOCAPI_START_BATCHING_MSG_ID, E_LOCAPI_START_BATCHING_MSG_ID);
     (PB_E_LOCAPI_STOP_BATCHING_MSG_ID, E_LOCAPI_STOP_BATCHING_MSG_ID);
     (PB_E_LOCAPI_UPDATE_BATCHING_OPTIONS_MSG_ID, E_LOCAPI_UPDATE_BATCHING_OPTIONS_MSG_ID);
     (PB_E_LOCAPI_BATCHING_MSG_ID, E_LOCAPI_BATCHING_MSG_ID);
     (PB_E_LOCAPI_ADD_GEOFENCES_MSG_ID, E_LOCAPI_ADD_GEOFENCES_MSG_ID);
     (PB_E_LOCAPI_REMOVE_GEOFENCES_MSG_ID, E_LOCAPI_REMOVE_GEOFENCES_MSG_ID);
     (PB_E_LOCAPI_MODIFY_GEOFENCES_MSG_ID, E_LOCAPI_MODIFY_GEOFENCES_MSG_ID);
     (PB_E_LOCAPI_PAUSE_GEOFENCES_MSG_ID, E_LOCAPI_PAUSE_GEOFENCES_MSG_ID);
     (PB_E_LOCAPI_RESUME_GEOFENCES_MSG_ID, E_LOCAPI_RESUME_GEOFENCES_MSG_ID);
     (PB_E_LOCAPI_GEOFENCE_BREACH_MSG_ID, E_LOCAPI_GEOFENCE_BREACH_MSG_ID);
     (PB_E_LOCAPI_MEAS_MSG_ID, E_LOCAPI_MEAS_MSG_ID);
     (PB_E_LOCAPI_GET_SINGLE_TERRESTRIAL_POS_REQ_MSG_ID, E_LOCAPI_GET_SINGLE_TERRESTRIAL_POS_REQ_MSG_ID);
     (PB_E_LOCAPI_GET_SINGLE_TERRESTRIAL_POS_RESP_MSG_ID, E_LOCAPI_GET_SINGLE_TERRESTRIAL_POS_RESP_MSG_ID);
     (PB_E_LOCAPI_PINGTEST_MSG_ID, E_LOCAPI_PINGTEST_MSG_ID);
     (PB_E_INTAPI_CONFIG_CONSTRAINTED_TUNC_MSG_ID, E_INTAPI_CONFIG_CONSTRAINTED_TUNC_MSG_ID);
     (PB_E_INTAPI_CONFIG_POSITION_ASSISTED_CLOCK_ESTIMATOR_MSG_ID, E_INTAPI_CONFIG_POSITION_ASSISTED_CLOCK_ESTIMATOR_MSG_ID);
     (PB_E_INTAPI_CONFIG_SV_CONSTELLATION_MSG_ID, E_INTAPI_CONFIG_SV_CONSTELLATION_MSG_ID);
     (PB_E_INTAPI_CONFIG_AIDING_DATA_DELETION_MSG_ID, E_INTAPI_CONFIG_AIDING_DATA_DELETION_MSG_ID);
     (PB_E_INTAPI_CONFIG_LEVER_ARM_MSG_ID, E_INTAPI_CONFIG_LEVER_ARM_MSG_ID);
     (PB_E_INTAPI_CONFIG_ROBUST_LOCATION_MSG_ID, E_INTAPI_CONFIG_ROBUST_LOCATION_MSG_ID);
     (PB_E_INTAPI_CONFIG_MIN_GPS_WEEK_MSG_ID, E_INTAPI_CONFIG_MIN_GPS_WEEK_MSG_ID);
     (PB_E_INTAPI_CONFIG_DEAD_RECKONING_ENGINE_MSG_ID, E_INTAPI_CONFIG_DEAD_RECKONING_ENGINE_MSG_ID);
     (PB_E_INTAPI_CONFIG_MIN_SV_ELEVATION_MSG_ID, E_INTAPI_CONFIG_MIN_SV_ELEVATION_MSG_ID);
     (PB_E_INTAPI_CONFIG_CONSTELLATION_SECONDARY_BAND_MSG_ID, E_INTAPI_CONFIG_CONSTELLATION_SECONDARY_BAND_MSG_ID);
     (PB_E_INTAPI_CONFIG_ENGINE_RUN_STATE_MSG_ID, E_INTAPI_CONFIG_ENGINE_RUN_STATE_MSG_ID);
     (PB_E_INTAPI_CONFIG_USER_CONSENT_TERRESTRIAL_POSITIONING_MSG_ID, E_INTAPI_CONFIG_USER_CONSENT_TERRESTRIAL_POSITIONING_MSG_ID);
     (PB_E_INTAPI_GET_ROBUST_LOCATION_CONFIG_REQ_MSG_ID, E_INTAPI_GET_ROBUST_LOCATION_CONFIG_REQ_MSG_ID);
     (PB_E_INTAPI_GET_ROBUST_LOCATION_CONFIG_RESP_MSG_ID, E_INTAPI_GET_ROBUST_LOCATION_CONFIG_RESP_MSG_ID);
     (PB_E_INTAPI_GET_MIN_GPS_WEEK_REQ_MSG_ID, E_INTAPI_GET_MIN_GPS_WEEK_REQ_MSG_ID);
     (PB_E_INTAPI_GET_MIN_GPS_WEEK_RESP_MSG_ID, E_INTAPI_GET_MIN_GPS_WEEK_RESP_MSG_ID);
     (PB_E_INTAPI_GET_MIN_SV_ELEVATION_REQ_MSG_ID, E_INTAPI_GET_MIN_SV_ELEVATION_REQ_MSG_ID);
     (PB_E_INTAPI_GET_MIN_SV_ELEVATION_RESP_MSG_ID, E_INTAPI_GET_MIN_SV_ELEVATION_RESP_MSG_ID);
     (PB_E_INTAPI_GET_CONSTELLATION_SECONDARY_BAND_CONFIG_REQ_MSG_ID, E_INTAPI_GET_CONSTELLATION_SECONDARY_BAND_CONFIG_REQ_MSG_ID);
     (PB_E_INTAPI_GET_CONSTELLATION_SECONDARY_BAND_CONFIG_RESP_MSG_ID, E_INTAPI_GET_CONSTELLATION_SECONDARY_BAND_CONFIG_RESP_MSG_ID)] E_LOCAPI_UNDEFINED_MSG_ID.
Definition getEnumForPBLocationError (pbLocErr : Z) : Z :=
  switch pbLocErr
    [(PB_LOCATION_ERROR_SUCCESS, LOCATION_ERROR_SUCCESS);
     (PB_LOCATION_ERROR_INVALID_PARAMETER, LOCATION_ERROR_INVALID_PARAMETER);
     (PB_LOCATION_ERROR_NOT_SUPPORTED, LOCATION_ERROR_NOT_SUPPORTED);
     (PB_LOCATION_ERROR_TIMEOUT, LOCATION_ERROR_TIMEOUT)] LOCATION_ERROR_GENERAL_FAILURE.
Definition getEnumForPBClientType (pbClntTyp : Z) : Z :=
  switch pbClntTyp
    [(PB_LOCATION_INTEGRATION_API, LOCATION_INTEGRATION_API)] LOCATION_CLIENT_API.
Definition getEnumForPBBatchingMode (pbBatchMode : Z) : Z :=
  switch pbBatchMode
    [(PB_BATCHING_MODE_TRIP, BATCHING_MODE_TRIP); (PB_BATCHING_MODE_NO_AUTO_REPORT, BATCHING_MODE_NO_AUTO_REPORT)] BATCHING_MODE_ROUTINE.
Definition getEnumForPBGnssSuplMode (pbGnssSuplMode : Z) : Z :=
  switch pbGnssSuplMode
    [(PB_GNSS_SUPL_MODE_MSB, GNSS_SUPL_MODE_MSB); (PB_GNSS_SUPL_MODE_MSA, GNSS_SUPL_MODE_MSA)] GNSS_SUPL_MODE_STANDALONE.
Definition getEnumForPBBatchingStatus (pbBatchStat : Z) : Z :=
  switch pbBatchStat
    [(PB_BATCHING_STATUS_TRIP_COMPLETED, BATCHING_STATUS_TRIP_COMPLETED);
     (PB_BATCHING_STATUS_POSITION_AVAILABE, BATCHING_STATUS_POSITION_AVAILABE);
     (PB_BATCHING_STATUS_POSITION_UNAVAILABLE, BATCHING_STATUS_POSITION_UNAVAILABLE)] BATCHING_STATUS_POSITION_UNAVAILABLE.
Definition getEnumForPBGnssMeasMultipathIndic (pbGnssMeasMultipathIndic : Z) : Z :=
  switch pbGnssMeasMultipathIndic
    [(PB_GNSS_MEASUREMENTS_MULTIPATH_INDICATOR_UNKNOWN, GNSS_MEASUREMENTS_MULTIPATH_INDICATOR_UNKNOWN);
     (PB_GNSS_MEASUREMENTS_MULTIPATH_INDICATOR_PRESENT, GNSS_MEASUREMENTS_MULTIPATH_INDICATOR_PRESENT);
     (PB_GNSS_MEASUREMENTS_MULTIPATH_INDICATOR_NOT_PRESENT, GNSS_MEASUREMENTS_MULTIPATH_INDICATOR_NOT_PRESENT)] GNSS_MEASUREMENTS_MULTIPATH_INDICATOR_UNKNOWN.
Definition getEnumForPBLocReliability (pbLocReliability : Z) : Z :=
  switch pbLocReliability
    [(PB_LOCATION_RELIABILITY_NOT_SET, LOCATION_RELIABILITY_NOT_SET);
     (PB_LOCATION_RELIABILITY_VERY_LOW, LOCATION_RELIABILITY_VERY_LOW);
     (PB_LOCATION_RELIABILITY_LOW, LOCATION_RELIABILITY_LOW);
     (PB_LOCATION_RELIABILITY_MEDIUM, LOCATION_RELIABILITY_MEDIUM);
     (PB_LOCATION_RELIABILITY_HIGH, LOCATION_RELIABILITY_HIGH)] LOCATION_RELIABILITY_NOT_SET.
Definition getEnumForPBGnssLocSvSystem (pbGnssLocSvSysEnumType : Z) : Z :=
  switch pbGnssLocSvSysEnumType
    [(PB_GNSS_LOC_SV_SYSTEM_INVALID, GNSS_LOC_SV_SYSTEM_UNKNOWN); (PB_GNSS_LOC_SV_SYSTEM_GPS, GNSS_LOC_SV_SYSTEM_GPS);
     (PB_GNSS_LOC_SV_SYSTEM_GALILEO, GNSS_LOC_SV_SYSTEM_GALILEO);
     (PB_GNSS_LOC_SV_SYSTEM_SBAS, GNSS_LOC_SV_SYSTEM_SBAS);
     (PB_GNSS_LOC_SV_SYSTEM_GLONASS, GNSS_LOC_SV_SYSTEM_GLONASS); (PB_GNSS_LOC_SV_SYSTEM_BDS, GNSS_LOC_SV_SYSTEM_BDS);
     (PB_GNSS_LOC_SV_SYSTEM_QZSS, GNSS_LOC_SV_SYSTEM_QZSS); (PB_GNSS_LOC_SV_SYSTEM_NAVIC, GNSS_LOC_SV_SYSTEM_NAVIC)] GNSS_LOC_SV_SYSTEM_UNKNOWN.
Definition getEnumForPBLocOutputEngineType (pbLocOpEngType : Z) : Z :=
  switch pbLocOpEngType
    [(PB_LOC_OUTPUT_ENGINE_FUSED, LOC_OUTPUT_ENGINE_FUSED); (PB_LOC_OUTPUT_ENGINE_SPE, LOC_OUTPUT_ENGINE_SPE);
     (PB_LOC_OUTPUT_ENGINE_PPE, LOC_OUTPUT_ENGINE_PPE)] LOC_OUTPUT_ENGINE_FUSED.
Definition getEnumForPBLocEngineRunState (pbLocEngRunState : Z) : Z :=
  switch pbLocEngRunState
    [(PB_LOC_ENGINE_RUN_STATE_PAUSE, LOC_ENGINE_RUN_STATE_PAUSE);
     (PB_LOC_ENGINE_RUN_STATE_RESUME, LOC_ENGINE_RUN_STATE_RESUME)] 0.
Definition getPBEnumForLocEngineRunState (locEngineRunState : Z) : Z :=
  switch locEngineRunState
    [(LOC_ENGINE_RUN_STATE_PAUSE, PB_LOC_ENGINE_RUN_STATE_PAUSE);
     (LOC_ENGINE_RUN_STATE_RESUME, PB_LOC_ENGINE_RUN_STATE_RESUME)] PB_LOC_ENGINE_RUN_STATE_INVALID.
Definition getTerrestrialTechMaskFromPB (pbTerrestrialTechMask : Z) : Z :=
  or_bits pbTerrestrialTechMask
    [(PB_TERRESTRIAL_TECH_GTP_WWAN, TERRESTRIAL_TECH_GTP_WWAN)] 0.
Definition getPBMaskForTerrestrialTechMask (terrestrialTechMask : Z) : Z :=
  or_bits terrestrialTechMask
    [(TERRESTRIAL_TECH_GTP_WWAN, PB_TERRESTRIAL_TECH_GTP_WWAN)] PB_TERRESTRIAL_TECH_INVALID.
Definition getGnssSvTypeFromPBGnssLocSvSystemEnumType (pbGnssLocSvSysEnum : Z) : Z :=
  switch pbGnssLocSvSysEnum
    [(PB_GNSS_LOC_SV_SYSTEM_GPS, GNSS_SV_TYPE_GPS); (PB_GNSS_LOC_SV_SYSTEM_GALILEO, GNSS_SV_TYPE_GALILEO);
     (PB_GNSS_LOC_SV_SYSTEM_SBAS, GNSS_SV_TYPE_SBAS); (PB_GNSS_LOC_SV_SYSTEM_GLONASS, GNSS_SV_TYPE_GLONASS);
     (PB_GNSS_LOC_SV_SYSTEM_BDS, GNSS_SV_TYPE_BEIDOU); (PB_GNSS_LOC_SV_SYSTEM_QZSS, GNSS_SV_TYPE_QZSS);
     (PB_GNSS_LOC_SV_SYSTEM_NAVIC, GNSS_SV_TYPE_NAVIC)] GNSS_SV_TYPE_UNKNOWN.
Definition getPBEnumForELocMsgID (eLocMsgId : Z) : Z :=
  switch eLocMsgId
    [(E_LOCAPI_CLIENT_REGISTER_MSG_ID, PB_E_LOCAPI_CLIENT_REGISTER_MSG_ID);
     (E_LOCAPI_CLIENT_DEREGISTER_MSG_ID, PB_E_LOCAPI_CLIENT_DEREGISTER_MSG_ID);
     (E_LOCAPI_CAPABILILTIES_MSG_ID, PB_E_LOCAPI_CAPABILILTIES_MSG_ID);
     (E_LOCAPI_HAL_READY_MSG_ID, PB_E_LOCAPI_HAL_READY_MSG_ID);
     (E_LOCAPI_START_TRACKING_MSG_ID, PB_E_LOCAPI_START_TRACKING_MSG_ID);
     (E_LOCAPI_STOP_TRACKING_MSG_ID, PB_E_LOCAPI_STOP_TRACKING_MSG_ID);
     (E_LOCAPI_UPDATE_CALLBACKS_MSG_ID, PB_E_LOCAPI_UPDATE_CALLBACKS_MSG_ID);
     (E_LOCAPI_UPDATE_TRACKING_OPTIONS_MSG_ID, PB_E_LOCAPI_UPDATE_TRACKING_OPTIONS_MSG_ID);
     (E_LOCAPI_CONTROL_UPDATE_CONFIG_MSG_ID, PB_E_LOCAPI_CONTROL_UPDATE_CONFIG_MSG_ID);
     (E_LOCAPI_CONTROL_DELETE_AIDING_DATA_MSG_ID, PB_E_LOCAPI_CONTROL_DELETE_AIDING_DATA_MSG_ID);
     (E_LOCAPI_CONTROL_UPDATE_NETWORK_AVAILABILITY_MSG_ID, PB_E_LOCAPI_CONTROL_UPDATE_NETWORK_AVAILABILITY_MSG_ID);
     (E_LOCAPI_LOCATION_MSG_ID, PB_E_LOCAPI_LOCATION_MSG_ID);
     (E_LOCAPI_LOCATION_INFO_MSG_ID, PB_E_LOCAPI_LOCATION_INFO_MSG_ID);
     (E_LOCAPI_SATELLITE_VEHICLE_MSG_ID, PB_E_LOCAPI_SATELLITE_VEHICLE_MSG_ID);
     (E_LOCAPI_NMEA_MSG_ID, PB_E_LOCAPI_NMEA_MSG_ID); (E_LOCAPI_DATA_MSG_ID, PB_E_LOCAPI_DATA_MSG_ID);
     (E_LOCAPI_GET_GNSS_ENGERY_CONSUMED_MSG_ID, PB_E_LOCAPI_GET_GNSS_ENGERY_CONSUMED_MSG_ID);
     (E_LOCAPI_LOCATION_SYSTEM_INFO_MSG_ID, PB_E_LOCAPI_LOCATION_SYSTEM_INFO_MSG_ID);
     (E_LOCAPI_ENGINE_LOCATIONS_INFO_MSG_ID, PB_E_LOCAPI_ENGINE_LOCATIONS_INFO_MSG_ID);
     (E_LOCAPI_START_BATCHING_MSG_ID, PB_E_LOCAPI_START_BATCHING_MSG_ID);
     (E_LOCAPI_STOP_BATCHING_MSG_ID, PB_E_LOCAPI_STOP_BATCHING_MSG_ID);
     (E_LOCAPI_UPDATE_BATCHING_OPTIONS_MSG_ID, PB_E_LOCAPI_UPDATE_BATCHING_OPTIONS_MSG_ID);
     (E_LOCAPI_BATCHING_MSG_ID, PB_E_LOCAPI_BATCHING_MSG_ID);
     (E_LOCAPI_ADD_GEOFENCES_MSG_ID, PB_E_LOCAPI_ADD_GEOFENCES_MSG_ID);
     (E_LOCAPI_REMOVE_GEOFENCES_MSG_ID, PB_E_LOCAPI_REMOVE_GEOFENCES_MSG_ID);
     (E_LOCAPI_MODIFY_GEOFENCES_MSG_ID, PB_E_LOCAPI_MODIFY_GEOFENCES_MSG_ID);
     (E_LOCAPI_PAUSE_GEOFENCES_MSG_ID, PB_E_LOCAPI_PAUSE_GEOFENCES_MSG_ID);
     (E_LOCAPI_RESUME_GEOFENCES_MSG_ID, PB_E_LOCAPI_RESUME_GEOFENCES_MSG_ID);
     (E_LOCAPI_GEOFENCE_BREACH_MSG_ID, PB_E_LOCAPI_GEOFENCE_BREACH_MSG_ID);
     (E_LOCAPI_MEAS_MSG_ID, PB_E_LOCAPI_MEAS_MSG_ID);
     (E_LOCAPI_GET_SINGLE_TERRESTRIAL_POS_REQ_MSG_ID, PB_E_LOCAPI_GET_SINGLE_TERRESTRIAL_POS_REQ_MSG_ID);
     (E_LOCAPI_GET_SINGLE_TERRESTRIAL_POS_RESP_MSG_ID, PB_E_LOCAPI_GET_SINGLE_TERRESTRIAL_POS_RESP_MSG_ID);
     (E_LOCAPI_PINGTEST_MSG_ID, PB_E_LOCAPI_PINGTEST_MSG_ID);
     (E_INTAPI_CONFIG_CONSTRAINTED_TUNC_MSG_ID, PB_E_INTAPI_CONFIG_CONSTRAINTED_TUNC_MSG_ID);
     (E_INTAPI_CONFIG_POSITION_ASSISTED_CLOCK_ESTIMATOR_MSG_ID, PB_E_INTAPI_CONFIG_POSITION_ASSISTED_CLOCK_ESTIMATOR_MSG_ID);
     (E_INTAPI_CONFIG_SV_CONSTELLATION_MSG_ID, PB_E_INTAPI_CONFIG_SV_CONSTELLATION_MSG_ID);
     (E_INTAPI_CONFIG_AIDING_DATA_DELETION_MSG_ID, PB_E_INTAPI_CONFIG_AIDING_DATA_DELETION_MSG_ID);
     (E_INTAPI_CONFIG_LEVER_ARM_MSG_ID, PB_E_INTAPI_CONFIG_LEVER_ARM_MSG_ID);
     (E_INTAPI_CONFIG_ROBUST_LOCATION_MSG_ID, PB_E_INTAPI_CONFIG_ROBUST_LOCATION_MSG_ID);
     (E_INTAPI_CONFIG_MIN_GPS_WEEK_MSG_ID, PB_E_INTAPI_CONFIG_MIN_GPS_WEEK_MSG_ID);
     (E_INTAPI_CONFIG_DEAD_RECKONING_ENGINE_MSG_ID, PB_E_INTAPI_CONFIG_DEAD_RECKONING_ENGINE_MSG_ID);
     (E_INTAPI_CONFIG_MIN_SV_ELEVATION_MSG_ID, PB_E_INTAPI_CONFIG_MIN_SV_ELEVATION_MSG_ID);
     (E_INTAPI_CONFIG_CONSTELLATION_SECONDARY_BAND_MSG_ID, PB_E_INTAPI_CONFIG_CONSTELLATION_SECONDARY_BAND_MSG_ID);
     (E_INTAPI_CONFIG_ENGINE_RUN_STATE_MSG_ID, PB_E_INTAPI_CONFIG_ENGINE_RUN_STATE_MSG_ID);
     (E_INTAPI_CONFIG_USER_CONSENT_TERRESTRIAL_POSITIONING_MSG_ID, PB_E_INTAPI_CONFIG_USER_CONSENT_TERRESTRIAL_POSITIONING_MSG_ID);
     (E_INTAPI_GET_ROBUST_LOCATION_CONFIG_REQ_MSG_ID, PB_E_INTAPI_GET_ROBUST_LOCATION_CONFIG_REQ_MSG_ID);
     (E_INTAPI_GET_ROBUST_LOCATION_CONFIG_RESP_MSG_ID, PB_E_INTAPI_GET_ROBUST_LOCATION_CONFIG_RESP_MSG_ID);
     (E_INTAPI_GET_MIN_GPS_WEEK_REQ_MSG_ID, PB_E_INTAPI_GET_MIN_GPS_WEEK_REQ_MSG_ID);
     (E_INTAPI_GET_MIN_GPS_WEEK_RESP_MSG_ID, PB_E_INTAPI_GET_MIN_GPS_WEEK_RESP_MSG_ID);
     (E_INTAPI_GET_MIN_SV_ELEVATION_REQ_MSG_ID, PB_E_INTAPI_GET_MIN_SV_ELEVATION_REQ_MSG_ID);
     (E_INTAPI_GET_MIN_SV_ELEVATION_RESP_MSG_ID, PB_E_INTAPI_GET_MIN_SV_ELEVATION_RESP_MSG_ID);
     (E_INTAPI_GET_CONSTELLATION_SECONDARY_BAND_CONFIG_REQ_MSG_ID, PB_E_INTAPI_GET_CONSTELLATION_SECONDARY_BAND_CONFIG_REQ_MSG_ID);
     (E_INTAPI_GET_CONSTELLATION_SECONDARY_BAND_CONFIG_RESP_MSG_ID, PB_E_INTAPI_GET_CONSTELLATION_SECONDARY_BAND_CONFIG_RESP_MSG_ID)] PB_E_LOCAPI_UNDEFINED_MSG_ID.
Definition getPBEnumForClientType (clientTyp : Z) : Z :=
  switch clientTyp
    [(LOCATION_CLIENT_API, PB_LOCATION_CLIENT_API)] PB_LOCATION_INTEGRATION_API.
Definition getPBEnumForBatchingMode (batchMode : Z) : Z :=
  switch batchMode
    [(BATCHING_MODE_ROUTINE, PB_BATCHING_MODE_ROUTINE); (BATCHING_MODE_TRIP, PB_BATCHING_MODE_TRIP);
     (BATCHING_MODE_NO_AUTO_REPORT, PB_BATCHING_MODE_NO_AUTO_REPORT)] PB_BATCHING_MODE_ROUTINE.
Definition getPBEnumForLocationError (locErr : Z) : Z :=
  switch locErr
    [(LOCATION_ERROR_SUCCESS, PB_LOCATION_ERROR_SUCCESS);
     (LOCATION_ERROR_INVALID_PARAMETER, PB_LOCATION_ERROR_INVALID_PARAMETER);
     (LOCATION_ERROR_NOT_SUPPORTED, PB_LOCATION_ERROR_NOT_SUPPORTED);
     (LOCATION_ERROR_TIMEOUT, PB_LOCATION_ERROR_TIMEOUT)] PB_LOCATION_ERROR_GENERAL_FAILURE.
Definition getPBEnumForGnssSuplMode (gnssSuplMode : Z) : Z :=
  switch gnssSuplMode
    [(GNSS_SUPL_MODE_STANDALONE, PB_GNSS_SUPL_MODE_STANDALONE); (GNSS_SUPL_MODE_MSB, PB_GNSS_SUPL_MODE_MSB);
     (GNSS_SUPL_MODE_MSA, PB_GNSS_SUPL_MODE_MSA)] PB_GNSS_SUPL_MODE_STANDALONE.
Definition getPBEnumForBatchingStatus (batchStatus : Z) : Z :=
  switch batchStatus
    [(BATCHING_STATUS_TRIP_COMPLETED, PB_BATCHING_STATUS_TRIP_COMPLETED);
     (BATCHING_STATUS_POSITION_AVAILABE, PB_BATCHING_STATUS_POSITION_AVAILABE);
     (BATCHING_STATUS_POSITION_UNAVAILABLE, PB_BATCHING_STATUS_POSITION_UNAVAILABLE)] PB_BATCHING_STATUS_POSITION_UNAVAILABLE.
Definition getPBEnumForLocationReliability (locReliab : Z) : Z :=
  switch locReliab
    [(LOCATION_RELIABILITY_NOT_SET, PB_LOCATION_RELIABILITY_NOT_SET);
     (LOCATION_RELIABILITY_VERY_LOW, PB_LOCATION_RELIABILITY_VERY_LOW);
     (LOCATION_RELIABILITY_LOW, PB_LOCATION_RELIABILITY_LOW);
     (LOCATION_RELIABILITY_MEDIUM, PB_LOCATION_RELIABILITY_MEDIUM);
     (LOCATION_RELIABILITY_HIGH, PB_LOCATION_RELIABILITY_HIGH)] PB_LOCATION_RELIABILITY_NOT_SET.
Definition getPBEnumForLocOutputEngineType (locOpEng : Z) : Z :=
  switch locOpEng
    [(LOC_OUTPUT_ENGINE_FUSED, PB_LOC_OUTPUT_ENGINE_FUSED); (LOC_OUTPUT_ENGINE_SPE, PB_LOC_OUTPUT_ENGINE_SPE);
     (LOC_OUTPUT_ENGINE_PPE, PB_LOC_OUTPUT_ENGINE_PPE)] PB_LOC_OUTPUT_ENGINE_FUSED.
Definition getPBEnumForGnssMeasMultiPathIndic (gnssMeasMultiPathIndic : Z) : Z :=
  switch gnssMeasMultiPathIndic
    [(GNSS_MEASUREMENTS_MULTIPATH_INDICATOR_UNKNOWN, PB_GNSS_MEASUREMENTS_MULTIPATH_INDICATOR_UNKNOWN);
     (GNSS_MEASUREMENTS_MULTIPATH_INDICATOR_PRESENT, PB_GNSS_MEASUREMENTS_MULTIPATH_INDICATOR_PRESENT);
     (GNSS_MEASUREMENTS_MULTIPATH_INDICATOR_NOT_PRESENT, PB_GNSS_MEASUREMENTS_MULTIPATH_INDICATOR_NOT_PRESENT)] PB_GNSS_MEASUREMENTS_MULTIPATH_INDICATOR_UNKNOWN.
Definition getPBEnumForGnssLocSvSystem (gnssLocSvSysEnumType : Z) : Z :=
  switch gnssLocSvSysEnumType
    [(GNSS_LOC_SV_SYSTEM_GPS, PB_GNSS_LOC_SV_SYSTEM_GPS); (GNSS_LOC_SV_SYSTEM_GALILEO, PB_GNSS_LOC_SV_SYSTEM_GALILEO);
     (GNSS_LOC_SV_SYSTEM_SBAS, PB_GNSS_LOC_SV_SYSTEM_SBAS);
     (GNSS_LOC_SV_SYSTEM_GLONASS, PB_GNSS_LOC_SV_SYSTEM_GLONASS); (GNSS_LOC_SV_SYSTEM_BDS, PB_GNSS_LOC_SV_SYSTEM_BDS);
     (GNSS_LOC_SV_SYSTEM_QZSS, PB_GNSS_LOC_SV_SYSTEM_QZSS); (GNSS_LOC_SV_SYSTEM_NAVIC, PB_GNSS_LOC_SV_SYSTEM_NAVIC)] PB_GNSS_LOC_SV_SYSTEM_INVALID.
Definition getPBGnssLocSvSysEnumFromGnssSvType (gnssSvType : Z) : Z :=
  switch gnssSvType
    [(GNSS_SV_TYPE_UNKNOWN, PB_GNSS_LOC_SV_SYSTEM_INVALID); (GNSS_SV_TYPE_GPS, PB_GNSS_LOC_SV_SYSTEM_GPS);
     (GNSS_SV_TYPE_SBAS, PB_GNSS_LOC_SV_SYSTEM_SBAS); (GNSS_SV_TYPE_GLONASS, PB_GNSS_LOC_SV_SYSTEM_GLONASS);
     (GNSS_SV_TYPE_QZSS, PB_GNSS_LOC_SV_SYSTEM_QZSS); (GNSS_SV_TYPE_BEIDOU, PB_GNSS_LOC_SV_SYSTEM_BDS);
     (GNSS_SV_TYPE_GALILEO, PB_GNSS_LOC_SV_SYSTEM_GALILEO); (GNSS_SV_TYPE_NAVIC, PB_GNSS_LOC_SV_SYSTEM_NAVIC)] PB_GNSS_LOC_SV_SYSTEM_INVALID.
Definition getPBMaskForLocationCallbacksMask (locCbMask : Z) : Z :=
  or_bits locCbMask
    [(E_LOC_CB_DISTANCE_BASED_TRACKING_BIT, PB_E_LOC_CB_DISTANCE_BASED_TRACKING_BIT);
     (E_LOC_CB_GNSS_LOCATION_INFO_BIT, PB_E_LOC_CB_GNSS_LOCATION_INFO_BIT);
     (E_LOC_CB_GNSS_SV_BIT, PB_E_LOC_CB_GNSS_SV_BIT); (E_LOC_CB_GNSS_NMEA_BIT, PB_E_LOC_CB_GNSS_NMEA_BIT);
     (E_LOC_CB_GNSS_DATA_BIT, PB_E_LOC_CB_GNSS_DATA_BIT); (E_LOC_CB_SYSTEM_INFO_BIT, PB_E_LOC_CB_SYSTEM_INFO_BIT);
     (E_LOC_CB_BATCHING_BIT, PB_E_LOC_CB_BATCHING_BIT);
     (E_LOC_CB_BATCHING_STATUS_BIT, PB_E_LOC_CB_BATCHING_STATUS_BIT);
     (E_LOC_CB_GEOFENCE_BREACH_BIT, PB_E_LOC_CB_GEOFENCE_BREACH_BIT);
     (E_LOC_CB_ENGINE_LOCATIONS_INFO_BIT, PB_E_LOC_CB_ENGINE_LOCATIONS_INFO_BIT);
     (E_LOC_CB_SIMPLE_LOCATION_INFO_BIT, PB_E_LOC_CB_SIMPLE_LOCATION_INFO_BIT);
     (E_LOC_CB_GNSS_MEAS_BIT, PB_E_LOC_CB_GNSS_MEAS_BIT)] 0.
Definition getPBMaskForLocationCapabilitiesMask (locCapabMask : Z) : Z :=
  or_bits locCapabMask
    [(LOCATION_CAPABILITIES_TIME_BASED_TRACKING_BIT, PB_LOCATION_CAPS_TIME_BASED_TRACKING_BIT);
     (LOCATION_CAPABILITIES_TIME_BASED_BATCHING_BIT, PB_LOCATION_CAPS_TIME_BASED_BATCHING_BIT);
     (LOCATION_CAPABILITIES_DISTANCE_BASED_TRACKING_BIT, PB_LOCATION_CAPS_DISTANCE_BASED_TRACKING_BIT);
     (LOCATION_CAPABILITIES_DISTANCE_BASED_BATCHING_BIT, PB_LOCATION_CAPS_DISTANCE_BASED_BATCHING_BIT);
     (LOCATION_CAPABILITIES_GEOFENCE_BIT, PB_LOCATION_CAPS_GEOFENCE_BIT);
     (LOCATION_CAPABILITIES_OUTDOOR_TRIP_BATCHING_BIT, PB_LOCATION_CAPS_OUTDOOR_TRIP_BATCHING_BIT);
     (LOCATION_CAPABILITIES_GNSS_MEASUREMENTS_BIT, PB_LOCATION_CAPS_GNSS_MEASUREMENTS_BIT);
     (LOCATION_CAPABILITIES_CONSTELLATION_ENABLEMENT_BIT, PB_LOCATION_CAPS_CONSTELLATION_ENABLEMENT_BIT);
     (LOCATION_CAPABILITIES_QWES_CARRIER_PHASE_BIT, PB_LOCATION_CAPS_QWES_CARRIER_PHASE_BIT);
     (LOCATION_CAPABILITIES_QWES_SV_POLYNOMIAL_BIT, PB_LOCATION_CAPS_QWES_SV_POLYNOMIAL_BIT);
     (LOCATION_CAPABILITIES_QWES_GNSS_SINGLE_FREQUENCY, PB_LOCATION_CAPS_QWES_GNSS_SINGLE_FREQUENCY);
     (LOCATION_CAPABILITIES_QWES_GNSS_MULTI_FREQUENCY, PB_LOCATION_CAPS_QWES_GNSS_MULTI_FREQUENCY);
     (LOCATION_CAPABILITIES_QWES_VPE, PB_LOCATION_CAPS_QWES_VPE);
     (LOCATION_CAPABILITIES_QWES_CV2X_LOCATION_BASIC, PB_LOCATION_CAPS_QWES_CV2X_LOCATION_BASIC);
     (LOCATION_CAPABILITIES_QWES_CV2X_LOCATION_PREMIUM, PB_LOCATION_CAPS_QWES_CV2X_LOCATION_PREMIUM);
     (LOCATION_CAPABILITIES_QWES_PPE, PB_LOCATION_CAPS_QWES_PPE);
     (LOCATION_CAPABILITIES_QWES_QDR2, PB_LOCATION_CAPS_QWES_QDR2);
     (LOCATION_CAPABILITIES_QWES_QDR3, PB_LOCATION_CAPS_QWES_QDR3)] 0.
Definition getPBMaskForPositioningEngineMask (posEngMask : Z) : Z :=
  or_bits posEngMask
    [(STANDARD_POSITIONING_ENGINE, PB_STANDARD_POSITIONING_ENGINE); (DEAD_RECKONING_ENGINE, PB_DEAD_RECKONING_ENGINE);
     (PRECISE_POSITIONING_ENGINE, PB_PRECISE_POSITIONING_ENGINE)] 0.
Definition getPBMaskForLeverArmTypeMask (leverArmTypeMask : Z) : Z :=
  or_bits leverArmTypeMask
    [(LEVER_ARM_TYPE_GNSS_TO_VRP_BIT, PB_LEVER_ARM_TYPE_GNSS_TO_VRP_BIT);
     (LEVER_ARM_TYPE_DR_IMU_TO_GNSS_BIT, PB_LEVER_ARM_TYPE_DR_IMU_TO_GNSS_BIT);
     (LEVER_ARM_TYPE_VEPP_IMU_TO_GNSS_BIT, PB_LEVER_ARM_TYPE_VEPP_IMU_TO_GNSS_BIT)] 0.
Definition getPBMaskForLocReqEngineTypeMask (locReqEngTypeMask : Z) : Z :=
  or_bits locReqEngTypeMask
    [(LOC_REQ_ENGINE_FUSED_BIT, PB_LOC_REQ_ENGINE_FUSED_BIT); (LOC_REQ_ENGINE_SPE_BIT, PB_LOC_REQ_ENGINE_SPE_BIT);
     (LOC_REQ_ENGINE_PPE_BIT, PB_LOC_REQ_ENGINE_PPE_BIT)] 0.
Definition getPBMaskForGnssCfgRobustLocValidMask (gnssCfgRobustLocValidMask : Z) : Z :=
  or_bits gnssCfgRobustLocValidMask
    [(GNSS_CONFIG_ROBUST_LOCATION_ENABLED_VALID_BIT, PB_GNSS_CONFIG_ROBUST_LOCATION_ENABLED_VALID_BIT);
     (GNSS_CONFIG_ROBUST_LOCATION_ENABLED_FOR_E911_VALID_BIT, PB_GNSS_CONFIG_ROBUST_LOCATION_ENABLED_FOR_E911_VALID_BIT);
     (GNSS_CONFIG_ROBUST_LOCATION_VERSION_VALID_BIT, PB_GNSS_CONFIG_ROBUST_LOCATION_VERSION_VALID_BIT)] 0.
Definition getPBMaskForLocSysInfoMask (locSysInfoMask : Z) : Z :=
  or_bits locSysInfoMask
    [(LOCATION_SYS_INFO_LEAP_SECOND, PB_LOCATION_SYS_INFO_LEAP_SECOND)] 0.
Definition getPBMaskForGnssDataMask (gnssDataMask : Z) : Z :=
  or_bits gnssDataMask
    [(GNSS_LOC_DATA_JAMMER_IND_BIT, PB_GNSS_LOC_DATA_JAMMER_IND_BIT);
     (GNSS_LOC_DATA_AGC_BIT, PB_GNSS_LOC_DATA_AGC_BIT)] 0.
Definition getPBMaskForGnssAidingDataSvMask (gnssAidDataSvMask : Z) : Z :=
  or_bits gnssAidDataSvMask
    [(GNSS_AIDING_DATA_SV_EPHEMERIS_BIT, PB_AIDING_DATA_SV_EPHEMERIS_BIT)] 0.
Definition getPBMaskForLeapSecondSysInfoMask (leapSecSysInfoMask : Z) : Z :=
  or_bits leapSecSysInfoMask
    [(LEAP_SECOND_SYS_INFO_CURRENT_LEAP_SECONDS_BIT, PB_LEAP_SECOND_SYS_INFO_CURRENT_LEAP_SECONDS_BIT);
     (LEAP_SECOND_SYS_INFO_LEAP_SECOND_CHANGE_BIT, PB_LEAP_SECOND_SYS_INFO_LEAP_SECOND_CHANGE_BIT)] 0.
Definition getPBMaskForGnssSystemTimeStructTypeFlags (gnssSysTimeStructTypeFlg : Z) : Z :=
  or_bits gnssSysTimeStructTypeFlg
    [(GNSS_SYSTEM_TIME_WEEK_VALID, PB_GNSS_SYSTEM_TIME_WEEK_VALID);
     (GNSS_SYSTEM_TIME_WEEK_MS_VALID, PB_GNSS_SYSTEM_TIME_WEEK_MS_VALID);
     (GNSS_SYSTEM_CLK_TIME_BIAS_VALID, PB_GNSS_SYSTEM_CLK_TIME_BIAS_VALID);
     (GNSS_SYSTEM_CLK_TIME_BIAS_UNC_VALID, PB_GNSS_SYSTEM_CLK_TIME_BIAS_UNC_VALID);
     (GNSS_SYSTEM_REF_FCOUNT_VALID, PB_GNSS_SYSTEM_REF_FCOUNT_VALID);
     (GNSS_SYSTEM_NUM_CLOCK_RESETS_VALID, PB_GNSS_SYSTEM_NUM_CLOCK_RESETS_VALID)] 0.
Definition getPBMaskForLocationFlagsMask (locFlagsMask : Z) : Z :=
  or_bits locFlagsMask
    [(LOCATION_HAS_LAT_LONG_BIT, PB_LOCATION_HAS_LAT_LONG_BIT);
     (LOCATION_HAS_ALTITUDE_BIT, PB_LOCATION_HAS_ALTITUDE_BIT); (LOCATION_HAS_SPEED_BIT, PB_LOCATION_HAS_SPEED_BIT);
     (LOCATION_HAS_BEARING_BIT, PB_LOCATION_HAS_BEARING_BIT);
     (LOCATION_HAS_ACCURACY_BIT, PB_LOCATION_HAS_ACCURACY_BIT);
     (LOCATION_HAS_VERTICAL_ACCURACY_BIT, PB_LOCATION_HAS_VERTICAL_ACCURACY_BIT);
     (LOCATION_HAS_SPEED_ACCURACY_BIT, PB_LOCATION_HAS_SPEED_ACCURACY_BIT);
     (LOCATION_HAS_BEARING_ACCURACY_BIT, PB_LOCATION_HAS_BEARING_ACCURACY_BIT)] 0.
Definition getPBMaskForLocationTechnologyMask (locTechMask : Z) : Z :=
  or_bits locTechMask
    [(LOCATION_TECHNOLOGY_GNSS_BIT, PB_LOCATION_TECHNOLOGY_GNSS_BIT);
     (LOCATION_TECHNOLOGY_CELL_BIT, PB_LOCATION_TECHNOLOGY_CELL_BIT);
     (LOCATION_TECHNOLOGY_WIFI_BIT, PB_LOCATION_TECHNOLOGY_WIFI_BIT);
     (LOCATION_TECHNOLOGY_SENSORS_BIT, PB_LOCATION_TECHNOLOGY_SENSORS_BIT);
     (LOCATION_TECHNOLOGY_REFERENCE_LOCATION_BIT, PB_LOCATION_TECHNOLOGY_REFERENCE_LOCATION_BIT);
     (LOCATION_TECHNOLOGY_INJECTED_COARSE_POSITION_BIT, PB_LOCATION_TECHNOLOGY_INJECTED_COARSE_POSITION_BIT);
     (LOCATION_TECHNOLOGY_AFLT_BIT, PB_LOCATION_TECHNOLOGY_AFLT_BIT);
     (LOCATION_TECHNOLOGY_HYBRID_BIT, PB_LOCATION_TECHNOLOGY_HYBRID_BIT);
     (LOCATION_TECHNOLOGY_PPE_BIT, PB_LOCATION_TECHNOLOGY_PPE_BIT);
     (LOCATION_TECHNOLOGY_VEH_BIT, PB_LOCATION_TECHNOLOGY_VEH_BIT);
     (LOCATION_TECHNOLOGY_VIS_BIT, PB_LOCATION_TECHNOLOGY_VIS_BIT)] 0.
Definition getPBMaskForGnssLocationInfoFlagMask (gnssLocInfoFlagMask : Z) : Z :=
  or_bits gnssLocInfoFlagMask
    [(GNSS_LOCATION_INFO_ALTITUDE_MEAN_SEA_LEVEL_BIT, PB_GNSS_LOCATION_INFO_ALTITUDE_MEAN_SEA_LEVEL_BIT);
     (GNSS_LOCATION_INFO_DOP_BIT, PB_GNSS_LOCATION_INFO_DOP_BIT);
     (GNSS_LOCATION_INFO_MAGNETIC_DEVIATION_BIT, PB_GNSS_LOCATION_INFO_MAGNETIC_DEVIATION_BIT);
     (GNSS_LOCATION_INFO_HOR_RELIABILITY_BIT, PB_GNSS_LOCATION_INFO_HOR_RELIABILITY_BIT);
     (GNSS_LOCATION_INFO_VER_RELIABILITY_BIT, PB_GNSS_LOCATION_INFO_VER_RELIABILITY_BIT);
     (GNSS_LOCATION_INFO_HOR_ACCURACY_ELIP_SEMI_MAJOR_BIT, PB_GNSS_LOCATION_INFO_HOR_ACCURACY_ELIP_SEMI_MAJOR_BIT);
     (GNSS_LOCATION_INFO_HOR_ACCURACY_ELIP_SEMI_MINOR_BIT, PB_GNSS_LOCATION_INFO_HOR_ACCURACY_ELIP_SEMI_MINOR_BIT);
     (GNSS_LOCATION_INFO_HOR_ACCURACY_ELIP_AZIMUTH_BIT, PB_GNSS_LOCATION_INFO_HOR_ACCURACY_ELIP_AZIMUTH_BIT);
     (GNSS_LOCATION_INFO_GNSS_SV_USED_DATA_BIT, PB_GNSS_LOCATION_INFO_GNSS_SV_USED_DATA_BIT);
     (GNSS_LOCATION_INFO_NAV_SOLUTION_MASK_BIT, PB_GNSS_LOCATION_INFO_NAV_SOLUTION_MASK_BIT);
     (GNSS_LOCATION_INFO_POS_DYNAMICS_DATA_BIT, PB_GNSS_LOCATION_INFO_POS_DYNAMICS_DATA_BIT);
     (GNSS_LOCATION_INFO_EXT_DOP_BIT, PB_GNSS_LOCATION_INFO_EXT_DOP_BIT);
     (GNSS_LOCATION_INFO_NORTH_STD_DEV_BIT, PB_GNSS_LOCATION_INFO_NORTH_STD_DEV_BIT);
     (GNSS_LOCATION_INFO_EAST_STD_DEV_BIT, PB_GNSS_LOCATION_INFO_EAST_STD_DEV_BIT);
     (GNSS_LOCATION_INFO_NORTH_VEL_BIT, PB_GNSS_LOCATION_INFO_NORTH_VEL_BIT);
     (GNSS_LOCATION_INFO_EAST_VEL_BIT, PB_GNSS_LOCATION_INFO_EAST_VEL_BIT);
     (GNSS_LOCATION_INFO_UP_VEL_BIT, PB_GNSS_LOCATION_INFO_UP_VEL_BIT);
     (GNSS_LOCATION_INFO_NORTH_VEL_UNC_BIT, PB_GNSS_LOCATION_INFO_NORTH_VEL_UNC_BIT);
     (GNSS_LOCATION_INFO_EAST_VEL_UNC_BIT, PB_GNSS_LOCATION_INFO_EAST_VEL_UNC_BIT);
     (GNSS_LOCATION_INFO_UP_VEL_UNC_BIT, PB_GNSS_LOCATION_INFO_UP_VEL_UNC_BIT);
     (GNSS_LOCATION_INFO_LEAP_SECONDS_BIT, PB_GNSS_LOCATION_INFO_LEAP_SECONDS_BIT);
     (GNSS_LOCATION_INFO_TIME_UNC_BIT, PB_GNSS_LOCATION_INFO_TIME_UNC_BIT);
     (GNSS_LOCATION_INFO_NUM_SV_USED_IN_POSITION_BIT, PB_GNSS_LOCATION_INFO_NUM_SV_USED_IN_POSITION_BIT);
     (GNSS_LOCATION_INFO_CALIBRATION_CONFIDENCE_BIT, PB_GNSS_LOCATION_INFO_CALIBRATION_CONFIDENCE_PERCENT_BIT);
     (GNSS_LOCATION_INFO_CALIBRATION_STATUS_BIT, PB_GNSS_LOCATION_INFO_CALIBRATION_STATUS_BIT);
     (GNSS_LOCATION_INFO_OUTPUT_ENG_TYPE_BIT, PB_GNSS_LOCATION_INFO_OUTPUT_ENG_TYPE_BIT);
     (GNSS_LOCATION_INFO_OUTPUT_ENG_MASK_BIT, PB_GNSS_LOCATION_INFO_OUTPUT_ENG_MASK_BIT);
     (GNSS_LOCATION_INFO_CONFORMITY_INDEX_BIT, PB_GNSS_LOCATION_INFO_CONFORMITY_INDEX_BIT);
     (GNSS_LOCATION_INFO_LLA_VRP_BASED_BIT, PB_GNSS_LOCATION_INFO_LLA_VRP_BASED_BIT);
     (GNSS_LOCATION_INFO_ENU_VELOCITY_VRP_BASED_BIT, PB_GNSS_LOCATION_INFO_ENU_VELOCITY_VRP_BASED_BIT);
     (GNSS_LOCATION_INFO_DR_SOLUTION_STATUS_MASK_BIT, PB_GNSS_LOCATION_INFO_DR_SOLUTION_STATUS_MASK_BIT)] 0.
Definition getPBMaskForGnssLocationInfoExtFlagMask (gnssLocInfoFlagMask : Z) : Z :=
  or_bits gnssLocInfoFlagMask
    [(GNSS_LOCATION_INFO_ALTITUDE_ASSUMED_BIT, PB_GNSS_LOCATION_INFO_ALTITUDE_ASSUMED_BIT);
     (GNSS_LOCATION_INFO_SESSION_STATUS_BIT, PB_GNSS_LOCATION_INFO_SESSION_STATUS_BIT)] 0.
Definition getPBMaskForGnssLocationNavSolutionMask (gnssLocNavSolnMask : Z) : Z :=
  or_bits gnssLocNavSolnMask
    [(LOCATION_SBAS_CORRECTION_IONO_BIT, PB_LOCATION_SBAS_CORRECTION_IONO_BIT);
     (LOCATION_SBAS_CORRECTION_FAST_BIT, PB_LOCATION_SBAS_CORRECTION_FAST_BIT);
     (LOCATION_SBAS_CORRECTION_LONG_BIT, PB_LOCATION_SBAS_CORRECTION_LONG_BIT);
     (LOCATION_SBAS_INTEGRITY_BIT, PB_LOCATION_SBAS_INTEGRITY_BIT);
     (LOCATION_NAV_CORRECTION_DGNSS_BIT, PB_LOCATION_NAV_CORRECTION_DGNSS_BIT);
     (LOCATION_NAV_CORRECTION_RTK_BIT, PB_LOCATION_NAV_CORRECTION_RTK_BIT);
     (LOCATION_NAV_CORRECTION_PPP_BIT, PB_LOCATION_NAV_CORRECTION_PPP_BIT);
     (LOCATION_NAV_CORRECTION_RTK_FIXED_BIT, PB_LOCATION_NAV_CORRECTION_RTK_FIXED_BIT);
     (LOCATION_NAV_CORRECTION_ONLY_SBAS_CORRECTED_SV_USED_BIT, PB_LOCATION_NAV_CORRECTION_ONLY_SBAS_CORRECTED_SV_USED_BIT)] 0.
Definition getPBMaskForDrCalibrationStatusMask (drCalibStatusMask : Z) : Z :=
  or_bits drCalibStatusMask
    [(DR_ROLL_CALIBRATION_NEEDED, PB_DR_ROLL_CALIBRATION_NEEDED);
     (DR_PITCH_CALIBRATION_NEEDED, PB_DR_PITCH_CALIBRATION_NEEDED);
     (DR_YAW_CALIBRATION_NEEDED, PB_DR_YAW_CALIBRATION_NEEDED);
     (DR_ODO_CALIBRATION_NEEDED, PB_DR_ODO_CALIBRATION_NEEDED);
     (DR_GYRO_CALIBRATION_NEEDED, PB_DR_GYRO_CALIBRATION_NEEDED)] 0.
Definition getPBMaskForGnssMeasurementsDataFlagsMask (gnssMeasDataFlagsMask : Z) : Z :=
  or_bits gnssMeasDataFlagsMask
    [(GNSS_MEASUREMENTS_DATA_SV_ID_BIT, PB_GNSS_MEASUREMENTS_DATA_SV_ID_BIT);
     (GNSS_MEASUREMENTS_DATA_SV_TYPE_BIT, PB_GNSS_MEASUREMENTS_DATA_SV_TYPE_BIT);
     (GNSS_MEASUREMENTS_DATA_STATE_BIT, PB_GNSS_MEASUREMENTS_DATA_STATE_BIT);
     (GNSS_MEASUREMENTS_DATA_RECEIVED_SV_TIME_BIT, PB_GNSS_MEASUREMENTS_DATA_RECEIVED_SV_TIME_BIT);
     (GNSS_MEASUREMENTS_DATA_RECEIVED_SV_TIME_UNCERTAINTY_BIT, PB_GNSS_MEASUREMENTS_DATA_RECEIVED_SV_TIME_UNCERTAINTY_BIT);
     (GNSS_MEASUREMENTS_DATA_CARRIER_TO_NOISE_BIT, PB_GNSS_MEASUREMENTS_DATA_CARRIER_TO_NOISE_BIT);
     (GNSS_MEASUREMENTS_DATA_PSEUDORANGE_RATE_BIT, PB_GNSS_MEASUREMENTS_DATA_PSEUDORANGE_RATE_BIT);
     (GNSS_MEASUREMENTS_DATA_PSEUDORANGE_RATE_UNCERTAINTY_BIT, PB_GNSS_MEASUREMENTS_DATA_PSEUDORANGE_RATE_UNCERTAINTY_BIT);
     (GNSS_MEASUREMENTS_DATA_ADR_STATE_BIT, PB_GNSS_MEASUREMENTS_DATA_ADR_STATE_BIT);
     (GNSS_MEASUREMENTS_DATA_ADR_BIT, PB_GNSS_MEASUREMENTS_DATA_ADR_BIT);
     (GNSS_MEASUREMENTS_DATA_ADR_UNCERTAINTY_BIT, PB_GNSS_MEASUREMENTS_DATA_ADR_UNCERTAINTY_BIT);
     (GNSS_MEASUREMENTS_DATA_CARRIER_FREQUENCY_BIT, PB_GNSS_MEASUREMENTS_DATA_CARRIER_FREQUENCY_BIT);
     (GNSS_MEASUREMENTS_DATA_CARRIER_CYCLES_BIT, PB_GNSS_MEASUREMENTS_DATA_CARRIER_CYCLES_BIT);
     (GNSS_MEASUREMENTS_DATA_CARRIER_PHASE_BIT, PB_GNSS_MEASUREMENTS_DATA_CARRIER_PHASE_BIT);
     (GNSS_MEASUREMENTS_DATA_CARRIER_PHASE_UNCERTAINTY_BIT, PB_GNSS_MEASUREMENTS_DATA_CARRIER_PHASE_UNCERTAINTY_BIT);
     (GNSS_MEASUREMENTS_DATA_MULTIPATH_INDICATOR_BIT, PB_GNSS_MEASUREMENTS_DATA_MULTIPATH_INDICATOR_BIT);
     (GNSS_MEASUREMENTS_DATA_SIGNAL_TO_NOISE_RATIO_BIT, PB_GNSS_MEASUREMENTS_DATA_SIGNAL_TO_NOISE_RATIO_BIT);
     (GNSS_MEASUREMENTS_DATA_AUTOMATIC_GAIN_CONTROL_BIT, PB_GNSS_MEASUREMENTS_DATA_AUTOMATIC_GAIN_CONTROL_BIT);
     (GNSS_MEASUREMENTS_DATA_FULL_ISB_BIT, PB_GNSS_MEASUREMENTS_DATA_FULL_ISB_BIT);
     (GNSS_MEASUREMENTS_DATA_FULL_ISB_UNCERTAINTY_BIT, PB_GNSS_MEASUREMENTS_DATA_FULL_ISB_UNCERTAINTY_BIT);
     (GNSS_MEASUREMENTS_DATA_CYCLE_SLIP_COUNT_BIT, PB_GNSS_MEASUREMENTS_DATA_CYCLE_SLIP_COUNT_BIT)] 0.
Definition getPBMaskForGnssMeasurementsStateMask (gnssMeasStateMask : Z) : Z :=
  or_bits gnssMeasStateMask
    [(GNSS_MEASUREMENTS_STATE_UNKNOWN_BIT, PB_GNSS_MEASUREMENTS_STATE_UNKNOWN_BIT);
     (GNSS_MEASUREMENTS_STATE_CODE_LOCK_BIT, PB_GNSS_MEASUREMENTS_STATE_CODE_LOCK_BIT);
     (GNSS_MEASUREMENTS_STATE_BIT_SYNC_BIT, PB_GNSS_MEASUREMENTS_STATE_BIT_SYNC_BIT);
     (GNSS_MEASUREMENTS_STATE_SUBFRAME_SYNC_BIT, PB_GNSS_MEASUREMENTS_STATE_SUBFRAME_SYNC_BIT);
     (GNSS_MEASUREMENTS_STATE_TOW_DECODED_BIT, PB_GNSS_MEASUREMENTS_STATE_TOW_DECODED_BIT);
     (GNSS_MEASUREMENTS_STATE_MSEC_AMBIGUOUS_BIT, PB_GNSS_MEASUREMENTS_STATE_MSEC_AMBIGUOUS_BIT);
     (GNSS_MEASUREMENTS_STATE_SYMBOL_SYNC_BIT, PB_GNSS_MEASUREMENTS_STATE_SYMBOL_SYNC_BIT);
     (GNSS_MEASUREMENTS_STATE_GLO_STRING_SYNC_BIT, PB_GNSS_MEASUREMENTS_STATE_GLO_STRING_SYNC_BIT);
     (GNSS_MEASUREMENTS_STATE_GLO_TOD_DECODED_BIT, PB_GNSS_MEASUREMENTS_STATE_GLO_TOD_DECODED_BIT);
     (GNSS_MEASUREMENTS_STATE_BDS_D2_BIT_SYNC_BIT, PB_GNSS_MEASUREMENTS_STATE_BDS_D2_BIT_SYNC_BIT);
     (GNSS_MEASUREMENTS_STATE_BDS_D2_SUBFRAME_SYNC_BIT, PB_GNSS_MEASUREMENTS_STATE_BDS_D2_SUBFRAME_SYNC_BIT);
     (GNSS_MEASUREMENTS_STATE_GAL_E1BC_CODE_LOCK_BIT, PB_GNSS_MEASUREMENTS_STATE_GAL_E1BC_CODE_LOCK_BIT);
     (GNSS_MEASUREMENTS_STATE_GAL_E1C_2ND_CODE_LOCK_BIT, PB_GNSS_MEASUREMENTS_STATE_GAL_E1C_2ND_CODE_LOCK_BIT);
     (GNSS_MEASUREMENTS_STATE_GAL_E1B_PAGE_SYNC_BIT, PB_GNSS_MEASUREMENTS_STATE_GAL_E1B_PAGE_SYNC_BIT);
     (GNSS_MEASUREMENTS_STATE_SBAS_SYNC_BIT, PB_GNSS_MEASUREMENTS_STATE_SBAS_SYNC_BIT)] 0.
Definition getPBMaskForGnssMeasurementsAdrStateMask (gnssMeasAdrStateMask : Z) : Z :=
  or_bits gnssMeasAdrStateMask
    [(GNSS_MEASUREMENTS_ACCUMULATED_DELTA_RANGE_STATE_UNKNOWN, PB_GNSS_MEASUREMENTS_ACCUMULATED_DELTA_RANGE_STATE_UNKNOWN);
     (GNSS_MEASUREMENTS_ACCUMULATED_DELTA_RANGE_STATE_VALID_BIT, PB_GNSS_MEASUREMENTS_ACCUMULATED_DELTA_RANGE_STATE_VALID_BIT);
     (GNSS_MEASUREMENTS_ACCUMULATED_DELTA_RANGE_STATE_RESET_BIT, PB_GNSS_MEASUREMENTS_ACCUMULATED_DELTA_RANGE_STATE_RESET_BIT);
     (GNSS_MEASUREMENTS_ACCUMULATED_DELTA_RANGE_STATE_CYCLE_SLIP_BIT, PB_GNSS_MEASUREMENTS_ACCUMULATED_DELTA_RANGE_STATE_CYCLE_SLIP_BIT)] 0.
Definition getPBMaskForGnssLocationPosDataMask (gnssLocPosDataMask gnssLocPosDataMaskExt : Z) : Z :=
  or_bits gnssLocPosDataMaskExt
    [(LOCATION_NAV_DATA_HAS_PITCH_RATE_BIT, PB_LOCATION_NAV_DATA_HAS_PITCH_RATE_BIT);
     (LOCATION_NAV_DATA_HAS_PITCH_RATE_UNC_BIT, PB_LOCATION_NAV_DATA_HAS_PITCH_RATE_UNC_BIT);
     (LOCATION_NAV_DATA_HAS_ROLL_BIT, PB_LOCATION_NAV_DATA_HAS_ROLL_BIT);
     (LOCATION_NAV_DATA_HAS_ROLL_UNC_BIT, PB_LOCATION_NAV_DATA_HAS_ROLL_UNC_BIT);
     (LOCATION_NAV_DATA_HAS_ROLL_RATE_BIT, PB_LOCATION_NAV_DATA_HAS_ROLL_RATE_BIT);
     (LOCATION_NAV_DATA_HAS_ROLL_RATE_UNC_BIT, PB_LOCATION_NAV_DATA_HAS_ROLL_RATE_UNC_BIT);
     (LOCATION_NAV_DATA_HAS_YAW_BIT, PB_LOCATION_NAV_DATA_HAS_YAW_BIT);
     (LOCATION_NAV_DATA_HAS_YAW_UNC_BIT, PB_LOCATION_NAV_DATA_HAS_YAW_UNC_BIT)]
    (or_bits gnssLocPosDataMask
    [(LOCATION_NAV_DATA_HAS_LONG_ACCEL_BIT, PB_LOCATION_NAV_DATA_HAS_LONG_ACCEL_BIT);
     (LOCATION_NAV_DATA_HAS_LAT_ACCEL_BIT, PB_LOCATION_NAV_DATA_HAS_LAT_ACCEL_BIT);
     (LOCATION_NAV_DATA_HAS_VERT_ACCEL_BIT, PB_LOCATION_NAV_DATA_HAS_VERT_ACCEL_BIT);
     (LOCATION_NAV_DATA_HAS_YAW_RATE_BIT, PB_LOCATION_NAV_DATA_HAS_YAW_RATE_BIT);
     (LOCATION_NAV_DATA_HAS_PITCH_BIT, PB_LOCATION_NAV_DATA_HAS_PITCH_BIT);
     (LOCATION_NAV_DATA_HAS_LONG_ACCEL_UNC_BIT, PB_LOCATION_NAV_DATA_HAS_LONG_ACCEL_UNC_BIT);
     (LOCATION_NAV_DATA_HAS_LAT_ACCEL_UNC_BIT, PB_LOCATION_NAV_DATA_HAS_LAT_ACCEL_UNC_BIT);
     (LOCATION_NAV_DATA_HAS_VERT_ACCEL_UNC_BIT, PB_LOCATION_NAV_DATA_HAS_VERT_ACCEL_UNC_BIT);
     (LOCATION_NAV_DATA_HAS_YAW_RATE_UNC_BIT, PB_LOCATION_NAV_DATA_HAS_YAW_RATE_UNC_BIT);
     (LOCATION_NAV_DATA_HAS_PITCH_UNC_BIT, PB_LOCATION_NAV_DATA_HAS_PITCH_UNC_BIT)] 0).
Definition getPBMaskForGnssMeasurementsClockFlagsMask (gnssMeasClockFlagsMask : Z) : Z :=
  or_bits gnssMeasClockFlagsMask
    [(GNSS_MEASUREMENTS_CLOCK_FLAGS_LEAP_SECOND_BIT, PB_GNSS_MEASUREMENTS_CLOCK_FLAGS_LEAP_SECOND_BIT);
     (GNSS_MEASUREMENTS_CLOCK_FLAGS_TIME_BIT, PB_GNSS_MEASUREMENTS_CLOCK_FLAGS_TIME_BIT);
     (GNSS_MEASUREMENTS_CLOCK_FLAGS_TIME_UNCERTAINTY_BIT, PB_GNSS_MEASUREMENTS_CLOCK_FLAGS_TIME_UNCERTAINTY_BIT);
     (GNSS_MEASUREMENTS_CLOCK_FLAGS_FULL_BIAS_BIT, PB_GNSS_MEASUREMENTS_CLOCK_FLAGS_FULL_BIAS_BIT);
     (GNSS_MEASUREMENTS_CLOCK_FLAGS_BIAS_BIT, PB_GNSS_MEASUREMENTS_CLOCK_FLAGS_BIAS_BIT);
     (GNSS_MEASUREMENTS_CLOCK_FLAGS_BIAS_UNCERTAINTY_BIT, PB_GNSS_MEASUREMENTS_CLOCK_FLAGS_BIAS_UNCERTAINTY_BIT);
     (GNSS_MEASUREMENTS_CLOCK_FLAGS_DRIFT_BIT, PB_GNSS_MEASUREMENTS_CLOCK_FLAGS_DRIFT_BIT);
     (GNSS_MEASUREMENTS_CLOCK_FLAGS_DRIFT_UNCERTAINTY_BIT, PB_GNSS_MEASUREMENTS_CLOCK_FLAGS_DRIFT_UNCERTAINTY_BIT);
     (GNSS_MEASUREMENTS_CLOCK_FLAGS_HW_CLOCK_DISCONTINUITY_COUNT_BIT, PB_GNSS_MEASUREMENTS_CLOCK_FLAGS_HW_CLOCK_DISCONTINUITY_COUNT_BIT)] 0.
Definition getPBMaskForGnssGloTimeStructTypeFlags (gnssGloTimeStructTypeFlags : Z) : Z :=
  or_bits gnssGloTimeStructTypeFlags
    [(GNSS_CLO_DAYS_VALID, PB_GNSS_CLO_DAYS_VALID); (GNSS_GLO_MSEC_VALID, PB_GNSS_GLO_MSEC_VALID);
     (GNSS_GLO_CLK_TIME_BIAS_VALID, PB_GNSS_GLO_CLK_TIME_BIAS_VALID);
     (GNSS_GLO_CLK_TIME_BIAS_UNC_VALID, PB_GNSS_GLO_CLK_TIME_BIAS_UNC_VALID);
     (GNSS_GLO_REF_FCOUNT_VALID, PB_GNSS_GLO_REF_FCOUNT_VALID);
     (GNSS_GLO_NUM_CLOCK_RESETS_VALID, PB_GNSS_GLO_NUM_CLOCK_RESETS_VALID);
     (GNSS_GLO_FOUR_YEAR_VALID, PB_GNSS_GLO_FOUR_YEAR_VALID)] 0.
Definition getPBMaskForGnssSvOptionsMask (gnssSvOptMask : Z) : Z :=
  or_bits gnssSvOptMask
    [(GNSS_SV_OPTIONS_HAS_EPHEMER_BIT, PB_GNSS_SV_OPTIONS_HAS_EPHEMER_BIT);
     (GNSS_SV_OPTIONS_HAS_ALMANAC_BIT, PB_GNSS_SV_OPTIONS_HAS_ALMANAC_BIT);
     (GNSS_SV_OPTIONS_USED_IN_FIX_BIT, PB_GNSS_SV_OPTIONS_USED_IN_FIX_BIT);
     (GNSS_SV_OPTIONS_HAS_CARRIER_FREQUENCY_BIT, PB_GNSS_SV_OPTIONS_HAS_CARRIER_FREQUENCY_BIT);
     (GNSS_SV_OPTIONS_HAS_GNSS_SIGNAL_TYPE_BIT, PB_GNSS_SV_OPTIONS_HAS_GNSS_SIGNAL_TYPE_BIT)] 0.
Definition getPBMaskForGnssSignalTypeMask (gnssSignalTypeMask : Z) : Z :=
  or_bits gnssSignalTypeMask
    [(GNSS_SIGNAL_GPS_L1CA, PB_GNSS_SIGNAL_GPS_L1CA_BIT); (GNSS_SIGNAL_GPS_L1C, PB_GNSS_SIGNAL_GPS_L1C_BIT);
     (GNSS_SIGNAL_GPS_L2, PB_GNSS_SIGNAL_GPS_L2_BIT); (GNSS_SIGNAL_GPS_L5, PB_GNSS_SIGNAL_GPS_L5_BIT);
     (GNSS_SIGNAL_GLONASS_G1, PB_GNSS_SIGNAL_GLONASS_G1_BIT); (GNSS_SIGNAL_GLONASS_G2, PB_GNSS_SIGNAL_GLONASS_G2_BIT);
     (GNSS_SIGNAL_GALILEO_E1, PB_GNSS_SIGNAL_GALILEO_E1_BIT);
     (GNSS_SIGNAL_GALILEO_E5A, PB_GNSS_SIGNAL_GALILEO_E5A_BIT);
     (GNSS_SIGNAL_GALILEO_E5B, PB_GNSS_SIGNAL_GALILEO_E5B_BIT); (GNSS_SIGNAL_BEIDOU_B1, PB_GNSS_SIGNAL_BEIDOU_B1_BIT);
     (GNSS_SIGNAL_BEIDOU_B2, PB_GNSS_SIGNAL_BEIDOU_B2_BIT); (GNSS_SIGNAL_QZSS_L1CA, PB_GNSS_SIGNAL_QZSS_L1CA_BIT);
     (GNSS_SIGNAL_QZSS_L1S, PB_GNSS_SIGNAL_QZSS_L1S_BIT); (GNSS_SIGNAL_QZSS_L2, PB_GNSS_SIGNAL_QZSS_L2_BIT);
     (GNSS_SIGNAL_QZSS_L5, PB_GNSS_SIGNAL_QZSS_L5_BIT); (GNSS_SIGNAL_SBAS_L1, PB_GNSS_SIGNAL_SBAS_L1_BIT);
     (GNSS_SIGNAL_BEIDOU_B1I, PB_GNSS_SIGNAL_BEIDOU_B1I_BIT); (GNSS_SIGNAL_BEIDOU_B1C, PB_GNSS_SIGNAL_BEIDOU_B1C_BIT);
     (GNSS_SIGNAL_BEIDOU_B2I, PB_GNSS_SIGNAL_BEIDOU_B2I_BIT);
     (GNSS_SIGNAL_BEIDOU_B2AI, PB_GNSS_SIGNAL_BEIDOU_B2AI_BIT); (GNSS_SIGNAL_NAVIC_L5, PB_GNSS_SIGNAL_NAVIC_L5_BIT);
     (GNSS_SIGNAL_BEIDOU_B2AQ, PB_GNSS_SIGNAL_BEIDOU_B2AQ_BIT)] 0.
Definition getPBMaskForGeofenceBreachTypeMask (gfBreachTypeMask : Z) : Z :=
  or_bits gfBreachTypeMask
    [(GEOFENCE_BREACH_ENTER_BIT, PB_GEOFENCE_BREACH_ENTER_BIT);
     (GEOFENCE_BREACH_EXIT_BIT, PB_GEOFENCE_BREACH_EXIT_BIT);
     (GEOFENCE_BREACH_DWELL_IN_BIT, PB_GEOFENCE_BREACH_DWELL_IN_BIT);
     (GEOFENCE_BREACH_DWELL_OUT_BIT, PB_GEOFENCE_BREACH_DWELL_OUT_BIT)] 0.
Definition getPBMaskForDeadReckoningEngineConfigValidMask (drEngCfgValidMask : Z) : Z :=
  or_bits drEngCfgValidMask
    [(BODY_TO_SENSOR_MOUNT_PARAMS_BIT, PB_BODY_TO_SENSOR_MOUNT_PARAMS_BIT);
     (VEHICLE_SPEED_SCALE_FACTOR_BIT, PB_VEHICLE_SPEED_SCALE_FACTOR_BIT);
     (VEHICLE_SPEED_SCALE_FACTOR_UNC_BIT, PB_VEHICLE_SPEED_SCALE_FACTOR_UNC_BIT);
     (GYRO_SCALE_FACTOR_BIT, PB_GYRO_SCALE_FACTOR_BIT); (GYRO_SCALE_FACTOR_UNC_BIT, PB_GYRO_SCALE_FACTOR_UNC_BIT)] 0.
Definition getPBMaskForDrEngineAidingDataMask (drEngAidDataMask : Z) : Z :=
  or_bits drEngAidDataMask
    [(DR_ENGINE_AIDING_DATA_CALIBRATION_BIT, PB_DR_ENGINE_AIDING_DATA_CALIBRATION_BIT)] 0.
Definition getPBMaskForDrSolutionStatusMask (drSolnStatusMask : Z) : Z :=
  or_bits drSolnStatusMask
    [(VEHICLE_SENSOR_SPEED_INPUT_DETECTED, PB_VEHICLE_SENSOR_SPEED_INPUT_DETECTED);
     (VEHICLE_SENSOR_SPEED_INPUT_USED, PB_VEHICLE_SENSOR_SPEED_INPUT_USED)] 0.
Definition getLocationCapabilitiesMaskFromPB (pbLocCapabMask : Z) : Z :=
  or_bits pbLocCapabMask
    [(PB_LOCATION_CAPS_TIME_BASED_TRACKING_BIT, LOCATION_CAPABILITIES_TIME_BASED_TRACKING_BIT);
     (PB_LOCATION_CAPS_TIME_BASED_BATCHING_BIT, LOCATION_CAPABILITIES_TIME_BASED_BATCHING_BIT);
     (PB_LOCATION_CAPS_DISTANCE_BASED_TRACKING_BIT, LOCATION_CAPABILITIES_DISTANCE_BASED_TRACKING_BIT);
     (PB_LOCATION_CAPS_DISTANCE_BASED_BATCHING_BIT, LOCATION_CAPABILITIES_DISTANCE_BASED_BATCHING_BIT);
     (PB_LOCATION_CAPS_GEOFENCE_BIT, LOCATION_CAPABILITIES_GEOFENCE_BIT);
     (PB_LOCATION_CAPS_OUTDOOR_TRIP_BATCHING_BIT, LOCATION_CAPABILITIES_OUTDOOR_TRIP_BATCHING_BIT);
     (PB_LOCATION_CAPS_GNSS_MEASUREMENTS_BIT, LOCATION_CAPABILITIES_GNSS_MEASUREMENTS_BIT);
     (PB_LOCATION_CAPS_CONSTELLATION_ENABLEMENT_BIT, LOCATION_CAPABILITIES_CONSTELLATION_ENABLEMENT_BIT);
     (PB_LOCATION_CAPS_QWES_CARRIER_PHASE_BIT, LOCATION_CAPABILITIES_QWES_CARRIER_PHASE_BIT);
     (PB_LOCATION_CAPS_QWES_SV_POLYNOMIAL_BIT, LOCATION_CAPABILITIES_QWES_SV_POLYNOMIAL_BIT);
     (PB_LOCATION_CAPS_QWES_GNSS_SINGLE_FREQUENCY, LOCATION_CAPABILITIES_QWES_GNSS_SINGLE_FREQUENCY);
     (PB_LOCATION_CAPS_QWES_GNSS_MULTI_FREQUENCY, LOCATION_CAPABILITIES_QWES_GNSS_MULTI_FREQUENCY);
     (PB_LOCATION_CAPS_QWES_VPE, LOCATION_CAPABILITIES_QWES_VPE);
     (PB_LOCATION_CAPS_QWES_CV2X_LOCATION_BASIC, LOCATION_CAPABILITIES_QWES_CV2X_LOCATION_BASIC);
     (PB_LOCATION_CAPS_QWES_CV2X_LOCATION_PREMIUM, LOCATION_CAPABILITIES_QWES_CV2X_LOCATION_PREMIUM);
     (PB_LOCATION_CAPS_QWES_PPE, LOCATION_CAPABILITIES_QWES_PPE);
     (PB_LOCATION_CAPS_QWES_QDR2, LOCATION_CAPABILITIES_QWES_QDR2);
     (PB_LOCATION_CAPS_QWES_QDR3, LOCATION_CAPABILITIES_QWES_QDR3)] 0.
Definition getLocationCallbacksMaskFromPB (pbLocCbMask : Z) : Z :=
  or_bits pbLocCbMask
    [(PB_E_LOC_CB_DISTANCE_BASED_TRACKING_BIT, E_LOC_CB_DISTANCE_BASED_TRACKING_BIT);
     (PB_E_LOC_CB_GNSS_LOCATION_INFO_BIT, E_LOC_CB_GNSS_LOCATION_INFO_BIT);
     (PB_E_LOC_CB_GNSS_SV_BIT, E_LOC_CB_GNSS_SV_BIT); (PB_E_LOC_CB_GNSS_NMEA_BIT, E_LOC_CB_GNSS_NMEA_BIT);
     (PB_E_LOC_CB_GNSS_DATA_BIT, E_LOC_CB_GNSS_DATA_BIT); (PB_E_LOC_CB_SYSTEM_INFO_BIT, E_LOC_CB_SYSTEM_INFO_BIT);
     (PB_E_LOC_CB_BATCHING_BIT, E_LOC_CB_BATCHING_BIT);
     (PB_E_LOC_CB_BATCHING_STATUS_BIT, E_LOC_CB_BATCHING_STATUS_BIT);
     (PB_E_LOC_CB_GEOFENCE_BREACH_BIT, E_LOC_CB_GEOFENCE_BREACH_BIT);
     (PB_E_LOC_CB_ENGINE_LOCATIONS_INFO_BIT, E_LOC_CB_ENGINE_LOCATIONS_INFO_BIT);
     (PB_E_LOC_CB_SIMPLE_LOCATION_INFO_BIT, E_LOC_CB_SIMPLE_LOCATION_INFO_BIT);
     (PB_E_LOC_CB_GNSS_MEAS_BIT, E_LOC_CB_GNSS_MEAS_BIT)] 0.
Definition getLeverArmTypeMaskFromPB (pbLeverTypeMask : Z) : Z :=
  or_bits pbLeverTypeMask
    [(PB_LEVER_ARM_TYPE_GNSS_TO_VRP_BIT, LEVER_ARM_TYPE_GNSS_TO_VRP_BIT);
     (PB_LEVER_ARM_TYPE_DR_IMU_TO_GNSS_BIT, LEVER_ARM_TYPE_DR_IMU_TO_GNSS_BIT);
     (PB_LEVER_ARM_TYPE_VEPP_IMU_TO_GNSS_BIT, LEVER_ARM_TYPE_VEPP_IMU_TO_GNSS_BIT)] 0.
Definition getEnumForPBPositioningEngineMask (pbPosEngMask : Z) : Z :=
  or_bits pbPosEngMask
    [(PB_STANDARD_POSITIONING_ENGINE, STANDARD_POSITIONING_ENGINE);
     (PB_PRECISE_POSITIONING_ENGINE, PRECISE_POSITIONING_ENGINE); (PB_DEAD_RECKONING_ENGINE, DEAD_RECKONING_ENGINE)] 0.
Definition getGnssSvTypesMaskFromPB (pbGnssSvTypesMask : Z) : Z :=
  or_bits pbGnssSvTypesMask
    [(PB_GNSS_SV_TYPES_MASK_GLO_BIT, GNSS_SV_TYPES_MASK_GLO_BIT);
     (PB_GNSS_SV_TYPES_MASK_BDS_BIT, GNSS_SV_TYPES_MASK_BDS_BIT);
     (PB_GNSS_SV_TYPES_MASK_QZSS_BIT, GNSS_SV_TYPES_MASK_QZSS_BIT);
     (PB_GNSS_SV_TYPES_MASK_GAL_BIT, GNSS_SV_TYPES_MASK_GAL_BIT);
     (PB_GNSS_SV_TYPES_MASK_NAVIC_BIT, GNSS_SV_TYPES_MASK_NAVIC_BIT);
     (PB_GNSS_SV_TYPES_MASK_GPS_BIT, GNSS_SV_TYPES_MASK_GPS_BIT)] 0.
Definition getGnssAidingDataSvMaskFromPB (pbGnssAidDataSvMask : Z) : Z :=
  or_bits pbGnssAidDataSvMask
    [(PB_AIDING_DATA_SV_EPHEMERIS_BIT, GNSS_AIDING_DATA_SV_EPHEMERIS_BIT)] 0.
Definition getLocReqEngineTypeMaskFromPB (pbLocReqEngTypeMask : Z) : Z :=
  or_bits pbLocReqEngTypeMask
    [(PB_LOC_REQ_ENGINE_FUSED_BIT, LOC_REQ_ENGINE_FUSED_BIT); (PB_LOC_REQ_ENGINE_SPE_BIT, LOC_REQ_ENGINE_SPE_BIT);
     (PB_LOC_REQ_ENGINE_PPE_BIT, LOC_REQ_ENGINE_PPE_BIT)] 0.
Definition getLocationSystemInfoMaskFromPB (pbLocSysInfoMask : Z) : Z :=
  or_bits pbLocSysInfoMask
    [(PB_LOCATION_SYS_INFO_LEAP_SECOND, LOCATION_SYS_INFO_LEAP_SECOND)] PB_LOCATION_SYS_INFO_INVALID.
Definition getGnssDataMaskFromPB (pbGnssDataMask : Z) : Z :=
  or_bits pbGnssDataMask
    [(PB_GNSS_LOC_DATA_JAMMER_IND_BIT, GNSS_LOC_DATA_JAMMER_IND_BIT);
     (PB_GNSS_LOC_DATA_AGC_BIT, GNSS_LOC_DATA_AGC_BIT)] 0.
Definition getLeapSecSysInfoMaskFromPB (pbLeapSecSysInfoMask : Z) : Z :=
  or_bits pbLeapSecSysInfoMask
    [(PB_LEAP_SECOND_SYS_INFO_CURRENT_LEAP_SECONDS_BIT, LEAP_SECOND_SYS_INFO_CURRENT_LEAP_SECONDS_BIT);
     (PB_LEAP_SECOND_SYS_INFO_LEAP_SECOND_CHANGE_BIT, LEAP_SECOND_SYS_INFO_LEAP_SECOND_CHANGE_BIT)] 0.
Definition getGnssSystemTimeStructTypeFlagsFromPB (pbGnssSysTimeStrctType : Z) : Z :=
  or_bits pbGnssSysTimeStrctType
    [(PB_GNSS_SYSTEM_TIME_WEEK_VALID, GNSS_SYSTEM_TIME_WEEK_VALID);
     (PB_GNSS_SYSTEM_TIME_WEEK_MS_VALID, GNSS_SYSTEM_TIME_WEEK_MS_VALID);
     (PB_GNSS_SYSTEM_CLK_TIME_BIAS_VALID, GNSS_SYSTEM_CLK_TIME_BIAS_VALID);
     (PB_GNSS_SYSTEM_CLK_TIME_BIAS_UNC_VALID, GNSS_SYSTEM_CLK_TIME_BIAS_UNC_VALID);
     (PB_GNSS_SYSTEM_REF_FCOUNT_VALID, GNSS_SYSTEM_REF_FCOUNT_VALID);
     (PB_GNSS_SYSTEM_NUM_CLOCK_RESETS_VALID, GNSS_SYSTEM_NUM_CLOCK_RESETS_VALID)] 0.
Definition getGnssSignalTypeMaskFromPB (pbGnssSignalTypeMask : Z) : Z :=
  or_bits pbGnssSignalTypeMask
    [(PB_GNSS_SIGNAL_GPS_L1CA_BIT, GNSS_SIGNAL_GPS_L1CA); (PB_GNSS_SIGNAL_GPS_L1C_BIT, GNSS_SIGNAL_GPS_L1C);
     (PB_GNSS_SIGNAL_GPS_L2_BIT, GNSS_SIGNAL_GPS_L2); (PB_GNSS_SIGNAL_GPS_L5_BIT, GNSS_SIGNAL_GPS_L5);
     (PB_GNSS_SIGNAL_GLONASS_G1_BIT, GNSS_SIGNAL_GLONASS_G1); (PB_GNSS_SIGNAL_GLONASS_G2_BIT, GNSS_SIGNAL_GLONASS_G2);
     (PB_GNSS_SIGNAL_GALILEO_E1_BIT, GNSS_SIGNAL_GALILEO_E1);
     (PB_GNSS_SIGNAL_GALILEO_E5A_BIT, GNSS_SIGNAL_GALILEO_E5A);
     (PB_GNSS_SIGNAL_GALILEO_E5B_BIT, GNSS_SIGNAL_GALILEO_E5B); (PB_GNSS_SIGNAL_BEIDOU_B1_BIT, GNSS_SIGNAL_BEIDOU_B1);
     (PB_GNSS_SIGNAL_BEIDOU_B2_BIT, GNSS_SIGNAL_BEIDOU_B2); (PB_GNSS_SIGNAL_QZSS_L1CA_BIT, GNSS_SIGNAL_QZSS_L1CA);
     (PB_GNSS_SIGNAL_QZSS_L1S_BIT, GNSS_SIGNAL_QZSS_L1S); (PB_GNSS_SIGNAL_QZSS_L2_BIT, GNSS_SIGNAL_QZSS_L2);
     (PB_GNSS_SIGNAL_QZSS_L5_BIT, GNSS_SIGNAL_QZSS_L5); (PB_GNSS_SIGNAL_SBAS_L1_BIT, GNSS_SIGNAL_SBAS_L1);
     (PB_GNSS_SIGNAL_BEIDOU_B1I_BIT, GNSS_SIGNAL_BEIDOU_B1I); (PB_GNSS_SIGNAL_BEIDOU_B1C_BIT, GNSS_SIGNAL_BEIDOU_B1C);
     (PB_GNSS_SIGNAL_BEIDOU_B2I_BIT, GNSS_SIGNAL_BEIDOU_B2I);
     (PB_GNSS_SIGNAL_BEIDOU_B2AI_BIT, GNSS_SIGNAL_BEIDOU_B2AI); (PB_GNSS_SIGNAL_NAVIC_L5_BIT, GNSS_SIGNAL_NAVIC_L5);
     (PB_GNSS_SIGNAL_BEIDOU_B2AQ_BIT, GNSS_SIGNAL_BEIDOU_B2AQ)] 0.
Definition getGnssSvOptionsMaskFromPB (pbGnssSvOptMask : Z) : Z :=
  or_bits pbGnssSvOptMask
    [(PB_GNSS_SV_OPTIONS_HAS_EPHEMER_BIT, GNSS_SV_OPTIONS_HAS_EPHEMER_BIT);
     (PB_GNSS_SV_OPTIONS_HAS_ALMANAC_BIT, GNSS_SV_OPTIONS_HAS_ALMANAC_BIT);
     (PB_GNSS_SV_OPTIONS_USED_IN_FIX_BIT, GNSS_SV_OPTIONS_USED_IN_FIX_BIT);
     (PB_GNSS_SV_OPTIONS_HAS_CARRIER_FREQUENCY_BIT, GNSS_SV_OPTIONS_HAS_CARRIER_FREQUENCY_BIT);
     (PB_GNSS_SV_OPTIONS_HAS_GNSS_SIGNAL_TYPE_BIT, GNSS_SV_OPTIONS_HAS_GNSS_SIGNAL_TYPE_BIT)] 0.
Definition getGfBreachTypeMaskFromPB (pbGfBreackTypMask : Z) : Z :=
  or_bits pbGfBreackTypMask
    [(PB_GEOFENCE_BREACH_ENTER_BIT, GEOFENCE_BREACH_ENTER_BIT);
     (PB_GEOFENCE_BREACH_EXIT_BIT, GEOFENCE_BREACH_EXIT_BIT);
     (PB_GEOFENCE_BREACH_DWELL_IN_BIT, GEOFENCE_BREACH_DWELL_IN_BIT);
     (PB_GEOFENCE_BREACH_DWELL_OUT_BIT, GEOFENCE_BREACH_DWELL_OUT_BIT)] 0.
Definition getLocationFlagsMaskFromPB (pbLocFlagsMask : Z) : Z :=
  or_bits pbLocFlagsMask
    [(PB_LOCATION_HAS_LAT_LONG_BIT, LOCATION_HAS_LAT_LONG_BIT);
     (PB_LOCATION_HAS_ALTITUDE_BIT, LOCATION_HAS_ALTITUDE_BIT); (PB_LOCATION_HAS_SPEED_BIT, LOCATION_HAS_SPEED_BIT);
     (PB_LOCATION_HAS_BEARING_BIT, LOCATION_HAS_BEARING_BIT);
     (PB_LOCATION_HAS_ACCURACY_BIT, LOCATION_HAS_ACCURACY_BIT);
     (PB_LOCATION_HAS_VERTICAL_ACCURACY_BIT, LOCATION_HAS_VERTICAL_ACCURACY_BIT);
     (PB_LOCATION_HAS_SPEED_ACCURACY_BIT, LOCATION_HAS_SPEED_ACCURACY_BIT);
     (PB_LOCATION_HAS_BEARING_ACCURACY_BIT, LOCATION_HAS_BEARING_ACCURACY_BIT)] 0.
Definition getLocationTechnologyMaskFromPB (pbLocTechMask : Z) : Z :=
  or_bits pbLocTechMask
    [(PB_LOCATION_TECHNOLOGY_GNSS_BIT, LOCATION_TECHNOLOGY_GNSS_BIT);
     (PB_LOCATION_TECHNOLOGY_CELL_BIT, LOCATION_TECHNOLOGY_CELL_BIT);
     (PB_LOCATION_TECHNOLOGY_WIFI_BIT, LOCATION_TECHNOLOGY_WIFI_BIT);
     (PB_LOCATION_TECHNOLOGY_SENSORS_BIT, LOCATION_TECHNOLOGY_SENSORS_BIT);
     (PB_LOCATION_TECHNOLOGY_REFERENCE_LOCATION_BIT, LOCATION_TECHNOLOGY_REFERENCE_LOCATION_BIT);
     (PB_LOCATION_TECHNOLOGY_INJECTED_COARSE_POSITION_BIT, LOCATION_TECHNOLOGY_INJECTED_COARSE_POSITION_BIT);
     (PB_LOCATION_TECHNOLOGY_AFLT_BIT, LOCATION_TECHNOLOGY_AFLT_BIT);
     (PB_LOCATION_TECHNOLOGY_HYBRID_BIT, LOCATION_TECHNOLOGY_HYBRID_BIT);
     (PB_LOCATION_TECHNOLOGY_PPE_BIT, LOCATION_TECHNOLOGY_PPE_BIT);
     (PB_LOCATION_TECHNOLOGY_VEH_BIT, LOCATION_TECHNOLOGY_VEH_BIT);
     (PB_LOCATION_TECHNOLOGY_VIS_BIT, LOCATION_TECHNOLOGY_VIS_BIT)] 0.
Definition getGnssMeasurementsClockFlagsMaskFromPB (pbGnssMeasClockFlgMask : Z) : Z :=
  or_bits pbGnssMeasClockFlgMask
    [(PB_GNSS_MEASUREMENTS_CLOCK_FLAGS_LEAP_SECOND_BIT, GNSS_MEASUREMENTS_CLOCK_FLAGS_LEAP_SECOND_BIT);
     (PB_GNSS_MEASUREMENTS_CLOCK_FLAGS_TIME_BIT, GNSS_MEASUREMENTS_CLOCK_FLAGS_TIME_BIT);
     (PB_GNSS_MEASUREMENTS_CLOCK_FLAGS_TIME_UNCERTAINTY_BIT, GNSS_MEASUREMENTS_CLOCK_FLAGS_TIME_UNCERTAINTY_BIT);
     (PB_GNSS_MEASUREMENTS_CLOCK_FLAGS_FULL_BIAS_BIT, GNSS_MEASUREMENTS_CLOCK_FLAGS_FULL_BIAS_BIT);
     (PB_GNSS_MEASUREMENTS_CLOCK_FLAGS_BIAS_BIT, GNSS_MEASUREMENTS_CLOCK_FLAGS_BIAS_BIT);
     (PB_GNSS_MEASUREMENTS_CLOCK_FLAGS_BIAS_UNCERTAINTY_BIT, GNSS_MEASUREMENTS_CLOCK_FLAGS_BIAS_UNCERTAINTY_BIT);
     (PB_GNSS_MEASUREMENTS_CLOCK_FLAGS_DRIFT_BIT, GNSS_MEASUREMENTS_CLOCK_FLAGS_DRIFT_BIT);
     (PB_GNSS_MEASUREMENTS_CLOCK_FLAGS_DRIFT_UNCERTAINTY_BIT, GNSS_MEASUREMENTS_CLOCK_FLAGS_DRIFT_UNCERTAINTY_BIT);
     (PB_GNSS_MEASUREMENTS_CLOCK_FLAGS_HW_CLOCK_DISCONTINUITY_COUNT_BIT, GNSS_MEASUREMENTS_CLOCK_FLAGS_HW_CLOCK_DISCONTINUITY_COUNT_BIT)] 0.
Definition getGnssMeasurementsDataFlagsMaskFromPB (pbGnssMeasDataFlgMask : Z) : Z :=
  or_bits pbGnssMeasDataFlgMask
    [(PB_GNSS_MEASUREMENTS_DATA_SV_ID_BIT, GNSS_MEASUREMENTS_DATA_SV_ID_BIT);
     (PB_GNSS_MEASUREMENTS_DATA_SV_TYPE_BIT, GNSS_MEASUREMENTS_DATA_SV_TYPE_BIT);
     (PB_GNSS_MEASUREMENTS_DATA_STATE_BIT, GNSS_MEASUREMENTS_DATA_STATE_BIT);
     (PB_GNSS_MEASUREMENTS_DATA_RECEIVED_SV_TIME_BIT, GNSS_MEASUREMENTS_DATA_RECEIVED_SV_TIME_BIT);
     (PB_GNSS_MEASUREMENTS_DATA_RECEIVED_SV_TIME_UNCERTAINTY_BIT, GNSS_MEASUREMENTS_DATA_RECEIVED_SV_TIME_UNCERTAINTY_BIT);
     (PB_GNSS_MEASUREMENTS_DATA_CARRIER_TO_NOISE_BIT, GNSS_MEASUREMENTS_DATA_CARRIER_TO_NOISE_BIT);
     (PB_GNSS_MEASUREMENTS_DATA_PSEUDORANGE_RATE_BIT, GNSS_MEASUREMENTS_DATA_PSEUDORANGE_RATE_BIT);
     (PB_GNSS_MEASUREMENTS_DATA_PSEUDORANGE_RATE_UNCERTAINTY_BIT, GNSS_MEASUREMENTS_DATA_PSEUDORANGE_RATE_UNCERTAINTY_BIT);
     (PB_GNSS_MEASUREMENTS_DATA_ADR_STATE_BIT, GNSS_MEASUREMENTS_DATA_ADR_STATE_BIT);
     (PB_GNSS_MEASUREMENTS_DATA_ADR_BIT, GNSS_MEASUREMENTS_DATA_ADR_BIT);
     (PB_GNSS_MEASUREMENTS_DATA_ADR_UNCERTAINTY_BIT, GNSS_MEASUREMENTS_DATA_ADR_UNCERTAINTY_BIT);
     (PB_GNSS_MEASUREMENTS_DATA_CARRIER_FREQUENCY_BIT, GNSS_MEASUREMENTS_DATA_CARRIER_FREQUENCY_BIT);
     (PB_GNSS_MEASUREMENTS_DATA_CARRIER_CYCLES_BIT, GNSS_MEASUREMENTS_DATA_CARRIER_CYCLES_BIT);
     (PB_GNSS_MEASUREMENTS_DATA_CARRIER_PHASE_BIT, GNSS_MEASUREMENTS_DATA_CARRIER_PHASE_BIT);
     (PB_GNSS_MEASUREMENTS_DATA_CARRIER_PHASE_UNCERTAINTY_BIT, GNSS_MEASUREMENTS_DATA_CARRIER_PHASE_UNCERTAINTY_BIT);
     (PB_GNSS_MEASUREMENTS_DATA_MULTIPATH_INDICATOR_BIT, GNSS_MEASUREMENTS_DATA_MULTIPATH_INDICATOR_BIT);
     (PB_GNSS_MEASUREMENTS_DATA_SIGNAL_TO_NOISE_RATIO_BIT, GNSS_MEASUREMENTS_DATA_SIGNAL_TO_NOISE_RATIO_BIT);
     (PB_GNSS_MEASUREMENTS_DATA_AUTOMATIC_GAIN_CONTROL_BIT, GNSS_MEASUREMENTS_DATA_AUTOMATIC_GAIN_CONTROL_BIT);
     (PB_GNSS_MEASUREMENTS_DATA_FULL_ISB_BIT, GNSS_MEASUREMENTS_DATA_FULL_ISB_BIT);
     (PB_GNSS_MEASUREMENTS_DATA_FULL_ISB_UNCERTAINTY_BIT, GNSS_MEASUREMENTS_DATA_FULL_ISB_UNCERTAINTY_BIT);
     (PB_GNSS_MEASUREMENTS_DATA_CYCLE_SLIP_COUNT_BIT, GNSS_MEASUREMENTS_DATA_CYCLE_SLIP_COUNT_BIT)] 0.
Definition getGnssMeasurementsAdrStateMaskFromPB (pbGnssMeasAdrStateMask : Z) : Z :=
  or_bits pbGnssMeasAdrStateMask
    [(PB_GNSS_MEASUREMENTS_ACCUMULATED_DELTA_RANGE_STATE_VALID_BIT, GNSS_MEASUREMENTS_ACCUMULATED_DELTA_RANGE_STATE_VALID_BIT);
     (PB_GNSS_MEASUREMENTS_ACCUMULATED_DELTA_RANGE_STATE_RESET_BIT, GNSS_MEASUREMENTS_ACCUMULATED_DELTA_RANGE_STATE_RESET_BIT);
     (PB_GNSS_MEASUREMENTS_ACCUMULATED_DELTA_RANGE_STATE_CYCLE_SLIP_BIT, GNSS_MEASUREMENTS_ACCUMULATED_DELTA_RANGE_STATE_CYCLE_SLIP_BIT)] 0.
Definition getGnssLocationInfoFlagMaskFromPB (pbGnssLocInfoFlagMask pbGnssLocInfoExtFlagMask : Z) : Z :=
  or_bits pbGnssLocInfoExtFlagMask
    [(PB_GNSS_LOCATION_INFO_ALTITUDE_ASSUMED_BIT, GNSS_LOCATION_INFO_ALTITUDE_ASSUMED_BIT);
     (PB_GNSS_LOCATION_INFO_SESSION_STATUS_BIT, GNSS_LOCATION_INFO_SESSION_STATUS_BIT)]
    (or_bits pbGnssLocInfoFlagMask
    [(PB_GNSS_LOCATION_INFO_ALTITUDE_MEAN_SEA_LEVEL_BIT, GNSS_LOCATION_INFO_ALTITUDE_MEAN_SEA_LEVEL_BIT);
     (PB_GNSS_LOCATION_INFO_DOP_BIT, PB_GNSS_LOCATION_INFO_DOP_BIT);
     (PB_GNSS_LOCATION_INFO_MAGNETIC_DEVIATION_BIT, GNSS_LOCATION_INFO_MAGNETIC_DEVIATION_BIT);
     (PB_GNSS_LOCATION_INFO_HOR_RELIABILITY_BIT, GNSS_LOCATION_INFO_HOR_RELIABILITY_BIT);
     (PB_GNSS_LOCATION_INFO_VER_RELIABILITY_BIT, GNSS_LOCATION_INFO_VER_RELIABILITY_BIT);
     (PB_GNSS_LOCATION_INFO_HOR_ACCURACY_ELIP_SEMI_MAJOR_BIT, GNSS_LOCATION_INFO_HOR_ACCURACY_ELIP_SEMI_MAJOR_BIT);
     (PB_GNSS_LOCATION_INFO_HOR_ACCURACY_ELIP_SEMI_MINOR_BIT, GNSS_LOCATION_INFO_HOR_ACCURACY_ELIP_SEMI_MINOR_BIT);
     (PB_GNSS_LOCATION_INFO_HOR_ACCURACY_ELIP_AZIMUTH_BIT, GNSS_LOCATION_INFO_HOR_ACCURACY_ELIP_AZIMUTH_BIT);
     (PB_GNSS_LOCATION_INFO_GNSS_SV_USED_DATA_BIT, GNSS_LOCATION_INFO_GNSS_SV_USED_DATA_BIT);
     (PB_GNSS_LOCATION_INFO_NAV_SOLUTION_MASK_BIT, GNSS_LOCATION_INFO_NAV_SOLUTION_MASK_BIT);
     (PB_GNSS_LOCATION_INFO_POS_DYNAMICS_DATA_BIT, GNSS_LOCATION_INFO_POS_DYNAMICS_DATA_BIT);
     (PB_GNSS_LOCATION_INFO_EXT_DOP_BIT, GNSS_LOCATION_INFO_EXT_DOP_BIT);
     (PB_GNSS_LOCATION_INFO_NORTH_STD_DEV_BIT, GNSS_LOCATION_INFO_NORTH_STD_DEV_BIT);
     (PB_GNSS_LOCATION_INFO_EAST_STD_DEV_BIT, GNSS_LOCATION_INFO_EAST_STD_DEV_BIT);
     (PB_GNSS_LOCATION_INFO_NORTH_VEL_BIT, GNSS_LOCATION_INFO_NORTH_VEL_BIT);
     (PB_GNSS_LOCATION_INFO_EAST_VEL_BIT, GNSS_LOCATION_INFO_EAST_VEL_BIT);
     (PB_GNSS_LOCATION_INFO_UP_VEL_BIT, GNSS_LOCATION_INFO_UP_VEL_BIT);
     (PB_GNSS_LOCATION_INFO_NORTH_VEL_UNC_BIT, GNSS_LOCATION_INFO_NORTH_VEL_UNC_BIT);
     (PB_GNSS_LOCATION_INFO_EAST_VEL_UNC_BIT, GNSS_LOCATION_INFO_EAST_VEL_UNC_BIT);
     (PB_GNSS_LOCATION_INFO_UP_VEL_UNC_BIT, GNSS_LOCATION_INFO_UP_VEL_UNC_BIT);
     (PB_GNSS_LOCATION_INFO_LEAP_SECONDS_BIT, GNSS_LOCATION_INFO_LEAP_SECONDS_BIT);
     (PB_GNSS_LOCATION_INFO_TIME_UNC_BIT, GNSS_LOCATION_INFO_TIME_UNC_BIT);
     (PB_GNSS_LOCATION_INFO_NUM_SV_USED_IN_POSITION_BIT, GNSS_LOCATION_INFO_NUM_SV_USED_IN_POSITION_BIT);
     (PB_GNSS_LOCATION_INFO_CALIBRATION_CONFIDENCE_PERCENT_BIT, GNSS_LOCATION_INFO_CALIBRATION_CONFIDENCE_BIT);
     (PB_GNSS_LOCATION_INFO_CALIBRATION_STATUS_BIT, GNSS_LOCATION_INFO_CALIBRATION_STATUS_BIT);
     (PB_GNSS_LOCATION_INFO_OUTPUT_ENG_TYPE_BIT, GNSS_LOCATION_INFO_OUTPUT_ENG_TYPE_BIT);
     (PB_GNSS_LOCATION_INFO_OUTPUT_ENG_MASK_BIT, GNSS_LOCATION_INFO_OUTPUT_ENG_MASK_BIT);
     (PB_GNSS_LOCATION_INFO_CONFORMITY_INDEX_BIT, GNSS_LOCATION_INFO_CONFORMITY_INDEX_BIT);
     (PB_GNSS_LOCATION_INFO_LLA_VRP_BASED_BIT, GNSS_LOCATION_INFO_LLA_VRP_BASED_BIT);
     (PB_GNSS_LOCATION_INFO_ENU_VELOCITY_VRP_BASED_BIT, GNSS_LOCATION_INFO_ENU_VELOCITY_VRP_BASED_BIT);
     (PB_GNSS_LOCATION_INFO_DR_SOLUTION_STATUS_MASK_BIT, GNSS_LOCATION_INFO_DR_SOLUTION_STATUS_MASK_BIT)] 0).
Definition getGnssLocationNavSolutionMaskFromPB (pbGnssLocNavSoln : Z) : Z :=
  or_bits pbGnssLocNavSoln
    [(PB_LOCATION_SBAS_CORRECTION_IONO_BIT, LOCATION_SBAS_CORRECTION_IONO_BIT);
     (PB_LOCATION_SBAS_CORRECTION_FAST_BIT, LOCATION_SBAS_CORRECTION_FAST_BIT);
     (PB_LOCATION_SBAS_CORRECTION_LONG_BIT, LOCATION_SBAS_CORRECTION_LONG_BIT);
     (PB_LOCATION_SBAS_INTEGRITY_BIT, LOCATION_SBAS_INTEGRITY_BIT);
     (PB_LOCATION_NAV_CORRECTION_DGNSS_BIT, LOCATION_NAV_CORRECTION_DGNSS_BIT);
     (PB_LOCATION_NAV_CORRECTION_RTK_BIT, LOCATION_NAV_CORRECTION_RTK_BIT);
     (PB_LOCATION_NAV_CORRECTION_PPP_BIT, LOCATION_NAV_CORRECTION_PPP_BIT);
     (PB_LOCATION_NAV_CORRECTION_RTK_FIXED_BIT, LOCATION_NAV_CORRECTION_RTK_FIXED_BIT);
     (PB_LOCATION_NAV_CORRECTION_ONLY_SBAS_CORRECTED_SV_USED_BIT, LOCATION_NAV_CORRECTION_ONLY_SBAS_CORRECTED_SV_USED_BIT)] 0.
Definition getDrCalibrationStatusMaskFromPB (pbDrCalibStatus : Z) : Z :=
  or_bits pbDrCalibStatus
    [(PB_DR_ROLL_CALIBRATION_NEEDED, DR_ROLL_CALIBRATION_NEEDED);
     (PB_DR_PITCH_CALIBRATION_NEEDED, DR_PITCH_CALIBRATION_NEEDED);
     (PB_DR_YAW_CALIBRATION_NEEDED, DR_YAW_CALIBRATION_NEEDED);
     (PB_DR_ODO_CALIBRATION_NEEDED, DR_ODO_CALIBRATION_NEEDED);
     (PB_DR_GYRO_CALIBRATION_NEEDED, DR_GYRO_CALIBRATION_NEEDED)] 0.
Definition getGnssLocationPosDataMaskFromPB (pbGnssLocPosDataMask : Z) : Z :=
  or_bits pbGnssLocPosDataMask
    [(PB_LOCATION_NAV_DATA_HAS_LONG_ACCEL_BIT, LOCATION_NAV_DATA_HAS_LONG_ACCEL_BIT);
     (PB_LOCATION_NAV_DATA_HAS_LAT_ACCEL_BIT, LOCATION_NAV_DATA_HAS_LAT_ACCEL_BIT);
     (PB_LOCATION_NAV_DATA_HAS_VERT_ACCEL_BIT, LOCATION_NAV_DATA_HAS_VERT_ACCEL_BIT);
     (PB_LOCATION_NAV_DATA_HAS_YAW_RATE_BIT, LOCATION_NAV_DATA_HAS_YAW_RATE_BIT);
     (PB_LOCATION_NAV_DATA_HAS_PITCH_BIT, LOCATION_NAV_DATA_HAS_PITCH_BIT);
     (PB_LOCATION_NAV_DATA_HAS_LONG_ACCEL_UNC_BIT, LOCATION_NAV_DATA_HAS_LONG_ACCEL_UNC_BIT);
     (PB_LOCATION_NAV_DATA_HAS_LAT_ACCEL_UNC_BIT, LOCATION_NAV_DATA_HAS_LAT_ACCEL_UNC_BIT);
     (PB_LOCATION_NAV_DATA_HAS_VERT_ACCEL_UNC_BIT, LOCATION_NAV_DATA_HAS_VERT_ACCEL_UNC_BIT);
     (PB_LOCATION_NAV_DATA_HAS_YAW_RATE_UNC_BIT, LOCATION_NAV_DATA_HAS_YAW_RATE_UNC_BIT);
     (PB_LOCATION_NAV_DATA_HAS_PITCH_UNC_BIT, LOCATION_NAV_DATA_HAS_PITCH_UNC_BIT)] 0.
Definition getGnssLocationPosDataMaskExtFromPB (pbGnssLocPosDataMask : Z) : Z :=
  or_bits pbGnssLocPosDataMask
    [(PB_LOCATION_NAV_DATA_HAS_PITCH_RATE_BIT, LOCATION_NAV_DATA_HAS_PITCH_RATE_BIT);
     (PB_LOCATION_NAV_DATA_HAS_PITCH_RATE_UNC_BIT, LOCATION_NAV_DATA_HAS_PITCH_RATE_UNC_BIT);
     (PB_LOCATION_NAV_DATA_HAS_ROLL_BIT, LOCATION_NAV_DATA_HAS_ROLL_BIT);
     (PB_LOCATION_NAV_DATA_HAS_ROLL_UNC_BIT, LOCATION_NAV_DATA_HAS_ROLL_UNC_BIT);
     (PB_LOCATION_NAV_DATA_HAS_ROLL_RATE_BIT, LOCATION_NAV_DATA_HAS_ROLL_RATE_BIT);
     (PB_LOCATION_NAV_DATA_HAS_ROLL_RATE_UNC_BIT, LOCATION_NAV_DATA_HAS_ROLL_RATE_UNC_BIT);
     (PB_LOCATION_NAV_DATA_HAS_YAW_BIT, LOCATION_NAV_DATA_HAS_YAW_BIT);
     (PB_LOCATION_NAV_DATA_HAS_YAW_UNC_BIT, LOCATION_NAV_DATA_HAS_YAW_UNC_BIT)] 0.
Definition getGnssGloTimeStructTypeFlagsFromPB (pbGnssGloTimeStruct : Z) : Z :=
  or_bits pbGnssGloTimeStruct
    [(PB_GNSS_CLO_DAYS_VALID, GNSS_CLO_DAYS_VALID); (PB_GNSS_GLO_MSEC_VALID, GNSS_GLO_MSEC_VALID);
     (PB_GNSS_GLO_CLK_TIME_BIAS_VALID, GNSS_GLO_CLK_TIME_BIAS_VALID);
     (PB_GNSS_GLO_CLK_TIME_BIAS_UNC_VALID, GNSS_GLO_CLK_TIME_BIAS_UNC_VALID);
     (PB_GNSS_GLO_REF_FCOUNT_VALID, GNSS_GLO_REF_FCOUNT_VALID);
     (PB_GNSS_GLO_NUM_CLOCK_RESETS_VALID, GNSS_GLO_NUM_CLOCK_RESETS_VALID);
     (PB_GNSS_GLO_FOUR_YEAR_VALID, GNSS_GLO_FOUR_YEAR_VALID)] 0.
Definition getGnssConfigRobustLocationValidMaskFromPB (pbGnssCfgRobstLocValidMask : Z) : Z :=
  or_bits pbGnssCfgRobstLocValidMask
    [(PB_GNSS_CONFIG_ROBUST_LOCATION_ENABLED_VALID_BIT, GNSS_CONFIG_ROBUST_LOCATION_ENABLED_VALID_BIT);
     (PB_GNSS_CONFIG_ROBUST_LOCATION_ENABLED_FOR_E911_VALID_BIT, GNSS_CONFIG_ROBUST_LOCATION_ENABLED_FOR_E911_VALID_BIT);
     (PB_GNSS_CONFIG_ROBUST_LOCATION_VERSION_VALID_BIT, GNSS_CONFIG_ROBUST_LOCATION_VERSION_VALID_BIT)] 0.
Definition getDeadReckoningEngineConfigValidMaskFromPB (pbDrEngCfgVldMask : Z) : Z :=
  or_bits pbDrEngCfgVldMask
    [(PB_BODY_TO_SENSOR_MOUNT_PARAMS_BIT, BODY_TO_SENSOR_MOUNT_PARAMS_BIT);
     (PB_VEHICLE_SPEED_SCALE_FACTOR_BIT, VEHICLE_SPEED_SCALE_FACTOR_BIT);
     (PB_VEHICLE_SPEED_SCALE_FACTOR_UNC_BIT, VEHICLE_SPEED_SCALE_FACTOR_UNC_BIT);
     (PB_GYRO_SCALE_FACTOR_BIT, GYRO_SCALE_FACTOR_BIT); (PB_GYRO_SCALE_FACTOR_UNC_BIT, GYRO_SCALE_FACTOR_UNC_BIT)] 0.
Definition getDrEngineAidingDataMaskFromPB (pbDrEngAidDataMask : Z) : Z :=
  or_bits pbDrEngAidDataMask
    [(PB_DR_ENGINE_AIDING_DATA_CALIBRATION_BIT, DR_ENGINE_AIDING_DATA_CALIBRATION_BIT)] 0.
Definition getDrSolutionStatusMaskFromPB (pbDrSolnStatusMask : Z) : Z :=
  or_bits pbDrSolnStatusMask
    [(PB_VEHICLE_SENSOR_SPEED_INPUT_DETECTED, VEHICLE_SENSOR_SPEED_INPUT_DETECTED);
     (PB_VEHICLE_SENSOR_SPEED_INPUT_USED, VEHICLE_SENSOR_SPEED_INPUT_USED)] 0.
Definition getPBEnumForLocSessionStatus (status : Z) : Z :=
  switch status
    [(LOC_SESS_SUCCESS, PB_LOCATION_SESS_SUCCESS); (LOC_SESS_INTERMEDIATE, PB_LOCATION_SESS_INTERMEDIATE)] PB_LOCATION_SESS_FAILURE.
Definition getLocSessionStatusFromPB (pbStatus : Z) : Z :=
  switch pbStatus
    [(PB_LOCATION_SESS_SUCCESS, LOC_SESS_SUCCESS); (PB_LOCATION_SESS_INTERMEDIATE, LOC_SESS_INTERMEDIATE)] LOC_SESS_FAILURE.
