(* ===== verification/PbTypes.v ===== *)
(** * Data and messages of the location API
    ([src/gps/location/LocationDataTypes.h], [src/location/location_api_msg_proto/])

    The structures of the API and the messages that carry them, with the names and
    the order of their fields.  Numbers are integers, floating-point values the
    integers that encode them (no conversion computes with one); arrays and
    repeated fields are lists.  The [size] members, which a decoder sets to
    [sizeof], are left out. *)
From S2P Require Import Prelude.
#[local] Open Scope Z_scope.

(** ** Structures of the API *)

Record GnssSvTypeConfig := MkGnssSvTypeConfig {
  GnssSvTypeConfig_enabledSvTypesMask : Z; GnssSvTypeConfig_blacklistedSvTypesMask : Z;
}.

Record GnssSvIdConfig := MkGnssSvIdConfig {
  GnssSvIdConfig_gloBlacklistSvMask : Z; GnssSvIdConfig_bdsBlacklistSvMask : Z;
  GnssSvIdConfig_qzssBlacklistSvMask : Z; GnssSvIdConfig_galBlacklistSvMask : Z;
  GnssSvIdConfig_sbasBlacklistSvMask : Z; GnssSvIdConfig_navicBlacklistSvMask : Z;
}.

Record GnssAidingDataSv := MkGnssAidingDataSv {
  GnssAidingDataSv_svMask : Z; GnssAidingDataSv_svTypeMask : Z;
}.

Record GnssAidingDataCommon := MkGnssAidingDataCommon {
  GnssAidingDataCommon_mask : Z;
}.

Record GnssAidingData := MkGnssAidingData {
  GnssAidingData_deleteAll : bool; GnssAidingData_sv : GnssAidingDataSv;
  GnssAidingData_common : GnssAidingDataCommon; GnssAidingData_dreAidingDataMask : Z;
  GnssAidingData_posEngineMask : Z;
}.

Record LeverArmParams := MkLeverArmParams {
  LeverArmParams_forwardOffsetMeters : Z; LeverArmParams_sidewaysOffsetMeters : Z; LeverArmParams_upOffsetMeters : Z;
}.

Record LeverArmConfigInfo := MkLeverArmConfigInfo {
  LeverArmConfigInfo_leverArmValidMask : Z; LeverArmConfigInfo_gnssToVRP : LeverArmParams;
  LeverArmConfigInfo_drImuToGnss : LeverArmParams; LeverArmConfigInfo_veppImuToGnss : LeverArmParams;
}.

Record BodyToSensorMountParams := MkBodyToSensorMountParams {
  BodyToSensorMountParams_rollOffset : Z; BodyToSensorMountParams_yawOffset : Z;
  BodyToSensorMountParams_pitchOffset : Z; BodyToSensorMountParams_offsetUnc : Z;
}.

Record DeadReckoningEngineConfig := MkDeadReckoningEngineConfig {
  DeadReckoningEngineConfig_validMask : Z;
  DeadReckoningEngineConfig_bodyToSensorMountParams : BodyToSensorMountParams;
  DeadReckoningEngineConfig_vehicleSpeedScaleFactor : Z; DeadReckoningEngineConfig_vehicleSpeedScaleFactorUnc : Z;
  DeadReckoningEngineConfig_gyroScaleFactor : Z; DeadReckoningEngineConfig_gyroScaleFactorUnc : Z;
}.

Record LocationOptions := MkLocationOptions {
  LocationOptions_minInterval : Z; LocationOptions_minDistance : Z; LocationOptions_mode : Z;
  LocationOptions_locReqEngTypeMask : Z;
}.

Record GeofenceOption := MkGeofenceOption {
  GeofenceOption_breachTypeMask : Z; GeofenceOption_responsiveness : Z; GeofenceOption_dwellTime : Z;
}.

Record GeofenceInfo := MkGeofenceInfo {
  GeofenceInfo_latitude : Z; GeofenceInfo_longitude : Z; GeofenceInfo_radius : Z;
}.

Record GeofencePayload := MkGeofencePayload {
  GeofencePayload_gfClientId : Z; GeofencePayload_gfOption : GeofenceOption; GeofencePayload_gfInfo : GeofenceInfo;
}.

Record GeofencesAddedReqPayload := MkGeofencesAddedReqPayload {
  GeofencesAddedReqPayload_count : Z; GeofencesAddedReqPayload_gfPayload : list GeofencePayload;
}.

Record GeofencesReqClientIdPayload := MkGeofencesReqClientIdPayload {
  GeofencesReqClientIdPayload_count : Z; GeofencesReqClientIdPayload_gfIds : list Z;
}.

Record GeofenceResponse := MkGeofenceResponse {
  GeofenceResponse_clientId : Z; GeofenceResponse_error : Z;
}.

Record CollectiveResPayload := MkCollectiveResPayload {
  CollectiveResPayload_count : Z; CollectiveResPayload_resp : list GeofenceResponse;
}.

Record GnssConfigRobustLocationVersion := MkGnssConfigRobustLocationVersion {
  GnssConfigRobustLocationVersion_major : Z; GnssConfigRobustLocationVersion_minor : Z;
}.

Record GnssConfigRobustLocation := MkGnssConfigRobustLocation {
  GnssConfigRobustLocation_validMask : Z; GnssConfigRobustLocation_enabled : bool;
  GnssConfigRobustLocation_enabledForE911 : bool; GnssConfigRobustLocation_version : GnssConfigRobustLocationVersion;
}.

Record Location := MkLocation {
  Location_flags : Z; Location_timestamp : Z; Location_latitude : Z; Location_longitude : Z; Location_altitude : Z;
  Location_speed : Z; Location_bearing : Z; Location_accuracy : Z; Location_verticalAccuracy : Z;
  Location_speedAccuracy : Z; Location_bearingAccuracy : Z; Location_conformityIndex : Z; Location_techMask : Z;
  Location_spoofMask : Z; Location_elapsedRealTime : Z; Location_elapsedRealTimeUnc : Z;
}.

Record LocAPIBatchNotification := MkLocAPIBatchNotification {
  LocAPIBatchNotification_count : Z; LocAPIBatchNotification_status : Z;
  LocAPIBatchNotification_location : list Location;
}.

Record LocAPIGeofenceBreachNotification := MkLocAPIGeofenceBreachNotification {
  LocAPIGeofenceBreachNotification_count : Z; LocAPIGeofenceBreachNotification_timestamp : Z;
  LocAPIGeofenceBreachNotification_type : Z; LocAPIGeofenceBreachNotification_location : Location;
  LocAPIGeofenceBreachNotification_id : list Z;
}.

Record GnssLocationSvUsedInPosition := MkGnssLocationSvUsedInPosition {
  GnssLocationSvUsedInPosition_gpsSvUsedIdsMask : Z; GnssLocationSvUsedInPosition_gloSvUsedIdsMask : Z;
  GnssLocationSvUsedInPosition_galSvUsedIdsMask : Z; GnssLocationSvUsedInPosition_bdsSvUsedIdsMask : Z;
  GnssLocationSvUsedInPosition_qzssSvUsedIdsMask : Z; GnssLocationSvUsedInPosition_navicSvUsedIdsMask : Z;
}.

Record GnssLocationPositionDynamics := MkGnssLocationPositionDynamics {
  GnssLocationPositionDynamics_bodyFrameDataMask : Z; GnssLocationPositionDynamics_longAccel : Z;
  GnssLocationPositionDynamics_latAccel : Z; GnssLocationPositionDynamics_vertAccel : Z;
  GnssLocationPositionDynamics_yawRate : Z; GnssLocationPositionDynamics_pitch : Z;
  GnssLocationPositionDynamics_longAccelUnc : Z; GnssLocationPositionDynamics_latAccelUnc : Z;
  GnssLocationPositionDynamics_vertAccelUnc : Z; GnssLocationPositionDynamics_yawRateUnc : Z;
  GnssLocationPositionDynamics_pitchUnc : Z;
}.

Record GnssSystemTimeStructType := MkGnssSystemTimeStructType {
  GnssSystemTimeStructType_validityMask : Z; GnssSystemTimeStructType_systemWeek : Z;
  GnssSystemTimeStructType_systemMsec : Z; GnssSystemTimeStructType_systemClkTimeBias : Z;
  GnssSystemTimeStructType_systemClkTimeUncMs : Z; GnssSystemTimeStructType_refFCount : Z;
  GnssSystemTimeStructType_numClockResets : Z;
}.

Record GnssGloTimeStructType := MkGnssGloTimeStructType {
  GnssGloTimeStructType_gloDays : Z; GnssGloTimeStructType_validityMask : Z; GnssGloTimeStructType_gloMsec : Z;
  GnssGloTimeStructType_gloClkTimeBias : Z; GnssGloTimeStructType_gloClkTimeUncMs : Z;
  GnssGloTimeStructType_refFCount : Z; GnssGloTimeStructType_numClockResets : Z;
  GnssGloTimeStructType_gloFourYear : Z;
}.

(** The union of the system times: one structure for all constellations but GLONASS. *)
Inductive SystemTimeStructUnion :=
  | SystemTime (time : GnssSystemTimeStructType)   (** [gpsSystemTime], [galSystemTime], [bdsSystemTime], [qzssSystemTime], [navicSystemTime] *)
  | GloTime (time : GnssGloTimeStructType).        (** [gloSystemTime] *)

Record GnssSystemTime := MkGnssSystemTime {
  GnssSystemTime_gnssSystemTimeSrc : Z; GnssSystemTime_u : SystemTimeStructUnion;
}.

Record GnssMeasUsageInfo := MkGnssMeasUsageInfo {
  GnssMeasUsageInfo_gnssSignalType : Z; GnssMeasUsageInfo_gnssConstellation : Z; GnssMeasUsageInfo_gnssSvId : Z;
}.

Record GnssLocationPositionDynamicsExt := MkGnssLocationPositionDynamicsExt {
  GnssLocationPositionDynamicsExt_bodyFrameDataMask : Z; GnssLocationPositionDynamicsExt_pitchRate : Z;
  GnssLocationPositionDynamicsExt_pitchRateUnc : Z; GnssLocationPositionDynamicsExt_roll : Z;
  GnssLocationPositionDynamicsExt_rollUnc : Z; GnssLocationPositionDynamicsExt_rollRate : Z;
  GnssLocationPositionDynamicsExt_rollRateUnc : Z; GnssLocationPositionDynamicsExt_yaw : Z;
  GnssLocationPositionDynamicsExt_yawUnc : Z;
}.

Record LLAInfo := MkLLAInfo {
  LLAInfo_latitude : Z; LLAInfo_longitude : Z; LLAInfo_altitude : Z;
}.

Record GnssLocationInfoNotification := MkGnssLocationInfoNotification {
  GnssLocationInfoNotification_location : Location; GnssLocationInfoNotification_flags : Z;
  GnssLocationInfoNotification_altitudeMeanSeaLevel : Z; GnssLocationInfoNotification_pdop : Z;
  GnssLocationInfoNotification_hdop : Z; GnssLocationInfoNotification_vdop : Z;
  GnssLocationInfoNotification_gdop : Z; GnssLocationInfoNotification_tdop : Z;
  GnssLocationInfoNotification_magneticDeviation : Z; GnssLocationInfoNotification_horReliability : Z;
  GnssLocationInfoNotification_verReliability : Z; GnssLocationInfoNotification_horUncEllipseSemiMajor : Z;
  GnssLocationInfoNotification_horUncEllipseSemiMinor : Z;
  GnssLocationInfoNotification_horUncEllipseOrientAzimuth : Z; GnssLocationInfoNotification_northStdDeviation : Z;
  GnssLocationInfoNotification_eastStdDeviation : Z; GnssLocationInfoNotification_northVelocity : Z;
  GnssLocationInfoNotification_eastVelocity : Z; GnssLocationInfoNotification_upVelocity : Z;
  GnssLocationInfoNotification_northVelocityStdDeviation : Z;
  GnssLocationInfoNotification_eastVelocityStdDeviation : Z; GnssLocationInfoNotification_upVelocityStdDeviation : Z;
  GnssLocationInfoNotification_numSvUsedInPosition : Z;
  GnssLocationInfoNotification_svUsedInPosition : GnssLocationSvUsedInPosition;
  GnssLocationInfoNotification_navSolutionMask : Z;
  GnssLocationInfoNotification_bodyFrameData : GnssLocationPositionDynamics;
  GnssLocationInfoNotification_gnssSystemTime : GnssSystemTime; GnssLocationInfoNotification_numOfMeasReceived : Z;
  GnssLocationInfoNotification_measUsageInfo : list GnssMeasUsageInfo; GnssLocationInfoNotification_leapSeconds : Z;
  GnssLocationInfoNotification_timeUncMs : Z; GnssLocationInfoNotification_calibrationConfidence : Z;
  GnssLocationInfoNotification_calibrationStatus : Z; GnssLocationInfoNotification_locOutputEngType : Z;
  GnssLocationInfoNotification_locOutputEngMask : Z; GnssLocationInfoNotification_conformityIndex : Z;
  GnssLocationInfoNotification_bodyFrameDataExt : GnssLocationPositionDynamicsExt;
  GnssLocationInfoNotification_llaVRPBased : LLAInfo; GnssLocationInfoNotification_enuVelocityVRPBased : list Z;
  GnssLocationInfoNotification_drSolutionStatusMask : Z; GnssLocationInfoNotification_altitudeAssumed : bool;
  GnssLocationInfoNotification_sessionStatus : Z;
}.

Record LeapSecondChangeInfo := MkLeapSecondChangeInfo {
  LeapSecondChangeInfo_gpsTimestampLsChange : GnssSystemTimeStructType;
  LeapSecondChangeInfo_leapSecondsBeforeChange : Z; LeapSecondChangeInfo_leapSecondsAfterChange : Z;
}.

Record LeapSecondSystemInfo := MkLeapSecondSystemInfo {
  LeapSecondSystemInfo_leapSecondInfoMask : Z; LeapSecondSystemInfo_leapSecondCurrent : Z;
  LeapSecondSystemInfo_leapSecondChangeInfo : LeapSecondChangeInfo;
}.

Record LocationSystemInfo := MkLocationSystemInfo {
  LocationSystemInfo_systemInfoMask : Z; LocationSystemInfo_leapSecondSysInfo : LeapSecondSystemInfo;
}.

Record GnssMeasurementsData := MkGnssMeasurementsData {
  GnssMeasurementsData_flags : Z; GnssMeasurementsData_svId : Z; GnssMeasurementsData_svType : Z;
  GnssMeasurementsData_timeOffsetNs : Z; GnssMeasurementsData_stateMask : Z;
  GnssMeasurementsData_receivedSvTimeNs : Z; GnssMeasurementsData_receivedSvTimeUncertaintyNs : Z;
  GnssMeasurementsData_carrierToNoiseDbHz : Z; GnssMeasurementsData_pseudorangeRateMps : Z;
  GnssMeasurementsData_pseudorangeRateUncertaintyMps : Z; GnssMeasurementsData_adrStateMask : Z;
  GnssMeasurementsData_adrMeters : Z; GnssMeasurementsData_adrUncertaintyMeters : Z;
  GnssMeasurementsData_carrierFrequencyHz : Z; GnssMeasurementsData_carrierCycles : Z;
  GnssMeasurementsData_carrierPhase : Z; GnssMeasurementsData_carrierPhaseUncertainty : Z;
  GnssMeasurementsData_multipathIndicator : Z; GnssMeasurementsData_signalToNoiseRatioDb : Z;
  GnssMeasurementsData_agcLevelDb : Z; GnssMeasurementsData_codeType : Z;
  GnssMeasurementsData_otherCodeTypeName : list Z; GnssMeasurementsData_basebandCarrierToNoiseDbHz : Z;
  GnssMeasurementsData_gnssSignalType : Z; GnssMeasurementsData_fullInterSignalBiasNs : Z;
  GnssMeasurementsData_fullInterSignalBiasUncertaintyNs : Z; GnssMeasurementsData_satelliteInterSignalBiasNs : Z;
  GnssMeasurementsData_satelliteInterSignalBiasUncertaintyNs : Z; GnssMeasurementsData_gloFrequency : Z;
  GnssMeasurementsData_cycleSlipCount : Z;
}.

Record GnssMeasurementsSignalType := MkGnssMeasurementsSignalType {
  GnssMeasurementsSignalType_svType : Z; GnssMeasurementsSignalType_carrierFrequencyHz : Z;
  GnssMeasurementsSignalType_codeType : Z; GnssMeasurementsSignalType_otherCodeTypeName : list Z;
}.

Record GnssMeasurementsClock := MkGnssMeasurementsClock {
  GnssMeasurementsClock_flags : Z; GnssMeasurementsClock_leapSecond : Z; GnssMeasurementsClock_timeNs : Z;
  GnssMeasurementsClock_timeUncertaintyNs : Z; GnssMeasurementsClock_fullBiasNs : Z;
  GnssMeasurementsClock_biasNs : Z; GnssMeasurementsClock_biasUncertaintyNs : Z; GnssMeasurementsClock_driftNsps : Z;
  GnssMeasurementsClock_driftUncertaintyNsps : Z; GnssMeasurementsClock_hwClockDiscontinuityCount : Z;
  GnssMeasurementsClock_referenceSignalTypeForIsb : GnssMeasurementsSignalType;
  GnssMeasurementsClock_elapsedRealTime : Z; GnssMeasurementsClock_elapsedRealTimeUnc : Z;
}.

Record GnssMeasurementsNotification := MkGnssMeasurementsNotification {
  GnssMeasurementsNotification_count : Z; GnssMeasurementsNotification_measurements : list GnssMeasurementsData;
  GnssMeasurementsNotification_clock : GnssMeasurementsClock;
}.

Record GnssDataNotification := MkGnssDataNotification {
  GnssDataNotification_gnssDataMask : list Z; GnssDataNotification_jammerInd : list Z;
  GnssDataNotification_agc : list Z;
}.

Record LocAPINmeaSerializedPayload := MkLocAPINmeaSerializedPayload {
  LocAPINmeaSerializedPayload_timestamp : Z; LocAPINmeaSerializedPayload_nmea : string;
}.

Record GnssSv := MkGnssSv {
  GnssSv_svId : Z; GnssSv_type : Z; GnssSv_cN0Dbhz : Z; GnssSv_elevation : Z; GnssSv_azimuth : Z;
  GnssSv_gnssSvOptionsMask : Z; GnssSv_carrierFrequencyHz : Z; GnssSv_gnssSignalTypeMask : Z;
  GnssSv_basebandCarrierToNoiseDbHz : Z; GnssSv_gloFrequency : Z;
}.

Record GnssSvNotification := MkGnssSvNotification {
  GnssSvNotification_count : Z; GnssSvNotification_gnssSignalTypeMaskValid : bool;
  GnssSvNotification_gnssSvs : list GnssSv;
}.

(** ** Messages *)

Record PBGnssSvTypeConfig := MkPBGnssSvTypeConfig {
  PBGnssSvTypeConfig_enabledSvTypesMask : Z; PBGnssSvTypeConfig_blacklistedSvTypesMask : Z;
}.

Record PBGnssSvIdConfig := MkPBGnssSvIdConfig {
  PBGnssSvIdConfig_gloBlacklistSvMask : Z; PBGnssSvIdConfig_bdsBlacklistSvMask : Z;
  PBGnssSvIdConfig_qzssBlacklistSvMask : Z; PBGnssSvIdConfig_galBlacklistSvMask : Z;
  PBGnssSvIdConfig_sbasBlacklistSvMask : Z; PBGnssSvIdConfig_navicBlacklistSvMask : Z;
}.

Record PBAidingData := MkPBAidingData {
  PBAidingData_deleteAll : bool; PBAidingData_gnssAidingDataSvMask : Z; PBAidingData_dreAidingDataMask : Z;
  PBAidingData_posEngineMask : Z;
}.

Record PBLIALeverArmParams := MkPBLIALeverArmParams {
  PBLIALeverArmParams_forwardOffsetMeters : Z; PBLIALeverArmParams_sidewaysOffsetMeters : Z;
  PBLIALeverArmParams_upOffsetMeters : Z;
}.

Record PBLIALeverArmConfigInfo := MkPBLIALeverArmConfigInfo {
  PBLIALeverArmConfigInfo_leverArmValidMask : Z; PBLIALeverArmConfigInfo_gnssToVRP : PBLIALeverArmParams;
  PBLIALeverArmConfigInfo_drImuToGnss : PBLIALeverArmParams;
  PBLIALeverArmConfigInfo_veppImuToGnss : PBLIALeverArmParams;
}.

Record PBLIABodyToSensorMountParams := MkPBLIABodyToSensorMountParams {
  PBLIABodyToSensorMountParams_rollOffset : Z; PBLIABodyToSensorMountParams_yawOffset : Z;
  PBLIABodyToSensorMountParams_pitchOffset : Z; PBLIABodyToSensorMountParams_offsetUnc : Z;
}.

Record PBDeadReckoningEngineConfig := MkPBDeadReckoningEngineConfig {
  PBDeadReckoningEngineConfig_validMask : Z;
  PBDeadReckoningEngineConfig_bodyToSensorMountParams : PBLIABodyToSensorMountParams;
  PBDeadReckoningEngineConfig_vehicleSpeedScaleFactor : Z;
  PBDeadReckoningEngineConfig_vehicleSpeedScaleFactorUnc : Z; PBDeadReckoningEngineConfig_gyroScaleFactor : Z;
  PBDeadReckoningEngineConfig_gyroScaleFactorUnc : Z;
}.

Record PBLocationOptions := MkPBLocationOptions {
  PBLocationOptions_minInterval : Z; PBLocationOptions_minDistance : Z; PBLocationOptions_mode : Z;
  PBLocationOptions_locReqEngTypeMask : Z;
}.

Record PBGeofenceOption := MkPBGeofenceOption {
  PBGeofenceOption_breachTypeMask : Z; PBGeofenceOption_responsiveness : Z; PBGeofenceOption_dwellTime : Z;
}.

Record PBGeofenceInfo := MkPBGeofenceInfo {
  PBGeofenceInfo_latitude : Z; PBGeofenceInfo_longitude : Z; PBGeofenceInfo_radius : Z;
}.

Record PBGeofencePayload := MkPBGeofencePayload {
  PBGeofencePayload_gfClientId : Z; PBGeofencePayload_gfOption : PBGeofenceOption;
  PBGeofencePayload_gfInfo : PBGeofenceInfo;
}.

Record PBGeofencesAddedReqPayload := MkPBGeofencesAddedReqPayload {
  PBGeofencesAddedReqPayload_gfPayload : list PBGeofencePayload;
}.

Record PBGeofencesReqClientIdPayload := MkPBGeofencesReqClientIdPayload {
  PBGeofencesReqClientIdPayload_gfIds : list Z;
}.

Record PBGeofenceResponse := MkPBGeofenceResponse {
  PBGeofenceResponse_clientId : Z; PBGeofenceResponse_error : Z;
}.

Record PBCollectiveResPayload := MkPBCollectiveResPayload {
  PBCollectiveResPayload_resp : list PBGeofenceResponse;
}.

Record PBGnssConfigRobustLocationVersion := MkPBGnssConfigRobustLocationVersion {
  PBGnssConfigRobustLocationVersion_major : Z; PBGnssConfigRobustLocationVersion_minor : Z;
}.

Record PBGnssConfigRobustLocation := MkPBGnssConfigRobustLocation {
  PBGnssConfigRobustLocation_validMask : Z; PBGnssConfigRobustLocation_enabled : bool;
  PBGnssConfigRobustLocation_enabledForE911 : bool;
  PBGnssConfigRobustLocation_version : PBGnssConfigRobustLocationVersion;
}.

Record PBLocation := MkPBLocation {
  PBLocation_flags : Z; PBLocation_timestamp : Z; PBLocation_latitude : Z; PBLocation_longitude : Z;
  PBLocation_altitude : Z; PBLocation_speed : Z; PBLocation_bearing : Z; PBLocation_horizontalAccuracy : Z;
  PBLocation_verticalAccuracy : Z; PBLocation_speedAccuracy : Z; PBLocation_bearingAccuracy : Z;
  PBLocation_techMask : Z;
}.

Record PBLocAPIBatchNotification := MkPBLocAPIBatchNotification {
  PBLocAPIBatchNotification_status : Z; PBLocAPIBatchNotification_location : list PBLocation;
}.

Record PBLocAPIGeofenceBreachNotification := MkPBLocAPIGeofenceBreachNotification {
  PBLocAPIGeofenceBreachNotification_timestamp : Z; PBLocAPIGeofenceBreachNotification_breachtype : Z;
  PBLocAPIGeofenceBreachNotification_location : PBLocation; PBLocAPIGeofenceBreachNotification_id : list Z;
}.

Record PBGnssLocationSvUsedInPosition := MkPBGnssLocationSvUsedInPosition {
  PBGnssLocationSvUsedInPosition_gpsSvUsedIdsMask : Z; PBGnssLocationSvUsedInPosition_gloSvUsedIdsMask : Z;
  PBGnssLocationSvUsedInPosition_galSvUsedIdsMask : Z; PBGnssLocationSvUsedInPosition_bdsSvUsedIdsMask : Z;
  PBGnssLocationSvUsedInPosition_qzssSvUsedIdsMask : Z; PBGnssLocationSvUsedInPosition_navicSvUsedIdsMask : Z;
}.

Record PBLocApiGnssLocationPositionDynamics := MkPBLocApiGnssLocationPositionDynamics {
  PBLocApiGnssLocationPositionDynamics_bodyFrameDataMask : Z; PBLocApiGnssLocationPositionDynamics_longAccel : Z;
  PBLocApiGnssLocationPositionDynamics_latAccel : Z; PBLocApiGnssLocationPositionDynamics_vertAccel : Z;
  PBLocApiGnssLocationPositionDynamics_longAccelUnc : Z; PBLocApiGnssLocationPositionDynamics_latAccelUnc : Z;
  PBLocApiGnssLocationPositionDynamics_vertAccelUnc : Z; PBLocApiGnssLocationPositionDynamics_pitch : Z;
  PBLocApiGnssLocationPositionDynamics_pitchUnc : Z; PBLocApiGnssLocationPositionDynamics_pitchRate : Z;
  PBLocApiGnssLocationPositionDynamics_pitchRateUnc : Z; PBLocApiGnssLocationPositionDynamics_roll : Z;
  PBLocApiGnssLocationPositionDynamics_rollUnc : Z; PBLocApiGnssLocationPositionDynamics_rollRate : Z;
  PBLocApiGnssLocationPositionDynamics_rollRateUnc : Z; PBLocApiGnssLocationPositionDynamics_yaw : Z;
  PBLocApiGnssLocationPositionDynamics_yawUnc : Z; PBLocApiGnssLocationPositionDynamics_yawRate : Z;
  PBLocApiGnssLocationPositionDynamics_yawRateUnc : Z;
}.

Record PBLocApiGnssSystemTimeStructType := MkPBLocApiGnssSystemTimeStructType {
  PBLocApiGnssSystemTimeStructType_validityMask : Z; PBLocApiGnssSystemTimeStructType_systemWeek : Z;
  PBLocApiGnssSystemTimeStructType_systemMsec : Z; PBLocApiGnssSystemTimeStructType_systemClkTimeBiasMs : Z;
  PBLocApiGnssSystemTimeStructType_systemClkTimeBiasUncMs : Z; PBLocApiGnssSystemTimeStructType_refFCount : Z;
  PBLocApiGnssSystemTimeStructType_numClockResets : Z;
}.

Record PBLocApiGnssGloTimeStructType := MkPBLocApiGnssGloTimeStructType {
  PBLocApiGnssGloTimeStructType_validityMask : Z; PBLocApiGnssGloTimeStructType_gloFourYear : Z;
  PBLocApiGnssGloTimeStructType_gloDays : Z; PBLocApiGnssGloTimeStructType_gloMsec : Z;
  PBLocApiGnssGloTimeStructType_gloClkTimeBias : Z; PBLocApiGnssGloTimeStructType_gloClkTimeUncMs : Z;
  PBLocApiGnssGloTimeStructType_refFCount : Z; PBLocApiGnssGloTimeStructType_numClockResets : Z;
}.

(** The [oneof] of the system times. *)
Inductive PBLocApiSystemTimeStructUnion :=
  | no_time
  | gpsSystemTime (time : PBLocApiGnssSystemTimeStructType) | galSystemTime (time : PBLocApiGnssSystemTimeStructType)
  | bdsSystemTime (time : PBLocApiGnssSystemTimeStructType) | qzssSystemTime (time : PBLocApiGnssSystemTimeStructType)
  | gloSystemTime (time : PBLocApiGnssGloTimeStructType) | navicSystemTime (time : PBLocApiGnssSystemTimeStructType).

Record PBLocApiGnssSystemTime := MkPBLocApiGnssSystemTime {
  PBLocApiGnssSystemTime_gnssSystemTimeSrc : Z; PBLocApiGnssSystemTime_u : PBLocApiSystemTimeStructUnion;
}.

Record PBGnssMeasUsageInfo := MkPBGnssMeasUsageInfo {
  PBGnssMeasUsageInfo_gnssConstellation : Z; PBGnssMeasUsageInfo_gnssSvId : Z;
  PBGnssMeasUsageInfo_gnssSignalType : Z;
}.

Record PBLLAInfo := MkPBLLAInfo {
  PBLLAInfo_latitude : Z; PBLLAInfo_longitude : Z; PBLLAInfo_altitude : Z;
}.

Record PBGnssLocationInfoNotification := MkPBGnssLocationInfoNotification {
  PBGnssLocationInfoNotification_location : PBLocation; PBGnssLocationInfoNotification_flags : Z;
  PBGnssLocationInfoNotification_altitudeMeanSeaLevel : Z; PBGnssLocationInfoNotification_pdop : Z;
  PBGnssLocationInfoNotification_hdop : Z; PBGnssLocationInfoNotification_vdop : Z;
  PBGnssLocationInfoNotification_gdop : Z; PBGnssLocationInfoNotification_tdop : Z;
  PBGnssLocationInfoNotification_magneticDeviation : Z; PBGnssLocationInfoNotification_horReliability : Z;
  PBGnssLocationInfoNotification_verReliability : Z; PBGnssLocationInfoNotification_horUncEllipseSemiMajor : Z;
  PBGnssLocationInfoNotification_horUncEllipseSemiMinor : Z;
  PBGnssLocationInfoNotification_horUncEllipseOrientAzimuth : Z;
  PBGnssLocationInfoNotification_northStdDeviation : Z; PBGnssLocationInfoNotification_eastStdDeviation : Z;
  PBGnssLocationInfoNotification_northVelocity : Z; PBGnssLocationInfoNotification_eastVelocity : Z;
  PBGnssLocationInfoNotification_upVelocity : Z; PBGnssLocationInfoNotification_northVelocityStdDeviation : Z;
  PBGnssLocationInfoNotification_eastVelocityStdDeviation : Z;
  PBGnssLocationInfoNotification_upVelocityStdDeviation : Z; PBGnssLocationInfoNotification_numSvUsedInPosition : Z;
  PBGnssLocationInfoNotification_svUsedInPosition : PBGnssLocationSvUsedInPosition;
  PBGnssLocationInfoNotification_navSolutionMask : Z;
  PBGnssLocationInfoNotification_bodyFrameData : PBLocApiGnssLocationPositionDynamics;
  PBGnssLocationInfoNotification_gnssSystemTime : PBLocApiGnssSystemTime;
  PBGnssLocationInfoNotification_numOfMeasReceived : Z;
  PBGnssLocationInfoNotification_measUsageInfo : list PBGnssMeasUsageInfo;
  PBGnssLocationInfoNotification_leapSeconds : Z; PBGnssLocationInfoNotification_timeUncMs : Z;
  PBGnssLocationInfoNotification_calibrationConfidence : Z; PBGnssLocationInfoNotification_calibrationStatus : Z;
  PBGnssLocationInfoNotification_locOutputEngType : Z; PBGnssLocationInfoNotification_locOutputEngMask : Z;
  PBGnssLocationInfoNotification_conformityIndex : Z; PBGnssLocationInfoNotification_llaVRPBased : PBLLAInfo;
  PBGnssLocationInfoNotification_enuVelocityVRPBased : list Z;
  PBGnssLocationInfoNotification_drSolutionStatusMask : Z; PBGnssLocationInfoNotification_extFlags : Z;
  PBGnssLocationInfoNotification_altitudeAssumed : bool; PBGnssLocationInfoNotification_sessionStatus : Z;
}.

Record PBLeapSecondChangeInfo := MkPBLeapSecondChangeInfo {
  PBLeapSecondChangeInfo_gpsTimestampLsChange : PBLocApiGnssSystemTimeStructType;
  PBLeapSecondChangeInfo_leapSecondsBeforeChange : Z; PBLeapSecondChangeInfo_leapSecondsAfterChange : Z;
}.

Record PBLeapSecondSystemInfo := MkPBLeapSecondSystemInfo {
  PBLeapSecondSystemInfo_leapSecondInfoMask : Z; PBLeapSecondSystemInfo_leapSecondCurrent : Z;
  PBLeapSecondSystemInfo_leapSecondChangeInfo : PBLeapSecondChangeInfo;
}.

Record PBLocationSystemInfo := MkPBLocationSystemInfo {
  PBLocationSystemInfo_systemInfoMask : Z; PBLocationSystemInfo_leapSecondSysInfo : PBLeapSecondSystemInfo;
}.

Record PBGnssMeasurementsData := MkPBGnssMeasurementsData {
  PBGnssMeasurementsData_flags : Z; PBGnssMeasurementsData_svId : Z; PBGnssMeasurementsData_svType : Z;
  PBGnssMeasurementsData_timeOffsetNs : Z; PBGnssMeasurementsData_stateMask : Z;
  PBGnssMeasurementsData_receivedSvTimeNs : Z; PBGnssMeasurementsData_receivedSvTimeUncertaintyNs : Z;
  PBGnssMeasurementsData_carrierToNoiseDbHz : Z; PBGnssMeasurementsData_pseudorangeRateMps : Z;
  PBGnssMeasurementsData_pseudorangeRateUncertaintyMps : Z; PBGnssMeasurementsData_adrStateMask : Z;
  PBGnssMeasurementsData_adrMeters : Z; PBGnssMeasurementsData_adrUncertaintyMeters : Z;
  PBGnssMeasurementsData_carrierFrequencyHz : Z; PBGnssMeasurementsData_carrierCycles : Z;
  PBGnssMeasurementsData_carrierPhase : Z; PBGnssMeasurementsData_carrierPhaseUncertainty : Z;
  PBGnssMeasurementsData_multipathIndicator : Z; PBGnssMeasurementsData_signalToNoiseRatioDb : Z;
  PBGnssMeasurementsData_agcLevelDb : Z; PBGnssMeasurementsData_basebandCarrierToNoiseDbHz : Z;
  PBGnssMeasurementsData_gnssSignalType : Z; PBGnssMeasurementsData_fullInterSignalBiasNs : Z;
  PBGnssMeasurementsData_fullInterSignalBiasUncertaintyNs : Z; PBGnssMeasurementsData_cycleSlipCount : Z;
}.

Record PBGnssMeasurementsClock := MkPBGnssMeasurementsClock {
  PBGnssMeasurementsClock_flags : Z; PBGnssMeasurementsClock_leapSecond : Z; PBGnssMeasurementsClock_timeNs : Z;
  PBGnssMeasurementsClock_timeUncertaintyNs : Z; PBGnssMeasurementsClock_fullBiasNs : Z;
  PBGnssMeasurementsClock_biasNs : Z; PBGnssMeasurementsClock_biasUncertaintyNs : Z;
  PBGnssMeasurementsClock_driftNsps : Z; PBGnssMeasurementsClock_driftUncertaintyNsps : Z;
  PBGnssMeasurementsClock_hwClockDiscontinuityCount : Z;
}.

Record PBGnssMeasurementsNotification := MkPBGnssMeasurementsNotification {
  PBGnssMeasurementsNotification_measurements : list PBGnssMeasurementsData;
  PBGnssMeasurementsNotification_clock : PBGnssMeasurementsClock;
}.

Record PBGnssDataNotification := MkPBGnssDataNotification {
  PBGnssDataNotification_numberSignalTypes : Z; PBGnssDataNotification_gnssDataMask : list Z;
  PBGnssDataNotification_jammerInd : list Z; PBGnssDataNotification_agc : list Z;
}.

Record PBLocAPINmeaSerializedPayload := MkPBLocAPINmeaSerializedPayload {
  PBLocAPINmeaSerializedPayload_timestamp : Z; PBLocAPINmeaSerializedPayload_nmea : string;
}.

Record PBLocApiGnssSv := MkPBLocApiGnssSv {
  PBLocApiGnssSv_svId : Z; PBLocApiGnssSv_type : Z; PBLocApiGnssSv_cN0Dbhz : Z; PBLocApiGnssSv_elevation : Z;
  PBLocApiGnssSv_azimuth : Z; PBLocApiGnssSv_gnssSvOptionsMask : Z; PBLocApiGnssSv_carrierFrequencyHz : Z;
  PBLocApiGnssSv_gnssSignalTypeMask : Z; PBLocApiGnssSv_basebandCarrierToNoiseDbHz : Z;
  PBLocApiGnssSv_gloFrequency : Z;
}.

Record PBLocApiGnssSvNotification := MkPBLocApiGnssSvNotification {
  PBLocApiGnssSvNotification_gnssSignalTypeMaskValid : bool;
  PBLocApiGnssSvNotification_gnssSvs : list PBLocApiGnssSv;
}.

(** The default instance of each message: what [mutable_] and [add_] create and what an unset field reads as. *)
Definition default_PBGnssSvTypeConfig : PBGnssSvTypeConfig := MkPBGnssSvTypeConfig 0 0.
Definition default_PBGnssSvIdConfig : PBGnssSvIdConfig := MkPBGnssSvIdConfig 0 0 0 0 0 0.
Definition default_PBAidingData : PBAidingData := MkPBAidingData false 0 0 0.
Definition default_PBLIALeverArmParams : PBLIALeverArmParams := MkPBLIALeverArmParams 0 0 0.
Definition default_PBLIALeverArmConfigInfo : PBLIALeverArmConfigInfo := MkPBLIALeverArmConfigInfo 0 default_PBLIALeverArmParams default_PBLIALeverArmParams default_PBLIALeverArmParams.
Definition default_PBLIABodyToSensorMountParams : PBLIABodyToSensorMountParams := MkPBLIABodyToSensorMountParams 0 0 0 0.
Definition default_PBDeadReckoningEngineConfig : PBDeadReckoningEngineConfig := MkPBDeadReckoningEngineConfig 0 default_PBLIABodyToSensorMountParams 0 0 0 0.
Definition default_PBLocationOptions : PBLocationOptions := MkPBLocationOptions 0 0 0 0.
Definition default_PBGeofenceOption : PBGeofenceOption := MkPBGeofenceOption 0 0 0.
Definition default_PBGeofenceInfo : PBGeofenceInfo := MkPBGeofenceInfo 0 0 0.
Definition default_PBGeofencePayload : PBGeofencePayload := MkPBGeofencePayload 0 default_PBGeofenceOption default_PBGeofenceInfo.
Definition default_PBGeofencesAddedReqPayload : PBGeofencesAddedReqPayload := MkPBGeofencesAddedReqPayload [].
Definition default_PBGeofencesReqClientIdPayload : PBGeofencesReqClientIdPayload := MkPBGeofencesReqClientIdPayload [].
Definition default_PBGeofenceResponse : PBGeofenceResponse := MkPBGeofenceResponse 0 0.
Definition default_PBCollectiveResPayload : PBCollectiveResPayload := MkPBCollectiveResPayload [].
Definition default_PBGnssConfigRobustLocationVersion : PBGnssConfigRobustLocationVersion := MkPBGnssConfigRobustLocationVersion 0 0.
Definition default_PBGnssConfigRobustLocation : PBGnssConfigRobustLocation := MkPBGnssConfigRobustLocation 0 false false default_PBGnssConfigRobustLocationVersion.
Definition default_PBLocation : PBLocation := MkPBLocation 0 0 0 0 0 0 0 0 0 0 0 0.
Definition default_PBLocAPIBatchNotification : PBLocAPIBatchNotification := MkPBLocAPIBatchNotification 0 [].
Definition default_PBLocAPIGeofenceBreachNotification : PBLocAPIGeofenceBreachNotification := MkPBLocAPIGeofenceBreachNotification 0 0 default_PBLocation [].
Definition default_PBGnssLocationSvUsedInPosition : PBGnssLocationSvUsedInPosition := MkPBGnssLocationSvUsedInPosition 0 0 0 0 0 0.
Definition default_PBLocApiGnssLocationPositionDynamics : PBLocApiGnssLocationPositionDynamics := MkPBLocApiGnssLocationPositionDynamics 0 0 0 0 0 0 0 0 0 0 0 0 0 0 0 0 0 0 0.
Definition default_PBLocApiGnssSystemTimeStructType : PBLocApiGnssSystemTimeStructType := MkPBLocApiGnssSystemTimeStructType 0 0 0 0 0 0 0.
Definition default_PBLocApiGnssGloTimeStructType : PBLocApiGnssGloTimeStructType := MkPBLocApiGnssGloTimeStructType 0 0 0 0 0 0 0 0.
Definition default_PBLocApiGnssSystemTime : PBLocApiGnssSystemTime := MkPBLocApiGnssSystemTime 0 no_time.
Definition default_PBGnssMeasUsageInfo : PBGnssMeasUsageInfo := MkPBGnssMeasUsageInfo 0 0 0.
Definition default_PBLLAInfo : PBLLAInfo := MkPBLLAInfo 0 0 0.
Definition default_PBGnssLocationInfoNotification : PBGnssLocationInfoNotification := MkPBGnssLocationInfoNotification default_PBLocation 0 0 0 0 0 0 0 0 0 0 0 0 0 0 0 0 0 0 0 0 0 0 default_PBGnssLocationSvUsedInPosition 0 default_PBLocApiGnssLocationPositionDynamics default_PBLocApiGnssSystemTime 0 [] 0 0 0 0 0 0 0 default_PBLLAInfo [] 0 0 false 0.
Definition default_PBLeapSecondChangeInfo : PBLeapSecondChangeInfo := MkPBLeapSecondChangeInfo default_PBLocApiGnssSystemTimeStructType 0 0.
Definition default_PBLeapSecondSystemInfo : PBLeapSecondSystemInfo := MkPBLeapSecondSystemInfo 0 0 default_PBLeapSecondChangeInfo.
Definition default_PBLocationSystemInfo : PBLocationSystemInfo := MkPBLocationSystemInfo 0 default_PBLeapSecondSystemInfo.
Definition default_PBGnssMeasurementsData : PBGnssMeasurementsData := MkPBGnssMeasurementsData 0 0 0 0 0 0 0 0 0 0 0 0 0 0 0 0 0 0 0 0 0 0 0 0 0.
Definition default_PBGnssMeasurementsClock : PBGnssMeasurementsClock := MkPBGnssMeasurementsClock 0 0 0 0 0 0 0 0 0 0.
Definition default_PBGnssMeasurementsNotification : PBGnssMeasurementsNotification := MkPBGnssMeasurementsNotification [] default_PBGnssMeasurementsClock.
Definition default_PBGnssDataNotification : PBGnssDataNotification := MkPBGnssDataNotification 0 [] [] [].
Definition default_PBLocAPINmeaSerializedPayload : PBLocAPINmeaSerializedPayload := MkPBLocAPINmeaSerializedPayload 0 EmptyString.
Definition default_PBLocApiGnssSv : PBLocApiGnssSv := MkPBLocApiGnssSv 0 0 0 0 0 0 0 0 0 0.
Definition default_PBLocApiGnssSvNotification : PBLocApiGnssSvNotification := MkPBLocApiGnssSvNotification false [].
