(* ===== verification/PbConvTo.v ===== *)
(** * From structures to messages
    ([src/location/location_api_msg_proto/src/LocationApiPbMsgConv.cpp])

    Each conversion fills in a message: it sets fields, and appends to repeated
    fields.  The code also checks that the message and what [mutable_] and [add_]
    return is not NULL; Protocol Buffers never return NULL there, and the callers
    pass members of a message.  A conversion that reads an array up to a count is
    undefined ([None]) when the count exceeds the array. *)
From S2P Require Import Prelude PbConsts PbMasks PbTypes.
#[local] Open Scope Z_scope.

(** The first [n] elements of an array, read one by one. *)
Fixpoint first_n {A} (n : nat) (array : list A) : option (list A) :=
  match n, array with
  | O, _ => Some []
  | S n, x :: array => xs ← first_n n array; Some (x :: xs)
  | S _, [] => None
  end.

(** [mutable_] of a member of the [oneof]: the member when it is the one set, else a new one. *)
Definition mutable_gpssystemtime (u : PBLocApiSystemTimeStructUnion) : PBLocApiGnssSystemTimeStructType :=
  match u with gpsSystemTime t => t | _ => default_PBLocApiGnssSystemTimeStructType end.
Definition mutable_galsystemtime (u : PBLocApiSystemTimeStructUnion) : PBLocApiGnssSystemTimeStructType :=
  match u with galSystemTime t => t | _ => default_PBLocApiGnssSystemTimeStructType end.
Definition mutable_bdssystemtime (u : PBLocApiSystemTimeStructUnion) : PBLocApiGnssSystemTimeStructType :=
  match u with bdsSystemTime t => t | _ => default_PBLocApiGnssSystemTimeStructType end.
Definition mutable_qzsssystemtime (u : PBLocApiSystemTimeStructUnion) : PBLocApiGnssSystemTimeStructType :=
  match u with qzssSystemTime t => t | _ => default_PBLocApiGnssSystemTimeStructType end.
Definition mutable_glosystemtime (u : PBLocApiSystemTimeStructUnion) : PBLocApiGnssGloTimeStructType :=
  match u with gloSystemTime t => t | _ => default_PBLocApiGnssGloTimeStructType end.
Definition mutable_navicsystemtime (u : PBLocApiSystemTimeStructUnion) : PBLocApiGnssSystemTimeStructType :=
  match u with navicSystemTime t => t | _ => default_PBLocApiGnssSystemTimeStructType end.

Definition convertGnssSvTypeConfigToPB (gnssSvTypeCfg : GnssSvTypeConfig) (pbGnssSvTypeCfg : PBGnssSvTypeConfig)
    : PBGnssSvTypeConfig :=
  {|
    PBGnssSvTypeConfig_enabledSvTypesMask := GnssSvTypeConfig_enabledSvTypesMask gnssSvTypeCfg;
    PBGnssSvTypeConfig_blacklistedSvTypesMask := GnssSvTypeConfig_blacklistedSvTypesMask gnssSvTypeCfg
  |}.

Definition convertGnssSvIdConfigToPB (gnssSvIdCfg : GnssSvIdConfig) (pbGnssSvIdCfg : PBGnssSvIdConfig)
    : PBGnssSvIdConfig :=
  {|
    PBGnssSvIdConfig_gloBlacklistSvMask := GnssSvIdConfig_gloBlacklistSvMask gnssSvIdCfg;
    PBGnssSvIdConfig_bdsBlacklistSvMask := GnssSvIdConfig_bdsBlacklistSvMask gnssSvIdCfg;
    PBGnssSvIdConfig_qzssBlacklistSvMask := GnssSvIdConfig_qzssBlacklistSvMask gnssSvIdCfg;
    PBGnssSvIdConfig_galBlacklistSvMask := GnssSvIdConfig_galBlacklistSvMask gnssSvIdCfg;
    PBGnssSvIdConfig_sbasBlacklistSvMask := GnssSvIdConfig_sbasBlacklistSvMask gnssSvIdCfg;
    PBGnssSvIdConfig_navicBlacklistSvMask := GnssSvIdConfig_navicBlacklistSvMask gnssSvIdCfg
  |}.

Definition convertGnssAidingDataToPB (gnssAidData : GnssAidingData) (pbGnssAidData : PBAidingData)
    : PBAidingData :=
  {|
    PBAidingData_deleteAll := GnssAidingData_deleteAll gnssAidData;
    PBAidingData_gnssAidingDataSvMask := getPBMaskForGnssAidingDataSvMask (GnssAidingDataSv_svMask (GnssAidingData_sv gnssAidData));
    PBAidingData_dreAidingDataMask := getPBMaskForDrEngineAidingDataMask (GnssAidingData_dreAidingDataMask gnssAidData);
    PBAidingData_posEngineMask := getPBMaskForPositioningEngineMask (GnssAidingData_posEngineMask gnssAidData)
  |}.

Definition convertLeverArmParamsToPB (leverArmParams : LeverArmParams) (pbLeverArmParams : PBLIALeverArmParams)
    : PBLIALeverArmParams :=
  {|
    PBLIALeverArmParams_forwardOffsetMeters := LeverArmParams_forwardOffsetMeters leverArmParams;
    PBLIALeverArmParams_sidewaysOffsetMeters := LeverArmParams_sidewaysOffsetMeters leverArmParams;
    PBLIALeverArmParams_upOffsetMeters := LeverArmParams_upOffsetMeters leverArmParams
  |}.

Definition convertLeverArmConfigInfoToPB (leverArmCfgInfo : LeverArmConfigInfo) (pbLeverArmCfgInfo : PBLIALeverArmConfigInfo)
    : PBLIALeverArmConfigInfo :=
  {|
    PBLIALeverArmConfigInfo_leverArmValidMask := getPBMaskForLeverArmTypeMask (LeverArmConfigInfo_leverArmValidMask leverArmCfgInfo);
    PBLIALeverArmConfigInfo_gnssToVRP := convertLeverArmParamsToPB (LeverArmConfigInfo_gnssToVRP leverArmCfgInfo) (PBLIALeverArmConfigInfo_gnssToVRP pbLeverArmCfgInfo);
    PBLIALeverArmConfigInfo_drImuToGnss := convertLeverArmParamsToPB (LeverArmConfigInfo_drImuToGnss leverArmCfgInfo) (PBLIALeverArmConfigInfo_drImuToGnss pbLeverArmCfgInfo);
    PBLIALeverArmConfigInfo_veppImuToGnss := convertLeverArmParamsToPB (LeverArmConfigInfo_veppImuToGnss leverArmCfgInfo) (PBLIALeverArmConfigInfo_veppImuToGnss pbLeverArmCfgInfo)
  |}.

Definition convertBodyToSensorMountParamsToPB (bodyToSensorMntParams : BodyToSensorMountParams) (pbBodyToSensorMntParams : PBLIABodyToSensorMountParams)
    : PBLIABodyToSensorMountParams :=
  {|
    PBLIABodyToSensorMountParams_rollOffset := BodyToSensorMountParams_rollOffset bodyToSensorMntParams;
    PBLIABodyToSensorMountParams_yawOffset := BodyToSensorMountParams_yawOffset bodyToSensorMntParams;
    PBLIABodyToSensorMountParams_pitchOffset := BodyToSensorMountParams_pitchOffset bodyToSensorMntParams;
    PBLIABodyToSensorMountParams_offsetUnc := BodyToSensorMountParams_offsetUnc bodyToSensorMntParams
  |}.

Definition convertDeadReckoningEngineConfigToPB (drEngConfig : DeadReckoningEngineConfig) (pbDrEngConfig : PBDeadReckoningEngineConfig)
    : PBDeadReckoningEngineConfig :=
  {|
    PBDeadReckoningEngineConfig_validMask := getPBMaskForDeadReckoningEngineConfigValidMask (DeadReckoningEngineConfig_validMask drEngConfig);
    PBDeadReckoningEngineConfig_bodyToSensorMountParams := convertBodyToSensorMountParamsToPB (DeadReckoningEngineConfig_bodyToSensorMountParams drEngConfig) (PBDeadReckoningEngineConfig_bodyToSensorMountParams pbDrEngConfig);
    PBDeadReckoningEngineConfig_vehicleSpeedScaleFactor := DeadReckoningEngineConfig_vehicleSpeedScaleFactor drEngConfig;
    PBDeadReckoningEngineConfig_vehicleSpeedScaleFactorUnc := DeadReckoningEngineConfig_vehicleSpeedScaleFactorUnc drEngConfig;
    PBDeadReckoningEngineConfig_gyroScaleFactor := DeadReckoningEngineConfig_gyroScaleFactor drEngConfig;
    PBDeadReckoningEngineConfig_gyroScaleFactorUnc := DeadReckoningEngineConfig_gyroScaleFactorUnc drEngConfig
  |}.

Definition convertLocationOptionsToPB (locOpt : LocationOptions) (pbLocOpt : PBLocationOptions)
    : PBLocationOptions :=
  {|
    PBLocationOptions_minInterval := LocationOptions_minInterval locOpt;
    PBLocationOptions_minDistance := LocationOptions_minDistance locOpt;
    PBLocationOptions_mode := getPBEnumForGnssSuplMode (LocationOptions_mode locOpt);
    PBLocationOptions_locReqEngTypeMask := getPBMaskForLocReqEngineTypeMask (LocationOptions_locReqEngTypeMask locOpt)
  |}.

Definition convertGeofenceOptionToPB (gfOpt : GeofenceOption) (pbGfOpt : PBGeofenceOption)
    : PBGeofenceOption :=
  {|
    PBGeofenceOption_breachTypeMask := getPBMaskForGeofenceBreachTypeMask (GeofenceOption_breachTypeMask gfOpt);
    PBGeofenceOption_responsiveness := GeofenceOption_responsiveness gfOpt;
    PBGeofenceOption_dwellTime := GeofenceOption_dwellTime gfOpt
  |}.

Definition convertGeofenceInfoToPB (gfInfo : GeofenceInfo) (pbGfInfo : PBGeofenceInfo)
    : PBGeofenceInfo :=
  {|
    PBGeofenceInfo_latitude := GeofenceInfo_latitude gfInfo;
    PBGeofenceInfo_longitude := GeofenceInfo_longitude gfInfo;
    PBGeofenceInfo_radius := GeofenceInfo_radius gfInfo
  |}.

Definition convertGeofencePayloadToPB (gfPayload : GeofencePayload) : PBGeofencePayload := {|
    PBGeofencePayload_gfClientId := GeofencePayload_gfClientId gfPayload;
    PBGeofencePayload_gfOption := convertGeofenceOptionToPB (GeofencePayload_gfOption gfPayload) default_PBGeofenceOption;
    PBGeofencePayload_gfInfo := convertGeofenceInfoToPB (GeofencePayload_gfInfo gfPayload) default_PBGeofenceInfo
  |}.

Definition convertGfAddedReqPayloadToPB (gfAddReqPayload : GeofencesAddedReqPayload) (pbGfAddReqPayload : PBGeofencesAddedReqPayload)
    : option PBGeofencesAddedReqPayload :=
  gfs ← first_n (Z.to_nat (GeofencesAddedReqPayload_count gfAddReqPayload)) (GeofencesAddedReqPayload_gfPayload gfAddReqPayload);
  Some {|
    PBGeofencesAddedReqPayload_gfPayload := PBGeofencesAddedReqPayload_gfPayload pbGfAddReqPayload ++ (convertGeofencePayloadToPB <$> gfs)
  |}.

Definition convertGfReqClientIdPayloadToPB (gfReqClntIdPayload : GeofencesReqClientIdPayload) (pbGfReqClntIdPayload : PBGeofencesReqClientIdPayload)
    : option PBGeofencesReqClientIdPayload :=
  ids ← first_n (Z.to_nat (GeofencesReqClientIdPayload_count gfReqClntIdPayload)) (GeofencesReqClientIdPayload_gfIds gfReqClntIdPayload);
  Some {|
    PBGeofencesReqClientIdPayload_gfIds := PBGeofencesReqClientIdPayload_gfIds pbGfReqClntIdPayload ++ ids
  |}.

Definition convertGeofenceResponseToPB (resp : GeofenceResponse) : PBGeofenceResponse := {|
    PBGeofenceResponse_clientId := GeofenceResponse_clientId resp;
    PBGeofenceResponse_error := getPBEnumForLocationError (GeofenceResponse_error resp)
  |}.

Definition convertCollectiveResPayloadToPB (collctResPload : CollectiveResPayload) (pbCollctResPload : PBCollectiveResPayload)
    : option PBCollectiveResPayload :=
  resps ← first_n (Z.to_nat (CollectiveResPayload_count collctResPload)) (CollectiveResPayload_resp collctResPload);
  Some {|
    PBCollectiveResPayload_resp := PBCollectiveResPayload_resp pbCollctResPload ++ (convertGeofenceResponseToPB <$> resps)
  |}.

Definition convertGnssConfigRobustLocationToPB (gnssCfgRbstLoc : GnssConfigRobustLocation) (pbGnssCfgRbstLoc : PBGnssConfigRobustLocation)
    : PBGnssConfigRobustLocation :=
  {|
    PBGnssConfigRobustLocation_validMask := getPBMaskForGnssCfgRobustLocValidMask (GnssConfigRobustLocation_validMask gnssCfgRbstLoc);
    PBGnssConfigRobustLocation_enabled := GnssConfigRobustLocation_enabled gnssCfgRbstLoc;
    PBGnssConfigRobustLocation_enabledForE911 := GnssConfigRobustLocation_enabledForE911 gnssCfgRbstLoc;
    PBGnssConfigRobustLocation_version := MkPBGnssConfigRobustLocationVersion
      (GnssConfigRobustLocationVersion_major (GnssConfigRobustLocation_version gnssCfgRbstLoc))
      (GnssConfigRobustLocationVersion_minor (GnssConfigRobustLocation_version gnssCfgRbstLoc))
  |}.

Definition convertLocationToPB (location : Location) (pbLocation : PBLocation) : PBLocation :=
  {|
    PBLocation_flags := getPBMaskForLocationFlagsMask (Location_flags location);
    PBLocation_timestamp := Location_timestamp location;
    PBLocation_latitude := Location_latitude location;
    PBLocation_longitude := Location_longitude location;
    PBLocation_altitude := Location_altitude location;
    PBLocation_speed := Location_speed location;
    PBLocation_bearing := Location_bearing location;
    PBLocation_horizontalAccuracy := Location_accuracy location;
    PBLocation_verticalAccuracy := Location_verticalAccuracy location;
    PBLocation_speedAccuracy := Location_speedAccuracy location;
    PBLocation_bearingAccuracy := Location_bearingAccuracy location;
    PBLocation_techMask := getPBMaskForLocationTechnologyMask (Location_techMask location)
  |}.

Definition convertLocAPIBatchingNotifMsgToPB (locApiBatchNotifMsg : LocAPIBatchNotification) (pbLocApiBatchNotifMsg : PBLocAPIBatchNotification)
    : option PBLocAPIBatchNotification :=
  locations ← first_n (Z.to_nat (LocAPIBatchNotification_count locApiBatchNotifMsg)) (LocAPIBatchNotification_location locApiBatchNotifMsg);
  Some {|
    PBLocAPIBatchNotification_status := getPBEnumForBatchingStatus (LocAPIBatchNotification_status locApiBatchNotifMsg);
    PBLocAPIBatchNotification_location := PBLocAPIBatchNotification_location pbLocApiBatchNotifMsg ++ ((fun l => convertLocationToPB l default_PBLocation) <$> locations)
  |}.

Definition convertLocAPIGfBreachNotifToPB (locApiGfBreachNotif : LocAPIGeofenceBreachNotification) (pbLocApiGfBreachNotif : PBLocAPIGeofenceBreachNotification)
    : option PBLocAPIGeofenceBreachNotification :=
  ids ← first_n (Z.to_nat (LocAPIGeofenceBreachNotification_count locApiGfBreachNotif)) (LocAPIGeofenceBreachNotification_id locApiGfBreachNotif);
  Some {|
    PBLocAPIGeofenceBreachNotification_timestamp := LocAPIGeofenceBreachNotification_timestamp locApiGfBreachNotif;
    PBLocAPIGeofenceBreachNotification_breachtype := LocAPIGeofenceBreachNotification_type locApiGfBreachNotif;
    PBLocAPIGeofenceBreachNotification_location := convertLocationToPB (LocAPIGeofenceBreachNotification_location locApiGfBreachNotif) (PBLocAPIGeofenceBreachNotification_location pbLocApiGfBreachNotif);
    PBLocAPIGeofenceBreachNotification_id := PBLocAPIGeofenceBreachNotification_id pbLocApiGfBreachNotif ++ ids
  |}.

Definition convertGnssLocSvUsedInPosToPB (gnssLocSvUsedInPos : GnssLocationSvUsedInPosition) (pbGnssLocSvUsedInPos : PBGnssLocationSvUsedInPosition)
    : PBGnssLocationSvUsedInPosition :=
  {|
    PBGnssLocationSvUsedInPosition_gpsSvUsedIdsMask := GnssLocationSvUsedInPosition_gpsSvUsedIdsMask gnssLocSvUsedInPos;
    PBGnssLocationSvUsedInPosition_gloSvUsedIdsMask := GnssLocationSvUsedInPosition_gloSvUsedIdsMask gnssLocSvUsedInPos;
    PBGnssLocationSvUsedInPosition_galSvUsedIdsMask := GnssLocationSvUsedInPosition_galSvUsedIdsMask gnssLocSvUsedInPos;
    PBGnssLocationSvUsedInPosition_bdsSvUsedIdsMask := GnssLocationSvUsedInPosition_bdsSvUsedIdsMask gnssLocSvUsedInPos;
    PBGnssLocationSvUsedInPosition_qzssSvUsedIdsMask := GnssLocationSvUsedInPosition_qzssSvUsedIdsMask gnssLocSvUsedInPos;
    PBGnssLocationSvUsedInPosition_navicSvUsedIdsMask := GnssLocationSvUsedInPosition_navicSvUsedIdsMask gnssLocSvUsedInPos
  |}.

Definition convertGnssLocationPositionDynamicsToPB (gnssLocPosDyn : GnssLocationPositionDynamics) (gnssLocPosDynExt : GnssLocationPositionDynamicsExt) (pbGnssLocPosDyn : PBLocApiGnssLocationPositionDynamics)
    : PBLocApiGnssLocationPositionDynamics :=
  {|
    PBLocApiGnssLocationPositionDynamics_bodyFrameDataMask := getPBMaskForGnssLocationPosDataMask (GnssLocationPositionDynamics_bodyFrameDataMask gnssLocPosDyn) (GnssLocationPositionDynamicsExt_bodyFrameDataMask gnssLocPosDynExt);
    PBLocApiGnssLocationPositionDynamics_longAccel := GnssLocationPositionDynamics_longAccel gnssLocPosDyn;
    PBLocApiGnssLocationPositionDynamics_latAccel := GnssLocationPositionDynamics_latAccel gnssLocPosDyn;
    PBLocApiGnssLocationPositionDynamics_vertAccel := GnssLocationPositionDynamics_vertAccel gnssLocPosDyn;
    PBLocApiGnssLocationPositionDynamics_longAccelUnc := GnssLocationPositionDynamics_longAccelUnc gnssLocPosDyn;
    PBLocApiGnssLocationPositionDynamics_latAccelUnc := GnssLocationPositionDynamics_latAccelUnc gnssLocPosDyn;
    PBLocApiGnssLocationPositionDynamics_vertAccelUnc := GnssLocationPositionDynamics_vertAccelUnc gnssLocPosDyn;
    PBLocApiGnssLocationPositionDynamics_pitch := GnssLocationPositionDynamics_pitch gnssLocPosDyn;
    PBLocApiGnssLocationPositionDynamics_pitchUnc := GnssLocationPositionDynamics_pitchUnc gnssLocPosDyn;
    PBLocApiGnssLocationPositionDynamics_pitchRate := GnssLocationPositionDynamicsExt_pitchRate gnssLocPosDynExt;
    PBLocApiGnssLocationPositionDynamics_pitchRateUnc := GnssLocationPositionDynamicsExt_pitchRateUnc gnssLocPosDynExt;
    PBLocApiGnssLocationPositionDynamics_roll := GnssLocationPositionDynamicsExt_roll gnssLocPosDynExt;
    PBLocApiGnssLocationPositionDynamics_rollUnc := GnssLocationPositionDynamicsExt_rollUnc gnssLocPosDynExt;
    PBLocApiGnssLocationPositionDynamics_rollRate := GnssLocationPositionDynamicsExt_rollRate gnssLocPosDynExt;
    PBLocApiGnssLocationPositionDynamics_rollRateUnc := GnssLocationPositionDynamicsExt_rollRateUnc gnssLocPosDynExt;
    PBLocApiGnssLocationPositionDynamics_yaw := GnssLocationPositionDynamicsExt_yaw gnssLocPosDynExt;
    PBLocApiGnssLocationPositionDynamics_yawUnc := GnssLocationPositionDynamicsExt_yawUnc gnssLocPosDynExt;
    PBLocApiGnssLocationPositionDynamics_yawRate := GnssLocationPositionDynamics_yawRate gnssLocPosDyn;
    PBLocApiGnssLocationPositionDynamics_yawRateUnc := GnssLocationPositionDynamics_yawRateUnc gnssLocPosDyn
  |}.

Definition convertGnssSystemTimeStructTypeToPB (gnssSysTimeStructType : GnssSystemTimeStructType) (pbGnssSysTimeStructType : PBLocApiGnssSystemTimeStructType)
    : PBLocApiGnssSystemTimeStructType :=
  {|
    PBLocApiGnssSystemTimeStructType_validityMask := getPBMaskForGnssSystemTimeStructTypeFlags (GnssSystemTimeStructType_validityMask gnssSysTimeStructType);
    PBLocApiGnssSystemTimeStructType_systemWeek := GnssSystemTimeStructType_systemWeek gnssSysTimeStructType;
    PBLocApiGnssSystemTimeStructType_systemMsec := GnssSystemTimeStructType_systemMsec gnssSysTimeStructType;
    PBLocApiGnssSystemTimeStructType_systemClkTimeBiasMs := GnssSystemTimeStructType_systemClkTimeBias gnssSysTimeStructType;
    PBLocApiGnssSystemTimeStructType_systemClkTimeBiasUncMs := GnssSystemTimeStructType_systemClkTimeUncMs gnssSysTimeStructType;
    PBLocApiGnssSystemTimeStructType_refFCount := GnssSystemTimeStructType_refFCount gnssSysTimeStructType;
    PBLocApiGnssSystemTimeStructType_numClockResets := GnssSystemTimeStructType_numClockResets gnssSysTimeStructType
  |}.

Definition convertGnssGloTimeStructTypeToPB (gnssGloTime : GnssGloTimeStructType) (pbgnssGloTime : PBLocApiGnssGloTimeStructType)
    : PBLocApiGnssGloTimeStructType :=
  {|
    PBLocApiGnssGloTimeStructType_validityMask := getPBMaskForGnssGloTimeStructTypeFlags (GnssGloTimeStructType_validityMask gnssGloTime);
    PBLocApiGnssGloTimeStructType_gloFourYear := GnssGloTimeStructType_gloFourYear gnssGloTime;
    PBLocApiGnssGloTimeStructType_gloDays := GnssGloTimeStructType_gloDays gnssGloTime;
    PBLocApiGnssGloTimeStructType_gloMsec := GnssGloTimeStructType_gloMsec gnssGloTime;
    PBLocApiGnssGloTimeStructType_gloClkTimeBias := GnssGloTimeStructType_gloClkTimeBias gnssGloTime;
    PBLocApiGnssGloTimeStructType_gloClkTimeUncMs := GnssGloTimeStructType_gloClkTimeUncMs gnssGloTime;
    PBLocApiGnssGloTimeStructType_refFCount := GnssGloTimeStructType_refFCount gnssGloTime;
    PBLocApiGnssGloTimeStructType_numClockResets := GnssGloTimeStructType_numClockResets gnssGloTime
  |}.

(** Reading another member of the union than the one written is undefined. *)
Definition convertSystemTimeStructUnionToPB (gnssLocSvSysEnumType : Z) (sysTimeStructUnion : SystemTimeStructUnion)
    (pbSysTimeStructUnion : PBLocApiSystemTimeStructUnion) : option PBLocApiSystemTimeStructUnion :=
  let system := match sysTimeStructUnion with SystemTime t => Some t | GloTime _ => None end in
  if gnssLocSvSysEnumType =? GNSS_LOC_SV_SYSTEM_GPS then
    t ← system; Some (gpsSystemTime (convertGnssSystemTimeStructTypeToPB t (mutable_gpssystemtime pbSysTimeStructUnion)))
  else if gnssLocSvSysEnumType =? GNSS_LOC_SV_SYSTEM_GALILEO then
    t ← system; Some (galSystemTime (convertGnssSystemTimeStructTypeToPB t (mutable_galsystemtime pbSysTimeStructUnion)))
  else if gnssLocSvSysEnumType =? GNSS_LOC_SV_SYSTEM_BDS then
    t ← system; Some (bdsSystemTime (convertGnssSystemTimeStructTypeToPB t (mutable_bdssystemtime pbSysTimeStructUnion)))
  else if gnssLocSvSysEnumType =? GNSS_LOC_SV_SYSTEM_QZSS then
    t ← system; Some (qzssSystemTime (convertGnssSystemTimeStructTypeToPB t (mutable_qzsssystemtime pbSysTimeStructUnion)))
  else if gnssLocSvSysEnumType =? GNSS_LOC_SV_SYSTEM_GLONASS then
    t ← match sysTimeStructUnion with GloTime t => Some t | SystemTime _ => None end;
    Some (gloSystemTime (convertGnssGloTimeStructTypeToPB t (mutable_glosystemtime pbSysTimeStructUnion)))
  else if gnssLocSvSysEnumType =? GNSS_LOC_SV_SYSTEM_NAVIC then
    t ← system; Some (navicSystemTime (convertGnssSystemTimeStructTypeToPB t (mutable_navicsystemtime pbSysTimeStructUnion)))
  else Some pbSysTimeStructUnion.

Definition convertGnssSystemTimeToPB (gnssSysTime : GnssSystemTime) (pbGnssSysTime : PBLocApiGnssSystemTime)
    : option PBLocApiGnssSystemTime :=
  sysTimeStructUnion ← convertSystemTimeStructUnionToPB (GnssSystemTime_gnssSystemTimeSrc gnssSysTime) (GnssSystemTime_u gnssSysTime) (PBLocApiGnssSystemTime_u pbGnssSysTime);
  Some {|
    PBLocApiGnssSystemTime_gnssSystemTimeSrc := getPBEnumForGnssLocSvSystem (GnssSystemTime_gnssSystemTimeSrc gnssSysTime);
    PBLocApiGnssSystemTime_u := sysTimeStructUnion
  |}.

Definition convertGnssMeasUsageInfoToPB (gnssMeasUsageInfo : GnssMeasUsageInfo) (pbGnssMeasUsageInfo : PBGnssMeasUsageInfo)
    : PBGnssMeasUsageInfo :=
  {|
    PBGnssMeasUsageInfo_gnssConstellation := getPBEnumForGnssLocSvSystem (GnssMeasUsageInfo_gnssConstellation gnssMeasUsageInfo);
    PBGnssMeasUsageInfo_gnssSvId := GnssMeasUsageInfo_gnssSvId gnssMeasUsageInfo;
    PBGnssMeasUsageInfo_gnssSignalType := getPBMaskForGnssSignalTypeMask (GnssMeasUsageInfo_gnssSignalType gnssMeasUsageInfo)
  |}.

Definition convertLLAInfoToPB (llaInfo : LLAInfo) (pbLlaInfo : PBLLAInfo) : PBLLAInfo :=
  {|
    PBLLAInfo_latitude := LLAInfo_latitude llaInfo;
    PBLLAInfo_longitude := LLAInfo_longitude llaInfo;
    PBLLAInfo_altitude := LLAInfo_altitude llaInfo
  |}.

Definition convertGnssLocInfoNotifToPB (gnssLocInfoNotif : GnssLocationInfoNotification) (pbGnssLocInfoNotif : PBGnssLocationInfoNotification)
    : option PBGnssLocationInfoNotification :=
  infos ← first_n (Z.to_nat (GnssLocationInfoNotification_numOfMeasReceived gnssLocInfoNotif)) (GnssLocationInfoNotification_measUsageInfo gnssLocInfoNotif);
  velocity ← first_n 3 (GnssLocationInfoNotification_enuVelocityVRPBased gnssLocInfoNotif);
  gnssSysTime ← convertGnssSystemTimeToPB (GnssLocationInfoNotification_gnssSystemTime gnssLocInfoNotif) (PBGnssLocationInfoNotification_gnssSystemTime pbGnssLocInfoNotif);
  Some {|
    PBGnssLocationInfoNotification_location := convertLocationToPB (GnssLocationInfoNotification_location gnssLocInfoNotif) (PBGnssLocationInfoNotification_location pbGnssLocInfoNotif);
    PBGnssLocationInfoNotification_flags := getPBMaskForGnssLocationInfoFlagMask (GnssLocationInfoNotification_flags gnssLocInfoNotif);
    PBGnssLocationInfoNotification_altitudeMeanSeaLevel := GnssLocationInfoNotification_altitudeMeanSeaLevel gnssLocInfoNotif;
    PBGnssLocationInfoNotification_pdop := GnssLocationInfoNotification_pdop gnssLocInfoNotif;
    PBGnssLocationInfoNotification_hdop := GnssLocationInfoNotification_hdop gnssLocInfoNotif;
    PBGnssLocationInfoNotification_vdop := GnssLocationInfoNotification_vdop gnssLocInfoNotif;
    PBGnssLocationInfoNotification_gdop := GnssLocationInfoNotification_gdop gnssLocInfoNotif;
    PBGnssLocationInfoNotification_tdop := GnssLocationInfoNotification_tdop gnssLocInfoNotif;
    PBGnssLocationInfoNotification_magneticDeviation := GnssLocationInfoNotification_magneticDeviation gnssLocInfoNotif;
    PBGnssLocationInfoNotification_horReliability := getPBEnumForLocationReliability (GnssLocationInfoNotification_horReliability gnssLocInfoNotif);
    PBGnssLocationInfoNotification_verReliability := getPBEnumForLocationReliability (GnssLocationInfoNotification_verReliability gnssLocInfoNotif);
    PBGnssLocationInfoNotification_horUncEllipseSemiMajor := GnssLocationInfoNotification_horUncEllipseSemiMajor gnssLocInfoNotif;
    PBGnssLocationInfoNotification_horUncEllipseSemiMinor := GnssLocationInfoNotification_horUncEllipseSemiMinor gnssLocInfoNotif;
    PBGnssLocationInfoNotification_horUncEllipseOrientAzimuth := GnssLocationInfoNotification_horUncEllipseOrientAzimuth gnssLocInfoNotif;
    PBGnssLocationInfoNotification_northStdDeviation := GnssLocationInfoNotification_northStdDeviation gnssLocInfoNotif;
    PBGnssLocationInfoNotification_eastStdDeviation := GnssLocationInfoNotification_eastStdDeviation gnssLocInfoNotif;
    PBGnssLocationInfoNotification_northVelocity := GnssLocationInfoNotification_northVelocity gnssLocInfoNotif;
    PBGnssLocationInfoNotification_eastVelocity := GnssLocationInfoNotification_eastVelocity gnssLocInfoNotif;
    PBGnssLocationInfoNotification_upVelocity := GnssLocationInfoNotification_upVelocity gnssLocInfoNotif;
    PBGnssLocationInfoNotification_northVelocityStdDeviation := GnssLocationInfoNotification_northVelocityStdDeviation gnssLocInfoNotif;
    PBGnssLocationInfoNotification_eastVelocityStdDeviation := GnssLocationInfoNotification_eastVelocityStdDeviation gnssLocInfoNotif;
    PBGnssLocationInfoNotification_upVelocityStdDeviation := GnssLocationInfoNotification_upVelocityStdDeviation gnssLocInfoNotif;
    PBGnssLocationInfoNotification_numSvUsedInPosition := GnssLocationInfoNotification_numSvUsedInPosition gnssLocInfoNotif;
    PBGnssLocationInfoNotification_svUsedInPosition := convertGnssLocSvUsedInPosToPB (GnssLocationInfoNotification_svUsedInPosition gnssLocInfoNotif) (PBGnssLocationInfoNotification_svUsedInPosition pbGnssLocInfoNotif);
    PBGnssLocationInfoNotification_navSolutionMask := getPBMaskForGnssLocationNavSolutionMask (GnssLocationInfoNotification_navSolutionMask gnssLocInfoNotif);
    PBGnssLocationInfoNotification_bodyFrameData := convertGnssLocationPositionDynamicsToPB (GnssLocationInfoNotification_bodyFrameData gnssLocInfoNotif) (GnssLocationInfoNotification_bodyFrameDataExt gnssLocInfoNotif) (PBGnssLocationInfoNotification_bodyFrameData pbGnssLocInfoNotif);
    PBGnssLocationInfoNotification_gnssSystemTime := gnssSysTime;
    PBGnssLocationInfoNotification_numOfMeasReceived := GnssLocationInfoNotification_numOfMeasReceived gnssLocInfoNotif;
    PBGnssLocationInfoNotification_measUsageInfo := PBGnssLocationInfoNotification_measUsageInfo pbGnssLocInfoNotif ++ ((fun i => convertGnssMeasUsageInfoToPB i default_PBGnssMeasUsageInfo) <$> infos);
    PBGnssLocationInfoNotification_leapSeconds := GnssLocationInfoNotification_leapSeconds gnssLocInfoNotif;
    PBGnssLocationInfoNotification_timeUncMs := GnssLocationInfoNotification_timeUncMs gnssLocInfoNotif;
    PBGnssLocationInfoNotification_calibrationConfidence := GnssLocationInfoNotification_calibrationConfidence gnssLocInfoNotif;
    PBGnssLocationInfoNotification_calibrationStatus := getPBMaskForDrCalibrationStatusMask (GnssLocationInfoNotification_calibrationStatus gnssLocInfoNotif);
    PBGnssLocationInfoNotification_locOutputEngType := getPBEnumForLocOutputEngineType (GnssLocationInfoNotification_locOutputEngType gnssLocInfoNotif);
    PBGnssLocationInfoNotification_locOutputEngMask := getPBMaskForPositioningEngineMask (GnssLocationInfoNotification_locOutputEngMask gnssLocInfoNotif);
    PBGnssLocationInfoNotification_conformityIndex := GnssLocationInfoNotification_conformityIndex gnssLocInfoNotif;
    PBGnssLocationInfoNotification_llaVRPBased := convertLLAInfoToPB (GnssLocationInfoNotification_llaVRPBased gnssLocInfoNotif) (PBGnssLocationInfoNotification_llaVRPBased pbGnssLocInfoNotif);
    PBGnssLocationInfoNotification_enuVelocityVRPBased := PBGnssLocationInfoNotification_enuVelocityVRPBased pbGnssLocInfoNotif ++ velocity;
    PBGnssLocationInfoNotification_drSolutionStatusMask := getPBMaskForDrSolutionStatusMask (GnssLocationInfoNotification_drSolutionStatusMask gnssLocInfoNotif);
    PBGnssLocationInfoNotification_extFlags := getPBMaskForGnssLocationInfoExtFlagMask (GnssLocationInfoNotification_flags gnssLocInfoNotif);
    PBGnssLocationInfoNotification_altitudeAssumed := GnssLocationInfoNotification_altitudeAssumed gnssLocInfoNotif;
    PBGnssLocationInfoNotification_sessionStatus := getPBEnumForLocSessionStatus (GnssLocationInfoNotification_sessionStatus gnssLocInfoNotif)
  |}.

Definition convertLeapSecChgInfoToPB (leapSecChngInfo : LeapSecondChangeInfo) (pbLeapSecChngInfo : PBLeapSecondChangeInfo)
    : PBLeapSecondChangeInfo :=
  {|
    PBLeapSecondChangeInfo_gpsTimestampLsChange := convertGnssSystemTimeStructTypeToPB (LeapSecondChangeInfo_gpsTimestampLsChange leapSecChngInfo) (PBLeapSecondChangeInfo_gpsTimestampLsChange pbLeapSecChngInfo);
    PBLeapSecondChangeInfo_leapSecondsBeforeChange := LeapSecondChangeInfo_leapSecondsBeforeChange leapSecChngInfo;
    PBLeapSecondChangeInfo_leapSecondsAfterChange := LeapSecondChangeInfo_leapSecondsAfterChange leapSecChngInfo
  |}.

Definition convertLeapSecondSystemInfoToPB (leapSecSysInfo : LeapSecondSystemInfo) (pbLeapSecSysInfo : PBLeapSecondSystemInfo)
    : PBLeapSecondSystemInfo :=
  {|
    PBLeapSecondSystemInfo_leapSecondInfoMask := getPBMaskForLeapSecondSysInfoMask (LeapSecondSystemInfo_leapSecondInfoMask leapSecSysInfo);
    PBLeapSecondSystemInfo_leapSecondCurrent := LeapSecondSystemInfo_leapSecondCurrent leapSecSysInfo;
    PBLeapSecondSystemInfo_leapSecondChangeInfo := convertLeapSecChgInfoToPB (LeapSecondSystemInfo_leapSecondChangeInfo leapSecSysInfo) (PBLeapSecondSystemInfo_leapSecondChangeInfo pbLeapSecSysInfo)
  |}.

Definition convertLocSysInfoToPB (locSysInfo : LocationSystemInfo) (pbLocSysInfo : PBLocationSystemInfo)
    : PBLocationSystemInfo :=
  {|
    PBLocationSystemInfo_systemInfoMask := getPBMaskForLocSysInfoMask (LocationSystemInfo_systemInfoMask locSysInfo);
    PBLocationSystemInfo_leapSecondSysInfo := convertLeapSecondSystemInfoToPB (LocationSystemInfo_leapSecondSysInfo locSysInfo) (PBLocationSystemInfo_leapSecondSysInfo pbLocSysInfo)
  |}.

Definition convertGnssMeasDataToPB (gnssMeasData : GnssMeasurementsData) (pbGnssMeasData : PBGnssMeasurementsData)
    : PBGnssMeasurementsData :=
  {|
    PBGnssMeasurementsData_flags := getPBMaskForGnssMeasurementsDataFlagsMask (GnssMeasurementsData_flags gnssMeasData);
    PBGnssMeasurementsData_svId := GnssMeasurementsData_svId gnssMeasData;
    PBGnssMeasurementsData_svType := getPBGnssLocSvSysEnumFromGnssSvType (GnssMeasurementsData_svType gnssMeasData);
    PBGnssMeasurementsData_timeOffsetNs := GnssMeasurementsData_timeOffsetNs gnssMeasData;
    PBGnssMeasurementsData_stateMask := getPBMaskForGnssMeasurementsStateMask (GnssMeasurementsData_stateMask gnssMeasData);
    PBGnssMeasurementsData_receivedSvTimeNs := GnssMeasurementsData_receivedSvTimeNs gnssMeasData;
    PBGnssMeasurementsData_receivedSvTimeUncertaintyNs := GnssMeasurementsData_receivedSvTimeUncertaintyNs gnssMeasData;
    PBGnssMeasurementsData_carrierToNoiseDbHz := GnssMeasurementsData_carrierToNoiseDbHz gnssMeasData;
    PBGnssMeasurementsData_pseudorangeRateMps := GnssMeasurementsData_pseudorangeRateMps gnssMeasData;
    PBGnssMeasurementsData_pseudorangeRateUncertaintyMps := GnssMeasurementsData_pseudorangeRateUncertaintyMps gnssMeasData;
    PBGnssMeasurementsData_adrStateMask := getPBMaskForGnssMeasurementsAdrStateMask (GnssMeasurementsData_adrStateMask gnssMeasData);
    PBGnssMeasurementsData_adrMeters := GnssMeasurementsData_adrMeters gnssMeasData;
    PBGnssMeasurementsData_adrUncertaintyMeters := GnssMeasurementsData_adrUncertaintyMeters gnssMeasData;
    PBGnssMeasurementsData_carrierFrequencyHz := GnssMeasurementsData_carrierFrequencyHz gnssMeasData;
    PBGnssMeasurementsData_carrierCycles := GnssMeasurementsData_carrierCycles gnssMeasData;
    PBGnssMeasurementsData_carrierPhase := GnssMeasurementsData_carrierPhase gnssMeasData;
    PBGnssMeasurementsData_carrierPhaseUncertainty := GnssMeasurementsData_carrierPhaseUncertainty gnssMeasData;
    PBGnssMeasurementsData_multipathIndicator := getPBEnumForGnssMeasMultiPathIndic (GnssMeasurementsData_multipathIndicator gnssMeasData);
    PBGnssMeasurementsData_signalToNoiseRatioDb := GnssMeasurementsData_signalToNoiseRatioDb gnssMeasData;
    PBGnssMeasurementsData_agcLevelDb := GnssMeasurementsData_agcLevelDb gnssMeasData;
    PBGnssMeasurementsData_basebandCarrierToNoiseDbHz := GnssMeasurementsData_basebandCarrierToNoiseDbHz gnssMeasData;
    PBGnssMeasurementsData_gnssSignalType := getPBMaskForGnssSignalTypeMask (GnssMeasurementsData_gnssSignalType gnssMeasData);
    PBGnssMeasurementsData_fullInterSignalBiasNs := GnssMeasurementsData_fullInterSignalBiasNs gnssMeasData;
    PBGnssMeasurementsData_fullInterSignalBiasUncertaintyNs := GnssMeasurementsData_fullInterSignalBiasUncertaintyNs gnssMeasData;
    PBGnssMeasurementsData_cycleSlipCount := GnssMeasurementsData_cycleSlipCount gnssMeasData
  |}.

Definition convertGnssMeasClockToPB (gnssMeasClock : GnssMeasurementsClock) (pbGnssMeasClock : PBGnssMeasurementsClock)
    : PBGnssMeasurementsClock :=
  {|
    PBGnssMeasurementsClock_flags := getPBMaskForGnssMeasurementsClockFlagsMask (GnssMeasurementsClock_flags gnssMeasClock);
    PBGnssMeasurementsClock_leapSecond := GnssMeasurementsClock_leapSecond gnssMeasClock;
    PBGnssMeasurementsClock_timeNs := GnssMeasurementsClock_timeNs gnssMeasClock;
    PBGnssMeasurementsClock_timeUncertaintyNs := GnssMeasurementsClock_timeUncertaintyNs gnssMeasClock;
    PBGnssMeasurementsClock_fullBiasNs := GnssMeasurementsClock_fullBiasNs gnssMeasClock;
    PBGnssMeasurementsClock_biasNs := GnssMeasurementsClock_biasNs gnssMeasClock;
    PBGnssMeasurementsClock_biasUncertaintyNs := GnssMeasurementsClock_biasUncertaintyNs gnssMeasClock;
    PBGnssMeasurementsClock_driftNsps := GnssMeasurementsClock_driftNsps gnssMeasClock;
    PBGnssMeasurementsClock_driftUncertaintyNsps := GnssMeasurementsClock_driftUncertaintyNsps gnssMeasClock;
    PBGnssMeasurementsClock_hwClockDiscontinuityCount := GnssMeasurementsClock_hwClockDiscontinuityCount gnssMeasClock
  |}.

Definition convertGnssMeasNotifToPB (gnssMeasNotif : GnssMeasurementsNotification) (pbGnssMeasNotif : PBGnssMeasurementsNotification)
    : option PBGnssMeasurementsNotification :=
  data ← first_n (Z.to_nat (GnssMeasurementsNotification_count gnssMeasNotif)) (GnssMeasurementsNotification_measurements gnssMeasNotif);
  Some {|
    PBGnssMeasurementsNotification_measurements := PBGnssMeasurementsNotification_measurements pbGnssMeasNotif ++ ((fun d => convertGnssMeasDataToPB d default_PBGnssMeasurementsData) <$> data);
    PBGnssMeasurementsNotification_clock := convertGnssMeasClockToPB (GnssMeasurementsNotification_clock gnssMeasNotif) (PBGnssMeasurementsNotification_clock pbGnssMeasNotif)
  |}.

Definition convertGnssDataNotifToPB (gnssDataNotif : GnssDataNotification) (pbGnssDataNotif : PBGnssDataNotification)
    : option PBGnssDataNotification :=
  masks ← first_n (Z.to_nat GNSS_LOC_MAX_NUMBER_OF_SIGNAL_TYPES) (GnssDataNotification_gnssDataMask gnssDataNotif);
  jammers ← first_n (Z.to_nat GNSS_LOC_MAX_NUMBER_OF_SIGNAL_TYPES) (GnssDataNotification_jammerInd gnssDataNotif);
  agcs ← first_n (Z.to_nat GNSS_LOC_MAX_NUMBER_OF_SIGNAL_TYPES) (GnssDataNotification_agc gnssDataNotif);
  Some {|
    PBGnssDataNotification_numberSignalTypes := GNSS_LOC_MAX_NUMBER_OF_SIGNAL_TYPES;
    PBGnssDataNotification_gnssDataMask := PBGnssDataNotification_gnssDataMask pbGnssDataNotif ++ masks;
    PBGnssDataNotification_jammerInd := PBGnssDataNotification_jammerInd pbGnssDataNotif ++ jammers;
    PBGnssDataNotification_agc := PBGnssDataNotification_agc pbGnssDataNotif ++ agcs
  |}.

Definition convertLocAPINmeaSerializedPayloadToPB (locAPINmeaSerPload : LocAPINmeaSerializedPayload) (pbLocAPINmeaSerPload : PBLocAPINmeaSerializedPayload)
    : PBLocAPINmeaSerializedPayload :=
  {|
    PBLocAPINmeaSerializedPayload_timestamp := LocAPINmeaSerializedPayload_timestamp locAPINmeaSerPload;
    PBLocAPINmeaSerializedPayload_nmea := LocAPINmeaSerializedPayload_nmea locAPINmeaSerPload
  |}.

Definition convertGnssSvToPB (gnssSv : GnssSv) (pbGnssSv : PBLocApiGnssSv) : PBLocApiGnssSv :=
  {|
    PBLocApiGnssSv_svId := GnssSv_svId gnssSv;
    PBLocApiGnssSv_type := getPBGnssLocSvSysEnumFromGnssSvType (GnssSv_type gnssSv);
    PBLocApiGnssSv_cN0Dbhz := GnssSv_cN0Dbhz gnssSv;
    PBLocApiGnssSv_elevation := GnssSv_elevation gnssSv;
    PBLocApiGnssSv_azimuth := GnssSv_azimuth gnssSv;
    PBLocApiGnssSv_gnssSvOptionsMask := getPBMaskForGnssSvOptionsMask (GnssSv_gnssSvOptionsMask gnssSv);
    PBLocApiGnssSv_carrierFrequencyHz := GnssSv_carrierFrequencyHz gnssSv;
    PBLocApiGnssSv_gnssSignalTypeMask := getPBMaskForGnssSignalTypeMask (GnssSv_gnssSignalTypeMask gnssSv);
    PBLocApiGnssSv_basebandCarrierToNoiseDbHz := GnssSv_basebandCarrierToNoiseDbHz gnssSv;
    PBLocApiGnssSv_gloFrequency := GnssSv_gloFrequency gnssSv
  |}.

Definition convertGnssSvNotifToPB (gnssSvNotif : GnssSvNotification) (pbGnssSvNotif : PBLocApiGnssSvNotification)
    : option PBLocApiGnssSvNotification :=
  svs ← first_n (Z.to_nat (GnssSvNotification_count gnssSvNotif)) (GnssSvNotification_gnssSvs gnssSvNotif);
  Some {|
    PBLocApiGnssSvNotification_gnssSignalTypeMaskValid := GnssSvNotification_gnssSignalTypeMaskValid gnssSvNotif;
    PBLocApiGnssSvNotification_gnssSvs := PBLocApiGnssSvNotification_gnssSvs pbGnssSvNotif ++ ((fun sv => convertGnssSvToPB sv default_PBLocApiGnssSv) <$> svs)
  |}.

