(* ===== verification/PbConvFrom.v ===== *)
(** * From messages to structures
    ([src/location/location_api_msg_proto/src/LocationApiPbMsgConv.cpp])

    Each conversion writes members of a structure and leaves the others as they
    were.  Writing an array past its end, or reading a repeated field past its
    size, is undefined ([None]). *)
From S2P Require Import Prelude PbConsts PbMasks PbTypes PbConvTo.
#[local] Open Scope Z_scope.

(** A number stored in a signed [w]-bit member. *)
Definition swrap (w z : Z) : Z := (z + 2 ^ (w - 1)) mod 2 ^ w - 2 ^ (w - 1).

(** [for (i...) convert(xs(i), array[i]);] *)
Fixpoint fill {A B} (convert : A -> B -> B) (xs : list A) (array : list B) : option (list B) :=
  match xs, array with
  | [], _ => Some array
  | x :: xs, b :: array => array' ← fill convert xs array; Some (convert x b :: array')
  | _ :: _, [] => None
  end.

(** The bytes of the union that the other member left, of which nothing is known. *)
Definition unset_system_time : GnssSystemTimeStructType := MkGnssSystemTimeStructType 0 0 0 0 0 0 0.
Definition unset_glo_time : GnssGloTimeStructType := MkGnssGloTimeStructType 0 0 0 0 0 0 0 0.

Definition pbConvertToGnssConfigRobustLocation (pbGnssCfgRobLoc : PBGnssConfigRobustLocation) (gnssCfgRobLoc : GnssConfigRobustLocation)
    : GnssConfigRobustLocation :=
  {|
    GnssConfigRobustLocation_validMask := getGnssConfigRobustLocationValidMaskFromPB (PBGnssConfigRobustLocation_validMask pbGnssCfgRobLoc);
    GnssConfigRobustLocation_enabled := PBGnssConfigRobustLocation_enabled pbGnssCfgRobLoc;
    GnssConfigRobustLocation_enabledForE911 := PBGnssConfigRobustLocation_enabledForE911 pbGnssCfgRobLoc;
    GnssConfigRobustLocation_version := MkGnssConfigRobustLocationVersion
      (u8 (PBGnssConfigRobustLocationVersion_major (PBGnssConfigRobustLocation_version pbGnssCfgRobLoc)))
      (wrap 16 (PBGnssConfigRobustLocationVersion_minor (PBGnssConfigRobustLocation_version pbGnssCfgRobLoc)))
  |}.

Definition pbConvertToGeofenceResponse (pbResp : PBGeofenceResponse) (resp : GeofenceResponse) : GeofenceResponse := {|
    GeofenceResponse_clientId := PBGeofenceResponse_clientId pbResp;
    GeofenceResponse_error := getEnumForPBLocationError (PBGeofenceResponse_error pbResp)
  |}.

Definition pbConvertToCollectiveResPayload (pbClctResPayload : PBCollectiveResPayload) (clctResPayload : CollectiveResPayload)
    : option CollectiveResPayload :=
  resp ← fill pbConvertToGeofenceResponse (PBCollectiveResPayload_resp pbClctResPayload) (CollectiveResPayload_resp clctResPayload);
  Some {|
    CollectiveResPayload_count := Z.of_nat (length (PBCollectiveResPayload_resp pbClctResPayload));
    CollectiveResPayload_resp := resp
  |}.

Definition pbConvertToLocation (pbLoc : PBLocation) (loc : Location) : Location :=
  {|
    Location_flags := wrap 16 (getLocationFlagsMaskFromPB (PBLocation_flags pbLoc));
    Location_timestamp := PBLocation_timestamp pbLoc;
    Location_latitude := PBLocation_latitude pbLoc;
    Location_longitude := PBLocation_longitude pbLoc;
    Location_altitude := PBLocation_altitude pbLoc;
    Location_speed := PBLocation_speed pbLoc;
    Location_bearing := PBLocation_bearing pbLoc;
    Location_accuracy := PBLocation_horizontalAccuracy pbLoc;
    Location_verticalAccuracy := PBLocation_verticalAccuracy pbLoc;
    Location_speedAccuracy := PBLocation_speedAccuracy pbLoc;
    Location_bearingAccuracy := PBLocation_bearingAccuracy pbLoc;
    Location_conformityIndex := Location_conformityIndex loc;
    Location_techMask := wrap 16 (getLocationTechnologyMaskFromPB (PBLocation_techMask pbLoc));
    Location_spoofMask := Location_spoofMask loc;
    Location_elapsedRealTime := Location_elapsedRealTime loc;
    Location_elapsedRealTimeUnc := Location_elapsedRealTimeUnc loc
  |}.

Definition pbConvertToLocAPIBatchNotification (pbLocBatchNotif : PBLocAPIBatchNotification) (locBatchNotif : LocAPIBatchNotification)
    : option LocAPIBatchNotification :=
  location ← fill pbConvertToLocation (PBLocAPIBatchNotification_location pbLocBatchNotif) (LocAPIBatchNotification_location locBatchNotif);
  Some {|
    LocAPIBatchNotification_count := Z.of_nat (length (PBLocAPIBatchNotification_location pbLocBatchNotif));
    LocAPIBatchNotification_status := getEnumForPBBatchingStatus (PBLocAPIBatchNotification_status pbLocBatchNotif);
    LocAPIBatchNotification_location := location
  |}.

Definition pbConvertToLocAPIGfBreachNotification (pbLocApiGfBreachNotif : PBLocAPIGeofenceBreachNotification) (locApiGfBreachNotif : LocAPIGeofenceBreachNotification)
    : option LocAPIGeofenceBreachNotification :=
  id ← PBLocAPIGeofenceBreachNotification_id pbLocApiGfBreachNotif !! 0%nat;
  ids ← fill (fun i _ => i) [id] (LocAPIGeofenceBreachNotification_id locApiGfBreachNotif);
  Some {|
    LocAPIGeofenceBreachNotification_count := LocAPIGeofenceBreachNotification_count locApiGfBreachNotif;
    LocAPIGeofenceBreachNotification_timestamp := PBLocAPIGeofenceBreachNotification_timestamp pbLocApiGfBreachNotif;
    LocAPIGeofenceBreachNotification_type := wrap 16 (getGfBreachTypeMaskFromPB (PBLocAPIGeofenceBreachNotification_breachtype pbLocApiGfBreachNotif));
    LocAPIGeofenceBreachNotification_location := pbConvertToLocation (PBLocAPIGeofenceBreachNotification_location pbLocApiGfBreachNotif) (LocAPIGeofenceBreachNotification_location locApiGfBreachNotif);
    LocAPIGeofenceBreachNotification_id := ids
  |}.

Definition pbConvertToGnssLocationSvUsedInPosition (pbGnssLocSvUsedInPos : PBGnssLocationSvUsedInPosition) (gnssLocSvUsedInPos : GnssLocationSvUsedInPosition)
    : GnssLocationSvUsedInPosition :=
  {|
    GnssLocationSvUsedInPosition_gpsSvUsedIdsMask := PBGnssLocationSvUsedInPosition_gpsSvUsedIdsMask pbGnssLocSvUsedInPos;
    GnssLocationSvUsedInPosition_gloSvUsedIdsMask := PBGnssLocationSvUsedInPosition_gloSvUsedIdsMask pbGnssLocSvUsedInPos;
    GnssLocationSvUsedInPosition_galSvUsedIdsMask := PBGnssLocationSvUsedInPosition_galSvUsedIdsMask pbGnssLocSvUsedInPos;
    GnssLocationSvUsedInPosition_bdsSvUsedIdsMask := PBGnssLocationSvUsedInPosition_bdsSvUsedIdsMask pbGnssLocSvUsedInPos;
    GnssLocationSvUsedInPosition_qzssSvUsedIdsMask := PBGnssLocationSvUsedInPosition_qzssSvUsedIdsMask pbGnssLocSvUsedInPos;
    GnssLocationSvUsedInPosition_navicSvUsedIdsMask := PBGnssLocationSvUsedInPosition_navicSvUsedIdsMask pbGnssLocSvUsedInPos
  |}.

Definition pbConvertToGnssLocationPositionDynamics (pbGnssLocPosDyn : PBLocApiGnssLocationPositionDynamics) (gnssLocPosDyn : GnssLocationPositionDynamics) (gnssLocPosDynExt : GnssLocationPositionDynamicsExt)
    : GnssLocationPositionDynamics * GnssLocationPositionDynamicsExt :=
  ({|
    GnssLocationPositionDynamics_bodyFrameDataMask := getGnssLocationPosDataMaskFromPB (PBLocApiGnssLocationPositionDynamics_bodyFrameDataMask pbGnssLocPosDyn);
    GnssLocationPositionDynamics_longAccel := PBLocApiGnssLocationPositionDynamics_longAccel pbGnssLocPosDyn;
    GnssLocationPositionDynamics_latAccel := PBLocApiGnssLocationPositionDynamics_latAccel pbGnssLocPosDyn;
    GnssLocationPositionDynamics_vertAccel := PBLocApiGnssLocationPositionDynamics_vertAccel pbGnssLocPosDyn;
    GnssLocationPositionDynamics_yawRate := PBLocApiGnssLocationPositionDynamics_yawRate pbGnssLocPosDyn;
    GnssLocationPositionDynamics_pitch := PBLocApiGnssLocationPositionDynamics_pitch pbGnssLocPosDyn;
    GnssLocationPositionDynamics_longAccelUnc := PBLocApiGnssLocationPositionDynamics_longAccelUnc pbGnssLocPosDyn;
    GnssLocationPositionDynamics_latAccelUnc := PBLocApiGnssLocationPositionDynamics_latAccelUnc pbGnssLocPosDyn;
    GnssLocationPositionDynamics_vertAccelUnc := PBLocApiGnssLocationPositionDynamics_vertAccelUnc pbGnssLocPosDyn;
    GnssLocationPositionDynamics_yawRateUnc := PBLocApiGnssLocationPositionDynamics_yawRateUnc pbGnssLocPosDyn;
    GnssLocationPositionDynamics_pitchUnc := PBLocApiGnssLocationPositionDynamics_pitchUnc pbGnssLocPosDyn
  |}, {|
    GnssLocationPositionDynamicsExt_bodyFrameDataMask := getGnssLocationPosDataMaskExtFromPB (PBLocApiGnssLocationPositionDynamics_bodyFrameDataMask pbGnssLocPosDyn);
    GnssLocationPositionDynamicsExt_pitchRate := PBLocApiGnssLocationPositionDynamics_pitchRate pbGnssLocPosDyn;
    GnssLocationPositionDynamicsExt_pitchRateUnc := PBLocApiGnssLocationPositionDynamics_pitchRateUnc pbGnssLocPosDyn;
    GnssLocationPositionDynamicsExt_roll := PBLocApiGnssLocationPositionDynamics_roll pbGnssLocPosDyn;
    GnssLocationPositionDynamicsExt_rollUnc := PBLocApiGnssLocationPositionDynamics_rollUnc pbGnssLocPosDyn;
    GnssLocationPositionDynamicsExt_rollRate := PBLocApiGnssLocationPositionDynamics_rollRate pbGnssLocPosDyn;
    GnssLocationPositionDynamicsExt_rollRateUnc := PBLocApiGnssLocationPositionDynamics_rollRateUnc pbGnssLocPosDyn;
    GnssLocationPositionDynamicsExt_yaw := PBLocApiGnssLocationPositionDynamics_yaw pbGnssLocPosDyn;
    GnssLocationPositionDynamicsExt_yawUnc := PBLocApiGnssLocationPositionDynamics_yawUnc pbGnssLocPosDyn
  |}).

Definition pbConvertToGnssSystemTimeStructType (pbGnssSysTimeStrct : PBLocApiGnssSystemTimeStructType) (gnssSysTimeStrct : GnssSystemTimeStructType)
    : GnssSystemTimeStructType :=
  {|
    GnssSystemTimeStructType_validityMask := getGnssSystemTimeStructTypeFlagsFromPB (PBLocApiGnssSystemTimeStructType_validityMask pbGnssSysTimeStrct);
    GnssSystemTimeStructType_systemWeek := wrap 16 (PBLocApiGnssSystemTimeStructType_systemWeek pbGnssSysTimeStrct);
    GnssSystemTimeStructType_systemMsec := PBLocApiGnssSystemTimeStructType_systemMsec pbGnssSysTimeStrct;
    GnssSystemTimeStructType_systemClkTimeBias := PBLocApiGnssSystemTimeStructType_systemClkTimeBiasMs pbGnssSysTimeStrct;
    GnssSystemTimeStructType_systemClkTimeUncMs := PBLocApiGnssSystemTimeStructType_systemClkTimeBiasUncMs pbGnssSysTimeStrct;
    GnssSystemTimeStructType_refFCount := PBLocApiGnssSystemTimeStructType_refFCount pbGnssSysTimeStrct;
    GnssSystemTimeStructType_numClockResets := PBLocApiGnssSystemTimeStructType_numClockResets pbGnssSysTimeStrct
  |}.

Definition pbConvertToGnssGloTimeStructType (pbGnssGloTime : PBLocApiGnssGloTimeStructType) (gnssGloTime : GnssGloTimeStructType)
    : GnssGloTimeStructType :=
  {|
    GnssGloTimeStructType_gloDays := wrap 16 (PBLocApiGnssGloTimeStructType_gloDays pbGnssGloTime);
    GnssGloTimeStructType_validityMask := getGnssGloTimeStructTypeFlagsFromPB (PBLocApiGnssGloTimeStructType_validityMask pbGnssGloTime);
    GnssGloTimeStructType_gloMsec := PBLocApiGnssGloTimeStructType_gloMsec pbGnssGloTime;
    GnssGloTimeStructType_gloClkTimeBias := PBLocApiGnssGloTimeStructType_gloClkTimeBias pbGnssGloTime;
    GnssGloTimeStructType_gloClkTimeUncMs := PBLocApiGnssGloTimeStructType_gloClkTimeUncMs pbGnssGloTime;
    GnssGloTimeStructType_refFCount := PBLocApiGnssGloTimeStructType_refFCount pbGnssGloTime;
    GnssGloTimeStructType_numClockResets := PBLocApiGnssGloTimeStructType_numClockResets pbGnssGloTime;
    GnssGloTimeStructType_gloFourYear := u8 (PBLocApiGnssGloTimeStructType_gloFourYear pbGnssGloTime)
  |}.

Definition pbConvertToSystemTimeStructUnion (gnssLocSvSysEnumType : Z) (pbSysTimeStructUnion : PBLocApiSystemTimeStructUnion)
    (sysTimeStructUnion : SystemTimeStructUnion) : SystemTimeStructUnion :=
  let system := match sysTimeStructUnion with SystemTime t => t | GloTime _ => unset_system_time end in
  let glo := match sysTimeStructUnion with GloTime t => t | SystemTime _ => unset_glo_time end in
  if gnssLocSvSysEnumType =? GNSS_LOC_SV_SYSTEM_GPS then
    SystemTime (pbConvertToGnssSystemTimeStructType (mutable_gpssystemtime pbSysTimeStructUnion) system)
  else if gnssLocSvSysEnumType =? GNSS_LOC_SV_SYSTEM_GALILEO then
    SystemTime (pbConvertToGnssSystemTimeStructType (mutable_galsystemtime pbSysTimeStructUnion) system)
  else if gnssLocSvSysEnumType =? GNSS_LOC_SV_SYSTEM_BDS then
    SystemTime (pbConvertToGnssSystemTimeStructType (mutable_bdssystemtime pbSysTimeStructUnion) system)
  else if gnssLocSvSysEnumType =? GNSS_LOC_SV_SYSTEM_QZSS then
    SystemTime (pbConvertToGnssSystemTimeStructType (mutable_qzsssystemtime pbSysTimeStructUnion) system)
  else if gnssLocSvSysEnumType =? GNSS_LOC_SV_SYSTEM_GLONASS then
    GloTime (pbConvertToGnssGloTimeStructType (mutable_glosystemtime pbSysTimeStructUnion) glo)
  else if gnssLocSvSysEnumType =? GNSS_LOC_SV_SYSTEM_NAVIC then
    SystemTime (pbConvertToGnssSystemTimeStructType (mutable_navicsystemtime pbSysTimeStructUnion) system)
  else sysTimeStructUnion.

Definition pbConvertToGnssSystemTime (pbGnssSysTime : PBLocApiGnssSystemTime) (gnssSysTime : GnssSystemTime)
    : GnssSystemTime :=
  {|
    GnssSystemTime_gnssSystemTimeSrc := getEnumForPBGnssLocSvSystem (PBLocApiGnssSystemTime_gnssSystemTimeSrc pbGnssSysTime);
    GnssSystemTime_u := pbConvertToSystemTimeStructUnion (getEnumForPBGnssLocSvSystem (PBLocApiGnssSystemTime_gnssSystemTimeSrc pbGnssSysTime))
      (PBLocApiGnssSystemTime_u pbGnssSysTime) (GnssSystemTime_u gnssSysTime)
  |}.

Definition pbConvertToGnssMeasUsageInfo (pbGnssMeasUsageInfo : PBGnssMeasUsageInfo) (gnssMeasUsageInfo : GnssMeasUsageInfo)
    : GnssMeasUsageInfo :=
  {|
    GnssMeasUsageInfo_gnssSignalType := getGnssSignalTypeMaskFromPB (PBGnssMeasUsageInfo_gnssSignalType pbGnssMeasUsageInfo);
    GnssMeasUsageInfo_gnssConstellation := getEnumForPBGnssLocSvSystem (PBGnssMeasUsageInfo_gnssConstellation pbGnssMeasUsageInfo);
    GnssMeasUsageInfo_gnssSvId := wrap 16 (PBGnssMeasUsageInfo_gnssSvId pbGnssMeasUsageInfo)
  |}.

Definition pbConvertToLLAInfo (pbLlaInfo : PBLLAInfo) (llaInfo : LLAInfo) : LLAInfo :=
  {|
    LLAInfo_latitude := PBLLAInfo_latitude pbLlaInfo;
    LLAInfo_longitude := PBLLAInfo_longitude pbLlaInfo;
    LLAInfo_altitude := PBLLAInfo_altitude pbLlaInfo
  |}.

Definition pbConvertToGnssLocInfoNotif (pbGnssLocInfoNotif : PBGnssLocationInfoNotification) (gnssLocInfoNotif : GnssLocationInfoNotification)
    : option GnssLocationInfoNotification :=
  numOfMeasReceived ← Some (u8 (Z.min (PBGnssLocationInfoNotification_numOfMeasReceived pbGnssLocInfoNotif) GNSS_SV_MAX));
  infos ← first_n (Z.to_nat numOfMeasReceived) (PBGnssLocationInfoNotification_measUsageInfo pbGnssLocInfoNotif);
  measUsageInfo ← fill pbConvertToGnssMeasUsageInfo infos (GnssLocationInfoNotification_measUsageInfo gnssLocInfoNotif);
  velocity ← first_n 3 (PBGnssLocationInfoNotification_enuVelocityVRPBased pbGnssLocInfoNotif);
  enuVelocityVRPBased ← fill (fun v _ => v) velocity (GnssLocationInfoNotification_enuVelocityVRPBased gnssLocInfoNotif);
  Some {|
    GnssLocationInfoNotification_location := pbConvertToLocation (PBGnssLocationInfoNotification_location pbGnssLocInfoNotif) (GnssLocationInfoNotification_location gnssLocInfoNotif);
    GnssLocationInfoNotification_flags := getGnssLocationInfoFlagMaskFromPB (PBGnssLocationInfoNotification_flags pbGnssLocInfoNotif) (PBGnssLocationInfoNotification_extFlags pbGnssLocInfoNotif);
    GnssLocationInfoNotification_altitudeMeanSeaLevel := PBGnssLocationInfoNotification_altitudeMeanSeaLevel pbGnssLocInfoNotif;
    GnssLocationInfoNotification_pdop := PBGnssLocationInfoNotification_pdop pbGnssLocInfoNotif;
    GnssLocationInfoNotification_hdop := PBGnssLocationInfoNotification_hdop pbGnssLocInfoNotif;
    GnssLocationInfoNotification_vdop := PBGnssLocationInfoNotification_vdop pbGnssLocInfoNotif;
    GnssLocationInfoNotification_gdop := PBGnssLocationInfoNotification_gdop pbGnssLocInfoNotif;
    GnssLocationInfoNotification_tdop := PBGnssLocationInfoNotification_tdop pbGnssLocInfoNotif;
    GnssLocationInfoNotification_magneticDeviation := PBGnssLocationInfoNotification_magneticDeviation pbGnssLocInfoNotif;
    GnssLocationInfoNotification_horReliability := getEnumForPBLocReliability (PBGnssLocationInfoNotification_horReliability pbGnssLocInfoNotif);
    GnssLocationInfoNotification_verReliability := getEnumForPBLocReliability (PBGnssLocationInfoNotification_verReliability pbGnssLocInfoNotif);
    GnssLocationInfoNotification_horUncEllipseSemiMajor := PBGnssLocationInfoNotification_horUncEllipseSemiMajor pbGnssLocInfoNotif;
    GnssLocationInfoNotification_horUncEllipseSemiMinor := PBGnssLocationInfoNotification_horUncEllipseSemiMinor pbGnssLocInfoNotif;
    GnssLocationInfoNotification_horUncEllipseOrientAzimuth := PBGnssLocationInfoNotification_horUncEllipseOrientAzimuth pbGnssLocInfoNotif;
    GnssLocationInfoNotification_northStdDeviation := PBGnssLocationInfoNotification_northStdDeviation pbGnssLocInfoNotif;
    GnssLocationInfoNotification_eastStdDeviation := PBGnssLocationInfoNotification_eastStdDeviation pbGnssLocInfoNotif;
    GnssLocationInfoNotification_northVelocity := PBGnssLocationInfoNotification_northVelocity pbGnssLocInfoNotif;
    GnssLocationInfoNotification_eastVelocity := PBGnssLocationInfoNotification_eastVelocity pbGnssLocInfoNotif;
    GnssLocationInfoNotification_upVelocity := PBGnssLocationInfoNotification_upVelocity pbGnssLocInfoNotif;
    GnssLocationInfoNotification_northVelocityStdDeviation := PBGnssLocationInfoNotification_northVelocityStdDeviation pbGnssLocInfoNotif;
    GnssLocationInfoNotification_eastVelocityStdDeviation := PBGnssLocationInfoNotification_eastVelocityStdDeviation pbGnssLocInfoNotif;
    GnssLocationInfoNotification_upVelocityStdDeviation := PBGnssLocationInfoNotification_upVelocityStdDeviation pbGnssLocInfoNotif;
    GnssLocationInfoNotification_numSvUsedInPosition := wrap 16 (PBGnssLocationInfoNotification_numSvUsedInPosition pbGnssLocInfoNotif);
    GnssLocationInfoNotification_svUsedInPosition := pbConvertToGnssLocationSvUsedInPosition (PBGnssLocationInfoNotification_svUsedInPosition pbGnssLocInfoNotif) (GnssLocationInfoNotification_svUsedInPosition gnssLocInfoNotif);
    GnssLocationInfoNotification_navSolutionMask := getGnssLocationNavSolutionMaskFromPB (PBGnssLocationInfoNotification_navSolutionMask pbGnssLocInfoNotif);
    GnssLocationInfoNotification_bodyFrameData := (pbConvertToGnssLocationPositionDynamics (PBGnssLocationInfoNotification_bodyFrameData pbGnssLocInfoNotif)
        (GnssLocationInfoNotification_bodyFrameData gnssLocInfoNotif) (GnssLocationInfoNotification_bodyFrameDataExt gnssLocInfoNotif)).1;
    GnssLocationInfoNotification_gnssSystemTime := pbConvertToGnssSystemTime (PBGnssLocationInfoNotification_gnssSystemTime pbGnssLocInfoNotif) (GnssLocationInfoNotification_gnssSystemTime gnssLocInfoNotif);
    GnssLocationInfoNotification_numOfMeasReceived := numOfMeasReceived;
    GnssLocationInfoNotification_measUsageInfo := measUsageInfo;
    GnssLocationInfoNotification_leapSeconds := u8 (PBGnssLocationInfoNotification_leapSeconds pbGnssLocInfoNotif);
    GnssLocationInfoNotification_timeUncMs := PBGnssLocationInfoNotification_timeUncMs pbGnssLocInfoNotif;
    GnssLocationInfoNotification_calibrationConfidence := u8 (PBGnssLocationInfoNotification_calibrationConfidence pbGnssLocInfoNotif);
    GnssLocationInfoNotification_calibrationStatus := wrap 16 (getDrCalibrationStatusMaskFromPB (PBGnssLocationInfoNotification_calibrationStatus pbGnssLocInfoNotif));
    GnssLocationInfoNotification_locOutputEngType := getEnumForPBLocOutputEngineType (PBGnssLocationInfoNotification_locOutputEngType pbGnssLocInfoNotif);
    GnssLocationInfoNotification_locOutputEngMask := getEnumForPBPositioningEngineMask (PBGnssLocationInfoNotification_locOutputEngMask pbGnssLocInfoNotif);
    GnssLocationInfoNotification_conformityIndex := PBGnssLocationInfoNotification_conformityIndex pbGnssLocInfoNotif;
    GnssLocationInfoNotification_bodyFrameDataExt := (pbConvertToGnssLocationPositionDynamics (PBGnssLocationInfoNotification_bodyFrameData pbGnssLocInfoNotif)
        (GnssLocationInfoNotification_bodyFrameData gnssLocInfoNotif) (GnssLocationInfoNotification_bodyFrameDataExt gnssLocInfoNotif)).2;
    GnssLocationInfoNotification_llaVRPBased := pbConvertToLLAInfo (PBGnssLocationInfoNotification_llaVRPBased pbGnssLocInfoNotif) (GnssLocationInfoNotification_llaVRPBased gnssLocInfoNotif);
    GnssLocationInfoNotification_enuVelocityVRPBased := enuVelocityVRPBased;
    GnssLocationInfoNotification_drSolutionStatusMask := getDrSolutionStatusMaskFromPB (PBGnssLocationInfoNotification_drSolutionStatusMask pbGnssLocInfoNotif);
    GnssLocationInfoNotification_altitudeAssumed := PBGnssLocationInfoNotification_altitudeAssumed pbGnssLocInfoNotif;
    GnssLocationInfoNotification_sessionStatus := getLocSessionStatusFromPB (PBGnssLocationInfoNotification_sessionStatus pbGnssLocInfoNotif)
  |}.

Definition pbConvertToGnssSv (pPbGnssSv : PBLocApiGnssSv) (gnssSv : GnssSv) : GnssSv := {|
    GnssSv_svId := wrap 16 (PBLocApiGnssSv_svId pPbGnssSv);
    GnssSv_type := getGnssSvTypeFromPBGnssLocSvSystemEnumType (PBLocApiGnssSv_type pPbGnssSv);
    GnssSv_cN0Dbhz := PBLocApiGnssSv_cN0Dbhz pPbGnssSv;
    GnssSv_elevation := PBLocApiGnssSv_elevation pPbGnssSv;
    GnssSv_azimuth := PBLocApiGnssSv_azimuth pPbGnssSv;
    GnssSv_gnssSvOptionsMask := wrap 16 (getGnssSvOptionsMaskFromPB (PBLocApiGnssSv_gnssSvOptionsMask pPbGnssSv));
    GnssSv_carrierFrequencyHz := PBLocApiGnssSv_carrierFrequencyHz pPbGnssSv;
    GnssSv_gnssSignalTypeMask := getGnssSignalTypeMaskFromPB (PBLocApiGnssSv_gnssSignalTypeMask pPbGnssSv);
    GnssSv_basebandCarrierToNoiseDbHz := PBLocApiGnssSv_basebandCarrierToNoiseDbHz pPbGnssSv;
    GnssSv_gloFrequency := wrap 16 (PBLocApiGnssSv_gloFrequency pPbGnssSv)
  |}.

Definition pbConvertToGnssSvNotif (pbGnssSvNotif : PBLocApiGnssSvNotification) (gnssSvNotif : GnssSvNotification)
    : option GnssSvNotification :=
  count ← Some (Z.min (Z.of_nat (length (PBLocApiGnssSvNotification_gnssSvs pbGnssSvNotif))) GNSS_SV_MAX);
  svs ← first_n (Z.to_nat count) (PBLocApiGnssSvNotification_gnssSvs pbGnssSvNotif);
  gnssSvs ← fill pbConvertToGnssSv svs (GnssSvNotification_gnssSvs gnssSvNotif);
  Some {|
    GnssSvNotification_count := count;
    GnssSvNotification_gnssSignalTypeMaskValid := PBLocApiGnssSvNotification_gnssSignalTypeMaskValid pbGnssSvNotif;
    GnssSvNotification_gnssSvs := gnssSvs
  |}.

Definition pbConvertToLocAPINmeaSerializedPayload (pbLocApiNmeaSerPayload : PBLocAPINmeaSerializedPayload) (locApiNmeaSerPayload : LocAPINmeaSerializedPayload)
    : LocAPINmeaSerializedPayload :=
  {|
    LocAPINmeaSerializedPayload_timestamp := PBLocAPINmeaSerializedPayload_timestamp pbLocApiNmeaSerPayload;
    LocAPINmeaSerializedPayload_nmea := PBLocAPINmeaSerializedPayload_nmea pbLocApiNmeaSerPayload
  |}.

Definition pbConvertToGnssDataNotification (pbGnssDataNotif : PBGnssDataNotification) (gnssDataNotif : GnssDataNotification)
    : option GnssDataNotification :=
  arrMaxLen ← Some (Z.to_nat (Z.min (PBGnssDataNotification_numberSignalTypes pbGnssDataNotif) GNSS_LOC_MAX_NUMBER_OF_SIGNAL_TYPES));
  masks ← first_n arrMaxLen (PBGnssDataNotification_gnssDataMask pbGnssDataNotif);
  jammers ← first_n arrMaxLen (PBGnssDataNotification_jammerInd pbGnssDataNotif);
  agcs ← first_n arrMaxLen (PBGnssDataNotification_agc pbGnssDataNotif);
  gnssDataMask ← fill (fun m _ => getGnssDataMaskFromPB m) masks (GnssDataNotification_gnssDataMask gnssDataNotif);
  jammerInd ← fill (fun j _ => j) jammers (GnssDataNotification_jammerInd gnssDataNotif);
  agc ← fill (fun a _ => a) agcs (GnssDataNotification_agc gnssDataNotif);
  Some {|
    GnssDataNotification_gnssDataMask := gnssDataMask;
    GnssDataNotification_jammerInd := jammerInd;
    GnssDataNotification_agc := agc
  |}.

Definition pbConvertToGnssMeasurementsData (pbGnssMeasData : PBGnssMeasurementsData) (gnssMeasData : GnssMeasurementsData)
    : GnssMeasurementsData :=
  {|
    GnssMeasurementsData_flags := getGnssMeasurementsDataFlagsMaskFromPB (PBGnssMeasurementsData_flags pbGnssMeasData);
    GnssMeasurementsData_svId := swrap 16 (PBGnssMeasurementsData_svId pbGnssMeasData);
    GnssMeasurementsData_svType := getGnssSvTypeFromPBGnssLocSvSystemEnumType (PBGnssMeasurementsData_svType pbGnssMeasData);
    GnssMeasurementsData_timeOffsetNs := PBGnssMeasurementsData_timeOffsetNs pbGnssMeasData;
    GnssMeasurementsData_stateMask := PBGnssMeasurementsData_stateMask pbGnssMeasData;
    GnssMeasurementsData_receivedSvTimeNs := PBGnssMeasurementsData_receivedSvTimeNs pbGnssMeasData;
    GnssMeasurementsData_receivedSvTimeUncertaintyNs := PBGnssMeasurementsData_receivedSvTimeUncertaintyNs pbGnssMeasData;
    GnssMeasurementsData_carrierToNoiseDbHz := PBGnssMeasurementsData_carrierToNoiseDbHz pbGnssMeasData;
    GnssMeasurementsData_pseudorangeRateMps := PBGnssMeasurementsData_pseudorangeRateMps pbGnssMeasData;
    GnssMeasurementsData_pseudorangeRateUncertaintyMps := PBGnssMeasurementsData_pseudorangeRateUncertaintyMps pbGnssMeasData;
    GnssMeasurementsData_adrStateMask := wrap 16 (getGnssMeasurementsAdrStateMaskFromPB (PBGnssMeasurementsData_adrStateMask pbGnssMeasData));
    GnssMeasurementsData_adrMeters := PBGnssMeasurementsData_adrMeters pbGnssMeasData;
    GnssMeasurementsData_adrUncertaintyMeters := PBGnssMeasurementsData_adrUncertaintyMeters pbGnssMeasData;
    GnssMeasurementsData_carrierFrequencyHz := PBGnssMeasurementsData_carrierFrequencyHz pbGnssMeasData;
    GnssMeasurementsData_carrierCycles := PBGnssMeasurementsData_carrierCycles pbGnssMeasData;
    GnssMeasurementsData_carrierPhase := PBGnssMeasurementsData_carrierPhase pbGnssMeasData;
    GnssMeasurementsData_carrierPhaseUncertainty := PBGnssMeasurementsData_carrierPhaseUncertainty pbGnssMeasData;
    GnssMeasurementsData_multipathIndicator := getEnumForPBGnssMeasMultipathIndic (PBGnssMeasurementsData_multipathIndicator pbGnssMeasData);
    GnssMeasurementsData_signalToNoiseRatioDb := PBGnssMeasurementsData_signalToNoiseRatioDb pbGnssMeasData;
    GnssMeasurementsData_agcLevelDb := PBGnssMeasurementsData_agcLevelDb pbGnssMeasData;
    GnssMeasurementsData_codeType := GnssMeasurementsData_codeType gnssMeasData;
    GnssMeasurementsData_otherCodeTypeName := GnssMeasurementsData_otherCodeTypeName gnssMeasData;
    GnssMeasurementsData_basebandCarrierToNoiseDbHz := PBGnssMeasurementsData_basebandCarrierToNoiseDbHz pbGnssMeasData;
    GnssMeasurementsData_gnssSignalType := getGnssSignalTypeMaskFromPB (PBGnssMeasurementsData_gnssSignalType pbGnssMeasData);
    GnssMeasurementsData_fullInterSignalBiasNs := PBGnssMeasurementsData_fullInterSignalBiasNs pbGnssMeasData;
    GnssMeasurementsData_fullInterSignalBiasUncertaintyNs := PBGnssMeasurementsData_fullInterSignalBiasUncertaintyNs pbGnssMeasData;
    GnssMeasurementsData_satelliteInterSignalBiasNs := GnssMeasurementsData_satelliteInterSignalBiasNs gnssMeasData;
    GnssMeasurementsData_satelliteInterSignalBiasUncertaintyNs := GnssMeasurementsData_satelliteInterSignalBiasUncertaintyNs gnssMeasData;
    GnssMeasurementsData_gloFrequency := GnssMeasurementsData_gloFrequency gnssMeasData;
    GnssMeasurementsData_cycleSlipCount := u8 (PBGnssMeasurementsData_cycleSlipCount pbGnssMeasData)
  |}.

Definition pbConvertToGnssMeasurementsClock (pbGnssMeasClock : PBGnssMeasurementsClock) (gnssMeasClock : GnssMeasurementsClock)
    : GnssMeasurementsClock :=
  {|
    GnssMeasurementsClock_flags := getGnssMeasurementsClockFlagsMaskFromPB (PBGnssMeasurementsClock_flags pbGnssMeasClock);
    GnssMeasurementsClock_leapSecond := swrap 16 (PBGnssMeasurementsClock_leapSecond pbGnssMeasClock);
    GnssMeasurementsClock_timeNs := PBGnssMeasurementsClock_timeNs pbGnssMeasClock;
    GnssMeasurementsClock_timeUncertaintyNs := PBGnssMeasurementsClock_timeUncertaintyNs pbGnssMeasClock;
    GnssMeasurementsClock_fullBiasNs := PBGnssMeasurementsClock_fullBiasNs pbGnssMeasClock;
    GnssMeasurementsClock_biasNs := PBGnssMeasurementsClock_biasNs pbGnssMeasClock;
    GnssMeasurementsClock_biasUncertaintyNs := PBGnssMeasurementsClock_biasUncertaintyNs pbGnssMeasClock;
    GnssMeasurementsClock_driftNsps := PBGnssMeasurementsClock_driftNsps pbGnssMeasClock;
    GnssMeasurementsClock_driftUncertaintyNsps := PBGnssMeasurementsClock_driftUncertaintyNsps pbGnssMeasClock;
    GnssMeasurementsClock_hwClockDiscontinuityCount := PBGnssMeasurementsClock_hwClockDiscontinuityCount pbGnssMeasClock;
    GnssMeasurementsClock_referenceSignalTypeForIsb := GnssMeasurementsClock_referenceSignalTypeForIsb gnssMeasClock;
    GnssMeasurementsClock_elapsedRealTime := GnssMeasurementsClock_elapsedRealTime gnssMeasClock;
    GnssMeasurementsClock_elapsedRealTimeUnc := GnssMeasurementsClock_elapsedRealTimeUnc gnssMeasClock
  |}.

Definition pbConvertToGnssMeasNotification (pbGnssMeasNotif : PBGnssMeasurementsNotification) (gnssMeasNotif : GnssMeasurementsNotification)
    : option GnssMeasurementsNotification :=
  measurements ← fill pbConvertToGnssMeasurementsData (PBGnssMeasurementsNotification_measurements pbGnssMeasNotif)
    (GnssMeasurementsNotification_measurements gnssMeasNotif);
  Some {|
    GnssMeasurementsNotification_count := Z.of_nat (length (PBGnssMeasurementsNotification_measurements pbGnssMeasNotif));
    GnssMeasurementsNotification_measurements := measurements;
    GnssMeasurementsNotification_clock := pbConvertToGnssMeasurementsClock (PBGnssMeasurementsNotification_clock pbGnssMeasNotif) (GnssMeasurementsNotification_clock gnssMeasNotif)
  |}.

Definition pbConvertToLeapSecChgInfo (pbLeapSecChgInfo : PBLeapSecondChangeInfo) (leapSecChgInfo : LeapSecondChangeInfo)
    : LeapSecondChangeInfo :=
  {|
    LeapSecondChangeInfo_gpsTimestampLsChange := pbConvertToGnssSystemTimeStructType (PBLeapSecondChangeInfo_gpsTimestampLsChange pbLeapSecChgInfo) (LeapSecondChangeInfo_gpsTimestampLsChange leapSecChgInfo);
    LeapSecondChangeInfo_leapSecondsBeforeChange := u8 (PBLeapSecondChangeInfo_leapSecondsBeforeChange pbLeapSecChgInfo);
    LeapSecondChangeInfo_leapSecondsAfterChange := u8 (PBLeapSecondChangeInfo_leapSecondsAfterChange pbLeapSecChgInfo)
  |}.

Definition pbConvertToLeapSecSysInfo (pbLeapSecSysInfo : PBLeapSecondSystemInfo) (leapSecSysInfo : LeapSecondSystemInfo)
    : LeapSecondSystemInfo :=
  {|
    LeapSecondSystemInfo_leapSecondInfoMask := getLeapSecSysInfoMaskFromPB (PBLeapSecondSystemInfo_leapSecondInfoMask pbLeapSecSysInfo);
    LeapSecondSystemInfo_leapSecondCurrent := u8 (PBLeapSecondSystemInfo_leapSecondCurrent pbLeapSecSysInfo);
    LeapSecondSystemInfo_leapSecondChangeInfo := pbConvertToLeapSecChgInfo (PBLeapSecondSystemInfo_leapSecondChangeInfo pbLeapSecSysInfo) (LeapSecondSystemInfo_leapSecondChangeInfo leapSecSysInfo)
  |}.

Definition pbConvertToLocationSystemInfo (pbLocSysInfo : PBLocationSystemInfo) (locSysInfo : LocationSystemInfo)
    : LocationSystemInfo :=
  {|
    LocationSystemInfo_systemInfoMask := getLocationSystemInfoMaskFromPB (PBLocationSystemInfo_systemInfoMask pbLocSysInfo);
    LocationSystemInfo_leapSecondSysInfo := pbConvertToLeapSecSysInfo (PBLocationSystemInfo_leapSecondSysInfo pbLocSysInfo) (LocationSystemInfo_leapSecondSysInfo locSysInfo)
  |}.

Definition pbConvertToLocationOptions (pbLocOpt : PBLocationOptions) (locOpt : LocationOptions)
    : LocationOptions :=
  {|
    LocationOptions_minInterval := PBLocationOptions_minInterval pbLocOpt;
    LocationOptions_minDistance := PBLocationOptions_minDistance pbLocOpt;
    LocationOptions_mode := getEnumForPBGnssSuplMode (PBLocationOptions_mode pbLocOpt);
    LocationOptions_locReqEngTypeMask := getLocReqEngineTypeMaskFromPB (PBLocationOptions_locReqEngTypeMask pbLocOpt)
  |}.

Definition pbConvertToGeofenceOption (pbGfOpt : PBGeofenceOption) (gfOpt : GeofenceOption)
    : GeofenceOption :=
  {|
    GeofenceOption_breachTypeMask := wrap 16 (getGfBreachTypeMaskFromPB (PBGeofenceOption_breachTypeMask pbGfOpt));
    GeofenceOption_responsiveness := PBGeofenceOption_responsiveness pbGfOpt;
    GeofenceOption_dwellTime := PBGeofenceOption_dwellTime pbGfOpt
  |}.

Definition pbConvertToGeofenceInfo (pbGfInfo : PBGeofenceInfo) (gfInfo : GeofenceInfo)
    : GeofenceInfo :=
  {|
    GeofenceInfo_latitude := PBGeofenceInfo_latitude pbGfInfo;
    GeofenceInfo_longitude := PBGeofenceInfo_longitude pbGfInfo;
    GeofenceInfo_radius := PBGeofenceInfo_radius pbGfInfo
  |}.

Definition pbConvertToGeofencePayload (pbGfPayload : PBGeofencePayload) (gfPayload : GeofencePayload) : GeofencePayload := {|
    GeofencePayload_gfClientId := PBGeofencePayload_gfClientId pbGfPayload;
    GeofencePayload_gfOption := pbConvertToGeofenceOption (PBGeofencePayload_gfOption pbGfPayload) (GeofencePayload_gfOption gfPayload);
    GeofencePayload_gfInfo := pbConvertToGeofenceInfo (PBGeofencePayload_gfInfo pbGfPayload) (GeofencePayload_gfInfo gfPayload)
  |}.

Definition pbConvertToGfAddReqPayload (pbGfAddReqPload : PBGeofencesAddedReqPayload) (gfAddReqPload : GeofencesAddedReqPayload)
    : option GeofencesAddedReqPayload :=
  gfPayload ← fill pbConvertToGeofencePayload (PBGeofencesAddedReqPayload_gfPayload pbGfAddReqPload) (GeofencesAddedReqPayload_gfPayload gfAddReqPload);
  Some {|
    GeofencesAddedReqPayload_count := Z.of_nat (length (PBGeofencesAddedReqPayload_gfPayload pbGfAddReqPload));
    GeofencesAddedReqPayload_gfPayload := gfPayload
  |}.

Definition pbConvertToGfReqClientIdPayload (pbGfReqClientIdPload : PBGeofencesReqClientIdPayload) (gfReqClientIdPload : GeofencesReqClientIdPayload)
    : option GeofencesReqClientIdPayload :=
  gfIds ← fill (fun i _ => i) (PBGeofencesReqClientIdPayload_gfIds pbGfReqClientIdPload) (GeofencesReqClientIdPayload_gfIds gfReqClientIdPload);
  Some {|
    GeofencesReqClientIdPayload_count := Z.of_nat (length (PBGeofencesReqClientIdPayload_gfIds pbGfReqClientIdPload));
    GeofencesReqClientIdPayload_gfIds := gfIds
  |}.

Definition pbConvertToGnssSvTypeConfig (pbGnssSvTypeConfig : PBGnssSvTypeConfig) (gnssSvTypeConfig : GnssSvTypeConfig)
    : GnssSvTypeConfig :=
  {|
    GnssSvTypeConfig_enabledSvTypesMask := getGnssSvTypesMaskFromPB (PBGnssSvTypeConfig_enabledSvTypesMask pbGnssSvTypeConfig);
    GnssSvTypeConfig_blacklistedSvTypesMask := getGnssSvTypesMaskFromPB (PBGnssSvTypeConfig_blacklistedSvTypesMask pbGnssSvTypeConfig)
  |}.

Definition pbConvertToGnssSvIdConfig (pbGnssSvIdConfig : PBGnssSvIdConfig) (gnssSvIdConfig : GnssSvIdConfig)
    : GnssSvIdConfig :=
  {|
    GnssSvIdConfig_gloBlacklistSvMask := PBGnssSvIdConfig_gloBlacklistSvMask pbGnssSvIdConfig;
    GnssSvIdConfig_bdsBlacklistSvMask := PBGnssSvIdConfig_bdsBlacklistSvMask pbGnssSvIdConfig;
    GnssSvIdConfig_qzssBlacklistSvMask := PBGnssSvIdConfig_qzssBlacklistSvMask pbGnssSvIdConfig;
    GnssSvIdConfig_galBlacklistSvMask := PBGnssSvIdConfig_galBlacklistSvMask pbGnssSvIdConfig;
    GnssSvIdConfig_sbasBlacklistSvMask := PBGnssSvIdConfig_sbasBlacklistSvMask pbGnssSvIdConfig;
    GnssSvIdConfig_navicBlacklistSvMask := PBGnssSvIdConfig_navicBlacklistSvMask pbGnssSvIdConfig
  |}.

Definition pbConvertToGnssAidingData (pbGnssAidData : PBAidingData) (gnssAidData : GnssAidingData)
    : GnssAidingData :=
  {|
    GnssAidingData_deleteAll := PBAidingData_deleteAll pbGnssAidData;
    GnssAidingData_sv := MkGnssAidingDataSv (getGnssAidingDataSvMaskFromPB (PBAidingData_gnssAidingDataSvMask pbGnssAidData))
      (GnssAidingDataSv_svTypeMask (GnssAidingData_sv gnssAidData));
    GnssAidingData_common := GnssAidingData_common gnssAidData;
    GnssAidingData_dreAidingDataMask := getDrEngineAidingDataMaskFromPB (PBAidingData_dreAidingDataMask pbGnssAidData);
    GnssAidingData_posEngineMask := getEnumForPBPositioningEngineMask (PBAidingData_posEngineMask pbGnssAidData)
  |}.

Definition pbConvertToLeverArmParams (pbLeverArmParams : PBLIALeverArmParams) (leverArmParams : LeverArmParams)
    : LeverArmParams :=
  {|
    LeverArmParams_forwardOffsetMeters := PBLIALeverArmParams_forwardOffsetMeters pbLeverArmParams;
    LeverArmParams_sidewaysOffsetMeters := PBLIALeverArmParams_sidewaysOffsetMeters pbLeverArmParams;
    LeverArmParams_upOffsetMeters := PBLIALeverArmParams_upOffsetMeters pbLeverArmParams
  |}.

Definition pbConvertToLeverArmConfigInfo (pbLeverArmCfgInfo : PBLIALeverArmConfigInfo) (leverArmCfgInfo : LeverArmConfigInfo)
    : LeverArmConfigInfo :=
  {|
    LeverArmConfigInfo_leverArmValidMask := getLeverArmTypeMaskFromPB (PBLIALeverArmConfigInfo_leverArmValidMask pbLeverArmCfgInfo);
    LeverArmConfigInfo_gnssToVRP := pbConvertToLeverArmParams (PBLIALeverArmConfigInfo_gnssToVRP pbLeverArmCfgInfo) (LeverArmConfigInfo_gnssToVRP leverArmCfgInfo);
    LeverArmConfigInfo_drImuToGnss := pbConvertToLeverArmParams (PBLIALeverArmConfigInfo_drImuToGnss pbLeverArmCfgInfo) (LeverArmConfigInfo_drImuToGnss leverArmCfgInfo);
    LeverArmConfigInfo_veppImuToGnss := pbConvertToLeverArmParams (PBLIALeverArmConfigInfo_veppImuToGnss pbLeverArmCfgInfo) (LeverArmConfigInfo_veppImuToGnss leverArmCfgInfo)
  |}.

Definition pbConvertToBodyToSensorMountParams (pbBody2SensorMntParam : PBLIABodyToSensorMountParams) (body2SensorMntParam : BodyToSensorMountParams)
    : BodyToSensorMountParams :=
  {|
    BodyToSensorMountParams_rollOffset := PBLIABodyToSensorMountParams_rollOffset pbBody2SensorMntParam;
    BodyToSensorMountParams_yawOffset := PBLIABodyToSensorMountParams_yawOffset pbBody2SensorMntParam;
    BodyToSensorMountParams_pitchOffset := PBLIABodyToSensorMountParams_pitchOffset pbBody2SensorMntParam;
    BodyToSensorMountParams_offsetUnc := PBLIABodyToSensorMountParams_offsetUnc pbBody2SensorMntParam
  |}.

Definition pbConvertToDeadReckoningEngineConfig (pbDrEngConfig : PBDeadReckoningEngineConfig) (drEngConfig : DeadReckoningEngineConfig)
    : DeadReckoningEngineConfig :=
  {|
    DeadReckoningEngineConfig_validMask := getDeadReckoningEngineConfigValidMaskFromPB (PBDeadReckoningEngineConfig_validMask pbDrEngConfig);
    DeadReckoningEngineConfig_bodyToSensorMountParams := pbConvertToBodyToSensorMountParams (PBDeadReckoningEngineConfig_bodyToSensorMountParams pbDrEngConfig) (DeadReckoningEngineConfig_bodyToSensorMountParams drEngConfig);
    DeadReckoningEngineConfig_vehicleSpeedScaleFactor := PBDeadReckoningEngineConfig_vehicleSpeedScaleFactor pbDrEngConfig;
    DeadReckoningEngineConfig_vehicleSpeedScaleFactorUnc := PBDeadReckoningEngineConfig_vehicleSpeedScaleFactorUnc pbDrEngConfig;
    DeadReckoningEngineConfig_gyroScaleFactor := PBDeadReckoningEngineConfig_gyroScaleFactor pbDrEngConfig;
    DeadReckoningEngineConfig_gyroScaleFactorUnc := PBDeadReckoningEngineConfig_gyroScaleFactorUnc pbDrEngConfig
  |}.

