(* ===== verification/PbMaskProps.v ===== *)
(** * Masks and enumerations survive the protocol

    The bits of a mask have other positions in a message than in the API; what is
    converted to a message and back are the bits that both know. *)
From Stdlib Require Import Btauto.
From S2P Require Import Prelude PbConsts PbMasks.
#[local] Open Scope Z_scope.

(** ** Masks: conversions are determined by what they do to single bits *)
Definition in_bits (bits : list (Z * Z)) : Z := foldr (fun ab m => Z.lor ab.1 m) 0 bits.

Lemma or_bits_acc m bits out : or_bits m bits out = Z.lor out (or_bits m bits 0).
Proof.
  unfold or_bits. revert out. induction bits as [|[a b] bits IH]; intros out; cbn [foldl fst snd]; [by rewrite Z.lor_0_r|].
  destruct (Z.land m a =? 0); [by rewrite IH|]. rewrite IH, (IH (Z.lor 0 b)). by rewrite Z.lor_assoc, Z.lor_0_l.
Qed.
Lemma or_bits_cons m a b bits : or_bits m ((a, b) :: bits) 0 = Z.lor (if Z.land m a =? 0 then 0 else b) (or_bits m bits 0).
Proof.
  change (or_bits m ((a, b) :: bits) 0) with (or_bits m bits (if Z.land m a =? 0 then 0 else Z.lor 0 b)).
  rewrite or_bits_acc. by destruct (_ =? 0).
Qed.

Lemma land_or_zero x y a : (Z.land (Z.lor x y) a =? 0) = (Z.land x a =? 0) && (Z.land y a =? 0).
Proof.
  rewrite Z.land_lor_distr_l. apply eq_bool_prop_intro. rewrite andb_True. rewrite !Is_true_true, !Z.eqb_eq. apply Z.lor_eq_0_iff.
Qed.
Lemma or_bits_lor x y bits : or_bits (Z.lor x y) bits 0 = Z.lor (or_bits x bits 0) (or_bits y bits 0).
Proof.
  induction bits as [|[a b] bits IH]; [done|]. rewrite !or_bits_cons, IH, land_or_zero. apply Z.bits_inj'. intros n _.
  destruct (Z.land x a =? 0), (Z.land y a =? 0); cbn [andb]; rewrite !Z.lor_spec, ?Z.testbit_0_l; btauto.
Qed.
Lemma or_bits_relevant m c bits : Z.land c (in_bits bits) = in_bits bits -> or_bits (Z.land m c) bits 0 = or_bits m bits 0.
Proof.
  induction bits as [|[a b] bits IH]; [done|]. cbn [in_bits foldr fst]. intros Hc.
  assert (Ha : Z.land c a = a /\ Z.land c (in_bits bits) = in_bits bits).
  { split; apply Z.bits_inj'; intros n _; apply (f_equal (fun z => Z.testbit z n)) in Hc; unfold in_bits in *;
      rewrite ?Z.land_spec, ?Z.lor_spec in *; destruct (Z.testbit c n), (Z.testbit a n), (Z.testbit (foldr _ 0 bits) n); done. }
  destruct Ha as [Ha Hb]. rewrite !or_bits_cons, (IH Hb). by rewrite <- Z.land_assoc, Ha.
Qed.

(** A function of masks that treats bits one by one, up to bit [w]. *)
Record bitwise (w : nat) (f : Z -> Z) : Prop := {
  bw_lor x y : f (Z.lor x y) = Z.lor (f x) (f y);
  bw_low m : f (Z.land m (Z.ones (Z.of_nat w))) = f m;
}.
Definition single_bits (w : nat) (f : Z -> Z) (kept : Z) : bool :=
  (f 0 =? 0) && forallb (fun p => f (Z.shiftl 1 (Z.of_nat p)) =? Z.land (Z.shiftl 1 (Z.of_nat p)) kept) (seq 0 w) &&
  (Z.land kept (Z.ones (Z.of_nat w)) =? kept).

Lemma low_bits_lor m w : 0 <= w ->
  Z.land m (Z.ones (Z.succ w)) = Z.lor (if Z.testbit m w then Z.shiftl 1 w else 0) (Z.land m (Z.ones w)).
Proof.
  intros Hw. apply Z.bits_inj'. intros n Hn. rewrite Z.lor_spec, !Z.land_spec, !Z.testbit_ones by lia.
  destruct (Z.eq_dec n w) as [->|Hne].
  - rewrite (proj2 (Z.ltb_lt w (Z.succ w))), Z.ltb_irrefl, (proj2 (Z.leb_le 0 w)) by lia. cbn [andb]. rewrite andb_false_r, orb_false_r, andb_true_r.
    destruct (Z.testbit m w); [|by rewrite Z.testbit_0_l]. rewrite Z.shiftl_spec, Z.sub_diag by lia. done.
  - assert ((n <? Z.succ w) = (n <? w)) as -> by (destruct (Z.ltb_spec n (Z.succ w)), (Z.ltb_spec n w); done || lia).
    assert (Z.testbit (if Z.testbit m w then Z.shiftl 1 w else 0) n = false) as ->; [|done].
    destruct (Z.testbit m w); [|by rewrite Z.testbit_0_l]. rewrite Z.shiftl_spec by lia.
    destruct (Z.lt_trichotomy n w) as [?|[?|?]]; [by rewrite Z.testbit_neg_r by lia|done|].
    change 1 with (2 ^ 0). by rewrite Z.pow2_bits_false by lia.
Qed.

Lemma single_bits_spec w f kept m : bitwise w f -> single_bits w f kept = true -> f m = Z.land m kept.
Proof.
  intros [Hl Hlow] [[H0 Hb]%andb_true_iff Hk]%andb_true_iff. apply Z.eqb_eq in H0, Hk. rewrite forallb_forall in Hb.
  assert (H : forall k, (k <= w)%nat -> f (Z.land m (Z.ones (Z.of_nat k))) = Z.land (Z.land m (Z.ones (Z.of_nat k))) kept).
  { induction k as [|k IH]; intros Hkw; [by rewrite Z.land_0_r, Z.land_0_l|].
    rewrite Nat2Z.inj_succ, low_bits_lor, Hl, Z.land_lor_distr_l, IH by lia. f_equal. destruct (Z.testbit m (Z.of_nat k)); [|by rewrite Z.land_0_l].
    apply Z.eqb_eq, Hb, in_seq. lia. }
  rewrite <- Hlow, H, <- Z.land_assoc, (Z.land_comm (Z.ones _)), Hk by lia. done.
Qed.

Lemma bitwise_or_bits w bits : Z.land (Z.ones (Z.of_nat w)) (in_bits bits) = in_bits bits -> bitwise w (fun m => or_bits m bits 0).
Proof. intros H. split; [intros; apply or_bits_lor|intros; by apply or_bits_relevant]. Qed.
Lemma bitwise_compose w f g : bitwise w f -> (forall x y, g (Z.lor x y) = Z.lor (g x) (g y)) -> bitwise w (fun m => g (f m)).
Proof. intros [Hl Hlow] Hg. split; [intros; by rewrite Hl, Hg|intros; by rewrite Hlow]. Qed.
Lemma bitwise_lor w f g : bitwise w f -> bitwise w g -> bitwise w (fun m => Z.lor (f m) (g m)).
Proof.
  intros [Hl Hlow] [Hl' Hlow']. split; [|intros; by rewrite Hlow, Hlow']. intros x y. rewrite Hl, Hl'.
  apply Z.bits_inj'. intros n _. rewrite !Z.lor_spec. btauto.
Qed.

(** ** Masks *)

(** What a mask keeps on the way to a message and back: the bits of the API that the
    protocol knows. *)
Definition kept_TerrestrialTechMask : Z := 0x1.
Definition kept_LocationCallbacksMask : Z := 0xfff.
Definition kept_LocationCapabilitiesMask : Z := 0x7fb063f.
Definition kept_PositioningEngineMask : Z := 0x7.
Definition kept_LeverArmTypeMask : Z := 0x7.
Definition kept_LocReqEngineTypeMask : Z := 0x7.
Definition kept_GnssCfgRobustLocValidMask : Z := 0x7.
Definition kept_LocSysInfoMask : Z := 0x1.
Definition kept_GnssDataMask : Z := 0x3.
Definition kept_GnssAidingDataSvMask : Z := 0x1.
Definition kept_LeapSecondSysInfoMask : Z := 0x3.
Definition kept_GnssSystemTimeStructTypeFlags : Z := 0x3f.
Definition kept_LocationFlagsMask : Z := 0xff.
Definition kept_LocationTechnologyMask : Z := 0x7ff.
Definition kept_GnssLocationNavSolutionMask : Z := 0x1ff.
Definition kept_DrCalibrationStatusMask : Z := 0x1f.
Definition kept_GnssMeasurementsDataFlagsMask : Z := 0x4fffff.
Definition kept_GnssMeasurementsAdrStateMask : Z := 0x7.
Definition kept_GnssMeasurementsClockFlagsMask : Z := 0x1ff.
Definition kept_GnssGloTimeStructTypeFlags : Z := 0x7f.
Definition kept_GnssSvOptionsMask : Z := 0x1f.
Definition kept_GnssSignalTypeMask : Z := 0x3fffff.
Definition kept_GeofenceBreachTypeMask : Z := 0xf.
Definition kept_DeadReckoningEngineConfigValidMask : Z := 0x1f.
Definition kept_DrEngineAidingDataMask : Z := 0x1.
Definition kept_DrSolutionStatusMask : Z := 0x3.

(** Sees the left-hand side as a function of [m]. *)
Ltac mask_pattern m :=
  match goal with |- ?l = Z.land m ?k =>
    let f := eval pattern m in l in match f with ?g m => apply (single_bits_spec 64 g) end end.
Ltac mask_roundtrip to from :=
  intros; apply (single_bits_spec 64 (fun m => from (to m)));
  [apply (bitwise_compose 64 to from); [apply (bitwise_or_bits 64); reflexivity | intros; apply or_bits_lor] | vm_compute; reflexivity].

Lemma TerrestrialTechMask_back m : getTerrestrialTechMaskFromPB (getPBMaskForTerrestrialTechMask m) = Z.land m kept_TerrestrialTechMask.
Proof. mask_roundtrip getPBMaskForTerrestrialTechMask getTerrestrialTechMaskFromPB. Qed.
Lemma LocationCallbacksMask_back m : getLocationCallbacksMaskFromPB (getPBMaskForLocationCallbacksMask m) = Z.land m kept_LocationCallbacksMask.
Proof. mask_roundtrip getPBMaskForLocationCallbacksMask getLocationCallbacksMaskFromPB. Qed.
Lemma LocationCapabilitiesMask_back m : getLocationCapabilitiesMaskFromPB (getPBMaskForLocationCapabilitiesMask m) = Z.land m kept_LocationCapabilitiesMask.
Proof. mask_roundtrip getPBMaskForLocationCapabilitiesMask getLocationCapabilitiesMaskFromPB. Qed.
Lemma PositioningEngineMask_back m : getEnumForPBPositioningEngineMask (getPBMaskForPositioningEngineMask m) = Z.land m kept_PositioningEngineMask.
Proof. mask_roundtrip getPBMaskForPositioningEngineMask getEnumForPBPositioningEngineMask. Qed.
Lemma LeverArmTypeMask_back m : getLeverArmTypeMaskFromPB (getPBMaskForLeverArmTypeMask m) = Z.land m kept_LeverArmTypeMask.
Proof. mask_roundtrip getPBMaskForLeverArmTypeMask getLeverArmTypeMaskFromPB. Qed.
Lemma LocReqEngineTypeMask_back m : getLocReqEngineTypeMaskFromPB (getPBMaskForLocReqEngineTypeMask m) = Z.land m kept_LocReqEngineTypeMask.
Proof. mask_roundtrip getPBMaskForLocReqEngineTypeMask getLocReqEngineTypeMaskFromPB. Qed.
Lemma GnssCfgRobustLocValidMask_back m : getGnssConfigRobustLocationValidMaskFromPB (getPBMaskForGnssCfgRobustLocValidMask m) = Z.land m kept_GnssCfgRobustLocValidMask.
Proof. mask_roundtrip getPBMaskForGnssCfgRobustLocValidMask getGnssConfigRobustLocationValidMaskFromPB. Qed.
Lemma LocSysInfoMask_back m : getLocationSystemInfoMaskFromPB (getPBMaskForLocSysInfoMask m) = Z.land m kept_LocSysInfoMask.
Proof. mask_roundtrip getPBMaskForLocSysInfoMask getLocationSystemInfoMaskFromPB. Qed.
Lemma GnssDataMask_back m : getGnssDataMaskFromPB (getPBMaskForGnssDataMask m) = Z.land m kept_GnssDataMask.
Proof. mask_roundtrip getPBMaskForGnssDataMask getGnssDataMaskFromPB. Qed.
Lemma GnssAidingDataSvMask_back m : getGnssAidingDataSvMaskFromPB (getPBMaskForGnssAidingDataSvMask m) = Z.land m kept_GnssAidingDataSvMask.
Proof. mask_roundtrip getPBMaskForGnssAidingDataSvMask getGnssAidingDataSvMaskFromPB. Qed.
Lemma LeapSecondSysInfoMask_back m : getLeapSecSysInfoMaskFromPB (getPBMaskForLeapSecondSysInfoMask m) = Z.land m kept_LeapSecondSysInfoMask.
Proof. mask_roundtrip getPBMaskForLeapSecondSysInfoMask getLeapSecSysInfoMaskFromPB. Qed.
Lemma GnssSystemTimeStructTypeFlags_back m : getGnssSystemTimeStructTypeFlagsFromPB (getPBMaskForGnssSystemTimeStructTypeFlags m) = Z.land m kept_GnssSystemTimeStructTypeFlags.
Proof. mask_roundtrip getPBMaskForGnssSystemTimeStructTypeFlags getGnssSystemTimeStructTypeFlagsFromPB. Qed.
Lemma LocationFlagsMask_back m : getLocationFlagsMaskFromPB (getPBMaskForLocationFlagsMask m) = Z.land m kept_LocationFlagsMask.
Proof. mask_roundtrip getPBMaskForLocationFlagsMask getLocationFlagsMaskFromPB. Qed.
Lemma LocationTechnologyMask_back m : getLocationTechnologyMaskFromPB (getPBMaskForLocationTechnologyMask m) = Z.land m kept_LocationTechnologyMask.
Proof. mask_roundtrip getPBMaskForLocationTechnologyMask getLocationTechnologyMaskFromPB. Qed.
Lemma GnssLocationNavSolutionMask_back m : getGnssLocationNavSolutionMaskFromPB (getPBMaskForGnssLocationNavSolutionMask m) = Z.land m kept_GnssLocationNavSolutionMask.
Proof. mask_roundtrip getPBMaskForGnssLocationNavSolutionMask getGnssLocationNavSolutionMaskFromPB. Qed.
Lemma DrCalibrationStatusMask_back m : getDrCalibrationStatusMaskFromPB (getPBMaskForDrCalibrationStatusMask m) = Z.land m kept_DrCalibrationStatusMask.
Proof. mask_roundtrip getPBMaskForDrCalibrationStatusMask getDrCalibrationStatusMaskFromPB. Qed.
Lemma GnssMeasurementsDataFlagsMask_back m : getGnssMeasurementsDataFlagsMaskFromPB (getPBMaskForGnssMeasurementsDataFlagsMask m) = Z.land m kept_GnssMeasurementsDataFlagsMask.
Proof. mask_roundtrip getPBMaskForGnssMeasurementsDataFlagsMask getGnssMeasurementsDataFlagsMaskFromPB. Qed.
Lemma GnssMeasurementsAdrStateMask_back m : getGnssMeasurementsAdrStateMaskFromPB (getPBMaskForGnssMeasurementsAdrStateMask m) = Z.land m kept_GnssMeasurementsAdrStateMask.
Proof. mask_roundtrip getPBMaskForGnssMeasurementsAdrStateMask getGnssMeasurementsAdrStateMaskFromPB. Qed.
Lemma GnssMeasurementsClockFlagsMask_back m : getGnssMeasurementsClockFlagsMaskFromPB (getPBMaskForGnssMeasurementsClockFlagsMask m) = Z.land m kept_GnssMeasurementsClockFlagsMask.
Proof. mask_roundtrip getPBMaskForGnssMeasurementsClockFlagsMask getGnssMeasurementsClockFlagsMaskFromPB. Qed.
Lemma GnssGloTimeStructTypeFlags_back m : getGnssGloTimeStructTypeFlagsFromPB (getPBMaskForGnssGloTimeStructTypeFlags m) = Z.land m kept_GnssGloTimeStructTypeFlags.
Proof. mask_roundtrip getPBMaskForGnssGloTimeStructTypeFlags getGnssGloTimeStructTypeFlagsFromPB. Qed.
Lemma GnssSvOptionsMask_back m : getGnssSvOptionsMaskFromPB (getPBMaskForGnssSvOptionsMask m) = Z.land m kept_GnssSvOptionsMask.
Proof. mask_roundtrip getPBMaskForGnssSvOptionsMask getGnssSvOptionsMaskFromPB. Qed.
Lemma GnssSignalTypeMask_back m : getGnssSignalTypeMaskFromPB (getPBMaskForGnssSignalTypeMask m) = Z.land m kept_GnssSignalTypeMask.
Proof. mask_roundtrip getPBMaskForGnssSignalTypeMask getGnssSignalTypeMaskFromPB. Qed.
Lemma GeofenceBreachTypeMask_back m : getGfBreachTypeMaskFromPB (getPBMaskForGeofenceBreachTypeMask m) = Z.land m kept_GeofenceBreachTypeMask.
Proof. mask_roundtrip getPBMaskForGeofenceBreachTypeMask getGfBreachTypeMaskFromPB. Qed.
Lemma DeadReckoningEngineConfigValidMask_back m : getDeadReckoningEngineConfigValidMaskFromPB (getPBMaskForDeadReckoningEngineConfigValidMask m) = Z.land m kept_DeadReckoningEngineConfigValidMask.
Proof. mask_roundtrip getPBMaskForDeadReckoningEngineConfigValidMask getDeadReckoningEngineConfigValidMaskFromPB. Qed.
Lemma DrEngineAidingDataMask_back m : getDrEngineAidingDataMaskFromPB (getPBMaskForDrEngineAidingDataMask m) = Z.land m kept_DrEngineAidingDataMask.
Proof. mask_roundtrip getPBMaskForDrEngineAidingDataMask getDrEngineAidingDataMaskFromPB. Qed.
Lemma DrSolutionStatusMask_back m : getDrSolutionStatusMaskFromPB (getPBMaskForDrSolutionStatusMask m) = Z.land m kept_DrSolutionStatusMask.
Proof. mask_roundtrip getPBMaskForDrSolutionStatusMask getDrSolutionStatusMaskFromPB. Qed.

(** A mask that one side copies as it is keeps the same bits, where both use the same numbers. *)
Ltac mask_copied f := intros; apply (single_bits_spec 64 f); [apply (bitwise_or_bits 64); reflexivity | vm_compute; reflexivity].
Lemma getGnssDataMaskFromPB_copied m : getGnssDataMaskFromPB m = Z.land m kept_GnssDataMask.
Proof. mask_copied getGnssDataMaskFromPB. Qed.
Lemma getGfBreachTypeMaskFromPB_copied m : getGfBreachTypeMaskFromPB m = Z.land m kept_GeofenceBreachTypeMask.
Proof. mask_copied getGfBreachTypeMaskFromPB. Qed.
Definition kept_GnssSvTypesMask : Z := 0x3f.
Lemma getGnssSvTypesMaskFromPB_copied m : getGnssSvTypesMaskFromPB m = Z.land m kept_GnssSvTypesMask.
Proof. mask_copied getGnssSvTypesMaskFromPB. Qed.
Definition kept_GnssMeasurementsStateMask : Z := 0x3fff.
Lemma getPBMaskForGnssMeasurementsStateMask_copied m : getPBMaskForGnssMeasurementsStateMask m = Z.land m kept_GnssMeasurementsStateMask.
Proof. mask_copied getPBMaskForGnssMeasurementsStateMask. Qed.

(** The flags of a location take two members of the message. *)
Definition kept_GnssLocationInfoFlagMask : Z := 0x3fffffbff.
Lemma GnssLocationInfoFlagMask_back m :
  getGnssLocationInfoFlagMaskFromPB (getPBMaskForGnssLocationInfoFlagMask m) (getPBMaskForGnssLocationInfoExtFlagMask m) =
  Z.land m kept_GnssLocationInfoFlagMask.
Proof.
  unfold getGnssLocationInfoFlagMaskFromPB. rewrite or_bits_acc. mask_pattern m; [|vm_compute; reflexivity].
  apply bitwise_lor; (eapply (bitwise_compose 64 _ (fun x => or_bits x _ 0)); [apply (bitwise_or_bits 64); reflexivity|]);
    intros; apply or_bits_lor.
Qed.

(** The validity bits of the body frame data come from two structures. *)
Definition kept_GnssLocationPosDataMask : Z := 0x3ff.
Definition kept_GnssLocationPosDataMaskExt : Z := 0xff.
Lemma GnssLocationPosDataMask_back m ext :
  getGnssLocationPosDataMaskFromPB (getPBMaskForGnssLocationPosDataMask m ext) = Z.land m kept_GnssLocationPosDataMask.
Proof.
  unfold getPBMaskForGnssLocationPosDataMask. rewrite or_bits_acc. unfold getGnssLocationPosDataMaskFromPB. rewrite or_bits_lor.
  match goal with |- Z.lor ?a ?b = _ => assert (b = Z.land ext 0) as -> end.
  - mask_pattern ext; [|vm_compute; reflexivity].
    eapply (bitwise_compose 64 _ (fun x => or_bits x _ 0)); [apply (bitwise_or_bits 64); reflexivity|]. intros; apply or_bits_lor.
  - rewrite Z.land_0_r, Z.lor_0_r. mask_pattern m; [|vm_compute; reflexivity].
    eapply (bitwise_compose 64 _ (fun x => or_bits x _ 0)); [apply (bitwise_or_bits 64); reflexivity|]. intros; apply or_bits_lor.
Qed.
Lemma GnssLocationPosDataMaskExt_back m ext :
  getGnssLocationPosDataMaskExtFromPB (getPBMaskForGnssLocationPosDataMask m ext) = Z.land ext kept_GnssLocationPosDataMaskExt.
Proof.
  unfold getPBMaskForGnssLocationPosDataMask. rewrite or_bits_acc. unfold getGnssLocationPosDataMaskExtFromPB. rewrite or_bits_lor.
  match goal with |- Z.lor ?a ?b = _ => assert (a = Z.land m 0) as -> end.
  - mask_pattern m; [|vm_compute; reflexivity].
    eapply (bitwise_compose 64 _ (fun x => or_bits x _ 0)); [apply (bitwise_or_bits 64); reflexivity|]. intros; apply or_bits_lor.
  - rewrite Z.land_0_r, Z.lor_0_l. mask_pattern ext; [|vm_compute; reflexivity].
    eapply (bitwise_compose 64 _ (fun x => or_bits x _ 0)); [apply (bitwise_or_bits 64); reflexivity|]. intros; apply or_bits_lor.
Qed.

(** ** Enumerations *)

(** A value that both sides know stays, any other becomes a default. *)
Definition known (values : list Z) (default x : Z) : Z := if existsb (Z.eqb x) values then x else default.

Definition switches_ok (there back : list (Z * Z)) (d1 d2 : Z) (values : list Z) (default : Z) : bool :=
  forallb (fun a => switch (switch a there d1) back d2 =? known values default a) (values ++ there.*1) && (switch d1 back d2 =? default).
Lemma switches_spec there back d1 d2 values default x : switches_ok there back d1 d2 values default = true ->
  switch (switch x there d1) back d2 = known values default x.
Proof.
  unfold switches_ok. intros [Hall Hd]%andb_true_iff. apply Z.eqb_eq in Hd. rewrite forallb_forall in Hall.
  destruct (existsb (Z.eqb x) (values ++ there.*1)) eqn:E.
  - apply existsb_exists in E as (y & Hy & ->%Z.eqb_eq). by apply Z.eqb_eq, Hall.
  - rewrite existsb_app in E. apply orb_false_iff in E as [Ev Et]. unfold known. rewrite Ev. rewrite <- Hd. f_equal.
    clear -Et. induction there as [|[a b] there IH]; [done|]. cbn [switch fmap list_fmap existsb fst] in *.
    apply orb_false_iff in Et as [-> Et]. auto.
Qed.

Definition known_ELocMsgID : Z -> Z := known
  [E_LOCAPI_UNDEFINED_MSG_ID;
   E_LOCAPI_CLIENT_REGISTER_MSG_ID;
   E_LOCAPI_CLIENT_DEREGISTER_MSG_ID;
   E_LOCAPI_CAPABILILTIES_MSG_ID;
   E_LOCAPI_HAL_READY_MSG_ID;
   E_LOCAPI_START_TRACKING_MSG_ID;
   E_LOCAPI_STOP_TRACKING_MSG_ID;
   E_LOCAPI_UPDATE_CALLBACKS_MSG_ID;
   E_LOCAPI_UPDATE_TRACKING_OPTIONS_MSG_ID;
   E_LOCAPI_CONTROL_UPDATE_CONFIG_MSG_ID;
   E_LOCAPI_CONTROL_DELETE_AIDING_DATA_MSG_ID;
   E_LOCAPI_CONTROL_UPDATE_NETWORK_AVAILABILITY_MSG_ID;
   E_LOCAPI_LOCATION_MSG_ID;
   E_LOCAPI_LOCATION_INFO_MSG_ID;
   E_LOCAPI_SATELLITE_VEHICLE_MSG_ID;
   E_LOCAPI_NMEA_MSG_ID;
   E_LOCAPI_DATA_MSG_ID;
   E_LOCAPI_GET_GNSS_ENGERY_CONSUMED_MSG_ID;
   E_LOCAPI_LOCATION_SYSTEM_INFO_MSG_ID;
   E_LOCAPI_ENGINE_LOCATIONS_INFO_MSG_ID;
   E_LOCAPI_START_BATCHING_MSG_ID;
   E_LOCAPI_STOP_BATCHING_MSG_ID;
   E_LOCAPI_UPDATE_BATCHING_OPTIONS_MSG_ID;
   E_LOCAPI_BATCHING_MSG_ID;
   E_LOCAPI_ADD_GEOFENCES_MSG_ID;
   E_LOCAPI_REMOVE_GEOFENCES_MSG_ID;
   E_LOCAPI_MODIFY_GEOFENCES_MSG_ID;
   E_LOCAPI_PAUSE_GEOFENCES_MSG_ID;
   E_LOCAPI_RESUME_GEOFENCES_MSG_ID;
   E_LOCAPI_GEOFENCE_BREACH_MSG_ID;
   E_LOCAPI_MEAS_MSG_ID;
   E_LOCAPI_GET_SINGLE_TERRESTRIAL_POS_REQ_MSG_ID;
   E_LOCAPI_GET_SINGLE_TERRESTRIAL_POS_RESP_MSG_ID;
   E_LOCAPI_PINGTEST_MSG_ID;
   E_INTAPI_CONFIG_CONSTRAINTED_TUNC_MSG_ID;
   E_INTAPI_CONFIG_POSITION_ASSISTED_CLOCK_ESTIMATOR_MSG_ID;
   E_INTAPI_CONFIG_SV_CONSTELLATION_MSG_ID;
   E_INTAPI_CONFIG_AIDING_DATA_DELETION_MSG_ID;
   E_INTAPI_CONFIG_LEVER_ARM_MSG_ID;
   E_INTAPI_CONFIG_ROBUST_LOCATION_MSG_ID;
   E_INTAPI_CONFIG_MIN_GPS_WEEK_MSG_ID;
   E_INTAPI_CONFIG_DEAD_RECKONING_ENGINE_MSG_ID;
   E_INTAPI_CONFIG_MIN_SV_ELEVATION_MSG_ID;
   E_INTAPI_CONFIG_CONSTELLATION_SECONDARY_BAND_MSG_ID;
   E_INTAPI_CONFIG_ENGINE_RUN_STATE_MSG_ID;
   E_INTAPI_CONFIG_USER_CONSENT_TERRESTRIAL_POSITIONING_MSG_ID;
   E_INTAPI_GET_ROBUST_LOCATION_CONFIG_REQ_MSG_ID;
   E_INTAPI_GET_ROBUST_LOCATION_CONFIG_RESP_MSG_ID;
   E_INTAPI_GET_MIN_GPS_WEEK_REQ_MSG_ID;
   E_INTAPI_GET_MIN_GPS_WEEK_RESP_MSG_ID;
   E_INTAPI_GET_MIN_SV_ELEVATION_REQ_MSG_ID;
   E_INTAPI_GET_MIN_SV_ELEVATION_RESP_MSG_ID;
   E_INTAPI_GET_CONSTELLATION_SECONDARY_BAND_CONFIG_REQ_MSG_ID;
   E_INTAPI_GET_CONSTELLATION_SECONDARY_BAND_CONFIG_RESP_MSG_ID] E_LOCAPI_UNDEFINED_MSG_ID.
Lemma ELocMsgID_back x : getEnumForPBELocMsgID (getPBEnumForELocMsgID x) = known_ELocMsgID x.
Proof. apply switches_spec. vm_compute. reflexivity. Qed.

Definition known_LocationError : Z -> Z := known
  [LOCATION_ERROR_SUCCESS;
   LOCATION_ERROR_GENERAL_FAILURE;
   LOCATION_ERROR_INVALID_PARAMETER;
   LOCATION_ERROR_NOT_SUPPORTED;
   LOCATION_ERROR_TIMEOUT] LOCATION_ERROR_GENERAL_FAILURE.
Lemma LocationError_back x : getEnumForPBLocationError (getPBEnumForLocationError x) = known_LocationError x.
Proof. apply switches_spec. vm_compute. reflexivity. Qed.

Definition known_ClientType : Z -> Z := known
  [LOCATION_CLIENT_API; LOCATION_INTEGRATION_API] LOCATION_INTEGRATION_API.
Lemma ClientType_back x : getEnumForPBClientType (getPBEnumForClientType x) = known_ClientType x.
Proof. apply switches_spec. vm_compute. reflexivity. Qed.

Definition known_BatchingMode : Z -> Z := known
  [BATCHING_MODE_ROUTINE; BATCHING_MODE_TRIP; BATCHING_MODE_NO_AUTO_REPORT] BATCHING_MODE_ROUTINE.
Lemma BatchingMode_back x : getEnumForPBBatchingMode (getPBEnumForBatchingMode x) = known_BatchingMode x.
Proof. apply switches_spec. vm_compute. reflexivity. Qed.

Definition known_GnssSuplMode : Z -> Z := known
  [GNSS_SUPL_MODE_STANDALONE; GNSS_SUPL_MODE_MSB; GNSS_SUPL_MODE_MSA] GNSS_SUPL_MODE_STANDALONE.
Lemma GnssSuplMode_back x : getEnumForPBGnssSuplMode (getPBEnumForGnssSuplMode x) = known_GnssSuplMode x.
Proof. apply switches_spec. vm_compute. reflexivity. Qed.

Definition known_BatchingStatus : Z -> Z := known
  [BATCHING_STATUS_TRIP_COMPLETED; BATCHING_STATUS_POSITION_AVAILABE; BATCHING_STATUS_POSITION_UNAVAILABLE] BATCHING_STATUS_POSITION_UNAVAILABLE.
Lemma BatchingStatus_back x : getEnumForPBBatchingStatus (getPBEnumForBatchingStatus x) = known_BatchingStatus x.
Proof. apply switches_spec. vm_compute. reflexivity. Qed.

Definition known_LocationReliability : Z -> Z := known
  [LOCATION_RELIABILITY_NOT_SET;
   LOCATION_RELIABILITY_VERY_LOW;
   LOCATION_RELIABILITY_LOW;
   LOCATION_RELIABILITY_MEDIUM;
   LOCATION_RELIABILITY_HIGH] LOCATION_RELIABILITY_NOT_SET.
Lemma LocationReliability_back x : getEnumForPBLocReliability (getPBEnumForLocationReliability x) = known_LocationReliability x.
Proof. apply switches_spec. vm_compute. reflexivity. Qed.

Definition known_LocOutputEngineType : Z -> Z := known
  [LOC_OUTPUT_ENGINE_FUSED; LOC_OUTPUT_ENGINE_SPE; LOC_OUTPUT_ENGINE_PPE] LOC_OUTPUT_ENGINE_FUSED.
Lemma LocOutputEngineType_back x : getEnumForPBLocOutputEngineType (getPBEnumForLocOutputEngineType x) = known_LocOutputEngineType x.
Proof. apply switches_spec. vm_compute. reflexivity. Qed.

Definition known_GnssMeasMultiPathIndic : Z -> Z := known
  [GNSS_MEASUREMENTS_MULTIPATH_INDICATOR_UNKNOWN;
   GNSS_MEASUREMENTS_MULTIPATH_INDICATOR_PRESENT;
   GNSS_MEASUREMENTS_MULTIPATH_INDICATOR_NOT_PRESENT] GNSS_MEASUREMENTS_MULTIPATH_INDICATOR_UNKNOWN.
Lemma GnssMeasMultiPathIndic_back x : getEnumForPBGnssMeasMultipathIndic (getPBEnumForGnssMeasMultiPathIndic x) = known_GnssMeasMultiPathIndic x.
Proof. apply switches_spec. vm_compute. reflexivity. Qed.

Definition known_GnssLocSvSystem : Z -> Z := known
  [GNSS_LOC_SV_SYSTEM_UNKNOWN;
   GNSS_LOC_SV_SYSTEM_GPS;
   GNSS_LOC_SV_SYSTEM_GALILEO;
   GNSS_LOC_SV_SYSTEM_SBAS;
   GNSS_LOC_SV_SYSTEM_GLONASS;
   GNSS_LOC_SV_SYSTEM_BDS;
   GNSS_LOC_SV_SYSTEM_QZSS;
   GNSS_LOC_SV_SYSTEM_NAVIC] GNSS_LOC_SV_SYSTEM_UNKNOWN.
Lemma GnssLocSvSystem_back x : getEnumForPBGnssLocSvSystem (getPBEnumForGnssLocSvSystem x) = known_GnssLocSvSystem x.
Proof. apply switches_spec. vm_compute. reflexivity. Qed.

Definition known_GnssLocSvSysEnumFromGnssSvType : Z -> Z := known
  [GNSS_SV_TYPE_UNKNOWN;
   GNSS_SV_TYPE_GPS;
   GNSS_SV_TYPE_SBAS;
   GNSS_SV_TYPE_GLONASS;
   GNSS_SV_TYPE_QZSS;
   GNSS_SV_TYPE_BEIDOU;
   GNSS_SV_TYPE_GALILEO;
   GNSS_SV_TYPE_NAVIC] GNSS_SV_TYPE_UNKNOWN.
Lemma GnssLocSvSysEnumFromGnssSvType_back x : getGnssSvTypeFromPBGnssLocSvSystemEnumType (getPBGnssLocSvSysEnumFromGnssSvType x) = known_GnssLocSvSysEnumFromGnssSvType x.
Proof. apply switches_spec. vm_compute. reflexivity. Qed.

Definition known_LocEngineRunState : Z -> Z := known
  [LOC_ENGINE_RUN_STATE_PAUSE; LOC_ENGINE_RUN_STATE_RESUME] 0.
Lemma LocEngineRunState_back x : getEnumForPBLocEngineRunState (getPBEnumForLocEngineRunState x) = known_LocEngineRunState x.
Proof. apply switches_spec. vm_compute. reflexivity. Qed.

Definition known_LocSessionStatus : Z -> Z := known
  [LOC_SESS_SUCCESS; LOC_SESS_INTERMEDIATE; LOC_SESS_FAILURE] LOC_SESS_FAILURE.
Lemma LocSessionStatus_back x : getLocSessionStatusFromPB (getPBEnumForLocSessionStatus x) = known_LocSessionStatus x.
Proof. apply switches_spec. vm_compute. reflexivity. Qed.

(** ** The automation of the structures *)
Create Rewrite HintDb pb_back.
#[export] Hint Rewrite TerrestrialTechMask_back LocationCallbacksMask_back LocationCapabilitiesMask_back PositioningEngineMask_back LeverArmTypeMask_back LocReqEngineTypeMask_back GnssCfgRobustLocValidMask_back LocSysInfoMask_back GnssDataMask_back GnssAidingDataSvMask_back LeapSecondSysInfoMask_back GnssSystemTimeStructTypeFlags_back LocationFlagsMask_back LocationTechnologyMask_back GnssLocationNavSolutionMask_back DrCalibrationStatusMask_back GnssMeasurementsDataFlagsMask_back GnssMeasurementsAdrStateMask_back GnssMeasurementsClockFlagsMask_back GnssGloTimeStructTypeFlags_back GnssSvOptionsMask_back GnssSignalTypeMask_back GeofenceBreachTypeMask_back DeadReckoningEngineConfigValidMask_back DrEngineAidingDataMask_back DrSolutionStatusMask_back ELocMsgID_back LocationError_back ClientType_back BatchingMode_back GnssSuplMode_back BatchingStatus_back LocationReliability_back LocOutputEngineType_back GnssMeasMultiPathIndic_back GnssLocSvSystem_back GnssLocSvSysEnumFromGnssSvType_back LocEngineRunState_back LocSessionStatus_back GnssLocationInfoFlagMask_back GnssLocationPosDataMask_back GnssLocationPosDataMaskExt_back getGnssDataMaskFromPB_copied getGfBreachTypeMaskFromPB_copied getGnssSvTypesMaskFromPB_copied getPBMaskForGnssMeasurementsStateMask_copied : pb_back.

(** ** All conversions *)
Definition mask_conversions : list ((Z -> Z) * (Z -> Z) * Z * Z) := [
  (getPBMaskForTerrestrialTechMask, getTerrestrialTechMaskFromPB, 0x1, 0x1);
  (getPBMaskForLocationCallbacksMask, getLocationCallbacksMaskFromPB, 0xfff, 0xfff);
  (getPBMaskForLocationCapabilitiesMask, getLocationCapabilitiesMaskFromPB, 0x7fb063f, 0x3ffff);
  (getPBMaskForPositioningEngineMask, getEnumForPBPositioningEngineMask, 0x7, 0x7);
  (getPBMaskForLeverArmTypeMask, getLeverArmTypeMaskFromPB, 0x7, 0x7);
  (getPBMaskForLocReqEngineTypeMask, getLocReqEngineTypeMaskFromPB, 0x7, 0x7);
  (getPBMaskForGnssCfgRobustLocValidMask, getGnssConfigRobustLocationValidMaskFromPB, 0x7, 0x7);
  (getPBMaskForLocSysInfoMask, getLocationSystemInfoMaskFromPB, 0x1, 0x1);
  (getPBMaskForGnssDataMask, getGnssDataMaskFromPB, 0x3, 0x3);
  (getPBMaskForGnssAidingDataSvMask, getGnssAidingDataSvMaskFromPB, 0x1, 0x1);
  (getPBMaskForLeapSecondSysInfoMask, getLeapSecSysInfoMaskFromPB, 0x3, 0x3);
  (getPBMaskForGnssSystemTimeStructTypeFlags, getGnssSystemTimeStructTypeFlagsFromPB, 0x3f, 0x3f);
  (getPBMaskForLocationFlagsMask, getLocationFlagsMaskFromPB, 0xff, 0xff);
  (getPBMaskForLocationTechnologyMask, getLocationTechnologyMaskFromPB, 0x7ff, 0x7ff);
  (getPBMaskForGnssLocationNavSolutionMask, getGnssLocationNavSolutionMaskFromPB, 0x1ff, 0x1ff);
  (getPBMaskForDrCalibrationStatusMask, getDrCalibrationStatusMaskFromPB, 0x1f, 0x1f);
  (getPBMaskForGnssMeasurementsDataFlagsMask, getGnssMeasurementsDataFlagsMaskFromPB, 0x4fffff, 0x1fffff);
  (getPBMaskForGnssMeasurementsAdrStateMask, getGnssMeasurementsAdrStateMaskFromPB, 0x7, 0x7);
  (getPBMaskForGnssMeasurementsClockFlagsMask, getGnssMeasurementsClockFlagsMaskFromPB, 0x1ff, 0x1ff);
  (getPBMaskForGnssGloTimeStructTypeFlags, getGnssGloTimeStructTypeFlagsFromPB, 0x7f, 0x7f);
  (getPBMaskForGnssSvOptionsMask, getGnssSvOptionsMaskFromPB, 0x1f, 0x1f);
  (getPBMaskForGnssSignalTypeMask, getGnssSignalTypeMaskFromPB, 0x3fffff, 0x3fffff);
  (getPBMaskForGeofenceBreachTypeMask, getGfBreachTypeMaskFromPB, 0xf, 0xf);
  (getPBMaskForDeadReckoningEngineConfigValidMask, getDeadReckoningEngineConfigValidMaskFromPB, 0x1f, 0x1f);
  (getPBMaskForDrEngineAidingDataMask, getDrEngineAidingDataMaskFromPB, 0x1, 0x1);
  (getPBMaskForDrSolutionStatusMask, getDrSolutionStatusMaskFromPB, 0x3, 0x3)
].
Definition enum_conversions : list ((Z -> Z) * (Z -> Z) * (Z -> Z)) := [
  (getPBEnumForELocMsgID, getEnumForPBELocMsgID, known_ELocMsgID);
  (getPBEnumForLocationError, getEnumForPBLocationError, known_LocationError);
  (getPBEnumForClientType, getEnumForPBClientType, known_ClientType);
  (getPBEnumForBatchingMode, getEnumForPBBatchingMode, known_BatchingMode);
  (getPBEnumForGnssSuplMode, getEnumForPBGnssSuplMode, known_GnssSuplMode);
  (getPBEnumForBatchingStatus, getEnumForPBBatchingStatus, known_BatchingStatus);
  (getPBEnumForLocationReliability, getEnumForPBLocReliability, known_LocationReliability);
  (getPBEnumForLocOutputEngineType, getEnumForPBLocOutputEngineType, known_LocOutputEngineType);
  (getPBEnumForGnssMeasMultiPathIndic, getEnumForPBGnssMeasMultipathIndic, known_GnssMeasMultiPathIndic);
  (getPBEnumForGnssLocSvSystem, getEnumForPBGnssLocSvSystem, known_GnssLocSvSystem);
  (getPBGnssLocSvSysEnumFromGnssSvType, getGnssSvTypeFromPBGnssLocSvSystemEnumType, known_GnssLocSvSysEnumFromGnssSvType);
  (getPBEnumForLocEngineRunState, getEnumForPBLocEngineRunState, known_LocEngineRunState);
  (getPBEnumForLocSessionStatus, getLocSessionStatusFromPB, known_LocSessionStatus)
].

(** C10. Masks and enumerations survive the way to a message and back, whatever the
    positions of the bits and the numbers of the values are on both sides: a mask
    keeps exactly the bits that both the API and the protocol define, in either
    direction; an enumeration keeps the values both define and any other value
    becomes the default.  The flags of a location and of the body frame, which are
    split over two members, keep theirs. *)
Theorem masks_roundtrip :
  (forall to from kept kept', (to, from, kept, kept') ∈ mask_conversions ->
    forall m, from (to m) = Z.land m kept /\ to (from m) = Z.land m kept') /\
  (forall to from known, (to, from, known) ∈ enum_conversions -> forall x, from (to x) = known x) /\
  (forall m, getGnssLocationInfoFlagMaskFromPB (getPBMaskForGnssLocationInfoFlagMask m) (getPBMaskForGnssLocationInfoExtFlagMask m) =
    Z.land m kept_GnssLocationInfoFlagMask) /\
  (forall m ext, getGnssLocationPosDataMaskFromPB (getPBMaskForGnssLocationPosDataMask m ext) = Z.land m kept_GnssLocationPosDataMask /\
    getGnssLocationPosDataMaskExtFromPB (getPBMaskForGnssLocationPosDataMask m ext) = Z.land ext kept_GnssLocationPosDataMaskExt).
Proof.
  split; [|split; [|split]].
  - intros to from kept kept' Hin m. unfold mask_conversions in Hin.
    repeat (apply elem_of_cons in Hin as [[= -> -> -> ->]|Hin];
      [split; match goal with |- ?from (?to m) = _ => mask_roundtrip to from end|]).
    by apply elem_of_nil in Hin.
  - intros to from known Hin x. unfold enum_conversions in Hin.
    repeat (apply elem_of_cons in Hin as [[= -> -> ->]|Hin]; [apply switches_spec; vm_compute; reflexivity|]).
    by apply elem_of_nil in Hin.
  - apply GnssLocationInfoFlagMask_back.
  - intros m ext. split; [apply GnssLocationPosDataMask_back|apply GnssLocationPosDataMaskExt_back].
Qed.

Lemma masks_roundtrip_witness :
  getLocationCapabilitiesMaskFromPB (getPBMaskForLocationCapabilitiesMask 0x207) = 0x207 /\
  getPBMaskForLocationCapabilitiesMask 0x200 = 0x20 /\ getEnumForPBLocationError (getPBEnumForLocationError 6) = 1.
Proof.
  destruct masks_roundtrip as (Hm & He & _). split; [|split; [reflexivity|]].
  - rewrite (proj1 (Hm getPBMaskForLocationCapabilitiesMask getLocationCapabilitiesMaskFromPB 0x7fb063f 0x3ffff
      ltac:(unfold mask_conversions; repeat constructor) 0x207)). reflexivity.
  - rewrite (He getPBEnumForLocationError getEnumForPBLocationError known_LocationError ltac:(unfold enum_conversions; repeat constructor) 6). reflexivity.
Defined.
