(* ===== verification/PbSpec.v ===== *)
(** * What a structure becomes on the other side of the protocol

    [delivered_X x y] is the structure that the receiver has, in memory that held
    [y], after a structure [x] went through its message: the members that the
    protocol carries, with the bits of masks and the values of enumerations that
    both sides know, and the members of [y] where the protocol carries nothing.
    [wf_X x] says that the members of [x] that are narrower than the fields of
    the message are in the range of their C types. *)
From S2P Require Import Prelude PbConsts PbMasks PbTypes PbConvTo PbConvFrom PbMaskProps.
#[local] Open Scope Z_scope.

Definition delivered_GnssSvTypeConfig (x y : GnssSvTypeConfig) : GnssSvTypeConfig := {|
    GnssSvTypeConfig_enabledSvTypesMask := Z.land (GnssSvTypeConfig_enabledSvTypesMask x) kept_GnssSvTypesMask;
    GnssSvTypeConfig_blacklistedSvTypesMask := Z.land (GnssSvTypeConfig_blacklistedSvTypesMask x) kept_GnssSvTypesMask
  |}.

Definition delivered_GnssSvIdConfig (x y : GnssSvIdConfig) : GnssSvIdConfig := {|
    GnssSvIdConfig_gloBlacklistSvMask := GnssSvIdConfig_gloBlacklistSvMask x;
    GnssSvIdConfig_bdsBlacklistSvMask := GnssSvIdConfig_bdsBlacklistSvMask x;
    GnssSvIdConfig_qzssBlacklistSvMask := GnssSvIdConfig_qzssBlacklistSvMask x;
    GnssSvIdConfig_galBlacklistSvMask := GnssSvIdConfig_galBlacklistSvMask x;
    GnssSvIdConfig_sbasBlacklistSvMask := GnssSvIdConfig_sbasBlacklistSvMask x;
    GnssSvIdConfig_navicBlacklistSvMask := GnssSvIdConfig_navicBlacklistSvMask x
  |}.

Definition delivered_LeverArmParams (x y : LeverArmParams) : LeverArmParams := {|
    LeverArmParams_forwardOffsetMeters := LeverArmParams_forwardOffsetMeters x;
    LeverArmParams_sidewaysOffsetMeters := LeverArmParams_sidewaysOffsetMeters x;
    LeverArmParams_upOffsetMeters := LeverArmParams_upOffsetMeters x
  |}.

Definition delivered_LeverArmConfigInfo (x y : LeverArmConfigInfo) : LeverArmConfigInfo := {|
    LeverArmConfigInfo_leverArmValidMask := Z.land (LeverArmConfigInfo_leverArmValidMask x) kept_LeverArmTypeMask;
    LeverArmConfigInfo_gnssToVRP := delivered_LeverArmParams (LeverArmConfigInfo_gnssToVRP x) (LeverArmConfigInfo_gnssToVRP y);
    LeverArmConfigInfo_drImuToGnss := delivered_LeverArmParams (LeverArmConfigInfo_drImuToGnss x) (LeverArmConfigInfo_drImuToGnss y);
    LeverArmConfigInfo_veppImuToGnss := delivered_LeverArmParams (LeverArmConfigInfo_veppImuToGnss x) (LeverArmConfigInfo_veppImuToGnss y)
  |}.

Definition delivered_BodyToSensorMountParams (x y : BodyToSensorMountParams) : BodyToSensorMountParams := {|
    BodyToSensorMountParams_rollOffset := BodyToSensorMountParams_rollOffset x;
    BodyToSensorMountParams_yawOffset := BodyToSensorMountParams_yawOffset x;
    BodyToSensorMountParams_pitchOffset := BodyToSensorMountParams_pitchOffset x;
    BodyToSensorMountParams_offsetUnc := BodyToSensorMountParams_offsetUnc x
  |}.

Definition delivered_DeadReckoningEngineConfig (x y : DeadReckoningEngineConfig) : DeadReckoningEngineConfig := {|
    DeadReckoningEngineConfig_validMask := Z.land (DeadReckoningEngineConfig_validMask x) kept_DeadReckoningEngineConfigValidMask;
    DeadReckoningEngineConfig_bodyToSensorMountParams := delivered_BodyToSensorMountParams (DeadReckoningEngineConfig_bodyToSensorMountParams x) (DeadReckoningEngineConfig_bodyToSensorMountParams y);
    DeadReckoningEngineConfig_vehicleSpeedScaleFactor := DeadReckoningEngineConfig_vehicleSpeedScaleFactor x;
    DeadReckoningEngineConfig_vehicleSpeedScaleFactorUnc := DeadReckoningEngineConfig_vehicleSpeedScaleFactorUnc x;
    DeadReckoningEngineConfig_gyroScaleFactor := DeadReckoningEngineConfig_gyroScaleFactor x;
    DeadReckoningEngineConfig_gyroScaleFactorUnc := DeadReckoningEngineConfig_gyroScaleFactorUnc x
  |}.

Definition delivered_LocationOptions (x y : LocationOptions) : LocationOptions := {|
    LocationOptions_minInterval := LocationOptions_minInterval x;
    LocationOptions_minDistance := LocationOptions_minDistance x;
    LocationOptions_mode := known_GnssSuplMode (LocationOptions_mode x);
    LocationOptions_locReqEngTypeMask := Z.land (LocationOptions_locReqEngTypeMask x) kept_LocReqEngineTypeMask
  |}.

Definition delivered_GeofenceOption (x y : GeofenceOption) : GeofenceOption := {|
    GeofenceOption_breachTypeMask := Z.land (GeofenceOption_breachTypeMask x) kept_GeofenceBreachTypeMask;
    GeofenceOption_responsiveness := GeofenceOption_responsiveness x;
    GeofenceOption_dwellTime := GeofenceOption_dwellTime x
  |}.

Definition delivered_GeofenceInfo (x y : GeofenceInfo) : GeofenceInfo := {|
    GeofenceInfo_latitude := GeofenceInfo_latitude x;
    GeofenceInfo_longitude := GeofenceInfo_longitude x;
    GeofenceInfo_radius := GeofenceInfo_radius x
  |}.

Definition delivered_GeofencePayload (x y : GeofencePayload) : GeofencePayload := {|
    GeofencePayload_gfClientId := GeofencePayload_gfClientId x;
    GeofencePayload_gfOption := delivered_GeofenceOption (GeofencePayload_gfOption x) (GeofencePayload_gfOption y);
    GeofencePayload_gfInfo := delivered_GeofenceInfo (GeofencePayload_gfInfo x) (GeofencePayload_gfInfo y)
  |}.

Definition delivered_GeofenceResponse (x y : GeofenceResponse) : GeofenceResponse := {|
    GeofenceResponse_clientId := GeofenceResponse_clientId x;
    GeofenceResponse_error := known_LocationError (GeofenceResponse_error x)
  |}.

Definition delivered_Location (x y : Location) : Location := {|
    Location_flags := Z.land (Location_flags x) kept_LocationFlagsMask;
    Location_timestamp := Location_timestamp x;
    Location_latitude := Location_latitude x;
    Location_longitude := Location_longitude x;
    Location_altitude := Location_altitude x;
    Location_speed := Location_speed x;
    Location_bearing := Location_bearing x;
    Location_accuracy := Location_accuracy x;
    Location_verticalAccuracy := Location_verticalAccuracy x;
    Location_speedAccuracy := Location_speedAccuracy x;
    Location_bearingAccuracy := Location_bearingAccuracy x;
    Location_conformityIndex := Location_conformityIndex y;
    Location_techMask := Z.land (Location_techMask x) kept_LocationTechnologyMask;
    Location_spoofMask := Location_spoofMask y;
    Location_elapsedRealTime := Location_elapsedRealTime y;
    Location_elapsedRealTimeUnc := Location_elapsedRealTimeUnc y
  |}.

Definition delivered_GnssLocationSvUsedInPosition (x y : GnssLocationSvUsedInPosition) : GnssLocationSvUsedInPosition := {|
    GnssLocationSvUsedInPosition_gpsSvUsedIdsMask := GnssLocationSvUsedInPosition_gpsSvUsedIdsMask x;
    GnssLocationSvUsedInPosition_gloSvUsedIdsMask := GnssLocationSvUsedInPosition_gloSvUsedIdsMask x;
    GnssLocationSvUsedInPosition_galSvUsedIdsMask := GnssLocationSvUsedInPosition_galSvUsedIdsMask x;
    GnssLocationSvUsedInPosition_bdsSvUsedIdsMask := GnssLocationSvUsedInPosition_bdsSvUsedIdsMask x;
    GnssLocationSvUsedInPosition_qzssSvUsedIdsMask := GnssLocationSvUsedInPosition_qzssSvUsedIdsMask x;
    GnssLocationSvUsedInPosition_navicSvUsedIdsMask := GnssLocationSvUsedInPosition_navicSvUsedIdsMask x
  |}.

Definition wf_GnssSystemTimeStructType (x : GnssSystemTimeStructType) : Prop :=
  0 <= GnssSystemTimeStructType_systemWeek x < 2 ^ 16.
Definition delivered_GnssSystemTimeStructType (x y : GnssSystemTimeStructType) : GnssSystemTimeStructType := {|
    GnssSystemTimeStructType_validityMask := Z.land (GnssSystemTimeStructType_validityMask x) kept_GnssSystemTimeStructTypeFlags;
    GnssSystemTimeStructType_systemWeek := GnssSystemTimeStructType_systemWeek x;
    GnssSystemTimeStructType_systemMsec := GnssSystemTimeStructType_systemMsec x;
    GnssSystemTimeStructType_systemClkTimeBias := GnssSystemTimeStructType_systemClkTimeBias x;
    GnssSystemTimeStructType_systemClkTimeUncMs := GnssSystemTimeStructType_systemClkTimeUncMs x;
    GnssSystemTimeStructType_refFCount := GnssSystemTimeStructType_refFCount x;
    GnssSystemTimeStructType_numClockResets := GnssSystemTimeStructType_numClockResets x
  |}.

Definition wf_GnssGloTimeStructType (x : GnssGloTimeStructType) : Prop :=
  0 <= GnssGloTimeStructType_gloDays x < 2 ^ 16 /\
  0 <= GnssGloTimeStructType_gloFourYear x < 2 ^ 8.
Definition delivered_GnssGloTimeStructType (x y : GnssGloTimeStructType) : GnssGloTimeStructType := {|
    GnssGloTimeStructType_gloDays := GnssGloTimeStructType_gloDays x;
    GnssGloTimeStructType_validityMask := Z.land (GnssGloTimeStructType_validityMask x) kept_GnssGloTimeStructTypeFlags;
    GnssGloTimeStructType_gloMsec := GnssGloTimeStructType_gloMsec x;
    GnssGloTimeStructType_gloClkTimeBias := GnssGloTimeStructType_gloClkTimeBias x;
    GnssGloTimeStructType_gloClkTimeUncMs := GnssGloTimeStructType_gloClkTimeUncMs x;
    GnssGloTimeStructType_refFCount := GnssGloTimeStructType_refFCount x;
    GnssGloTimeStructType_numClockResets := GnssGloTimeStructType_numClockResets x;
    GnssGloTimeStructType_gloFourYear := GnssGloTimeStructType_gloFourYear x
  |}.

Definition wf_GnssMeasUsageInfo (x : GnssMeasUsageInfo) : Prop :=
  0 <= GnssMeasUsageInfo_gnssSvId x < 2 ^ 16.
Definition delivered_GnssMeasUsageInfo (x y : GnssMeasUsageInfo) : GnssMeasUsageInfo := {|
    GnssMeasUsageInfo_gnssSignalType := Z.land (GnssMeasUsageInfo_gnssSignalType x) kept_GnssSignalTypeMask;
    GnssMeasUsageInfo_gnssConstellation := known_GnssLocSvSystem (GnssMeasUsageInfo_gnssConstellation x);
    GnssMeasUsageInfo_gnssSvId := GnssMeasUsageInfo_gnssSvId x
  |}.

Definition delivered_LLAInfo (x y : LLAInfo) : LLAInfo := {|
    LLAInfo_latitude := LLAInfo_latitude x;
    LLAInfo_longitude := LLAInfo_longitude x;
    LLAInfo_altitude := LLAInfo_altitude x
  |}.

Definition wf_LeapSecondChangeInfo (x : LeapSecondChangeInfo) : Prop :=
  wf_GnssSystemTimeStructType (LeapSecondChangeInfo_gpsTimestampLsChange x) /\
  0 <= LeapSecondChangeInfo_leapSecondsBeforeChange x < 2 ^ 8 /\
  0 <= LeapSecondChangeInfo_leapSecondsAfterChange x < 2 ^ 8.
Definition delivered_LeapSecondChangeInfo (x y : LeapSecondChangeInfo) : LeapSecondChangeInfo := {|
    LeapSecondChangeInfo_gpsTimestampLsChange := delivered_GnssSystemTimeStructType (LeapSecondChangeInfo_gpsTimestampLsChange x) (LeapSecondChangeInfo_gpsTimestampLsChange y);
    LeapSecondChangeInfo_leapSecondsBeforeChange := LeapSecondChangeInfo_leapSecondsBeforeChange x;
    LeapSecondChangeInfo_leapSecondsAfterChange := LeapSecondChangeInfo_leapSecondsAfterChange x
  |}.

Definition wf_LeapSecondSystemInfo (x : LeapSecondSystemInfo) : Prop :=
  0 <= LeapSecondSystemInfo_leapSecondCurrent x < 2 ^ 8 /\
  wf_LeapSecondChangeInfo (LeapSecondSystemInfo_leapSecondChangeInfo x).
Definition delivered_LeapSecondSystemInfo (x y : LeapSecondSystemInfo) : LeapSecondSystemInfo := {|
    LeapSecondSystemInfo_leapSecondInfoMask := Z.land (LeapSecondSystemInfo_leapSecondInfoMask x) kept_LeapSecondSysInfoMask;
    LeapSecondSystemInfo_leapSecondCurrent := LeapSecondSystemInfo_leapSecondCurrent x;
    LeapSecondSystemInfo_leapSecondChangeInfo := delivered_LeapSecondChangeInfo (LeapSecondSystemInfo_leapSecondChangeInfo x) (LeapSecondSystemInfo_leapSecondChangeInfo y)
  |}.

Definition wf_LocationSystemInfo (x : LocationSystemInfo) : Prop :=
  wf_LeapSecondSystemInfo (LocationSystemInfo_leapSecondSysInfo x).
Definition delivered_LocationSystemInfo (x y : LocationSystemInfo) : LocationSystemInfo := {|
    LocationSystemInfo_systemInfoMask := Z.land (LocationSystemInfo_systemInfoMask x) kept_LocSysInfoMask;
    LocationSystemInfo_leapSecondSysInfo := delivered_LeapSecondSystemInfo (LocationSystemInfo_leapSecondSysInfo x) (LocationSystemInfo_leapSecondSysInfo y)
  |}.

Definition wf_GnssMeasurementsData (x : GnssMeasurementsData) : Prop :=
  - 2 ^ 15 <= GnssMeasurementsData_svId x < 2 ^ 15 /\
  0 <= GnssMeasurementsData_cycleSlipCount x < 2 ^ 8.
Definition delivered_GnssMeasurementsData (x y : GnssMeasurementsData) : GnssMeasurementsData := {|
    GnssMeasurementsData_flags := Z.land (GnssMeasurementsData_flags x) kept_GnssMeasurementsDataFlagsMask;
    GnssMeasurementsData_svId := GnssMeasurementsData_svId x;
    GnssMeasurementsData_svType := known_GnssLocSvSysEnumFromGnssSvType (GnssMeasurementsData_svType x);
    GnssMeasurementsData_timeOffsetNs := GnssMeasurementsData_timeOffsetNs x;
    GnssMeasurementsData_stateMask := Z.land (GnssMeasurementsData_stateMask x) kept_GnssMeasurementsStateMask;
    GnssMeasurementsData_receivedSvTimeNs := GnssMeasurementsData_receivedSvTimeNs x;
    GnssMeasurementsData_receivedSvTimeUncertaintyNs := GnssMeasurementsData_receivedSvTimeUncertaintyNs x;
    GnssMeasurementsData_carrierToNoiseDbHz := GnssMeasurementsData_carrierToNoiseDbHz x;
    GnssMeasurementsData_pseudorangeRateMps := GnssMeasurementsData_pseudorangeRateMps x;
    GnssMeasurementsData_pseudorangeRateUncertaintyMps := GnssMeasurementsData_pseudorangeRateUncertaintyMps x;
    GnssMeasurementsData_adrStateMask := Z.land (GnssMeasurementsData_adrStateMask x) kept_GnssMeasurementsAdrStateMask;
    GnssMeasurementsData_adrMeters := GnssMeasurementsData_adrMeters x;
    GnssMeasurementsData_adrUncertaintyMeters := GnssMeasurementsData_adrUncertaintyMeters x;
    GnssMeasurementsData_carrierFrequencyHz := GnssMeasurementsData_carrierFrequencyHz x;
    GnssMeasurementsData_carrierCycles := GnssMeasurementsData_carrierCycles x;
    GnssMeasurementsData_carrierPhase := GnssMeasurementsData_carrierPhase x;
    GnssMeasurementsData_carrierPhaseUncertainty := GnssMeasurementsData_carrierPhaseUncertainty x;
    GnssMeasurementsData_multipathIndicator := known_GnssMeasMultiPathIndic (GnssMeasurementsData_multipathIndicator x);
    GnssMeasurementsData_signalToNoiseRatioDb := GnssMeasurementsData_signalToNoiseRatioDb x;
    GnssMeasurementsData_agcLevelDb := GnssMeasurementsData_agcLevelDb x;
    GnssMeasurementsData_codeType := GnssMeasurementsData_codeType y;
    GnssMeasurementsData_otherCodeTypeName := GnssMeasurementsData_otherCodeTypeName y;
    GnssMeasurementsData_basebandCarrierToNoiseDbHz := GnssMeasurementsData_basebandCarrierToNoiseDbHz x;
    GnssMeasurementsData_gnssSignalType := Z.land (GnssMeasurementsData_gnssSignalType x) kept_GnssSignalTypeMask;
    GnssMeasurementsData_fullInterSignalBiasNs := GnssMeasurementsData_fullInterSignalBiasNs x;
    GnssMeasurementsData_fullInterSignalBiasUncertaintyNs := GnssMeasurementsData_fullInterSignalBiasUncertaintyNs x;
    GnssMeasurementsData_satelliteInterSignalBiasNs := GnssMeasurementsData_satelliteInterSignalBiasNs y;
    GnssMeasurementsData_satelliteInterSignalBiasUncertaintyNs := GnssMeasurementsData_satelliteInterSignalBiasUncertaintyNs y;
    GnssMeasurementsData_gloFrequency := GnssMeasurementsData_gloFrequency y;
    GnssMeasurementsData_cycleSlipCount := GnssMeasurementsData_cycleSlipCount x
  |}.

Definition wf_GnssMeasurementsClock (x : GnssMeasurementsClock) : Prop :=
  - 2 ^ 15 <= GnssMeasurementsClock_leapSecond x < 2 ^ 15.
Definition delivered_GnssMeasurementsClock (x y : GnssMeasurementsClock) : GnssMeasurementsClock := {|
    GnssMeasurementsClock_flags := Z.land (GnssMeasurementsClock_flags x) kept_GnssMeasurementsClockFlagsMask;
    GnssMeasurementsClock_leapSecond := GnssMeasurementsClock_leapSecond x;
    GnssMeasurementsClock_timeNs := GnssMeasurementsClock_timeNs x;
    GnssMeasurementsClock_timeUncertaintyNs := GnssMeasurementsClock_timeUncertaintyNs x;
    GnssMeasurementsClock_fullBiasNs := GnssMeasurementsClock_fullBiasNs x;
    GnssMeasurementsClock_biasNs := GnssMeasurementsClock_biasNs x;
    GnssMeasurementsClock_biasUncertaintyNs := GnssMeasurementsClock_biasUncertaintyNs x;
    GnssMeasurementsClock_driftNsps := GnssMeasurementsClock_driftNsps x;
    GnssMeasurementsClock_driftUncertaintyNsps := GnssMeasurementsClock_driftUncertaintyNsps x;
    GnssMeasurementsClock_hwClockDiscontinuityCount := GnssMeasurementsClock_hwClockDiscontinuityCount x;
    GnssMeasurementsClock_referenceSignalTypeForIsb := GnssMeasurementsClock_referenceSignalTypeForIsb y;
    GnssMeasurementsClock_elapsedRealTime := GnssMeasurementsClock_elapsedRealTime y;
    GnssMeasurementsClock_elapsedRealTimeUnc := GnssMeasurementsClock_elapsedRealTimeUnc y
  |}.

Definition delivered_LocAPINmeaSerializedPayload (x y : LocAPINmeaSerializedPayload) : LocAPINmeaSerializedPayload := {|
    LocAPINmeaSerializedPayload_timestamp := LocAPINmeaSerializedPayload_timestamp x;
    LocAPINmeaSerializedPayload_nmea := LocAPINmeaSerializedPayload_nmea x
  |}.

Definition wf_GnssSv (x : GnssSv) : Prop :=
  0 <= GnssSv_svId x < 2 ^ 16 /\
  0 <= GnssSv_gloFrequency x < 2 ^ 16.
Definition delivered_GnssSv (x y : GnssSv) : GnssSv := {|
    GnssSv_svId := GnssSv_svId x;
    GnssSv_type := known_GnssLocSvSysEnumFromGnssSvType (GnssSv_type x);
    GnssSv_cN0Dbhz := GnssSv_cN0Dbhz x;
    GnssSv_elevation := GnssSv_elevation x;
    GnssSv_azimuth := GnssSv_azimuth x;
    GnssSv_gnssSvOptionsMask := Z.land (GnssSv_gnssSvOptionsMask x) kept_GnssSvOptionsMask;
    GnssSv_carrierFrequencyHz := GnssSv_carrierFrequencyHz x;
    GnssSv_gnssSignalTypeMask := Z.land (GnssSv_gnssSignalTypeMask x) kept_GnssSignalTypeMask;
    GnssSv_basebandCarrierToNoiseDbHz := GnssSv_basebandCarrierToNoiseDbHz x;
    GnssSv_gloFrequency := GnssSv_gloFrequency x
  |}.

Definition wf_GnssConfigRobustLocation (x : GnssConfigRobustLocation) : Prop :=
  0 <= GnssConfigRobustLocationVersion_major (GnssConfigRobustLocation_version x) < 2 ^ 8 /\
  0 <= GnssConfigRobustLocationVersion_minor (GnssConfigRobustLocation_version x) < 2 ^ 16.
Definition delivered_GnssConfigRobustLocation (x y : GnssConfigRobustLocation) : GnssConfigRobustLocation := {|
    GnssConfigRobustLocation_validMask := Z.land (GnssConfigRobustLocation_validMask x) kept_GnssCfgRobustLocValidMask;
    GnssConfigRobustLocation_enabled := GnssConfigRobustLocation_enabled x;
    GnssConfigRobustLocation_enabledForE911 := GnssConfigRobustLocation_enabledForE911 x;
    GnssConfigRobustLocation_version := MkGnssConfigRobustLocationVersion
      (GnssConfigRobustLocationVersion_major (GnssConfigRobustLocation_version x))
      (GnssConfigRobustLocationVersion_minor (GnssConfigRobustLocation_version x))
  |}.

Definition delivered_GnssAidingData (x y : GnssAidingData) : GnssAidingData := {|
    GnssAidingData_deleteAll := GnssAidingData_deleteAll x;
    GnssAidingData_sv := MkGnssAidingDataSv (Z.land (GnssAidingDataSv_svMask (GnssAidingData_sv x)) kept_GnssAidingDataSvMask)
      (GnssAidingDataSv_svTypeMask (GnssAidingData_sv y));
    GnssAidingData_common := GnssAidingData_common y;
    GnssAidingData_dreAidingDataMask := Z.land (GnssAidingData_dreAidingDataMask x) kept_DrEngineAidingDataMask;
    GnssAidingData_posEngineMask := Z.land (GnssAidingData_posEngineMask x) kept_PositioningEngineMask
  |}.

Definition delivered_GnssLocationPositionDynamics (x : GnssLocationPositionDynamics) : GnssLocationPositionDynamics := {|
    GnssLocationPositionDynamics_bodyFrameDataMask := Z.land (GnssLocationPositionDynamics_bodyFrameDataMask x) kept_GnssLocationPosDataMask;
    GnssLocationPositionDynamics_longAccel := GnssLocationPositionDynamics_longAccel x;
    GnssLocationPositionDynamics_latAccel := GnssLocationPositionDynamics_latAccel x;
    GnssLocationPositionDynamics_vertAccel := GnssLocationPositionDynamics_vertAccel x;
    GnssLocationPositionDynamics_yawRate := GnssLocationPositionDynamics_yawRate x;
    GnssLocationPositionDynamics_pitch := GnssLocationPositionDynamics_pitch x;
    GnssLocationPositionDynamics_longAccelUnc := GnssLocationPositionDynamics_longAccelUnc x;
    GnssLocationPositionDynamics_latAccelUnc := GnssLocationPositionDynamics_latAccelUnc x;
    GnssLocationPositionDynamics_vertAccelUnc := GnssLocationPositionDynamics_vertAccelUnc x;
    GnssLocationPositionDynamics_yawRateUnc := GnssLocationPositionDynamics_yawRateUnc x;
    GnssLocationPositionDynamics_pitchUnc := GnssLocationPositionDynamics_pitchUnc x
  |}.

Definition delivered_GnssLocationPositionDynamicsExt (x : GnssLocationPositionDynamicsExt) : GnssLocationPositionDynamicsExt := {|
    GnssLocationPositionDynamicsExt_bodyFrameDataMask := Z.land (GnssLocationPositionDynamicsExt_bodyFrameDataMask x) kept_GnssLocationPosDataMaskExt;
    GnssLocationPositionDynamicsExt_pitchRate := GnssLocationPositionDynamicsExt_pitchRate x;
    GnssLocationPositionDynamicsExt_pitchRateUnc := GnssLocationPositionDynamicsExt_pitchRateUnc x;
    GnssLocationPositionDynamicsExt_roll := GnssLocationPositionDynamicsExt_roll x;
    GnssLocationPositionDynamicsExt_rollUnc := GnssLocationPositionDynamicsExt_rollUnc x;
    GnssLocationPositionDynamicsExt_rollRate := GnssLocationPositionDynamicsExt_rollRate x;
    GnssLocationPositionDynamicsExt_rollRateUnc := GnssLocationPositionDynamicsExt_rollRateUnc x;
    GnssLocationPositionDynamicsExt_yaw := GnssLocationPositionDynamicsExt_yaw x;
    GnssLocationPositionDynamicsExt_yawUnc := GnssLocationPositionDynamicsExt_yawUnc x
  |}.

(** Which member of the union holds the time is told by its source; a time from another
    source is not sent, and leaves the receiver with the union it had. *)
Definition system_sources : list Z :=
  [GNSS_LOC_SV_SYSTEM_GPS; GNSS_LOC_SV_SYSTEM_GALILEO; GNSS_LOC_SV_SYSTEM_BDS; GNSS_LOC_SV_SYSTEM_QZSS; GNSS_LOC_SV_SYSTEM_NAVIC].
Definition wf_GnssSystemTime (x : GnssSystemTime) : Prop :=
  match GnssSystemTime_u x with
  | SystemTime t => GnssSystemTime_gnssSystemTimeSrc x <> GNSS_LOC_SV_SYSTEM_GLONASS /\
      (GnssSystemTime_gnssSystemTimeSrc x ∈ system_sources -> wf_GnssSystemTimeStructType t)
  | GloTime t => GnssSystemTime_gnssSystemTimeSrc x ∉ system_sources /\
      (GnssSystemTime_gnssSystemTimeSrc x = GNSS_LOC_SV_SYSTEM_GLONASS -> wf_GnssGloTimeStructType t)
  end.
Definition delivered_GnssSystemTime (x y : GnssSystemTime) : GnssSystemTime := {|
    GnssSystemTime_gnssSystemTimeSrc := known_GnssLocSvSystem (GnssSystemTime_gnssSystemTimeSrc x);
    GnssSystemTime_u :=
      if decide (GnssSystemTime_gnssSystemTimeSrc x ∈ GNSS_LOC_SV_SYSTEM_GLONASS :: system_sources) then
        match GnssSystemTime_u x with
        | SystemTime t => SystemTime (delivered_GnssSystemTimeStructType t unset_system_time)
        | GloTime t => GloTime (delivered_GnssGloTimeStructType t unset_glo_time)
        end
      else GnssSystemTime_u y
  |}.

(** ** Arrays *)
(** The first [n] elements arrive; what follows them in the array stays. *)
Definition delivered_array {A} (delivered : A -> A -> A) (n : Z) (xs ys : list A) : list A :=
  zip_with delivered (take (Z.to_nat n) xs) ys ++ drop (Z.to_nat n) ys.
(** [n] elements of [xs], each well-formed, fit the array [ys]. *)
Definition sendable {A} (wf : A -> Prop) (n : Z) (xs ys : list A) : Prop :=
  0 <= n /\ n <= Z.of_nat (length xs) /\ n <= Z.of_nat (length ys) /\ Forall wf (take (Z.to_nat n) xs).

Definition wf_GnssLocationInfoNotification (x y : GnssLocationInfoNotification) : Prop :=
  0 <= GnssLocationInfoNotification_numSvUsedInPosition x < 2 ^ 16 /\
  wf_GnssSystemTime (GnssLocationInfoNotification_gnssSystemTime x) /\
  GnssLocationInfoNotification_numOfMeasReceived x <= GNSS_SV_MAX /\
  sendable wf_GnssMeasUsageInfo (GnssLocationInfoNotification_numOfMeasReceived x) (GnssLocationInfoNotification_measUsageInfo x) (GnssLocationInfoNotification_measUsageInfo y) /\
  0 <= GnssLocationInfoNotification_leapSeconds x < 2 ^ 8 /\
  0 <= GnssLocationInfoNotification_calibrationConfidence x < 2 ^ 8 /\
  length (GnssLocationInfoNotification_enuVelocityVRPBased x) = 3%nat /\ length (GnssLocationInfoNotification_enuVelocityVRPBased y) = 3%nat.
Definition delivered_GnssLocationInfoNotification (x y : GnssLocationInfoNotification) : GnssLocationInfoNotification := {|
    GnssLocationInfoNotification_location := delivered_Location (GnssLocationInfoNotification_location x) (GnssLocationInfoNotification_location y);
    GnssLocationInfoNotification_flags := Z.land (GnssLocationInfoNotification_flags x) kept_GnssLocationInfoFlagMask;
    GnssLocationInfoNotification_altitudeMeanSeaLevel := GnssLocationInfoNotification_altitudeMeanSeaLevel x;
    GnssLocationInfoNotification_pdop := GnssLocationInfoNotification_pdop x;
    GnssLocationInfoNotification_hdop := GnssLocationInfoNotification_hdop x;
    GnssLocationInfoNotification_vdop := GnssLocationInfoNotification_vdop x;
    GnssLocationInfoNotification_gdop := GnssLocationInfoNotification_gdop x;
    GnssLocationInfoNotification_tdop := GnssLocationInfoNotification_tdop x;
    GnssLocationInfoNotification_magneticDeviation := GnssLocationInfoNotification_magneticDeviation x;
    GnssLocationInfoNotification_horReliability := known_LocationReliability (GnssLocationInfoNotification_horReliability x);
    GnssLocationInfoNotification_verReliability := known_LocationReliability (GnssLocationInfoNotification_verReliability x);
    GnssLocationInfoNotification_horUncEllipseSemiMajor := GnssLocationInfoNotification_horUncEllipseSemiMajor x;
    GnssLocationInfoNotification_horUncEllipseSemiMinor := GnssLocationInfoNotification_horUncEllipseSemiMinor x;
    GnssLocationInfoNotification_horUncEllipseOrientAzimuth := GnssLocationInfoNotification_horUncEllipseOrientAzimuth x;
    GnssLocationInfoNotification_northStdDeviation := GnssLocationInfoNotification_northStdDeviation x;
    GnssLocationInfoNotification_eastStdDeviation := GnssLocationInfoNotification_eastStdDeviation x;
    GnssLocationInfoNotification_northVelocity := GnssLocationInfoNotification_northVelocity x;
    GnssLocationInfoNotification_eastVelocity := GnssLocationInfoNotification_eastVelocity x;
    GnssLocationInfoNotification_upVelocity := GnssLocationInfoNotification_upVelocity x;
    GnssLocationInfoNotification_northVelocityStdDeviation := GnssLocationInfoNotification_northVelocityStdDeviation x;
    GnssLocationInfoNotification_eastVelocityStdDeviation := GnssLocationInfoNotification_eastVelocityStdDeviation x;
    GnssLocationInfoNotification_upVelocityStdDeviation := GnssLocationInfoNotification_upVelocityStdDeviation x;
    GnssLocationInfoNotification_numSvUsedInPosition := GnssLocationInfoNotification_numSvUsedInPosition x;
    GnssLocationInfoNotification_svUsedInPosition := delivered_GnssLocationSvUsedInPosition (GnssLocationInfoNotification_svUsedInPosition x) (GnssLocationInfoNotification_svUsedInPosition y);
    GnssLocationInfoNotification_navSolutionMask := Z.land (GnssLocationInfoNotification_navSolutionMask x) kept_GnssLocationNavSolutionMask;
    GnssLocationInfoNotification_bodyFrameData := delivered_GnssLocationPositionDynamics (GnssLocationInfoNotification_bodyFrameData x);
    GnssLocationInfoNotification_gnssSystemTime := delivered_GnssSystemTime (GnssLocationInfoNotification_gnssSystemTime x) (GnssLocationInfoNotification_gnssSystemTime y);
    GnssLocationInfoNotification_numOfMeasReceived := GnssLocationInfoNotification_numOfMeasReceived x;
    GnssLocationInfoNotification_measUsageInfo := delivered_array delivered_GnssMeasUsageInfo (GnssLocationInfoNotification_numOfMeasReceived x) (GnssLocationInfoNotification_measUsageInfo x) (GnssLocationInfoNotification_measUsageInfo y);
    GnssLocationInfoNotification_leapSeconds := GnssLocationInfoNotification_leapSeconds x;
    GnssLocationInfoNotification_timeUncMs := GnssLocationInfoNotification_timeUncMs x;
    GnssLocationInfoNotification_calibrationConfidence := GnssLocationInfoNotification_calibrationConfidence x;
    GnssLocationInfoNotification_calibrationStatus := Z.land (GnssLocationInfoNotification_calibrationStatus x) kept_DrCalibrationStatusMask;
    GnssLocationInfoNotification_locOutputEngType := known_LocOutputEngineType (GnssLocationInfoNotification_locOutputEngType x);
    GnssLocationInfoNotification_locOutputEngMask := Z.land (GnssLocationInfoNotification_locOutputEngMask x) kept_PositioningEngineMask;
    GnssLocationInfoNotification_conformityIndex := GnssLocationInfoNotification_conformityIndex x;
    GnssLocationInfoNotification_bodyFrameDataExt := delivered_GnssLocationPositionDynamicsExt (GnssLocationInfoNotification_bodyFrameDataExt x);
    GnssLocationInfoNotification_llaVRPBased := delivered_LLAInfo (GnssLocationInfoNotification_llaVRPBased x) (GnssLocationInfoNotification_llaVRPBased y);
    GnssLocationInfoNotification_enuVelocityVRPBased := GnssLocationInfoNotification_enuVelocityVRPBased x;
    GnssLocationInfoNotification_drSolutionStatusMask := Z.land (GnssLocationInfoNotification_drSolutionStatusMask x) kept_DrSolutionStatusMask;
    GnssLocationInfoNotification_altitudeAssumed := GnssLocationInfoNotification_altitudeAssumed x;
    GnssLocationInfoNotification_sessionStatus := known_LocSessionStatus (GnssLocationInfoNotification_sessionStatus x)
  |}.

Definition wf_GnssSvNotification (x y : GnssSvNotification) : Prop :=
  GnssSvNotification_count x <= GNSS_SV_MAX /\
  sendable wf_GnssSv (GnssSvNotification_count x) (GnssSvNotification_gnssSvs x) (GnssSvNotification_gnssSvs y).
Definition delivered_GnssSvNotification (x y : GnssSvNotification) : GnssSvNotification := {|
    GnssSvNotification_count := GnssSvNotification_count x;
    GnssSvNotification_gnssSvs := delivered_array delivered_GnssSv (GnssSvNotification_count x) (GnssSvNotification_gnssSvs x) (GnssSvNotification_gnssSvs y);
    GnssSvNotification_gnssSignalTypeMaskValid := GnssSvNotification_gnssSignalTypeMaskValid x
  |}.

Definition wf_GnssDataNotification (x y : GnssDataNotification) : Prop :=
  Forall (fun xs => length xs = Z.to_nat GNSS_LOC_MAX_NUMBER_OF_SIGNAL_TYPES)
    [GnssDataNotification_gnssDataMask x; GnssDataNotification_jammerInd x; GnssDataNotification_agc x;
     GnssDataNotification_gnssDataMask y; GnssDataNotification_jammerInd y; GnssDataNotification_agc y].
Definition delivered_GnssDataNotification (x y : GnssDataNotification) : GnssDataNotification := {|
    GnssDataNotification_gnssDataMask := (fun m => Z.land m kept_GnssDataMask) <$> GnssDataNotification_gnssDataMask x;
    GnssDataNotification_jammerInd := GnssDataNotification_jammerInd x;
    GnssDataNotification_agc := GnssDataNotification_agc x
  |}.

Definition wf_GnssMeasurementsNotification (x y : GnssMeasurementsNotification) : Prop :=
  sendable wf_GnssMeasurementsData (GnssMeasurementsNotification_count x) (GnssMeasurementsNotification_measurements x) (GnssMeasurementsNotification_measurements y) /\
  wf_GnssMeasurementsClock (GnssMeasurementsNotification_clock x).
Definition delivered_GnssMeasurementsNotification (x y : GnssMeasurementsNotification) : GnssMeasurementsNotification := {|
    GnssMeasurementsNotification_count := GnssMeasurementsNotification_count x;
    GnssMeasurementsNotification_measurements := delivered_array delivered_GnssMeasurementsData (GnssMeasurementsNotification_count x) (GnssMeasurementsNotification_measurements x) (GnssMeasurementsNotification_measurements y);
    GnssMeasurementsNotification_clock := delivered_GnssMeasurementsClock (GnssMeasurementsNotification_clock x) (GnssMeasurementsNotification_clock y)
  |}.

Definition wf_GeofencesAddedReqPayload (x y : GeofencesAddedReqPayload) : Prop :=
  sendable (fun _ => True) (GeofencesAddedReqPayload_count x) (GeofencesAddedReqPayload_gfPayload x) (GeofencesAddedReqPayload_gfPayload y).
Definition delivered_GeofencesAddedReqPayload (x y : GeofencesAddedReqPayload) : GeofencesAddedReqPayload := {|
    GeofencesAddedReqPayload_count := GeofencesAddedReqPayload_count x;
    GeofencesAddedReqPayload_gfPayload := delivered_array delivered_GeofencePayload (GeofencesAddedReqPayload_count x) (GeofencesAddedReqPayload_gfPayload x) (GeofencesAddedReqPayload_gfPayload y)
  |}.

Definition wf_GeofencesReqClientIdPayload (x y : GeofencesReqClientIdPayload) : Prop :=
  sendable (fun _ => True) (GeofencesReqClientIdPayload_count x) (GeofencesReqClientIdPayload_gfIds x) (GeofencesReqClientIdPayload_gfIds y).
Definition delivered_GeofencesReqClientIdPayload (x y : GeofencesReqClientIdPayload) : GeofencesReqClientIdPayload := {|
    GeofencesReqClientIdPayload_count := GeofencesReqClientIdPayload_count x;
    GeofencesReqClientIdPayload_gfIds := delivered_array (fun i _ => i) (GeofencesReqClientIdPayload_count x) (GeofencesReqClientIdPayload_gfIds x) (GeofencesReqClientIdPayload_gfIds y)
  |}.

Definition wf_CollectiveResPayload (x y : CollectiveResPayload) : Prop :=
  sendable (fun _ => True) (CollectiveResPayload_count x) (CollectiveResPayload_resp x) (CollectiveResPayload_resp y).
Definition delivered_CollectiveResPayload (x y : CollectiveResPayload) : CollectiveResPayload := {|
    CollectiveResPayload_count := CollectiveResPayload_count x;
    CollectiveResPayload_resp := delivered_array delivered_GeofenceResponse (CollectiveResPayload_count x) (CollectiveResPayload_resp x) (CollectiveResPayload_resp y)
  |}.

Definition wf_LocAPIBatchNotification (x y : LocAPIBatchNotification) : Prop :=
  sendable (fun _ => True) (LocAPIBatchNotification_count x) (LocAPIBatchNotification_location x) (LocAPIBatchNotification_location y).
Definition delivered_LocAPIBatchNotification (x y : LocAPIBatchNotification) : LocAPIBatchNotification := {|
    LocAPIBatchNotification_count := LocAPIBatchNotification_count x;
    LocAPIBatchNotification_location := delivered_array delivered_Location (LocAPIBatchNotification_count x) (LocAPIBatchNotification_location x) (LocAPIBatchNotification_location y);
    LocAPIBatchNotification_status := known_BatchingStatus (LocAPIBatchNotification_status x)
  |}.

(** Of a breach one identifier arrives, and not how many there were. *)
Definition wf_LocAPIGeofenceBreachNotification (x y : LocAPIGeofenceBreachNotification) : Prop :=
  1 <= LocAPIGeofenceBreachNotification_count x <= Z.of_nat (length (LocAPIGeofenceBreachNotification_id x)) /\
  LocAPIGeofenceBreachNotification_id y <> [].
Definition delivered_LocAPIGeofenceBreachNotification (x y : LocAPIGeofenceBreachNotification) : LocAPIGeofenceBreachNotification := {|
    LocAPIGeofenceBreachNotification_count := LocAPIGeofenceBreachNotification_count y;
    LocAPIGeofenceBreachNotification_timestamp := LocAPIGeofenceBreachNotification_timestamp x;
    LocAPIGeofenceBreachNotification_location := delivered_Location (LocAPIGeofenceBreachNotification_location x) (LocAPIGeofenceBreachNotification_location y);
    LocAPIGeofenceBreachNotification_type := Z.land (LocAPIGeofenceBreachNotification_type x) kept_GeofenceBreachTypeMask;
    LocAPIGeofenceBreachNotification_id := take 1 (LocAPIGeofenceBreachNotification_id x) ++ drop 1 (LocAPIGeofenceBreachNotification_id y)
  |}.
