(* ===== verification/PbProps.v ===== *)
(** * Structures survive the protocol

    For each structure: what the sender's conversion puts in a new message, the
    receiver's conversion makes of it what [PbSpec] promises. *)
From S2P Require Import Prelude PbConsts PbMasks PbTypes PbConvTo PbConvFrom PbMaskProps PbSpec.
#[local] Open Scope Z_scope.

(** ** Numbers *)
Lemma swrap_id w z : 0 < w -> - 2 ^ (w - 1) <= z < 2 ^ (w - 1) -> swrap w z = z.
Proof.
  intros Hw Hz. unfold swrap. replace (2 ^ w) with (2 * 2 ^ (w - 1)) by (rewrite <- Z.pow_succ_r by lia; f_equal; lia).
  rewrite Z.mod_small by lia. lia.
Qed.
Lemma wrap_land w m k : 0 <= w -> Z.land k (Z.ones w) = k -> wrap w (Z.land m k) = Z.land m k.
Proof. intros Hw Hk. unfold wrap. rewrite <- Z.land_ones, <- Z.land_assoc, Hk by done. done. Qed.

Lemma land_twice m k : Z.land (Z.land m k) k = Z.land m k.
Proof. by rewrite <- Z.land_assoc, Z.land_diag. Qed.
#[local] Hint Rewrite land_twice : pb_back.

(** ** Arrays *)
Lemma first_n_Some {A} n (xs l : list A) : first_n n xs = Some l -> (n <= length xs)%nat.
Proof. revert xs l. induction n as [|n IH]; intros [|x xs] l; cbn; try done; [lia..|]. intros (l' & Hl & _)%bind_Some. apply IH in Hl. lia. Qed.
Lemma first_n_take {A} n (xs : list A) : (n <= length xs)%nat -> first_n n xs = Some (take n xs).
Proof.
  revert xs. induction n as [|n IH]; intros [|x xs] Hn; try done; simpl in *; [lia|]. by rewrite IH by lia.
Qed.
Lemma fill_zip {A B} (f : A -> B -> B) xs ys : (length xs <= length ys)%nat ->
  fill f xs ys = Some (zip_with f xs ys ++ drop (length xs) ys).
Proof.
  revert ys. induction xs as [|x xs IH]; intros [|y ys] Hn; try done; simpl in *; [lia|]. by rewrite IH by lia.
Qed.
Lemma fill_overrun {A B} (f : A -> B -> B) xs ys : (length ys < length xs)%nat -> fill f xs ys = None.
Proof.
  revert ys. induction xs as [|x xs IH]; intros [|y ys] Hn; try done; simpl in *; [lia..|]. by rewrite IH by lia.
Qed.
Lemma fill_copy {A} (xs ys : list A) : length xs = length ys -> fill (fun x _ => x) xs ys = Some xs.
Proof.
  revert ys. induction xs as [|x xs IH]; intros [|y ys] Hn; try done; simpl in *. by rewrite IH by lia.
Qed.
Lemma fill_map {A B} (f : A -> B) xs (ys : list B) : length xs = length ys -> fill (fun x _ => f x) xs ys = Some (f <$> xs).
Proof.
  revert ys. induction xs as [|x xs IH]; intros [|y ys] Hn; try done; simpl in *. by rewrite IH by lia.
Qed.
(** What the sender appends for each element, the receiver converts back. *)
Lemma fill_delivered {A B} (wf : A -> Prop) (to : A -> B) (from : B -> A -> A) (delivered : A -> A -> A) n xs ys :
  (forall x y, wf x -> from (to x) y = delivered x y) -> sendable wf n xs ys ->
  fill from (to <$> take (Z.to_nat n) xs) ys = Some (delivered_array delivered n xs ys).
Proof.
  intros Hrt (Hn & Hx & Hy & Hwf). rewrite fill_zip, length_fmap, length_take_le by (rewrite ?length_fmap, ?length_take_le; lia).
  unfold delivered_array. do 2 f_equal. clear Hx Hy. revert ys Hwf. generalize (take (Z.to_nat n) xs) as zs.
  induction zs as [|z zs IH]; intros [|y ys] Hf; try done.
  apply Forall_cons in Hf as [Hz Hzs]. cbn. by rewrite Hrt, IH.
Qed.
Lemma sendable_first {A} (wf : A -> Prop) n xs ys : sendable wf n xs ys -> first_n (Z.to_nat n) xs = Some (take (Z.to_nat n) xs).
Proof. intros (Hn & Hx & _). apply first_n_take. lia. Qed.
Lemma sendable_length {A} (wf : A -> Prop) n xs ys : sendable wf n xs ys -> Z.of_nat (length (take (Z.to_nat n) xs)) = n.
Proof. intros (Hn & Hx & _). rewrite length_take_le; lia. Qed.

(** ** Structures *)
#[local] Opaque wrap swrap getEnumForPBELocMsgID getEnumForPBLocationError getEnumForPBClientType getEnumForPBBatchingMode getEnumForPBGnssSuplMode getEnumForPBBatchingStatus getEnumForPBGnssMeasMultipathIndic getEnumForPBLocReliability getEnumForPBGnssLocSvSystem getEnumForPBLocOutputEngineType getEnumForPBLocEngineRunState getPBEnumForLocEngineRunState getTerrestrialTechMaskFromPB getPBMaskForTerrestrialTechMask getGnssSvTypeFromPBGnssLocSvSystemEnumType getPBEnumForELocMsgID getPBEnumForClientType getPBEnumForBatchingMode getPBEnumForLocationError getPBEnumForGnssSuplMode getPBEnumForBatchingStatus getPBEnumForLocationReliability getPBEnumForLocOutputEngineType getPBEnumForGnssMeasMultiPathIndic getPBEnumForGnssLocSvSystem getPBGnssLocSvSysEnumFromGnssSvType getPBMaskForLocationCallbacksMask getPBMaskForLocationCapabilitiesMask getPBMaskForPositioningEngineMask getPBMaskForLeverArmTypeMask getPBMaskForLocReqEngineTypeMask getPBMaskForGnssCfgRobustLocValidMask getPBMaskForLocSysInfoMask getPBMaskForGnssDataMask getPBMaskForGnssAidingDataSvMask getPBMaskForLeapSecondSysInfoMask getPBMaskForGnssSystemTimeStructTypeFlags getPBMaskForLocationFlagsMask getPBMaskForLocationTechnologyMask getPBMaskForGnssLocationInfoFlagMask getPBMaskForGnssLocationInfoExtFlagMask getPBMaskForGnssLocationNavSolutionMask getPBMaskForDrCalibrationStatusMask getPBMaskForGnssMeasurementsDataFlagsMask getPBMaskForGnssMeasurementsStateMask getPBMaskForGnssMeasurementsAdrStateMask getPBMaskForGnssLocationPosDataMask getPBMaskForGnssMeasurementsClockFlagsMask getPBMaskForGnssGloTimeStructTypeFlags getPBMaskForGnssSvOptionsMask getPBMaskForGnssSignalTypeMask getPBMaskForGeofenceBreachTypeMask getPBMaskForDeadReckoningEngineConfigValidMask getPBMaskForDrEngineAidingDataMask getPBMaskForDrSolutionStatusMask getLocationCapabilitiesMaskFromPB getLocationCallbacksMaskFromPB getLeverArmTypeMaskFromPB getEnumForPBPositioningEngineMask getGnssSvTypesMaskFromPB getGnssAidingDataSvMaskFromPB getLocReqEngineTypeMaskFromPB getLocationSystemInfoMaskFromPB getGnssDataMaskFromPB getLeapSecSysInfoMaskFromPB getGnssSystemTimeStructTypeFlagsFromPB getGnssSignalTypeMaskFromPB getGnssSvOptionsMaskFromPB getGfBreachTypeMaskFromPB getLocationFlagsMaskFromPB getLocationTechnologyMaskFromPB getGnssMeasurementsClockFlagsMaskFromPB getGnssMeasurementsDataFlagsMaskFromPB getGnssMeasurementsAdrStateMaskFromPB getGnssLocationInfoFlagMaskFromPB getGnssLocationNavSolutionMaskFromPB getDrCalibrationStatusMaskFromPB getGnssLocationPosDataMaskFromPB getGnssLocationPosDataMaskExtFromPB getGnssGloTimeStructTypeFlagsFromPB getGnssConfigRobustLocationValidMaskFromPB getDeadReckoningEngineConfigValidMaskFromPB getDrEngineAidingDataMaskFromPB getDrSolutionStatusMaskFromPB getPBEnumForLocSessionStatus getLocSessionStatusFromPB.

(** Unfolds the two conversions, reads back the message field by field, and
    uses the lemmas on masks and nested structures of [pb_back]. *)
Ltac in_range := first [assumption | lia | apply wrap_land; [lia | reflexivity] | done].
Ltac read_back := repeat (progress autorewrite with pb_back);
  repeat first [rewrite wrap_land by first [lia | reflexivity] | rewrite wrap_id by lia | rewrite swrap_id by lia].
Ltac roundtrip_of to from delivered wf :=
  intros; try (match goal with H : _ |- _ => progress unfold wf in H; destruct_and? H end);
  unfold to, from, delivered; cbn; read_back; reflexivity.

Lemma GnssSvTypeConfig_roundtrip x y : pbConvertToGnssSvTypeConfig (convertGnssSvTypeConfigToPB x default_PBGnssSvTypeConfig) y = delivered_GnssSvTypeConfig x y.
Proof. roundtrip_of convertGnssSvTypeConfigToPB pbConvertToGnssSvTypeConfig delivered_GnssSvTypeConfig tt. Qed.
#[local] Hint Rewrite GnssSvTypeConfig_roundtrip using in_range : pb_back.
Lemma GnssSvIdConfig_roundtrip x y : pbConvertToGnssSvIdConfig (convertGnssSvIdConfigToPB x default_PBGnssSvIdConfig) y = delivered_GnssSvIdConfig x y.
Proof. roundtrip_of convertGnssSvIdConfigToPB pbConvertToGnssSvIdConfig delivered_GnssSvIdConfig tt. Qed.
#[local] Hint Rewrite GnssSvIdConfig_roundtrip using in_range : pb_back.
Lemma LeverArmParams_roundtrip x y : pbConvertToLeverArmParams (convertLeverArmParamsToPB x default_PBLIALeverArmParams) y = delivered_LeverArmParams x y.
Proof. roundtrip_of convertLeverArmParamsToPB pbConvertToLeverArmParams delivered_LeverArmParams tt. Qed.
#[local] Hint Rewrite LeverArmParams_roundtrip using in_range : pb_back.
Lemma LeverArmConfigInfo_roundtrip x y : pbConvertToLeverArmConfigInfo (convertLeverArmConfigInfoToPB x default_PBLIALeverArmConfigInfo) y = delivered_LeverArmConfigInfo x y.
Proof. roundtrip_of convertLeverArmConfigInfoToPB pbConvertToLeverArmConfigInfo delivered_LeverArmConfigInfo tt. Qed.
#[local] Hint Rewrite LeverArmConfigInfo_roundtrip using in_range : pb_back.
Lemma BodyToSensorMountParams_roundtrip x y : pbConvertToBodyToSensorMountParams (convertBodyToSensorMountParamsToPB x default_PBLIABodyToSensorMountParams) y = delivered_BodyToSensorMountParams x y.
Proof. roundtrip_of convertBodyToSensorMountParamsToPB pbConvertToBodyToSensorMountParams delivered_BodyToSensorMountParams tt. Qed.
#[local] Hint Rewrite BodyToSensorMountParams_roundtrip using in_range : pb_back.
Lemma DeadReckoningEngineConfig_roundtrip x y : pbConvertToDeadReckoningEngineConfig (convertDeadReckoningEngineConfigToPB x default_PBDeadReckoningEngineConfig) y = delivered_DeadReckoningEngineConfig x y.
Proof. roundtrip_of convertDeadReckoningEngineConfigToPB pbConvertToDeadReckoningEngineConfig delivered_DeadReckoningEngineConfig tt. Qed.
#[local] Hint Rewrite DeadReckoningEngineConfig_roundtrip using in_range : pb_back.
Lemma LocationOptions_roundtrip x y : pbConvertToLocationOptions (convertLocationOptionsToPB x default_PBLocationOptions) y = delivered_LocationOptions x y.
Proof. roundtrip_of convertLocationOptionsToPB pbConvertToLocationOptions delivered_LocationOptions tt. Qed.
#[local] Hint Rewrite LocationOptions_roundtrip using in_range : pb_back.
Lemma GeofenceOption_roundtrip x y : pbConvertToGeofenceOption (convertGeofenceOptionToPB x default_PBGeofenceOption) y = delivered_GeofenceOption x y.
Proof. roundtrip_of convertGeofenceOptionToPB pbConvertToGeofenceOption delivered_GeofenceOption tt. Qed.
#[local] Hint Rewrite GeofenceOption_roundtrip using in_range : pb_back.
Lemma GeofenceInfo_roundtrip x y : pbConvertToGeofenceInfo (convertGeofenceInfoToPB x default_PBGeofenceInfo) y = delivered_GeofenceInfo x y.
Proof. roundtrip_of convertGeofenceInfoToPB pbConvertToGeofenceInfo delivered_GeofenceInfo tt. Qed.
#[local] Hint Rewrite GeofenceInfo_roundtrip using in_range : pb_back.
Lemma GeofencePayload_roundtrip x y : pbConvertToGeofencePayload (convertGeofencePayloadToPB x) y = delivered_GeofencePayload x y.
Proof. roundtrip_of convertGeofencePayloadToPB pbConvertToGeofencePayload delivered_GeofencePayload tt. Qed.
#[local] Hint Rewrite GeofencePayload_roundtrip using in_range : pb_back.
Lemma GeofenceResponse_roundtrip x y : pbConvertToGeofenceResponse (convertGeofenceResponseToPB x) y = delivered_GeofenceResponse x y.
Proof. roundtrip_of convertGeofenceResponseToPB pbConvertToGeofenceResponse delivered_GeofenceResponse tt. Qed.
#[local] Hint Rewrite GeofenceResponse_roundtrip using in_range : pb_back.
Lemma Location_roundtrip x y : pbConvertToLocation (convertLocationToPB x default_PBLocation) y = delivered_Location x y.
Proof. roundtrip_of convertLocationToPB pbConvertToLocation delivered_Location tt. Qed.
#[local] Hint Rewrite Location_roundtrip using in_range : pb_back.
Lemma GnssLocationSvUsedInPosition_roundtrip x y : pbConvertToGnssLocationSvUsedInPosition (convertGnssLocSvUsedInPosToPB x default_PBGnssLocationSvUsedInPosition) y = delivered_GnssLocationSvUsedInPosition x y.
Proof. roundtrip_of convertGnssLocSvUsedInPosToPB pbConvertToGnssLocationSvUsedInPosition delivered_GnssLocationSvUsedInPosition tt. Qed.
#[local] Hint Rewrite GnssLocationSvUsedInPosition_roundtrip using in_range : pb_back.
Lemma GnssSystemTimeStructType_roundtrip x y : wf_GnssSystemTimeStructType x -> pbConvertToGnssSystemTimeStructType (convertGnssSystemTimeStructTypeToPB x default_PBLocApiGnssSystemTimeStructType) y = delivered_GnssSystemTimeStructType x y.
Proof. roundtrip_of convertGnssSystemTimeStructTypeToPB pbConvertToGnssSystemTimeStructType delivered_GnssSystemTimeStructType wf_GnssSystemTimeStructType. Qed.
#[local] Hint Rewrite GnssSystemTimeStructType_roundtrip using in_range : pb_back.
Lemma GnssGloTimeStructType_roundtrip x y : wf_GnssGloTimeStructType x -> pbConvertToGnssGloTimeStructType (convertGnssGloTimeStructTypeToPB x default_PBLocApiGnssGloTimeStructType) y = delivered_GnssGloTimeStructType x y.
Proof. roundtrip_of convertGnssGloTimeStructTypeToPB pbConvertToGnssGloTimeStructType delivered_GnssGloTimeStructType wf_GnssGloTimeStructType. Qed.
#[local] Hint Rewrite GnssGloTimeStructType_roundtrip using in_range : pb_back.
Lemma GnssMeasUsageInfo_roundtrip x y : wf_GnssMeasUsageInfo x -> pbConvertToGnssMeasUsageInfo (convertGnssMeasUsageInfoToPB x default_PBGnssMeasUsageInfo) y = delivered_GnssMeasUsageInfo x y.
Proof. roundtrip_of convertGnssMeasUsageInfoToPB pbConvertToGnssMeasUsageInfo delivered_GnssMeasUsageInfo wf_GnssMeasUsageInfo. Qed.
#[local] Hint Rewrite GnssMeasUsageInfo_roundtrip using in_range : pb_back.
Lemma LLAInfo_roundtrip x y : pbConvertToLLAInfo (convertLLAInfoToPB x default_PBLLAInfo) y = delivered_LLAInfo x y.
Proof. roundtrip_of convertLLAInfoToPB pbConvertToLLAInfo delivered_LLAInfo tt. Qed.
#[local] Hint Rewrite LLAInfo_roundtrip using in_range : pb_back.
Lemma LeapSecondChangeInfo_roundtrip x y : wf_LeapSecondChangeInfo x -> pbConvertToLeapSecChgInfo (convertLeapSecChgInfoToPB x default_PBLeapSecondChangeInfo) y = delivered_LeapSecondChangeInfo x y.
Proof. roundtrip_of convertLeapSecChgInfoToPB pbConvertToLeapSecChgInfo delivered_LeapSecondChangeInfo wf_LeapSecondChangeInfo. Qed.
#[local] Hint Rewrite LeapSecondChangeInfo_roundtrip using in_range : pb_back.
Lemma LeapSecondSystemInfo_roundtrip x y : wf_LeapSecondSystemInfo x -> pbConvertToLeapSecSysInfo (convertLeapSecondSystemInfoToPB x default_PBLeapSecondSystemInfo) y = delivered_LeapSecondSystemInfo x y.
Proof. roundtrip_of convertLeapSecondSystemInfoToPB pbConvertToLeapSecSysInfo delivered_LeapSecondSystemInfo wf_LeapSecondSystemInfo. Qed.
#[local] Hint Rewrite LeapSecondSystemInfo_roundtrip using in_range : pb_back.
Lemma LocationSystemInfo_roundtrip x y : wf_LocationSystemInfo x -> pbConvertToLocationSystemInfo (convertLocSysInfoToPB x default_PBLocationSystemInfo) y = delivered_LocationSystemInfo x y.
Proof. roundtrip_of convertLocSysInfoToPB pbConvertToLocationSystemInfo delivered_LocationSystemInfo wf_LocationSystemInfo. Qed.
#[local] Hint Rewrite LocationSystemInfo_roundtrip using in_range : pb_back.
Lemma GnssMeasurementsData_roundtrip x y : wf_GnssMeasurementsData x -> pbConvertToGnssMeasurementsData (convertGnssMeasDataToPB x default_PBGnssMeasurementsData) y = delivered_GnssMeasurementsData x y.
Proof. roundtrip_of convertGnssMeasDataToPB pbConvertToGnssMeasurementsData delivered_GnssMeasurementsData wf_GnssMeasurementsData. Qed.
#[local] Hint Rewrite GnssMeasurementsData_roundtrip using in_range : pb_back.
Lemma GnssMeasurementsClock_roundtrip x y : wf_GnssMeasurementsClock x -> pbConvertToGnssMeasurementsClock (convertGnssMeasClockToPB x default_PBGnssMeasurementsClock) y = delivered_GnssMeasurementsClock x y.
Proof. roundtrip_of convertGnssMeasClockToPB pbConvertToGnssMeasurementsClock delivered_GnssMeasurementsClock wf_GnssMeasurementsClock. Qed.
#[local] Hint Rewrite GnssMeasurementsClock_roundtrip using in_range : pb_back.
Lemma LocAPINmeaSerializedPayload_roundtrip x y : pbConvertToLocAPINmeaSerializedPayload (convertLocAPINmeaSerializedPayloadToPB x default_PBLocAPINmeaSerializedPayload) y = delivered_LocAPINmeaSerializedPayload x y.
Proof. roundtrip_of convertLocAPINmeaSerializedPayloadToPB pbConvertToLocAPINmeaSerializedPayload delivered_LocAPINmeaSerializedPayload tt. Qed.
#[local] Hint Rewrite LocAPINmeaSerializedPayload_roundtrip using in_range : pb_back.
Lemma GnssSv_roundtrip x y : wf_GnssSv x -> pbConvertToGnssSv (convertGnssSvToPB x default_PBLocApiGnssSv) y = delivered_GnssSv x y.
Proof. roundtrip_of convertGnssSvToPB pbConvertToGnssSv delivered_GnssSv wf_GnssSv. Qed.
#[local] Hint Rewrite GnssSv_roundtrip using in_range : pb_back.

Lemma GnssConfigRobustLocation_roundtrip x y : wf_GnssConfigRobustLocation x ->
  pbConvertToGnssConfigRobustLocation (convertGnssConfigRobustLocationToPB x default_PBGnssConfigRobustLocation) y = delivered_GnssConfigRobustLocation x y.
Proof. roundtrip_of convertGnssConfigRobustLocationToPB pbConvertToGnssConfigRobustLocation delivered_GnssConfigRobustLocation wf_GnssConfigRobustLocation. Qed.
Lemma GnssAidingData_roundtrip x y :
  pbConvertToGnssAidingData (convertGnssAidingDataToPB x default_PBAidingData) y = delivered_GnssAidingData x y.
Proof. roundtrip_of convertGnssAidingDataToPB pbConvertToGnssAidingData delivered_GnssAidingData tt. Qed.
(** The dynamics of the body frame and their extension share a message, and its mask. *)
Lemma GnssLocationPositionDynamics_roundtrip x ext y yext :
  pbConvertToGnssLocationPositionDynamics (convertGnssLocationPositionDynamicsToPB x ext default_PBLocApiGnssLocationPositionDynamics) y yext =
  (delivered_GnssLocationPositionDynamics x, delivered_GnssLocationPositionDynamicsExt ext).
Proof.
  unfold convertGnssLocationPositionDynamicsToPB, pbConvertToGnssLocationPositionDynamics, delivered_GnssLocationPositionDynamics, delivered_GnssLocationPositionDynamicsExt.
  cbn. read_back. reflexivity.
Qed.
#[local] Hint Rewrite GnssLocationPositionDynamics_roundtrip : pb_back.

(** The time goes into the member of the message that its source selects, and comes back
    from there. *)
Lemma time_source_other src A (a b c d e f g : A) : src ∉ GNSS_LOC_SV_SYSTEM_GLONASS :: system_sources ->
  (if src =? GNSS_LOC_SV_SYSTEM_GPS then a else if src =? GNSS_LOC_SV_SYSTEM_GALILEO then b else if src =? GNSS_LOC_SV_SYSTEM_BDS then c
   else if src =? GNSS_LOC_SV_SYSTEM_QZSS then d else if src =? GNSS_LOC_SV_SYSTEM_GLONASS then e
   else if src =? GNSS_LOC_SV_SYSTEM_NAVIC then f else g) = g.
Proof.
  unfold system_sources. rewrite !not_elem_of_cons. intros (? & ? & ? & ? & ? & ? & _).
  by rewrite !(proj2 (Z.eqb_neq _ _)) by done.
Qed.
Lemma known_other src : src ∉ GNSS_LOC_SV_SYSTEM_GLONASS :: system_sources ->
  known_GnssLocSvSystem src ∉ GNSS_LOC_SV_SYSTEM_GLONASS :: system_sources.
Proof. unfold known_GnssLocSvSystem, known. intros Hsrc. case_match; [done|]. by apply (bool_decide_unpack (GNSS_LOC_SV_SYSTEM_UNKNOWN ∉ _)). Qed.
Lemma GnssSystemTime_roundtrip x y : wf_GnssSystemTime x ->
  exists pb, convertGnssSystemTimeToPB x default_PBLocApiGnssSystemTime = Some pb /\
    pbConvertToGnssSystemTime pb y = delivered_GnssSystemTime x y.
Proof.
  destruct x as [src u], y as [src' u']. unfold wf_GnssSystemTime, delivered_GnssSystemTime, convertGnssSystemTimeToPB, pbConvertToGnssSystemTime,
    convertSystemTimeStructUnionToPB, pbConvertToSystemTimeStructUnion.
  cbn [GnssSystemTime_u GnssSystemTime_gnssSystemTimeSrc]. intros Hwf.
  destruct (decide (src ∈ GNSS_LOC_SV_SYSTEM_GLONASS :: system_sources)) as [Hin|Hout].
  - unfold system_sources in Hin. rewrite !elem_of_cons, elem_of_nil in Hin. destruct u as [t|t]; destruct Hwf as [Hsrc Hwf].
    + destruct Hin as [->|[->|[->|[->|[->|[->|[]]]]]]]; [done|..]; eexists; (split; [reflexivity|]); cbn [PBLocApiGnssSystemTime_u PBLocApiGnssSystemTime_gnssSystemTimeSrc];
        rewrite GnssLocSvSystem_back; cbn; (rewrite GnssSystemTimeStructType_roundtrip; [reflexivity|]); apply Hwf; set_solver.
    + destruct Hin as [->|Hin]; [|set_solver]. eexists; (split; [reflexivity|]). cbn [PBLocApiGnssSystemTime_u PBLocApiGnssSystemTime_gnssSystemTimeSrc];
        rewrite GnssLocSvSystem_back; cbn. (rewrite GnssGloTimeStructType_roundtrip; [reflexivity|]). by apply Hwf.
  - rewrite time_source_other by done. eexists. split; [reflexivity|]. cbn. rewrite GnssLocSvSystem_back, time_source_other by by apply known_other. done.
Qed.

(** ** Structures with arrays *)
Lemma GnssSvNotification_roundtrip x y : wf_GnssSvNotification x y ->
  convertGnssSvNotifToPB x default_PBLocApiGnssSvNotification ≫= (fun pb => pbConvertToGnssSvNotif pb y) = Some (delivered_GnssSvNotification x y).
Proof.
  intros [Hmax Hs]. unfold convertGnssSvNotifToPB, pbConvertToGnssSvNotif. erewrite sendable_first by done. cbn.
  rewrite length_fmap. erewrite sendable_length by done. rewrite Z.min_l by done.
  rewrite first_n_take by (rewrite length_fmap, length_take_le; destruct Hs; lia). cbn. rewrite <- fmap_take, take_take, Nat.min_id.
  erewrite (fill_delivered _ _ _ delivered_GnssSv) by first [done | intros; by apply GnssSv_roundtrip]. reflexivity.
Qed.
Lemma GnssMeasurementsNotification_roundtrip x y : wf_GnssMeasurementsNotification x y ->
  convertGnssMeasNotifToPB x default_PBGnssMeasurementsNotification ≫= (fun pb => pbConvertToGnssMeasNotification pb y) =
    Some (delivered_GnssMeasurementsNotification x y).
Proof.
  intros [Hs Hc]. unfold convertGnssMeasNotifToPB, pbConvertToGnssMeasNotification. erewrite sendable_first by done. cbn.
  erewrite (fill_delivered _ _ _ delivered_GnssMeasurementsData) by first [done | intros; by apply GnssMeasurementsData_roundtrip]. cbn. rewrite length_fmap. erewrite sendable_length by done.
  unfold delivered_GnssMeasurementsNotification. rewrite GnssMeasurementsClock_roundtrip by done. reflexivity.
Qed.
Lemma GeofencesAddedReqPayload_roundtrip x y : wf_GeofencesAddedReqPayload x y ->
  convertGfAddedReqPayloadToPB x default_PBGeofencesAddedReqPayload ≫= (fun pb => pbConvertToGfAddReqPayload pb y) =
    Some (delivered_GeofencesAddedReqPayload x y).
Proof.
  intros Hs. unfold convertGfAddedReqPayloadToPB, pbConvertToGfAddReqPayload. erewrite sendable_first by done. cbn.
  erewrite (fill_delivered _ _ _ delivered_GeofencePayload) by first [done | intros; by apply GeofencePayload_roundtrip]. cbn. rewrite length_fmap. by erewrite sendable_length by done.
Qed.
Lemma GeofencesReqClientIdPayload_roundtrip x y : wf_GeofencesReqClientIdPayload x y ->
  convertGfReqClientIdPayloadToPB x default_PBGeofencesReqClientIdPayload ≫= (fun pb => pbConvertToGfReqClientIdPayload pb y) =
    Some (delivered_GeofencesReqClientIdPayload x y).
Proof.
  intros Hs. unfold convertGfReqClientIdPayloadToPB, pbConvertToGfReqClientIdPayload. erewrite sendable_first by done. cbn.
  rewrite <- (list_fmap_id (take _ _)).
  erewrite (fill_delivered _ id _ (fun i _ => i)) by done. cbn. rewrite length_fmap. by erewrite sendable_length by done.
Qed.
Lemma CollectiveResPayload_roundtrip x y : wf_CollectiveResPayload x y ->
  convertCollectiveResPayloadToPB x default_PBCollectiveResPayload ≫= (fun pb => pbConvertToCollectiveResPayload pb y) =
    Some (delivered_CollectiveResPayload x y).
Proof.
  intros Hs. unfold convertCollectiveResPayloadToPB, pbConvertToCollectiveResPayload. erewrite sendable_first by done. cbn.
  erewrite (fill_delivered _ _ _ delivered_GeofenceResponse) by first [done | intros; by apply GeofenceResponse_roundtrip]. cbn. rewrite length_fmap. by erewrite sendable_length by done.
Qed.
Lemma LocAPIBatchNotification_roundtrip x y : wf_LocAPIBatchNotification x y ->
  convertLocAPIBatchingNotifMsgToPB x default_PBLocAPIBatchNotification ≫= (fun pb => pbConvertToLocAPIBatchNotification pb y) =
    Some (delivered_LocAPIBatchNotification x y).
Proof.
  intros Hs. unfold convertLocAPIBatchingNotifMsgToPB, pbConvertToLocAPIBatchNotification. erewrite sendable_first by done. cbn.
  erewrite (fill_delivered _ _ _ delivered_Location) by first [done | intros; by apply Location_roundtrip]. cbn. rewrite length_fmap. erewrite sendable_length by done.
  by rewrite BatchingStatus_back.
Qed.
Lemma LocAPIGeofenceBreachNotification_roundtrip x y : wf_LocAPIGeofenceBreachNotification x y ->
  convertLocAPIGfBreachNotifToPB x default_PBLocAPIGeofenceBreachNotification ≫= (fun pb => pbConvertToLocAPIGfBreachNotification pb y) =
    Some (delivered_LocAPIGeofenceBreachNotification x y).
Proof.
  intros [Hn Hy]. unfold convertLocAPIGfBreachNotifToPB, pbConvertToLocAPIGfBreachNotification, delivered_LocAPIGeofenceBreachNotification.
  rewrite first_n_take by lia. cbn.
  destruct (LocAPIGeofenceBreachNotification_id x) as [|i ids]; [simpl in Hn; lia|].
  destruct (Z.to_nat (LocAPIGeofenceBreachNotification_count x)) as [|n] eqn:?; [lia|]. cbn.
  destruct (LocAPIGeofenceBreachNotification_id y) as [|j js]; [done|]. cbn. read_back. by rewrite drop_0.
Qed.
Lemma GnssDataNotification_roundtrip x y : wf_GnssDataNotification x y ->
  convertGnssDataNotifToPB x default_PBGnssDataNotification ≫= (fun pb => pbConvertToGnssDataNotification pb y) =
    Some (delivered_GnssDataNotification x y).
Proof.
  unfold wf_GnssDataNotification. rewrite !Forall_cons. intros (H1 & H2 & H3 & H4 & H5 & H6 & _).
  unfold convertGnssDataNotifToPB, pbConvertToGnssDataNotification, delivered_GnssDataNotification.
  rewrite !first_n_take, !take_ge by lia. cbn [mbind option_bind]. cbn [PBGnssDataNotification_numberSignalTypes PBGnssDataNotification_gnssDataMask
    PBGnssDataNotification_jammerInd PBGnssDataNotification_agc default_PBGnssDataNotification app]. rewrite Z.min_id.
  rewrite !first_n_take, !take_ge by lia. cbn [mbind option_bind]. rewrite !fill_copy, fill_map by lia. cbn [mbind option_bind].
  do 2 f_equal. apply list_fmap_ext. intros. apply getGnssDataMaskFromPB_copied.
Qed.
Lemma GnssLocationInfoNotification_roundtrip x y : wf_GnssLocationInfoNotification x y ->
  convertGnssLocInfoNotifToPB x default_PBGnssLocationInfoNotification ≫= (fun pb => pbConvertToGnssLocInfoNotif pb y) =
    Some (delivered_GnssLocationInfoNotification x y).
Proof.
  intros (H1 & Ht & Hmax & Hs & H2 & H3 & Hx & Hy).
  unfold convertGnssLocInfoNotifToPB, pbConvertToGnssLocInfoNotif, delivered_GnssLocationInfoNotification.
  erewrite sendable_first by done. rewrite first_n_take, take_ge by lia. cbn [mbind option_bind].
  destruct (GnssSystemTime_roundtrip _ (GnssLocationInfoNotification_gnssSystemTime y) Ht) as (pb & Hpb & Hback).
  change (PBGnssLocationInfoNotification_gnssSystemTime default_PBGnssLocationInfoNotification) with default_PBLocApiGnssSystemTime.
  rewrite Hpb. cbn.
  destruct (GnssLocationInfoNotification_enuVelocityVRPBased x) as [|vx [|vy [|vz []]]]; try done.
  destruct (GnssLocationInfoNotification_enuVelocityVRPBased y) as [|ux [|uy [|uz []]]]; try done.
  pose proof (proj1 Hs). rewrite Z.min_l, (wrap_id 8 (GnssLocationInfoNotification_numOfMeasReceived x)) by first [done | unfold GNSS_SV_MAX in *; lia].
  rewrite first_n_take by (rewrite length_fmap, length_take_le; destruct Hs; lia). cbn. rewrite <- fmap_take, take_take, Nat.min_id.
  rewrite (fill_delivered _ _ _ delivered_GnssMeasUsageInfo) by first [done | intros; by apply GnssMeasUsageInfo_roundtrip]. cbn.
  rewrite Hback. read_back. reflexivity.
Qed.
