(* ===== verification/PbTheorems.v ===== *)
(** * What clients and the daemon make of each other's messages

    The theorems on the conversion of structures: what arrives of the reports and
    of the requests, and when a received message writes past the structure that
    should hold it. *)
From S2P Require Import Prelude PbConsts PbMasks PbTypes PbConvTo PbConvFrom PbMaskProps PbSpec PbProps.
#[local] Open Scope Z_scope.

(** ** Sample structures

    Every number of [sample_X n] is [n]; the arrays have the sizes of the code. *)

Definition sample_GnssSvTypeConfig (n : Z) : GnssSvTypeConfig :=
  MkGnssSvTypeConfig n n.
Definition sample_GnssSvIdConfig (n : Z) : GnssSvIdConfig :=
  MkGnssSvIdConfig n n n n n n.
Definition sample_GnssAidingDataSv (n : Z) : GnssAidingDataSv :=
  MkGnssAidingDataSv n n.
Definition sample_GnssAidingDataCommon (n : Z) : GnssAidingDataCommon :=
  MkGnssAidingDataCommon n.
Definition sample_GnssAidingData (n : Z) : GnssAidingData :=
  MkGnssAidingData (n =? 1) (sample_GnssAidingDataSv n) (sample_GnssAidingDataCommon n) n n.
Definition sample_LeverArmParams (n : Z) : LeverArmParams :=
  MkLeverArmParams n n n.
Definition sample_LeverArmConfigInfo (n : Z) : LeverArmConfigInfo :=
  MkLeverArmConfigInfo n (sample_LeverArmParams n) (sample_LeverArmParams n) (sample_LeverArmParams n).
Definition sample_BodyToSensorMountParams (n : Z) : BodyToSensorMountParams :=
  MkBodyToSensorMountParams n n n n.
Definition sample_DeadReckoningEngineConfig (n : Z) : DeadReckoningEngineConfig :=
  MkDeadReckoningEngineConfig n (sample_BodyToSensorMountParams n) n n n n.
Definition sample_LocationOptions (n : Z) : LocationOptions :=
  MkLocationOptions n n n n.
Definition sample_GeofenceOption (n : Z) : GeofenceOption :=
  MkGeofenceOption n n n.
Definition sample_GeofenceInfo (n : Z) : GeofenceInfo :=
  MkGeofenceInfo n n n.
Definition sample_GeofencePayload (n : Z) : GeofencePayload :=
  MkGeofencePayload n (sample_GeofenceOption n) (sample_GeofenceInfo n).
Definition sample_GeofencesAddedReqPayload (n : Z) : GeofencesAddedReqPayload :=
  MkGeofencesAddedReqPayload n (replicate (Z.to_nat MAX_GEOFENCE_ENTRY) (sample_GeofencePayload n)).
Definition sample_GeofencesReqClientIdPayload (n : Z) : GeofencesReqClientIdPayload :=
  MkGeofencesReqClientIdPayload n (replicate (Z.to_nat MAX_GEOFENCE_ENTRY) n).
Definition sample_GeofenceResponse (n : Z) : GeofenceResponse :=
  MkGeofenceResponse n n.
Definition sample_CollectiveResPayload (n : Z) : CollectiveResPayload :=
  MkCollectiveResPayload n (replicate 1%nat (sample_GeofenceResponse n)).
Definition sample_GnssConfigRobustLocationVersion (n : Z) : GnssConfigRobustLocationVersion :=
  MkGnssConfigRobustLocationVersion n n.
Definition sample_GnssConfigRobustLocation (n : Z) : GnssConfigRobustLocation :=
  MkGnssConfigRobustLocation n (n =? 1) (n =? 1) (sample_GnssConfigRobustLocationVersion n).
Definition sample_Location (n : Z) : Location :=
  MkLocation n n n n n n n n n n n n n n n n.
Definition sample_LocAPIBatchNotification (n : Z) : LocAPIBatchNotification :=
  MkLocAPIBatchNotification n n (replicate 1%nat (sample_Location n)).
Definition sample_LocAPIGeofenceBreachNotification (n : Z) : LocAPIGeofenceBreachNotification :=
  MkLocAPIGeofenceBreachNotification n n n (sample_Location n) (replicate 1%nat n).
Definition sample_GnssLocationSvUsedInPosition (n : Z) : GnssLocationSvUsedInPosition :=
  MkGnssLocationSvUsedInPosition n n n n n n.
Definition sample_GnssLocationPositionDynamics (n : Z) : GnssLocationPositionDynamics :=
  MkGnssLocationPositionDynamics n n n n n n n n n n n.
Definition sample_GnssSystemTimeStructType (n : Z) : GnssSystemTimeStructType :=
  MkGnssSystemTimeStructType n n n n n n n.
Definition sample_GnssGloTimeStructType (n : Z) : GnssGloTimeStructType :=
  MkGnssGloTimeStructType n n n n n n n n.
Definition sample_GnssSystemTime (n : Z) : GnssSystemTime :=
  MkGnssSystemTime n (SystemTime (sample_GnssSystemTimeStructType n)).
Definition sample_GnssMeasUsageInfo (n : Z) : GnssMeasUsageInfo :=
  MkGnssMeasUsageInfo n n n.
Definition sample_GnssLocationPositionDynamicsExt (n : Z) : GnssLocationPositionDynamicsExt :=
  MkGnssLocationPositionDynamicsExt n n n n n n n n n.
Definition sample_LLAInfo (n : Z) : LLAInfo :=
  MkLLAInfo n n n.
Definition sample_GnssLocationInfoNotification (n : Z) : GnssLocationInfoNotification :=
  MkGnssLocationInfoNotification (sample_Location n) n n n n n n n n n n n n n n n n n n n n n n
    (sample_GnssLocationSvUsedInPosition n) n (sample_GnssLocationPositionDynamics n) (sample_GnssSystemTime
    n) n (replicate (Z.to_nat GNSS_SV_MAX) (sample_GnssMeasUsageInfo n)) n n n n n n n
    (sample_GnssLocationPositionDynamicsExt n) (sample_LLAInfo n) (replicate 3%nat n) n (n =? 1) n.
Definition sample_LeapSecondChangeInfo (n : Z) : LeapSecondChangeInfo :=
  MkLeapSecondChangeInfo (sample_GnssSystemTimeStructType n) n n.
Definition sample_LeapSecondSystemInfo (n : Z) : LeapSecondSystemInfo :=
  MkLeapSecondSystemInfo n n (sample_LeapSecondChangeInfo n).
Definition sample_LocationSystemInfo (n : Z) : LocationSystemInfo :=
  MkLocationSystemInfo n (sample_LeapSecondSystemInfo n).
Definition sample_GnssMeasurementsData (n : Z) : GnssMeasurementsData :=
  MkGnssMeasurementsData n n n n n n n n n n n n n n n n n n n n n (replicate 8%nat n) n n n n n n n n.
Definition sample_GnssMeasurementsSignalType (n : Z) : GnssMeasurementsSignalType :=
  MkGnssMeasurementsSignalType n n n (replicate 8%nat n).
Definition sample_GnssMeasurementsClock (n : Z) : GnssMeasurementsClock :=
  MkGnssMeasurementsClock n n n n n n n n n n (sample_GnssMeasurementsSignalType n) n n.
Definition sample_GnssMeasurementsNotification (n : Z) : GnssMeasurementsNotification :=
  MkGnssMeasurementsNotification n (replicate (Z.to_nat GNSS_MEASUREMENTS_MAX) (sample_GnssMeasurementsData
    n)) (sample_GnssMeasurementsClock n).
Definition sample_GnssDataNotification (n : Z) : GnssDataNotification :=
  MkGnssDataNotification (replicate (Z.to_nat GNSS_LOC_MAX_NUMBER_OF_SIGNAL_TYPES) n) (replicate (Z.to_nat
    GNSS_LOC_MAX_NUMBER_OF_SIGNAL_TYPES) n) (replicate (Z.to_nat GNSS_LOC_MAX_NUMBER_OF_SIGNAL_TYPES) n).
Definition sample_LocAPINmeaSerializedPayload (n : Z) : LocAPINmeaSerializedPayload :=
  MkLocAPINmeaSerializedPayload n EmptyString.
Definition sample_GnssSv (n : Z) : GnssSv :=
  MkGnssSv n n n n n n n n n n.
Definition sample_GnssSvNotification (n : Z) : GnssSvNotification :=
  MkGnssSvNotification n (n =? 1) (replicate (Z.to_nat GNSS_SV_MAX) (sample_GnssSv n)).

(** The arrays of the structures into which a client receives geofence responses and batches. *)
Definition client_CollectiveResPayload (y : CollectiveResPayload) : Prop := length (CollectiveResPayload_resp y) = 1%nat.
Definition client_LocAPIBatchNotification (y : LocAPIBatchNotification) : Prop := length (LocAPIBatchNotification_location y) = 1%nat.

(** ** Bounds *)
Lemma is_Some_fill {A B} (f : A -> B -> B) xs ys : is_Some (fill f xs ys) <-> (length xs <= length ys)%nat.
Proof.
  split; [|intros H; rewrite fill_zip by done; eauto]. destruct (decide (length xs <= length ys)%nat); [done|].
  rewrite fill_overrun by lia. by intros [? [=]].
Qed.
Lemma is_Some_bind_Some {A B} (o : option A) (f : A -> B) : is_Some (o ≫= fun a => Some (f a)) <-> is_Some o.
Proof. destruct o; simpl; split; intros []; simplify_eq; eauto. Qed.

(** C6. What a client gets of the report of a position that the daemon sent: every
    member of a location report that its message carries goes through it unchanged, up to the bits of
    masks and the values of enumerations that the API and the protocol share, in
    structures of any depth: the location, the measurements used (as many as the report
    counts), the body frame whose two masks share one field, and the time, in the
    member of the union its source selects.  What the message does not carry stays what the
    receiver's structure had: the conformity index, the spoof mask, the elapsed real time and its
    uncertainty of the location, the time of an unknown source, and the places of the array beyond
    the count.  The report is well formed: numbers are in the ranges of their types, the union has the time of
    its source, and both arrays have as many places as the report counts. *)
Theorem location_report_roundtrip (x y : GnssLocationInfoNotification) : wf_GnssLocationInfoNotification x y ->
  exists pb, convertGnssLocInfoNotifToPB x default_PBGnssLocationInfoNotification = Some pb /\
    pbConvertToGnssLocInfoNotif pb y = Some (delivered_GnssLocationInfoNotification x y).
Proof. intros Hwf. apply bind_Some. by apply GnssLocationInfoNotification_roundtrip. Qed.

Lemma location_report_roundtrip_witness :
  exists pb, convertGnssLocInfoNotifToPB (sample_GnssLocationInfoNotification 1) default_PBGnssLocationInfoNotification = Some pb /\
    pbConvertToGnssLocInfoNotif pb (sample_GnssLocationInfoNotification 0) =
    Some (delivered_GnssLocationInfoNotification (sample_GnssLocationInfoNotification 1) (sample_GnssLocationInfoNotification 0)).
Proof.
  apply location_report_roundtrip. unfold wf_GnssLocationInfoNotification.
  repeat split; try done; vm_compute; repeat constructor; try done.
Defined.

(** The other reports of the daemon reach the client in the same way: the satellites
    in view, the measurements with their clock, the levels of the signals, the leap
    seconds, a batch of locations and the responses on geofences, each with as many
    elements as it counts; what the receiving array held beyond them stays. *)
Theorem notifications_roundtrip :
  (forall x y, wf_GnssSvNotification x y -> exists pb,
    convertGnssSvNotifToPB x default_PBLocApiGnssSvNotification = Some pb /\ pbConvertToGnssSvNotif pb y = Some (delivered_GnssSvNotification x y)) /\
  (forall x y, wf_GnssMeasurementsNotification x y -> exists pb,
    convertGnssMeasNotifToPB x default_PBGnssMeasurementsNotification = Some pb /\
    pbConvertToGnssMeasNotification pb y = Some (delivered_GnssMeasurementsNotification x y)) /\
  (forall x y, wf_GnssDataNotification x y -> exists pb,
    convertGnssDataNotifToPB x default_PBGnssDataNotification = Some pb /\
    pbConvertToGnssDataNotification pb y = Some (delivered_GnssDataNotification x y)) /\
  (forall x y, wf_LocationSystemInfo x ->
    pbConvertToLocationSystemInfo (convertLocSysInfoToPB x default_PBLocationSystemInfo) y = delivered_LocationSystemInfo x y) /\
  (forall x y, wf_LocAPIBatchNotification x y -> exists pb,
    convertLocAPIBatchingNotifMsgToPB x default_PBLocAPIBatchNotification = Some pb /\
    pbConvertToLocAPIBatchNotification pb y = Some (delivered_LocAPIBatchNotification x y)) /\
  (forall x y, wf_CollectiveResPayload x y -> exists pb,
    convertCollectiveResPayloadToPB x default_PBCollectiveResPayload = Some pb /\
    pbConvertToCollectiveResPayload pb y = Some (delivered_CollectiveResPayload x y)).
Proof.
  repeat split; intros x y Hwf; try apply bind_Some.
  - by apply GnssSvNotification_roundtrip.
  - by apply GnssMeasurementsNotification_roundtrip.
  - by apply GnssDataNotification_roundtrip.
  - by apply LocationSystemInfo_roundtrip.
  - by apply LocAPIBatchNotification_roundtrip.
  - by apply CollectiveResPayload_roundtrip.
Qed.

Lemma notifications_roundtrip_witness :
  exists pb, convertGnssSvNotifToPB (sample_GnssSvNotification 1) default_PBLocApiGnssSvNotification = Some pb /\
    pbConvertToGnssSvNotif pb (sample_GnssSvNotification 0) =
    Some (delivered_GnssSvNotification (sample_GnssSvNotification 1) (sample_GnssSvNotification 0)).
Proof.
  apply (proj1 notifications_roundtrip). unfold wf_GnssSvNotification.
  repeat split; try done; vm_compute; repeat constructor; try done.
Defined.

(** The requests of a client reach the daemon: the options of a session, geofences
    to add or change, the identifiers of geofences, and the configuration of satellites,
    lever arms, dead reckoning, robust location and of the data to delete. *)
Theorem requests_roundtrip :
  (forall x y, pbConvertToLocationOptions (convertLocationOptionsToPB x default_PBLocationOptions) y = delivered_LocationOptions x y) /\
  (forall x y, wf_GeofencesAddedReqPayload x y -> exists pb,
    convertGfAddedReqPayloadToPB x default_PBGeofencesAddedReqPayload = Some pb /\
    pbConvertToGfAddReqPayload pb y = Some (delivered_GeofencesAddedReqPayload x y)) /\
  (forall x y, wf_GeofencesReqClientIdPayload x y -> exists pb,
    convertGfReqClientIdPayloadToPB x default_PBGeofencesReqClientIdPayload = Some pb /\
    pbConvertToGfReqClientIdPayload pb y = Some (delivered_GeofencesReqClientIdPayload x y)) /\
  (forall x y, pbConvertToGnssSvTypeConfig (convertGnssSvTypeConfigToPB x default_PBGnssSvTypeConfig) y = delivered_GnssSvTypeConfig x y) /\
  (forall x y, pbConvertToGnssSvIdConfig (convertGnssSvIdConfigToPB x default_PBGnssSvIdConfig) y = delivered_GnssSvIdConfig x y) /\
  (forall x y, pbConvertToLeverArmConfigInfo (convertLeverArmConfigInfoToPB x default_PBLIALeverArmConfigInfo) y = delivered_LeverArmConfigInfo x y) /\
  (forall x y, pbConvertToDeadReckoningEngineConfig (convertDeadReckoningEngineConfigToPB x default_PBDeadReckoningEngineConfig) y =
    delivered_DeadReckoningEngineConfig x y) /\
  (forall x y, wf_GnssConfigRobustLocation x ->
    pbConvertToGnssConfigRobustLocation (convertGnssConfigRobustLocationToPB x default_PBGnssConfigRobustLocation) y = delivered_GnssConfigRobustLocation x y) /\
  (forall x y, pbConvertToGnssAidingData (convertGnssAidingDataToPB x default_PBAidingData) y = delivered_GnssAidingData x y).
Proof.
  repeat split; intros x y; intros; try apply bind_Some; auto using LocationOptions_roundtrip, GeofencesAddedReqPayload_roundtrip,
    GeofencesReqClientIdPayload_roundtrip, GnssSvTypeConfig_roundtrip, GnssSvIdConfig_roundtrip, LeverArmConfigInfo_roundtrip,
    DeadReckoningEngineConfig_roundtrip, GnssConfigRobustLocation_roundtrip, GnssAidingData_roundtrip.
Qed.

Lemma requests_roundtrip_witness :
  exists pb, convertGfAddedReqPayloadToPB (sample_GeofencesAddedReqPayload 2) default_PBGeofencesAddedReqPayload = Some pb /\
    pbConvertToGfAddReqPayload pb (sample_GeofencesAddedReqPayload 0) =
    Some (delivered_GeofencesAddedReqPayload (sample_GeofencesAddedReqPayload 2) (sample_GeofencesAddedReqPayload 0)).
Proof.
  apply (proj1 (proj2 requests_roundtrip)). repeat split; try done; vm_compute; repeat constructor; try done.
Defined.

(** The arrays of the structures into which a client receives the other reports, and a breach. *)
Definition client_GnssLocationInfoNotification (y : GnssLocationInfoNotification) : Prop :=
  length (GnssLocationInfoNotification_measUsageInfo y) = Z.to_nat GNSS_SV_MAX /\ length (GnssLocationInfoNotification_enuVelocityVRPBased y) = 3%nat.
Definition client_GnssDataNotification (y : GnssDataNotification) : Prop :=
  Forall (fun n => n = Z.to_nat GNSS_LOC_MAX_NUMBER_OF_SIGNAL_TYPES)
    [length (GnssDataNotification_gnssDataMask y); length (GnssDataNotification_jammerInd y); length (GnssDataNotification_agc y)].
Lemma is_Some_bind {A B} (o : option A) (f : A -> option B) : is_Some (o ≫= f) <-> exists a, o = Some a /\ is_Some (f a).
Proof. destruct o; simpl; split; [eauto|by intros (? & [= <-] & ?)|by intros []|by intros (? & ? & _)]. Qed.
(** Reading [n] elements of a message into an array with room for them. *)
Lemma is_Some_read {A B C} n (f : A -> B -> B) (xs : list A) (ys : list B) (g : list B -> option C) : (n <= length ys)%nat -> (forall l, is_Some (g l)) ->
  is_Some (l ← first_n n xs; l' ← fill f l ys; g l') <-> (n <= length xs)%nat.
Proof.
  intros Hn Hg. rewrite is_Some_bind. split.
  - intros (l & Hl & _). by apply first_n_Some in Hl.
  - intros Hx. exists (take n xs). split; [by apply first_n_take|]. rewrite fill_zip by (rewrite length_take; lia). apply Hg.
Qed.

Lemma is_Some_LocInfo pb y : client_GnssLocationInfoNotification y -> 0 <= PBGnssLocationInfoNotification_numOfMeasReceived pb ->
  is_Some (pbConvertToGnssLocInfoNotif pb y) <->
  Z.min (PBGnssLocationInfoNotification_numOfMeasReceived pb) GNSS_SV_MAX <= Z.of_nat (length (PBGnssLocationInfoNotification_measUsageInfo pb)) /\
  (3 <= length (PBGnssLocationInfoNotification_enuVelocityVRPBased pb))%nat.
Proof.
  intros [Hm Hv] Hn. unfold pbConvertToGnssLocInfoNotif. cbn [mbind option_bind].
  set (n := PBGnssLocationInfoNotification_numOfMeasReceived pb) in *. assert (Hmax : 0 <= GNSS_SV_MAX < 256) by (unfold GNSS_SV_MAX; lia).
  rewrite (wrap_id 8 (Z.min n GNSS_SV_MAX)) by lia. rewrite is_Some_bind. split.
  - intros (l & Hl & H). apply first_n_Some in Hl. split; [lia|].
    apply is_Some_bind in H as (? & _ & H). apply is_Some_bind in H as (l' & Hl' & _). by apply first_n_Some in Hl'.
  - intros [H1 H2]. eexists. split; [apply first_n_take; lia|]. rewrite fill_zip by (rewrite length_take; lia). cbn [mbind option_bind].
    apply is_Some_read; [lia|by eexists|lia].
Qed.
Lemma is_Some_Data pb y : client_GnssDataNotification y -> 0 <= PBGnssDataNotification_numberSignalTypes pb ->
  is_Some (pbConvertToGnssDataNotification pb y) <->
  Forall (fun n => Z.min (PBGnssDataNotification_numberSignalTypes pb) GNSS_LOC_MAX_NUMBER_OF_SIGNAL_TYPES <= Z.of_nat n)
    [length (PBGnssDataNotification_gnssDataMask pb); length (PBGnssDataNotification_jammerInd pb); length (PBGnssDataNotification_agc pb)].
Proof.
  unfold client_GnssDataNotification. rewrite !Forall_cons. intros (H1 & H2 & H3 & _) Hn. unfold pbConvertToGnssDataNotification. cbn [mbind option_bind].
  set (n := PBGnssDataNotification_numberSignalTypes pb) in *. set (max := GNSS_LOC_MAX_NUMBER_OF_SIGNAL_TYPES) in *. rewrite is_Some_bind. split.
  - intros (l1 & Hl1%first_n_Some & H). apply is_Some_bind in H as (l2 & Hl2%first_n_Some & H). apply is_Some_bind in H as (l3 & Hl3%first_n_Some & _). repeat split; lia || constructor.
  - intros (G1 & G2 & G3 & _). eexists. split; [apply first_n_take; lia|]. rewrite !first_n_take by lia. cbn [mbind option_bind].
    rewrite !fill_zip by (rewrite length_take; lia). by eexists.
Qed.

(** C21. What bounds a received message, for each of the nine conversions that read or write an
    array.  The report of satellites can never overrun the receiver's array, whatever the
    message.  The reports of measurements and of batches, the responses on geofences and the two
    requests on geofences are defined exactly when the message has no more elements than the
    receiver's array, which nothing checks.  The location report, the levels of the signals
    and the breach of a geofence, received in the arrays that they have in the code, write within
    them, and are defined exactly when the message has the elements that are read: as many
    measurements used as it counts, up to [GNSS_SV_MAX], and three velocities; as many of each
    level as it counts, up to the number of signal types; one identifier. *)
Theorem receive_bounds :
  (forall pb y, length (GnssSvNotification_gnssSvs y) = Z.to_nat GNSS_SV_MAX -> is_Some (pbConvertToGnssSvNotif pb y)) /\
  (forall pb y, is_Some (pbConvertToGnssMeasNotification pb y) <->
    (length (PBGnssMeasurementsNotification_measurements pb) <= length (GnssMeasurementsNotification_measurements y))%nat) /\
  (forall pb y, is_Some (pbConvertToGfAddReqPayload pb y) <->
    (length (PBGeofencesAddedReqPayload_gfPayload pb) <= length (GeofencesAddedReqPayload_gfPayload y))%nat) /\
  (forall pb y, is_Some (pbConvertToGfReqClientIdPayload pb y) <->
    (length (PBGeofencesReqClientIdPayload_gfIds pb) <= length (GeofencesReqClientIdPayload_gfIds y))%nat) /\
  (forall pb y, is_Some (pbConvertToCollectiveResPayload pb y) <->
    (length (PBCollectiveResPayload_resp pb) <= length (CollectiveResPayload_resp y))%nat) /\
  (forall pb y, is_Some (pbConvertToLocAPIBatchNotification pb y) <->
    (length (PBLocAPIBatchNotification_location pb) <= length (LocAPIBatchNotification_location y))%nat) /\
  (forall pb y, client_GnssLocationInfoNotification y -> 0 <= PBGnssLocationInfoNotification_numOfMeasReceived pb ->
    is_Some (pbConvertToGnssLocInfoNotif pb y) <->
    Z.min (PBGnssLocationInfoNotification_numOfMeasReceived pb) GNSS_SV_MAX <= Z.of_nat (length (PBGnssLocationInfoNotification_measUsageInfo pb)) /\
    (3 <= length (PBGnssLocationInfoNotification_enuVelocityVRPBased pb))%nat) /\
  (forall pb y, client_GnssDataNotification y -> 0 <= PBGnssDataNotification_numberSignalTypes pb ->
    is_Some (pbConvertToGnssDataNotification pb y) <->
    Forall (fun n => Z.min (PBGnssDataNotification_numberSignalTypes pb) GNSS_LOC_MAX_NUMBER_OF_SIGNAL_TYPES <= Z.of_nat n)
      [length (PBGnssDataNotification_gnssDataMask pb); length (PBGnssDataNotification_jammerInd pb); length (PBGnssDataNotification_agc pb)]) /\
  (forall pb y, length (LocAPIGeofenceBreachNotification_id y) = 1%nat ->
    is_Some (pbConvertToLocAPIGfBreachNotification pb y) <-> (1 <= length (PBLocAPIGeofenceBreachNotification_id pb))%nat).
Proof.
  split; [|do 5 (split; [intros pb y; etrans; [apply is_Some_bind_Some | apply is_Some_fill]|]); split; [|split]]; intros pb y.
  - intros Hy. unfold pbConvertToGnssSvNotif. cbn [mbind option_bind].
    rewrite first_n_take by lia. cbn [mbind option_bind]. apply is_Some_bind_Some, is_Some_fill. rewrite length_take_le; lia.
  - apply is_Some_LocInfo.
  - apply is_Some_Data.
  - intros Hy. unfold pbConvertToLocAPIGfBreachNotification. destruct (PBLocAPIGeofenceBreachNotification_id pb) as [|i l]; cbn; [split; [by intros []|lia]|].
    destruct (LocAPIGeofenceBreachNotification_id y) as [|j [|]]; [done| |done]. cbn. split; [lia|eauto].
Qed.

Lemma receive_bounds_witness : is_Some (pbConvertToGnssSvNotif default_PBLocApiGnssSvNotification (sample_GnssSvNotification 0)).
Proof. apply (proj1 receive_bounds). vm_compute. reflexivity. Defined.

(** A client receives batches of locations and responses on geofences in structures
    whose array has one element, and so a batch with two locations or a response on two
    geofences, which the daemon's conversion puts in a message without complaint, is written past the end of the
    structure on the client's stack. *)
Theorem client_overrun :
  (forall x y, client_LocAPIBatchNotification y ->
    2 <= LocAPIBatchNotification_count x <= Z.of_nat (length (LocAPIBatchNotification_location x)) -> exists pb,
    convertLocAPIBatchingNotifMsgToPB x default_PBLocAPIBatchNotification = Some pb /\ pbConvertToLocAPIBatchNotification pb y = None) /\
  (forall x y, client_CollectiveResPayload y ->
    2 <= CollectiveResPayload_count x <= Z.of_nat (length (CollectiveResPayload_resp x)) -> exists pb,
    convertCollectiveResPayloadToPB x default_PBCollectiveResPayload = Some pb /\ pbConvertToCollectiveResPayload pb y = None).
Proof.
  unfold client_LocAPIBatchNotification, client_CollectiveResPayload.
  split; intros x y Hy [H2 Hx]; eexists; (split; [by unfold convertLocAPIBatchingNotifMsgToPB, convertCollectiveResPayloadToPB; rewrite first_n_take by lia|]).
  - unfold pbConvertToLocAPIBatchNotification. cbn. rewrite fill_overrun; [done|]. rewrite length_fmap, length_take_le; lia.
  - unfold pbConvertToCollectiveResPayload. cbn. rewrite fill_overrun; [done|]. rewrite length_fmap, length_take_le; lia.
Qed.

Lemma client_overrun_witness : exists pb,
  convertLocAPIBatchingNotifMsgToPB (MkLocAPIBatchNotification 2 1 [sample_Location 1; sample_Location 2]) default_PBLocAPIBatchNotification = Some pb /\
  pbConvertToLocAPIBatchNotification pb (sample_LocAPIBatchNotification 0) = None.
Proof. apply (proj1 client_overrun); [reflexivity | simpl; lia]. Defined.
