(* ===== verification/SetMap.v ===== *)
(** * Maps from keys to sets of values
    ([src/gps/utils/LocUnorderedSetMap.h])

    A loop over an unordered set visits its elements in the order of [elements];
    the lemmas say that the results do not depend on that order.

    Two operations go on using an iterator after they erased its element, which is
    undefined: reading the key of an erased entry, and stepping to the next element.
    [reads_freed] tells what happens then: [true] when the freed memory still holds
    what it held, [false] when it is undefined ([None]). *)
From S2P Require Import Prelude.
#[local] Open Scope Z_scope.

Section set_operations.
Context {T : Type} `{Countable T}.

(** What an iterator over an erased element still gives. *)
Definition after_erase (reads_freed : bool) {A} (a : A) : option A := if reads_freed then Some a else None.

Definition trimSet_step (st : gset T * option (gset T)) (val : T) : gset T * option (gset T) :=
  if decide (val ∈ st.1) then (st.1 ∖ {[val]}, (fun gone => {[val]} ∪ gone) <$> st.2) else st.
Definition trimSet (fromSet rVals : gset T) (goneVals : option (gset T)) : gset T * option (gset T) :=
  foldl trimSet_step (fromSet, goneVals) (elements rVals).

(** [for (b...) if (found in s1) { common.insert; s1.erase; s2.erase(b); }  b++]: [todo] is what
    the iterator has before it. *)
Fixpoint removeAndReturnInterset_loop (reads_freed : bool) (todo : list T) (s1 s2 common : gset T)
    : option (gset T * gset T * gset T) :=
  match todo with
  | [] => Some (s1, s2, common)
  | b :: todo =>
      if decide (b ∈ s1) then
        _ ← after_erase reads_freed b;   (* b++ *)
        removeAndReturnInterset_loop reads_freed todo (s1 ∖ {[b]}) (s2 ∖ {[b]}) ({[b]} ∪ common)
      else removeAndReturnInterset_loop reads_freed todo s1 s2 common
  end.
(** Returns [s1] and [s2] without their intersection, and the intersection. *)
Definition removeAndReturnInterset (reads_freed : bool) (s1 s2 : gset T) : option (gset T * gset T * gset T) :=
  removeAndReturnInterset_loop reads_freed (elements s2) s1 s2 ∅.
End set_operations.

(** [mMap]. *)
Abbreviation LocUnorderedSetMap KEY VAL := (gmap KEY (gset VAL)).

Section set_map.
Context {KEY VAL : Type} `{Countable KEY, Countable VAL}.
Context (reads_freed : bool).


Definition empty (m : LocUnorderedSetMap KEY VAL) : bool := bool_decide (m = ∅).
Definition getValSetPtr (m : LocUnorderedSetMap KEY VAL) (key : KEY) : option (gset VAL) := m !! key.
Definition getValSet (m : LocUnorderedSetMap KEY VAL) (key : KEY) : gset VAL := default ∅ (m !! key).
Definition getKeys (m : LocUnorderedSetMap KEY VAL) : gset KEY := dom m.
Definition remove (m : LocUnorderedSetMap KEY VAL) (key : KEY) : LocUnorderedSetMap KEY VAL := delete key m.

(** Trims one entry; tells whether it was erased. *)
Definition trimOrRemove_entry (m : LocUnorderedSetMap KEY VAL) (key : KEY) (vals rVals : gset VAL) (goneVals : option (gset VAL))
    : LocUnorderedSetMap KEY VAL * option (gset VAL) * bool :=
  let '(vals, goneVals) := trimSet vals rVals goneVals in
  let removeEntry := bool_decide (vals = ∅) in
  (if removeEntry then delete key m else <[key := vals]> m, goneVals, removeEntry).

Fixpoint trimOrRemove_loop (keys : list KEY) (m : LocUnorderedSetMap KEY VAL) (rVals : gset VAL)
    (goneKeys : option (gset KEY)) (goneVals : option (gset VAL))
    : option (LocUnorderedSetMap KEY VAL * option (gset KEY) * option (gset VAL)) :=
  match keys with
  | [] => Some (m, goneKeys, goneVals)
  | key :: keys =>
      match m !! key with
      | None => trimOrRemove_loop keys m rVals goneKeys goneVals
      | Some vals =>
          let '(m, goneVals, removed) := trimOrRemove_entry m key vals rVals goneVals in
          goneKeys ← match goneKeys with
            | Some gone => if (removed : bool) then gone_key ← after_erase reads_freed key; Some (Some ({[gone_key]} ∪ gone))
                           else Some (Some gone)
            | None => Some None
            end;
          trimOrRemove_loop keys m rVals goneKeys goneVals
      end
  end.
Definition trimOrRemove (m : LocUnorderedSetMap KEY VAL) (keys : gset KEY) (rVals : gset VAL)
    (goneKeys : option (gset KEY)) (goneVals : option (gset VAL))
    : option (LocUnorderedSetMap KEY VAL * option (gset KEY) * option (gset VAL)) :=
  trimOrRemove_loop (elements keys) m rVals goneKeys goneVals.

(** Adds values to one entry; tells whether the entry is new. *)
Definition add (m : LocUnorderedSetMap KEY VAL) (key : KEY) (newVals : gset VAL) : LocUnorderedSetMap KEY VAL * bool :=
  if decide (newVals = ∅) then (m, false)
  else match m !! key with
       | Some vals => (<[key := newVals ∪ vals]> m, false)
       | None => (<[key := newVals]> m, true)
       end.
Definition add_step (newVals : gset VAL) (st : LocUnorderedSetMap KEY VAL * option (gset KEY)) (key : KEY)
    : LocUnorderedSetMap KEY VAL * option (gset KEY) :=
  let '(m, added) := add st.1 key newVals in
  (m, if (added : bool) then (fun new => {[key]} ∪ new) <$> st.2 else st.2).
Definition add_keys (m : LocUnorderedSetMap KEY VAL) (keys : gset KEY) (newVals : gset VAL) (newKeys : option (gset KEY))
    : LocUnorderedSetMap KEY VAL * option (gset KEY) :=
  foldl (add_step newVals) (m, newKeys) (elements keys).

(** Returns the map, what is left of [newVals], and the values it reports as gone. *)
Definition update (m : LocUnorderedSetMap KEY VAL) (key : KEY) (newVals : gset VAL)
    : option (LocUnorderedSetMap KEY VAL * gset VAL * gset VAL) :=
  if decide (newVals = ∅) then Some (delete key m, newVals, ∅)
  else
    let curVals := getValSet m key in
    '(curVals, newVals', goneVals) ← removeAndReturnInterset reads_freed curVals newVals;
    Some (<[key := newVals]> m, newVals', goneVals).
End set_map.

(** ** What the operations do, in terms of sets *)
Ltac triple_eq := f_equal; apply (f_equal2 pair); [apply (f_equal2 pair)|].

Section set_lemmas.
Context {T : Type} `{Countable T}.
Implicit Types (X Y : gset T) (l : list T).

Lemma trimSet_loop l X gone :
  foldl trimSet_step (X, gone) l = (X ∖ list_to_set l, (fun g => (X ∩ list_to_set l) ∪ g) <$> gone).
Proof.
  revert X gone. induction l as [|v l IH]; intros X gone.
  - cbn. f_equal; [set_solver|]. destruct gone; cbn; [f_equal|done]. set_solver.
  - cbn [foldl list_to_set]. unfold trimSet_step at 2. cbn [fst snd]. destruct (decide (v ∈ X)).
    + rewrite IH. f_equal; [set_solver|]. destruct gone; cbn; [|done]. f_equal. apply set_eq. intros x.
      destruct (decide (x = v)); set_solver.
    + rewrite IH. f_equal; [set_solver|]. destruct gone; cbn; [|done]. f_equal. set_solver.
Qed.
Lemma trimSet_spec X Y gone : trimSet X Y gone = (X ∖ Y, (fun g => (X ∩ Y) ∪ g) <$> gone).
Proof. unfold trimSet. by rewrite trimSet_loop, list_to_set_elements_L. Qed.

Lemma removeAndReturnInterset_loop_spec l X Y common : NoDup l ->
  removeAndReturnInterset_loop true l X Y common =
    Some (X ∖ list_to_set l, Y ∖ (X ∩ list_to_set l), (X ∩ list_to_set l) ∪ common).
Proof.
  revert X Y common. induction l as [|b l IH]; intros X Y common Hnd; [by cbn; triple_eq; set_solver|].
  apply NoDup_cons in Hnd as [Hb Hnd]. cbn [removeAndReturnInterset_loop list_to_set]. destruct (decide (b ∈ X)).
  - cbn. rewrite IH by done. triple_eq; apply set_eq; intros x; destruct (decide (x = b)); set_solver.
  - rewrite IH by done. triple_eq; set_solver.
Qed.
(** When freed memory keeps its contents, the intersection is returned, and both sets lose it. *)
Lemma removeAndReturnInterset_spec X Y : removeAndReturnInterset true X Y = Some (X ∖ Y, Y ∖ X, X ∩ Y).
Proof.
  unfold removeAndReturnInterset. rewrite removeAndReturnInterset_loop_spec, list_to_set_elements_L by apply NoDup_elements.
  triple_eq; set_solver.
Qed.
(** Otherwise it is defined only when there is no common element. *)
Lemma removeAndReturnInterset_strict X Y :
  removeAndReturnInterset false X Y = if decide (X ∩ Y = ∅) then Some (X, Y, ∅) else None.
Proof.
  unfold removeAndReturnInterset.
  assert (forall l, removeAndReturnInterset_loop false l X Y ∅ = if decide (X ∩ list_to_set l = ∅) then Some (X, Y, ∅) else None) as Hl.
  { induction l as [|b l IH]; cbn [removeAndReturnInterset_loop list_to_set]; [by rewrite decide_True by set_solver|].
    destruct (decide (b ∈ X)); cbn; [by rewrite decide_False by set_solver|]. rewrite IH. apply decide_ext. set_solver. }
  by rewrite Hl, list_to_set_elements_L.
Qed.
End set_lemmas.

Section map_lemmas.
Context {KEY VAL : Type} `{Countable KEY, Countable VAL}.
Abbreviation SM := (LocUnorderedSetMap KEY VAL).
Implicit Types (m : SM) (keys : gset KEY) (vals rVals : gset VAL).

(** Values of a key that occur in the map. *)
Definition maps (m : SM) (k : KEY) (v : VAL) : Prop := v ∈ getValSet m k.
(** No entry has an empty set. *)
Definition trimmed (m : SM) : Prop := forall k, m !! k <> Some ∅.

Lemma getValSet_Some m k vals : m !! k = Some vals -> getValSet m k = vals.
Proof. unfold getValSet. by intros ->. Qed.
Lemma maps_insert m k vals k' v : maps (<[k := vals]> m) k' v <-> (k' = k /\ v ∈ vals) \/ (k' <> k /\ maps m k' v).
Proof.
  unfold maps, getValSet. destruct (decide (k' = k)) as [->|Hk]; [rewrite lookup_insert_eq | rewrite lookup_insert_ne by done]; naive_solver.
Qed.
Lemma maps_delete m k k' v : maps (delete k m) k' v <-> k' <> k /\ maps m k' v.
Proof.
  unfold maps, getValSet. destruct (decide (k' = k)) as [->|Hk]; [rewrite lookup_delete_eq | rewrite lookup_delete_ne by done]; [|naive_solver].
  cbn. set_solver.
Qed.
Lemma trimmed_maps m k : trimmed m -> (exists v, maps m k v) <-> k ∈ dom m.
Proof.
  intros Ht. unfold maps, getValSet. rewrite elem_of_dom. specialize (Ht k). destruct (m !! k) as [vals|]; cbn.
  - split; [eauto|intros _]. destruct (set_choose_L vals) as [v Hv]; [congruence|]. eauto.
  - split; [set_solver|]. by intros [? [=]].
Qed.
Lemma trimmed_insert m k vals : trimmed m -> vals <> ∅ -> trimmed (<[k := vals]> m).
Proof. intros Ht Hv k'. destruct (decide (k' = k)) as [->|]; [rewrite lookup_insert_eq; congruence | by rewrite lookup_insert_ne]. Qed.
Lemma trimmed_delete m k : trimmed m -> trimmed (delete k m).
Proof. intros Ht k'. destruct (decide (k' = k)) as [->|]; [by rewrite lookup_delete_eq | by rewrite lookup_delete_ne]. Qed.
Lemma trimmed_empty : trimmed ∅.
Proof. intros k. by rewrite lookup_empty. Qed.

(** *** [add] *)
Lemma add_maps m k vals k' v : maps (add m k vals).1 k' v <-> (k' = k /\ v ∈ vals) \/ maps m k' v.
Proof.
  unfold add. destruct (decide (vals = ∅)); [set_solver|].
  destruct (m !! k) as [vals'|] eqn:Hk; cbn [fst]; rewrite maps_insert; unfold maps, getValSet in *;
    (destruct (decide (k' = k)) as [->|]; [rewrite ?Hk; cbn|]); set_solver.
Qed.
Lemma add_trimmed m k vals : trimmed m -> trimmed (add m k vals).1.
Proof.
  intros Ht. unfold add. destruct (decide (vals = ∅)); [done|]. destruct (m !! k) eqn:?; apply trimmed_insert; set_solver.
Qed.
Lemma add_new m k vals : (add m k vals).2 = bool_decide (vals <> ∅ /\ k ∉ dom m).
Proof.
  unfold add. destruct (decide (vals = ∅)); [rewrite bool_decide_false by tauto; done|].
  destruct (m !! k) eqn:Hk; [apply elem_of_dom_2 in Hk|apply not_elem_of_dom in Hk]; cbn; symmetry; [apply bool_decide_false|apply bool_decide_true]; naive_solver.
Qed.
Lemma add_dom m k vals : vals <> ∅ -> dom (add m k vals).1 = {[k]} ∪ dom m.
Proof. intros Hv. unfold add. rewrite decide_False by done. destruct (m !! k) eqn:Hk; cbn; by rewrite dom_insert_L. Qed.

Lemma add_loop l vals m new : vals <> ∅ -> NoDup l ->
  let '(m', new') := foldl (add_step vals) (m, new) l in
  (forall k v, maps m' k v <-> (k ∈ l /\ v ∈ vals) \/ maps m k v) /\ (trimmed m -> trimmed m') /\
  dom m' = list_to_set l ∪ dom m /\ new' = (fun n => (list_to_set l ∖ dom m) ∪ n) <$> new.
Proof.
  intros Hv. revert m new. induction l as [|k l IH]; intros m new Hnd.
  - cbn. split; [set_solver|]. split; [done|]. split; [set_solver|]. destruct new; [f_equal/=|done]. set_solver.
  - apply NoDup_cons in Hnd as [Hk Hnd]. cbn [foldl]. unfold add_step at 2. cbn [fst snd].
    destruct (add m k vals) as [m1 added] eqn:Hadd.
    assert (m1 = (add m k vals).1) as -> by by rewrite Hadd. assert (added = (add m k vals).2) as -> by by rewrite Hadd.
    rewrite add_new. specialize (IH (add m k vals).1 (if bool_decide (vals <> ∅ /\ k ∉ dom m) then (fun n => {[k]} ∪ n) <$> new else new) Hnd).
    destruct (foldl _ _ l) as [m' new']. destruct IH as (Hm & Ht & Hd & Hn). rewrite add_dom in Hd, Hn by done.
    split; [|split; [|split]].
    + intros k' v. rewrite Hm, add_maps, elem_of_cons. naive_solver.
    + intros Htm. by apply Ht, add_trimmed.
    + rewrite Hd. set_solver.
    + subst new'. destruct (bool_decide_reflect (vals <> ∅ /\ k ∉ dom m)); destruct new; cbn; try done; f_equal; apply set_eq; intros x;
        destruct (decide (x = k)); set_solver.
Qed.
Lemma add_keys_spec m keys vals new : vals <> ∅ ->
  let '(m', new') := add_keys m keys vals new in
  (forall k v, maps m' k v <-> (k ∈ keys /\ v ∈ vals) \/ maps m k v) /\ (trimmed m -> trimmed m') /\
  dom m' = keys ∪ dom m /\ new' = (fun n => (keys ∖ dom m) ∪ n) <$> new.
Proof.
  intros Hv. unfold add_keys. pose proof (add_loop (elements keys) vals m new Hv (NoDup_elements _)) as H1.
  destruct (foldl _ _ _). rewrite list_to_set_elements_L in H1. setoid_rewrite elem_of_elements in H1. done.
Qed.

(** *** [trimOrRemove] *)
Lemma trimOrRemove_entry_spec m k vals rVals gone : m !! k = Some vals ->
  let '(m', gone', removed) := trimOrRemove_entry m k vals rVals gone in
  (forall k' v, maps m' k' v <-> maps m k' v /\ ~ (k' = k /\ v ∈ rVals)) /\ (trimmed m -> trimmed m') /\
  removed = bool_decide (vals ⊆ rVals) /\ dom m' = (if bool_decide (vals ⊆ rVals) then dom m ∖ {[k]} else dom m) /\
  gone' = (fun g => (vals ∩ rVals) ∪ g) <$> gone.
Proof.
  intros Hk. unfold trimOrRemove_entry. rewrite trimSet_spec.
  assert (bool_decide (vals ∖ rVals = ∅) = bool_decide (vals ⊆ rVals)) as -> by (apply bool_decide_ext; split; [apply empty_difference_subseteq_L | apply subseteq_empty_difference_L]).
  split; [|split; [|split; [done|split; [|done]]]].
  - intros k' v. case_bool_decide; rewrite ?maps_delete, ?maps_insert; destruct (decide (k' = k)) as [->|];
      unfold maps; rewrite ?(getValSet_Some _ _ _ Hk); set_solver.
  - intros Ht. case_bool_decide; [by apply trimmed_delete|]. apply trimmed_insert; [done|]. by intros E%empty_difference_subseteq_L.
  - case_bool_decide; [by rewrite dom_delete_L|]. rewrite dom_insert_L. apply elem_of_dom_2 in Hk. set_solver.
Qed.

(** The keys left with values, and the values removed. *)
Definition emptied (m : SM) keys rVals : gset KEY := filter (fun k => getValSet m k ⊆ rVals) (keys ∩ dom m).
Lemma elem_of_emptied m keys rVals k : k ∈ emptied m keys rVals <-> k ∈ keys /\ k ∈ dom m /\ getValSet m k ⊆ rVals.
Proof. unfold emptied. rewrite elem_of_filter. set_solver. Qed.

Lemma emptied_cons m k l rVals : k ∉ l ->
  emptied m (list_to_set (k :: l)) rVals =
    (if bool_decide (k ∈ dom m /\ getValSet m k ⊆ rVals) then {[k]} else ∅) ∪ emptied m (list_to_set l) rVals.
Proof. intros Hk. apply set_eq. intros x. rewrite elem_of_union, !elem_of_emptied. case_bool_decide; set_solver. Qed.
Lemma emptied_other m m' k l rVals : k ∉ l -> (forall k' v, k' <> k -> maps m' k' v <-> maps m k' v) ->
  (forall k', k' <> k -> k' ∈ dom m' <-> k' ∈ dom m) -> emptied m' (list_to_set l) rVals = emptied m (list_to_set l) rVals.
Proof.
  intros Hk Hm Hd. apply set_eq. intros x. rewrite !elem_of_emptied, elem_of_list_to_set.
  split; intros (Hx & Hdx & Hv); (assert (x <> k) by congruence); (split; [done|split; [by apply Hd|]]); intros v Hxv; apply Hv, Hm; done.
Qed.

(** The loop when freed memory keeps its contents: the values go, entries that lose all of
    theirs go with them, and these keys and values are recorded. *)
Lemma trimOrRemove_loop_spec l m rVals goneKeys goneVals : NoDup l ->
  exists m' goneVals', trimOrRemove_loop true l m rVals goneKeys goneVals =
    Some (m', (fun g => emptied m (list_to_set l) rVals ∪ g) <$> goneKeys, goneVals') /\
  (forall k v, maps m' k v <-> maps m k v /\ ~ (k ∈ l /\ v ∈ rVals)) /\ (trimmed m -> trimmed m') /\
  dom m' = dom m ∖ emptied m (list_to_set l) rVals /\
  (forall g, goneVals = Some g -> exists g', goneVals' = Some g' /\
     forall v, v ∈ g' <-> v ∈ g \/ (v ∈ rVals /\ exists k, k ∈ l /\ maps m k v)) /\ (goneVals = None -> goneVals' = None).
Proof.
  revert m goneKeys goneVals. induction l as [|k l IH]; intros m goneKeys goneVals Hnd.
  { assert (emptied m (list_to_set []) rVals = ∅) as He by (unfold emptied; cbn; set_solver).
    exists m, goneVals. rewrite He. cbn. split; [|split; [set_solver|split; [done|split; [set_solver|split; [|done]]]]].
    - destruct goneKeys; cbn; [|done]. by rewrite union_empty_l_L.
    - intros g ->. exists g. split; [done|]. set_solver. }
  apply NoDup_cons in Hnd as [Hkl Hnd]. cbn [trimOrRemove_loop]. rewrite (emptied_cons _ _ _ _ Hkl).
  destruct (m !! k) as [vals|] eqn:Hk.
  - pose proof (trimOrRemove_entry_spec m k vals rVals goneVals Hk) as He.
    destruct (trimOrRemove_entry m k vals rVals goneVals) as [[m1 gone1] removed]. destruct He as (Hm1 & Ht1 & -> & Hd1 & ->).
    assert (Hkd : k ∈ dom m) by by apply elem_of_dom_2 in Hk.
    assert (Hem : emptied m1 (list_to_set l) rVals = emptied m (list_to_set l) rVals).
    { apply (emptied_other _ _ k); [done| |].
      - intros k' v Hne. rewrite Hm1. naive_solver.
      - intros k' Hne. rewrite Hd1. case_bool_decide; set_solver. }
    assert (Hb : bool_decide (k ∈ dom m /\ getValSet m k ⊆ rVals) = bool_decide (vals ⊆ rVals)).
    { apply bool_decide_ext. rewrite (getValSet_Some _ _ _ Hk). tauto. }
    rewrite Hb. clear Hb. set (goneKeys1 := (fun g => (if bool_decide (vals ⊆ rVals) then {[k]} else ∅) ∪ g) <$> goneKeys).
    destruct (IH m1 goneKeys1 ((fun g => vals ∩ rVals ∪ g) <$> goneVals) Hnd) as (m' & gv' & Hrun & Hm' & Ht' & Hd' & Hg' & Hn').
    exists m', gv'. rewrite Hem in Hrun, Hd'. split; [|split; [|split; [|split; [|split]]]].
    + transitivity (trimOrRemove_loop true l m1 rVals goneKeys1 ((fun g => vals ∩ rVals ∪ g) <$> goneVals)).
      * unfold goneKeys1. destruct goneKeys as [g|]; [|done]. cbn. case_bool_decide; [done|]. cbn. by rewrite union_empty_l_L.
      * rewrite Hrun. triple_eq; try done. unfold goneKeys1. destruct goneKeys as [g|]; cbn; [|done]. f_equal. set_solver.
    + intros k' v. rewrite Hm', Hm1, elem_of_cons. naive_solver.
    + naive_solver.
    + rewrite Hd', Hd1. case_bool_decide; set_solver.
    + intros g ->. destruct (Hg' _ eq_refl) as (g' & -> & Hg2). exists g'. split; [done|]. intros v. rewrite Hg2.
      setoid_rewrite elem_of_cons. setoid_rewrite Hm1. assert (v ∈ vals <-> maps m k v) as Hv by by unfold maps; rewrite (getValSet_Some _ _ _ Hk).
      rewrite elem_of_union, elem_of_intersection, Hv. naive_solver.
    + intros ->. by apply Hn'.
  - assert (Hkd : k ∉ dom m) by by apply not_elem_of_dom.
    assert (Hkm : forall v, ~ maps m k v) by (intros v; unfold maps, getValSet; rewrite Hk; cbn; set_solver).
    rewrite bool_decide_false by tauto. rewrite union_empty_l_L.
    destruct (IH m goneKeys goneVals Hnd) as (m' & gv' & Hrun & Hm' & Ht' & Hd' & Hg' & Hn').
    exists m', gv'. split; [done|]. split; [|split; [done|split; [done|split; [|done]]]].
    + intros k' v. rewrite Hm', elem_of_cons. naive_solver.
    + intros g Hg. destruct (Hg' _ Hg) as (g' & -> & Hg2). exists g'. split; [done|]. intros v. rewrite Hg2. setoid_rewrite elem_of_cons. naive_solver.
Qed.
Lemma trimOrRemove_spec m keys rVals goneKeys goneVals :
  exists m' goneVals', trimOrRemove true m keys rVals goneKeys goneVals =
    Some (m', (fun g => emptied m keys rVals ∪ g) <$> goneKeys, goneVals') /\
  (forall k v, maps m' k v <-> maps m k v /\ ~ (k ∈ keys /\ v ∈ rVals)) /\ (trimmed m -> trimmed m') /\
  dom m' = dom m ∖ emptied m keys rVals /\
  (forall g, goneVals = Some g -> exists g', goneVals' = Some g' /\
     forall v, v ∈ g' <-> v ∈ g \/ (v ∈ rVals /\ exists k, k ∈ keys /\ maps m k v)) /\ (goneVals = None -> goneVals' = None).
Proof.
  unfold trimOrRemove. destruct (trimOrRemove_loop_spec (elements keys) m rVals goneKeys goneVals (NoDup_elements _)) as (m' & gv & H1).
  exists m', gv. rewrite list_to_set_elements_L in H1. by setoid_rewrite elem_of_elements in H1.
Qed.

(** Reading the key of an erased entry: when keys are recorded, the operation is defined
    exactly when it leaves no entry empty, and then it does not matter what freed memory holds. *)
Lemma trimOrRemove_loop_strict l m rVals goneKeys goneVals : NoDup l ->
  trimOrRemove_loop false l m rVals (Some goneKeys) goneVals =
    if decide (emptied m (list_to_set l) rVals = ∅) then trimOrRemove_loop true l m rVals (Some goneKeys) goneVals else None.
Proof.
  revert m goneKeys goneVals. induction l as [|k l IH]; intros m goneKeys goneVals Hnd.
  { rewrite decide_True; [done|]. unfold emptied. cbn. set_solver. }
  apply NoDup_cons in Hnd as [Hkl Hnd]. cbn [trimOrRemove_loop]. rewrite (emptied_cons _ _ _ _ Hkl).
  destruct (m !! k) as [vals|] eqn:Hk.
  - pose proof (trimOrRemove_entry_spec m k vals rVals goneVals Hk) as He.
    destruct (trimOrRemove_entry m k vals rVals goneVals) as [[m1 gone1] removed]. destruct He as (Hm1 & _ & -> & Hd1 & _).
    assert (Hkd : k ∈ dom m) by by apply elem_of_dom_2 in Hk.
    assert (bool_decide (k ∈ dom m /\ getValSet m k ⊆ rVals) = bool_decide (vals ⊆ rVals)) as ->.
    { apply bool_decide_ext. rewrite (getValSet_Some _ _ _ Hk). tauto. }
    destruct (bool_decide_reflect (vals ⊆ rVals)) as [Hv|Hv].
    + cbn. by rewrite decide_False by set_solver.
    + cbn. rewrite IH, union_empty_l_L by done. rewrite (emptied_other m m1 k l rVals Hkl); [done| |].
      * intros k' v Hne. rewrite Hm1. naive_solver.
      * intros k' Hne. by rewrite Hd1.
  - rewrite bool_decide_false, union_empty_l_L by (apply not_elem_of_dom in Hk; tauto). cbn. by apply IH.
Qed.
Lemma trimOrRemove_strict m keys rVals goneKeys goneVals :
  trimOrRemove false m keys rVals (Some goneKeys) goneVals =
    if decide (emptied m keys rVals = ∅) then trimOrRemove true m keys rVals (Some goneKeys) goneVals else None.
Proof. unfold trimOrRemove. rewrite trimOrRemove_loop_strict by apply NoDup_elements. by rewrite list_to_set_elements_L. Qed.

(** *** [update] *)

(** It reports the values that the key keeps as gone, and not those that it loses. *)
Lemma update_spec m k vals : vals <> ∅ ->
  update true m k vals = Some (<[k := vals]> m, vals ∖ getValSet m k, getValSet m k ∩ vals).
Proof. intros Hv. unfold update. rewrite decide_False by done. by rewrite removeAndReturnInterset_spec. Qed.
Lemma update_strict m k vals : vals <> ∅ ->
  update false m k vals = if decide (getValSet m k ∩ vals = ∅) then Some (<[k := vals]> m, vals, ∅) else None.
Proof. intros Hv. unfold update. rewrite decide_False by done. rewrite removeAndReturnInterset_strict. by case_decide. Qed.
End map_lemmas.
