(* ===== verification/SystemStatus.v ===== *)
(** * System status: what the framework reports
    ([src/gps/core/SystemStatus.h], [src/gps/core/SystemStatus.cpp],
     [src/gps/core/data-items/DataItemConcreteTypesBase.h])

    The data items of the framework, the short history of each kind that
    [SystemStatus] keeps, and the table of network connections, which each report of
    a connection brings up to date.  The lock of [SystemStatus] makes each operation
    atomic.  The items that come from debug sentences of the engine are not modelled. *)
From S2P Require Import Prelude.
#[local] Open Scope Z_scope.

(** ** Data items *)
Definition TYPE_MOBILE : Z := 0.
Definition TYPE_WIFI : Z := 1.
Definition TYPE_UNKNOWN : Z := 10.
Definition NETWORK_HANDLE_UNKNOWN : Z := 2 ^ 64 - 1.   (* ~0 as a uint64_t *)
Definition MAX_NETWORK_HANDLES : nat := 10.

Record NetworkInfoType := MkNetworkInfoType { networkHandle : Z; networkType : Z }.
#[export] Instance NetworkInfoType_eq_dec : EqDecision NetworkInfoType.
Proof. solve_decision. Defined.
Definition unknown_network : NetworkInfoType := MkNetworkInfoType NETWORK_HANDLE_UNKNOWN TYPE_UNKNOWN.

Record NetworkInfoDataItem := MkNetworkInfo {
  mAllTypes : Z;
  mType : Z;
  mTypeName : string;
  mSubTypeName : string;
  mAvailable : bool;
  mConnected : bool;
  mRoaming : bool;
  mAllNetworkHandles : list NetworkInfoType;
  mNetworkHandle : Z;
  mApn : string;
}.
Record SrnDeviceScanDetails := MkSrn {
  mValidSrnData : bool; mApSrnRssi : Z; mApSrnMacAddress : list Z; mApSrnTimestamp : Z;
  mRequestTimestamp : Z; mReceiveTimestamp : Z; mErrorCause : Z
}.
Record WifiSupplicantStatus := MkWifiSupplicant {
  wifi_mState : Z; mApMacAddressValid : bool; mApMacAddress : list Z; mWifiApSsidValid : bool; mWifiApSsid : string
}.
#[export] Instance NetworkInfo_eq_dec : EqDecision NetworkInfoDataItem.
Proof. solve_decision. Defined.
#[export] Instance Srn_eq_dec : EqDecision SrnDeviceScanDetails.
Proof. solve_decision. Defined.
#[export] Instance WifiSupplicant_eq_dec : EqDecision WifiSupplicantStatus.
Proof. solve_decision. Defined.

(** A data item, by its class.  The data of the radio items is defined by a library; here
    it is known by what the library compares. *)
Inductive DataItem :=
  | AirplaneMode (mMode : bool) | ENH (mEnabled : bool) | GPSState (mEnabled : bool) | NLPStatus (mEnabled : bool)
  | WifiHardwareState (mEnabled : bool) | NetworkInfo (info : NetworkInfoDataItem)
  | RilServiceInfo (mData : Z) | RilCellInfo (mData : Z) | ServiceStatus (mServiceState : Z)
  | Model (mModel : string) | Manufacturer (mManufacturer : string) | AssistedGps (mEnabled : bool)
  | ScreenState (mState : bool) | PowerConnectState (mState : bool)
  | TimeZoneChange (mCurrTimeMillis mRawOffsetTZ mDstOffsetTZ : Z) | TimeChange (mCurrTimeMillis mRawOffsetTZ mDstOffsetTZ : Z)
  | WifiSupplicant (status : WifiSupplicantStatus) | ShutdownState (mState : bool) | Tac (mValue : string) | Mccmnc (mValue : string)
  | BtLeDeviceScanDetails (srn : SrnDeviceScanDetails) | BtDeviceScanDetails (srn : SrnDeviceScanDetails)
  | BatteryLevel (mBatteryPct : Z).
#[export] Instance DataItem_eq_dec : EqDecision DataItem.
Proof. solve_decision. Defined.

Definition DataItemId : Type := Z.
Definition getId (d : DataItem) : DataItemId :=
  match d with
  | AirplaneMode _ => 0 | ENH _ => 1 | GPSState _ => 2 | NLPStatus _ => 3 | WifiHardwareState _ => 4 | NetworkInfo _ => 5
  | RilServiceInfo _ => 7 | RilCellInfo _ => 8 | ServiceStatus _ => 9 | Model _ => 10 | Manufacturer _ => 11 | AssistedGps _ => 13
  | ScreenState _ => 14 | PowerConnectState _ => 15 | TimeZoneChange _ _ _ => 16 | TimeChange _ _ _ => 17 | WifiSupplicant _ => 18
  | ShutdownState _ => 19 | Tac _ => 20 | Mccmnc _ => 21 | BtLeDeviceScanDetails _ => 22 | BtDeviceScanDetails _ => 23
  | BatteryLevel _ => 26
  end.
Definition NETWORKINFO_DATA_ITEM_ID : DataItemId := 5.

(** [typeToAllTypes]: the bit of a type. *)
Definition typeToAllTypes (type : Z) : Z := if (type >=? TYPE_UNKNOWN) || (type <? TYPE_MOBILE) then 0 else Z.shiftl 1 type.
(** The constructor of [NetworkInfoDataItemBase]: the handle goes to the first place of the
    table, whether it is connected or not. *)
Definition NetworkInfoDataItemBase (initialType type : Z) (typeName subTypeName : string) (available connected roaming : bool)
    (handle : Z) (apn : string) : NetworkInfoDataItem := {|
    mAllTypes := typeToAllTypes initialType; mType := type; mTypeName := typeName; mSubTypeName := subTypeName;
    mAvailable := available; mConnected := connected; mRoaming := roaming;
    mAllNetworkHandles := MkNetworkInfoType handle initialType :: replicate (MAX_NETWORK_HANDLES - 1) unknown_network;
    mNetworkHandle := handle; mApn := apn
  |}.
Definition SystemStatusNetworkInfo (type : Z) (connected roaming : bool) (handle : Z) (apn : string) : NetworkInfoDataItem :=
  NetworkInfoDataItemBase type type EmptyString EmptyString (connected && negb roaming) connected roaming handle apn.

(** ** Items of the same class *)

(** The members that [equals] compares. *)
Definition NetworkInfo_equals (a b : NetworkInfoDataItem) : bool :=
  Bool.eqb (mConnected b) (mConnected a) && bool_decide (mAllNetworkHandles a = mAllNetworkHandles b) &&
  bool_decide (mApn b = mApn a).
Definition Srn_equals (a b : SrnDeviceScanDetails) : bool :=
  (mApSrnRssi a =? mApSrnRssi b) && bool_decide (mApSrnMacAddress a = mApSrnMacAddress b) && (mApSrnTimestamp a =? mApSrnTimestamp b) &&
  (mRequestTimestamp a =? mRequestTimestamp b) && (mReceiveTimestamp a =? mReceiveTimestamp b).
Definition WifiSupplicant_equals (a b : WifiSupplicantStatus) : bool :=
  (wifi_mState a =? wifi_mState b) && Bool.eqb (mApMacAddressValid a) (mApMacAddressValid b) &&
  Bool.eqb (mWifiApSsidValid a) (mWifiApSsidValid b) && bool_decide (mWifiApSsid a = mWifiApSsid b).
Definition equals (a b : DataItem) : bool :=
  match a, b with
  | NetworkInfo a, NetworkInfo b => NetworkInfo_equals a b
  | BtLeDeviceScanDetails a, BtLeDeviceScanDetails b | BtDeviceScanDetails a, BtDeviceScanDetails b => Srn_equals a b
  | WifiSupplicant a, WifiSupplicant b => WifiSupplicant_equals a b
  | a, b => bool_decide (a = b)
  end.

(** *** The table of network connections *)

(** Looks for the handle or the first free place. *)
Fixpoint connect_handle (handle type : Z) (table : list NetworkInfoType) : list NetworkInfoType :=
  match table with
  | [] => []
  | entry :: table =>
      if handle =? networkHandle entry then entry :: table
      else if NETWORK_HANDLE_UNKNOWN =? networkHandle entry then MkNetworkInfoType handle type :: table
      else entry :: connect_handle handle type table
  end.

(** The scan of a disconnection from index [lastValidIndex] on: the index of the handle, if it
    is there with this type, the number of used places, and how many other handles of the
    type there are. *)
Fixpoint disconnect_scan (handle type : Z) (table : list NetworkInfoType) (deletedIndex : option nat) (lastValidIndex typeCount : nat)
    : option nat * nat * nat :=
  match table with
  | [] => (deletedIndex, lastValidIndex, typeCount)
  | entry :: table =>
      if NETWORK_HANDLE_UNKNOWN =? networkHandle entry then (deletedIndex, lastValidIndex, typeCount)
      else if type =? networkType entry then
        if handle =? networkHandle entry then disconnect_scan handle type table (Some lastValidIndex) (S lastValidIndex) typeCount
        else disconnect_scan handle type table deletedIndex (S lastValidIndex) (S typeCount)
      else disconnect_scan handle type table deletedIndex (S lastValidIndex) typeCount
  end.
(** The last used place moves to the one that is deleted. *)
Definition disconnect_handle (table : list NetworkInfoType) (deletedIndex : option nat) (used : nat) : list NetworkInfoType :=
  let lastValidIndex := pred used in
  match deletedIndex with
  | Some deleted =>
      let table := <[deleted := default unknown_network (table !! lastValidIndex)]> table in
      <[lastValidIndex := unknown_network]> table
  | None => table
  end.

(** [s.collate(curInfo)]: the new item gets the table of the last one, brought up to date. *)
Definition NetworkInfo_collate (s curInfo : NetworkInfoDataItem) : NetworkInfoDataItem :=
  let table := mAllNetworkHandles curInfo in
  let apn := if negb (mType s =? TYPE_MOBILE) && bool_decide (mApn curInfo <> EmptyString) then mApn curInfo else mApn s in
  let '(allTypes, table) :=
    if mConnected s then (Z.lor (mAllTypes s) (mAllTypes curInfo), connect_handle (mNetworkHandle s) (mType s) table)
    else if negb (mAllTypes s =? 0) then
      let '(deletedIndex, used, typeCount) := disconnect_scan (mNetworkHandle s) (mType s) table None 0%nat 0%nat in
      (if (typeCount =? 0)%nat then Z.land (mAllTypes curInfo) (Z.lnot (mAllTypes s)) else mAllTypes s,
       disconnect_handle table deletedIndex used)
    else (mAllTypes s, table) in
  {| mAllTypes := allTypes; mType := mType s; mTypeName := mTypeName s; mSubTypeName := mSubTypeName s;
     mAvailable := mAvailable s; mConnected := mConnected s; mRoaming := mRoaming s;
     mAllNetworkHandles := table; mNetworkHandle := mNetworkHandle s; mApn := apn |}.
(** What it changes in the item it was made from. *)
Definition NetworkInfo_collated_source (src s : NetworkInfoDataItem) : NetworkInfoDataItem :=
  {| mAllTypes := mAllTypes s; mType := mType src; mTypeName := mTypeName src; mSubTypeName := mSubTypeName src;
     mAvailable := mAvailable src; mConnected := mConnected src; mRoaming := mRoaming src;
     mAllNetworkHandles := mAllNetworkHandles s; mNetworkHandle := mNetworkHandle src; mApn := mApn src |}.
Definition collate (s curInfo : DataItem) : DataItem :=
  match s, curInfo with NetworkInfo s, NetworkInfo cur => NetworkInfo (NetworkInfo_collate s cur) | _, _ => s end.
Definition collated_source (src s : DataItem) : DataItem :=
  match src, s with NetworkInfo src, NetworkInfo s => NetworkInfo (NetworkInfo_collated_source src s) | _, _ => src end.

(** ** Reports *)
Record SystemStatusItem := MkItem { item : DataItem; mUtcTime : Z; mUtcReported : Z }.
Definition maxItem : nat := 5.

(** [ignore]: no class of these items overrides it. *)
Definition ignore (s : DataItem) : bool := false.

(** [setIteminReport]: the report, the item as collated, and whether it was recorded. *)
Definition setIteminReport (report : list SystemStatusItem) (s : SystemStatusItem) : list SystemStatusItem * SystemStatusItem * bool :=
  let record s :=
    let report := report ++ [s] in
    ((if decide (maxItem < length report)%nat then drop 1 report else report), s, true) in
  if ignore (item s) then (report, s, false)
  else match last report with
  | None => record s
  | Some back =>
      let s := MkItem (collate (item s) (item back)) (mUtcTime s) (mUtcReported s) in
      if equals (item back) (item s)
      then (take (length report - 1) report ++ [MkItem (item back) (mUtcTime back) (mUtcReported s)], s, false)
      else record s
  end.

(** The report that an item goes to: the two Bluetooth scans go to the report of the other one. *)
Definition report_of (id : DataItemId) : option DataItemId :=
  if (id =? 22) then Some 23 else if (id =? 23) then Some 22
  else if decide (id ∈ [0; 1; 2; 3; 4; 5; 7; 8; 9; 10; 11; 13; 14; 15; 16; 17; 18; 19; 20; 21]) then Some id else None.
(** The class that the item is cast to: that of the other scan for the two Bluetooth scans.
    The two classes have the same members, those of [SrnDeviceScanDetails], and these are
    what the copy of the wrongly cast object takes. *)
Definition cast_item (d : DataItem) : DataItem :=
  match d with
  | BtLeDeviceScanDetails srn => BtDeviceScanDetails srn
  | BtDeviceScanDetails srn => BtLeDeviceScanDetails srn
  | d => d
  end.

(** [mCache]: the reports, by the kind of items they are meant for. *)
Abbreviation SystemStatusReports := (gmap DataItemId (list SystemStatusItem)).
Definition report (c : SystemStatusReports) (id : DataItemId) : list SystemStatusItem := default [] (c !! id).

(** [eventDataItemNotify] at time [now]: the reports, the data item, whose table may have
    changed, and whether it is to be cached. *)
Definition eventDataItemNotify (now : Z) (c : SystemStatusReports) (d : DataItem) : SystemStatusReports * DataItem * bool :=
  match report_of (getId d) with
  | None => (c, d, false)
  | Some slot =>
      let '(r, s, ret) := setIteminReport (report c slot) (MkItem (cast_item d) now now) in
      (<[slot := r]> c, collated_source d (item s), ret)
  end.
Definition eventDataItemNotify_all (now : Z) (c : SystemStatusReports) (ds : list DataItem) : SystemStatusReports :=
  foldl (fun c d => (eventDataItemNotify now c d).1.1) c ds.

(** [getReport(report, true)] and [getReport(report, false)]. *)
Definition getIteminReport (c : list SystemStatusItem) : list SystemStatusItem := match last c with Some s => [s] | None => [] end.
Definition getReport (c : SystemStatusReports) (isLatestOnly : bool) : SystemStatusReports :=
  if isLatestOnly then getIteminReport <$> c else c.

(** [eventConnectionStatus] and [resetNetworkInfo]: the data items they notify the observer of. *)
Definition eventConnectionStatus (connected : bool) (type : Z) (roaming : bool) (handle : Z) (apn : string) : DataItem :=
  NetworkInfo (SystemStatusNetworkInfo ((type + 2 ^ 7) mod 2 ^ 8 - 2 ^ 7) connected roaming handle apn).
Definition resetNetworkInfo (c : SystemStatusReports) : list DataItem :=
  omap (fun s => match item s with
    | NetworkInfo n => Some (eventConnectionStatus false (mType n) (mRoaming n) (mNetworkHandle n) (mApn n))
    | _ => None
    end) (report c NETWORKINFO_DATA_ITEM_ID).
Definition updatePowerConnectState (charging : bool) : DataItem := PowerConnectState charging.
