(* ===== verification/SystemStatusProps.v ===== *)
(** * System status: histories and the table of connections

    Each report is the recent end of the history of changes of its kind, and the table
    of the last network report lists the connections that are up. *)
From S2P Require Import Prelude SystemStatus.
#[local] Open Scope Z_scope.

(** ** Specifications *)

(** What the framework says with an item: the members that make it another one.  The
    address of the access point, the validity of a scan and its error do not. *)
Definition content (d : DataItem) : DataItem :=
  match d with
  | WifiSupplicant w => WifiSupplicant (MkWifiSupplicant (wifi_mState w) (mApMacAddressValid w) [] (mWifiApSsidValid w) (mWifiApSsid w))
  | BtLeDeviceScanDetails n => BtLeDeviceScanDetails (MkSrn true (mApSrnRssi n) (mApSrnMacAddress n) (mApSrnTimestamp n) (mRequestTimestamp n) (mReceiveTimestamp n) 0)
  | BtDeviceScanDetails n => BtDeviceScanDetails (MkSrn true (mApSrnRssi n) (mApSrnMacAddress n) (mApSrnTimestamp n) (mRequestTimestamp n) (mReceiveTimestamp n) 0)
  | d => d
  end.
(** The reports, by the class of items that they hold. *)
Inductive Kind :=
  | KAirplaneMode | KENH | KGPSState | KNLPStatus | KWifiHardwareState | KRilServiceInfo | KRilCellInfo | KServiceStatus
  | KModel | KManufacturer | KAssistedGps | KScreenState | KPowerConnectState | KTimeZoneChange | KTimeChange
  | KWifiSupplicant | KShutdownState | KTac | KMccmnc | KBtLe | KBt.
#[export] Instance Kind_eq_dec : EqDecision Kind.
Proof. solve_decision. Defined.
(** The kind of an item; the networks have a table of their own, and the level of the battery is not kept. *)
Definition kind_of (d : DataItem) : option Kind :=
  match d with
  | AirplaneMode _ => Some KAirplaneMode | ENH _ => Some KENH | GPSState _ => Some KGPSState | NLPStatus _ => Some KNLPStatus
  | WifiHardwareState _ => Some KWifiHardwareState | RilServiceInfo _ => Some KRilServiceInfo | RilCellInfo _ => Some KRilCellInfo
  | ServiceStatus _ => Some KServiceStatus | Model _ => Some KModel | Manufacturer _ => Some KManufacturer
  | AssistedGps _ => Some KAssistedGps | ScreenState _ => Some KScreenState | PowerConnectState _ => Some KPowerConnectState
  | TimeZoneChange _ _ _ => Some KTimeZoneChange | TimeChange _ _ _ => Some KTimeChange | WifiSupplicant _ => Some KWifiSupplicant
  | ShutdownState _ => Some KShutdownState | Tac _ => Some KTac | Mccmnc _ => Some KMccmnc
  | BtLeDeviceScanDetails _ => Some KBtLe | BtDeviceScanDetails _ => Some KBt
  | NetworkInfo _ | BatteryLevel _ => None
  end.
(** The member of [SystemStatusReports] for a kind. *)
Definition slot_of (k : Kind) : DataItemId :=
  match k with
  | KAirplaneMode => 0 | KENH => 1 | KGPSState => 2 | KNLPStatus => 3 | KWifiHardwareState => 4 | KRilServiceInfo => 7
  | KRilCellInfo => 8 | KServiceStatus => 9 | KModel => 10 | KManufacturer => 11 | KAssistedGps => 13 | KScreenState => 14
  | KPowerConnectState => 15 | KTimeZoneChange => 16 | KTimeChange => 17 | KWifiSupplicant => 18 | KShutdownState => 19
  | KTac => 20 | KMccmnc => 21 | KBtLe => 22 | KBt => 23
  end.
(** What is stored in the report of a kind: the items of that kind, but for the scans, which
    are stored as those of the other radio. *)
Definition swapped (d : DataItem) : DataItem :=
  match d with BtLeDeviceScanDetails n => BtDeviceScanDetails n | BtDeviceScanDetails n => BtLeDeviceScanDetails n | d => d end.
Definition stored_as (k : Kind) (events : list (Z * DataItem)) : list (Z * DataItem) :=
  filter (fun e => kind_of e.2 = Some k) ((fun e => (e.1, swapped e.2)) <$> events).
(** The changes among items of one kind: of items that say the same one after the other, the
    first, with its time and the time of the last of them. *)
Fixpoint changes (events : list (Z * DataItem)) : list SystemStatusItem :=
  match events with
  | [] => []
  | e :: events =>
      match changes events with
      | s :: rest => if decide (content (item s) = content e.2) then MkItem e.2 e.1 (mUtcReported s) :: rest else MkItem e.2 e.1 e.1 :: s :: rest
      | [] => [MkItem e.2 e.1 e.1]
      end
  end.
(** Items that arrive at given times. *)
Definition notify_all (events : list (Z * DataItem)) (c : SystemStatusReports) : SystemStatusReports :=
  foldl (fun c e => (eventDataItemNotify e.1 c e.2).1.1) c events.
Definition lastn {A} (n : nat) (l : list A) : list A := drop (length l - n) l.

(** The report of a connection that comes up or goes down. *)
Record NetworkEvent := MkNetworkEvent {
  ev_connected : bool; ev_network : NetworkInfoType; ev_roaming : bool; ev_apn : string; ev_time : Z
}.
Definition network_item (e : NetworkEvent) : Z * DataItem :=
  (ev_time e, eventConnectionStatus (ev_connected e) (networkType (ev_network e)) (ev_roaming e)
     (networkHandle (ev_network e)) (ev_apn e)).
#[export] Instance NetworkInfoType_countable : Countable NetworkInfoType.
Proof.
  refine (inj_countable' (fun n => (networkHandle n, networkType n)) (fun p => MkNetworkInfoType p.1 p.2) _). by intros [].
Defined.
(** The connections that are up. *)
Definition live_after (live : gset NetworkInfoType) (e : NetworkEvent) : gset NetworkInfoType :=
  if ev_connected e then {[ev_network e]} ∪ live else live ∖ {[ev_network e]}.
(** What the framework may report: a known handle and type, a handle of one type, and never more
    connections than the table has places. *)
Definition plausible (live : gset NetworkInfoType) (e : NetworkEvent) : Prop :=
  networkHandle (ev_network e) <> NETWORK_HANDLE_UNKNOWN /\ 0 <= networkType (ev_network e) < TYPE_UNKNOWN /\
  (ev_connected e = true -> (size ({[ev_network e]} ∪ live) <= MAX_NETWORK_HANDLES)%nat /\
     forall n, n ∈ live -> networkHandle n = networkHandle (ev_network e) -> n = ev_network e).
Fixpoint plausible_from (live : gset NetworkInfoType) (es : list NetworkEvent) : Prop :=
  match es with [] => True | e :: es => plausible live e /\ plausible_from (live_after live e) es end.
(** The last network report. *)
Definition network_report (c : SystemStatusReports) : option NetworkInfoDataItem :=
  match last (report c NETWORKINFO_DATA_ITEM_ID) with Some s => match item s with NetworkInfo n => Some n | _ => None end | None => None end.
Definition free_places (n : nat) : list NetworkInfoType := replicate n unknown_network.
(** The table lists the connections, each once, before the free places. *)
Definition lists (live : gset NetworkInfoType) (table : list NetworkInfoType) : Prop :=
  exists used, table = used ++ free_places (MAX_NETWORK_HANDLES - length used) /\
    (length used <= MAX_NETWORK_HANDLES)%nat /\ NoDup (networkHandle <$> used) /\
    NETWORK_HANDLE_UNKNOWN ∉ (networkHandle <$> used) /\ list_to_set used = live.
(** The bits of the types of the connections. *)
Definition types_of (live : gset NetworkInfoType) (allTypes : Z) : Prop :=
  forall i, 0 <= i < TYPE_UNKNOWN -> Z.testbit allTypes i = true <-> exists n, n ∈ live /\ networkType n = i.

(** ** Histories *)
Lemma length_lastn {A} n (l : list A) : length (lastn n l) = (n `min` length l)%nat.
Proof. unfold lastn. rewrite length_drop. lia. Qed.
Lemma lastn_all {A} n (l : list A) : (length l <= n)%nat -> lastn n l = l.
Proof. intros H. unfold lastn. by replace (length l - n)%nat with 0%nat by lia. Qed.
Lemma last_lastn {A} n (l : list A) : (0 < n)%nat -> last (lastn n l) = last l.
Proof.
  intros Hn. destruct l as [|x l _] using rev_ind; [done|]. unfold lastn. rewrite length_app. simpl.
  rewrite drop_app_le by lia. by rewrite !last_snoc.
Qed.
Lemma lastn_snoc {A} n (l : list A) x : (0 < n)%nat ->
  (if decide (n < length (lastn n l ++ [x]))%nat then drop 1 (lastn n l ++ [x]) else lastn n l ++ [x]) = lastn n (l ++ [x]).
Proof.
  intros Hn. rewrite length_app, length_lastn. simpl. unfold lastn. rewrite length_app. simpl. case_decide.
  - rewrite drop_app_le by (rewrite length_drop; lia). rewrite drop_drop, drop_app_le by lia. do 2 f_equal. lia.
  - rewrite drop_app_le by lia. do 2 f_equal. lia.
Qed.
Lemma lastn_renew {A} n (l : list A) x : (0 < n)%nat -> l <> [] ->
  take (length (lastn n l) - 1) (lastn n l) ++ [x] = lastn n (take (length l - 1) l ++ [x]).
Proof.
  intros Hn Hl. destruct l as [|y l _] using rev_ind; [done|]. rewrite length_lastn, length_app. simpl.
  rewrite (take_app_le l), (take_ge l) by lia. unfold lastn. rewrite !length_app. simpl. rewrite !drop_app_le by lia.
  rewrite take_app_le, take_ge by (rewrite length_drop; lia). done.
Qed.

(** An item of a kind is the same as another when it says the same. *)
Lemma equals_content k a b : kind_of a = Some k -> kind_of b = Some k -> equals a b = bool_decide (content a = content b).
Proof.
  intros Ha Hb. apply Bool.eq_iff_eq_true. rewrite bool_decide_eq_true.
  destruct a, b; cbn in Ha, Hb; try congruence; cbn [equals content]; rewrite ?bool_decide_eq_true; try done.
  1: destruct status as [], status0 as []; unfold WifiSupplicant_equals. 2, 3: destruct srn as [], srn0 as []; unfold Srn_equals.
  all: simpl; rewrite !andb_true_iff, ?Z.eqb_eq, ?bool_decide_eq_true, ?eqb_true_iff; split; [intros; destruct_and!; by subst|by intros [=]; subst].
Qed.
Lemma collate_kind k a b : kind_of a = Some k -> collate a b = a.
Proof. by destruct a. Qed.

(** The changes with one more item. *)
Lemma changes_snoc es e :
  changes (es ++ [e]) =
    match last (changes es) with
    | Some s =>
        if decide (content (item s) = content e.2) then take (length (changes es) - 1) (changes es) ++ [MkItem (item s) (mUtcTime s) e.1]
        else changes es ++ [MkItem e.2 e.1 e.1]
    | None => changes es ++ [MkItem e.2 e.1 e.1]
    end.
Proof.
  induction es as [|e0 es IH]; [done|]. cbn [app changes]. rewrite IH. clear IH. destruct (changes es) as [|s [|s' rest]].
  - cbn. repeat case_decide; congruence.
  - cbn. repeat (case_decide; cbn); congruence.
  - rewrite last_cons_cons. destruct (last (s' :: rest)) as [l|] eqn:Hl; [|by apply last_None in Hl].
    assert (Ht : forall x, take (length (x :: s' :: rest) - 1) (x :: s' :: rest) = x :: take (length (s' :: rest) - 1) (s' :: rest)).
    { intros x. by replace (length (x :: s' :: rest) - 1)%nat with (S (length (s' :: rest) - 1)) by (simpl; lia). }
    destruct (decide (content (item s) = content e0.2)) as [Hc|Hc].
    + rewrite last_cons_cons, Hl. case_decide; rewrite ?Ht; cbn [app]; by rewrite decide_True.
    + rewrite !last_cons_cons, Hl. case_decide; rewrite ?Ht; cbn [app]; rewrite decide_False by done; [|done].
      by replace (length (MkItem e0.2 e0.1 e0.1 :: s :: s' :: rest) - 1)%nat with (S (S (length (s' :: rest) - 1))) by (simpl; lia).
Qed.
Lemma changes_kind k events : Forall (fun e => kind_of e.2 = Some k) events -> Forall (fun s => kind_of (item s) = Some k) (changes events).
Proof.
  induction 1 as [|e events He _ IH]; [constructor|]. cbn [changes]. destruct (changes events) as [|s rest]; [by repeat constructor|].
  case_decide; [apply Forall_cons in IH as [_ IH]|]; by constructor.
Qed.
Lemma stored_kind k events : Forall (fun e => kind_of e.2 = Some k) (stored_as k events).
Proof. unfold stored_as. apply Forall_forall. intros e He%list_elem_of_filter. tauto. Qed.

(** A report is the recent end of the changes, and an item is recorded when it is a change. *)
Lemma setIteminReport_recent k es now d : Forall (fun e => kind_of e.2 = Some k) es -> kind_of d = Some k ->
  let '(r, _, ret) := setIteminReport (lastn maxItem (changes es)) (MkItem d now now) in
  r = lastn maxItem (changes (es ++ [(now, d)])) /\
  ret = match last (changes es) with Some s => bool_decide (content (item s) <> content d) | None => true end.
Proof.
  intros Hes%changes_kind Hd. assert (Hm : (0 < maxItem)%nat) by (unfold maxItem; lia).
  unfold setIteminReport, ignore. cbn [ignore item mUtcTime mUtcReported]. rewrite last_lastn, changes_snoc by done.
  destruct (last (changes es)) as [s|] eqn:Hl.
  - assert (Hs : kind_of (item s) = Some k) by (rewrite Forall_forall in Hes; by apply Hes, last_Some_elem_of).
    rewrite (collate_kind k), (equals_content k) by done. case_bool_decide as Hc; cbn [fst snd].
    + rewrite lastn_renew, decide_True by (done || by intros Hn; rewrite Hn in Hl). split; [done|]. symmetry. by apply bool_decide_false; intros [].
    + rewrite lastn_snoc, decide_False by done. split; [done|]. symmetry. by apply bool_decide_true.
  - rewrite lastn_snoc by done. done.
Qed.
Lemma report_insert c slot slot' r : report (<[slot := r]> c) slot' = if decide (slot' = slot) then r else report c slot'.
Proof. unfold report. case_decide; subst; [by rewrite lookup_insert_eq | by rewrite lookup_insert_ne]. Qed.
Lemma notify_report now c d slot :
  report (eventDataItemNotify now c d).1.1 slot =
    if decide (report_of (getId d) = Some slot) then (setIteminReport (report c slot) (MkItem (cast_item d) now now)).1.1 else report c slot.
Proof.
  unfold eventDataItemNotify. destruct (report_of (getId d)) as [slot'|]; [|by rewrite decide_False].
  destruct (setIteminReport (report c slot') (MkItem (cast_item d) now now)) as [[r s] ret] eqn:Hr. cbn [fst]. rewrite report_insert.
  destruct (decide (slot = slot')) as [->|]; [rewrite decide_True, Hr by done; done|]. rewrite decide_False by congruence. done.
Qed.
Lemma report_kind d k : report_of (getId d) = Some (slot_of k) <-> kind_of (swapped d) = Some k.
Proof. by destruct d, k. Qed.
Lemma stored_snoc k events e :
  stored_as k (events ++ [e]) = stored_as k events ++ (if decide (kind_of (swapped e.2) = Some k) then [(e.1, swapped e.2)] else []).
Proof. unfold stored_as. rewrite fmap_app, filter_app. by f_equal. Qed.

(** ** The table *)
Definition swap_remove {A} (i : nat) (l : list A) : list A :=
  match last l with
  | Some x => if decide (i = length l - 1)%nat then take i l else <[i := x]> (take (length l - 1) l)
  | None => l
  end.

Lemma connect_handle_used h t used n : NETWORK_HANDLE_UNKNOWN ∉ (networkHandle <$> used) -> h <> NETWORK_HANDLE_UNKNOWN ->
  connect_handle h t (used ++ free_places (S n)) =
    if decide (h ∈ networkHandle <$> used) then used ++ free_places (S n) else (used ++ [MkNetworkInfoType h t]) ++ free_places n.
Proof.
  intros Hu Hh. induction used as [|e used IH]; cbn [app connect_handle fmap list_fmap].
  - cbn. rewrite (proj2 (Z.eqb_neq _ _) Hh). done.
  - rewrite fmap_cons, not_elem_of_cons in Hu. destruct Hu as [He Hu].
    destruct (Z.eqb_spec h (networkHandle e)) as [->|Hne]; [by rewrite decide_True by set_solver|].
    rewrite (proj2 (Z.eqb_neq NETWORK_HANDLE_UNKNOWN _)), IH by done.
    destruct (decide (h ∈ networkHandle <$> used)) as [H1|H1]; [rewrite decide_True by set_solver|rewrite decide_False by set_solver]; done.
Qed.
Lemma connect_handle_full h t used : NETWORK_HANDLE_UNKNOWN ∉ (networkHandle <$> used) -> h ∈ networkHandle <$> used ->
  connect_handle h t used = used.
Proof.
  induction used as [|e used IH]; intros Hu Hin; [by apply elem_of_nil in Hin|]. cbn. rewrite fmap_cons, not_elem_of_cons in Hu. destruct Hu as [He Hu].
  destruct (Z.eqb_spec h (networkHandle e)) as [->|Hne]; [done|]. rewrite (proj2 (Z.eqb_neq NETWORK_HANDLE_UNKNOWN _)) by done.
  rewrite IH; [done|done|]. rewrite fmap_cons, elem_of_cons in Hin. tauto.
Qed.

(** Where a network is in the table. *)
Fixpoint place (x : NetworkInfoType) (l : list NetworkInfoType) : option nat :=
  match l with
  | [] => None
  | e :: l => if decide (e = x) then Some 0%nat else S <$> place x l
  end.
Definition others (h t : Z) (used : list NetworkInfoType) : nat :=
  length (filter (fun e => networkType e = t /\ networkHandle e <> h) used).
Lemma others_cons h t e used :
  others h t (e :: used) = if decide (networkType e = t /\ networkHandle e <> h) then S (others h t used) else others h t used.
Proof. unfold others. rewrite filter_cons. by case_decide. Qed.
Lemma place_None x l : place x l = None <-> x ∉ l.
Proof.
  induction l as [|e l IH]; [set_solver|]. cbn. case_decide; [subst; set_solver|]. destruct (place x l); cbn; [|set_solver].
  split; [done|]. intros Hn. destruct IH as [_ IH]. by discriminate IH; set_solver.
Qed.
Lemma place_Some x l i : place x l = Some i -> l !! i = Some x.
Proof.
  revert i. induction l as [|e l IH]; intros i; [done|]. cbn. case_decide; [intros [= <-]; by subst|].
  destruct (place x l); cbn; [|done]. intros [= <-]. cbn. by apply IH.
Qed.
Lemma disconnect_scan_used h t used n d i c : NETWORK_HANDLE_UNKNOWN ∉ (networkHandle <$> used) -> NoDup (networkHandle <$> used) ->
  disconnect_scan h t (used ++ free_places n) d i c =
    (match place (MkNetworkInfoType h t) used with Some j => Some (i + j)%nat | None => d end, (i + length used)%nat, (c + others h t used)%nat).
Proof.
  revert d i c. induction used as [|e used IH]; intros d i c Hu Hnd.
  - cbn. rewrite !Nat.add_0_r. by destruct n.
  - rewrite fmap_cons, not_elem_of_cons in Hu. destruct Hu as [He Hu]. rewrite fmap_cons, NoDup_cons in Hnd. destruct Hnd as [Hne Hnd].
    cbn [app disconnect_scan place length]. rewrite (proj2 (Z.eqb_neq NETWORK_HANDLE_UNKNOWN _)) by done.
    rewrite others_cons.
    destruct (Z.eqb_spec t (networkType e)) as [Ht|Ht], (Z.eqb_spec h (networkHandle e)) as [Hh|Hh]; rewrite IH by done.
    + rewrite (decide_True (P := e = _)) by (destruct e; cbn in *; congruence). rewrite (decide_False (P := _ /\ _)) by (intros [? ?]; congruence).
      assert (place (MkNetworkInfoType h t) used = None) as ->.
      { apply place_None. intros Hin. apply Hne. apply list_elem_of_fmap. exists (MkNetworkInfoType h t). by cbn. }
      apply (f_equal2 pair); [apply (f_equal2 pair); [f_equal|]|]; lia.
    + rewrite (decide_False (P := e = _)) by (intros ->; cbn in *; congruence). rewrite (decide_True (P := _ /\ _)) by auto.
      cbn [length]. destruct (place _ used); cbn; apply (f_equal2 pair); try (apply (f_equal2 pair); try f_equal); lia || done.
    + rewrite (decide_False (P := e = _)) by (intros ->; cbn in *; congruence). rewrite (decide_False (P := _ /\ _)) by (intros [? ?]; congruence).
      destruct (place _ used); cbn; apply (f_equal2 pair); try (apply (f_equal2 pair); try f_equal); lia || done.
    + rewrite (decide_False (P := e = _)) by (intros ->; cbn in *; congruence). rewrite (decide_False (P := _ /\ _)) by (intros [? ?]; congruence).
      destruct (place _ used); cbn; apply (f_equal2 pair); try (apply (f_equal2 pair); try f_equal); lia || done.
Qed.

Lemma list_insert_middle {A} (l1 l2 : list A) x y : <[length l1 := y]> (l1 ++ x :: l2) = l1 ++ y :: l2.
Proof. by rewrite insert_app_r_alt, Nat.sub_diag by done. Qed.

(** The deleted place gets the last used one. *)
Definition moved (used : list NetworkInfoType) (j : nat) : list NetworkInfoType :=
  take (length used - 1) (<[j := default unknown_network (last used)]> used).
Lemma disconnect_handle_used used n j : (j < length used)%nat ->
  disconnect_handle (used ++ free_places n) (Some j) (length used) = moved used j ++ free_places (S n).
Proof.
  intros Hj. unfold disconnect_handle, moved. destruct used as [|x used _] using rev_ind; [simpl in Hj; lia|].
  rewrite last_snoc, length_app in *. simpl in *. replace (pred (length used + 1)) with (length used) by lia.
  replace (length used + 1 - 1)%nat with (length used) by lia. rewrite <- app_assoc. cbn [app].
  rewrite list_lookup_middle by done. cbn [default].
  destruct (decide (j = length used)) as [->|Hne].
  - rewrite !list_insert_middle, take_app_length. done.
  - rewrite !insert_app_l by lia. rewrite <- (length_insert used j x) at 1. rewrite list_insert_middle.
    cbn [id]. rewrite insert_app_l, take_app_length' by (rewrite ?length_insert; lia). done.
Qed.
Lemma moved_perm used j y : used !! j = Some y -> used ≡ₚ y :: moved used j.
Proof.
  intros Hj. pose proof (lookup_lt_Some _ _ _ Hj) as Hlt. unfold moved.
  destruct used as [|x used _] using rev_ind; [done|]. rewrite last_snoc, length_app in *. simpl in *.
  replace (length used + 1 - 1)%nat with (length used) by lia. destruct (decide (j = length used)) as [->|Hne].
  - rewrite lookup_app_r, Nat.sub_diag in Hj by lia. injection Hj as ->. rewrite list_insert_middle, take_app_length.
    by rewrite Permutation_app_comm.
  - rewrite insert_app_l by lia. rewrite take_app_length' by (by rewrite length_insert). rewrite lookup_app_l in Hj by lia.
    rewrite Permutation_app_comm. cbn. rewrite <- (take_drop_middle used j y) at 1 by done.
    rewrite insert_take_drop by lia. rewrite <- !Permutation_middle. apply perm_swap.
Qed.
Lemma lists_perm used live : (length used <= MAX_NETWORK_HANDLES)%nat -> NoDup (networkHandle <$> used) ->
  NETWORK_HANDLE_UNKNOWN ∉ (networkHandle <$> used) -> list_to_set used = live ->
  lists live (used ++ free_places (MAX_NETWORK_HANDLES - length used)).
Proof. intros. exists used. done. Qed.

Lemma lists_size live table : lists live table -> (size live <= MAX_NETWORK_HANDLES)%nat /\
  forall used, table = used ++ free_places (MAX_NETWORK_HANDLES - length used) -> NoDup (networkHandle <$> used) ->
    list_to_set used = live -> length used = size live.
Proof.
  intros (used & -> & Hlen & Hnd & Hu & <-). split.
  - rewrite size_list_to_set; [done|]. by apply NoDup_fmap_1 in Hnd.
  - intros used' _ Hnd' <-. rewrite size_list_to_set; [done|]. by apply NoDup_fmap_1 in Hnd'.
Qed.

Lemma lists_connect live table e : lists live table -> plausible live e -> ev_connected e = true ->
  lists ({[ev_network e]} ∪ live) (connect_handle (networkHandle (ev_network e)) (networkType (ev_network e)) table).
Proof.
  intros (used & -> & Hlen & Hnd & Hu & <-) (Hunk & Ht & Hc) Hconn. destruct (Hc Hconn) as [Hsize Hhandle]. clear Hc.
  destruct (ev_network e) as [h t] eqn:He. cbn [networkHandle networkType] in *.
  destruct (decide (MkNetworkInfoType h t ∈ used)) as [Hin|Hout].
  - assert (Hh : h ∈ networkHandle <$> used) by (apply list_elem_of_fmap; by exists (MkNetworkInfoType h t)).
    assert ({[MkNetworkInfoType h t]} ∪ list_to_set used =@{gset _} list_to_set used) as -> by set_solver.
    assert (connect_handle h t (used ++ free_places (MAX_NETWORK_HANDLES - length used)) =
      used ++ free_places (MAX_NETWORK_HANDLES - length used)) as ->; [|by apply lists_perm].
    destruct (MAX_NETWORK_HANDLES - length used)%nat as [|n] eqn:Hn.
    + cbn. rewrite app_nil_r. by apply connect_handle_full.
    + rewrite (connect_handle_used h t used n) by done. by rewrite decide_True.
  - assert (Hh : h ∉ networkHandle <$> used).
    { intros [n [Hn1 Hn2]]%list_elem_of_fmap. apply Hout. rewrite <- (Hhandle n); [done| |done]. by apply elem_of_list_to_set. }
    assert (Hl : (S (length used) <= MAX_NETWORK_HANDLES)%nat).
    { rewrite size_union, size_singleton, size_list_to_set in Hsize; [lia|by apply NoDup_fmap_1 in Hnd|]. set_solver. }
    destruct (MAX_NETWORK_HANDLES - length used)%nat as [|n] eqn:Hn; [lia|].
    rewrite (connect_handle_used h t used n), decide_False by done.
    exists (used ++ [MkNetworkInfoType h t]). rewrite length_app. simpl. split; [|split; [lia|split; [|split]]].
    + unfold free_places. do 2 f_equal. lia.
    + rewrite fmap_app, NoDup_app. split; [done|]. cbn. split; [set_solver|]. apply NoDup_singleton.
    + rewrite fmap_app, not_elem_of_app. cbn. set_solver.
    + rewrite list_to_set_app_L. cbn. set_solver.
Qed.
Lemma lists_disconnect live table e h t d used c : lists live table -> h = networkHandle (ev_network e) -> t = networkType (ev_network e) ->
  disconnect_scan h t table None 0 0 = (d, used, c) ->
  lists (live ∖ {[ev_network e]}) (disconnect_handle table d used) /\
  (c = 0%nat <-> forall n, n ∈ live -> networkType n = t -> networkHandle n = h).
Proof.
  intros (us & -> & Hlen & Hnd & Hu & <-) -> ->. rewrite (disconnect_scan_used _ _ us _ _ _ _ Hu Hnd). intros [= <- <- <-].
  set (net := ev_network e). split.
  - assert (MkNetworkInfoType (networkHandle net) (networkType net) = net) as -> by by destruct net.
    cbn [Nat.add]. destruct (place net us) as [j|] eqn:Hp.
    + apply place_Some in Hp. rewrite (disconnect_handle_used us) by (by eapply lookup_lt_Some).
      pose proof (moved_perm _ _ _ Hp) as Hperm. pose proof (Permutation_length Hperm) as Hpl. simpl in Hpl.
      assert (Hnd2 : NoDup (networkHandle <$> net :: moved us j)) by (by rewrite <- Hperm).
      assert (Hu2 : NETWORK_HANDLE_UNKNOWN ∉ networkHandle <$> net :: moved us j) by (by rewrite <- Hperm).
      rewrite fmap_cons in Hnd2, Hu2. apply NoDup_cons in Hnd2 as [Hn1 Hn2].
      replace (S (MAX_NETWORK_HANDLES - length us)) with (MAX_NETWORK_HANDLES - length (moved us j))%nat by lia.
      apply lists_perm; [lia|done|set_solver|]. apply set_eq. intros n.
      assert (Hin : n ∈ us <-> n ∈ net :: moved us j) by by rewrite <- Hperm.
      rewrite elem_of_difference, elem_of_singleton, !elem_of_list_to_set, Hin, elem_of_cons.
      assert (net ∉ moved us j) by (intros Hm; apply Hn1, list_elem_of_fmap; eauto). naive_solver.
    + apply place_None in Hp. cbn. assert (list_to_set us ∖ {[net]} =@{gset _} list_to_set us) as -> by set_solver. by apply lists_perm.
  - cbn [Nat.add]. unfold others. rewrite length_zero_iff_nil. split.
    + intros Hf n Hn Hty. apply elem_of_list_to_set in Hn. apply dec_stable. intros Hne.
      assert (n ∈ filter (fun e0 => networkType e0 = networkType net /\ networkHandle e0 <> networkHandle net) us) as Hin by (by apply list_elem_of_filter).
      rewrite Hf in Hin. by apply elem_of_nil in Hin.
    + intros H1. destruct (filter _ us) as [|n l] eqn:Hf; [done|].
      assert (n ∈ filter (fun e0 => networkType e0 = networkType net /\ networkHandle e0 <> networkHandle net) us) as Hin by (rewrite Hf; set_solver).
      apply list_elem_of_filter in Hin as [[Hty Hne] Hin]. destruct Hne. apply H1; [by apply elem_of_list_to_set|done].
Qed.

Lemma lists_set live table : lists live table ->
  live = list_to_set (filter (fun n => networkHandle n <> NETWORK_HANDLE_UNKNOWN) table).
Proof.
  intros (used & -> & _ & _ & Hu & <-). rewrite filter_app, list_to_set_app_L.
  assert (filter (fun n => networkHandle n <> NETWORK_HANDLE_UNKNOWN) (free_places (MAX_NETWORK_HANDLES - length used)) = []) as ->.
  { unfold free_places. induction (MAX_NETWORK_HANDLES - length used)%nat; [done|]. cbn [replicate]. rewrite filter_cons_False by (cbn; tauto). done. }
  apply set_eq. intros n. rewrite elem_of_union, !elem_of_list_to_set, list_elem_of_filter. cbn.
  split; [|set_solver]. intros Hn. left. split; [|done]. intros Heq. apply Hu. rewrite <- Heq. apply list_elem_of_fmap. eauto.
Qed.

(** ** Reports of connections *)
Lemma event_type t : 0 <= t < TYPE_UNKNOWN -> (t + 2 ^ 7) mod 2 ^ 8 - 2 ^ 7 = t.
Proof. unfold TYPE_UNKNOWN. intros H. rewrite Z.mod_small by lia. lia. Qed.
Lemma typeToAllTypes_bit t i : 0 <= t < TYPE_UNKNOWN -> 0 <= i -> Z.testbit (typeToAllTypes t) i = (t =? i).
Proof.
  intros Ht Hi. unfold typeToAllTypes. rewrite Z.geb_leb, (proj2 (Z.leb_gt _ _)), (proj2 (Z.ltb_ge _ _)) by (unfold TYPE_MOBILE; lia).
  cbn [orb]. rewrite Z.shiftl_1_l, Z.pow2_bits_eqb by lia. done.
Qed.
Lemma typeToAllTypes_nonzero t : 0 <= t < TYPE_UNKNOWN -> (typeToAllTypes t =? 0) = false.
Proof.
  intros Ht. apply Z.eqb_neq. intros H0. pose proof (typeToAllTypes_bit t t Ht ltac:(lia)) as Hb. rewrite H0, Z.testbit_0_l, Z.eqb_refl in Hb. done.
Qed.

(** No other connection of the type is up when one goes down. *)
Definition last_of_type (live : gset NetworkInfoType) (e : NetworkEvent) : Prop :=
  ev_connected e = false -> forall n, n ∈ live -> networkType n = networkType (ev_network e) -> networkHandle n = networkHandle (ev_network e).
Fixpoint last_of_type_from (live : gset NetworkInfoType) (es : list NetworkEvent) : Prop :=
  match es with [] => True | e :: es => last_of_type live e /\ last_of_type_from (live_after live e) es end.

Lemma lists_handles live table n m : lists live table -> n ∈ live -> m ∈ live -> networkHandle n = networkHandle m -> n = m.
Proof.
  intros (used & _ & _ & Hnd & _ & <-) Hn Hm Heq. apply elem_of_list_to_set in Hn, Hm.
  apply list_elem_of_lookup in Hn as [i Hi], Hm as [j Hj]. assert (i = j) as ->; [|congruence].
  eapply NoDup_lookup; [done| |]; rewrite list_lookup_fmap; [by rewrite Hi|]. rewrite Hj. cbn. by rewrite Heq.
Qed.

(** What collating the report of an event with the last report gives. *)
Lemma collate_lists live cur e s : lists live (mAllNetworkHandles cur) -> plausible live e ->
  s = SystemStatusNetworkInfo (networkType (ev_network e)) (ev_connected e) (ev_roaming e) (networkHandle (ev_network e)) (ev_apn e) ->
  lists (live_after live e) (mAllNetworkHandles (NetworkInfo_collate s cur)) /\
  (types_of live (mAllTypes cur) -> last_of_type live e -> types_of (live_after live e) (mAllTypes (NetworkInfo_collate s cur))).
Proof.
  intros Hl Hp ->. pose proof Hp as (Hu & Ht & _). unfold NetworkInfo_collate, live_after, last_of_type.
  cbn [mConnected mAllTypes mNetworkHandle mType SystemStatusNetworkInfo NetworkInfoDataItemBase].
  destruct (ev_connected e) eqn:Hc; cbn [mAllNetworkHandles mAllTypes].
  - split; [by apply lists_connect|]. intros Htypes _ i Hi. rewrite Z.lor_spec, orb_true_iff, typeToAllTypes_bit, Z.eqb_eq, (Htypes i Hi) by lia.
    split; [intros [<-|(n & Hn & <-)]; [exists (ev_network e)|exists n]; set_solver|].
    intros (n & [->%elem_of_singleton|Hn]%elem_of_union & <-); eauto.
  - rewrite typeToAllTypes_nonzero by done. cbn [negb].
    destruct (disconnect_scan _ _ _ _ _ _) as [[d used] c] eqn:Hscan. cbn [mAllNetworkHandles mAllTypes].
    destruct (lists_disconnect _ _ _ _ _ _ _ _ Hl eq_refl eq_refl Hscan) as [Hl' Hcount]. split; [done|].
    intros Htypes Hlast. rewrite (proj2 Hcount) by by apply Hlast. cbn [Nat.eqb]. intros i Hi.
    rewrite Z.land_spec, Z.lnot_spec, typeToAllTypes_bit, andb_true_iff, negb_true_iff, Z.eqb_neq, (Htypes i Hi) by lia.
    split.
    + intros [(n & Hn & <-) Hne]. exists n. split; [|done]. apply elem_of_difference. split; [done|]. intros ->%elem_of_singleton. done.
    + intros (n & [Hn Hne]%elem_of_difference & <-). split; [eauto|]. intros Heq. apply Hne, elem_of_singleton.
      destruct (ev_network e) as [h t] eqn:He, n as [h' t']; cbn in *. specialize (Hlast eq_refl _ Hn (eq_sym Heq)). cbn in Hlast. congruence.
Qed.

Definition network_state (live : gset NetworkInfoType) (c : SystemStatusReports) (types_ok : Prop) : Prop :=
  exists n, network_report c = Some n /\ lists live (mAllNetworkHandles n) /\ (types_ok -> types_of live (mAllTypes n)).

Lemma network_report_notify c e : 0 <= networkType (ev_network e) < TYPE_UNKNOWN ->
  report (eventDataItemNotify (ev_time e) c (network_item e).2).1.1 NETWORKINFO_DATA_ITEM_ID =
    (setIteminReport (report c NETWORKINFO_DATA_ITEM_ID) (MkItem (NetworkInfo (SystemStatusNetworkInfo (networkType (ev_network e))
       (ev_connected e) (ev_roaming e) (networkHandle (ev_network e)) (ev_apn e))) (ev_time e) (ev_time e))).1.1.
Proof. intros Ht. rewrite notify_report. cbn [network_item snd]. unfold eventConnectionStatus. by rewrite event_type, decide_True. Qed.

Lemma last_recorded (r : list SystemStatusItem) s : last (if decide (maxItem < length (r ++ [s]))%nat then drop 1 (r ++ [s]) else r ++ [s]) = Some s.
Proof.
  case_decide; [|by rewrite last_snoc]. rewrite drop_app_le, last_snoc; [done|]. unfold maxItem in *. rewrite length_app in *. simpl in *. lia.
Qed.
Lemma network_step live c e P Q : network_state live c P -> plausible live e -> (Q -> P /\ last_of_type live e) ->
  network_state (live_after live e) (eventDataItemNotify (ev_time e) c (network_item e).2).1.1 Q.
Proof.
  intros (cur & Hcur & Hl & Htypes) Hp HQ. pose proof Hp as (_ & Ht & _). unfold network_state, network_report in *.
  rewrite network_report_notify by done. unfold setIteminReport, ignore.
  destruct (last (report c NETWORKINFO_DATA_ITEM_ID)) as [[[] t1 t2]|]; try done. cbn [item] in Hcur. injection Hcur as ->.
  cbn [collate item mUtcTime mUtcReported]. set (s := SystemStatusNetworkInfo _ _ _ _ _).
  destruct (collate_lists live cur e s Hl Hp eq_refl) as [Hl' Ht'].
  cbn [equals]. destruct (NetworkInfo_equals cur (NetworkInfo_collate s cur)) eqn:Heq; cbn [fst].
  - exists cur. rewrite last_snoc. cbn [item]. split; [done|]. unfold NetworkInfo_equals in Heq. rewrite !andb_true_iff, !bool_decide_eq_true in Heq.
    destruct Heq as [[_ Htab] _]. rewrite <- Htab in Hl'. split; [done|]. intros [HP _]%HQ.
    rewrite (lists_set _ _ Hl'), <- (lists_set _ _ Hl). by apply Htypes.
  - exists (NetworkInfo_collate s cur). rewrite last_recorded. cbn [item]. split; [done|]. split; [done|]. intros [HP Hlast]%HQ. auto.
Qed.
Lemma network_run live c es P : network_state live c P -> plausible_from live es ->
  network_state (foldl live_after live es) (notify_all (network_item <$> es) c) (P /\ last_of_type_from live es).
Proof.
  revert live c P. induction es as [|e es IH]; intros live c P Hs Hp.
  - destruct Hs as (n & ? & ? & ?). exists n. naive_solver.
  - destruct Hp as [Hp Hps]. cbn [foldl fmap list_fmap notify_all last_of_type_from]. unfold notify_all in *.
    destruct (IH (live_after live e) _ (P /\ last_of_type live e) (network_step live c e P (P /\ last_of_type live e) Hs Hp ltac:(tauto)) Hps) as (n & Hn & Hl & Ht).
    exists n. split; [done|]. split; [done|]. tauto.
Qed.
Lemma network_start c e P : report c NETWORKINFO_DATA_ITEM_ID = [] -> ev_connected e = true -> plausible ∅ e ->
  network_state (live_after ∅ e) (eventDataItemNotify (ev_time e) c (network_item e).2).1.1 P.
Proof.
  intros Hr Hc (Hu & Ht & _). unfold network_state, network_report. rewrite network_report_notify, Hr by done. unfold setIteminReport, ignore. cbn [last fst].
  rewrite (last_recorded []). cbn [item]. eexists. split; [done|]. unfold live_after. rewrite Hc, union_empty_r_L. split.
  - exists [ev_network e]. cbn. split; [by destruct (ev_network e)|]. split; [unfold MAX_NETWORK_HANDLES; lia|].
    split; [apply NoDup_singleton|]. split; [set_solver|]. set_solver.
  - intros _ i Hi. cbn [mAllTypes SystemStatusNetworkInfo NetworkInfoDataItemBase]. rewrite typeToAllTypes_bit, Z.eqb_eq by lia. set_solver.
Qed.

Lemma plausible_fresh live e : networkHandle (ev_network e) <> NETWORK_HANDLE_UNKNOWN -> 0 <= networkType (ev_network e) < TYPE_UNKNOWN ->
  (size live <? MAX_NETWORK_HANDLES)%nat && bool_decide (set_Forall (fun n => networkHandle n <> networkHandle (ev_network e)) live) = true ->
  plausible live e.
Proof.
  intros Hu Ht [Hs Hf]%andb_true_iff. apply Nat.ltb_lt in Hs. apply bool_decide_eq_true in Hf. split; [done|]. split; [done|]. intros _. split.
  - rewrite size_union, size_singleton; [lia|]. intros n ->%elem_of_singleton Hn. by apply (Hf _ Hn).
  - intros n Hn Heq. by destruct (Hf _ Hn).
Qed.

(** Six networks that come up one after the other. *)
Definition wifi_up (handle : Z) : NetworkEvent := MkNetworkEvent true (MkNetworkInfoType handle TYPE_WIFI) false EmptyString handle.
Definition six_networks : list NetworkEvent := wifi_up <$> [1; 2; 3; 4; 5; 6].

(** C40. [SystemStatus] keeps of each kind of data item the recent changes: whatever items
    arrive, the report of a kind holds the last five changes among the items that are
    stored in it, where items that say the same one after the other count as the first of
    them, with the time of the last; and an item is to be recorded exactly when it does not
    say what the last one said.  What an item says is its members, but for the address of an
    access point, the validity of a scan and the error of a scan.  The items stored in a
    report are those of its kind, but for the two Bluetooth scans, each of which is stored
    in the report of the other.  The reports of networks are the subject of
    [network_table]. *)
Theorem reports_are_recent_history (events : list (Z * DataItem)) (k : Kind) :
  report (notify_all events ∅) (slot_of k) = lastn 5 (changes (stored_as k events)) /\
  forall now d, kind_of (swapped d) = Some k ->
    (eventDataItemNotify now (notify_all events ∅) d).2 = true <->
    forall s, last (changes (stored_as k events)) = Some s -> content (item s) <> content (swapped d).
Proof.
  assert (Hrep : report (notify_all events ∅) (slot_of k) = lastn maxItem (changes (stored_as k events))).
  { induction events as [|e events IH] using rev_ind; [done|]. unfold notify_all in *. rewrite foldl_app. cbn [foldl].
    rewrite notify_report, stored_snoc, IH.
    destruct (decide (kind_of (swapped e.2) = Some k)) as [Hk|Hk]; [|by rewrite decide_False, app_nil_r by by rewrite report_kind].
    rewrite decide_True by by rewrite report_kind.
    pose proof (setIteminReport_recent k _ e.1 (swapped e.2) (stored_kind k events) Hk) as Hs. unfold swapped in Hs at 1.
    change (cast_item e.2) with (swapped e.2). by destruct (setIteminReport _ _) as [[r s] ret], Hs as [-> _]. }
  split; [done|]. intros now d Hk. unfold eventDataItemNotify. rewrite (proj2 (report_kind d k) Hk), Hrep.
  pose proof (setIteminReport_recent k _ now (swapped d) (stored_kind k events) Hk) as Hs. change (cast_item d) with (swapped d).
  destruct (setIteminReport _ _) as [[r s] ret], Hs as [_ ->]. cbn [snd]. destruct (last _) as [s'|].
  - rewrite bool_decide_eq_true. naive_solver.
  - naive_solver.
Qed.

Lemma reports_are_recent_history_witness :
  (eventDataItemNotify 7 (notify_all [(1, ScreenState true); (2, ScreenState false)] ∅) (ScreenState true)).2 = true.
Proof.
  apply (proj2 (reports_are_recent_history [(1, ScreenState true); (2, ScreenState false)] KScreenState)); [reflexivity|].
  intros s [= <-]. discriminate.
Defined.

(** C36. The table of connections, from no network reports on, after events that start with a
    connection.  While handles and types are known ones, a handle has one type and there
    are no more connections up than the table has places, the table of the last network
    report lists exactly the connections that are up, each once, before the free places.
    And if each connection that goes down is the last one of its type, the mask of types
    has exactly the types of these connections; [network_gaps] has what happens otherwise. *)
Theorem network_table (c : SystemStatusReports) (e : NetworkEvent) (es : list NetworkEvent) :
  report c NETWORKINFO_DATA_ITEM_ID = [] -> ev_connected e = true -> plausible_from ∅ (e :: es) ->
  exists n, network_report (notify_all (network_item <$> (e :: es)) c) = Some n /\
    lists (foldl live_after ∅ (e :: es)) (mAllNetworkHandles n) /\
    (last_of_type_from ∅ (e :: es) -> types_of (foldl live_after ∅ (e :: es)) (mAllTypes n)).
Proof.
  intros Hr Hc [Hp Hps]. destruct (network_run _ _ es True (network_start c e True Hr Hc Hp) Hps) as (n & Hn & Hl & Ht).
  exists n. split; [done|]. split; [done|]. intros [_ Hlast]. by apply Ht.
Qed.

Lemma network_table_witness :
  exists n, network_report (notify_all (network_item <$> six_networks) ∅) = Some n /\
    lists (foldl live_after ∅ six_networks) (mAllNetworkHandles n).
Proof.
  destruct (network_table ∅ (wifi_up 1) (wifi_up <$> [2; 3; 4; 5; 6])) as (n & Hn & Hl & _); [reflexivity|reflexivity| |by exists n].
  repeat (split; [apply plausible_fresh; [done | split; by vm_compute | vm_compute; reflexivity]|]). done.
Defined.

Lemma network_types_dropped live c e m : network_state live c False -> plausible live e -> ev_connected e = false ->
  ev_network e ∈ live -> m ∈ live -> networkType m = networkType (ev_network e) -> m <> ev_network e ->
  exists n, network_report (eventDataItemNotify (ev_time e) c (network_item e).2).1.1 = Some n /\
    mAllTypes n = typeToAllTypes (networkType (ev_network e)).
Proof.
  intros (cur & Hcur & Hl & _) Hp Hc He Hm Hty Hne. pose proof Hp as (_ & Ht & _). unfold network_report in *.
  rewrite network_report_notify by done. unfold setIteminReport, ignore.
  destruct (last (report c NETWORKINFO_DATA_ITEM_ID)) as [[[] t1 t2]|]; try done. cbn [item] in Hcur. injection Hcur as ->.
  cbn [collate item mUtcTime mUtcReported]. set (s := SystemStatusNetworkInfo _ _ _ _ _).
  destruct (collate_lists live cur e s Hl Hp eq_refl) as [Hl' _]. unfold live_after in Hl'. rewrite Hc in Hl'.
  cbn [equals]. destruct (NetworkInfo_equals cur (NetworkInfo_collate s cur)) eqn:Heq; cbn [fst].
  - unfold NetworkInfo_equals in Heq. rewrite !andb_true_iff, !bool_decide_eq_true in Heq. destruct Heq as [[_ Htab] _].
    rewrite <- Htab in Hl'. apply lists_set in Hl'. rewrite <- (lists_set _ _ Hl) in Hl'.
    rewrite <- Hl' in He. by apply elem_of_difference in He as [_ []%not_elem_of_singleton].
  - exists (NetworkInfo_collate s cur). rewrite last_recorded. cbn [item]. split; [done|].
    unfold s, NetworkInfo_collate. cbn [mConnected SystemStatusNetworkInfo NetworkInfoDataItemBase mAllTypes mNetworkHandle mType]. rewrite Hc.
    rewrite typeToAllTypes_nonzero by done. cbn [negb].
    destruct (disconnect_scan _ _ _ _ _ _) as [[d used] k] eqn:Hscan. cbn [mAllTypes].
    destruct (lists_disconnect _ _ _ _ _ _ _ _ Hl eq_refl eq_refl Hscan) as [_ Hcount].
    destruct (Nat.eqb_spec k 0) as [Hk|Hk]; [|done]. destruct Hne.
    apply (lists_handles live (mAllNetworkHandles cur)); [exact Hl|exact Hm|exact He|]. exact (proj1 Hcount Hk m Hm Hty).
Qed.

(** Three ways in which the network report is not what is up.  When one of several
    connections of a type goes down, the mask of types keeps only that type, whatever else
    is up.  A first report that a connection is down puts it in the table all the same.
    Resetting the network information only takes down the connections of the last five
    reports: of six networks the first stays. *)
Theorem network_gaps :
  (forall c e es d m, report c NETWORKINFO_DATA_ITEM_ID = [] -> ev_connected e = true -> plausible_from ∅ (e :: es) ->
     let live := foldl live_after ∅ (e :: es) in
     plausible live d -> ev_connected d = false -> ev_network d ∈ live ->
     m ∈ live -> networkType m = networkType (ev_network d) -> m <> ev_network d ->
     exists n, network_report (notify_all (network_item <$> ((e :: es) ++ [d])) c) = Some n /\
       mAllTypes n = typeToAllTypes (networkType (ev_network d))) /\
  (forall c e, report c NETWORKINFO_DATA_ITEM_ID = [] -> ev_connected e = false -> 0 <= networkType (ev_network e) < TYPE_UNKNOWN ->
     exists n, network_report (notify_all [network_item e] c) = Some n /\ head (mAllNetworkHandles n) = Some (ev_network e)) /\
  (let up := notify_all (network_item <$> six_networks) ∅ in
   exists n, network_report (eventDataItemNotify_all 7 up (resetNetworkInfo up)) = Some n /\
     mAllNetworkHandles n = MkNetworkInfoType 1 TYPE_WIFI :: free_places 9).
Proof.
  split; [|split].
  - intros c e es d m Hr Hc [Hp Hps] live Hd Hdc Hin Hm Hty Hne.
    destruct (network_run _ _ es False (network_start c e False Hr Hc Hp) Hps) as (n & Hn & Hl & Ht).
    rewrite fmap_app. unfold notify_all. rewrite foldl_app. cbn [foldl fmap list_fmap].
    apply (network_types_dropped live _ _ m); [|done..]. exists n. done.
  - intros c e Hr Hc Ht. unfold network_report. cbn [notify_all foldl fmap list_fmap].
    change (network_item e).1 with (ev_time e). rewrite network_report_notify, Hr by done. unfold setIteminReport, ignore. cbn [last fst].
    rewrite (last_recorded []). eexists. split; [done|]. cbn. by destruct (ev_network e).
  - eexists. vm_compute. done.
Qed.

Lemma network_gaps_witness :
  exists n, network_report (notify_all (network_item <$> ((wifi_up 1 :: [wifi_up 2]) ++ [MkNetworkEvent false (MkNetworkInfoType 2 TYPE_WIFI) false EmptyString 3])) ∅) = Some n /\
    mAllTypes n = typeToAllTypes TYPE_WIFI.
Proof.
  refine (proj1 network_gaps ∅ (wifi_up 1) [wifi_up 2] (MkNetworkEvent false (MkNetworkInfoType 2 TYPE_WIFI) false EmptyString 3)
    (MkNetworkInfoType 1 TYPE_WIFI) eq_refl eq_refl _ _ eq_refl _ _ eq_refl _).
  - repeat (split; [apply plausible_fresh; [done | split; by vm_compute | vm_compute; reflexivity]|]). done.
  - split; [done|]. split; [split; by vm_compute|]. done.
  - apply (bool_decide_unpack (MkNetworkInfoType 2 TYPE_WIFI ∈ _)). by vm_compute.
  - apply (bool_decide_unpack (MkNetworkInfoType 1 TYPE_WIFI ∈ _)). by vm_compute.
  - done.
Defined.
