(* ===== verification/OsObserver.v ===== *)
(** * Observer of the framework's data items
    ([src/gps/core/SystemStatusOsObserver.cpp], [src/gps/core/SystemStatusOsObserver.h])

    Clients subscribe to data items; the observer subscribes with the framework to
    what some client wants, caches the items, and tells each client about the changes
    of those it wants.  Every request but the ones to turn items on and off becomes a
    message of the message task; the messages are processed one at a time, in order
    ([MsgTask]).

    [SystemStatus] is used through an interface, and so is the library of data items,
    which is not in the repository. *)
From S2P Require Import Prelude SetMap SystemStatus.
#[local] Open Scope Z_scope.

Definition Client : Type := Z.   (* an [IDataItemObserver *]; 0 is NULL *)
Definition nullptr : Client := 0.

(** What [SystemStatus] offers to the observer. *)
Class StatusStore (S : Type) := {
  store_notify : Z -> S -> DataItem -> S * DataItem * bool;   (* eventDataItemNotify *)
  store_notify_id now s d : getId (store_notify now s d).1.2 = getId d;
}.
(** What the library of data items offers: a new item of a kind, when it knows the kind, and
    [copy], which makes an item equal to another one of its kind and tells whether that
    changed it. *)
Class DataItemLibrary := {
  createNewDataItem : DataItemId -> option DataItem;
  copy_item : DataItem -> DataItem -> DataItem * bool;       (* [dst->copy(src, &updated)] *)
  create_id id d : createNewDataItem id = Some d -> getId d = id;
  copy_src dst src : getId dst = getId src -> (copy_item dst src).1 = src;
  copy_updated dst src : getId dst = getId src -> (copy_item dst src).2 = negb (bool_decide (dst = src));
}.

(** What the observer asks of the framework, and tells its clients. *)
Inductive Call :=
  | fw_subscribe (items : gset DataItemId) | fw_unsubscribe (items : gset DataItemId) | fw_requestData (items : list DataItemId)
  | fw_turnOn (item : DataItemId) (timeOut : Z) | fw_turnOff (item : DataItemId)
  | fw_connectBackhaul (clientName : string) | fw_disconnectBackhaul (clientName : string)
  | client_notify (client : Client) (items : gmap DataItemId DataItem).

(** The messages. *)
Inductive LocMsg :=
  | SetSubsObj
  | HandleSubscribeReq (l : list DataItemId) (client : Client) (requestData : bool)
  | HandleUpdateSubscriptionReq (l : list DataItemId) (client : Client)
  | HandleUnsubscribeReq (l : list DataItemId) (client : Client)
  | HandleUnsubscribeAllReq (client : Client)
  | HandleNotify (now : Z) (v : list (option DataItem))
  | HandleTurnOnMsg (item : DataItemId) (timeOut : Z) | HandleTurnOffMsg (item : DataItemId)
  | HandleConnectBackhaul (clientName : string) | HandleDisconnectBackhaul (clientName : string).

Section observer.
Context {S : Type} {HS : StatusStore S} {HL : DataItemLibrary}.
Context (reads_freed : bool).

Record Observer := MkObserver {
  mSubscriptionObj : bool;                      (* mContext.mSubscriptionObj is not NULL *)
  mFrameworkActionReqObj : bool;
  mClientToDataItems : LocUnorderedSetMap Client DataItemId;
  mDataItemToClients : LocUnorderedSetMap DataItemId Client;
  mDataItemCache : gmap DataItemId DataItem;
  mActiveRequestCount : gmap DataItemId Z;
  mBackHaulConnReqCache : gset string;
  mSystemStatus : S;
  calls : list Call;                            (* made so far *)
}.
Implicit Types (o : Observer).

Definition set_maps (c2d : LocUnorderedSetMap Client DataItemId) (d2c : LocUnorderedSetMap DataItemId Client) (o : Observer) : Observer :=
  MkObserver (mSubscriptionObj o) (mFrameworkActionReqObj o) c2d d2c (mDataItemCache o) (mActiveRequestCount o)
    (mBackHaulConnReqCache o) (mSystemStatus o) (calls o).
Definition set_cache (s : S) (cache : gmap DataItemId DataItem) (o : Observer) : Observer :=
  MkObserver (mSubscriptionObj o) (mFrameworkActionReqObj o) (mClientToDataItems o) (mDataItemToClients o) cache
    (mActiveRequestCount o) (mBackHaulConnReqCache o) s (calls o).
Definition set_counts (counts : gmap DataItemId Z) (o : Observer) : Observer :=
  MkObserver (mSubscriptionObj o) (mFrameworkActionReqObj o) (mClientToDataItems o) (mDataItemToClients o) (mDataItemCache o)
    counts (mBackHaulConnReqCache o) (mSystemStatus o) (calls o).
Definition set_backhaul (names : gset string) (o : Observer) : Observer :=
  MkObserver (mSubscriptionObj o) (mFrameworkActionReqObj o) (mClientToDataItems o) (mDataItemToClients o) (mDataItemCache o)
    (mActiveRequestCount o) names (mSystemStatus o) (calls o).
Definition call (c : Call) (o : Observer) : Observer :=
  MkObserver (mSubscriptionObj o) (mFrameworkActionReqObj o) (mClientToDataItems o) (mDataItemToClients o) (mDataItemCache o)
    (mActiveRequestCount o) (mBackHaulConnReqCache o) (mSystemStatus o) (calls o ++ [c]).

(** ** Helpers *)
Definition sendCachedDataItems (s : gset DataItemId) (to : Client) (o : Observer) : Observer :=
  if to =? nullptr then o
  else
    let dataItems := filter (fun p => p.1 ∈ s) (mDataItemCache o) in
    if decide (dataItems = ∅) then o else call (client_notify to dataItems) o.

(** Returns the cached item that is not the one the message has (the status store may have
    changed it), and whether it is new or different. *)
Definition updateCache (now : Z) (d : option DataItem) (o : Observer) : Observer * bool :=
  match d with
  | None => (o, false)
  | Some d =>
      let '(s, d, handled) := store_notify now (mSystemStatus o) d in
      if handled then
        match mDataItemCache o !! getId d with
        | None =>
            match createNewDataItem (getId d) with
            | Some dataitem => (set_cache s (<[getId d := (copy_item dataitem d).1]> (mDataItemCache o)) o, true)
            | None => (set_cache s (mDataItemCache o) o, false)
            end
        | Some cached =>
            let '(cached, dataItemUpdated) := copy_item cached d in
            (set_cache s (<[getId d := cached]> (mDataItemCache o)) o, dataItemUpdated)
        end
      else (set_cache s (mDataItemCache o) o, false)
  end.

(** ** The handlers ([proc]) *)
Definition proc_SetSubsObj (o : Observer) : Observer :=
  let o := MkObserver true (mFrameworkActionReqObj o) (mClientToDataItems o) (mDataItemToClients o) (mDataItemCache o)
    (mActiveRequestCount o) (mBackHaulConnReqCache o) (mSystemStatus o) (calls o) in
  if empty (mDataItemToClients o) then o
  else
    let dis := getKeys (mDataItemToClients o) in
    call (fw_requestData (elements dis)) (call (fw_subscribe dis) o).

Definition proc_Subscribe (l : list DataItemId) (client : Client) (toRequestData : bool) (o : Observer) : Observer :=
  let mDataItemSet := list_to_set l in
  let '(d2c, new) := add_keys (mDataItemToClients o) mDataItemSet {[client]} (Some ∅) in
  let dataItemsToSubscribe := default ∅ new in
  let c2d := (add (mClientToDataItems o) client mDataItemSet).1 in
  let o := sendCachedDataItems mDataItemSet client (set_maps c2d d2c o) in
  if mSubscriptionObj o then
    if toRequestData then call (fw_requestData l) o
    else if decide (dataItemsToSubscribe = ∅) then o else call (fw_subscribe dataItemsToSubscribe) o
  else o.

Definition proc_UpdateSubscription (l : list DataItemId) (client : Client) (o : Observer) : option Observer :=
  '(c2d, mDataItemSet, unused) ← update reads_freed (mClientToDataItems o) client (list_to_set l);
  '(d2c, goneKeys, _) ← trimOrRemove reads_freed (mDataItemToClients o) unused {[client]} (Some ∅) None;
  let dataItemsToUnsubscribe := default ∅ goneKeys in
  let '(d2c, new) := add_keys d2c mDataItemSet {[client]} (Some ∅) in
  let dataItemsToSubscribe := default ∅ new in
  let o := sendCachedDataItems mDataItemSet client (set_maps c2d d2c o) in
  Some (if mSubscriptionObj o then
    let o := if decide (dataItemsToSubscribe = ∅) then o else call (fw_subscribe dataItemsToSubscribe) o in
    if decide (dataItemsToUnsubscribe = ∅) then o else call (fw_unsubscribe dataItemsToUnsubscribe) o
  else o).

Definition proc_Unsubscribe (l : list DataItemId) (client : Client) (o : Observer) : option Observer :=
  '(c2d, _, unused) ← trimOrRemove reads_freed (mClientToDataItems o) {[client]} (list_to_set l) (Some ∅) (Some ∅);
  let dataItemsUnusedByClient := default ∅ unused in
  '(d2c, goneKeys, _) ← trimOrRemove reads_freed (mDataItemToClients o) dataItemsUnusedByClient {[client]} (Some ∅) None;
  let dataItemsToUnsubscribe := default ∅ goneKeys in
  let o := set_maps c2d d2c o in
  Some (if mSubscriptionObj o && negb (bool_decide (dataItemsToUnsubscribe = ∅)) then call (fw_unsubscribe dataItemsToUnsubscribe) o else o).

Definition proc_UnsubscribeAll (client : Client) (o : Observer) : option Observer :=
  let diByClient := getValSet (mClientToDataItems o) client in
  if decide (diByClient = ∅) then Some o
  else
    let c2d := remove (mClientToDataItems o) client in
    '(d2c, goneKeys, _) ← trimOrRemove reads_freed (mDataItemToClients o) diByClient {[client]} (Some ∅) None;
    let dataItemsToUnsubscribe := default ∅ goneKeys in
    let o := set_maps c2d d2c o in
    Some (if mSubscriptionObj o && negb (bool_decide (dataItemsToUnsubscribe = ∅)) then call (fw_unsubscribe dataItemsToUnsubscribe) o else o).

(** Updates the cache with all items; the identifiers of those that changed. *)
Definition update_all (now : Z) (v : list (option DataItem)) (o : Observer) : Observer * gset DataItemId :=
  foldl (fun '(o, sent) d =>
    let '(o, updated) := updateCache now d o in
    (o, match d with Some d => if (updated : bool) then {[getId d]} ∪ sent else sent | None => sent end)) (o, ∅) v.
Definition clients_of (d2c : LocUnorderedSetMap DataItemId Client) (sent : gset DataItemId) : gset Client :=
  ⋃ ((fun each => default ∅ (getValSetPtr d2c each)) <$> elements sent).
Definition proc_Notify (now : Z) (v : list (option DataItem)) (o : Observer) : Observer :=
  let '(o, dataItemIdsToBeSent) := update_all now v o in
  let clientSet := clients_of (mDataItemToClients o) dataItemIdsToBeSent in
  foldl (fun o client =>
    let dataItemIdsForThisClient := filter (fun id => id ∈ dataItemIdsToBeSent) (getValSet (mClientToDataItems o) client) in
    sendCachedDataItems dataItemIdsForThisClient client o) o (elements clientSet).

Definition proc (m : LocMsg) (o : Observer) : option Observer :=
  match m with
  | SetSubsObj => Some (proc_SetSubsObj o)
  | HandleSubscribeReq l client requestData => Some (proc_Subscribe l client requestData o)
  | HandleUpdateSubscriptionReq l client => proc_UpdateSubscription l client o
  | HandleUnsubscribeReq l client => proc_Unsubscribe l client o
  | HandleUnsubscribeAllReq client => proc_UnsubscribeAll client o
  | HandleNotify now v => Some (proc_Notify now v o)
  | HandleTurnOnMsg item timeOut => Some (call (fw_turnOn item timeOut) o)
  | HandleTurnOffMsg item => Some (call (fw_turnOff item) o)
  | HandleConnectBackhaul name => Some (call (fw_connectBackhaul name) o)
  | HandleDisconnectBackhaul name => Some (call (fw_disconnectBackhaul name) o)
  end.

(** ** The requests: the messages they send, and what they change themselves *)
Definition setSubscriptionObj (isNull : bool) : list LocMsg := if isNull then [] else [SetSubsObj].
Definition subscribe (l : list DataItemId) (client : Client) (toRequestData : bool) : list LocMsg :=
  if bool_decide (l = []) || (client =? nullptr) then [] else [HandleSubscribeReq l client toRequestData].
Definition updateSubscription (l : list DataItemId) (client : Client) : list LocMsg :=
  if bool_decide (l = []) || (client =? nullptr) then [] else [HandleUpdateSubscriptionReq l client].
Definition unsubscribe (l : list DataItemId) (client : Client) : list LocMsg :=
  if bool_decide (l = []) || (client =? nullptr) then [] else [HandleUnsubscribeReq l client].
Definition unsubscribeAll (client : Client) : list LocMsg := if client =? nullptr then [] else [HandleUnsubscribeAllReq client].
(** [dataItemVec(dlist.size())] starts with as many NULL pointers; items of kinds that the
    library does not know are left out. *)
Definition notify (now : Z) (dlist : list DataItem) : list LocMsg :=
  if bool_decide (dlist = []) then []
  else [HandleNotify now (replicate (length dlist) None ++
    omap (fun each => di ← createNewDataItem (getId each); Some (Some (copy_item di each).1)) dlist)].

Definition turnOn (dit : DataItemId) (timeOut : Z) (o : Observer) : Observer * list LocMsg :=
  if mFrameworkActionReqObj o then
    match mActiveRequestCount o !! dit with
    | None => (set_counts (<[dit := 1]> (mActiveRequestCount o)) o, [HandleTurnOnMsg dit timeOut])
    | Some refs => (set_counts (<[dit := refs + 1]> (mActiveRequestCount o)) o, [])
    end
  else (o, []).
Definition turnOff (dit : DataItemId) (o : Observer) : Observer * list LocMsg :=
  if mFrameworkActionReqObj o then
    match mActiveRequestCount o !! dit with
    | Some refs =>
        if refs - 1 =? 0 then (set_counts (delete dit (mActiveRequestCount o)) o, [HandleTurnOffMsg dit])
        else (set_counts (<[dit := refs - 1]> (mActiveRequestCount o)) o, [])
    | None => (o, [])
    end
  else (o, []).
Definition connectBackhaul (clientName : string) (o : Observer) : Observer * list LocMsg * bool :=
  if mFrameworkActionReqObj o then (o, [HandleConnectBackhaul clientName], true)
  else (set_backhaul ({[clientName]} ∪ mBackHaulConnReqCache o) o, [], false).
Definition disconnectBackhaul (clientName : string) (o : Observer) : Observer * list LocMsg * bool :=
  if mFrameworkActionReqObj o then (o, [HandleDisconnectBackhaul clientName], false)
  else (set_backhaul (mBackHaulConnReqCache o ∖ {[clientName]}) o, [], false).
Definition setFrameworkActionReqObj (isNull : bool) (o : Observer) : Observer * list LocMsg :=
  let o := MkObserver (mSubscriptionObj o) (negb isNull) (mClientToDataItems o) (mDataItemToClients o) (mDataItemCache o)
    (mActiveRequestCount o) (mBackHaulConnReqCache o) (mSystemStatus o) (calls o) in
  let '(o, msgs) := foldl (fun '(o, msgs) name => let '(o, ms, _) := connectBackhaul name o in (o, msgs ++ ms))
    (o, []) (elements (mBackHaulConnReqCache o)) in
  (set_backhaul ∅ o, msgs).
End observer.
#[global] Arguments Observer S : clear implicits.
