(* ===== verification/OsObserverTheorems.v ===== *)
(** * The observer of the framework: theorems *)
From S2P Require Import Prelude SetMap SystemStatus OsObserver.
#[local] Open Scope Z_scope.

(** ** Subscriptions are followed, and clients are told

    The two maps of the observer agree, the framework is subscribed to what clients want,
    and a change of an item is told to exactly the clients that want it; but an updated
    subscription loses what it keeps, and an unsubscription reads freed memory. *)

(** ** The interfaces, implemented *)
Lemma collated_source_id d s : getId (collated_source d s) = getId d.
Proof. by destruct d, s. Qed.
#[export] Program Instance SystemStatus_store : StatusStore SystemStatusReports := {| store_notify := eventDataItemNotify |}.
Next Obligation.
  intros now s d. cbn. unfold eventDataItemNotify. destruct (report_of _); [|done].
  destruct (setIteminReport _ _) as [[r s'] ret]. apply collated_source_id.
Qed.

(** A library that knows the state of the screen and of the power supply. *)
#[export] Program Instance small_library : DataItemLibrary := {|
  createNewDataItem id := if id =? 14 then Some (ScreenState false) else if id =? 15 then Some (PowerConnectState false) else None;
  copy_item dst src := (src, negb (bool_decide (dst = src)))
|}.
Next Obligation.
  intros id d. cbn. destruct (Z.eqb_spec id 14) as [->|]; [by intros [= <-]|]. destruct (Z.eqb_spec id 15) as [->|]; [by intros [= <-]|done].
Qed.
Next Obligation. done. Qed.
Next Obligation. done. Qed.

(** ** Specifications *)
Section properties.
Context {S : Type} {HS : StatusStore S} {HL : DataItemLibrary}.
Implicit Types (o : Observer S).

(** Client [c] wants item [i]. *)
Definition wants o (c : Client) (i : DataItemId) : Prop := maps (mClientToDataItems o) c i.
Definition consistent o : Prop :=
  (forall c i, wants o c i <-> maps (mDataItemToClients o) i c) /\ trimmed (mClientToDataItems o) /\ trimmed (mDataItemToClients o) /\
  (forall i, ~ wants o nullptr i).
(** The items the framework is subscribed to, by the calls made to it. *)
Definition fw_step (live : gset DataItemId) (c : Call) : gset DataItemId :=
  match c with fw_subscribe s => live ∪ s | fw_unsubscribe s => live ∖ s | _ => live end.
Definition subscribed (cs : list Call) : gset DataItemId := foldl fw_step ∅ cs.
(** The items whose data was only requested. *)
Definition requested (msgs : list LocMsg) : gset DataItemId :=
  ⋃ ((fun m => match m with HandleSubscribeReq l _ true => list_to_set l | _ => ∅ end) <$> msgs).
(** Messages as the requests send them, but for updates of subscriptions. *)
Definition proper (m : LocMsg) : Prop :=
  match m with
  | HandleSubscribeReq l c _ | HandleUnsubscribeReq l c => l <> [] /\ c <> nullptr
  | HandleUpdateSubscriptionReq _ _ => False
  | _ => True
  end.
Fixpoint process (reads_freed : bool) (msgs : list LocMsg) o : option (Observer S) :=
  match msgs with [] => Some o | m :: msgs => o' ← proc reads_freed m o; process reads_freed msgs o' end.
Definition new_observer (s : S) : Observer S := MkObserver false false ∅ ∅ ∅ ∅ ∅ s [].

(** The wanted items, subscribed or only requested. *)
Definition followed o (R : gset DataItemId) : Prop :=
  consistent o /\ (if mSubscriptionObj o then subscribed (calls o) ⊆ dom (mDataItemToClients o) /\
     dom (mDataItemToClients o) ⊆ subscribed (calls o) ∪ R else subscribed (calls o) = ∅).

(** ** Calls *)
Lemma subscribed_snoc cs c : subscribed (cs ++ [c]) = fw_step (subscribed cs) c.
Proof. unfold subscribed. by rewrite foldl_app. Qed.
Lemma sendCached_calls s to o : exists cs, sendCachedDataItems s to o = MkObserver (mSubscriptionObj o) (mFrameworkActionReqObj o)
  (mClientToDataItems o) (mDataItemToClients o) (mDataItemCache o) (mActiveRequestCount o) (mBackHaulConnReqCache o) (mSystemStatus o)
  (calls o ++ cs) /\ subscribed (calls o ++ cs) = subscribed (calls o).
Proof.
  unfold sendCachedDataItems. destruct (_ =? _); [|case_decide]; [exists []|exists []|eexists [_]]; rewrite ?app_nil_r.
  - by destruct o.
  - by destruct o.
  - split; [done|]. by rewrite subscribed_snoc.
Qed.

Lemma followed_ext o o' R R' : mSubscriptionObj o' = mSubscriptionObj o -> mClientToDataItems o' = mClientToDataItems o ->
  mDataItemToClients o' = mDataItemToClients o -> subscribed (calls o') = subscribed (calls o) -> R ⊆ R' -> followed o R -> followed o' R'.
Proof.
  unfold followed, consistent, wants. intros -> -> -> -> HR (Hc & Hf). split; [done|]. destruct (mSubscriptionObj o); [|done].
  destruct Hf. set_solver.
Qed.
Lemma followed_sendCached s to o R : followed o R -> followed (sendCachedDataItems s to o) R.
Proof. intros H. destruct (sendCached_calls s to o) as (cs & -> & Hcs). by apply (followed_ext o _ R). Qed.

(** What happens to the followed items [D] and the subscribed ones [F]. *)
Implicit Types (D F L R : gset DataItemId).
Lemma followed_request L D F R : F ⊆ D -> D ⊆ F ∪ R -> F ⊆ L ∪ D /\ L ∪ D ⊆ F ∪ (R ∪ L).
Proof. set_solver. Qed.
Lemma followed_new L D F R : F ⊆ D -> D ⊆ F ∪ R -> F ∪ (L ∖ D) ⊆ L ∪ D /\ L ∪ D ⊆ F ∪ (L ∖ D) ∪ (R ∪ ∅).
Proof.
  intros H1 H2. split; [set_solver|]. intros i [Hi|Hi]%elem_of_union; [destruct (decide (i ∈ D)); set_solver|set_solver].
Qed.
Lemma followed_gone G D F R : F ⊆ D -> D ⊆ F ∪ R -> F ∖ G ⊆ D ∖ G /\ D ∖ G ⊆ F ∖ G ∪ R.
Proof. set_solver. Qed.

(** ** Subscribing *)
Lemma subscribe_maps o l c : l <> [] -> c <> nullptr -> consistent o ->
  let '(d2c, new) := add_keys (mDataItemToClients o) (list_to_set l) {[c]} (Some ∅) in
  let c2d := (add (mClientToDataItems o) c (list_to_set l)).1 in
  consistent (set_maps c2d d2c o) /\ dom d2c = list_to_set l ∪ dom (mDataItemToClients o) /\
  default ∅ new = list_to_set l ∖ dom (mDataItemToClients o).
Proof.
  intros Hl Hc (Hcons & Ht1 & Ht2 & Hnull).
  pose proof (add_keys_spec (mDataItemToClients o) (list_to_set l) ({[c]} : gset Client) (Some ∅) ltac:(set_solver)) as Hadd.
  destruct (add_keys _ _ _ _) as [d2c new]. destruct Hadd as (Hm & Htr & Hd & ->). split; [|split; [done|]].
  - unfold consistent, wants in *. cbn. split; [|split; [by apply add_trimmed|split; [by apply Htr|]]].
    + intros c' i. rewrite add_maps, Hm, elem_of_singleton, elem_of_list_to_set, Hcons. naive_solver.
    + intros i. rewrite add_maps. intros [[<- _]|Hi]; [done|]. by apply Hnull in Hi.
  - cbn. set_solver.
Qed.
Lemma proc_Subscribe_followed l c r o R : l <> [] -> c <> nullptr -> followed o R ->
  followed (proc_Subscribe l c r o) (R ∪ if r then list_to_set l else ∅).
Proof.
  intros Hl Hc [Hcons Hf]. unfold proc_Subscribe. pose proof (subscribe_maps o l c Hl Hc Hcons) as Hm.
  destruct (add_keys _ _ _ _) as [d2c new]. destruct Hm as (Hcons' & Hd & Hn). rewrite Hn.
  destruct (sendCached_calls (list_to_set l) c (set_maps (add (mClientToDataItems o) c (list_to_set l)).1 d2c o)) as (cs & -> & Hcs).
  cbn [mSubscriptionObj set_maps calls] in *.
  destruct (mSubscriptionObj o) eqn:Hs; [destruct r; [|destruct (decide (list_to_set l ∖ dom (mDataItemToClients o) = ∅)) as [He|He]]|]; (split; [exact Hcons'|]); cbn [mSubscriptionObj calls call mDataItemToClients set_maps]; rewrite ?Hs.
  - rewrite subscribed_snoc. cbn [fw_step]. rewrite Hcs, Hd. destruct Hf. by apply followed_request.
  - rewrite Hcs, Hd. replace (subscribed (calls o)) with (subscribed (calls o) ∪ (list_to_set l ∖ dom (mDataItemToClients o)))
      by by rewrite He, union_empty_r_L. destruct Hf. by apply followed_new.
  - rewrite subscribed_snoc. cbn [fw_step]. rewrite Hcs, Hd. destruct Hf. by apply followed_new.
  - by rewrite Hcs.
Qed.

(** ** Unsubscribing *)

(** Taking items from one client: both maps lose the same pairs. *)
Lemma trim_consistent o c (l : gset DataItemId) c2d d2c : consistent o ->
  (forall c' i, maps c2d c' i <-> wants o c' i /\ ~ (c' = c /\ i ∈ l)) -> trimmed c2d ->
  (forall i c', maps d2c i c' <-> maps (mDataItemToClients o) i c' /\ ~ (c' = c /\ i ∈ l)) -> trimmed d2c ->
  consistent (set_maps c2d d2c o).
Proof.
  intros (Hc & _ & _ & Hnull) H1 Ht1 H2 Ht2. unfold consistent, wants. cbn. split; [|split; [done|split; [done|]]].
  - intros c' i. by rewrite H1, H2, Hc.
  - intros i Hi. apply H1 in Hi as [Hi _]. by apply Hnull in Hi.
Qed.
Lemma followed_unsubscribe o R c2d d2c gone : followed o R -> consistent (set_maps c2d d2c o) ->
  dom d2c = dom (mDataItemToClients o) ∖ gone ->
  followed (if mSubscriptionObj o && negb (bool_decide (gone = ∅)) then call (fw_unsubscribe gone) (set_maps c2d d2c o) else set_maps c2d d2c o) R.
Proof.
  intros [_ Hf] Hcons Hd. destruct (mSubscriptionObj o) eqn:Hs; cbn [andb].
  - destruct Hf as [Hf1 Hf2]. destruct (bool_decide_reflect (gone = ∅)) as [Hg|Hg]; cbn [negb]; (split; [exact Hcons|]); cbn; rewrite Hs, ?subscribed_snoc, Hd.
    + rewrite Hg, difference_empty_L. done.
    + cbn [fw_step]. by apply followed_gone.
  - split; [exact Hcons|]. cbn. rewrite Hs. exact Hf.
Qed.
Lemma proc_Unsubscribe_followed l c o R : followed o R ->
  exists o', proc_Unsubscribe true l c o = Some o' /\ followed o' R.
Proof.
  intros Hf. pose proof Hf as [Hcons _]. pose proof Hcons as (Hc & Ht1 & Ht2 & _). unfold proc_Unsubscribe.
  destruct (trimOrRemove_spec (mClientToDataItems o) ({[c]} : gset Client) (list_to_set l) (Some ∅) (Some ∅)) as (c2d & gv & -> & Hm1 & Htr1 & _ & Hgv & _).
  destruct (Hgv _ eq_refl) as (unused & -> & Hunused). cbn [mbind option_bind default id].
  destruct (trimOrRemove_spec (mDataItemToClients o) unused ({[c]} : gset Client) (Some ∅) None) as (d2c & gv & -> & Hm2 & Htr2 & Hd2 & _).
  cbn [mbind option_bind default fmap option_fmap option_map id].
  eexists. split; [reflexivity|]. rewrite union_empty_r_L. cbn [mSubscriptionObj set_maps]. apply (followed_unsubscribe o R); [done| |done].
  apply (trim_consistent o c (list_to_set l)); [done| |auto| |auto].
  - intros c' i. rewrite Hm1. unfold wants. set_solver.
  - intros i c'. rewrite Hm2, elem_of_singleton, Hunused, <- Hc. unfold wants. set_solver.
Qed.
Lemma proc_UnsubscribeAll_followed c o R : followed o R ->
  exists o', proc_UnsubscribeAll true c o = Some o' /\ followed o' R.
Proof.
  intros Hf. pose proof Hf as [Hcons _]. pose proof Hcons as (Hc & Ht1 & Ht2 & _). unfold proc_UnsubscribeAll.
  case_decide; [by exists o|].
  destruct (trimOrRemove_spec (mDataItemToClients o) (getValSet (mClientToDataItems o) c) ({[c]} : gset Client) (Some ∅) None) as (d2c & gv & -> & Hm2 & Htr2 & Hd2 & _).
  cbn [mbind option_bind default fmap option_fmap option_map id].
  eexists. split; [reflexivity|]. rewrite union_empty_r_L. cbn [mSubscriptionObj set_maps]. apply (followed_unsubscribe o R); [done| |done].
  apply (trim_consistent o c (getValSet (mClientToDataItems o) c)); [done| |by apply trimmed_delete| |auto].
  - intros c' i. unfold remove. rewrite maps_delete. unfold wants, maps. destruct (decide (c' = c)) as [->|]; naive_solver.
  - intros i c'. rewrite Hm2, elem_of_singleton. naive_solver.
Qed.

(** ** The other messages *)
Lemma proc_SetSubsObj_followed o R : followed o R -> followed (proc_SetSubsObj o) R.
Proof.
  intros [Hcons Hf]. unfold proc_SetSubsObj, empty. cbn [mDataItemToClients].
  destruct (bool_decide_reflect (mDataItemToClients o = ∅)) as [He|He]; (split; [exact Hcons|]); cbn -[subscribed].
  - destruct (mSubscriptionObj o); [done|]. rewrite Hf, He, dom_empty_L. set_solver.
  - rewrite !subscribed_snoc. cbn [fw_step]. unfold getKeys. destruct (mSubscriptionObj o); [destruct Hf|rewrite Hf]; set_solver.
Qed.
Lemma updateCache_same now d o : mClientToDataItems (updateCache now d o).1 = mClientToDataItems o /\
  mDataItemToClients (updateCache now d o).1 = mDataItemToClients o /\ mSubscriptionObj (updateCache now d o).1 = mSubscriptionObj o /\
  calls (updateCache now d o).1 = calls o.
Proof.
  unfold updateCache. destruct d as [d|]; [|done]. destruct (store_notify _ _ _) as [[s d'] []]; [|done].
  destruct (mDataItemCache o !! getId d') as [cached|]; [by destruct (copy_item cached d')|]. by destruct (createNewDataItem _).
Qed.
Definition update_step (now : Z) (st : Observer S * gset DataItemId) (d : option DataItem) : Observer S * gset DataItemId :=
  let '(o, updated) := updateCache now d st.1 in
  (o, match d with Some d => if (updated : bool) then {[getId d]} ∪ st.2 else st.2 | None => st.2 end).
Lemma update_all_eq now v o : update_all now v o = foldl (update_step now) (o, ∅) v.
Proof.
  unfold update_all. generalize (o, ∅ : gset DataItemId). induction v as [|d v IH]; intros [o' sent]; [done|]. cbn [foldl]. rewrite IH.
  unfold update_step at 3. cbn. by destruct (updateCache now d o').
Qed.
Lemma update_all_same now v o : mClientToDataItems (update_all now v o).1 = mClientToDataItems o /\
  mDataItemToClients (update_all now v o).1 = mDataItemToClients o /\ mSubscriptionObj (update_all now v o).1 = mSubscriptionObj o /\
  calls (update_all now v o).1 = calls o.
Proof.
  rewrite update_all_eq. generalize (∅ : gset DataItemId). revert o. induction v as [|d v IH]; intros o sent; [done|]. cbn [foldl].
  pose proof (updateCache_same now d o) as Hs. unfold update_step at 2 4 6 8. cbn [fst snd]. destruct (updateCache now d o) as [o' u]. cbn [fst] in Hs.
  destruct Hs as (<- & <- & <- & <-). apply IH.
Qed.
Lemma proc_Notify_followed now v o R : followed o R -> followed (proc_Notify now v o) R.
Proof.
  intros Hf. unfold proc_Notify. pose proof (update_all_same now v o) as (H1 & H2 & H3 & H4). destruct (update_all now v o) as [o' sent]. cbn [fst] in *.
  assert (followed o' R) as Hf' by (apply (followed_ext o _ R); congruence || done).
  generalize (elements (clients_of (mDataItemToClients o') sent)). intros l. clear - Hf'.
  revert o' Hf'. induction l as [|c l IH]; intros o' Hf'; [done|]. cbn [foldl]. apply IH. by apply followed_sendCached.
Qed.

(** ** Every message *)
Lemma proc_followed m o R : proper m -> followed o R ->
  exists o', proc true m o = Some o' /\ followed o' (R ∪ requested [m]).
Proof.
  intros Hp Hf. assert (Hmono : forall o', followed o' R -> followed o' (R ∪ requested [m])) by (intros; apply (followed_ext o' _ R); done || set_solver).
  destruct m as [|l c r|l c|l c|c|now v| | | |]; cbn [proc proper] in *.
  - eexists. split; [reflexivity|]. by apply Hmono, proc_SetSubsObj_followed.
  - destruct Hp. eexists. split; [reflexivity|]. unfold requested. cbn. rewrite union_empty_r_L. by apply proc_Subscribe_followed.
  - done.
  - destruct (proc_Unsubscribe_followed l c o R Hf) as (o' & ? & ?). eauto.
  - destruct (proc_UnsubscribeAll_followed c o R Hf) as (o' & ? & ?). eauto.
  - eexists. split; [reflexivity|]. by apply Hmono, proc_Notify_followed.
  - eexists. split; [reflexivity|]. apply Hmono, (followed_ext o _ R); try done. cbn. by rewrite subscribed_snoc.
  - eexists. split; [reflexivity|]. apply Hmono, (followed_ext o _ R); try done. cbn. by rewrite subscribed_snoc.
  - eexists. split; [reflexivity|]. apply Hmono, (followed_ext o _ R); try done. cbn. by rewrite subscribed_snoc.
  - eexists. split; [reflexivity|]. apply Hmono, (followed_ext o _ R); try done. cbn. by rewrite subscribed_snoc.
Qed.

Lemma requested_cons m msgs : requested (m :: msgs) = requested [m] ∪ requested msgs.
Proof. unfold requested. cbn. by rewrite union_empty_r_L. Qed.
Lemma process_followed msgs o R : Forall proper msgs -> followed o R ->
  exists o', process true msgs o = Some o' /\ followed o' (R ∪ requested msgs).
Proof.
  revert o R. induction msgs as [|m msgs IH]; intros o R Hp Hf.
  - exists o. split; [done|]. apply (followed_ext o _ R); try done. set_solver.
  - apply Forall_cons in Hp as [Hm Hp]. destruct (proc_followed m o R Hm Hf) as (o1 & H1 & Hf1). cbn [process]. rewrite H1. cbn [mbind option_bind].
    destruct (IH o1 _ Hp Hf1) as (o' & H2 & Hf2). exists o'. split; [done|]. rewrite requested_cons, union_assoc_L. done.
Qed.
Lemma new_followed s : followed (new_observer s) ∅.
Proof.
  split; [|done]. unfold consistent, wants, maps, getValSet. cbn. split; [|split; [apply trimmed_empty|split; [apply trimmed_empty|]]].
  - intros c i. rewrite !lookup_empty. cbn. set_solver.
  - intros i. rewrite lookup_empty. cbn. set_solver.
Qed.

(** ** Notifications *)

(** Cached items are under their identifier. *)
Definition cache_ok o : Prop := forall i d, mDataItemCache o !! i = Some d -> getId d = i.
(** The clients that are told, in the order they are told. *)
Definition told_clients (cs : list Call) : list Client := omap (fun c => match c with client_notify c _ => Some c | _ => None end) cs.

Lemma updateCache_cache now d o : cache_ok o ->
  let '(o', updated) := updateCache now d o in
  cache_ok o' /\ (forall i, match d with Some d => i = getId d /\ updated = true | None => False end \/ mDataItemCache o' !! i = mDataItemCache o !! i) /\
  (forall i, i ∈ dom (mDataItemCache o) -> i ∈ dom (mDataItemCache o')) /\
  (updated = true -> match d with Some d => getId d ∈ dom (mDataItemCache o') | None => False end).
Proof.
  intros Hok. unfold updateCache. destruct d as [d|]; [|naive_solver].
  pose proof (store_notify_id now (mSystemStatus o) d) as Hid. destruct (store_notify now _ d) as [[s d'] [|]]; cbn in Hid; [|naive_solver].
  rewrite <- Hid. destruct (mDataItemCache o !! getId d') as [cached|] eqn:Hc.
  - pose proof (copy_src cached d' (Hok _ _ Hc)) as Hs. pose proof (copy_updated cached d' (Hok _ _ Hc)) as Hu.
    destruct (copy_item cached d') as [d2 u]. cbn in Hs, Hu. subst d2 u. cbn. split; [|split; [|split]].
    + intros i e. cbn. destruct (decide (i = getId d')) as [->|]; [rewrite lookup_insert_eq; congruence|rewrite lookup_insert_ne by done; apply Hok].
    + intros i. destruct (decide (i = getId d')) as [->|]; [|by rewrite lookup_insert_ne; auto]. rewrite lookup_insert_eq, Hc.
      destruct (bool_decide_reflect (cached = d')) as [->|]; auto.
    + intros i. rewrite dom_insert_L. set_solver.
    + intros _. rewrite dom_insert_L. set_solver.
  - destruct (createNewDataItem (getId d')) as [e|] eqn:He; [|naive_solver].
    pose proof (copy_src e d' (create_id _ _ He)) as ->. cbn. split; [|split; [|split]].
    + intros i e'. cbn. destruct (decide (i = getId d')) as [->|]; [rewrite lookup_insert_eq; congruence|rewrite lookup_insert_ne by done; apply Hok].
    + intros i. destruct (decide (i = getId d')) as [->|]; [by left|by rewrite lookup_insert_ne; auto].
    + intros i. rewrite dom_insert_L. set_solver.
    + intros _. rewrite dom_insert_L. set_solver.
Qed.
Lemma update_loop_cache now v o sent : cache_ok o -> sent ⊆ dom (mDataItemCache o) ->
  let '(o', sent') := foldl (update_step now) (o, sent) v in
  cache_ok o' /\ sent ⊆ sent' /\ sent' ⊆ dom (mDataItemCache o') /\ (forall i, i ∈ sent' \/ mDataItemCache o' !! i = mDataItemCache o !! i).
Proof.
  revert o sent. induction v as [|d v IH]; intros o sent Hok Hsent; [by cbn; auto|]. cbn [foldl]. unfold update_step at 2. cbn [fst snd].
  pose proof (updateCache_cache now d o Hok) as Hu. destruct (updateCache now d o) as [o1 u]. destruct Hu as (Hok1 & Hch & Hdom & Hnew).
  set (sent1 := match d with Some d => if u then {[getId d]} ∪ sent else sent | None => sent end).
  assert (Hs1 : sent1 ⊆ dom (mDataItemCache o1)).
  { intros i Hi. unfold sent1 in Hi. destruct d as [d|]; [destruct u|]; try by apply Hdom, Hsent.
    apply elem_of_union in Hi as [->%elem_of_singleton|Hi]; [by apply Hnew|by apply Hdom, Hsent]. }
  specialize (IH o1 sent1 Hok1 Hs1). destruct (foldl _ _ v) as [o' sent']. destruct IH as (Hok' & Hss & Hd' & Hch').
  assert (sent ⊆ sent1) as Hsub by (unfold sent1; destruct d, u; set_solver).
  split; [done|]. split; [by etrans|]. split; [done|]. intros i. destruct (Hch' i) as [|Heq]; [by left|]. rewrite Heq.
  destruct (Hch i) as [Hi|]; [left|by right]. apply Hss. unfold sent1. destruct d; [|done]. destruct Hi as [-> ->]. set_solver.
Qed.

(** What a client is told of the items that changed. *)
Definition told_items o (sent : gset DataItemId) (c : Client) : gmap DataItemId DataItem :=
  filter (fun p => p.1 ∈ filter (fun id => id ∈ sent) (getValSet (mClientToDataItems o) c)) (mDataItemCache o).
Lemma told_items_lookup o sent c i d :
  told_items o sent c !! i = Some d <-> mDataItemCache o !! i = Some d /\ i ∈ sent /\ wants o c i.
Proof. unfold told_items. rewrite map_lookup_filter_Some. cbn. rewrite elem_of_filter. unfold wants, maps. tauto. Qed.
Fixpoint calls_all (cs : list Call) o : Observer S := match cs with [] => o | c :: cs => calls_all cs (call c o) end.
Lemma calls_all_same cs o : mClientToDataItems (calls_all cs o) = mClientToDataItems o /\ mDataItemToClients (calls_all cs o) = mDataItemToClients o /\
  mDataItemCache (calls_all cs o) = mDataItemCache o /\ calls (calls_all cs o) = calls o ++ cs.
Proof.
  revert o. induction cs as [|c cs IH]; intros o; [by rewrite app_nil_r|]. destruct (IH (call c o)) as (H1 & H2 & H3 & H4).
  cbn [calls_all]. rewrite H1, H2, H3, H4. cbn. by rewrite <- app_assoc.
Qed.
Lemma tell_clients sent cs o : Forall (fun c => c <> nullptr /\ told_items o sent c <> ∅) cs ->
  foldl (fun o client => sendCachedDataItems (filter (fun id => id ∈ sent) (getValSet (mClientToDataItems o) client)) client o) o cs =
    calls_all ((fun c => client_notify c (told_items o sent c)) <$> cs) o.
Proof.
  revert o. induction cs as [|c cs IH]; intros o Hall; [done|]. apply Forall_cons in Hall as [[Hc Hne] Hall]. cbn [foldl fmap list_fmap calls_all].
  unfold sendCachedDataItems at 2. rewrite (proj2 (Z.eqb_neq _ _)) by done. fold (told_items o sent c). rewrite decide_False by done.
  rewrite IH; [done|exact Hall].
Qed.

Lemma elem_of_clients d2c sent c : c ∈ clients_of d2c sent <-> exists i, i ∈ sent /\ maps d2c i c.
Proof.
  unfold clients_of, getValSetPtr. rewrite elem_of_union_list. setoid_rewrite list_elem_of_fmap. setoid_rewrite elem_of_elements.
  unfold maps, getValSet. naive_solver.
Qed.

(** One notification per client that wants one of the items that changed. *)
Lemma proc_Notify_tells now v o : consistent o -> cache_ok o ->
  let '(o1, sent) := update_all now v o in
  calls (proc_Notify now v o) = calls o ++ ((fun c => client_notify c (told_items o1 sent c)) <$> elements (clients_of (mDataItemToClients o) sent)) /\
  mDataItemCache (proc_Notify now v o) = mDataItemCache o1 /\ mClientToDataItems o1 = mClientToDataItems o /\ cache_ok o1 /\
  (forall i, i ∈ sent \/ mDataItemCache o1 !! i = mDataItemCache o !! i) /\ sent ⊆ dom (mDataItemCache o1).
Proof.
  intros (Hcons & _ & _ & Hnull) Hok. unfold proc_Notify. pose proof (update_all_same now v o) as Hsame.
  pose proof (update_loop_cache now v o ∅ Hok ltac:(set_solver)) as Hcache. rewrite <- update_all_eq in Hcache.
  destruct (update_all now v o) as [o1 sent]. cbn [fst] in Hsame. destruct Hsame as (H1 & H2 & _ & H4), Hcache as (Hok1 & _ & Hd & Hch).
  rewrite H2, tell_clients.
  - destruct (calls_all_same ((fun c => client_notify c (told_items o1 sent c)) <$> elements (clients_of (mDataItemToClients o) sent)) o1) as (_ & _ & H5 & H6).
    rewrite H6, H4. split_and!; auto.
  - apply Forall_forall. intros c Hc. apply elem_of_elements, elem_of_clients in Hc as (i & Hi & Hm). apply Hcons in Hm. split; [by intros ->; apply Hnull in Hm|].
    pose proof (Hd i Hi) as Hi2. apply elem_of_dom in Hi2 as [d Hid]. intros He.
    assert (told_items o1 sent c !! i = Some d) as Ht by (apply told_items_lookup; unfold wants; rewrite H1; split_and!; [exact Hid|exact Hi|exact Hm]). rewrite He in Ht. by rewrite lookup_empty in Ht.
Qed.
End properties.

Section theorems.
Context {S : Type} {HS : StatusStore S} {HL : DataItemLibrary}.
Implicit Types (o : Observer S).

(** The observers that the messages of requests lead to, when freed memory keeps its contents. *)
Definition reached (s : S) (msgs : list LocMsg) o : Prop := Forall proper msgs /\ process true msgs (new_observer s) = Some o.

Lemma sendCached_cache s to o : mDataItemCache (sendCachedDataItems s to o) = mDataItemCache o.
Proof. unfold sendCachedDataItems. destruct (_ =? _); [done|]. by case_decide. Qed.
Lemma proc_cache m o o' : proper m -> consistent o -> cache_ok o -> proc true m o = Some o' -> cache_ok o'.
Proof.
  intros Hp Hcons Hok. destruct m as [|l c r|l c|l c|c|now v| | | |]; cbn [proc proper] in *; try (intros [= <-]; exact Hok).
  - intros [= <-]. unfold proc_SetSubsObj. by destruct (empty _).
  - intros [= <-]. unfold proc_Subscribe. destruct (add_keys _ _ _ _) as [d2c new]. intros i d.
    destruct (mSubscriptionObj _); [destruct r; [|case_decide]|]; cbn [mDataItemCache call]; rewrite sendCached_cache; apply Hok.
  - done.
  - unfold proc_Unsubscribe. destruct (trimOrRemove _ (mClientToDataItems o) _ _ _ _) as [[[c2d ?] unused]|]; [|done]. cbn [mbind option_bind].
    destruct (trimOrRemove _ (mDataItemToClients o) _ _ _ _) as [[[d2c gone] ?]|]; [|done]. cbn [mbind option_bind]. intros [= <-].
    by destruct (_ && _).
  - unfold proc_UnsubscribeAll. case_decide; [by intros [= <-]|].
    destruct (trimOrRemove _ (mDataItemToClients o) _ _ _ _) as [[[d2c gone] ?]|]; [|done]. cbn [mbind option_bind]. intros [= <-].
    by destruct (_ && _).
  - intros [= <-]. pose proof (proc_Notify_tells now v o Hcons Hok) as H. destruct (update_all now v o) as [o1 sent].
    destruct H as (_ & Hcache & _ & Hok1 & _). intros i d. rewrite Hcache. apply Hok1.
Qed.
Lemma reached_ok s msgs o : reached s msgs o -> followed o (requested msgs) /\ cache_ok o.
Proof.
  intros [Hp Hrun]. destruct (process_followed msgs (new_observer s) ∅ Hp (new_followed s)) as (o' & Hrun' & Hf).
  rewrite Hrun in Hrun'. injection Hrun' as <-. rewrite union_empty_l_L in Hf. split; [done|]. clear Hf.
  assert (Hgen : forall msgs o0, Forall proper msgs -> (exists R, followed o0 R) -> cache_ok o0 -> process true msgs o0 = Some o -> cache_ok o).
  { clear. induction msgs as [|m msgs IH]; intros o0 Hp [R Hf] Hok; [by intros [= <-]|]. apply Forall_cons in Hp as [Hm Hp]. cbn [process].
    destruct (proc_followed m o0 R Hm Hf) as (o1 & H1 & Hf1). rewrite H1. cbn [mbind option_bind]. apply IH; [done|eauto|].
    destruct Hf as [Hcons _]. by apply (proc_cache m o0). }
  apply (Hgen msgs (new_observer s)); [done|exists ∅; apply new_followed| |done]. intros i d. cbn. by rewrite lookup_empty.
Qed.

(** C25. Whatever requests clients make and in whatever order their messages are processed,
    but for updates of subscriptions ([proper]), and as long as freed memory keeps its contents
    ([process true]; [unsubscribe_reads_freed] and [update_subscription_gap] are what happens else): every
    message is processed; the two maps of the observer stay each other's inverse without
    empty entries; and once there is a subscription object, the framework is subscribed to
    nothing but what some client wants, and to all of it but what was only requested. *)
Theorem subscriptions_followed (s : S) (msgs : list LocMsg) : Forall proper msgs ->
  exists o, process true msgs (new_observer s) = Some o /\ consistent o /\
    (mSubscriptionObj o = false -> subscribed (calls o) = ∅) /\
    (mSubscriptionObj o = true ->
       (forall i, i ∈ subscribed (calls o) -> exists c, wants o c i) /\
       (forall i c, wants o c i -> i ∈ subscribed (calls o) \/ i ∈ requested msgs)).
Proof.
  intros Hp. destruct (process_followed msgs (new_observer s) ∅ Hp (new_followed s)) as (o & Hrun & Hcons & Hf).
  exists o. split; [done|]. split; [done|]. rewrite union_empty_l_L in Hf. destruct Hcons as (Hc & Ht1 & Ht2 & _).
  split; intros Hs; rewrite Hs in Hf; [done|]. destruct Hf as [Hf1 Hf2]. split.
  - intros i Hi. destruct (proj2 (trimmed_maps _ i Ht2) (Hf1 i Hi)) as [c Hm]. exists c. by apply Hc.
  - intros i c Hw. apply elem_of_union, Hf2, (trimmed_maps _ i Ht2). exists c. by apply Hc.
Qed.

(** C27. In every state that requests lead to which do not update subscriptions, as long as freed
    memory keeps its contents ([reached]), a report of data items tells each client at most once; every change of a cached item reaches every client that wants the item, with the
    new item; and no client is told of an item that it does not want. *)
Theorem clients_told (s : S) (msgs : list LocMsg) o (now : Z) (v : list (option DataItem)) : reached s msgs o ->
  exists told, calls (proc_Notify now v o) = calls o ++ told /\ NoDup (told_clients told) /\ length (told_clients told) = length told /\
    (forall i c d, wants o c i -> mDataItemCache (proc_Notify now v o) !! i = Some d -> mDataItemCache o !! i <> Some d ->
       exists items, client_notify c items ∈ told /\ items !! i = Some d) /\
    (forall c items i d, client_notify c items ∈ told -> items !! i = Some d ->
       wants o c i /\ mDataItemCache (proc_Notify now v o) !! i = Some d).
Proof.
  intros Hr. destruct (reached_ok s msgs o Hr) as [[Hcons _] Hok]. pose proof (proc_Notify_tells now v o Hcons Hok) as H.
  destruct (update_all now v o) as [o1 sent]. destruct H as (Hcalls & Hcache & Hc2d & _ & Hch & _).
  eexists. split; [exact Hcalls|]. set (cs := elements (clients_of (mDataItemToClients o) sent)).
  assert (Htc : told_clients ((fun c => client_notify c (told_items o1 sent c)) <$> cs) = cs).
  { clear. unfold told_clients. induction cs as [|c cs IH]; [done|]. cbn. by rewrite IH. }
  rewrite Htc, length_fmap, Hcache. split; [apply NoDup_elements|]. split; [done|]. split.
  - intros i c d Hw Hd Hne. exists (told_items o1 sent c). assert (Hi : i ∈ sent) by (destruct (Hch i); congruence). split.
    + apply list_elem_of_fmap. exists c. split; [done|]. apply elem_of_elements, elem_of_clients. exists i. split; [done|]. by apply Hcons.
    + apply told_items_lookup. unfold wants. rewrite Hc2d. auto.
  - intros c items i d Hin Hd. apply list_elem_of_fmap in Hin as (c' & [= -> ->] & _). apply told_items_lookup in Hd as (Hd & _ & Hw).
    unfold wants in *. rewrite Hc2d in Hw. auto.
Qed.
End theorems.

(** A client that wants the screen and the power supply, and one that wants the screen. *)
Definition two_clients : list LocMsg :=
  setSubscriptionObj false ++ subscribe [14; 15] 1 false ++ subscribe [14] 2 false.
Lemma two_clients_proper : Forall proper two_clients.
Proof. repeat constructor; done. Qed.

Lemma subscriptions_followed_witness :
  exists o, process true two_clients (new_observer (∅ : SystemStatusReports)) = Some o /\ consistent o.
Proof.
  destruct (subscriptions_followed (∅ : SystemStatusReports) two_clients) as (o & Hrun & Hc & _); [repeat constructor; done|by exists o].
Defined.

Lemma clients_told_witness (o := default (new_observer (∅ : SystemStatusReports)) (process true two_clients (new_observer ∅))) :
  exists items, client_notify 2 items ∈ calls (proc_Notify 5 [Some (ScreenState true)] o) /\ items !! 14 = Some (ScreenState true).
Proof.
  destruct (clients_told (∅ : SystemStatusReports) two_clients o 5 [Some (ScreenState true)]) as (told & Hcalls & _ & _ & H & _).
  - split; [repeat constructor; done | vm_compute; reflexivity].
  - destruct (H 14 2 (ScreenState true)) as (items & Hin & Hi).
    + apply (bool_decide_unpack (14 ∈ _)). by vm_compute.
    + by vm_compute.
    + by vm_compute.
    + exists items. split; [rewrite Hcalls; apply elem_of_app; by right|done].
Defined.

Section gaps.
Context {S : Type} {HS : StatusStore S} {HL : DataItemLibrary}.
Implicit Types (o : Observer S).

Lemma maps_Some {K V} `{Countable K, Countable V} (m : LocUnorderedSetMap K V) k v : maps m k v -> k ∈ dom m.
Proof. unfold maps, getValSet. rewrite elem_of_dom. destruct (m !! k); cbn; [eauto|set_solver]. Qed.

(** An update of a subscription does the opposite of what it is for, because [update]
    returns the items that the client keeps as those that it no longer uses.  A kept item
    loses the client: the client still counts as wanting it, but reports of the item do
    not look for it any more, and if it was the only client the framework is unsubscribed
    from the item.  A dropped item keeps the client.  And without freed memory that keeps
    its contents, an update that keeps an item is undefined. *)
Theorem update_subscription_gap o (l : list DataItemId) (c : Client) (kept dropped : DataItemId) :
  consistent o -> wants o c kept -> kept ∈ l -> wants o c dropped -> dropped ∉ l ->
  (exists o', proc_UpdateSubscription true l c o = Some o' /\
    wants o' c kept /\ ~ maps (mDataItemToClients o') kept c /\ ~ wants o' c dropped /\ maps (mDataItemToClients o') dropped c /\
    (mSubscriptionObj o = true -> (forall c', wants o c' kept -> c' = c) -> kept ∉ subscribed (calls o'))) /\
  proc_UpdateSubscription false l c o = None.
Proof.
  intros (Hc & Ht1 & Ht2 & _) Hk Hkl Hd Hdl. assert (Hne : (list_to_set l : gset DataItemId) <> ∅) by set_solver.
  assert (Hcommon : kept ∈ getValSet (mClientToDataItems o) c ∩ list_to_set l) by (apply elem_of_intersection; split; [exact Hk|by apply elem_of_list_to_set]).
  unfold proc_UpdateSubscription. rewrite update_strict, decide_False by first [done | intros He; rewrite He in Hcommon; set_solver].
  split; [|done]. rewrite update_spec by done. cbn [mbind option_bind].
  set (cur := getValSet (mClientToDataItems o) c) in *. set (want := (list_to_set l : gset DataItemId)) in *.
  destruct (trimOrRemove_spec (mDataItemToClients o) (cur ∩ want) ({[c]} : gset Client) (Some ∅) None) as (d2c & gv & -> & Hm & Htr & Hdom & _).
  cbn [mbind option_bind default fmap option_fmap option_map id]. rewrite union_empty_r_L.
  pose proof (add_keys_spec d2c (want ∖ cur) ({[c]} : gset Client) (Some ∅) ltac:(set_solver)) as Hadd.
  destruct (add_keys d2c (want ∖ cur) {[c]} (Some ∅)) as [d2c' new]. destruct Hadd as (Hm' & _ & _ & ->).
  cbn [default fmap option_fmap option_map id]. rewrite union_empty_r_L. set (gone := emptied (mDataItemToClients o) (cur ∩ want) {[c]}) in *.
  destruct (sendCached_calls (want ∖ cur) c (set_maps (<[c:=want]> (mClientToDataItems o)) d2c' o)) as (cs & -> & Hcs).
  cbn [mSubscriptionObj set_maps calls mClientToDataItems mDataItemToClients].
  assert (Hwant : forall i, i ∈ want <-> i ∈ l) by (intros; apply elem_of_list_to_set).
  assert (Hw : wants o c dropped <-> dropped ∈ cur) by done.
  eexists. split; [reflexivity|].
  match goal with |- context [mSubscriptionObj o] => idtac end.
  set (o1 := MkObserver _ _ _ _ _ _ _ _ _). set (o2 := if decide (want ∖ cur ∖ dom d2c = ∅) then o1 else _).
  assert (H2 : mClientToDataItems o2 = <[c:=want]> (mClientToDataItems o) /\ mDataItemToClients o2 = d2c') by (unfold o2; by case_decide).
  set (o3 := if decide (gone = ∅) then o2 else _).
  assert (H3 : mClientToDataItems o3 = <[c:=want]> (mClientToDataItems o) /\ mDataItemToClients o3 = d2c') by (unfold o3; by case_decide).
  assert (H4 : mClientToDataItems (if mSubscriptionObj o then o3 else o1) = <[c:=want]> (mClientToDataItems o) /\
    mDataItemToClients (if mSubscriptionObj o then o3 else o1) = d2c') by by destruct (mSubscriptionObj o).
  unfold wants at 1 2. destruct H4 as [-> ->]. rewrite !maps_insert, !Hm', !Hm, !Hwant.
  split; [by left|]. split; [set_solver|]. split; [naive_solver|]. split; [right; split; [by apply Hc|set_solver]|].
  intros Hs Honly. rewrite Hs. assert (Hg : kept ∈ gone).
  { unfold gone. apply elem_of_emptied. split; [done|]. assert (maps (mDataItemToClients o) kept c) as Hmk by by apply Hc.
    split; [by apply maps_Some in Hmk|]. intros c' Hc'. apply elem_of_singleton, Honly, Hc, Hc'. }
  unfold o3. rewrite decide_False by set_solver. cbn [calls call]. rewrite subscribed_snoc. cbn [fw_step]. set_solver.
Qed.

(** Where the observer reads freed memory: an unsubscription is undefined exactly when it
    takes the last item of the client, or takes an item from its last client, and to
    unsubscribe from everything exactly when some item has no other client. *)
Theorem unsubscribe_reads_freed o (l : list DataItemId) (c : Client) : consistent o ->
  (proc_Unsubscribe false l c o = None <->
     ((exists i, wants o c i) /\ forall i, wants o c i -> i ∈ l) \/ (exists i, i ∈ l /\ wants o c i /\ forall c', wants o c' i -> c' = c)) /\
  (proc_UnsubscribeAll false c o = None <-> exists i, wants o c i /\ forall c', wants o c' i -> c' = c).
Proof.
  intros (Hc & Ht1 & Ht2 & _).
  assert (He : forall keys, emptied (mDataItemToClients o) keys {[c]} <> ∅ <-> exists i, i ∈ keys /\ wants o c i /\ forall c', wants o c' i -> c' = c).
  { intros keys. split.
    - intros [i (Hi & Hd & Hv)%elem_of_emptied]%set_choose_L. exists i. split; [done|].
      destruct (proj2 (trimmed_maps _ i Ht2) Hd) as [c' Hm]. assert (c' = c) as -> by by apply (elem_of_singleton (C:=gset Client)), Hv.
      split; [by apply Hc|]. intros c' Hw. apply (elem_of_singleton (C:=gset Client)), Hv, Hc, Hw.
    - intros (i & Hi & Hw & Honly) He. assert (i ∈ emptied (mDataItemToClients o) keys {[c]}) as Hin; [|rewrite He in Hin; set_solver].
      apply elem_of_emptied. apply Hc in Hw. split; [done|]. split; [by apply maps_Some in Hw|]. intros c' Hc'. apply elem_of_singleton, Honly, Hc, Hc'. }
  assert (Hec : emptied (mClientToDataItems o) {[c]} (list_to_set l) <> ∅ <-> (exists i, wants o c i) /\ forall i, wants o c i -> i ∈ l).
  { split.
    - intros [c' (->%elem_of_singleton & Hd & Hv)%elem_of_emptied]%set_choose_L. split; [by apply (trimmed_maps _ c Ht1)|].
      intros i Hw. by apply (elem_of_list_to_set (C:=gset DataItemId)), Hv.
    - intros [[i Hw] Hall] Hem. assert (c ∈ emptied (mClientToDataItems o) {[c]} (list_to_set l)) as Hin; [|rewrite Hem in Hin; set_solver].
      apply elem_of_emptied. split; [by apply elem_of_singleton|]. split; [by apply maps_Some in Hw|]. intros i' Hi'. by apply elem_of_list_to_set, Hall. }
  split.
  - unfold proc_Unsubscribe. rewrite trimOrRemove_strict. rewrite <- Hec.
    destruct (decide (emptied (mClientToDataItems o) {[c]} (list_to_set l) = ∅)) as [Hem|Hem]; [|cbn; tauto].
    destruct (trimOrRemove_spec (mClientToDataItems o) ({[c]} : gset Client) (list_to_set l) (Some ∅) (Some ∅)) as (c2d & gv & -> & _ & _ & _ & Hgv & _).
    destruct (Hgv _ eq_refl) as (unused & -> & Hunused). cbn [mbind option_bind default id]. rewrite trimOrRemove_strict.
    assert (Hu : forall i, i ∈ unused <-> i ∈ l /\ wants o c i).
    { intros i. rewrite Hunused, elem_of_list_to_set. unfold wants. set_solver. }
    assert (Hem2 : emptied (mDataItemToClients o) unused {[c]} <> ∅ <-> exists i, i ∈ l /\ wants o c i /\ forall c', wants o c' i -> c' = c).
    { rewrite He. setoid_rewrite Hu. split; intros (i & H1); exists i; tauto. }
    rewrite <- Hem2. case_decide as Hd; [|cbn; tauto].
    destruct (trimOrRemove_spec (mDataItemToClients o) unused ({[c]} : gset Client) (Some ∅) None) as (d2c & gv & -> & _). cbn [mbind option_bind]. naive_solver.
  - unfold proc_UnsubscribeAll. specialize (He (getValSet (mClientToDataItems o) c)).
    assert (Hall : emptied (mDataItemToClients o) (getValSet (mClientToDataItems o) c) {[c]} <> ∅ <-> exists i, wants o c i /\ forall c', wants o c' i -> c' = c).
    { rewrite He. split; intros (i & H1); exists i; naive_solver. }
    rewrite <- Hall. destruct (decide (getValSet (mClientToDataItems o) c = ∅)) as [Hem|Hem].
    + split; [done|]. rewrite Hall. intros (i & Hw & _). unfold wants, maps in Hw. rewrite Hem in Hw. set_solver.
    + rewrite trimOrRemove_strict. case_decide as Hd; [|cbn; tauto].
      destruct (trimOrRemove_spec (mDataItemToClients o) (getValSet (mClientToDataItems o) c) ({[c]} : gset Client) (Some ∅) None) as (d2c & gv & -> & _).
      cbn [mbind option_bind]. naive_solver.
Qed.
End gaps.

Lemma two_clients_consistent (o := default (new_observer (∅ : SystemStatusReports)) (process true two_clients (new_observer ∅))) : consistent o.
Proof.
  destruct (process_followed two_clients (new_observer (∅ : SystemStatusReports)) ∅ two_clients_proper (new_followed _)) as (o' & Hrun & Hc & _).
  subst o. by rewrite Hrun.
Qed.

Lemma update_subscription_gap_witness (o := default (new_observer (∅ : SystemStatusReports)) (process true two_clients (new_observer ∅))) :
  exists o', proc_UpdateSubscription true [14] 1 o = Some o' /\ wants o' 1 14 /\ ~ maps (mDataItemToClients o') 14 1.
Proof.
  destruct (update_subscription_gap o [14] 1 14 15) as [(o' & Hu & Hw & Hm & _) _].
  - exact two_clients_consistent.
  - apply (bool_decide_unpack (14 ∈ _)). by vm_compute.
  - set_solver.
  - apply (bool_decide_unpack (15 ∈ _)). by vm_compute.
  - set_solver.
  - by exists o'.
Defined.

Lemma unsubscribe_reads_freed_witness (o := default (new_observer (∅ : SystemStatusReports)) (process true two_clients (new_observer ∅))) :
  proc_UnsubscribeAll false 1 o = None.
Proof.
  apply (unsubscribe_reads_freed o [] 1); [exact two_clients_consistent|]. exists 15. split.
  - apply (bool_decide_unpack (15 ∈ _)). by vm_compute.
  - intros c' Hw. apply two_clients_consistent in Hw. change (c' ∈ ({[1]} : gset Client)) in Hw. by apply elem_of_singleton in Hw.
Defined.

(** ** Turning items on and off *)
Inductive Action := act_on (dit : DataItemId) (timeOut : Z) | act_off (dit : DataItemId).
Section actions.
Context {S : Type} {HS : StatusStore S} {HL : DataItemLibrary}.
Implicit Types (o : Observer S).

Definition act o (a : Action) : Observer S * list LocMsg :=
  match a with act_on dit timeOut => turnOn dit timeOut o | act_off dit => turnOff dit o end.
Definition act_all o (acts : list Action) : Observer S * list LocMsg :=
  foldl (fun st a => let '(o, ms) := act st.1 a in (o, st.2 ++ ms)) (o, []) acts.
(** How many requests keep an item on. *)
Definition keepers (dit : DataItemId) (acts : list Action) : Z :=
  foldl (fun n a => match a with
    | act_on d _ => if d =? dit then n + 1 else n
    | act_off d => if d =? dit then Z.max 0 (n - 1) else n
    end) 0 acts.
(** Whether the framework has an item on, by the messages sent to it. *)
Definition is_on (dit : DataItemId) (ms : list LocMsg) : bool :=
  foldl (fun b m => match m with
    | HandleTurnOnMsg d _ => if d =? dit then true else b
    | HandleTurnOffMsg d => if d =? dit then false else b
    | _ => b
    end) false ms.
(** The framework is never asked to turn on what is on, or off what is off. *)
Fixpoint alternating (dit : DataItemId) (b : bool) (ms : list LocMsg) : bool :=
  match ms with
  | [] => true
  | HandleTurnOnMsg d _ :: ms => if d =? dit then negb b && alternating dit true ms else alternating dit b ms
  | HandleTurnOffMsg d :: ms => if d =? dit then b && alternating dit false ms else alternating dit b ms
  | _ :: ms => alternating dit b ms
  end.
Lemma alternating_app dit b ms ms' :
  alternating dit b (ms ++ ms') = alternating dit b ms && alternating dit (foldl (fun b m => match m with
    | HandleTurnOnMsg d _ => if d =? dit then true else b
    | HandleTurnOffMsg d => if d =? dit then false else b
    | _ => b
    end) b ms) ms'.
Proof.
  revert b. induction ms as [|m ms IH]; intros b; [done|]. cbn [app foldl alternating].
  destruct m; try apply IH; (destruct (_ =? _); [rewrite IH; by rewrite andb_assoc|apply IH]).
Qed.

(** An item is on in the framework exactly while some request keeps it on, and the
    framework is told only when that changes. *)
Theorem items_on_while_kept o (acts : list Action) (dit : DataItemId) :
  mFrameworkActionReqObj o = true -> mActiveRequestCount o = ∅ ->
  let '(o', ms) := act_all o acts in
  mActiveRequestCount o' !! dit = (if keepers dit acts =? 0 then None else Some (keepers dit acts)) /\
  is_on dit ms = negb (keepers dit acts =? 0) /\ alternating dit false ms = true /\ 0 <= keepers dit acts.
Proof.
  intros Hf Hcount. unfold act_all, keepers, is_on.
  enough (H : let '(o', ms) := foldl (fun st a => let '(o, ms) := act st.1 a in (o, st.2 ++ ms)) (o, []) acts in
    mFrameworkActionReqObj o' = true /\
    mActiveRequestCount o' !! dit = (if keepers dit acts =? 0 then None else Some (keepers dit acts)) /\
    is_on dit ms = negb (keepers dit acts =? 0) /\ alternating dit false ms = true /\ 0 <= keepers dit acts).
  { unfold keepers, is_on in H. destruct (foldl _ (o, []) acts) as [o' ms]. tauto. }
  induction acts as [|a acts IH] using rev_ind; [cbn; rewrite Hcount, lookup_empty; auto with lia|].
  rewrite foldl_app. cbn [foldl]. destruct (foldl _ (o, []) acts) as [o' ms]. cbn [fst snd].
  assert (keepers dit (acts ++ [a]) = match a with
    | act_on d _ => if d =? dit then keepers dit acts + 1 else keepers dit acts
    | act_off d => if d =? dit then Z.max 0 (keepers dit acts - 1) else keepers dit acts end) as -> by (unfold keepers; by rewrite foldl_app).
  destruct IH as (Hf' & Hc & Hon & Halt & Hk). set (k := keepers dit acts) in *. clearbody k. unfold is_on in *.
  destruct a as [d t|d]; cbn [act]; unfold turnOn, turnOff; rewrite Hf'.
  - destruct (Z.eqb_spec d dit) as [->|Hne].
    + rewrite Hc. destruct (Z.eqb_spec k 0) as [Hk0|Hk0]; cbn [set_counts mActiveRequestCount mFrameworkActionReqObj];
        rewrite lookup_insert_eq, ?app_nil_r, ?foldl_app, ?alternating_app; cbn [foldl alternating]; rewrite ?Z.eqb_refl.
      * rewrite Hk0, Hon, Halt. cbn. auto with lia.
      * rewrite (proj2 (Z.eqb_neq (k + 1) 0)) by lia. rewrite Hon. auto with lia.
    + destruct (mActiveRequestCount o' !! d); cbn [set_counts mActiveRequestCount mFrameworkActionReqObj];
        rewrite lookup_insert_ne, ?app_nil_r, ?foldl_app, ?alternating_app by done; cbn [foldl alternating];
        rewrite ?(proj2 (Z.eqb_neq d dit)), ?andb_true_r by done; auto.
  - destruct (Z.eqb_spec d dit) as [->|Hne].
    + rewrite Hc. destruct (Z.eqb_spec k 0) as [Hk0|Hk0].
      * rewrite app_nil_r, Hc, Hk0, Hon. cbn. auto with lia.
      * destruct (Z.eqb_spec (k - 1) 0) as [Hk1|Hk1]; cbn [set_counts mActiveRequestCount mFrameworkActionReqObj];
          rewrite ?lookup_delete_eq, ?lookup_insert_eq, ?app_nil_r, ?foldl_app, ?alternating_app; cbn [foldl alternating]; rewrite ?Z.eqb_refl.
        -- assert (k = 1) as -> by lia. rewrite Hon, Halt. cbn. auto with lia.
        -- rewrite Z.max_r by lia. rewrite (proj2 (Z.eqb_neq (k - 1) 0)) by lia. rewrite Hon. auto with lia.
    + destruct (mActiveRequestCount o' !! d) as [refs|]; [destruct (Z.eqb_spec (refs - 1) 0)|]; cbn [set_counts mActiveRequestCount mFrameworkActionReqObj];
        rewrite ?lookup_delete_ne, ?lookup_insert_ne, ?app_nil_r, ?foldl_app, ?alternating_app by done; cbn [foldl alternating];
        rewrite ?(proj2 (Z.eqb_neq d dit)), ?andb_true_r by done; auto.
Qed.
End actions.

Lemma items_on_while_kept_witness (o := setFrameworkActionReqObj false (new_observer (∅ : SystemStatusReports))) :
  is_on 3 (act_all o.1 [act_on 3 0; act_on 3 0; act_off 3]).2 = true.
Proof.
  pose proof (items_on_while_kept o.1 [act_on 3 0; act_on 3 0; act_off 3] 3 eq_refl eq_refl) as H.
  destruct (act_all o.1 [act_on 3 0; act_on 3 0; act_off 3]) as [o' ms]. destruct H as (_ & H & _). cbn [snd]. rewrite H. reflexivity.
Defined.
