(* ===== verification/LocSyncReq.v ===== *)
(** * Synchronous requests to the modem ([src/location/loc_api/loc_api_v02/loc_api_sync_req.cpp])

    A request takes one of eight slots, sends a message, and waits on the condition
    variable of its slot until [loc_sync_process_ind] has seen the indication that
    answers it, or the time is up.  The program is a machine whose steps are the
    critical sections: those under [loc_sync_call_mutex] (taking and freeing a slot,
    and the whole of [loc_sync_process_ind], which also locks each slot in turn) and
    those under the lock of one slot (selecting, waiting).  A label says which thread
    moves and resolves what the machine does not: what [locClientSendReq], in a
    library, returns, and how [pthread_cond_timedwait] ends. *)
From S2P Require Import Prelude.
#[local] Open Scope Z_scope.

Definition LOC_SYNC_REQ_BUFFER_SIZE : nat := 8.
Definition LOC_CLIENT_INVALID_HANDLE_VALUE : Z := 0.
Definition eLOC_CLIENT_SUCCESS : Z := 0.
Definition eLOC_CLIENT_FAILURE_TIMEOUT : Z := 6.
Definition eLOC_CLIENT_FAILURE_INTERNAL : Z := 11.
Definition EINVAL : Z := 22.
Definition EBUSY : Z := 16.
Definition ETIMEDOUT : Z := 110.

Abbreviation thread_id := nat.
Abbreviation payload := (list Z).

(** ** Data *)
Record loc_sync_req_data_s_type := MkSlot {
  client_handle : Z;
  ind_is_selected : bool;
  ind_is_waiting : bool;
  ind_has_arrived : bool;
  req_id : Z;
  recv_ind_payload_ptr : Z;      (* 0 is NULL *)
  recv_ind_id : Z;
  ind_arrived_cond : bool;       (* the thread that waits on the condition variable was signalled *)
}.
Record loc_sync_req_array_s_type := MkArray {
  in_use : bool;
  slot_in_use : list bool;
  slots : list loc_sync_req_data_s_type;
}.
Definition free_slot_data : loc_sync_req_data_s_type :=
  MkSlot LOC_CLIENT_INVALID_HANDLE_VALUE false false false 0 0 0 false.
Definition loc_sync_req_init : loc_sync_req_array_s_type :=
  MkArray false (replicate LOC_SYNC_REQ_BUFFER_SIZE false) (replicate LOC_SYNC_REQ_BUFFER_SIZE free_slot_data).

(** An indication of the modem, and a call of [loc_sync_send_req]. *)
Record Indication := MkInd { i_client : Z; i_id : Z; i_payload : option payload }.
Record Request := MkRequest { r_client : Z; r_req_id : Z; r_ind_id : Z; r_payload_ptr : Z }.

(** Where a request is.  What [send_req] returns is set when it leaves the wait. *)
Inductive Pc :=
  | to_alloc                                    (* [loc_alloc_slot] *)
  | to_select (select_id : nat)                 (* the rest of [loc_sync_select_ind] *)
  | to_send (select_id : nat)                   (* [locClientSendReq] *)
  | to_wait (select_id : nat)                   (* [loc_sync_wait_for_ind] *)
  | in_wait (select_id : nat)                   (* [pthread_cond_timedwait] *)
  | to_free (select_id : nat) (status : Z)      (* [loc_free_slot] *)
  | returned (sent : bool) (status : Z).
Record Thread := MkThread { th_req : Request; th_pc : Pc; th_sent : bool; th_got : list Indication }.

(** [loc_sync_process_ind] on its way through the slots. *)
Record Processing := MkProcessing { p_ind : Indication; p_index : nat; p_in_use : bool; p_consumed : bool }.

(** [th_got] of a thread is not in the program: it lists the indications that were matched
    to its slot since it selected one; nor is [th_sent], whether the request was sent.  [memory] holds the buffers for the payloads. *)
Record State := MkState {
  loc_sync_array : loc_sync_req_array_s_type;
  processing : option Processing;
  threads : gmap thread_id Thread;
  memory : gmap Z payload;
}.
Definition initial : State := MkState loc_sync_req_init None ∅ ∅.

Definition set_array (a : loc_sync_req_array_s_type) (st : State) : State := MkState a (processing st) (threads st) (memory st).
Definition set_processing (p : option Processing) (st : State) : State := MkState (loc_sync_array st) p (threads st) (memory st).
Definition set_thread (t : thread_id) (th : Thread) (st : State) : State :=
  MkState (loc_sync_array st) (processing st) (<[t := th]> (threads st)) (memory st).
Definition goto (th : Thread) (pc : Pc) : Thread := MkThread (th_req th) pc (th_sent th) (th_got th).

Definition slot_of (pc : Pc) : option nat :=
  match pc with
  | to_select i | to_send i | to_wait i | in_wait i | to_free i _ => Some i
  | to_alloc | returned _ _ => None
  end.

(** ** The critical sections *)
Definition update_slot (i : nat) (f : loc_sync_req_data_s_type -> loc_sync_req_data_s_type) (a : loc_sync_req_array_s_type) : loc_sync_req_array_s_type :=
  MkArray (in_use a) (slot_in_use a) (alter f i (slots a)).

Fixpoint first_free (used : list bool) : option nat :=
  match used with
  | [] => None
  | b :: used => if b then S <$> first_free used else Some 0%nat
  end.
(** The slot, or [None] for -1. *)
Definition loc_alloc_slot (a : loc_sync_req_array_s_type) : option nat * loc_sync_req_array_s_type :=
  match first_free (slot_in_use a) with
  | Some i => (Some i, MkArray true (<[i := true]> (slot_in_use a)) (slots a))
  | None => (None, a)
  end.
Definition loc_free_slot (select_id : nat) (a : loc_sync_req_array_s_type) : loc_sync_req_array_s_type :=
  let used := <[select_id := false]> (slot_in_use a) in
  MkArray (if forallb negb used then false else in_use a) used (<[select_id := free_slot_data]> (slots a)).
Definition loc_sync_select_ind (r : Request) (s : loc_sync_req_data_s_type) : loc_sync_req_data_s_type :=
  MkSlot (r_client r) true false false (r_req_id r) (r_payload_ptr r) (r_ind_id r) (ind_arrived_cond s).

(** [memcpy]: the size of the buffer is up to the caller. *)
Definition memcpy (ptr : Z) (data : payload) (m : gmap Z payload) : gmap Z payload :=
  <[ptr := data ++ drop (length data) (default [] (m !! ptr))]> m.
Definition matches (ind : Indication) (used : bool) (s : loc_sync_req_data_s_type) : bool :=
  used && (client_handle s =? i_client ind) && (i_id ind =? recv_ind_id s) && negb (ind_has_arrived s).
(** The payload that is copied, if the slot matches. *)
Definition copied (ind : Indication) (s : loc_sync_req_data_s_type) : option payload :=
  match i_payload ind with
  | Some data => if negb (recv_ind_payload_ptr s =? 0) && bool_decide (data <> []) then Some data else None
  | None => None
  end.
Definition wake_slot (ind : Indication) (s : loc_sync_req_data_s_type) : loc_sync_req_data_s_type :=
  if ind_is_waiting s
  then MkSlot (client_handle s) (ind_is_selected s) true (ind_has_arrived s) (req_id s) (recv_ind_payload_ptr s) (i_id ind) true
  else MkSlot (client_handle s) (ind_is_selected s) false true (req_id s) (recv_ind_payload_ptr s) (recv_ind_id s) (ind_arrived_cond s).

(** The indications matched to a slot, for its thread. *)
Definition deliver (i : nat) (ind : Indication) (th : Thread) : Thread :=
  if decide (slot_of (th_pc th) = Some i) then MkThread (th_req th) (th_pc th) (th_sent th) (th_got th ++ [ind]) else th.

Definition process_begin (ind : Indication) (st : State) : State :=
  if in_use (loc_sync_array st) then set_processing (Some (MkProcessing ind 0 false false)) st else st.
(** One turn of the loop. *)
Definition process_slot (p : Processing) (used : bool) (s : loc_sync_req_data_s_type) (st : State) : State :=
  let i := p_index p in
  let p' := MkProcessing (p_ind p) (S i) (p_in_use p || used) (p_consumed p) in
  if matches (p_ind p) used s then
    let a := update_slot i (wake_slot (p_ind p)) (loc_sync_array st) in
    let threads := deliver i (p_ind p) <$> threads st in
    match copied (p_ind p) s with
    | Some data => MkState a (Some (MkProcessing (p_ind p) (S i) (p_in_use p || used) true)) threads
                     (memcpy (recv_ind_payload_ptr s) data (memory st))
    | None => MkState a (Some p') threads (memory st)
    end
  else set_processing (Some p') st.
Definition process_end (p : Processing) (st : State) : State :=
  let a := loc_sync_array st in
  set_processing None (if p_in_use p then st else set_array (MkArray false (slot_in_use a) (slots a)) st).

(** How [pthread_cond_timedwait] returns. *)
Inductive Wakeup := by_signal | spurious | timed_out.
Definition wait_begin (s : loc_sync_req_data_s_type) : loc_sync_req_data_s_type :=
  MkSlot (client_handle s) (ind_is_selected s) true (ind_has_arrived s) (req_id s) (recv_ind_payload_ptr s) (recv_ind_id s) false.
Definition wait_end (s : loc_sync_req_data_s_type) : loc_sync_req_data_s_type :=
  MkSlot (client_handle s) (ind_is_selected s) false (ind_has_arrived s) (req_id s) (recv_ind_payload_ptr s) (recv_ind_id s) false.
(** The status of [loc_sync_send_req] for what [loc_sync_wait_for_ind] returned. *)
Definition status_of (rc : Z) : Z :=
  if rc <? 0 then if rc =? - ETIMEDOUT then eLOC_CLIENT_FAILURE_TIMEOUT else eLOC_CLIENT_FAILURE_INTERNAL
  else eLOC_CLIENT_SUCCESS.

(** ** The machine *)
Inductive Label :=
  | l_call (t : thread_id) (r : Request)        (* a thread calls [loc_sync_send_req] *)
  | l_alloc (t : thread_id) | l_select (t : thread_id) | l_send (t : thread_id) (status : Z)
  | l_wait (t : thread_id) | l_wake (t : thread_id) (w : Wakeup) | l_free (t : thread_id)
  | l_ind (ind : Indication) | l_slot | l_end.  (* [loc_sync_process_ind] *)

(** The buffers of the calls under way are not NULL or else differ: each belongs to its caller. *)
Definition busy_buffers (st : State) : list Z :=
  omap (fun p => match th_pc p.2 with returned _ _ => None | _ => Some (r_payload_ptr (th_req p.2)) end) (map_to_list (threads st)).

Definition step_alloc (t : thread_id) (th : Thread) (st : State) : option State :=
  match th_pc th, processing st with
  | to_alloc, None =>
      let '(o, a) := loc_alloc_slot (loc_sync_array st) in
      Some (set_array a (set_thread t (goto th
        (match o with Some i => to_select i | None => returned false eLOC_CLIENT_SUCCESS end)) st))
  | _, _ => None
  end.
Definition step_select (t : thread_id) (th : Thread) (st : State) : option State :=
  match th_pc th with
  | to_select i =>
      Some (set_array (update_slot i (loc_sync_select_ind (th_req th)) (loc_sync_array st)) (set_thread t (MkThread (th_req th) (to_send i) false []) st))
  | _ => None
  end.
Definition step_send (t : thread_id) (th : Thread) (status : Z) (st : State) : option State :=
  match th_pc th with
  | to_send i =>
      Some (set_thread t (MkThread (th_req th) (if status =? eLOC_CLIENT_SUCCESS then to_wait i else to_free i status)
        (status =? eLOC_CLIENT_SUCCESS) (th_got th)) st)
  | _ => None
  end.
Definition step_wait (t : thread_id) (th : Thread) (st : State) : option State :=
  match th_pc th with
  | to_wait i =>
      let a := loc_sync_array st in
      match slot_in_use a !! i, slots a !! i with
      | Some true, Some s =>
          if ind_has_arrived s then Some (set_thread t (goto th (to_free i (status_of 0))) st)
          else if ind_is_waiting s then Some (set_thread t (goto th (to_free i (status_of (- EBUSY)))) st)
          else Some (set_array (update_slot i wait_begin a) (set_thread t (goto th (in_wait i)) st))
      | _, _ => Some (set_thread t (goto th (returned (th_sent th) (status_of (- EINVAL)))) st)
      end
  | _ => None
  end.
Definition step_wake (t : thread_id) (th : Thread) (w : Wakeup) (st : State) : option State :=
  match th_pc th with
  | in_wait i =>
      let a := loc_sync_array st in
      s ← slots a !! i;
      if match w with by_signal => ind_arrived_cond s | _ => true end then
        let ret_val := match w with timed_out => - ETIMEDOUT | _ => 0 end in
        Some (set_array (update_slot i wait_end a) (set_thread t (goto th (to_free i (status_of ret_val))) st))
      else None
  | _ => None
  end.
Definition step_free (t : thread_id) (th : Thread) (st : State) : option State :=
  match th_pc th, processing st with
  | to_free i status, None =>
      Some (set_array (loc_free_slot i (loc_sync_array st)) (set_thread t (goto th (returned (th_sent th) status)) st))
  | _, _ => None
  end.
Definition step_slot (p : Processing) (st : State) : option State :=
  let a := loc_sync_array st in
  if (p_index p <? LOC_SYNC_REQ_BUFFER_SIZE)%nat && negb (p_consumed p) then
    used ← slot_in_use a !! p_index p; s ← slots a !! p_index p; Some (process_slot p used s st)
  else None.

Definition step (l : Label) (st : State) : option State :=
  match l with
  | l_call t r =>
      match threads st !! t with
      | None => if bool_decide (r_payload_ptr r <> 0 /\ r_payload_ptr r ∈ busy_buffers st) then None
                else Some (set_thread t (MkThread r to_alloc false []) st)
      | Some _ => None
      end
  | l_alloc t => th ← threads st !! t; step_alloc t th st
  | l_select t => th ← threads st !! t; step_select t th st
  | l_send t status => th ← threads st !! t; step_send t th status st
  | l_wait t => th ← threads st !! t; step_wait t th st
  | l_wake t w => th ← threads st !! t; step_wake t th w st
  | l_free t => th ← threads st !! t; step_free t th st
  | l_ind ind => match processing st with None => Some (process_begin ind st) | Some _ => None end
  | l_slot => p ← processing st; step_slot p st
  | l_end => p ← processing st;
      if (p_index p <? LOC_SYNC_REQ_BUFFER_SIZE)%nat && negb (p_consumed p) then None else Some (process_end p st)
  end.

Fixpoint run (ls : list Label) (st : State) : option State :=
  match ls with [] => Some st | l :: ls => st ← step l st; run ls st end.
Definition reachable (st : State) : Prop := exists ls, run ls initial = Some st.
