(* ===== verification/LocSyncReqProps.v ===== *)
(** * Synchronous requests: slots, buffers and answers *)
From S2P Require Import Prelude LocSyncReq.
#[local] Open Scope Z_scope.

(** ** Specifications *)
Definition answers (ind : Indication) (r : Request) : Prop := i_client ind = r_client r /\ i_id ind = r_ind_id r.
(** The last payload among indications. *)
Definition data_of (ind : Indication) : option payload :=
  data ← i_payload ind; if decide (data = []) then None else Some data.
Definition last_data (got : list Indication) : option payload := last (omap data_of got).
Definition in_progress (th : Thread) : Prop := match th_pc th with returned _ _ => False | _ => True end.
(** The requests that hold a slot. *)
Definition holds (st : State) (t : thread_id) (i : nat) : Prop := exists th, threads st !! t = Some th /\ slot_of (th_pc th) = Some i.

(** What a slot holds for its request. *)
Definition selected (th : Thread) (s : loc_sync_req_data_s_type) : Prop :=
  client_handle s = r_client (th_req th) /\ recv_ind_id s = r_ind_id (th_req th) /\ recv_ind_payload_ptr s = r_payload_ptr (th_req th).
Definition slot_ok (th : Thread) (s : loc_sync_req_data_s_type) : Prop :=
  match th_pc th with
  | to_send _ | to_wait _ => selected th s /\ ind_is_waiting s = false /\ (ind_has_arrived s = true <-> th_got th <> [])
  | in_wait _ => selected th s /\ ind_is_waiting s = true /\ ind_has_arrived s = false /\ (ind_arrived_cond s = true <-> th_got th <> [])
  | to_free _ _ => selected th s /\ ind_is_waiting s = false
  | to_select _ => recv_ind_payload_ptr s = 0
  | _ => True
  end.
Definition buffer_ok (m : gmap Z payload) (th : Thread) : Prop :=
  match th_pc th with
  | to_alloc | to_select _ | returned _ _ => True
  | _ => r_payload_ptr (th_req th) <> 0 -> forall data, last_data (th_got th) = Some data ->
      exists tail, m !! r_payload_ptr (th_req th) = Some (data ++ tail)
  end.
(** The answers a request has seen, and what it returns; [calm] when no wakeup was spurious. *)
Definition outcome (calm : Prop) (th : Thread) : Prop :=
  match th_pc th with
  | to_alloc | to_select _ => th_sent th = false
  | to_send _ => th_sent th = false /\ Forall (fun ind => answers ind (th_req th)) (th_got th)
  | to_wait _ | in_wait _ => th_sent th = true /\ Forall (fun ind => answers ind (th_req th)) (th_got th)
  | to_free _ status => Forall (fun ind => answers ind (th_req th)) (th_got th) /\
      (if th_sent th then (status = eLOC_CLIENT_SUCCESS /\ (calm -> th_got th <> [])) \/ status = eLOC_CLIENT_FAILURE_TIMEOUT
       else status <> eLOC_CLIENT_SUCCESS)
  | returned sent status => sent = th_sent th /\
      (if sent then Forall (fun ind => answers ind (th_req th)) (th_got th) /\
         ((status = eLOC_CLIENT_SUCCESS /\ (calm -> th_got th <> [])) \/ status = eLOC_CLIENT_FAILURE_TIMEOUT) else True)
  end.
Definition processing_ok (used : list bool) (p : Processing) : Prop :=
  (p_index p <= LOC_SYNC_REQ_BUFFER_SIZE)%nat /\ (p_consumed p = true -> p_in_use p = true) /\
  (forall i, (i < p_index p)%nat -> used !! i = Some true -> p_in_use p = true).

Record Inv (calm : Prop) (st : State) : Prop := {
  inv_used_length : length (slot_in_use (loc_sync_array st)) = LOC_SYNC_REQ_BUFFER_SIZE;
  inv_slots_length : length (slots (loc_sync_array st)) = LOC_SYNC_REQ_BUFFER_SIZE;
  inv_used i : slot_in_use (loc_sync_array st) !! i = Some true <-> exists t, holds st t i;
  inv_free i s : slot_in_use (loc_sync_array st) !! i = Some false -> slots (loc_sync_array st) !! i = Some s -> recv_ind_payload_ptr s = 0;
  inv_owner i t t' : holds st t i -> holds st t' i -> t = t';
  inv_in_use i : slot_in_use (loc_sync_array st) !! i = Some true -> in_use (loc_sync_array st) = true;
  inv_processing p : processing st = Some p -> processing_ok (slot_in_use (loc_sync_array st)) p;
  inv_slot t th i s : threads st !! t = Some th -> slot_of (th_pc th) = Some i -> slots (loc_sync_array st) !! i = Some s -> slot_ok th s;
  inv_outcome t th : threads st !! t = Some th -> outcome calm th;
  inv_buffers t t' th th' : threads st !! t = Some th -> threads st !! t' = Some th' -> in_progress th -> in_progress th' ->
    r_payload_ptr (th_req th) <> 0 -> r_payload_ptr (th_req th) = r_payload_ptr (th_req th') -> t = t';
  inv_buffer t th : threads st !! t = Some th -> buffer_ok (memory st) th;
}.

(** ** Steps of one thread *)
Lemma lookup_set_thread t th st t' : threads (set_thread t th st) !! t' = if decide (t' = t) then Some th else threads st !! t'.
Proof. cbn. case_decide; [subst; by rewrite lookup_insert_eq | by rewrite lookup_insert_ne]. Qed.
Lemma holds_set_thread st t th t' i a :
  holds (set_array a (set_thread t th st)) t' i <-> if decide (t' = t) then slot_of (th_pc th) = Some i else holds st t' i.
Proof.
  unfold holds. cbn [set_array threads]. setoid_rewrite lookup_set_thread. case_decide; [|done]. split; [by intros (? & [= <-] & ?)|eauto].
Qed.
Lemma holds_progress st t i th : threads st !! t = Some th -> slot_of (th_pc th) = Some i -> holds st t i /\ in_progress th.
Proof. intros Ht Hi. split; [by exists th|]. unfold in_progress. by destruct (th_pc th). Qed.

(** A step of thread [t] that leaves the slots of the others and the table of used slots alone. *)
Lemma own_step calm (st : State) t th th' f i :
  Inv calm st -> threads st !! t = Some th -> slot_of (th_pc th) = Some i -> slot_of (th_pc th') = Some i ->
  th_req th' = th_req th -> outcome calm th' ->
  (forall s, slots (loc_sync_array st) !! i = Some s -> slot_ok th' (f s)) ->
  (buffer_ok (memory st) th -> buffer_ok (memory st) th') ->
  Inv calm (set_array (update_slot i f (loc_sync_array st)) (set_thread t th' st)).
Proof.
  intros HI Ht Hi Hi' Hreq Hout Hslot Hbuf. pose proof (holds_progress st t i th Ht Hi) as [Hh Hprog].
  assert (Hholds : forall t' j, holds (set_array (update_slot i f (loc_sync_array st)) (set_thread t th' st)) t' j <-> holds st t' j).
  { intros t' j. rewrite holds_set_thread. case_decide; [subst t'|done]. rewrite Hi'. split; [by intros [= <-]|].
    intros (th0 & Hth0 & Hj). congruence. }
  assert (Hlook : forall t' th0, threads (set_thread t th' st) !! t' = Some th0 -> (t' = t /\ th0 = th') \/ (t' <> t /\ threads st !! t' = Some th0)).
  { intros t' th0. rewrite lookup_set_thread. case_decide; [intros [= <-]; by left|by right]. }
  destruct HI as [H1 H2 H3 Hfr H4 H5 H6 H7 H8 H9 H10]. constructor; cbn [set_array loc_sync_array update_slot slot_in_use slots in_use processing memory threads] in *.
  - done.
  - by rewrite length_alter.
  - intros j. rewrite H3. by setoid_rewrite Hholds.
  - intros j s Hj Hs. destruct (decide (j = i)) as [->|Hne].
    + assert (slot_in_use (loc_sync_array st) !! i = Some true) by (apply H3; eauto). congruence.
    + rewrite list_lookup_alter_ne in Hs by done. eauto.
  - intros j t1 t2 Hh1%Hholds Hh2%Hholds. eauto.
  - done.
  - done.
  - intros t' th0 j s Hth Hj Hs. apply Hlook in Hth as [[-> ->]|[Hne Hth]].
    + assert (j = i) as -> by congruence. rewrite list_lookup_alter_eq in Hs. apply fmap_Some in Hs as (s0 & Hs0 & ->). by apply Hslot.
    + assert (j <> i) as Hji by (intros ->; apply Hne, (H4 i); [by exists th0|done]). rewrite list_lookup_alter_ne in Hs by done. eauto.
  - intros t' th0 Hth. apply Hlook in Hth as [[-> ->]|[_ Hth]]; eauto.
  - intros t1 t2 th1 th2 Ht1 Ht2. apply Hlook in Ht1 as [[-> ->]|[Hne1 Ht1]], Ht2 as [[-> ->]|[Hne2 Ht2]]; rewrite ?Hreq; eauto.
  - intros t' th0 Hth. apply Hlook in Hth as [[-> ->]|[_ Hth]]; eauto.
Qed.
Lemma update_slot_id i a : update_slot i id a = a.
Proof. destruct a. unfold update_slot. cbn. f_equal. apply list_eq. intros j. destruct (decide (j = i)) as [->|];
  [rewrite list_lookup_alter_eq; by destruct (_ !! i) | by rewrite list_lookup_alter_ne]. Qed.
Lemma own_step_thread calm (st : State) t th th' i :
  Inv calm st -> threads st !! t = Some th -> slot_of (th_pc th) = Some i -> slot_of (th_pc th') = Some i ->
  th_req th' = th_req th -> outcome calm th' ->
  (forall s, slots (loc_sync_array st) !! i = Some s -> slot_ok th' s) ->
  (buffer_ok (memory st) th -> buffer_ok (memory st) th') ->
  Inv calm (set_thread t th' st).
Proof.
  intros. assert (H' : Inv calm (set_array (update_slot i id (loc_sync_array st)) (set_thread t th' st))) by by eapply own_step.
  by rewrite update_slot_id in H'.
Qed.

(** A step of a thread without a slot. *)
Lemma slotless_step calm (st : State) t th' :
  Inv calm st -> (forall th, threads st !! t = Some th -> slot_of (th_pc th) = None) -> slot_of (th_pc th') = None ->
  outcome calm th' ->
  (in_progress th' -> forall t' th0, t' <> t -> threads st !! t' = Some th0 -> in_progress th0 ->
     r_payload_ptr (th_req th') <> 0 -> r_payload_ptr (th_req th') <> r_payload_ptr (th_req th0)) ->
  Inv calm (set_thread t th' st).
Proof.
  intros HI Hold Hnew Hout Hptr.
  assert (Hholds : forall t' j, holds (set_thread t th' st) t' j <-> holds st t' j).
  { intros t' j. change (set_thread t th' st) with (set_array (loc_sync_array st) (set_thread t th' st)). rewrite holds_set_thread.
    case_decide; [subst t'|done]. split; [congruence|]. intros (th0 & Hth0 & Hj). rewrite (Hold _ Hth0) in Hj. done. }
  destruct HI as [H1 H2 H3 Hfr H4 H5 H6 H7 H8 H9 H10]. constructor; cbn [set_thread loc_sync_array processing memory] in *; try done.
  - intros i. rewrite H3. by setoid_rewrite Hholds.
  - intros i t1 t2 Hh1%Hholds Hh2%Hholds. eauto.
  - intros t' th i s. rewrite lookup_set_thread. case_decide; [intros [= <-]; congruence|]. apply H7.
  - intros t' th. rewrite lookup_set_thread. case_decide; [by intros [= <-]|]. apply H8.
  - intros t1 t2 th1 th2. rewrite !lookup_set_thread. repeat case_decide; subst; intros Ht1 Ht2; simplify_eq; try done.
    + intros Hp1 Hp2 Hnz He. by destruct (Hptr Hp1 t2 th2).
    + intros Hp1 Hp2 Hnz He. destruct (Hptr Hp2 t1 th1); try done; congruence.
    + eauto.
  - intros t' th. rewrite lookup_set_thread. case_decide; [intros [= <-]|apply H10]. unfold buffer_ok. by destruct (th_pc th').
Qed.

(** ** Taking and freeing a slot *)
Lemma first_free_Some used i : first_free used = Some i -> used !! i = Some false.
Proof.
  revert i. induction used as [|[] used IH]; intros i; cbn; [done| |by intros [= <-]].
  intros (j & Hj & ->)%fmap_Some. by apply IH.
Qed.
Lemma first_free_None used : first_free used = None <-> Forall (fun b => b = true) used.
Proof.
  induction used as [|[] used IH]; cbn; [done| |].
  - rewrite Forall_cons, <- IH. destruct (first_free used); naive_solver.
  - split; [done|]. by intros [? _]%Forall_cons.
Qed.
Lemma lookup_insert_bool (used : list bool) i j b c : used !! i = Some c ->
  <[i := b]> used !! j = Some true <-> (j = i /\ b = true) \/ (j <> i /\ used !! j = Some true).
Proof.
  intros Hi. rewrite list_lookup_insert. apply lookup_lt_Some in Hi. case_decide; naive_solver.
Qed.

Lemma alloc_inv calm st t th st' : Inv calm st -> threads st !! t = Some th -> step_alloc t th st = Some st' -> Inv calm st'.
Proof.
  intros HI Ht. unfold step_alloc, loc_alloc_slot. destruct (th_pc th) eqn:Hpc; try done. destruct (processing st) eqn:Hp; [done|].
  destruct (first_free (slot_in_use (loc_sync_array st))) as [i|] eqn:Hfree; intros [= <-].
  - apply first_free_Some in Hfree as Hi. assert (Hnone : forall t', ~ holds st t' i).
    { intros t' Hh. assert (slot_in_use (loc_sync_array st) !! i = Some true) by (apply HI; eauto). congruence. }
    set (th' := goto th (to_select i)). assert (Hholds : forall a t' j, holds (set_array a (set_thread t th' st)) t' j <-> (t' = t /\ j = i) \/ (t' <> t /\ holds st t' j)).
    { intros a t' j. rewrite holds_set_thread. cbn. case_decide; naive_solver. }
    assert (Hpt : ~ exists j, holds st t j) by (intros (j & th0 & Hth0 & Hj); rewrite Ht in Hth0; injection Hth0 as <-; by rewrite Hpc in Hj).
    assert (Hprog : in_progress th) by (unfold in_progress; by rewrite Hpc).
    destruct HI as [H1 H2 H3 Hfr H4 H5 H6 H7 H8 H9 H10].
    constructor; cbn [set_array set_thread loc_sync_array processing memory threads in_use slot_in_use slots] in *; try done.
    + by rewrite length_insert.
    + intros j. rewrite (lookup_insert_bool _ _ _ _ _ Hi). setoid_rewrite Hholds. rewrite H3. split.
      * intros [[-> _]|[Hne [t' Hh]]]; [by exists t; left|]. exists t'. right. split; [|done]. intros ->. eauto.
      * intros (t' & [[-> ->]|[Hne Hh]]); [by left|]. right. split; [|eauto]. intros ->. by apply (Hnone t').
    + intros j s Hj. rewrite list_lookup_insert in Hj. case_decide; [done|]. eauto.
    + intros j t1 t2 Hh1%Hholds Hh2%Hholds. naive_solver.
    + intros p Hpp. congruence.
    + intros t' th0 j s. rewrite lookup_insert. case_decide; [|apply H7]. intros [= <-] [= <-]. cbn. eauto.
    + intros t' th0. rewrite lookup_insert. case_decide; [|apply H8]. intros [= <-]. specialize (H8 _ _ Ht). unfold outcome in *. by rewrite Hpc in H8.
    + intros t1 t2 th1 th2. rewrite !lookup_insert. repeat case_decide; subst; intros Ht1 Ht2; simplify_eq; cbn; eauto.
    + intros t' th0. rewrite lookup_insert. case_decide; [by intros [= <-]|]. apply H10.
  - assert (HI' : Inv calm (set_thread t (goto th (returned false eLOC_CLIENT_SUCCESS)) st)); [|done].
    apply slotless_step; try done.
    + intros th0 Hth0. rewrite Ht in Hth0. injection Hth0 as <-. by rewrite Hpc.
    + cbn. split; [|done]. pose proof (inv_outcome _ _ HI _ _ Ht) as Ho. unfold outcome in Ho. by rewrite Hpc in Ho.
Qed.

Lemma free_inv calm st t th st' : Inv calm st -> threads st !! t = Some th -> step_free t th st = Some st' -> Inv calm st'.
Proof.
  intros HI Ht. unfold step_free. destruct (th_pc th) as [| | | | |i status|] eqn:Hpc; try done. destruct (processing st) eqn:Hp; [done|]. intros [= <-].
  set (th' := goto th (returned (th_sent th) status)).
  assert (Hprog : holds st t i /\ in_progress th) by (apply (holds_progress _ _ _ _ Ht); by rewrite Hpc). destruct Hprog as [Hh Hprog].
  assert (Hi : slot_in_use (loc_sync_array st) !! i = Some true) by (apply HI; eauto).
  assert (Hholds : forall a t' j, holds (set_array a (set_thread t th' st)) t' j <-> t' <> t /\ holds st t' j).
  { intros a t' j. rewrite holds_set_thread. cbn. case_decide; naive_solver. }
  destruct HI as [H1 H2 H3 Hfr H4 H5 H6 H7 H8 H9 H10].
  assert (Hpt : forall j, holds st t j -> j = i) by (intros j (th0 & Hth0 & Hj); rewrite Ht in Hth0; injection Hth0 as <-; rewrite Hpc in Hj; by injection Hj).
  constructor; cbn [set_array set_thread loc_free_slot loc_sync_array processing memory threads in_use slot_in_use slots] in *; try done.
  - by rewrite length_insert.
  - by rewrite length_insert.
  - intros j. rewrite (lookup_insert_bool _ _ _ _ _ Hi), H3. setoid_rewrite Hholds. split.
    + intros [[_ [=]]|[Hne [t' Hh']]]. exists t'. split; [|done]. intros ->. by apply Hne, Hpt.
    + intros (t' & Hne & Hh'). right. split; [|eauto]. intros ->. apply Hne. eauto.
  - intros j s. rewrite !list_lookup_insert. intros Hj. apply lookup_lt_Some in Hi. rewrite H1 in Hi.
    repeat case_decide; try (by intros [= <-]); eauto; lia.
  - intros j t1 t2 [_ Hh1]%Hholds [_ Hh2]%Hholds. eauto.
  - intros j Hj. apply (lookup_insert_bool _ _ _ _ _ Hi) in Hj as Hj'. destruct Hj' as [[_ [=]]|[Hne Hj']].
    destruct (forallb negb _) eqn:Hall; [|eauto]. rewrite forallb_forall in Hall. by specialize (Hall true (proj1 (list_elem_of_In _ _) (list_elem_of_lookup_2 _ _ _ Hj))).
  - intros p Hpp. congruence.
  - intros t' th0 j s. rewrite lookup_insert. case_decide; [by intros [= <-]|]. intros Hth Hj Hs.
    assert (j <> i) by (intros ->; assert (t' = t) by (apply (H4 i); [by exists th0|done]); done).
    rewrite list_lookup_insert_ne in Hs by done. eauto.
  - intros t' th0. rewrite lookup_insert. case_decide; [|apply H8]. intros [= <-]. specialize (H8 _ _ Ht). unfold outcome in *. rewrite Hpc in H8. cbn.
    split; [done|]. by destruct (th_sent th).
  - intros t1 t2 th1 th2. rewrite !lookup_insert. repeat case_decide; subst; intros Ht1 Ht2; simplify_eq; cbn; eauto; try done.
  - intros t' th0. rewrite lookup_insert. case_decide; [by intros [= <-]|]. apply H10.
Qed.

(** ** Selecting, sending, waiting *)
Lemma select_inv calm st t th st' : Inv calm st -> threads st !! t = Some th -> step_select t th st = Some st' -> Inv calm st'.
Proof.
  intros HI Ht. unfold step_select. destruct (th_pc th) as [|i| | | | |] eqn:Hpc; try done. intros [= <-].
  eapply own_step; try done; by rewrite Hpc.
Qed.
Lemma send_inv calm st t th status st' : Inv calm st -> threads st !! t = Some th -> step_send t th status st = Some st' -> Inv calm st'.
Proof.
  intros HI Ht. unfold step_send. destruct (th_pc th) as [| |i| | | |] eqn:Hpc; try done. intros [= <-].
  pose proof (inv_outcome _ _ HI _ _ Ht) as Ho. unfold outcome in Ho. rewrite Hpc in Ho.
  eapply own_step_thread; try done; rewrite ?Hpc; try done.
  - cbn. by case_match.
  - unfold outcome. cbn. destruct (Z.eqb_spec status eLOC_CLIENT_SUCCESS); [by destruct Ho|]. by destruct Ho.
  - intros s Hs. pose proof (inv_slot _ _ HI t th i s Ht ltac:(by rewrite Hpc) Hs) as Hok. unfold slot_ok in *. rewrite Hpc in Hok.
    cbn. destruct (status =? _); [done|]. destruct Hok as (? & ? & _). done.
  - unfold buffer_ok. rewrite Hpc. cbn. by destruct (status =? _).
Qed.
Lemma wait_inv calm st t th st' : Inv calm st -> threads st !! t = Some th -> step_wait t th st = Some st' -> Inv calm st'.
Proof.
  intros HI Ht. unfold step_wait. destruct (th_pc th) as [| | |i| | |] eqn:Hpc; try done.
  assert (Hi : slot_in_use (loc_sync_array st) !! i = Some true) by (apply HI; exists t, th; by rewrite Hpc).
  destruct (slots (loc_sync_array st) !! i) as [s|] eqn:Hs.
  2:{ apply lookup_ge_None in Hs. apply lookup_lt_Some in Hi. rewrite (inv_slots_length _ _ HI) in Hs. rewrite (inv_used_length _ _ HI) in Hi. lia. }
  rewrite Hi. pose proof (inv_slot _ _ HI t th i s Ht ltac:(by rewrite Hpc) Hs) as Hok. unfold slot_ok in Hok. rewrite Hpc in Hok. destruct Hok as (Hsel & Hw & Harr).
  pose proof (inv_outcome _ _ HI _ _ Ht) as Ho. unfold outcome in Ho. rewrite Hpc in Ho. destruct Ho as [Hsent Hans].
  rewrite Hw. destruct (ind_has_arrived s) eqn:Ha; intros [= <-].
  - eapply own_step_thread; try done; rewrite ?Hpc; try done.
    + cbn. rewrite Hsent. split; [done|]. left. split; [done|]. intros _. by apply Harr.
    + intros s' Hs'. rewrite Hs in Hs'. by injection Hs' as <-.
    + unfold buffer_ok. by rewrite Hpc.
  - eapply own_step; try done; rewrite ?Hpc; try done.
    + intros s' Hs'. rewrite Hs in Hs'. injection Hs' as <-. cbn. split; [done|]. split; [done|]. split; [done|]. split; [done|].
      intros Hg. by apply Harr in Hg.
    + unfold buffer_ok. by rewrite Hpc.
Qed.
Lemma wake_inv (calm : Prop) st t th w st' : (w = spurious -> ~ calm) ->
  Inv calm st -> threads st !! t = Some th -> step_wake t th w st = Some st' -> Inv calm st'.
Proof.
  intros Hcalm HI Ht. unfold step_wake. destruct (th_pc th) as [| | | |i| |] eqn:Hpc; try done.
  destruct (slots (loc_sync_array st) !! i) as [s|] eqn:Hs; [|done]. cbn [mbind option_bind].
  pose proof (inv_slot _ _ HI t th i s Ht ltac:(by rewrite Hpc) Hs) as Hok. unfold slot_ok in Hok. rewrite Hpc in Hok. destruct Hok as (Hsel & _ & _ & Hcond).
  pose proof (inv_outcome _ _ HI _ _ Ht) as Ho. unfold outcome in Ho. rewrite Hpc in Ho. destruct Ho as [Hsent Hans].
  destruct (match w with by_signal => ind_arrived_cond s | _ => true end) eqn:Hw; [|done]. intros [= <-].
  eapply own_step; try done; rewrite ?Hpc; try done.
  - cbn. rewrite Hsent. split; [done|]. destruct w; [left|left|by right]; (split; [done|]); [|intros; by destruct Hcalm]. intros _. by apply Hcond.
  - intros s' Hs'. rewrite Hs in Hs'. by injection Hs' as <-.
  - unfold buffer_ok. by rewrite Hpc.
Qed.

(** ** New calls *)
Lemma elem_of_busy_buffers st ptr : ptr ∈ busy_buffers st <-> exists t th, threads st !! t = Some th /\ in_progress th /\ r_payload_ptr (th_req th) = ptr.
Proof.
  unfold busy_buffers. rewrite list_elem_of_omap. split.
  - intros ([t th] & Hin%elem_of_map_to_list & Hp). exists t, th. unfold in_progress. cbn in Hp. destruct (th_pc th); naive_solver.
  - intros (t & th & Ht & Hp & <-). exists (t, th). split; [by apply elem_of_map_to_list|]. unfold in_progress in Hp. cbn. by destruct (th_pc th).
Qed.
Lemma call_inv calm st t r st' : Inv calm st -> step (l_call t r) st = Some st' -> Inv calm st'.
Proof.
  intros HI. cbn. destruct (threads st !! t) eqn:Ht; [done|]. case_bool_decide as Hb; [done|]. intros [= <-].
  apply slotless_step; try done; [congruence|]. intros _ t' th0 _ Hth0 Hp Hnz Heq. apply Hb. split; [done|].
  apply elem_of_busy_buffers. by exists t', th0.
Qed.

(** ** Indications *)
Lemma deliver_pc i ind th : th_pc (deliver i ind th) = th_pc th /\ th_req (deliver i ind th) = th_req th /\ th_sent (deliver i ind th) = th_sent th.
Proof. unfold deliver. by case_decide. Qed.
Lemma deliver_got i ind th : th_got (deliver i ind th) = if decide (slot_of (th_pc th) = Some i) then th_got th ++ [ind] else th_got th.
Proof. unfold deliver. by case_decide. Qed.
Lemma deliver_other i ind th : slot_of (th_pc th) <> Some i -> deliver i ind th = th.
Proof. intros. unfold deliver. by rewrite decide_False. Qed.
Lemma holds_deliver a p i ind m st t j : holds (MkState a p (deliver i ind <$> threads st) m) t j <-> holds st t j.
Proof.
  unfold holds. cbn. setoid_rewrite lookup_fmap. split.
  - intros (th & (th0 & Hth0 & ->)%fmap_Some & Hj). exists th0. split; [done|]. by rewrite (proj1 (deliver_pc _ _ _)) in Hj.
  - intros (th & -> & Hj). eexists. split; [done|]. by rewrite (proj1 (deliver_pc _ _ _)).
Qed.
Lemma wake_slot_selected ind th s : selected th s -> i_id ind = recv_ind_id s -> selected th (wake_slot ind s).
Proof. unfold selected, wake_slot. destruct (ind_is_waiting s); cbn; [|done]. intros (? & ? & ?) ->. done. Qed.
Lemma app_one_ne {A} (l : list A) x : l ++ [x] <> [].
Proof. by destruct l. Qed.
#[local] Hint Resolve app_one_ne : core.

Lemma deliver_slot_ok i ind th s : slot_of (th_pc th) = Some i -> slot_ok th s -> i_id ind = recv_ind_id s ->
  slot_ok (deliver i ind th) (wake_slot ind s).
Proof.
  intros Hi Hok Hid. unfold deliver. rewrite decide_True by done. unfold slot_ok in *. cbn [th_pc th_got th_req].
  destruct (th_pc th); try done.
  { unfold wake_slot. by destruct (ind_is_waiting s). }
  4: destruct Hok as [Hsel Hw]; split; [by apply wake_slot_selected|]; unfold wake_slot; by rewrite Hw.
  all: destruct Hok as (Hsel & Hw & Hr); (split; [by apply wake_slot_selected|]); unfold wake_slot; rewrite Hw; cbn; try destruct Hr as [Ha _]; repeat split; auto.
Qed.
Lemma deliver_outcome calm i ind th : outcome calm th ->
  (match th_pc th with to_alloc | to_select _ | returned _ _ => True | _ => slot_of (th_pc th) = Some i -> answers ind (th_req th) end) ->
  outcome calm (deliver i ind th).
Proof.
  intros Ho Ha. destruct (decide (slot_of (th_pc th) = Some i)) as [Hi|Hi]; [|by rewrite deliver_other].
  unfold deliver. rewrite decide_True by done. unfold outcome in *. cbn [th_pc th_got th_req th_sent].
  destruct (th_pc th) as [|j|j|j|j|j status|]; try done; cbn in Hi.
  1, 2, 3: destruct Ho as [? ?]; (split; [done|]); rewrite Forall_app, Forall_singleton; auto.
  destruct Ho as [Hf Hs]. rewrite Forall_app, Forall_singleton. split; [by auto|]. revert Hs.
  destruct (th_sent th); [|done]. intros [[-> _]|?]; auto.
Qed.
Lemma copied_data ind s : recv_ind_payload_ptr s <> 0 -> copied ind s = data_of ind.
Proof.
  intros Hp. unfold copied, data_of. destruct (i_payload ind) as [data|]; [|done]. cbn. rewrite (proj2 (Z.eqb_neq _ _)) by done. cbn.
  case_bool_decide; case_decide; done.
Qed.
Lemma last_data_snoc got ind : last_data (got ++ [ind]) = match data_of ind with Some data => Some data | None => last_data got end.
Proof. unfold last_data. rewrite omap_app. cbn. destruct (data_of ind); [by rewrite last_snoc|by rewrite app_nil_r]. Qed.

(** One turn of the loop that matches: the slot, its thread and its buffer. *)
Lemma matching_slot_inv calm st p used s data :
  Inv calm st -> processing st = Some p -> slot_in_use (loc_sync_array st) !! p_index p = Some used ->
  slots (loc_sync_array st) !! p_index p = Some s -> matches (p_ind p) used s = true -> copied (p_ind p) s = data ->
  Inv calm (MkState (update_slot (p_index p) (wake_slot (p_ind p)) (loc_sync_array st))
    (Some (MkProcessing (p_ind p) (S (p_index p)) (p_in_use p || used) (match data with Some _ => true | None => p_consumed p end)))
    (deliver (p_index p) (p_ind p) <$> threads st)
    (match data with Some data => memcpy (recv_ind_payload_ptr s) data (memory st) | None => memory st end)).
Proof.
  intros HI Hp Hu Hs Hm Hdata. unfold matches in Hm. rewrite !andb_true_iff, !Z.eqb_eq, negb_true_iff in Hm. destruct Hm as (((-> & Hcl) & Hid) & Harr).
  set (i := p_index p) in *. set (ind := p_ind p) in *.
  assert (Hth : forall t th, (deliver i ind <$> threads st) !! t = Some th -> exists th0, threads st !! t = Some th0 /\ th = deliver i ind th0).
  { intros t th. rewrite lookup_fmap. intros (th0 & ? & ->)%fmap_Some. eauto. }
  assert (Hown : forall t th, threads st !! t = Some th -> slot_of (th_pc th) = Some i -> slot_ok th s) by (intros; by eapply (inv_slot _ _ HI)).
  destruct HI as [H1 H2 H3 Hfr H4 H5 H6 H7 H8 H9 H10].
  constructor; cbn [loc_sync_array update_slot processing memory threads in_use slot_in_use slots] in *; try done.
  - by rewrite length_alter.
  - intros j. rewrite H3. by setoid_rewrite holds_deliver.
  - intros j s' Hj Hs'. rewrite list_lookup_alter_ne in Hs' by (intros ->; congruence). eauto.
  - intros j t1 t2 Hh1%holds_deliver Hh2%holds_deliver. eauto.
  - intros p' [= <-]. destruct (H6 _ Hp) as (Hle & _ & _). apply lookup_lt_Some in Hu. rewrite H1 in Hu.
    split; [cbn; lia|]. cbn. rewrite orb_true_r. done.
  - intros t th j s' Ht Hj Hs'. destruct (Hth _ _ Ht) as (th0 & Ht0 & ->). rewrite (proj1 (deliver_pc _ _ _)) in Hj.
    destruct (decide (j = i)) as [->|Hne].
    + rewrite list_lookup_alter_eq, Hs in Hs'. injection Hs' as <-. apply deliver_slot_ok; eauto.
    + rewrite list_lookup_alter_ne in Hs' by done. rewrite deliver_other by congruence. eauto.
  - intros t th Ht. destruct (Hth _ _ Ht) as (th0 & Ht0 & ->). apply deliver_outcome; [eauto|]. specialize (Hown _ _ Ht0).
    destruct (th_pc th0) as [|j|j|j|j|j status|] eqn:Hpc; try done; intros Hj; specialize (Hown Hj); unfold slot_ok in Hown; rewrite Hpc in Hown;
      destruct Hown as ((Hc & Hr & _) & _); unfold answers; split; congruence.
  - intros t1 t2 th1 th2 Ht1 Ht2. destruct (Hth _ _ Ht1) as (th01 & Ht01 & ->), (Hth _ _ Ht2) as (th02 & Ht02 & ->).
    unfold in_progress. destruct (deliver_pc i ind th01) as (-> & -> & _), (deliver_pc i ind th02) as (-> & -> & _). by apply H9.
  - intros t th Ht. destruct (Hth _ _ Ht) as (th0 & Ht0 & ->). specialize (H10 _ _ Ht0).
    assert (data = None \/ recv_ind_payload_ptr s <> 0) as Hnull.
    { destruct (decide (recv_ind_payload_ptr s = 0)) as [E|]; [left|by right]. subst data. unfold copied. rewrite E. by destruct (i_payload ind). }
    destruct (decide (slot_of (th_pc th0) = Some i)) as [Hi|Hi].
    + unfold deliver. rewrite decide_True by done. specialize (Hown _ _ Ht0 Hi). unfold buffer_ok, slot_ok in *. cbn [th_pc th_req th_got].
      assert (selected th0 s -> (r_payload_ptr (th_req th0) <> 0 -> forall data, last_data (th_got th0) = Some data ->
        exists tail, memory st !! r_payload_ptr (th_req th0) = Some (data ++ tail)) -> r_payload_ptr (th_req th0) <> 0 ->
        forall data', last_data (th_got th0 ++ [ind]) = Some data' -> exists tail,
        match data with Some data => memcpy (recv_ind_payload_ptr s) data (memory st) | None => memory st end !! r_payload_ptr (th_req th0) = Some (data' ++ tail)).
      { intros (_ & _ & Hptr) Hold Hnz data'. rewrite last_data_snoc, <- (copied_data ind s), Hdata by congruence. destruct data as [d|]; [|by apply Hold].
        intros [= <-]. rewrite Hptr. unfold memcpy. rewrite lookup_insert_eq. eauto. }
      destruct (th_pc th0); try done; destruct Hown as [Hsel _]; auto.
    + rewrite deliver_other by done. destruct data as [d|]; [|done]. destruct Hnull as [|Hnz]; [done|].
      destruct (proj1 (H3 i) Hu) as (t' & th' & Ht' & Hi'). specialize (Hown _ _ Ht' Hi').
      assert (recv_ind_payload_ptr s = r_payload_ptr (th_req th') /\ in_progress th') as [Hptr Hpr'].
      { unfold slot_ok in Hown. unfold in_progress. destruct (th_pc th'); try done; destruct Hown as [(_ & _ & ?) _]; done. }
      assert (t <> t') as Hne by (intros ->; congruence).
      unfold buffer_ok in *. destruct (th_pc th0) eqn:Hpc; try done; intros Hnz0 data' Hd; rewrite Hptr; unfold memcpy;
        (rewrite lookup_insert_ne; [by apply H10|]); intros Heq; apply Hne; (eapply (H9 t t' th0 th'); try done; unfold in_progress; by rewrite ?Hpc).
Qed.

Lemma set_processing_inv calm st o : Inv calm st -> (forall p, o = Some p -> processing_ok (slot_in_use (loc_sync_array st)) p) ->
  Inv calm (set_processing o st).
Proof. intros [] Ho. by constructor. Qed.
Lemma slot_inv calm st p st' : Inv calm st -> processing st = Some p -> step_slot p st = Some st' -> Inv calm st'.
Proof.
  intros HI Hp. unfold step_slot. destruct (_ && _) eqn:Hg; [|done]. apply andb_true_iff in Hg as [Hlt Hnc].
  destruct (slot_in_use _ !! _) as [used|] eqn:Hu; [|done]. destruct (slots _ !! _) as [s|] eqn:Hs; [|done]. cbn [mbind option_bind]. intros [= <-].
  unfold process_slot. destruct (matches _ _ _) eqn:Hm.
  - pose proof (matching_slot_inv calm st p used s (copied (p_ind p) s) HI Hp Hu Hs Hm eq_refl) as H. by destruct (copied (p_ind p) s).
  - apply set_processing_inv; [done|]. intros p' [= <-]. destruct (inv_processing _ _ HI _ Hp) as (Hle & Hcons & Hused).
    unfold processing_ok. cbn. apply Nat.ltb_lt in Hlt. split; [lia|]. split; [intros Hc; by rewrite Hcons|].
    intros i Hi Hused_i. destruct (decide (i = p_index p)) as [->|]; [|rewrite (Hused i) by (done || lia); done].
    rewrite Hu in Hused_i. injection Hused_i as ->. apply orb_true_r.
Qed.
Lemma end_inv calm st p st' : Inv calm st -> processing st = Some p -> step l_end st = Some st' -> Inv calm st'.
Proof.
  intros HI Hp. cbn [step]. rewrite Hp. cbn [mbind option_bind]. destruct (_ && _) eqn:Hg; [done|]. intros [= <-]. unfold process_end.
  destruct (p_in_use p) eqn:Hin; [by apply set_processing_inv|].
  destruct (inv_processing _ _ HI _ Hp) as (Hle & Hcons & Hused).
  assert (Hnone : forall i, slot_in_use (loc_sync_array st) !! i = Some true -> False).
  { intros i Hi. rewrite (Hused i) in Hin; [done| |done]. apply lookup_lt_Some in Hi. rewrite (inv_used_length _ _ HI) in Hi.
    apply andb_false_iff in Hg as [Hg|Hg]; [apply Nat.ltb_ge in Hg; lia|]. apply negb_false_iff, Hcons in Hg. congruence. }
  destruct HI. constructor; try done. cbn. intros i Hi. exfalso. eauto.
Qed.

(** ** Runs *)
Definition calm_run (ls : list Label) : Prop := forall t, l_wake t spurious ∉ ls.
Lemma step_inv (calm : Prop) l st st' : (forall t, l = l_wake t spurious -> ~ calm) -> Inv calm st -> step l st = Some st' -> Inv calm st'.
Proof.
  intros Hc HI. destruct l as [t r|t|t|t status|t|t w|t|ind| |]; cbn [step];
    try (destruct (threads st !! t) as [th|] eqn:Ht; [|done]; cbn [mbind option_bind]).
  - by apply call_inv.
  - by apply alloc_inv.
  - by apply select_inv.
  - by apply send_inv.
  - by apply wait_inv.
  - apply wake_inv; try done. intros ->. by apply (Hc t).
  - by apply free_inv.
  - destruct (processing st) eqn:Hp; [done|]. intros [= <-]. unfold process_begin. destruct (in_use _); [|done].
    apply set_processing_inv; [done|]. intros p [= <-]. split; [cbn; lia|]. split; [done|]. cbn. lia.
  - destruct (processing st) as [p|] eqn:Hp; [|done]. by apply slot_inv.
  - destruct (processing st) as [p|] eqn:Hp; [|done]. intros Hs. apply (end_inv calm st p st'); try done. cbn. by rewrite Hp.
Qed.
Lemma initial_inv calm : Inv calm initial.
Proof.
  constructor; cbn [initial loc_sync_array loc_sync_req_init slot_in_use slots threads processing in_use]; try done.
  - intros i. split; [by intros [[=] _]%lookup_replicate|]. by intros (t & th & ? & _).
  - by intros i s _ [-> _]%lookup_replicate.
  - intros i t t' (th & ? & _). done.
  - by intros i [[=] _]%lookup_replicate.
Qed.
Lemma run_inv (calm : Prop) ls st st' : (calm -> calm_run ls) -> Inv calm st -> run ls st = Some st' -> Inv calm st'.
Proof.
  revert st. induction ls as [|l ls IH]; intros st Hc HI; cbn; [by intros [= <-]|].
  destruct (step l st) as [st1|] eqn:Hs; [|done]. cbn. apply IH.
  - intros H%Hc t Hin. apply (H t). by right.
  - apply (step_inv calm l st); [|done|done]. intros t -> H%Hc. apply (H t). by left.
Qed.
Lemma run_initial_inv ls st : run ls initial = Some st -> Inv (calm_run ls) st.
Proof. apply run_inv; [done|apply initial_inv]. Qed.
Lemma run_app ls ls' st : run (ls ++ ls') st = (st' ← run ls st; run ls' st').
Proof. revert st. induction ls as [|l ls IH]; intros st; cbn; [done|]. by destruct (step l st); cbn. Qed.
