(* ===== verification/LocSyncReqTheorems.v ===== *)
(** * Synchronous requests: what callers rely on *)
From S2P Require Import Prelude LocSyncReq LocSyncReqProps.
#[local] Open Scope Z_scope.

(** Two requests of one client for the same answer, and the indication in answer. *)
Definition req1 : Request := MkRequest 5 33 33 1000.
Definition req2 : Request := MkRequest 5 33 33 2000.
Definition answer (n : Z) : Indication := MkInd 5 33 (Some [n]).
Definition asks (t : thread_id) (r : Request) : list Label := [l_call t r; l_alloc t; l_select t; l_send t eLOC_CLIENT_SUCCESS].
Definition indication (ind : Indication) (turns : nat) : list Label := l_ind ind :: replicate turns l_slot ++ [l_end].
Definition state_of (ls : list Label) : State := default initial (run ls initial).

(** ** Answers *)

(** C23. A request that was sent returns success or a timeout, nothing else.  All indications
    matched to its slot come from its client and are of the kind it asked for; without
    spurious wakeups it succeeds only if there was one; and when it leaves, its buffer
    begins with the payload of the last one that had a payload. *)
Theorem sync_answers ls st t th : run ls initial = Some st -> threads st !! t = Some th -> th_sent th = true ->
  Forall (fun ind => answers ind (th_req th)) (th_got th) /\
  (forall sent status, th_pc th = returned sent status ->
     status = eLOC_CLIENT_FAILURE_TIMEOUT \/ (status = eLOC_CLIENT_SUCCESS /\ (calm_run ls -> th_got th <> []))) /\
  (forall i status, th_pc th = to_free i status ->
     (status = eLOC_CLIENT_FAILURE_TIMEOUT \/ (status = eLOC_CLIENT_SUCCESS /\ (calm_run ls -> th_got th <> []))) /\
     (r_payload_ptr (th_req th) <> 0 -> forall data, last_data (th_got th) = Some data ->
        exists tail, memory st !! r_payload_ptr (th_req th) = Some (data ++ tail))).
Proof.
  intros Hrun Ht Hsent. apply run_initial_inv in Hrun as HI.
  pose proof (inv_outcome _ _ HI _ _ Ht) as Ho. pose proof (inv_buffer _ _ HI _ _ Ht) as Hb. unfold outcome, buffer_ok in *. rewrite Hsent in Ho.
  destruct (th_pc th) eqn:Hpc; try congruence; try (destruct Ho; congruence).
  - destruct Ho as [_ Hf]. done.
  - destruct Ho as [_ Hf]. done.
  - destruct Ho as [Hf Hs]. split; [done|]. split; [done|]. intros i st' [= <- <-]. split; [tauto|done].
  - destruct Ho as [-> [Hf Hs]]. split; [done|]. split; [|done]. intros s st' [= <- <-]. tauto.
Qed.
Definition one_request : list Label := asks 1 req1 ++ [l_wait 1] ++ indication (answer 7) 1 ++ [l_wake 1 by_signal].
Lemma sync_answers_witness : exists tail, memory (state_of one_request) !! 1000 = Some ([7] ++ tail).
Proof.
  assert (Ht : threads (state_of one_request) !! 1%nat = Some (MkThread req1 (to_free 0 eLOC_CLIENT_SUCCESS) true [answer 7])) by (vm_compute; reflexivity).
  destruct (sync_answers one_request (state_of one_request) 1%nat _ ltac:(vm_compute; reflexivity) Ht eq_refl) as (_ & _ & H).
  destruct (H 0%nat 0 eq_refl) as [_ Hd]. apply Hd; [done|reflexivity].
Defined.

(** ** Buffers *)

(** At most eight requests hold a slot, each its own.  The memory of the callers changes
    only when an indication is matched to the slot of a request that is still under way,
    and then only the buffer of that request, which asked for this indication of this
    client, receives the payload. *)
Theorem sync_buffers_safe st l st' : reachable st -> step l st = Some st' ->
  (forall t i, holds st t i -> (i < LOC_SYNC_REQ_BUFFER_SIZE)%nat /\ forall t', holds st t' i -> t' = t) /\
  (memory st' = memory st \/
   exists p t th data, l = l_slot /\ processing st = Some p /\ threads st !! t = Some th /\ in_progress th /\ holds st t (p_index p) /\
     answers (p_ind p) (th_req th) /\ data_of (p_ind p) = Some data /\ r_payload_ptr (th_req th) <> 0 /\
     memory st' = memcpy (r_payload_ptr (th_req th)) data (memory st)).
Proof.
  intros [ls Hrun] Hstep. apply run_initial_inv in Hrun as HI. split.
  { intros t i Hh. split; [|intros t' Hh'; by apply (inv_owner _ _ HI i)].
    rewrite <- (inv_used_length _ _ HI). apply (lookup_lt_Some _ _ true), (inv_used _ _ HI). eauto. }
  destruct l as [t r|t|t|t status|t|t w|t|ind| |]; cbn [step] in Hstep;
    try (destruct (threads st !! t) as [th|] eqn:Ht; [|done]; cbn [mbind option_bind] in Hstep).
  - left. destruct (threads st !! t); [done|]. case_bool_decide; [done|]. by injection Hstep as <-.
  - left. unfold step_alloc in Hstep. destruct (th_pc th), (processing st); try done. destruct (loc_alloc_slot _). by injection Hstep as <-.
  - left. unfold step_select in Hstep. destruct (th_pc th); try done. by injection Hstep as <-.
  - left. unfold step_send in Hstep. destruct (th_pc th); try done. by injection Hstep as <-.
  - left. unfold step_wait in Hstep. destruct (th_pc th); try done. repeat case_match; by injection Hstep as <-.
  - left. unfold step_wake in Hstep. destruct (th_pc th) as [| | | |i| |]; try done. destruct (_ !! i); [|done]. cbn in Hstep.
    destruct (match w with by_signal => _ | _ => true end); [|done]. by injection Hstep as <-.
  - left. unfold step_free in Hstep. destruct (th_pc th), (processing st); try done. by injection Hstep as <-.
  - left. destruct (processing st); [done|]. injection Hstep as <-. unfold process_begin. by case_match.
  - destruct (processing st) as [p|] eqn:Hp; [|done]. cbn [mbind option_bind] in Hstep. unfold step_slot in Hstep. destruct (_ && _); [|done].
    destruct (slot_in_use _ !! _) as [used|] eqn:Hu; [|done]. destruct (slots _ !! _) as [s|] eqn:Hs; [|done]. cbn [mbind option_bind] in Hstep. injection Hstep as <-.
    unfold process_slot. destruct (matches _ _ _) eqn:Hm; [|by left]. destruct (copied (p_ind p) s) as [data|] eqn:Hc; [|by left]. right.
    unfold matches in Hm. rewrite !andb_true_iff, !Z.eqb_eq, negb_true_iff in Hm. destruct Hm as (((-> & Hcl) & Hid) & Harr).
    destruct (proj1 (inv_used _ _ HI _) Hu) as (t & th & Ht & Hi). pose proof (inv_slot _ _ HI _ _ _ _ Ht Hi Hs) as Hok.
    assert (Hnz : recv_ind_payload_ptr s <> 0) by (intros E; unfold copied in Hc; rewrite E in Hc; by destruct (i_payload _)).
    rewrite copied_data in Hc by done. assert (selected th s /\ in_progress th) as [(Hsc & Hsi & Hsp) Hpr].
    { unfold slot_ok in Hok. unfold in_progress. destruct (th_pc th); try done; by destruct Hok as [? _]. }
    exists p, t, th, data. rewrite <- Hsp. unfold answers. rewrite <- Hsc, <- Hsi. repeat split; try done. by exists th.
  - left. destruct (processing st) as [p|]; [|done]. cbn [mbind option_bind] in Hstep. destruct (_ && _); [done|]. injection Hstep as <-.
    unfold process_end. by destruct (p_in_use p).
Qed.
Definition arriving : list Label := asks 1 req1 ++ [l_wait 1; l_ind (answer 7)].
Lemma sync_buffers_safe_witness : exists t, holds (state_of arriving) t 0.
Proof.
  destruct (sync_buffers_safe (state_of arriving) l_slot (state_of (arriving ++ [l_slot]))) as [_ [H|H]].
  - exists arriving. vm_compute. reflexivity.
  - vm_compute. reflexivity.
  - exfalso. apply (f_equal (lookup 1000)) in H. vm_compute in H. discriminate H.
  - destruct H as (p & t & th & data & _ & Hp & _ & _ & Hh & _). exists t.
    assert (p_index p = 0%nat) as <-; [|done]. vm_compute in Hp. injection Hp as <-. reflexivity.
Defined.

(** ** Progress *)

(** The steps that the module makes by itself: no call and no indication. *)
Definition internal (l : Label) : bool := match l with l_call _ _ | l_ind _ => false | _ => true end.
Definition is_call (l : Label) : bool := match l with l_call _ _ => true | _ => false end.
Definition is_ind (l : Label) : bool := match l with l_ind _ => true | _ => false end.
Definition calls_in (ls : list Label) : nat := length (filter is_call ls).
Definition inds_in (ls : list Label) : nat := length (filter is_ind ls).
Definition rank (th : Thread) : nat :=
  match th_pc th with to_alloc => 6 | to_select _ => 5 | to_send _ => 4 | to_wait _ => 3 | in_wait _ => 2 | to_free _ _ => 1 | returned _ _ => 0 end.
Definition total_rank (m : gmap thread_id Thread) : nat := map_fold (fun _ th n => (rank th + n)%nat) 0%nat m.
Definition work (st : State) : nat :=
  (total_rank (threads st) + match processing st with Some p => 9 - p_index p | None => 0 end)%nat.

Lemma total_rank_insert_new m t th : m !! t = None -> total_rank (<[t := th]> m) = (rank th + total_rank m)%nat.
Proof. intros Ht. unfold total_rank. rewrite map_fold_insert_L; [done|lia|done]. Qed.
Lemma total_rank_insert m t th th' : m !! t = Some th -> (total_rank (<[t := th']> m) + rank th = total_rank m + rank th')%nat.
Proof.
  intros Ht. rewrite <- insert_delete_eq, total_rank_insert_new by apply lookup_delete_eq.
  assert (total_rank m = rank th + total_rank (delete t m))%nat as ->; [|lia].
  unfold total_rank. rewrite (map_fold_delete_L _ _ t th m); [done|lia|done].
Qed.
Lemma total_rank_deliver i ind m : total_rank (deliver i ind <$> m) = total_rank m.
Proof.
  induction m as [|t th m Ht IH] using map_ind; [by rewrite fmap_empty|].
  rewrite fmap_insert, !total_rank_insert_new, IH by (done || by rewrite lookup_fmap, Ht). f_equal. unfold rank. by rewrite (proj1 (deliver_pc _ _ _)).
Qed.
Lemma work_set_thread st a t th th' : threads st !! t = Some th ->
  (work (set_array a (set_thread t th' st)) + rank th = work st + rank th')%nat.
Proof. intros Ht. pose proof (total_rank_insert _ _ _ th' Ht). unfold work. cbn. lia. Qed.
(** The rest of a step of thread [t], whose place was [Hpc]. *)
Ltac thread_work Ht Hpc :=
  match goal with |- (work ?s' < _)%nat => match s' with context [set_thread ?t ?th' ?st] =>
    let H := fresh in pose proof (work_set_thread st (loc_sync_array s') t _ th' Ht) as H;
    change (work s') with (work (set_array (loc_sync_array s') (set_thread t th' st)));
    unfold rank in H; rewrite Hpc in H; cbn [th_pc goto] in H; lia end end.

Lemma internal_step_work calm st l st' : Inv calm st -> step l st = Some st' -> internal l = true -> (work st' < work st)%nat.
Proof.
  intros HI Hstep Hint. destruct l as [t r|t|t|t status|t|t w|t|ind| |]; try done; cbn [step] in Hstep;
    try (destruct (threads st !! t) as [th|] eqn:Ht; [|done]; cbn [mbind option_bind] in Hstep).
  - unfold step_alloc in Hstep. destruct (th_pc th) eqn:Hpc, (processing st) eqn:Hp; try done. destruct (loc_alloc_slot _) as [[i|] a]; injection Hstep as <-; thread_work Ht Hpc.
  - unfold step_select in Hstep. destruct (th_pc th) eqn:Hpc; try done. injection Hstep as <-. thread_work Ht Hpc.
  - unfold step_send in Hstep. destruct (th_pc th) eqn:Hpc; try done. injection Hstep as <-. destruct (status =? _); thread_work Ht Hpc.
  - unfold step_wait in Hstep. destruct (th_pc th) eqn:Hpc; try done. repeat case_match; injection Hstep as <-; thread_work Ht Hpc.
  - unfold step_wake in Hstep. destruct (th_pc th) as [| | | |i| |] eqn:Hpc; try done. destruct (_ !! i); [|done]. cbn [mbind option_bind] in Hstep.
    destruct (match w with by_signal => _ | _ => true end); [|done]. injection Hstep as <-. thread_work Ht Hpc.
  - unfold step_free in Hstep. destruct (th_pc th) eqn:Hpc, (processing st); try done. injection Hstep as <-. thread_work Ht Hpc.
  - destruct (processing st) as [p|] eqn:Hp; [|done]. cbn [mbind option_bind] in Hstep. unfold step_slot in Hstep.
    destruct (p_index p <? LOC_SYNC_REQ_BUFFER_SIZE)%nat eqn:Hlt; [|done]. apply Nat.ltb_lt in Hlt. unfold LOC_SYNC_REQ_BUFFER_SIZE in Hlt.
    destruct (negb _); [|done]. destruct (slot_in_use _ !! _), (slots _ !! _); try done. cbn in Hstep. injection Hstep as <-.
    unfold work, process_slot. rewrite Hp. destruct (matches _ _ _); [destruct (copied _ _)|]; cbn [threads processing set_processing p_index]; rewrite ?total_rank_deliver; lia.
  - destruct (processing st) as [p|] eqn:Hp; [|done]. cbn [mbind option_bind] in Hstep. destruct (_ && _); [done|]. injection Hstep as <-.
    destruct (inv_processing _ _ HI _ Hp) as (Hle & _). unfold LOC_SYNC_REQ_BUFFER_SIZE in Hle.
    unfold work, process_end. rewrite Hp. destruct (p_in_use p); cbn [threads processing set_processing set_array]; lia.
Qed.
Lemma step_work calm st l st' : Inv calm st -> step l st = Some st' ->
  (1 + work st' <= work st + 7 * calls_in [l] + 10 * inds_in [l])%nat.
Proof.
  intros HI Hstep. destruct (internal l) eqn:Hint; [pose proof (internal_step_work calm st l st' HI Hstep Hint); lia|].
  destruct l as [t r| | | | | | |ind| |]; try done; cbn [step] in Hstep.
  - destruct (threads st !! t) eqn:Ht; [done|]. case_bool_decide; [done|]. injection Hstep as <-.
    change (calls_in [l_call t r]) with 1%nat. change (inds_in [l_call t r]) with 0%nat.
    unfold work. cbn [threads set_thread processing]. rewrite total_rank_insert_new by done. cbn [rank th_pc]. lia.
  - destruct (processing st) eqn:Hp; [done|]. injection Hstep as <-.
    change (calls_in [l_ind ind]) with 0%nat. change (inds_in [l_ind ind]) with 1%nat.
    unfold process_begin, work. destruct (in_use _); cbn [threads processing set_processing p_index]; rewrite ?Hp; lia.
Qed.
Lemma run_work calm ls st st' : Inv calm st -> (calm -> calm_run ls) -> run ls st = Some st' ->
  (length ls + work st' <= work st + 7 * calls_in ls + 10 * inds_in ls)%nat.
Proof.
  revert st. induction ls as [|l ls IH]; intros st HI Hc; cbn [run]; [intros [= <-]; cbn; lia|].
  destruct (step l st) as [st1|] eqn:Hs; [|done]. cbn [mbind option_bind]. intros Hrun.
  assert (HI1 : Inv calm st1).
  { apply (step_inv calm l st); [|done|done]. intros t -> Hcl%Hc. apply (Hcl t). by left. }
  pose proof (step_work calm st l st1 HI Hs). specialize (IH st1 HI1). 
  assert (calls_in (l :: ls) = calls_in [l] + calls_in ls)%nat as -> by (unfold calls_in; rewrite !filter_cons; by destruct (decide _)).
  assert (inds_in (l :: ls) = inds_in [l] + inds_in ls)%nat as -> by (unfold inds_in; rewrite !filter_cons; by destruct (decide _)).
  cbn [length]. enough (length ls + work st' <= work st1 + 7 * calls_in ls + 10 * inds_in ls)%nat by lia.
  apply IH; [|done]. intros Hcl%Hc t Hin. apply (Hcl t). by right.
Qed.

(** C26. Requests return and indications are done with: while a request has not returned, or
    an indication is being processed, the module can make a step; and it makes at most
    seven steps per call and ten per indication, counting theirs, so that it cannot go on for ever.  A request
    that waits and whose indication was matched has been signalled: it need not wait for
    the end of its time. *)
Theorem requests_return ls st : run ls initial = Some st ->
  (length ls <= 7 * calls_in ls + 10 * inds_in ls)%nat /\
  ((exists t th, threads st !! t = Some th /\ in_progress th) \/ processing st <> None ->
     exists l st', internal l = true /\ step l st = Some st') /\
  (forall t th i, threads st !! t = Some th -> th_pc th = in_wait i -> th_got th <> [] ->
     exists st', step (l_wake t by_signal) st = Some st').
Proof.
  intros Hrun. apply run_initial_inv in Hrun as HI. split; [|split].
  - pose proof (run_work (calm_run ls) ls initial st (initial_inv _) ltac:(done) Hrun) as H. change (work initial) with 0%nat in H. lia.
  - assert (Hslot : forall i, (i < 8)%nat -> exists used s, slot_in_use (loc_sync_array st) !! i = Some used /\ slots (loc_sync_array st) !! i = Some s).
    { intros i Hi. pose proof (inv_used_length _ _ HI). pose proof (inv_slots_length _ _ HI). unfold LOC_SYNC_REQ_BUFFER_SIZE in *.
      destruct (lookup_lt_is_Some_2 (slot_in_use (loc_sync_array st)) i) as [u Hu]; [lia|].
      destruct (lookup_lt_is_Some_2 (slots (loc_sync_array st)) i) as [s Hs]; [lia|]. eauto. }
    destruct (processing st) as [p|] eqn:Hp.
    { intros _. destruct (inv_processing _ _ HI _ Hp) as (Hle & _). unfold LOC_SYNC_REQ_BUFFER_SIZE in Hle.
      destruct ((p_index p <? 8)%nat && negb (p_consumed p)) eqn:Hg.
      - apply andb_true_iff in Hg as Hg'. destruct Hg' as [Hlt%Nat.ltb_lt _]. destruct (Hslot _ Hlt) as (u & s & Hu & Hs).
        exists l_slot, (process_slot p u s st). split; [done|]. cbn [step]. rewrite Hp. cbn [mbind option_bind]. unfold step_slot, LOC_SYNC_REQ_BUFFER_SIZE. by rewrite Hg, Hu, Hs.
      - exists l_end, (process_end p st). split; [done|]. cbn [step]. rewrite Hp. cbn [mbind option_bind]. unfold LOC_SYNC_REQ_BUFFER_SIZE. by rewrite Hg. }
    intros [(t & th & Ht & Hprog)|]; [|done].
    assert (Hown : forall i, slot_of (th_pc th) = Some i -> (i < 8)%nat /\ slot_in_use (loc_sync_array st) !! i = Some true).
    { intros i Hi. assert (Hu : slot_in_use (loc_sync_array st) !! i = Some true) by (apply HI; by exists t, th). split; [|done].
      apply lookup_lt_Some in Hu. by rewrite (inv_used_length _ _ HI) in Hu. }
    unfold in_progress in Hprog. destruct (th_pc th) as [|i|i|i|i|i status|] eqn:Hpc; try done.
    + destruct (step (l_alloc t) st) as [st'|] eqn:Hs; [by exists (l_alloc t), st'|]. cbn in Hs. rewrite Ht in Hs. cbn in Hs. unfold step_alloc in Hs. rewrite Hpc, Hp in Hs.
      by destruct (loc_alloc_slot _).
    + eexists (l_select t), _. split; [done|]. cbn [step]. rewrite Ht. cbn [mbind option_bind]. unfold step_select. by rewrite Hpc.
    + eexists (l_send t 0), _. split; [done|]. cbn [step]. rewrite Ht. cbn [mbind option_bind]. unfold step_send. by rewrite Hpc.
    + destruct (step (l_wait t) st) as [st'|] eqn:Hs; [by exists (l_wait t), st'|]. cbn in Hs. rewrite Ht in Hs. cbn in Hs. unfold step_wait in Hs. rewrite Hpc in Hs.
      repeat case_match; done.
    + destruct (Hown i eq_refl) as [Hi _]. destruct (Hslot _ Hi) as (u & s & _ & Hs).
      eexists (l_wake t timed_out), _. split; [done|]. cbn [step]. rewrite Ht. cbn [mbind option_bind]. unfold step_wake. by rewrite Hpc, Hs.
    + eexists (l_free t), _. split; [done|]. cbn [step]. rewrite Ht. cbn [mbind option_bind]. unfold step_free. by rewrite Hpc, Hp.
  - intros t th i Ht Hpc Hgot. assert (Hu : slot_in_use (loc_sync_array st) !! i = Some true) by (apply HI; exists t, th; by rewrite Hpc).
    destruct (slots (loc_sync_array st) !! i) as [s|] eqn:Hs.
    2:{ apply lookup_ge_None in Hs. apply lookup_lt_Some in Hu. rewrite (inv_slots_length _ _ HI) in Hs. rewrite (inv_used_length _ _ HI) in Hu. lia. }
    pose proof (inv_slot _ _ HI t th i s Ht ltac:(by rewrite Hpc) Hs) as Hok. unfold slot_ok in Hok. rewrite Hpc in Hok. destruct Hok as (_ & _ & _ & Hc).
    eexists. cbn [step]. rewrite Ht. cbn [mbind option_bind]. unfold step_wake. rewrite Hpc, Hs. cbn [mbind option_bind]. by rewrite (proj2 Hc Hgot).
Qed.
Lemma requests_return_witness : exists l st', internal l = true /\ step l (state_of arriving) = Some st'.
Proof.
  apply (requests_return arriving (state_of arriving)); [vm_compute; reflexivity|]. right. vm_compute. discriminate.
Defined.

(** ** Indications reach the requests that wait for them *)
Definition awaits (ind : Indication) (th : Thread) : Prop :=
  match th_pc th with to_send _ | to_wait _ | in_wait _ => True | _ => False end /\ answers ind (th_req th) /\ th_got th = [].
(** A request that took the payload of an indication. *)
Definition took (st0 st : State) (ind : Indication) (t : thread_id) (j : nat) : Prop :=
  exists th0 th, threads st0 !! t = Some th0 /\ slot_of (th_pc th0) = Some j /\ answers ind (th_req th0) /\
    r_payload_ptr (th_req th0) <> 0 /\ data_of ind <> None /\ threads st !! t = Some th /\ th_got th = th_got th0 ++ [ind].
Record loop_inv (calm : Prop) (st0 st : State) (ind : Indication) (p : Processing) : Prop := {
  li_inv : Inv calm st;
  li_processing : processing st = Some p;
  li_ind : p_ind p = ind;
  li_back t th : threads st !! t = Some th -> exists th0, threads st0 !! t = Some th0 /\ th_pc th = th_pc th0 /\ th_req th = th_req th0;
  li_later t th0 i : threads st0 !! t = Some th0 -> slot_of (th_pc th0) = Some i -> (p_index p <= i)%nat -> threads st !! t = Some th0;
  li_reached t th0 i : threads st0 !! t = Some th0 -> slot_of (th_pc th0) = Some i -> awaits ind th0 -> (i < p_index p)%nat ->
    exists th, threads st !! t = Some th /\ th_pc th = th_pc th0 /\ th_got th = [ind];
  li_taken : p_consumed p = true -> exists t j, (j < p_index p)%nat /\ took st0 st ind t j;
}.
Lemma awaits_matches calm st t th i s ind : Inv calm st -> threads st !! t = Some th -> slot_of (th_pc th) = Some i -> awaits ind th ->
  slots (loc_sync_array st) !! i = Some s -> matches ind true s = true.
Proof.
  intros HI Ht Hi (Hpc & [Hc Hid] & Hgot) Hs. pose proof (inv_slot _ _ HI _ _ _ _ Ht Hi Hs) as Hok. unfold slot_ok in Hok.
  unfold matches. rewrite !andb_true_iff, !Z.eqb_eq, negb_true_iff.
  destruct (th_pc th) eqn:E; try done; destruct Hok as ((? & ? & _) & _ & Ha); repeat split; try congruence.
  - destruct (ind_has_arrived s); [|done]. by destruct (proj1 Ha eq_refl).
  - destruct (ind_has_arrived s); [|done]. by destruct (proj1 Ha eq_refl).
  - tauto.
Qed.
Lemma matching_owner calm st i used s ind data : Inv calm st -> slot_in_use (loc_sync_array st) !! i = Some used ->
  slots (loc_sync_array st) !! i = Some s -> matches ind used s = true -> copied ind s = Some data ->
  exists t th, threads st !! t = Some th /\ slot_of (th_pc th) = Some i /\ answers ind (th_req th) /\ r_payload_ptr (th_req th) <> 0 /\ data_of ind <> None.
Proof.
  intros HI Hu Hs Hm Hc. unfold matches in Hm. rewrite !andb_true_iff, !Z.eqb_eq, negb_true_iff in Hm. destruct Hm as (((-> & Hcl) & Hid) & _).
  destruct (proj1 (inv_used _ _ HI _) Hu) as (t & th & Ht & Hi). pose proof (inv_slot _ _ HI _ _ _ _ Ht Hi Hs) as Hok.
  assert (Hnz : recv_ind_payload_ptr s <> 0) by (intros E; unfold copied in Hc; rewrite E in Hc; by destruct (i_payload _)).
  rewrite copied_data in Hc by done. assert (selected th s) as (? & ? & ?) by (unfold slot_ok in Hok; destruct (th_pc th); try done; by destruct Hok as [? _]).
  exists t, th. unfold answers. repeat split; try done; congruence.
Qed.
Lemma loop_turn calm st0 st ind p : loop_inv calm st0 st ind p -> (p_index p < 8)%nat -> p_consumed p = false ->
  exists st' p', step l_slot st = Some st' /\ loop_inv calm st0 st' ind p' /\ p_index p' = S (p_index p).
Proof.
  intros [HI Hp <- Hback Hlater Hreached Htaken] Hlt Hnc. set (ind := p_ind p) in *.
  destruct (lookup_lt_is_Some_2 (slot_in_use (loc_sync_array st)) (p_index p)) as [used Hu]; [by rewrite (inv_used_length _ _ HI)|].
  destruct (lookup_lt_is_Some_2 (slots (loc_sync_array st)) (p_index p)) as [s Hs]; [by rewrite (inv_slots_length _ _ HI)|].
  assert (Hstep : step l_slot st = Some (process_slot p used s st)).
  { cbn [step]. rewrite Hp. cbn [mbind option_bind]. unfold step_slot, LOC_SYNC_REQ_BUFFER_SIZE. rewrite (proj2 (Nat.ltb_lt _ _)) by done.
    by rewrite Hnc, Hu, Hs. }
  exists (process_slot p used s st). pose proof (step_inv calm l_slot st _ ltac:(done) HI Hstep) as HI'.
  assert (Hnot : matches ind used s = false -> forall t th0, threads st0 !! t = Some th0 -> slot_of (th_pc th0) = Some (p_index p) -> ~ awaits ind th0).
  { intros Hm t th0 Ht0 Hi Haw. pose proof (Hlater _ _ _ Ht0 Hi ltac:(lia)) as Ht. pose proof (awaits_matches _ _ _ _ _ _ _ HI Ht Hi Haw Hs) as Hm'.
    assert (Some used = Some true) as [= ->] by (rewrite <- Hu; apply HI; by exists t, th0). congruence. }
  unfold process_slot in *. fold ind in Hstep, HI' |- *. destruct (matches ind used s) eqn:Hm.
  2:{ exists (MkProcessing ind (S (p_index p)) (p_in_use p || used) (p_consumed p)). split; [done|]. split; [|done]. constructor; try done; cbn [set_processing threads p_index p_consumed].
      - intros t th0 i Ht0 Hi Hle. apply (Hlater _ _ i); try done. lia.
      - intros t th0 i Ht0 Hi Haw Hlt'. destruct (decide (i = p_index p)) as [->|]; [by destruct (Hnot eq_refl t th0)|]. apply (Hreached _ _ i); try done. lia.
      - congruence. }
  set (threads' := deliver (p_index p) ind <$> threads st) in *.
  assert (Hback' : forall t th, threads' !! t = Some th -> exists th0, threads st0 !! t = Some th0 /\ th_pc th = th_pc th0 /\ th_req th = th_req th0).
  { intros t th. unfold threads'. rewrite lookup_fmap. intros (th1 & Ht1 & ->)%fmap_Some. destruct (Hback _ _ Ht1) as (th0 & ? & ? & ?).
    exists th0. destruct (deliver_pc (p_index p) ind th1) as (-> & -> & _). done. }
  assert (Hlater' : forall t th0 i, threads st0 !! t = Some th0 -> slot_of (th_pc th0) = Some i -> (S (p_index p) <= i)%nat -> threads' !! t = Some th0).
  { intros t th0 i Ht0 Hi Hle. unfold threads'. rewrite lookup_fmap, (Hlater _ _ _ Ht0 Hi) by lia. cbn. rewrite deliver_other; [done|]. rewrite Hi. intros [= ->]. lia. }
  assert (Hreached' : forall t th0 i, threads st0 !! t = Some th0 -> slot_of (th_pc th0) = Some i -> awaits ind th0 -> (i < S (p_index p))%nat ->
    exists th, threads' !! t = Some th /\ th_pc th = th_pc th0 /\ th_got th = [ind]).
  { intros t th0 i Ht0 Hi Haw Hlt'. unfold threads'. setoid_rewrite lookup_fmap. destruct (decide (i = p_index p)) as [->|].
    - rewrite (Hlater _ _ _ Ht0 Hi) by lia. eexists. split; [done|]. rewrite (proj1 (deliver_pc _ _ _)), deliver_got, decide_True by done.
      destruct Haw as (_ & _ & ->). done.
    - destruct (Hreached _ _ _ Ht0 Hi Haw ltac:(lia)) as (th & -> & Hpc & Hgot). eexists. split; [done|]. rewrite deliver_other; [done|]. rewrite Hpc, Hi. congruence. }
  destruct (copied ind s) as [data|] eqn:Hc.
  - exists (MkProcessing ind (S (p_index p)) (p_in_use p || used) true). split; [done|]. split; [|done]. constructor; try done. intros _.
    destruct (matching_owner _ _ _ _ _ _ _ HI Hu Hs Hm Hc) as (t & th & Ht & Hi & Hans & Hnz & Hd). exists t, (p_index p). split; [cbn; lia|].
    destruct (Hback _ _ Ht) as (th0 & Ht0 & Hpc & Hreq). rewrite Hpc in Hi. pose proof (Hlater _ _ _ Ht0 Hi ltac:(lia)) as Ht'. rewrite Ht in Ht'. injection Ht' as <-.
    exists th, (deliver (p_index p) ind th). repeat split; try done. + by destruct Hans. + by destruct Hans.
    + cbn. unfold threads'. by rewrite lookup_fmap, Ht. + by rewrite deliver_got, decide_True.
  - exists (MkProcessing ind (S (p_index p)) (p_in_use p || used) (p_consumed p)). split; [done|]. split; [|done]. constructor; try done. cbn. congruence.
Qed.
Lemma loop_runs calm st0 ind n : forall st p, loop_inv calm st0 st ind p -> (8 - p_index p <= n)%nat ->
  exists k st' p', run (replicate k l_slot) st = Some st' /\ loop_inv calm st0 st' ind p' /\
    (8 <= p_index p' \/ p_consumed p' = true)%nat.
Proof.
  induction n as [|n IH]; intros st p HL Hn; [exists 0%nat, st, p; split; [done|]; split; [done|]; left; lia|].
  destruct (p_consumed p) eqn:Hc; [exists 0%nat, st, p; auto|].
  destruct (decide (8 <= p_index p)%nat) as [Hge|Hlt]; [exists 0%nat, st, p; auto|].
  destruct (loop_turn calm st0 st ind p HL ltac:(lia) Hc) as (st1 & p1 & Hs & HL1 & Hi).
  destruct (IH st1 p1 HL1 ltac:(lia)) as (k & st' & p' & Hrun & HL' & Hdone). exists (S k), st', p'. split; [|done].
  cbn [replicate run]. by rewrite Hs.
Qed.

(** An indication, once processed, has been matched to every request that waits for one
    like it and has none yet, unless an earlier slot, for the same answer, took its
    payload. *)
Theorem indication_delivered st ind : reachable st -> processing st = None ->
  exists ls st', run (l_ind ind :: ls) st = Some st' /\ processing st' = None /\ Forall (fun l => l = l_slot \/ l = l_end) ls /\
    forall t th i, threads st !! t = Some th -> slot_of (th_pc th) = Some i -> awaits ind th ->
      (exists th', threads st' !! t = Some th' /\ th_pc th' = th_pc th /\ th_got th' = [ind]) \/
      (exists t' j, (j < i)%nat /\ took st st' ind t' j).
Proof.
  intros [ls0 Hrun0] Hp. apply run_initial_inv in Hrun0 as HI. set (calm := calm_run ls0) in *.
  assert (Hbegin : step (l_ind ind) st = Some (process_begin ind st)) by (cbn; by rewrite Hp). unfold process_begin in Hbegin.
  destruct (in_use (loc_sync_array st)) eqn:Hin.
  2:{ exists [], st. cbn [run]. rewrite Hbegin. split; [done|]. split; [done|]. split; [constructor|]. intros t th i Ht Hi _.
      rewrite (inv_in_use _ _ HI i) in Hin; [done|]. apply HI. by exists t, th. }
  pose proof (step_inv calm (l_ind ind) st _ ltac:(done) HI Hbegin) as HI1. set (st1 := set_processing _ st) in *.
  destruct (loop_runs calm st ind 8 st1 (MkProcessing ind 0 false false)) as (k & st2 & p & Hrun & [HI2 Hp2 Hind Hback Hlater Hreached Htaken] & Hdone).
  { constructor; try done; cbn; [eauto|lia]. } { cbn. lia. }
  exists (replicate k l_slot ++ [l_end]), (process_end p st2). split; [|split; [|split]].
  - cbn [run]. rewrite Hbegin. cbn [mbind option_bind]. rewrite run_app, Hrun. cbn [mbind option_bind run step]. rewrite Hp2. cbn [mbind option_bind].
    assert ((p_index p <? LOC_SYNC_REQ_BUFFER_SIZE)%nat && negb (p_consumed p) = false) as ->; [|done].
    apply andb_false_iff. destruct Hdone as [H| ->]; [left; by apply Nat.ltb_ge|by right].
  - done.
  - apply Forall_app. split; [|by repeat constructor]. apply Forall_replicate. by left.
  - intros t th i Ht Hi Haw. assert (Hthreads : threads (process_end p st2) = threads st2) by (unfold process_end; by destruct (p_in_use p)).
    unfold took. rewrite Hthreads. destruct (decide (i < p_index p)%nat) as [Hlt|Hge]; [left; by apply (Hreached t th i)|]. right.
    assert (i < 8)%nat. { assert (Hu : slot_in_use (loc_sync_array st) !! i = Some true) by (apply HI; by exists t, th).
      apply lookup_lt_Some in Hu. by rewrite (inv_used_length _ _ HI) in Hu. }
    destruct Htaken as (t' & j & Hj & Htook); [destruct Hdone; [lia|done]|]. exists t', j. split; [lia|done].
Qed.
Definition two_waiting : list Label := asks 1 req1 ++ asks 2 req2 ++ [l_wait 1; l_wait 2].
Lemma indication_delivered_witness : exists ls st', run (l_ind (answer 7) :: ls) (state_of two_waiting) = Some st' /\
  exists th', threads st' !! 1%nat = Some th' /\ th_got th' = [answer 7].
Proof.
  destruct (indication_delivered (state_of two_waiting) (answer 7)) as (ls & st' & Hrun & _ & _ & H).
  - exists two_waiting. vm_compute. reflexivity.
  - vm_compute. reflexivity.
  - exists ls, st'. split; [exact Hrun|]. destruct (H 1%nat (MkThread req1 (in_wait 0) true []) 0%nat) as [(th' & Ht & _ & Hg)|(t' & j & Hj & _)].
    + vm_compute. reflexivity.
    + reflexivity.
    + vm_compute. repeat split.
    + exists th'. split; assumption.
    + inversion Hj.
Defined.

(** ** Gaps *)

(** With all slots taken, a request reports success although it is never sent; and it
    ends that way only then. *)
Theorem full_buffer_success st t th : reachable st -> processing st = None -> threads st !! t = Some th -> th_pc th = to_alloc ->
  exists st', step (l_alloc t) st = Some st' /\
    (threads st' !! t = Some (goto th (returned false eLOC_CLIENT_SUCCESS)) <->
     forall i, (i < LOC_SYNC_REQ_BUFFER_SIZE)%nat -> exists t', holds st t' i).
Proof.
  intros [ls Hrun] Hp Ht Hpc. apply run_initial_inv in Hrun as HI. cbn [step]. rewrite Ht. cbn [mbind option_bind]. unfold step_alloc. rewrite Hpc, Hp.
  unfold loc_alloc_slot. destruct (first_free (slot_in_use (loc_sync_array st))) as [i|] eqn:Hf; eexists; (split; [reflexivity|]);
    cbn [threads set_array set_thread]; rewrite lookup_insert_eq; split; try done.
  - intros Hall. apply first_free_Some in Hf. destruct (Hall i) as [t' Hh]; [rewrite <- (inv_used_length _ _ HI); by eapply lookup_lt_Some|].
    assert (slot_in_use (loc_sync_array st) !! i = Some true) by (apply HI; by exists t'). congruence.
  - intros _ i Hi. apply first_free_None in Hf. rewrite <- (inv_used_length _ _ HI) in Hi. apply lookup_lt_is_Some_2 in Hi as [b Hb].
    apply HI. rewrite Hb. f_equal. by eapply Forall_lookup_1 in Hf.
Qed.
Definition many_requests : list Label := flat_map (fun t => [l_call t (MkRequest 5 33 33 0); l_alloc t]) [1; 2; 3; 4; 5; 6; 7; 8]%nat ++ [l_call 9 req1].
Lemma full_buffer_success_witness : exists st', step (l_alloc 9) (state_of many_requests) = Some st' /\
  threads st' !! 9%nat = Some (MkThread req1 (returned false eLOC_CLIENT_SUCCESS) false []).
Proof.
  destruct (full_buffer_success (state_of many_requests) 9%nat (MkThread req1 to_alloc false [])) as (st' & Hs & H).
  - exists many_requests. vm_compute. reflexivity.
  - vm_compute. reflexivity.
  - vm_compute. reflexivity.
  - reflexivity.
  - exists st'. split; [exact Hs|]. apply H. intros i Hi. exists (S i). unfold LOC_SYNC_REQ_BUFFER_SIZE in Hi.
    do 8 (destruct i as [|i]; [eexists; split; [vm_compute; reflexivity|reflexivity]|]). lia.
Defined.

(** Answers get lost.  The second of two indications that arrive before the first request
    has woken up goes to that request too, over the payload of the first one, and the other
    request times out.  An indication that arrives at the end of the time is copied, and the
    request reports a timeout.  After a spurious wakeup a request reports success without
    an answer. *)
Theorem answers_lost :
  (let st := state_of (two_waiting ++ indication (answer 7) 1 ++ indication (answer 8) 1 ++
     [l_wake 1 by_signal; l_wake 2 timed_out; l_free 1; l_free 2]) in
   threads st !! 1%nat = Some (MkThread req1 (returned true eLOC_CLIENT_SUCCESS) true [answer 7; answer 8]) /\
   threads st !! 2%nat = Some (MkThread req2 (returned true eLOC_CLIENT_FAILURE_TIMEOUT) true []) /\
   memory st !! 1000 = Some [8] /\ memory st !! 2000 = None) /\
  (let st := state_of (asks 1 req1 ++ [l_wait 1] ++ indication (answer 7) 1 ++ [l_wake 1 timed_out; l_free 1]) in
   threads st !! 1%nat = Some (MkThread req1 (returned true eLOC_CLIENT_FAILURE_TIMEOUT) true [answer 7])) /\
  (let st := state_of (asks 1 req1 ++ [l_wait 1; l_wake 1 spurious; l_free 1]) in
   threads st !! 1%nat = Some (MkThread req1 (returned true eLOC_CLIENT_SUCCESS) true [])).
Proof. vm_compute. repeat split. Qed.
