(* ===== verification/BiDict.v ===== *)
(** * Two-way maps between a client's identifiers and sessions
    ([BiDict] of [src/gps/location/LocationAPIClientBase.h])

    Three maps under one lock: identifiers to sessions, sessions to identifiers, and
    sessions to some more data.  [operator[]] of the maps adds what it does not find,
    with 0, as the source does. *)
From stdpp Require Import sorting.
From S2P Require Import Prelude.
#[local] Open Scope Z_scope.

Record BiDict (T : Type) := MkBiDict {
  mForwardMap : gmap Z Z;
  mBackwardMap : gmap Z Z;
  mExtMap : gmap Z T;
}.
Arguments MkBiDict {T}. Arguments mForwardMap {T}. Arguments mBackwardMap {T}. Arguments mExtMap {T}.

Section operations.
Context {T : Type}.
Implicit Types (d : BiDict T).

Definition new_dict : BiDict T := MkBiDict ∅ ∅ ∅.
Definition hasId (id : Z) d : bool := bool_decide (id ∈ dom (mForwardMap d)).
Definition hasSession (session : Z) d : bool := bool_decide (session ∈ dom (mBackwardMap d)).
Definition set (id session : Z) (ext : T) d : BiDict T :=
  MkBiDict (<[id := session]> (mForwardMap d)) (<[session := id]> (mBackwardMap d)) (<[session := ext]> (mExtMap d)).
Definition clear d : BiDict T := new_dict.
Definition rmById (id : Z) d : BiDict T :=
  let session := default 0 (mForwardMap d !! id) in
  MkBiDict (delete id (mForwardMap d)) (delete session (mBackwardMap d)) (delete session (mExtMap d)).
Definition rmBySession (session : Z) d : BiDict T :=
  let id := default 0 (mBackwardMap d !! session) in
  MkBiDict (delete id (mForwardMap d)) (delete session (mBackwardMap d)) (delete session (mExtMap d)).
Definition getId (session : Z) d : Z := default 0 (mBackwardMap d !! session).
Definition getSession (id : Z) d : Z := default 0 (mForwardMap d !! id).
(** [zero] is the value that [memset] gives. *)
Definition getExtById (zero : T) (id : Z) d : T * BiDict T :=
  let session := default 0 (mForwardMap d !! id) in
  (if 0 <? session then default zero (mExtMap d !! session) else zero,
   MkBiDict (<[id := session]> (mForwardMap d)) (mBackwardMap d) (mExtMap d)).
Definition getExtBySession (zero : T) (session : Z) d : T := default zero (mExtMap d !! session).
(** In the order of [std::map]. *)
Definition getAllSessions d : list Z := merge_sort Z.le (elements (dom (mBackwardMap d))).

(** ** Well-formed dictionaries: one identifier per session and one session per identifier *)
Record dict_ok d : Prop := {
  dict_bwd id s : mForwardMap d !! id = Some s <-> mBackwardMap d !! s = Some id;
  dict_ext : dom (mExtMap d) = dom (mBackwardMap d);
  dict_pos id s : mForwardMap d !! id = Some s -> 0 < s;
}.
(** The contents: what an identifier stands for. *)
Definition entry d (id : Z) : option (Z * T) := s ← mForwardMap d !! id; e ← mExtMap d !! s; Some (s, e).

Lemma new_dict_ok : dict_ok new_dict.
Proof. split; cbn; [intros; by rewrite !lookup_empty | by rewrite !dom_empty_L | by intros ? ?; rewrite lookup_empty]. Qed.
Lemma hasId_true id d : hasId id d = true <-> exists s, mForwardMap d !! id = Some s.
Proof. unfold hasId. by rewrite bool_decide_eq_true, elem_of_dom. Qed.
Lemma hasSession_true s d : hasSession s d = true <-> exists id, mBackwardMap d !! s = Some id.
Proof. unfold hasSession. by rewrite bool_decide_eq_true, elem_of_dom. Qed.
Lemma hasSession_false s d : hasSession s d = false <-> mBackwardMap d !! s = None.
Proof. unfold hasSession. by rewrite bool_decide_eq_false, not_elem_of_dom. Qed.
Lemma hasId_false id d : hasId id d = false <-> mForwardMap d !! id = None.
Proof. unfold hasId. by rewrite bool_decide_eq_false, not_elem_of_dom. Qed.
Lemma dict_ext_Some d id s : dict_ok d -> mForwardMap d !! id = Some s -> exists e, mExtMap d !! s = Some e.
Proof. intros Hd Hs. apply elem_of_dom. rewrite (dict_ext _ Hd). apply elem_of_dom. exists id. by apply Hd. Qed.
Lemma entry_Some d id s e : entry d id = Some (s, e) <-> mForwardMap d !! id = Some s /\ mExtMap d !! s = Some e.
Proof. unfold entry. destruct (mForwardMap d !! id) as [s'|]; cbn; [|naive_solver]. destruct (mExtMap d !! s') eqn:E; cbn; naive_solver. Qed.
Lemma entry_None d id : dict_ok d -> entry d id = None <-> mForwardMap d !! id = None.
Proof.
  intros Hd. unfold entry. destruct (mForwardMap d !! id) as [s|] eqn:Hs; cbn; [|done].
  destruct (dict_ext_Some d id s Hd Hs) as [e ->]. done.
Qed.

(** A new pair, or new data for a known pair. *)
Lemma set_ok id s e d : dict_ok d -> 0 < s ->
  mForwardMap d !! id = Some s \/ (mForwardMap d !! id = None /\ mBackwardMap d !! s = None) -> dict_ok (set id s e d).
Proof.
  intros Hd Hs Hcase. split; cbn.
  - intros id' s'. rewrite !lookup_insert. pose proof (dict_bwd _ Hd id s). pose proof (dict_bwd _ Hd id' s').
    destruct (decide (id = id')), (decide (s = s')); subst; destruct Hcase as [Hc|[Hc1 Hc2]]; naive_solver.
  - rewrite !dom_insert_L. by rewrite (dict_ext _ Hd).
  - intros id' s'. rewrite lookup_insert. case_decide; [by intros [= <-]|]. apply Hd.
Qed.
Lemma set_entry id s e d id' : dict_ok d ->
  mForwardMap d !! id = Some s \/ (mForwardMap d !! id = None /\ mBackwardMap d !! s = None) ->
  entry (set id s e d) id' = if decide (id' = id) then Some (s, e) else entry d id'.
Proof.
  intros Hd Hcase. unfold entry. cbn. rewrite lookup_insert. case_decide as H1; case_decide as H2; try congruence; cbn.
  - by rewrite lookup_insert_eq.
  - destruct (mForwardMap d !! id') as [s'|] eqn:Hs'; cbn; [|done]. rewrite lookup_insert_ne; [done|]. intros ->.
    pose proof (proj1 (dict_bwd _ Hd _ _) Hs'). destruct Hcase as [Hc|[_ Hc]]; [apply (dict_bwd _ Hd) in Hc|]; congruence.
Qed.
Lemma rm_pair_ok id s d : dict_ok d -> mForwardMap d !! id = Some s ->
  dict_ok (MkBiDict (delete id (mForwardMap d)) (delete s (mBackwardMap d)) (delete s (mExtMap d))).
Proof.
  intros Hd Hs. pose proof (proj1 (dict_bwd _ Hd _ _) Hs) as Hb. split; cbn.
  - intros id' s'. rewrite !lookup_delete_Some. pose proof (dict_bwd _ Hd id' s'). pose proof (dict_bwd _ Hd id s').  naive_solver.
  - by rewrite !dom_delete_L, (dict_ext _ Hd).
  - intros id' s'. rewrite lookup_delete_Some. intros [_ H]. by apply (dict_pos _ Hd) in H.
Qed.
Lemma rm_pair_entry id s d id' : dict_ok d -> mForwardMap d !! id = Some s ->
  entry (MkBiDict (delete id (mForwardMap d)) (delete s (mBackwardMap d)) (delete s (mExtMap d))) id' =
    if decide (id' = id) then None else entry d id'.
Proof.
  intros Hd Hs. unfold entry. cbn. case_decide as H1; [by subst; rewrite lookup_delete_eq|]. rewrite lookup_delete_ne by done.
  destruct (mForwardMap d !! id') as [s'|] eqn:Hs'; cbn; [|done]. rewrite lookup_delete_ne; [done|]. intros ->.
  apply (dict_bwd _ Hd) in Hs, Hs'. congruence.
Qed.
Lemma rmById_eq id s d : mForwardMap d !! id = Some s ->
  rmById id d = MkBiDict (delete id (mForwardMap d)) (delete s (mBackwardMap d)) (delete s (mExtMap d)).
Proof. intros Hs. unfold rmById. by rewrite Hs. Qed.
Lemma rmBySession_eq id s d : dict_ok d -> mForwardMap d !! id = Some s ->
  rmBySession s d = MkBiDict (delete id (mForwardMap d)) (delete s (mBackwardMap d)) (delete s (mExtMap d)).
Proof. intros Hd Hs. unfold rmBySession. apply (dict_bwd _ Hd) in Hs. by rewrite Hs. Qed.
Lemma getExtById_known zero id s e d : dict_ok d -> mForwardMap d !! id = Some s -> mExtMap d !! s = Some e ->
  getExtById zero id d = (e, d).
Proof.
  intros Hd Hs He. unfold getExtById. rewrite Hs. cbn. pose proof (dict_pos _ Hd _ _ Hs). rewrite (proj2 (Z.ltb_lt _ _)), He by done. cbn.
  rewrite insert_id by done. by destruct d.
Qed.
Lemma getSession_pos id d : dict_ok d -> 0 < getSession id d <-> exists s, mForwardMap d !! id = Some s.
Proof.
  intros Hd. unfold getSession. destruct (mForwardMap d !! id) as [s|] eqn:Hs; cbn; [|split; [lia|by intros []]].
  pose proof (dict_pos _ Hd _ _ Hs). split; eauto.
Qed.
End operations.
Arguments new_dict {T}.
