(* ===== verification/LocationApiClient.v ===== *)
(** * Clients of the location API
    ([src/gps/location/LocationAPIClientBase.h], [src/gps/location/LocationAPIClientBase.cpp])

    [LocationAPIClientBase] gives each session and geofence of a client the identifier
    that the client chose, queues a request object for every call whose answer is a
    callback, and hands each response to the request it takes from a queue.
    [LocationAPIControlClient] does the same for control requests.  Every operation runs
    under the lock of its object.  [LocationAPI] is outside of this file: a call to it is
    recorded as an event, and what it returns, a session or an array of sessions, is an
    argument of the operation.  So are the calls of the virtual callbacks.  Allocations
    succeed. *)
From S2P Require Import Prelude PbConsts GnssTracking BiDict.
#[local] Open Scope Z_scope.

Definition SESSION_MODE_NONE : Z := 0.
Definition SESSION_MODE_ON_FULL : Z := 1.
Definition SESSION_MODE_ON_FIX : Z := 2.
Definition SESSION_MODE_ON_TRIP_COMPLETED : Z := 3.
Definition LOCATION_ERROR_ALREADY_STARTED : Z := 6.
Definition GEOFENCE_BREACH_ENTER : Z := 0.
Definition GEOFENCE_BREACH_EXIT : Z := 1.
Definition GEOFENCE_SESSION_ID : Z := 0xFFFFFFFF.

(** ** Data *)
Record BatchingOptions := MkBatchingOptions { b_minInterval : Z; b_minDistance : Z; b_mode : Z; b_batchingMode : Z }.
Record GeofenceOption := MkGeofenceOption { breachTypeMask : Z; responsiveness : Z; dwellTime : Z }.
Record GeofenceInfo := MkGeofenceInfo { latitude : Z; longitude : Z; radius : Z }.   (* by their bits *)

(** The requests of sessions, those of geofences, and the answer to a network initiated
    request. *)
Inductive Request :=
  | StartTrackingRequest | StopTrackingRequest | UpdateTrackingOptionsRequest
  | StartBatchingRequest | StopBatchingRequest | UpdateBatchingOptionsRequest | GetBatchedLocationsRequest
  | AddGeofencesRequest | RemoveGeofencesRequest (mRemovedGeofenceBiDict : BiDict Z)
  | ModifyGeofencesRequest | PauseGeofencesRequest | ResumeGeofencesRequest
  | GnssNiResponseRequest.

Record RequestQueue := MkQueue { mSession : Z; mQueue : list Request }.
Definition reset (session : Z) (q : RequestQueue) : RequestQueue := MkQueue session [].
Definition setSession (session : Z) (q : RequestQueue) : RequestQueue := MkQueue session (mQueue q).
Definition push (r : Request) (q : RequestQueue) : RequestQueue := MkQueue (mSession q) (mQueue q ++ [r]).
Definition pop (q : RequestQueue) : option Request * RequestQueue :=
  match mQueue q with
  | [] => (None, q)
  | r :: rs => (Some r, MkQueue (mSession q) rs)
  end.

Record SessionEntity := MkEntity { e_id : Z; e_trackingSession : Z; e_batchingSession : Z; e_sessionMode : Z }.
Definition zero_entity : SessionEntity := MkEntity 0 0 0 0.

(** What an object does to the outside: calls of [LocationAPI], and callbacks. *)
Inductive Event :=
  | api_startTracking (session : Z) (options : TrackingOptions) | api_stopTracking (session : Z)
  | api_updateTrackingOptions (session : Z) (options : TrackingOptions)
  | api_startBatching (session : Z) (options : BatchingOptions) | api_stopBatching (session : Z)
  | api_updateBatchingOptions (session : Z) (options : BatchingOptions) | api_getBatchedLocations (session : Z) (count : Z)
  | api_addGeofences (options : list GeofenceOption) (data : list GeofenceInfo) | api_removeGeofences (sessions : list Z)
  | api_modifyGeofences (sessions : list Z) (options : list GeofenceOption)
  | api_pauseGeofences (sessions : list Z) | api_resumeGeofences (sessions : list Z) | api_gnssNiResponse (id response : Z)
  | on_response (r : Request) (error : Z)                                   (* [onStartTrackingCb] and the like *)
  | on_collective_response (r : Request) (errors ids : list Z)              (* [onAddGeofencesCb] and the like *)
  | on_geofence_breach (type : Z) (ids : list Z) | on_batching_status (status : Z) (trips : list Z)
  | api_destroy.

Record Client := MkClient {
  mLocationAPI : bool;                     (* is not NULL *)
  mGeofenceBreachCallback : bool;
  mBatchingStatusCallback : bool;
  REQUEST_TRACKING : RequestQueue;         (* [mRequestQueues], by their index *)
  REQUEST_SESSION : RequestQueue;
  REQUEST_GEOFENCE : RequestQueue;
  REQUEST_NIRESPONSE : RequestQueue;
  mGeofenceBiDict : BiDict Z;
  mSessionBiDict : BiDict SessionEntity;
  mTracking : bool;
  events : list Event;
}.
Definition new_client : Client :=
  MkClient false false false (MkQueue 0 []) (MkQueue 0 []) (MkQueue 0 []) (MkQueue 0 []) new_dict new_dict false [].

Definition set_api (b : bool) (c : Client) : Client :=
  MkClient b (mGeofenceBreachCallback c) (mBatchingStatusCallback c) (REQUEST_TRACKING c) (REQUEST_SESSION c) (REQUEST_GEOFENCE c)
    (REQUEST_NIRESPONSE c) (mGeofenceBiDict c) (mSessionBiDict c) (mTracking c) (events c).
Definition set_callbacks (breach status : bool) (c : Client) : Client :=
  MkClient (mLocationAPI c) breach status (REQUEST_TRACKING c) (REQUEST_SESSION c) (REQUEST_GEOFENCE c)
    (REQUEST_NIRESPONSE c) (mGeofenceBiDict c) (mSessionBiDict c) (mTracking c) (events c).
Definition on_tracking (f : RequestQueue -> RequestQueue) (c : Client) : Client :=
  MkClient (mLocationAPI c) (mGeofenceBreachCallback c) (mBatchingStatusCallback c) (f (REQUEST_TRACKING c)) (REQUEST_SESSION c)
    (REQUEST_GEOFENCE c) (REQUEST_NIRESPONSE c) (mGeofenceBiDict c) (mSessionBiDict c) (mTracking c) (events c).
Definition on_session (f : RequestQueue -> RequestQueue) (c : Client) : Client :=
  MkClient (mLocationAPI c) (mGeofenceBreachCallback c) (mBatchingStatusCallback c) (REQUEST_TRACKING c) (f (REQUEST_SESSION c))
    (REQUEST_GEOFENCE c) (REQUEST_NIRESPONSE c) (mGeofenceBiDict c) (mSessionBiDict c) (mTracking c) (events c).
Definition on_geofence (f : RequestQueue -> RequestQueue) (c : Client) : Client :=
  MkClient (mLocationAPI c) (mGeofenceBreachCallback c) (mBatchingStatusCallback c) (REQUEST_TRACKING c) (REQUEST_SESSION c)
    (f (REQUEST_GEOFENCE c)) (REQUEST_NIRESPONSE c) (mGeofenceBiDict c) (mSessionBiDict c) (mTracking c) (events c).
Definition on_niresponse (f : RequestQueue -> RequestQueue) (c : Client) : Client :=
  MkClient (mLocationAPI c) (mGeofenceBreachCallback c) (mBatchingStatusCallback c) (REQUEST_TRACKING c) (REQUEST_SESSION c)
    (REQUEST_GEOFENCE c) (f (REQUEST_NIRESPONSE c)) (mGeofenceBiDict c) (mSessionBiDict c) (mTracking c) (events c).
Definition on_sessions (f : BiDict SessionEntity -> BiDict SessionEntity) (c : Client) : Client :=
  MkClient (mLocationAPI c) (mGeofenceBreachCallback c) (mBatchingStatusCallback c) (REQUEST_TRACKING c) (REQUEST_SESSION c)
    (REQUEST_GEOFENCE c) (REQUEST_NIRESPONSE c) (mGeofenceBiDict c) (f (mSessionBiDict c)) (mTracking c) (events c).
Definition on_geofences (f : BiDict Z -> BiDict Z) (c : Client) : Client :=
  MkClient (mLocationAPI c) (mGeofenceBreachCallback c) (mBatchingStatusCallback c) (REQUEST_TRACKING c) (REQUEST_SESSION c)
    (REQUEST_GEOFENCE c) (REQUEST_NIRESPONSE c) (f (mGeofenceBiDict c)) (mSessionBiDict c) (mTracking c) (events c).
Definition set_tracking (b : bool) (c : Client) : Client :=
  MkClient (mLocationAPI c) (mGeofenceBreachCallback c) (mBatchingStatusCallback c) (REQUEST_TRACKING c) (REQUEST_SESSION c)
    (REQUEST_GEOFENCE c) (REQUEST_NIRESPONSE c) (mGeofenceBiDict c) (mSessionBiDict c) b (events c).
Definition emit (e : Event) (c : Client) : Client :=
  MkClient (mLocationAPI c) (mGeofenceBreachCallback c) (mBatchingStatusCallback c) (REQUEST_TRACKING c) (REQUEST_SESSION c)
    (REQUEST_GEOFENCE c) (REQUEST_NIRESPONSE c) (mGeofenceBiDict c) (mSessionBiDict c) (mTracking c) (events c ++ [e]).

(** ** Set-up *)

(** [createInstance] gives an object since the three callbacks it needs are set. *)
Definition locAPISetCallbacks (geofenceBreachCb batchingStatusCb : bool) (c : Client) : Client :=
  set_api true (set_callbacks (geofenceBreachCb || mGeofenceBreachCallback c) (batchingStatusCb || mBatchingStatusCallback c) c).
Definition destroy (c : Client) : Client :=
  let c' := set_callbacks false (mBatchingStatusCallback c)
    (on_niresponse (reset 0) (on_geofence (reset 0) (on_session (reset 0) (on_tracking (reset 0) c)))) in
  if mLocationAPI c then emit api_destroy (set_api false c') else c'.

(** ** The single tracking session *)
Definition locAPIStartTracking (options : TrackingOptions) (session : Z) (c : Client) : Client * Z :=
  if mLocationAPI c then
    (if mTracking c then c
     else set_tracking true (on_tracking (push StartTrackingRequest) (on_tracking (reset session) (emit (api_startTracking session options) c))),
     LOCATION_ERROR_SUCCESS)
  else (c, LOCATION_ERROR_GENERAL_FAILURE).
Definition locAPIStopTracking (c : Client) : Client :=
  let session := mSession (REQUEST_TRACKING c) in
  if mLocationAPI c && (0 <? session) then
    set_tracking false (emit (api_stopTracking session) (on_tracking (push StopTrackingRequest) c))
  else c.
Definition locAPIUpdateTrackingOptions (options : TrackingOptions) (c : Client) : Client :=
  let session := mSession (REQUEST_TRACKING c) in
  if mLocationAPI c && (0 <? session) then
    emit (api_updateTrackingOptions session options) (on_tracking (push UpdateTrackingOptionsRequest) c)
  else c.

(** [mBatchSize] is read from a configuration file when it is -1. *)
Definition locAPIGetBatchSize (configured mBatchSize : Z) : Z :=
  if mBatchSize =? -1 then (if configured <? 0 then 0 else configured) else mBatchSize.

(** ** Sessions *)
Definition batching_mode (sessionMode : Z) : Z :=
  if sessionMode =? SESSION_MODE_ON_FULL then BATCHING_MODE_ROUTINE
  else if sessionMode =? SESSION_MODE_ON_TRIP_COMPLETED then BATCHING_MODE_TRIP
  else BATCHING_MODE_NO_AUTO_REPORT.
Definition batch_options (sessionMode : Z) (options : TrackingOptions) : BatchingOptions :=
  MkBatchingOptions (minInterval options) (minDistance options) (mode options) (batching_mode sessionMode).

Definition locAPIStartSession (id sessionMode : Z) (options : TrackingOptions) (session : Z) (c : Client) : Client * Z :=
  if mLocationAPI c then
    if hasId id (mSessionBiDict c) then (c, LOCATION_ERROR_ALREADY_STARTED)
    else
      let c := if sessionMode =? SESSION_MODE_ON_FIX
        then on_session (push StartTrackingRequest) (emit (api_startTracking session options) c)
        else on_session (push StartBatchingRequest) (on_session (setSession session)
               (emit (api_startBatching session (batch_options sessionMode options)) c)) in
      let entity := if sessionMode =? SESSION_MODE_ON_FIX then MkEntity id session 0 sessionMode else MkEntity id 0 session sessionMode in
      (on_sessions (BiDict.set id session entity) c, LOCATION_ERROR_SUCCESS)
  else (c, LOCATION_ERROR_GENERAL_FAILURE).

Definition locAPIStopSession (id : Z) (c : Client) : Client * Z :=
  if mLocationAPI c then
    if hasId id (mSessionBiDict c) then
      let '(entity, d) := getExtById zero_entity id (mSessionBiDict c) in
      let c := on_sessions (fun _ => d) c in
      (if e_sessionMode entity =? SESSION_MODE_ON_FIX
       then emit (api_stopTracking (e_trackingSession entity)) (on_session (push StopTrackingRequest) c)
       else emit (api_stopBatching (e_batchingSession entity)) (on_session (push StopBatchingRequest) c),
       LOCATION_ERROR_SUCCESS)
    else (c, LOCATION_ERROR_ID_UNKNOWN)
  else (c, LOCATION_ERROR_GENERAL_FAILURE).

(** [session] is the one that the start of the other kind returns, when there is one.  The
    options of a batching session that is updated are not filled in. *)
Definition locAPIUpdateSessionOptions (id sessionMode : Z) (options : TrackingOptions) (session : Z) (c : Client) : Client * Z :=
  if mLocationAPI c then
    if hasId id (mSessionBiDict c) then
      let '(entity, d) := getExtById zero_entity id (mSessionBiDict c) in
      let c := on_sessions (fun _ => d) c in
      let trackingSession := e_trackingSession entity in
      let batchingSession := e_batchingSession entity in
      let sMode := e_sessionMode entity in
      let '(c, trackingSession, batchingSession) :=
        if sessionMode =? SESSION_MODE_ON_FIX then
          let c := on_session (push UpdateTrackingOptionsRequest) c in
          if sMode =? SESSION_MODE_ON_FIX then (emit (api_updateTrackingOptions trackingSession options) c, trackingSession, batchingSession)
          else (emit (api_startTracking session options) (on_session (setSession 0) (emit (api_stopBatching batchingSession) c)), session, 0)
        else
          let c := on_session (push UpdateBatchingOptionsRequest) c in
          if sMode =? SESSION_MODE_ON_FIX
          then (on_session (setSession session) (emit (api_startBatching session (batch_options sessionMode options))
                  (emit (api_stopTracking trackingSession) c)), 0, session)
          else (emit (api_updateBatchingOptions batchingSession (MkBatchingOptions 0 0 0 (batching_mode sessionMode))) c,
                trackingSession, batchingSession) in
      let session := if sessionMode =? SESSION_MODE_ON_FIX then trackingSession else batchingSession in
      let entity := MkEntity (e_id entity) trackingSession batchingSession sessionMode in
      (on_sessions (fun d => BiDict.set id session entity (rmById id d)) c, LOCATION_ERROR_SUCCESS)
    else (c, LOCATION_ERROR_ID_UNKNOWN)
  else (c, LOCATION_ERROR_GENERAL_FAILURE).

Definition locAPIGetBatchedLocations (id count : Z) (c : Client) : Client * Z :=
  if mLocationAPI c then
    if hasId id (mSessionBiDict c) then
      let '(entity, d) := getExtById zero_entity id (mSessionBiDict c) in
      let c := on_sessions (fun _ => d) c in
      if negb (e_sessionMode entity =? SESSION_MODE_ON_FIX)
      then (emit (api_getBatchedLocations (e_batchingSession entity) count) (on_session (push GetBatchedLocationsRequest) c), LOCATION_ERROR_SUCCESS)
      else (c, LOCATION_ERROR_NOT_SUPPORTED)
    else (c, LOCATION_ERROR_ID_UNKNOWN)
  else (c, LOCATION_ERROR_GENERAL_FAILURE).

(** ** Geofences *)
Definition geofences_ready (c : Client) : bool := mSession (REQUEST_GEOFENCE c) =? GEOFENCE_SESSION_ID.

(** [sessions] is the array that [addGeofences] returns, or NULL. *)
Definition locAPIAddGeofences (ids : list Z) (options : list GeofenceOption) (data : list GeofenceInfo) (sessions : option (list Z)) (c : Client)
    : Client * Z :=
  if mLocationAPI c then
    let c := if geofences_ready c then c else on_geofence (reset GEOFENCE_SESSION_ID) c in
    let c := emit (api_addGeofences options data) c in
    match sessions with
    | Some sessions =>
        let c := on_geofence (push AddGeofencesRequest) c in
        (on_geofences (fun d => foldl (fun d '(id, (session, o)) => BiDict.set id session (breachTypeMask o) d) d
           (zip ids (zip sessions options))) c, LOCATION_ERROR_SUCCESS)
    | None => (c, LOCATION_ERROR_GENERAL_FAILURE)
    end
  else (c, LOCATION_ERROR_GENERAL_FAILURE).

(** The sessions of the identifiers that are known, in the array of the request. *)
Definition remove_step (st : BiDict Z * BiDict Z * list Z) (id : Z) : BiDict Z * BiDict Z * list Z :=
  let '(d, removed, sessions) := st in
  let session := getSession id d in
  if 0 <? session
  then (rmBySession session d, BiDict.set id session (getExtBySession 0 session d) removed, sessions ++ [session])
  else st.
Definition locAPIRemoveGeofences (ids : list Z) (c : Client) : Client :=
  if mLocationAPI c && geofences_ready c then
    let '(d, removed, sessions) := foldl remove_step (mGeofenceBiDict c, new_dict, []) ids in
    let c := on_geofences (fun _ => d) c in
    if decide (sessions = []) then c
    else emit (api_removeGeofences sessions) (on_geofence (push (RemoveGeofencesRequest removed)) c)
  else c.
Definition remask_step (st : BiDict Z * list Z) (p : Z * option Z) : BiDict Z * list Z :=
  let '(d, sessions) := st in
  let session := getSession p.1 d in
  if 0 <? session
  then (match p.2 with Some mask => BiDict.set p.1 session mask d | None => d end, sessions ++ [session])
  else st.
(** The options go on as they are, although the sessions leave out the unknown identifiers. *)
Definition locAPIModifyGeofences (ids : list Z) (options : list GeofenceOption) (c : Client) : Client :=
  if mLocationAPI c && geofences_ready c then
    let '(d, sessions) := foldl remask_step (mGeofenceBiDict c, []) (zip ids ((fun o => Some (breachTypeMask o)) <$> options)) in
    let c := on_geofences (fun _ => d) c in
    if decide (sessions = []) then c
    else emit (api_modifyGeofences sessions options) (on_geofence (push ModifyGeofencesRequest) c)
  else c.
Definition locAPIPauseGeofences (ids : list Z) (c : Client) : Client :=
  if mLocationAPI c && geofences_ready c then
    let '(_, sessions) := foldl remask_step (mGeofenceBiDict c, []) ((fun id => (id, None)) <$> ids) in
    if decide (sessions = []) then c
    else emit (api_pauseGeofences sessions) (on_geofence (push PauseGeofencesRequest) c)
  else c.
(** [mask] is NULL or an array. *)
Definition locAPIResumeGeofences (ids : list Z) (mask : option (list Z)) (c : Client) : Client :=
  if mLocationAPI c && geofences_ready c then
    let '(d, sessions) := foldl remask_step (mGeofenceBiDict c, [])
      (match mask with Some mask => zip ids (Some <$> mask) | None => (fun id => (id, None)) <$> ids end) in
    let c := on_geofences (fun _ => d) c in
    if decide (sessions = []) then c
    else emit (api_resumeGeofences sessions) (on_geofence (push ResumeGeofencesRequest) c)
  else c.
(** The keys of the backward map, sessions, are passed as identifiers. *)
Definition locAPIRemoveAllGeofences (c : Client) : Client :=
  let sessionsVec := getAllSessions (mGeofenceBiDict c) in
  if decide (sessionsVec = []) then c else locAPIRemoveGeofences sessionsVec c.

Definition locAPIGnssNiResponse (id response : Z) (c : Client) : Client :=
  if mLocationAPI c then on_niresponse (push GnssNiResponseRequest) (on_niresponse (reset id) (emit (api_gnssNiResponse id response) c))
  else c.

(** ** Callbacks from [LocationAPI] *)
Definition breached (type mask : Z) : bool :=
  ((type =? GEOFENCE_BREACH_ENTER) && Z.testbit mask 0) || ((type =? GEOFENCE_BREACH_EXIT) && Z.testbit mask 1).
Definition beforeGeofenceBreachCb (type : Z) (sessions : list Z) (c : Client) : Client :=
  if mGeofenceBreachCallback c then
    let ids := omap (fun session => if breached type (getExtBySession 0 session (mGeofenceBiDict c))
                                    then Some (getId session (mGeofenceBiDict c)) else None) sessions in
    emit (on_geofence_breach type ids) c
  else c.
Definition trip_step (st : BiDict SessionEntity * list Z) (session : Z) : BiDict SessionEntity * list Z :=
  let '(d, trips) := st in
  if hasSession session d then
    let entity := getExtBySession zero_entity session d in
    if e_sessionMode entity =? SESSION_MODE_ON_TRIP_COMPLETED then (rmBySession session d, trips ++ [e_id entity]) else st
  else st.
Definition beforeBatchingStatusCb (status : Z) (tripCompletedList : list Z) (c : Client) : Client :=
  let '(d, trips) := if status =? BATCHING_STATUS_TRIP_COMPLETED then foldl trip_step (mSessionBiDict c, []) tripCompletedList
                     else (mSessionBiDict c, []) in
  emit (on_batching_status status trips) (on_sessions (fun _ => d) c).

Definition removeSession (session : Z) (c : Client) : Client :=
  if hasSession session (mSessionBiDict c) then on_sessions (rmBySession session) c else c.
(** [onResponse] of each class; [on_response] stands for the virtual callback. *)
Definition onResponse (r : Request) (error id : Z) (c : Client) : Client :=
  match r with
  | StartTrackingRequest | StartBatchingRequest =>
      emit (on_response r error) (if error =? LOCATION_ERROR_SUCCESS then c else removeSession id c)
  | StopTrackingRequest | StopBatchingRequest =>
      let c := emit (on_response r error) c in
      if error =? LOCATION_ERROR_SUCCESS then removeSession id c else c
  | UpdateTrackingOptionsRequest | UpdateBatchingOptionsRequest | GetBatchedLocationsRequest | GnssNiResponseRequest =>
      emit (on_response r error) c
  | _ => c
  end.
Definition onCollectiveResponse (r : Request) (errors sessions : list Z) (c : Client) : Client :=
  match r with
  | RemoveGeofencesRequest removed => emit (on_collective_response r errors ((fun s => getId s removed) <$> sessions)) c
  | AddGeofencesRequest | ModifyGeofencesRequest | PauseGeofencesRequest | ResumeGeofencesRequest =>
      emit (on_collective_response r errors ((fun s => getId s (mGeofenceBiDict c)) <$> sessions)) c
  | _ => c
  end.
Definition getRequestBySession (session : Z) (c : Client) : option Request * Client :=
  let '(request, c) :=
    if mSession (REQUEST_TRACKING c) =? session then (let '(r, q) := pop (REQUEST_TRACKING c) in (r, on_tracking (fun _ => q) c))
    else if mSession (REQUEST_NIRESPONSE c) =? session then (let '(r, q) := pop (REQUEST_NIRESPONSE c) in (r, on_niresponse (fun _ => q) c))
    else (None, c) in
  match request with
  | Some r => (Some r, c)
  | None =>
      if hasSession session (mSessionBiDict c)
      then (let '(r, q) := pop (REQUEST_SESSION c) in (r, on_session (fun _ => q) c))
      else (None, c)
  end.
Definition onResponseCb (error id : Z) (c : Client) : Client :=
  match getRequestBySession id c with
  | (Some r, c) => onResponse r error id c
  | (None, c) => c
  end.
Definition onCollectiveResponseCb (errors sessions : list Z) (c : Client) : Client :=
  if geofences_ready c then
    match pop (REQUEST_GEOFENCE c) with
    | (Some r, q) => onCollectiveResponse r errors sessions (on_geofence (fun _ => q) c)
    | (None, _) => c
    end
  else c.

(** ** Control requests *)
Module Control.

Inductive CtrlRequest := GnssDeleteAidingDataRequest | EnableRequest | DisableRequest | GnssUpdateConfigRequest | GnssGetConfigRequest.
Record CtrlQueue := MkCtrlQueue { q_session : Z; q_arrayPtr : Z; q_queue : list CtrlRequest }.   (* pointers: 0 is NULL *)
Definition reset_session (session : Z) (q : CtrlQueue) : CtrlQueue := MkCtrlQueue session (q_arrayPtr q) [].
Definition reset_array (ptr : Z) (q : CtrlQueue) : CtrlQueue := MkCtrlQueue 0 ptr [].
Definition push_ctrl (r : CtrlRequest) (q : CtrlQueue) : CtrlQueue := MkCtrlQueue (q_session q) (q_arrayPtr q) (q_queue q ++ [r]).
Definition pop_ctrl (q : CtrlQueue) : option CtrlRequest * CtrlQueue :=
  match q_queue q with [] => (None, q) | r :: rs => (Some r, MkCtrlQueue (q_session q) (q_arrayPtr q) rs) end.

Inductive CtrlEvent :=
  | ctrl_deleteAidingData (session : Z) | ctrl_enable (session techType : Z) | ctrl_disable (session : Z)
  | ctrl_updateConfig (config : Z) | ctrl_getConfig (mask : Z)
  | ctrl_destroy | ctrl_response (r : CtrlRequest) (error : Z) | ctrl_collective_response (r : CtrlRequest) (errors ids : list Z).

(** A configuration is known by what [equals] compares; 0 is the one of the constructor. *)
Record ControlClient := MkControl {
  mLocationControlAPI : bool;
  DELETEAIDINGDATA : CtrlQueue; CONTROL : CtrlQueue; CONFIG_UPDATE : CtrlQueue; CONFIG_GET : CtrlQueue;
  mEnabled : bool;
  mConfig : Z;
  ctrl_events : list CtrlEvent;
}.
Definition new_queue : CtrlQueue := MkCtrlQueue 0 0 [].
(** [available]: whether [LocationControlAPI::createInstance] gives an object. *)
Definition LocationAPIControlClient (available : bool) : ControlClient :=
  MkControl available new_queue new_queue new_queue new_queue false 0 [].

Definition ctrl_emit (e : CtrlEvent) (c : ControlClient) : ControlClient :=
  MkControl (mLocationControlAPI c) (DELETEAIDINGDATA c) (CONTROL c) (CONFIG_UPDATE c) (CONFIG_GET c) (mEnabled c) (mConfig c) (ctrl_events c ++ [e]).
Definition on_delete (f : CtrlQueue -> CtrlQueue) (c : ControlClient) : ControlClient :=
  MkControl (mLocationControlAPI c) (f (DELETEAIDINGDATA c)) (CONTROL c) (CONFIG_UPDATE c) (CONFIG_GET c) (mEnabled c) (mConfig c) (ctrl_events c).
Definition on_control (f : CtrlQueue -> CtrlQueue) (enabled : bool) (c : ControlClient) : ControlClient :=
  MkControl (mLocationControlAPI c) (DELETEAIDINGDATA c) (f (CONTROL c)) (CONFIG_UPDATE c) (CONFIG_GET c) enabled (mConfig c) (ctrl_events c).
Definition on_update (f : CtrlQueue -> CtrlQueue) (config : Z) (c : ControlClient) : ControlClient :=
  MkControl (mLocationControlAPI c) (DELETEAIDINGDATA c) (CONTROL c) (f (CONFIG_UPDATE c)) (CONFIG_GET c) (mEnabled c) config (ctrl_events c).
Definition on_get (f : CtrlQueue -> CtrlQueue) (c : ControlClient) : ControlClient :=
  MkControl (mLocationControlAPI c) (DELETEAIDINGDATA c) (CONTROL c) (CONFIG_UPDATE c) (f (CONFIG_GET c)) (mEnabled c) (mConfig c) (ctrl_events c).

(** The destructor. *)
Definition destroy_control (c : ControlClient) : ControlClient :=
  MkControl false (reset_session 0 (DELETEAIDINGDATA c)) (reset_session 0 (CONTROL c)) (reset_session 0 (CONFIG_UPDATE c)) (reset_session 0 (CONFIG_GET c))
    (mEnabled c) (mConfig c) (if mLocationControlAPI c then ctrl_events c ++ [ctrl_destroy] else ctrl_events c).
Definition locAPIGnssDeleteAidingData (session : Z) (c : ControlClient) : ControlClient * Z :=
  if mLocationControlAPI c
  then (on_delete (push_ctrl GnssDeleteAidingDataRequest) (on_delete (reset_session session) (ctrl_emit (ctrl_deleteAidingData session) c)),
        LOCATION_ERROR_SUCCESS)
  else (c, LOCATION_ERROR_GENERAL_FAILURE).
Definition locAPIEnable (techType session : Z) (c : ControlClient) : ControlClient * Z :=
  if mEnabled c then (c, LOCATION_ERROR_SUCCESS)
  else if mLocationControlAPI c
  then (on_control (fun q => push_ctrl EnableRequest (reset_session session q)) true (ctrl_emit (ctrl_enable session techType) c),
        LOCATION_ERROR_SUCCESS)
  else (c, LOCATION_ERROR_GENERAL_FAILURE).
Definition locAPIDisable (c : ControlClient) : ControlClient :=
  let session := q_session (CONTROL c) in
  if mEnabled c && mLocationControlAPI c && (0 <? session)
  then ctrl_emit (ctrl_disable session) (on_control (push_ctrl DisableRequest) false c)
  else c.
(** The queue takes the array only if it has one already. *)
Definition take_array (ptr : Z) (r : CtrlRequest) (q : CtrlQueue) : CtrlQueue :=
  push_ctrl r (if q_arrayPtr q =? 0 then q else reset_array ptr q).
(** [idArray] is the array of sessions that [gnssUpdateConfig] returns; it is deleted at the end. *)
Definition locAPIGnssUpdateConfig (config idArray : Z) (c : ControlClient) : ControlClient * Z :=
  if mLocationControlAPI c then
    if mConfig c =? config then (c, LOCATION_ERROR_SUCCESS)
    else
      let c := ctrl_emit (ctrl_updateConfig config) (on_update id config c) in
      if idArray =? 0 then (c, LOCATION_ERROR_GENERAL_FAILURE)
      else (on_update (take_array idArray GnssUpdateConfigRequest) config c, LOCATION_ERROR_SUCCESS)
  else (c, LOCATION_ERROR_GENERAL_FAILURE).
Definition locAPIGnssGetConfig (mask idArray : Z) (c : ControlClient) : ControlClient * Z :=
  if mLocationControlAPI c then
    let c := ctrl_emit (ctrl_getConfig mask) c in
    if idArray =? 0 then (c, LOCATION_ERROR_GENERAL_FAILURE)
    else (on_get (take_array idArray GnssGetConfigRequest) c, LOCATION_ERROR_SUCCESS)
  else (c, LOCATION_ERROR_GENERAL_FAILURE).

Definition getRequestBySession (session : Z) (c : ControlClient) : option CtrlRequest * ControlClient :=
  if q_session (DELETEAIDINGDATA c) =? session then (let '(r, q) := pop_ctrl (DELETEAIDINGDATA c) in (r, on_delete (fun _ => q) c))
  else if q_session (CONTROL c) =? session then (let '(r, q) := pop_ctrl (CONTROL c) in (r, on_control (fun _ => q) (mEnabled c) c))
  else (None, c).
Definition getRequestBySessionArrayPtr (ptr : Z) (c : ControlClient) : option CtrlRequest * ControlClient :=
  if q_arrayPtr (CONFIG_UPDATE c) =? ptr then (let '(r, q) := pop_ctrl (CONFIG_UPDATE c) in (r, on_update (fun _ => q) (mConfig c) c))
  else if q_arrayPtr (CONFIG_GET c) =? ptr then (let '(r, q) := pop_ctrl (CONFIG_GET c) in (r, on_get (fun _ => q) c))
  else (None, c).
Definition onCtrlResponseCb (error id : Z) (c : ControlClient) : ControlClient :=
  match getRequestBySession id c with
  | (Some ((GnssDeleteAidingDataRequest | EnableRequest | DisableRequest) as r), c) => ctrl_emit (ctrl_response r error) c
  | (_, c) => c
  end.
(** [ptr] is the address of the array [ids]. *)
Definition onCtrlCollectiveResponseCb (errors : list Z) (ptr : Z) (ids : list Z) (c : ControlClient) : ControlClient :=
  match getRequestBySessionArrayPtr ptr c with
  | (Some ((GnssUpdateConfigRequest | GnssGetConfigRequest) as r), c) => ctrl_emit (ctrl_collective_response r errors ids) c
  | (_, c) => c
  end.
End Control.
