(* ===== verification/LocationApiClientSpec.v ===== *)
(** * Clients of the location API: sessions and their responses

    What [LocationAPIClientBase] promises for sessions: an abstract map from identifiers
    to sessions, and one callback for each response, of the request that it answers.
    [LocationAPI] gives fresh sessions and answers each call once, in order; the client
    waits for the response to a request on a session before the next request on it. *)
From S2P Require Import Prelude PbConsts GnssTracking BiDict LocationApiClient.
#[local] Open Scope Z_scope.

(** ** The client and its environment *)
Inductive SessionOp :=
  | op_start (id sessionMode : Z) (options : TrackingOptions) (session : Z)
  | op_stop (id : Z)
  | op_update (id sessionMode : Z) (options : TrackingOptions) (session : Z)
  | op_get (id count : Z)
  | op_answer (error : Z)                  (* the next response *)
  | op_trips (sessions : list Z).          (* trips are completed *)

(** The calls that wait for a response, with the request it is for.  The stop of a session
    that goes on as one of the other kind is answered to nobody. *)
Abbreviation Pending := (list (Z * option Request)).
Record World := MkWorld { w_client : Client; w_pending : Pending }.

Definition on_fix (sessionMode : Z) : bool := sessionMode =? SESSION_MODE_ON_FIX.
Definition start_request (sessionMode : Z) : Request := if on_fix sessionMode then StartTrackingRequest else StartBatchingRequest.
Definition stop_request (sessionMode : Z) : Request := if on_fix sessionMode then StopTrackingRequest else StopBatchingRequest.
Definition update_request (sessionMode : Z) : Request := if on_fix sessionMode then UpdateTrackingOptionsRequest else UpdateBatchingOptionsRequest.

(** The abstract state: the mode and the session of each identifier. *)
Abbreviation Sessions := (gmap Z (Z * Z)).
Definition asks (op : SessionOp) (A : Sessions) : Pending :=
  match op with
  | op_start id mode _ s => match A !! id with Some _ => [] | None => [(s, Some (start_request mode))] end
  | op_stop id => match A !! id with Some (m, s) => [(s, Some (stop_request m))] | None => [] end
  | op_update id mode _ s' => match A !! id with
      | Some (m, s) => if Bool.eqb (on_fix m) (on_fix mode) then [(s, Some (update_request mode))]
                       else [(s, None); (s', Some (update_request mode))]
      | None => [] end
  | op_get id _ => match A !! id with Some (m, s) => if on_fix m then [] else [(s, Some GetBatchedLocationsRequest)] | None => [] end
  | op_answer _ | op_trips _ => []
  end.
Definition ends (r : option Request) (error : Z) : bool :=
  match r with
  | Some (StartTrackingRequest | StartBatchingRequest) => negb (error =? LOCATION_ERROR_SUCCESS)
  | Some (StopTrackingRequest | StopBatchingRequest) => error =? LOCATION_ERROR_SUCCESS
  | _ => false
  end.
Definition spec_step (op : SessionOp) (p : Pending) (A : Sessions) : Sessions :=
  match op with
  | op_start id mode _ s => match A !! id with Some _ => A | None => <[id := (mode, s)]> A end
  | op_update id mode _ s' => match A !! id with
      | Some (m, s) => <[id := (mode, if Bool.eqb (on_fix m) (on_fix mode) then s else s')]> A
      | None => A end
  | op_answer error => match p with (s, r) :: _ => if ends r error then filter (fun e => e.2.2 <> s) A else A | [] => A end
  | op_trips ss => filter (fun e => ~ (e.2.1 = SESSION_MODE_ON_TRIP_COMPLETED /\ e.2.2 ∈ ss)) A
  | op_stop _ | op_get _ _ => A
  end.

(** The code. *)
Definition exec (op : SessionOp) (w : World) : Client :=
  let c := w_client w in
  match op with
  | op_start id mode options s => (locAPIStartSession id mode options s c).1
  | op_stop id => (locAPIStopSession id c).1
  | op_update id mode options s => (locAPIUpdateSessionOptions id mode options s c).1
  | op_get id count => (locAPIGetBatchedLocations id count c).1
  | op_answer error => match w_pending w with (s, _) :: _ => onResponseCb error s c | [] => c end
  | op_trips ss => beforeBatchingStatusCb BATCHING_STATUS_TRIP_COMPLETED ss c
  end.
Definition pending_after (op : SessionOp) (A : Sessions) (p : Pending) : Pending :=
  match op with op_answer _ => tail p | _ => p ++ asks op A end.

(** What the environment does and the client waits for. *)
Definition fresh (s : Z) (A : Sessions) (p : Pending) : Prop :=
  0 < s /\ (forall id m, A !! id <> Some (m, s)) /\ s ∉ p.*1.
Definition idle (id : Z) (A : Sessions) (p : Pending) : Prop := forall m s, A !! id = Some (m, s) -> s ∉ p.*1.
Definition allowed (op : SessionOp) (A : Sessions) (p : Pending) : Prop :=
  match op with
  | op_start _ _ _ s => fresh s A p
  | op_stop id | op_get id _ => idle id A p
  | op_update id _ _ s => idle id A p /\ fresh s A p
  | op_answer _ => p <> []
  | op_trips ss => forall s, s ∈ ss -> s ∉ p.*1
  end.
Inductive runs : World -> Sessions -> Prop :=
  | runs_new breachCb statusCb : runs (MkWorld (locAPISetCallbacks breachCb statusCb new_client) []) ∅
  | runs_op w A op : runs w A -> allowed op A (w_pending w) ->
      runs (MkWorld (exec op w) (pending_after op A (w_pending w))) (spec_step op (w_pending w) A).

(** ** The invariant *)
Definition session_request (r : Request) : bool :=
  match r with
  | StartTrackingRequest | StopTrackingRequest | UpdateTrackingOptionsRequest
  | StartBatchingRequest | StopBatchingRequest | UpdateBatchingOptionsRequest | GetBatchedLocationsRequest => true
  | _ => false
  end.
Definition entity_ok (id s : Z) (e : SessionEntity) : Prop :=
  e_id e = id /\ if on_fix (e_sessionMode e) then e_trackingSession e = s else e_batchingSession e = s.
Record session_inv (w : World) (A : Sessions) : Prop := {
  si_api : mLocationAPI (w_client w) = true;
  si_dict : dict_ok (mSessionBiDict (w_client w));
  si_entity id s e : entry (mSessionBiDict (w_client w)) id = Some (s, e) -> entity_ok id s e;
  si_spec id : A !! id = (fun p => (e_sessionMode p.2, p.1)) <$> entry (mSessionBiDict (w_client w)) id;
  si_tracking : mSession (REQUEST_TRACKING (w_client w)) = 0 /\ mSession (REQUEST_NIRESPONSE (w_client w)) = 0;
  si_queue : mQueue (REQUEST_SESSION (w_client w)) = omap snd (w_pending w);
  si_known s r : (s, Some r) ∈ w_pending w -> session_request r = true /\ exists id m, A !! id = Some (m, s);
  si_unknown s : (s, None) ∈ w_pending w -> 0 < s /\ forall id m, A !! id <> Some (m, s);
  si_once : NoDup (w_pending w).*1;
}.
Section facts.
Context (w : World) (A : Sessions) (HI : session_inv w A).
Let d := mSessionBiDict (w_client w).

Lemma spec_known id m s : A !! id = Some (m, s) -> mForwardMap d !! id = Some s /\ 0 < s /\
  exists e, mExtMap d !! s = Some e /\ e_sessionMode e = m /\ entity_ok id s e.
Proof.
  rewrite (si_spec _ _ HI). fold d. destruct (entry d id) as [[s' e]|] eqn:He; [|done]. cbn. intros [= <- <-].
  pose proof (si_entity _ _ HI _ _ _ He). apply entry_Some in He as [Hf He].
  split; [done|]. split; [by eapply (dict_pos _ (si_dict _ _ HI))|]. by exists e.
Qed.
Lemma spec_unknown id : A !! id = None <-> mForwardMap d !! id = None.
Proof. rewrite (si_spec _ _ HI), fmap_None, entry_None by apply HI. done. Qed.
Lemma spec_hasId id : hasId id d = bool_decide (is_Some (A !! id)).
Proof.
  destruct (A !! id) as [[m s]|] eqn:E.
  - rewrite bool_decide_true by eauto. apply hasId_true. apply spec_known in E as [? _]. eauto.
  - rewrite bool_decide_false by (by intros []). by apply hasId_false, spec_unknown.
Qed.
Lemma spec_session s : mBackwardMap d !! s <> None <-> exists id m, A !! id = Some (m, s).
Proof.
  split.
  - destruct (mBackwardMap d !! s) as [id|] eqn:E; [|done]. intros _. apply (dict_bwd _ (si_dict _ _ HI)) in E.
    destruct (dict_ext_Some _ _ _ (si_dict _ _ HI) E) as [e He]. exists id, (e_sessionMode e). rewrite (si_spec _ _ HI). fold d.
    by rewrite (proj2 (entry_Some d id s e)).
  - intros (id & m & E). apply spec_known in E as [E _]. apply (dict_bwd _ (si_dict _ _ HI)) in E. fold d in E. by rewrite E.
Qed.
Lemma spec_inj id id' m m' s : A !! id = Some (m, s) -> A !! id' = Some (m', s) -> id = id'.
Proof.
  intros H1 H2. apply spec_known in H1 as [H1 _], H2 as [H2 _]. apply (dict_bwd _ (si_dict _ _ HI)) in H1, H2. congruence.
Qed.
Lemma pending_pos s : s ∈ (w_pending w).*1 -> 0 < s.
Proof.
  intros ([s' [r|]] & -> & Hin)%list_elem_of_fmap; cbn.
  - destruct (si_known _ _ HI _ _ Hin) as (_ & id & m & H). by apply spec_known in H as (_ & ? & _).
  - by apply (si_unknown _ _ HI) in Hin as [? _].
Qed.
Lemma fresh_dict s : fresh s A (w_pending w) -> mBackwardMap d !! s = None.
Proof.
  intros (_ & Hs & _). destruct (decide (mBackwardMap d !! s = None)) as [|H]; [done|].
  apply spec_session in H as (id & m & H). by destruct (Hs id m).
Qed.
End facts.
