(* ===== verification/LocationApiClientProps.v ===== *)
(** * Clients of the location API: the sessions refine their specification *)
From S2P Require Import Prelude PbConsts GnssTracking BiDict LocationApiClient LocationApiClientSpec.
#[local] Open Scope Z_scope.

(** A step that leaves the dictionary alone and asks for more responses. *)
Lemma asked_inv c p A c' q : session_inv (MkWorld c p) A ->
  mLocationAPI c' = true -> mSessionBiDict c' = mSessionBiDict c ->
  mSession (REQUEST_TRACKING c') = 0 /\ mSession (REQUEST_NIRESPONSE c') = 0 ->
  mQueue (REQUEST_SESSION c') = mQueue (REQUEST_SESSION c) ++ omap snd q ->
  (forall s r, (s, r) ∈ q -> match r with Some r => session_request r = true | None => False end /\ exists id m, A !! id = Some (m, s)) ->
  NoDup q.*1 -> (forall s, s ∈ q.*1 -> s ∉ p.*1) -> session_inv (MkWorld c' (p ++ q)) A.
Proof.
  intros [H1 H2 H3 H4 H5 H6 H7 H8 H9] Ha Hd Ht Hq Hk Hnd Hdis. cbn [w_client w_pending] in *.
  constructor; cbn [w_client w_pending]; rewrite ?Hd; try done.
  - by rewrite Hq, H6, omap_app.
  - intros s r [Hin|Hin]%elem_of_app; [eauto|]. by apply Hk in Hin.
  - intros s [Hin|Hin]%elem_of_app; [eauto|]. by apply Hk in Hin as [[] _].
  - rewrite fmap_app. apply NoDup_app. split; [done|]. split; [|done]. intros s Hs Hs'. by apply (Hdis s).
Qed.
Lemma stop_inv c p A id : session_inv (MkWorld c p) A -> allowed (op_stop id) A p ->
  session_inv (MkWorld (locAPIStopSession id c).1 (p ++ asks (op_stop id) A)) A.
Proof.
  intros HI Hidle. cbn [allowed asks] in *. unfold locAPIStopSession. rewrite (si_api _ _ HI : mLocationAPI c = true), (spec_hasId _ _ HI id : hasId id (mSessionBiDict c) = _).
  destruct (A !! id) as [[m s]|] eqn:E.
  2:{ rewrite bool_decide_false by (by intros []). by rewrite app_nil_r. }
  rewrite bool_decide_true by eauto. destruct (spec_known _ _ HI _ _ _ E) as (Hf & Hs & e & He & Hm & _).
  rewrite (getExtById_known zero_entity id s e _ (si_dict _ _ HI : dict_ok (mSessionBiDict c)) Hf He). change (e_sessionMode e =? _) with (on_fix (e_sessionMode e)). rewrite Hm.
  unfold stop_request. destruct (on_fix m); cbn [fst]; (eapply asked_inv; [exact HI|apply HI|done|apply HI|done|..]).
  all: try (intros s' r [= -> ->]%list_elem_of_singleton; split; [done|eauto]).
  all: try apply NoDup_singleton.
  all: cbn; intros s' ->%list_elem_of_singleton; by apply (Hidle m).
Qed.
Lemma get_inv c p A id count : session_inv (MkWorld c p) A -> allowed (op_get id count) A p ->
  session_inv (MkWorld (locAPIGetBatchedLocations id count c).1 (p ++ asks (op_get id count) A)) A.
Proof.
  intros HI Hidle. cbn [allowed asks] in *. unfold locAPIGetBatchedLocations. rewrite (si_api _ _ HI : mLocationAPI c = true), (spec_hasId _ _ HI id : hasId id (mSessionBiDict c) = _).
  destruct (A !! id) as [[m s]|] eqn:E.
  2:{ rewrite bool_decide_false by (by intros []). by rewrite app_nil_r. }
  rewrite bool_decide_true by eauto. destruct (spec_known _ _ HI _ _ _ E) as (Hf & Hs & e & He & Hm & _).
  rewrite (getExtById_known zero_entity id s e _ (si_dict _ _ HI : dict_ok (mSessionBiDict c)) Hf He). change (e_sessionMode e =? _) with (on_fix (e_sessionMode e)). rewrite Hm.
  destruct (on_fix m); cbn [fst negb]; (eapply asked_inv; [exact HI|apply HI|done|apply HI|by rewrite ?app_nil_r|..]).
  all: try (intros s' r [= -> ->]%list_elem_of_singleton; split; [done|eauto]).
  all: try (cbn; apply NoDup_singleton || apply NoDup_nil_2).
  all: cbn; try (by intros ? ? ?%elem_of_nil). all: try (by intros ? ?%elem_of_nil).
  intros s' ->%list_elem_of_singleton; by apply (Hidle m).
Qed.

(** A step that gives an identifier a session, new or not. *)
Lemma put_inv c p A c' q id s e d0 : session_inv (MkWorld c p) A ->
  mLocationAPI c' = true -> mSession (REQUEST_TRACKING c') = 0 /\ mSession (REQUEST_NIRESPONSE c') = 0 ->
  mQueue (REQUEST_SESSION c') = mQueue (REQUEST_SESSION c) ++ omap snd q ->
  mSessionBiDict c' = BiDict.set id s e d0 -> dict_ok d0 -> mForwardMap d0 !! id = None -> mBackwardMap d0 !! s = None ->
  (forall id', id' <> id -> entry d0 id' = entry (mSessionBiDict c) id') -> 0 < s -> entity_ok id s e ->
  (forall x r, (x, r) ∈ q -> match r with
     | Some r => x = s /\ session_request r = true
     | None => 0 < x /\ x <> s /\ forall id' m', id' <> id -> A !! id' <> Some (m', x) end) ->
  NoDup q.*1 -> (forall x, x ∈ q.*1 -> x ∉ p.*1) -> s ∉ p.*1 -> (forall m' s0, A !! id = Some (m', s0) -> s0 ∉ p.*1) ->
  session_inv (MkWorld c' (p ++ q)) (<[id := (e_sessionMode e, s)]> A).
Proof.
  intros HI Ha Ht Hq Hd Hd0 Hf0 Hb0 Hent Hs Hok Hqs Hnd Hdis Hsp Hidle. destruct HI as [H1 H2 H3 H4 H5 H6 H7 H8 H9]. cbn [w_client w_pending] in *.
  assert (He : forall id', entry (BiDict.set id s e d0) id' = if decide (id' = id) then Some (s, e) else entry (mSessionBiDict c) id').
  { intros id'. rewrite set_entry by auto. case_decide; [done|]. by apply Hent. }
  constructor; cbn [w_client w_pending]; rewrite ?Hd; try done.
  - apply set_ok; auto.
  - intros id' s' e'. rewrite He. case_decide; [intros [= <- <-]; by subst|]. apply H3.
  - intros id'. rewrite He, lookup_insert. case_decide as Hc1; case_decide as Hc2; solve [done | congruence | apply H4].
  - by rewrite Hq, H6, omap_app.
  - intros x r [Hin|Hin]%elem_of_app.
    + destruct (H7 _ _ Hin) as (Hr & id' & m' & E). split; [done|]. destruct (decide (id' = id)) as [->|Hne].
      * exfalso. apply (Hidle _ _ E). by eapply elem_of_fst.
      * exists id', m'. by rewrite lookup_insert_ne.
    + apply Hqs in Hin as [-> Hr]. split; [done|]. exists id, (e_sessionMode e). by rewrite lookup_insert_eq.
  - intros x [Hin|Hin]%elem_of_app.
    + destruct (H8 _ Hin) as [Hx Hno]. split; [done|]. intros id' m'. rewrite lookup_insert. case_decide; [|apply Hno].
      intros [= _ <-]. by apply Hsp, (elem_of_fst _ None).
    + apply Hqs in Hin as (Hx & Hxs & Hno). split; [done|]. intros id' m'. rewrite lookup_insert. case_decide; [congruence|]. by apply Hno.
  - rewrite fmap_app. apply NoDup_app. split; [done|]. split; [|done]. intros x Hx Hx'. by apply (Hdis x).
Qed.
Lemma start_inv c p A id m o s : session_inv (MkWorld c p) A -> allowed (op_start id m o s) A p ->
  session_inv (MkWorld (locAPIStartSession id m o s c).1 (p ++ asks (op_start id m o s) A)) (spec_step (op_start id m o s) p A).
Proof.
  intros HI Hfr. cbn [allowed asks spec_step] in *. unfold locAPIStartSession.
  rewrite (si_api _ _ HI : mLocationAPI c = true), (spec_hasId _ _ HI id : hasId id (mSessionBiDict c) = _).
  destruct (A !! id) as [[m0 s0]|] eqn:E; [rewrite bool_decide_true by eauto; by rewrite app_nil_r|].
  rewrite bool_decide_false by (by intros []). change (m =? SESSION_MODE_ON_FIX) with (on_fix m).
  set (e := if on_fix m then MkEntity id s 0 m else MkEntity id 0 s m). assert (Hm : e_sessionMode e = m) by (unfold e; by destruct (on_fix m)).
  rewrite <- Hm at 4. pose proof Hfr as (Hs & Hno & Hsp).
  eapply (put_inv c p A _ _ id s e (mSessionBiDict c) HI); cbn [fst]; try done.
  - destruct (on_fix m); cbn; apply HI.
  - destruct (on_fix m); cbn; apply HI.
  - unfold start_request. by destruct (on_fix m).
  - unfold e. by destruct (on_fix m).
  - apply HI.
  - by apply (spec_unknown _ _ HI).
  - by apply (fresh_dict _ _ HI).
  - split; unfold e; by destruct (on_fix m) eqn:F; cbn; rewrite ?F.
  - intros x r [= -> ->]%list_elem_of_singleton. split; [done|]. unfold start_request. by destruct (on_fix m).
  - apply NoDup_singleton.
  - by intros x ->%list_elem_of_singleton.
  - congruence.
Qed.
Lemma rm_facts d id s : dict_ok d -> mForwardMap d !! id = Some s ->
  dict_ok (rmById id d) /\ mForwardMap (rmById id d) !! id = None /\
  (forall s', s' = s \/ mBackwardMap d !! s' = None -> mBackwardMap (rmById id d) !! s' = None) /\
  (forall id', id' <> id -> entry (rmById id d) id' = @entry SessionEntity d id').
Proof.
  intros Hd Hf. rewrite (rmById_eq id s) by done. split; [by apply rm_pair_ok|]. cbn. split; [by rewrite lookup_delete_eq|]. split.
  - intros s' [->|Hs']; [by rewrite lookup_delete_eq|]. by apply lookup_delete_None; right.
  - intros id' Hne. rewrite rm_pair_entry, decide_False by done. done.
Qed.
(** An identifier that keeps its session, or goes on with a fresh one of the other kind. *)
Lemma put_known c p A c' q r id s s1 e m0 : session_inv (MkWorld c p) A -> A !! id = Some (m0, s) -> s ∉ p.*1 -> session_request r = true ->
  (s1 = s /\ q = [(s, Some r)]) \/ (fresh s1 A p /\ q = [(s, None); (s1, Some r)]) ->
  mLocationAPI c' = true -> mSession (REQUEST_TRACKING c') = 0 /\ mSession (REQUEST_NIRESPONSE c') = 0 ->
  mQueue (REQUEST_SESSION c') = mQueue (REQUEST_SESSION c) ++ [r] ->
  mSessionBiDict c' = BiDict.set id s1 e (rmById id (mSessionBiDict c)) -> entity_ok id s1 e ->
  session_inv (MkWorld c' (p ++ q)) (<[id := (e_sessionMode e, s1)]> A).
Proof.
  intros HI E Hsp Hreq Hcase Ha Ht Hq Hdict Hok. destruct (spec_known _ _ HI _ _ _ E) as (Hf & Hs & _). cbn [w_client] in Hf.
  destruct (rm_facts _ id s (si_dict _ _ HI : dict_ok (mSessionBiDict c)) Hf) as (Hr1 & Hr2 & Hr3 & Hr4).
  assert (Hinj : forall id' m', id' <> id -> A !! id' <> Some (m', s)) by (intros id' m' Hne H; by apply Hne, (spec_inj _ _ HI _ _ _ _ _ H E)).
  assert (Hidle : forall m' s0, A !! id = Some (m', s0) -> s0 ∉ p.*1) by (rewrite E; by intros ? ? [= _ <-]).
  destruct Hcase as [[-> ->]|[Hfr ->]].
  - apply (put_inv c p A c' _ id s e (rmById id (mSessionBiDict c)) HI); try done.
    + apply Hr3. by left.
    + by intros x r' [= -> ->]%list_elem_of_singleton.
    + apply NoDup_singleton.
    + by intros x ->%list_elem_of_singleton.
  - pose proof Hfr as (Hs1 & Hno & Hsp1). assert (s <> s1) by (intros ->; by apply (Hno id m0)).
    apply (put_inv c p A c' _ id s1 e (rmById id (mSessionBiDict c)) HI); try done.
    + apply Hr3. right. by apply (fresh_dict _ _ HI).
    + intros x r' Hin. rewrite elem_of_cons, list_elem_of_singleton in Hin. destruct Hin as [[= -> ->]|[= -> ->]]; done.
    + cbn. apply NoDup_cons. split; [by rewrite list_elem_of_singleton|apply NoDup_singleton].
    + cbn. intros x. rewrite elem_of_cons, list_elem_of_singleton. by intros [-> | ->].
Qed.
Lemma update_inv c p A id m o s' : session_inv (MkWorld c p) A -> allowed (op_update id m o s') A p ->
  session_inv (MkWorld (locAPIUpdateSessionOptions id m o s' c).1 (p ++ asks (op_update id m o s') A)) (spec_step (op_update id m o s') p A).
Proof.
  intros HI [Hidle Hfr]. cbn [allowed asks spec_step] in *. unfold locAPIUpdateSessionOptions.
  rewrite (si_api _ _ HI : mLocationAPI c = true), (spec_hasId _ _ HI id : hasId id (mSessionBiDict c) = _).
  destruct (A !! id) as [[m0 s]|] eqn:E.
  2:{ rewrite bool_decide_false by (by intros []). by rewrite app_nil_r. }
  rewrite bool_decide_true by eauto. destruct (spec_known _ _ HI _ _ _ E) as (Hf & Hs & e & He & Hm & [Hid Hses]). cbn [w_client] in *.
  rewrite (getExtById_known zero_entity id s e _ (si_dict _ _ HI : dict_ok (mSessionBiDict c)) Hf He).
  change (e_sessionMode e =? _) with (on_fix (e_sessionMode e)). change (m =? _) with (on_fix m). rewrite Hm in *.
  pose proof (Hidle _ _ E) as Hsp. pose proof (si_api _ _ HI : mLocationAPI c = true) as Ha. pose proof (si_tracking _ _ HI : _ /\ _) as Ht. cbn [w_client] in Ht.
  assert (Hent : forall s1 e1, e1 = MkEntity (e_id e) (e_trackingSession e1) (e_batchingSession e1) m ->
    (if on_fix m then e_trackingSession e1 = s1 else e_batchingSession e1 = s1) -> entity_ok id s1 e1).
  { intros s1 e1 -> Hcase. split; [done|]. exact Hcase. }
  unfold update_request. destruct (on_fix m) eqn:F, (on_fix m0) eqn:F0; cbn [Bool.eqb fst snd].
  - rewrite Hses. by apply (put_known c p A _ _ UpdateTrackingOptionsRequest id s s (MkEntity (e_id e) s (e_batchingSession e) m) m0 HI); auto.
  - by apply (put_known c p A _ _ UpdateTrackingOptionsRequest id s s' (MkEntity (e_id e) s' 0 m) m0 HI); auto.
  - by apply (put_known c p A _ _ UpdateBatchingOptionsRequest id s s' (MkEntity (e_id e) 0 s' m) m0 HI); auto.
  - rewrite Hses. by apply (put_known c p A _ _ UpdateBatchingOptionsRequest id s s (MkEntity (e_id e) (e_trackingSession e) s m) m0 HI); auto.
Qed.

(** ** Sessions that end *)
Lemma drop_inv c p A c' id m s : session_inv (MkWorld c p) A -> A !! id = Some (m, s) -> s ∉ p.*1 ->
  mLocationAPI c' = true -> mSession (REQUEST_TRACKING c') = 0 /\ mSession (REQUEST_NIRESPONSE c') = 0 ->
  mQueue (REQUEST_SESSION c') = mQueue (REQUEST_SESSION c) -> mSessionBiDict c' = rmBySession s (mSessionBiDict c) ->
  session_inv (MkWorld c' p) (delete id A).
Proof.
  intros HI E Hsp Ha Ht Hq Hdict. destruct (spec_known _ _ HI _ _ _ E) as (Hf & _). cbn [w_client] in Hf.
  pose proof (spec_inj _ _ HI id) as Hinj. destruct HI as [H1 H2 H3 H4 H5 H6 H7 H8 H9]. cbn [w_client w_pending] in *.
  rewrite (rmBySession_eq id) in Hdict by done.
  constructor; cbn [w_client w_pending]; rewrite ?Hdict; try done; try (by rewrite Hq).
  - by apply rm_pair_ok.
  - intros id' s' e'. rewrite rm_pair_entry by done. case_decide; [done|]. apply H3.
  - intros id'. rewrite rm_pair_entry by done. case_decide; [subst; by rewrite lookup_delete_eq|]. by rewrite lookup_delete_ne.
  - intros x r Hin. destruct (H7 _ _ Hin) as (Hr & id' & m' & E'). split; [done|]. exists id', m'. rewrite lookup_delete_ne; [done|].
    intros ->. rewrite E in E'. injection E' as <- <-. apply Hsp. by eapply elem_of_fst.
  - intros x Hin. destruct (H8 _ Hin) as [Hx Hno]. split; [done|]. intros id' m' [_ Hy]%lookup_delete_Some. by apply (Hno id' m').
Qed.
Lemma filter_session c p A id m s : session_inv (MkWorld c p) A -> A !! id = Some (m, s) -> filter (fun e => e.2.2 <> s) A = delete id A.
Proof.
  intros HI E. apply map_eq. intros id'. destruct (decide (id' = id)) as [->|Hne].
  - rewrite lookup_delete_eq, map_lookup_filter_None. right. intros [m' s'] E'. rewrite E in E'. injection E' as <- <-. auto.
  - rewrite lookup_delete_ne by done. destruct (A !! id') as [[m' s']|] eqn:E'; [|by apply map_lookup_filter_None; left].
    apply map_lookup_filter_Some. split; [done|]. cbn. intros ->. by apply Hne, (spec_inj _ _ HI _ _ _ _ _ E' E).
Qed.

(** What a response does: the request it answers is called back, and nothing else. *)
Lemma response_spec c s r p A error : session_inv (MkWorld c ((s, r) :: p)) A ->
  onResponseCb error s c = match r with
    | Some req => onResponse req error s (on_session (fun _ => MkQueue (mSession (REQUEST_SESSION c)) (omap snd p)) c)
    | None => c
    end.
Proof.
  intros HI. assert (Hpos : 0 < s) by (apply (pending_pos _ _ HI); cbn; by left).
  destruct (si_tracking _ _ HI) as [Ht Hn]. cbn [w_client] in *. unfold onResponseCb, getRequestBySession. rewrite Ht, Hn.
  rewrite (proj2 (Z.eqb_neq 0 s)) by lia. pose proof (si_queue _ _ HI) as Hq. cbn [w_client w_pending omap list_omap snd] in Hq.
  destruct r as [req|].
  - destruct (si_known _ _ HI s req ltac:(by left)) as (_ & id & m & E). destruct (spec_known _ _ HI _ _ _ E) as (Hf & _).
    apply (dict_bwd _ (si_dict _ _ HI)) in Hf. cbn [w_client] in Hf. rewrite (proj2 (hasSession_true s (mSessionBiDict c))) by eauto.
    unfold pop. by rewrite Hq.
  - destruct (si_unknown _ _ HI s ltac:(by left)) as [_ Hno]. assert (hasSession s (mSessionBiDict c) = false) as ->; [|done].
    apply hasSession_false. destruct (mBackwardMap (mSessionBiDict c) !! s) as [id|] eqn:E; [|done].
    assert (mBackwardMap (mSessionBiDict c) !! s <> None) as Hk by congruence. apply (spec_session _ _ HI) in Hk as (id' & m & H). by destruct (Hno id' m).
Qed.
Lemma popped_inv c s r p A : session_inv (MkWorld c ((s, r) :: p)) A ->
  session_inv (MkWorld (match r with Some _ => on_session (fun _ => MkQueue (mSession (REQUEST_SESSION c)) (omap snd p)) c | None => c end) p) A.
Proof.
  intros [H1 H2 H3 H4 H5 H6 H7 H8 H9]. cbn [w_client w_pending] in *. apply NoDup_cons in H9 as [_ H9].
  destruct r as [req|]; constructor; cbn [w_client w_pending]; try done.
  - intros x r Hin. apply H7. by right.
  - intros x Hin. apply H8. by right.
  - intros x r Hin. apply H7. by right.
  - intros x Hin. apply H8. by right.
Qed.
Lemma onResponse_effect req error s c : session_request req = true ->
  onResponse req error s c = emit (on_response req error) (if ends (Some req) error then removeSession s c else c).
Proof.
  unfold onResponse, removeSession. destruct req; cbn [session_request ends negb]; try done; intros _; destruct (error =? _); cbn [negb]; try done;
    cbn [mSessionBiDict emit]; by destruct (hasSession s (mSessionBiDict c)).
Qed.
Lemma answer_inv c p A error : session_inv (MkWorld c p) A -> allowed (op_answer error) A p ->
  session_inv (MkWorld (exec (op_answer error) (MkWorld c p)) (tail p)) (spec_step (op_answer error) p A).
Proof.
  intros HI Hne. cbn [allowed exec spec_step w_client w_pending] in *. destruct p as [|[s r] p]; [done|]. cbn [tail].
  rewrite (response_spec c s r p A error HI). pose proof (popped_inv c s r p A HI) as HI'. pose proof (si_once _ _ HI) as Hnd.
  apply NoDup_cons in Hnd as [Hsp _]. destruct r as [req|]; [|done].
  destruct (si_known _ _ HI s req ltac:(by left)) as (Hreq & id & m & E). rewrite onResponse_effect by done.
  destruct (ends (Some req) error); [|by destruct HI'].
  rewrite (filter_session _ _ _ _ _ _ HI E). unfold removeSession. cbn [mSessionBiDict on_session].
  destruct (spec_known _ _ HI _ _ _ E) as (Hf & _). apply (dict_bwd _ (si_dict _ _ HI)) in Hf. cbn [w_client] in Hf.
  rewrite (proj2 (hasSession_true s (mSessionBiDict c))) by eauto. apply (drop_inv _ p A _ id m s HI' E); try done; apply HI'.
Qed.
Lemma trips_inv c p A ss : session_inv (MkWorld c p) A -> allowed (op_trips ss) A p ->
  session_inv (MkWorld (exec (op_trips ss) (MkWorld c p)) p) (spec_step (op_trips ss) p A).
Proof.
  intros HI Hidle. cbn [allowed exec spec_step w_client] in *. unfold beforeBatchingStatusCb. cbn [Z.eqb BATCHING_STATUS_TRIP_COMPLETED].
  assert (Hgen : forall ss A d trips, (forall s, s ∈ ss -> s ∉ p.*1) -> session_inv (MkWorld (on_sessions (fun _ => d) c) p) A ->
    let '(d', trips') := foldl trip_step (d, trips) ss in
    session_inv (MkWorld (on_sessions (fun _ => d') c) p) (filter (fun e => ~ (e.2.1 = SESSION_MODE_ON_TRIP_COMPLETED /\ e.2.2 ∈ ss)) A)).
  { clear. induction ss as [|s ss IH]; intros A d trips Hidle HI; cbn [foldl].
    - rewrite map_filter_id; [done|]. intros ? ? _ [_ ?%elem_of_nil]. done.
    - assert (Hss : forall s', s' ∈ ss -> s' ∉ p.*1) by (intros; apply Hidle; by right).
      set (A1 := filter (fun e => ~ (e.2.1 = SESSION_MODE_ON_TRIP_COMPLETED /\ e.2.2 = s)) A).
      assert (filter (fun e => ~ (e.2.1 = SESSION_MODE_ON_TRIP_COMPLETED /\ e.2.2 ∈ s :: ss)) A =
        filter (fun e => ~ (e.2.1 = SESSION_MODE_ON_TRIP_COMPLETED /\ e.2.2 ∈ ss)) A1) as ->.
      { unfold A1. rewrite map_filter_filter. apply map_filter_ext. intros ? ? _. rewrite elem_of_cons. tauto. }
      destruct (trip_step (d, trips) s) as [d1 trips1] eqn:Hstep. apply IH; [done|].
      unfold trip_step in Hstep. destruct (hasSession s d) eqn:Hh.
      2:{ injection Hstep as <- <-. unfold A1. rewrite map_filter_id; [done|]. intros id [m s'] E [_ Heq]. cbn in Heq. subst s'.
          destruct (spec_known _ _ HI _ _ _ E) as (Hf & _). apply (dict_bwd _ (si_dict _ _ HI)) in Hf. cbn in Hf. apply hasSession_false in Hh. congruence. }
      apply hasSession_true in Hh as [id Hid]. pose proof (proj2 (dict_bwd _ (si_dict _ _ HI) id s) Hid) as Hf. cbn in Hf.
      destruct (dict_ext_Some _ _ _ (si_dict _ _ HI) Hf) as [e He]. cbn in He.
      assert (E : A !! id = Some (e_sessionMode e, s)).
      { rewrite (si_spec _ _ HI). cbn [w_client mSessionBiDict on_sessions]. by rewrite (proj2 (entry_Some d id s e)). }
      unfold getExtBySession in Hstep. rewrite He in Hstep. change (default zero_entity (Some e)) with e in Hstep.
      destruct (Z.eqb_spec (e_sessionMode e) SESSION_MODE_ON_TRIP_COMPLETED) as [Hm|Hm]; injection Hstep as <- <-.
      + assert (A1 = delete id A) as ->.
        { rewrite <- (filter_session _ _ _ _ _ _ HI E). unfold A1. apply map_filter_ext. intros id' [m' s'] E'. cbn.
          split; [|tauto]. intros H ->. pose proof (spec_inj _ _ HI _ _ _ _ _ E' E) as ->. rewrite E in E'. injection E' as <-. tauto. }
        apply (drop_inv _ p A _ id _ s HI E); [apply Hidle; by left|try done; apply HI..].
        all: try done.
      + assert (A1 = A) as ->; [|done]. unfold A1. apply map_filter_id. intros id' [m' s'] E' [Hm' Hs']. cbn in *. subst.
        pose proof (spec_inj _ _ HI _ _ _ _ _ E' E) as ->. rewrite E in E'. injection E' as E'. congruence. }
  specialize (Hgen ss A (mSessionBiDict c) [] Hidle). destruct (foldl trip_step _ ss) as [d' trips'].
  enough (session_inv (MkWorld (on_sessions (fun _ => d') c) p) (filter (fun e => ~ (e.2.1 = SESSION_MODE_ON_TRIP_COMPLETED /\ e.2.2 ∈ ss)) A)) as [] by by constructor.
  apply Hgen. destruct HI; by constructor.
Qed.

(** ** Clients of the location API: geofences

    The abstract state of the geofences of a client is a map from its identifiers to the
    session and the mask of breaches to report; the operations refine it as long as added
    identifiers and sessions are new. *)

Abbreviation Geofences := (gmap Z (Z * Z)).
Inductive GeofenceOp :=
  | g_add (ids : list Z) (options : list GeofenceOption) (data : list GeofenceInfo) (sessions : list Z)
  | g_remove (ids : list Z) | g_modify (ids : list Z) (options : list GeofenceOption)
  | g_pause (ids : list Z) | g_resume (ids : list Z) (mask : option (list Z))
  | g_answer (errors sessions : list Z).

Definition masks_of (ids : list Z) (options : list GeofenceOption) : list (Z * Z) := zip ids (breachTypeMask <$> options).
Definition new_geofences (ids : list Z) (options : list GeofenceOption) (sessions : list Z) : list (Z * (Z * Z)) :=
  zip ids (zip sessions (breachTypeMask <$> options)).
Definition remask (G : Geofences) (l : list (Z * Z)) : Geofences :=
  foldl (fun G p => match G !! p.1 with Some (s, _) => <[p.1 := (s, p.2)]> G | None => G end) G l.
Definition g_spec (op : GeofenceOp) (G : Geofences) : Geofences :=
  match op with
  | g_add ids options _ sessions => list_to_map (new_geofences ids options sessions) ∪ G
  | g_remove ids => filter (fun e => e.1 ∉ ids) G
  | g_modify ids options => remask G (masks_of ids options)
  | g_resume ids (Some mask) => remask G (zip ids mask)
  | g_resume _ None | g_pause _ | g_answer _ _ => G
  end.
Definition g_exec (op : GeofenceOp) (c : Client) : Client :=
  match op with
  | g_add ids options data sessions => (locAPIAddGeofences ids options data (Some sessions) c).1
  | g_remove ids => locAPIRemoveGeofences ids c
  | g_modify ids options => locAPIModifyGeofences ids options c
  | g_pause ids => locAPIPauseGeofences ids c
  | g_resume ids mask => locAPIResumeGeofences ids mask c
  | g_answer errors sessions => onCollectiveResponseCb errors sessions c
  end.
Definition g_allowed (op : GeofenceOp) (G : Geofences) : Prop :=
  match op with
  | g_add ids options _ sessions =>
      length sessions = length ids /\ length options = length ids /\ NoDup ids /\ NoDup sessions /\
      (forall id, id ∈ ids -> G !! id = None) /\ (forall s, s ∈ sessions -> 0 < s /\ forall id m, G !! id <> Some (s, m))
  | _ => True
  end.
Inductive g_runs : Client -> Geofences -> Prop :=
  | g_new breachCb statusCb : g_runs (locAPISetCallbacks breachCb statusCb new_client) ∅
  | g_op c G op : g_runs c G -> g_allowed op G -> g_runs (g_exec op c) (g_spec op G).

Record g_inv (c : Client) (G : Geofences) : Prop := {
  gi_api : mLocationAPI c = true;
  gi_dict : dict_ok (mGeofenceBiDict c);
  gi_entry id : entry (mGeofenceBiDict c) id = G !! id;
  gi_ready : G <> ∅ -> geofences_ready c = true;
}.

Implicit Types (G : Geofences) (d : BiDict Z).
Lemma gi_known d G id : (forall id, entry d id = G !! id) -> dict_ok d -> getSession id d = default 0 (fst <$> G !! id).
Proof.
  intros He Hd. rewrite <- He. unfold getSession. destruct (mForwardMap d !! id) as [s|] eqn:Hf; cbn.
  - destruct (dict_ext_Some _ _ _ Hd Hf) as [e Hx]. by rewrite (proj2 (entry_Some d id s e)).
  - by rewrite (proj2 (entry_None d id Hd)).
Qed.
Lemma gi_pos d G id s m : (forall id, entry d id = G !! id) -> dict_ok d -> G !! id = Some (s, m) -> 0 < s /\ mForwardMap d !! id = Some s.
Proof. intros He Hd Hg. rewrite <- He in Hg. apply entry_Some in Hg as [Hf _]. split; [by eapply dict_pos|done]. Qed.
Lemma gi_session d G id id' s m m' : (forall id, entry d id = G !! id) -> dict_ok d ->
  G !! id = Some (s, m) -> G !! id' = Some (s, m') -> id = id'.
Proof.
  intros He Hd H1 H2. destruct (gi_pos _ _ _ _ _ He Hd H1) as [_ H1'], (gi_pos _ _ _ _ _ He Hd H2) as [_ H2'].
  apply (dict_bwd _ Hd) in H1', H2'. congruence.
Qed.

(** ** The loops *)
Lemma add_geofences_loop l d G : dict_ok d -> (forall id, entry d id = G !! id) -> NoDup l.*1 -> NoDup l.*2.*1 ->
  (forall id, id ∈ l.*1 -> G !! id = None) -> (forall s, s ∈ l.*2.*1 -> 0 < s /\ forall id m, G !! id <> Some (s, m)) ->
  let d' := foldl (fun d '(id, (s, m)) => BiDict.set id s m d) d l in
  dict_ok d' /\ forall id, entry d' id = ((list_to_map l : Geofences) ∪ G) !! id.
Proof.
  revert d G. induction l as [|[id [s m]] l IH]; intros d G Hd He Hn1 Hn2 Hids Hss; cbn [foldl fmap list_fmap fst snd list_to_map foldr].
  { split; [done|]. intros id. by rewrite He, (left_id_L ∅ (∪)). }
  cbn in Hn1, Hn2, Hids, Hss. apply NoDup_cons in Hn1 as [Hid Hn1], Hn2 as [Hs Hn2].
  assert (Hf : mForwardMap d !! id = None) by (apply entry_None; [done|]; rewrite He; apply Hids; by left).
  destruct (Hss s) as [Hpos Hno]; [by left|].
  assert (Hb : mBackwardMap d !! s = None).
  { destruct (mBackwardMap d !! s) as [id'|] eqn:E; [|done]. apply (dict_bwd _ Hd) in E. destruct (dict_ext_Some _ _ _ Hd E) as [e Hx].
    destruct (Hno id' e). rewrite <- He. by apply entry_Some. }
  assert (Hd' : dict_ok (BiDict.set id s m d)) by (apply set_ok; auto).
  assert (He' : forall id', entry (BiDict.set id s m d) id' = (<[id := (s, m)]> G) !! id').
  { intros id'. rewrite set_entry, lookup_insert by auto. repeat case_decide; congruence || by rewrite ?He. }
  destruct (IH (BiDict.set id s m d) (<[id := (s, m)]> G) Hd' He' Hn1 Hn2) as [IH1 IH2].
  - intros id' Hin. rewrite lookup_insert_ne by (intros ->; done). apply Hids. by right.
  - intros s' Hin. destruct (Hss s') as [? Hno']; [by right|]. split; [done|]. intros id' m'. rewrite lookup_insert.
    case_decide; [intros [= <- _]; done|]. apply Hno'.
  - split; [done|]. intros id'. rewrite IH2. f_equal. rewrite <- insert_union_r by by apply not_elem_of_list_to_map_1.
    by rewrite insert_union_l.
Qed.
Lemma remask_loop l d G sessions : dict_ok d -> (forall id, entry d id = G !! id) ->
  let '(d', sessions') := foldl remask_step (d, sessions) l in
  dict_ok d' /\ (forall id, entry d' id = remask G (omap (fun p => (fun m => (p.1, m)) <$> p.2) l) !! id) /\
  sessions' = sessions ++ omap (fun p => fst <$> G !! p.1) l.
Proof.
  revert d G sessions. induction l as [|[id o] l IH]; intros d G sessions Hd He; [cbn; by rewrite app_nil_r|]. cbn [foldl].
  destruct (remask_step (d, sessions) (id, o)) as [d1 sessions1] eqn:Hstep. unfold remask_step in Hstep. cbn [fst snd] in Hstep.
  rewrite (gi_known d G id He Hd) in Hstep. destruct (G !! id) as [[s m]|] eqn:Hg; cbn [fmap option_fmap option_map default from_option fst] in Hstep.
  - destruct (gi_pos _ _ _ _ _ He Hd Hg) as [Hpos Hf]. change (default 0 (Some s)) with s in Hstep. rewrite (proj2 (Z.ltb_lt _ _)) in Hstep by done.
    injection Hstep as <- <-.
    set (G1 := match o with Some mask => <[id := (s, mask)]> G | None => G end).
    assert (Hd1 : dict_ok (match o with Some mask => BiDict.set id s mask d | None => d end)) by (destruct o; [apply set_ok; auto|done]).
    assert (He1 : forall id', entry (match o with Some mask => BiDict.set id s mask d | None => d end) id' = G1 !! id').
    { intros id'. unfold G1. destruct o; [|done]. rewrite set_entry, lookup_insert by auto. repeat case_decide; congruence || by rewrite ?He. }
    assert (HG1 : forall id', fst <$> G1 !! id' = fst <$> G !! id').
    { intros id'. unfold G1. destruct o; [|done]. rewrite lookup_insert. case_decide; [subst; by rewrite Hg|done]. }
    specialize (IH _ G1 (sessions ++ [s]) Hd1 He1). destruct (foldl remask_step _ l) as [d' sessions']. destruct IH as (IH1 & IH2 & ->).
    split; [done|]. split.
    + intros id'. rewrite IH2. unfold G1. destruct o as [mask|]; cbn; [|done]. unfold remask. cbn [foldl fst snd]. by rewrite Hg.
    + cbn [omap list_omap fst]. rewrite Hg. cbn. rewrite <- app_assoc. cbn. do 2 f_equal. apply list_omap_ext, Forall_Forall2_diag, Forall_forall.
      intros p _. apply HG1.
  - cbn in Hstep. injection Hstep as <- <-. specialize (IH d G sessions Hd He). destruct (foldl remask_step _ l) as [d' sessions'].
    destruct IH as (IH1 & IH2 & ->). split; [done|]. split.
    + intros id'. rewrite IH2. destruct o; [|done]. cbn. unfold remask. cbn [foldl fst snd]. by rewrite Hg.
    + cbn [omap list_omap fst]. by rewrite Hg.
Qed.
(** The sessions that identifiers stand for. *)
Definition stands (G : Geofences) (ids : list Z) (s : Z) : Prop := exists id m, id ∈ ids /\ G !! id = Some (s, m).
Lemma remove_loop l d removed sessions G : dict_ok d -> (forall id, entry d id = G !! id) -> NoDup sessions ->
  (forall s, s ∈ sessions -> forall id m, G !! id <> Some (s, m)) ->
  let '(d', removed', sessions') := foldl remove_step (d, removed, sessions) l in
  dict_ok d' /\ (forall id, entry d' id = filter (fun e => e.1 ∉ l) G !! id) /\ NoDup sessions' /\
  (forall s, s ∈ sessions' <-> s ∈ sessions \/ stands G l s) /\
  (forall id s m, id ∈ l -> G !! id = Some (s, m) -> mBackwardMap removed' !! s = Some id) /\
  (forall s, ~ stands G l s -> mBackwardMap removed' !! s = mBackwardMap removed !! s).
Proof.
  revert d removed sessions G. induction l as [|id l IH]; intros d removed sessions G Hd He Hnd Hdis.
  { cbn. split; [done|]. split; [intros id; rewrite map_filter_id; [done|]; by intros ? ? _ ?%elem_of_nil|]. split; [done|].
    split; [|split; [by intros ? ? ? ?%elem_of_nil|done]]. intros s. split; [auto|]. intros [?|(id & m & ?%elem_of_nil & _)]; done. }
  cbn [foldl]. destruct (remove_step (d, removed, sessions) id) as [[d1 removed1] sessions1] eqn:Hstep. unfold remove_step in Hstep.
  rewrite (gi_known d G id He Hd) in Hstep. destruct (G !! id) as [[s m]|] eqn:Hg.
  - destruct (gi_pos _ _ _ _ _ He Hd Hg) as [Hpos Hf]. change (default 0 (fst <$> Some (s, m))) with s in Hstep. rewrite (proj2 (Z.ltb_lt _ _)) in Hstep by done.
    injection Hstep as <- <- <-. rewrite (rmBySession_eq id) by done.
    assert (Hd1 : dict_ok (MkBiDict (delete id (mForwardMap d)) (delete s (mBackwardMap d)) (delete s (mExtMap d)))) by by apply rm_pair_ok.
    assert (He1 : forall id', entry (MkBiDict (delete id (mForwardMap d)) (delete s (mBackwardMap d)) (delete s (mExtMap d))) id' = delete id G !! id').
    { intros id'. rewrite rm_pair_entry by done. case_decide; [subst; by rewrite lookup_delete_eq|]. by rewrite lookup_delete_ne. }
    assert (Huniq : forall id' m', delete id G !! id' <> Some (s, m')).
    { intros id' m' [Hne Hg']%lookup_delete_Some. by apply Hne, (gi_session d G _ _ s m m' He Hd). }
    specialize (IH _ (BiDict.set id s (getExtBySession 0 s d) removed) (sessions ++ [s]) _ Hd1 He1).
    destruct (foldl remove_step _ l) as [[d' removed'] sessions']. destruct IH as (IH1 & IH2 & IH3 & IH4 & IH5 & IH6).
    + apply NoDup_app. split; [done|]. split; [|apply NoDup_singleton]. intros s' Hs' ->%list_elem_of_singleton. by apply (Hdis s Hs' id m).
    + intros s' [Hs'| ->%list_elem_of_singleton]%elem_of_app id' m'; [|apply Huniq]. intros [_ Hg']%lookup_delete_Some. by apply (Hdis s' Hs' id' m').
    + assert (Hst : forall s', stands (delete id G) l s' \/ s' = s <-> stands G (id :: l) s').
      { intros s'. unfold stands. setoid_rewrite lookup_delete_Some. setoid_rewrite elem_of_cons. split.
        - intros [(id' & m' & ? & ? & ?)| ->]; eauto 10.
        - intros (id' & m' & [->|Hin] & Hg'); [right; congruence|]. destruct (decide (id = id')) as [<-|]; [right; congruence|]. left. eauto 10. }
      split; [done|]. split; [|split; [done|split; [|split]]].
      * intros id'. rewrite IH2. f_equal. apply map_eq. intros i. apply option_eq. intros x. rewrite !map_lookup_filter_Some, lookup_delete_Some. cbn. set_solver.
      * intros s'. rewrite IH4, elem_of_app, list_elem_of_singleton, <- Hst. tauto.
      * intros id' s' m' Hin Hg'. destruct (decide (id' = id)) as [->|Hne].
        -- assert (s' = s) as -> by congruence. rewrite IH6; [cbn; by rewrite lookup_insert_eq|]. intros (i & m2 & _ & Hi). by apply (Huniq i m2).
        -- apply elem_of_cons in Hin as [|Hin]; [done|]. eapply IH5; [done|]. by rewrite lookup_delete_ne.
      * intros s' Hns. rewrite IH6 by (intros Hx; apply Hns, Hst; by left). cbn. rewrite lookup_insert_ne; [done|]. intros ->. apply Hns, Hst. by right.
  - cbn in Hstep. injection Hstep as <- <- <-. specialize (IH d removed sessions G Hd He Hnd Hdis).
    destruct (foldl remove_step _ l) as [[d' removed'] sessions']. destruct IH as (IH1 & IH2 & IH3 & IH4 & IH5 & IH6).
    assert (Hst : forall s', stands G l s' <-> stands G (id :: l) s').
    { intros s'. unfold stands. setoid_rewrite elem_of_cons. split; [intros (id' & m' & ? & ?); eauto 10|]. intros (id' & m' & [->|?] & ?); [congruence|eauto]. }
    split; [done|]. split; [|split; [done|split; [|split]]].
    + intros id'. rewrite IH2. f_equal. apply map_filter_ext. intros i x Hi. cbn. rewrite elem_of_cons. split; [intros Hn [->|]; [congruence|done]|tauto].
    + intros s'. by rewrite IH4, Hst.
    + intros id' s' m' [->|Hin]%elem_of_cons Hg'; [congruence|eauto].
    + intros s' Hns. apply IH6. by rewrite Hst.
Qed.

(** ** The operations *)
Lemma dict_of_emit f e c : mGeofenceBiDict (emit e (on_geofence f c)) = mGeofenceBiDict c.
Proof. done. Qed.
Lemma g_step_inv c G op : g_inv c G -> g_allowed op G -> g_inv (g_exec op c) (g_spec op G).
Proof.
  intros [Ha Hd He Hr] Hok. destruct op as [ids options data sessions|ids|ids options|ids|ids mask|errors sessions]; cbn [g_exec g_spec g_allowed] in *.
  - destruct Hok as (Hl1 & Hl2 & Hn1 & Hn2 & Hids & Hss). unfold locAPIAddGeofences. rewrite Ha. cbn [fst].
    assert (Hz : forall d, foldl (fun d '(id, (s, o)) => BiDict.set id s (breachTypeMask o) d) d (zip ids (zip sessions options)) =
      foldl (fun d '(id, (s, m)) => BiDict.set id s m d) d (new_geofences ids options sessions)).
    { unfold new_geofences. clear -ids. revert sessions options. induction ids as [|id ids IH]; intros [|s sessions] [|o options] d; try done. cbn. apply IH. }
    assert (H1 : (new_geofences ids options sessions).*1 = ids) by (unfold new_geofences; rewrite fst_zip; [done|rewrite length_zip_with, length_fmap; lia]).
    assert (H2 : (new_geofences ids options sessions).*2.*1 = sessions).
    { unfold new_geofences. rewrite snd_zip by (rewrite length_zip_with, length_fmap; lia). rewrite fst_zip; [done|rewrite length_fmap; lia]. }
    destruct (add_geofences_loop (new_geofences ids options sessions) (mGeofenceBiDict c) G Hd He) as [Hd' He']; rewrite ?H1, ?H2; try done.
    constructor; cbn [mLocationAPI mGeofenceBiDict on_geofences on_geofence emit].
    + by destruct (geofences_ready c).
    + destruct (geofences_ready c); cbn [mGeofenceBiDict on_geofence]; by rewrite Hz.
    + intros id. destruct (geofences_ready c); cbn [mGeofenceBiDict on_geofence]; by rewrite Hz.
    + intros _. by destruct (geofences_ready c) eqn:E.
  - unfold locAPIRemoveGeofences. rewrite Ha. cbn [andb]. destruct (geofences_ready c) eqn:E.
    + pose proof (remove_loop ids (mGeofenceBiDict c) new_dict [] G Hd He (NoDup_nil_2) ltac:(by intros ? ?%elem_of_nil)) as H.
      destruct (foldl remove_step _ ids) as [[d' removed'] sessions']. destruct H as (Hd' & He' & _).
      destruct (decide (sessions' = [])); by constructor.
    + assert (G = ∅) as -> by (destruct (decide (G = ∅)) as [|Hne]; [done|by specialize (Hr Hne)]). by rewrite map_filter_empty.
  - unfold locAPIModifyGeofences. rewrite Ha. cbn [andb]. destruct (geofences_ready c) eqn:E.
    + pose proof (remask_loop (zip ids ((fun o => Some (breachTypeMask o)) <$> options)) (mGeofenceBiDict c) G [] Hd He) as H.
      destruct (foldl remask_step _ _) as [d' sessions']. destruct H as (Hd' & He' & _).
      assert (omap (fun p : Z * option Z => (fun m => (p.1, m)) <$> p.2) (zip ids ((fun o => Some (breachTypeMask o)) <$> options)) = masks_of ids options) as Hz.
      { unfold masks_of. clear. revert options. induction ids as [|id ids IH]; intros [|o options]; try done. cbn. f_equal. apply IH. }
      rewrite Hz in He'. destruct (decide (sessions' = [])); by constructor.
    + assert (G = ∅) as -> by (destruct (decide (G = ∅)) as [|Hne]; [done|by specialize (Hr Hne)]).
      assert (remask ∅ (masks_of ids options) = ∅) as ->; [|done]. induction (masks_of ids options); [done|]. unfold remask in *. cbn. by rewrite lookup_empty.
  - unfold locAPIPauseGeofences. destruct (mLocationAPI c && geofences_ready c); [|done].
    destruct (foldl remask_step _ _) as [d' sessions']. destruct (decide (sessions' = [])); by constructor.
  - unfold locAPIResumeGeofences. rewrite Ha. cbn [andb]. destruct (geofences_ready c) eqn:E.
    + destruct mask as [mask|].
      * pose proof (remask_loop (zip ids (Some <$> mask)) (mGeofenceBiDict c) G [] Hd He) as H.
        destruct (foldl remask_step _ _) as [d' sessions']. destruct H as (Hd' & He' & _).
        assert (omap (fun p : Z * option Z => (fun m => (p.1, m)) <$> p.2) (zip ids (Some <$> mask)) = zip ids mask) as Hz.
        { clear. revert mask. induction ids as [|id ids IH]; intros [|o mask]; try done. cbn. f_equal. apply IH. }
        rewrite Hz in He'. destruct (decide (sessions' = [])); by constructor.
      * pose proof (remask_loop ((fun id => (id, None)) <$> ids) (mGeofenceBiDict c) G [] Hd He) as H.
        destruct (foldl remask_step _ _) as [d' sessions']. destruct H as (Hd' & He' & _).
        assert (omap (fun p : Z * option Z => (fun m => (p.1, m)) <$> p.2) ((fun id => (id, None)) <$> ids) = []) as Hz by (clear; by induction ids).
        rewrite Hz in He'. destruct (decide (sessions' = [])); by constructor.
    + assert (G = ∅) as -> by (destruct (decide (G = ∅)) as [|Hne]; [done|by specialize (Hr Hne)]).
      destruct mask as [mask|]; [|done]. assert (remask ∅ (zip ids mask) = ∅) as ->; [|done]. induction (zip ids mask); [done|]. unfold remask in *. cbn. by rewrite lookup_empty.
  - unfold onCollectiveResponseCb. assert (HI : g_inv c G) by by constructor.
    destruct (geofences_ready c) eqn:E; [|exact HI]. unfold pop. destruct (mQueue (REQUEST_GEOFENCE c)) as [|r rs] eqn:Hq; [exact HI|].
    assert (Hc : g_inv (on_geofence (fun _ => MkQueue (mSession (REQUEST_GEOFENCE c)) rs) c) G) by by constructor.
    destruct r; cbn [onCollectiveResponse]; try exact Hc; destruct Hc; constructor; assumption.
Qed.
Lemma g_runs_inv c G : g_runs c G -> g_inv c G.
Proof.
  induction 1 as [b1 b2|c G op Hr IH Hok]; [|by apply g_step_inv]. constructor; cbn; try done.
Qed.
