(* ===== verification/LocationApiClientTheorems.v ===== *)
(** * Clients of the location API: what is proved of them *)
From stdpp Require Import sorting.
From S2P Require Import Prelude PbConsts GnssTracking BiDict LocationApiClient LocationApiClientSpec LocationApiClientProps.
#[local] Open Scope Z_scope.

(** ** Sessions *)

(** What an operation makes the client do, by the abstract state. *)
Definition start_call (mode : Z) (options : TrackingOptions) (s : Z) : Event :=
  if on_fix mode then api_startTracking s options else api_startBatching s (batch_options mode options).
Definition stop_call (mode s : Z) : Event := if on_fix mode then api_stopTracking s else api_stopBatching s.
Definition update_call (mode : Z) (options : TrackingOptions) (s : Z) : Event :=
  if on_fix mode then api_updateTrackingOptions s options else api_updateBatchingOptions s (MkBatchingOptions 0 0 0 (batching_mode mode)).
Definition does (op : SessionOp) (p : Pending) (A : Sessions) (l : list Event) : Prop :=
  match op with
  | op_start id mode options s => l = match A !! id with Some _ => [] | None => [start_call mode options s] end
  | op_stop id => l = match A !! id with Some (m, s) => [stop_call m s] | None => [] end
  | op_update id mode options s' => l = match A !! id with
      | Some (m, s) => if Bool.eqb (on_fix m) (on_fix mode) then [update_call mode options s]
                       else [stop_call m s; start_call mode options s']
      | None => [] end
  | op_get id count => l = match A !! id with Some (m, s) => if on_fix m then [] else [api_getBatchedLocations s count] | None => [] end
  | op_answer error => l = match p with (s, Some r) :: _ => [on_response r error] | _ => [] end
  | op_trips ss => exists trips, l = [on_batching_status BATCHING_STATUS_TRIP_COMPLETED trips] /\ NoDup trips /\
      forall id, id ∈ trips <-> exists s, s ∈ ss /\ A !! id = Some (SESSION_MODE_ON_TRIP_COMPLETED, s)
  end.
(** What it returns. *)
Definition returned (op : SessionOp) (c : Client) : Z :=
  match op with
  | op_start id mode options s => (locAPIStartSession id mode options s c).2
  | op_stop id => (locAPIStopSession id c).2
  | op_update id mode options s => (locAPIUpdateSessionOptions id mode options s c).2
  | op_get id count => (locAPIGetBatchedLocations id count c).2
  | op_answer _ | op_trips _ => LOCATION_ERROR_SUCCESS
  end.
Definition returns (op : SessionOp) (A : Sessions) : Z :=
  match op with
  | op_start id _ _ _ => match A !! id with Some _ => LOCATION_ERROR_ALREADY_STARTED | None => LOCATION_ERROR_SUCCESS end
  | op_stop id | op_update id _ _ _ => match A !! id with Some _ => LOCATION_ERROR_SUCCESS | None => LOCATION_ERROR_ID_UNKNOWN end
  | op_get id _ => match A !! id with
      | Some (m, _) => if on_fix m then LOCATION_ERROR_NOT_SUPPORTED else LOCATION_ERROR_SUCCESS
      | None => LOCATION_ERROR_ID_UNKNOWN end
  | op_answer _ | op_trips _ => LOCATION_ERROR_SUCCESS
  end.

Lemma runs_inv w A : runs w A -> session_inv w A.
Proof.
  induction 1 as [b1 b2|[c p] A op Hr IH Hok].
  - constructor; cbn; try done; try (by intros ? ?%elem_of_nil); try (by intros ? ? ?%elem_of_nil); apply NoDup_nil_2.
  - cbn [w_pending] in *. destruct op; cbn [pending_after exec w_client w_pending spec_step].
    + by apply start_inv.
    + by apply stop_inv.
    + by apply update_inv.
    + by apply get_inv.
    + by apply answer_inv.
    + cbn [asks]. rewrite app_nil_r. by apply trips_inv.
Qed.

(** The entity of a known identifier, as the operations find it. *)
Lemma known_entity c p A id m s : session_inv (MkWorld c p) A -> A !! id = Some (m, s) ->
  exists e, getExtById zero_entity id (mSessionBiDict c) = (e, mSessionBiDict c) /\ e_sessionMode e = m /\
    if on_fix m then e_trackingSession e = s else e_batchingSession e = s.
Proof.
  intros HI E. destruct (spec_known _ _ HI _ _ _ E) as (Hf & Hs & e & He & Hm & [Hid Hses]). exists e.
  rewrite (getExtById_known zero_entity id s e _ (si_dict _ _ HI : dict_ok (mSessionBiDict c)) Hf He). by rewrite <- Hm at 2.
Qed.
Lemma trips_done c p A ss : session_inv (MkWorld c p) A ->
  forall d trips, dict_ok d -> (forall id, entry d id = (x ← entry (mSessionBiDict c) id; if decide (id ∈ trips) then None else Some x)) ->
  NoDup trips ->
  let '(d', trips') := foldl trip_step (d, trips) ss in
  NoDup trips' /\ forall id, id ∈ trips' <-> id ∈ trips \/ exists s, s ∈ ss /\ A !! id = Some (SESSION_MODE_ON_TRIP_COMPLETED, s).
Proof.
  intros HI. induction ss as [|s ss IH]; intros d trips Hd He Hnd; cbn [foldl].
  { split; [done|]. intros id. split; [auto|]. intros [?|(s & ?%elem_of_nil & _)]; done. }
  assert (Hskip : (forall id, A !! id = Some (SESSION_MODE_ON_TRIP_COMPLETED, s) -> id ∈ trips) -> trip_step (d, trips) s = (d, trips) ->
    let '(_, trips') := foldl trip_step (trip_step (d, trips) s) ss in
    NoDup trips' /\ forall id, id ∈ trips' <-> id ∈ trips \/ exists s0, s0 ∈ s :: ss /\ A !! id = Some (SESSION_MODE_ON_TRIP_COMPLETED, s0)).
  { intros Hno ->. specialize (IH d trips Hd He Hnd). destruct (foldl trip_step _ ss) as [d' trips']. destruct IH as [H1 H2]. split; [done|].
    intros id. rewrite H2. setoid_rewrite elem_of_cons. split; [naive_solver|]. intros [?|(s0 & [->|?] & ?)]; eauto. }
  assert (Hentry : forall id e, entry d id = Some (s, e) -> A !! id = Some (e_sessionMode e, s) /\ id ∉ trips /\ e_id e = id).
  { intros id e Hx. rewrite He in Hx. destruct (entry (mSessionBiDict c) id) as [[s' e']|] eqn:Hc; cbn in Hx; [|done]. case_decide; [done|].
    injection Hx as -> ->. split; [by rewrite (si_spec _ _ HI); cbn [w_client]; rewrite Hc|]. split; [done|]. by apply (si_entity _ _ HI) in Hc as [? _]. }
  assert (Hconv : forall id m, A !! id = Some (m, s) -> id ∉ trips -> exists e, entry d id = Some (s, e) /\ e_sessionMode e = m).
  { intros id m E Hni. rewrite (si_spec _ _ HI) in E. cbn [w_client] in E. destruct (entry (mSessionBiDict c) id) as [[s' e']|] eqn:Hc; cbn in E; [|done].
    injection E as <- ->. exists e'. rewrite He, Hc. cbn. by rewrite decide_False. }
  destruct (hasSession s d) eqn:Hh.
  2:{ apply Hskip; [|unfold trip_step; by rewrite Hh]. intros id E. destruct (decide (id ∈ trips)) as [|Hni]; [done|]. destruct (Hconv _ _ E Hni) as (e & [Hf _]%entry_Some & _).
      apply (dict_bwd _ Hd) in Hf. apply hasSession_false in Hh. congruence. }
  pose proof Hh as [id Hb]%hasSession_true. pose proof (proj2 (dict_bwd _ Hd id s) Hb) as Hf. destruct (dict_ext_Some _ _ _ Hd Hf) as [e Hx].
  assert (Hstep : trip_step (d, trips) s = if e_sessionMode e =? SESSION_MODE_ON_TRIP_COMPLETED then (rmBySession s d, trips ++ [e_id e]) else (d, trips)).
  { unfold trip_step, getExtBySession. by rewrite Hh, Hx. }
  destruct (Hentry id e) as (E & Hni & Hid); [by apply entry_Some|]. destruct (Z.eqb_spec (e_sessionMode e) SESSION_MODE_ON_TRIP_COMPLETED) as [Hm|Hm].
  - rewrite Hstep, Hid. clear Hskip Hstep Hid. assert (Hd' := rm_pair_ok id s d Hd Hf). rewrite (rmBySession_eq id) by done.
    assert (Hnd' : NoDup (trips ++ [id])). { apply NoDup_app. split; [done|]. split; [|apply NoDup_singleton]. intros x Hx' ->%list_elem_of_singleton. done. }
    specialize (IH _ (trips ++ [id]) Hd'). destruct (foldl trip_step _ ss) as [d' trips']. destruct IH as [H1 H2]; [|done|].
    + intros id'. rewrite rm_pair_entry by done. case_decide as Hc; [subst|].
      * destruct (entry _ id); cbn; [|done]. rewrite decide_True; [done|]. apply elem_of_app. right. by apply list_elem_of_singleton.
      * rewrite He. destruct (entry _ id') as [x|]; cbn; [|done]. pose proof (elem_of_app trips [id] id') as Hap. rewrite list_elem_of_singleton in Hap. repeat case_decide; tauto.
    + split; [done|]. intros id'. rewrite H2, elem_of_app, list_elem_of_singleton. setoid_rewrite elem_of_cons. split.
      * intros [[?| ->]|(s0 & ? & ?)]; [by left|right; exists s; rewrite E, Hm; auto|right; eauto].
      * intros [?|(s0 & [->|?] & E')]; [auto| |eauto]. left. right. by apply (spec_inj _ _ HI _ _ _ _ _ E' E).
  - apply Hskip; [|done]. intros id' E'. pose proof (spec_inj _ _ HI _ _ _ _ _ E' E) as ->. rewrite E in E'. congruence.
Qed.

(** C22. Whatever a client does with its sessions and whatever the responses are, the
    dictionaries of [LocationAPIClientBase] are the abstract map: each identifier that is
    started and not stopped stands for one session, of its mode, in both directions, and
    the queue holds the requests whose responses are still to come, in their order. This
    is as long as, by [allowed], the sessions of [LocationAPI] are new and its responses come in
    the order of the calls, the client waits for the response on a session before it
    asks for more on it, and a trip is completed when no response on it is to come;
    [early_stop_gap] is a client that does not wait. *)
Theorem sessions_refine w A : runs w A ->
  let c := w_client w in
  (forall id, A !! id = (fun p => (e_sessionMode p.2, p.1)) <$> entry (mSessionBiDict c) id) /\
  (forall id m s, A !! id = Some (m, s) -> getSession id (mSessionBiDict c) = s /\ getId s (mSessionBiDict c) = id) /\
  (forall s, hasSession s (mSessionBiDict c) = true <-> exists id m, A !! id = Some (m, s)) /\
  mQueue (REQUEST_SESSION c) = omap snd (w_pending w).
Proof.
  intros HI%runs_inv c. split; [apply HI|]. split; [|split; [|apply HI]].
  - intros id m s E. destruct (spec_known _ _ HI _ _ _ E) as (Hf & _). unfold getSession, getId.
    change (mForwardMap (mSessionBiDict c) !! id = Some s) in Hf. rewrite Hf. apply (dict_bwd _ (si_dict _ _ HI)) in Hf. change (mBackwardMap (mSessionBiDict c) !! s = Some id) in Hf. by rewrite Hf.
  - intros s. rewrite hasSession_true, <- (spec_session _ _ HI). subst c. destruct (mBackwardMap (mSessionBiDict (w_client w)) !! s); naive_solver.
Qed.

(** The answer is that of the specification, and so are the events. *)
Ltac said := split; [done|]; eexists; split; [done|]; cbn [fst]; rewrite ?app_nil_r; try done.

(** C24. What the client says and does is a function of the abstract state: an operation
    returns an error and calls nothing when the identifier is unknown (or, for a start,
    known), and otherwise makes the calls of [LocationAPI] for the session it stands for, of
    the kind of its mode; the response to a call is given to the callback of the request
    that the call was for, and a trip that is completed is reported by its identifier. The
    conditions are those of [sessions_refine], [allowed]. *)
Theorem session_calls w A op : runs w A -> allowed op A (w_pending w) ->
  returned op (w_client w) = returns op A /\
  exists l, does op (w_pending w) A l /\ events (exec op w) = events (w_client w) ++ l.
Proof.
  intros HI%runs_inv Hok. destruct w as [c p]. cbn [w_client w_pending] in *.
  assert (Ha : mLocationAPI c = true) by apply (si_api _ _ HI). pose proof (spec_hasId _ _ HI) as Hh. cbn [w_client] in Hh.
  destruct op as [id m o s|id|id m o s'|id count|error|ss]; cbn [returned returns does exec w_client w_pending allowed] in *.
  - unfold locAPIStartSession. rewrite Ha, Hh. destruct (A !! id) as [[m0 s0]|] eqn:E.
    + rewrite bool_decide_true by eauto. said.
    + rewrite bool_decide_false by (by intros []). said. unfold start_call, on_fix. by destruct (m =? _).
  - unfold locAPIStopSession. rewrite Ha, Hh. destruct (A !! id) as [[m0 s0]|] eqn:E.
    + rewrite bool_decide_true by eauto. destruct (known_entity _ _ _ _ _ _ HI E) as (e & -> & Hm & Hs). cbn [fst snd].
      change (e_sessionMode e =? _) with (on_fix (e_sessionMode e)). rewrite Hm. split; [done|]. eexists; split; [done|].
      unfold stop_call. destruct (on_fix m0); cbn; by rewrite Hs.
    + rewrite bool_decide_false by (by intros []). said.
  - unfold locAPIUpdateSessionOptions. rewrite Ha, Hh. destruct (A !! id) as [[m0 s0]|] eqn:E.
    + rewrite bool_decide_true by eauto. destruct (known_entity _ _ _ _ _ _ HI E) as (e & -> & Hm & Hs). cbn [fst snd].
      change (e_sessionMode e =? _) with (on_fix (e_sessionMode e)). change (m =? _) with (on_fix m). rewrite Hm.
      unfold stop_call, start_call, update_call. destruct (on_fix m) eqn:F, (on_fix m0); cbn [Bool.eqb fst snd]; (split; [done|]); (eexists; split; [done|]); rewrite Hs; try done; cbn; by rewrite <- app_assoc.
    + rewrite bool_decide_false by (by intros []). said.
  - unfold locAPIGetBatchedLocations. rewrite Ha, Hh. destruct (A !! id) as [[m0 s0]|] eqn:E.
    + rewrite bool_decide_true by eauto. destruct (known_entity _ _ _ _ _ _ HI E) as (e & -> & Hm & Hs). cbn [fst snd].
      change (e_sessionMode e =? _) with (on_fix (e_sessionMode e)). rewrite Hm. destruct (on_fix m0); said. by rewrite Hs.
    + rewrite bool_decide_false by (by intros []). said.
  - split; [done|]. eexists; split; [done|]. destruct p as [|[s r] p]; [done|]. rewrite (response_spec c s r p A error HI).
    destruct r as [req|]; [|by rewrite app_nil_r]. destruct (si_known _ _ HI s req ltac:(by left)) as [Hreq _]. rewrite onResponse_effect by done.
    destruct (ends _ _); [|done]. unfold removeSession. by destruct (hasSession _ _).
  - split; [done|]. unfold beforeBatchingStatusCb. cbn [Z.eqb BATCHING_STATUS_TRIP_COMPLETED].
    pose proof (trips_done c p A ss HI (mSessionBiDict c) [] (si_dict _ _ HI)) as Ht. destruct (foldl trip_step _ ss) as [d' trips'].
    exists [on_batching_status 0 trips']. split; [|done]. exists trips'. split; [done|].
    destruct Ht as [H1 H2]; [|apply NoDup_nil_2|].
    + intros id. by destruct (entry _ id).
    + split; [done|]. intros id. rewrite H2. split; [|eauto]. intros [?%elem_of_nil|?]; done.
Qed.

(** An identifier 1 is started on session 10; the response is still to come. *)
Definition sample_start : SessionOp := op_start 1 SESSION_MODE_ON_FIX zero_options 10.
Definition sample_new : World := MkWorld (locAPISetCallbacks true true new_client) [].
Definition sample : World := MkWorld (exec sample_start sample_new) [(10, Some StartTrackingRequest)].
Definition sample_sessions : Sessions := <[1 := (SESSION_MODE_ON_FIX, 10)]> ∅.
Lemma sample_runs : runs sample sample_sessions.
Proof.
  apply (runs_op _ _ sample_start (runs_new true true)). split; [lia|]. split; [by intros ? ?; rewrite lookup_empty|]. apply not_elem_of_nil.
Qed.
Lemma sessions_refine_witness : runs sample sample_sessions /\ getId 10 (mSessionBiDict (w_client sample)) = 1.
Proof.
  split; [apply sample_runs|]. destruct (sessions_refine sample sample_sessions sample_runs) as (_ & H & _).
  destruct (H 1 SESSION_MODE_ON_FIX 10) as [_ H']; [reflexivity|exact H'].
Defined.
Lemma session_calls_witness : runs sample sample_sessions /\ w_pending sample <> [] /\
  events (exec (op_answer LOCATION_ERROR_GENERAL_FAILURE) sample) =
  events (w_client sample) ++ [on_response StartTrackingRequest LOCATION_ERROR_GENERAL_FAILURE].
Proof.
  split; [apply sample_runs|]. split; [discriminate|].
  destruct (session_calls sample sample_sessions (op_answer LOCATION_ERROR_GENERAL_FAILURE) sample_runs) as [_ (l & Hl & He)]; [discriminate|].
  rewrite He. cbn in Hl. rewrite Hl. reflexivity.
Defined.

(** A dictionary of one entry. *)
Lemma one_entry id s (e : SessionEntity) : 0 < s ->
  let d := BiDict.set id s e new_dict in
  hasId id d = true /\ hasSession s d = true /\ getExtById zero_entity id d = (e, d) /\ rmBySession s d = new_dict.
Proof.
  intros Hs d. assert (Hd : dict_ok d) by (apply set_ok; [apply new_dict_ok|done|by right]).
  split; [apply hasId_true; exists s; apply lookup_insert_eq|]. split; [apply hasSession_true; exists id; apply lookup_insert_eq|].
  split; [apply (getExtById_known zero_entity id s e d Hd); apply lookup_insert_eq|].
  rewrite (rmBySession_eq id s d Hd) by apply lookup_insert_eq. unfold d, BiDict.set, new_dict. cbn. by rewrite !delete_insert_id.
Qed.

(** One step at a time, of a client that only has sessions. *)
Definition on_fix_client (d : BiDict SessionEntity) (q : list Request) (ev : list Event) : Client :=
  MkClient true true true (MkQueue 0 []) (MkQueue 0 q) (MkQueue 0 []) (MkQueue 0 []) new_dict d false ev.
Definition on_fix_entity (id s : Z) : SessionEntity := MkEntity id s 0 SESSION_MODE_ON_FIX.
Lemma start_step id s options d q ev : hasId id d = false ->
  (locAPIStartSession id SESSION_MODE_ON_FIX options s (on_fix_client d q ev)).1 =
  on_fix_client (BiDict.set id s (on_fix_entity id s) d) (q ++ [StartTrackingRequest]) (ev ++ [api_startTracking s options]).
Proof. intros Hh. unfold locAPIStartSession. by rewrite (Hh : hasId id (mSessionBiDict (on_fix_client d q ev)) = false). Qed.
Lemma stop_step id s d q ev : hasId id d = true -> getExtById zero_entity id d = (on_fix_entity id s, d) ->
  (locAPIStopSession id (on_fix_client d q ev)).1 = on_fix_client d (q ++ [StopTrackingRequest]) (ev ++ [api_stopTracking s]).
Proof. intros Hh He. unfold locAPIStopSession. cbn [mLocationAPI mSessionBiDict on_fix_client]. by rewrite Hh, He. Qed.
Lemma response_step error s d r q ev : 0 < s -> session_request r = true ->
  onResponseCb error s (on_fix_client d (r :: q) ev) =
    if hasSession s d then on_fix_client (if ends (Some r) error then rmBySession s d else d) q (ev ++ [on_response r error])
    else on_fix_client d (r :: q) ev.
Proof.
  intros Hs Hr. unfold onResponseCb, getRequestBySession. cbn [mSession REQUEST_TRACKING REQUEST_NIRESPONSE on_fix_client].
  rewrite (proj2 (Z.eqb_neq 0 s)) by lia. change (mSessionBiDict (on_fix_client d (r :: q) ev)) with d. destruct (hasSession s d) eqn:Hh; [|done].
  cbn [pop mQueue REQUEST_SESSION on_fix_client on_session]. rewrite onResponse_effect by done. unfold removeSession. destruct (ends (Some r) error); [|done].
  match goal with |- context [hasSession s (mSessionBiDict ?c)] => change (mSessionBiDict c) with d end. by rewrite Hh.
Qed.

(** The condition matters.  An identifier is stopped before the response to its start, which
    is a failure: the response removes the session, so the one to the stop finds none and
    its request stays in the queue.  The next start that succeeds is answered by it: the
    client hears of a stop, and the session is forgotten although it runs. *)
Definition early_stop (id id' s s' : Z) (options : TrackingOptions) (c : Client) : Client :=
  let c := (locAPIStartSession id SESSION_MODE_ON_FIX options s c).1 in
  let c := (locAPIStopSession id c).1 in
  let c := onResponseCb LOCATION_ERROR_GENERAL_FAILURE s c in
  let c := onResponseCb LOCATION_ERROR_SUCCESS s c in
  let c := (locAPIStartSession id' SESSION_MODE_ON_FIX options s' c).1 in
  onResponseCb LOCATION_ERROR_SUCCESS s' c.
(** The gap that a response leaves, for any two identifiers and sessions: after a
    failed start whose identifier was stopped early, the next successful start is reported
    to the client as a stop, its own request stays in the queue, and its session is lost. *)
Theorem early_stop_gap (id id' s s' : Z) (options : TrackingOptions) (Hs : 0 < s) (Hs' : 0 < s') :
  let c := early_stop id id' s s' options (locAPISetCallbacks true true new_client) in
  events c = [api_startTracking s options; api_stopTracking s; on_response StartTrackingRequest LOCATION_ERROR_GENERAL_FAILURE;
              api_startTracking s' options; on_response StopTrackingRequest LOCATION_ERROR_SUCCESS] /\
  mQueue (REQUEST_SESSION c) = [StartTrackingRequest] /\ mSessionBiDict c = new_dict.
Proof.
  destruct (one_entry id s (on_fix_entity id s) Hs) as (H1 & H2 & H3 & H4).
  destruct (one_entry id' s' (on_fix_entity id' s') Hs') as (H1' & H2' & H3' & H4').
  unfold early_stop. change (locAPISetCallbacks true true new_client) with (on_fix_client new_dict [] []).
  rewrite start_step by done. rewrite (stop_step id s) by done. cbn [app]. rewrite response_step, H2 by done. cbn [ends].
  change (negb (LOCATION_ERROR_GENERAL_FAILURE =? _)) with true. cbv iota. rewrite H4, response_step by done. rewrite (proj2 (hasSession_false s (@new_dict SessionEntity))) by apply lookup_empty.
  rewrite start_step by done. cbn [app]. by rewrite response_step, H2', H4' by done.
Qed.
Lemma early_stop_gap_witness : 0 < 10 /\ 0 < 11 /\
  mQueue (REQUEST_SESSION (early_stop 1 2 10 11 zero_options (locAPISetCallbacks true true new_client))) = [StartTrackingRequest].
Proof. split; [lia|]. split; [lia|]. apply (early_stop_gap 1 2 10 11 zero_options); lia. Defined.

(** ** The single tracking session *)

(** When the start of the tracking session fails, [mTracking] stays: later starts return
    success and start nothing. *)
Lemma failed_start_sticks (options : TrackingOptions) session error c : mLocationAPI c = true -> mTracking c = false ->
  let c' := onResponseCb error session (locAPIStartTracking options session c).1 in
  mTracking c' = true /\ forall options' session', locAPIStartTracking options' session' c' = (c', LOCATION_ERROR_SUCCESS).
Proof.
  intros Ha Ht c'. assert (H : mTracking c' = true /\ mLocationAPI c' = true).
  { subst c'. unfold locAPIStartTracking, onResponseCb, getRequestBySession. rewrite Ha, Ht. cbn [fst mSession REQUEST_TRACKING on_tracking set_tracking push reset emit].
    rewrite Z.eqb_refl. cbn. destruct (error =? _); [by split|]. unfold removeSession. by destruct (hasSession _ _). }
  destruct H as [H1 H2]. split; [done|]. intros o' s'. unfold locAPIStartTracking. by rewrite H1, H2.
Qed.

(** ** Geofences *)
(** The mask of a geofence has one bit for each type of breach, in the order of the types. *)
Definition wants (mask type : Z) : Prop := Z.testbit mask type = true.
Lemma breached_iff type m : breached type m = true <-> (type = GEOFENCE_BREACH_ENTER \/ type = GEOFENCE_BREACH_EXIT) /\ wants m type.
Proof.
  unfold breached, wants, GEOFENCE_BREACH_ENTER, GEOFENCE_BREACH_EXIT. rewrite orb_true_iff, !andb_true_iff, !Z.eqb_eq. split; [intros [[-> ?]|[-> ?]]; auto|].
  intros [[->| ->] ?]; auto.
Qed.

(** C28. Whatever geofences a client adds, removes, modifies, pauses and resumes, as long as
    the identifiers and sessions it adds are new and its arrays equally long, the dictionary is the abstract map of
    sessions and masks. When the callback for breaches is set, a breach of a list of sessions
    is reported once: that they are entered or left, with the identifiers of exactly those
    whose mask has the bit of that type; of any other type, dwelling too, with none. And
    a removal calls the API once, with each session of a known identifier once, and keeps the
    identifiers for its response. *)
Theorem geofences_refine c G : g_runs c G ->
  (forall id, entry (mGeofenceBiDict c) id = G !! id) /\
  (forall type sessions, mGeofenceBreachCallback c = true -> exists ids,
     events (beforeGeofenceBreachCb type sessions c) = events c ++ [on_geofence_breach type ids] /\
     (type = GEOFENCE_BREACH_ENTER \/ type = GEOFENCE_BREACH_EXIT ->
        forall id, id ∈ ids <-> exists s m, s ∈ sessions /\ G !! id = Some (s, m) /\ wants m type) /\
     (type <> GEOFENCE_BREACH_ENTER -> type <> GEOFENCE_BREACH_EXIT -> ids = [])) /\
  (forall ids, exists sessions, NoDup sessions /\ (forall s, s ∈ sessions <-> stands G ids s) /\
     let c' := locAPIRemoveGeofences ids c in
     if decide (sessions = []) then events c' = events c
     else events c' = events c ++ [api_removeGeofences sessions] /\ exists removed,
       mQueue (REQUEST_GEOFENCE c') = mQueue (REQUEST_GEOFENCE c) ++ [RemoveGeofencesRequest removed] /\
       forall id s m, id ∈ ids -> G !! id = Some (s, m) -> getId s removed = id).
Proof.
  intros [Ha Hd He Hr]%g_runs_inv. split; [done|]. split.
  - intros type sessions Hcb. unfold beforeGeofenceBreachCb. rewrite Hcb. eexists. split; [done|]. split.
    2:{ intros H0 H1. clear -H0 H1. induction sessions as [|s sessions IH]; [done|]. cbn [omap list_omap]. rewrite IH. destruct (breached _ _) eqn:Hb; [|done].
        apply breached_iff in Hb as [[]]; done. }
    intros Htype id. rewrite list_elem_of_omap. split.
    + intros (s & Hs & Hx). destruct (breached _ _) eqn:Hb; [|done]. pose proof (proj1 (breached_iff _ _) Hb) as [_ Hw]. injection Hx as <-. unfold getExtBySession, getId in *.
      destruct (mExtMap (mGeofenceBiDict c) !! s) as [m|] eqn:Hm.
      2:{ exfalso. revert Hb. unfold breached. cbn. by rewrite !andb_false_r. }
      assert (is_Some (mBackwardMap (mGeofenceBiDict c) !! s)) as [id Hid] by (apply elem_of_dom; rewrite <- (dict_ext _ Hd); apply elem_of_dom; eauto).
      exists s, m. split; [done|]. rewrite Hid. cbn. rewrite <- He. split; [|done]. apply entry_Some. split; [|done]. by apply (dict_bwd _ Hd).
    + intros (s & m & Hs & Hg & Hb). exists s. split; [done|]. rewrite <- He in Hg. apply entry_Some in Hg as [Hf Hm]. unfold getExtBySession, getId.
      rewrite Hm. change (default 0 (Some m)) with m. rewrite (proj2 (breached_iff type m)) by done. apply (dict_bwd _ Hd) in Hf. by rewrite Hf.
  - intros ids. unfold locAPIRemoveGeofences. rewrite Ha. cbn [andb]. destruct (geofences_ready c) eqn:E.
    + pose proof (remove_loop ids (mGeofenceBiDict c) new_dict [] G Hd He NoDup_nil_2 ltac:(by intros ? ?%elem_of_nil)) as H.
      destruct (foldl remove_step _ ids) as [[d' removed'] sessions']. destruct H as (_ & _ & Hnd & Hst & Hrem & _).
      exists sessions'. split; [done|]. split; [intros s; rewrite Hst; split; [intros [?%elem_of_nil|?]; done|auto]|].
      cbv zeta. destruct (decide (sessions' = [])); [done|]. split; [done|]. exists removed'. split; [done|].
      intros id s m Hin Hg. unfold getId. by rewrite (Hrem id s m Hin Hg).
    + exists []. split; [apply NoDup_nil_2|]. split; [|by rewrite decide_True].
      assert (G = ∅) as -> by (destruct (decide (G = ∅)) as [|Hne]; [done|by specialize (Hr Hne)]). intros s. split; [by intros ?%elem_of_nil|].
      by intros (id & m & _ & ?%lookup_empty_Some).
Qed.

(** Removing all geofences removes none, unless a session happens to be the identifier of
    a geofence: the sessions are passed where identifiers are expected. *)
Theorem remove_all_gap c G : g_runs c G -> (forall id s m, G !! id = Some (s, m) -> G !! s = None) ->
  (forall id, entry (mGeofenceBiDict (locAPIRemoveAllGeofences c)) id = G !! id) /\
  events (locAPIRemoveAllGeofences c) = events c.
Proof.
  intros [Ha Hd He Hr]%g_runs_inv Hno. unfold locAPIRemoveAllGeofences. destruct (decide (getAllSessions _ = [])); [by split|].
  unfold locAPIRemoveGeofences. rewrite Ha. cbn [andb]. destruct (geofences_ready c); [|by split].
  assert (Hall : forall id, id ∈ getAllSessions (mGeofenceBiDict c) -> G !! id = None).
  { intros s Hs. unfold getAllSessions in Hs. rewrite merge_sort_Permutation, elem_of_elements, elem_of_dom in Hs. destruct Hs as [id Hid].
    apply (dict_bwd _ Hd) in Hid. destruct (dict_ext_Some _ _ _ Hd Hid) as [m Hm]. apply (Hno id s m). rewrite <- He. by apply entry_Some. }
  pose proof (remove_loop (getAllSessions (mGeofenceBiDict c)) (mGeofenceBiDict c) new_dict [] G Hd He NoDup_nil_2 ltac:(by intros ? ?%elem_of_nil)) as H.
  destruct (foldl remove_step _ _) as [[d' removed'] sessions']. destruct H as (_ & He' & _ & Hst & _).
  assert (sessions' = []) as ->.
  { destruct sessions' as [|s ss]; [done|]. destruct (proj1 (Hst s)) as [?%elem_of_nil|(id & m & Hin & Hg)]; [by left|done|]. by rewrite (Hall id Hin) in Hg. }
  rewrite decide_True by done. split; [|done]. intros id. cbn [mGeofenceBiDict on_geofences]. rewrite He'. f_equal. apply map_filter_id.
  intros i x Hg Hin. cbn in Hin. by rewrite (Hall i Hin) in Hg.
Qed.

(** Two geofences, 7 to be told of who enters it and 8 of who leaves it. *)
Definition sample_geofences : GeofenceOp :=
  g_add [7; 8] [MkGeofenceOption 1 0 0; MkGeofenceOption 2 0 0] [MkGeofenceInfo 0 0 0; MkGeofenceInfo 0 0 0] [100; 101].
Definition geofences_client : Client := g_exec sample_geofences (locAPISetCallbacks true true new_client).
Definition geofences_map : Geofences := g_spec sample_geofences ∅.
Lemma sample_geofences_run : g_runs geofences_client geofences_map.
Proof.
  apply (g_op _ _ sample_geofences (g_new true true)). split; [done|]. split; [done|]. split; [by apply (bool_decide_unpack _)|].
  split; [by apply (bool_decide_unpack _)|]. split; [done|]. intros s Hs. split; [|done].
  apply elem_of_cons in Hs as [->|Hs]; [lia|]. apply list_elem_of_singleton in Hs as ->. lia.
Qed.
Lemma geofences_refine_witness : g_runs geofences_client geofences_map /\
  exists ids, events (beforeGeofenceBreachCb GEOFENCE_BREACH_ENTER [100; 101] geofences_client) = events geofences_client ++ [on_geofence_breach GEOFENCE_BREACH_ENTER ids] /\ 7 ∈ ids /\ 8 ∉ ids.
Proof.
  split; [apply sample_geofences_run|]. destruct (geofences_refine _ _ sample_geofences_run) as (_ & H & _).
  destruct (H GEOFENCE_BREACH_ENTER [100; 101] eq_refl) as (ids & He & Hids & _). specialize (Hids (or_introl eq_refl)). exists ids. split; [exact He|]. split.
  - apply Hids. exists 100, 1. split; [left|]. split; reflexivity.
  - intros Hin. apply Hids in Hin as (s & m & _ & Hg & Hb). vm_compute in Hg. injection Hg as <- <-. discriminate.
Defined.
(** A client that asked to be told who stays in a geofence is told of it, without the geofence. *)
Lemma dwell_gap : let op := g_add [7] [MkGeofenceOption 4 0 0] [MkGeofenceInfo 0 0 0] [100] in
  let c := g_exec op (locAPISetCallbacks true true new_client) in
  wants 4 2 /\ g_spec op ∅ !! 7 = Some (100, 4) /\ events (beforeGeofenceBreachCb 2 [100] c) = events c ++ [on_geofence_breach 2 []].
Proof. by vm_compute. Qed.
Lemma remove_all_gap_witness : g_runs geofences_client geofences_map /\
  events (locAPIRemoveAllGeofences geofences_client) = events geofences_client.
Proof.
  split; [apply sample_geofences_run|]. apply (remove_all_gap _ _ sample_geofences_run).
  intros id s m Hg. unfold geofences_map, sample_geofences in *. cbn in *. apply lookup_union_Some_raw in Hg as [Hg|[_ Hg]]; [|by rewrite lookup_empty in Hg].
  apply lookup_insert_Some in Hg as [[_ [= <- <-]]|[_ [[_ [= <- <-]]|[_ Hg]]%lookup_insert_Some]]; [reflexivity..|by rewrite lookup_empty in Hg].
Defined.

(** ** Control requests *)
Inductive ControlOp :=
  | c_delete (session : Z) | c_enable (techType session : Z) | c_disable | c_update (config idArray : Z) | c_get (mask idArray : Z)
  | c_answer (error id : Z) | c_collective (errors : list Z) (ptr : Z) (ids : list Z).
Definition control (op : ControlOp) (c : Control.ControlClient) : Control.ControlClient :=
  match op with
  | c_delete session => (Control.locAPIGnssDeleteAidingData session c).1
  | c_enable techType session => (Control.locAPIEnable techType session c).1
  | c_disable => Control.locAPIDisable c
  | c_update config idArray => (Control.locAPIGnssUpdateConfig config idArray c).1
  | c_get mask idArray => (Control.locAPIGnssGetConfig mask idArray c).1
  | c_answer error id => Control.onCtrlResponseCb error id c
  | c_collective errors ptr ids => Control.onCtrlCollectiveResponseCb errors ptr ids c
  end.
Definition no_array (c : Control.ControlClient) : Prop :=
  Control.q_arrayPtr (Control.CONFIG_UPDATE c) = 0 /\ Control.q_arrayPtr (Control.CONFIG_GET c) = 0.
Lemma take_array_null ptr r q : Control.q_arrayPtr q = 0 -> Control.q_arrayPtr (Control.take_array ptr r q) = 0.
Proof. intros H. unfold Control.take_array. by rewrite H. Qed.
Lemma pop_ctrl_null q r q' : Control.pop_ctrl q = (r, q') -> Control.q_arrayPtr q' = Control.q_arrayPtr q.
Proof. unfold Control.pop_ctrl. destruct (Control.q_queue q); by intros [= <- <-]. Qed.
Lemma control_no_array op c : no_array c -> no_array (control op c).
Proof.
  unfold no_array. intros [Hu Hg]. destruct op; cbn [control];
    unfold Control.locAPIGnssDeleteAidingData, Control.locAPIEnable, Control.locAPIDisable, Control.locAPIGnssUpdateConfig, Control.locAPIGnssGetConfig,
      Control.onCtrlResponseCb, Control.getRequestBySession, Control.onCtrlCollectiveResponseCb, Control.getRequestBySessionArrayPtr;
    repeat case_match; simplify_eq;
    repeat match goal with H : Control.pop_ctrl _ = _ |- _ => apply pop_ctrl_null in H end;
    split; cbn -[Control.take_array]; try apply take_array_null; congruence.
Qed.
(** The responses to [gnssUpdateConfig] and [gnssGetConfig] are lost, whatever happens
    before: a queue takes the address of the array of sessions only if it has one already,
    so it never has one, and a collective response finds no request. *)
Theorem config_responses_lost available ops errors ptr ids :
  let c := foldl (fun c op => control op c) (Control.LocationAPIControlClient available) ops in
  ptr <> 0 -> Control.onCtrlCollectiveResponseCb errors ptr ids c = c.
Proof.
  intros c Hp. assert (Hno : no_array c).
  { subst c. assert (H : no_array (Control.LocationAPIControlClient available)) by by split. revert H. generalize (Control.LocationAPIControlClient available).
    induction ops as [|op ops IH]; intros c H; [done|]. by apply IH, control_no_array. }
  destruct Hno as [Hu Hg]. unfold Control.onCtrlCollectiveResponseCb, Control.getRequestBySessionArrayPtr.
  rewrite Hu, Hg, (proj2 (Z.eqb_neq 0 ptr)) by done. done.
Qed.
Lemma config_responses_lost_witness : 0x7000 <> 0 /\
  Control.onCtrlCollectiveResponseCb [0] 0x7000 [3] (control (c_get 1 0x7000) (Control.LocationAPIControlClient true)) = control (c_get 1 0x7000) (Control.LocationAPIControlClient true).
Proof. split; [discriminate|]. apply (config_responses_lost true [c_get 1 0x7000] [0] 0x7000 [3]). discriminate. Defined.
