(* ===== verification/GeofenceAdapter.v ===== *)
(** * The geofence adapter
    ([src/gps/geofence/GeofenceAdapter.h], [src/gps/geofence/GeofenceAdapter.cpp], and of
    [src/gps/core/LocAdapterBase.cpp] the clients and the identifiers of sessions)

    The adapter keeps the geofences of all clients: by the identifier that the modem gave
    them, and the identifier of each client's.  Commands and responses are messages of the
    context's thread; the requests to the modem are messages of the thread of the modem
    interface.  Both queues are first in, first out, and a request is sent to the modem
    and answered within its message.  A command on several geofences allocates arrays
    that its closures share: [arrays] has those that are not deleted yet, with the errors
    written so far, and a step that reads or writes deleted ones is undefined.  Allocations
    succeed. *)
From stdpp Require Import sorting.
From S2P Require Import Prelude PbConsts GnssTracking LocationApiClient.
#[local] Open Scope Z_scope.

(** The order of [std::map]. *)
Definition fst_le {V} (a b : Z * V) : Prop := a.1 <= b.1.
#[export] Instance fst_le_dec {V} : RelDecision (@fst_le V) := fun a b => Z_le_dec a.1 b.1.
Definition by_key {V} (m : gmap Z V) : list (Z * V) := merge_sort fst_le (map_to_list m).
Lemma by_key_elem {V} (m : gmap Z V) k x : (k, x) ∈ by_key m <-> m !! k = Some x.
Proof. unfold by_key. by rewrite merge_sort_Permutation, elem_of_map_to_list. Qed.

(** ** Data *)
Abbreviation GeofenceKey := (Z * Z)%type.      (* the client and its identifier *)
Definition key_before (a b : GeofenceKey * Z) : Prop := a.1.2 < b.1.2 \/ (a.1.2 = b.1.2 /\ a.1.1 <= b.1.1).
#[export] Instance key_before_dec : RelDecision key_before.
Proof. intros a b. unfold key_before. apply _. Defined.
Record GeofenceObject := MkObject {
  o_key : GeofenceKey; o_breachMask : Z; o_responsiveness : Z; o_dwellTime : Z;
  o_latitude : Z; o_longitude : Z; o_radius : Z; o_paused : bool;
}.
Record Callbacks := MkCallbacks { collectiveResponseCb : bool; geofenceBreachCb : bool; geofenceStatusCb : bool }.

(** A command: its arrays (by the number of their allocation), client, identifiers and
    what is done with each.  NULL arrays are [None]. *)
Inductive Job :=
  | job_add (mOptions : option (list GeofenceOption)) (mInfos : option (list GeofenceInfo))
  | job_remove | job_pause | job_resume
  | job_modify (mOptions : option (list GeofenceOption)).
Record Batch := MkBatch { b_no : Z; mClient : Z; mIds : list Z; mJob : Job }.
Definition mCount (B : Batch) : nat := length (mIds B).

(** The messages of the context's thread: commands, the closures of responses, reports. *)
Inductive CtxMsg :=
  | m_addClient (client : Z) (callbacks : Callbacks)
  | m_removeClient (client : Z)
  | m_command (B : Batch)                             (* [MsgAddGeofences] and the like *)
  | m_call (B : Batch) (i : nat)                      (* back from [addToCallQueue] *)
  | m_done (B : Batch) (i : nat) (hwId err : Z)       (* the response for the item [i] *)
  | m_stopped (hwId err : Z)                          (* the response in [stopClientSessions] *)
  | m_engineUp                                        (* [MsgSSREvent] *)
  | m_readded (object : GeofenceObject) (hwId err : Z) (* the response in [restartGeofences] *)
  | m_ignored                                         (* that of its pause *)
  | m_breach (hwIds : list Z) (type : Z)
  | m_status (available : Z).
(** Those of the thread of the modem interface. *)
Inductive ApiMsg :=
  | a_call (B : Batch) (i : nat)
  | a_job (B : Batch) (i : nat) (hwId : Z)            (* [addGeofence], which has no [hwId], [removeGeofence] and so on *)
  | a_stop (hwId : Z)                                 (* [removeGeofence] *)
  | a_restart (object : GeofenceObject)               (* [addGeofence] *)
  | a_repause (hwId : Z).                             (* [pauseGeofence] *)
(** What clients are told; [no] stands for the address of the array of identifiers. *)
Inductive Told :=
  | t_collective (client no : Z) (errs : list (option Z)) (ids : list Z)
  | t_breach (client : Z) (ids : list Z) (type : Z)
  | t_status (client available : Z)
  | t_removed (client : Z).

Record Adapter := MkAdapter {
  mClientData : gmap Z Callbacks;
  mGeofences : gmap Z GeofenceObject;
  mGeofenceIds : gmap GeofenceKey Z;
  mSessionIdCounter : Z;
  arrays : gmap Z (list (option Z));      (* [errs]; [None] is not written yet *)
  next_no : Z;
  ctx : list CtxMsg;
  api : list ApiMsg;
  told : list Told;
  mEvtMask : Z;
}.
Definition new_adapter : Adapter := MkAdapter ∅ ∅ ∅ 1 ∅ 0 [] [] [] 0.

Definition set_clients (f : gmap Z Callbacks -> gmap Z Callbacks) (mask : Z) (A : Adapter) : Adapter :=
  MkAdapter (f (mClientData A)) (mGeofences A) (mGeofenceIds A) (mSessionIdCounter A) (arrays A) (next_no A) (ctx A) (api A) (told A) mask.
Definition set_maps (G : gmap Z GeofenceObject) (I : gmap GeofenceKey Z) (A : Adapter) : Adapter :=
  MkAdapter (mClientData A) G I (mSessionIdCounter A) (arrays A) (next_no A) (ctx A) (api A) (told A) (mEvtMask A).
Definition set_counter (n : Z) (A : Adapter) : Adapter :=
  MkAdapter (mClientData A) (mGeofences A) (mGeofenceIds A) n (arrays A) (next_no A) (ctx A) (api A) (told A) (mEvtMask A).
Definition set_arrays (f : gmap Z (list (option Z)) -> gmap Z (list (option Z))) (A : Adapter) : Adapter :=
  MkAdapter (mClientData A) (mGeofences A) (mGeofenceIds A) (mSessionIdCounter A) (f (arrays A)) (next_no A) (ctx A) (api A) (told A) (mEvtMask A).
Definition sendMsg (m : CtxMsg) (A : Adapter) : Adapter :=
  MkAdapter (mClientData A) (mGeofences A) (mGeofenceIds A) (mSessionIdCounter A) (arrays A) (next_no A) (ctx A ++ [m]) (api A) (told A) (mEvtMask A).
Definition call_api (l : list ApiMsg) (A : Adapter) : Adapter :=
  MkAdapter (mClientData A) (mGeofences A) (mGeofenceIds A) (mSessionIdCounter A) (arrays A) (next_no A) (ctx A) (api A ++ l) (told A) (mEvtMask A).
Definition tell (l : list Told) (A : Adapter) : Adapter :=
  MkAdapter (mClientData A) (mGeofences A) (mGeofenceIds A) (mSessionIdCounter A) (arrays A) (next_no A) (ctx A) (api A) (told A ++ l) (mEvtMask A).
Definition set_queues (c : list CtxMsg) (a : list ApiMsg) (A : Adapter) : Adapter :=
  MkAdapter (mClientData A) (mGeofences A) (mGeofenceIds A) (mSessionIdCounter A) (arrays A) (next_no A) c a (told A) (mEvtMask A).

(** ** Commands, in a client's thread *)
Definition generateSessionId (counter : Z) : Z :=
  let c := (counter + 1) mod 2 ^ 32 in if c =? 0xFFFFFFFF then 1 else c.
Fixpoint generate (count : nat) (counter : Z) : list Z * Z :=
  match count with
  | O => ([], counter)
  | S count => let id := generateSessionId counter in let '(ids, counter) := generate count id in (id :: ids, counter)
  end.
Definition command (client : Z) (ids : list Z) (job : Job) (A : Adapter) : Adapter :=
  let A' := MkAdapter (mClientData A) (mGeofences A) (mGeofenceIds A) (mSessionIdCounter A) (<[next_no A := []]> (arrays A))
              (next_no A + 1) (ctx A) (api A) (told A) (mEvtMask A) in
  sendMsg (m_command (MkBatch (next_no A) client ids job)) A'.
Definition addGeofencesCommand (client : Z) (count : nat) (options : option (list GeofenceOption)) (infos : option (list GeofenceInfo))
    (A : Adapter) : option (list Z) * Adapter :=
  match count with
  | O => (None, A)
  | _ => let '(ids, counter) := generate count (mSessionIdCounter A) in
         (Some ids, command client ids (job_add options infos) (set_counter counter A))
  end.
Definition removeGeofencesCommand (client : Z) (ids : list Z) (A : Adapter) : Adapter :=
  match ids with [] => A | _ => command client ids job_remove A end.
Definition pauseGeofencesCommand (client : Z) (ids : list Z) (A : Adapter) : Adapter :=
  match ids with [] => A | _ => command client ids job_pause A end.
Definition resumeGeofencesCommand (client : Z) (ids : list Z) (A : Adapter) : Adapter :=
  match ids with [] => A | _ => command client ids job_resume A end.
Definition modifyGeofencesCommand (client : Z) (ids : list Z) (options : option (list GeofenceOption)) (A : Adapter) : Adapter :=
  match ids with [] => A | _ => command client ids (job_modify options) A end.

(** ** Utilities *)
Definition getHwIdFromClient (client clientId : Z) (A : Adapter) : option Z := mGeofenceIds A !! (client, clientId).
Definition getGeofenceKeyFromHwId (hwId : Z) (A : Adapter) : option GeofenceKey := o_key <$> mGeofences A !! hwId.
Definition object_of (client clientId : Z) (options : GeofenceOption) (info : GeofenceInfo) : GeofenceObject :=
  MkObject (client, clientId) (breachTypeMask options) (responsiveness options) (dwellTime options)
    (latitude info) (longitude info) (radius info) false.
Definition saveGeofenceItem (client clientId hwId : Z) (options : GeofenceOption) (info : GeofenceInfo) (A : Adapter) : Adapter :=
  set_maps (<[hwId := object_of client clientId options info]> (mGeofences A)) (<[(client, clientId) := hwId]> (mGeofenceIds A)) A.
Definition removeGeofenceItem (hwId : Z) (A : Adapter) : Adapter :=
  match getGeofenceKeyFromHwId hwId A with
  | Some key => match mGeofenceIds A !! key with
                | Some _ => set_maps (delete hwId (mGeofences A)) (delete key (mGeofenceIds A)) A
                | None => A
                end
  | None => A
  end.
Definition set_paused (b : bool) (o : GeofenceObject) : GeofenceObject :=
  MkObject (o_key o) (o_breachMask o) (o_responsiveness o) (o_dwellTime o) (o_latitude o) (o_longitude o) (o_radius o) b.
Definition set_options (options : GeofenceOption) (o : GeofenceObject) : GeofenceObject :=
  MkObject (o_key o) (breachTypeMask options) (responsiveness options) (dwellTime options) (o_latitude o) (o_longitude o) (o_radius o) (o_paused o).
Definition pauseGeofenceItem (hwId : Z) (A : Adapter) : Adapter := set_maps (alter (set_paused true) hwId (mGeofences A)) (mGeofenceIds A) A.
Definition resumeGeofenceItem (hwId : Z) (A : Adapter) : Adapter := set_maps (alter (set_paused false) hwId (mGeofences A)) (mGeofenceIds A) A.
Definition modifyGeofenceItem (hwId : Z) (options : GeofenceOption) (A : Adapter) : Adapter :=
  set_maps (alter (set_options options) hwId (mGeofences A)) (mGeofenceIds A) A.
Definition reportResponse (B : Batch) (errs : list (option Z)) (A : Adapter) : Adapter :=
  match mClientData A !! mClient B with
  | Some callbacks => if collectiveResponseCb callbacks then tell [t_collective (mClient B) (b_no B) errs (mIds B)] A else A
  | None => A
  end.
(** The aggregated response on the last item, after which the arrays are deleted. *)
Definition finish (B : Batch) (i : nat) (errs : list (option Z)) (A : Adapter) : Adapter :=
  if (i =? pred (mCount B))%nat then set_arrays (delete (b_no B)) (reportResponse B errs A) else A.
Definition write_err (B : Batch) (i : nat) (err : Z) (errs : list (option Z)) (A : Adapter) : Adapter :=
  set_arrays (insert (b_no B) (<[i := Some err]> errs)) A.

(** ** Messages *)
Definition stopClientSessions (client : Z) (A : Adapter) : Adapter :=
  let mine := merge_sort key_before (map_to_list (filter (fun e => e.1.1 = client) (mGeofenceIds A))) in
  call_api ((fun e => a_stop e.2) <$> mine) (set_maps (mGeofences A) (filter (fun e => e.1.1 <> client) (mGeofenceIds A)) A).
(** The reports to ask the modem for. *)
Definition LOC_API_ADAPTER_BIT_GEOFENCE_GEN_ALERT : Z := Z.shiftl 1 14.
Definition LOC_API_ADAPTER_BIT_BATCHED_GENFENCE_BREACH_REPORT : Z := Z.shiftl 1 21.
Definition LOC_API_ADAPTER_BIT_REPORT_GENFENCE_DWELL : Z := Z.shiftl 1 28.
Definition updateClientsEventMask (A : Adapter) : Adapter :=
  let mask := foldl (fun mask c =>
      let mask := if geofenceBreachCb c.2
        then Z.lor (Z.lor mask LOC_API_ADAPTER_BIT_BATCHED_GENFENCE_BREACH_REPORT) LOC_API_ADAPTER_BIT_REPORT_GENFENCE_DWELL else mask in
      if geofenceStatusCb c.2 then Z.lor mask LOC_API_ADAPTER_BIT_GEOFENCE_GEN_ALERT else mask) 0 (by_key (mClientData A)) in
  set_clients (fun m => m) mask A.
Definition eraseClient (client : Z) (A : Adapter) : Adapter := updateClientsEventMask (set_clients (delete client) (mEvtMask A) A).
Definition saveClient (client : Z) (callbacks : Callbacks) (A : Adapter) : Adapter :=
  updateClientsEventMask (set_clients (insert client callbacks) (mEvtMask A) A).
Definition options_of (o : GeofenceObject) : GeofenceOption := MkGeofenceOption (o_breachMask o) (o_responsiveness o) (o_dwellTime o).
Definition info_of (o : GeofenceObject) : GeofenceInfo := MkGeofenceInfo (o_latitude o) (o_longitude o) (o_radius o).
Definition restartGeofences (A : Adapter) : Adapter :=
  if decide (mGeofences A = ∅) then A
  else call_api ((fun e => a_restart e.2) <$> by_key (mGeofences A)) (set_maps ∅ ∅ A).
Definition geofenceBreach (hwIds : list Z) (type : Z) (A : Adapter) : Adapter :=
  tell (omap (fun c =>
      let clientIds := omap (fun hwId => match getGeofenceKeyFromHwId hwId A with
                                         | Some (client, id) => if client =? c.1 then Some id else None
                                         | None => None end) hwIds in
      if decide (clientIds = []) then None
      else if geofenceBreachCb c.2 then Some (t_breach c.1 clientIds type) else None) (by_key (mClientData A))) A.
Definition geofenceStatus (available : Z) (A : Adapter) : Adapter :=
  tell (omap (fun c => if geofenceStatusCb c.2 then Some (t_status c.1 available) else None) (by_key (mClientData A))) A.

(** [proc] of a command. *)
Definition null_arrays (job : Job) : bool :=
  match job with
  | job_add (Some _) (Some _) | job_remove | job_pause | job_resume | job_modify (Some _) => false
  | _ => true
  end.
Definition proc_command (B : Batch) (A : Adapter) : Adapter :=
  if null_arrays (mJob B)
  then set_arrays (insert (b_no B) (replicate (mCount B) (Some LOCATION_ERROR_INVALID_PARAMETER))) A
  else call_api (a_call B <$> seq 0 (mCount B)) (set_arrays (insert (b_no B) (replicate (mCount B) None)) A).
(** The closures of an item. *)
Definition proc_call (B : Batch) (i : nat) (A : Adapter) : option Adapter :=
  errs ← arrays A !! b_no B;
  id ← mIds B !! i;
  match mJob B with
  | job_add _ _ => Some (call_api [a_job B i 0] A)
  | _ =>
      match getHwIdFromClient (mClient B) id A with
      | Some hwId => Some (call_api [a_job B i hwId] (write_err B i LOCATION_ERROR_SUCCESS errs A))
      | None => Some (finish B i (<[i := Some LOCATION_ERROR_ID_UNKNOWN]> errs) (write_err B i LOCATION_ERROR_ID_UNKNOWN errs A))
      end
  end.
Definition proc_done (B : Batch) (i : nat) (hwId err : Z) (A : Adapter) : option Adapter :=
  let ok := err =? LOCATION_ERROR_SUCCESS in
  let answer (A : Adapter) : option Adapter :=
    errs ← arrays A !! b_no B; Some (finish B i (<[i := Some err]> errs) (write_err B i err errs A)) in
  match mJob B with
  | job_add options infos =>
      if ok then
        _ ← arrays A !! b_no B; id ← mIds B !! i; o ← options ≫= lookup i; info ← infos ≫= lookup i;
        answer (saveGeofenceItem (mClient B) id hwId o info A)
      else answer A
  | job_remove => answer (if ok then removeGeofenceItem hwId A else A)
  | job_pause => answer (if ok then pauseGeofenceItem hwId A else A)
  | job_resume => if ok then answer (resumeGeofenceItem hwId A) else Some A
  | job_modify options =>
      if ok then
        _ ← arrays A !! b_no B; o ← options ≫= lookup i; answer (modifyGeofenceItem hwId o A)
      else if (i =? pred (mCount B))%nat then errs ← arrays A !! b_no B; Some (finish B i errs A)
      else Some A
  end.
Definition proc (m : CtxMsg) (A : Adapter) : option Adapter :=
  match m with
  | m_addClient client callbacks => Some (saveClient client callbacks A)
  | m_removeClient client => Some (tell [t_removed client] (eraseClient client (stopClientSessions client A)))
  | m_command B => Some (proc_command B A)
  | m_call B i => proc_call B i A
  | m_done B i hwId err => proc_done B i hwId err A
  | m_stopped hwId err => Some (if err =? LOCATION_ERROR_SUCCESS then set_maps (delete hwId (mGeofences A)) (mGeofenceIds A) A else A)
  | m_engineUp => Some (restartGeofences A)
  | m_readded o hwId err =>
      Some (if err =? LOCATION_ERROR_SUCCESS then
              let A := if o_paused o then call_api [a_repause hwId] A else A in
              saveGeofenceItem (o_key o).1 (o_key o).2 hwId (options_of o) (info_of o) A
            else A)
  | m_ignored => Some A
  | m_breach hwIds type => Some (geofenceBreach hwIds type A)
  | m_status available => Some (geofenceStatus available A)
  end.
(** The context's thread takes its next message. *)
Definition ctx_step (A : Adapter) : option Adapter :=
  match ctx A with
  | [] => Some A
  | m :: ms => proc m (set_queues ms (api A) A)
  end.

(** What a message of the modem interface sends back; [hwId] and [err] are the answer of
    the modem.  The options and the place of an added geofence are those of its batch. *)
Definition answer_of (m : ApiMsg) (hwId err : Z) : CtxMsg :=
  match m with
  | a_call B i => m_call B i
  | a_job B i h => m_done B i (match mJob B with job_add _ _ => hwId | _ => h end) err
  | a_stop h => m_stopped h err
  | a_restart o => m_readded o hwId err
  | a_repause _ => m_ignored
  end.
Definition api_step (hwId err : Z) (A : Adapter) : Adapter :=
  match api A with
  | [] => A
  | m :: ms => sendMsg (answer_of m hwId err) (set_queues (ctx A) ms A)
  end.
Definition geofenceBreachEvent (hwIds : list Z) (type : Z) (A : Adapter) : Adapter :=
  match hwIds with [] => A | _ => sendMsg (m_breach hwIds type) A end.
Definition geofenceStatusEvent (available : Z) (A : Adapter) : Adapter := sendMsg (m_status available) A.
Definition handleEngineUpEvent (A : Adapter) : Adapter := sendMsg m_engineUp A.
Definition addClientCommand (client : Z) (callbacks : Callbacks) (A : Adapter) : Adapter := sendMsg (m_addClient client callbacks) A.
Definition removeClientCommand (client : Z) (A : Adapter) : Adapter := sendMsg (m_removeClient client) A.
