(* ===== verification/GeofenceAdapterSpec.v ===== *)
(** * The geofence adapter and its environment

    Clients give commands, the two threads take their messages, the modem answers each
    request, reports breaches, and may restart and forget its geofences. *)
From Stdlib Require Import Sorted.
From S2P Require Import Prelude PbConsts GnssTracking LocationApiClient GeofenceAdapter.
#[local] Open Scope Z_scope.

(** ** The modem *)
Record Fence := MkFence { f_options : Z * Z * Z; f_place : Z * Z * Z; f_paused : bool }.
Definition fence_of (o : GeofenceObject) : Fence :=
  MkFence (o_breachMask o, o_responsiveness o, o_dwellTime o) (o_latitude o, o_longitude o, o_radius o) (o_paused o).
Definition fence_with (b : bool) (f : Fence) : Fence := MkFence (f_options f) (f_place f) b.
Definition fence_edit (o : GeofenceOption) (f : Fence) : Fence :=
  MkFence (breachTypeMask o, responsiveness o, dwellTime o) (f_place f) (f_paused f).
Definition new_fence (o : GeofenceOption) (info : GeofenceInfo) : Fence := fence_of (object_of 0 0 o info).

(** What a request does to the geofences of the modem, given its answer; a new geofence has
    an identifier that no geofence has. *)
Abbreviation Modem := (gmap Z Fence).
Definition add_fence (hwId : Z) (f : Fence) (M : Modem) : option Modem :=
  match M !! hwId with Some _ => None | None => Some (<[hwId := f]> M) end.
Definition edit_fence (g : Fence -> Fence) (hwId : Z) (M : Modem) : option Modem :=
  f ← M !! hwId; Some (<[hwId := g f]> M).
Definition remove_fence (hwId : Z) (M : Modem) : option Modem := _ ← M !! hwId; Some (delete hwId M).
Definition modem (m : ApiMsg) (hwId err : Z) (M : Modem) : option Modem :=
  if err =? LOCATION_ERROR_SUCCESS then
    match m with
    | a_call _ _ => Some M
    | a_job B i h =>
        match mJob B with
        | job_add options infos => o ← options ≫= lookup i; info ← infos ≫= lookup i; add_fence hwId (new_fence o info) M
        | job_remove => remove_fence h M
        | job_pause => edit_fence (fence_with true) h M
        | job_resume => edit_fence (fence_with false) h M
        | job_modify options => o ← options ≫= lookup i; edit_fence (fence_edit o) h M
        end
    | a_stop h => remove_fence h M
    | a_restart o => add_fence hwId (fence_of (set_paused false o)) M
    | a_repause h => edit_fence (fence_with true) h M
    end
  else Some M.

(** ** The world *)

(** What becomes of an item of a command: its identifier is unknown, or the modem answers. *)
Inductive Outcome := unknown | answered (err : Z).
Record World := MkWorld {
  w_adapter : Adapter;
  w_modem : Modem;
  w_given : gset Z;                       (* identifiers that the modem ever gave *)
  w_batches : gmap Z Batch;               (* the commands given *)
  w_outcomes : gmap (Z * nat) Outcome;
  w_unheard : gset Z;                     (* commands answered when their client was not there *)
}.
Definition new_world : World := MkWorld new_adapter ∅ ∅ ∅ ∅ ∅.

(** Commands with an array of options for each identifier. *)
Inductive ClientOp :=
  | c_add (client : Z) (count : nat) (options : option (list GeofenceOption)) (infos : option (list GeofenceInfo))
  | c_remove (client : Z) (ids : list Z) | c_pause (client : Z) (ids : list Z) | c_resume (client : Z) (ids : list Z)
  | c_modify (client : Z) (ids : list Z) (options : option (list GeofenceOption))
  | c_addClient (client : Z) (callbacks : Callbacks) | c_removeClient (client : Z).
Definition full {X} (n : nat) (l : option (list X)) : Prop := forall x, l = Some x -> length x = n.
Definition well_formed (op : ClientOp) : Prop :=
  match op with
  | c_add _ n options infos => full n options /\ full n infos
  | c_modify _ ids options => full (length ids) options
  | _ => True
  end.
Definition client (op : ClientOp) (A : Adapter) : Adapter :=
  match op with
  | c_add c n options infos => (addGeofencesCommand c n options infos A).2
  | c_remove c ids => removeGeofencesCommand c ids A
  | c_pause c ids => pauseGeofencesCommand c ids A
  | c_resume c ids => resumeGeofencesCommand c ids A
  | c_modify c ids options => modifyGeofencesCommand c ids options A
  | c_addClient c callbacks => addClientCommand c callbacks A
  | c_removeClient c => removeClientCommand c A
  end.
Definition commanded (A : Adapter) : list (Z * Batch) :=
  match last (ctx A) with Some (m_command B) => [(b_no B, B)] | _ => [] end.

Definition outcome_of (m : CtxMsg) (A : Adapter) : list (Z * nat * Outcome) :=
  match m with
  | m_call B i =>
      match mJob B, mIds B !! i ≫= fun id => getHwIdFromClient (mClient B) id A with
      | job_add _ _, _ | _, Some _ => []
      | _, None => [((b_no B, i), unknown)]
      end
  | m_done B i _ err => [((b_no B, i), answered err)]
  | _ => []
  end.
Definition listens (client : Z) (A : Adapter) : bool :=
  match mClientData A !! client with Some callbacks => collectiveResponseCb callbacks | None => false end.
Definition unheard (m : CtxMsg) (A A' : Adapter) : gset Z :=
  match m with
  | m_call B _ | m_done B _ _ _ =>
      match arrays A !! b_no B, arrays A' !! b_no B with
      | Some _, None => if listens (mClient B) A then ∅ else {[ b_no B ]}
      | _, _ => ∅
      end
  | _ => ∅
  end.
Definition given_by (m : ApiMsg) (hwId err : Z) : gset Z :=
  match m with
  | a_restart _ => if err =? LOCATION_ERROR_SUCCESS then {[hwId]} else ∅
  | a_job B _ _ => match mJob B with job_add _ _ => if err =? LOCATION_ERROR_SUCCESS then {[hwId]} else ∅ | _ => ∅ end
  | _ => ∅
  end.

Inductive step : World -> World -> Prop :=
  | s_client op A M g b o u : well_formed op ->
      step (MkWorld A M g b o u) (MkWorld (client op A) M g (list_to_map (commanded (client op A)) ∪ b) o u)
  | s_ctx A A' M g b o u m ms : ctx A = m :: ms -> ctx_step A = Some A' ->
      step (MkWorld A M g b o u) (MkWorld A' M g b (list_to_map (outcome_of m A) ∪ o) (unheard m A A' ∪ u))
  | s_api A M M' g b o u m ms hwId err : api A = m :: ms -> modem m hwId err M = Some M' ->
      step (MkWorld A M g b o u) (MkWorld (api_step hwId err A) M' (given_by m hwId err ∪ g) b o u)
  | s_breach A M g b o u hwIds type :
      step (MkWorld A M g b o u) (MkWorld (geofenceBreachEvent hwIds type A) M g b o u)
  | s_status A M g b o u available :
      step (MkWorld A M g b o u) (MkWorld (geofenceStatusEvent available A) M g b o u)
  | s_reset A M g b o u :
      step (MkWorld A M g b o u) (MkWorld (handleEngineUpEvent A) ∅ g b o u).
Definition reachable : World -> Prop := rtc step new_world.

(** ** What the adapter knows when it has processed the responses that are on their way *)
Definition see (hw : Z) (x : option Fence) (m : CtxMsg) : option Fence :=
  match m with
  | m_done B i h err =>
      if err =? LOCATION_ERROR_SUCCESS then
        if decide (h = hw) then
          match mJob B with
          | job_add options infos =>
              match options ≫= lookup i, infos ≫= lookup i with
              | Some o, Some info => Some (new_fence o info)
              | _, _ => x
              end
          | job_remove => None
          | job_pause => fence_with true <$> x
          | job_resume => fence_with false <$> x
          | job_modify options => match options ≫= lookup i with Some o => fence_edit o <$> x | None => x end
          end
        else x
      else x
  | m_stopped h err => if err =? LOCATION_ERROR_SUCCESS then if decide (h = hw) then None else x else x
  | m_engineUp => None
  | m_readded o h err => if err =? LOCATION_ERROR_SUCCESS then if decide (h = hw) then Some (fence_of (set_paused false o)) else x else x
  | _ => x
  end.
Definition known (hw : Z) (A : Adapter) : option Fence := foldl (see hw) (fence_of <$> mGeofences A !! hw) (ctx A).
(** The same geofence; and when the adapter has it paused it is. *)
Definition covers (f' f : Fence) : Prop := f_options f' = f_options f /\ f_place f' = f_place f /\ (f_paused f' = true -> f_paused f = true).
Definition mirrored (w : World) : Prop :=
  forall hw f, w_modem w !! hw = Some f -> exists f', known hw (w_adapter w) = Some f' /\ covers f' f.

(** ** Conditions on a behaviour *)
Definition reachable_by (R : World -> World -> Prop) : World -> Prop := rtc (fun w w' => step w w' /\ R w w') new_world.
(** The modem gives a new geofence an identifier that it never gave. *)
Definition never_reused (w w' : World) : Prop :=
  forall hw, w_modem w !! hw = None -> is_Some (w_modem w' !! hw) -> hw ∉ w_given w.
Definition is_add (job : Job) : bool := match job with job_add _ _ => true | _ => false end.
(** When the last identifier of a command turns out to be unknown, its other items are
    through. *)
Definition last_known (w w' : World) : Prop := forall B i id ms,
  ctx (w_adapter w) = m_call B i :: ms -> S i = mCount B -> is_add (mJob B) = false -> mIds B !! i = Some id ->
  getHwIdFromClient (mClient B) id (w_adapter w) = None -> forall j, (j < i)%nat -> is_Some (w_outcomes w !! (b_no B, j)).

(** ** Identifiers on their way: geofences that are new, and those that were stopped *)
Definition birth (m : CtxMsg) : option Z :=
  match m with
  | m_done B _ h err => if is_add (mJob B) && (err =? LOCATION_ERROR_SUCCESS) then Some h else None
  | m_readded _ h err => if err =? LOCATION_ERROR_SUCCESS then Some h else None
  | _ => None
  end.
Definition stops (A : Adapter) : list Z :=
  omap (fun m => match m with m_stopped h _ => Some h | _ => None end) (ctx A) ++
  omap (fun m => match m with a_stop h => Some h | _ => None end) (api A).
Definition death (hw : Z) (m : CtxMsg) : bool :=
  match m with
  | m_done B _ h err => (err =? LOCATION_ERROR_SUCCESS) && (h =? hw) && match mJob B with job_remove => true | _ => false end
  | m_stopped h err => (err =? LOCATION_ERROR_SUCCESS) && (h =? hw)
  | m_engineUp => true
  | _ => false
  end.
Definition alive (hw : Z) (x : bool) (m : CtxMsg) : bool :=
  if death hw m then false else x || bool_decide (birth m = Some hw).
Definition stands_for (A : Adapter) (hw : Z) : Prop := exists k, mGeofenceIds A !! k = Some hw.
Record owned (w : World) : Prop := {
  ow_key k hw : mGeofenceIds (w_adapter w) !! k = Some hw -> exists o, mGeofences (w_adapter w) !! hw = Some o /\ o_key o = k;
  ow_births : NoDup (omap birth (ctx (w_adapter w)));
  ow_birth_new hw : hw ∈ omap birth (ctx (w_adapter w)) -> ~ stands_for (w_adapter w) hw /\ hw ∉ stops (w_adapter w);
  ow_stopped hw : hw ∈ stops (w_adapter w) -> ~ stands_for (w_adapter w) hw;
  ow_given hw : stands_for (w_adapter w) hw \/ hw ∈ omap birth (ctx (w_adapter w)) \/ hw ∈ stops (w_adapter w) -> hw ∈ w_given w;
  ow_alive hw x : (x = true -> stands_for (w_adapter w) hw) -> foldl (alive hw) x (ctx (w_adapter w)) = true -> is_Some (w_modem w !! hw);
}.

(** ** How far a command has come *)
Definition on_batch {X} (b : Z) (B : Batch) (x : X) : option X := if decide (b_no B = b) then Some x else None.
Arguments on_batch : simpl never.
Definition commands (b : Z) (A : Adapter) : list unit :=
  omap (fun m => match m with m_command B => on_batch b B tt | _ => None end) (ctx A).
(** The items that wait for their turn, and those that wait for the modem. *)
Definition call_of (b : Z) (m : CtxMsg) : option nat := match m with m_call B i => on_batch b B i | _ => None end.
Definition acall_of (b : Z) (m : ApiMsg) : option nat := match m with a_call B i => on_batch b B i | _ => None end.
Definition done_of (b : Z) (m : CtxMsg) : option nat := match m with m_done B i _ _ => on_batch b B i | _ => None end.
Definition job_of (b : Z) (m : ApiMsg) : option nat := match m with a_job B i _ => on_batch b B i | _ => None end.
Definition calls (b : Z) (A : Adapter) : list nat := omap (call_of b) (ctx A) ++ omap (acall_of b) (api A).
Definition waits (b : Z) (A : Adapter) : list nat := omap (done_of b) (ctx A) ++ omap (job_of b) (api A).
Definition reports (b : Z) (A : Adapter) : list Told :=
  filter (fun t => Is_true (match t with t_collective _ no _ _ => no =? b | _ => false end)) (told A).
(** The error that a client is shown for an item. *)
Definition shown (job : Job) (oc : Outcome) : Z :=
  match oc with
  | unknown => LOCATION_ERROR_ID_UNKNOWN
  | answered err => match job with job_resume | job_modify _ => LOCATION_ERROR_SUCCESS | _ => err end
  end.
Definition shows_all (B : Batch) (out : nat -> option Outcome) (errs : list (option Z)) : Prop :=
  length errs = mCount B /\ forall i oc, out i = Some oc -> errs !! i = Some (Some (shown (mJob B) oc)).
(** A resumption whose last item failed. *)
Definition lost (B : Batch) (out : nat -> option Outcome) : Prop :=
  mJob B = job_resume /\ exists err, err <> LOCATION_ERROR_SUCCESS /\ out (pred (mCount B)) = Some (answered err).
Inductive progress (B : Batch) (cmds : list unit) (cs ws : list nat) (arr : option (list (option Z)))
    (out : nat -> option Outcome) (unh : Prop) (reps : list Told) : Prop :=
  | p_waiting : cmds = [tt] -> cs = [] -> ws = [] -> arr = Some [] -> (forall i, out i = None) -> ~ unh -> reps = [] ->
      progress B cmds cs ws arr out unh reps
  | p_null : cmds = [] -> cs = [] -> ws = [] -> null_arrays (mJob B) = true -> is_Some arr -> (forall i, out i = None) -> ~ unh -> reps = [] ->
      progress B cmds cs ws arr out unh reps
  | p_running p errs : cmds = [] -> (p <= mCount B)%nat -> cs = seq p (mCount B - p) -> StronglySorted lt ws -> Forall (fun i => (i < p)%nat) ws ->
      arr = Some errs -> null_arrays (mJob B) = false -> shows_all B out errs ->
      (forall i, (i < p)%nat -> i ∉ ws -> is_Some (out i)) -> (forall i, i ∈ ws \/ (p <= i)%nat -> out i = None) ->
      (forall i, i ∈ ws -> is_add (mJob B) = false -> errs !! i = Some (Some LOCATION_ERROR_SUCCESS)) ->
      (p = mCount B -> last ws = Some (pred (mCount B)) \/ ws = [] /\ lost B out) -> ~ unh -> reps = [] ->
      progress B cmds cs ws arr out unh reps
  | p_finished errs : cmds = [] -> cs = [] -> ws = [] -> arr = None -> null_arrays (mJob B) = false -> shows_all B out errs ->
      (forall i, (i < mCount B)%nat -> is_Some (out i)) ->
      (unh /\ reps = [] \/ ~ unh /\ reps = [t_collective (mClient B) (b_no B) errs (mIds B)]) ->
      progress B cmds cs ws arr out unh reps.
Definition progress_of (w : World) (B : Batch) : Prop :=
  progress B (commands (b_no B) (w_adapter w)) (calls (b_no B) (w_adapter w)) (waits (b_no B) (w_adapter w)) (arrays (w_adapter w) !! b_no B)
    (fun i => w_outcomes w !! (b_no B, i)) (b_no B ∈ w_unheard w) (reports (b_no B) (w_adapter w)).

(** The command a message belongs to. *)
Definition ctx_batch (m : CtxMsg) : option Batch := match m with m_command B | m_call B _ | m_done B _ _ _ => Some B | _ => None end.
Definition api_batch (m : ApiMsg) : option Batch := match m with a_call B _ | a_job B _ _ => Some B | _ => None end.
Definition batch_ok (B : Batch) : Prop :=
  mIds B <> [] /\ match mJob B with
  | job_add options infos => full (mCount B) options /\ full (mCount B) infos
  | job_modify options => full (mCount B) options
  | _ => True
  end.
Record answering (w : World) : Prop := {
  an_ctx m B : m ∈ ctx (w_adapter w) -> ctx_batch m = Some B -> w_batches w !! b_no B = Some B;
  an_api m B : m ∈ api (w_adapter w) -> api_batch m = Some B -> w_batches w !! b_no B = Some B;
  an_no b B : w_batches w !! b = Some B -> b_no B = b /\ b < next_no (w_adapter w) /\ batch_ok B;
  an_new b : w_batches w !! b = None -> (forall i, w_outcomes w !! (b, i) = None) /\ b ∉ w_unheard w /\ reports b (w_adapter w) = [];
  an_progress b B : w_batches w !! b = Some B -> progress_of w B;
}.
