(* ===== verification/GeofenceAdapterOwned.v ===== *)
(** * The geofence adapter: the geofences of the modem and their owners *)
From stdpp Require Import sorting.
From S2P Require Import Prelude PbConsts GnssTracking LocationApiClient GeofenceAdapter GeofenceAdapterSpec.
#[local] Open Scope Z_scope.

(** ** The geofence adapter mirrors the modem *)

Implicit Types (A : Adapter) (G : gmap Z GeofenceObject) (M : Modem) (B : Batch).

Lemma see_mono hw m x f : see hw None m = Some f -> see hw x m = Some f.
Proof.
  destruct m as [| | | |B i h err|h err| |o h err| | |]; cbn; try done; repeat case_match; try done.
Qed.
Lemma replay_mono hw ms x f : foldl (see hw) None ms = Some f -> foldl (see hw) x ms = Some f.
Proof.
  revert x. induction ms as [|m ms IH]; intros x; cbn; [done|]. destruct (see hw None m) as [g|] eqn:E.
  - by rewrite (see_mono _ _ x _ E).
  - apply IH.
Qed.

(** Steps that leave both maps alone. *)
Lemma finish_maps B i errs A : mGeofences (finish B i errs A) = mGeofences A /\ mGeofenceIds (finish B i errs A) = mGeofenceIds A.
Proof. unfold finish, reportResponse. repeat case_match; done. Qed.
Lemma finish_queues B i errs A : ctx (finish B i errs A) = ctx A /\ api (finish B i errs A) = api A.
Proof. unfold finish, reportResponse. repeat case_match; done. Qed.
Lemma remove_item_maps h A : ctx (removeGeofenceItem h A) = ctx A /\ api (removeGeofenceItem h A) = api A /\ arrays (removeGeofenceItem h A) = arrays A /\
  mClientData (removeGeofenceItem h A) = mClientData A /\ told (removeGeofenceItem h A) = told A /\
  (mGeofences (removeGeofenceItem h A) = delete h (mGeofences A) \/ mGeofences (removeGeofenceItem h A) = mGeofences A).
Proof. unfold removeGeofenceItem. repeat case_match; cbn; tauto. Qed.

(** The effect of a message on what is known of a geofence. *)
Definition shows (m : CtxMsg) A A' : Prop :=
  forall hw, fence_of <$> mGeofences A' !! hw = see hw (fence_of <$> mGeofences A !! hw) m \/ see hw (fence_of <$> mGeofences A !! hw) m = None.
Lemma alter_shows (g : GeofenceObject -> GeofenceObject) (f : Fence -> Fence) h hw G : (forall o, fence_of (g o) = f (fence_of o)) ->
  fence_of <$> alter g h G !! hw = if decide (h = hw) then f <$> (fence_of <$> G !! hw) else fence_of <$> G !! hw.
Proof.
  intros Hg. case_decide as Hh; [subst; rewrite lookup_alter_eq|by rewrite lookup_alter_ne].
  destruct (G !! hw); cbn; [by rewrite Hg|done].
Qed.
Lemma insert_shows h o hw G : fence_of <$> <[h := o]> G !! hw = if decide (h = hw) then Some (fence_of o) else fence_of <$> G !! hw.
Proof. rewrite lookup_insert. by case_decide. Qed.
Lemma answer_shows B i h err A A' : proc_done B i h err A = Some A' -> shows (m_done B i h err) A A' /\ ctx A' = ctx A /\ api A' = api A.
Proof.
  unfold proc_done, shows. cbn [see]. destruct (Z.eqb_spec err LOCATION_ERROR_SUCCESS) as [He|He].
  - destruct (mJob B) as [options infos| | | |options].
    + intros (errs & _ & (id & _ & (o & Ho & (info & Hi & (errs' & _ & [= <-])%bind_Some)%bind_Some)%bind_Some)%bind_Some)%bind_Some.
      rewrite !(proj1 (finish_maps _ _ _ _)), !(proj1 (finish_queues _ _ _ _)), !(proj2 (finish_queues _ _ _ _)). cbn. split; [|done]. intros hw. left.
      rewrite insert_shows. by rewrite Ho, Hi.
    + intros (errs & _ & [= <-])%bind_Some. rewrite !(proj1 (finish_maps _ _ _ _)), !(proj1 (finish_queues _ _ _ _)), !(proj2 (finish_queues _ _ _ _)). cbn.
      destruct (remove_item_maps h A) as (-> & -> & _ & _ & _ & Hr). split; [|done]. intros hw. case_decide as Hh; [by right|]. left.
      destruct Hr as [-> | ->]; [by rewrite lookup_delete_ne|done].
    + intros (errs & _ & [= <-])%bind_Some. rewrite !(proj1 (finish_maps _ _ _ _)), !(proj1 (finish_queues _ _ _ _)), !(proj2 (finish_queues _ _ _ _)). cbn.
      split; [|done]. intros hw. left. by apply alter_shows.
    + intros (errs & _ & [= <-])%bind_Some. rewrite !(proj1 (finish_maps _ _ _ _)), !(proj1 (finish_queues _ _ _ _)), !(proj2 (finish_queues _ _ _ _)). cbn.
      split; [|done]. intros hw. left. by apply alter_shows.
    + intros (errs & _ & (o & Ho & (errs' & _ & [= <-])%bind_Some)%bind_Some)%bind_Some.
      rewrite !(proj1 (finish_maps _ _ _ _)), !(proj1 (finish_queues _ _ _ _)), !(proj2 (finish_queues _ _ _ _)). cbn. split; [|done]. intros hw. left.
      rewrite Ho. by apply alter_shows.
  - intros Hp. enough (mGeofences A' = mGeofences A /\ ctx A' = ctx A /\ api A' = api A) as (-> & -> & ->) by eauto.
    destruct (mJob B); repeat (case_match; cbn in Hp); simplify_option_eq;
      rewrite ?(proj1 (finish_maps _ _ _ _)), ?(proj1 (finish_queues _ _ _ _)), ?(proj2 (finish_queues _ _ _ _)); done.
Qed.
Lemma call_shows B i A A' : proc_call B i A = Some A' -> mGeofences A' = mGeofences A /\ mGeofenceIds A' = mGeofenceIds A /\ ctx A' = ctx A.
Proof.
  unfold proc_call. intros (errs & _ & (id & _ & H)%bind_Some)%bind_Some.
  destruct (mJob B); try destruct (getHwIdFromClient _ _ _); simplify_eq;
    rewrite ?(proj1 (finish_maps _ _ _ _)), ?(proj2 (finish_maps _ _ _ _)), ?(proj1 (finish_queues _ _ _ _)); done.
Qed.
Lemma proc_shows m A A' : proc m A = Some A' -> shows m A A' /\ ctx A' = ctx A.
Proof.
  destruct m as [c cb|c|B|B i|B i h err|h err| |o h err| |hws type|av]; cbn [proc]; intros H.
  - injection H as <-. split; [by left|done].
  - injection H as <-. split; [by left|done].
  - injection H as <-. unfold proc_command. destruct (null_arrays _); (split; [by left|done]).
  - apply call_shows in H as (H & _ & Hc). split; [|done]. intros hw. left. cbn. by rewrite H.
  - apply answer_shows in H. tauto.
  - injection H as <-. unfold shows. cbn [see]. destruct (err =? _); (split; [|done]); [|by left]. cbn. intros hw.
    case_decide; [by right|]. left. by rewrite lookup_delete_ne.
  - injection H as <-. unfold restartGeofences. split; [by right|]. by destruct (decide (mGeofences A = ∅)).
  - injection H as <-. unfold shows. cbn [see]. destruct (err =? _); [|split; [by left|done]].
    split; [|by destruct (o_paused o)]. intros hw. left.
    assert (mGeofences (if o_paused o then call_api [a_repause h] A else A) = mGeofences A) as Hg by by destruct (o_paused o).
    unfold saveGeofenceItem. cbn [mGeofences set_maps]. rewrite Hg, insert_shows. by case_decide.
  - injection H as <-. split; [by left|done].
  - injection H as <-. split; [by left|done].
  - injection H as <-. split; [by left|done].
Qed.

Lemma covers_refl f : covers f f.
Proof. done. Qed.
Lemma known_send hw m A : known hw (sendMsg m A) = see hw (known hw A) m.
Proof. unfold known. cbn. by rewrite foldl_app. Qed.
(** What does not touch geofences. *)
Lemma send_other m A M : (forall hw x, see hw x m = x) -> (forall hw f, M !! hw = Some f -> exists f', known hw A = Some f' /\ covers f' f) ->
  forall hw f, M !! hw = Some f -> exists f', known hw (sendMsg m A) = Some f' /\ covers f' f.
Proof. intros Hm HI hw f Hf. rewrite known_send, Hm. by apply HI. Qed.
Lemma mirrored_client op A M : (forall hw f, M !! hw = Some f -> exists f', known hw A = Some f' /\ covers f' f) ->
  forall hw f, M !! hw = Some f -> exists f', known hw (client op A) = Some f' /\ covers f' f.
Proof.
  intros HI. destruct op as [c n options infos|c ids|c ids|c ids|c ids options|c cb|c]; cbn [client].
  1: destruct n; [done|]; unfold addGeofencesCommand; destruct (generate _ _); cbn [snd].
  2-5: destruct ids; [done|]; unfold removeGeofencesCommand, pauseGeofencesCommand, resumeGeofencesCommand, modifyGeofencesCommand.
  all: apply send_other; [done|exact HI].
Qed.
Lemma mirrored_ctx A A' M m ms : ctx A = m :: ms -> ctx_step A = Some A' ->
  (forall hw f, M !! hw = Some f -> exists f', known hw A = Some f' /\ covers f' f) ->
  forall hw f, M !! hw = Some f -> exists f', known hw A' = Some f' /\ covers f' f.
Proof.
  intros Hc Hs HI hw f Hf. destruct (HI hw f Hf) as (f' & Hk & Hcov). exists f'. split; [|done].
  unfold ctx_step in Hs. rewrite Hc in Hs. apply proc_shows in Hs as [Hs Hq]. unfold known in *. rewrite Hq, Hc in *. cbn [ctx set_queues foldl] in *.
  pose proof (Hs hw) as Hh. cbn [mGeofences set_queues] in Hh. destruct Hh as [-> |Hn]; [done|]. rewrite Hn in Hk. by apply replay_mono.
Qed.
Lemma mirrored_api A M M' m ms hwId err : api A = m :: ms -> modem m hwId err M = Some M' ->
  (forall hw f, M !! hw = Some f -> exists f', known hw A = Some f' /\ covers f' f) ->
  forall hw f, M' !! hw = Some f -> exists f', known hw (api_step hwId err A) = Some f' /\ covers f' f.
Proof.
  intros Ha Hm HI hw f. unfold api_step. rewrite Ha. rewrite known_send. change (known hw (set_queues (ctx A) ms A)) with (known hw A).
  unfold modem in Hm. destruct (Z.eqb_spec err LOCATION_ERROR_SUCCESS) as [He|He].
  2:{ injection Hm as <-. intros Hf. destruct (HI hw f Hf) as (f' & Hk & Hcov). exists f'. split; [|done]. rewrite Hk.
      destruct m; cbn [answer_of see]; try done; by rewrite (proj2 (Z.eqb_neq _ _) He). }
  subst err. destruct m as [B i|B i h|h|o|h]; cbn [answer_of see].
  - injection Hm as <-. apply HI.
  - cbn [Z.eqb LOCATION_ERROR_SUCCESS]. destruct (mJob B) as [options infos| | | |options].
    + apply bind_Some in Hm as (o & Ho & (info & Hi & Hm)%bind_Some). unfold add_fence in Hm. destruct (M !! hwId); [done|]. injection Hm as <-.
      rewrite Ho, Hi, lookup_insert. case_decide; [intros [= <-]; by eexists|apply HI].
    + apply bind_Some in Hm as (x & Hx & [= <-]). rewrite lookup_delete. case_decide; [done|apply HI].
    + apply bind_Some in Hm as (x & Hx & [= <-]). rewrite lookup_insert. case_decide; [|apply HI]. subst. intros [= <-].
      destruct (HI _ _ Hx) as (f' & -> & H1 & H2 & H3). by eexists.
    + apply bind_Some in Hm as (x & Hx & [= <-]). rewrite lookup_insert. case_decide; [|apply HI]. subst. intros [= <-].
      destruct (HI _ _ Hx) as (f' & -> & H1 & H2 & H3). by eexists.
    + apply bind_Some in Hm as (o & -> & Hm). apply bind_Some in Hm as (x & Hx & [= <-]). rewrite lookup_insert. case_decide; [|apply HI]. subst. intros [= <-].
      destruct (HI _ _ Hx) as (f' & -> & H1 & H2 & H3). by eexists.
  - apply bind_Some in Hm as (x & Hx & [= <-]). cbn. rewrite lookup_delete. case_decide; [done|apply HI].
  - unfold add_fence in Hm. destruct (M !! hwId); [done|]. injection Hm as <-. cbn [Z.eqb LOCATION_ERROR_SUCCESS]. rewrite lookup_insert. case_decide; [intros [= <-]; by eexists|apply HI].
  - apply bind_Some in Hm as (x & Hx & [= <-]). rewrite lookup_insert. case_decide; [|apply HI]. subst. intros [= <-].
    destruct (HI _ _ Hx) as (f' & -> & H1 & H2 & H3). by eexists.
Qed.
Lemma mirrored_step w w' : step w w' -> mirrored w -> mirrored w'.
Proof.
  unfold mirrored. intros Hs HI. destruct Hs; cbn [w_modem w_adapter] in *.
  - by apply mirrored_client.
  - by eapply mirrored_ctx.
  - by eapply mirrored_api.
  - destruct hwIds; [done|]. by apply send_other.
  - by apply send_other.
  - intros hw f Hf. by rewrite lookup_empty in Hf.
Qed.
Lemma reachable_inv (P : World -> Prop) w : P new_world -> (forall w1 w2, reachable w1 -> step w1 w2 -> P w1 -> P w2) -> reachable w -> P w.
Proof.
  intros H0 Hs Hr. unfold reachable in *. revert w Hr. apply rtc_ind_r; [done|]. intros w1 w2 Hr Hst HP. by apply (Hs w1).
Qed.


Lemma reachable_by_inv (R : World -> World -> Prop) (P : World -> Prop) w : P new_world ->
  (forall w1 w2, reachable_by R w1 -> step w1 w2 -> R w1 w2 -> P w1 -> P w2) -> reachable_by R w -> P w.
Proof.
  intros H0 Hs Hr. unfold reachable_by in *. revert w Hr. apply rtc_ind_r; [done|]. intros w1 w2 Hr [Hst HR] HP. by apply (Hs w1).
Qed.
Lemma alive_mono hw ms x y : (x = true -> y = true) -> foldl (alive hw) x ms = true -> foldl (alive hw) y ms = true.
Proof.
  revert x y. induction ms as [|m ms IH]; intros x y Hxy; cbn; [auto|]. apply IH. unfold alive. destruct (death hw m); [done|].
  destruct x, y; try done; by (exfalso; discriminate (Hxy eq_refl)) || auto.
Qed.

(** The parts of the invariant that concern the adapter, and how each kind of step keeps
    them. *)
Definition owned_with A M (g : gset Z) : Prop := owned (MkWorld A M g ∅ ∅ ∅).
Lemma owned_eq A M g b o u : owned (MkWorld A M g b o u) <-> owned_with A M g.
Proof. split; intros [H1 H2 H3 H4 H5 H6]; constructor; done. Qed.

(** A message that says nothing of identifiers. *)
Lemma owned_send m A M g : birth m = None -> (forall h err, m <> m_stopped h err) -> (forall hw, death hw m = false) ->
  owned_with A M g -> owned_with (sendMsg m A) M g.
Proof.
  intros Hb Hs Hd [H1 H2 H3 H4 H5 H6]. cbn [w_adapter w_modem w_given] in *.
  assert (Hbirth : omap birth (ctx (sendMsg m A)) = omap birth (ctx A)) by (cbn; rewrite omap_app; cbn; by rewrite Hb, app_nil_r).
  assert (Hstop : stops (sendMsg m A) = stops A).
  { unfold stops. cbn. rewrite omap_app. cbn. destruct m; try (by rewrite app_nil_r). by destruct (Hs hwId err). }
  constructor; cbn [w_adapter w_modem w_given]; rewrite ?Hbirth; try done.
  - intros hw. rewrite Hstop. apply H3.
  - intros hw. rewrite Hstop. apply H4.
  - intros hw. rewrite Hstop. apply H5.
  - intros hw x Hx. cbn. rewrite foldl_app. cbn. unfold alive at 1. rewrite Hd, Hb, bool_decide_false by done. rewrite orb_false_r. by apply H6.
Qed.
Lemma owned_reset A M g : owned_with A M g -> owned_with (sendMsg m_engineUp A) ∅ g.
Proof.
  intros [H1 H2 H3 H4 H5 H6]. cbn [w_adapter w_modem w_given] in *.
  assert (Hbirth : omap birth (ctx (sendMsg m_engineUp A)) = omap birth (ctx A)) by (cbn; rewrite omap_app; cbn; by rewrite app_nil_r).
  assert (Hstop : stops (sendMsg m_engineUp A) = stops A) by (unfold stops; cbn; rewrite omap_app; cbn; by rewrite app_nil_r).
  constructor; cbn [w_adapter w_modem w_given]; rewrite ?Hbirth; try done.
  - intros hw. rewrite Hstop. apply H3.
  - intros hw. rewrite Hstop. apply H4.
  - intros hw. rewrite Hstop. apply H5.
  - intros hw x Hx. cbn. by rewrite foldl_app.
Qed.

(** A message taken from the queue, by what it does to the maps and the stops. *)
Lemma owned_taken m ms A A' M g : ctx A = m :: ms -> ctx A' = ms ->
  (forall k hw, mGeofenceIds A' !! k = Some hw -> exists o, mGeofences A' !! hw = Some o /\ o_key o = k) ->
  (forall hw, stands_for A' hw -> (stands_for A hw \/ birth m = Some hw) /\ death hw m = false) ->
  (forall hw, hw ∈ stops A' -> hw ∈ stops A \/ stands_for A hw /\ ~ stands_for A' hw /\ birth m = None) ->
  owned_with A M g -> owned_with A' M g.
Proof.
  intros Hc Hc' Hkey Hst Hstop [H1 H2 H3 H4 H5 H6]. cbn [w_adapter w_modem w_given] in *. rewrite Hc in *.
  assert (Hnd : NoDup (omap birth ms) /\ (forall hw, birth m = Some hw -> hw ∉ omap birth ms)).
  { cbn in H2. destruct (birth m); [apply NoDup_cons in H2 as [? ?]; split; [done|]; by intros ? [= <-]|split; [done|]; done]. }
  assert (Hin : forall hw, hw ∈ omap birth ms -> hw ∈ omap birth (m :: ms)).
  { intros hw. cbn. destruct (birth m); [by right|done]. }
  assert (Hm : forall hw, birth m = Some hw -> hw ∈ omap birth (m :: ms)) by (intros hw E; cbn; rewrite E; by left).
  constructor; cbn [w_adapter w_modem w_given]; rewrite ?Hc'.
  - done.
  - apply Hnd.
  - intros hw Hb. destruct (H3 hw (Hin _ Hb)) as [Hn1 Hn2]. split.
    + intros Hs. apply Hst in Hs as [[Hs|Hs] _]; [done|]. by apply Hnd in Hs.
    + intros Hs. apply Hstop in Hs as [?|(? & _)]; done.
  - intros hw Hs. apply Hstop in Hs as [Hs|(_ & ? & _)]; [|done]. intros Hst'. apply Hst in Hst' as [[?|Hb] _]; [by apply (H4 hw)|].
    by destruct (H3 hw (Hm _ Hb)).
  - intros hw [Hs|[Hs|Hs]]; apply H5.
    + apply Hst in Hs as [[?|?] _]; eauto.
    + right. left. by apply Hin.
    + apply Hstop in Hs as [?|(? & _)]; eauto.
  - intros hw x Hx Hf. destruct (decide (birth m = Some hw)) as [Hb|Hb].
    + apply (H6 hw false); [done|]. cbn. revert Hf. apply alive_mono. intros Ht. apply Hst in Hx as [_ Hd]; [|done].
      unfold alive. rewrite Hd. cbn. by apply bool_decide_eq_true.
    + apply (H6 hw x); [intros Ht; by destruct (Hst hw (Hx Ht)) as [[?|?] _]|]. cbn. revert Hf. apply alive_mono. intros Ht.
      destruct (Hst hw (Hx Ht)) as [_ Hd]. unfold alive. by rewrite Hd, Ht.
Qed.

Definition no_stop (l : list ApiMsg) : Prop := forall h, a_stop h ∉ l.
Lemma stops_taken m ms A A' l : ctx A = m :: ms -> ctx A' = ms -> api A' = api A ++ l -> no_stop l ->
  forall hw, hw ∈ stops A' -> hw ∈ stops A.
Proof.
  intros Hc Hc' Ha Hl hw. unfold stops. rewrite Hc, Hc', Ha, !omap_app, !elem_of_app.
  intros [H|[H|H]].
  - left. cbn. by destruct m; try right.
  - by right.
  - exfalso. apply list_elem_of_omap in H as ([] & Hin & Hx); try done. by destruct (Hl hwId).
Qed.
(** The maps stay, but for what is not a key. *)
Lemma owned_quiet m ms A A' M g l : ctx A = m :: ms -> ctx A' = ms -> api A' = api A ++ l -> no_stop l ->
  mGeofenceIds A' = mGeofenceIds A -> (forall hw o, mGeofences A !! hw = Some o -> exists o', mGeofences A' !! hw = Some o' /\ o_key o' = o_key o) ->
  (forall hw, stands_for A hw -> death hw m = false) -> owned_with A M g -> owned_with A' M g.
Proof.
  intros Hc Hc' Ha Hl HI HG Hd Hown. eapply owned_taken; [exact Hc|exact Hc'|..|exact Hown].
  - intros k hw Hk. rewrite HI in Hk. apply (ow_key _ Hown) in Hk as (o & Ho & Hkey). apply HG in Ho as (o' & Ho' & Hk'). exists o'. by rewrite Hk'.
  - intros hw [k Hk]. rewrite HI in Hk. split; [left; by exists k|]. apply Hd. by exists k.
  - intros hw Hs. left. by eapply stops_taken.
Qed.
(** A geofence that is new. *)
Lemma owned_saved m ms A A' M g l hw k o : ctx A = m :: ms -> ctx A' = ms -> api A' = api A ++ l -> no_stop l ->
  mGeofenceIds A' = <[k := hw]> (mGeofenceIds A) -> mGeofences A' = <[hw := o]> (mGeofences A) -> o_key o = k ->
  birth m = Some hw -> (forall hw, death hw m = false) -> owned_with A M g -> owned_with A' M g.
Proof.
  intros Hc Hc' Ha Hl HI HG Hkey Hb Hd Hown. eapply owned_taken; [exact Hc|exact Hc'|..|exact Hown].
  - intros k' hw' Hk'. rewrite HI in Hk'. rewrite HG. apply lookup_insert_Some in Hk' as [[<- <-]|[Hne Hk']].
    + exists o. by rewrite lookup_insert_eq.
    + destruct (ow_key _ Hown _ _ Hk') as (o' & Ho' & Hkey'). exists o'. rewrite lookup_insert_ne; [done|]. intros <-.
      destruct (ow_birth_new _ Hown hw) as [Hn _]; [cbn [w_adapter]; rewrite Hc; cbn; rewrite Hb; by left|]. apply Hn. by exists k'.
  - intros hw' [k' Hk']. split; [|done]. rewrite HI in Hk'. apply lookup_insert_Some in Hk' as [[_ <-]|[_ Hk']]; [by right|]. left. by exists k'.
  - intros hw' Hs. left. by eapply stops_taken.
Qed.
Lemma owned_removed m ms A A' M g l hw : ctx A = m :: ms -> ctx A' = ms -> api A' = api A ++ l -> no_stop l ->
  mGeofenceIds A' = mGeofenceIds (removeGeofenceItem hw A) -> mGeofences A' = mGeofences (removeGeofenceItem hw A) ->
  (forall hw', death hw' m = true -> hw' = hw) -> owned_with A M g -> owned_with A' M g.
Proof.
  intros Hc Hc' Ha Hl HI HG Hd Hown.
  assert (Hrm : forall k hw', mGeofenceIds A' !! k = Some hw' -> mGeofenceIds A !! k = Some hw' /\ hw' <> hw /\ mGeofences A' !! hw' = mGeofences A !! hw').
  { intros k hw' Hk. rewrite HI in Hk. rewrite HG. unfold removeGeofenceItem, getGeofenceKeyFromHwId in *.
    destruct (mGeofences A !! hw) as [o|] eqn:Ho; cbn in *.
    - destruct (mGeofenceIds A !! o_key o) as [hw0|] eqn:Hk0; cbn in *.
      + apply lookup_delete_Some in Hk as [Hne Hk]. split; [done|]. destruct (ow_key _ Hown _ _ Hk) as (o' & Ho' & Hkey'). cbn in Ho'.
        assert (hw' <> hw) by (intros ->; congruence). split; [done|]. by rewrite lookup_delete_ne.
      + split; [done|]. destruct (ow_key _ Hown _ _ Hk) as (o' & Ho' & Hkey'). cbn in Ho'. split; [|done]. intros ->. congruence.
    - split; [done|]. destruct (ow_key _ Hown _ _ Hk) as (o' & Ho' & Hkey'). cbn in Ho'. split; [|done]. intros ->. congruence. }
  eapply owned_taken; [exact Hc|exact Hc'|..|exact Hown].
  - intros k hw' Hk. apply Hrm in Hk as (Hk & _ & ->). by apply (ow_key _ Hown).
  - intros hw' [k Hk]. apply Hrm in Hk as (Hk & Hne & _). split; [left; by exists k|]. destruct (death hw' m) eqn:E; [|done]. by apply Hd in E.
  - intros hw' Hs. left. by eapply stops_taken.
Qed.
Lemma finish_api B i errs A : api (finish B i errs A) = api A ++ [].
Proof. by rewrite app_nil_r, (proj2 (finish_queues B i errs A)). Qed.
Lemma no_stop_nil : no_stop [].
Proof. intros h. apply not_elem_of_nil. Qed.
Lemma alter_keys (f : GeofenceObject -> GeofenceObject) h G hw o : (forall o, o_key (f o) = o_key o) -> G !! hw = Some o ->
  exists o', alter f h G !! hw = Some o' /\ o_key o' = o_key o.
Proof.
  intros Hf Ho. destruct (decide (h = hw)) as [->|Hne]; [rewrite lookup_alter_eq, Ho; by eexists|rewrite lookup_alter_ne, Ho by done; by eexists].
Qed.

(** What a response does to the maps. *)
Definition quiet A A' : Prop := mGeofenceIds A' = mGeofenceIds A /\
  forall hw o, mGeofences A !! hw = Some o -> exists o', mGeofences A' !! hw = Some o' /\ o_key o' = o_key o.
Lemma geofence_quiet_refl A A' : mGeofenceIds A' = mGeofenceIds A -> mGeofences A' = mGeofences A -> quiet A A'.
Proof. intros HI HG. split; [done|]. rewrite HG. eauto. Qed.
Lemma done_cases B i h err A A' : proc_done B i h err A = Some A' ->
  (is_add (mJob B) = true /\ err = LOCATION_ERROR_SUCCESS /\ exists k o, o_key o = k /\ mGeofenceIds A' = <[k := h]> (mGeofenceIds A) /\ mGeofences A' = <[h := o]> (mGeofences A)) \/
  (mJob B = job_remove /\ mGeofenceIds A' = mGeofenceIds (removeGeofenceItem h A) /\ mGeofences A' = mGeofences (removeGeofenceItem h A)) \/
  (quiet A A' /\ (err <> LOCATION_ERROR_SUCCESS \/ is_add (mJob B) = false /\ mJob B <> job_remove)).
Proof.
  unfold proc_done. destruct (Z.eqb_spec err LOCATION_ERROR_SUCCESS) as [He|He].
  - destruct (mJob B) as [options infos| | | |options].
    + intros (errs & _ & (id & _ & (o & Ho & (info & Hi & (errs' & _ & [= <-])%bind_Some)%bind_Some)%bind_Some)%bind_Some)%bind_Some.
      left. split; [done|]. split; [done|]. exists (mClient B, id), (object_of (mClient B) id o info).
      by rewrite (proj1 (finish_maps _ _ _ _)), (proj2 (finish_maps _ _ _ _)).
    + intros (errs & _ & [= <-])%bind_Some. right. left. rewrite (proj1 (finish_maps _ _ _ _)), (proj2 (finish_maps _ _ _ _)). done.
    + intros (errs & _ & [= <-])%bind_Some. right. right. split; [|by right]. split; rewrite ?(proj1 (finish_maps _ _ _ _)), ?(proj2 (finish_maps _ _ _ _)); [done|].
      intros hw o. by apply alter_keys.
    + intros (errs & _ & [= <-])%bind_Some. right. right. split; [|by right]. split; rewrite ?(proj1 (finish_maps _ _ _ _)), ?(proj2 (finish_maps _ _ _ _)); [done|].
      intros hw o. by apply alter_keys.
    + intros (errs & _ & (o & Ho & (errs' & _ & [= <-])%bind_Some)%bind_Some)%bind_Some. right. right. split; [|by right].
      split; rewrite ?(proj1 (finish_maps _ _ _ _)), ?(proj2 (finish_maps _ _ _ _)); [done|]. intros hw o'. by apply alter_keys.
  - intros Hp. right. right. split; [|by left].
    destruct (mJob B); repeat (case_match; cbn in Hp); simplify_option_eq; apply geofence_quiet_refl; rewrite ?(proj1 (finish_maps _ _ _ _)), ?(proj2 (finish_maps _ _ _ _)); done.
Qed.
Lemma call_api_form B i A A' : proc_call B i A = Some A' -> exists l, api A' = api A ++ l /\ no_stop l.
Proof.
  unfold proc_call. intros (errs & _ & (id & _ & H)%bind_Some)%bind_Some.
  assert (Hjob : forall h, no_stop [a_job B i h]) by (intros h h' ?%list_elem_of_singleton; done).
  destruct (mJob B); try destruct (getHwIdFromClient _ _ _); simplify_eq; try (by eexists; split; [cbn; reflexivity|]);
    (exists []; split; [|apply no_stop_nil]); rewrite finish_api; by rewrite !app_nil_r.
Qed.
Lemma owned_command B A ms M g : ctx A = m_command B :: ms -> owned_with A M g -> owned_with (proc_command B (set_queues ms (api A) A)) M g.
Proof.
  intros Hc Hown. unfold proc_command. destruct (null_arrays (mJob B)).
  - by apply (owned_quiet (m_command B) ms A _ M g [] Hc); try done; [cbn; by rewrite app_nil_r|apply no_stop_nil|eauto].
  - apply (owned_quiet (m_command B) ms A _ M g (a_call B <$> seq 0 (mCount B)) Hc); try done; [|eauto].
    intros h (? & ? & _)%list_elem_of_fmap. done.
Qed.
Lemma owned_removeClient c A ms M g : ctx A = m_removeClient c :: ms -> owned_with A M g ->
  owned_with (tell [t_removed c] (eraseClient c (stopClientSessions c (set_queues ms (api A) A)))) M g.
Proof.
  intros Hc Hown. eapply (owned_taken (m_removeClient c) ms A); [exact Hc|done|..|exact Hown].
  - cbn. intros k hw Hk. apply map_lookup_filter_Some in Hk as [Hk _]. by apply (ow_key _ Hown).
  - intros hw [k Hk]. split; [left|done]. cbn in Hk. apply map_lookup_filter_Some in Hk as [Hk _]. by exists k.
  - intros hw Hs. unfold stops in Hs. cbn [ctx api tell eraseClient updateClientsEventMask set_clients stopClientSessions call_api set_maps set_queues] in Hs.
    rewrite omap_app, !elem_of_app in Hs. destruct Hs as [Hs|[Hs|Hs]].
    + left. unfold stops. rewrite elem_of_app, Hc. left. done.
    + left. unfold stops. rewrite elem_of_app. by right.
    + right. apply list_elem_of_omap in Hs as (m & Hm & Hx). apply list_elem_of_fmap in Hm as ([id h] & -> & Hm). injection Hx as ->.
      rewrite merge_sort_Permutation, elem_of_map_to_list in Hm. apply map_lookup_filter_Some in Hm as [Hm Hcl]. destruct id as [c' id']. cbn in Hcl. subst c'. split; [by exists (c, id')|]. split; [|done].
      intros [k Hk]. cbn in Hk. apply map_lookup_filter_Some in Hk as [Hk Hne].
      destruct (ow_key _ Hown _ _ Hm) as (o & Ho & Hko), (ow_key _ Hown _ _ Hk) as (o' & Ho' & Hko'). cbn in *. rewrite Ho in Ho'. injection Ho' as <-. subst k. by rewrite Hko in Hne.
Qed.
Lemma owned_ctx m ms A A' M g : ctx A = m :: ms -> proc m (set_queues ms (api A) A) = Some A' -> owned_with A M g -> owned_with A' M g.
Proof.
  intros Hc Hp Hown. pose proof (proj2 (proc_shows _ _ _ Hp)) as Hc'. cbn [ctx set_queues] in Hc'.
  assert (Hsame : forall A', ctx A' = ms -> api A' = api A -> mGeofenceIds A' = mGeofenceIds A -> mGeofences A' = mGeofences A ->
    (forall hw, death hw m = false) -> owned_with A' M g).
  { intros A1 H1 H2 H3 H4 H5. apply (owned_quiet m ms A A1 M g [] Hc H1); try done; [by rewrite app_nil_r|apply no_stop_nil|rewrite H4; eauto]. }
  destruct m as [c cb|c|B|B i|B i h err|h err| |o h err| |hws type|av]; cbn [proc] in Hp.
  - injection Hp as <-. by apply Hsame.
  - injection Hp as <-. by apply owned_removeClient.
  - injection Hp as <-. by apply owned_command.
  - pose proof (call_shows _ _ _ _ Hp) as (HG & HI & _). apply call_api_form in Hp as (l & Ha & Hl).
    apply (owned_quiet (m_call B i) ms A A' M g l Hc Hc'); try done. rewrite HG. eauto.
  - pose proof (proj2 (proj2 (answer_shows _ _ _ _ _ _ Hp))) as Ha. cbn [api set_queues] in Ha. rewrite <- (app_nil_r (api A)) in Ha.
    apply done_cases in Hp as [(Hadd & -> & k & o & Hk & HI & HG)|[(Hj & HI & HG)|[[HI HG] Hor]]].
    + apply (owned_saved (m_done B i h LOCATION_ERROR_SUCCESS) ms A A' M g [] h k o Hc Hc' Ha no_stop_nil HI HG Hk); [|..|done].
      * cbn. by rewrite Hadd.
      * intros hw. cbn. destruct (mJob B); try done; apply andb_false_r.
    + apply (owned_removed (m_done B i h err) ms A A' M g [] h Hc Hc' Ha no_stop_nil); [..|done].
      * rewrite HI. by unfold removeGeofenceItem, getGeofenceKeyFromHwId; cbn; repeat case_match.
      * rewrite HG. by unfold removeGeofenceItem, getGeofenceKeyFromHwId; cbn; repeat case_match.
      * intros hw'. cbn. intros [[_ ?%Z.eqb_eq]%andb_true_iff _]%andb_true_iff. done.
    + apply (owned_quiet (m_done B i h err) ms A A' M g [] Hc Hc' Ha no_stop_nil HI HG); [|done]. intros hw _. cbn. destruct Hor as [He|[_ Hr]].
      * by rewrite (proj2 (Z.eqb_neq _ _) He).
      * destruct (mJob B); try done; apply andb_false_r.
  - assert (Hst : h ∈ stops A) by (unfold stops; rewrite Hc; cbn; by left). pose proof (ow_stopped _ Hown h Hst) as Hn.
    destruct (Z.eqb_spec err LOCATION_ERROR_SUCCESS) as [He|He]; injection Hp as <-.
    + eapply (owned_taken (m_stopped h err) ms A); [exact Hc|done|..|exact Hown].
      * cbn. intros k hw Hk. destruct (ow_key _ Hown _ _ Hk) as (o & Ho & Hko). exists o. rewrite lookup_delete_ne; [done|]. intros <-. apply Hn. by exists k.
      * intros hw [k Hk]. split; [left; by exists k|]. cbn. apply andb_false_iff. right. apply Z.eqb_neq. intros <-. apply Hn. by exists k.
      * intros hw Hs. left. apply (stops_taken (m_stopped h err) ms A (set_maps (delete h (mGeofences A)) (mGeofenceIds A) (set_queues ms (api A) A)) [] Hc); try done; [cbn; by rewrite app_nil_r|apply no_stop_nil].
    + apply Hsame; try done. intros hw. cbn. by rewrite (proj2 (Z.eqb_neq _ _) He).
  - injection Hp as <-. unfold restartGeofences in *. cbn [mGeofences set_queues] in *. destruct (decide (mGeofences A = ∅)) as [He|He].
    + eapply (owned_taken m_engineUp ms A); [exact Hc|done|..|exact Hown].
      * apply (ow_key _ Hown).
      * intros hw [k Hk]. apply (ow_key _ Hown) in Hk as (o & Ho & _). cbn in Ho. by rewrite He, lookup_empty in Ho.
      * intros hw Hs. left. apply (stops_taken m_engineUp ms A (set_queues ms (api A) A) [] Hc); try done; [cbn; by rewrite app_nil_r|apply no_stop_nil].
    + eapply (owned_taken m_engineUp ms A); [exact Hc|done|..|exact Hown].
      * cbn. intros k hw Hk. by rewrite lookup_empty in Hk.
      * intros hw [k Hk]. cbn in Hk. by rewrite lookup_empty in Hk.
      * intros hw Hs. left. apply (stops_taken m_engineUp ms A _ ((fun e => a_restart e.2) <$> by_key (mGeofences A)) Hc Hc' eq_refl); [|exact Hs]. intros h (? & ? & _)%list_elem_of_fmap. done.
  - destruct (Z.eqb_spec err LOCATION_ERROR_SUCCESS) as [He|He]; injection Hp as <-; [|by apply Hsame].
    eapply (owned_saved (m_readded o h err) ms A _ M g (if o_paused o then [a_repause h] else []) h (o_key o) (object_of (o_key o).1 (o_key o).2 (options_of o) (info_of o)) Hc); [done|..|done]; try done.
    + destruct (o_paused o); cbn; by rewrite ?app_nil_r.
    + intros h'. destruct (o_paused o); [by intros ?%list_elem_of_singleton|apply not_elem_of_nil].
    + destruct (o_paused o), (o_key o); done.
    + destruct (o_paused o), (o_key o); done.
    + by destruct (o_key o).
    + cbn. by rewrite He.
  - injection Hp as <-. by apply Hsame.
  - injection Hp as <-. by apply Hsame.
  - injection Hp as <-. by apply Hsame.
Qed.

(** The geofences of the modem that a request leaves. *)
Lemma add_keeps hw f M M' h : add_fence hw f M = Some M' -> is_Some (M !! h) -> is_Some (M' !! h).
Proof. unfold add_fence. destruct (M !! hw); [done|]. intros [= <-] H. rewrite lookup_insert. case_decide; [eauto|done]. Qed.
Lemma edit_keeps e hw M M' h : edit_fence e hw M = Some M' -> is_Some (M !! h) -> is_Some (M' !! h).
Proof. intros (f & _ & [= <-])%bind_Some H. rewrite lookup_insert. case_decide; [eauto|done]. Qed.
Lemma remove_keeps hw M M' h : remove_fence hw M = Some M' -> is_Some (M !! h) -> hw <> h -> is_Some (M' !! h).
Proof. intros (f & _ & [= <-])%bind_Some H Hne. by rewrite lookup_delete_ne. Qed.
(** The modem answers. *)
Lemma owned_answer m ms hw err A M M' g : api A = m :: ms -> modem m hw err M = Some M' ->
  (forall h, M !! h = None -> is_Some (M' !! h) -> h ∉ g) -> owned_with A M g -> owned_with (api_step hw err A) M' (given_by m hw err ∪ g).
Proof.
  intros Ha Hm Hnew Hown. unfold api_step. rewrite Ha. set (a := answer_of m hw err). destruct Hown as [H1 H2 H3 H4 H5 H6]. cbn [w_adapter w_modem w_given] in *.
  assert (Hstops : forall h, h ∈ stops (sendMsg a (set_queues (ctx A) ms A)) <-> h ∈ stops A).
  { intros h. unfold stops. cbn. rewrite Ha, !omap_app, !elem_of_app. unfold a. destruct m; cbn; rewrite ?elem_of_cons, ?elem_of_nil; tauto. }
  assert (Hbirths : omap birth (ctx (sendMsg a (set_queues (ctx A) ms A))) = omap birth (ctx A) ++ option_list (birth a)).
  { cbn. rewrite omap_app. cbn. by destruct (birth a). }
  (* what the answer says, and what it does to the geofences of the modem *)
  assert (Hb : forall h, birth a = Some h -> M !! h = None /\ is_Some (M' !! h) /\ h ∈ given_by m hw err).
  { intros h. unfold a, modem in *. destruct m as [B i|B i h0|h0|o|h0]; cbn; try done.
    - destruct (mJob B) as [options infos| | | |options]; cbn; try done. destruct (Z.eqb_spec err LOCATION_ERROR_SUCCESS); [|done]. intros [= <-].
      apply bind_Some in Hm as (o & Ho & (info & Hi & Hm)%bind_Some). unfold add_fence in Hm. destruct (M !! hw) eqn:E; [done|]. injection Hm as <-.
      split; [done|]. split; [rewrite lookup_insert_eq; eauto|by apply elem_of_singleton].
    - destruct (Z.eqb_spec err LOCATION_ERROR_SUCCESS); [|done]. intros [= <-]. unfold add_fence in Hm. destruct (M !! hw) eqn:E; [done|]. injection Hm as <-.
      split; [done|]. split; [rewrite lookup_insert_eq; eauto|by apply elem_of_singleton]. }
  assert (Hkeep : forall h, is_Some (M !! h) -> death h a = false -> is_Some (M' !! h)).
  { intros h Hh. unfold a, modem in *. destruct (Z.eqb_spec err LOCATION_ERROR_SUCCESS) as [He|He].
    2:{ by injection Hm as <-. }
    destruct m as [B i|B i h0|h0|o|h0]; cbn.
    - by injection Hm as <-.
    - destruct (mJob B) as [options infos| | | |options]; cbn; intros Hd.
      + apply bind_Some in Hm as (o & Ho & (info & Hi & Hm)%bind_Some). by eapply add_keeps.
      + rewrite He in Hd. cbn in Hd. rewrite andb_true_r in Hd. eapply remove_keeps; [exact Hm|done|]. by apply Z.eqb_neq.
      + by eapply edit_keeps.
      + by eapply edit_keeps.
      + apply bind_Some in Hm as (o & Ho & Hm). by eapply edit_keeps.
    - intros Hd. rewrite He in Hd. eapply remove_keeps; [exact Hm|done|]. by apply Z.eqb_neq.
    - intros _. by eapply add_keeps.
    - intros _. by eapply edit_keeps. }
  constructor; cbn [w_adapter w_modem w_given]; rewrite ?Hbirths.
  - done.
  - apply NoDup_app. split; [done|]. destruct (birth a) as [h|] eqn:E; cbn; [|split; [by intros ? _ ?%elem_of_nil|apply NoDup_nil_2]].
    split; [|apply NoDup_singleton]. intros x Hx ->%list_elem_of_singleton. destruct (Hb h eq_refl) as (Hn & Hs & _). apply (Hnew h Hn Hs). apply H5. auto.
  - intros h. rewrite elem_of_app, Hstops. intros [Hin|Hin]; [by apply H3|]. destruct (birth a) as [h'|] eqn:E; cbn in Hin; [|by apply elem_of_nil in Hin].
    apply list_elem_of_singleton in Hin as ->. destruct (Hb h' eq_refl) as (Hn & Hs & _). pose proof (Hnew h' Hn Hs) as Hni. split; intros Hx; apply Hni, H5; auto.
  - intros h. rewrite Hstops. apply H4.
  - intros h. rewrite Hstops, elem_of_app, elem_of_union. intros [Hx|[[Hx|Hx]|Hx]]; try (right; apply H5; by auto).
    left. destruct (birth a) as [h'|] eqn:E; cbn in Hx; [|by apply elem_of_nil in Hx]. apply list_elem_of_singleton in Hx as ->. by apply Hb.
  - intros h x Hx. cbn. rewrite foldl_app. cbn. unfold alive at 1. destruct (death h a) eqn:Hd; [done|]. intros [Hf|Hf]%orb_true_iff.
    + apply Hkeep; [|done]. by apply (H6 h x).
    + apply bool_decide_eq_true in Hf. by apply Hb.
Qed.
Lemma owned_client op A M g : owned_with A M g -> owned_with (client op A) M g.
Proof.
  intros Hown.
  assert (Hcmd : forall c ids job A, owned_with A M g -> owned_with (command c ids job A) M g).
  { intros c ids job A1 H1. unfold command. apply owned_send; try done. destruct H1; by constructor. }
  destruct op as [c n options infos|c ids|c ids|c ids|c ids options|c cb|c]; cbn [client].
  1: destruct n; [done|]; unfold addGeofencesCommand; destruct (generate _ _); cbn [snd]; apply Hcmd; destruct Hown; by constructor.
  1-4: destruct ids; [done|]; unfold removeGeofencesCommand, pauseGeofencesCommand, resumeGeofencesCommand, modifyGeofencesCommand; by apply Hcmd.
  all: by apply owned_send.
Qed.
Lemma owned_step w w' : step w w' -> never_reused w w' -> owned w -> owned w'.
Proof.
  intros Hs Hnew Hown. destruct Hs; unfold never_reused in Hnew; cbn [w_modem w_given w_adapter] in Hnew; apply (proj1 (owned_eq _ _ _ _ _ _)) in Hown; apply (proj2 (owned_eq _ _ _ _ _ _)).
  - by apply owned_client.
  - unfold ctx_step in H0. rewrite H in H0. by eapply owned_ctx.
  - by eapply owned_answer.
  - destruct hwIds; [done|]. by apply owned_send.
  - by apply owned_send.
  - by eapply owned_reset.
Qed.
Lemma owned_reachable w : reachable_by never_reused w -> owned w.
Proof.
  apply reachable_by_inv; [|intros; by eapply owned_step]. constructor; cbn; try done; try (by intros ? ?%elem_of_nil).
  - apply NoDup_nil_2.
  - intros hw [[k Hk]|[?%elem_of_nil|?%elem_of_nil]]; [exact (False_ind _ (lookup_empty_Some _ _ Hk))|done..].
  - intros hw x Hx Ht. destruct (Hx Ht) as [k Hk]. exact (False_ind _ (lookup_empty_Some _ _ Hk)).
Qed.
