(* ===== verification/GeofenceAdapterAnswers.v ===== *)
(** * The geofence adapter: each command is answered *)
From Stdlib Require Import Sorted.
From S2P Require Import Prelude PbConsts GnssTracking LocationApiClient GeofenceAdapter GeofenceAdapterSpec GeofenceAdapterOwned.
#[local] Open Scope Z_scope.
Implicit Types (A : Adapter) (M : Modem) (B : Batch) (w : World).

Lemma on_batch_eq {X} B (x : X) : on_batch (b_no B) B x = Some x.
Proof. unfold on_batch. by rewrite decide_True. Qed.
Lemma on_batch_ne {X} b B (x : X) : b_no B <> b -> on_batch b B x = None.
Proof. intros H. unfold on_batch. by rewrite decide_False. Qed.
Lemma progress_ext B cmds cmds' cs cs' ws ws' arr arr' (out out' : nat -> option Outcome) (unh unh' : Prop) reps reps' :
  cmds' = cmds -> cs' = cs -> ws' = ws -> arr' = arr -> (forall i, out' i = out i) -> (unh' <-> unh) -> reps' = reps ->
  progress B cmds cs ws arr out unh reps -> progress B cmds' cs' ws' arr' out' unh' reps'.
Proof.
  intros -> -> -> -> Ho Hu -> Hp.
  assert (Hall : forall errs, shows_all B out errs -> shows_all B out' errs).
  { intros errs [H1 H2]. split; [done|]. intros i oc. rewrite Ho. apply H2. }
  destruct Hp as [H1 H2 H3 H4 H5 H6 H7|H1 H2 H3 H4 H5 H6 H7 H8|p errs H1 H2 H3 H4 H5 H6 H7 H8 H9 H10 H11 H12 H13 H14|errs H1 H2 H3 H4 H5 H6 H7 H8].
  - apply p_waiting; try done; [by intros; rewrite Ho|tauto].
  - apply p_null; try done; [by intros; rewrite Ho|tauto].
  - apply (p_running _ _ _ _ _ _ _ _ p errs); try done; auto; [intros; rewrite Ho; auto..| |tauto].
    intros Hp. unfold lost. rewrite Ho. by apply H12.
  - apply (p_finished _ _ _ _ _ _ _ _ errs); try done; auto; [intros; rewrite Ho; auto|tauto].
Qed.

(** What a step leaves alone of the commands other than [b]. *)
Record same_for (b : Z) (w w' : World) : Prop := {
  sf_commands : commands b (w_adapter w') = commands b (w_adapter w);
  sf_calls : calls b (w_adapter w') = calls b (w_adapter w);
  sf_waits : waits b (w_adapter w') = waits b (w_adapter w);
  sf_arrays : arrays (w_adapter w') !! b = arrays (w_adapter w) !! b;
  sf_out i : w_outcomes w' !! (b, i) = w_outcomes w !! (b, i);
  sf_unheard : b ∈ w_unheard w' <-> b ∈ w_unheard w;
  sf_reports : reports b (w_adapter w') = reports b (w_adapter w);
}.
Lemma progress_same B w w' : same_for (b_no B) w w' -> progress_of w B -> progress_of w' B.
Proof. intros [H1 H2 H3 H4 H5 H6 H7]. by apply progress_ext. Qed.

(** A step on the messages of the batch [B0], or of none. *)
Lemma answering_step w w' (B0 : option Batch) : answering w ->
  (forall m B, m ∈ ctx (w_adapter w') -> ctx_batch m = Some B -> w_batches w' !! b_no B = Some B) ->
  (forall m B, m ∈ api (w_adapter w') -> api_batch m = Some B -> w_batches w' !! b_no B = Some B) ->
  next_no (w_adapter w') = next_no (w_adapter w) -> w_batches w' = w_batches w ->
  (forall b, (forall B, B0 = Some B -> b_no B <> b) -> same_for b w w') ->
  (forall B, B0 = Some B -> w_batches w !! b_no B = Some B /\ (progress_of w B -> progress_of w' B)) -> answering w'.
Proof.
  intros [H1 H2 H3 H4 H5] Hctx Hapi Hno Hb Hsame HB. constructor; try done; rewrite ?Hb, ?Hno; try done.
  - intros b Hn. assert (Hs : same_for b w w').
    { apply Hsame. intros B -> <-. destruct (HB B eq_refl) as [? _]. congruence. }
    destruct (H4 b Hn) as (Ho & Hu & Hr). split; [intros i; by rewrite (sf_out _ _ _ Hs)|]. split; [by rewrite (sf_unheard _ _ _ Hs)|by rewrite (sf_reports _ _ _ Hs)].
  - intros b B HbB. pose proof (H5 b B HbB) as Hp. destruct (H3 b B HbB) as (<- & _). destruct B0 as [B0|].
    + destruct (decide (b_no B0 = b_no B)) as [He|Hne].
      * destruct (HB B0 eq_refl) as [HB0 Hstep]. rewrite He in HB0. rewrite HbB in HB0. injection HB0 as <-. by apply Hstep.
      * apply (progress_same B w w'); [|done]. apply Hsame. by intros ? [= <-].
    + apply (progress_same B w w'); [|done]. by apply Hsame.
Qed.

(** ** Messages that belong to no command *)
Lemma same_refl b w : same_for b w w.
Proof. by constructor. Qed.
Lemma omap_snoc_None {X Y} (f : X -> option Y) l x : f x = None -> omap f (l ++ [x]) = omap f l.
Proof. intros H. rewrite omap_app. cbn. by rewrite H, app_nil_r. Qed.
Lemma answering_send m A M M' g b o u : ctx_batch m = None -> answering (MkWorld A M g b o u) -> answering (MkWorld (sendMsg m A) M' g b o u).
Proof.
  intros Hm HI. apply (answering_step _ _ None HI); cbn [w_adapter w_batches]; try done.
  - intros m' B [Hin| ->%list_elem_of_singleton]%elem_of_app; [by apply (an_ctx _ HI)|congruence].
  - apply (an_api _ HI).
  - intros b' _. constructor; cbn [w_adapter w_outcomes w_unheard]; try done; unfold commands, calls, waits; cbn [ctx api sendMsg];
      rewrite ?omap_snoc_None; try done; by destruct m.
Qed.

(** ** A new command *)
Lemma answering_command c ids job A M g b o u : ids <> [] -> batch_ok (MkBatch (next_no A) c ids job) -> answering (MkWorld A M g b o u) ->
  answering (MkWorld (command c ids job A) M g (list_to_map (commanded (command c ids job A)) ∪ b) o u).
Proof.
  intros Hids Hok HI. set (B := MkBatch (next_no A) c ids job).
  assert (Hcmd : commanded (command c ids job A) = [(next_no A, B)]) by (unfold commanded, command; cbn; by rewrite last_snoc).
  rewrite Hcmd. cbn [list_to_map foldr fst snd]. set (b' := <[next_no A := B]> ∅ ∪ b : gmap Z Batch).
  assert (Hnew : b !! next_no A = None).
  { destruct (b !! next_no A) as [B'|] eqn:E; [|done]. destruct (an_no _ HI _ _ E) as (_ & Hlt & _). cbn in Hlt. lia. }
  assert (Hb' : forall i, b' !! i = if decide (i = next_no A) then Some B else b !! i).
  { intros i. unfold b'. rewrite lookup_union, lookup_insert. repeat case_decide; subst; try congruence.
    - by rewrite Hnew.
    - rewrite lookup_empty. by destruct (b !! i). }
  assert (Hreg : forall B', b !! b_no B' = Some B' -> b' !! b_no B' = Some B').
  { intros B' H. rewrite Hb'. case_decide as Hd; [|done]. rewrite Hd in H. congruence. }
  assert (Hsame : forall i, i <> next_no A -> same_for i (MkWorld A M g b o u) (MkWorld (command c ids job A) M g b' o u)).
  { intros i Hi. constructor; cbn [w_adapter w_outcomes w_unheard]; try done; unfold commands, calls, waits; cbn [ctx api sendMsg command arrays].
    - apply omap_snoc_None. apply on_batch_ne. done.
    - by rewrite omap_snoc_None.
    - by rewrite omap_snoc_None.
    - by rewrite lookup_insert_ne. }
  assert (Hnone : forall m B', m ∈ ctx A -> ctx_batch m = Some B' -> b_no B' <> next_no A).
  { intros m B' Hin Hm He. pose proof (an_ctx _ HI m B' Hin Hm) as H. cbn in H. rewrite He in H. congruence. }
  assert (Hnoneapi : forall m B', m ∈ api A -> api_batch m = Some B' -> b_no B' <> next_no A).
  { intros m B' Hin Hm He. pose proof (an_api _ HI m B' Hin Hm) as H. cbn in H. rewrite He in H. congruence. }
  assert (Hempty : forall X (f : CtxMsg -> option X), (forall m x, f m = Some x -> exists B', ctx_batch m = Some B' /\ b_no B' = next_no A) -> omap f (ctx A) = []).
  { intros X f Hf. destruct (omap f (ctx A)) as [|x l] eqn:E; [done|]. assert (x ∈ omap f (ctx A)) as Hx by (rewrite E; by left).
    apply list_elem_of_omap in Hx as (m & Hin & Hm). destruct (Hf m x Hm) as (B' & HB & He). by destruct (Hnone m B' Hin HB). }
  assert (Hemptyapi : forall X (f : ApiMsg -> option X), (forall m x, f m = Some x -> exists B', api_batch m = Some B' /\ b_no B' = next_no A) -> omap f (api A) = []).
  { intros X f Hf. destruct (omap f (api A)) as [|x l] eqn:E; [done|]. assert (x ∈ omap f (api A)) as Hx by (rewrite E; by left).
    apply list_elem_of_omap in Hx as (m & Hin & Hm). destruct (Hf m x Hm) as (B' & HB & He). by destruct (Hnoneapi m B' Hin HB). }
  assert (Hob : forall X B' (x y : X), on_batch (next_no A) B' x = Some y -> b_no B' = next_no A) by (intros X B' x y; unfold on_batch; by case_decide).
  constructor; cbn [w_adapter w_batches w_outcomes w_unheard].
  - intros m B' [Hin| ->%list_elem_of_singleton]%elem_of_app Hm; [by apply Hreg, (an_ctx _ HI m B')|]. injection Hm as <-. rewrite Hb'. by rewrite decide_True.
  - intros m B' Hin Hm. by apply Hreg, (an_api _ HI m B').
  - intros i B'. rewrite Hb'. case_decide as Hi; [intros [= <-]; subst; cbn; split; [done|split; [lia|done]]|]. intros Hold.
    destruct (an_no _ HI i B' Hold) as (H1 & H2 & H3). split; [done|]. split; [cbn in *; lia|done].
  - intros i. rewrite Hb'. case_decide; [done|]. intros Hold. by apply (an_new _ HI i).
  - intros i B'. rewrite Hb'. case_decide as Hi.
    + intros [= <-]. destruct (an_new _ HI _ Hnew) as (Ho & Hu & Hr). unfold progress_of. cbn [b_no B w_adapter w_outcomes w_unheard] in *.
      apply p_waiting; try done.
      * unfold commands. cbn [ctx sendMsg command]. rewrite omap_app, (Hempty _ _) by (intros [] x; cbn; try done; eauto).
        cbn [app omap list_omap]. unfold on_batch. by rewrite decide_True.
      * unfold calls. cbn. rewrite omap_app, (Hempty _ _), (Hemptyapi _ _) by (intros [] x; cbn; try done; eauto). done.
      * unfold waits. cbn. rewrite omap_app, (Hempty _ _), (Hemptyapi _ _) by (intros [] x; cbn; try done; eauto). done.
      * cbn. by rewrite lookup_insert_eq.
    + intros Hold. destruct (an_no _ HI i B' Hold) as (He & _). cbn in Hold. apply (progress_same B' (MkWorld A M g b o u)); [apply Hsame; congruence|by apply (an_progress _ HI i)].
Qed.

Lemma answering_client op A M g b o u : well_formed op -> answering (MkWorld A M g b o u) ->
  answering (MkWorld (client op A) M g (list_to_map (commanded (client op A)) ∪ b) o u).
Proof.
  intros Hwf HI.
  assert (Hnop : answering (MkWorld A M g (list_to_map (commanded A) ∪ b) o u)).
  { unfold commanded. destruct (last (ctx A)) as [[]|] eqn:E; cbn; try (by rewrite (left_id_L ∅ (∪))).
    assert (b !! b_no B = Some B) as Hb. { apply (an_ctx _ HI (m_command B)); [|done]. rewrite last_lookup in E. by apply list_elem_of_lookup_2 in E. }
    assert (<[b_no B := B]> ∅ ∪ b = b) as ->; [|done]. rewrite <- insert_union_l, (left_id_L ∅ (∪)). by apply insert_id. }
  assert (Hother : forall m, ctx_batch m = None -> (forall B, m <> m_command B) -> answering (MkWorld (sendMsg m A) M g (list_to_map (commanded (sendMsg m A)) ∪ b) o u)).
  { intros m Hm Hm'. assert (commanded (sendMsg m A) = []) as ->. { unfold commanded. cbn. rewrite last_snoc. by destruct m. }
    cbn. rewrite (left_id_L ∅ (∪)). by apply (answering_send m A M). }
  destruct op as [c n options infos|c ids|c ids|c ids|c ids options|c cb|c]; cbn [client well_formed] in *.
  - destruct n as [|n]; [done|]. unfold addGeofencesCommand. destruct (generate (S n) (mSessionIdCounter A)) as [ids k] eqn:Hg. cbn [snd].
    assert (Hlen : length ids = S n).
    { clear -Hg. revert ids k Hg. generalize (mSessionIdCounter A). generalize (S n). induction n0 as [|n0 IH]; intros z ids k; cbn; [by intros [= <- <-]|].
      destruct (generate n0 _) as [ids' k'] eqn:E. intros [= <- <-]. cbn. f_equal. by eapply IH. }
    apply (answering_command c ids _ (set_counter k A)); [by destruct ids| |].
    + split; [by destruct ids|]. cbn. unfold mCount. cbn. by rewrite Hlen.
    + destruct HI as [H1 H2 H3 H4 H5]. by constructor.
  - destruct ids; [done|]. by apply answering_command.
  - destruct ids; [done|]. by apply answering_command.
  - destruct ids; [done|]. by apply answering_command.
  - destruct ids; [done|]. by apply answering_command.
  - by apply Hother.
  - by apply Hother.
Qed.
Lemma answering_api m ms hw err A M M' g g' b o u : api A = m :: ms -> answering (MkWorld A M g b o u) ->
  answering (MkWorld (api_step hw err A) M' g' b o u).
Proof.
  intros Ha HI. unfold api_step. rewrite Ha. apply (answering_step _ _ None HI); cbn [w_adapter w_batches]; try done.
  - intros m' B [Hin| ->%list_elem_of_singleton]%elem_of_app Hm; [by apply (an_ctx _ HI m')|]. apply (an_api _ HI m); [cbn; rewrite Ha; by left|].
    by destruct m.
  - intros m' B Hin. apply (an_api _ HI m'). cbn in *. rewrite Ha. by right.
  - intros b' _. constructor; cbn [w_adapter w_outcomes w_unheard]; try done; unfold commands, calls, waits; cbn [ctx api sendMsg set_queues];
      rewrite ?Ha, ?omap_app, <- ?app_assoc; destruct m as [B i|B i h|h|o'|h]; cbn; rewrite ?app_nil_r; try done; by destruct (on_batch b' B i).
Qed.
Lemma reports_tell b l A : (forall t, t ∈ l -> match t with t_collective _ _ _ _ => False | _ => True end) -> reports b (tell l A) = reports b A.
Proof.
  intros Hl. unfold reports. cbn. rewrite filter_app. induction l as [|t l IH]; [by rewrite app_nil_r|].
  rewrite filter_cons, decide_False; [apply IH; intros; apply Hl; by right|]. specialize (Hl t ltac:(by left)). destruct t; [destruct Hl|by intros []..].
Qed.
(** A message of the context's thread that belongs to no command. *)
Lemma answering_other m ms A A' M g b o u : ctx A = m :: ms -> ctx_batch m = None -> proc m (set_queues ms (api A) A) = Some A' ->
  answering (MkWorld A M g b o u) -> answering (MkWorld A' M g b (list_to_map (outcome_of m A) ∪ o) (unheard m A A' ∪ u)).
Proof.
  intros Hc Hm Hp HI. pose proof (proj2 (proc_shows _ _ _ Hp)) as Hc'. cbn [ctx set_queues] in Hc'.
  assert (outcome_of m A = [] /\ unheard m A A' = ∅) as [-> ->] by (by destruct m). cbn [list_to_map foldr]. rewrite !(left_id_L ∅ (∪)).
  assert (Hsum : arrays A' = arrays A /\ next_no A' = next_no A /\ (forall b, reports b A' = reports b A) /\
    exists l, api A' = api A ++ l /\ forall a, a ∈ l -> api_batch a = None).
  { destruct m as [c cb|c|B|B i|B i h err|h err| |o' h err| |hws type|av]; cbn [proc ctx_batch] in *; try done.
    - injection Hp as <-. split; [done|]. split; [done|]. split; [done|]. exists []. split; [by rewrite app_nil_r|by intros ? ?%elem_of_nil].
    - injection Hp as <-. split; [done|]. split; [done|]. split; [intros b'; rewrite reports_tell; [done|by intros t ->%list_elem_of_singleton]|].
      eexists. split; [reflexivity|]. intros a (? & -> & _)%list_elem_of_fmap. done.
    - destruct (err =? _); injection Hp as <-; (split; [done|]; split; [done|]; split; [done|]; exists []; split; [by rewrite app_nil_r|by intros ? ?%elem_of_nil]).
    - injection Hp as <-. unfold restartGeofences. destruct (decide (_ = ∅)).
      + split; [done|]. split; [done|]. split; [done|]. exists []. split; [by rewrite app_nil_r|by intros ? ?%elem_of_nil].
      + split; [done|]. split; [done|]. split; [done|]. eexists. split; [reflexivity|]. intros a (? & -> & _)%list_elem_of_fmap. done.
    - destruct (err =? _); injection Hp as <-.
      + destruct (o_paused o'); (split; [done|]; split; [done|]; split; [done|]).
        * exists [a_repause h]. split; [done|]. by intros a ->%list_elem_of_singleton.
        * exists []. split; [cbn; by rewrite app_nil_r|by intros ? ?%elem_of_nil].
      + split; [done|]. split; [done|]. split; [done|]. exists []. split; [by rewrite app_nil_r|by intros ? ?%elem_of_nil].
    - injection Hp as <-. split; [done|]. split; [done|]. split; [done|]. exists []. split; [by rewrite app_nil_r|by intros ? ?%elem_of_nil].
    - injection Hp as <-. split; [done|]. split; [done|]. split; [|exists []; split; [by rewrite app_nil_r|by intros ? ?%elem_of_nil]].
      intros b'. unfold geofenceBreach. rewrite reports_tell; [done|]. intros t (x & _ & Hx)%list_elem_of_omap. revert Hx. repeat case_match; by intros [= <-].
    - injection Hp as <-. split; [done|]. split; [done|]. split; [|exists []; split; [by rewrite app_nil_r|by intros ? ?%elem_of_nil]].
      intros b'. unfold geofenceStatus. rewrite reports_tell; [done|]. intros t (x & _ & Hx)%list_elem_of_omap. revert Hx. repeat case_match; by intros [= <-]. }
  destruct Hsum as (Harr & Hno & Hrep & l & Hapi & Hl).
  apply (answering_step _ _ None HI); cbn [w_adapter w_batches]; try done.
  - intros m' B Hin. apply (an_ctx _ HI m'). cbn [w_adapter]. rewrite Hc, <- Hc'. by right.
  - intros m' B Hin Hm'. rewrite Hapi in Hin. apply elem_of_app in Hin as [Hin|Hin]; [by apply (an_api _ HI m')|]. by rewrite (Hl _ Hin) in Hm'.
  - intros b' _.
    assert (Homap : forall X (f : ApiMsg -> option X), (forall a, api_batch a = None -> f a = None) -> omap f (api A') = omap f (api A)).
    { intros X f Hf. rewrite Hapi, omap_app. assert (omap f l = []) as ->; [|by rewrite app_nil_r]. clear -Hl Hf. induction l as [|a l IH]; [done|].
      cbn. rewrite Hf by (apply Hl; by left). apply IH. intros; apply Hl. by right. }
    constructor; cbn [w_adapter w_outcomes w_unheard]; rewrite ?Harr; try done; unfold commands, calls, waits; rewrite ?Hc, ?Hc', ?Homap; try done; try (by intros []);
      cbn; by destruct m.
Qed.

(** A message of the command [B]. *)
Lemma answering_mine B m ms A A' l M g b o u W U : ctx A = m :: ms -> ctx_batch m = Some B -> ctx A' = ms -> api A' = api A ++ l ->
  (forall a, a ∈ l -> api_batch a = Some B) -> next_no A' = next_no A -> (forall b', b' <> b_no B -> arrays A' !! b' = arrays A !! b') ->
  (forall b', b' <> b_no B -> reports b' A' = reports b' A) -> (forall b' i oc, (b', i, oc) ∈ W -> b' = b_no B) -> (forall b', b' ∈ U -> b' = b_no B) ->
  answering (MkWorld A M g b o u) ->
  (progress_of (MkWorld A M g b o u) B -> progress_of (MkWorld A' M g b (list_to_map W ∪ o) (U ∪ u)) B) ->
  answering (MkWorld A' M g b (list_to_map W ∪ o) (U ∪ u)).
Proof.
  intros Hc Hm Hc' Hapi Hl Hno Harr Hrep HW HU HI Hp.
  assert (HB : b !! b_no B = Some B) by (apply (an_ctx _ HI m); [cbn; rewrite Hc; by left|done]).
  apply (answering_step _ _ (Some B) HI); cbn [w_adapter w_batches]; try done.
  - intros m' B' Hin. apply (an_ctx _ HI m'). cbn. rewrite Hc, <- Hc'. by right.
  - intros m' B' Hin Hm'. rewrite Hapi in Hin. apply elem_of_app in Hin as [Hin|Hin]; [by apply (an_api _ HI m')|]. rewrite (Hl _ Hin) in Hm'. by injection Hm' as <-.
  - intros b' Hne. specialize (Hne B eq_refl).
    assert (Homap : forall X (f : ApiMsg -> option X), (forall a, api_batch a = Some B -> f a = None) -> omap f (api A') = omap f (api A)).
    { intros X f Hf. rewrite Hapi, omap_app. assert (omap f l = []) as ->; [|by rewrite app_nil_r]. clear -Hl Hf. induction l as [|a l IH]; [done|].
      cbn. rewrite Hf by (apply Hl; by left). apply IH. intros; apply Hl. by right. }
    assert (Hon : forall X (x : X), on_batch b' B x = None) by (intros; by apply on_batch_ne).
    constructor; cbn [w_adapter w_outcomes w_unheard]; auto.
    + unfold commands. rewrite Hc, Hc'. cbn. destruct m; try done; cbn in Hm; injection Hm as ->; by rewrite ?Hon.
    + unfold calls. rewrite Hc, Hc', Homap by (intros [] [= ->]; cbn; auto). f_equal. cbn. destruct m; try done; cbn in Hm; injection Hm as ->; cbn; by rewrite ?Hon.
    + unfold waits. rewrite Hc, Hc', Homap by (intros [] [= ->]; cbn; auto). f_equal. cbn. destruct m; try done; cbn in Hm; injection Hm as ->; cbn; by rewrite ?Hon.
    + intros i. rewrite lookup_union_r; [done|]. apply not_elem_of_list_to_map_1. intros ([[b1 i1] oc] & Heq & Hin)%list_elem_of_fmap.
      injection Heq as -> ->. apply HW in Hin. congruence.
    + rewrite elem_of_union. split; [|tauto]. intros [Hx|]; [|done]. apply HU in Hx. congruence.
  - intros B' [= <-]. done.
Qed.
(** The lists of the command itself. *)
Lemma calls_taken b m ms A A' l : ctx A = m :: ms -> ctx A' = ms -> api A' = api A ++ l ->
  exists r, calls b A = option_list (call_of b m) ++ r /\ calls b A' = r ++ omap (acall_of b) l.
Proof.
  intros Hc Hc' Ha. exists (omap (call_of b) ms ++ omap (acall_of b) (api A)). unfold calls. rewrite Hc, Hc', Ha, omap_app, <- !app_assoc.
  split; [|done]. cbn. by destruct (call_of b m).
Qed.
Lemma waits_taken b m ms A A' l : ctx A = m :: ms -> ctx A' = ms -> api A' = api A ++ l ->
  exists r, waits b A = option_list (done_of b m) ++ r /\ waits b A' = r ++ omap (job_of b) l.
Proof.
  intros Hc Hc' Ha. exists (omap (done_of b) ms ++ omap (job_of b) (api A)). unfold waits. rewrite Hc, Hc', Ha, omap_app, <- !app_assoc.
  split; [|done]. cbn. by destruct (done_of b m).
Qed.
Lemma commands_taken b m ms A A' : ctx A = m :: ms -> ctx A' = ms ->
  commands b A = option_list (match m with m_command B => on_batch b B tt | _ => None end) ++ commands b A'.
Proof. intros Hc Hc'. unfold commands. rewrite Hc, Hc'. cbn. by destruct (match m with m_command B => on_batch b B tt | _ => None end). Qed.

(** ** How the phases follow each other *)
Section phases.
Context (B : Batch) (out : nat -> option Outcome).
Abbreviation n := (mCount B).
Lemma sorted_snoc (l : list nat) x : StronglySorted lt l -> Forall (fun i => (i < x)%nat) l -> StronglySorted lt (l ++ [x]).
Proof.
  induction 1 as [|y l Hs IH Hy]; intros Hf; cbn; [by repeat constructor|]. apply Forall_cons in Hf as [? Hf]. constructor; [by apply IH|].
  apply Forall_app. split; [done|]. by repeat constructor.
Qed.
Definition put (i : nat) (oc : Outcome) (j : nat) : option Outcome := if decide (j = i) then Some oc else out j.
Lemma shows_put i oc errs : shows_all B out errs -> (i < n)%nat -> shows_all B (put i oc) (<[i := Some (shown (mJob B) oc)]> errs).
Proof.
  intros [H1 H2] Hi. split; [by rewrite length_insert|]. intros j oc'. unfold put. case_decide as Hj.
  - intros [= <-]. subst. apply list_lookup_insert_eq. by rewrite H1.
  - intros Ho. rewrite list_lookup_insert_ne by done. by apply H2.
Qed.
Lemma shows_write i x errs : shows_all B out errs -> out i = None -> shows_all B out (<[i := x]> errs).
Proof.
  intros [H1 H2] Hi. split; [by rewrite length_insert|]. intros j oc Ho. rewrite list_lookup_insert_ne; [by apply H2|]. congruence.
Qed.
(** The item [i] is called next. *)
Lemma at_call cmds i r ws arr unh reps : progress B cmds (i :: r) ws arr out unh reps -> exists errs, cmds = [] /\ (i < n)%nat /\ r = seq (S i) (n - S i) /\
  StronglySorted lt ws /\ Forall (fun j => (j < i)%nat) ws /\ arr = Some errs /\ null_arrays (mJob B) = false /\ shows_all B out errs /\
  (forall j, (j < i)%nat -> j ∉ ws -> is_Some (out j)) /\ (forall j, j ∈ ws \/ (i <= j)%nat -> out j = None) /\
  (forall j, j ∈ ws -> is_add (mJob B) = false -> errs !! j = Some (Some LOCATION_ERROR_SUCCESS)) /\ ~ unh /\ reps = [].
Proof.
  intros [? Hcs|? Hcs|p errs H1 H2 Hcs H4 H5 H6 H7 H8 H9 H10 H11 H12 H13 H14|errs ? Hcs]; try done.
  destruct (n - p)%nat as [|k] eqn:E; [done|]. cbn in Hcs. injection Hcs as -> ->. exists errs.
  split; [done|]. split; [lia|]. split; [f_equal; lia|]. done.
Qed.
(** The item is sent to the modem. *)
Lemma sent_item i r ws arr unh reps errs' : progress B [] (i :: r) ws arr out unh reps ->
  (forall errs, arr = Some errs -> if is_add (mJob B) then errs' = errs else errs' = <[i := Some LOCATION_ERROR_SUCCESS]> errs) ->
  progress B [] r (ws ++ [i]) (Some errs') out unh reps.
Proof.
  intros Hp Herr. destruct (at_call _ _ _ _ _ _ _ Hp) as (errs & _ & Hi & -> & Hs & Hlt & -> & Hnull & Hsh & Hset & Hunset & Hsucc & Hu & Hr).
  specialize (Herr errs eq_refl). assert (Hnone : out i = None) by auto.
  apply (p_running _ _ _ _ _ _ _ _ (S i) errs'); try done.
  - by apply sorted_snoc.
  - apply Forall_app. split; [by eapply Forall_impl; [exact Hlt|]; cbn; lia|]. repeat constructor.
  - destruct (is_add _); subst; [done|]. by apply shows_write.
  - intros j Hj Hni. rewrite elem_of_app, list_elem_of_singleton in Hni. apply Hset; [lia|tauto].
  - intros j. rewrite elem_of_app, list_elem_of_singleton. intros [[?| ->]|?]; auto. apply Hunset. right. lia.
  - intros j Hj Hadd. rewrite Hadd in Herr. subst errs'. apply elem_of_app in Hj as [Hj| ->%list_elem_of_singleton].
    + rewrite list_lookup_insert_ne; [by apply Hsucc|]. rewrite Forall_forall in Hlt. specialize (Hlt j Hj). lia.
    + apply list_lookup_insert_eq. by rewrite (proj1 Hsh).
  - intros Hn. left. rewrite last_snoc. f_equal. lia.
Qed.
(** Its identifier is unknown: it is not the last, or all others are through. *)
Lemma unknown_item i r ws arr unh reps errs : progress B [] (i :: r) ws arr out unh reps -> arr = Some errs -> is_add (mJob B) = false ->
  i <> pred n -> progress B [] r ws (Some (<[i := Some LOCATION_ERROR_ID_UNKNOWN]> errs)) (put i unknown) unh reps.
Proof.
  intros Hp -> Hadd Hne. destruct (at_call _ _ _ _ _ _ _ Hp) as (? & _ & Hi & -> & Hs & Hlt & [= <-] & Hnull & Hsh & Hset & Hunset & Hsucc & Hu & Hr).
  rewrite Forall_forall in Hlt.
  apply (p_running _ _ _ _ _ _ _ _ (S i) (<[i := Some LOCATION_ERROR_ID_UNKNOWN]> errs)); try done.
  - apply Forall_forall. intros j Hj. specialize (Hlt j Hj). lia.
  - by apply (shows_put i unknown).
  - intros j Hj Hni. unfold put. case_decide; [done|]. apply Hset; [lia|done].
  - intros j Hj. unfold put. rewrite decide_False; [apply Hunset; destruct Hj; [by left|right; lia]|]. intros ->. destruct Hj as [Hj|]; [|lia].
    specialize (Hlt i Hj). lia.
  - intros j Hj Hx. rewrite list_lookup_insert_ne; [by apply Hsucc|]. specialize (Hlt j Hj). lia.
  - lia.
Qed.
Lemma unknown_last i r ws arr (unh unh' : Prop) reps reps' errs : progress B [] (i :: r) ws arr out unh reps -> arr = Some errs ->
  i = pred n -> (forall j, (j < i)%nat -> is_Some (out j)) ->
  (unh' /\ reps' = [] \/ ~ unh' /\ reps' = [t_collective (mClient B) (b_no B) (<[i := Some LOCATION_ERROR_ID_UNKNOWN]> errs) (mIds B)]) ->
  progress B [] r ws None (put i unknown) unh' reps'.
Proof.
  intros Hp -> -> Hall Hrep. destruct (at_call _ _ _ _ _ _ _ Hp) as (? & _ & Hi & -> & Hs & Hlt & [= <-] & Hnull & Hsh & Hset & Hunset & Hsucc & Hu & Hr).
  rewrite Forall_forall in Hlt.
  assert (ws = []) as ->.
  { destruct ws as [|j ws]; [done|]. pose proof (Hall j (Hlt j ltac:(by left))) as [x Hx]. rewrite Hunset in Hx; [done|]. left. by left. }
  apply (p_finished _ _ _ _ _ _ _ _ (<[pred n := Some LOCATION_ERROR_ID_UNKNOWN]> errs)); try done.
  - by replace (n - S (pred n))%nat with 0%nat by lia.
  - by apply (shows_put (pred n) unknown).
  - intros j Hj. unfold put. case_decide; [done|]. apply Hall. lia.
Qed.
(** The modem has answered for the item [i], and this is what the array has. *)
Definition has_answer (i : nat) (err : Z) (errs errs' : list (option Z)) : Prop :=
  length errs' = length errs /\ (forall j, j <> i -> errs' !! j = errs !! j) /\ errs' !! i = Some (Some (shown (mJob B) (answered err))).
Lemma at_done cmds cs i r arr unh reps : progress B cmds cs (i :: r) arr out unh reps -> exists p errs, cmds = [] /\ (i < p <= n)%nat /\ cs = seq p (n - p) /\
  StronglySorted lt r /\ Forall (fun j => (i < j < p)%nat) r /\ arr = Some errs /\ null_arrays (mJob B) = false /\ shows_all B out errs /\
  (forall j, (j < p)%nat -> j ∉ i :: r -> is_Some (out j)) /\ (forall j, j ∈ i :: r \/ (p <= j)%nat -> out j = None) /\
  (forall j, j ∈ i :: r -> is_add (mJob B) = false -> errs !! j = Some (Some LOCATION_ERROR_SUCCESS)) /\
  (p = n -> last (i :: r) = Some (pred n)) /\ ~ unh /\ reps = [].
Proof.
  intros [? ? Hws|? ? Hws|p errs H1 H2 Hcs H4 H5 H6 H7 H8 H9 H10 H11 H12 H13 H14|errs ? ? Hws]; try done.
  apply Forall_cons in H5 as [Hi Hr]. apply StronglySorted_inv in H4 as [Hs Hlt]. exists p, errs. repeat split_and; try done.
  - apply Forall_forall. intros j Hj. rewrite Forall_forall in Hr, Hlt. auto.
  - intros Hp. by destruct (H12 Hp) as [|[? _]].
Qed.
Lemma has_answer_shows i err errs errs' : shows_all B out errs -> out i = None -> has_answer i err errs errs' -> shows_all B (put i (answered err)) errs'.
Proof.
  intros [H1 H2] Hn (Hl & Ho & Hi). split; [by rewrite Hl|]. intros j oc. unfold put. case_decide as Hj; [intros [= <-]; by subst|].
  intros Hx. rewrite Ho by done. by apply H2.
Qed.
Lemma done_item cs i r errs errs' err unh reps : progress B [] cs (i :: r) (Some errs) out unh reps -> has_answer i err errs errs' ->
  i <> pred n \/ (mJob B = job_resume /\ err <> LOCATION_ERROR_SUCCESS) -> progress B [] cs r (Some errs') (put i (answered err)) unh reps.
Proof.
  intros Hp Ha Hor. destruct (at_done _ _ _ _ _ _ _ Hp) as (p & ? & _ & Hi & -> & Hs & Hlt & [= <-] & Hnull & Hsh & Hset & Hunset & Hsucc & Hlast & Hu & Hr).
  rewrite Forall_forall in Hlt. apply (p_running _ _ _ _ _ _ _ _ p errs'); try done.
  - lia.
  - apply Forall_forall. intros j Hj. specialize (Hlt j Hj). lia.
  - apply (has_answer_shows i err errs); try done. apply Hunset. left. by left.
  - intros j Hj Hni. unfold put. case_decide; [done|]. apply Hset; [done|]. by intros [?|?]%elem_of_cons.
  - intros j Hj. unfold put. rewrite decide_False; [apply Hunset; destruct Hj; [left; by right|by right]|]. intros ->. destruct Hj as [Hj|]; [|lia].
    specialize (Hlt i Hj). lia.
  - intros j Hj Hx. destruct Ha as (_ & Ho & _). rewrite Ho; [by apply Hsucc; [right|]|]. specialize (Hlt j Hj). lia.
  - intros Hp'. specialize (Hlast Hp'). destruct r as [|j r]; [|by left]. right. split; [done|]. cbn in Hlast. injection Hlast as ->.
    destruct Hor as [|[Hj He]]; [done|]. split; [done|]. exists err. split; [done|]. unfold put. by rewrite decide_True.
Qed.
Lemma done_last cs i r errs errs' err (unh unh' : Prop) reps reps' : progress B [] cs (i :: r) (Some errs) out unh reps -> has_answer i err errs errs' ->
  i = pred n -> (unh' /\ reps' = [] \/ ~ unh' /\ reps' = [t_collective (mClient B) (b_no B) errs' (mIds B)]) ->
  progress B [] cs r None (put i (answered err)) unh' reps'.
Proof.
  intros Hp Ha -> Hrep. destruct (at_done _ _ _ _ _ _ _ Hp) as (p & ? & _ & Hi & -> & Hs & Hlt & [= <-] & Hnull & Hsh & Hset & Hunset & Hsucc & Hlast & Hu & Hr).
  rewrite Forall_forall in Hlt. assert (p = n) as -> by lia.
  assert (r = []) as ->. { destruct r as [|j r]; [done|]. specialize (Hlt j ltac:(by left)). lia. }
  apply (p_finished _ _ _ _ _ _ _ _ errs'); try done.
  - by replace (n - n)%nat with 0%nat by lia.
  - apply (has_answer_shows _ err errs); try done. apply Hunset. left. by left.
  - intros j Hj. unfold put. case_decide; [done|]. apply Hset; [lia|]. by intros ->%list_elem_of_singleton.
Qed.
End phases.

(** ** The steps of a command *)
Lemma finish_last B errs A : let A' := finish B (pred (mCount B)) errs A in
  arrays A' = delete (b_no B) (arrays A) /\ next_no A' = next_no A /\
  reports (b_no B) A' = reports (b_no B) A ++ (if listens (mClient B) A then [t_collective (mClient B) (b_no B) errs (mIds B)] else []) /\
  (forall b, b <> b_no B -> reports b A' = reports b A).
Proof.
  unfold finish, reportResponse, listens. rewrite Nat.eqb_refl. cbn zeta. destruct (mClientData A !! mClient B) as [cb|]; cbn [arrays set_arrays next_no reports told].
  2:{ rewrite app_nil_r. done. }
  destruct (collectiveResponseCb cb); [|rewrite app_nil_r; done]. split; [done|]. split; [done|]. unfold reports. cbn. split.
  - rewrite filter_app. f_equal. rewrite filter_cons, decide_True; [done|]. by rewrite Z.eqb_refl.
  - intros b Hb. rewrite filter_app, filter_cons, decide_False; [by rewrite app_nil_r|]. destruct (Z.eqb_spec (b_no B) b); [congruence|by intros []].
Qed.
Lemma finish_other B i errs A : i <> pred (mCount B) -> finish B i errs A = A.
Proof. intros H. unfold finish. by rewrite (proj2 (Nat.eqb_neq _ _)). Qed.
Lemma put_lookup (b : Z) (i : nat) (oc : Outcome) (o : gmap (Z * nat) Outcome) (j : nat) :
  (list_to_map [((b, i), oc)] ∪ o) !! (b, j) = put (fun j => o !! (b, j)) i oc j.
Proof.
  cbn. rewrite <- insert_union_l, (left_id_L ∅ (∪)). unfold put. rewrite lookup_insert.
  case_decide as H; case_decide as H'; try congruence.
Qed.
Lemma answering_proc_command B ms A M g b o u : ctx A = m_command B :: ms -> answering (MkWorld A M g b o u) ->
  answering (MkWorld (proc_command B (set_queues ms (api A) A)) M g b (list_to_map [] ∪ o) (∅ ∪ u)).
Proof.
  intros Hc HI. set (A0 := set_queues ms (api A) A).
  set (l := if null_arrays (mJob B) then [] else a_call B <$> seq 0 (mCount B)).
  assert (Hq : ctx (proc_command B A0) = ms /\ api (proc_command B A0) = api A ++ l).
  { unfold proc_command, l. destruct (null_arrays _); cbn; by rewrite ?app_nil_r. }
  destruct Hq as [Hc' Ha']. assert (HB : b !! b_no B = Some B) by (apply (an_ctx _ HI (m_command B)); [cbn; rewrite Hc; by left|done]).
  destruct (an_no _ HI _ _ HB) as (_ & _ & Hne & _). assert (Hn : (0 < mCount B)%nat) by (unfold mCount; destruct (mIds B); [done|cbn; lia]).
  apply (answering_mine B (m_command B) ms A _ l M g b o u [] ∅ Hc eq_refl Hc' Ha'); try done.
  - unfold l. destruct (null_arrays _); [by intros a ?%elem_of_nil|]. intros a (? & -> & _)%list_elem_of_fmap. done.
  - unfold proc_command. by destruct (null_arrays _).
  - intros b' Hb'. unfold proc_command. destruct (null_arrays _); cbn; by rewrite lookup_insert_ne.
  - intros b' _. unfold proc_command. by destruct (null_arrays _).
  - by intros b' i oc ?%elem_of_nil.
  - intros Hp. unfold progress_of in *. cbn [w_adapter w_outcomes w_unheard list_to_map foldr] in *. rewrite !(left_id_L ∅ (∪)).
    pose proof (commands_taken (b_no B) _ _ _ _ Hc Hc') as Hcm. cbn in Hcm. rewrite on_batch_eq in Hcm. cbn in Hcm.
    destruct (calls_taken (b_no B) _ _ _ _ _ Hc Hc' Ha') as (rc & Hcs & Hcs'). destruct (waits_taken (b_no B) _ _ _ _ _ Hc Hc' Ha') as (rw & Hws & Hws').
    cbn in Hcs, Hws. rewrite Hcm, Hcs, Hws in Hp. rewrite Hcs', Hws'.
    destruct Hp as [H1 H2 H3 H4 H5 H6 H7|H1|p errs H1|errs H1]; try done. injection H1 as H1. unfold commands in H1. rewrite Hc' in H1. subst rc rw. cbn [app].
    unfold proc_command, l. destruct (null_arrays (mJob B)) eqn:E.
    + apply p_null; try done. exists (replicate (mCount B) (Some LOCATION_ERROR_INVALID_PARAMETER)). cbn. by rewrite lookup_insert_eq.
    + apply (p_running _ _ _ _ _ _ _ _ 0 (replicate (mCount B) None)); try done.
      * lia.
      * rewrite Nat.sub_0_r. generalize (seq 0 (mCount B)) as il. induction il as [|i il IH]; [done|]. cbn. rewrite on_batch_eq. by f_equal.
      * replace (omap _ _) with (@nil nat); [constructor|]. generalize (seq 0 (mCount B)) as il. induction il as [|i il IH]; [done|]. done.
      * replace (omap _ _) with (@nil nat); [constructor|]. generalize (seq 0 (mCount B)) as il. induction il as [|i il IH]; [done|]. done.
      * cbn. by rewrite lookup_insert_eq.
      * split; [apply length_replicate|]. intros i oc. by rewrite H5.
      * lia.
      * intros i Hi. replace (omap _ _) with (@nil nat) in Hi; [by apply elem_of_nil in Hi|]. generalize (seq 0 (mCount B)) as il. induction il as [|i' il IH]; [done|]. done.
      * lia.
Qed.
Lemma call_cases B i A A' : proc_call B i A = Some A' -> exists errs id, arrays A !! b_no B = Some errs /\ mIds B !! i = Some id /\
  ((exists h errs', A' = call_api [a_job B i h] (set_arrays (insert (b_no B) errs') A) /\ outcome_of (m_call B i) A = [] /\
      (if is_add (mJob B) then errs' = errs else errs' = <[i := Some LOCATION_ERROR_SUCCESS]> errs)) \/
   (is_add (mJob B) = false /\ getHwIdFromClient (mClient B) id A = None /\ outcome_of (m_call B i) A = [((b_no B, i), unknown)] /\
    A' = finish B i (<[i := Some LOCATION_ERROR_ID_UNKNOWN]> errs) (write_err B i LOCATION_ERROR_ID_UNKNOWN errs A))).
Proof.
  unfold proc_call, outcome_of. intros (errs & Herr & (id & Hid & H)%bind_Some)%bind_Some. exists errs, id. split; [done|]. split; [done|].
  rewrite Hid. cbn [mbind option_bind]. destruct (mJob B) as [options infos| | | |options]; cbn [is_add].
  1: injection H as <-; left; exists 0, errs; split; [|done]; unfold set_arrays; rewrite insert_id by done; by destruct A.
  all: destruct (getHwIdFromClient (mClient B) id A) as [h|]; injection H as <-; [left; by exists h, (<[i := Some LOCATION_ERROR_SUCCESS]> errs)|by right].
Qed.
(** What is left of a command when its arrays are deleted. *)
Lemma unheard_finished B m A A' u : m = m_call B 0 \/ (exists i, m = m_call B i) \/ (exists i h err, m = m_done B i h err) ->
  is_Some (arrays A !! b_no B) -> arrays A' !! b_no B = None -> b_no B ∉ u -> b_no B ∈ unheard m A A' ∪ u <-> listens (mClient B) A = false.
Proof.
  intros Hm [errs He] Ha' Hu.
  assert (unheard m A A' = if listens (mClient B) A then ∅ else {[ b_no B ]}) as ->.
  { destruct Hm as [->|[[i ->]|(i & h & err & ->)]]; cbn; by rewrite He, Ha'. }
  destruct (listens (mClient B) A).
  - rewrite (left_id_L ∅ (∪)). done.
  - rewrite elem_of_union, elem_of_singleton. tauto.
Qed.
Lemma unheard_live B m A A' : ctx_batch m = Some B -> is_Some (arrays A' !! b_no B) -> unheard m A A' = ∅.
Proof. intros Hm [errs He]. destruct m; try done; injection Hm as ->; cbn; rewrite He; by destruct (arrays A !! b_no B). Qed.
Lemma unheard_mine B m A A' b : ctx_batch m = Some B -> b ∈ unheard m A A' -> b = b_no B.
Proof.
  intros Hm. destruct m; cbn; try (by intros ?%elem_of_empty); injection Hm as ->; destruct (arrays A !! b_no B), (arrays A' !! b_no B); try (by intros ?%elem_of_empty);
    destruct (listens (mClient B) A); try (by intros ?%elem_of_empty); by intros ?%elem_of_singleton.
Qed.
Lemma heard_or_not B A errs reps (unh : Prop) : (unh <-> listens (mClient B) A = false) ->
  reps = (if listens (mClient B) A then [t_collective (mClient B) (b_no B) errs (mIds B)] else []) ->
  unh /\ reps = [] \/ ~ unh /\ reps = [t_collective (mClient B) (b_no B) errs (mIds B)].
Proof. intros Hu ->. destruct (listens (mClient B) A); [right; split; [by rewrite Hu|done]|left; split; [by apply Hu|done]]. Qed.
Lemma answering_call B i ms A A' M g b o u : ctx A = m_call B i :: ms -> proc_call B i (set_queues ms (api A) A) = Some A' ->
  (S i = mCount B -> forall id, is_add (mJob B) = false -> mIds B !! i = Some id -> getHwIdFromClient (mClient B) id A = None ->
    forall j, (j < i)%nat -> is_Some (o !! (b_no B, j))) ->
  answering (MkWorld A M g b o u) ->
  answering (MkWorld A' M g b (list_to_map (outcome_of (m_call B i) A) ∪ o) (unheard (m_call B i) A A' ∪ u)).
Proof.
  intros Hc Hp Hlast HI. pose proof (proj2 (proj2 (call_shows _ _ _ _ Hp))) as Hc'. cbn [ctx set_queues] in Hc'.
  destruct (call_cases _ _ _ _ Hp) as (errs & id & Herr & Hid & Hcase). cbn [arrays set_queues] in Herr.
  change (outcome_of (m_call B i) (set_queues ms (api A) A)) with (outcome_of (m_call B i) A) in Hcase.
  change (getHwIdFromClient (mClient B) id (set_queues ms (api A) A)) with (getHwIdFromClient (mClient B) id A) in Hcase.
  assert (Hi : (i < mCount B)%nat) by (by apply lookup_lt_Some in Hid).
  destruct Hcase as [(h & errs' & -> & -> & Herr')|(Hadd & Hget & -> & ->)].
  - rewrite (unheard_live B (m_call B i) A) by (cbn; rewrite ?lookup_insert_eq; eauto).
    apply (answering_mine B (m_call B i) ms A _ [a_job B i h] M g b o u [] ∅ Hc eq_refl Hc'); try done.
    + by intros a ->%list_elem_of_singleton.
    + intros b' Hb'. cbn. by rewrite lookup_insert_ne.
    + by intros b' j oc ?%elem_of_nil.
    + intros Hpr. unfold progress_of in *. cbn [w_adapter w_outcomes w_unheard list_to_map foldr] in *. rewrite !(left_id_L ∅ (∪)).
      pose proof (commands_taken (b_no B) _ _ _ _ Hc Hc') as Hcm.
      destruct (calls_taken (b_no B) _ _ _ _ [a_job B i h] Hc Hc' eq_refl) as (rc & Hcs & Hcs'). destruct (waits_taken (b_no B) _ _ _ _ [a_job B i h] Hc Hc' eq_refl) as (rw & Hws & Hws').
      cbn [call_of acall_of done_of job_of omap list_omap option_list option_rect app] in Hcm, Hcs, Hws, Hcs', Hws'. rewrite on_batch_eq in Hcs, Hws'. rewrite app_nil_r in Hcs'.
      rewrite Hcm, Hcs, Hws in Hpr. cbn [option_list option_rect app] in Hcm, Hpr. rewrite Hcs', Hws'. destruct (at_call _ _ _ _ _ _ _ _ _ Hpr) as (errs0 & Hcmd & _). rewrite Hcmd in *. cbn [arrays call_api set_arrays]. rewrite lookup_insert_eq.
      eapply sent_item; [exact Hpr|]. cbn. rewrite Herr. by intros ? [= <-].
  - set (errs' := <[i := Some LOCATION_ERROR_ID_UNKNOWN]> errs). set (A1 := write_err B i LOCATION_ERROR_ID_UNKNOWN errs (set_queues ms (api A) A)).
    set (A' := finish B i errs' A1). fold errs' A1 A' in Hc', Hp.
    assert (Ha' : api A' = api A ++ []) by (unfold A'; by rewrite finish_api).
    assert (Hfin : (i <> pred (mCount B) /\ A' = A1) \/ i = pred (mCount B)).
    { destruct (decide (i = pred (mCount B))); [by right|left; split; [done|]]. unfold A'. by rewrite finish_other. }
    pose proof (finish_last B errs' A1) as Hlst.
    apply (answering_mine B (m_call B i) ms A A' [] M g b o u _ _ Hc eq_refl Hc' Ha'); try done.
    + by intros a ?%elem_of_nil.
    + destruct Hfin as [[_ ->]|He]; [done|]. unfold A'. rewrite He. by destruct Hlst as (_ & -> & _).
    + intros b' Hb'. destruct Hfin as [[_ ->]|He]; [cbn; by rewrite lookup_insert_ne|]. unfold A'. rewrite He. destruct Hlst as (-> & _).
      rewrite lookup_delete_ne by done. cbn. by rewrite lookup_insert_ne.
    + intros b' Hb'. destruct Hfin as [[_ ->]|He]; [done|]. unfold A'. rewrite He. destruct Hlst as (_ & _ & _ & ->); [done|]. done.
    + by intros b' j oc [= -> -> ->]%list_elem_of_singleton.
    + intros b'. by apply unheard_mine.
    + intros Hpr. unfold progress_of in *. cbn [w_adapter w_outcomes w_unheard] in *.
      pose proof (commands_taken (b_no B) _ _ _ _ Hc Hc') as Hcm.
      destruct (calls_taken (b_no B) _ _ _ _ [] Hc Hc' Ha') as (rc & Hcs & Hcs'). destruct (waits_taken (b_no B) _ _ _ _ [] Hc Hc' Ha') as (rw & Hws & Hws').
      cbn [call_of acall_of done_of job_of omap list_omap option_list option_rect app] in Hcm, Hcs, Hws, Hcs', Hws'. rewrite on_batch_eq in Hcs. rewrite app_nil_r in Hcs', Hws'.
      rewrite Hcm, Hcs, Hws in Hpr. cbn [option_list option_rect app] in Hcm, Hpr. rewrite Hcs', Hws'.
      destruct (at_call _ _ _ _ _ _ _ _ _ Hpr) as (errs0 & Hcmd & _ & _ & _ & _ & _ & _ & _ & _ & _ & _ & Hu & Hr). rewrite Hcmd in Hpr |- *.
      assert (Hput : forall j, (list_to_map [((b_no B, i), unknown)] ∪ o) !! (b_no B, j) = put (fun j => o !! (b_no B, j)) i unknown j) by (intros; apply put_lookup).
      destruct Hfin as [[Hne ->]|He].
      * rewrite (unheard_live B (m_call B i) A A1) by (cbn; rewrite ?lookup_insert_eq; eauto). rewrite (left_id_L ∅ (∪)).
        eapply progress_ext; [reflexivity|reflexivity|reflexivity| |exact Hput|reflexivity| |eapply (unknown_item B _ i rc rw _ _ _ errs); [exact Hpr|done|done|done]]; [cbn; by rewrite lookup_insert_eq|done].
      * assert (Hgone : arrays A' !! b_no B = None) by (unfold A'; rewrite He; destruct Hlst as (-> & _); apply lookup_delete_eq).
        pose proof (unheard_finished B (m_call B i) A A' u ltac:(eauto) ltac:(eauto) Hgone Hu) as Hun.
        eapply progress_ext; [reflexivity|reflexivity|reflexivity|exact Hgone|exact Hput|exact Hun|reflexivity|].
        eapply (unknown_last B _ i rc rw _ _ _ _ _ errs); [exact Hpr|done|done|..].
        -- intros j Hj. apply (Hlast ltac:(lia) id); done.
        -- apply (heard_or_not B A); [done|]. unfold A'. rewrite He. destruct Hlst as (_ & _ & -> & _). unfold errs'. rewrite He.
           change (reports (b_no B) A1) with (reports (b_no B) A). rewrite Hr. done.
Qed.
Definition only_maps A A1 : Prop := arrays A1 = arrays A /\ mClientData A1 = mClientData A /\ told A1 = told A /\ next_no A1 = next_no A.
Lemma only_maps_remove h A : only_maps A (removeGeofenceItem h A).
Proof. unfold only_maps, removeGeofenceItem. destruct (getGeofenceKeyFromHwId h A) as [k|]; [|done]. by destruct (mGeofenceIds A !! k). Qed.
Lemma done_forms B i h err A A' errs : proc_done B i h err A = Some A' -> arrays A !! b_no B = Some errs -> (i < length errs)%nat ->
  (is_add (mJob B) = false -> errs !! i = Some (Some LOCATION_ERROR_SUCCESS)) ->
  exists errs' A1, has_answer B i err errs errs' /\ arrays A1 = <[b_no B := errs']> (arrays A) /\ mClientData A1 = mClientData A /\ told A1 = told A /\
    next_no A1 = next_no A /\ (A' = finish B i errs' A1 \/ mJob B = job_resume /\ err <> LOCATION_ERROR_SUCCESS /\ A' = A1).
Proof.
  intros Hp Herr Hi Hsucc.
  assert (Hwrite : forall A1, only_maps A A1 -> Some A' = (errs ← arrays A1 !! b_no B; Some (finish B i (<[i := Some err]> errs) (write_err B i err errs A1))) ->
    err = shown (mJob B) (answered err) -> exists errs' A1, has_answer B i err errs errs' /\ arrays A1 = <[b_no B := errs']> (arrays A) /\ mClientData A1 = mClientData A /\ told A1 = told A /\
    next_no A1 = next_no A /\ (A' = finish B i errs' A1 \/ mJob B = job_resume /\ err <> LOCATION_ERROR_SUCCESS /\ A' = A1)).
  { intros A1 (Ha & Hc & Ht & Hn) He Hsh. rewrite Ha, Herr in He. cbn in He. injection He as ->. exists (<[i := Some err]> errs), (write_err B i err errs A1).
    split; [|cbn; rewrite Ha; split; [done|split; [done|split; [done|split; [done|by left]]]]].
    split; [apply length_insert|]. split; [intros j Hj; by rewrite list_lookup_insert_ne|]. rewrite <- Hsh. by apply list_lookup_insert_eq. }
  assert (Hsame : is_add (mJob B) = false -> shown (mJob B) (answered err) = LOCATION_ERROR_SUCCESS -> has_answer B i err errs errs).
  { intros Hadd Hsh. split; [done|]. split; [done|]. rewrite Hsh. by apply Hsucc. }
  assert (Hid : <[b_no B := errs]> (arrays A) = arrays A) by by apply insert_id.
  pose proof (only_maps_remove h A) as Hrem.
  unfold proc_done in Hp. destruct (Z.eqb_spec err LOCATION_ERROR_SUCCESS) as [He|He].
  - destruct (mJob B) as [options infos| | | |options] eqn:Hj.
    + apply bind_Some in Hp as (? & _ & (id & _ & (o & _ & (info & _ & Hp)%bind_Some)%bind_Some)%bind_Some).
      by apply (Hwrite (saveGeofenceItem (mClient B) id h o info A)).
    + by apply (Hwrite (removeGeofenceItem h A)).
    + by apply (Hwrite (pauseGeofenceItem h A)).
    + by apply (Hwrite (resumeGeofenceItem h A)).
    + apply bind_Some in Hp as (? & _ & (o & _ & Hp)%bind_Some). by apply (Hwrite (modifyGeofenceItem h o A)).
  - destruct (mJob B) as [options infos| | | |options] eqn:Hj.
    + by apply (Hwrite A).
    + by apply (Hwrite A).
    + by apply (Hwrite A).
    + injection Hp as <-. exists errs, A. split; [by apply Hsame|]. rewrite Hid. auto 10.
    + exists errs, A. split; [by apply Hsame|]. rewrite Hid. repeat (split; [done|]). left. destruct (i =? pred (mCount B))%nat eqn:E.
      * rewrite Herr in Hp. by injection Hp as <-.
      * injection Hp as <-. unfold finish. by rewrite E.
Qed.
Lemma answering_done B i h err ms A A' M g b o u : ctx A = m_done B i h err :: ms -> proc_done B i h err (set_queues ms (api A) A) = Some A' ->
  answering (MkWorld A M g b o u) ->
  answering (MkWorld A' M g b (list_to_map (outcome_of (m_done B i h err) A) ∪ o) (unheard (m_done B i h err) A A' ∪ u)).
Proof.
  intros Hc Hp HI. destruct (answer_shows _ _ _ _ _ _ Hp) as (_ & Hc' & Ha'). cbn [ctx api set_queues] in Hc', Ha'. rewrite <- (app_nil_r (api A)) in Ha'.
  set (m := m_done B i h err) in *. cbn [outcome_of m].
  assert (HB : b !! b_no B = Some B) by (apply (an_ctx _ HI m); [cbn; rewrite Hc; by left|done]).
  pose proof (an_progress _ HI _ _ HB) as Hpr. unfold progress_of in Hpr. cbn [w_adapter w_outcomes w_unheard] in Hpr.
  pose proof (commands_taken (b_no B) _ _ _ _ Hc Hc') as Hcm.
  destruct (calls_taken (b_no B) _ _ _ _ [] Hc Hc' Ha') as (rc & Hcs & Hcs'). destruct (waits_taken (b_no B) _ _ _ _ [] Hc Hc' Ha') as (rw & Hws & Hws').
  cbn [call_of acall_of done_of job_of omap list_omap option_list option_rect app m] in Hcm, Hcs, Hws, Hcs', Hws'. rewrite on_batch_eq in Hws. rewrite app_nil_r in Hcs', Hws'.
  rewrite Hcm, Hcs, Hws in Hpr. cbn [option_list option_rect app] in Hcm, Hpr.
  destruct (at_done _ _ _ _ _ _ _ _ _ Hpr) as (p & errs & Hcmd & Hi & _ & _ & _ & Herr & _ & Hsh & _ & _ & Hsucc & _ & Hu & Hr). rewrite Hcmd, Herr in Hpr.
  destruct (done_forms _ _ _ _ _ _ errs Hp Herr) as (errs' & A1 & Hans & Harr1 & Hcl1 & Ht1 & Hn1 & Hform); [rewrite (proj1 Hsh); lia|apply Hsucc; by left|].
  cbn [arrays mClientData told next_no set_queues] in Harr1, Hcl1, Ht1, Hn1. pose proof (finish_last B errs' A1) as Hlst.
  assert (Hrep1 : forall b', reports b' A1 = reports b' A) by (intros; unfold reports; by rewrite Ht1).
  assert (Hput : forall j, (list_to_map [((b_no B, i), answered err)] ∪ o) !! (b_no B, j) = put (fun j => o !! (b_no B, j)) i (answered err) j) by (intros; apply put_lookup).
  (* the arrays stay, or this is the last item and they are deleted *)
  assert (Hcase : (A' = A1 /\ (i <> pred (mCount B) \/ mJob B = job_resume /\ err <> LOCATION_ERROR_SUCCESS)) \/ (i = pred (mCount B) /\ A' = finish B (pred (mCount B)) errs' A1)).
  { destruct Hform as [->|(Hj & He & ->)]; [|by left; auto]. destruct (decide (i = pred (mCount B))) as [->|Hne]; [by right|]. left. rewrite finish_other by done. auto. }
  clear Hform. apply (answering_mine B m ms A A' [] M g b o u _ _ Hc eq_refl Hc' Ha'); try done.
  - by intros a ?%elem_of_nil.
  - destruct Hcase as [[-> _]|[_ ->]]; [done|]. destruct Hlst as (_ & -> & _). done.
  - intros b' Hb'. destruct Hcase as [[-> _]|[_ ->]]; [|destruct Hlst as (-> & _); rewrite lookup_delete_ne by done]; rewrite Harr1; by rewrite lookup_insert_ne.
  - intros b' Hb'. destruct Hcase as [[-> _]|[_ ->]]; [done|]. destruct Hlst as (_ & _ & _ & ->); done.
  - by intros b' j oc [= -> -> ->]%list_elem_of_singleton.
  - intros b'. by apply unheard_mine.
  - intros _. unfold progress_of. cbn [w_adapter w_outcomes w_unheard]. rewrite Hcs', Hws', Hcmd. destruct Hcase as [[-> Hor]|[He ->]].
    + rewrite (unheard_live B m A A1) by (rewrite ?Harr1, ?lookup_insert_eq; eauto). rewrite (left_id_L ∅ (∪)).
      eapply progress_ext; [reflexivity|reflexivity|reflexivity|rewrite Harr1; apply lookup_insert_eq|exact Hput|reflexivity|apply Hrep1|].
      by apply (done_item B _ _ i rw errs).
    + assert (Hgone : arrays (finish B (pred (mCount B)) errs' A1) !! b_no B = None) by (destruct Hlst as (-> & _); apply lookup_delete_eq).
      pose proof (unheard_finished B m A (finish B (pred (mCount B)) errs' A1) u) as Hun.
      eapply progress_ext; [reflexivity|reflexivity|reflexivity|exact Hgone|exact Hput|apply Hun; eauto 10|reflexivity|].
      eapply (done_last B _ _ i rw errs errs'); [exact Hpr|done|done|]. apply (heard_or_not B A); [done|].
      destruct Hlst as (_ & _ & -> & _). rewrite Hrep1, Hr. unfold listens. by rewrite Hcl1.
Qed.

(** The next message is always defined. *)
Lemma answering_defined A M g b o u : answering (MkWorld A M g b o u) -> is_Some (ctx_step A).
Proof.
  intros HI. unfold ctx_step. destruct (ctx A) as [|m ms] eqn:Hc; [by eexists|].
  destruct m as [c cb|c|B|B i|B i h err|h err| |o' h err| |hws type|av]; cbn [proc]; try by eexists.
  - assert (HB : b !! b_no B = Some B) by (apply (an_ctx _ HI (m_call B i)); [cbn; rewrite Hc; by left|done]).
    pose proof (an_progress _ HI _ _ HB) as Hpr. unfold progress_of in Hpr. cbn [w_adapter] in Hpr. unfold calls in Hpr. rewrite Hc in Hpr.
    cbn [omap list_omap call_of] in Hpr. rewrite on_batch_eq in Hpr. cbn [app] in Hpr.
    destruct (at_call _ _ _ _ _ _ _ _ _ Hpr) as (errs & _ & Hi & _ & _ & _ & Herr & _). unfold proc_call. cbn [arrays set_queues]. rewrite Herr. cbn.
    destruct (lookup_lt_is_Some_2 (mIds B) i Hi) as [id ->]. cbn. repeat case_match; by eexists.
  - assert (HB : b !! b_no B = Some B) by (apply (an_ctx _ HI (m_done B i h err)); [cbn; rewrite Hc; by left|done]).
    destruct (an_no _ HI _ _ HB) as (_ & _ & _ & Hfull). pose proof (an_progress _ HI _ _ HB) as Hpr. unfold progress_of in Hpr. cbn [w_adapter] in Hpr.
    unfold waits in Hpr. rewrite Hc in Hpr. cbn [omap list_omap done_of] in Hpr. rewrite on_batch_eq in Hpr. cbn [app] in Hpr.
    destruct (at_done _ _ _ _ _ _ _ _ _ Hpr) as (p & errs & _ & [Hi Hpn] & _ & _ & _ & Herr & Hnull & _). assert (Hin : (i < mCount B)%nat) by lia.
    unfold proc_done. destruct (lookup_lt_is_Some_2 (mIds B) i Hin) as [id Hid].
    assert (Hopt : forall X (l : option (list X)), full (mCount B) l -> is_Some l -> exists x, l ≫= lookup i = Some x).
    { intros X l Hl [x ->]. specialize (Hl x eq_refl). destruct (lookup_lt_is_Some_2 x i) as [y Hy]; [lia|]. by exists y. }
    destruct (mJob B) as [options infos| | | |options]; cbn [null_arrays] in Hnull.
    + destruct Hfull as [Hf1 Hf2]. destruct options as [options|]; [|done]. destruct infos as [infos|]; [|done].
      destruct (Hopt _ _ Hf1) as [x Hx]; [by eexists|]. destruct (Hopt _ _ Hf2) as [y Hy]; [by eexists|].
      destruct (err =? _); cbn [arrays set_queues saveGeofenceItem set_maps]; rewrite ?Herr; cbn [mbind option_bind]; [|by eexists]. rewrite Hid. cbn [mbind option_bind] in *. rewrite Hx, Hy. cbn. rewrite ?Herr. by eexists.
    + destruct (err =? _); rewrite ?(proj1 (only_maps_remove _ _)); cbn [arrays set_queues]; rewrite ?Herr; by eexists.
    + destruct (err =? _); cbn; rewrite ?Herr; by eexists.
    + destruct (err =? _); cbn; rewrite ?Herr; by eexists.
    + destruct options as [options|]; [|done]. destruct (Hopt _ _ Hfull) as [x Hx]; [by eexists|]. cbn [mbind option_bind] in Hx.
      destruct (err =? _); cbn [arrays set_queues mbind option_bind]; rewrite ?Herr; cbn [mbind option_bind].
      * rewrite Hx. cbn. rewrite ?Herr. by eexists.
      * destruct (_ =? _)%nat; by eexists.
Qed.
Lemma answering_new : answering new_world.
Proof.
  constructor; cbn; try (by intros ? ? ?%elem_of_nil); try done.
Qed.
Lemma answering_next w w' : step w w' -> last_known w w' -> answering w -> answering w'.
Proof.
  intros Hs Hlast HI. destruct Hs as [op A M g b o u Hwf|A A' M g b o u m ms Hc Hstep|A M M' g b o u m ms hw err Ha Hm|A M g b o u hws type|A M g b o u av|A M g b o u].
  - by apply answering_client.
  - unfold ctx_step in Hstep. rewrite Hc in Hstep. destruct (ctx_batch m) as [B|] eqn:Hm; [|by eapply answering_other].
    destruct m as [| |B'|B' i|B' i h err| | | | | |]; try done; cbn [ctx_batch] in Hm; injection Hm as ->; cbn [proc] in Hstep.
    + injection Hstep as <-. by apply answering_proc_command.
    + eapply answering_call; [exact Hc|exact Hstep| |exact HI]. intros Hi id Hadd Hid Hget j Hj. by eapply (Hlast B i id ms Hc).
    + by eapply answering_done.
  - by eapply answering_api.
  - destruct hws; [done|]. by eapply answering_send.
  - by eapply answering_send.
  - by eapply answering_send.
Qed.
Lemma answering_reachable w : reachable_by last_known w -> answering w.
Proof. apply reachable_by_inv; [apply answering_new|]. intros w1 w2 _ Hs Hl. by apply answering_next. Qed.
