(* ===== verification/GeofenceAdapterTheorems.v ===== *)
(** * The geofence adapter: what is proved of it *)
From stdpp Require Import sorting.
From S2P Require Import Prelude PbConsts GnssTracking LocationApiClient GeofenceAdapter GeofenceAdapterSpec GeofenceAdapterOwned GeofenceAdapterAnswers.
#[local] Open Scope Z_scope.

(** ** Behaviours that can be computed *)
Inductive Action := do_client (op : ClientOp) | do_ctx | do_api (hwId err : Z) | do_restart.
Definition act (a : Action) (w : World) : option World :=
  let '(MkWorld A M g b o u) := w in
  match a with
  | do_client op => Some (MkWorld (client op A) M g (list_to_map (commanded (client op A)) ∪ b) o u)
  | do_ctx => match ctx A with
              | [] => None
              | m :: _ => A' ← ctx_step A; Some (MkWorld A' M g b (list_to_map (outcome_of m A) ∪ o) (unheard m A A' ∪ u))
              end
  | do_api hwId err => match api A with
              | [] => None
              | m :: _ => M' ← modem m hwId err M; Some (MkWorld (api_step hwId err A) M' (given_by m hwId err ∪ g) b o u)
              end
  | do_restart => Some (MkWorld (handleEngineUpEvent A) ∅ g b o u)
  end.
Definition well_formed_action (a : Action) : Prop := match a with do_client op => well_formed op | _ => True end.
Lemma act_step a w w' : well_formed_action a -> act a w = Some w' -> step w w'.
Proof.
  destruct w as [A M g b o u]. destruct a as [op| |hw err|]; cbn; intros Hwf.
  - intros [= <-]. by constructor.
  - destruct (ctx A) as [|m ms] eqn:Hc; [done|]. intros (A' & Hs & [= <-])%bind_Some. by econstructor.
  - destruct (api A) as [|m ms] eqn:Ha; [done|]. intros (M' & Hm & [= <-])%bind_Some. by econstructor.
  - intros [= <-]. constructor.
Qed.
(** Each step of a computed behaviour is one of the world, under a condition that is decided. *)
Fixpoint acts (check : World -> World -> bool) (l : list Action) (w : World) : option World :=
  match l with
  | [] => Some w
  | a :: l => w' ← act a w; if check w w' then acts check l w' else None
  end.
Lemma acts_reachable_by (R : World -> World -> Prop) check l w w' : (forall w w', check w w' = true -> R w w') -> Forall well_formed_action l ->
  reachable_by R w -> acts check l w = Some w' -> reachable_by R w'.
Proof.
  intros HR. revert w. induction l as [|a l IH]; intros w Hwf Hr; cbn; [by intros [= <-]|]. apply Forall_cons in Hwf as [Ha Hwf].
  intros (w1 & H1 & H2)%bind_Some. destruct (check w w1) eqn:E; [|done]. apply (IH w1 Hwf); [|done]. eapply rtc_r; [exact Hr|]. split; [by apply (act_step a)|auto].
Qed.
Definition no_check (w w' : World) : bool := true.
Lemma acts_reachable l w : Forall well_formed_action l -> acts no_check l new_world = Some w -> reachable w.
Proof.
  intros Hwf Hl. pose proof (acts_reachable_by (fun _ _ => True) no_check l new_world w ltac:(done) Hwf (rtc_refl _ _) Hl) as H.
  unfold reachable, reachable_by in *. eapply rtc_subrel; [|exact H]. by intros ? ? [].
Qed.
Definition reuse_check (w w' : World) : bool := bool_decide ((dom (w_modem w') ∖ dom (w_modem w)) ∩ w_given w = ∅).
Lemma reuse_check_ok w w' : reuse_check w w' = true -> never_reused w w'.
Proof.
  intros H%bool_decide_eq_true hw Hn Hs Hg. assert (hw ∈ (dom (w_modem w') ∖ dom (w_modem w)) ∩ w_given w) as Hin; [|by rewrite H in Hin].
  apply elem_of_intersection. split; [|done]. apply elem_of_difference. split; [by apply elem_of_dom|by apply not_elem_of_dom].
Qed.
Definition last_check (w w' : World) : bool :=
  match ctx (w_adapter w) with
  | m_call B i :: _ =>
      if (S i =? mCount B)%nat && negb (is_add (mJob B)) &&
         match mIds B !! i with Some id => match getHwIdFromClient (mClient B) id (w_adapter w) with None => true | _ => false end | None => false end
      then forallb (fun j => match w_outcomes w !! (b_no B, j) with Some _ => true | None => false end) (seq 0 i)
      else true
  | _ => true
  end.
Lemma last_check_ok w w' : last_check w w' = true -> last_known w w'.
Proof.
  unfold last_check. intros H B i id ms Hc Hi Hadd Hid Hget j Hj. rewrite Hc, Hi, Nat.eqb_refl, Hadd, Hid, Hget in H. cbn [andb negb] in H.
  rewrite forallb_forall in H. specialize (H j ltac:(apply in_seq; lia)). by destruct (w_outcomes w !! (b_no B, j)).
Qed.

(** ** The modem's geofences are known *)
(** C31. Whatever clients do and the modem answers, restarts included, when the messages of the
    context's thread are done every geofence of the modem is in the adapter's map, with the
    options and the place it has; and if the adapter has it paused, then it is paused. *)
Theorem modem_mirrored w : reachable w -> ctx (w_adapter w) = [] -> forall hwId f, w_modem w !! hwId = Some f ->
  exists o, mGeofences (w_adapter w) !! hwId = Some o /\ covers (fence_of o) f.
Proof.
  intros Hr Hc hwId f Hf. assert (Hm : mirrored w).
  { revert Hr. apply (reachable_inv mirrored); [|intros; by eapply mirrored_step]. intros hw f' Hx. exact (False_ind _ (lookup_empty_Some _ _ Hx)). }
  destruct (Hm hwId f Hf) as (f' & Hk & Hcov). unfold known in Hk. rewrite Hc in Hk. cbn in Hk.
  apply fmap_Some in Hk as (o & Ho & ->). by exists o.
Qed.

(** A breach goes to one client. *)
Lemma by_key_single {V} (m : gmap Z V) (c : Z) {X} (f : Z * V -> option X) : (forall k x, k <> c -> f (k, x) = None) ->
  omap f (by_key m) = match m !! c with Some x => option_list (f (c, x)) | None => [] end.
Proof.
  intros Hf. assert (Hnd : NoDup (by_key m).*1) by (unfold by_key; rewrite merge_sort_Permutation; apply NoDup_fst_map_to_list).
  assert (Hin : forall x, (c, x) ∈ by_key m <-> m !! c = Some x) by (intros; apply by_key_elem).
  induction (by_key m) as [|[k x] l IH].
  - destruct (m !! c) as [x|] eqn:E; [|done]. exfalso. by apply (elem_of_nil (c, x)), Hin.
  - cbn in Hnd. apply NoDup_cons in Hnd as [Hk Hnd]. cbn [omap list_omap]. destruct (decide (k = c)) as [->|Hne].
    + rewrite (proj1 (Hin x)) by by left. assert (omap f l = []) as ->; [|by destruct (f (c, x))].
      clear -Hf Hk. induction l as [|[k' x'] l IH]; [done|]. cbn in Hk. rewrite not_elem_of_cons in Hk. cbn. rewrite Hf by (intros ->; tauto). apply IH; tauto.
    + rewrite Hf by done. apply IH; [done|]. intros x'. rewrite <- Hin, elem_of_cons. split; [auto|]. intros [[= -> ->]|]; done.
Qed.
(** C30. As long as the modem never gives a geofence an identifier that it gave before, not after a
    restart either ([never_reused]), when the messages of the context's thread are done each identifier that a client has stands for a geofence
    of the modem, the client's, with its options and place; and a breach of it is told to
    that client alone, by that identifier. *)
Theorem identifiers_stand w c id hwId type : reachable_by never_reused w -> ctx (w_adapter w) = [] ->
  mGeofenceIds (w_adapter w) !! (c, id) = Some hwId ->
  (exists o f, mGeofences (w_adapter w) !! hwId = Some o /\ o_key o = (c, id) /\ w_modem w !! hwId = Some f /\ covers (fence_of o) f) /\
  told (geofenceBreach [hwId] type (w_adapter w)) = told (w_adapter w) ++
    match mClientData (w_adapter w) !! c with
    | Some callbacks => if geofenceBreachCb callbacks then [t_breach c [id] type] else []
    | None => []
    end.
Proof.
  intros Hr Hc Hid. pose proof (owned_reachable w Hr) as Hown. destruct (ow_key _ Hown _ _ Hid) as (o & Ho & Hk). split.
  - assert (is_Some (w_modem w !! hwId)) as [f Hf].
    { apply (ow_alive _ Hown hwId true); [intros _; by exists (c, id)|]. by rewrite Hc. }
    exists o, f. split; [done|]. split; [done|]. split; [done|].
    assert (Hm : mirrored w).
    { revert Hr. apply reachable_by_inv; [|intros; by eapply mirrored_step]. intros hw f' Hx. exact (False_ind _ (lookup_empty_Some _ _ Hx)). }
    destruct (Hm hwId f Hf) as (f' & Hkn & Hcov). unfold known in Hkn. rewrite Hc, Ho in Hkn. cbn in Hkn. by injection Hkn as ->.
  - unfold geofenceBreach. cbn [told tell]. f_equal. unfold getGeofenceKeyFromHwId. cbn [omap list_omap]. rewrite Ho. cbn [fmap option_fmap option_map]. rewrite Hk.
    rewrite (by_key_single _ c).
    + destruct (mClientData (w_adapter w) !! c) as [cb|]; [|done]. cbn. rewrite Z.eqb_refl. cbn. by destruct (geofenceBreachCb cb).
    + intros k x Hne. cbn. by rewrite (proj2 (Z.eqb_neq c k)) by congruence.
Qed.

(** ** Commands are answered *)
(** C29. As long as the last identifier of a command is not found unknown while other items of
    it wait for the modem, no message is undefined: no closure touches arrays that are
    deleted.  And when all messages are done, a command without its arrays of options or places was
    never answered and its errors are still there; and each other command has been
    answered: its arrays are deleted, and its client, if it was there, was told once, of
    all its items, each unknown or with the answer of the modem, of which refusals to resume and
    to modify are [shown] as successes; or it is a resumption whose last item failed, which
    nobody is told of. *)
Theorem commands_answered w : reachable_by last_known w ->
  is_Some (ctx_step (w_adapter w)) /\
  (ctx (w_adapter w) = [] -> api (w_adapter w) = [] -> forall no B, w_batches w !! no = Some B ->
     let out i := w_outcomes w !! (no, i) in
     if null_arrays (mJob B) then is_Some (arrays (w_adapter w) !! no) /\ reports no (w_adapter w) = [] else
     (mJob B = job_resume /\ (exists err, err <> LOCATION_ERROR_SUCCESS /\ out (pred (mCount B)) = Some (answered err)) /\
        is_Some (arrays (w_adapter w) !! no) /\ reports no (w_adapter w) = []) \/
     (arrays (w_adapter w) !! no = None /\ exists errs, length errs = mCount B /\
        (forall i, (i < mCount B)%nat -> exists oc, out i = Some oc /\ errs !! i = Some (Some (shown (mJob B) oc))) /\
        (no ∈ w_unheard w /\ reports no (w_adapter w) = [] \/
         no ∉ w_unheard w /\ reports no (w_adapter w) = [t_collective (mClient B) no errs (mIds B)]))).
Proof.
  intros Hr. pose proof (answering_reachable w Hr) as HI. split; [destruct w; by eapply answering_defined|].
  intros Hc Ha no B HB out. destruct (an_no _ HI _ _ HB) as (<- & _ & Hne & _). pose proof (an_progress _ HI _ _ HB) as Hp.
  unfold progress_of, commands, calls, waits in Hp. rewrite Hc, Ha in Hp. cbn in Hp.
  assert (Hn : (0 < mCount B)%nat) by (unfold mCount; destruct (mIds B); [done|cbn; lia]).
  destruct Hp as [?|_ _ _ Hnull Harr _ _ Hrep|p errs _ Hpn Hcs _ _ Harr Hnull _ _ _ _ Hend Hu Hrep|errs _ _ _ Harr Hnull [Hlen Hsh] Hall Hrep]; [done|rewrite Hnull..]; [done| |].
  - left. assert (p = mCount B) as -> by (destruct (mCount B - p)%nat eqn:E; [lia|done]). destruct (Hend eq_refl) as [?|[_ [Hj Hlost]]]; [done|].
    split; [done|]. split; [done|]. split; [by rewrite Harr|done].
  - right. split; [done|]. exists errs. split; [done|]. split; [|done]. intros i Hi. destruct (Hall i Hi) as [oc Hoc]. exists oc. split; [done|]. by apply Hsh.
Qed.

(** ** Computed behaviours *)

(** A client adds two geofences, which the modem takes; the identifiers are 2 and 3. *)
Definition some_option : GeofenceOption := MkGeofenceOption 3 5000 0.
Definition some_info : GeofenceInfo := MkGeofenceInfo 10 20 30.
Definition added : list Action :=
  [do_client (c_addClient 1 (MkCallbacks true true true)); do_ctx;
   do_client (c_add 1 2 (Some [some_option; some_option]) (Some [some_info; some_info])); do_ctx;
   do_api 0 0; do_api 0 0; do_ctx; do_ctx; do_api 7 0; do_api 8 0; do_ctx; do_ctx].
(** A command on items that the modem is asked for, answered with these errors. *)
Definition commanded_with (op : ClientOp) (n : nat) (errs : list Z) : list Action :=
  [do_client op; do_ctx] ++ replicate n (do_api 0 0) ++ replicate n do_ctx ++ (do_api 0 <$> errs) ++ replicate (length errs) do_ctx.
Lemma added_ok : Forall well_formed_action added.
Proof. repeat constructor; cbn; intros ? [= <-]; done. Qed.
Lemma commanded_ok op n errs : well_formed op -> Forall well_formed_action (commanded_with op n errs).
Proof.
  intros Hop. unfold commanded_with. rewrite !Forall_app. split; [by repeat constructor|]. split; [by apply Forall_replicate|]. split; [by apply Forall_replicate|].
  split; [|by apply Forall_replicate]. apply Forall_fmap, Forall_forall. done.
Qed.
Definition world_of (l : list Action) : World := default new_world (acts no_check l new_world).
Lemma modem_mirrored_witness : reachable (world_of added) /\ ctx (w_adapter (world_of added)) = [] /\
  exists o, mGeofences (w_adapter (world_of added)) !! 7 = Some o /\ covers (fence_of o) (new_fence some_option some_info).
Proof.
  assert (Hr : reachable (world_of added)) by (apply (acts_reachable added); [apply added_ok|vm_compute; reflexivity]).
  split; [exact Hr|]. split; [vm_compute; reflexivity|]. apply (modem_mirrored _ Hr); vm_compute; reflexivity.
Defined.
Lemma identifiers_stand_witness : reachable_by never_reused (world_of added) /\ ctx (w_adapter (world_of added)) = [] /\
  mGeofenceIds (w_adapter (world_of added)) !! (1, 3) = Some 8 /\
  told (geofenceBreach [8] 0 (w_adapter (world_of added))) = told (w_adapter (world_of added)) ++ [t_breach 1 [3] 0].
Proof.
  assert (Hr : reachable_by never_reused (world_of added)).
  { apply (acts_reachable_by _ reuse_check added new_world); [apply reuse_check_ok|apply added_ok|apply rtc_refl|vm_compute; reflexivity]. }
  split; [exact Hr|]. split; [vm_compute; reflexivity|]. split; [vm_compute; reflexivity|].
  destruct (identifiers_stand _ 1 3 8 0 Hr ltac:(vm_compute; reflexivity) ltac:(vm_compute; reflexivity)) as [_ ->]. vm_compute. reflexivity.
Defined.
(** The second geofence cannot be paused; its client is told. *)
Definition paused : list Action := added ++ commanded_with (c_pause 1 [2; 3]) 2 [0; 1].
Lemma paused_ok : Forall well_formed_action paused.
Proof. apply Forall_app. split; [apply added_ok|by apply commanded_ok]. Qed.
Lemma commands_answered_witness : reachable_by last_known (world_of paused) /\
  reports 1 (w_adapter (world_of paused)) = [t_collective 1 1 [Some 0; Some 1] [2; 3]].
Proof.
  assert (Hr : reachable_by last_known (world_of paused)).
  { apply (acts_reachable_by _ last_check paused new_world); [apply last_check_ok|apply paused_ok|apply rtc_refl|vm_compute; reflexivity]. }
  split; [exact Hr|]. destruct (commands_answered _ Hr) as [_ H].
  destruct (H ltac:(vm_compute; reflexivity) ltac:(vm_compute; reflexivity) 1 (MkBatch 1 1 [2; 3] job_pause) ltac:(vm_compute; reflexivity)) as [(Hj & _)|(_ & errs & Hlen & Hall & Hrep)]; [discriminate|].
  destruct Hrep as [[Hu _]|[_ ->]]; [exfalso; revert Hu; apply (bool_decide_eq_false _); vm_compute; reflexivity|].
  destruct (Hall 0%nat ltac:(vm_compute; lia)) as (oc0 & Ho0 & He0), (Hall 1%nat ltac:(vm_compute; lia)) as (oc1 & Ho1 & He1).
  vm_compute in Ho0, Ho1. injection Ho0 as <-. injection Ho1 as <-. destruct errs as [|e0 [|e1 [|e2 errs]]]; try discriminate. cbn in He0, He1. injection He0 as ->. injection He1 as ->. reflexivity.
Defined.

(** ** Gaps *)
Definition removed_early : list Action := added ++
  [do_client (c_remove 1 [2; 99]); do_ctx; do_api 0 0; do_api 0 0; do_ctx; do_ctx; do_api 0 0].
Definition resumed (errs : list Z) : list Action := added ++ commanded_with (c_resume 1 [2; 3]) 2 errs.
Definition restarted_twice : list Action := added ++ commanded_with (c_pause 1 [2; 3]) 2 [0; 0] ++
  [do_restart; do_ctx; do_api 9 0; do_api 10 0; do_ctx; do_ctx; do_api 0 0; do_api 0 0; do_ctx; do_ctx;
   do_restart; do_ctx; do_api 11 0; do_api 12 0; do_ctx; do_ctx].
Lemma gaps_ok : Forall well_formed_action removed_early /\ (forall errs, Forall well_formed_action (resumed errs)) /\ Forall well_formed_action restarted_twice.
Proof.
  split; [|split; [intros errs|]]; unfold removed_early, resumed, restarted_twice; rewrite !Forall_app.
  - split; [apply added_ok|by repeat constructor].
  - split; [apply added_ok|by apply commanded_ok].
  - split; [apply added_ok|]. split; [by apply commanded_ok|by repeat constructor].
Qed.
(** What goes wrong.  A removal of a known and of an unknown identifier deletes its arrays
    at the second item, and the response for the first writes into them.  A resumption whose
    last item fails is never answered, and one whose first item fails is reported as a
    success.  And geofences that are paused are active after the modem has restarted twice. *)
Theorem adapter_gaps :
  (exists w, reachable w /\ ctx_step (w_adapter w) = None) /\
  (exists w, reachable w /\ ctx (w_adapter w) = [] /\ api (w_adapter w) = [] /\ w_outcomes w !! (1, 1%nat) = Some (answered 1) /\
     is_Some (arrays (w_adapter w) !! 1) /\ reports 1 (w_adapter w) = []) /\
  (exists w, reachable w /\ w_outcomes w !! (1, 0%nat) = Some (answered 1) /\
     reports 1 (w_adapter w) = [t_collective 1 1 [Some LOCATION_ERROR_SUCCESS; Some LOCATION_ERROR_SUCCESS] [2; 3]]) /\
  (exists w hwId f, reachable w /\ ctx (w_adapter w) = [] /\ api (w_adapter w) = [] /\
     reports 1 (w_adapter w) = [t_collective 1 1 [Some LOCATION_ERROR_SUCCESS; Some LOCATION_ERROR_SUCCESS] [2; 3]] /\
     mGeofenceIds (w_adapter w) !! (1, 2) = Some hwId /\ w_modem w !! hwId = Some f /\ f_paused f = false).
Proof.
  destruct gaps_ok as (H1 & H2 & H3). split; [|split; [|split]].
  - exists (world_of removed_early). split; [apply (acts_reachable removed_early); [exact H1|vm_compute; reflexivity]|vm_compute; reflexivity].
  - exists (world_of (resumed [0; 1])). split; [apply (acts_reachable (resumed [0; 1])); [apply H2|vm_compute; reflexivity]|].
    split; [vm_compute; reflexivity|]. split; [vm_compute; reflexivity|]. split; [vm_compute; reflexivity|]. split; [vm_compute; eauto|vm_compute; reflexivity].
  - exists (world_of (resumed [1; 0])). split; [apply (acts_reachable (resumed [1; 0])); [apply H2|vm_compute; reflexivity]|]. split; vm_compute; reflexivity.
  - exists (world_of restarted_twice), 11, (new_fence some_option some_info).
    split; [apply (acts_reachable restarted_twice); [exact H3|vm_compute; reflexivity]|].
    split; [vm_compute; reflexivity|]. split; [vm_compute; reflexivity|]. split; [vm_compute; reflexivity|]. split; [vm_compute; reflexivity|]. split; vm_compute; reflexivity.
Qed.
