(* ===== verification/LocApiBatching.v ===== *)
(** * Batching in the modem interface ([src/location/loc_api/loc_api_v02/LocApiV02.cpp])

    How [LocApiV02] asks the modem to batch positions, and how it reads the batch: in pieces
    of at most five, into an array that is then given to the adapters.  The modem is a
    parameter: what it answers to each message ([Qmi]), as [LOC_SEND_SYNC_REQ] shows it.
    Floating point values are passed on and stand as their bits; allocations succeed.

    What is proved: the arrays that a batch is read into hold the pieces of the modem, one after the
    other; what is reported is compared with [reads], which appends them. *)
From stdpp Require Import sorting.
From S2P Require Import Prelude GnssTracking PbConsts PbTypes.
#[local] Open Scope Z_scope.

Definition FLP_BATCHING_MINIMUN_INTERVAL : Z := 1000.
Definition FLP_BATCHING_MIN_TRIP_DISTANCE : Z := 1.
Definition QMI_LOC_READ_FROM_BATCH_MAX_SIZE_V02 : Z := 5.
Definition eQMI_LOC_INVALID_PARAMETER_V02 : Z := 3.
Definition eQMI_LOC_LOCATION_BATCHING_V02 : Z := 1.
Definition eQMI_LOC_OUTDOOR_TRIP_BATCHING_V02 : Z := 2.
Definition eQMI_LOC_BATCH_POS_AVAILABLE_V02 : Z := 2.

(** ** Messages of the modem *)
Record qmiLocStartBatchingReq := MkStartBatchingReq {
  sb_minInterval : Z; sb_minDistance : Z; sb_horizontalAccuracyLevel : Z; sb_fixSessionTimeout : option Z; sb_requestId : Z;
}.
Record qmiLocStartOutdoorTripBatchingReq := MkStartOutdoorReq {
  so_batchDistance : Z; so_minTimeInterval : Z; so_fixSessionTimeout : option Z;
}.
Record qmiLocBatchedReport := MkBatchedReport {
  br_validFields : Z; br_latitude : Z; br_longitude : Z; br_horUncCircular : Z; br_speedHorizontal : Z; br_speedUnc : Z;
  br_altitudeWrtEllipsoid : Z; br_heading : Z; br_headingUnc : Z; br_technologyMask : Z; br_timestampUtc : Z; br_vertUnc : Z;
}.
(** The answers; a boolean is the [rv] of [LOC_SEND_SYNC_REQ].  A batch is read as the list
    of [numberOfEntries] reports, or [None] when the request fails or has no list. *)
Class Qmi (Modem : Type) := {
  GetBatchSize : Z -> Z -> Modem -> (bool * Z * Z) * Modem;        (* [rv], [ind.status], [ind.batchSize] *)
  ReleaseBatch : Z -> Modem -> bool * Modem;
  SetOperationMode : Z -> Modem -> Modem;
  StartBatching : qmiLocStartBatchingReq -> Modem -> bool * Modem;
  StopBatching : option Z -> Z -> Modem -> bool * Modem;
  StartOutdoorTripBatching : qmiLocStartOutdoorTripBatchingReq -> Modem -> bool * Modem;
  ReadFromBatch : Z -> Z -> Modem -> option (list qmiLocBatchedReport) * Modem;
  QueryOTBAccumulatedDistance : Modem -> option (Z * Z) * Modem;
}.

(** What adapters are told. *)
Inductive Report :=
  | reportLocations (locations : list Location) (count : Z) (batchingMode : Z)
  | reportCompletedTrips (accumulated_distance : Z)
  | handleBatchStatusEvent (batchStatus : Z).

(** [(int)] *)
Definition as_int (z : Z) : Z := if u32 z <? 2 ^ 31 then u32 z else u32 z - 2 ^ 32.

(** ** Locations *)
Definition no_location : Location := MkLocation 0 0 0 0 0 0 0 0 0 0 0 0 0 0 0 0.
Definition QMI_LOC_BATCHED_REPORT_MASK_VALID_LATITUDE_V02 : Z := 0x1.
Definition QMI_LOC_BATCHED_REPORT_MASK_VALID_LONGITUDE_V02 : Z := 0x2.
Definition QMI_LOC_BATCHED_REPORT_MASK_VALID_HOR_CIR_UNC_V02 : Z := 0x4.
Definition QMI_LOC_BATCHED_REPORT_MASK_VALID_SPEED_HOR_V02 : Z := 0x8.
Definition QMI_LOC_BATCHED_REPORT_MASK_VALID_SPEED_UNC_V02 : Z := 0x10.
Definition QMI_LOC_BATCHED_REPORT_MASK_VALID_ALT_WRT_ELP_V02 : Z := 0x20.
Definition QMI_LOC_BATCHED_REPORT_MASK_VALID_HEADING_V02 : Z := 0x80.
Definition QMI_LOC_BATCHED_REPORT_MASK_VALID_HEADING_UNC_V02 : Z := 0x100.
Definition QMI_LOC_BATCHED_REPORT_MASK_VALID_TECH_MASK_V02 : Z := 0x200.
Definition QMI_LOC_BATCHED_REPORT_MASK_VALID_TIMESTAMP_UTC_V02 : Z := 0x400.
Definition QMI_LOC_BATCHED_REPORT_MASK_VALID_VERT_UNC_V02 : Z := 0x2000.
Definition QMI_LOC_POS_TECH_MASK_SATELLITE_V02 : Z := 0x1.
Definition QMI_LOC_POS_TECH_MASK_CELLID_V02 : Z := 0x2.
Definition QMI_LOC_POS_TECH_MASK_WIFI_V02 : Z := 0x4.
Definition QMI_LOC_POS_TECH_MASK_SENSORS_V02 : Z := 0x8.
Definition has (mask bit : Z) : bool := negb (Z.land mask bit =? 0).
(** A value that is valid, and its flag. *)
Definition valid {A} (r : qmiLocBatchedReport) (bit : Z) (x d : A) : A := if has (br_validFields r) bit then x else d.
Definition techMask_of (technologyMask : Z) : Z :=
  foldl (fun m e => if has technologyMask e.1 then Z.lor m e.2 else m) 0
    [(QMI_LOC_POS_TECH_MASK_SATELLITE_V02, LOCATION_TECHNOLOGY_GNSS_BIT); (QMI_LOC_POS_TECH_MASK_CELLID_V02, LOCATION_TECHNOLOGY_CELL_BIT);
     (QMI_LOC_POS_TECH_MASK_WIFI_V02, LOCATION_TECHNOLOGY_WIFI_BIT); (QMI_LOC_POS_TECH_MASK_SENSORS_V02, LOCATION_TECHNOLOGY_SENSORS_BIT)].
Definition location_of (r : qmiLocBatchedReport) : Location :=
  let place := has (br_validFields r) QMI_LOC_BATCHED_REPORT_MASK_VALID_LATITUDE_V02 &&
               has (br_validFields r) QMI_LOC_BATCHED_REPORT_MASK_VALID_LONGITUDE_V02 in
  MkLocation
    (foldl (fun m e => if has (br_validFields r) e.1 then Z.lor m e.2 else m) (if place then LOCATION_HAS_LAT_LONG_BIT else 0)
      [(QMI_LOC_BATCHED_REPORT_MASK_VALID_ALT_WRT_ELP_V02, LOCATION_HAS_ALTITUDE_BIT);
       (QMI_LOC_BATCHED_REPORT_MASK_VALID_HOR_CIR_UNC_V02, LOCATION_HAS_ACCURACY_BIT);
       (QMI_LOC_BATCHED_REPORT_MASK_VALID_HEADING_V02, LOCATION_HAS_BEARING_BIT);
       (QMI_LOC_BATCHED_REPORT_MASK_VALID_SPEED_HOR_V02, LOCATION_HAS_SPEED_BIT);
       (QMI_LOC_BATCHED_REPORT_MASK_VALID_VERT_UNC_V02, LOCATION_HAS_VERTICAL_ACCURACY_BIT);
       (QMI_LOC_BATCHED_REPORT_MASK_VALID_SPEED_UNC_V02, LOCATION_HAS_SPEED_ACCURACY_BIT);
       (QMI_LOC_BATCHED_REPORT_MASK_VALID_HEADING_UNC_V02, LOCATION_HAS_BEARING_ACCURACY_BIT)])
    (valid r QMI_LOC_BATCHED_REPORT_MASK_VALID_TIMESTAMP_UTC_V02 (br_timestampUtc r) 0)
    (if place then br_latitude r else 0) (if place then br_longitude r else 0)
    (valid r QMI_LOC_BATCHED_REPORT_MASK_VALID_ALT_WRT_ELP_V02 (br_altitudeWrtEllipsoid r) 0)
    (valid r QMI_LOC_BATCHED_REPORT_MASK_VALID_SPEED_HOR_V02 (br_speedHorizontal r) 0)
    (valid r QMI_LOC_BATCHED_REPORT_MASK_VALID_HEADING_V02 (br_heading r) 0)
    (valid r QMI_LOC_BATCHED_REPORT_MASK_VALID_HOR_CIR_UNC_V02 (br_horUncCircular r) 0)
    (valid r QMI_LOC_BATCHED_REPORT_MASK_VALID_VERT_UNC_V02 (br_vertUnc r) 0)
    (valid r QMI_LOC_BATCHED_REPORT_MASK_VALID_SPEED_UNC_V02 (br_speedUnc r) 0)
    (valid r QMI_LOC_BATCHED_REPORT_MASK_VALID_HEADING_UNC_V02 (br_headingUnc r) 0)
    0
    (valid r QMI_LOC_BATCHED_REPORT_MASK_VALID_TECH_MASK_V02 (techMask_of (br_technologyMask r)) 0)
    0 0 0.

(** The array is searched from its end for a location that is later than the one behind it;
    that location is moved to the end. *)
Definition timestamp_at (p : list Location) (i : nat) : Z := Location_timestamp (default no_location (p !! i)).
Fixpoint out_of_order (i : nat) (currentTimeStamp : Z) (p : list Location) : option nat :=
  match i with
  | O => None
  | S i => if currentTimeStamp <? timestamp_at p i then Some i else out_of_order i (timestamp_at p i) p
  end.
Definition shift_down (i last : nat) (p : list Location) : list Location :=
  foldl (fun p j => <[j := default no_location (p !! S j)]> p) p (seq i (last - i)).
Definition put_in_order (last : nat) (p : list Location) : list Location :=
  match out_of_order last (timestamp_at p last) p with
  | Some i => let tempLocation := default no_location (p !! i) in <[last := tempLocation]> (shift_down i last p)
  | None => p
  end.

Section batching.
Context {Modem : Type} {Q : Qmi Modem}.

Record LocApiV02 := MkLocApi {
  mDesiredBatchSize : Z; mBatchSize : Z; mDesiredTripBatchSize : Z; mTripBatchSize : Z;
  modem : Modem;
  reports : list Report;             (* to the adapters, so far *)
}.
Abbreviation M := (CM LocApiV02).
Definition set_sizes (d b dt bt : Z) (s : LocApiV02) : LocApiV02 := MkLocApi d b dt bt (modem s) (reports s).
Definition set_mBatchSize (b : Z) (s : LocApiV02) : LocApiV02 := set_sizes (mDesiredBatchSize s) b (mDesiredTripBatchSize s) (mTripBatchSize s) s.
Definition set_mTripBatchSize (b : Z) (s : LocApiV02) : LocApiV02 := set_sizes (mDesiredBatchSize s) (mBatchSize s) (mDesiredTripBatchSize s) b s.
Definition set_modem (m : Modem) (s : LocApiV02) : LocApiV02 :=
  MkLocApi (mDesiredBatchSize s) (mBatchSize s) (mDesiredTripBatchSize s) (mTripBatchSize s) m (reports s).
Definition report (r : Report) : M unit :=
  modify (fun s => MkLocApi (mDesiredBatchSize s) (mBatchSize s) (mDesiredTripBatchSize s) (mTripBatchSize s) (modem s) (reports s ++ [r])).
Definition send {A} (f : Modem -> A * Modem) : M A := fun s => let '(a, m) := f (modem s) in Some (a, set_modem m s).

(** ** Buffers *)
Definition setBatchSize (size : Z) : M unit :=
  modify (fun s => set_sizes size 0 (mDesiredTripBatchSize s) (mTripBatchSize s) s).
Definition setTripBatchSize (size : Z) : M unit :=
  modify (fun s => set_sizes (mDesiredBatchSize s) (mBatchSize s) size 0 s).
(** The error, and [allocatedSize]. *)
Definition queryBatchBuffer (desiredSize batchMode : Z) : M (Z * Z) :=
  let type := if batchMode =? BATCHING_MODE_ROUTINE then eQMI_LOC_LOCATION_BATCHING_V02 else eQMI_LOC_OUTDOOR_TRIP_BATCHING_V02 in
  let result (size : Z) := (if negb (size =? 0) then LOCATION_ERROR_SUCCESS else LOCATION_ERROR_GENERAL_FAILURE, size) in
  '(rv, status, size) ← send (GetBatchSize desiredSize type);
  if (rv : bool) then mret (result size)
  else if (batchMode =? BATCHING_MODE_TRIP) && (status =? eQMI_LOC_INVALID_PARAMETER_V02) && (0 <? size) then
    '(rv, _, size) ← send (GetBatchSize size type);
    if (rv : bool) then mret (result size) else mret (LOCATION_ERROR_GENERAL_FAILURE, 0)
  else mret (LOCATION_ERROR_GENERAL_FAILURE, 0).
Definition releaseBatchBuffer (batchMode : Z) : M Z :=
  let release (type : Z) : M Z :=
    rv ← send (ReleaseBatch type);
    if (rv : bool) then _ ← modify (set_mTripBatchSize 0); mret LOCATION_ERROR_SUCCESS else mret LOCATION_ERROR_GENERAL_FAILURE in
  if batchMode =? BATCHING_MODE_ROUTINE then release eQMI_LOC_LOCATION_BATCHING_V02
  else if batchMode =? BATCHING_MODE_TRIP then release eQMI_LOC_OUTDOOR_TRIP_BATCHING_V02
  else mret LOCATION_ERROR_INVALID_PARAMETER.

(** ** Sessions *)
Definition err_of (rv : bool) : Z := if rv then LOCATION_ERROR_SUCCESS else LOCATION_ERROR_GENERAL_FAILURE.
Definition timeout_of (timeout : Z) : option Z := if 0 <? timeout then Some timeout else None.
Definition interval_of (minInterval : Z) : Z :=
  if FLP_BATCHING_MINIMUN_INTERVAL <=? minInterval then minInterval else FLP_BATCHING_MINIMUN_INTERVAL.
(** [eQMI_LOC_ACCURACY_LOW_V02] is 1. *)
Definition accuracy_of (accuracy : Z) : Z := match accuracy with 0 => 1 | 1 => 2 | 2 => 3 | _ => 1 end.
Definition startBatching (sessionId : Z) (options : GnssTracking.LocationOptions) (accuracy timeout : Z) : M Z :=
  _ ← send (fun m => (tt, SetOperationMode (l_mode options) m));
  let start : M Z :=
    rv ← send (StartBatching (MkStartBatchingReq (interval_of (l_minInterval options)) (l_minDistance options)
                                (accuracy_of accuracy) (timeout_of timeout) sessionId));
    mret (err_of rv) in
  s ← get;
  if mBatchSize s =? 0 then
    '(err, size) ← queryBatchBuffer (mDesiredBatchSize s) BATCHING_MODE_ROUTINE;
    _ ← modify (set_mBatchSize size);
    if negb (err =? LOCATION_ERROR_SUCCESS) then mret LOCATION_ERROR_GENERAL_FAILURE else start
  else start.
Definition stopBatching (sessionId : Z) : M Z :=
  rv ← send (StopBatching (Some sessionId) eQMI_LOC_LOCATION_BATCHING_V02); mret (err_of rv).
Definition startOutdoorTripBatchingSync (tripDistance tripTbf timeout : Z) : M Z :=
  let start : M Z :=
    rv ← send (StartOutdoorTripBatching (MkStartOutdoorReq (if 0 <? tripDistance then tripDistance else FLP_BATCHING_MIN_TRIP_DISTANCE)
                                           (interval_of tripTbf) (timeout_of timeout)));
    mret (err_of rv) in
  s ← get;
  if mTripBatchSize s =? 0 then
    '(err, size) ← queryBatchBuffer (mDesiredTripBatchSize s) BATCHING_MODE_TRIP;
    _ ← modify (set_mTripBatchSize size);
    if negb (err =? LOCATION_ERROR_SUCCESS) then mret LOCATION_ERROR_GENERAL_FAILURE else start
  else start.
Definition stopOutdoorTripBatchingSync (deallocBatchBuffer : bool) : M Z :=
  rv ← send (StopBatching None eQMI_LOC_OUTDOOR_TRIP_BATCHING_V02);
  if negb rv then mret LOCATION_ERROR_GENERAL_FAILURE
  else if deallocBatchBuffer then releaseBatchBuffer BATCHING_MODE_TRIP else mret LOCATION_ERROR_SUCCESS.
(** The error, and the distance and the number of positions if they were written. *)
Definition queryAccumulatedTripDistanceSync : M (Z * option (Z * Z)) :=
  r ← send QueryOTBAccumulatedDistance;
  mret (match r with Some data => (LOCATION_ERROR_SUCCESS, Some data) | None => (LOCATION_ERROR_GENERAL_FAILURE, None) end).

(** ** Reading *)
(** [readModemLocations] writes into an array of [QMI_LOC_READ_FROM_BATCH_MAX_SIZE_V02]. *)
Definition readModemLocations (count batchingMode : Z) : M (list Location) :=
  r ← send (ReadFromBatch count (if batchingMode =? BATCHING_MODE_ROUTINE then eQMI_LOC_LOCATION_BATCHING_V02 else eQMI_LOC_OUTDOOR_TRIP_BATCHING_V02));
  match r with
  | None => mret []
  | Some l => if Z.of_nat (length l) <=? QMI_LOC_READ_FROM_BATCH_MAX_SIZE_V02 then mret (location_of <$> l) else undef
  end.
(** A write into an array; outside of it, undefined behaviour. *)
Definition store (index : Z) (l : Location) (p : list Location) : option (list Location) :=
  if (0 <=? index) && (index <? Z.of_nat (length p)) then Some (<[Z.to_nat index := l]> p) else None.
(** One piece from its position [i] on, stored from [index] downwards, or dropped; [size_t] is
    64 bits wide. *)
Fixpoint store_down (entriesToReadInTotal entriesGotInTotal : Z) (i : nat) (temp p : list Location) : option (list Location) :=
  match temp with
  | [] => Some p
  | e :: temp =>
      let index := u64 (entriesToReadInTotal - entriesGotInTotal - Z.of_nat i) in
      p ← (if (index <=? entriesToReadInTotal) && (0 <=? as_int index) then store index e p else Some p);
      store_down entriesToReadInTotal entriesGotInTotal (S i) temp p
  end.
Definition next_read (entriesToReadInTotal entriesGotInTotal : Z) : Z :=
  Z.min (u64 (entriesToReadInTotal - entriesGotInTotal)) QMI_LOC_READ_FROM_BATCH_MAX_SIZE_V02.
Fixpoint read_routine (fuel : nat) (total got entriesToRead : Z) (p : list Location) : M (Z * list Location) :=
  match fuel with
  | O => undef
  | S fuel =>
      temp ← readModemLocations entriesToRead BATCHING_MODE_ROUTINE;
      p ← deref (store_down total got 0 temp p);
      let got' := got + Z.of_nat (length temp) in
      let entriesToRead := next_read total got' in
      if (0 <? Z.of_nat (length temp)) && (0 <? entriesToRead) then read_routine fuel total got' entriesToRead p else mret (got', p)
  end.
Definition getBatchedLocationsSync (fuel : nat) (count : Z) : M Z :=
  s ← get;
  let total := Z.min (mBatchSize s) count in
  if total =? 0 then _ ← report (reportLocations [] 0 BATCHING_MODE_ROUTINE); mret LOCATION_ERROR_SUCCESS
  else
    '(got, p) ← read_routine fuel total 0 (Z.min total QMI_LOC_READ_FROM_BATCH_MAX_SIZE_V02) (replicate (Z.to_nat (total + 1)) no_location);
    let '(offset, p) :=
      if got <? total then (1 + total - got, p)
      else if total <? got then (0, put_in_order (Z.to_nat total) p)
      else (1, p) in
    if offset + got <=? total + 1
    then _ ← report (reportLocations (take (Z.to_nat got) (drop (Z.to_nat offset) p)) got BATCHING_MODE_ROUTINE); mret LOCATION_ERROR_SUCCESS
    else undef.

(** One piece, stored from [idxLocationFromModem] upwards, or dropped. *)
Fixpoint store_up (entriesToReadInTotal : Z) (temp : list Location) (s : Z * list Location) : option (Z * list Location) :=
  match temp with
  | [] => Some s
  | e :: temp =>
      p ← (if s.1 <? entriesToReadInTotal then store s.1 e s.2 else Some s.2);
      store_up entriesToReadInTotal temp (s.1 + 1, p)
  end.
Fixpoint read_trip (fuel : nat) (total got entriesToRead : Z) (p : Z * list Location) : M (Z * list Location) :=
  match fuel with
  | O => undef
  | S fuel =>
      temp ← readModemLocations entriesToRead BATCHING_MODE_TRIP;
      p ← deref (store_up total temp p);
      let got := got + Z.of_nat (length temp) in
      let entriesToRead := next_read total got in
      if (0 <? Z.of_nat (length temp)) && (0 <? entriesToRead) then read_trip fuel total got entriesToRead p else mret (got, p.2)
  end.
Definition getBatchedTripLocationsSync (fuel : nat) (count accumulatedDistance : Z) : M Z :=
  s ← get;
  let total := Z.min (mTripBatchSize s) count in
  if total =? 0 then _ ← report (reportLocations [] 0 BATCHING_MODE_TRIP); mret LOCATION_ERROR_SUCCESS
  else
    '(got, p) ← read_trip fuel total 0 (Z.min total QMI_LOC_READ_FROM_BATCH_MAX_SIZE_V02) (0, replicate (Z.to_nat total) no_location);
    if got <=? total then
      _ ← report (reportLocations (take (Z.to_nat got) p) got BATCHING_MODE_TRIP);
      _ ← (if negb (accumulatedDistance =? 0) then report (reportCompletedTrips accumulatedDistance) else mret tt);
      mret LOCATION_ERROR_SUCCESS
    else undef.

(** [reStartOutdoorTripBatching] reads what was batched, stops, and starts again. *)
Definition reStartOutdoorTripBatching (fuel : nat) (ongoingTripDistance ongoingTripInterval batchingTimeout : Z) : M Z :=
  '(_, data) ← queryAccumulatedTripDistanceSync;
  let numOfBatchedPositions := match data with Some (_, n) => n | None => 0 end in
  _ ← (if negb (numOfBatchedPositions =? 0) then getBatchedTripLocationsSync fuel numOfBatchedPositions 0 else mret LOCATION_ERROR_SUCCESS);
  _ ← stopOutdoorTripBatchingSync false;
  startOutdoorTripBatchingSync ongoingTripDistance ongoingTripInterval batchingTimeout.

(** The indications of a full batch, and of the status. *)
Definition batchFullEvent (trip_supported : bool) (fuel : nat) (batchCount : Z) (accumulatedDistance batchType : option Z) : M Z :=
  if (default eQMI_LOC_LOCATION_BATCHING_V02 batchType =? eQMI_LOC_OUTDOOR_TRIP_BATCHING_V02) && trip_supported
  then getBatchedTripLocationsSync fuel batchCount (default 0 accumulatedDistance)
  else getBatchedLocationsSync fuel batchCount.
Definition batchStatusEvent (batchingStatus : Z) : M unit :=
  report (handleBatchStatusEvent (if batchingStatus =? eQMI_LOC_BATCH_POS_AVAILABLE_V02
                                  then BATCHING_STATUS_POSITION_AVAILABE else BATCHING_STATUS_POSITION_UNAVAILABLE)).
End batching.

(** ** Pieces *)
Section reads.
Context {Modem : Type} {Q : Qmi Modem}.
(** What is read when [n] positions are wanted. *)
Inductive reads (type : Z) : Z -> Modem -> list qmiLocBatchedReport -> Modem -> Prop :=
  | reads_all m : reads type 0 m [] m
  | reads_failed n m m' : 0 < n -> ReadFromBatch (Z.min n QMI_LOC_READ_FROM_BATCH_MAX_SIZE_V02) type m = (None, m') -> reads type n m [] m'
  | reads_empty n m m' : 0 < n -> ReadFromBatch (Z.min n QMI_LOC_READ_FROM_BATCH_MAX_SIZE_V02) type m = (Some [], m') -> reads type n m [] m'
  | reads_piece n m l m' l' m'' : 0 < n -> ReadFromBatch (Z.min n QMI_LOC_READ_FROM_BATCH_MAX_SIZE_V02) type m = (Some l, m') -> l <> [] ->
      reads type (n - Z.of_nat (length l)) m' l' m'' -> reads type n m (l ++ l') m''.
(** The documentation of the request: the number of entries to retrieve. *)
Definition at_most_asked : Prop := forall n type m l m', ReadFromBatch n type m = (Some l, m') -> 0 < n -> Z.of_nat (length l) <= n.
Lemma reads_length type n m l m' : at_most_asked -> reads type n m l m' -> Z.of_nat (length l) <= n.
Proof.
  intros Ha. induction 1 as [|n m m' Hn _|n m m' Hn _|n m l m' l' m'' Hn Hr _ _ IH]; cbn; try lia. rewrite length_app. lia.
Qed.
End reads.

(** The array of the routine batch, filled from its end; that of trips, from its start. *)
Lemma insert_last {A} (a : nat) (d x : A) (q : list A) : <[a := x]> (replicate (S a) d ++ q) = replicate a d ++ x :: q.
Proof.
  rewrite replicate_S_end. rewrite <- app_assoc. cbn.
  by rewrite insert_app_r_alt, length_replicate, Nat.sub_diag by (rewrite length_replicate; lia).
Qed.
Lemma u64_small z : 0 <= z < 2 ^ 64 -> u64 z = z.
Proof. apply wrap_id. Qed.
Lemma as_int_nonneg z : 0 <= z < 2 ^ 31 -> as_int z = z.
Proof. intros Hz. unfold as_int. rewrite wrap_id by lia. by rewrite (proj2 (Z.ltb_lt z (2 ^ 31))) by lia. Qed.
Lemma store_in index l p : 0 <= index < Z.of_nat (length p) -> store index l p = Some (<[Z.to_nat index := l]> p).
Proof. intros Hi. unfold store. by rewrite (proj2 (Z.leb_le _ _)), (proj2 (Z.ltb_lt _ _)) by lia. Qed.
Lemma store_down_ok total got temp i q : 0 <= got -> Z.of_nat i + got + Z.of_nat (length temp) <= total + 1 -> total < 2 ^ 31 ->
  store_down total got i temp (replicate (Z.to_nat (total + 1 - got - Z.of_nat i)) no_location ++ q) =
  Some (replicate (Z.to_nat (total + 1 - got - Z.of_nat i - Z.of_nat (length temp))) no_location ++ rev temp ++ q).
Proof.
  intros Hg Hl Ht. revert i q Hl. induction temp as [|x temp IH]; intros i q Hi; cbn [length store_down rev app] in *.
  - by rewrite Z.sub_0_r.
  - rewrite u64_small, as_int_nonneg by lia. rewrite (proj2 (Z.leb_le _ _)), (proj2 (Z.leb_le 0 _)) by lia. cbn [andb].
    rewrite store_in by (rewrite length_app, length_replicate; lia). cbn [mbind option_bind].
    replace (Z.to_nat (total + 1 - got - Z.of_nat i)) with (S (Z.to_nat (total - got - Z.of_nat i))) by lia. rewrite insert_last.
    replace (Z.to_nat (total - got - Z.of_nat i)) with (Z.to_nat (total + 1 - got - Z.of_nat (S i))) by lia.
    rewrite IH by lia. rewrite <- !app_assoc. cbn. do 4 f_equal. lia.
Qed.
Lemma store_up_ok total temp q : Z.of_nat (length q) + Z.of_nat (length temp) <= total ->
  store_up total temp (Z.of_nat (length q), q ++ replicate (Z.to_nat (total - Z.of_nat (length q))) no_location) =
  Some (Z.of_nat (length (q ++ temp)), (q ++ temp) ++ replicate (Z.to_nat (total - Z.of_nat (length (q ++ temp)))) no_location).
Proof.
  revert q. induction temp as [|x temp IH]; intros q Hl; cbn [store_up length fst snd] in *; [by rewrite app_nil_r|].
  rewrite (proj2 (Z.ltb_lt _ _)), store_in by (rewrite ?length_app, ?length_replicate; lia). cbn [mbind option_bind]. rewrite Nat2Z.id.
  replace (Z.to_nat (total - Z.of_nat (length q))) with (S (Z.to_nat (total - Z.of_nat (length (q ++ [x]))))) by (rewrite length_app; cbn; lia).
  rewrite insert_app_r_alt, Nat.sub_diag by lia. cbn [insert list_insert replicate].
  replace (q ++ x :: replicate (Z.to_nat (total - Z.of_nat (length (q ++ [x])))) no_location)
    with ((q ++ [x]) ++ replicate (Z.to_nat (total - Z.of_nat (length (q ++ [x])))) no_location) by by rewrite <- app_assoc.
  replace (Z.of_nat (length q) + 1) with (Z.of_nat (length (q ++ [x]))) by (rewrite length_app; cbn; lia).
  rewrite IH by (rewrite length_app; cbn; lia). by rewrite <- app_assoc.
Qed.
Lemma next_read_ok total got : 0 <= got <= total -> total < 2 ^ 31 -> next_read total got = Z.min (total - got) QMI_LOC_READ_FROM_BATCH_MAX_SIZE_V02.
Proof. intros Hg Ht. unfold next_read. by rewrite u64_small by lia. Qed.

Section reading.
Context {Modem : Type} {Q : Qmi Modem}.
Hypothesis Hasked : at_most_asked.

(** One piece. *)
Lemma read_piece mode type n m s (T : list Location -> LocApiV02 -> Prop) l m' : 0 < n <= QMI_LOC_READ_FROM_BATCH_MAX_SIZE_V02 ->
  (if mode =? BATCHING_MODE_ROUTINE then eQMI_LOC_LOCATION_BATCHING_V02 else eQMI_LOC_OUTDOOR_TRIP_BATCHING_V02) = type ->
  modem s = m -> ReadFromBatch n type m = (l, m') -> T (location_of <$> default [] l) (set_modem m' s) -> wp (readModemLocations n mode) T s.
Proof.
  intros Hn <- <- Hr HT. unfold readModemLocations. apply wp_bind. unfold wp, send. rewrite Hr.
  destruct l as [l|]; [|exact HT]. pose proof (Hasked _ _ _ _ _ Hr ltac:(unfold QMI_LOC_READ_FROM_BATCH_MAX_SIZE_V02 in *; lia)). by rewrite (proj2 (Z.leb_le _ _)) by (unfold QMI_LOC_READ_FROM_BATCH_MAX_SIZE_V02 in *; lia).
Qed.
Lemma read_routine_ok n m l m' : reads eQMI_LOC_LOCATION_BATCHING_V02 n m l m' -> forall fuel total got q s, modem s = m -> 0 < n -> 0 <= got ->
  total = got + n -> total < 2 ^ 31 -> n < Z.of_nat fuel ->
  wp (read_routine fuel total got (Z.min n QMI_LOC_READ_FROM_BATCH_MAX_SIZE_V02) (replicate (Z.to_nat (total + 1 - got)) no_location ++ q))
     (fun r s' => r = (got + Z.of_nat (length l),
                       replicate (Z.to_nat (total + 1 - got - Z.of_nat (length l))) no_location ++ rev (location_of <$> l) ++ q) /\ s' = set_modem m' s) s.
Proof.
  assert (Hmin : forall n, 0 < n -> 0 < Z.min n QMI_LOC_READ_FROM_BATCH_MAX_SIZE_V02 <= QMI_LOC_READ_FROM_BATCH_MAX_SIZE_V02)
    by (unfold QMI_LOC_READ_FROM_BATCH_MAX_SIZE_V02; lia).
  induction 1 as [|n m m' Hn Hr|n m m' Hn Hr|n m l m' l' m'' Hn Hr Hl Hrest IH]; intros fuel total got q s Hs Hn' Hg Ht Hb Hf; [lia| | |];
    (destruct fuel as [|fuel]; [lia|]); cbn [read_routine]; apply wp_bind;
    (eapply (read_piece _ _ _ _ _ _ _ _ (Hmin n Hn)); [reflexivity|exact Hs|exact Hr|]); cbn [default from_option id]; change (location_of <$> []) with (@nil Location).
  1,2: apply wp_ret; cbn; rewrite Z.sub_0_r, Z.add_0_r; done.
  pose proof (Hasked _ _ _ _ _ Hr ltac:(unfold QMI_LOC_READ_FROM_BATCH_MAX_SIZE_V02 in *; lia)) as Hlen. rewrite !length_fmap. destruct l as [|x l0] eqn:El; [done|]. rewrite <- El in *. clear Hl.
  assert (0 < Z.of_nat (length l)) as Hpos by (rewrite El; cbn; lia). clear El.
  pose proof (store_down_ok total got (location_of <$> l) 0 q Hg ltac:(rewrite length_fmap; lia) Hb) as Hst. rewrite Z.sub_0_r, length_fmap in Hst. rewrite Hst. clear Hst.
  apply wp_bind, wp_ret. rewrite next_read_ok by lia. rewrite (proj2 (Z.ltb_lt 0 _)) by done. cbn [andb].
  replace (total - (got + Z.of_nat (length l))) with (n - Z.of_nat (length l)) by lia.
  replace (total + 1 - got - Z.of_nat (length l)) with (total + 1 - (got + Z.of_nat (length l))) by lia.
  apply wp_if; intros Hz.
  - apply Z.ltb_lt in Hz. eapply wp_conseq; [apply IH; [done|unfold QMI_LOC_READ_FROM_BATCH_MAX_SIZE_V02 in Hz; lia..]|].
    intros r s' [-> ->]. split; [|done]. rewrite length_app, fmap_app, rev_app_distr, <- app_assoc. f_equal; [lia|]. do 2 f_equal. lia.
  - apply Z.ltb_ge in Hz. assert (n - Z.of_nat (length l) = 0) as H0 by (unfold QMI_LOC_READ_FROM_BATCH_MAX_SIZE_V02 in Hz; lia). rewrite H0 in Hrest.
    inversion Hrest; subst; try lia. apply wp_ret. rewrite app_nil_r. split; [|done]. f_equal. do 2 f_equal. lia.
Qed.
Lemma read_trip_ok n m l m' : reads eQMI_LOC_OUTDOOR_TRIP_BATCHING_V02 n m l m' -> forall fuel total q s, modem s = m -> 0 < n ->
  total = Z.of_nat (length q) + n -> total < 2 ^ 31 -> n < Z.of_nat fuel ->
  wp (read_trip fuel total (Z.of_nat (length q)) (Z.min n QMI_LOC_READ_FROM_BATCH_MAX_SIZE_V02)
        (Z.of_nat (length q), q ++ replicate (Z.to_nat (total - Z.of_nat (length q))) no_location))
     (fun r s' => r = (Z.of_nat (length q) + Z.of_nat (length l),
                       (q ++ (location_of <$> l)) ++ replicate (Z.to_nat (n - Z.of_nat (length l))) no_location) /\ s' = set_modem m' s) s.
Proof.
  assert (Hmin : forall n, 0 < n -> 0 < Z.min n QMI_LOC_READ_FROM_BATCH_MAX_SIZE_V02 <= QMI_LOC_READ_FROM_BATCH_MAX_SIZE_V02)
    by (unfold QMI_LOC_READ_FROM_BATCH_MAX_SIZE_V02; lia).
  induction 1 as [|n m m' Hn Hr|n m m' Hn Hr|n m l m' l' m'' Hn Hr Hl Hrest IH]; intros fuel total q s Hs Hn' Ht Hb Hf; [lia| | |];
    (destruct fuel as [|fuel]; [lia|]); cbn [read_trip]; apply wp_bind;
    (eapply (read_piece _ _ _ _ _ _ _ _ (Hmin n Hn)); [reflexivity|exact Hs|exact Hr|]); cbn [default from_option id]; change (location_of <$> []) with (@nil Location).
  1,2: apply wp_ret; cbn; rewrite Z.add_0_r, Z.sub_0_r, app_nil_r; split; [|done]; do 3 f_equal; lia.
  pose proof (Hasked _ _ _ _ _ Hr ltac:(unfold QMI_LOC_READ_FROM_BATCH_MAX_SIZE_V02 in *; lia)) as Hlen. rewrite !length_fmap. destruct l as [|x l0] eqn:El; [done|]. rewrite <- El in *. clear Hl.
  assert (0 < Z.of_nat (length l)) as Hpos by (rewrite El; cbn; lia). clear El.
  rewrite store_up_ok by (rewrite length_fmap; lia). apply wp_bind, wp_ret. rewrite next_read_ok by lia. rewrite (proj2 (Z.ltb_lt 0 _)) by done. cbn [andb].
  assert (Hq : Z.of_nat (length (q ++ (location_of <$> l))) = Z.of_nat (length q) + Z.of_nat (length l)) by (rewrite length_app, length_fmap; lia).
  replace (total - (Z.of_nat (length q) + Z.of_nat (length l))) with (n - Z.of_nat (length l)) by lia.
  apply wp_if; intros Hz.
  - apply Z.ltb_lt in Hz. rewrite <- Hq. eapply wp_conseq; [apply IH; [done|unfold QMI_LOC_READ_FROM_BATCH_MAX_SIZE_V02 in Hz; lia..]|].
    intros r s' [-> ->]. split; [|done]. rewrite Hq, (length_app l l'), fmap_app, !Nat2Z.inj_add, Z.sub_add_distr, Z.add_assoc. by rewrite <- !app_assoc.
  - apply Z.ltb_ge in Hz. assert (n - Z.of_nat (length l) = 0) as H0 by (unfold QMI_LOC_READ_FROM_BATCH_MAX_SIZE_V02 in Hz; lia). rewrite H0 in Hrest.
    inversion Hrest; subst; try lia. apply wp_ret. rewrite app_nil_r. split; [|done]. cbn [snd]. do 3 f_equal. lia.
Qed.
Lemma reads_exist type n m : 0 <= n -> exists l m', reads type n m l m'.
Proof.
  revert m. induction n as [n IH] using (well_founded_induction (Z.lt_wf 0)). intros m Hn. destruct (decide (n = 0)) as [->|Hne]; [exists [], m; constructor|].
  destruct (ReadFromBatch (Z.min n QMI_LOC_READ_FROM_BATCH_MAX_SIZE_V02) type m) as [[l|] m1] eqn:Hr; [|exists [], m1; eapply reads_failed; [lia|done]].
  pose proof (Hasked _ _ _ _ _ Hr ltac:(unfold QMI_LOC_READ_FROM_BATCH_MAX_SIZE_V02 in *; lia)) as Hlen. destruct (decide (l = [])) as [->|Hl]; [exists [], m1; eapply reads_empty; [lia|done]|].
  assert (0 < Z.of_nat (length l)) by (destruct l; [done|cbn; lia]). destruct (IH (n - Z.of_nat (length l)) ltac:(lia) m1 ltac:(lia)) as (l' & m' & Hrest).
  exists (l ++ l'), m'. eapply reads_piece; [lia|done..].
Qed.
(** What is told of a batch: the newest position comes first from the modem and last in the
    report of a routine batch; those of a trip are reported as they come. *)
Definition reporting (reports' : list Report) (m' : Modem) (s : @LocApiV02 Modem) : @LocApiV02 Modem :=
  MkLocApi (mDesiredBatchSize s) (mBatchSize s) (mDesiredTripBatchSize s) (mTripBatchSize s) m' (reports s ++ reports').
Lemma take_app_length' {A} (k : nat) (l q : list A) : k = length l -> take k (l ++ q) = l.
Proof. intros ->. apply take_app_length. Qed.
Lemma routine_told fuel count s : 0 <= mBatchSize s < 2 ^ 31 -> 0 <= count -> Z.min (mBatchSize s) count < Z.of_nat fuel ->
  exists l m', reads eQMI_LOC_LOCATION_BATCHING_V02 (Z.min (mBatchSize s) count) (modem s) l m' /\
    getBatchedLocationsSync fuel count s =
      Some (LOCATION_ERROR_SUCCESS, reporting [reportLocations (rev (location_of <$> l)) (Z.of_nat (length l)) BATCHING_MODE_ROUTINE] m' s).
Proof.
  intros Hb Hc Hf. set (N := Z.min (mBatchSize s) count) in *. destruct (reads_exist eQMI_LOC_LOCATION_BATCHING_V02 N (modem s) ltac:(lia)) as (l & m' & Hr).
  exists l, m'. split; [done|]. pose proof (reads_length _ _ _ _ _ Hasked Hr) as Hl. unfold getBatchedLocationsSync, mbind, cm_bind, get. fold N. case_match eqn:E.
  - apply Z.eqb_eq in E. rewrite E in Hr. inversion Hr; subst; try lia. done.
  - apply Z.eqb_neq in E. destruct (wp_elim _ _ _ (read_routine_ok _ _ _ _ Hr fuel N 0 [] s eq_refl ltac:(lia) ltac:(lia) ltac:(lia) ltac:(lia) ltac:(lia))) as (r & s' & Hrun & -> & ->).
    rewrite Z.sub_0_r, !app_nil_r in Hrun. rewrite Hrun, !Z.add_0_l. clear Hrun.
    assert (forall offset, Z.to_nat offset = Z.to_nat (N + 1 - Z.of_nat (length l)) -> offset + Z.of_nat (length l) <= N + 1 ->
      (if offset + Z.of_nat (length l) <=? N + 1
       then _ ← report (reportLocations (take (Z.to_nat (Z.of_nat (length l))) (drop (Z.to_nat offset)
              (replicate (Z.to_nat (N + 1 - Z.of_nat (length l))) no_location ++ rev (location_of <$> l)))) (Z.of_nat (length l)) BATCHING_MODE_ROUTINE);
            mret LOCATION_ERROR_SUCCESS
       else undef) (set_modem m' s) = Some (LOCATION_ERROR_SUCCESS, reporting [reportLocations (rev (location_of <$> l)) (Z.of_nat (length l)) BATCHING_MODE_ROUTINE] m' s)) as Hend.
    { intros offset Ho Hle. rewrite (proj2 (Z.leb_le _ _)) by lia. rewrite drop_app_length' by (rewrite length_replicate; lia).
      rewrite take_ge by (rewrite length_rev, length_fmap; lia). done. }
    destruct (Z.of_nat (length l) <? N) eqn:E1; [apply Z.ltb_lt in E1; apply (Hend (1 + N - Z.of_nat (length l))); lia|].
    apply Z.ltb_ge in E1. rewrite (proj2 (Z.ltb_ge N _)) by lia. apply (Hend 1); lia.
Qed.
Lemma trip_told fuel count acc s : 0 <= mTripBatchSize s < 2 ^ 31 -> 0 <= count -> Z.min (mTripBatchSize s) count < Z.of_nat fuel ->
  exists l m', reads eQMI_LOC_OUTDOOR_TRIP_BATCHING_V02 (Z.min (mTripBatchSize s) count) (modem s) l m' /\
    getBatchedTripLocationsSync fuel count acc s =
      Some (LOCATION_ERROR_SUCCESS,
            reporting (reportLocations (location_of <$> l) (Z.of_nat (length l)) BATCHING_MODE_TRIP ::
                  (if (Z.min (mTripBatchSize s) count =? 0) || (acc =? 0) then [] else [reportCompletedTrips acc])) m' s).
Proof.
  intros Hb Hc Hf. set (N := Z.min (mTripBatchSize s) count) in *. destruct (reads_exist eQMI_LOC_OUTDOOR_TRIP_BATCHING_V02 N (modem s) ltac:(lia)) as (l & m' & Hr).
  exists l, m'. split; [done|]. pose proof (reads_length _ _ _ _ _ Hasked Hr) as Hl. unfold getBatchedTripLocationsSync, mbind, cm_bind, get. fold N. case_match eqn:E.
  - apply Z.eqb_eq in E. rewrite E in Hr. inversion Hr; subst; try lia. done.
  - apply Z.eqb_neq in E. destruct (wp_elim _ _ _ (read_trip_ok _ _ _ _ Hr fuel N [] s eq_refl ltac:(lia) ltac:(cbn; lia) ltac:(lia) ltac:(lia))) as (r & s' & Hrun & -> & ->).
    cbn [length app] in Hrun. change (Z.of_nat 0) with 0 in Hrun. rewrite Z.sub_0_r, Z.add_0_l in Hrun. rewrite Hrun. clear Hrun.
    rewrite (proj2 (Z.leb_le _ _)) by lia. rewrite take_app_length' by (rewrite length_fmap; lia). cbn [orb].
    destruct (acc =? 0); cbn; unfold reporting; cbn; [done|]. by rewrite <- app_assoc.
Qed.
End reading.

(** ** One location too many *)
Lemma shift_lookup p i k j : (i + k < length p)%nat ->
  foldl (fun p j => <[j := default no_location (p !! S j)]> p) p (seq i k) !! j = if decide (i <= j < i + k)%nat then p !! S j else p !! j.
Proof.
  intros Hl. revert j. assert (Hlen : forall k, length (foldl (fun p j => <[j := default no_location (p !! S j)]> p) p (seq i k)) = length p).
  { intros k'. generalize (seq i k'). intros l. clear. revert p. induction l as [|x l IH]; intros p; cbn; [done|]. by rewrite IH, length_insert. }
  induction k as [|k IH]; intros j; [cbn; by case_decide; [lia|]|]. rewrite seq_S, foldl_app. cbn [foldl].
  destruct (decide (j = i + k)%nat) as [->|Hne].
  - rewrite list_lookup_insert_eq by (rewrite Hlen; lia). rewrite IH by lia. rewrite decide_False, decide_True by lia.
    destruct (lookup_lt_is_Some_2 p (S (i + k)) ltac:(lia)) as [x ->]. done.
  - rewrite list_lookup_insert_ne, IH by lia. by repeat case_decide; try lia.
Qed.
Lemma shift_down_ok i last p x : length p = S last -> (i <= last)%nat -> <[last := x]> (shift_down i last p) = take i p ++ drop (S i) p ++ [x].
Proof.
  intros Hl Hi. apply list_eq. intros j. unfold shift_down.
  assert (Hlen : length (foldl (fun p j => <[j := default no_location (p !! S j)]> p) p (seq i (last - i))) = S last).
  { rewrite <- Hl. generalize (seq i (last - i)). intros l. clear. revert p. induction l as [|y l IH]; intros p; cbn; [done|]. by rewrite IH, length_insert. }
  destruct (decide (j = last)) as [->|Hj].
  - rewrite list_lookup_insert_eq by lia. rewrite app_assoc, lookup_app_r by (rewrite length_app, length_take, length_drop; lia).
    rewrite length_app, length_take, length_drop, Nat.min_l by lia. by replace (last - (i + (length p - S i)))%nat with 0%nat by lia.
  - rewrite list_lookup_insert_ne, shift_lookup by lia. case_decide as Hr.
    + rewrite lookup_app_r by (rewrite length_take; lia). rewrite length_take, Nat.min_l by lia.
      rewrite lookup_app_l by (rewrite length_drop; lia). rewrite lookup_drop. f_equal. lia.
    + destruct (decide (j < i)%nat) as [Hlt|Hge].
      * rewrite lookup_app_l by (rewrite length_take; lia). by rewrite lookup_take_lt by lia.
      * rewrite lookup_ge_None_2 by lia. symmetry. apply lookup_ge_None_2. rewrite !length_app, length_take, length_drop. cbn. lia.
Qed.
Lemma out_of_order_spec p k : match out_of_order k (timestamp_at p k) p with
  | Some i => (i < k)%nat /\ timestamp_at p (S i) < timestamp_at p i /\ (forall j, (i < j < k)%nat -> timestamp_at p j <= timestamp_at p (S j))
  | None => forall j, (j < k)%nat -> timestamp_at p j <= timestamp_at p (S j)
  end.
Proof.
  induction k as [|k IH]; cbn [out_of_order]; [lia|]. destruct (timestamp_at p (S k) <? timestamp_at p k) eqn:E.
  - apply Z.ltb_lt in E. split; [lia|]. split; [done|]. lia.
  - apply Z.ltb_ge in E. destruct (out_of_order k (timestamp_at p k) p) as [i|].
    + destruct IH as (H1 & H2 & H3). split; [lia|]. split; [done|]. intros j Hj. destruct (decide (j = k)) as [->|]; [done|]. apply H3. lia.
    + intros j Hj. destruct (decide (j = k)) as [->|]; [done|]. apply IH. lia.
Qed.
Definition in_time (p : list Location) : Prop := forall j, (S j < length p)%nat -> timestamp_at p j <= timestamp_at p (S j).
Lemma timestamp_app_l p q j : (j < length p)%nat -> timestamp_at (p ++ q) j = timestamp_at p j.
Proof. intros Hj. unfold timestamp_at. by rewrite lookup_app_l. Qed.
Lemma timestamp_app_r p q j : (length p <= j)%nat -> timestamp_at (p ++ q) j = timestamp_at q (j - length p).
Proof. intros Hj. unfold timestamp_at. by rewrite lookup_app_r. Qed.
Lemma in_time_snoc p x : in_time p -> Forall (fun y => Location_timestamp y <= Location_timestamp x) p -> in_time (p ++ [x]).
Proof.
  intros Hp Hx j Hj. rewrite length_app in Hj. cbn in Hj. rewrite timestamp_app_l by lia. destruct (decide (S j = length p)) as [He|He].
  - rewrite timestamp_app_r, He, Nat.sub_diag by lia. cbn. unfold timestamp_at. rewrite Forall_lookup in Hx.
    destruct (lookup_lt_is_Some_2 p j ltac:(lia)) as [y Hy]. rewrite Hy. cbn. by apply (Hx j).
  - rewrite timestamp_app_l by lia. apply Hp. lia.
Qed.

(** A list whose latest element is out of its place, and otherwise in the order of its times,
    is put in order. *)
Lemma latest_put_in_order p x q : in_time (p ++ q) -> Forall (fun y => Location_timestamp y <= Location_timestamp x) (p ++ q) ->
  in_time (put_in_order (length (p ++ q)) (p ++ x :: q)) /\ put_in_order (length (p ++ q)) (p ++ x :: q) ≡ₚ p ++ x :: q.
Proof.
  intros Hpq Hx. unfold put_in_order. pose proof (out_of_order_spec (p ++ x :: q) (length (p ++ q))) as Hs.
  assert (Hlen : length (p ++ x :: q) = S (length (p ++ q))) by (rewrite !length_app; cbn; lia).
  destruct (out_of_order _ _ _) as [i|]; [|split; [|done]; intros j Hj; apply Hs; lia]. destruct Hs as (Hi & Hlt & _). rewrite shift_down_ok by lia.
  assert (i = length p) as ->.
  { destruct (decide (i = length p)) as [|Hne]; [done|exfalso]. revert Hlt. apply Z.le_ngt. rewrite length_app in Hi.
    assert (Hat : forall j, (j < length p)%nat -> timestamp_at (p ++ x :: q) j = timestamp_at (p ++ q) j) by (intros; by rewrite !timestamp_app_l).
    assert (Hat' : forall j, (length p < j)%nat -> timestamp_at (p ++ x :: q) j = timestamp_at (p ++ q) (j - 1)).
    { intros j Hj. rewrite !timestamp_app_r by lia. unfold timestamp_at. replace (j - length p)%nat with (S (j - 1 - length p)) by lia. done. }
    destruct (decide (i < length p)%nat).
    - rewrite Hat by lia. destruct (decide (S i = length p)) as [He|He].
      + rewrite (timestamp_app_r _ (x :: q)), He, Nat.sub_diag by lia. rewrite Forall_app in Hx. destruct Hx as [Hx _]. rewrite Forall_lookup in Hx.
        destruct (lookup_lt_is_Some_2 p i ltac:(lia)) as [y Hy]. rewrite timestamp_app_l by lia. unfold timestamp_at. rewrite Hy. cbn. by apply (Hx i).
      + rewrite Hat by lia. apply Hpq. rewrite length_app. lia.
    - rewrite !Hat' by lia. replace (S i - 1)%nat with (S (i - 1)) by lia. apply Hpq. rewrite length_app. lia. }
  rewrite take_app_length. replace (drop (S (length p)) (p ++ x :: q)) with q by (rewrite <- Nat.add_1_r, <- drop_drop, drop_app_length; done).
  replace (default no_location ((p ++ x :: q) !! length p)) with x by by rewrite lookup_app_r, Nat.sub_diag by lia.
  split; [by rewrite app_assoc; apply in_time_snoc|]. by rewrite <- (Permutation_middle p q x), app_assoc, <- Permutation_cons_append.
Qed.

(** ** The batch is reported once, in order *)
(** C35. While the modem gives no more positions than it is asked for, and its buffers hold less than
    2^31 positions, a batch is read and
    reported without touching memory outside of the arrays, in finitely many pieces: of a
    routine batch the positions in the reverse of the order they were read in, of a trip as they
    were read, each one once; the end of a trip is reported after its positions, if there
    were any to read.  [extra_overruns] has what happens when the modem gives one position
    too many. *)
Theorem batch_reported {Modem} {Q : Qmi Modem} : at_most_asked -> forall (s : LocApiV02) fuel count acc,
  0 <= mBatchSize s < 2 ^ 31 -> 0 <= mTripBatchSize s < 2 ^ 31 -> 0 <= count < Z.of_nat fuel ->
  (exists l m', reads eQMI_LOC_LOCATION_BATCHING_V02 (Z.min (mBatchSize s) count) (modem s) l m' /\
     getBatchedLocationsSync fuel count s =
       Some (LOCATION_ERROR_SUCCESS, reporting [reportLocations (rev (location_of <$> l)) (Z.of_nat (length l)) BATCHING_MODE_ROUTINE] m' s)) /\
  (exists l m', reads eQMI_LOC_OUTDOOR_TRIP_BATCHING_V02 (Z.min (mTripBatchSize s) count) (modem s) l m' /\
     getBatchedTripLocationsSync fuel count acc s =
       Some (LOCATION_ERROR_SUCCESS,
             reporting (reportLocations (location_of <$> l) (Z.of_nat (length l)) BATCHING_MODE_TRIP ::
                   (if (Z.min (mTripBatchSize s) count =? 0) || (acc =? 0) then [] else [reportCompletedTrips acc])) m' s)).
Proof. intros Hask s fuel count acc Hb Ht Hc. split; [by apply routine_told; [|lia..]|by apply trip_told; [|lia..]]. Qed.

(** A modem that keeps its positions in a list, and gives [extra] more than it is asked for. *)
Definition list_modem (extra : nat) : Qmi (list qmiLocBatchedReport) := {|
  GetBatchSize size type m := ((true, 0, size), m);
  ReleaseBatch type m := (true, m);
  SetOperationMode mode m := m;
  StartBatching r m := (true, m);
  StopBatching id type m := (true, m);
  StartOutdoorTripBatching r m := (true, m);
  ReadFromBatch n type m := (Some (take (Z.to_nat n + extra) m), drop (Z.to_nat n + extra) m);
  QueryOTBAccumulatedDistance m := (Some (0, 0), m);
|}.
Definition position (time : Z) : qmiLocBatchedReport := MkBatchedReport 0x400 0 0 0 0 0 0 0 0 0 time 0.
Definition times (r : Report) : list Z := match r with reportLocations p _ _ => Location_timestamp <$> p | _ => [] end.
Definition api_with (size : Z) (m : list qmiLocBatchedReport) : @LocApiV02 (list qmiLocBatchedReport) := MkLocApi size size size size m [].
Lemma list_modem_asked : @at_most_asked _ (list_modem 0).
Proof. intros n type m l m' [= <- _] Hn. rewrite Nat.add_0_r, length_take. lia. Qed.
(** Seven of nine positions, in two pieces. *)
Lemma batch_reported_witness :
  exists l m', reads (Q := list_modem 0) eQMI_LOC_LOCATION_BATCHING_V02 7 (position <$> [9; 8; 7; 6; 5; 4; 3; 2; 1]) l m' /\
    getBatchedLocationsSync (Q := list_modem 0) 8 7 (api_with 10 (position <$> [9; 8; 7; 6; 5; 4; 3; 2; 1])) =
      Some (LOCATION_ERROR_SUCCESS, reporting [reportLocations (rev (location_of <$> l)) (Z.of_nat (length l)) BATCHING_MODE_ROUTINE] m'
              (api_with 10 (position <$> [9; 8; 7; 6; 5; 4; 3; 2; 1]))).
Proof.
  exact (proj1 (batch_reported list_modem_asked (api_with 10 (position <$> [9; 8; 7; 6; 5; 4; 3; 2; 1])) 8 7 0 ltac:(cbn; lia) ltac:(cbn; lia) ltac:(lia))).
Defined.
(** When the modem gives one position more than it is asked for and has more of them, the
    loop, whose remaining number has wrapped, goes on reading, and what is reported is longer than
    the array. *)
Theorem extra_overruns :
  getBatchedLocationsSync (Q := list_modem 1) 10 2 (api_with 10 (position <$> [3; 2; 1])) =
    Some (LOCATION_ERROR_SUCCESS, reporting [reportLocations (location_of <$> (position <$> [1; 2; 3])) 3 BATCHING_MODE_ROUTINE] [] (api_with 10 (position <$> [3; 2; 1]))) /\
  getBatchedLocationsSync (Q := list_modem 1) 10 2 (api_with 10 (position <$> [4; 3; 2; 1])) = None.
Proof. by vm_compute. Qed.
