(* ===== verification/BatchingAdapter.v ===== *)
(** * The batching adapter ([src/gps/batching/BatchingAdapter.h], [src/gps/batching/BatchingAdapter.cpp])

    The sessions of all clients that batch positions.  Routine sessions are the modem's; the
    trips of all clients share one, which ends at the smallest of their remaining distances
    and has the smallest of their intervals.  As in the geofence adapter, commands, reports and the closures of
    responses are messages of the context's thread ([ctx]), and requests are messages of the thread of the
    modem interface ([api]); both queues are first in, first out.

    Two things are indeterminate and are arguments: what is read of a trip that was just
    erased ([freed]), if that is defined at all, and what a failed query leaves in its data,
    which is that of the message.  What follows the end of the map, when a trip is not in it,
    is undefined. *)
From stdpp Require Import sorting.
From S2P Require Import Prelude GnssTracking PbConsts LocApiBatching.
From S2P Require GeofenceAdapter.
#[local] Open Scope Z_scope.

(** ** Data *)
Record BatchingOptions := MkBatching { options : LocationOptions; batchingMode : Z }.
(** [BatchingOptions batchOptions;] *)
Definition default_options : BatchingOptions := MkBatching (MkLocation 0 0 0 0 0) BATCHING_MODE_ROUTINE.
Definition minInterval (o : BatchingOptions) : Z := l_minInterval (options o).
Definition minDistance (o : BatchingOptions) : Z := l_minDistance (options o).
Record TripSessionStatus := MkTrip {
  accumulatedDistanceOngoingBatch : Z; accumulatedDistanceThisTrip : Z; accumulatedDistanceOnTripRestart : Z;
  tripDistance : Z; tripTBFInterval : Z;
}.
(** [LocationSessionKey], the client and the identifier, and its order. *)
Abbreviation session := (Z * Z)%type.
Definition session_before {V} (a b : session * V) : Prop := a.1.2 < b.1.2 \/ (a.1.2 = b.1.2 /\ a.1.1 <= b.1.1).
#[export] Instance session_before_dec {V} : RelDecision (@session_before V).
Proof. intros a b. unfold session_before. apply _. Defined.
Definition sessions_in_order {V} (m : gmap session V) : list (session * V) := merge_sort session_before (map_to_list m).
Record Callbacks := MkCallbacks { capabilitiesCb : bool; responseCb : bool; batchingCb : bool; batchingStatusCb : bool }.

(** The closures of responses. *)
Inductive Closure :=
  | on_startBatching (client id : Z) (o : BatchingOptions)
  | on_stopBatching (client id : Z) (flpOptions : BatchingOptions) (restartNeeded : bool) (o : BatchingOptions)
  | on_getBatched (client id : Z)
  | on_restartSessions                                                  (* the trips' *)
  | on_startTrip (client id : Z) (o : BatchingOptions)
  | on_queryStart (client id : Z) (o : BatchingOptions)                  (* in [startTripBatchingMultiplex] *)
  | on_restartStart (client id : Z)
  | on_stopTrip (restartNeeded : bool) (client id : Z) (o : BatchingOptions)
  | on_queryRestart (queryAccumulatedDistance : bool) (minRemainingDistance minTBFInterval accDist : Z) (* in [restartTripBatching] *)
  | on_restartTrips (accumulatedDistance ongoingTripDistance ongoingTripInterval : Z)
  | on_nothing.
(** The messages of the context's thread. *)
Inductive CtxMsg :=
  | m_readConfig (batchSize tripBatchSize batchingTimeout batchingAccuracy : Z)   (* what the file has *)
  | m_setConfig
  | m_addClient (client : Z) (callbacks : Callbacks)
  | m_removeClient (client : Z)
  | m_requestCapabilities (client : Z)
  | m_engineUp
  | m_start (client id : Z) (o : BatchingOptions)
  | m_update (client id : Z) (o : BatchingOptions)
  | m_stop (client id : Z)
  | m_get (client id count : Z)
  | m_locations (locations : list PbTypes.Location) (count mode : Z)
  | m_completed (accumulatedDistance : Z)
  | m_status (batchStatus : Z)
  | m_closure (c : Closure) (err accumulatedDistance : Z).
(** Those of the thread of the modem interface. *)
Inductive ApiMsg :=
  | a_startBatching (id : Z) (o : LocationOptions) (accuracy timeout : Z) (c : Closure)
  | a_stopBatching (id : Z) (c : Closure)
  | a_startTrip (distance tbf timeout : Z) (c : Closure)
  | a_restartTrip (distance tbf timeout : Z) (c : Closure)
  | a_stopTrip (c : Closure)
  | a_query (c : Closure)
  | a_get (count : Z) (c : Closure)
  | a_getTrip (count : Z) (c : Closure)
  | a_full (batchCount : Z) (accumulatedDistance batchType : option Z).
(** What clients are told, and the direct calls of the modem interface. *)
Inductive Told :=
  | t_response (client err id : Z)
  | t_locations (client count : Z) (locations : list PbTypes.Location) (mode : Z)
  | t_status (client batchStatus : Z) (completedTrips : list Z)
  | t_capabilities (client : Z)
  | t_removed (client : Z)
  | t_sizes (batchSize tripBatchSize : Z).

Record Trips := MkTrips {
  mTripSessions : gmap Z TripSessionStatus;
  mOngoingTripDistance : Z; mOngoingTripTBFInterval : Z;
  mTripWithOngoingTBFDropped : bool; mTripWithOngoingTripDistanceDropped : bool;
}.
Record Config := MkConfig { mBatchingTimeout : Z; mBatchingAccuracy : Z; c_batchSize : Z; c_tripBatchSize : Z }.
Record Adapter := MkAdapter {
  mBatchingSessions : gmap session BatchingOptions;
  trips : Trips;
  config : Config;
  mClientData : gmap Z Callbacks;
  mEvtMask : Z;
  mSessionIdCounter : Z;
  mIsEngineCapabilitiesKnown : bool;
  mPendingMsgs : list CtxMsg;
  ctx : list CtxMsg;
  api : list ApiMsg;
  told : list Told;
}.
(** The constructor sends the two messages of the configuration. *)
Definition new_adapter (batchSize tripBatchSize batchingTimeout batchingAccuracy : Z) : Adapter :=
  MkAdapter ∅ (MkTrips ∅ 0 0 false false) (MkConfig 0 1 0 0) ∅ 0 1 false []
    [m_readConfig batchSize tripBatchSize batchingTimeout batchingAccuracy; m_setConfig] [] [].

Abbreviation M := (CM Adapter).
Definition set_sessions (f : gmap session BatchingOptions -> gmap session BatchingOptions) (A : Adapter) : Adapter :=
  MkAdapter (f (mBatchingSessions A)) (trips A) (config A) (mClientData A) (mEvtMask A) (mSessionIdCounter A) (mIsEngineCapabilitiesKnown A) (mPendingMsgs A) (ctx A) (api A) (told A).
Definition set_trips (f : Trips -> Trips) (A : Adapter) : Adapter :=
  MkAdapter (mBatchingSessions A) (f (trips A)) (config A) (mClientData A) (mEvtMask A) (mSessionIdCounter A) (mIsEngineCapabilitiesKnown A) (mPendingMsgs A) (ctx A) (api A) (told A).
Definition set_config (c : Config) (A : Adapter) : Adapter :=
  MkAdapter (mBatchingSessions A) (trips A) c (mClientData A) (mEvtMask A) (mSessionIdCounter A) (mIsEngineCapabilitiesKnown A) (mPendingMsgs A) (ctx A) (api A) (told A).
Definition set_clients (f : gmap Z Callbacks -> gmap Z Callbacks) (A : Adapter) : Adapter :=
  MkAdapter (mBatchingSessions A) (trips A) (config A) (f (mClientData A)) (mEvtMask A) (mSessionIdCounter A) (mIsEngineCapabilitiesKnown A) (mPendingMsgs A) (ctx A) (api A) (told A).
Definition set_mask (f : Z -> Z) (A : Adapter) : Adapter :=
  MkAdapter (mBatchingSessions A) (trips A) (config A) (mClientData A) (f (mEvtMask A)) (mSessionIdCounter A) (mIsEngineCapabilitiesKnown A) (mPendingMsgs A) (ctx A) (api A) (told A).
Definition set_counter (n : Z) (A : Adapter) : Adapter :=
  MkAdapter (mBatchingSessions A) (trips A) (config A) (mClientData A) (mEvtMask A) n (mIsEngineCapabilitiesKnown A) (mPendingMsgs A) (ctx A) (api A) (told A).
Definition set_known (b : bool) (A : Adapter) : Adapter :=
  MkAdapter (mBatchingSessions A) (trips A) (config A) (mClientData A) (mEvtMask A) (mSessionIdCounter A) b (mPendingMsgs A) (ctx A) (api A) (told A).
Definition set_pending (f : list CtxMsg -> list CtxMsg) (A : Adapter) : Adapter :=
  MkAdapter (mBatchingSessions A) (trips A) (config A) (mClientData A) (mEvtMask A) (mSessionIdCounter A) (mIsEngineCapabilitiesKnown A) (f (mPendingMsgs A)) (ctx A) (api A) (told A).
Definition set_ctx (f : list CtxMsg -> list CtxMsg) (A : Adapter) : Adapter :=
  MkAdapter (mBatchingSessions A) (trips A) (config A) (mClientData A) (mEvtMask A) (mSessionIdCounter A) (mIsEngineCapabilitiesKnown A) (mPendingMsgs A) (f (ctx A)) (api A) (told A).
Definition set_api (f : list ApiMsg -> list ApiMsg) (A : Adapter) : Adapter :=
  MkAdapter (mBatchingSessions A) (trips A) (config A) (mClientData A) (mEvtMask A) (mSessionIdCounter A) (mIsEngineCapabilitiesKnown A) (mPendingMsgs A) (ctx A) (f (api A)) (told A).
Definition set_told (f : list Told -> list Told) (A : Adapter) : Adapter :=
  MkAdapter (mBatchingSessions A) (trips A) (config A) (mClientData A) (mEvtMask A) (mSessionIdCounter A) (mIsEngineCapabilitiesKnown A) (mPendingMsgs A) (ctx A) (api A) (f (told A)).
Definition set_mTripSessions (f : gmap Z TripSessionStatus -> gmap Z TripSessionStatus) : Adapter -> Adapter :=
  set_trips (fun t => MkTrips (f (mTripSessions t)) (mOngoingTripDistance t) (mOngoingTripTBFInterval t) (mTripWithOngoingTBFDropped t) (mTripWithOngoingTripDistanceDropped t)).
Definition set_ongoing (distance tbf : Z) : Adapter -> Adapter :=
  set_trips (fun t => MkTrips (mTripSessions t) distance tbf (mTripWithOngoingTBFDropped t) (mTripWithOngoingTripDistanceDropped t)).
(** A trip that ends had the interval, or the distance, of the ongoing batch. *)
Definition set_dropped (tbf distance : bool) : Adapter -> Adapter :=
  set_trips (fun t => MkTrips (mTripSessions t) (mOngoingTripDistance t) (mOngoingTripTBFInterval t)
                        (tbf || mTripWithOngoingTBFDropped t) (distance || mTripWithOngoingTripDistanceDropped t)).
Definition tell (l : list Told) : M unit := modify (set_told (fun t => t ++ l)).
Definition ask (m : ApiMsg) : M unit := modify (set_api (fun q => q ++ [m])).
Definition sendMsg (m : CtxMsg) : Adapter -> Adapter := set_ctx (fun q => q ++ [m]).

(** ** Utilities *)
Definition LOC_API_ADAPTER_BIT_BATCH_FULL : Z := Z.shiftl 1 19.
Definition LOC_API_ADAPTER_BIT_BATCH_STATUS : Z := Z.shiftl 1 31.
(** [updateEvtMask]: enabled or disabled; masks are 64 bits wide. *)
Definition enable_mask (event : Z) : M unit := modify (set_mask (fun m => Z.lor m event)).
Definition disable_mask (event : Z) : M unit := modify (set_mask (fun m => Z.ldiff m event)).
Definition hasBatchingCallback (client : Z) (A : Adapter) : bool :=
  match mClientData A !! client with Some callbacks => batchingCb callbacks | None => false end.
Definition isBatchingSession (client id : Z) (A : Adapter) : bool := bool_decide (is_Some (mBatchingSessions A !! (client, id))).
Definition isTripSession (id : Z) (A : Adapter) : bool := bool_decide (is_Some (mTripSessions (trips A) !! id)).
Definition saveBatchingSession (client id : Z) (o : BatchingOptions) : M unit := modify (set_sessions <[(client, id) := o]>).
Definition eraseBatchingSession (client id : Z) : M unit := modify (set_sessions (delete (client, id))).
Definition reportResponse (client err id : Z) : M unit :=
  A ← get;
  match mClientData A !! client with
  | Some callbacks => if responseCb callbacks then tell [t_response client err id] else mret tt
  | None => mret tt
  end.
Definition autoReport (o : BatchingOptions) : bool := negb (batchingMode o =? BATCHING_MODE_NO_AUTO_REPORT).
Definition autoReportBatchingSessionsCount (A : Adapter) : nat :=
  (base.size (filter (fun e => autoReport e.2 = true) (mBatchingSessions A)) + base.size (mTripSessions (trips A)))%nat.
Definition disable_if_unused : M unit :=
  A ← get;
  if Nat.eqb (autoReportBatchingSessionsCount A) 0 then disable_mask LOC_API_ADAPTER_BIT_BATCH_FULL else mret tt.
Definition enable_if_unused : M unit :=
  A ← get;
  if Nat.eqb (autoReportBatchingSessionsCount A) 0 then enable_mask LOC_API_ADAPTER_BIT_BATCH_FULL else mret tt.

(** ** Routine sessions *)
Definition startBatching (client id : Z) (o : BatchingOptions) : M unit :=
  _ ← (if autoReport o then enable_if_unused else mret tt);
  _ ← saveBatchingSession client id o;
  A ← get;
  ask (a_startBatching id (options o) (mBatchingAccuracy (config A)) (mBatchingTimeout (config A)) (on_startBatching client id o)).
Definition stopBatching (client id : Z) (restartNeeded : bool) (o : BatchingOptions) : M unit :=
  A ← get;
  match mBatchingSessions A !! (client, id) with
  | Some flpOptions =>
      _ ← eraseBatchingSession client id;
      ask (a_stopBatching id (on_stopBatching client id flpOptions restartNeeded o))
  | None => mret tt
  end.

(** ** Trips *)
Definition getBatchingTimeout (A : Adapter) : Z := mBatchingTimeout (config A).
(** The smallest remaining distance and the smallest interval; zero stands for none yet. *)
Definition min_step (acc : Z * Z) (t : TripSessionStatus) : Z * Z :=
  let remaining := u32 (tripDistance t - accumulatedDistanceThisTrip t) in
  ((if (acc.1 =? 0) || (remaining <? acc.1) then remaining else acc.1),
   (if (acc.2 =? 0) || (tripTBFInterval t <? acc.2) then tripTBFInterval t else acc.2)).
Definition minima (m : gmap Z TripSessionStatus) : Z * Z := foldl min_step (0, 0) (GeofenceAdapter.by_key m).*2.

Definition restartTripBatching (queryAccumulatedDistance : bool) (accDist : Z) : M unit :=
  A ← get;
  if Nat.eqb (base.size (mTripSessions (trips A))) 0 then
    _ ← ask (a_stopTrip on_nothing);
    _ ← modify (set_ongoing 0 0);
    disable_if_unused
  else
    let '(minRemainingDistance, minTBFInterval) := minima (mTripSessions (trips A)) in
    ask (a_query (on_queryRestart queryAccumulatedDistance minRemainingDistance minTBFInterval accDist)).
Definition startTripBatchingMultiplex (client id : Z) (o : BatchingOptions) : M unit :=
  A ← get;
  if Nat.eqb (base.size (mTripSessions (trips A))) 0 then
    _ ← enable_if_unused;
    _ ← saveBatchingSession client id o;
    _ ← modify (set_mTripSessions <[id := MkTrip 0 0 0 (minDistance o) (minInterval o)]>);
    ask (a_startTrip (minDistance o) (minInterval o) (getBatchingTimeout A) (on_startTrip client id o))
  else ask (a_query (on_queryStart client id o)).
Definition stopTripBatchingMultiplexCommon (err client id : Z) (restartNeeded : bool) (o : BatchingOptions) : M unit :=
  A ← get;
  tripSess ← deref (mTripSessions (trips A) !! id);
  _ ← modify (set_dropped (tripTBFInterval tripSess =? mOngoingTripTBFInterval (trips A)) (tripDistance tripSess =? mOngoingTripDistance (trips A)));
  _ ← modify (set_mTripSessions (delete id));
  A ← get;
  _ ← (if Nat.eqb (base.size (mTripSessions (trips A))) 0 then modify (set_ongoing 0 0) else restartTripBatching true 0);
  _ ← (if restartNeeded then
         _ ← eraseBatchingSession client id;
         if (batchingMode o =? BATCHING_MODE_ROUTINE) || (batchingMode o =? BATCHING_MODE_NO_AUTO_REPORT) then startBatching client id o
         else if batchingMode o =? BATCHING_MODE_TRIP then startTripBatchingMultiplex client id o else mret tt
       else mret tt);
  reportResponse client err id.
Definition stopTripBatchingMultiplex (client id : Z) (restartNeeded : bool) (o : BatchingOptions) : M unit :=
  A ← get;
  if Nat.eqb (base.size (mTripSessions (trips A))) 1 then ask (a_stopTrip (on_stopTrip restartNeeded client id o))
  else stopTripBatchingMultiplexCommon LOCATION_ERROR_SUCCESS client id restartNeeded o.

(** ** Closures *)
Definition restart_start (t : TripSessionStatus) : TripSessionStatus :=
  MkTrip 0 (accumulatedDistanceThisTrip t) (accumulatedDistanceThisTrip t) (tripDistance t) (tripTBFInterval t).
Definition proc_queryStart (client id : Z) (o : BatchingOptions) (err acc : Z) : M unit :=
  A ← get;
  let ongoing := mOngoingTripDistance (trips A) in
  let sooner := minInterval o <? mOngoingTripTBFInterval (trips A) in
  let ongoingTripInterval := if sooner then minInterval o else mOngoingTripTBFInterval (trips A) in
  '(ongoingTripDistance, needsRestart) ←
    (if negb (err =? LOCATION_ERROR_SUCCESS) then
       mret (if minDistance o <? ongoing then (minDistance o, true) else (ongoing, sooner))
     else
       let remaining := u32 (ongoing - acc) in
       _ ← modify (set_mTripSessions <[id := MkTrip acc 0 0 (minDistance o) (minInterval o)]>);
       mret (if minDistance o <? remaining then (minDistance o, true) else if sooner then (remaining, true) else (ongoing, false)));
  if (needsRestart : bool) then
    _ ← modify (set_ongoing ongoingTripDistance ongoingTripInterval);
    _ ← modify (set_mTripSessions (fmap restart_start));
    ask (a_restartTrip ongoingTripDistance ongoingTripInterval (getBatchingTimeout A) (on_restartStart client id))
  else reportResponse client LOCATION_ERROR_SUCCESS id.
Definition proc_queryRestart (queryAccumulatedDistance : bool) (minRemainingDistance minTBFInterval accDist acc : Z) : M unit :=
  A ← get;
  let ongoing := mOngoingTripDistance (trips A) in
  let accumulatedDistance := if queryAccumulatedDistance then acc else accDist in
  let left := u32 (ongoing - accumulatedDistance) in
  let '(ongoingTripDistance, farther) :=
    if negb (mTripWithOngoingTripDistanceDropped (trips A)) && negb (left =? 0)
    then if minRemainingDistance <? left then (minRemainingDistance, true) else (ongoing, false)
    else if negb (minRemainingDistance =? 0) then (minRemainingDistance, true) else (ongoing, false) in
  let interval := mOngoingTripTBFInterval (trips A) in
  let other := (minTBFInterval <? interval) || (negb (minTBFInterval =? interval) && mTripWithOngoingTBFDropped (trips A)) in
  let ongoingTripInterval := if other then minTBFInterval else interval in
  if farther || other then
    ask (a_restartTrip ongoingTripDistance ongoingTripInterval (getBatchingTimeout A) (on_restartTrips accumulatedDistance ongoingTripDistance ongoingTripInterval))
  else mret tt.
Definition restarted (accumulatedDistance : Z) (t : TripSessionStatus) : TripSessionStatus :=
  let distance := u32 (accumulatedDistanceOnTripRestart t + (accumulatedDistance - accumulatedDistanceOngoingBatch t)) in
  MkTrip 0 distance distance (tripDistance t) (tripTBFInterval t).
Definition proc_closure (c : Closure) (err acc : Z) : M unit :=
  let ok := err =? LOCATION_ERROR_SUCCESS in
  match c with
  | on_startBatching client id o =>
      _ ← (if ok then mret tt else eraseBatchingSession client id);
      _ ← (if negb ok && autoReport o then disable_if_unused else mret tt);
      reportResponse client err id
  | on_stopBatching client id flpOptions restartNeeded o =>
      _ ← (if negb ok then saveBatchingSession client id o else
             _ ← (if autoReport flpOptions then disable_if_unused else mret tt);
             if restartNeeded then
               if (batchingMode o =? BATCHING_MODE_ROUTINE) || (batchingMode o =? BATCHING_MODE_NO_AUTO_REPORT) then startBatching client id o
               else if batchingMode o =? BATCHING_MODE_TRIP then startTripBatchingMultiplex client id o else mret tt
             else mret tt);
      reportResponse client err id
  | on_getBatched client id => reportResponse client err id
  | on_restartSessions => if ok then mret tt else modify (set_ongoing 0 0)
  | on_startTrip client id o =>
      _ ← (if ok then modify (set_ongoing (minDistance o) (minInterval o)) else
             _ ← eraseBatchingSession client id;
             _ ← modify (set_mTripSessions (delete id));
             disable_if_unused);
      reportResponse client err id
  | on_queryStart client id o => proc_queryStart client id o err acc
  | on_restartStart client id => reportResponse client err id
  | on_stopTrip restartNeeded client id o =>
      A ← get;
      _ ← (if ok && Nat.eqb (autoReportBatchingSessionsCount A) 1 then disable_mask LOC_API_ADAPTER_BIT_BATCH_FULL else mret tt);
      stopTripBatchingMultiplexCommon err client id restartNeeded o
  | on_queryRestart query minRemainingDistance minTBFInterval accDist => proc_queryRestart query minRemainingDistance minTBFInterval accDist acc
  | on_restartTrips accumulatedDistance ongoingTripDistance ongoingTripInterval =>
      if ok then
        _ ← modify (set_mTripSessions (fmap (restarted accumulatedDistance)));
        modify (set_ongoing ongoingTripDistance ongoingTripInterval)
      else mret tt
  | on_nothing => mret tt
  end.

(** ** Messages *)
Definition for_each {X} (f : X -> M unit) (l : list X) : M unit := foldr (fun x m => _ ← f x; m) (mret tt) l.
Definition stopClientSessions (client : Z) : M unit :=
  A ← get;
  for_each (fun e => if negb (batchingMode e.2 =? BATCHING_MODE_TRIP) then stopBatching client e.1.2 false default_options
                     else stopTripBatchingMultiplex client e.1.2 false default_options)
    (sessions_in_order (filter (fun e => e.1.1 = client) (mBatchingSessions A))).
Definition updateClientsEventMask : M unit :=
  A ← get;
  let mask := foldl (fun mask e => if batchingCb e.2 then Z.lor mask LOC_API_ADAPTER_BIT_BATCH_STATUS else mask) 0 (GeofenceAdapter.by_key (mClientData A)) in
  modify (set_mask (fun _ => if Nat.eqb (autoReportBatchingSessionsCount A) 0 then mask else Z.lor mask LOC_API_ADAPTER_BIT_BATCH_FULL)).
Definition saveClient (client : Z) (callbacks : Callbacks) : M unit := _ ← modify (set_clients <[client := callbacks]>); updateClientsEventMask.
Definition eraseClient (client : Z) : M unit := _ ← modify (set_clients (delete client)); updateClientsEventMask.
Definition reportLocations (locations : list PbTypes.Location) (count mode : Z) : M unit :=
  A ← get;
  tell (omap (fun c => if batchingCb c.2 then Some (t_locations c.1 count locations mode) else None) (GeofenceAdapter.by_key (mClientData A))).
Definition reportBatchStatusChange (batchStatus : Z) (completedTripsList : list Z) : M unit :=
  A ← get;
  tell (omap (fun c => if batchingStatusCb c.2 then Some (t_status c.1 batchStatus completedTripsList) else None) (GeofenceAdapter.by_key (mClientData A))).
Definition broadcastCapabilities : M unit :=
  A ← get;
  tell (omap (fun c => if capabilitiesCb c.2 then Some (t_capabilities c.1) else None) (GeofenceAdapter.by_key (mClientData A))).
(** The loop over the trips resets the distances of copies of them. *)
Definition restartSessions : M unit :=
  A ← get;
  _ ← (if Nat.eqb (autoReportBatchingSessionsCount A) 0 then mret tt else enable_mask LOC_API_ADAPTER_BIT_BATCH_FULL);
  _ ← for_each (fun e => if negb (batchingMode e.2 =? BATCHING_MODE_TRIP)
                         then ask (a_startBatching e.1.2 (options e.2) (mBatchingAccuracy (config A)) (getBatchingTimeout A) on_nothing) else mret tt)
        (sessions_in_order (mBatchingSessions A));
  if Nat.eqb (base.size (mTripSessions (trips A))) 0 then mret tt
  else
    let '(distance, tbf) := minima (mTripSessions (trips A)) in
    _ ← modify (set_ongoing distance tbf);
    ask (a_startTrip distance tbf (getBatchingTimeout A) on_restartSessions).
Definition proc_engineUp : M unit :=
  _ ← modify (set_known true);
  _ ← broadcastCapabilities;
  A ← get;
  _ ← tell [t_sizes (c_batchSize (config A)) (c_tripBatchSize (config A))];
  _ ← restartSessions;
  _ ← modify (fun A => set_ctx (fun q => q ++ mPendingMsgs A) A);
  modify (set_pending (fun _ => [])).

(** [MsgReportCompletedTrips::proc]; [freed id] is what is read of the interval and of the
    distance of the trip [id] after it was erased: [None], undefined behaviour, by the
    standard of the language; something where freed memory can still be read. *)
Definition travelled (accumulatedDistance : Z) (t : TripSessionStatus) : TripSessionStatus :=
  MkTrip (accumulatedDistanceOngoingBatch t)
    (u32 (accumulatedDistanceOnTripRestart t + (accumulatedDistance - accumulatedDistanceOngoingBatch t)))
    (accumulatedDistanceOnTripRestart t) (tripDistance t) (tripTBFInterval t).
Definition is_completed (t : TripSessionStatus) : bool := tripDistance t <=? accumulatedDistanceThisTrip t.
Definition complete_trip (freed : Z -> option (Z * Z)) (accumulatedDistance : Z) (e : Z * TripSessionStatus) (completed : list Z) : M (list Z) :=
  let t := travelled accumulatedDistance e.2 in
  if is_completed t then
    _ ← modify (set_mTripSessions (delete e.1));
    A ← get;
    match freed e.1 with
    | Some (interval, distance) =>
        _ ← modify (set_dropped (interval =? mOngoingTripTBFInterval (trips A)) (distance =? mOngoingTripDistance (trips A)));
        mret (completed ++ [e.1])
    | None => fun _ => None
    end
  else _ ← modify (set_mTripSessions <[e.1 := t]>); mret completed.
Fixpoint complete_trips (freed : Z -> option (Z * Z)) (accumulatedDistance : Z) (l : list (Z * TripSessionStatus)) (completed : list Z) : M (list Z) :=
  match l with
  | [] => mret completed
  | e :: l => completed ← complete_trip freed accumulatedDistance e completed; complete_trips freed accumulatedDistance l completed
  end.
Definition proc_completed (freed : Z -> option (Z * Z)) (accumulatedDistance : Z) : M unit :=
  A ← get;
  completedTripsList ← complete_trips freed accumulatedDistance (GeofenceAdapter.by_key (mTripSessions (trips A))) [];
  match completedTripsList with
  | [] => mret tt
  | _ => _ ← reportBatchStatusChange BATCHING_STATUS_TRIP_COMPLETED completedTripsList; restartTripBatching false accumulatedDistance
  end.

(** Commands wait until the capabilities are known. *)
Definition when_known (m : CtxMsg) (run : M unit) : M unit :=
  A ← get;
  if mIsEngineCapabilitiesKnown A then run else modify (set_pending (fun l => l ++ [m])).
Section proc.
(** [ContextBase::isMessageSupported(LOC_API_ADAPTER_MESSAGE_DISTANCE_BASE_LOCATION_BATCHING)] *)
Context (batching_supported : bool).
Definition proc_start (client id : Z) (o : BatchingOptions) : M unit :=
  A ← get;
  let err := if negb (hasBatchingCallback client A) then LOCATION_ERROR_CALLBACK_MISSING
             else if l_size (options o) =? 0 then LOCATION_ERROR_INVALID_PARAMETER
             else if negb batching_supported then LOCATION_ERROR_NOT_SUPPORTED else LOCATION_ERROR_SUCCESS in
  if err =? LOCATION_ERROR_SUCCESS then
    if (batchingMode o =? BATCHING_MODE_ROUTINE) || (batchingMode o =? BATCHING_MODE_NO_AUTO_REPORT) then startBatching client id o
    else if batchingMode o =? BATCHING_MODE_TRIP then startTripBatchingMultiplex client id o
    else reportResponse client LOCATION_ERROR_INVALID_PARAMETER id
  else mret tt.
Definition proc_update (client id : Z) (o : BatchingOptions) : M unit :=
  A ← get;
  let err := if negb (isBatchingSession client id A) then LOCATION_ERROR_ID_UNKNOWN
             else if (l_size (options o) =? 0) || (BATCHING_MODE_NO_AUTO_REPORT <? batchingMode o) then LOCATION_ERROR_INVALID_PARAMETER
             else LOCATION_ERROR_SUCCESS in
  if err =? LOCATION_ERROR_SUCCESS then
    if negb (isTripSession id A) then stopBatching client id true o else stopTripBatchingMultiplex client id true o
  else mret tt.
Definition proc_stop (client id : Z) : M unit :=
  A ← get;
  if isBatchingSession client id A then
    if isTripSession id A then stopTripBatchingMultiplex client id false default_options else stopBatching client id false default_options
  else mret tt.
Definition proc_get (client id count : Z) : M unit :=
  A ← get;
  let err := if negb (hasBatchingCallback client A) then LOCATION_ERROR_CALLBACK_MISSING
             else if negb (isBatchingSession client id A) then LOCATION_ERROR_ID_UNKNOWN else LOCATION_ERROR_SUCCESS in
  if err =? LOCATION_ERROR_SUCCESS then
    if isTripSession id A then ask (a_getTrip count (on_getBatched client id)) else ask (a_get count (on_getBatched client id))
  else reportResponse client err id.
Definition proc (freed : Z -> option (Z * Z)) (m : CtxMsg) : M unit :=
  match m with
  | m_readConfig batchSize tripBatchSize timeout accuracy => modify (set_config (MkConfig timeout accuracy batchSize tripBatchSize))
  | m_setConfig => A ← get; tell [t_sizes (c_batchSize (config A)) (c_tripBatchSize (config A))]
  | m_addClient client callbacks => saveClient client callbacks
  | m_removeClient client => _ ← stopClientSessions client; _ ← eraseClient client; tell [t_removed client]
  | m_requestCapabilities client =>
      when_known m (A ← get; match mClientData A !! client with
                             | Some callbacks => if capabilitiesCb callbacks then tell [t_capabilities client] else mret tt
                             | None => mret tt
                             end)
  | m_engineUp => proc_engineUp
  | m_start client id o => when_known m (proc_start client id o)
  | m_update client id o => when_known m (proc_update client id o)
  | m_stop client id => when_known m (proc_stop client id)
  | m_get client id count => when_known m (proc_get client id count)
  | m_locations locations count mode => reportLocations locations count mode
  | m_completed accumulatedDistance => proc_completed freed accumulatedDistance
  | m_status batchStatus => reportBatchStatusChange batchStatus []
  | m_closure c err acc => proc_closure c err acc
  end.
(** The context's thread takes its next message. *)
Definition ctx_step (freed : Z -> option (Z * Z)) : M unit :=
  A ← get;
  match ctx A with
  | [] => mret tt
  | m :: ms => _ ← modify (set_ctx (fun _ => ms)); proc freed m
  end.
End proc.

(** ** Commands, in a client's thread, and events *)
Definition startBatchingCommand (client : Z) (o : BatchingOptions) (A : Adapter) : Z * Adapter :=
  let sessionId := GeofenceAdapter.generateSessionId (mSessionIdCounter A) in
  (sessionId, sendMsg (m_start client sessionId o) (set_counter sessionId A)).
Definition updateBatchingOptionsCommand (client id : Z) (o : BatchingOptions) : Adapter -> Adapter := sendMsg (m_update client id o).
Definition stopBatchingCommand (client id : Z) : Adapter -> Adapter := sendMsg (m_stop client id).
Definition getBatchedLocationsCommand (client id count : Z) : Adapter -> Adapter := sendMsg (m_get client id count).
Definition addClientCommand (client : Z) (callbacks : Callbacks) : Adapter -> Adapter := sendMsg (m_addClient client callbacks).
Definition removeClientCommand (client : Z) : Adapter -> Adapter := sendMsg (m_removeClient client).
Definition requestCapabilitiesCommand (client : Z) : Adapter -> Adapter := sendMsg (m_requestCapabilities client).
Definition handleEngineUpEvent : Adapter -> Adapter := sendMsg m_engineUp.
Definition reportLocationsEvent (locations : list PbTypes.Location) (count mode : Z) : Adapter -> Adapter := sendMsg (m_locations locations count mode).
Definition reportCompletedTripsEvent (accumulatedDistance : Z) : Adapter -> Adapter := sendMsg (m_completed accumulatedDistance).
Definition reportBatchStatusChangeEvent (batchStatus : Z) : Adapter -> Adapter := sendMsg (m_status batchStatus).
(** [LocApiBase] tells the adapter what it reports. *)
Definition deliver (r : Report) : Adapter -> Adapter :=
  match r with
  | LocApiBatching.reportLocations locations count mode => reportLocationsEvent locations count mode
  | reportCompletedTrips accumulatedDistance => reportCompletedTripsEvent accumulatedDistance
  | handleBatchStatusEvent batchStatus => reportBatchStatusChangeEvent batchStatus
  end.

(** ** The thread of the modem interface *)
Section api.
Context {Modem : Type} {Q : Qmi Modem} (trip_supported : bool).
(** A message is carried out, and [returnToSender] sends its closure to the context's
    thread.  [uninit] is what the data of a query holds when it fails. *)
Definition api_proc (fuel : nat) (uninit : Z) (m : ApiMsg) : CM LocApiV02 (option CtxMsg) :=
  let answer (c : Closure) (run : CM LocApiV02 Z) : CM LocApiV02 (option CtxMsg) := err ← run; mret (Some (m_closure c err 0)) in
  match m with
  | a_startBatching id o accuracy timeout c => answer c (LocApiBatching.startBatching id o accuracy timeout)
  | a_stopBatching id c => answer c (LocApiBatching.stopBatching id)
  | a_startTrip distance tbf timeout c => answer c (startOutdoorTripBatchingSync distance tbf timeout)
  | a_restartTrip distance tbf timeout c => answer c (reStartOutdoorTripBatching fuel distance tbf timeout)
  | a_stopTrip c => answer c (stopOutdoorTripBatchingSync true)
  | a_query c =>
      '(err, data) ← queryAccumulatedTripDistanceSync;
      mret (Some (m_closure c err (match data with Some (accumulatedDistance, _) => accumulatedDistance | None => uninit end)))
  | a_get count c => answer c (getBatchedLocationsSync fuel count)
  | a_getTrip count c => answer c (getBatchedTripLocationsSync fuel count 0)
  | a_full batchCount accumulatedDistance batchType =>
      _ ← batchFullEvent trip_supported fuel batchCount accumulatedDistance batchType; mret None
  end.
(** What is reported on the way is sent to the adapter before the closure. *)
Definition api_step (fuel : nat) (uninit : Z) (s : Adapter * LocApiV02) : option (Adapter * LocApiV02) :=
  match api s.1 with
  | [] => Some s
  | m :: ms =>
      '(answer, L) ← api_proc fuel uninit m (MkLocApi (mDesiredBatchSize s.2) (mBatchSize s.2) (mDesiredTripBatchSize s.2) (mTripBatchSize s.2) (modem s.2) []);
      let A := foldl (fun A r => deliver r A) (set_api (fun _ => ms) s.1) (reports L) in
      Some (match answer with Some m => sendMsg m A | None => A end, L)
  end.
(** The sizes that the adapter sets are set at once. *)
Definition set_api_sizes (told : list Told) (L : @LocApiV02 Modem) : option (@LocApiV02 Modem) :=
  foldl (fun L t => match t with
                    | t_sizes batchSize tripBatchSize =>
                        L ← L; '(_, L) ← setBatchSize batchSize L; '(_, L) ← setTripBatchSize tripBatchSize L; Some L
                    | _ => L
                    end) (Some L) told.
End api.
