(* ===== verification/BatchingWorld.v ===== *)
(** * The batching adapter: what is proved of it

    The adapter runs with the modem interface and with a modem that has one batch of trips and
    counts the distance from its start, as the messages of the modem are documented
    ([TripModem]). *)
From stdpp Require Import sorting relations.
From S2P Require Import Prelude GnssTracking PbConsts LocApiBatching BatchingAdapter.
From S2P Require GeofenceAdapter.
#[local] Open Scope Z_scope.

(** ** The modem *)
(** The batch that it runs: its distance, its interval, and the distance accumulated since it
    was started, which grows when the device moves. *)
Class TripModem (Modem : Type) {Q : Qmi Modem} := {
  batch : Modem -> option (Z * Z * Z);
  moves : Z -> Modem -> Modem -> Prop;
  law_moves k m m' : moves k m m' -> batch m' = (fun b => (b.1, b.2 + k)) <$> batch m;
  law_StartOutdoor r m : batch (StartOutdoorTripBatching r m).2 =
    if (StartOutdoorTripBatching r m).1 then Some (so_batchDistance r, so_minTimeInterval r, 0) else batch m;
  law_StopOutdoor m : batch (StopBatching None eQMI_LOC_OUTDOOR_TRIP_BATCHING_V02 m).2 =
    if (StopBatching None eQMI_LOC_OUTDOOR_TRIP_BATCHING_V02 m).1 then None else batch m;
  law_Query m : batch (QueryOTBAccumulatedDistance m).2 = batch m;
  law_Query_data m b data : batch m = Some b -> (QueryOTBAccumulatedDistance m).1 = Some data -> data.1 = b.2;
  law_GetBatchSize size type m : batch (GetBatchSize size type m).2 = batch m;
  law_ReleaseBatch type m : batch (ReleaseBatch type m).2 = batch m;
  law_SetOperationMode mode m : batch (SetOperationMode mode m) = batch m;
  law_StartBatching r m : batch (StartBatching r m).2 = batch m;
  law_StopBatching id m : batch (StopBatching (Some id) eQMI_LOC_LOCATION_BATCHING_V02 m).2 = batch m;
  law_ReadFromBatch n type m : batch (ReadFromBatch n type m).2 = batch m;
}.

(** ** The world *)
(** What is read of a trip that was just erased is arbitrary, but it can be read. *)
Inductive Command :=
  | c_add (client : Z) (callbacks : Callbacks) | c_remove (client : Z) | c_capabilities (client : Z)
  | c_start (client : Z) (o : BatchingOptions) | c_update (client id : Z) (o : BatchingOptions) | c_stop (client id : Z) | c_get (client id count : Z).
Definition issue (c : Command) (A : Adapter) : Adapter :=
  match c with
  | c_add client callbacks => addClientCommand client callbacks A
  | c_remove client => removeClientCommand client A
  | c_capabilities client => requestCapabilitiesCommand client A
  | c_start client o => (startBatchingCommand client o A).2
  | c_update client id o => updateBatchingOptionsCommand client id o A
  | c_stop client id => stopBatchingCommand client id A
  | c_get client id count => getBatchedLocationsCommand client id count A
  end.
(** The trips whose start is asked for in a step. *)
Definition asked_trip (m : ApiMsg) : option Z :=
  match m with a_startTrip _ _ _ (on_startTrip _ id _) | a_query (on_queryStart _ id _) => Some id | _ => None end.
Definition new_trips (A A' : Adapter) : list Z := omap asked_trip (drop (length (api A)) (api A')).

Section world.
Context {Modem : Type} {Q : Qmi Modem} {TM : TripModem Modem} (batching_supported trip_supported : bool).
(** [w_odometer] is the distance that the device has moved, and [w_began] has what it was when the
    modem interface was asked for a trip; the program knows neither. *)
Record World := MkWorld { w_adapter : Adapter; w_api : @LocApiV02 Modem; w_odometer : Z; w_began : gmap Z Z }.
Definition began (o : Z) (ids : list Z) (b : gmap Z Z) : gmap Z Z := foldl (fun b id => <[id := o]> b) b ids.
Inductive step : World -> World -> Prop :=
  | s_command c A L o b : step (MkWorld A L o b) (MkWorld (issue c A) L o b)
  | s_ctx freed A L o b A' L' : (forall id, is_Some (freed id)) -> ctx A <> [] -> ctx_step batching_supported freed A = Some (tt, A') ->
      set_api_sizes (drop (length (told A)) (told A')) L = Some L' -> step (MkWorld A L o b) (MkWorld A' L' o (began o (new_trips A A') b))
  | s_api fuel uninit A L o b A' L' : api A <> [] -> api_step trip_supported fuel uninit (A, L) = Some (A', L') ->
      step (MkWorld A L o b) (MkWorld A' L' o b)
  | s_moves k m' A L o b : 0 <= k -> moves k (modem L) m' -> step (MkWorld A L o b) (MkWorld A (set_modem m' L) (o + k) b)
  | s_full count distance type A L o b : default 0 distance = 0 \/ default 0 distance = default 0 (snd <$> batch (modem L)) ->
      step (MkWorld A L o b) (MkWorld (set_api (fun q => q ++ [a_full count distance type]) A) L o b)
  | s_status status A L o b : step (MkWorld A L o b) (MkWorld (reportBatchStatusChangeEvent status A) L o b)
  | s_up m' A L o b : batch m' = None -> step (MkWorld A L o b) (MkWorld (handleEngineUpEvent A) (set_modem m' L) o b).
Definition world_with (conf : Z * Z * Z * Z) (m : Modem) : World :=
  let '(batchSize, tripBatchSize, timeout, accuracy) := conf in
  MkWorld (new_adapter batchSize tripBatchSize timeout accuracy) (MkLocApi 0 0 0 0 m []) 0 ∅.
Definition reachable_by (R : World -> World -> Prop) (w : World) : Prop :=
  exists conf m, batch m = None /\ rtc (fun w w' => step w w' /\ R w w') (world_with conf m) w.

End world.

(** A modem with a batch. *)
Record Device := MkDevice { d_batch : option (Z * Z * Z) }.
#[export] Instance device_qmi : Qmi Device := {|
  GetBatchSize size type m := ((true, 0, size), m);
  ReleaseBatch type m := (true, m);
  SetOperationMode mode m := m;
  StartBatching r m := (true, m);
  StopBatching id type m := (true, if type =? eQMI_LOC_OUTDOOR_TRIP_BATCHING_V02 then MkDevice None else m);
  StartOutdoorTripBatching r m := (true, MkDevice (Some (so_batchDistance r, so_minTimeInterval r, 0)));
  ReadFromBatch n type m := (Some [], m);
  QueryOTBAccumulatedDistance m := (Some (default 0 (snd <$> d_batch m), 0), m);
|}.
Definition move_device (k : Z) (m : Device) : Device := MkDevice ((fun b => (b.1, b.2 + k)) <$> d_batch m).
#[export, refine] Instance device_trips : TripModem Device := {| batch := d_batch; moves k m m' := m' = move_device k m |}.
Proof. all: try done. - by intros k m m' ->. - intros m b data Hb [= <-]. by rewrite Hb. Defined.

(** Behaviours of the device that can be computed; a trip that was erased is read as it was. *)
Inductive Action := do_command (c : Command) | do_ctx | do_api | do_move (k : N) | do_full (count : Z) | do_up.
Definition distance_of (m : Device) : Z := default 0 (snd <$> d_batch m).
Definition act (a : Action) (w : @World Device) : option (@World Device) :=
  let '(MkWorld A L o b) := w in
  match a with
  | do_command c => Some (MkWorld (issue c A) L o b)
  | do_ctx => match ctx A with
              | [] => None
              | _ => '(_, A') ← ctx_step true (fun id => Some (default (0, 0) ((fun t => (tripTBFInterval t, tripDistance t)) <$> mTripSessions (trips A) !! id))) A;
                     L' ← set_api_sizes (drop (length (told A)) (told A')) L;
                     Some (MkWorld A' L' o (began o (new_trips A A') b))
              end
  | do_api => match api A with [] => None | _ => '(A', L') ← api_step true 100 0 (A, L); Some (MkWorld A' L' o b) end
  | do_move k => Some (MkWorld A (set_modem (move_device (Z.of_N k) (modem L)) L) (o + Z.of_N k) b)
  | do_full count =>
      Some (MkWorld (set_api (fun q => q ++ [a_full count (Some (distance_of (modem L))) (Some eQMI_LOC_OUTDOOR_TRIP_BATCHING_V02)]) A) L o b)
  | do_up => Some (MkWorld (handleEngineUpEvent A) (set_modem (MkDevice None) L) o b)
  end.
Fixpoint acts (check : @World Device -> bool) (l : list Action) (w : World) : option World :=
  match l with
  | [] => Some w
  | a :: l => w' ← act a w; if check w' then acts check l w' else None
  end.
Lemma move_step a w w' : act a w = Some w' -> step true true w w'.
Proof.
  destruct w as [A L o b]. destruct a as [c| | |k|n|]; cbn.
  - intros [= <-]. constructor.
  - destruct (ctx A) as [|m ms] eqn:E; [done|]. intros ([[] A'] & H1 & (L' & H2 & [= <-])%bind_Some)%bind_Some. eapply s_ctx; [by eexists|by rewrite E|done|done].
  - destruct (api A) as [|m ms] eqn:E; [done|]. intros ([A' L'] & H & [= <-])%bind_Some. eapply s_api; [by rewrite E|done].
  - intros [= <-]. apply s_moves; [lia|done].
  - intros [= <-]. apply s_full. right. done.
  - intros [= <-]. by apply s_up.
Qed.
Definition new_world : World := world_with (10, 10, 0, 1) (MkDevice None).
Lemma moves_reachable (R : World -> World -> Prop) check l w : (forall w w', check w' = true -> R w w') -> acts check l new_world = Some w -> reachable_by true true R w.
Proof.
  intros HR Hl. exists (10, 10, 0, 1), (MkDevice None). split; [done|]. revert Hl. fold new_world. generalize new_world.
  induction l as [|a l IH]; intros w0; cbn; [intros [= <-]; constructor|]. intros (w1 & H1 & H2)%bind_Some. destruct (check w1) eqn:E; [|done].
  eapply rtc_l; [split; [by eapply move_step|by apply HR]|by apply IH].
Qed.

(** ** Trips that do not overlap *)
(** The messages that take part in starting, stopping or restarting trips. *)
Definition trip_closure (c : Closure) : nat :=
  match c with on_startBatching _ _ _ | on_stopBatching _ _ _ _ _ | on_getBatched _ _ | on_nothing => 0 | _ => 1 end%nat.
Definition ctx_load (m : CtxMsg) : nat := match m with m_completed _ => 1%nat | m_closure c _ _ => trip_closure c | _ => 0%nat end.
Definition api_load (m : ApiMsg) : nat :=
  match m with
  | a_startTrip _ _ _ _ | a_restartTrip _ _ _ _ | a_stopTrip _ | a_query _ => 1
  | a_full _ _ (Some type) => if Z.eqb type eQMI_LOC_OUTDOOR_TRIP_BATCHING_V02 then 1 else 0
  | _ => 0
  end%nat.
Definition trip_load (A : Adapter) : nat := (sum_list_with ctx_load (ctx A) + sum_list_with api_load (api A))%nat.
(** The closures that do not expect a failure. *)
Definition needs_success (c : Closure) : bool :=
  match c with on_queryStart _ _ _ | on_restartStart _ _ | on_queryRestart _ _ _ _ | on_restartTrips _ _ _ => true | _ => false end.
(** At most one such message is under way; the modem restarts only while there is no trip, and refuses
    neither queries nor restarts; intervals are not zero; a trip is not started twice; the odometer stays below 2^32. *)
Record orderly {Modem} (w : @World Modem) : Prop := {
  or_load : (trip_load (w_adapter w) <= 1)%nat;
  or_success c err acc : m_closure c err acc ∈ ctx (w_adapter w) -> needs_success c = true -> err = LOCATION_ERROR_SUCCESS;
  or_up : m_engineUp ∈ ctx (w_adapter w) -> mTripSessions (trips (w_adapter w)) = ∅ /\ trip_load (w_adapter w) = 0%nat;
  or_interval : map_Forall (fun _ t => 0 < tripTBFInterval t) (mTripSessions (trips (w_adapter w)));
  or_fresh c id o : a_query (on_queryStart c id o) ∈ api (w_adapter w) -> mTripSessions (trips (w_adapter w)) !! id = None;
  or_odometer : 0 <= w_odometer w < 2 ^ 32;
}.

Definition orderly_b (w : @World Device) : bool :=
  let A := w_adapter w in let T := mTripSessions (trips A) in
  (trip_load A <=? 1)%nat &&
  forallb (fun m => match m with
                    | m_closure c err _ => negb (needs_success c) || (err =? LOCATION_ERROR_SUCCESS)
                    | m_engineUp => bool_decide (T = ∅) && (trip_load A =? 0)%nat
                    | _ => true end) (ctx A) &&
  bool_decide (map_Forall (fun _ t => 0 < tripTBFInterval t) T) &&
  forallb (fun m => match m with a_query (on_queryStart _ id _) => negb (bool_decide (is_Some (T !! id))) | _ => true end) (api A) &&
  (0 <=? w_odometer w) && (w_odometer w <? 2 ^ 32).
Lemma orderly_b_ok w : orderly_b w = true -> orderly w.
Proof.
  unfold orderly_b. rewrite !andb_true_iff, !forallb_forall. intros [[[[[H1 H2] H3] H4] H5] H6]. apply bool_decide_eq_true in H3. split.
  - by apply Nat.leb_le.
  - intros c err acc Hin Hc. apply list_elem_of_In in Hin. specialize (H2 _ Hin). cbn in H2. rewrite Hc in H2. by apply Z.eqb_eq.
  - intros Hin. apply list_elem_of_In in Hin. specialize (H2 _ Hin). cbn in H2. apply andb_true_iff in H2 as [Ha Hb]. apply bool_decide_eq_true in Ha. by apply Nat.eqb_eq in Hb.
  - done.
  - intros c id o Hin. apply list_elem_of_In in Hin. specialize (H4 _ Hin). cbn in H4. rewrite negb_true_iff, bool_decide_eq_false in H4. by apply eq_None_not_Some.
  - apply Z.leb_le in H5. apply Z.ltb_lt in H6. lia.
Qed.

(** What the messages and the trips depend on. *)
Record View := MkView { v_trips : Trips; v_batch : option (Z * Z * Z); v_odometer : Z; v_began : gmap Z Z }.
Definition v_sessions (v : View) : gmap Z TripSessionStatus := mTripSessions (v_trips v).
(** A trip has counted no more than what the device has moved since it was asked for, when the
    batch has accumulated [D]. *)
Definition fair (v : View) (D : Z) (id : Z) (t : TripSessionStatus) : Prop :=
  exists s, v_began v !! id = Some s /\ 0 <= s <= v_odometer v /\ 0 <= accumulatedDistanceOngoingBatch t <= D /\ 0 <= accumulatedDistanceOnTripRestart t /\
    0 <= accumulatedDistanceThisTrip t <= v_odometer v - s /\ accumulatedDistanceOnTripRestart t + (D - accumulatedDistanceOngoingBatch t) <= v_odometer v - s.
Definition all_fair (v : View) (D : Z) : Prop := map_Forall (fair v D) (v_sessions v).
Definition batch_is (b : option (Z * Z * Z)) (tbf D : Z) : Prop := exists d, b = Some (d, interval_of tbf, D).
Definition runs (v : View) : Z -> Z -> Prop := batch_is (v_batch v).
Definition suits (v : View) (tbf : Z) : Prop := map_Forall (fun _ t => tbf <= tripTBFInterval t) (v_sessions v).
Definition idle (v : View) : Prop :=
  v_sessions v = ∅ \/ exists D, runs v (mOngoingTripTBFInterval (v_trips v)) D /\ all_fair v D /\ suits v (mOngoingTripTBFInterval (v_trips v)).
Definition starting (v : View) (id tbf : Z) (s : Z) : Prop :=
  (exists d, v_sessions v = {[id := MkTrip 0 0 0 d tbf]}) /\ v_began v !! id = Some s /\ 0 <= s <= v_odometer v.
Definition api_phase (v : View) (m : ApiMsg) : Prop :=
  match m with
  | a_startBatching _ _ _ _ c | a_stopBatching _ c | a_get _ c | a_getTrip _ c => trip_closure c = 0%nat
  | a_startTrip _ tbf _ (on_startTrip _ id o) => tbf = minInterval o /\ exists s, starting v id tbf s
  | a_restartTrip _ tbf _ (on_restartStart _ _) =>
      tbf = mOngoingTripTBFInterval (v_trips v) /\ suits v tbf /\ all_fair v 0
  | a_restartTrip _ tbf _ (on_restartTrips acc _ tbf') => tbf' = tbf /\ suits v tbf /\ all_fair v acc
  | a_stopTrip (on_stopTrip _ _ _ _) => base.size (v_sessions v) = 1%nat
  | a_stopTrip on_nothing => v_sessions v = ∅
  | a_query (on_queryStart _ id _) => v_sessions v <> ∅ /\ idle v /\ exists s, v_began v !! id = Some s /\ 0 <= s <= v_odometer v
  | a_query (on_queryRestart query _ tbf acc) => v_sessions v <> ∅ /\ idle v /\ suits v tbf /\ (query = false -> all_fair v acc)
  | a_full _ distance (Some type) =>
      if type =? eQMI_LOC_OUTDOOR_TRIP_BATCHING_V02 then idle v /\ (default 0 distance <> 0 -> all_fair v (default 0 distance)) else True
  | a_full _ _ None => True
  | _ => False
  end.
Definition ctx_phase (v : View) (m : CtxMsg) : Prop :=
  match m with
  | m_completed acc => idle v /\ all_fair v acc
  | m_closure c err acc =>
      match c with
      | on_startTrip _ id o =>
          exists s, starting v id (minInterval o) s /\ (err = LOCATION_ERROR_SUCCESS -> exists D, runs v (minInterval o) D /\ 0 <= D <= v_odometer v - s)
      | on_queryStart _ id o => v_sessions v <> ∅ /\ idle v /\
          (err = LOCATION_ERROR_SUCCESS -> exists s D, snd <$> v_batch v = Some D /\ v_began v !! id = Some s /\ 0 <= s /\ 0 <= acc <= D /\ D - acc <= v_odometer v - s)
      | on_restartStart _ _ => err = LOCATION_ERROR_SUCCESS -> idle v
      | on_stopTrip _ _ _ _ => base.size (v_sessions v) = 1%nat
      | on_queryRestart query _ tbf acc' =>
          v_sessions v <> ∅ /\ idle v /\ suits v tbf /\ (err = LOCATION_ERROR_SUCCESS -> all_fair v (if query then acc else acc'))
      | on_restartTrips acc' _ tbf =>
          suits v tbf /\ (err = LOCATION_ERROR_SUCCESS -> exists D, runs v tbf D /\ 0 <= D /\
            map_Forall (fun id t => exists s, v_began v !! id = Some s /\ 0 <= s <= v_odometer v /\ 0 <= accumulatedDistanceOngoingBatch t <= acc' /\
              0 <= accumulatedDistanceOnTripRestart t /\
              accumulatedDistanceOnTripRestart t + (acc' - accumulatedDistanceOngoingBatch t) + D <= v_odometer v - s) (v_sessions v))
      | on_restartSessions => False
      | _ => True
      end
  | _ => True
  end.
