(* ===== verification/BatchingTheorems.v ===== *)
(** * The batching adapter: what is proved of it *)
From stdpp Require Import sorting relations.
From S2P Require Import Prelude GnssTracking PbConsts LocApiBatching BatchingAdapter BatchingWorld.
From S2P Require GeofenceAdapter.
#[local] Open Scope Z_scope.

(** ** The modem interface *)
Definition is_locations (r : Report) : Prop := match r with LocApiBatching.reportLocations _ _ _ => True | _ => False end.
Section api.
Context {Modem : Type} {Q : Qmi Modem} {TM : TripModem Modem}.
(** Computations that leave the batch alone and report positions only. *)
Definition inert {A} (m : CM (@LocApiV02 Modem) A) : Prop := forall s a s', m s = Some (a, s') ->
  batch (modem s') = batch (modem s) /\ exists rs, reports s' = reports s ++ rs /\ Forall is_locations rs.
Lemma inert_ret {A} (a : A) : inert (mret a).
Proof. intros s a' s' [= _ <-]. split; [done|]. exists []. by rewrite app_nil_r. Qed.
Lemma inert_undef {A} : inert (undef : CM _ A).
Proof. by intros s a s' H. Qed.
Lemma inert_get : inert get.
Proof. intros s a' s' [= _ <-]. split; [done|]. exists []. by rewrite app_nil_r. Qed.
Lemma inert_bind {A B} (m : CM _ A) (f : A -> CM _ B) : inert m -> (forall a, inert (f a)) -> inert (m ≫= f).
Proof.
  intros Hm Hf s b s' (a & s1 & H1 & H2)%bind_run. apply Hm in H1 as (H1 & rs1 & R1 & F1). apply Hf in H2 as (H2 & rs2 & R2 & F2).
  split; [congruence|]. exists (rs1 ++ rs2). split; [by rewrite R2, R1, app_assoc|]. by apply Forall_app.
Qed.
Lemma inert_modify f : (forall s, modem (f s) = modem s /\ reports (f s) = reports s) -> inert (modify f).
Proof. intros Hf s a s' [= _ <-]. destruct (Hf s) as [-> ->]. split; [done|]. exists []. by rewrite app_nil_r. Qed.
Lemma inert_send {A} (f : Modem -> A * Modem) : (forall m, batch (f m).2 = batch m) -> inert (send f).
Proof.
  intros Hf s a s'. unfold send. specialize (Hf (modem s)). destruct (f (modem s)) as [a' m]. intros [= _ <-]. cbn in *. split; [done|]. exists []. by rewrite app_nil_r.
Qed.
Lemma inert_report r : is_locations r -> inert (report r).
Proof. intros Hr s a s' [= _ <-]. cbn. split; [done|]. exists [r]. split; [done|]. by repeat constructor. Qed.
Lemma inert_deref {A} (o : option A) : inert (deref o).
Proof. destruct o; [apply inert_ret|apply inert_undef]. Qed.
Lemma inert_run {A} (m : CM _ A) s a s' : inert m -> m s = Some (a, s') -> batch (modem s') = batch (modem s).
Proof. intros Hm H. by apply Hm in H as [? _]. Qed.
Create HintDb inert.
Hint Resolve inert_ret inert_undef inert_get inert_report inert_deref : inert.
Hint Extern 1 (inert (modify _)) => apply inert_modify; done : inert.
Hint Extern 0 (is_locations _) => exact I : inert.
Ltac laws := intros; cbn; auto using law_Query, law_GetBatchSize, law_ReleaseBatch, law_SetOperationMode, law_StartBatching, law_StopBatching, law_ReadFromBatch.
Ltac inert := repeat first [done | progress auto with inert | apply inert_send; laws | apply inert_bind; [|intros []] | apply inert_bind; [|intros ?]
  | match goal with |- inert (if ?b then _ else _) => destruct b | |- inert (match ?x with _ => _ end) => destruct x end].
Lemma queryBatchBuffer_inert d mode : inert (queryBatchBuffer d mode).
Proof. unfold queryBatchBuffer. inert. Qed.
Lemma releaseBatchBuffer_inert mode : inert (releaseBatchBuffer mode).
Proof. unfold releaseBatchBuffer. inert. Qed.
Lemma readModemLocations_inert n mode : inert (readModemLocations n mode).
Proof. unfold readModemLocations. inert. Qed.
Lemma query_inert : inert queryAccumulatedTripDistanceSync.
Proof. unfold queryAccumulatedTripDistanceSync. inert. Qed.
Lemma read_routine_inert fuel total got n p : inert (read_routine fuel total got n p).
Proof. revert got n p. induction fuel as [|fuel IH]; intros; cbn [read_routine]; [inert|]. apply inert_bind; [apply readModemLocations_inert|]. intros l. inert. Qed.
Lemma read_trip_inert fuel total got n p : inert (read_trip fuel total got n p).
Proof. revert got n p. induction fuel as [|fuel IH]; intros; cbn [read_trip]; [inert|]. apply inert_bind; [apply readModemLocations_inert|]. intros l. inert. Qed.
Lemma getBatched_inert fuel count : inert (getBatchedLocationsSync fuel count).
Proof.
  unfold getBatchedLocationsSync. apply inert_bind; [inert|]. intros s. destruct (_ =? 0); [inert|]. apply inert_bind; [apply read_routine_inert|]. intros [got p]. inert.
Qed.
Lemma getBatchedTrip_inert fuel count : inert (getBatchedTripLocationsSync fuel count 0).
Proof.
  unfold getBatchedTripLocationsSync. apply inert_bind; [inert|]. intros s. destruct (_ =? 0); [inert|]. apply inert_bind; [apply read_trip_inert|]. intros [got p]. change (negb (0 =? 0)) with false. inert.
Qed.
Lemma startBatching_inert id o accuracy timeout : inert (LocApiBatching.startBatching id o accuracy timeout).
Proof.
  unfold LocApiBatching.startBatching. apply inert_bind; [inert|]. intros _. apply inert_bind; [inert|]. intros s. destruct (_ =? 0); [|inert].
  apply inert_bind; [apply queryBatchBuffer_inert|]. intros [err size]. inert.
Qed.
Lemma stopBatching_inert id : inert (LocApiBatching.stopBatching id).
Proof. unfold LocApiBatching.stopBatching. inert. Qed.

(** The requests of trips. *)
Lemma startOutdoor_batch d tbf timeout s err s' : startOutdoorTripBatchingSync d tbf timeout s = Some (err, s') ->
  reports s' = reports s /\
  if err =? LOCATION_ERROR_SUCCESS then batch_is (batch (modem s')) tbf 0 else batch (modem s') = batch (modem s).
Proof.
  set (req := MkStartOutdoorReq (if 0 <? d then d else FLP_BATCHING_MIN_TRIP_DISTANCE) (interval_of tbf) (timeout_of timeout)).
  assert (Hstart : forall s1 s2 e, (rv ← send (StartOutdoorTripBatching req); mret (err_of rv)) s1 = Some (e, s2) ->
    reports s2 = reports s1 /\ if e =? LOCATION_ERROR_SUCCESS then batch_is (batch (modem s2)) tbf 0 else batch (modem s2) = batch (modem s1)).
  { intros s1 s2 e (rv & s3 & H1 & H2)%bind_run. unfold send in H1. pose proof (law_StartOutdoor req (modem s1)) as Hb.
    destruct (StartOutdoorTripBatching req (modem s1)) as [rv' m]. injection H1 as -> <-. injection H2 as <- <-. cbn in *.
    destruct rv; cbn; [|done]. split; [done|]. by eexists. }
  unfold startOutdoorTripBatchingSync. intros (s0 & s1 & [= <- <-] & H)%bind_run. destruct (mTripBatchSize s =? 0); [|by apply Hstart in H].
  apply bind_run in H as ([e size] & s1 & H1 & H). pose proof (queryBatchBuffer_inert _ _ _ _ _ H1) as [Hb _].
  assert (Hr : reports s1 = reports s).
  { clear -H1. unfold queryBatchBuffer in H1. apply bind_run in H1 as ([[rv status] size'] & s2 & Hs & H1). unfold send in Hs.
    destruct (GetBatchSize _ _ (modem s)) as [x m]. injection Hs as -> <-. destruct rv; [by injection H1 as _ _ <-|].
    destruct (_ && _); [|by injection H1 as _ _ <-]. apply bind_run in H1 as ([[rv status'] size''] & s3 & Hs & H1). unfold send in Hs.
    destruct (GetBatchSize _ _ _) as [x m']. injection Hs as -> <-. destruct rv; by injection H1 as _ _ <-. }
  apply bind_run in H as ([] & s2 & [= <-] & H). destruct (negb (e =? LOCATION_ERROR_SUCCESS)); [injection H as <- <-; done|].
  apply Hstart in H as [-> H]. cbn. split; [done|]. by rewrite <- Hb.
Qed.
Lemma stopOutdoor_reports dealloc s err s' : stopOutdoorTripBatchingSync dealloc s = Some (err, s') -> reports s' = reports s.
Proof.
  unfold stopOutdoorTripBatchingSync. intros (rv & s1 & H1 & H)%bind_run. unfold send in H1. destruct (StopBatching _ _ _) as [rv' m]. injection H1 as -> <-.
  destruct rv; cbn [negb] in H; [|by injection H as _ <-]. destruct dealloc; [|by injection H as _ <-].
  unfold releaseBatchBuffer in H. cbn in H. apply bind_run in H as (rv & s2 & H2 & H). unfold send in H2. destruct (ReleaseBatch _ _) as [rv' m']. injection H2 as -> <-.
  destruct rv; [apply bind_run in H as ([] & s3 & [= <-] & H)|]; by injection H as _ <-.
Qed.
Definition only_locations (rs : list Report) : Prop := Forall is_locations rs.
Lemma inert_reports {A} (m : CM _ A) s a s' : inert m -> m s = Some (a, s') -> only_locations (reports s) -> only_locations (reports s').
Proof. intros Hm H Hs. apply Hm in H as (_ & rs & -> & Hr). by apply Forall_app. Qed.
Lemma restartOutdoor_batch fuel d tbf timeout s err s' : reStartOutdoorTripBatching fuel d tbf timeout s = Some (err, s') -> only_locations (reports s) ->
  only_locations (reports s') /\ (err = LOCATION_ERROR_SUCCESS -> batch_is (batch (modem s')) tbf 0).
Proof.
  unfold reStartOutdoorTripBatching. intros ([e data] & s1 & H1 & H)%bind_run Hs. pose proof (inert_reports _ _ _ _ query_inert H1 Hs) as Hr1.
  apply bind_run in H as (e2 & s2 & H2 & H).
  assert (Hr2 : only_locations (reports s2)).
  { destruct (negb _); [by apply (inert_reports _ _ _ _ (getBatchedTrip_inert _ _) H2)|]. by injection H2 as _ <-. }
  apply bind_run in H as (e3 & s3 & H3 & H). apply stopOutdoor_reports in H3. apply startOutdoor_batch in H as [Hr Hb]. rewrite Hr, H3. split; [done|].
  intros ->. exact Hb.
Qed.
(** A batch of trips is reported with its distance, if there is one. *)
Lemma getBatchedTrip_full fuel count acc s err s' : getBatchedTripLocationsSync fuel count acc s = Some (err, s') -> reports s = [] ->
  batch (modem s') = batch (modem s) /\
  exists rs, only_locations rs /\ (reports s' = rs \/ acc <> 0 /\ reports s' = rs ++ [reportCompletedTrips acc]).
Proof.
  unfold getBatchedTripLocationsSync. intros (s0 & s1 & [= <- <-] & H)%bind_run Hs. destruct (_ =? 0).
  - apply bind_run in H as ([] & s1 & [= <-] & H). injection H as _ <-. cbn. split; [done|]. exists [LocApiBatching.reportLocations [] 0 BATCHING_MODE_TRIP].
    split; [by repeat constructor|]. left. by rewrite Hs.
  - apply bind_run in H as ([got p] & s1 & H1 & H). pose proof (read_trip_inert _ _ _ _ _ _ _ _ H1) as (Hb & rs & Hr & Hf). destruct (got <=? _); [|done].
    apply bind_run in H as ([] & s2 & [= <-] & H). apply bind_run in H as ([] & s3 & H3 & H). injection H as _ <-. rewrite Hs in Hr.
    destruct (acc =? 0) eqn:E; cbn [negb] in H3; injection H3 as <-; cbn; (split; [done|]); exists (rs ++ [LocApiBatching.reportLocations (take (Z.to_nat got) p) got BATCHING_MODE_TRIP]);
      (split; [by apply Forall_app; split; [|repeat constructor]|]); rewrite Hr; [by left|right]. by apply Z.eqb_neq in E.
Qed.
Lemma api_proc_out ts fuel uninit m L ans L' : api_proc ts fuel uninit m L = Some (ans, L') -> reports L = [] ->
  let same := batch (modem L') = batch (modem L) in
  match m with
  | a_startBatching _ _ _ _ c | a_stopBatching _ c | a_get _ c | a_getTrip _ c =>
      exists err, ans = Some (m_closure c err 0) /\ same /\ only_locations (reports L')
  | a_startTrip _ tbf _ c => exists err, ans = Some (m_closure c err 0) /\ reports L' = [] /\
      if err =? LOCATION_ERROR_SUCCESS then batch_is (batch (modem L')) tbf 0 else same
  | a_restartTrip _ tbf _ c => exists err, ans = Some (m_closure c err 0) /\ only_locations (reports L') /\
      (err = LOCATION_ERROR_SUCCESS -> batch_is (batch (modem L')) tbf 0)
  | a_stopTrip c => exists err, ans = Some (m_closure c err 0) /\ reports L' = []
  | a_query c => exists err acc, ans = Some (m_closure c err acc) /\ reports L' = [] /\ same /\
      (err = LOCATION_ERROR_SUCCESS -> forall b, batch (modem L) = Some b -> acc = b.2)
  | a_full _ distance type => ans = None /\ same /\ exists rs, only_locations rs /\
      (reports L' = rs \/ type = Some eQMI_LOC_OUTDOOR_TRIP_BATCHING_V02 /\ default 0 distance <> 0 /\ reports L' = rs ++ [reportCompletedTrips (default 0 distance)])
  end.
Proof.
  assert (Hin : forall (c : Closure) (m : CM _ Z), inert m -> (err ← m; mret (Some (m_closure c err 0))) L = Some (ans, L') -> reports L = [] ->
    exists err, ans = Some (m_closure c err 0) /\ batch (modem L') = batch (modem L) /\ only_locations (reports L')).
  { intros c m' Hm (err & s1 & H1 & H)%bind_run Hr. injection H as <- <-. exists err. split; [done|]. apply Hm in H1 as (? & rs & -> & ?). by rewrite Hr. }
  intros H Hr. destruct m as [id o acc to c|id c|d tbf to c|d tbf to c|c|c|n c|n c|n d ty]; cbn [api_proc] in H; cbn zeta.
  - revert H Hr. apply Hin, startBatching_inert.
  - revert H Hr. apply Hin, stopBatching_inert.
  - apply bind_run in H as (err & s1 & H1 & [= <- <-]). apply startOutdoor_batch in H1 as [H1 H2]. exists err. by rewrite H1.
  - apply bind_run in H as (err & s1 & H1 & [= <- <-]). apply restartOutdoor_batch in H1 as [H1 H2]; [|by rewrite Hr; constructor]. by exists err.
  - apply bind_run in H as (err & s1 & H1 & [= <- <-]). apply stopOutdoor_reports in H1. exists err. by rewrite H1.
  - apply bind_run in H as ([err data] & s1 & H1 & [= <- <-]). pose proof (query_inert _ _ _ H1) as (Hb & _).
    unfold queryAccumulatedTripDistanceSync in H1. apply bind_run in H1 as (r & s2 & H2 & H1). unfold send in H2.
    pose proof (law_Query_data (modem L)) as Hd. destruct (QueryOTBAccumulatedDistance (modem L)) as [r' m]. injection H2 as -> <-.
    destruct r as [[a n]|]; injection H1 as <- <- <-; do 2 eexists; (split; [done|]); (split; [done|]); (split; [done|]); [|done].
    intros _ b Hb'. by apply (Hd b (a, n)).
  - revert H Hr. apply Hin, getBatched_inert.
  - revert H Hr. apply Hin, getBatchedTrip_inert.
  - apply bind_run in H as (err & s1 & H1 & [= <- <-]). split; [done|]. unfold batchFullEvent in H1. destruct (_ && _) eqn:E.
    + apply andb_true_iff in E as [E _]. apply Z.eqb_eq in E. apply getBatchedTrip_full in H1 as (Hb & rs & Hf & Hd); [|done]. split; [done|]. exists rs. split; [done|].
      destruct Hd as [Hd|[Hne Hd]]; [by left|right]. destruct ty as [ty|]; cbn in E; [by subst ty|done].
    + pose proof (getBatched_inert _ _ _ _ _ H1) as (Hb & rs & Hrs & Hf). split; [done|]. exists rs. split; [done|]. left. by rewrite Hrs, Hr.
Qed.
End api.

(** ** What the context's thread does with trips *)
(** Requests that do not concern trips. *)
Definition light (m : ApiMsg) : Prop :=
  match m with a_startBatching _ _ _ _ c | a_stopBatching _ c | a_get _ c | a_getTrip _ c => trip_closure c = 0%nat | _ => False end.
Definition quiet (A A' : Adapter) : Prop :=
  trips A' = trips A /\ ctx A' = ctx A /\ mPendingMsgs A' = mPendingMsgs A /\ exists l, api A' = api A ++ l /\ Forall light l.
(** The steps of trips, each with its request. *)
Inductive good : Trips -> Trips -> ApiMsg -> Prop :=
  | good_start t t' d timeout client id o : mTripSessions t = ∅ -> mTripSessions t' = {[id := MkTrip 0 0 0 (minDistance o) (minInterval o)]} ->
      good t t' (a_startTrip d (minInterval o) timeout (on_startTrip client id o))
  | good_query t client id o : mTripSessions t <> ∅ -> good t t (a_query (on_queryStart client id o))
  | good_stop t restart client id o : base.size (mTripSessions t) = 1%nat -> good t t (a_stopTrip (on_stopTrip restart client id o))
  | good_restart t t' id acc distance tbf : mTripSessions t' = delete id (mTripSessions t) -> mTripSessions t' <> ∅ ->
      mOngoingTripTBFInterval t' = mOngoingTripTBFInterval t -> minima (mTripSessions t') = (distance, tbf) ->
      good t t' (a_query (on_queryRestart true distance tbf acc)).
Inductive out (A A' : Adapter) : Prop :=
  | out_quiet : quiet A A' -> out A A'
  | out_good l x l' : ctx A' = ctx A -> mPendingMsgs A' = mPendingMsgs A -> api A' = api A ++ l ++ x :: l' -> Forall light l -> Forall light l' ->
      good (trips A) (trips A') x -> out A A'
  | out_heavy l : api A' = api A ++ l -> (2 <= sum_list_with api_load l)%nat -> out A A'.
Lemma light_load l : Forall light l -> sum_list_with api_load l = 0%nat.
Proof. induction 1 as [|m l Hm _ IH]; [done|]. cbn. rewrite IH. by destruct m. Qed.
Lemma good_load t t' x : good t t' x -> api_load x = 1%nat.
Proof. by destruct 1. Qed.
Lemma sum_app {X} (f : X -> nat) l l' : sum_list_with f (l ++ l') = (sum_list_with f l + sum_list_with f l')%nat.
Proof. induction l as [|x l IH]; cbn; [done|]. rewrite IH. lia. Qed.
Lemma hushed_refl A : quiet A A.
Proof. split; [done|]. split; [done|]. split; [done|]. exists []. by rewrite app_nil_r. Qed.
Lemma hushed_trans A B C : quiet A B -> quiet B C -> quiet A C.
Proof.
  intros (H1 & H2 & H3 & l & Hl & Hf) (H1' & H2' & H3' & l' & Hl' & Hf'). split; [congruence|]. split; [congruence|]. split; [congruence|].
  exists (l ++ l'). split; [by rewrite Hl', Hl, app_assoc|]. by apply Forall_app.
Qed.
Lemma out_api A A' : out A A' -> exists l, api A' = api A ++ l.
Proof. intros [(_ & _ & _ & l & Hl & _)|l x l' _ _ Hl _ _ _|l Hl _]; eauto. Qed.
Lemma out_trans A B C : out A B -> out B C -> out A C.
Proof.
  intros HAB HBC. destruct HAB as [HAB|l x l' Hc Hp Hl Hf Hf' Hg|l Hl Hw]; destruct HBC as [HBC|k y k' Kc Kp Kl Kf Kf' Kg|k Kl Kw].
  - apply out_quiet. by apply (hushed_trans _ B).
  - destruct HAB as (H1 & H2 & H3 & l & Hl & Hf). eapply (out_good _ _ (l ++ k) y k'); try congruence.
    + by rewrite Kl, Hl, !app_assoc.
    + by apply Forall_app.
  - destruct HAB as (H1 & H2 & H3 & l & Hl & Hf). apply (out_heavy _ _ (l ++ k)); [by rewrite Kl, Hl, <- !app_assoc|]. rewrite sum_app. lia.
  - destruct HBC as (H1 & H2 & H3 & k & Kl & Kf). eapply (out_good _ _ l x (l' ++ k)); try congruence.
    + rewrite Kl, Hl. by rewrite <- !app_assoc.
    + by apply Forall_app.
  - apply (out_heavy _ _ ((l ++ x :: l') ++ k ++ y :: k')); [by rewrite Kl, Hl, <- !app_assoc|]. rewrite !sum_app. cbn. rewrite (good_load _ _ _ Hg), (good_load _ _ _ Kg). lia.
  - apply (out_heavy _ _ ((l ++ x :: l') ++ k)); [by rewrite Kl, Hl, <- !app_assoc|]. rewrite !sum_app. lia.
  - destruct HBC as (_ & _ & _ & k & Kl & _). apply (out_heavy _ _ (l ++ k)); [by rewrite Kl, Hl, <- !app_assoc|]. rewrite sum_app. lia.
  - apply (out_heavy _ _ (l ++ k ++ y :: k')); [by rewrite Kl, Hl, <- !app_assoc|]. rewrite sum_app. lia.
  - apply (out_heavy _ _ (l ++ k)); [by rewrite Kl, Hl, <- !app_assoc|]. rewrite sum_app. lia.
Qed.
Definition quiets {X} (m : CM Adapter X) : Prop := forall A x A', m A = Some (x, A') -> quiet A A'.
Definition outs {X} (m : CM Adapter X) : Prop := forall A x A', m A = Some (x, A') -> out A A'.
Lemma quiets_outs {X} (m : CM Adapter X) : quiets m -> outs m.
Proof. intros Hm A x A' H. apply out_quiet. by apply (Hm _ x). Qed.
Lemma quiets_ret {X} (x : X) : quiets (mret x).
Proof. intros A y A' [= _ <-]. apply hushed_refl. Qed.
Lemma quiets_get : quiets get.
Proof. intros A y A' [= _ <-]. apply hushed_refl. Qed.
Lemma quiets_bind {X Y} (m : CM Adapter X) (f : X -> CM Adapter Y) : quiets m -> (forall x, quiets (f x)) -> quiets (m ≫= f).
Proof. intros Hm Hf A y A' (x & B & H1 & H2)%bind_run. apply (hushed_trans _ B); [by apply (Hm _ x)|by apply (Hf x _ y)]. Qed.
Lemma outs_bind {X Y} (m : CM Adapter X) (f : X -> CM Adapter Y) : outs m -> (forall x, outs (f x)) -> outs (m ≫= f).
Proof. intros Hm Hf A y A' (x & B & H1 & H2)%bind_run. apply (out_trans _ B); [by apply (Hm _ x)|by apply (Hf x _ y)]. Qed.
Lemma quiets_modify f : (forall A, trips (f A) = trips A /\ ctx (f A) = ctx A /\ mPendingMsgs (f A) = mPendingMsgs A /\ api (f A) = api A) -> quiets (modify f).
Proof. intros Hf A x A' [= _ <-]. destruct (Hf A) as (H1 & H2 & H3 & H4). split; [done|]. split; [done|]. split; [done|]. exists []. by rewrite H4, app_nil_r. Qed.
Lemma quiets_ask m : light m -> quiets (ask m).
Proof. intros Hm A x A' [= _ <-]. split; [done|]. split; [done|]. split; [done|]. exists [m]. split; [done|]. by constructor. Qed.
Create HintDb quiet.
#[export] Hint Resolve quiets_ret quiets_get quiets_ask : quiet.
#[export] Hint Extern 1 (quiets (modify _)) => apply quiets_modify; done : quiet.
#[export] Hint Extern 0 (light _) => reflexivity : quiet.
Ltac quiet := repeat first [done | progress auto with quiet | apply quiets_bind; [|intros ?]
  | match goal with |- quiets (if ?b then _ else _) => destruct b | |- quiets (match ?x with _ => _ end) => destruct x end].
Lemma reportResponse_quiet client err id : quiets (reportResponse client err id).
Proof. unfold reportResponse, tell. quiet. Qed.
Lemma disable_quiet : quiets disable_if_unused.
Proof. unfold disable_if_unused, disable_mask. quiet. Qed.
Lemma enable_quiet : quiets enable_if_unused.
Proof. unfold enable_if_unused, enable_mask. quiet. Qed.
#[export] Hint Resolve reportResponse_quiet disable_quiet enable_quiet : quiet.
Lemma startBatching_quiet client id o : quiets (startBatching client id o).
Proof. unfold startBatching, saveBatchingSession. quiet. Qed.
Lemma stopBatching_quiet client id r o : quiets (stopBatching client id r o).
Proof. unfold stopBatching, eraseBatchingSession. quiet. Qed.
#[export] Hint Resolve startBatching_quiet stopBatching_quiet : quiet.
Lemma size_0 {V} (m : gmap Z V) : Nat.eqb (base.size m) 0 = true <-> m = ∅.
Proof. rewrite Nat.eqb_eq. apply map_size_empty_iff. Qed.
Lemma startTrip_out client id o : outs (startTripBatchingMultiplex client id o).
Proof.
  intros A x A' (A0 & A1 & [= <- <-] & H)%bind_run. destruct (Nat.eqb _ 0) eqn:E.
  - apply size_0 in E. apply bind_run in H as ([] & B & H1 & H). apply bind_run in H as ([] & B' & H2 & H). apply bind_run in H as ([] & C & [= <-] & H).
    injection H as _ <-. assert (quiet A B') as (Ht & Hc & Hp & l & Hl & Hf).
    { apply (hushed_trans _ B); [by apply (enable_quiet _ tt)|]. injection H2 as <-. split; [done|]. split; [done|]. split; [done|]. exists []. by rewrite app_nil_r. }
    eapply (out_good _ _ l _ []); [done|done|cbn; rewrite Hl, <- app_assoc; reflexivity|done|constructor|].
    cbn. rewrite Ht. constructor; [done|]. cbn. rewrite E. apply insert_empty.
  - injection H as _ <-. eapply (out_good _ _ [] _ []); [done|done|reflexivity|constructor|constructor|]. constructor. cbn. intros HE%size_0. by rewrite HE in E.
Qed.
Lemma restart_out client id (restart : bool) o : outs (if restart then
    _ ← eraseBatchingSession client id;
    if (batchingMode o =? BATCHING_MODE_ROUTINE) || (batchingMode o =? BATCHING_MODE_NO_AUTO_REPORT) then startBatching client id o
    else if batchingMode o =? BATCHING_MODE_TRIP then startTripBatchingMultiplex client id o else mret tt
  else mret tt).
Proof.
  destruct restart; [|apply quiets_outs; quiet]. apply outs_bind; [apply quiets_outs; unfold eraseBatchingSession; quiet|]. intros _.
  destruct (_ || _); [apply quiets_outs; quiet|]. destruct (_ =? _); [apply startTrip_out|apply quiets_outs; quiet].
Qed.
Lemma stopCommon_out err client id restart o A x A' : base.size (mTripSessions (trips A)) <> 1%nat ->
  stopTripBatchingMultiplexCommon err client id restart o A = Some (x, A') -> out A A'.
Proof.
  intros Hsize (A0 & A1 & [= <- <-] & H)%bind_run. apply bind_run in H as (t & A1 & H1 & H). destruct (mTripSessions (trips A) !! id) as [t'|] eqn:Et; [|done].
  injection H1 as -> <-. apply bind_run in H as ([] & B & [= <-] & H). apply bind_run in H as ([] & C & HC & H). apply bind_run in H as (C' & C1 & [= <- <-] & H).
  apply bind_run in H as ([] & D & HD & H). apply (out_trans _ D); [|apply (outs_bind _ _ (restart_out client id restart o) (fun _ => quiets_outs _ (reportResponse_quiet client err id)) D x A' H)].
  injection HC as <-. clear H. cbn in HD.
  assert (Hne : delete id (mTripSessions (trips A)) <> ∅).
  { intros HE%map_size_empty_iff. pose proof (map_size_delete_Some id (mTripSessions (trips A)) (mk_is_Some _ _ Et)) as Hd. rewrite HE in Hd.
    destruct (base.size (mTripSessions (trips A))) as [|[|n]] eqn:Es; [|done|done]. apply map_size_empty_iff in Es. by rewrite Es, lookup_empty in Et. }
  destruct (Nat.eqb (base.size (delete id (mTripSessions (trips A)))) 0) eqn:E; [by apply size_0 in E|].
  unfold restartTripBatching in HD. apply bind_run in HD as (A0 & A1 & [= <- <-] & HD). cbn in HD. rewrite E in HD.
  destruct (minima (delete id (mTripSessions (trips A)))) as [distance tbf] eqn:Em. injection HD as <-.
  eapply (out_good _ _ [] _ []); [done|done|reflexivity|constructor|constructor|]. cbn.
  by eapply good_restart.
Qed.
Lemma stopTrip_out client id restart o : outs (stopTripBatchingMultiplex client id restart o).
Proof.
  intros A x A' (A0 & A1 & [= <- <-] & H)%bind_run. destruct (Nat.eqb _ 1) eqn:E.
  - injection H as _ <-. eapply (out_good _ _ [] _ []); [done|done|reflexivity|constructor|constructor|]. constructor. by apply Nat.eqb_eq.
  - apply Nat.eqb_neq in E. by apply stopCommon_out in H.
Qed.
Lemma for_each_outs {X} (f : X -> CM Adapter unit) l : (forall x, outs (f x)) -> outs (for_each f l).
Proof. intros Hf. induction l as [|x l IH]; cbn; [apply quiets_outs; quiet|]. apply outs_bind; [apply Hf|]. intros _. apply IH. Qed.
Lemma for_each_quiets {X} (f : X -> CM Adapter unit) l : (forall x, quiets (f x)) -> quiets (for_each f l).
Proof. intros Hf. induction l as [|x l IH]; cbn; [quiet|]. apply quiets_bind; [apply Hf|]. intros _. apply IH. Qed.
Ltac outs := repeat first [done | apply quiets_outs; solve [quiet] | apply startTrip_out | apply stopTrip_out | apply outs_bind; [|intros ?]
  | match goal with |- outs (if ?b then _ else _) => destruct b | |- outs (match ?x with _ => _ end) => destruct x end].
Definition kept (m : CtxMsg) (A A' : Adapter) : Prop :=
  trips A' = trips A /\ ctx A' = ctx A /\ api A' = api A /\ mPendingMsgs A' = mPendingMsgs A ++ [m].
Lemma when_known_out m run A x A' : outs run -> when_known m run A = Some (x, A') -> out A A' \/ kept m A A'.
Proof.
  intros Hr (A0 & A1 & [= <- <-] & H)%bind_run. destruct (mIsEngineCapabilitiesKnown A); [left; by apply Hr in H|].
  injection H as _ <-. right. done.
Qed.
Lemma light_proc batching_supported freed m A x A' : ctx_load m = 0%nat -> m <> m_engineUp -> proc batching_supported freed m A = Some (x, A') -> out A A' \/ kept m A A'.
Proof.
  assert (Hmask : quiets updateClientsEventMask) by (unfold updateClientsEventMask; quiet).
  assert (Htell : forall l, quiets (tell l)) by (intros; unfold tell; quiet).
  destruct m as [a b c d| |c cb|c|c| |c id o|c id o|c id|c id n|ls n mode|acc|s|c err acc]; cbn [ctx_load proc]; intros Hload Hne H; try done.
  - left. revert A x A' H. outs.
  - left. revert A x A' H. outs.
  - left. revert A x A' H. unfold saveClient. outs.
  - left. revert A x A' H. apply outs_bind; [|intros _; unfold eraseClient; outs]. unfold stopClientSessions. apply outs_bind; [outs|]. intros A.
    apply for_each_outs. intros e. destruct (negb _); outs.
  - eapply when_known_out; [|exact H]. outs.
  - eapply when_known_out; [|exact H]. unfold proc_start. outs.
  - eapply when_known_out; [|exact H]. unfold proc_update. outs.
  - eapply when_known_out; [|exact H]. unfold proc_stop. outs.
  - eapply when_known_out; [|exact H]. unfold proc_get. outs.
  - left. revert A x A' H. unfold reportLocations. outs.
  - left. revert A x A' H. unfold reportBatchStatusChange. outs.
  - left. revert A x A' H. destruct c as [cl id o|cl id f r o|cl id| | | | | | | |]; cbn in Hload; try done; cbn [proc_closure].
    + apply quiets_outs. unfold eraseBatchingSession. quiet.
    + unfold saveBatchingSession. outs.
    + outs.
    + outs.
Qed.

(** ** The invariant *)
Lemma min_step_le l acc : 0 <= acc.2 -> Forall (fun t => 0 < tripTBFInterval t) l ->
  (acc.2 <> 0 -> (foldl min_step acc l).2 <= acc.2) /\ Forall (fun t => (foldl min_step acc l).2 <= tripTBFInterval t) l.
Proof.
  revert acc. induction l as [|t l IH]; intros acc Ha Hl; cbn; [split; [lia|constructor]|]. apply Forall_cons in Hl as [Ht Hl].
  destruct (IH (min_step acc t)) as [H1 H2]; [|done|].
  - unfold min_step. cbn. destruct (_ || _); lia.
  - assert ((min_step acc t).2 <> 0 /\ (min_step acc t).2 <= tripTBFInterval t /\ (acc.2 <> 0 -> (min_step acc t).2 <= acc.2)) as (H3 & H4 & H5).
    { unfold min_step. cbn. destruct (acc.2 =? 0) eqn:E0; cbn; [apply Z.eqb_eq in E0; lia|]. apply Z.eqb_neq in E0. destruct (_ <? _) eqn:E1; [apply Z.ltb_lt in E1|apply Z.ltb_ge in E1]; lia. }
    specialize (H1 H3). split; [lia|]. constructor; [lia|done].
Qed.
Lemma minima_le m id t : map_Forall (fun _ t => 0 < tripTBFInterval t) m -> m !! id = Some t -> (minima m).2 <= tripTBFInterval t.
Proof.
  intros Hm Ht. unfold minima. assert (Hl : Forall (fun t => 0 < tripTBFInterval t) (GeofenceAdapter.by_key m).*2).
  { apply Forall_fmap, Forall_forall. intros [k x] Hx%GeofenceAdapter.by_key_elem. by apply (Hm k x). }
  apply (min_step_le _ (0, 0) ltac:(done)) in Hl as [_ Hl]. rewrite Forall_fmap, Forall_forall in Hl. apply (Hl (id, t)). by apply GeofenceAdapter.by_key_elem.
Qed.
Lemma light_phase v m : light m -> api_phase v m.
Proof. by destruct m. Qed.
Lemma api_phase_0 v v' m : api_load m = 0%nat -> api_phase v m -> api_phase v' m.
Proof. destruct m as [| | | | | | | |n d [ty|]]; cbn; try done. by destruct (ty =? _). Qed.
Lemma ctx_phase_0 v v' m : ctx_load m = 0%nat -> ctx_phase v m -> ctx_phase v' m.
Proof. destruct m as [| | | | | | | | | | | | |c err acc]; try done. by destruct c. Qed.
Lemma sum_0 {X} (f : X -> nat) (P : X -> Prop) (Q : X -> Prop) l : (forall x, f x = 0%nat -> P x -> Q x) -> sum_list_with f l = 0%nat -> Forall P l -> Forall Q l.
Proof. intros Hpq Hs. induction 1 as [|x l Hx Hl IH]; [constructor|]. cbn in Hs. constructor; [apply Hpq; [lia|done]|apply IH; lia]. Qed.
Lemma api_phases_0 v v' l : sum_list_with api_load l = 0%nat -> Forall (api_phase v) l -> Forall (api_phase v') l.
Proof. apply sum_0, api_phase_0. Qed.
Lemma ctx_phases_0 v v' l : sum_list_with ctx_load l = 0%nat -> Forall (ctx_phase v) l -> Forall (ctx_phase v') l.
Proof. apply sum_0, ctx_phase_0. Qed.
Lemma lights_asked l : Forall light l -> omap asked_trip l = [].
Proof. induction 1 as [|m l Hm _ IH]; [done|]. cbn. rewrite IH. by destruct m. Qed.

(** The same phases, whatever the clients and the other sessions do. *)
Definition phases (v : View) (A : Adapter) : Prop :=
  Forall (api_phase v) (api A) /\ Forall (ctx_phase v) (ctx A) /\ (trip_load A = 0%nat -> idle v).
Lemma fair_began v v' id s D x t : v_began v' = <[id := s]> (v_began v) -> v_odometer v' = v_odometer v -> x <> id -> fair v D x t -> fair v' D x t.
Proof. intros Hb Ho Hx (s' & H1 & H2). exists s'. rewrite Hb, Ho, lookup_insert_ne by done. done. Qed.
Lemma fair_view v v' D id t : v_began v' = v_began v -> v_odometer v' = v_odometer v -> fair v D id t -> fair v' D id t.
Proof. unfold fair. by intros -> ->. Qed.
Lemma out_phases A A' ba o g : 0 <= o -> out A A' -> (trip_load A' <= 1)%nat ->
  map_Forall (fun _ t => 0 < tripTBFInterval t) (mTripSessions (trips A')) ->
  (forall c id o', a_query (on_queryStart c id o') ∈ api A' -> mTripSessions (trips A') !! id = None) ->
  phases (MkView (trips A) ba o g) A -> phases (MkView (trips A') ba o (began o (new_trips A A') g)) A'.
Proof.
  intros Ho Hout Hload Hpos Hfresh (Hapi & Hctx & Hidle). assert (Hnew : new_trips A A' = omap asked_trip (drop (length (api A)) (api A'))) by done.
  destruct Hout as [(Ht & Hc & _ & l & Hl & Hf)|l x l' Hc _ Hl Hf Hf' Hg|l Hl Hw].
  - rewrite Hl, drop_app_length, lights_asked in Hnew by done. rewrite Hnew, Ht. cbn [began foldl]. split; [|split].
    + rewrite Hl. apply Forall_app. split; [done|]. eapply Forall_impl; [exact Hf|]. intros m. apply light_phase.
    + by rewrite Hc.
    + intros H0. apply Hidle. unfold trip_load in *. rewrite Hc, Hl, sum_app in H0. lia.
  - assert (Hload' : trip_load A = 0%nat /\ trip_load A' = 1%nat).
    { unfold trip_load in *. rewrite Hc, Hl, !sum_app in *. cbn in *. rewrite (good_load _ _ _ Hg), (light_load l Hf), (light_load l' Hf') in *. lia. }
    destruct Hload' as [H0 H1]. specialize (Hidle H0). set (v' := MkView _ _ _ _). unfold trip_load in H0.
    assert (Hx : api_phase v' x); [|split; [|split; [|lia]]].
    2: { rewrite Hl. apply Forall_app. split; [eapply api_phases_0; [|exact Hapi]; lia|]. apply Forall_app. split; [eapply Forall_impl; [exact Hf|]; intros m; apply light_phase|].
         constructor; [done|]. eapply Forall_impl; [exact Hf'|]; intros m; apply light_phase. }
    2: { rewrite Hc. eapply ctx_phases_0; [|exact Hctx]. lia. }
    rewrite Hl, drop_app_length, omap_app, lights_asked, app_nil_l in Hnew by done. cbn [omap list_omap] in Hnew. rewrite lights_asked in Hnew by done.
    assert (Hin : x ∈ api A') by (rewrite Hl; apply elem_of_app; right; apply elem_of_app; right; by left). clear Hl.
    destruct Hg as [t t' d to c id o' Ht Ht'|t c id o' Ht|t r c id o' Ht|t t' id acc d tbf Ht' Hne Hong Hm]; cbn [asked_trip] in Hnew; unfold v'; rewrite Hnew; cbn.
    + split; [done|]. exists o. split; [by exists (minDistance o')|]. cbn. split; [apply lookup_insert_eq|lia].
    + split; [done|]. split; [|exists o; split; [apply lookup_insert_eq|lia]]. destruct Hidle as [Hi|(D & H2 & H3 & H4)]; [by left|]. right. exists D. split; [done|]. split; [|done].
      intros i y Hy. change (mTripSessions t !! i = Some y) in Hy. apply (fair_began (MkView t ba o g) (MkView t ba o (<[id := o]> g)) id o D i y eq_refl eq_refl); [|by apply H3]. intros ->. by rewrite (Hfresh c id o' Hin) in Hy.
    + done.
    + split; [done|]. assert (Hsub : forall i y, mTripSessions t' !! i = Some y -> mTripSessions t !! i = Some y).
      { intros i y. rewrite Ht'. by intros [_ ?]%lookup_delete_Some. }
      split; [|split; [|done]].
      * destruct Hidle as [Hi|(D & H2 & H3 & H4)]; [left; change (mTripSessions t = ∅) in Hi; change (mTripSessions t' = ∅); by rewrite Ht', Hi, delete_empty|].
        right. exists D. cbn in *. rewrite Hong. split; [done|]. split.
        -- intros i y Hy. eapply fair_view; [| |apply H3, Hsub, Hy]; done.
        -- intros i y Hy. apply (H4 i), Hsub, Hy.
      * intros i y Hy. change (mTripSessions t' !! i = Some y) in Hy. replace tbf with (minima (mTripSessions t')).2 by by rewrite Hm. by apply (minima_le _ i).
  - exfalso. unfold trip_load in Hload. rewrite Hl, sum_app in Hload. lia.
Qed.

(** ** The closures of trips *)
(** The last trip message is done: what is left depends on nothing. *)
Lemma idle_phases v A : trip_load A = 0%nat -> Forall (api_phase v) (api A) -> Forall (ctx_phase v) (ctx A) ->
  forall v' B, api B = api A -> ctx B = ctx A -> idle v' -> phases v' B.
Proof.
  unfold trip_load. intros H0 Ha Hc v' B Hab Hcb Hi. split; [|split; [|done]].
  - rewrite Hab. eapply api_phases_0; [|exact Ha]. lia.
  - rewrite Hcb. eapply ctx_phases_0; [|exact Hc]. lia.
Qed.
Lemma asked_phases v A : trip_load A = 0%nat -> Forall (api_phase v) (api A) -> Forall (ctx_phase v) (ctx A) ->
  forall v' B x, api B = api A ++ [x] -> ctx B = ctx A -> api_load x = 1%nat -> api_phase v' x -> phases v' B.
Proof.
  unfold phases, trip_load. intros H0 Ha Hc v' B x Hab Hcb Hl Hx. rewrite Hab, Hcb, sum_app. cbn. split; [|split; [|lia]].
  - apply Forall_app. split; [|by constructor]. eapply api_phases_0; [|exact Ha]. lia.
  - eapply ctx_phases_0; [|exact Hc]. lia.
Qed.
Lemma same_api_new A B A' : api B = api A -> new_trips A A' = new_trips B A'.
Proof. unfold new_trips. by intros ->. Qed.
Lemma new_trips_asked A A' x : api A' = api A ++ [x] -> asked_trip x = None -> new_trips A A' = [].
Proof. unfold new_trips. intros -> H. rewrite drop_app_length. cbn. by rewrite H. Qed.
Lemma new_trips_none A A' : api A' = api A -> new_trips A A' = [].
Proof. unfold new_trips. intros ->. by rewrite drop_all. Qed.

(** The loop over the trips when a distance is reported. *)
Definition goes_on (acc : Z) (t : TripSessionStatus) : option TripSessionStatus := if is_completed (travelled acc t) then None else Some (travelled acc t).
Definition ended (acc : Z) (l : list (Z * TripSessionStatus)) : list Z := (filter (fun e => is_completed (travelled acc e.2) = true) l).*1.
Lemma complete_trips_spec freed acc l : forall fin A fin' A', complete_trips freed acc l fin A = Some (fin', A') -> NoDup l.*1 ->
  (forall e, e ∈ l -> mTripSessions (trips A) !! e.1 = Some e.2) ->
  fin' = fin ++ ended acc l /\ exists m b1 b2,
    A' = set_trips (fun t => MkTrips m (mOngoingTripDistance t) (mOngoingTripTBFInterval t) b1 b2) A /\
    forall i, m !! i = if decide (i ∈ l.*1) then mTripSessions (trips A) !! i ≫= goes_on acc else mTripSessions (trips A) !! i.
Proof.
  induction l as [|[k t] l IH]; intros fin A fin' A' H Hnd Hin.
  - injection H as <- <-. split; [by rewrite app_nil_r|]. destruct A as [? [? ? ? ? ?] ? ? ? ? ? ? ? ? ?]. eexists _, _, _. split; [reflexivity|]. cbn. intros i. by rewrite decide_False by apply not_elem_of_nil.
  - cbn [complete_trips] in H. apply bind_run in H as (fin1 & B & HB & H). cbn in Hnd. apply NoDup_cons in Hnd as [Hk Hnd].
    pose proof (Hin (k, t) ltac:(by left)) as Ht. cbn in Ht. unfold complete_trip in HB. cbn [fst snd] in HB.
    assert (fin1 = fin ++ ended acc [(k, t)] /\ exists b1 b2,
      B = set_trips (fun s => MkTrips (partial_alter (fun _ => goes_on acc t) k (mTripSessions s)) (mOngoingTripDistance s) (mOngoingTripTBFInterval s) b1 b2) A) as (-> & b1 & b2 & ->).
    { assert (ended acc [(k, t)] = if is_completed (travelled acc t) then [k] else []) as ->.
      { unfold ended. rewrite filter_cons, filter_nil. cbn. by destruct (is_completed (travelled acc t)). }
      unfold goes_on. destruct (is_completed (travelled acc t)).
      - apply bind_run in HB as ([] & B1 & [= <-] & HB). apply bind_run in HB as (A0 & A1 & [= <- <-] & HB). destruct (freed k) as [[iv ds]|]; [|done]. apply bind_run in HB as ([] & B2 & [= <-] & HB).
        injection HB as <- <-. split; [done|]. by eexists _, _.
      - apply bind_run in HB as ([] & B1 & [= <-] & HB). injection HB as <- <-. split; [by rewrite app_nil_r|]. by eexists _, _. }
    apply IH in H; [|done|].
    + destruct H as (-> & m & b1' & b2' & -> & Hm). split; [by unfold ended; rewrite (filter_app _ [(k, t)] l), fmap_app, app_assoc|].
      exists m, b1', b2'. split; [done|]. intros i. rewrite Hm. cbn [trips set_trips mTripSessions fmap list_fmap fst]. destruct (decide (i = k)) as [->|Hne].
      * rewrite decide_False by done. rewrite decide_True by left. by rewrite lookup_partial_alter_eq, Ht.
      * rewrite lookup_partial_alter_ne by done. destruct (decide (i ∈ l.*1)); [by rewrite decide_True by (by right)|]. rewrite decide_False; [done|]. rewrite elem_of_cons. tauto.
    + intros [k' t'] He. cbn. rewrite lookup_partial_alter_ne; [by apply (Hin (k', t')); right|]. intros <-. by apply Hk, (elem_of_fst _ t').
Qed.
Lemma completed_spec freed acc A x A' : proc_completed freed acc A = Some (x, A') ->
  exists m b1 b2,
    let ids := ended acc (GeofenceAdapter.by_key (mTripSessions (trips A))) in
    let B := set_trips (fun t => MkTrips m (mOngoingTripDistance t) (mOngoingTripTBFInterval t) b1 b2) A in
    (forall i, m !! i = mTripSessions (trips A) !! i ≫= goes_on acc) /\
    match ids with [] => A' = B | _ => exists C, reportBatchStatusChange BATCHING_STATUS_TRIP_COMPLETED ids B = Some (tt, C) /\ restartTripBatching false acc C = Some (tt, A') end.
Proof.
  unfold proc_completed. intros (A0 & A1 & [= <- <-] & H)%bind_run. apply bind_run in H as (ids & B & HB & H). apply complete_trips_spec in HB as (-> & m & b1 & b2 & -> & Hm).
  - exists m, b1, b2. cbn zeta. split.
    + intros i. rewrite Hm. case_decide as Hi; [done|]. destruct (mTripSessions (trips A) !! i) as [t|] eqn:Et; [|done]. exfalso. by apply Hi, (elem_of_fst _ t), GeofenceAdapter.by_key_elem.
    + rewrite app_nil_l in H. destruct (ended _ _) as [|i ids]; [by injection H as _ <-|]. destruct x. apply bind_run in H as ([] & C & HC & H). by exists C.
  - unfold GeofenceAdapter.by_key. rewrite merge_sort_Permutation. apply NoDup_fst_map_to_list.
  - intros [k t] He. by apply GeofenceAdapter.by_key_elem in He.
Qed.

Section closures.
Context (ba : option (Z * Z * Z)) (o : Z) (g : gmap Z Z) (A : Adapter).
Context (Hodo : 0 <= o < 2 ^ 32) (H0 : trip_load A = 0%nat).
Let vw (B : Adapter) : View := MkView (trips B) ba o g.
Context (Ha : Forall (api_phase (vw A)) (api A)) (Hc : Forall (ctx_phase (vw A)) (ctx A)).
Definition fine (A' : Adapter) : Prop := (trip_load A' <= 1)%nat /\
  map_Forall (fun _ t => 0 < tripTBFInterval t) (mTripSessions (trips A')) /\
  (forall c id o', a_query (on_queryStart c id o') ∈ api A' -> mTripSessions (trips A') !! id = None).
Definition ends (A' : Adapter) : Prop := phases (MkView (trips A') ba o (began o (new_trips A A') g)) A'.
Lemma ends_out B A' : api B = api A -> ctx B = ctx A -> idle (vw B) -> out B A' -> fine A' -> ends A'.
Proof.
  intros Hb Hcb Hi Hout (H1 & H2 & H3). unfold ends. rewrite (same_api_new A B) by done. apply out_phases; try done; [lia|]. by eapply (idle_phases _ A H0 Ha Hc).
Qed.
Lemma ends_asked A' x : api A' = api A ++ [x] -> ctx A' = ctx A -> api_load x = 1%nat -> asked_trip x = None ->
  api_phase (vw A') x -> ends A'.
Proof. intros Hl Hcl Hx Hn Hp. unfold ends. rewrite (new_trips_asked _ _ x) by done. by eapply (asked_phases _ A H0 Ha Hc). Qed.
Lemma ends_idle A' : api A' = api A -> ctx A' = ctx A -> idle (vw A') -> ends A'.
Proof. intros Hl Hcl Hi. unfold ends. rewrite new_trips_none by done. by eapply (idle_phases _ A H0 Ha Hc). Qed.
Lemma idle_empty B : mTripSessions (trips B) = ∅ -> idle (vw B).
Proof. by left. Qed.

Lemma startTrip_ends client id o' err acc A' : ctx_phase (vw A) (m_closure (on_startTrip client id o') err acc) ->
  proc_closure (on_startTrip client id o') err acc A = Some (tt, A') -> fine A' -> ends A'.
Proof.
  intros (s & ((d & HT) & Hs & Hle) & Hok) H Hf. cbn [proc_closure] in H. apply bind_run in H as ([] & B & HB & H).
  apply reportResponse_quiet in H. destruct (err =? LOCATION_ERROR_SUCCESS) eqn:E.
  - apply Z.eqb_eq in E. destruct (Hok E) as (D & HD & HD'). injection HB as <-. eapply ends_out; [| | |by apply out_quiet|done]; [done|done|].
    right. exists D. split; [exact HD|]. change (mTripSessions (trips A) = {[id := MkTrip 0 0 0 d (minInterval o')]}) in HT. split.
    + intros i t Hi. change (mTripSessions (trips A) !! i = Some t) in Hi. rewrite HT in Hi. apply lookup_singleton_Some in Hi as [<- <-].
      exists s. cbn in *. split; [done|]. lia.
    + intros i t Hi. change (mTripSessions (trips A) !! i = Some t) in Hi. rewrite HT in Hi. apply lookup_singleton_Some in Hi as [<- <-]. cbn. lia.
  - apply bind_run in HB as ([] & B1 & [= <-] & HB). apply bind_run in HB as ([] & B2 & [= <-] & HB). apply disable_quiet in HB.
    eapply ends_out; [| | |apply out_quiet; eapply hushed_trans; [exact HB|exact H]|done]; [done|done|].
    apply idle_empty. cbn. change (mTripSessions (trips A) = {[id := MkTrip 0 0 0 d (minInterval o')]}) in HT. by rewrite HT, delete_singleton_eq.
Qed.
Lemma queryStart_ends client id o' acc A' : ctx_phase (vw A) (m_closure (on_queryStart client id o') LOCATION_ERROR_SUCCESS acc) ->
  proc_closure (on_queryStart client id o') LOCATION_ERROR_SUCCESS acc A = Some (tt, A') -> fine A' -> ends A'.
Proof.
  intros (Hne & Hidle & Hdata) H Hf. destruct (Hdata eq_refl) as (s & D & HD & Hs & Hs0 & Hacc & Hle). clear Hdata.
  destruct Hidle as [He|(D' & HD' & Hfair & Hsuits)]; [by destruct (Hne He)|]. assert (D' = D) as -> by (destruct HD' as (d & Hd); cbn in HD, Hd; rewrite Hd in HD; by injection HD).
  set (new := MkTrip acc 0 0 (minDistance o') (minInterval o')).
  assert (Hnew : forall i t, <[id := new]> (mTripSessions (trips A)) !! i = Some t -> t = new /\ i = id \/ mTripSessions (trips A) !! i = Some t).
  { intros i t [[<- <-]|[_ Hi]]%lookup_insert_Some; [by left|by right]. }
  cbn [proc_closure] in H. unfold proc_queryStart in H. apply bind_run in H as (A0 & A1 & [= <- <-] & H). cbn [negb Z.eqb LOCATION_ERROR_SUCCESS] in H.
  apply bind_run in H as ([distance needs] & B & HB & H). apply bind_run in HB as ([] & B1 & HB1 & HB). injection HB1 as <-. injection HB as HB <-.
  change (v_odometer (vw A)) with o in Hle. set (ongoing := mOngoingTripTBFInterval (trips A)) in *. set (sooner := minInterval o' <? ongoing) in *.
  assert (Hsooner : needs = false -> sooner = false) by (intros ->; revert HB; destruct (minDistance o' <? _); [done|]; by destruct sooner).
  destruct needs.
  - apply bind_run in H as ([] & B2 & [= <-] & H). apply bind_run in H as ([] & B3 & [= <-] & H). injection H as <-.
    eapply ends_asked; [reflexivity|done|done|done|]. cbn. split; [done|]. split.
    + intros i t Hi. change ((restart_start <$> <[id := new]> (mTripSessions (trips A))) !! i = Some t) in Hi.
      rewrite lookup_fmap in Hi. apply fmap_Some in Hi as (t' & Hi & ->). cbn [restart_start tripTBFInterval].
      unfold sooner. destruct (minInterval o' <? ongoing) eqn:E; [apply Z.ltb_lt in E|apply Z.ltb_ge in E]; apply Hnew in Hi as [[-> ->]|Hi]; cbn; try lia; apply Hsuits in Hi; unfold ongoing in *; cbn in Hi; lia.
    + intros i t Hi. change ((restart_start <$> <[id := new]> (mTripSessions (trips A))) !! i = Some t) in Hi.
      rewrite lookup_fmap in Hi. apply fmap_Some in Hi as (t' & Hi & ->). apply Hnew in Hi as [[-> ->]|Hi]; [exists s; cbn; split; [done|]; lia|].
      apply Hfair in Hi as (s' & H1 & H2 & H3 & H4 & H5 & H6). exists s'. cbn in *. split; [done|]. lia.
  - specialize (Hsooner eq_refl). apply reportResponse_quiet in H. eapply ends_out; [| | |by apply out_quiet|done]; [done|done|].
    right. exists D. split; [exact HD'|]. split.
    + intros i t Hi. cbn in Hi. apply Hnew in Hi as [[-> ->]|Hi]; [|by apply Hfair in Hi]. exists s. cbn. split; [done|]. lia.
    + intros i t Hi. cbn in Hi. apply Hnew in Hi as [[-> ->]|Hi]; [|by apply Hsuits in Hi]. apply Z.ltb_ge in Hsooner. exact Hsooner.
Qed.
Lemma restartStart_ends client id acc A' : ctx_phase (vw A) (m_closure (on_restartStart client id) LOCATION_ERROR_SUCCESS acc) ->
  proc_closure (on_restartStart client id) LOCATION_ERROR_SUCCESS acc A = Some (tt, A') -> fine A' -> ends A'.
Proof. intros Hi H Hf. apply reportResponse_quiet in H. eapply (ends_out A); [done|done|by apply Hi|by apply out_quiet|done]. Qed.
Lemma stopTrip_ends restart client id o' err acc A' : ctx_phase (vw A) (m_closure (on_stopTrip restart client id o') err acc) ->
  proc_closure (on_stopTrip restart client id o') err acc A = Some (tt, A') -> fine A' -> ends A'.
Proof.
  intros Hsize H Hf. cbn [proc_closure] in H. apply bind_run in H as (A0 & A1 & [= <- <-] & H). apply bind_run in H as ([] & B & HB & H).
  assert (trips B = trips A /\ api B = api A /\ ctx B = ctx A) as (Ht & Hap & Hct).
  { destruct (_ && _); injection HB as <-; done. }
  unfold stopTripBatchingMultiplexCommon in H. apply bind_run in H as (A0 & A1 & [= <- <-] & H). apply bind_run in H as (t & A1 & H1 & H).
  rewrite Ht in H1. destruct (mTripSessions (trips A) !! id) as [t'|] eqn:Et; [|done]. injection H1 as -> <-.
  apply bind_run in H as ([] & B1 & [= <-] & H). apply bind_run in H as ([] & B2 & [= <-] & H). apply bind_run in H as (C' & C1 & [= <- <-] & H).
  assert (Hdel : delete id (mTripSessions (trips A)) = ∅).
  { apply map_size_empty_iff. rewrite (map_size_delete_Some id (mTripSessions (trips A)) (mk_is_Some _ _ Et)). change (base.size (mTripSessions (trips A)) = 1%nat) in Hsize. by rewrite Hsize. }
  apply bind_run in H as ([] & D & HD & H). cbn in HD. rewrite Ht, Hdel in HD. cbn in HD. injection HD as <-.
  eapply (ends_out _ A'); [| | |exact (outs_bind _ _ (restart_out client id restart o') (fun _ => quiets_outs _ (reportResponse_quiet client err id)) _ _ _ H)|done].
  - cbn. done.
  - cbn. done.
  - apply idle_empty. cbn. by rewrite Ht.
Qed.
Lemma queryRestart_ends query distance tbf acc' acc A' : map_Forall (fun _ t => 0 < tripTBFInterval t) (mTripSessions (trips A)) ->
  ctx_phase (vw A) (m_closure (on_queryRestart query distance tbf acc') LOCATION_ERROR_SUCCESS acc) ->
  proc_closure (on_queryRestart query distance tbf acc') LOCATION_ERROR_SUCCESS acc A = Some (tt, A') -> fine A' -> ends A'.
Proof.
  intros Hpos (Hne & Hidle & Hsuits & Hfair) H Hf. specialize (Hfair eq_refl). cbn [proc_closure] in H. unfold proc_queryRestart in H.
  apply bind_run in H as (A0 & A1 & [= <- <-] & H). destruct (if negb _ && _ then _ else _) as [distance' farther]. destruct (farther || _); [|injection H as <-].
  - injection H as <-. eapply ends_asked; [reflexivity|done|done|done|]. split; [done|]. split; [|exact Hfair].
    destruct Hidle as [He|(D & _ & _ & Hs)]; [by destruct (Hne He)|]. intros i t Hi. destruct (_ || _); [by apply (Hsuits i)|by apply (Hs i)].
  - by apply ends_idle.
Qed.
Lemma restartTrips_ends acc' distance tbf acc A' :
  ctx_phase (vw A) (m_closure (on_restartTrips acc' distance tbf) LOCATION_ERROR_SUCCESS acc) ->
  proc_closure (on_restartTrips acc' distance tbf) LOCATION_ERROR_SUCCESS acc A = Some (tt, A') -> ends A'.
Proof.
  intros (Hsuits & Hrun) H. destruct (Hrun eq_refl) as (D & HD & HD0 & Hfair). cbn [proc_closure Z.eqb LOCATION_ERROR_SUCCESS] in H.
  apply bind_run in H as ([] & B & [= <-] & H). injection H as <-. apply ends_idle; [done|done|]. right. exists D. split; [exact HD|]. split.
  - intros i t Hi. change ((restarted acc' <$> mTripSessions (trips A)) !! i = Some t) in Hi. rewrite lookup_fmap in Hi. apply fmap_Some in Hi as (t' & Hi & ->).
    apply Hfair in Hi as (s & H1 & H2 & H3 & H4 & H5). cbn in *. exists s. cbn. rewrite wrap_id by lia. split; [done|]. lia.
  - intros i t Hi. change ((restarted acc' <$> mTripSessions (trips A)) !! i = Some t) in Hi. rewrite lookup_fmap in Hi. apply fmap_Some in Hi as (t' & Hi & ->).
    cbn. by apply (Hsuits i).
Qed.
Lemma completed_ends freed acc A' : ctx_phase (vw A) (m_completed acc) -> proc_completed freed acc A = Some (tt, A') -> fine A' -> ends A'.
Proof.
  intros (Hidle & Hfair) H Hf. apply completed_spec in H as (m & b1 & b2 & Hm & H). cbn zeta in H.
  assert (Hon : forall i t', m !! i = Some t' -> exists t, mTripSessions (trips A) !! i = Some t /\ t' = travelled acc t).
  { intros i t'. rewrite Hm. intros (t & Ht & Hg)%bind_Some. exists t. split; [done|]. unfold goes_on in Hg. destruct (is_completed _); [done|by injection Hg]. }
  assert (Hfair' : forall B, mTripSessions (trips B) = m -> forall D, all_fair (vw A) D -> all_fair (vw B) D).
  { intros B HB D HD i t' Hi. unfold v_sessions, vw in Hi. cbn in Hi. rewrite HB in Hi. apply Hon in Hi as (t & Ht & ->). pose proof (HD i t Ht) as (s & H1 & H2 & H3 & H4 & H5 & H6).
    pose proof (Hfair i t Ht) as (s' & H1' & _ & H3' & _ & _ & H6'). rewrite H1 in H1'. injection H1' as <-. exists s. cbn in *. rewrite wrap_id by lia. split; [done|]. lia. }
  assert (Hidle' : forall B, mTripSessions (trips B) = m -> mOngoingTripTBFInterval (trips B) = mOngoingTripTBFInterval (trips A) -> idle (vw B)).
  { intros B HB Ho. destruct Hidle as [He|(D & HD & HDf & Hs)].
    - left. unfold v_sessions. cbn. rewrite HB. apply map_eq. intros i. rewrite lookup_empty. destruct (m !! i) as [t'|] eqn:E; [|done].
      apply Hon in E as (t & Ht & _). change (mTripSessions (trips A) = ∅) in He. by rewrite He in Ht.
    - right. exists D. unfold vw at 1 2. cbn [v_trips]. rewrite Ho. split; [exact HD|]. split; [by apply Hfair'|]. intros i t' Hi. unfold v_sessions in Hi. cbn in Hi. rewrite HB in Hi.
      apply Hon in Hi as (t & Ht & ->). cbn. rewrite ?Ho. by apply (Hs i). }
  assert (Hrest : forall C, api C = api A -> ctx C = ctx A -> mTripSessions (trips C) = m -> mOngoingTripTBFInterval (trips C) = mOngoingTripTBFInterval (trips A) ->
    restartTripBatching false acc C = Some (tt, A') -> ends A').
  { intros C Ha' Hc' HC Ho HR. unfold restartTripBatching in HR. apply bind_run in HR as (A0 & A1 & [= <- <-] & HR). rewrite HC in HR. destruct (Nat.eqb (base.size m) 0) eqn:E.
    - apply size_0 in E. apply bind_run in HR as ([] & C1 & [= <-] & HR). apply bind_run in HR as ([] & C2 & [= <-] & HR).
      apply bind_run in HR as (A0 & A1 & [= <- <-] & HR). assert (api A' = api A ++ [a_stopTrip on_nothing] /\ ctx A' = ctx A /\ mTripSessions (trips A') = m) as (H1 & H2 & H3).
      { destruct (Nat.eqb _ 0); injection HR as <-; cbn; by rewrite Ha', Hc', HC. }
      eapply ends_asked; [exact H1|done|done|done|]. cbn. unfold v_sessions. cbn. by rewrite H3.
    - destruct (minima m) as [distance tbf] eqn:Em. injection HR as <-. eapply (ends_asked _ (a_query (on_queryRestart false distance tbf acc))); [cbn; by rewrite Ha'|done|done|done|].
      split; [|split; [by apply Hidle'|split]].
      + unfold v_sessions. cbn. rewrite HC. intros HE%size_0. by rewrite HE in E.
      + intros i t Hi. replace tbf with (minima m).2 by by rewrite Em. apply (minima_le _ i); unfold v_sessions in Hi; cbn in Hi; rewrite HC in Hi; [|done].
        destruct Hf as (_ & Hp & _). cbn in Hp. by rewrite HC in Hp.
      + intros _. by apply (Hfair' _ HC). }
  destruct (ended _ _) as [|i ids].
  - subst A'. apply ends_idle; [done|done|]. by apply Hidle'.
  - destruct H as (C & HC & HR). unfold reportBatchStatusChange in HC. apply bind_run in HC as (A0 & A1 & [= <- <-] & HC). injection HC as <-. by eapply Hrest; [..|exact HR].
Qed.
End closures.

(** ** Waiting messages *)
Definition pends {X} (m : CM Adapter X) : Prop := forall A x A', m A = Some (x, A') -> mPendingMsgs A' = mPendingMsgs A.
Lemma pends_bind {X Y} (m : CM Adapter X) (f : X -> CM Adapter Y) : pends m -> (forall x, pends (f x)) -> pends (m ≫= f).
Proof. intros Hm Hf A y A' (x & B & H1 & H2)%bind_run. apply Hm in H1. apply Hf in H2. congruence. Qed.
Lemma pends_quiet {X} (m : CM Adapter X) : quiets m -> pends m.
Proof. intros Hm A x A' H. by apply Hm in H as (_ & _ & H & _). Qed.
Lemma pends_modify f : (forall A, mPendingMsgs (f A) = mPendingMsgs A) -> pends (modify f).
Proof. intros Hf A x A' [= _ <-]. apply Hf. Qed.
Lemma pends_deref {X} (x : option X) : pends (deref x).
Proof. intros A y A'. unfold deref. destruct x; [|done]. by intros [= _ <-]. Qed.
Ltac pends := repeat first [done | apply pends_modify; done | apply pends_deref | apply pends_quiet; solve [quiet] | apply pends_bind; [|intros ?]
  | match goal with |- pends (if ?b then _ else _) => destruct b | |- pends (match ?x with _ => _ end) => destruct x end].
Lemma restartTrip_pends query acc : pends (restartTripBatching query acc).
Proof. unfold restartTripBatching, ask. pends. Qed.
Lemma startTrip_pends client id o : pends (startTripBatchingMultiplex client id o).
Proof. unfold startTripBatchingMultiplex, saveBatchingSession, ask. pends. Qed.
Lemma stopCommon_pends err client id restart o : pends (stopTripBatchingMultiplexCommon err client id restart o).
Proof.
  unfold stopTripBatchingMultiplexCommon. apply pends_bind; [pends|intros A]. apply pends_bind; [pends|intros t]. apply pends_bind; [pends|intros _]. apply pends_bind; [pends|intros _].
  apply pends_bind; [pends|intros B]. apply pends_bind; [destruct (Nat.eqb _ _); [pends|apply restartTrip_pends]|intros _].
  apply pends_bind; [|intros _; pends]. destruct restart; [|pends]. apply pends_bind; [unfold eraseBatchingSession; pends|intros _]. destruct (_ || _); [pends|]. destruct (_ =? _); [apply startTrip_pends|pends].
Qed.
Lemma closure_pends c err acc : pends (proc_closure c err acc).
Proof.
  destruct c as [client id o|client id f r o|client id| |client id o|client id o|client id|r client id o|q d t a|a d t|]; cbn [proc_closure].
  - unfold eraseBatchingSession. pends.
  - apply pends_bind; [|intros _; pends]. destruct (negb _); [unfold saveBatchingSession; pends|]. apply pends_bind; [pends|intros _]. destruct r; [|pends]. destruct (_ || _); [pends|].
    destruct (_ =? _); [apply startTrip_pends|pends].
  - pends.
  - pends.
  - unfold eraseBatchingSession. pends.
  - unfold proc_queryStart, ask. pends.
  - pends.
  - apply pends_bind; [pends|intros A]. apply pends_bind; [unfold disable_mask; pends|intros _]. apply stopCommon_pends.
  - unfold proc_queryRestart, ask. apply pends_bind; [pends|intros A]. destruct (if negb _ && _ then _ else _) as [d' b']. pends.
  - pends.
  - pends.
Qed.
Lemma completed_pends freed acc : pends (proc_completed freed acc).
Proof.
  intros A x A' H. apply completed_spec in H as (m & b1 & b2 & _ & H). cbn zeta in H. destruct (ended _ _); [by subst A'|]. destruct H as (C & HC & HR).
  apply restartTrip_pends in HR. rewrite HR. unfold reportBatchStatusChange in HC. apply bind_run in HC as (A0 & A1 & [= <- <-] & HC). by injection HC as <-.
Qed.

(** ** Every step keeps the invariant *)
Section steps.
Context {Modem : Type} {Q : Qmi Modem} {TM : TripModem Modem} (batching_supported trip_supported : bool).
Definition view (w : @World Modem) : View := MkView (trips (w_adapter w)) (batch (modem (w_api w))) (w_odometer w) (w_began w).
Record inv (w : World) : Prop := {
  i_orderly : orderly w;
  i_pending : Forall (fun m => ctx_load m = 0%nat) (mPendingMsgs (w_adapter w));
  i_phases : phases (view w) (w_adapter w);
}.
Lemma set_api_sizes_modem l (L L' : @LocApiV02 Modem) : set_api_sizes l L = Some L' -> modem L' = modem L.
Proof.
  unfold set_api_sizes. revert L. induction l as [|t l IH]; intros L; cbn; [by intros [= <-]|]. destruct t; try apply IH. cbn. intros H. by apply IH in H.
Qed.
Lemma phases_sent A l v : phases v A -> Forall (fun m => ctx_load m = 0%nat) l -> phases v (set_ctx (fun q => q ++ l) A).
Proof.
  intros (H1 & H2 & H3) Hl. split; [done|]. split.
  - cbn. apply Forall_app. split; [done|]. eapply Forall_impl; [exact Hl|]. intros m Hm. apply (ctx_phase_0 v v m Hm). clear -Hm. destruct m as [| | | | | | | | | | | | |c err acc]; try done. by destruct c.
  - unfold trip_load. cbn. rewrite sum_app. intros H. apply H3. unfold trip_load. lia.
Qed.
Lemma command_phases c A v : phases v A -> phases v (issue c A).
Proof.
  intros H. destruct c; cbn; by apply (phases_sent _ [_] v H); repeat constructor.
Qed.
Lemma moves_phases k v v' A : 0 <= k -> v_trips v' = v_trips v -> v_batch v' = (fun b => (b.1, b.2 + k)) <$> v_batch v -> v_odometer v' = v_odometer v + k ->
  v_began v' = v_began v -> phases v A -> phases v' A.
Proof.
  intros Hk Ht Hb Ho Hg (Ha & Hc & Hi).
  assert (Hfair : forall D, all_fair v D -> all_fair v' D /\ all_fair v' (D + k)).
  { intros D HD. unfold all_fair, v_sessions. rewrite Ht. split; intros i t Hit; apply HD in Hit as (s & H1 & H2 & H3 & H4 & H5 & H6); exists s; rewrite Hg, Ho; (split; [done|]); lia. }
  assert (Hsuits : forall tbf, suits v tbf -> suits v' tbf) by (unfold suits, v_sessions; by rewrite Ht).
  assert (Hruns : forall tbf D, runs v tbf D -> runs v' tbf (D + k)) by (intros tbf D (d & Hd); exists d; by rewrite Hb, Hd).
  assert (Hidle : idle v -> idle v').
  { intros [He|(D & H1 & H2 & H3)]; [left; unfold v_sessions; by rewrite Ht|]. right. exists (D + k). rewrite Ht. split; [by apply Hruns|]. split; [by apply Hfair|by apply Hsuits]. }
  assert (Hstart : forall id tbf s, starting v id tbf s -> starting v' id tbf s).
  { intros id tbf s (H1 & H2 & H3). split; [unfold v_sessions; by rewrite Ht|]. rewrite Hg, Ho. split; [done|lia]. }
  split; [|split; [|by intros H%Hi; apply Hidle]].
  - eapply Forall_impl; [exact Ha|]. intros m Hm. destruct m as [id o ac to c|id c|d tbf to c|d tbf to c|c|c|n c|n c|n d [ty|]]; try done; cbn in *; try (destruct c; try done).
    + destruct Hm as (-> & s & Hs). split; [done|]. exists s. by apply Hstart.
    + rewrite Ht. destruct Hm as (-> & H1 & H2). split; [done|]. split; [by apply Hsuits|by apply Hfair].
    + destruct Hm as (-> & H1 & H2). split; [done|]. split; [by apply Hsuits|by apply Hfair].
    + unfold v_sessions. by rewrite Ht.
    + unfold v_sessions. by rewrite Ht.
    + destruct Hm as (H1 & H2 & s & H3 & H4). unfold v_sessions. rewrite Ht. split; [done|]. split; [by apply Hidle|]. exists s. rewrite Hg, Ho. split; [done|lia].
    + destruct Hm as (H1 & H2 & H3 & H4). unfold v_sessions. rewrite Ht. split; [done|]. split; [by apply Hidle|]. split; [by apply Hsuits|]. intros Hq. by apply Hfair, H4.
    + destruct (ty =? _); [|done]. destruct Hm as [H1 H2]. split; [by apply Hidle|]. intros Hd. by apply Hfair, H2.
  - eapply Forall_impl; [exact Hc|]. intros m Hm. destruct m as [| | | | | | | | | | |acc| |c err acc]; try done; cbn in *.
    + destruct Hm as [H1 H2]. split; [by apply Hidle|by apply Hfair].
    + destruct c as [client id o|client id f r o|client id| |client id o|client id o|client id|r client id o|q d t a|a d t|]; try done.
      * destruct Hm as (s & H1 & H2). exists s. split; [by apply Hstart|]. intros He. destruct (H2 He) as (D & H3 & H4). exists (D + k). split; [by apply Hruns|]. rewrite Ho. lia.
      * destruct Hm as (H1 & H2 & H3). unfold v_sessions. rewrite Ht. split; [done|]. split; [by apply Hidle|]. intros He. destruct (H3 He) as (s & D & H4 & H5 & H6 & H7 & H8).
        exists s, (D + k). rewrite Hb, Hg, Ho. split; [|split; [done|lia]]. destruct (v_batch v); [|done]. cbn in *. injection H4 as <-. done.
      * intros He. by apply Hidle, Hm.
      * unfold v_sessions. by rewrite Ht.
      * destruct Hm as (H1 & H2 & H3 & H4). unfold v_sessions. rewrite Ht. split; [done|]. split; [by apply Hidle|]. split; [by apply Hsuits|]. intros He. by apply Hfair, H4.
      * destruct Hm as (H1 & H2). split; [by apply Hsuits|]. intros He. destruct (H2 He) as (D & H3 & H4 & H5). exists (D + k). split; [by apply Hruns|]. split; [lia|].
        unfold v_sessions. rewrite Ht. intros i y Hy. apply H5 in Hy as (s & K1 & K2 & K3 & K4 & K5). exists s. rewrite Hg, Ho. split; [done|]. lia.
Qed.
(** The thread of the modem interface. *)
Lemma deliver_locations rs A : only_locations rs ->
  exists l, foldl (fun A r => deliver r A) A rs = set_ctx (fun q => q ++ l) A /\ Forall (fun m => ctx_load m = 0%nat) l.
Proof.
  intros Hr. revert A. induction Hr as [|r rs Hr _ IH]; intros A; cbn; [exists []; split; [|done]; destruct A; unfold set_ctx; cbn; by rewrite app_nil_r|].
  destruct (IH (deliver r A)) as (l & -> & Hl). destruct r as [ls n mode| |]; try done. exists (m_locations ls n mode :: l). split; [|by constructor].
  destruct A. cbn. unfold set_ctx. cbn. by rewrite <- app_assoc.
Qed.
Lemma api_step_phases fuel uninit A L A' L' o g m ms : api A = m :: ms -> (trip_load A <= 1)%nat -> 0 <= o ->
  api_step trip_supported fuel uninit (A, L) = Some (A', L') ->
  (forall c err acc, m_closure c err acc ∈ ctx A' -> needs_success c = true -> err = LOCATION_ERROR_SUCCESS) ->
  phases (MkView (trips A) (batch (modem L)) o g) A -> phases (MkView (trips A') (batch (modem L')) o g) A' /\ mPendingMsgs A' = mPendingMsgs A.
Proof.
  intros Hm Hload Ho H Hsucc (Ha & Hc & Hi). unfold api_step in H. cbn [fst snd] in H. rewrite Hm in H, Ha. apply Forall_cons in Ha as [Hph Ha].
  destruct (api_proc _ _ _ _ _) as [[ans L0]|] eqn:Hp; [|done]. injection H as <- ->. apply api_proc_out in Hp; [|done]. cbn zeta in Hp. cbn [modem] in Hp.
  assert (Hsplit : trip_load A = (sum_list_with ctx_load (ctx A) + (api_load m + sum_list_with api_load ms))%nat) by (unfold trip_load; by rewrite Hm).
  (* a request that does not concern trips *)
  assert (Hlight : forall c err, api_load m = 0%nat -> trip_closure c = 0%nat -> batch (modem L') = batch (modem L) -> only_locations (reports L') ->
    let A1 := foldl (fun A r => deliver r A) (set_api (fun _ => ms) A) (reports L') in
    phases (MkView (trips (sendMsg (m_closure c err 0) A1)) (batch (modem L')) o g) (sendMsg (m_closure c err 0) A1) /\ mPendingMsgs (sendMsg (m_closure c err 0) A1) = mPendingMsgs A).
  { intros c err H0 Hcl Hb Hr. destruct (deliver_locations _ (set_api (fun _ => ms) A) Hr) as (l & -> & Hl). cbn zeta. rewrite Hb. split; [|done].
    apply (phases_sent _ [m_closure c err 0]); [|by repeat constructor]. apply (phases_sent _ l); [|done]. split; [done|]. split; [done|].
    intros Hz. apply Hi. unfold trip_load in Hz. cbn in Hz. lia. }
  (* the next message of the trips *)
  assert (Hnext : forall rs x, api_load m = 1%nat -> only_locations rs -> ctx_load x = 1%nat -> ctx_phase (MkView (trips A) (batch (modem L')) o g) x ->
    let A1 := sendMsg x (foldl (fun A r => deliver r A) (set_api (fun _ => ms) A) rs) in phases (MkView (trips A1) (batch (modem L')) o g) A1 /\ mPendingMsgs A1 = mPendingMsgs A).
  { intros rs x H1 Hr Hx Hxp. destruct (deliver_locations _ (set_api (fun _ => ms) A) Hr) as (l & -> & Hl). cbn zeta. split; [|done]. split; [|split].
    - cbn. eapply api_phases_0; [|exact Ha]. lia.
    - cbn. apply Forall_app. split; [|by constructor]. apply Forall_app. split; [eapply ctx_phases_0; [|exact Hc]; lia|].
      eapply Forall_impl; [exact Hl|]. intros y Hy. destruct y as [| | | | | | | | | | |acc| |c err acc]; try done. by destruct c.
    - unfold trip_load. cbn. rewrite !sum_app. cbn. lia. }
  assert (Hdone : forall rs, api_load m = 1%nat -> only_locations rs -> idle (MkView (trips A) (batch (modem L')) o g) ->
    let A1 := foldl (fun A r => deliver r A) (set_api (fun _ => ms) A) rs in phases (MkView (trips A1) (batch (modem L')) o g) A1 /\ mPendingMsgs A1 = mPendingMsgs A).
  { intros rs H1 Hr Hid. destruct (deliver_locations _ (set_api (fun _ => ms) A) Hr) as (l & -> & Hl). cbn zeta. split; [|done].
    apply phases_sent; [|done]. split; [cbn; eapply api_phases_0; [|exact Ha]; lia|]. split; [cbn; eapply ctx_phases_0; [|exact Hc]; lia|]. done. }
  destruct m as [id o' ac to c|id c|d tbf to c|d tbf to c|c|c|n c|n c|n d ty].
  - destruct Hp as (err & -> & Hb & Hr). by apply Hlight.
  - destruct Hp as (err & -> & Hb & Hr). by apply Hlight.
  - destruct Hp as (err & -> & Hr & Hb). destruct c as [client id o'|client id f r o'|client id| |client id o'|client id o'|client id|r client id o'|q d' t a|a d' t|]; try done.
    destruct Hph as (-> & s & Hs). rewrite Hr. apply (Hnext []); [done|by constructor|done|]. exists s. split; [exact Hs|]. intros ->. exists 0. split; [exact Hb|].
    destruct Hs as (_ & _ & Hs). cbn in *. lia.
  - destruct Hp as (err & -> & Hr & Hb). destruct c as [client id o'|client id f r o'|client id| |client id o'|client id o'|client id|r client id o'|q d' t a|a d' t|]; try done; apply Hnext; try done.
    + destruct Hph as (-> & H1 & H2). intros He. right. exists 0. split; [by apply Hb|]. done.
    + destruct Hph as (-> & H1 & H2). split; [done|]. intros He. exists 0. split; [by apply Hb|]. split; [done|].
      intros i y Hy. apply H2 in Hy as (s & K1 & K2 & K3 & K4 & K5 & K6). exists s. split; [done|]. cbn in *. lia.
  - destruct Hp as (err & -> & Hr). rewrite Hr. destruct c as [client id o'|client id f r o'|client id| |client id o'|client id o'|client id|r client id o'|q d' t a|a d' t|]; try done.
    + apply (Hnext []); [done|by constructor|done|]. exact Hph.
    + destruct (Hdone []) as [H1 H2]; [done|by constructor|by left|]. split; [|exact H2]. apply (phases_sent _ [m_closure on_nothing err 0]); [exact H1|by repeat constructor].
  - destruct Hp as (err & acc & -> & Hr & Hb & Hd).
    assert (Hsame : MkView (trips A) (batch (modem L')) o g = MkView (trips A) (batch (modem L)) o g) by by rewrite Hb.
    assert (Hacc : err = LOCATION_ERROR_SUCCESS -> idle (MkView (trips A) (batch (modem L)) o g) -> v_sessions (MkView (trips A) (batch (modem L)) o g) <> ∅ ->
      exists d i, batch (modem L) = Some (d, i, acc) /\ all_fair (MkView (trips A) (batch (modem L)) o g) acc).
    { intros He [Hem|(D & (d & HD) & Hf & _)] Hne; [by destruct (Hne Hem)|]. rewrite (Hd He _ HD) in *. by exists d, (interval_of (mOngoingTripTBFInterval (trips A))). }
    rewrite Hr. destruct c as [client id o'|client id f r o'|client id| |client id o'|client id o'|client id|r client id o'|q d' t a|a d' t|]; try done; apply (Hnext []); try done; try (by constructor); rewrite Hsame.
    + destruct Hph as (H1 & H2 & s & H3 & H4). split; [done|]. split; [done|]. intros He. destruct (Hacc He H2 H1) as (d & i & HD & Hf). exists s, acc. cbn. rewrite HD. split; [done|].
      split; [done|]. cbn in H4. split; [lia|]. split; [|lia]. destruct (map_choose _ H1) as (i' & y & Hy). apply Hf in Hy as (s' & _ & _ & K & _). lia.
    + destruct Hph as (H1 & H2 & H3 & H4). split; [done|]. split; [done|]. split; [done|]. intros He. destruct (Hacc He H2 H1) as (d & i & HD & Hf). destruct q; [done|by apply H4].
  - destruct Hp as (err & -> & Hb & Hr). by apply Hlight.
  - destruct Hp as (err & -> & Hb & Hr). by apply Hlight.
  - destruct Hp as (-> & Hb & rs & Hrs & Hr). rewrite Hb. destruct (decide (ty = Some eQMI_LOC_OUTDOOR_TRIP_BATCHING_V02)) as [->|Hty].
    + cbn in Hph. destruct Hph as [H1 H2]. destruct Hr as [Hr|(_ & Hne & Hr)].
      * rewrite Hr. rewrite <- Hb in *. by apply (Hdone rs).
      * rewrite Hr, foldl_app. cbn [foldl deliver]. rewrite <- Hb in *. apply (Hnext rs (m_completed (default 0 d))); try done. split; [done|by apply H2].
    + destruct Hr as [Hr|(Hx & _)]; [|done]. rewrite Hr. destruct (deliver_locations _ (set_api (fun _ => ms) A) Hrs) as (l & -> & Hl). split; [|done].
      apply phases_sent; [|done]. split; [done|]. split; [done|]. intros Hz. apply Hi. unfold trip_load in Hz. cbn in Hz.
      assert (api_load (a_full n d ty) = 0%nat) as H0; [|lia]. destruct ty as [ty|]; [|done]. cbn. destruct (Z.eqb_spec ty eQMI_LOC_OUTDOOR_TRIP_BATCHING_V02) as [->|]; done.
Qed.
(** The context's thread. *)
Lemma engineUp_quiet A x A' : mTripSessions (trips A) = ∅ -> proc_engineUp A = Some (x, A') ->
  trips A' = trips A /\ ctx A' = ctx A ++ mPendingMsgs A /\ mPendingMsgs A' = [] /\ exists l, api A' = api A ++ l /\ Forall light l.
Proof.
  intros HT H. unfold proc_engineUp in H. apply bind_run in H as ([] & B & [= <-] & H). apply bind_run in H as ([] & B1 & HB1 & H).
  assert (quiet A B1) as Hq1.
  { unfold broadcastCapabilities, tell in HB1. apply bind_run in HB1 as (A0 & A1 & [= <- <-] & HB1). injection HB1 as <-. split; [done|]. split; [done|]. split; [done|]. exists []. by rewrite app_nil_r. }
  apply bind_run in H as (A0 & A1 & [= <- <-] & H). apply bind_run in H as ([] & B2 & [= <-] & H). apply bind_run in H as ([] & B3 & HB3 & H).
  assert (quiet A B3) as (Ht & Hc & Hp & l & Hl & Hf).
  { apply (hushed_trans _ B1); [exact Hq1|]. destruct Hq1 as (Ht1 & _). unfold restartSessions in HB3. apply bind_run in HB3 as (A0 & A1 & [= <- <-] & HB3).
    apply bind_run in HB3 as ([] & B4 & HB4 & HB3). apply bind_run in HB3 as ([] & B5 & HB5 & HB3). cbn in HB3. rewrite Ht1, HT in HB3. injection HB3 as <-.
    assert (quiet B1 B4) as Hq4. { destruct (Nat.eqb _ 0); injection HB4 as <-; (split; [done|]); (split; [done|]); (split; [done|]); exists []; cbn; by rewrite app_nil_r. }
    apply (hushed_trans _ B4); [exact Hq4|]. revert HB5. apply for_each_quiets. intros e. destruct (negb _); quiet. }
  apply bind_run in H as ([] & B4 & [= <-] & H). injection H as _ <-. cbn. split; [done|]. split; [by rewrite Hc, Hp|]. split; [done|]. by exists l.
Qed.
Lemma ctx_step_phases freed A A' ba o g m ms : ctx A = m :: ms -> 0 <= o < 2 ^ 32 -> (trip_load A <= 1)%nat ->
  (m = m_engineUp -> mTripSessions (trips A) = ∅) -> (forall c err acc, m = m_closure c err acc -> needs_success c = true -> err = LOCATION_ERROR_SUCCESS) ->
  map_Forall (fun _ t => 0 < tripTBFInterval t) (mTripSessions (trips A)) ->
  ctx_step batching_supported freed A = Some (tt, A') -> fine A' -> Forall (fun m => ctx_load m = 0%nat) (mPendingMsgs A) ->
  phases (MkView (trips A) ba o g) A ->
  phases (MkView (trips A') ba o (began o (new_trips A A') g)) A' /\ Forall (fun m => ctx_load m = 0%nat) (mPendingMsgs A').
Proof.
  intros Hm Ho Hload Hup Hsucc Hpos H Hf Hpend (Ha & Hc & Hi). unfold ctx_step in H. apply bind_run in H as (A0 & A1 & [= <- <-] & H). rewrite Hm in H, Hc.
  apply bind_run in H as ([] & B & [= <-] & H). apply Forall_cons in Hc as [Hph Hc].
  assert (Hsplit : trip_load A = (ctx_load m + trip_load (set_ctx (fun _ => ms) A))%nat) by (unfold trip_load; rewrite Hm; cbn; lia).
  set (B := set_ctx (fun _ => ms) A) in *.
  assert (HB : trips B = trips A /\ api B = api A /\ mPendingMsgs B = mPendingMsgs A /\ new_trips A A' = new_trips B A') by done.
  destruct HB as (HBt & HBa & HBp & HBn). rewrite HBn, <- HBt in *. rewrite <- HBa in Ha. rewrite <- HBp in Hpend. change ms with (ctx B) in Hc. clearbody B. clear HBn HBt HBa HBp Hm.
  assert (m = m_engineUp \/ m <> m_engineUp) as [->|Hne] by (destruct m; (by left) || (by right)).
  - specialize (Hup eq_refl). destruct (engineUp_quiet _ _ _ Hup H) as (Ht & Hct & Hp & l & Hl & Hlf). rewrite Ht, Hp. split; [|constructor].
    assert (new_trips B A' = []) as -> by (unfold new_trips; rewrite Hl, drop_app_length; by apply lights_asked).
    split; [|split; [|by left]].
    + rewrite Hl. apply Forall_app. split; [done|]. eapply Forall_impl; [exact Hlf|]. intros y. apply light_phase.
    + rewrite Hct. apply Forall_app. split; [done|]. eapply Forall_impl; [exact Hpend|]. intros y Hy. destruct y as [| | | | | | | | | | |acc| |c err acc]; try done. by destruct c.
  - destruct (decide (ctx_load m = 0%nat)) as [H0|H1].
    + apply light_proc in H as [H|(Ht & Hct & Hap & Hp)]; [| |done|done].
      * destruct Hf as (F1 & F2 & F3). split; [|by (assert (mPendingMsgs A' = mPendingMsgs B) as -> by
          (destruct H as [(_ & _ & H & _)|l x l' _ H _ _ _ _|l Hl Hw]; [done|done|exfalso; unfold trip_load in F1; rewrite Hl, sum_app in F1; lia]))].
        apply out_phases; try done; [lia|]. split; [done|]. split; [done|]. intros Hz. apply Hi. lia.
      * rewrite Ht, Hp. split; [|apply Forall_app; split; [done|by repeat constructor]]. rewrite new_trips_none by done. split; [by rewrite Hap|]. split; [by rewrite Hct|].
        intros Hz. apply Hi. unfold trip_load in *. rewrite Hap, Hct in Hz. lia.
    + assert (H0 : trip_load B = 0%nat) by lia. destruct m as [| | | | | | | | | | |acc| |c err acc]; try done; cbn [proc] in H.
      * split; [by eapply (completed_ends ba o g B)|]. apply completed_pends in H. by rewrite H.
      * split; [|apply closure_pends in H; by rewrite H]. pose proof (Hsucc c err acc eq_refl) as He.
        destruct c as [client id o'|client id f r o'|client id| |client id o'|client id o'|client id|r client id o'|q d t a|a d t|]; try done; try rewrite (He eq_refl) in *.
        -- by eapply (startTrip_ends ba o g B).
        -- by eapply (queryStart_ends ba o g B).
        -- by eapply (restartStart_ends ba o g B).
        -- by eapply (stopTrip_ends ba o g B).
        -- by eapply (queryRestart_ends ba o g B).
        -- by eapply (restartTrips_ends ba o g B).
Qed.
Lemma fine_orderly (w : @World Modem) : orderly w -> fine (w_adapter w).
Proof. intros Ho. split; [apply Ho|]. split; [apply Ho|]. intros c id o. apply (or_fresh w Ho). Qed.
Lemma inv_step w w' : inv w -> step batching_supported trip_supported w w' -> orderly w' -> inv w'.
Proof.
  intros [Ho Hp Hph] Hs Ho'. destruct Hs as [c A L o b|freed A L o b A' L' _ Hne Hs Hsz|fuel uninit A L o b A' L' Hne Hs|k m' A L o b Hk Hmv|count d ty A L o b Hd|st A L o b|m' A L o b Hm].
  - split; [done|destruct c; exact Hp|destruct c; exact (command_phases _ A _ Hph)].
  - destruct (ctx A) as [|m ms] eqn:Em; [done|]. pose proof (or_odometer _ Ho) as Hodo. cbn in Hodo.
    destruct (ctx_step_phases freed A A' (batch (modem L)) o b m ms Em Hodo (or_load _ Ho)) as [H1 H2]; try done.
    + intros ->. apply (or_up _ Ho). cbn. rewrite Em. by left.
    + intros c err acc ->. apply (or_success _ Ho c err acc). cbn. rewrite Em. by left.
    + apply (or_interval _ Ho).
    + apply (fine_orderly _ Ho').
    + split; [done|done|]. unfold view. cbn. by rewrite (set_api_sizes_modem _ _ _ Hsz).
  - destruct (api A) as [|m ms] eqn:Em; [done|]. pose proof (or_odometer _ Ho) as Hodo. cbn in Hodo.
    destruct (api_step_phases fuel uninit A L A' L' o b m ms Em (or_load _ Ho) ltac:(lia) Hs (or_success _ Ho') Hph) as [H1 H2]. split; [done| |done]. cbn in *. by rewrite H2.
  - split; [done|done|]. refine (moves_phases k (view (MkWorld A L o b)) (view (MkWorld A (set_modem m' L) (o + k) b)) A Hk eq_refl _ eq_refl eq_refl Hph). unfold view. cbn. by rewrite (law_moves _ _ _ Hmv).
  - split; [done|done|]. destruct Hph as (Ha & Hc & Hi). unfold view in *. cbn in *. split; [|split].
    + apply Forall_app. split; [done|]. constructor; [|constructor]. destruct ty as [ty|]; [|done]. cbn. destruct (Z.eqb_spec ty eQMI_LOC_OUTDOOR_TRIP_BATCHING_V02) as [->|]; [|done].
      assert (trip_load A = 0%nat) as H0. { pose proof (or_load _ Ho') as Hl. unfold trip_load in *. cbn in Hl. rewrite sum_app in Hl. cbn in Hl. lia. }
      split; [by apply Hi|]. intros Hne. destruct Hd as [Hd|Hd]; [done|]. rewrite Hd in *. destruct (Hi H0) as [He|(D & (d' & HD) & Hf & _)].
      * intros i t Hit. change (mTripSessions (trips A) !! i = Some t) in Hit. change (mTripSessions (trips A) = ∅) in He. by rewrite He in Hit.
      * cbn in HD. rewrite HD. exact Hf.
    + done.
    + unfold trip_load. cbn. rewrite sum_app. intros Hz. apply Hi. unfold trip_load. lia.
  - split; [done|done|]. apply (phases_sent A [m_status st]); [exact Hph|by repeat constructor].
  - split; [done|done|]. assert (m_engineUp ∈ ctx (handleEngineUpEvent A)) as Hin by (cbn; apply elem_of_app; right; by left).
    destruct (or_up _ Ho' Hin) as [HT H0]. cbn in HT, H0. destruct Hph as (Ha & Hc & _). unfold trip_load in H0. cbn in H0. rewrite sum_app in H0. cbn in H0. split; [|split].
    + cbn. eapply api_phases_0; [|exact Ha]. lia.
    + cbn. apply Forall_app. split; [|by constructor]. eapply ctx_phases_0; [|exact Hc]. lia.
    + intros _. by left.
Qed.
Lemma inv_reachable w : reachable_by batching_supported trip_supported (fun _ w' => orderly w') w -> inv w.
Proof.
  intros ([[[bs tbs] to] ac] & m & Hm & Hr). revert w Hr. apply rtc_ind_r; [|intros w1 w2 _ [Hs Ho] IH; by apply (inv_step w1)].
  split; [|constructor|].
  - split; cbn; try done; try lia.
    intros c err acc Hin. rewrite !elem_of_cons in Hin. by destruct Hin as [|[|?%elem_of_nil]].
  - split; [constructor|]. split; [by repeat constructor|]. intros _. by left.
Qed.
End steps.

(** The report of a distance ends in every state, as long as a trip can be read that was erased. *)
Lemma complete_trips_total (freed : Z -> option (Z * Z)) acc l : (forall id, is_Some (freed id)) -> forall fin A, exists r A', complete_trips freed acc l fin A = Some (r, A').
Proof.
  intros Hf. induction l as [|[k t] l IH]; intros fin A; [by exists fin, A|]. cbn [complete_trips]. unfold complete_trip. cbn [fst snd].
  destruct (is_completed _); [|apply IH]. unfold mbind, cm_bind, get. cbn. destruct (Hf k) as [[iv ds] ->]. apply IH.
Qed.
Lemma restart_total acc A : exists A', restartTripBatching false acc A = Some (tt, A') /\ told A' = told A /\ mTripSessions (trips A') = mTripSessions (trips A).
Proof.
  unfold restartTripBatching, mbind, cm_bind, get. destruct (Nat.eqb _ 0).
  - cbn. unfold disable_if_unused, mbind, cm_bind, get. cbn. destruct (Nat.eqb _ 0); by eexists.
  - destruct (minima _) as [d t]. by eexists.
Qed.
Definition status_told (ids : list Z) (A : Adapter) : list Told :=
  omap (fun c => if batchingStatusCb c.2 then Some (t_status c.1 BATCHING_STATUS_TRIP_COMPLETED ids) else None) (GeofenceAdapter.by_key (mClientData A)).
Lemma completed_total (freed : Z -> option (Z * Z)) acc A : (forall id, is_Some (freed id)) -> exists A', proc_completed freed acc A = Some (tt, A') /\
  let ids := ended acc (GeofenceAdapter.by_key (mTripSessions (trips A))) in
  told A' = told A ++ (match ids with [] => [] | _ => status_told ids A end) /\
  forall i, mTripSessions (trips A') !! i = mTripSessions (trips A) !! i ≫= goes_on acc.
Proof.
  intros Hf. destruct (complete_trips_total freed acc (GeofenceAdapter.by_key (mTripSessions (trips A))) Hf [] A) as (r & B & HB).
  assert (exists A', proc_completed freed acc A = Some (tt, A')) as (A' & H).
  { unfold proc_completed, mbind, cm_bind, get. rewrite HB. destruct r as [|i r]; [by exists B|]. cbn. unfold reportBatchStatusChange, tell, mbind, cm_bind, get, modify. cbn.
    destruct (restart_total acc (set_told (fun t => t ++ omap (fun c => if batchingStatusCb c.2 then Some (t_status c.1 BATCHING_STATUS_TRIP_COMPLETED (i :: r)) else None) (GeofenceAdapter.by_key (mClientData B))) B)) as (A' & HA' & _).
    by exists A'. }
  exists A'. split; [done|]. apply completed_spec in H as (m & b1 & b2 & Hm & H). cbn zeta in *. destruct (ended _ _) as [|i ids]; [subst A'; cbn; by rewrite app_nil_r|].
  destruct H as (C & HC & HR). destruct (restart_total acc C) as (A'' & HA'' & Ht & HT). rewrite HR in HA''. injection HA'' as <-.
  unfold reportBatchStatusChange in HC. apply bind_run in HC as (A0 & A1 & [= <- <-] & HC). injection HC as <-. rewrite Ht, HT. done.
Qed.
Lemma ended_elem acc m id : id ∈ ended acc (GeofenceAdapter.by_key m) <-> exists t, m !! id = Some t /\ is_completed (travelled acc t) = true.
Proof.
  unfold ended. split.
  - intros ([k t] & -> & [Hc Hin]%list_elem_of_filter)%list_elem_of_fmap. exists t. split; [by apply GeofenceAdapter.by_key_elem|done].
  - intros (t & Ht & Hc). apply (elem_of_fst _ t), list_elem_of_filter. split; [done|by apply GeofenceAdapter.by_key_elem].
Qed.

(** ** Trips end when they should, no sooner *)
(** C34. While the messages of trips do not overlap, the modem refuses neither queries nor
    restarts, and restarts only while there are no trips (with trips, [batching_gaps] has
    one that ends too soon), while intervals are not zero, no trip is started twice, the
    odometer stays below 2^32 and a trip that was just erased can still be read, whatever is
    read of it: the report of a distance ends the trips whose counted distance is theirs, and
    tells each client of them, once; no trip ends before the device has moved its distance
    since it was asked for; and between the messages, the batch of the modem has an interval
    that suits every trip. *)
Theorem trips_counted {Modem} {Q : Qmi Modem} {TM : TripModem Modem} batching_supported trip_supported w :
  reachable_by batching_supported trip_supported (fun _ w' => orderly w') w -> let A := w_adapter w in let T := mTripSessions (trips A) in
  (forall acc ms (freed : Z -> option (Z * Z)), ctx A = m_completed acc :: ms -> (forall id, is_Some (freed id)) -> exists A' ids,
     ctx_step batching_supported freed A = Some (tt, A') /\ told A' = told A ++ (match ids with [] => [] | _ => status_told ids A end) /\
     (forall id, id ∈ ids <-> exists t, T !! id = Some t /\ tripDistance t <= accumulatedDistanceOnTripRestart t + (acc - accumulatedDistanceOngoingBatch t)) /\
     (forall id t, T !! id = Some t -> (mTripSessions (trips A') !! id = None <-> id ∈ ids)) /\
     (forall id t, T !! id = Some t -> id ∈ ids -> exists s, w_began w !! id = Some s /\ tripDistance t <= w_odometer w - s)) /\
  (trip_load A = 0%nat -> T <> ∅ -> exists distance interval D, batch (modem (w_api w)) = Some (distance, interval, D) /\
     forall id t, T !! id = Some t -> interval <= Z.max FLP_BATCHING_MINIMUN_INTERVAL (tripTBFInterval t)).
Proof.
  intros Hr A T. apply inv_reachable in Hr as [Ho _ (_ & Hc & Hi)]. pose proof (or_odometer w Ho) as Hodo. split.
  - intros acc ms freed Hm Hfreed. fold A in Hc. rewrite Hm in Hc. apply Forall_cons in Hc as [[_ Hf] _].
    assert (Hex : forall id t, T !! id = Some t -> exists s, w_began w !! id = Some s /\ accumulatedDistanceThisTrip (travelled acc t) =
      accumulatedDistanceOnTripRestart t + (acc - accumulatedDistanceOngoingBatch t) /\ accumulatedDistanceOnTripRestart t + (acc - accumulatedDistanceOngoingBatch t) <= w_odometer w - s).
    { intros id t Ht. apply Hf in Ht as (s & H1 & H2 & H3 & H4 & H5 & H6). exists s. cbn in *. rewrite wrap_id by lia. done. }
    destruct (completed_total freed acc (set_ctx (fun _ => ms) A) Hfreed) as (A' & HA & Ht & HT). exists A', (ended acc (GeofenceAdapter.by_key T)). cbn zeta in *.
    assert (Hids : forall id, id ∈ ended acc (GeofenceAdapter.by_key T) <-> exists t, T !! id = Some t /\ tripDistance t <= accumulatedDistanceOnTripRestart t + (acc - accumulatedDistanceOngoingBatch t)).
    { intros id. rewrite ended_elem. split; intros (t & Hit & Hcm); exists t; (split; [done|]); destruct (Hex id t Hit) as (s & _ & He & _); revert Hcm; unfold is_completed; cbn [travelled tripDistance] in *;
        rewrite Z.leb_le, He; done. }
    split; [unfold ctx_step, mbind, cm_bind, get; by rewrite Hm|]. split; [exact Ht|]. split; [exact Hids|]. split.
    + intros id t Hit. rewrite HT. change (T !! id ≫= goes_on acc = None <-> id ∈ ended acc (GeofenceAdapter.by_key T)). rewrite ended_elem, Hit. cbn. unfold goes_on. split.
      * intros Hn. exists t. split; [done|]. by destruct (is_completed _).
      * intros (t' & [= <-] & ->). done.
    + intros id t Hit (t' & Hit' & Hle)%Hids. rewrite Hit in Hit'. injection Hit' as <-. destruct (Hex id t Hit) as (s & Hs & He & Hle'). exists s. split; [done|]. lia.
  - intros H0 Hne. destruct (Hi H0) as [He|(D & (d & HD) & _ & Hs)]; [done|]. exists d, (interval_of (mOngoingTripTBFInterval (trips A))), D. split; [exact HD|].
    intros id t Hit. apply Hs in Hit. cbn in Hit. fold A in Hit. unfold interval_of. destruct (Z.leb_spec FLP_BATCHING_MINIMUN_INTERVAL (mOngoingTripTBFInterval (trips A))); lia.
Qed.

(** ** Behaviours of a device *)
Definition trip (interval distance : Z) : BatchingOptions := MkBatching (MkLocation 24 interval distance 0 0) BATCHING_MODE_TRIP.
(** The modem comes up, a client is added, and its trip, session 2, is started. *)
Definition first_trip (interval distance : Z) : list Action :=
  [do_ctx; do_ctx; do_up; do_ctx; do_command (c_add 1 (MkCallbacks true true true true)); do_ctx;
   do_command (c_start 1 (trip interval distance)); do_ctx; do_api; do_ctx].
(** A slower and longer trip, session 3, is started after 600 meters. *)
Definition second_trip (interval distance : Z) : list Action := [do_move 600; do_command (c_start 1 (trip interval distance)); do_ctx; do_api; do_ctx].
Definition told_trips (w : @World Device) : list Told := filter (fun t => match t with t_status _ _ _ => true | _ => false end = true) (told (w_adapter w)).
(** The first of two trips ends: its distance is moved, and the report of it is the next message. *)
Definition first_is_over : list Action := first_trip 5000 1000 ++ second_trip 7000 3000 ++ [do_move 400; do_full 5; do_api; do_ctx].
Lemma trips_counted_witness : exists w, reachable_by true true (fun _ w' => orderly w') w /\ ctx (w_adapter w) = [m_completed 1000] /\
  (exists A', ctx_step true (fun _ => Some (0, 0)) (w_adapter w) = Some (tt, A') /\ mTripSessions (trips A') !! 2 = None /\ is_Some (mTripSessions (trips A') !! 3)) /\
  exists s, w_began w !! 2 = Some s /\ 1000 <= w_odometer w - s.
Proof.
  destruct (acts orderly_b first_is_over new_world) as [w|] eqn:E; [|vm_compute in E; discriminate]. exists w.
  pose proof (moves_reachable _ _ _ _ (fun _ w' => orderly_b_ok w') E) as Hr. split; [exact Hr|].
  assert (H : ctx (w_adapter w) = [m_completed 1000] /\ mTripSessions (trips (w_adapter w)) !! 2 = Some (MkTrip 0 0 0 1000 5000) /\
              mTripSessions (trips (w_adapter w)) !! 3 = Some (MkTrip 600 0 0 3000 7000)).
  { vm_compute in E. injection E as <-. repeat split; vm_compute; reflexivity. }
  destruct H as (Hctx & H2 & H3). split; [exact Hctx|]. clear E. destruct (trips_counted true true w Hr) as [Hc _].
  destruct (Hc 1000 [] (fun _ => Some (0, 0)) Hctx) as (A' & ids & Hs & _ & Hi & Hn & Ho); [by eexists|].
  assert (Hin : 2 ∈ ids) by (apply Hi; eexists; split; [exact H2|cbn; lia]). split; [|exact (Ho 2 _ H2 Hin)].
  exists A'. split; [exact Hs|]. split; [exact (proj2 (Hn 2 _ H2) Hin)|].
  destruct (mTripSessions (trips A') !! 3) eqn:E3; [by eexists|]. exfalso.
  destruct (proj1 (Hi 3) (proj1 (Hn 3 _ H3) E3)) as (t & Ht & Hle). rewrite H3 in Ht. injection Ht as <-. cbn in Hle. lia.
Defined.

(** A trip that was stopped, or has ended, stays a batching session: removing its client looks for it
    behind the end of the map of trips.  The start of a faster trip forgets what the others have
    moved: the batch ends, and the first trip does not, after its distance.  When the modem has
    restarted, a trip that had joined a batch ends at the next report.  A trip that is stopped while another is
    started leaves the modem with a batch that is too slow for the new one.  And where erased memory
    cannot be read, the report that ends a trip is undefined. *)
Theorem batching_gaps :
  (forall l, l = first_trip 5000 1000 ++ [do_command (c_stop 1 2); do_ctx; do_api; do_ctx; do_command (c_remove 1)] ->
     is_Some (acts orderly_b l new_world) /\ acts orderly_b (l ++ [do_ctx]) new_world = None) /\
  (exists w, acts orderly_b (first_trip 5000 1000 ++ second_trip 2000 3000 ++ [do_api; do_ctx; do_move 400; do_full 5; do_api; do_ctx; do_ctx]) new_world = Some w /\
     w_odometer w = 1000 /\ told_trips w = [] /\ ctx (w_adapter w) = [] /\ api (w_adapter w) = [] /\ mTripSessions (trips (w_adapter w)) !! 2 = Some (MkTrip 0 400 0 1000 5000)) /\
  (exists w, acts (fun _ => true) (first_trip 5000 1000 ++ second_trip 7000 3000 ++ [do_up; do_ctx; do_api; do_ctx; do_move 400; do_full 5; do_api; do_ctx; do_ctx]) new_world = Some w /\
     w_odometer w = 1000 /\ told_trips w = [t_status 1 BATCHING_STATUS_TRIP_COMPLETED [3]]) /\
  (exists w, acts (fun _ => true) (first_trip 5000 1000 ++ second_trip 7000 3000 ++
       [do_command (c_stop 1 2); do_command (c_start 1 (trip 6000 9000)); do_ctx; do_ctx; do_api; do_ctx; do_api; do_ctx; do_api; do_ctx]) new_world = Some w /\
     ctx (w_adapter w) = [] /\ api (w_adapter w) = [] /\ batch (modem (w_api w)) = Some (3000, 7000, 0) /\
     mTripSessions (trips (w_adapter w)) !! 4 = Some (MkTrip 0 0 0 9000 6000)) /\
  (exists w, acts orderly_b first_is_over new_world = Some w /\ ctx_step true (fun _ => None) (w_adapter w) = None).
Proof.
  split; [intros l ->; split; [|vm_compute; reflexivity]|split; [|split; [|split]]].
  - destruct (acts _ _ _) as [w|] eqn:E; [by exists w|vm_compute in E; discriminate].
  - destruct (acts _ _ _) as [w|] eqn:E; [|vm_compute in E; discriminate]. exists w. vm_compute in E. injection E as <-. vm_compute. done.
  - destruct (acts _ _ _) as [w|] eqn:E; [|vm_compute in E; discriminate]. exists w. vm_compute in E. injection E as <-. vm_compute. done.
  - destruct (acts _ _ _) as [w|] eqn:E; [|vm_compute in E; discriminate]. exists w. vm_compute in E. injection E as <-. vm_compute. done.
  - destruct (acts _ _ _) as [w|] eqn:E; [|vm_compute in E; discriminate]. exists w. vm_compute in E. injection E as <-. vm_compute. done.
Qed.
