(* ===== verification/LocationAPI.v ===== *)
(** * The location API ([src/gps/location/LocationAPI.cpp], [src/gps/location/LocationAPI.h])

    The entry of applications: objects that are registered with up to three adapters, which
    are loaded when the first client needs them, and deleted when every adapter has said that
    it has removed them.  Every operation holds one mutex.  The calls of the adapters are
    events, with what they return as arguments; so is whether a library can be loaded.
    Calling an empty [std::function], which throws, and calling a member of a deleted object
    are undefined ([None]).  Structures that are only passed on to an adapter stand as
    numbers; what [dlsym] finds for [setOptInStatus] and network locations is not modelled. *)
From S2P Require Import Prelude GnssTracking LocationApiClient.
#[local] Open Scope Z_scope.

Record LocationCallbacks := MkLocationCallbacks {
  capabilitiesCb : bool; responseCb : bool; collectiveResponseCb : bool;
  gnssNiCb : bool; trackingCb : bool; gnssLocationInfoCb : bool; engineLocationsInfoCb : bool; gnssSvCb : bool;
  gnssNmeaCb : bool; gnssDataCb : bool; gnssMeasurementsCb : bool; locationSystemInfoCb : bool;
  batchingCb : bool; batchingStatusCb : bool; geofenceBreachCb : bool; geofenceStatusCb : bool;
}.
Inductive Interface := GnssInterface | BatchingInterface | GeofenceInterface.
#[export] Instance Interface_eq_dec : EqDecision Interface.
Proof. solve_decision. Defined.
Definition interfaces : list Interface := [GnssInterface; BatchingInterface; GeofenceInterface].
(** [LOCATION_ADAPTER_GNSS_TYPE_BIT] and so on. *)
Definition type_bit (i : Interface) : Z :=
  match i with GnssInterface => Z.shiftl 1 0 | BatchingInterface => Z.shiftl 1 1 | GeofenceInterface => Z.shiftl 1 2 end.

(** Calls of [LocationControlAPI]. *)
Inductive ControlCall :=
  | ctrl_setControlCallbacks | ctrl_enable (techType : Z) | ctrl_disable (id : Z) | ctrl_gnssUpdateConfig (config : Z) | ctrl_gnssGetConfig (mask : Z)
  | ctrl_gnssDeleteAidingData (data : Z) | ctrl_gnssUpdateSvConfig (constellations blacklist : Z) | ctrl_gnssUpdateSecondaryBandConfig (config : Z)
  | ctrl_setConstrainedTunc (enable : bool) (tuncThreshold energyBudget : Z) | ctrl_setPositionAssistedClockEstimator (enable : bool)
  | ctrl_configLeverArm (config : Z) | ctrl_configRobustLocation (enable enableForE911 : bool) | ctrl_configMinGpsWeek (week : Z)
  | ctrl_configDeadReckoningEngineParams (config : Z) | ctrl_configEngineRunState (engType engState : Z).
Inductive ApiEvent :=
  | e_createOSFramework | e_destroyOSFramework
  | e_initialize (i : Interface)
  | e_addClient (i : Interface) (client : Z) (callbacks : LocationCallbacks)
  | e_requestCapabilities (i : Interface) (client : Z)
  | e_removeClient (i : Interface) (client : Z)
  | e_call (i : Interface) (client : Z) (call : Event)      (* as [LocationApiClient] calls it *)
  | e_control (call : ControlCall)
  | e_destroyComplete                                        (* the callback of [destroy] *)
  | e_delete (client : Z).

Record LocationAPIDestroyCbData := MkDestroyData { waitAdapterMask : Z; destroyCompleteCb : bool }.
Record Api := MkApi {
  clientData : gmap Z LocationCallbacks;
  destroyClientData : gmap Z LocationAPIDestroyCbData;
  controlAPI : option Z;
  interface : Interface -> bool;           (* [gnssInterface] and so on are not NULL *)
  load_failed : Interface -> bool;         (* [gGnssLoadFailed] and so on *)
  gOSFrameworkRefCount : Z;
  objects : gset Z;                        (* that are not deleted *)
}.
Definition new_api : Api := MkApi ∅ ∅ None (fun _ => false) (fun _ => false) 0 ∅.

Definition set_flag (i : Interface) (f : Interface -> bool) : Interface -> bool := fun j => if decide (j = i) then true else f j.
Definition set_clientData (f : gmap Z LocationCallbacks -> gmap Z LocationCallbacks) (A : Api) : Api :=
  MkApi (f (clientData A)) (destroyClientData A) (controlAPI A) (interface A) (load_failed A) (gOSFrameworkRefCount A) (objects A).
Definition set_destroyData (f : gmap Z LocationAPIDestroyCbData -> gmap Z LocationAPIDestroyCbData) (A : Api) : Api :=
  MkApi (clientData A) (f (destroyClientData A)) (controlAPI A) (interface A) (load_failed A) (gOSFrameworkRefCount A) (objects A).
Definition set_control (c : option Z) (A : Api) : Api :=
  MkApi (clientData A) (destroyClientData A) c (interface A) (load_failed A) (gOSFrameworkRefCount A) (objects A).
Definition set_refcount (n : Z) (A : Api) : Api :=
  MkApi (clientData A) (destroyClientData A) (controlAPI A) (interface A) (load_failed A) n (objects A).
Definition set_objects (f : gset Z -> gset Z) (A : Api) : Api :=
  MkApi (clientData A) (destroyClientData A) (controlAPI A) (interface A) (load_failed A) (gOSFrameworkRefCount A) (f (objects A)).
Definition set_interfaces (loaded failed : Interface -> bool) (A : Api) : Api :=
  MkApi (clientData A) (destroyClientData A) (controlAPI A) loaded failed (gOSFrameworkRefCount A) (objects A).

(** ** Which adapters a client needs *)
Definition isGnssClient (c : LocationCallbacks) : bool :=
  gnssNiCb c || trackingCb c || gnssLocationInfoCb c || engineLocationsInfoCb c || gnssSvCb c || gnssNmeaCb c || gnssDataCb c ||
  gnssMeasurementsCb c || locationSystemInfoCb c.
Definition isBatchingClient (c : LocationCallbacks) : bool := batchingCb c.
Definition isGeofenceClient (c : LocationCallbacks) : bool := geofenceBreachCb c || geofenceStatusCb c.
Definition is_client (i : Interface) (c : LocationCallbacks) : bool :=
  match i with GnssInterface => isGnssClient c | BatchingInterface => isBatchingClient c | GeofenceInterface => isGeofenceClient c end.
Definition mandatory (c : LocationCallbacks) : bool := capabilitiesCb c && responseCb c && collectiveResponseCb c.

(** [lib] is what [loadLocationInterface] finds. *)
Definition load (lib : Interface -> bool) (i : Interface) (A : Api) : list ApiEvent * Api :=
  if interface A i || load_failed A i then ([], A)
  else if lib i then ([e_initialize i], set_interfaces (set_flag i (interface A)) (load_failed A) A)
  else ([], set_interfaces (interface A) (set_flag i (load_failed A)) A).
(** Registering a client with an adapter; the first one is asked for the capabilities. *)
Definition join (lib : Interface -> bool) (client : Z) (callbacks : LocationCallbacks) (s : bool * (list ApiEvent * Api)) (i : Interface) :
    bool * (list ApiEvent * Api) :=
  let '(requested, (ev, A)) := s in
  if is_client i callbacks then
    let '(ev', A) := load lib i A in
    if interface A i then
      (true, (ev ++ ev' ++ [e_addClient i client callbacks] ++ (if requested then [] else [e_requestCapabilities i client]), A))
    else (requested, (ev ++ ev', A))
  else s.

(** ** Clients *)
(** [newLocationAPI] is the address of the new object. *)
Definition createInstance (lib : Interface -> bool) (newLocationAPI : Z) (callbacks : LocationCallbacks) (A : Api) : option Z * (list ApiEvent * Api) :=
  if negb (mandatory callbacks) then (None, ([], A))
  else
    let A := set_objects (fun o => {[newLocationAPI]} ∪ o) A in
    let A := set_refcount (u32 (gOSFrameworkRefCount A + 1)) A in
    let ev := if 1 =? gOSFrameworkRefCount A then [e_createOSFramework] else [] in
    let '(_, (ev, A)) := foldl (join lib newLocationAPI callbacks) (false, (ev, A)) interfaces in
    (Some newLocationAPI, (ev, set_clientData (insert newLocationAPI callbacks) A)).
(** Capabilities are not asked for. *)
Definition updateCallbacks (lib : Interface -> bool) (this : Z) (callbacks : LocationCallbacks) (A : Api) : list ApiEvent * Api :=
  if negb (mandatory callbacks) then ([], A)
  else
    let '(_, (ev, A)) := foldl (join lib this callbacks) (true, ([], A)) interfaces in
    (ev, set_clientData (insert this callbacks) A).
Definition deleteThis (this : Z) (A : Api) : Api := set_objects (fun o => o ∖ {[this]}) A.
(** The callback of [destroy]; [cb] tells whether it is there. *)
Definition completed (cb : bool) : option (list ApiEvent) := if negb cb then None else Some [].
Definition wait_mask (A : Api) : Z :=
  foldl (fun mask i => Z.lor mask (if interface A i then type_bit i else 0)) 0 interfaces.
Definition destroy (this : Z) (cb : bool) (A : Api) : option (list ApiEvent * Api) :=
  let needToWait := existsb (interface A) interfaces in
  let '(invoke, (ev, A)) :=
    match clientData A !! this with
    | Some _ =>
        let A := if cb && needToWait then set_destroyData (insert this (MkDestroyData (wait_mask A) cb)) A else A in
        (negb needToWait, ((fun i => e_removeClient i this) <$> filter (fun i => interface A i = true) interfaces, set_clientData (delete this) A))
    | None => (false, ([], A))
    end in
  let ev := if 1 =? gOSFrameworkRefCount A then ev ++ [e_destroyOSFramework] else ev in
  let A := set_refcount (u32 (gOSFrameworkRefCount A - 1)) A in
  if invoke then ev' ← completed cb; Some (ev ++ ev' ++ [e_delete this], deleteThis this A)
  else Some (ev, A).
Definition onRemoveClientCompleteCb (this adapterType : Z) (A : Api) : option (list ApiEvent * Api) :=
  if decide (this ∈ objects A) then
    match destroyClientData A !! this with
    | Some data =>
        let mask := Z.ldiff (waitAdapterMask data) adapterType in
        if mask =? 0 then
          let A := set_destroyData (delete this) A in
          ev ← completed (destroyCompleteCb data); Some (ev ++ [e_delete this], deleteThis this A)
        else Some ([], set_destroyData (insert this (MkDestroyData mask (destroyCompleteCb data))) A)
    | None => Some ([], A)
    end
  else None.

(** ** Calls that are passed on *)
Definition with_interface {X} (i : Interface) (A : Api) (yes no : X) : X := if interface A i then yes else no.
(** Calls of tracking are for registered clients only. *)
Definition with_client {X} (this : Z) (A : Api) (yes no : X) : X := match clientData A !! this with Some _ => yes | None => no end.
Definition startTracking (this : Z) (options : TrackingOptions) (id : Z) (A : Api) : Z * list ApiEvent :=
  with_client this A (with_interface GnssInterface A (id, [e_call GnssInterface this (api_startTracking id options)]) (0, [])) (0, []).
Definition stopTracking (this id : Z) (A : Api) : list ApiEvent :=
  with_client this A (with_interface GnssInterface A [e_call GnssInterface this (api_stopTracking id)] []) [].
Definition updateTrackingOptions (this id : Z) (options : TrackingOptions) (A : Api) : list ApiEvent :=
  with_client this A (with_interface GnssInterface A [e_call GnssInterface this (api_updateTrackingOptions id options)] []) [].
Definition startBatching (this : Z) (options : BatchingOptions) (id : Z) (A : Api) : Z * list ApiEvent :=
  with_interface BatchingInterface A (id, [e_call BatchingInterface this (api_startBatching id options)]) (0, []).
Definition stopBatching (this id : Z) (A : Api) : list ApiEvent :=
  with_interface BatchingInterface A [e_call BatchingInterface this (api_stopBatching id)] [].
Definition updateBatchingOptions (this id : Z) (options : BatchingOptions) (A : Api) : list ApiEvent :=
  with_interface BatchingInterface A [e_call BatchingInterface this (api_updateBatchingOptions id options)] [].
Definition getBatchedLocations (this id count : Z) (A : Api) : list ApiEvent :=
  with_interface BatchingInterface A [e_call BatchingInterface this (api_getBatchedLocations id count)] [].
Definition addGeofences (this : Z) (options : list GeofenceOption) (info : list GeofenceInfo) (ids : option (list Z)) (A : Api) : option (list Z) * list ApiEvent :=
  with_interface GeofenceInterface A (ids, [e_call GeofenceInterface this (api_addGeofences options info)]) (None, []).
Definition removeGeofences (this : Z) (ids : list Z) (A : Api) : list ApiEvent :=
  with_interface GeofenceInterface A [e_call GeofenceInterface this (api_removeGeofences ids)] [].
Definition modifyGeofences (this : Z) (ids : list Z) (options : list GeofenceOption) (A : Api) : list ApiEvent :=
  with_interface GeofenceInterface A [e_call GeofenceInterface this (api_modifyGeofences ids options)] [].
Definition pauseGeofences (this : Z) (ids : list Z) (A : Api) : list ApiEvent :=
  with_interface GeofenceInterface A [e_call GeofenceInterface this (api_pauseGeofences ids)] [].
Definition resumeGeofences (this : Z) (ids : list Z) (A : Api) : list ApiEvent :=
  with_interface GeofenceInterface A [e_call GeofenceInterface this (api_resumeGeofences ids)] [].
Definition gnssNiResponse (this id response : Z) (A : Api) : list ApiEvent :=
  with_interface GnssInterface A [e_call GnssInterface this (api_gnssNiResponse id response)] [].

(** ** The control API *)
(** [callback] tells whether the callback of responses is there, [new] is the address of the object. *)
Definition createControl (lib : Interface -> bool) (callback : bool) (new : Z) (A : Api) : option Z * (list ApiEvent * Api) :=
  if callback && bool_decide (controlAPI A = None) then
    let '(ev, A) := load lib GnssInterface A in
    if interface A GnssInterface then (Some new, (ev ++ [e_control ctrl_setControlCallbacks], set_control (Some new) A))
    else (None, (ev, A))
  else (None, ([], A)).
Definition destroyControl (A : Api) : Api := set_control None A.
(** [enable], [disable], [configLeverArm] and so on; [id] is what the adapter returns. *)
Definition control (call : ControlCall) (id : Z) (A : Api) : Z * list ApiEvent :=
  with_interface GnssInterface A (id, [e_control call]) (0, []).
