(* ===== verification/LocAdapterBase.v ===== *)
(** * Adapters and their clients ([src/gps/core/LocAdapterBase.h], [src/gps/core/LocAdapterBase.cpp])

    What the location API relies on, as a class: an adapter has a queue of the clients to add
    and to remove, which it takes in order, and says when it has removed one.  The adapter
    base is an instance, and so are the geofence adapter and the batching adapter, which have more
    messages and threads. *)
From S2P Require Import Prelude LocationAPI.
From S2P Require LocApiBatching GeofenceAdapter BatchingAdapter BatchingWorld.
#[local] Open Scope Z_scope.

Inductive ClientMsg := add_client (client : Z) | remove_client (client : Z).
Definition about (m : ClientMsg) : Z := match m with add_client c => c | remove_client c => c end.

(** [adp_step A r A']: the adapter goes on by itself, or is given other commands; [r] is the
    client whose removal it completes. *)
Class AdapterModel (Adp : Type) := {
  adp_clients : Adp -> gset Z;
  adp_queue : Adp -> list ClientMsg;
  addClient : Z -> LocationCallbacks -> Adp -> Adp;
  removeClient : Z -> Adp -> Adp;
  adp_step : Adp -> option Z -> Adp -> Prop;
  law_add c cb A : adp_queue (addClient c cb A) = adp_queue A ++ [add_client c] /\ adp_clients (addClient c cb A) = adp_clients A;
  law_remove c A : adp_queue (removeClient c A) = adp_queue A ++ [remove_client c] /\ adp_clients (removeClient c A) = adp_clients A;
  law_step A r A' : adp_step A r A' ->
    (r = None /\ adp_queue A' = adp_queue A /\ adp_clients A' = adp_clients A) \/
    (exists c, r = None /\ adp_queue A = add_client c :: adp_queue A' /\ adp_clients A' = {[c]} ∪ adp_clients A) \/
    (exists c, r = Some c /\ adp_queue A = remove_client c :: adp_queue A' /\ adp_clients A' = adp_clients A ∖ {[c]});
}.
(** An adapter, whichever it is. *)
Record AnyAdapter := MkAdapter { any_type : Type; any_model : AdapterModel any_type; any_state : any_type }.
Definition clients_of (a : AnyAdapter) : gset Z := @adp_clients _ (any_model a) (any_state a).
Definition queue_of (a : AnyAdapter) : list ClientMsg := @adp_queue _ (any_model a) (any_state a).
Definition any_add (c : Z) (cb : LocationCallbacks) (a : AnyAdapter) : AnyAdapter := MkAdapter _ (any_model a) (@addClient _ (any_model a) c cb (any_state a)).
Definition any_remove (c : Z) (a : AnyAdapter) : AnyAdapter := MkAdapter _ (any_model a) (@removeClient _ (any_model a) c (any_state a)).
Inductive any_step : AnyAdapter -> option Z -> AnyAdapter -> Prop :=
  | any_step_intro T (M : AdapterModel T) (A A' : T) r : adp_step A r A' -> any_step (MkAdapter T M A) r (MkAdapter T M A').

(** ** The adapter base *)
Inductive BaseMsg := MsgAddClient (client : Z) (callbacks : LocationCallbacks) | MsgRemoveClient (client : Z) | MsgRequestCapabilities (client : Z).
Record Base := MkBase {
  mClientData : gmap Z LocationCallbacks;
  msgs : list BaseMsg;                     (* sent to the context's thread *)
  mPendingMsgs : list Z;                   (* the clients of [MsgRequestCapabilities] that wait for the capabilities *)
  mIsEngineCapabilitiesKnown : bool;
  capabilities_told : list Z;              (* the clients whose [capabilitiesCb] was called *)
}.
Definition new_base : Base := MkBase ∅ [] [] false [].
Definition set_data (f : gmap Z LocationCallbacks -> gmap Z LocationCallbacks) (A : Base) : Base :=
  MkBase (f (mClientData A)) (msgs A) (mPendingMsgs A) (mIsEngineCapabilitiesKnown A) (capabilities_told A).
Definition sendMsgs (l : list BaseMsg) (A : Base) : Base :=
  MkBase (mClientData A) (msgs A ++ l) (mPendingMsgs A) (mIsEngineCapabilitiesKnown A) (capabilities_told A).
Definition addClientCommand (client : Z) (callbacks : LocationCallbacks) : Base -> Base := sendMsgs [MsgAddClient client callbacks].
Definition removeClientCommand (client : Z) : Base -> Base := sendMsgs [MsgRemoveClient client].
Definition requestCapabilitiesCommand (client : Z) : Base -> Base := sendMsgs [MsgRequestCapabilities client].
Definition saveClient (client : Z) (callbacks : LocationCallbacks) : Base -> Base := set_data (insert client callbacks).
Definition eraseClient (client : Z) : Base -> Base := set_data (delete client).
(** [proc] of a message, and the client whose removal is completed; [stopClientSessions] of
    the base does nothing. *)
Definition base_proc (m : BaseMsg) (A : Base) : option Z * Base :=
  match m with
  | MsgAddClient c cb => (None, saveClient c cb A)
  | MsgRemoveClient c => (Some c, eraseClient c A)
  | MsgRequestCapabilities c =>
      (None, if negb (mIsEngineCapabilitiesKnown A)
             then MkBase (mClientData A) (msgs A) (mPendingMsgs A ++ [c]) (mIsEngineCapabilitiesKnown A) (capabilities_told A)
             else match mClientData A !! c with
                  | Some cb => if capabilitiesCb cb
                               then MkBase (mClientData A) (msgs A) (mPendingMsgs A) (mIsEngineCapabilitiesKnown A) (capabilities_told A ++ [c])
                               else A
                  | None => A
                  end)
  end.
Definition take (ms : list BaseMsg) (A : Base) : Base := MkBase (mClientData A) ms (mPendingMsgs A) (mIsEngineCapabilitiesKnown A) (capabilities_told A).
(** What an adapter does when the engine is up: the capabilities are known, and the messages
    that waited for them are sent. *)
Definition engine_up (A : Base) : Base := MkBase (mClientData A) (msgs A ++ (MsgRequestCapabilities <$> mPendingMsgs A)) [] true (capabilities_told A).
Inductive base_step : Base -> option Z -> Base -> Prop :=
  | base_takes A m ms : msgs A = m :: ms -> base_step A (base_proc m (take ms A)).1 (base_proc m (take ms A)).2
  | base_asked A c : base_step A None (requestCapabilitiesCommand c A)
  | base_engine_up A : base_step A None (engine_up A).
Definition base_msg (m : BaseMsg) : option ClientMsg :=
  match m with MsgAddClient c _ => Some (add_client c) | MsgRemoveClient c => Some (remove_client c) | MsgRequestCapabilities _ => None end.
#[export] Program Instance base_model : AdapterModel Base := {
  adp_clients A := dom (mClientData A);
  adp_queue A := omap base_msg (msgs A);
  addClient := addClientCommand;
  removeClient := removeClientCommand;
  adp_step := base_step;
}.
Next Obligation. intros c cb A. cbn. by rewrite omap_app. Qed.
Next Obligation. intros c A. cbn. by rewrite omap_app. Qed.
Next Obligation.
  intros A r A' Hs. destruct Hs as [A m ms Hm|A c|A].
  - destruct m as [c cb|c|c]; cbn; rewrite Hm; cbn.
    + right. left. exists c. by rewrite dom_insert_L.
    + right. right. exists c. by rewrite dom_delete_L.
    + left. destruct (mIsEngineCapabilitiesKnown A); cbn; [|done]. by destruct (mClientData A !! c) as [cb|]; [destruct (capabilitiesCb cb)|].
  - left. cbn. by rewrite omap_app, app_nil_r.
  - left. cbn. rewrite omap_app. assert (omap base_msg (MsgRequestCapabilities <$> mPendingMsgs A) = []) as ->; [|by rewrite app_nil_r].
    induction (mPendingMsgs A) as [|c l IH]; [done|exact IH].
Qed.

(** ** The geofence adapter *)
Definition geofence_msg (m : GeofenceAdapter.CtxMsg) : option ClientMsg :=
  match m with GeofenceAdapter.m_addClient c _ => Some (add_client c) | GeofenceAdapter.m_removeClient c => Some (remove_client c) | _ => None end.
Definition geofence_callbacks (cb : LocationCallbacks) : GeofenceAdapter.Callbacks :=
  GeofenceAdapter.MkCallbacks (collectiveResponseCb cb) (geofenceBreachCb cb) (geofenceStatusCb cb).
(** It takes a message of one of its threads, is given another command, or the modem reports
    something. *)
Inductive geofence_step : GeofenceAdapter.Adapter -> option Z -> GeofenceAdapter.Adapter -> Prop :=
  | geofence_ctx A A' : GeofenceAdapter.ctx_step A = Some A' ->
      geofence_step A (match GeofenceAdapter.ctx A with GeofenceAdapter.m_removeClient c :: _ => Some c | _ => None end) A'
  | geofence_api A hwId err : geofence_step A None (GeofenceAdapter.api_step hwId err A)
  | geofence_command A client ids job : geofence_step A None (GeofenceAdapter.command client ids job A)
  | geofence_counter A n : geofence_step A None (GeofenceAdapter.set_counter n A)
  | geofence_breach A hwIds type : geofence_step A None (GeofenceAdapter.geofenceBreachEvent hwIds type A)
  | geofence_status A available : geofence_step A None (GeofenceAdapter.geofenceStatusEvent available A)
  | geofence_restart A : geofence_step A None (GeofenceAdapter.handleEngineUpEvent A).
(** A message of the geofence adapter sends no message to its own thread, and only two change
    its clients. *)
Definition same_clients (A A' : GeofenceAdapter.Adapter) : Prop :=
  GeofenceAdapter.ctx A' = GeofenceAdapter.ctx A /\ GeofenceAdapter.mClientData A' = GeofenceAdapter.mClientData A.
Lemma finish_same B i errs A : same_clients A (GeofenceAdapter.finish B i errs A).
Proof. unfold GeofenceAdapter.finish, GeofenceAdapter.reportResponse. repeat case_match; done. Qed.
Ltac finished H :=
  repeat (case_match || (apply bind_Some in H as (? & ? & H))); try injection H as <-; try done;
  match goal with |- context [GeofenceAdapter.finish ?B ?i ?errs ?A] => destruct (finish_same B i errs A) as [-> ->] end; try done.
Lemma proc_same m A A' : GeofenceAdapter.proc m A = Some A' ->
  GeofenceAdapter.ctx A' = GeofenceAdapter.ctx A /\
  GeofenceAdapter.mClientData A' = match m with
    | GeofenceAdapter.m_addClient c cb => <[c := cb]> (GeofenceAdapter.mClientData A)
    | GeofenceAdapter.m_removeClient c => delete c (GeofenceAdapter.mClientData A)
    | _ => GeofenceAdapter.mClientData A
    end.
Proof.
  destruct m as [c cb|c|B|B i|B i hw err|hw err| |o hw err| |hws ty|av]; cbn [GeofenceAdapter.proc]; [by intros [= <-]|by intros [= <-]| | | | | | |by intros [= <-]|by intros [= <-]|by intros [= <-]].
  - intros [= <-]. unfold GeofenceAdapter.proc_command. by case_match.
  - unfold GeofenceAdapter.proc_call. intros H. finished H.
  - unfold GeofenceAdapter.proc_done. intros H. finished H; unfold GeofenceAdapter.removeGeofenceItem; repeat case_match; done.
  - intros [= <-]. by case_match.
  - intros [= <-]. unfold GeofenceAdapter.restartGeofences. by case_decide.
  - intros [= <-]. case_match; [|done]. by destruct (GeofenceAdapter.o_paused o).
Qed.
#[export] Program Instance geofence_model : AdapterModel GeofenceAdapter.Adapter := {
  adp_clients A := dom (GeofenceAdapter.mClientData A);
  adp_queue A := omap geofence_msg (GeofenceAdapter.ctx A);
  addClient c cb := GeofenceAdapter.addClientCommand c (geofence_callbacks cb);
  removeClient := GeofenceAdapter.removeClientCommand;
  adp_step := geofence_step;
}.
Next Obligation. intros c cb A. cbn. by rewrite omap_app. Qed.
Next Obligation. intros c A. cbn. by rewrite omap_app. Qed.
Next Obligation.
  intros A r A' Hs. destruct Hs as [A A' Hctx|A hw err|A c ids job|A n|A hws ty|A av|A].
  - unfold GeofenceAdapter.ctx_step in Hctx. destruct (GeofenceAdapter.ctx A) as [|m ms] eqn:Hm; [injection Hctx as <-; left; by rewrite Hm|].
    apply proc_same in Hctx as [Hc Hd]. cbn [GeofenceAdapter.ctx GeofenceAdapter.mClientData GeofenceAdapter.set_queues] in Hc, Hd. rewrite Hc, Hd.
    destruct m; cbn; try (left; done).
    + right. left. eexists. split; [done|]. split; [done|]. by rewrite dom_insert_L.
    + right. right. eexists. split; [done|]. split; [done|]. by rewrite dom_delete_L.
  - left. unfold GeofenceAdapter.api_step. destruct (GeofenceAdapter.api A) as [|m ms]; [done|]. cbn. rewrite omap_app. split; [done|]. split; [|done].
    by destruct m; cbn; rewrite app_nil_r.
  - left. cbn. by rewrite omap_app, app_nil_r.
  - by left.
  - left. unfold GeofenceAdapter.geofenceBreachEvent. destruct hws; [done|]. cbn. by rewrite omap_app, app_nil_r.
  - left. cbn. by rewrite omap_app, app_nil_r.
  - left. cbn. by rewrite omap_app, app_nil_r.
Qed.

(** ** The batching adapter *)
Module Batching.
Import BatchingAdapter.
Definition batching_msg (m : CtxMsg) : option ClientMsg :=
  match m with m_addClient c _ => Some (add_client c) | m_removeClient c => Some (remove_client c) | _ => None end.
Definition batching_callbacks (cb : LocationCallbacks) : Callbacks :=
  MkCallbacks (LocationAPI.capabilitiesCb cb) (LocationAPI.responseCb cb) (LocationAPI.batchingCb cb) (LocationAPI.batchingStatusCb cb).
(** The addition and the removal of a client do not wait for the capabilities. *)
Definition waiting (l : list CtxMsg) : Prop := Forall (fun m => batching_msg m = None) l.
Record Batching := MkBatching { adapter : Adapter; waits : waiting (mPendingMsgs adapter) }.

(** Computations that send nothing to their own thread and leave the clients alone. *)
Definition calm {X} (m : CM Adapter X) : Prop := forall A x A', m A = Some (x, A') ->
  ctx A' = ctx A /\ mClientData A' = mClientData A /\ mPendingMsgs A' = mPendingMsgs A.
Lemma calm_ret {X} (x : X) : calm (mret x).
Proof. by intros A x' A' [= _ <-]. Qed.
Lemma calm_get : calm get.
Proof. by intros A x' A' [= _ <-]. Qed.
Lemma calm_deref {X} (o : option X) : calm (deref o).
Proof. intros A x A'. destruct o; [by intros [= _ <-]|done]. Qed.
Lemma calm_modify f : (forall A, ctx (f A) = ctx A /\ mClientData (f A) = mClientData A /\ mPendingMsgs (f A) = mPendingMsgs A) -> calm (modify f).
Proof. intros Hf A x A' [= _ <-]. apply Hf. Qed.
Lemma calm_bind {X Y} (m : CM Adapter X) (f : X -> CM Adapter Y) : calm m -> (forall x, calm (f x)) -> calm (m ≫= f).
Proof. intros Hm Hf A y A' (x & B & H1 & H2)%bind_run. apply Hm in H1. apply Hf in H2 as (-> & -> & ->). exact H1. Qed.
Ltac calm := repeat first [done | apply calm_ret | apply calm_deref | match goal with
  | |- calm (get ≫= _) => apply calm_bind; [apply calm_get|intros ?]
  | |- calm (_ ≫= _) => apply calm_bind; [|intros ?]
  | |- calm (modify _) => apply calm_modify; done
  | |- calm (if ?b then _ else _) => destruct b
  | |- calm (match ?x with _ => _ end) => destruct x
  | |- calm (mbind _ _) => apply calm_bind; [|intros ?]
  end].
Lemma startBatching_calm client id o : calm (startBatching client id o).
Proof. unfold startBatching, enable_if_unused, enable_mask, saveBatchingSession, ask. calm. Qed.
Lemma stopBatching_calm client id r o : calm (stopBatching client id r o).
Proof. unfold stopBatching, eraseBatchingSession, ask. calm. Qed.
Lemma restartTrip_calm query acc : calm (restartTripBatching query acc).
Proof. unfold restartTripBatching, disable_if_unused, disable_mask, set_ongoing, ask. calm. Qed.
Lemma startTrip_calm client id o : calm (startTripBatchingMultiplex client id o).
Proof. unfold startTripBatchingMultiplex, enable_if_unused, enable_mask, saveBatchingSession, ask. calm. Qed.
Lemma response_calm client err id : calm (reportResponse client err id).
Proof. unfold reportResponse, tell. calm. Qed.
Create HintDb calm.
#[local] Hint Resolve startBatching_calm stopBatching_calm restartTrip_calm startTrip_calm response_calm : calm.
Lemma stopCommon_calm err client id r o : calm (stopTripBatchingMultiplexCommon err client id r o).
Proof. unfold stopTripBatchingMultiplexCommon, eraseBatchingSession. calm; auto with calm. Qed.
#[local] Hint Resolve stopCommon_calm : calm.
Lemma stopTrip_calm client id r o : calm (stopTripBatchingMultiplex client id r o).
Proof. unfold stopTripBatchingMultiplex, ask. calm; auto with calm. Qed.
#[local] Hint Resolve stopTrip_calm : calm.
Lemma closure_calm c err acc : calm (proc_closure c err acc).
Proof.
  destruct c; cbn [proc_closure]; unfold proc_queryStart, proc_queryRestart, disable_if_unused, disable_mask, eraseBatchingSession, saveBatchingSession, ask; calm; auto with calm.
Qed.
Lemma for_each_calm {X} (f : X -> CM Adapter unit) l : (forall x, calm (f x)) -> calm (for_each f l).
Proof. intros Hf. induction l as [|x l IH]; [apply calm_ret|]. apply calm_bind; [apply Hf|]. by intros _. Qed.
Lemma complete_calm freed acc l fin : calm (complete_trips freed acc l fin).
Proof. revert fin. induction l as [|e l IH]; intros fin; [apply calm_ret|]. cbn. apply calm_bind; [|intros ?; apply IH]. unfold complete_trip. calm. Qed.
Lemma completed_calm freed acc : calm (proc_completed freed acc).
Proof.
  unfold proc_completed, reportBatchStatusChange, tell. apply calm_bind; [apply calm_get|]. intros A. apply calm_bind; [apply complete_calm|]. intros fin. calm; auto with calm.
Qed.
Lemma restartSessions_calm : calm restartSessions.
Proof.
  unfold restartSessions, enable_mask, ask. apply calm_bind; [apply calm_get|]. intros A. apply calm_bind; [calm|]. intros _. apply calm_bind; [apply for_each_calm; intros e; calm|]. intros _. calm.
Qed.
Lemma stopClient_calm client : calm (stopClientSessions client).
Proof. unfold stopClientSessions. apply calm_bind; [apply calm_get|]. intros A. apply for_each_calm. intros e. calm; auto with calm. Qed.
(** Only four messages do more. *)
Definition clients_after (m : CtxMsg) (clients : gmap Z Callbacks) : gmap Z Callbacks :=
  match m with m_addClient c callbacks => <[c := callbacks]> clients | m_removeClient c => delete c clients | _ => clients end.
Definition clients_kept (m : CtxMsg) (A A' : Adapter) : Prop :=
  waiting (mPendingMsgs A') /\ omap batching_msg (ctx A') = omap batching_msg (ctx A) /\ mClientData A' = clients_after m (mClientData A).
Lemma calm_kept {X} (m : CM Adapter X) msg A x A' : calm m -> (forall c, clients_after msg c = c) -> waiting (mPendingMsgs A) -> m A = Some (x, A') -> clients_kept msg A A'.
Proof. intros Hm Hc Hw H. apply Hm in H as (H1 & H2 & H3). unfold clients_kept. by rewrite H1, H2, H3, Hc. Qed.
Lemma when_known_kept m run A x A' : calm run -> batching_msg m = None -> (forall c, clients_after m c = c) -> waiting (mPendingMsgs A) -> when_known m run A = Some (x, A') -> clients_kept m A A'.
Proof.
  intros Hr Hm Hc Hw (B & C & [= <- <-] & H)%bind_run. destruct (mIsEngineCapabilitiesKnown A); [by eapply calm_kept|]. injection H as _ <-.
  split; [|by rewrite Hc]. by apply Forall_app; split; [|apply Forall_singleton].
Qed.
Lemma waiting_msgs l : waiting l -> omap batching_msg l = [].
Proof. induction 1 as [|m l Hm _ IH]; [done|]. cbn. by rewrite Hm. Qed.
Lemma mask_kept f A x A' : (_ ← modify (set_clients f); updateClientsEventMask) A = Some (x, A') ->
  ctx A' = ctx A /\ mClientData A' = f (mClientData A) /\ mPendingMsgs A' = mPendingMsgs A.
Proof. intros ([] & B & [= <-] & H)%bind_run. apply bind_run in H as (C & D & [= <- <-] & H). by injection H as _ <-. Qed.
Lemma engineUp_kept A x A' : waiting (mPendingMsgs A) -> proc_engineUp A = Some (x, A') -> clients_kept m_engineUp A A'.
Proof.
  intros Hw. unfold proc_engineUp. intros ([] & B & [= <-] & H)%bind_run. apply bind_run in H as ([] & B & H1 & H). assert (calm broadcastCapabilities) as Hb by (unfold broadcastCapabilities, tell; calm).
  apply Hb in H1 as (Hc & Hd & Hp). apply bind_run in H as (C & D & [= <- <-] & H). apply bind_run in H as ([] & E & [= <-] & H). apply bind_run in H as ([] & F & H1 & H).
  apply restartSessions_calm in H1 as (Hc' & Hd' & Hp'). apply bind_run in H as ([] & G & [= <-] & H). injection H as _ <-. split; [constructor|]. cbn in *. split; [|congruence].
  rewrite omap_app, Hc', Hp', Hc, Hp. cbn. by rewrite (waiting_msgs _ Hw), app_nil_r.
Qed.
Lemma proc_kept supported freed m A x A' : waiting (mPendingMsgs A) -> proc supported freed m A = Some (x, A') -> clients_kept m A A'.
Proof.
  intros Hw. destruct m; cbn [proc].
  - apply calm_kept; [calm|done..].
  - apply calm_kept; [unfold tell; calm|done..].
  - intros (H1 & H2 & H3)%mask_kept. unfold clients_kept. by rewrite H1, H2, H3.
  - intros ([] & B & H1 & H)%bind_run. apply stopClient_calm in H1 as (Hc & Hd & Hp). apply bind_run in H as ([] & C & H1 & [= _ <-]). apply mask_kept in H1 as (H1 & H2 & H3).
    unfold clients_kept. cbn. by rewrite H1, H2, H3, Hc, Hd, Hp.
  - apply when_known_kept; [unfold tell; calm|done..].
  - by apply engineUp_kept.
  - apply when_known_kept; [unfold proc_start; calm; auto with calm|done..].
  - apply when_known_kept; [unfold proc_update; calm; auto with calm|done..].
  - apply when_known_kept; [unfold proc_stop; calm; auto with calm|done..].
  - apply when_known_kept; [unfold proc_get, ask; calm; auto with calm|done..].
  - apply calm_kept; [unfold reportLocations, tell; calm|done..].
  - apply calm_kept; [apply completed_calm|done..].
  - apply calm_kept; [unfold reportBatchStatusChange, tell; calm|done..].
  - apply calm_kept; [apply closure_calm|done..].
Qed.

(** It takes a message of one of its threads, is given another command, or the modem reports
    something. *)
Definition of_session (c : BatchingWorld.Command) : bool := match c with BatchingWorld.c_add _ _ | BatchingWorld.c_remove _ => false | _ => true end.
Inductive moved : Adapter -> option Z -> Adapter -> Prop :=
  | moved_ctx supported freed A A' : ctx A <> [] -> ctx_step supported freed A = Some (tt, A') ->
      moved A (match ctx A with m_removeClient c :: _ => Some c | _ => None end) A'
  | moved_api Modem (Q : LocApiBatching.Qmi Modem) supported fuel uninit A (L : LocApiBatching.LocApiV02) A' L' : api_step supported fuel uninit (A, L) = Some (A', L') -> moved A None A'
  | moved_command A c : of_session c = true -> moved A None (BatchingWorld.issue c A)
  | moved_full A count distance type : moved A None (set_api (fun q => q ++ [a_full count distance type]) A)
  | moved_status A status : moved A None (reportBatchStatusChangeEvent status A)
  | moved_up A : moved A None (handleEngineUpEvent A).
Lemma delivered rs A : let A' := foldl (fun A r => deliver r A) A rs in
  omap batching_msg (ctx A') = omap batching_msg (ctx A) /\ mClientData A' = mClientData A /\ mPendingMsgs A' = mPendingMsgs A.
Proof.
  revert A. induction rs as [|r rs IH]; intros A; [done|]. cbn zeta in *. cbn [foldl]. destruct (IH (deliver r A)) as (-> & -> & ->). destruct r; cbn; by rewrite omap_app, app_nil_r.
Qed.
Lemma moved_kept A r A' : waiting (mPendingMsgs A) -> moved A r A' -> waiting (mPendingMsgs A') /\
  ((r = None /\ omap batching_msg (ctx A') = omap batching_msg (ctx A) /\ dom (mClientData A') = dom (mClientData A)) \/
   (exists c, r = None /\ omap batching_msg (ctx A) = add_client c :: omap batching_msg (ctx A') /\ dom (mClientData A') = {[c]} ∪ dom (mClientData A)) \/
   (exists c, r = Some c /\ omap batching_msg (ctx A) = remove_client c :: omap batching_msg (ctx A') /\ dom (mClientData A') = dom (mClientData A) ∖ {[c]})).
Proof.
  intros Hw Hm. destruct Hm as [supported freed A A' Hne H|Modem Q supported fuel uninit A L A' L' H|A c Hc|A count d ty|A st|A].
  - unfold ctx_step in H. apply bind_run in H as (B & C & [= <- <-] & H). destruct (ctx A) as [|m ms] eqn:E; [done|]. apply bind_run in H as ([] & B & [= <-] & H).
    apply proc_kept in H as (H1 & H2 & H3); [|done]. cbn in H2, H3. split; [done|]. rewrite H2, H3. destruct m; cbn; try (by left).
    + right. left. eexists. split; [done|]. split; [done|]. by rewrite dom_insert_L.
    + right. right. eexists. split; [done|]. split; [done|]. by rewrite dom_delete_L.
  - unfold api_step in H. cbn [fst snd] in H. destruct (api A) as [|m ms] eqn:E; [injection H as <- _; split; [done|by left]|]. destruct (api_proc _ _ _ _ _) as [[ans L0]|] eqn:Hp; [|done].
    injection H as <- _. destruct (delivered (LocApiBatching.reports L0) (set_api (fun _ => ms) A)) as (H1 & H2 & H3). cbn in H1, H2, H3.
    assert (match ans with Some x => batching_msg x = None | None => True end) as Ha.
    { destruct m; cbn [api_proc] in Hp; apply bind_run in Hp as (y & ? & _ & Hp); try destruct y; by injection Hp as <- _. }
    destruct ans as [x|]; cbn; rewrite ?H2, ?H3; (split; [done|]); left; (split; [done|]); (split; [|done]); [|done]. rewrite omap_app. cbn. by rewrite Ha, app_nil_r.
  - destruct c; try done; cbn; (split; [done|]); left; by rewrite omap_app, app_nil_r.
  - cbn. split; [done|]. by left.
  - cbn. split; [done|]. left. by rewrite omap_app, app_nil_r.
  - cbn. split; [done|]. left. by rewrite omap_app, app_nil_r.
Qed.
#[export] Program Instance batching_model : AdapterModel Batching := {
  adp_clients B := dom (mClientData (adapter B));
  adp_queue B := omap batching_msg (ctx (adapter B));
  addClient c cb B := MkBatching (addClientCommand c (batching_callbacks cb) (adapter B)) (waits B);
  removeClient c B := MkBatching (removeClientCommand c (adapter B)) (waits B);
  adp_step B r B' := moved (adapter B) r (adapter B');
}.
Next Obligation. intros c cb A. cbn. by rewrite omap_app. Qed.
Next Obligation. intros c A. cbn. by rewrite omap_app. Qed.
Next Obligation. intros A r A' Hs. by apply moved_kept in Hs as [_ Hs]; [|apply waits]. Qed.
End Batching.
