(* ===== verification/LocationAPISpec.v ===== *)
(** * The location API with its adapters

    Applications create, update and destroy objects, in any threads; the adapters go on by
    themselves and say which clients they have removed.  An application does not use an
    object after it has destroyed it. *)
From S2P Require Import Prelude GnssTracking LocationApiClient LocationAPI LocAdapterBase.
#[local] Open Scope Z_scope.

Definition on_adapter (i : Interface) (f : AnyAdapter -> AnyAdapter) (ad : Interface -> AnyAdapter) : Interface -> AnyAdapter :=
  fun j => if decide (j = i) then f (ad j) else ad j.
(** What the calls of an operation do to the adapters, and to the framework. *)
Definition deliver (ad : Interface -> AnyAdapter) (e : ApiEvent) : Interface -> AnyAdapter :=
  match e with
  | e_addClient i c cb => on_adapter i (any_add c cb) ad
  | e_removeClient i c => on_adapter i (any_remove c) ad
  | _ => ad
  end.
Definition framework_after (b : bool) (e : ApiEvent) : bool :=
  match e with e_createOSFramework => true | e_destroyOSFramework => false | _ => b end.
Record World := MkWorld {
  w_api : Api;
  w_adapter : Interface -> AnyAdapter;
  w_held : gset Z;         (* objects that applications have, and have not destroyed *)
  w_leaked : gset Z;       (* destroyed without a callback, while adapters had to be waited for *)
  w_framework : bool;      (* the framework is there *)
  w_deleted : list Z;      (* the objects deleted so far *)
}.
Definition deleted (ev : list ApiEvent) : list Z := omap (fun e => match e with e_delete c => Some c | _ => None end) ev.
Definition after (w : World) (ev : list ApiEvent) (A : Api) (held leaked : gset Z) : World :=
  MkWorld A (foldl deliver (w_adapter w) ev) held leaked (foldl framework_after (w_framework w) ev) (w_deleted w ++ deleted ev).
Definition complete (i : Interface) (r : option Z) (A : Api) : option (list ApiEvent * Api) :=
  match r with None => Some ([], A) | Some c => onRemoveClientCompleteCb c (type_bit i) A end.
Definition set_adapter (i : Interface) (a : AnyAdapter) (w : World) : World :=
  MkWorld (w_api w) (on_adapter i (fun _ => a) (w_adapter w)) (w_held w) (w_leaked w) (w_framework w) (w_deleted w).

(** A new object has an address that no object has, and there are fewer than 2^32 clients. *)
Inductive step : World -> World -> Prop :=
  | step_create w lib addr callbacks o ev A : addr ∉ objects (w_api w) -> Z.of_nat (base.size (clientData (w_api w))) < 2 ^ 32 - 1 ->
      createInstance lib addr callbacks (w_api w) = (o, (ev, A)) ->
      step w (after w ev A (match o with Some c => {[c]} ∪ w_held w | None => w_held w end) (w_leaked w))
  | step_update w lib this callbacks ev A : this ∈ w_held w -> updateCallbacks lib this callbacks (w_api w) = (ev, A) ->
      step w (after w ev A (w_held w) (w_leaked w))
  | step_destroy w this cb ev A : this ∈ w_held w -> destroy this cb (w_api w) = Some (ev, A) ->
      step w (after w ev A (w_held w ∖ {[this]})
        (if negb cb && existsb (interface (w_api w)) interfaces then {[this]} ∪ w_leaked w else w_leaked w))
  | step_adapter w i r a ev A : any_step (w_adapter w i) r a -> complete i r (w_api w) = Some (ev, A) ->
      step w (after (set_adapter i a w) ev A (w_held w) (w_leaked w))
  | step_control w lib callback new o ev A : createControl lib callback new (w_api w) = (o, (ev, A)) ->
      step w (after w ev A (w_held w) (w_leaked w))
  | step_destroyControl w : step w (after w [] (destroyControl (w_api w)) (w_held w) (w_leaked w)).
(** Adapters that no client was added to. *)
Definition initial (w : World) : Prop :=
  w_api w = new_api /\ (forall i, clients_of (w_adapter w i) = ∅ /\ queue_of (w_adapter w i) = []) /\ w_held w = ∅ /\ w_leaked w = ∅ /\
  w_framework w = false /\ w_deleted w = [].
Definition reachable (w : World) : Prop := exists w0, initial w0 /\ rtc step w0 w.

(** ** What an adapter knows of a client *)
Definition absent (c : Z) (a : AnyAdapter) : Prop := c ∉ clients_of a /\ Forall (fun m => about m <> c) (queue_of a).
Definition joined (c : Z) (a : AnyAdapter) : Prop := remove_client c ∉ queue_of a.
Definition removing (c : Z) (a : AnyAdapter) : Prop :=
  exists q1 q2, queue_of a = q1 ++ remove_client c :: q2 /\ remove_client c ∉ q1 /\ Forall (fun m => about m <> c) q2.
Definition mask_of (f : Interface -> bool) : Z := foldl (fun mask i => Z.lor mask (if f i then type_bit i else 0)) 0 interfaces.

(** What holds of an object: it is an application's, or waits for the adapters of its mask,
    or has leaked, or is not there and unknown to all adapters. *)
Record place (w : World) (c : Z) : Prop := MkPlace {
  pl_object : c ∈ objects (w_api w) <-> c ∈ w_held w \/ is_Some (destroyClientData (w_api w) !! c) \/ c ∈ w_leaked w;
  pl_data : c ∈ w_held w <-> is_Some (clientData (w_api w) !! c);
  pl_held : c ∈ w_held w -> destroyClientData (w_api w) !! c = None /\ c ∉ w_leaked w /\ forall i, joined c (w_adapter w i);
  pl_waits : forall d, destroyClientData (w_api w) !! c = Some d -> c ∉ w_leaked w /\ destroyCompleteCb d = true /\
    exists f, waitAdapterMask d = mask_of f /\ (exists i, f i = true) /\
      forall i, if f i then removing c (w_adapter w i) else absent c (w_adapter w i);
  pl_leaked : c ∈ w_leaked w -> forall i, removing c (w_adapter w i) \/ absent c (w_adapter w i);
  pl_gone : c ∉ objects (w_api w) -> forall i, absent c (w_adapter w i);
}.
Record orderly (w : World) : Prop := MkOrderly {
  or_place : forall c, place w c;
  or_unloaded : forall i, interface (w_api w) i = false -> clients_of (w_adapter w i) = ∅ /\ queue_of (w_adapter w i) = [];
  or_count : gOSFrameworkRefCount (w_api w) = Z.of_nat (base.size (clientData (w_api w))) /\ Z.of_nat (base.size (clientData (w_api w))) < 2 ^ 32;
  or_framework : w_framework w = bool_decide (clientData (w_api w) <> ∅);
}.

(** ** Facts on adapters and masks *)
Lemma queue_add c cb a : queue_of (any_add c cb a) = queue_of a ++ [add_client c].
Proof. destruct a as [T M A]. exact (proj1 (@law_add T M c cb A)). Qed.
Lemma clients_add c cb a : clients_of (any_add c cb a) = clients_of a.
Proof. destruct a as [T M A]. exact (proj2 (@law_add T M c cb A)). Qed.
Lemma queue_remove c a : queue_of (any_remove c a) = queue_of a ++ [remove_client c].
Proof. destruct a as [T M A]. exact (proj1 (@law_remove T M c A)). Qed.
Lemma clients_remove c a : clients_of (any_remove c a) = clients_of a.
Proof. destruct a as [T M A]. exact (proj2 (@law_remove T M c A)). Qed.
Lemma any_step_law a r a' : any_step a r a' ->
  (r = None /\ queue_of a' = queue_of a /\ clients_of a' = clients_of a) \/
  (exists c, r = None /\ queue_of a = add_client c :: queue_of a' /\ clients_of a' = {[c]} ∪ clients_of a) \/
  (exists c, r = Some c /\ queue_of a = remove_client c :: queue_of a' /\ clients_of a' = clients_of a ∖ {[c]}).
Proof. intros [T M A A' r' Hs]. exact (@law_step T M A r' A' Hs). Qed.
Lemma mask_of_remove f i : Z.ldiff (mask_of f) (type_bit i) = mask_of (fun j => f j && negb (bool_decide (j = i))).
Proof. unfold mask_of. cbn. destruct i; cbn; destruct (f GnssInterface), (f BatchingInterface), (f GeofenceInterface); reflexivity. Qed.
Lemma mask_of_zero f : (mask_of f =? 0) = negb (existsb f interfaces).
Proof. unfold mask_of. cbn. destruct (f GnssInterface), (f BatchingInterface), (f GeofenceInterface); reflexivity. Qed.
Lemma exists_interface f : existsb f interfaces = true <-> exists i, f i = true.
Proof.
  rewrite existsb_exists. split; [intros (i & _ & H); eauto|]. intros [i H]. exists i. split; [|done]. destruct i; cbn; auto.
Qed.

(** Adding and removing at the end of a queue. *)
Lemma absent_ext c a a' : queue_of a' = queue_of a -> clients_of a' = clients_of a -> absent c a -> absent c a'.
Proof. unfold absent. by intros -> ->. Qed.
Lemma removing_ext c a a' : queue_of a' = queue_of a -> removing c a -> removing c a'.
Proof. unfold removing. by intros ->. Qed.
Lemma absent_add c d cb a : d <> c -> absent c a -> absent c (any_add d cb a).
Proof. unfold absent. rewrite queue_add, clients_add. intros Hne [H1 H2]. split; [done|]. apply Forall_app. split; [done|]. by constructor. Qed.
Lemma absent_remove c d a : d <> c -> absent c a -> absent c (any_remove d a).
Proof. unfold absent. rewrite queue_remove, clients_remove. intros Hne [H1 H2]. split; [done|]. apply Forall_app. split; [done|]. by constructor. Qed.
Lemma removing_app c a a' m : queue_of a' = queue_of a ++ [m] -> about m <> c -> removing c a -> removing c a'.
Proof.
  unfold removing. intros -> Hne (q1 & q2 & -> & H1 & H2). exists q1, (q2 ++ [m]). rewrite <- app_assoc. split; [done|]. split; [done|].
  apply Forall_app. split; [done|]. by constructor.
Qed.
Lemma joined_add c d cb a : joined c a -> joined c (any_add d cb a).
Proof. unfold joined. rewrite queue_add. rewrite elem_of_app, list_elem_of_singleton. by intros H [|]. Qed.
Lemma joined_remove c d a : d <> c -> joined c a -> joined c (any_remove d a).
Proof. unfold joined. rewrite queue_remove. rewrite elem_of_app, list_elem_of_singleton. intros Hne H [|[= ->]]; done. Qed.
Lemma removing_removed c a : joined c a -> removing c (any_remove c a).
Proof. unfold joined, removing. rewrite queue_remove. intros H. exists (queue_of a), []. done. Qed.
Lemma absent_joined c a : absent c a -> joined c a.
Proof. intros [_ H] Hin. rewrite Forall_forall in H. by apply (H _ Hin). Qed.

(** Taking a message. *)
Lemma taken_add c d a a' : queue_of a = add_client d :: queue_of a' -> clients_of a' = {[d]} ∪ clients_of a ->
  (joined c a -> joined c a') /\ (absent c a -> absent c a') /\ (removing c a -> removing c a').
Proof.
  unfold joined, absent, removing. intros -> ->. split; [by rewrite not_elem_of_cons; intros []|]. split.
  - rewrite Forall_cons, not_elem_of_union, not_elem_of_singleton. cbn. naive_solver.
  - intros ([|m q1] & q2 & Hq & H1 & H2); [done|]. injection Hq as <- ->. rewrite not_elem_of_cons in H1. exists q1, q2. naive_solver.
Qed.
Lemma taken_remove c d a a' : queue_of a = remove_client d :: queue_of a' -> clients_of a' = clients_of a ∖ {[d]} ->
  (joined c a -> joined c a') /\ (absent c a -> c <> d /\ absent c a') /\ (removing c a -> if decide (c = d) then absent c a' else removing c a').
Proof.
  unfold joined, absent, removing. intros -> ->. split; [by rewrite not_elem_of_cons; intros []|]. split.
  - rewrite Forall_cons, not_elem_of_difference. cbn. intuition.
  - intros ([|m q1] & q2 & Hq & H1 & H2).
    + injection Hq as -> ->. rewrite decide_True by done. rewrite not_elem_of_difference, elem_of_singleton. auto.
    + injection Hq as <- ->. rewrite not_elem_of_cons in H1. rewrite decide_False by (intros ->; tauto). exists q1, q2. tauto.
Qed.
