(* ===== verification/LocationAPITheorems.v ===== *)
(** * The location API: what is proved of it *)
From S2P Require GeofenceAdapter BatchingAdapter.
From S2P Require Import Prelude GnssTracking LocationApiClient LocationAPI LocAdapterBase LocationAPISpec.
#[local] Open Scope Z_scope.

(** ** The location API and its adapters stay orderly *)

(** ** Registering with the adapters *)
(** Events that add the client [c] to loaded adapters. *)
Definition adding (c : Z) (A : Api) (e : ApiEvent) : Prop :=
  match e with e_addClient i d _ => d = c /\ interface A i = true | e_initialize _ | e_requestCapabilities _ _ => True | _ => False end.
Lemma load_spec lib i A ev A' : load lib i A = (ev, A') ->
  A' = set_interfaces (interface A') (load_failed A') A /\ (forall j, interface A j = true -> interface A' j = true) /\ Forall (fun e => e = e_initialize i) ev.
Proof.
  unfold load. destruct A. cbn. repeat case_match; intros [= <- <-]; cbn; repeat split; try done; try by repeat constructor.
  intros j Hj. unfold set_flag. by case_decide.
Qed.
Lemma adding_mono c A A' e : (forall i, interface A i = true -> interface A' i = true) -> adding c A e -> adding c A' e.
Proof. intros H. destruct e; cbn; try done. intros []. auto. Qed.
Lemma join_spec lib c cb req ev A i req' ev' A' : join lib c cb (req, (ev, A)) i = (req', (ev', A')) ->
  exists new, ev' = ev ++ new /\ A' = set_interfaces (interface A') (load_failed A') A /\ (forall j, interface A j = true -> interface A' j = true) /\
    Forall (adding c A') new.
Proof.
  unfold join. destruct (is_client i cb); [|intros [= <- <- <-]; exists []; rewrite app_nil_r; by destruct A].
  destruct (load lib i A) as [ev1 A1] eqn:Hl. apply load_spec in Hl as (HA & Hm & Hev).
  assert (Forall (adding c A1) ev1) by (eapply Forall_impl; [exact Hev|]; by intros ? ->).
  destruct (interface A1 i) eqn:Hi; intros [= <- <- <-]; [|by exists ev1].
  eexists. split; [reflexivity|]. split; [done|]. split; [done|]. apply Forall_app. split; [done|]. constructor; [done|]. destruct req; by repeat constructor.
Qed.
Lemma joins_spec lib c cb l req ev A req' ev' A' : foldl (join lib c cb) (req, (ev, A)) l = (req', (ev', A')) ->
  exists new, ev' = ev ++ new /\ A' = set_interfaces (interface A') (load_failed A') A /\ (forall j, interface A j = true -> interface A' j = true) /\
    Forall (adding c A') new.
Proof.
  revert req ev A. induction l as [|i l IH]; intros req ev A; cbn [foldl].
  - intros [= <- <- <-]. exists []. rewrite app_nil_r. by destruct A.
  - destruct (join lib c cb (req, (ev, A)) i) as [req1 [ev1 A1]] eqn:Hj. apply join_spec in Hj as (new1 & -> & HA1 & Hm1 & Hn1).
    intros (new2 & -> & HA2 & Hm2 & Hn2)%IH. exists (new1 ++ new2). rewrite app_assoc. split; [done|]. split; [rewrite HA2, HA1; by destruct A|].
    split; [auto|]. apply Forall_app. split; [|done]. eapply Forall_impl; [exact Hn1|]. intros e. by apply adding_mono.
Qed.
(** What it does to an adapter. *)
Lemma added_keeps (Q : AnyAdapter -> Prop) c A new ad i : Forall (adding c A) new -> (forall cb a, Q a -> Q (any_add c cb a)) -> Q (ad i) -> Q (foldl deliver ad new i).
Proof.
  intros Hn HQ. revert ad. induction Hn as [|e new He _ IH]; intros ad Ha; [done|]. cbn [foldl]. apply IH.
  destruct e; cbn; try done. unfold on_adapter. cbn in He. destruct He as [-> _]. case_decide; [by subst; apply HQ|done].
Qed.
Lemma added_unloaded c A new ad i : Forall (adding c A) new -> interface A i = false -> foldl deliver ad new i = ad i.
Proof.
  intros Hn Hi. revert ad. induction Hn as [|e new He _ IH]; intros ad; [done|]. cbn [foldl]. rewrite IH.
  destruct e; cbn; try done. unfold on_adapter. cbn in He. destruct He as [-> He]. case_decide; [congruence|done].
Qed.
Lemma added_framework c A new b : Forall (adding c A) new -> foldl framework_after b new = b.
Proof. intros Hn. induction Hn as [|e new He _ IH]; [done|]. by destruct e. Qed.

Lemma enrol w c cb new A f dl : orderly w -> c ∈ w_held w \/ c ∉ objects (w_api w) -> Forall (adding c A) new ->
  clientData A = <[c := cb]> (clientData (w_api w)) -> destroyClientData A = destroyClientData (w_api w) -> objects A = {[c]} ∪ objects (w_api w) ->
  (forall i, interface (w_api w) i = true -> interface A i = true) ->
  gOSFrameworkRefCount A = Z.of_nat (base.size (clientData A)) -> Z.of_nat (base.size (clientData A)) < 2 ^ 32 -> f = true ->
  orderly (MkWorld A (foldl deliver (w_adapter w) new) ({[c]} ∪ w_held w) (w_leaked w) f dl).
Proof.
  intros [Hpl Hun Hct Hfw] Hc Hnew Hcd Hdd Hob Hif Hrc Hsz ->.
  split; cbn [w_api w_adapter w_held w_leaked w_framework].
  - intros d. destruct (Hpl d) as [Ho Hd Hh Hw Hl Hg]. destruct (decide (d = c)) as [->|Hne].
    + assert (Hn : destroyClientData (w_api w) !! c = None /\ c ∉ w_leaked w /\ forall i, joined c (w_adapter w i)).
      { destruct Hc as [Hc|Hc]; [auto|]. assert (Hno := Hc). rewrite Ho in Hno. split; [|split].
        - destruct (destroyClientData (w_api w) !! c) eqn:E; [|done]. exfalso. apply Hno. eauto.
        - tauto.
        - intros i. apply absent_joined. auto. }
      destruct Hn as (Hn1 & Hn2 & Hn3). split; cbn [w_api w_adapter w_held w_leaked]; rewrite ?Hdd, ?Hob, ?Hcd.
      * set_solver.
      * rewrite lookup_insert_eq. split; [eauto|set_solver].
      * intros _. split; [done|]. split; [done|]. intros i. eapply added_keeps; [done|intros; by apply joined_add|done].
      * congruence.
      * done.
      * set_solver.
    + assert (Hkeep : forall i, (joined d (w_adapter w i) -> joined d (foldl deliver (w_adapter w) new i)) /\
        (absent d (w_adapter w i) -> absent d (foldl deliver (w_adapter w) new i)) /\ (removing d (w_adapter w i) -> removing d (foldl deliver (w_adapter w) new i))).
      { intros i. split; [|split]; intros H; (eapply added_keeps; [done| |exact H]); intros cb' a Ha; [by apply joined_add|by apply absent_add|].
        eapply removing_app; [apply queue_add| |done]. done. }
      split; cbn [w_api w_adapter w_held w_leaked]; rewrite ?Hdd, ?Hob, ?Hcd.
      * set_solver.
      * rewrite lookup_insert_ne by done. set_solver.
      * intros Hin. destruct Hh as (H1 & H2 & H3); [set_solver|]. split; [done|]. split; [done|]. intros i. by apply Hkeep.
      * intros x Hx. destruct (Hw x Hx) as (H1 & H2 & g & Hg1 & Hg2 & Hg3). split; [done|]. split; [done|]. exists g. split; [done|]. split; [done|].
        intros i. specialize (Hg3 i). destruct (g i); by apply Hkeep.
      * intros Hin i. destruct (Hl Hin i); [left|right]; by apply Hkeep.
      * intros Hin i. apply Hkeep, Hg. set_solver.
  - intros i Hi. rewrite (added_unloaded c A) by done. apply Hun. destruct (interface (w_api w) i) eqn:E; [|done]. rewrite Hif in Hi; done.
  - done.
  - symmetry. apply bool_decide_eq_true. rewrite Hcd. apply insert_non_empty.
Qed.

(** ** The steps *)
Lemma unchanged w : orderly w -> orderly (after w [] (w_api w) (w_held w) (w_leaked w)).
Proof. intros [Hp H1 H2 H3]. split; [|done..]. intros c. destruct (Hp c). by split. Qed.
Lemma created_adapters ad (b : bool) : foldl deliver ad (if b then [e_createOSFramework] else []) = ad.
Proof. by destruct b. Qed.
Lemma create_orderly w lib addr cb o ev A : orderly w -> addr ∉ objects (w_api w) -> Z.of_nat (base.size (clientData (w_api w))) < 2 ^ 32 - 1 ->
  createInstance lib addr cb (w_api w) = (o, (ev, A)) ->
  orderly (after w ev A (match o with Some c => {[c]} ∪ w_held w | None => w_held w end) (w_leaked w)).
Proof.
  intros Hw Ha Hsz. unfold createInstance. destruct (mandatory cb); cbn [negb].
  2:{ intros [= <- <- <-]. by apply unchanged. }
  destruct (foldl _ _ interfaces) as [req [ev1 A1]] eqn:Hj. intros [= <- <- <-]. apply joins_spec in Hj as (new & -> & HA1 & Hm & Hn).
  pose proof (f_equal clientData HA1) as Hf1. pose proof (f_equal destroyClientData HA1) as Hf2. pose proof (f_equal objects HA1) as Hf3.
  pose proof (f_equal gOSFrameworkRefCount HA1) as Hf4. clear HA1. cbn in Hf1, Hf2, Hf3, Hf4.
  cbn [interface load_failed set_refcount set_objects objects gOSFrameworkRefCount] in Hm.
  destruct (or_count _ Hw) as [Hrc Hlt]. assert (Hno : clientData (w_api w) !! addr = None).
  { destruct (or_place _ Hw addr) as [Ho Hd _ _ _ _]. destruct (clientData (w_api w) !! addr) eqn:E; [|done]. exfalso. apply Ha, Ho. left. apply Hd. eauto. }
  assert (Hs : base.size (<[addr := cb]> (clientData (w_api w))) = S (base.size (clientData (w_api w)))) by by apply map_size_insert_None.
  assert (Hrc1 : u32 (gOSFrameworkRefCount (w_api w) + 1) = Z.of_nat (base.size (clientData (w_api w))) + 1) by (rewrite Hrc; apply wrap_id; lia).
  cbn [gOSFrameworkRefCount set_refcount set_objects]. rewrite Hrc1 in *.
  assert (Hfr : foldl framework_after (w_framework w) ((if 1 =? Z.of_nat (base.size (clientData (w_api w))) + 1 then [e_createOSFramework] else []) ++ new) = true).
  { rewrite foldl_app, (added_framework addr A1) by done. destruct (Z.eqb_spec 1 (Z.of_nat (base.size (clientData (w_api w))) + 1)) as [|Hne]; [done|]. cbn.
    rewrite (or_framework _ Hw). apply bool_decide_eq_true. intros He. rewrite He in Hne. done. }
  unfold after. rewrite Hfr, foldl_app.
  rewrite created_adapters.
  apply (enrol w addr cb new); cbn; rewrite ?Hf1, ?Hf2, ?Hf3, ?Hf4; try done; [by right|rewrite Hs; lia|rewrite Hs; lia].
Qed.
Lemma update_orderly w lib this cb ev A : orderly w -> this ∈ w_held w -> updateCallbacks lib this cb (w_api w) = (ev, A) ->
  orderly (after w ev A (w_held w) (w_leaked w)).
Proof.
  intros Hw Hh. unfold updateCallbacks. destruct (mandatory cb); cbn [negb].
  2:{ intros [= <- <-]. by apply unchanged. }
  destruct (foldl _ _ interfaces) as [req [ev1 A1]] eqn:Hj. intros [= <- <-]. apply joins_spec in Hj as (new & -> & HA1 & Hm & Hn). cbn [app].
  pose proof (f_equal clientData HA1) as Hf1. pose proof (f_equal destroyClientData HA1) as Hf2. pose proof (f_equal objects HA1) as Hf3.
  pose proof (f_equal gOSFrameworkRefCount HA1) as Hf4. clear HA1. cbn in Hf1, Hf2, Hf3, Hf4.
  destruct (or_place _ Hw this) as [Ho Hd _ _ _ _]. destruct (or_count _ Hw) as [Hrc Hlt].
  assert (Hs : base.size (<[this := cb]> (clientData (w_api w))) = base.size (clientData (w_api w))) by (apply map_size_insert_Some; by apply Hd).
  unfold after. rewrite (added_framework this A1) by done.
  replace (w_held w) with ({[this]} ∪ w_held w) by set_solver.
  apply (enrol w this cb new); cbn; rewrite ?Hf1, ?Hf2, ?Hf3, ?Hf4; try done; try (by left); rewrite ?Hs; try done.
  - apply set_eq. set_solver.
  - rewrite (or_framework _ Hw). apply bool_decide_eq_true. intros He. rewrite He in Hd. apply Hd in Hh as [? ?]. done.
Qed.
Lemma delivered_removes w c A j :
  foldl deliver (w_adapter w) ((fun i => e_removeClient i c) <$> filter (fun i => interface A i = true) interfaces) j =
  if interface A j then any_remove c (w_adapter w j) else w_adapter w j.
Proof.
  unfold interfaces. rewrite !filter_cons, filter_nil.
  destruct (interface A GnssInterface) eqn:E1, (interface A BatchingInterface) eqn:E2, (interface A GeofenceInterface) eqn:E3; destruct j; cbn; by rewrite ?E1, ?E2, ?E3.
Qed.
Lemma destroy_cases this cb A cbs : clientData A !! this = Some cbs ->
  let need := existsb (interface A) interfaces in
  let ev := ((fun i => e_removeClient i this) <$> filter (fun i => interface A i = true) interfaces) ++ (if 1 =? gOSFrameworkRefCount A then [e_destroyOSFramework] else []) in
  let A1 := set_refcount (u32 (gOSFrameworkRefCount A - 1)) (set_clientData (delete this)
    (if cb && need then set_destroyData (insert this (MkDestroyData (wait_mask A) true)) A else A)) in
  destroy this cb A = if need then Some (ev, A1) else if cb then Some (ev ++ [e_delete this], deleteThis this A1) else None.
Proof.
  intros Hc. cbn zeta. unfold destroy. rewrite Hc. destruct (existsb (interface A) interfaces), cb; cbn [andb negb gOSFrameworkRefCount set_clientData set_destroyData interface completed mbind option_bind];
    destruct (1 =? gOSFrameworkRefCount A); rewrite ?app_nil_r; reflexivity.
Qed.

Ltac open_place := cbn [w_api w_adapter w_held w_leaked objects destroyClientData clientData set_refcount set_clientData set_destroyData deleteThis set_objects].
Section Destroy.
Context (w : World) (this : Z) (Hw : orderly w) (Hh : this ∈ w_held w).
Abbreviation loaded := ((fun i => e_removeClient i this) <$> filter (fun i => interface (w_api w) i = true) interfaces).
Abbreviation ad := (foldl deliver (w_adapter w) loaded).
Abbreviation left_data := (delete this (clientData (w_api w))).

Lemma destroyed_other d j : d <> this ->
  (joined d (w_adapter w j) -> joined d (ad j)) /\ (absent d (w_adapter w j) -> absent d (ad j)) /\ (removing d (w_adapter w j) -> removing d (ad j)).
Proof.
  intros Hne. rewrite delivered_removes. destruct (interface (w_api w) j); [|tauto].
  split; [apply joined_remove; congruence|]. split; [apply absent_remove; congruence|]. eapply removing_app; [apply queue_remove|cbn; congruence].
Qed.
Lemma destroyed_this j : if interface (w_api w) j then removing this (ad j) else absent this (ad j).
Proof.
  rewrite delivered_removes. destruct (interface (w_api w) j) eqn:E.
  - apply removing_removed. by apply (pl_held _ _ (or_place _ Hw this) Hh).
  - destruct (or_unloaded _ Hw j E) as [H1 H2]. split; [by rewrite H1|by rewrite H2].
Qed.
Lemma destroyed_count : Z.of_nat (base.size (clientData (w_api w))) = Z.of_nat (base.size left_data) + 1 /\
  u32 (gOSFrameworkRefCount (w_api w) - 1) = Z.of_nat (base.size left_data).
Proof.
  destruct (or_count _ Hw) as [Hrc Hlt]. destruct (proj1 (pl_data _ _ (or_place _ Hw this)) Hh) as [cbs Hcd].
  assert (Hs : base.size (clientData (w_api w)) = S (base.size left_data)).
  { rewrite map_size_delete_Some by eauto. destruct (base.size (clientData (w_api w))) eqn:E; [|done]. apply map_size_empty_iff in E. by rewrite E in Hcd. }
  split; [lia|]. rewrite Hrc. unfold wrap. rewrite Z.mod_small; lia.
Qed.
Lemma destroyed_framework l : Forall (fun e => e = e_delete this) l ->
  foldl framework_after (w_framework w) ((loaded ++ (if 1 =? gOSFrameworkRefCount (w_api w) then [e_destroyOSFramework] else [])) ++ l) = bool_decide (left_data <> ∅).
Proof.
  intros Hl. rewrite !foldl_app. assert (forall b, foldl framework_after b l = b) as -> by (induction Hl as [|e l -> _ IH]; [done|exact IH]).
  assert (forall b js, foldl framework_after b ((fun i => e_removeClient i this) <$> js) = b) as -> by (intros b js; revert b; by induction js).
  destruct destroyed_count as [Hc _]. rewrite (or_framework _ Hw), (proj1 (or_count _ Hw)). destruct (Z.eqb_spec 1 (Z.of_nat (base.size (clientData (w_api w))))) as [He|He]; cbn.
  - symmetry. apply bool_decide_eq_false. intros Hne. apply Hne, map_size_empty_iff. lia.
  - rewrite !bool_decide_eq_true_2; [done| |]; intros Hx; apply map_size_empty_iff in Hx; lia.
Qed.
Lemma destroyed_adapters (b : bool) l : Forall (fun e => e = e_delete this) l ->
  foldl deliver (w_adapter w) ((loaded ++ (if b then [e_destroyOSFramework] else [])) ++ l) = ad.
Proof. intros Hl. rewrite !foldl_app. assert (forall x, foldl deliver x l = x) as -> by (induction Hl as [|e l -> _ IH]; [done|exact IH]). by destruct b. Qed.

(** The object is gone, waits, or has leaked; nothing else changes. *)
Lemma destroyed_orderly A leaked f dl : clientData A = left_data -> interface A = interface (w_api w) ->
  gOSFrameworkRefCount A = Z.of_nat (base.size left_data) -> f = bool_decide (left_data <> ∅) ->
  (forall d, d <> this -> (d ∈ objects A <-> d ∈ objects (w_api w)) /\ destroyClientData A !! d = destroyClientData (w_api w) !! d /\ (d ∈ leaked <-> d ∈ w_leaked w)) ->
  place (MkWorld A ad (w_held w ∖ {[this]}) leaked f dl) this ->
  orderly (MkWorld A ad (w_held w ∖ {[this]}) leaked f dl).
Proof.
  intros Hcd Hif Hrc -> Hd Hpl. destruct destroyed_count as [Hc _], (or_count _ Hw) as [_ Hlt]. split; cbn [w_api w_adapter w_held w_leaked w_framework].
  - intros d. destruct (decide (d = this)) as [->|Hne]; [done|]. destruct (or_place _ Hw d) as [Ho Hdd Hhd Hwt Hl Hg], (Hd d Hne) as (E1 & E2 & E3).
    split; cbn [w_api w_adapter w_held w_leaked]; rewrite ?E1, ?E2, ?E3, ?Hcd.
    + set_solver.
    + rewrite lookup_delete_ne by done. set_solver.
    + intros Hin. destruct Hhd as (H1 & H2 & H3); [set_solver|]. split; [done|]. split; [tauto|]. intros j. by apply destroyed_other.
    + intros x Hx. destruct (Hwt x Hx) as (H1 & H2 & g & Hg1 & Hg2 & Hg3). split; [tauto|]. split; [done|]. exists g. split; [done|]. split; [done|].
      intros j. specialize (Hg3 j). destruct (g j); by apply destroyed_other.
    + intros Hin j. destruct (Hl Hin j); [left|right]; by apply destroyed_other.
    + intros Hin j. by apply destroyed_other, Hg.
  - intros j. rewrite Hif. intros Hj. rewrite delivered_removes, Hj. by apply Hw.
  - rewrite Hcd, Hrc. split; [done|lia].
  - by rewrite Hcd.
Qed.
Lemma destroy_orderly cb ev A : destroy this cb (w_api w) = Some (ev, A) ->
  orderly (after w ev A (w_held w ∖ {[this]}) (if negb cb && existsb (interface (w_api w)) interfaces then {[this]} ∪ w_leaked w else w_leaked w)).
Proof.
  pose proof (or_place _ Hw this) as Hp. destruct (proj1 (pl_data _ _ Hp) Hh) as [cbs Hcd]. destruct (pl_held _ _ Hp Hh) as (Hnd & Hnl & _).
  destruct destroyed_count as [_ Hrc]. assert (Hob : this ∈ objects (w_api w)) by (apply (pl_object _ _ Hp); by left).
  rewrite (destroy_cases _ _ _ _ Hcd). destruct (existsb (interface (w_api w)) interfaces) eqn:Hneed; [destruct cb|destruct cb; [|done]]; cbn [negb andb]; intros [= <- <-]; unfold after.
  - rewrite <- (app_nil_r (loaded ++ _)), destroyed_adapters, destroyed_framework by done. apply destroyed_orderly; try done.
    + intros d Hne. cbn. by rewrite lookup_insert_ne.
    + split; open_place; rewrite ?lookup_insert_eq, ?lookup_delete_eq; try set_solver.
      intros d [= <-]. split; [done|]. split; [done|]. exists (interface (w_api w)). split; [done|]. split; [by apply exists_interface|apply destroyed_this].
  - rewrite <- (app_nil_r (loaded ++ _)), destroyed_adapters, destroyed_framework by done. apply destroyed_orderly; try done.
    + intros d Hne. cbn. set_solver.
    + split; open_place; rewrite ?Hnd, ?lookup_delete_eq; try set_solver.
      intros _ j. pose proof (destroyed_this j) as Hj. destruct (interface (w_api w) j); auto.
  - rewrite destroyed_adapters, destroyed_framework by by constructor. apply destroyed_orderly; try done.
    + intros d Hne. cbn. set_solver.
    + assert (Hno : forall j, interface (w_api w) j = false).
      { intros j. destruct (interface (w_api w) j) eqn:E; [|done]. assert (existsb (interface (w_api w)) interfaces = true); [apply exists_interface; eauto|congruence]. }
      split; open_place; rewrite ?Hnd, ?lookup_delete_eq; try set_solver.
      intros _ j. pose proof (destroyed_this j) as Hj. by rewrite Hno in Hj.
Qed.
End Destroy.

(** ** An adapter goes on *)
Lemma set_adapter_at i a w j : w_adapter (set_adapter i a w) j = if decide (j = i) then a else w_adapter w j.
Proof. reflexivity. Qed.
Lemma known_object w c i : orderly w -> ~ absent c (w_adapter w i) -> c ∈ objects (w_api w).
Proof. intros Hw Ha. destruct (decide (c ∈ objects (w_api w))) as [|Hn]; [done|]. exfalso. apply Ha. by apply (pl_gone _ _ (or_place _ Hw c)). Qed.
Lemma head_not_absent c a q : queue_of a = remove_client c :: q -> ~ absent c a.
Proof. intros Hq [_ H]. rewrite Hq in H. apply Forall_cons in H as [H _]. by apply H. Qed.
Lemma complete_defined w i r a : orderly w -> any_step (w_adapter w i) r a -> is_Some (complete i r (w_api w)).
Proof.
  intros Hw Hs. apply any_step_law in Hs as [(-> & _)|[(c & -> & _)|(c & -> & Hq & _)]]; [by eexists..|]. cbn.
  pose proof (known_object w c i Hw (head_not_absent _ _ _ Hq)) as Hob. unfold onRemoveClientCompleteCb. rewrite decide_True by done.
  destruct (destroyClientData (w_api w) !! c) as [d|] eqn:Hd; [|by eexists]. destruct (pl_waits _ _ (or_place _ Hw c) d Hd) as (_ & -> & _).
  case_match; cbn; by eexists.
Qed.

(** A step that changes one adapter, and of the objects at most one that it was asked to
    remove. *)
Lemma adapter_orderly w i a A f dl (r : option Z) : orderly w ->
  (forall c, joined c (w_adapter w i) -> joined c a) ->
  (forall c, absent c (w_adapter w i) -> r <> Some c /\ absent c a) ->
  (forall c, removing c (w_adapter w i) -> if decide (r = Some c) then absent c a else removing c a) ->
  (interface (w_api w) i = false -> clients_of a = ∅ /\ queue_of a = []) ->
  clientData A = clientData (w_api w) -> interface A = interface (w_api w) -> gOSFrameworkRefCount A = gOSFrameworkRefCount (w_api w) -> f = w_framework w ->
  (forall d, r <> Some d -> (d ∈ objects A <-> d ∈ objects (w_api w)) /\ destroyClientData A !! d = destroyClientData (w_api w) !! d) ->
  (forall d, r = Some d -> place (MkWorld A (on_adapter i (fun _ => a) (w_adapter w)) (w_held w) (w_leaked w) f dl) d) ->
  orderly (MkWorld A (on_adapter i (fun _ => a) (w_adapter w)) (w_held w) (w_leaked w) f dl).
Proof.
  intros Hw Hj Ha Hr Hun Hcd Hif Hrc -> Hd Hpl. split; open_place; cbn [w_framework].
  - intros d. destruct (decide (r = Some d)) as [He|Hne]; [by apply Hpl|]. destruct (Hd d Hne) as [E1 E2]. destruct (or_place _ Hw d) as [Ho Hdd Hhd Hwt Hl Hg].
    assert (Hj' : forall j, joined d (w_adapter w j) -> joined d (on_adapter i (fun _ => a) (w_adapter w) j)) by (intros j; unfold on_adapter; case_decide; [subst; auto|auto]).
    assert (Ha' : forall j, absent d (w_adapter w j) -> absent d (on_adapter i (fun _ => a) (w_adapter w) j)) by (intros j; unfold on_adapter; case_decide; [subst; apply Ha|auto]).
    assert (Hr' : forall j, removing d (w_adapter w j) -> removing d (on_adapter i (fun _ => a) (w_adapter w) j)).
    { intros j Hx. unfold on_adapter. case_decide; [|done]. subst. specialize (Hr d Hx). by rewrite decide_False in Hr. }
    split; open_place; rewrite ?E1, ?E2, ?Hcd; try done.
    + intros Hin. destruct (Hhd Hin) as (H1 & H2 & H3). auto.
    + intros x Hx. destruct (Hwt x Hx) as (H1 & H2 & g & Hg1 & Hg2 & Hg3). split; [done|]. split; [done|]. exists g. split; [done|]. split; [done|].
      intros j. specialize (Hg3 j). destruct (g j); auto.
    + intros Hin j. destruct (Hl Hin j); auto.
    + intros Hin j. auto.
  - intros j. rewrite Hif. unfold on_adapter. case_decide; [subst; auto|]. apply Hw.
  - rewrite Hcd, Hrc. apply Hw.
  - rewrite Hcd. apply Hw.
Qed.
(** The removed client was waited for by this adapter, or has leaked. *)
Lemma removed_place w i d a A f dl : orderly w -> queue_of (w_adapter w i) = remove_client d :: queue_of a -> clients_of a = clients_of (w_adapter w i) ∖ {[d]} ->
  (exists ev, complete i (Some d) (w_api w) = Some (ev, A)) ->
  place (MkWorld A (on_adapter i (fun _ => a) (w_adapter w)) (w_held w) (w_leaked w) f dl) d /\
  (forall c, c <> d -> (c ∈ objects A <-> c ∈ objects (w_api w)) /\ destroyClientData A !! c = destroyClientData (w_api w) !! c) /\
  clientData A = clientData (w_api w) /\ interface A = interface (w_api w) /\ gOSFrameworkRefCount A = gOSFrameworkRefCount (w_api w).
Proof.
  intros Hw Hq Hcl [ev Hc]. destruct (or_place _ Hw d) as [Ho Hdd Hhd Hwt Hl Hg]. pose proof (known_object w d i Hw (head_not_absent _ _ _ Hq)) as Hob.
  assert (Hnh : d ∉ w_held w) by (intros Hin; destruct (Hhd Hin) as (_ & _ & H3); apply (H3 i); rewrite Hq; left).
  assert (Hai : absent d (w_adapter w i) -> False) by exact (head_not_absent _ _ _ Hq).
  assert (Hri : removing d (w_adapter w i) -> absent d a).
  { intros Hr. destruct (taken_remove d d _ _ Hq Hcl) as (_ & _ & H). specialize (H Hr). by rewrite decide_True in H. }
  cbn in Hc. unfold onRemoveClientCompleteCb in Hc. rewrite decide_True in Hc by done.
  destruct (destroyClientData (w_api w) !! d) as [x|] eqn:Hx.
  - destruct (Hwt x eq_refl) as (Hnl & Hcb & g & Hm & _ & Hall). set (g' := fun j => g j && negb (bool_decide (j = i))).
    assert (Hall' : forall j, if g' j then removing d (on_adapter i (fun _ => a) (w_adapter w) j) else absent d (on_adapter i (fun _ => a) (w_adapter w) j)).
    { intros j. unfold g', on_adapter. specialize (Hall j). destruct (decide (j = i)) as [->|Hne].
      - rewrite bool_decide_eq_true_2, andb_false_r by done. destruct (g i); [auto|by apply Hai in Hall].
      - rewrite bool_decide_eq_false_2, andb_true_r by done. done. }
    rewrite Hm, mask_of_remove, mask_of_zero in Hc. fold g' in Hc. destruct (existsb g' interfaces) eqn:Hg'; cbn [negb] in Hc.
    + injection Hc as _ <-. split; [|split; [intros c Hne; cbn; by rewrite lookup_insert_ne|done]].
      split; open_place; rewrite ?lookup_insert_eq; try done; [rewrite Ho; split; [eauto|intros [|[|]]; eauto]|].
      intros y [= <-]. split; [done|]. split; [done|]. exists g'. split; [done|]. split; [by apply exists_interface|done].
    + rewrite Hcb in Hc. cbn in Hc. injection Hc as _ <-. split; [|split; [intros c Hne; cbn; rewrite lookup_delete_ne by done; set_solver|done]].
      assert (Hg0 : forall j, g' j = false).
      { intros j. destruct (g' j) eqn:E; [|done]. assert (existsb g' interfaces = true); [apply exists_interface; eauto|congruence]. }
      split; open_place; rewrite ?lookup_delete_eq; try done; [split; [set_solver|intros [|[[? ?]|]]; done]|].
      intros _ j. specialize (Hall' j). by rewrite Hg0 in Hall'.
  - injection Hc as _ <-. split; [|done]. assert (Hlk : d ∈ w_leaked w) by (apply Ho in Hob as [|[[? ?]|]]; done).
    split; open_place; try done; [by rewrite Hx|by rewrite Hx|].
    intros _ j. unfold on_adapter. case_decide; [|by apply Hl]. subst. right. destruct (Hl Hlk i) as [Hr|Hr]; [auto|by apply Hai in Hr].
Qed.
Lemma deleted_only ev A i r B : complete i r A = Some (ev, B) -> foldl framework_after true ev = true /\ foldl framework_after false ev = false /\ forall ad, foldl deliver ad ev = ad.
Proof.
  destruct r as [c|]; cbn; [|by intros [= <- <-]]. unfold onRemoveClientCompleteCb, completed. repeat case_match; cbn; try done; by intros [= <- <-].
Qed.
Lemma step_orderly w w' : orderly w -> step w w' -> orderly w'.
Proof.
  intros Hw Hs. destruct Hs as [w lib addr cb o ev A Ha Hsz Hc|w lib this cb ev A Hh Hu|w this cb ev A Hh Hd|w i r a ev A Ha Hc|w lib cb new o ev A Hc|w].
  - by eapply create_orderly.
  - by eapply update_orderly.
  - by eapply destroy_orderly.
  - unfold after. cbn [set_adapter w_adapter w_held w_leaked w_framework w_deleted].
    destruct (deleted_only _ _ _ _ _ Hc) as (Hf1 & Hf2 & Had). rewrite Had. assert (foldl framework_after (w_framework w) ev = w_framework w) as -> by by destruct (w_framework w).
    pose proof (or_unloaded _ Hw i) as Hun. apply any_step_law in Ha as [(-> & Hq & Hcl)|[(c & -> & Hq & Hcl)|(c & -> & Hq & Hcl)]].
    + injection Hc as <- <-. eapply (adapter_orderly w i a _ _ _ None); try done.
      * intros c. unfold joined. by rewrite Hq.
      * intros c Hx. split; [done|]. by apply (absent_ext _ _ _ Hq Hcl).
      * intros c Hx. by apply (removing_ext _ _ _ Hq).
      * by rewrite Hq, Hcl.
    + injection Hc as <- <-. eapply (adapter_orderly w i a _ _ _ None); try done.
      * intros d. by apply (taken_add d c).
      * intros d Hx. split; [done|]. by apply (taken_add d c _ _ Hq Hcl).
      * intros d Hx. by apply (taken_add d c _ _ Hq Hcl).
      * intros Hi. destruct (Hun Hi) as [_ Hq0]. rewrite Hq0 in Hq. done.
    + destruct (removed_place w i c a A (w_framework w) (w_deleted w ++ deleted ev) Hw Hq Hcl) as (Hp & Ho & H1 & H2 & H3); [by exists ev|].
      apply (adapter_orderly w i a A _ _ (Some c)); try done.
      * intros d. by apply (taken_remove d c).
      * intros d Hx. destruct (taken_remove d c _ _ Hq Hcl) as (_ & H & _). destruct (H Hx) as [Hne ?]. split; [congruence|done].
      * intros d Hx. destruct (taken_remove d c _ _ Hq Hcl) as (_ & _ & H). specialize (H Hx). destruct (decide (d = c)) as [->|]; [by rewrite decide_True|]. by rewrite decide_False by congruence.
      * intros Hi. destruct (Hun Hi) as [_ Hq0]. rewrite Hq0 in Hq. done.
      * intros d Hne. apply Ho. congruence.
      * by intros d [= <-].
  - unfold createControl in Hc. destruct (cb && _); [|injection Hc as <- <- <-; by apply unchanged].
    destruct (load lib GnssInterface (w_api w)) as [ev1 A1] eqn:Hl. apply load_spec in Hl as (HA & Hm & Hev).
    assert (Hq : forall l, l = [] \/ l = [e_control ctrl_setControlCallbacks] -> foldl deliver (w_adapter w) (ev1 ++ l) = w_adapter w /\ foldl framework_after (w_framework w) (ev1 ++ l) = w_framework w).
    { intros l Hl. rewrite !foldl_app. assert (foldl deliver (w_adapter w) ev1 = w_adapter w) as ->.
      { clear -Hev. induction Hev as [|e ev1 -> _ IH]; [done|exact IH]. }
      assert (foldl framework_after (w_framework w) ev1 = w_framework w) as ->; [|by destruct Hl as [-> | ->]].
      clear -Hev. induction Hev as [|e ev1 -> _ IH]; [done|exact IH]. }
    assert (Hfin : forall A l, l = [] \/ l = [e_control ctrl_setControlCallbacks] -> (A = A1 \/ A = set_control (Some new) A1) -> orderly (after w (ev1 ++ l) A (w_held w) (w_leaked w))).
    { intros A' l Hl HA'. unfold after. destruct (Hq l Hl) as [-> ->].
      pose proof (f_equal clientData HA) as Hf1. pose proof (f_equal destroyClientData HA) as Hf2. pose proof (f_equal objects HA) as Hf3. pose proof (f_equal gOSFrameworkRefCount HA) as Hf4.
      clear HA. cbn in Hf1, Hf2, Hf3, Hf4. destruct Hw as [Hp Hu Hr Hf].
      assert (clientData A' = clientData (w_api w) /\ destroyClientData A' = destroyClientData (w_api w) /\ objects A' = objects (w_api w) /\
        gOSFrameworkRefCount A' = gOSFrameworkRefCount (w_api w) /\ interface A' = interface A1) as (E1 & E2 & E3 & E4 & E5) by (by destruct HA' as [-> | ->]).
      split; open_place; cbn [w_framework]; rewrite ?E1, ?E4; try done.
      - intros c. destruct (Hp c). by split; open_place; rewrite ?E1, ?E2, ?E3.
      - intros i. rewrite E5. intros Hi. apply Hu. destruct (interface (w_api w) i) eqn:E; [|done]. rewrite Hm in Hi; done. }
    destruct (interface A1 GnssInterface); injection Hc as <- <- <-; [apply Hfin; auto|]. rewrite <- (app_nil_r ev1). apply Hfin; auto.
  - destruct Hw as [Hp Hu Hr Hf]. split; open_place; try done. intros c. destruct (Hp c). by split.
Qed.
Lemma initial_orderly w : initial w -> orderly w.
Proof.
  destruct w as [A ad h l f dl]. intros (HA & Had & Hh & Hl & Hf & Hd). cbn in *. subst. split; open_place; try done.
  intros c. split; open_place; cbn; rewrite ?lookup_empty.
  - split; [set_solver|intros [|[[? ?]|]]; set_solver].
  - split; [set_solver|intros [? ?]; done].
  - by intros ?%not_elem_of_empty.
  - done.
  - by intros ?%not_elem_of_empty.
  - intros _ i. destruct (Had i) as [H1 H2]. split; [by rewrite H1|by rewrite H2].
Qed.
Lemma reachable_orderly w : reachable w -> orderly w.
Proof. intros (w0 & Hi & Hs). apply initial_orderly in Hi. induction Hs; eauto using step_orderly. Qed.

(** ** Objects and adapters *)
Lemma deleted_adding c A new : Forall (adding c A) new -> deleted new = [].
Proof. induction 1 as [|e new He _ IH]; [done|]. by destruct e. Qed.
Lemma deleted_app ev ev' : deleted (ev ++ ev') = deleted ev ++ deleted ev'.
Proof. apply omap_app. Qed.
Lemma deleted_removes c (l : list Interface) : deleted ((fun i => e_removeClient i c) <$> l) = [].
Proof. by induction l. Qed.
Lemma deletions w w' : orderly w -> step w w' -> exists l, w_deleted w' = w_deleted w ++ l /\ NoDup l /\ forall c, c ∈ l -> c ∈ objects (w_api w) /\ c ∉ objects (w_api w').
Proof.
  intros Hw Hs. assert (Hnil : forall A ev, deleted ev = [] -> exists l, w_deleted w ++ deleted ev = w_deleted w ++ l /\ NoDup l /\
    forall c, c ∈ l -> c ∈ objects (w_api w) /\ c ∉ objects A) by (intros A ev ->; exists []; split; [done|]; split; [constructor|by intros ? ?%elem_of_nil]).
  destruct Hs as [w lib addr cb o ev A Ha Hsz Hc|w lib this cb ev A Hh Hu|w this cb ev A Hh Hd|w i r a ev A Ha Hc|w lib cb new o ev A Hc|w]; cbn [after w_deleted w_api].
  - unfold createInstance in Hc. destruct (mandatory cb); [|injection Hc as <- <- <-; by apply Hnil]. cbn [negb] in Hc.
    destruct (foldl _ _ interfaces) as [req [ev1 A1]] eqn:Hj. injection Hc as <- <- <-. apply joins_spec in Hj as (new & -> & _ & _ & Hn). apply Hnil. 
    rewrite deleted_app, (deleted_adding _ _ _ Hn). by repeat case_match.
  - unfold updateCallbacks in Hu. destruct (mandatory cb); [|injection Hu as <- <-; by apply Hnil]. cbn [negb] in Hu.
    destruct (foldl _ _ interfaces) as [req [ev1 A1]] eqn:Hj. injection Hu as <- <-. apply joins_spec in Hj as (new & -> & _ & _ & Hn). apply Hnil. by rewrite app_nil_l, (deleted_adding _ _ _ Hn).
  - destruct (proj1 (pl_data _ _ (or_place _ Hw this)) Hh) as [cbs Hcd]. rewrite (destroy_cases this cb _ _ Hcd) in Hd. destruct (existsb _ _).
    + injection Hd as <- <-. apply Hnil. rewrite deleted_app, (deleted_removes this). by repeat case_match.
    + destruct cb; [|done]. injection Hd as <- <-. exists [this]. rewrite !deleted_app, (deleted_removes this). split; [by repeat case_match|]. split; [apply NoDup_singleton|].
      intros c ->%list_elem_of_singleton. split; [apply (pl_object _ _ (or_place _ Hw this)); by left|cbn; set_solver].
  - destruct r as [c|]; cbn in Hc; [|injection Hc as <- <-; by apply Hnil]. unfold onRemoveClientCompleteCb in Hc. destruct (decide _) as [Hin|]; [|done].
    destruct (destroyClientData (w_api w) !! c) as [d|]; [|injection Hc as <- <-; by apply Hnil]. destruct (_ =? 0); [|injection Hc as <- <-; by apply Hnil].
    unfold completed in Hc. destruct (destroyCompleteCb d); [|done]. cbn in Hc. injection Hc as <- <-. exists [c]. cbn. split; [done|]. split; [apply NoDup_singleton|].
    intros x ->%list_elem_of_singleton. split; [done|set_solver].
  - unfold createControl in Hc. destruct (cb && _); [|injection Hc as <- <- <-; by apply Hnil]. destruct (load lib GnssInterface (w_api w)) as [ev1 A1] eqn:Hl. apply load_spec in Hl as (_ & _ & Hev).
    assert (deleted ev1 = []) as H1 by (clear -Hev; induction Hev as [|e ev1 -> _ IH]; [done|exact IH]).
    destruct (interface A1 GnssInterface); injection Hc as <- <- <-; apply Hnil; by rewrite ?deleted_app, H1.
  - by apply Hnil.
Qed.
(** C32. Whatever applications do with their objects, and in whatever order the adapters go on:
    an adapter never completes the removal of an object that is deleted; whatever an adapter
    knows, or is about to learn or forget, is an object; an object is deleted once, when no
    adapter knows it any more, so that a new object at its address is not taken for it; and
    when the adapters are done, only the objects of applications, and those that were
    destroyed without a callback, are left. *)
Theorem objects_outlive_adapters w : reachable w ->
  (forall i r a, any_step (w_adapter w i) r a -> is_Some (complete i r (w_api w))) /\
  (forall i c, c ∈ clients_of (w_adapter w i) \/ Exists (fun m => about m = c) (queue_of (w_adapter w i)) -> c ∈ objects (w_api w)) /\
  (forall w', step w w' -> exists l, w_deleted w' = w_deleted w ++ l /\ NoDup l /\
     forall c, c ∈ l -> c ∈ objects (w_api w) /\ c ∉ objects (w_api w') /\ forall i, absent c (w_adapter w' i)) /\
  ((forall i, queue_of (w_adapter w i) = []) -> objects (w_api w) = w_held w ∪ w_leaked w /\ forall i, clients_of (w_adapter w i) ⊆ w_held w).
Proof.
  intros Hr. pose proof (reachable_orderly w Hr) as Hw. split; [intros i r a; by apply complete_defined|].
  assert (Hknown : forall i c, c ∈ clients_of (w_adapter w i) \/ Exists (fun m => about m = c) (queue_of (w_adapter w i)) -> c ∈ objects (w_api w)).
  { intros i c Hc. apply (known_object w c i Hw). intros [H1 H2]. destruct Hc as [Hc|Hc]; [done|]. apply Exists_exists in Hc as (m & Hm & He). rewrite Forall_forall in H2. by apply (H2 m). }
  split; [exact Hknown|]. split.
  - intros w' Hs. destruct (deletions w w' Hw Hs) as (l & Hl & Hnd & Hc). exists l. split; [done|]. split; [done|]. intros c Hin. destruct (Hc c Hin) as [H1 H2].
    split; [done|]. split; [done|]. apply (pl_gone _ _ (or_place _ (step_orderly _ _ Hw Hs) c)). done.
  - intros Hq. assert (Hnr : forall i c, removing c (w_adapter w i) -> False) by (intros i c (q1 & q2 & H & _); rewrite Hq in H; by destruct q1).
    assert (Hob : objects (w_api w) = w_held w ∪ w_leaked w).
    { apply set_eq. intros c. destruct (or_place _ Hw c) as [Ho _ _ Hwt _ _]. rewrite Ho, elem_of_union. split; [|tauto]. intros [|[[d Hd]|]]; [tauto| |tauto].
      destruct (Hwt d Hd) as (_ & _ & f & _ & [i Hi] & Hall). specialize (Hall i). rewrite Hi in Hall. by apply Hnr in Hall. }
    split; [done|]. intros i c Hc. assert (Hin : c ∈ objects (w_api w)) by (apply (Hknown i); by left). rewrite Hob in Hin. apply elem_of_union in Hin as [|Hlk]; [done|].
    destruct (pl_leaked _ _ (or_place _ Hw c) Hlk i) as [Hx|[Hx _]]; [by apply Hnr in Hx|done].
Qed.

(** The framework of the system is there exactly while applications have an object; it is
    counted by their number, through every creation, update and destruction. *)
Theorem framework_follows_clients w : reachable w ->
  w_framework w = bool_decide (w_held w <> ∅) /\ gOSFrameworkRefCount (w_api w) = Z.of_nat (base.size (w_held w)) /\ dom (clientData (w_api w)) = w_held w.
Proof.
  intros Hr. pose proof (reachable_orderly w Hr) as Hw. assert (Hd : dom (clientData (w_api w)) = w_held w).
  { apply set_eq. intros c. by rewrite elem_of_dom, (pl_data _ _ (or_place _ Hw c)). }
  rewrite <- Hd, size_dom. split; [|split; [apply Hw|done]]. rewrite (or_framework _ Hw). apply bool_decide_ext. by rewrite dom_empty_iff_L.
Qed.

(** ** Computed behaviours *)
Definition base_adapter : AnyAdapter := MkAdapter Base base_model new_base.
Definition geofence_adapter : AnyAdapter := MkAdapter GeofenceAdapter.Adapter geofence_model GeofenceAdapter.new_adapter.
Definition batching_adapter : AnyAdapter :=
  MkAdapter Batching.Batching Batching.batching_model (Batching.MkBatching (BatchingAdapter.new_adapter 10 10 0 1) (List.Forall_nil _)).
Definition start : World :=
  MkWorld new_api (fun i => match i with GeofenceInterface => geofence_adapter | BatchingInterface => batching_adapter | GnssInterface => base_adapter end) ∅ ∅ false [].
Lemma start_initial : initial start.
Proof. repeat split; by destruct i. Qed.
(** Callbacks of a client that wants locations and breaches of geofences. *)
Definition both_callbacks : LocationCallbacks := MkLocationCallbacks true true true false true false false false false false false false false false true false.
Definition no_callbacks : LocationCallbacks := MkLocationCallbacks true true true false false false false false false false false false false false false false.
Definition all_libs (i : Interface) : bool := true.
Definition created (addr : Z) (cb : LocationCallbacks) (w : World) : World :=
  let '(o, (ev, A)) := createInstance all_libs addr cb (w_api w) in after w ev A (match o with Some c => {[c]} ∪ w_held w | None => w_held w end) (w_leaked w).
Definition destroyed (this : Z) (cb : bool) (w : World) : World :=
  match destroy this cb (w_api w) with
  | Some (ev, A) => after w ev A (w_held w ∖ {[this]}) (if negb cb && existsb (interface (w_api w)) interfaces then {[this]} ∪ w_leaked w else w_leaked w)
  | None => w
  end.
Lemma created_reachable addr cb w : reachable w -> addr ∉ objects (w_api w) -> Z.of_nat (base.size (clientData (w_api w))) < 2 ^ 32 - 1 -> reachable (created addr cb w).
Proof.
  intros (w0 & Hi & Hs) Ha Hsz. exists w0. split; [done|]. eapply rtc_r; [exact Hs|]. unfold created.
  destruct (createInstance _ _ _ _) as [o [ev A]] eqn:E. by eapply step_create.
Qed.
Lemma destroyed_reachable this cb w : reachable w -> this ∈ w_held w -> reachable (destroyed this cb w).
Proof.
  intros (w0 & Hi & Hs) Hh. unfold destroyed. destruct (destroy _ _ _) as [[ev A]|] eqn:E; [|by exists w0]. exists w0. split; [done|].
  eapply rtc_r; [exact Hs|]. by eapply step_destroy.
Qed.
Lemma start_reachable : reachable start.
Proof. exists start. split; [apply start_initial|apply rtc_refl]. Qed.
Definition two_clients : World := created 200 both_callbacks (created 100 both_callbacks start).
Lemma two_clients_reachable : reachable two_clients.
Proof. apply created_reachable; [apply created_reachable; [apply start_reachable| |]| |]; vm_compute; try done; by intros ?%elem_of_nil. Qed.
Lemma objects_outlive_adapters_witness : reachable (destroyed 100 true two_clients) /\
  Exists (fun m => about m = 100) (queue_of (w_adapter (destroyed 100 true two_clients) GeofenceInterface)) /\ 100 ∈ objects (w_api (destroyed 100 true two_clients)).
Proof.
  assert (Hr : reachable (destroyed 100 true two_clients)).
  { apply destroyed_reachable; [apply two_clients_reachable|]. apply (bool_decide_unpack _). vm_compute. exact I. }
  split; [exact Hr|]. assert (He : Exists (fun m => about m = 100) (queue_of (w_adapter (destroyed 100 true two_clients) GeofenceInterface))) by (vm_compute; left; reflexivity).
  split; [exact He|]. destruct (objects_outlive_adapters _ Hr) as (_ & H & _). apply (H GeofenceInterface). right. exact He.
Defined.
Lemma framework_follows_clients_witness : reachable two_clients /\ gOSFrameworkRefCount (w_api two_clients) = Z.of_nat (base.size (w_held two_clients)) /\ w_framework two_clients = true.
Proof.
  split; [apply two_clients_reachable|]. destruct (framework_follows_clients _ two_clients_reachable) as (H1 & H2 & _). split; [exact H2|]. rewrite H1. vm_compute. reflexivity.
Defined.

(** ** Gaps *)
Lemma leaked_stays w w' : step w w' -> w_leaked w ⊆ w_leaked w'.
Proof. intros Hs. destruct Hs; cbn [after set_adapter w_leaked]; try done. case_match; set_solver. Qed.
Lemma leaked_forever w w' : reachable w -> rtc step w w' -> w_leaked w ⊆ objects (w_api w').
Proof.
  intros (w0 & Hi & Hs) Hs'. assert (Hr : reachable w') by (exists w0; split; [done|]; by etransitivity). pose proof (reachable_orderly _ Hr) as Hw.
  assert (Hl : w_leaked w ⊆ w_leaked w') by (clear -Hs'; induction Hs' as [|x y z Hs _ IH]; [done|]; etransitivity; [by apply leaked_stays|done]).
  intros c Hc. apply (pl_object _ _ (or_place _ Hw c)). right. right. by apply Hl.
Qed.
(** What goes wrong.  The callback of a destruction is never called, as the test for it is
    inverted; a destruction without one throws if no adapter is loaded, and otherwise its
    object is never deleted; and an object that is destroyed twice takes the framework from
    another application's. *)
Lemma destroy_gaps :
  (forall this cb A ev A', destroy this cb A = Some (ev, A') -> e_destroyComplete ∉ ev) /\
  (forall this bit A ev A', onRemoveClientCompleteCb this bit A = Some (ev, A') -> e_destroyComplete ∉ ev) /\
  (exists w this, reachable w /\ this ∈ w_held w /\ destroy this false (w_api w) = None) /\
  (exists w this, reachable w /\ this ∉ w_held w /\ forall w', rtc step w w' -> this ∈ objects (w_api w')) /\
  (exists w this ev A, reachable w /\ this ∈ objects (w_api w) /\ w_held w <> ∅ /\ destroy this true (w_api w) = Some (ev, A) /\ e_destroyOSFramework ∈ ev).
Proof.
  split; [|split; [|split; [|split]]].
  - intros this cb A ev A' H. unfold destroy, completed in H. repeat case_match; simplify_eq/=; rewrite ?elem_of_app, ?list_elem_of_fmap; naive_solver set_solver.
  - intros this bit A ev A' H. unfold onRemoveClientCompleteCb, completed in H. repeat case_match; simplify_eq/=; set_solver.
  - exists (created 100 no_callbacks start), 100. split; [|split; [|vm_compute; reflexivity]].
    + apply created_reachable; [apply start_reachable| |]; vm_compute; try done; by intros ?%elem_of_nil.
    + apply (bool_decide_unpack _). vm_compute. exact I.
  - exists (destroyed 100 false two_clients), 100. assert (Hr : reachable (destroyed 100 false two_clients)).
    { apply destroyed_reachable; [apply two_clients_reachable|]. apply (bool_decide_unpack _). vm_compute. exact I. }
    split; [exact Hr|]. split; [apply (bool_decide_eq_false _); vm_compute; reflexivity|]. intros w' Hs. apply (leaked_forever _ _ Hr Hs). apply (bool_decide_unpack _). vm_compute. exact I.
  - exists (destroyed 100 true two_clients), 100. eexists _, _. split; [|split; [|split; [|split]]].
    + apply destroyed_reachable; [apply two_clients_reachable|]. apply (bool_decide_unpack _). vm_compute. exact I.
    + apply (bool_decide_unpack _). vm_compute. exact I.
    + apply (bool_decide_eq_false _). vm_compute. reflexivity.
    + vm_compute. reflexivity.
    + left.
Qed.
